(* ===== verification/_CoqProject ===== *)
-Q . S2P
Prelude.v
Interfaces.v
Double.v
RbTree.v
RbRepr.v
RbInv.v
RbInsert.v
RbRemove.v
RbTest.v
Cfs.v
Cpu.v
Spinlock.v
Lst.v
Layout.v
PhysAlloc.v
Vm.v
VmWalk.v
VmMap.v
VmType.v
PageMap.v
Heap.v
Vmm.v
VmmAlloc.v
Teardown.v
Libc.v
Tty.v
Printf.v
Keyboard.v
Log.v
ThreadArray.v
Bytes.v
Multiboot.v
Acpi.v
Ioapic.v
Elf.v
Idt.v
Lapic.v
Timer.v
Process.v
Sched.v
ProcOps.v
Kvm.v
Dispatch.v
Load.v
Segments.v
Spawn.v
Startup.v
Boot.v
I386.v
