(* ===== verification/Prelude.v ===== *)
(** * Colibri OS: a verification library

    Colibri OS is a small kernel for x86-64, written in C.  This library
    models its C code as Rocq functions, translated function by function, and
    proves what the parts do alone and together.

    ** Modelling

    A C function is a function in the state and error monad [M S A] of this
    file, over the part [S] of the kernel's state it touches.  Its outcome is
    [Done], [Panic] (a call of [panic], which never returns), [Fault] (a
    dereference of a null or unmapped pointer, an index out of an array, a
    division by zero, a conversion of a double out of range) or [OutOfFuel]
    (a loop that did not end within its fuel).  Integers are [Z] with the
    wrap-around of their width written out: [x +64 y], [w32 x], [w8 x].
    Structures live in maps by address, so pointers are compared and aliased
    as in C; byte arrays, tables of the firmware and images are byte
    memories ([mem], [Libc]).  Doubles are exact fractions rounded as IEEE
    double precision does ([Double]).  Components are put together with
    [zoom], which runs an operation on a part of a larger state.

    Fuel.  Loops bounded by a data structure get its size as fuel (the nodes
    of the tree, the areas of an address space, the headers of the heap, the
    slots of an array); walks over pages get the number of pages.  The
    theorems prove that it suffices: they conclude [Done].  Only waits for
    other processors and devices take their fuel as an argument: the spin of
    [acquire] ([spins]), the wait for the delivery of an IPI, the polls of the
    timer.  There the theorems say how much is enough, or that no fuel is.

    Hardware and code outside the repository are parameters: type classes with
    the operations of a device ([Ports], [LapicDev], [HpetDev], [IoApicDev])
    and its documented behaviour ([LapicLaws]), the addresses of symbols of
    the linker script, the contents of fresh memory.  Every numbered theorem with a
    hypothesis has a witness on a concrete state.

    Interfaces ([Interfaces]) separate the components: the tree and the
    processes use the heap through [Allocator], the page tables and the
    address spaces use the page allocator through [PageAllocator], whose laws
    [PhysAlloc] proves for the real one; the terminal and the tables use
    [map_mmio] and [alloc] through [MemSource].

    ** Files, sources and results

    - [Prelude] (this file): outcomes, the monad, machine integers, tactics;
      [Interfaces]; [Double]; [Bytes]: little-endian fields and bit fields.
    - [RbTree], [RbRepr], [RbInv], [RbInsert], [RbRemove]: the red-black tree
      of kernel/scheduler/rb_tree.c with parent pointers.  [rb_insert] and
      [rb_remove] keep a red-black search tree and change it by exactly one
      entity; with three equal keys removal misses the leftmost.
      [RbTest]: tests/rb_tree_test.c and benchmarks/rb_tree_benchmark.c; the
      test passes whatever numbers are drawn, and what it does not see.
    - [Cfs]: kernel/scheduler/cfs.c.  The run queue refines a sorted list;
      time slices are exact.
    - [Cpu], [Spinlock]: push_off and pop_off of kernel/kernel.c and
      kernel/synchronization/spinlock.c, sequentially and as atomic steps of
      several processors: mutual exclusion by rule induction over all
      interleavings, and which processor can panic.
    - [Lst]: kernel/list.c is a double-ended queue.
    - [Layout], [Vm], [VmWalk], [VmMap]: memory_layout.h and
      arch/x86-64/memory/vm.c, four-level page tables.  mappages is all or
      nothing; updatepages changes the flags of its range only.  [VmType]: the
      tables stay typed under every operation.
    - [Kvm]: the set-up of memory at boot, kvminit.
    - [PhysAlloc]: arch/x86-64/memory/physical_allocator.c refines a stack of
      free pages.
    - [Heap]: kernel/memory/heap.c, first fit with splitting and merging.
    - [Vmm], [VmmAlloc]: kernel/memory/vmm.c, address spaces made of areas.
      [Teardown]: what vmm_destroy gives back, and the untouched page on
      which it crashes.
    - [Libc], [Printf], [Tty], [Keyboard]: memory, strings and integers of
      libc, formatted output, kernel/tty.c and kernel/driver/keyboard.  What
      is typed is what the screen shows.
    - [Log]: kernel/log.c, kernel/serial.c and kernel/debug/qemu.c.  A message
      is one line on the serial port.
    - [ThreadArray]: the growable array of kernel/process.c is a list.
    - [Multiboot], [Acpi], [Ioapic], [Elf]: the tables of the boot loader and
      of the firmware, the I/O interrupt controller, ELF images.
    - [Idt], [Lapic], [Timer]: gates and task state segment, the local
      interrupt controller, the clocks (interrupt.c, tss.c, apic.c, hpet.c,
      apic_timer.c, timer.c).
    - [Process], [Sched], [ProcOps]: kernel/process.c and
      kernel/scheduler/scheduler.c over the composed [machine].  A switch
      refines a step of the abstract run queue and keeps the invariant of the
      scheduler; no waiting thread starves; creating and starting threads.
    - [Dispatch]: interrupt_dispatch over the machine and the console; demand
      paging.  [Load]: the copy of a segment into user memory, page fault by
      page fault.  [Segments]: the loop over the segments of an ELF image
      leaves the program in memory, with its rights.  [Spawn]: create_process
      from the image to the process in the list, and what a refused image
      leaves behind.
    - [Startup]: arch/x86-64/core_startup.c and main of kernel/kernel.c over
      all components: how the boot processor wakes the others, and how a woken
      processor joins.
    - [Boot]: one concrete machine from the boot loader to the first program in
      user mode, evaluated.
    - [I386]: the older port of the interrupt code to 32 bits,
      kernel/arch/i386; [pre_main] connects the keyboard.

    The theorems numbered C1, C2, ... are the properties of the manifest; the
    others support them or record what the code does in a corner.  Several
    results show that the code does not do what it means to; those are the
    findings of the manifest.

    ** Not modelled

    Assembly (boot code, interrupt stubs): its effects are the arguments of the
    C functions it calls.  Log messages outside [Log]: the calls of log and
    logf in other components are left out, except in [Spinlock], which has the
    level test and the table index of log, as these can fault there.
    Concurrency other than in [Spinlock]: the other components run one
    processor at a time.  Caches and translation look-aside buffers.  The
    dump of a tree and the printing of the time in the test and the benchmark;
    abort of libc, which panics or loops and which nothing calls.  Types, constants
    and prototypes of the headers that no function uses.  An access of the kernel
    to its own memory does not page-fault in the model, except for the copy of an
    image into a new process. *)
From Stdlib Require Export ZArith Lia.
From stdpp Require Export base numbers list gmap fin_maps option strings sorting.

#[export] Set Default Goal Selector "!".
#[global] Open Scope Z_scope.

(** ** Outcomes of C code

    [Done] is a normal return.  [Panic] is a call of [panic], which logs and
    then spins for ever.  [Fault] is a memory access the model has no object
    for (a null or dangling pointer, an index out of an array).  [OutOfFuel]
    is a loop that used up its fuel; every loop below comes with a theorem
    that its fuel is enough, or with one that it never ends. *)
Inductive res (A : Type) : Type :=
| Done (a : A)
| Panic
| Fault
| OutOfFuel.
Arguments Done {A} a.
Arguments Panic {A}.
Arguments Fault {A}.
Arguments OutOfFuel {A}.

(** A run and a test of its result. *)
Definition then_test {A S} (r : res (A * S)) (t : A → S → bool) : bool := match r with Done (a, s) => t a s | _ => false end.
Lemma then_test_done {A S} (r : res (A * S)) t : then_test r t = true → ∃ a s, r = Done (a, s) ∧ t a s = true.
Proof. destruct r as [[a s]| | |]; [|done..]. by exists a, s. Qed.

(** State passing with outcomes. *)
Definition M (S A : Type) : Type := S → res (A * S).

#[export] Instance M_ret S : MRet (M S) := λ A a s, Done (a, s).
#[export] Instance M_bind S : MBind (M S) := λ A B f m s,
  match m s with
  | Done (a, s') => f a s'
  | Panic => Panic
  | Fault => Fault
  | OutOfFuel => OutOfFuel
  end.

Definition get {S} : M S S := λ s, Done (s, s).
Definition put {S} (s : S) : M S unit := λ _, Done (tt, s).
Definition gets {S A} (f : S → A) : M S A := λ s, Done (f s, s).
Definition modify {S} (f : S → S) : M S unit := λ s, Done (tt, f s).
Definition fault {S A} : M S A := λ _, Fault.
Definition panic {S A} : M S A := λ _, Panic.
Definition out_of_fuel {S A} : M S A := λ _, OutOfFuel.

(** A partial read of the state: [None] is a fault. *)
Definition getf {S A} (f : S → option A) : M S A := λ s,
  match f s with Some a => Done (a, s) | None => Fault end.
(** A partial update of the state: [None] is a fault. *)
Definition modifyf {S} (f : S → option S) : M S unit := λ s,
  match f s with Some s' => Done (tt, s') | None => Fault end.

(** Running a component's code inside a larger state. *)
Definition zoom {S T A} (pr : T → S) (inj : S → T → T) (m : M S A) : M T A := λ t,
  match m (pr t) with
  | Done (a, s') => Done (a, inj s' t)
  | Panic => Panic
  | Fault => Fault
  | OutOfFuel => OutOfFuel
  end.

Section monad_lemmas.
Context {S : Type}.
Implicit Types (s : S).

Lemma bind_done {A B} (m : M S A) (f : A → M S B) s a s' :
  m s = Done (a, s') → (m ≫= f) s = f a s'.
Proof. intros E. unfold mbind, M_bind. by rewrite E. Qed.

Lemma bind_fault {A B} (m : M S A) (f : A → M S B) s :
  m s = Fault → (m ≫= f) s = Fault.
Proof. intros E. unfold mbind, M_bind. by rewrite E. Qed.

Lemma bind_panic {A B} (m : M S A) (f : A → M S B) s :
  m s = Panic → (m ≫= f) s = Panic.
Proof. intros E. unfold mbind, M_bind. by rewrite E. Qed.

Lemma bind_inv {A B} (m : M S A) (f : A → M S B) s r :
  (m ≫= f) s = Done r → ∃ a s', m s = Done (a, s') ∧ f a s' = Done r.
Proof.
  unfold mbind, M_bind. destruct (m s) as [[a s']| | |] eqn:E; intros; try done.
  by exists a, s'.
Qed.

Lemma bind_assoc {A B C} (m : M S A) (f : A → M S B) (g : B → M S C) s :
  ((m ≫= f) ≫= g) s = (m ≫= (λ a, f a ≫= g)) s.
Proof. unfold mbind, M_bind. by destruct (m s) as [[??]| | |]. Qed.

(** Two binds agree when their parts do. *)
Lemma bind_cong {A B} (m m' : M S A) (f g : A → M S B) s :
  m s = m' s → (∀ a s', f a s' = g a s') → (m ≫= f) s = (m' ≫= g) s.
Proof. intros E Hf. unfold mbind, M_bind. rewrite E. by destruct (m' s) as [[??]| | |]. Qed.

Lemma ret_run {A} (a : A) s : (mret a : M S A) s = Done (a, s).
Proof. done. Qed.

Lemma getf_done {A} (f : S → option A) s a :
  f s = Some a → getf f s = Done (a, s).
Proof. intros E. unfold getf. by rewrite E. Qed.

Lemma getf_none {A} (f : S → option A) s :
  f s = None → getf f s = Fault.
Proof. intros E. unfold getf. by rewrite E. Qed.

Lemma modifyf_done (f : S → option S) s s' :
  f s = Some s' → modifyf f s = Done (tt, s').
Proof. intros E. unfold modifyf. by rewrite E. Qed.
End monad_lemmas.

#[global] Arguments mbind : simpl never.
#[global] Arguments mret : simpl never.
#[global] Arguments getf : simpl never.
#[global] Arguments modifyf : simpl never.
#[global] Arguments gets : simpl never.
#[global] Arguments modify : simpl never.

(** [stepd H]: run the next statement of a bind, whose outcome [H] gives. *)
Ltac stepd H := erewrite bind_done; [| eapply H]; cbv beta.
(** [step]: run the next statement when it is a total primitive. *)
Ltac step :=
  lazymatch goal with
  | |- context [ (mbind ?f get) ?s ] =>
      rewrite (bind_done get f s s s eq_refl); cbv beta
  | |- context [ (mbind ?f (gets ?g)) ?s ] =>
      rewrite (bind_done (gets g) f s (g s) s eq_refl); cbv beta
  | |- context [ (mbind ?f (modify ?g)) ?s ] =>
      rewrite (bind_done (modify g) f s tt (g s) eq_refl); cbv beta
  | |- context [ (mbind ?f (mret ?a)) ?s ] =>
      rewrite (bind_done (mret a) f s a s eq_refl); cbv beta
  | |- context [ (mbind ?g (mbind ?f ?m)) ?s ] =>
      rewrite (bind_assoc m f g s); cbv beta
  end.

(** ** Machine integers

    A w-bit unsigned integer is a [Z] in [0, 2^w); the wrap-around of C's
    unsigned arithmetic is written out. *)
Definition w8 (z : Z) : Z := z mod 2 ^ 8.
Definition w16 (z : Z) : Z := z mod 2 ^ 16.
Definition w32 (z : Z) : Z := z mod 2 ^ 32.
Definition w64 (z : Z) : Z := z mod 2 ^ 64.

Definition u8p (z : Z) : Prop := 0 ≤ z < 2 ^ 8.
Definition u16p (z : Z) : Prop := 0 ≤ z < 2 ^ 16.
Definition u32p (z : Z) : Prop := 0 ≤ z < 2 ^ 32.
Definition u64p (z : Z) : Prop := 0 ≤ z < 2 ^ 64.

Declare Scope c_scope.
Delimit Scope c_scope with c.
Infix "+64" := (λ a b, w64 (a + b)) (at level 50, left associativity) : c_scope.
Infix "-64" := (λ a b, w64 (a - b)) (at level 50, left associativity) : c_scope.
Infix "*64" := (λ a b, w64 (a * b)) (at level 40, left associativity) : c_scope.
#[global] Open Scope c_scope.

Lemma w64_small z : 0 ≤ z < 2 ^ 64 → w64 z = z.
Proof. apply Z.mod_small. Qed.
Lemma w32_small z : 0 ≤ z < 2 ^ 32 → w32 z = z.
Proof. apply Z.mod_small. Qed.
Lemma w16_small z : 0 ≤ z < 2 ^ 16 → w16 z = z.
Proof. apply Z.mod_small. Qed.
Lemma w8_small z : 0 ≤ z < 2 ^ 8 → w8 z = z.
Proof. apply Z.mod_small. Qed.
Lemma w64_range z : 0 ≤ w64 z < 2 ^ 64.
Proof. apply Z.mod_pos_bound. lia. Qed.
Lemma w32_range z : 0 ≤ w32 z < 2 ^ 32.
Proof. apply Z.mod_pos_bound. lia. Qed.
Lemma w8_range z : 0 ≤ w8 z < 2 ^ 8.
Proof. apply Z.mod_pos_bound. lia. Qed.

Create HintDb word.
Create Rewrite HintDb word.
#[export] Hint Rewrite w64_small w32_small w16_small w8_small using lia : word.
#[export] Hint Resolve w64_range w32_range w8_range : word.

(** [wsolve]: linear arithmetic after dropping wrap-arounds that do not happen. *)
Ltac wsolve := autorewrite with word in *; lia.
