(* ===== verification/Interfaces.v ===== *)
(** * Interfaces between components

    What the clients of the kernel's allocators rely on: the scheduler tree
    on [alloc] and [free], the page tables and the address space manager on
    [kalloc] and [kfree], the heap on [vmm_alloc_at].  Clients are verified
    against these classes; [PhysAlloc] discharges the laws of
    [PageAllocator].  Each class also has a small reference instance. *)
From S2P Require Import Prelude.

(** The operations of kernel/memory/heap.h that its clients call, over a heap
  state [H], and the set of pointers handed out and not freed yet. *)
Class Allocator (H : Type) := {
  h_alloc : Z → M H Z;
  h_free : Z → M H unit;
  h_live : H → gset Z;
}.

(** The contract: [NULL] is never live, a non-null result was not live before
  and is now, a failed allocation changes no live pointer, and freeing a
  live pointer retires exactly that one. *)
Class AllocatorLaws (H : Type) `{!Allocator H} (ok : H → Prop) := {
  alloc_live_nonnull h : ok h → 0 ∉ h_live h;
  alloc_ok h sz p h' :
    ok h → (0 ≤ sz < 2 ^ 32) → h_alloc sz h = Done (p, h') →
    ok h' ∧ (p = 0 → h_live h' = h_live h) ∧
    (p ≠ 0 → p ∉ h_live h ∧ h_live h' = {[p]} ∪ h_live h);
  free_ok h p h' :
    ok h → p ∈ h_live h → h_free p h = Done (tt, h') →
    ok h' ∧ h_live h' = h_live h ∖ {[p]};
}.

(** The operations of kernel/memory/physical_allocator.h over an allocator
    state [P], and the free pages in the order [kalloc] hands them out. *)
Class PageAllocator (P : Type) := {
  kalloc : M P Z;
  kfree : Z → M P unit;
  free_pages : P → list Z;
}.

(** A physical page that the kernel's direct mapping reaches. *)
Definition phys_page (a : Z) : Prop := a mod 4096 = 0 ∧ 0 < a < 2 ^ 39.

(** The contract: free pages are distinct physical pages, [kalloc] takes the
    first one and returns 0 when there is none, and [kfree] of an allocatable
    page ([managed]) that is not free makes it free again. *)
Class PageAllocatorLaws (P : Type) `{!PageAllocator P} (ok : P → Prop) (managed : P → Z → Prop) := {
  free_pages_ok s : ok s → NoDup (free_pages s) ∧ Forall phys_page (free_pages s) ∧
    Forall (managed s) (free_pages s);
  kalloc_none s : ok s → free_pages s = [] → ∃ s', kalloc s = Done (0, s') ∧ ok s' ∧
    free_pages s' = [] ∧ (∀ a, managed s' a ↔ managed s a);
  kalloc_some s x l : ok s → free_pages s = x :: l → ∃ s', kalloc s = Done (x, s') ∧ ok s' ∧
    free_pages s' = l ∧ (∀ a, managed s' a ↔ managed s a);
  kfree_used s x : ok s → managed s x → x ∉ free_pages s → ∃ s', kfree x s = Done (tt, s') ∧
    ok s' ∧ free_pages s' = x :: free_pages s ∧ (∀ a, managed s' a ↔ managed s a);
  kfree_free s x : ok s → x ∈ free_pages s → kfree x s = Done (tt, s);
}.

(** The part of kernel/memory/vmm.h that the heap calls to grow: the [start]
    and [size] fields of the area that [vmm_alloc_at(base, &kernel_vmm, size,
    MEMORY_FLAG_WRITE)] returns, [None] for a null pointer. *)
Class AreaAllocator (V : Type) := {
  area_alloc_at : Z → Z → M V (option (Z * Z));
}.

(** ** A reference allocator

    The simplest allocator with the contract: it hands out increasing
    addresses.  It shows that the contract can be met and runs the examples. *)
Record bump := mk_bump { b_next : Z; b_live : gset Z }.

#[export] Instance bump_allocator : Allocator bump := {|
  h_alloc := λ sz b, Done (b_next b, mk_bump (b_next b + Z.max sz 1) ({[b_next b]} ∪ b_live b));
  h_free := λ p b, Done (tt, mk_bump (b_next b) (b_live b ∖ {[p]}));
  h_live := b_live;
|}.

Definition bump_ok (b : bump) : Prop := 0 < b_next b ∧ ∀ a, a ∈ b_live b → 0 < a < b_next b.

#[export] Instance bump_laws : AllocatorLaws bump bump_ok.
Proof.
  split.
  - intros h [_ Hl] Hin. simpl in Hin. specialize (Hl 0 Hin). lia.
  - intros h sz p h' [Hn Hl] Hsz [= <- <-]; simpl. split_and!.
    + split; simpl; [lia|]. intros a. rewrite elem_of_union, elem_of_singleton.
      intros [->|?%Hl]; lia.
    + lia.
    + intros _. split; [|done]. intros ?%Hl. lia.
  - intros h p h' [Hn Hl] Hin [= <-]; simpl. split; [|done]. split; simpl; [done|].
    intros a [? _]%elem_of_difference. auto.
Qed.

(** A reference page allocator: the free pages as a list. *)
#[export] Instance list_page_allocator : PageAllocator (list Z) := {|
  kalloc := λ l, match l with [] => Done (0, []) | x :: l => Done (x, l) end;
  kfree := λ x l, Done (tt, if decide (x ∈ l) then l else x :: l);
  free_pages := λ l, l;
|}.

Definition list_pages_ok (l : list Z) : Prop := NoDup l ∧ Forall phys_page l.

#[export] Instance list_page_laws :
  PageAllocatorLaws (list Z) list_pages_ok (λ _, phys_page).
Proof.
  split.
  - by intros l [Hn Hp].
  - intros l Hok E. simpl in E. subst l. by exists [].
  - intros l x l' Hok E. simpl in E. subst l. exists l'. split; [done|]. split; [|done].
    destruct Hok as [[_ Hn]%NoDup_cons [_ Hp]%Forall_cons]. by split.
  - intros l x [Hn Hp] Hx Hni. exists (x :: l). simpl in *. rewrite decide_False by done.
    split_and!; try done. split; [by apply NoDup_cons|by apply Forall_cons].
  - intros l x _ Hx. simpl in *. by rewrite decide_True.
Qed.

(** A reference area allocator: whole pages at increasing addresses. *)
#[export] Instance bump_areas : AreaAllocator Z := {|
  area_alloc_at := λ _ sz v,
    let sz := (sz + 4095) / 4096 * 4096 in Done (Some (v, sz), v + sz);
|}.
