(* ===== verification/Double.v ===== *)
(** * Binary64 arithmetic on non-negative values

    The kernel computes time slices and timer periods in [double] ([100e6],
    [1e6], [1e15] are double constants, so the integers next to them are
    converted).  A non-negative double is a dyadic number; an operation is
    the exact result rounded to 53 significant bits, to nearest and ties to
    even.  The kernel's values stay between 10^-20 and 10^40, far from the
    subnormal numbers and from infinity, which are left out. *)
From S2P Require Import Prelude.

(** [m * 2^e] *)
Record dbl := mk_dbl { d_m : Z; d_e : Z }.

(** The integer nearest to [a / b], ties to even. *)
Definition rnd_div (a b : Z) : Z :=
  let q := a / b in
  let r := a mod b in
  if 2 * r <? b then q
  else if b <? 2 * r then q + 1
  else if Z.even q then q else q + 1.

(** The exponent of the last of the 53 bits of [a / b]. *)
Definition ulp_exp (a b : Z) : Z :=
  let k := Z.log2 a - Z.log2 b in
  if a * 2 ^ Z.max 0 (- k) <? b * 2 ^ Z.max 0 k then k - 53 else k - 52.

(** The double nearest to [a / b]. *)
Definition fl (a b : Z) : dbl :=
  if a =? 0 then mk_dbl 0 0
  else
    let e := ulp_exp a b in
    mk_dbl (rnd_div (a * 2 ^ Z.max 0 (- e)) (b * 2 ^ Z.max 0 e)) e.

(** Conversions and operations. *)
Definition d_of_Z (n : Z) : dbl := fl n 1.
Definition d_num (x : dbl) : Z := d_m x * 2 ^ Z.max 0 (d_e x).
Definition d_den (x : dbl) : Z := 2 ^ Z.max 0 (- d_e x).
Definition d_mul (x y : dbl) : dbl := fl (d_num x * d_num y) (d_den x * d_den y).
Definition d_div (x y : dbl) : dbl := fl (d_num x * d_den y) (d_den x * d_num y).
(** [(u64)x]: towards zero, undefined above the range. *)
Definition d_trunc (x : dbl) : Z := d_num x / d_den x.
Definition d_to_u64 (x : dbl) : option Z :=
  if d_trunc x <? 2 ^ 64 then Some (d_trunc x) else None.

Lemma rnd_div_le a b n : 0 < b → a ≤ n * b → rnd_div a b ≤ n.
Proof.
  intros Hb Ha. unfold rnd_div.
  pose proof (Z.div_mod a b ltac:(lia)). pose proof (Z.mod_pos_bound a b Hb).
  assert (a / b ≤ n) by nia.
  destruct (Z.eq_dec (a / b) n) as [Heq|]; [|repeat case_match; lia].
  assert (a mod b = 0) as -> by nia.
  destruct (Z.ltb_spec (2 * 0) b); lia.
Qed.

Lemma rnd_div_ge a b n : 0 < b → n * b ≤ a → n ≤ rnd_div a b.
Proof.
  intros Hb Ha. unfold rnd_div. assert (n ≤ a / b) by (apply Z.div_le_lower_bound; lia).
  repeat case_match; lia.
Qed.

Lemma rnd_div_exact n b : 0 < b → rnd_div (n * b) b = n.
Proof. intros. apply Z.le_antisymm; [apply rnd_div_le|apply rnd_div_ge]; lia. Qed.

(** Quotients below 2^53 have a non-positive exponent. *)
Lemma ulp_exp_nonpos a b : 0 < a → 0 < b → a < 2 ^ 53 * b → ulp_exp a b ≤ 0.
Proof.
  intros Ha Hb Hlt. unfold ulp_exp.
  pose proof (Z.log2_spec a Ha) as [Ha1 Ha2]. pose proof (Z.log2_spec b Hb) as [Hb1 Hb2].
  pose proof (Z.log2_nonneg a). pose proof (Z.log2_nonneg b).
  set (i := Z.log2 a) in *. set (j := Z.log2 b) in *.
  assert (i - j ≤ 53).
  { apply Znot_gt_le. intros Hgt. assert (Hle : 2 ^ (53 + Z.succ j) ≤ 2 ^ i)
      by (apply Z.pow_le_mono_r; lia).
    rewrite Z.pow_add_r in Hle by lia. lia. }
  destruct (Z.ltb_spec (a * 2 ^ Z.max 0 (- (i - j))) (b * 2 ^ Z.max 0 (i - j))); [lia|].
  destruct (Z.eq_dec (i - j) 53) as [Heq|]; [|lia]. exfalso.
  replace (Z.max 0 (- (i - j))) with 0 in * by lia.
  replace (Z.max 0 (i - j)) with 53 in * by lia. lia.
Qed.

(** Rounding keeps the order with the integers. *)
Lemma fl_trunc_le a b n :
  0 ≤ a < 2 ^ 53 * b → 0 < b → 0 ≤ n → a ≤ n * b → d_trunc (fl a b) ≤ n.
Proof.
  intros [Ha Hlt] Hb Hn Hle. unfold fl. destruct (Z.eqb_spec a 0); [done|].
  pose proof (ulp_exp_nonpos a b ltac:(lia) Hb Hlt) as He.
  unfold d_trunc, d_num, d_den; simpl. rewrite (Z.max_l 0 (ulp_exp a b)) by lia.
  rewrite Z.max_r by lia. set (w := 2 ^ (- ulp_exp a b)).
  assert (0 < w) by (apply Z.pow_pos_nonneg; lia). rewrite Z.pow_0_r, !Z.mul_1_r.
  apply Z.div_le_upper_bound; [done|]. apply rnd_div_le; [done|]. nia.
Qed.

(** Integers below 2^53 are converted exactly. *)
Lemma d_of_Z_exact n : 0 < n < 2 ^ 53 → d_num (d_of_Z n) = n * d_den (d_of_Z n).
Proof.
  intros [H0 Hlt]. unfold d_of_Z, fl. destruct (Z.eqb_spec n 0); [lia|].
  pose proof (ulp_exp_nonpos n 1 H0 ltac:(lia) ltac:(lia)) as He.
  unfold d_num, d_den; simpl. rewrite (Z.max_l 0 (ulp_exp n 1)) by lia.
  rewrite Z.max_r by lia. set (w := 2 ^ (- ulp_exp n 1)).
  rewrite Z.pow_0_r, !Z.mul_1_r. unfold rnd_div. by rewrite Z.div_1_r, Z.mod_1_r.
Qed.

Lemma d_den_pos x : 0 < d_den x.
Proof. apply Z.pow_pos_nonneg; lia. Qed.

(** ** Exact computations *)

Lemma rnd_div_lt a b n : 0 < b → 2 * a < (2 * n - 1) * b → rnd_div a b < n.
Proof.
  intros Hb Ha. unfold rnd_div. pose proof (Z.div_mod a b ltac:(lia)). pose proof (Z.mod_pos_bound a b Hb).
  assert (a / b < n) by nia. destruct (Z.eq_dec (a / b) (n - 1)) as [Heq|]; [|repeat case_match; lia].
  rewrite (proj2 (Z.ltb_lt _ _)) by nia. lia.
Qed.

(** The last bit is small enough for 53 bits of the quotient. *)
Lemma ulp_exp_lower a b : 0 < a → 0 < b → ulp_exp a b ≤ 0 → 2 ^ 52 * b ≤ a * 2 ^ (- ulp_exp a b).
Proof.
  intros Ha Hb. unfold ulp_exp.
  pose proof (Z.log2_spec a Ha) as [Ha1 Ha2]. pose proof (Z.log2_spec b Hb) as [Hb1 Hb2].
  pose proof (Z.log2_nonneg a). pose proof (Z.log2_nonneg b).
  set (i := Z.log2 a) in *. set (j := Z.log2 b) in *.
  destruct (Z.ltb_spec (a * 2 ^ Z.max 0 (- (i - j))) (b * 2 ^ Z.max 0 (i - j))) as [Hlt|Hge]; intros He.
  - replace (- (i - j - 53)) with (53 + j - i) by lia. assert (2 ^ i * 2 ^ (53 + j - i) ≤ a * 2 ^ (53 + j - i)) as Hi.
    { apply Z.mul_le_mono_nonneg_r; [apply Z.pow_nonneg; lia|done]. }
    rewrite <- Z.pow_add_r in Hi by lia. replace (i + (53 + j - i)) with (52 + Z.succ j) in Hi by lia.
    rewrite Z.pow_add_r in Hi by lia. lia.
  - destruct (Z.le_ge_cases 0 (i - j)).
    + rewrite (Z.max_l 0 (- (i - j))), (Z.max_r 0 (i - j)), Z.pow_0_r in Hge by lia.
      assert (b * 2 ^ (i - j) * 2 ^ (- (i - j - 52)) ≤ a * 2 ^ (- (i - j - 52))) as Hm.
      { apply Z.mul_le_mono_nonneg_r; [apply Z.pow_nonneg; lia|lia]. }
      rewrite <- Z.mul_assoc, <- Z.pow_add_r in Hm by lia. replace (i - j + - (i - j - 52)) with 52 in Hm by lia. lia.
    + rewrite (Z.max_r 0 (- (i - j))), (Z.max_l 0 (i - j)), Z.pow_0_r in Hge by lia.
      replace (- (i - j - 52)) with (52 + - (i - j)) by lia. rewrite Z.pow_add_r by lia. lia.
Qed.

(** A quotient of integers, in any common scale, is truncated to its floor
    when the dividend has 53 bits. *)
Lemma fl_trunc_floor a b c : 0 ≤ a < 2 ^ 53 → 0 < b → 0 < c → d_trunc (fl (a * c) (b * c)) = a / b.
Proof.
  intros Ha Hb Hc. unfold fl. destruct (Z.eqb_spec (a * c) 0) as [Hz|Hnz].
  { assert (a = 0) as -> by nia. done. }
  assert (0 < a) by nia. pose proof (ulp_exp_nonpos (a * c) (b * c) ltac:(nia) ltac:(nia) ltac:(nia)) as He.
  pose proof (ulp_exp_lower (a * c) (b * c) ltac:(nia) ltac:(nia) He) as Hlow.
  unfold d_trunc, d_num, d_den; simpl. rewrite (Z.max_l 0 (ulp_exp _ _)) by lia. rewrite Z.max_r by lia.
  set (w := 2 ^ (- ulp_exp (a * c) (b * c))) in *. assert (0 < w) by (apply Z.pow_pos_nonneg; lia).
  rewrite Z.pow_0_r, !Z.mul_1_r.
  assert (b < 2 * w) as Hbw by nia. clear Hlow He.
  pose proof (Z.div_mod a b ltac:(lia)). pose proof (Z.mod_pos_bound a b Hb). set (q := a / b) in *.
  symmetry. apply (Z.div_unique _ _ _ (rnd_div (a * c * w) (b * c) - w * q)); [|lia]. left.
  assert (q * w ≤ rnd_div (a * c * w) (b * c)) by (apply rnd_div_ge; nia).
  assert (rnd_div (a * c * w) (b * c) < (q + 1) * w); [|lia].
  apply rnd_div_lt; [nia|]. assert (a + 1 ≤ (q + 1) * b) by nia.
  assert (2 * (a * w) < (2 * ((q + 1) * w) - 1) * b) by nia. nia.
Qed.

(** [x] is the integer [n]. *)
Definition d_is (x : dbl) (n : Z) : Prop := d_num x = n * d_den x.

Lemma d_is_of_Z n : 0 ≤ n < 2 ^ 53 → d_is (d_of_Z n) n.
Proof. intros Hn. destruct (decide (n = 0)) as [->|]; [done|]. apply d_of_Z_exact. lia. Qed.

Lemma fl_exact n b : 0 ≤ n < 2 ^ 53 → 0 < b → d_is (fl (n * b) b) n.
Proof.
  intros Hn Hb. unfold fl. destruct (Z.eqb_spec (n * b) 0) as [Hz|Hnz].
  { assert (n = 0) as -> by nia. done. }
  pose proof (ulp_exp_nonpos (n * b) b ltac:(nia) Hb ltac:(nia)) as He.
  unfold d_is, d_num, d_den; simpl. rewrite (Z.max_l 0 (ulp_exp _ _)) by lia. rewrite Z.max_r by lia.
  set (w := 2 ^ (- ulp_exp (n * b) b)). rewrite Z.pow_0_r, !Z.mul_1_r.
  replace (n * b * w) with (n * w * b) by lia. by apply rnd_div_exact.
Qed.

Lemma d_is_mul x y a b : d_is x a → d_is y b → 0 ≤ a * b < 2 ^ 53 → d_is (d_mul x y) (a * b).
Proof.
  unfold d_is at 1 2. intros Hx Hy Hab. unfold d_mul. rewrite Hx, Hy.
  replace (a * d_den x * (b * d_den y)) with (a * b * (d_den x * d_den y)) by lia.
  apply fl_exact; [done|]. pose proof (d_den_pos x). pose proof (d_den_pos y). nia.
Qed.

Lemma d_div_floor x y a b : d_is x a → d_is y b → 0 ≤ a < 2 ^ 53 → 0 < b → d_trunc (d_div x y) = a / b.
Proof.
  unfold d_is. intros Hx Hy Ha Hb. unfold d_div. rewrite Hx, Hy.
  replace (a * d_den x * d_den y) with (a * (d_den x * d_den y)) by lia.
  replace (d_den x * (b * d_den y)) with (b * (d_den x * d_den y)) by lia.
  apply fl_trunc_floor; [done..|]. pose proof (d_den_pos x). pose proof (d_den_pos y). nia.
Qed.

Lemma d_is_trunc x a : d_is x a → d_trunc x = a.
Proof. unfold d_is, d_trunc. intros ->. apply Z.div_mul. pose proof (d_den_pos x). lia. Qed.

(** Truncation keeps the order with the integers below 2^53. *)
Lemma fl_trunc_ge a b n : 0 ≤ n → 0 < b → n * b ≤ a → a < 2 ^ 53 * b → n ≤ d_trunc (fl a b).
Proof.
  intros Hn Hb Hle Hlt. unfold fl. destruct (Z.eqb_spec a 0) as [->|]; [assert (n = 0) as -> by nia; done|].
  pose proof (ulp_exp_nonpos a b ltac:(nia) Hb Hlt) as He.
  unfold d_trunc, d_num, d_den; simpl. rewrite (Z.max_l 0 (ulp_exp a b)) by lia. rewrite Z.max_r by lia.
  set (w := 2 ^ (- ulp_exp a b)). assert (0 < w) by (apply Z.pow_pos_nonneg; lia). rewrite Z.pow_0_r, !Z.mul_1_r.
  apply Z.div_le_lower_bound; [done|]. apply rnd_div_ge; [done|]. nia.
Qed.

Lemma rnd_div_near a b : 0 < b → Z.abs (2 * (rnd_div a b * b - a)) ≤ b.
Proof.
  intros Hb. unfold rnd_div. pose proof (Z.div_mod a b ltac:(lia)). pose proof (Z.mod_pos_bound a b Hb).
  destruct (Z.ltb_spec (2 * (a mod b)) b); [nia|]. destruct (Z.ltb_spec b (2 * (a mod b))); [nia|].
  destruct (Z.even (a / b)); nia.
Qed.

(** A 64-bit number becomes an integer at most 1024 away. *)
Lemma d_of_Z_near n : 0 ≤ n < 2 ^ 64 → ∃ z, d_is (d_of_Z n) z ∧ 0 ≤ z ∧ Z.abs (z - n) ≤ 1024.
Proof.
  intros Hn. destruct (decide (n < 2 ^ 53)) as [|Hge]; [exists n; split; [apply d_is_of_Z; lia|lia]|].
  assert (0 < n) as Hpos by lia. pose proof (Z.log2_spec n Hpos) as [Hl1 Hl2].
  assert (53 ≤ Z.log2 n ≤ 63) as Hlog.
  { split; [apply Z.log2_le_pow2; lia|]. apply Z.lt_succ_r. apply Z.log2_lt_pow2; lia. }
  unfold d_of_Z, fl. destruct (Z.eqb_spec n 0); [lia|].
  assert (ulp_exp n 1 = Z.log2 n - 52) as ->.
  { unfold ulp_exp. change (Z.log2 1) with 0. rewrite Z.sub_0_r, (Z.max_l 0 (- _)), (Z.max_r 0 _) by lia.
    rewrite Z.pow_0_r, Z.mul_1_r, Z.mul_1_l. rewrite (proj2 (Z.ltb_ge _ _)) by done. done. }
  set (e := Z.log2 n - 52) in *. unfold d_is, d_num, d_den; simpl.
  rewrite (Z.max_r 0 e), (Z.max_l 0 (- e)) by lia. rewrite Z.pow_0_r, Z.mul_1_r, Z.mul_1_l.
  assert (0 < 2 ^ e ≤ 2 ^ 11) as He.
  { split; [apply Z.pow_pos_nonneg; lia|]. apply Z.pow_le_mono_r; lia. }
  pose proof (rnd_div_near n (2 ^ e) ltac:(lia)) as Hr. exists (rnd_div n (2 ^ e) * 2 ^ e).
  split; [by rewrite Z.mul_1_r|]. split; [|change (2 ^ 11) with 2048 in He; lia].
  apply Z.mul_nonneg_nonneg; [|lia]. apply rnd_div_ge; lia.
Qed.
