(* ===== verification/RbTree.v ===== *)
(** * The scheduler's red-black tree (kernel/scheduler/rb_tree.c)

  The pointer program: nodes with parent pointers in a store, a tree header
  with [root] and [leftmost], and the functions of rb_tree.c statement by
  statement.  [RbRepr] relates the store to inductive trees and [RbInsert],
  [RbRemove] prove the operations correct. *)
From S2P Require Import Prelude.
From S2P Require Import Interfaces.

(** kernel/include/kernel/scheduler/rb_tree.h *)
Inductive rb_col := RED | BLACK.
Inductive dir_t := LEFT | RIGHT.

#[export] Instance rb_col_eq_dec : EqDecision rb_col.
Proof. solve_decision. Defined.
#[export] Instance dir_eq_dec : EqDecision dir_t.
Proof. solve_decision. Defined.

(** [1 - dir] *)
Definition flip_dir (d : dir_t) : dir_t :=
  match d with LEFT => RIGHT | RIGHT => LEFT end.

Record rb_node_t := mk_rb_node {
  n_left : Z;
  n_right : Z;
  n_parent : Z;
  n_color : rb_col;
  n_se : Z;
}.

(** kernel/include/kernel/scheduler.h *)
Record sched_entity_t := mk_sched_entity {
  vruntime : Z;
  exec_start_time : Z;
}.

(** [node->child[d]], the union with [left] and [right]. *)
Definition n_child (d : dir_t) (n : rb_node_t) : Z :=
  match d with LEFT => n_left n | RIGHT => n_right n end.
Definition with_child (d : dir_t) (v : Z) (n : rb_node_t) : rb_node_t :=
  match d with
  | LEFT => mk_rb_node v (n_right n) (n_parent n) (n_color n) (n_se n)
  | RIGHT => mk_rb_node (n_left n) v (n_parent n) (n_color n) (n_se n)
  end.
Definition with_parent (v : Z) (n : rb_node_t) : rb_node_t :=
  mk_rb_node (n_left n) (n_right n) v (n_color n) (n_se n).
Definition with_color (v : rb_col) (n : rb_node_t) : rb_node_t :=
  mk_rb_node (n_left n) (n_right n) (n_parent n) v (n_se n).
Definition with_se (v : Z) (n : rb_node_t) : rb_node_t :=
  mk_rb_node (n_left n) (n_right n) (n_parent n) (n_color n) v.

(** [sizeof(rb_node_t)]: three pointers, an enum with its padding, a pointer. *)
Definition sizeof_rb_node : Z := 40.

(** A tree header with the memory it reaches: the node and entity objects and
  the heap the nodes come from. *)
Record rb_state (H : Type) := mk_rb_state {
  root : Z;
  leftmost : Z;
  nodes : gmap Z rb_node_t;
  ents : gmap Z sched_entity_t;
  heap : H;
}.
Arguments mk_rb_state {H}.
Arguments root {H}.
Arguments leftmost {H}.
Arguments nodes {H}.
Arguments ents {H}.
Arguments heap {H}.

Section rb_tree.
Context {H : Type} `{!Allocator H}.
(** The contents of freshly allocated, uninitialised memory. *)
Context (uninit : rb_node_t).

Abbreviation RB := (M (rb_state H)).

Definition set_root (v : Z) (st : rb_state H) : rb_state H :=
  mk_rb_state v (leftmost st) (nodes st) (ents st) (heap st).
Definition set_leftmost (v : Z) (st : rb_state H) : rb_state H :=
  mk_rb_state (root st) v (nodes st) (ents st) (heap st).
Definition set_nodes (v : gmap Z rb_node_t) (st : rb_state H) : rb_state H :=
  mk_rb_state (root st) (leftmost st) v (ents st) (heap st).
Definition set_heap (v : H) (st : rb_state H) : rb_state H :=
  mk_rb_state (root st) (leftmost st) (nodes st) (ents st) v.

(** [*p] and [p->field = v]: a pointer to no object faults. *)
Definition load (p : Z) : RB rb_node_t := getf (λ st, nodes st !! p).
Definition update (p : Z) (f : rb_node_t → rb_node_t) : RB unit :=
  modifyf (λ st, n ← nodes st !! p; Some (set_nodes (<[p := f n]> (nodes st)) st)).

(** [alloc(sizeof(rb_node_t))]: a non-null result is a new object. *)
Definition alloc_node : RB Z :=
  p ← zoom heap set_heap (h_alloc sizeof_rb_node);
  if decide (p = 0) then mret 0
  else modify (λ st, set_nodes (<[p := uninit]> (nodes st)) st);; mret p.
(** [free(p)]: the object is gone, a later access faults. *)
Definition free_node (p : Z) : RB unit :=
  zoom heap set_heap (h_free p);;
  modify (λ st, set_nodes (delete p (nodes st)) st).

(** kernel/include/kernel/scheduler.h: [entity_key] *)
Definition entity_key (se : Z) : RB Z :=
  e ← getf (λ st, ents st !! se); mret (vruntime e).

(** [#define DIR(N) (N == N->parent->right ? RIGHT : LEFT)] *)
Definition DIR (n : Z) : RB dir_t :=
  nn ← load n;
  pn ← load (n_parent nn);
  mret (if decide (n = n_right pn) then RIGHT else LEFT).

Definition rotate (n : Z) (dir : dir_t) : RB unit :=
  nn ← load n;
  let p := n_parent nn in
  let root := n_child (flip_dir dir) nn in
  rn ← load root;
  let child := n_child dir rn in
  update n (with_child (flip_dir dir) child);;
  (if decide (child = 0) then mret tt else update child (with_parent n));;
  update root (with_parent p);;
  (if decide (p = 0) then modify (set_root root)
   else d ← DIR n; update p (with_child d root));;
  update n (with_parent root);;
  update root (with_child dir n).

(** [!q || q->color == BLACK] *)
Definition null_or_black (q : Z) : RB bool :=
  if decide (q = 0) then mret true
  else qn ← load q; mret (bool_decide (n_color qn = BLACK)).

(** The do-while loop of [balance_tree_insert]. *)
Fixpoint balance_insert_loop (fuel : nat) (n parent : Z) : RB unit :=
  match fuel with
  | O => out_of_fuel
  | S fuel =>
    pn ← load parent;
    if decide (n_color pn = BLACK) then mret tt
    else
      let gp := n_parent pn in
      if decide (gp = 0) then update parent (with_color BLACK)
      else
        dir ← DIR parent;
        gn ← load gp;
        let uncle := n_child (flip_dir dir) gn in
        ub ← null_or_black uncle;
        if ub : bool then
          pn ← load parent;
          parent ←
            (if decide (n = n_child (flip_dir dir) pn) then
               rotate parent dir;;
               gn ← load gp;
               mret (n_child dir gn)
             else mret parent);
          rotate gp (flip_dir dir);;
          update gp (with_color RED);;
          update parent (with_color BLACK)
        else
          update parent (with_color BLACK);;
          update uncle (with_color BLACK);;
          update gp (with_color RED);;
          gn ← load gp;
          if decide (n_parent gn = 0) then mret tt
          else balance_insert_loop fuel gp (n_parent gn)
  end.

(** A fuel of one more than the number of nodes is enough for every loop
    that walks up or down a tree. *)
Definition tree_fuel (st : rb_state H) : nat := S (size (nodes st)).

Definition balance_tree_insert (n parent : Z) : RB unit :=
  if decide (parent = 0) then update n (with_color BLACK)
  else
    fuel ← gets tree_fuel;
    balance_insert_loop fuel n parent.

(** [rb_node_t **link]: the address of [rb->root] or of a child field. *)
Inductive link_t := link_root | link_child (p : Z) (d : dir_t).

Definition load_link (l : link_t) : RB Z :=
  match l with
  | link_root => gets root
  | link_child p d => pn ← load p; mret (n_child d pn)
  end.
Definition store_link (l : link_t) (v : Z) : RB unit :=
  match l with
  | link_root => modify (set_root v)
  | link_child p d => update p (with_child d v)
  end.

(** The [while] over [*link] loop of [rb_insert]. *)
Fixpoint insert_loop (fuel : nat) (key : Z) (link : link_t) (parent : Z)
    (lm : bool) : RB (link_t * Z * bool) :=
  match fuel with
  | O => out_of_fuel
  | S fuel =>
    cur ← load_link link;
    if decide (cur = 0) then mret (link, parent, lm)
    else
      pn ← load cur;
      k ← entity_key (n_se pn);
      if decide (key < k) then insert_loop fuel key (link_child cur LEFT) cur lm
      else insert_loop fuel key (link_child cur RIGHT) cur false
  end.

Definition rb_insert (se : Z) : RB unit :=
  key ← entity_key se;
  run ← alloc_node;
  update run (with_color RED);;
  update run (with_child RIGHT 0);;
  update run (with_child LEFT 0);;
  update run (with_se se);;
  fuel ← gets tree_fuel;
  '(link, parent, lm) ← insert_loop fuel key link_root 0 true;
  (if lm : bool then modify (set_leftmost run) else mret tt);;
  update run (with_parent parent);;
  store_link link run;;
  balance_tree_insert run parent.

(** The do-while loop of [balance_tree_remove].  [continue] goes to the
    loop condition [(n = n->parent) && n->parent]. *)
Fixpoint balance_remove_loop (fuel : nat) (n : Z) : RB unit :=
  match fuel with
  | O => out_of_fuel
  | S fuel =>
    dir ← DIR n;
    nn ← load n;
    let p := n_parent nn in
    pn ← load p;
    let s := n_child (flip_dir dir) pn in
    sn ← load s;
    let c := n_child dir sn in
    let d := n_child (flip_dir dir) sn in
    '(s, c, d) ←
      (if decide (n_color sn = RED) then
         rotate p dir;;
         update p (with_color RED);;
         update s (with_color BLACK);;
         cn ← load c;
         mret (c, n_child dir cn, n_child (flip_dir dir) cn)
       else mret (s, c, d));
    let case6 (s d : Z) : RB unit :=
      rotate p dir;;
      pn ← load p;
      update s (with_color (n_color pn));;
      update p (with_color BLACK);;
      update d (with_color BLACK) in
    db ← null_or_black d;
    if db : bool then
      cb ← null_or_black c;
      if cb : bool then
        update s (with_color RED);;
        pn ← load p;
        if decide (n_color pn = BLACK) then
          (* continue *)
          nn ← load n;
          let n := n_parent nn in
          if decide (n = 0) then modify (set_root n)
          else
            nn ← load n;
            if decide (n_parent nn = 0) then modify (set_root n)
            else balance_remove_loop fuel n
        else update p (with_color BLACK)
      else
        rotate s (flip_dir dir);;
        update c (with_color BLACK);;
        update s (with_color RED);;
        case6 c s
    else case6 s d
  end.

Definition balance_tree_remove (n : Z) : RB unit :=
  fuel ← gets tree_fuel;
  balance_remove_loop fuel n.

(** [rightmost(sub)] *)
Fixpoint rightmost_loop (fuel : nat) (sub : Z) : RB Z :=
  match fuel with
  | O => out_of_fuel
  | S fuel =>
    sn ← load sub;
    if decide (n_right sn = 0) then mret sub else rightmost_loop fuel (n_right sn)
  end.
Definition rightmost (sub : Z) : RB Z :=
  fuel ← gets tree_fuel; rightmost_loop fuel sub.

(** [leftmost(sub)], declared in rb_tree.c and used by no other function. *)
Fixpoint leftmost_loop (fuel : nat) (sub : Z) : RB Z :=
  match fuel with
  | O => out_of_fuel
  | S fuel =>
    sn ← load sub;
    if decide (n_left sn = 0) then mret sub else leftmost_loop fuel (n_left sn)
  end.
Definition leftmost_of (sub : Z) : RB Z :=
  fuel ← gets tree_fuel; leftmost_loop fuel sub.

(** The search loop of [rb_remove]. *)
Fixpoint remove_search (fuel : nat) (key se : Z) (n : Z) : RB Z :=
  match fuel with
  | O => out_of_fuel
  | S fuel =>
    if decide (n = 0) then mret 0
    else
      nn ← load n;
      if decide (n_se nn = se) then mret n
      else
        k ← entity_key (n_se nn);
        if decide (key < k) then remove_search fuel key se (n_left nn)
        else remove_search fuel key se (n_right nn)
  end.

(** [rb_remove] from "n has only 1 child" on. *)
Definition remove_node (n : Z) : RB unit :=
  nn ← load n;
  if decide (n_left nn ≠ 0 ∨ n_right nn ≠ 0) then
    let child := if decide (n_left nn ≠ 0) then n_left nn else n_right nn in
    dir ← DIR child;
    cn ← load child;
    update n (with_se (n_se cn));;
    update n (with_child dir 0);;
    lm ← gets leftmost;
    (if decide (child = lm) then modify (set_leftmost n) else mret tt);;
    free_node child
  else
    lm ← gets leftmost;
    (if decide (n = lm) then modify (set_leftmost (n_parent nn)) else mret tt);;
    rt ← gets root;
    if decide (n = rt) then
      modify (set_root 0);;
      free_node n
    else
      dir ← DIR n;
      nn ← load n;
      if decide (n_color nn = RED) then
        update (n_parent nn) (with_child dir 0);;
        free_node n
      else
        balance_tree_remove n;;
        nn ← load n;
        update (n_parent nn) (with_child dir 0);;
        free_node n.

Definition rb_remove (se : Z) : RB unit :=
  n ← gets root;
  key ← entity_key se;
  fuel ← gets tree_fuel;
  n ← remove_search fuel key se n;
  if decide (n = 0) then mret tt
  else
    nn ← load n;
    if decide (n_left nn ≠ 0 ∧ n_right nn ≠ 0) then
      sw ← rightmost (n_left nn);
      sn ← load sw;
      update n (with_se (n_se sn));;
      remove_node sw
    else remove_node n.
End rb_tree.

Arguments RbTree.load {H} p.
Arguments RbTree.update {H} p f.
