(* ===== verification/RbRepr.v ===== *)
(** * Trees behind the pointers of rb_tree.c

    Inductive trees, one-hole contexts, the relation [represents] between a
    store and a tree, and the effect of the primitive pointer operations
    ([load], [update], [DIR], [rotate]) on the tree a store represents. *)
From S2P Require Import Prelude.
From S2P Require Import Interfaces.
From S2P Require Import RbTree.

(** A node carries its address and its entity. *)
Inductive tree := E | T (c : rb_col) (l : tree) (p s : Z) (r : tree).

#[export] Instance tree_eq_dec : EqDecision tree.
Proof. solve_decision. Defined.

Definition ptr (t : tree) : Z := match t with E => 0 | T _ _ p _ _ => p end.

Fixpoint taddrs (t : tree) : list Z :=
  match t with E => [] | T _ l p _ r => taddrs l ++ p :: taddrs r end.

(** The nodes from left to right, with their entities. *)
Fixpoint inorder (t : tree) : list (Z * Z) :=
  match t with E => [] | T _ l p s r => inorder l ++ (p, s) :: inorder r end.

(** [mk d c x p s y] has [x] on side [d] and [y] on the other side. *)
Definition mk (d : dir_t) (c : rb_col) (x : tree) (p s : Z) (y : tree) : tree :=
  match d with LEFT => T c x p s y | RIGHT => T c y p s x end.
Definition mk_node (d : dir_t) (x y par : Z) (c : rb_col) (s : Z) : rb_node_t :=
  match d with
  | LEFT => mk_rb_node x y par c s
  | RIGHT => mk_rb_node y x par c s
  end.

(** Contexts: the path from a hole up to the root. *)
Record frame := Fr { f_dir : dir_t; f_col : rb_col; f_p : Z; f_s : Z; f_sib : tree }.
Definition plug1 (f : frame) (t : tree) : tree :=
  mk (f_dir f) (f_col f) t (f_p f) (f_s f) (f_sib f).
Fixpoint plug (k : list frame) (t : tree) : tree :=
  match k with [] => t | f :: k => plug k (plug1 f t) end.
Definition cpar (k : list frame) : Z := match k with [] => 0 | f :: _ => f_p f end.
Fixpoint kaddrs (k : list frame) : list Z :=
  match k with [] => [] | f :: k => f_p f :: taddrs (f_sib f) ++ kaddrs k end.

(** What a store must hold for a tree below the parent [par], and for a
    context whose hole is filled with a subtree at address [h]. *)
Fixpoint repr (ns : gmap Z rb_node_t) (par : Z) (t : tree) : Prop :=
  match t with
  | E => True
  | T c l p s r =>
      p ≠ 0 ∧ ns !! p = Some (mk_rb_node (ptr l) (ptr r) par c s) ∧
      repr ns p l ∧ repr ns p r
  end.
Fixpoint repr_ctx (ns : gmap Z rb_node_t) (h : Z) (k : list frame) : Prop :=
  match k with
  | [] => True
  | Fr d c p s sib :: k =>
      p ≠ 0 ∧ ns !! p = Some (mk_node d h (ptr sib) (cpar k) c s) ∧
      repr ns p sib ∧ repr_ctx ns p k
  end.

Lemma ptr_mk d c x p s y : ptr (mk d c x p s y) = p.
Proof. by destruct d. Qed.
Lemma taddrs_mk d c x p s y :
  taddrs (mk d c x p s y) ≡ₚ p :: taddrs x ++ taddrs y.
Proof. destruct d; simpl; solve_Permutation. Qed.
Lemma repr_mk ns par d c x p s y :
  repr ns par (mk d c x p s y) ↔
  p ≠ 0 ∧ ns !! p = Some (mk_node d (ptr x) (ptr y) par c s) ∧ repr ns p x ∧ repr ns p y.
Proof. destruct d; simpl; tauto. Qed.

Lemma taddrs_plug k t : taddrs (plug k t) ≡ₚ taddrs t ++ kaddrs k.
Proof.
  revert t; induction k as [|f k IH]; intros t; simpl; [by rewrite app_nil_r|].
  rewrite IH. unfold plug1. rewrite taddrs_mk. simpl. solve_Permutation.
Qed.

Lemma repr_plug ns k t :
  repr ns 0 (plug k t) ↔ repr ns (cpar k) t ∧ repr_ctx ns (ptr t) k.
Proof.
  revert t; induction k as [|[d c p s sib] k IH]; intros t; simpl; [tauto|].
  rewrite IH. unfold plug1; simpl. rewrite repr_mk, ptr_mk. tauto.
Qed.

Lemma repr_frame ns ns' par t :
  (∀ a, a ∈ taddrs t → ns' !! a = ns !! a) → repr ns par t → repr ns' par t.
Proof.
  revert par; induction t as [|c l IHl p s r IHr]; intros par Hag; simpl; [done|].
  intros (?&Hp&?&?). split_and!; [done| |apply IHl|apply IHr]; try done.
  - rewrite Hag; [done|]. simpl. set_solver.
  - intros a Ha. apply Hag. simpl. set_solver.
  - intros a Ha. apply Hag. simpl. set_solver.
Qed.

Lemma repr_ctx_frame ns ns' h k :
  (∀ a, a ∈ kaddrs k → ns' !! a = ns !! a) → repr_ctx ns h k → repr_ctx ns' h k.
Proof.
  revert h; induction k as [|[d c p s sib] k IH]; intros h Hag; simpl; [done|].
  intros (?&Hp&?&?). split_and!; [done| | |]; simpl in Hag.
  - rewrite Hag; [done|set_solver].
  - eapply repr_frame; [|done]. intros; apply Hag; set_solver.
  - apply IH; [|done]. intros; apply Hag; set_solver.
Qed.

Lemma repr_nonnull ns par t : repr ns par t → 0 ∉ taddrs t.
Proof.
  revert par; induction t as [|c l IHl p s r IHr]; intros par; simpl; [set_solver|].
  intros (Hp&_&?%IHl&?%IHr). set_solver.
Qed.

Lemma ptr_in_taddrs t : ptr t ≠ 0 → ptr t ∈ taddrs t.
Proof. destruct t; simpl; [done|set_solver]. Qed.

Lemma inorder_taddrs t : (inorder t).*1 = taddrs t.
Proof. induction t as [|c l IHl p s r IHr]; simpl; [done|]. by rewrite fmap_app, fmap_cons, IHl, IHr. Qed.

(** What stays the same when only nodes and the root pointer change. *)
Definition same_env {H} (st st' : rb_state H) : Prop :=
  leftmost st' = leftmost st ∧ ents st' = ents st ∧ heap st' = heap st.

#[export] Instance same_env_preorder {H} : PreOrder (@same_env H).
Proof. split; [by intros ?|intros ??? (?&?&?) (?&?&?); unfold same_env; split_and!; congruence]. Qed.

(** The store holds exactly the nodes of [t]. *)
Definition represents {H} (st : rb_state H) (t : tree) : Prop :=
  root st = ptr t ∧ repr (nodes st) 0 t ∧ NoDup (taddrs t) ∧
  dom (nodes st) = list_to_set (taddrs t).

(** Field access on direction-generic nodes. *)
Lemma n_child_mk_same d x y par c s : n_child d (mk_node d x y par c s) = x.
Proof. by destruct d. Qed.
Lemma n_child_mk_flip d x y par c s : n_child (flip_dir d) (mk_node d x y par c s) = y.
Proof. by destruct d. Qed.
Lemma with_child_mk_same d v x y par c s :
  with_child d v (mk_node d x y par c s) = mk_node d v y par c s.
Proof. by destruct d. Qed.
Lemma with_child_mk_flip d v x y par c s :
  with_child (flip_dir d) v (mk_node d x y par c s) = mk_node d x v par c s.
Proof. by destruct d. Qed.
Lemma with_parent_mk d v x y par c s :
  with_parent v (mk_node d x y par c s) = mk_node d x y v c s.
Proof. by destruct d. Qed.
Lemma n_parent_mk d x y par c s : n_parent (mk_node d x y par c s) = par.
Proof. by destruct d. Qed.
Lemma n_color_mk d x y par c s : n_color (mk_node d x y par c s) = c.
Proof. by destruct d. Qed.
Lemma n_se_mk d x y par c s : n_se (mk_node d x y par c s) = s.
Proof. by destruct d. Qed.
Lemma flip_flip d : flip_dir (flip_dir d) = d.
Proof. by destruct d. Qed.
Lemma mk_flip d c x p s y : mk (flip_dir d) c x p s y = mk d c y p s x.
Proof. by destruct d. Qed.

(** A context seen from the other child of its first frame. *)
Lemma plug_sib d c p s x y k :
  plug (Fr d c p s y :: k) x = plug (Fr (flip_dir d) c p s x :: k) y.
Proof. simpl. unfold plug1; simpl. by rewrite mk_flip. Qed.

Lemma mk_surj t d : t ≠ E → ∃ c x p s y, t = mk d c x p s y.
Proof. destruct t, d; try done; intros _; by repeat eexists. Qed.

(** The nodes to the left and to the right of a hole. *)
Fixpoint kleft (k : list frame) : list (Z * Z) :=
  match k with
  | [] => []
  | Fr d _ p s sib :: k =>
      kleft k ++ match d with LEFT => [] | RIGHT => inorder sib ++ [(p, s)] end
  end.
Fixpoint kright (k : list frame) : list (Z * Z) :=
  match k with
  | [] => []
  | Fr d _ p s sib :: k =>
      match d with LEFT => (p, s) :: inorder sib | RIGHT => [] end ++ kright k
  end.
Lemma inorder_plug k t : inorder (plug k t) = kleft k ++ inorder t ++ kright k.
Proof.
  revert t; induction k as [|[[] c p s sib] k IH]; intros t; simpl.
  - by rewrite app_nil_r.
  - rewrite IH; simpl. by rewrite app_nil_r, <-app_assoc.
  - rewrite IH; simpl. by rewrite <-!app_assoc.
Qed.
Lemma inorder_plug_eq k t t' : inorder t = inorder t' → inorder (plug k t) = inorder (plug k t').
Proof. intros Ht. by rewrite !inorder_plug, Ht. Qed.
Lemma inorder_mk_color d c c' x p s y : inorder (mk d c x p s y) = inorder (mk d c' x p s y).
Proof. by destruct d. Qed.
Lemma inorder_mk_eq d c c' x x' p s y y' :
  inorder x = inorder x' → inorder y = inorder y' →
  inorder (mk d c x p s y) = inorder (mk d c' x' p s y').
Proof. destruct d; simpl; congruence. Qed.
Lemma inorder_rotate dir cn cn' cr cr' a n sn b r sr c :
  inorder (mk dir cr (mk dir cn a n sn b) r sr c) =
  inorder (mk dir cn' a n sn (mk dir cr' b r sr c)).
Proof. destruct dir; simpl; by rewrite <-app_assoc. Qed.

Create Rewrite HintDb rb.
#[export] Hint Rewrite ptr_mk n_child_mk_same n_child_mk_flip with_child_mk_same
  with_child_mk_flip with_parent_mk n_parent_mk n_color_mk n_se_mk flip_flip : rb.

(** The address at the top of a context whose hole is filled at [h]. *)
Fixpoint ktop (h : Z) (k : list frame) : Z :=
  match k with [] => h | f :: k => ktop (f_p f) k end.
Lemma ptr_plug k t : ptr (plug k t) = ktop (ptr t) k.
Proof.
  revert t; induction k as [|f k IH]; intros t; simpl; [done|].
  rewrite IH. unfold plug1. by rewrite ptr_mk.
Qed.

Section primitives.
Context {H : Type}.
Implicit Types (st : rb_state H) (k : list frame).

Lemma update_run st p n f :
  nodes st !! p = Some n →
  update p f st = Done (tt, set_nodes (<[p := f n]> (nodes st)) st).
Proof. intros E. unfold update. apply modifyf_done. by rewrite E. Qed.

Lemma load_run st p n : nodes st !! p = Some n → load p st = Done (n, st).
Proof. exact (getf_done (λ st, nodes st !! p) st n). Qed.

Lemma represents_lookup st k c l p s r :
  represents st (plug k (T c l p s r)) →
  p ≠ 0 ∧ nodes st !! p = Some (mk_rb_node (ptr l) (ptr r) (cpar k) c s).
Proof. intros (_&Hr&_). apply repr_plug in Hr as [(?&?&_) _]. done. Qed.

Lemma load_focus st k c l p s r :
  represents st (plug k (T c l p s r)) →
  load p st = Done (mk_rb_node (ptr l) (ptr r) (cpar k) c s, st).
Proof. intros [_ ?]%represents_lookup. by apply load_run. Qed.

Lemma represents_lookup_mk st k d c x p s y :
  represents st (plug k (mk d c x p s y)) →
  p ≠ 0 ∧ nodes st !! p = Some (mk_node d (ptr x) (ptr y) (cpar k) c s).
Proof. destruct d; apply represents_lookup. Qed.

Lemma load_focus_mk st k d c x p s y :
  represents st (plug k (mk d c x p s y)) →
  load p st = Done (mk_node d (ptr x) (ptr y) (cpar k) c s, st).
Proof. destruct d; apply load_focus. Qed.

Lemma size_represents st t : represents st t → size (nodes st) = length (taddrs t).
Proof.
  intros (_&_&Hnd&Hd). rewrite <-size_dom, Hd. by apply size_list_to_set.
Qed.

Lemma DIR_focus st d c p s sib k t :
  represents st (plug (Fr d c p s sib :: k) t) → ptr t ≠ 0 →
  DIR (ptr t) st = Done (d, st).
Proof.
  intros Hrep Hnz. pose proof (represents_lookup_mk st k d c t p s sib Hrep) as [? Hp].
  destruct Hrep as (_&Hr&Hnd&_). apply repr_plug in Hr as [Ht _].
  destruct t as [|c' l' n s' r']; [done|]. destruct Ht as (_&Hn&_). unfold DIR; simpl in *.
  erewrite bind_done by (by apply load_run). simpl.
  erewrite bind_done by (by apply load_run).
  rewrite taddrs_plug in Hnd. unfold plug1 in Hnd; rewrite taddrs_mk in Hnd; simpl in Hnd.
  rewrite ret_run. do 3 f_equal. destruct d; simpl; case_decide; try done.
  assert (n ∈ taddrs sib) as Hin by (subst n; by apply ptr_in_taddrs).
  apply NoDup_cons in Hnd as [_ Hnd]. apply NoDup_app in Hnd as [Hnd _].
  apply NoDup_app in Hnd as (_&Hnd&_). exfalso. apply (Hnd n); [|done].
  apply elem_of_app. right. by left.
Qed.

(** A write to the colour or the entity of the focused node. *)
Lemma update_focus st k c l p s r f c' s' :
  represents st (plug k (T c l p s r)) →
  (∀ x y z, f (mk_rb_node x y z c s) = mk_rb_node x y z c' s') →
  ∃ st', update p f st = Done (tt, st') ∧
    represents st' (plug k (T c' l p s' r)) ∧ same_env st st' ∧ root st' = root st.
Proof.
  intros Hrep Hf. destruct (represents_lookup _ _ _ _ _ _ _ Hrep) as [Hp0 Hp].
  eexists. split; [by apply update_run|]. rewrite Hf.
  destruct Hrep as (Hroot&Hr&Hnd&Hd). split_and!; try done.
  unfold represents; simpl.
  assert (Hperm : taddrs (plug k (T c' l p s' r)) = taddrs (plug k (T c l p s r)) ∧
    ptr (plug k (T c' l p s' r)) = ptr (plug k (T c l p s r))).
  { clear. assert (∀ t t', ptr t = ptr t' → taddrs t = taddrs t' →
      taddrs (plug k t) = taddrs (plug k t') ∧ ptr (plug k t) = ptr (plug k t')) as HH.
    { induction k as [|[[] ????] k IH]; intros; simpl in *; [done|..];
        apply IH; unfold plug1; simpl; congruence. }
    by apply HH. }
  destruct Hperm as [-> ->]. split_and!; [done| |done|].
  - apply repr_plug in Hr as [(?&?&Hl&Hrr) Hk]. rewrite taddrs_plug in Hnd; simpl in Hnd.
    apply NoDup_app in Hnd as (Hnd1&Hnd2&_).
    apply NoDup_app in Hnd1 as (_&Hnd1&Hnd3). apply NoDup_cons in Hnd3 as [Hnd3 _].
    apply repr_plug; simpl. split_and!; [done|by simplify_map_eq| | |].
    + eapply repr_frame; [|done]. intros a Ha. rewrite lookup_insert_ne; [done|]. set_solver.
    + eapply repr_frame; [|done]. intros a Ha. rewrite lookup_insert_ne; [done|]. set_solver.
    + eapply repr_ctx_frame; [|done]. intros a Ha. rewrite lookup_insert_ne; [done|]. set_solver.
  - rewrite dom_insert_lookup_L; [done|by eexists].
Qed.

Lemma update_focus_mk st k d c x p s y f c' s' :
  represents st (plug k (mk d c x p s y)) →
  (∀ x y z, f (mk_rb_node x y z c s) = mk_rb_node x y z c' s') →
  ∃ st', update p f st = Done (tt, st') ∧
    represents st' (plug k (mk d c' x p s' y)) ∧ same_env st st' ∧ root st' = root st.
Proof. destruct d; apply update_focus. Qed.

(** [q->color = c'] *)
Lemma recolor_focus st k d c x p s y c' :
  represents st (plug k (mk d c x p s y)) →
  ∃ st', update p (with_color c') st = Done (tt, st') ∧
    represents st' (plug k (mk d c' x p s y)) ∧ same_env st st' ∧ root st' = root st.
Proof. intros Hr. by apply (update_focus_mk st k d c x p s y (with_color c') c' s Hr). Qed.

(** The colour of a subtree; an absent child counts as black. *)
Definition tcolor (t : tree) : rb_col := match t with E => BLACK | T c _ _ _ _ => c end.

Lemma null_or_black_spec st k t :
  represents st (plug k t) →
  null_or_black (ptr t) st = Done (bool_decide (tcolor t = BLACK), st).
Proof.
  intros Hr. unfold null_or_black. destruct t as [|c l p s r]; [done|]; simpl.
  destruct (represents_lookup _ _ _ _ _ _ _ Hr) as [? _]. rewrite decide_False by done.
  erewrite bind_done by (by eapply load_focus). done.
Qed.

(** [if (child) child->parent = n] *)
Lemma reparent_spec st q n b :
  repr (nodes st) q b → NoDup (taddrs b) →
  ∃ ns', (if decide (ptr b = 0) then mret tt else update (ptr b) (with_parent n)) st
         = Done (tt, set_nodes ns' st) ∧
    repr ns' n b ∧ (∀ a, a ∉ taddrs b → ns' !! a = nodes st !! a) ∧
    dom ns' = dom (nodes st).
Proof.
  intros Hb Hnd. destruct b as [|c l p s r]; simpl.
  { exists (nodes st). split_and!; try done. by destruct st. }
  destruct Hb as (Hp0&Hp&Hl&Hr). rewrite decide_False by done.
  eexists. split; [by apply update_run|].
  simpl in Hnd. apply NoDup_app in Hnd as (_&Hnd1&Hnd2). apply NoDup_cons in Hnd2 as [Hnd2 _].
  split_and!; [done|by simplify_map_eq| | | |].
  - eapply repr_frame; [|done]. intros a Ha. rewrite lookup_insert_ne; [done|]. set_solver.
  - eapply repr_frame; [|done]. intros a Ha. rewrite lookup_insert_ne; [done|]. set_solver.
  - intros a Ha. rewrite lookup_insert_ne; [done|]. set_solver.
  - rewrite dom_insert_lookup_L; [done|by eexists].
Qed.

(** The slot that points to the hole of a context. *)
Definition link_of k : link_t :=
  match k with [] => link_root | Fr d _ p _ _ :: _ => link_child p d end.

(** [*link = r] *)
Lemma store_link_spec st n r k :
  repr_ctx (nodes st) n k → NoDup (kaddrs k) → root st = ktop n k →
  ∃ ns', store_link (link_of k) r st = Done (tt, set_root (ktop r k) (set_nodes ns' st)) ∧
    repr_ctx ns' r k ∧ (∀ a, a ∉ kaddrs k → ns' !! a = nodes st !! a) ∧
    dom ns' = dom (nodes st).
Proof.
  intros Hk Hnd Hroot. destruct k as [|[d c p s sib] k]; simpl in *.
  { exists (nodes st). by split_and!. }
  destruct Hk as (Hp0&Hp&Hsib&Hk). apply NoDup_cons in Hnd as [Hnd1 Hnd2].
  erewrite update_run by exact Hp. rewrite with_child_mk_same.
  exists (<[p := mk_node d r (ptr sib) (cpar k) c s]> (nodes st)). split_and!.
  - rewrite <-Hroot. by destruct st.
  - done.
  - by simplify_map_eq.
  - eapply repr_frame; [|done]. intros a Ha. rewrite lookup_insert_ne; [done|]. set_solver.
  - eapply repr_ctx_frame; [|done]. intros a Ha. rewrite lookup_insert_ne; [done|]. set_solver.
  - intros a Ha. rewrite lookup_insert_ne; [done|]. set_solver.
  - rewrite dom_insert_lookup_L; [done|by eexists].
Qed.

(** [if (p) p->child[DIR(n)] = r; else t->root = r] stores through the slot. *)
Lemma relink_run st n nn r k :
  repr_ctx (nodes st) n k → n ∉ kaddrs k → n ≠ 0 →
  nodes st !! n = Some nn → n_parent nn = cpar k →
  (if decide (cpar k = 0) then modify (set_root r)
   else d ← DIR n; update (cpar k) (with_child d r)) st = store_link (link_of k) r st.
Proof.
  intros Hk Hnin Hn0 Hn Hpar. destruct k as [|[d c p s sib] k]; simpl in *; [done|].
  destruct Hk as (Hp0&Hp&Hsib&Hk). rewrite decide_False by done.
  apply (bind_done (DIR n) (λ d, update p (with_child d r))).
  unfold DIR. erewrite bind_done by (by apply load_run). rewrite Hpar.
  erewrite bind_done by (by apply load_run). rewrite ret_run. do 3 f_equal.
  destruct d; simpl; case_decide as Heq; try done. subst n.
  exfalso. apply Hnin. right. apply elem_of_app; left. by apply ptr_in_taddrs.
Qed.

(** [rotate] turns the focused node towards [dir] and keeps its place. *)
Lemma rotate_spec st k dir cn a n sn cr b r sr c :
  represents st (plug k (mk dir cn a n sn (mk dir cr b r sr c))) →
  ∃ st', rotate n dir st = Done (tt, st') ∧
    represents st' (plug k (mk dir cr (mk dir cn a n sn b) r sr c)) ∧ same_env st st'.
Proof.
  intros (Hroot&Hrep&Hnd&Hd). rewrite ptr_plug in Hroot.
  apply repr_plug in Hrep as [Hrep Hk]. rewrite !repr_mk in Hrep.
  autorewrite with rb in *. destruct Hrep as (Hn0&Hn&Ha&Hr0&Hr&Hb&Hc).
  rewrite taddrs_plug, !taddrs_mk in Hnd.
  assert (Hnd' : NoDup (n :: r :: taddrs a ++ taddrs b ++ taddrs c ++ kaddrs k)).
  { eapply NoDup_Permutation_proper; [|exact Hnd]. simpl. solve_Permutation. }
  rewrite !NoDup_cons, !NoDup_app in Hnd'.
  destruct Hnd' as (Hnn&Hnr&_&Dac&Hndb&Dbc&_&Dck&Hndk).
  rewrite elem_of_cons, !elem_of_app in Hnn. rewrite !elem_of_app in Hnr.
  unfold rotate. erewrite bind_done by (by apply load_run). autorewrite with rb.
  erewrite bind_done by (by apply load_run). autorewrite with rb.
  erewrite bind_done by (by apply update_run). autorewrite with rb.
  set (ns1 := <[n := _]> (nodes st)).
  destruct (reparent_spec (set_nodes ns1 st) r n b) as (ns2&Hrun2&Hb2&Hag2&Hd2).
  { eapply repr_frame; [|exact Hb]. intros x Hx; simpl. unfold ns1.
    rewrite lookup_insert_ne; [done|]. set_solver. }
  { done. }
  erewrite bind_done by exact Hrun2. simpl in *.
  assert (Hr2 : ns2 !! r = Some (mk_node dir (ptr b) (ptr c) n cr sr)).
  { rewrite Hag2 by set_solver. unfold ns1. rewrite lookup_insert_ne by set_solver. done. }
  assert (Hn2 : ns2 !! n = Some (mk_node dir (ptr a) (ptr b) (cpar k) cn sn)).
  { rewrite Hag2 by set_solver. unfold ns1. by simplify_map_eq. }
  erewrite bind_done by (by apply update_run; exact Hr2). autorewrite with rb. simpl.
  set (ns3 := <[r := _]> ns2).
  assert (Hn3 : ns3 !! n = Some (mk_node dir (ptr a) (ptr b) (cpar k) cn sn)).
  { unfold ns3. rewrite lookup_insert_ne by set_solver. done. }
  assert (Hout3 : ∀ x, x ≠ n → x ≠ r → x ∉ taddrs b → ns3 !! x = nodes st !! x).
  { intros x ???. unfold ns3. rewrite lookup_insert_ne by done.
    rewrite Hag2 by done. unfold ns1. by rewrite lookup_insert_ne. }
  set (st3 := set_nodes ns3 (set_nodes ns2 (set_nodes ns1 st))).
  assert (Hk3 : repr_ctx (nodes st3) n k).
  { eapply repr_ctx_frame; [|exact Hk]. intros x Hx. apply Hout3; set_solver. }
  destruct (store_link_spec st3 n r k Hk3 Hndk Hroot) as (ns4&Hrun4&Hk4&Hag4&Hd4).
  erewrite bind_done.
  2:{ erewrite relink_run; [exact Hrun4|exact Hk3|set_solver|done|exact Hn3|by rewrite n_parent_mk]. }
  simpl in *.
  erewrite bind_done by (apply update_run; simpl; rewrite Hag4 by set_solver; exact Hn3).
  autorewrite with rb. simpl.
  assert (Hr5 : <[n := mk_node dir (ptr a) (ptr b) r cn sn]> ns4 !! r
    = Some (mk_node dir (ptr b) (ptr c) (cpar k) cr sr)).
  { rewrite lookup_insert_ne by set_solver. rewrite Hag4 by set_solver.
    unfold ns3. by simplify_map_eq. }
  erewrite update_run by exact Hr5. autorewrite with rb. simpl.
  eexists. split; [done|]. split; [|done].
  assert (Hdom : dom (<[n := mk_node dir (ptr a) (ptr b) r cn sn]> ns4) = dom (nodes st)).
  { rewrite dom_insert_L, Hd4. unfold ns3. rewrite dom_insert_L, Hd2. unfold ns1.
    rewrite dom_insert_L. apply elem_of_dom_2 in Hn, Hr. set_solver. }
  split_and!; simpl.
  - by rewrite ptr_plug, ptr_mk.
  - apply repr_plug. rewrite !repr_mk, !ptr_mk.
    assert (Hout : ∀ x, x ≠ n → x ≠ r →
      <[r := mk_node dir n (ptr c) (cpar k) cr sr]>
        (<[n := mk_node dir (ptr a) (ptr b) r cn sn]> ns4) !! x = ns4 !! x).
    { intros x ??. by rewrite !lookup_insert_ne. }
    split_and!; try done.
    + by simplify_map_eq.
    + rewrite lookup_insert_ne by set_solver. by simplify_map_eq.
    + eapply repr_frame; [|exact Ha]. intros x Hx. rewrite Hout by set_solver.
      rewrite Hag4 by set_solver. apply Hout3; set_solver.
    + eapply repr_frame; [|exact Hb2]. intros x Hx. rewrite Hout by set_solver.
      rewrite Hag4 by set_solver. unfold ns3. rewrite lookup_insert_ne by set_solver. done.
    + eapply repr_frame; [|exact Hc]. intros x Hx. rewrite Hout by set_solver.
      rewrite Hag4 by set_solver. apply Hout3; set_solver.
    + eapply repr_ctx_frame; [|exact Hk4]. intros x Hx. apply Hout; set_solver.
  - rewrite taddrs_plug, !taddrs_mk. eapply NoDup_Permutation_proper; [|exact Hnd].
    simpl. solve_Permutation.
  - rewrite dom_insert_L, Hdom, Hd. apply set_eq. intros x.
    rewrite elem_of_union, elem_of_singleton, !elem_of_list_to_set, !taddrs_plug, !taddrs_mk.
    set_solver.
Qed.
End primitives.
