(* ===== verification/RbInv.v ===== *)
(** * The red-black invariant

    Well-coloured trees of a given black height, the contexts that accept a
    subtree of a given colour and black height, and the key order.  The root
    may be red: [balance_tree_insert] leaves it red when it recolours it. *)
From S2P Require Import Prelude.
From S2P Require Import Interfaces.
From S2P Require Import RbTree.
From S2P Require Import RbRepr.

(** [rb t c n]: [t] has root colour [c] (absent is black), no red node has a
    red child, and every path down from [t] crosses [n] black nodes. *)
Inductive rb : tree → rb_col → nat → Prop :=
| rb_E : rb E BLACK 0
| rb_R l p s r n : rb l BLACK n → rb r BLACK n → rb (T RED l p s r) RED n
| rb_B l p s r cl cr n : rb l cl n → rb r cr n → rb (T BLACK l p s r) BLACK (S n).

Definition red_black (t : tree) : Prop := ∃ c n, rb t c n.

(** [kv k c n]: filling the hole of [k] with a tree of colour [c] and black
    height [n] gives a red-black tree. *)
Inductive kv : list frame → rb_col → nat → Prop :=
| kv_nil c n : kv [] c n
| kv_R d p s sib k n :
    rb sib BLACK n → kv k RED n → kv (Fr d RED p s sib :: k) BLACK n
| kv_B d p s sib cs k c n :
    rb sib cs n → kv k BLACK (S n) → kv (Fr d BLACK p s sib :: k) c n.

Lemma rb_mk_R d x p s y n :
  rb x BLACK n → rb y BLACK n → rb (mk d RED x p s y) RED n.
Proof. destruct d; by constructor. Qed.
Lemma rb_mk_B d x p s y cx cy n :
  rb x cx n → rb y cy n → rb (mk d BLACK x p s y) BLACK (S n).
Proof. destruct d; by econstructor. Qed.

Create HintDb rb.
#[export] Hint Constructors rb kv : rb.
#[export] Hint Resolve rb_mk_R rb_mk_B : rb.

Lemma kv_plug k c n t : kv k c n → rb t c n → red_black (plug k t).
Proof.
  intros Hk; revert t.
  induction Hk as [c n|d p s sib k n Hs Hk IH|d p s sib cs k c n Hs Hk IH];
    intros t Ht; simpl; [by repeat eexists|..]; apply IH; unfold plug1; simpl; eauto with rb.
Qed.

Lemma rb_mk_inv d c x p s y c' n :
  rb (mk d c x p s y) c' n →
  c' = c ∧ match c with
    | RED => rb x BLACK n ∧ rb y BLACK n
    | BLACK => ∃ m cx cy, n = S m ∧ rb x cx m ∧ rb y cy m
    end.
Proof.
  intros Hrb. destruct d; simpl in Hrb; inversion Hrb; subst; split; try done;
    (repeat eexists; done).
Qed.

Lemma plug_kv k t : red_black (plug k t) → ∃ c n, kv k c n ∧ rb t c n.
Proof.
  revert t; induction k as [|[d c p s sib] k IH]; intros t; simpl.
  { intros (c&n&?). eauto with rb. }
  intros (c'&n&Hk&Hrb)%IH. apply rb_mk_inv in Hrb as [-> Hrb]. simpl in *. destruct c.
  - destruct Hrb. exists BLACK, n. eauto with rb.
  - destruct Hrb as (m&cx&cy&->&?&?). exists cx, m. eauto with rb.
Qed.

Lemma rb_tcolor t c n : rb t c n → tcolor t = c.
Proof. by destruct 1. Qed.

Lemma rb_S_inv t c n : rb t c (S n) → t ≠ E.
Proof. intros Hrb ->. inversion Hrb. Qed.

(** The entities from left to right. *)
Definition entities (t : tree) : list Z := (inorder t).*2.

(** The key of an entity in a store. *)
Definition key_of (es : gmap Z sched_entity_t) (s : Z) : Z :=
  match es !! s with Some e => vruntime e | None => 0 end.

(** Keys grow from left to right. *)
Definition ordered (es : gmap Z sched_entity_t) (t : tree) : Prop :=
  StronglySorted (λ s s', key_of es s ≤ key_of es s') (entities t).

(** Everything the scheduler relies on: the store is a well-coloured search
    tree over known entities, [leftmost] points to its first node and the
    nodes are live heap objects. *)
Record rb_ok {H} `{!Allocator H} (ok : H → Prop) (st : rb_state H) (t : tree) : Prop := {
  ok_repr : represents st t;
  ok_rb : red_black t;
  ok_ents : Forall (λ s, is_Some (ents st !! s)) (entities t);
  ok_ordered : ordered (ents st) t;
  ok_leftmost : leftmost st = default 0 (head (taddrs t));
  ok_heap : ok (heap st);
  ok_live : list_to_set (taddrs t) ⊆ h_live (heap st);
}.
