(* ===== verification/RbInsert.v ===== *)
(** * [rb_insert] is a red-black insertion

    Rebalancing after an insertion, the search for the place of a new node,
    and the correctness of [rb_insert] as a whole. *)
From S2P Require Import Prelude.
From S2P Require Import Interfaces.
From S2P Require Import RbTree.
From S2P Require Import RbRepr.
From S2P Require Import RbInv.

Section balance.
Context {H : Type}.
Implicit Types (st : rb_state H) (k : list frame).

(** The outcome of a rebalancing step: some red-black tree with the same
    nodes in the same order. *)
Definition rebalanced (m : M (rb_state H) unit) st (l : list (Z * Z)) : Prop :=
  ∃ st' t', m st = Done (tt, st') ∧ represents st' t' ∧ red_black t' ∧
    inorder t' = l ∧ same_env st st'.

(** The external case: one rotation and two recolourings. *)
Lemma outer_fix st k e A q sq y g sg u n :
  represents st (plug k (mk e BLACK u g sg (mk e RED y q sq A))) →
  rb A RED n → rb y BLACK n → rb u BLACK n → kv k BLACK (S n) →
  rebalanced (rotate g e;; update g (with_color RED);; update q (with_color BLACK)) st
    (inorder (plug k (mk e BLACK u g sg (mk e RED y q sq A)))).
Proof.
  intros Hr HA Hy Hu Hk.
  destruct (rotate_spec _ _ _ _ _ _ _ _ _ _ _ _ Hr) as (st1&Hrun1&Hr1&He1).
  unfold rebalanced. erewrite bind_done by exact Hrun1.
  destruct (recolor_focus st1 (Fr e RED q sq A :: k) e BLACK u g sg y RED Hr1)
    as (st2&Hrun2&Hr2&He2&_).
  erewrite bind_done by exact Hrun2.
  destruct (recolor_focus st2 k e RED (mk e RED u g sg y) q sq A BLACK Hr2)
    as (st3&Hrun3&Hr3&He3&_).
  exists st3. eexists. split_and!; [exact Hrun3|exact Hr3| | |by do 2 etransitivity].
  - eapply kv_plug; [exact Hk|]. eauto with rb.
  - apply inorder_plug_eq, inorder_rotate.
Qed.

(** The uncle is red: three recolourings move the conflict up. *)
Lemma uncle_fix st k d d1 x p sp y g sg d2 z u su w :
  represents st (plug k (mk d BLACK (mk d1 RED x p sp y) g sg (mk d2 RED z u su w))) →
  ∃ st', (∀ B (K : M (rb_state H) B),
      (update p (with_color BLACK);; update u (with_color BLACK);;
       update g (with_color RED);; K) st = K st') ∧
    represents st' (plug k (mk d RED (mk d1 BLACK x p sp y) g sg (mk d2 BLACK z u su w))) ∧
    same_env st st'.
Proof.
  intros Hr.
  destruct (recolor_focus st (Fr d BLACK g sg (mk d2 RED z u su w) :: k) d1 RED x p sp y BLACK Hr)
    as (st1&Hrun1&Hr1&He1&_). rewrite plug_sib in Hr1.
  destruct (recolor_focus st1 _ d2 RED z u su w BLACK Hr1) as (st2&Hrun2&Hr2&He2&_).
  rewrite <-plug_sib in Hr2.
  destruct (recolor_focus st2 k d BLACK _ g sg _ RED Hr2) as (st3&Hrun3&Hr3&He3&_).
  exists st3. split_and!; [|exact Hr3|by do 2 etransitivity]. intros B K.
  erewrite bind_done by exact Hrun1. erewrite bind_done by exact Hrun2.
  by erewrite bind_done by exact Hrun3.
Qed.

Lemma sib_ptr_ne st d c p s sib k t :
  represents st (plug (Fr d c p s sib :: k) t) → ptr t ≠ 0 → ptr t ≠ ptr sib.
Proof.
  intros (_&_&Hnd&_) Hnz Heq. simpl in Hnd. rewrite taddrs_plug in Hnd.
  unfold plug1 in Hnd; rewrite taddrs_mk in Hnd; simpl in Hnd.
  apply NoDup_cons in Hnd as [_ Hnd]. apply NoDup_app in Hnd as [Hnd _].
  apply NoDup_app in Hnd as (_&Hnd&_). apply (Hnd (ptr t)); [by apply ptr_in_taddrs|].
  rewrite Heq. apply ptr_in_taddrs. congruence.
Qed.

(** The uncle is black: at most two rotations end the rebalancing. *)
Lemma black_uncle_fix st k d d' t p sp sib g sg u n :
  represents st (plug k (mk d' BLACK (mk d RED t p sp sib) g sg u)) →
  rb t RED n → rb sib BLACK n → rb u BLACK n → kv k BLACK (S n) →
  rebalanced
    (pn ← load p;
     parent ← (if decide (ptr t = n_child (flip_dir d') pn) then
                 rotate p d';; gn ← load g; mret (n_child d' gn)
               else mret p);
     rotate g (flip_dir d');; update g (with_color RED);;
     update parent (with_color BLACK)) st
    (inorder (plug k (mk d' BLACK (mk d RED t p sp sib) g sg u))).
Proof.
  intros Hr Ht Hsib Hu Hk. unfold rebalanced.
  set (kp := Fr d RED p sp sib :: Fr d' BLACK g sg u :: k).
  assert (Ht0 : t ≠ E) by (intros ->; inversion Ht).
  destruct (mk_surj t d' Ht0) as (ct&x&q&sq&y&->).
  apply rb_mk_inv in Ht as [<- [Hx Hy]]. rewrite ptr_mk.
  assert (Hq0 : q ≠ 0) by apply (represents_lookup_mk st kp d' RED x q sq y Hr).
  pose proof (sib_ptr_ne st _ _ _ _ _ _ _ (Hr : represents st (plug kp _))) as Hne.
  rewrite ptr_mk in Hne. specialize (Hne Hq0).
  erewrite bind_done by (exact (load_focus_mk st (Fr d' BLACK g sg u :: k) d _ _ _ _ _ Hr)).
  rewrite ptr_mk.
  destruct (decide (d = d')) as [->|Hd].
  - rewrite n_child_mk_flip, decide_False by done. step.
    rewrite <-(mk_flip d' BLACK u), <-(mk_flip d' RED sib) in Hr |- *.
    eapply outer_fix; eauto with rb.
  - assert (Hd' : d = flip_dir d') by (by destruct d, d'). subst d.
    rewrite n_child_mk_same, decide_True by done.
    rewrite mk_flip in Hr |- *.
    destruct (rotate_spec st (Fr d' BLACK g sg u :: k) d' _ _ _ _ _ _ _ _ _ Hr)
      as (st1&Hrun1&Hr1&He1).
    step. erewrite bind_done by exact Hrun1. step.
    erewrite bind_done by (exact (load_focus_mk st1 k d' _ _ _ _ _ Hr1)).
    step. rewrite n_child_mk_same, ptr_mk.
    cbn [plug plug1 f_dir f_col f_p f_s f_sib] in Hr1. unfold plug1 in Hr1; simpl in Hr1.
    rewrite <-(mk_flip d' BLACK u), <-(mk_flip d' RED y) in Hr1.
    destruct (outer_fix st1 k (flip_dir d') _ _ _ _ _ _ _ n Hr1) as (st2&t'&Hrun2&?&?&Hin&?);
      eauto with rb.
    exists st2, t'. split_and!; try done; [|by etransitivity].
    rewrite Hin. apply inorder_plug_eq. rewrite !mk_flip.
    apply inorder_mk_eq; [|done]. apply inorder_rotate.
Qed.

Lemma balance_insert_loop_ok fuel st k t n :
  represents st (plug k t) → rb t RED n → kv k BLACK n → k ≠ [] →
  (length k ≤ fuel)%nat →
  rebalanced (balance_insert_loop fuel (ptr t) (cpar k)) st (inorder (plug k t)).
Proof.
  revert st k t n. induction fuel as [|fuel IH]; intros st k t n Hr Ht Hk Hne Hlen.
  { destruct k; [done|simpl in Hlen; lia]. }
  destruct k as [|[d cp p sp sib] k]; [done|]. cbn [cpar f_p balance_insert_loop].
  unfold rebalanced.
  erewrite bind_done by (exact (load_focus_mk st k d _ _ _ _ _ Hr)).
  rewrite n_color_mk, n_parent_mk. destruct cp; [rewrite decide_False by done|].
  2:{ rewrite decide_True by done. exists st. eexists. split_and!; [done|exact Hr| |done..].
      eapply kv_plug; [|exact Ht]. inversion Hk; subst. eauto with rb. }
  inversion Hk as [|? ? ? ? ? ? Hsib Hk0|]; subst.
  destruct k as [|[d' cg g sg u] k].
  { simpl. destruct (recolor_focus st [] d RED t p sp sib BLACK Hr) as (st1&Hrun&Hr1&He&_).
    exists st1. eexists. split_and!; [exact Hrun|exact Hr1| | |done].
    - repeat eexists. eauto with rb.
    - simpl. apply inorder_mk_color. }
  assert (Hg0 : g ≠ 0) by apply (represents_lookup_mk st k d' cg _ g sg u Hr).
  cbn [cpar f_p]. rewrite decide_False by done.
  inversion Hk0 as [| |? ? ? ? cu ? ? ? Hu Hk1]; subst.
  pose proof (DIR_focus st d' BLACK g sg u k (mk d RED t p sp sib) Hr) as HD.
  rewrite ptr_mk in HD. erewrite bind_done.
  2:{ apply HD. apply (represents_lookup_mk st (Fr d' BLACK g sg u :: k) d RED t p sp sib Hr). }
  erewrite bind_done by (exact (load_focus_mk st k d' _ _ _ _ _ Hr)).
  rewrite n_child_mk_flip. pose proof Hr as Hru. cbn [plug] in Hru.
  change (represents st (plug (Fr d' BLACK g sg u :: k) (mk d RED t p sp sib))) in Hru.
  rewrite plug_sib in Hru.
  erewrite bind_done by (exact (null_or_black_spec _ _ _ Hru)).
  rewrite (rb_tcolor _ _ _ Hu). destruct cu.
  - rewrite bool_decide_false by done.
    assert (Hu0 : u ≠ E) by (intros ->; inversion Hu).
    destruct (mk_surj u LEFT Hu0) as (cu&z&pu&su&w&->).
    apply rb_mk_inv in Hu as [<- [Hz Hw]].
    destruct (uncle_fix st k d' d t p sp sib g sg LEFT z pu su w Hr) as (st1&Hrun1&Hr1&He1).
    rewrite Hrun1. erewrite bind_done by (exact (load_focus_mk st1 k d' _ _ _ _ _ Hr1)).
    rewrite n_parent_mk.
    assert (Hrb1 : rb (mk d' RED (mk d BLACK t p sp sib) g sg (mk LEFT BLACK z pu su w)) RED (S n))
      by eauto with rb.
    assert (Hin : inorder (plug k (mk d' RED (mk d BLACK t p sp sib) g sg (mk LEFT BLACK z pu su w)))
      = inorder (plug k (mk d' BLACK (mk d RED t p sp sib) g sg (mk LEFT RED z pu su w)))).
    { apply inorder_plug_eq. apply inorder_mk_eq; apply inorder_mk_color. }
    destruct k as [|f k]; simpl cpar.
    { exists st1. eexists. split_and!; [done|exact Hr1| |exact Hin|done]. by repeat eexists. }
    assert (Hf0 : f_p f ≠ 0).
    { destruct f as [df cf pf sf yf]. apply (represents_lookup_mk st k df cf _ pf sf yf Hr). }
    rewrite decide_False by done.
    destruct (IH st1 (f :: k) _ _ Hr1 Hrb1 Hk1) as (st2&t2&Hrun2&?&?&Hin2&?);
      [done|simpl in *; lia|].
    rewrite ptr_mk in Hrun2. exists st2, t2. split_and!; try done; [|by etransitivity].
    by rewrite Hin2.
  - rewrite bool_decide_true by done. apply (black_uncle_fix st k d d' t p sp sib g sg u n);
      eauto with rb.
Qed.
End balance.

Section search.
Context {H : Type}.
Implicit Types (st : rb_state H) (k : list frame).

Lemma entity_key_run st s :
  is_Some (ents st !! s) → entity_key s st = Done (key_of (ents st) s, st).
Proof.
  intros [e He]. unfold entity_key, key_of. rewrite He.
  erewrite bind_done; [done|]. by apply (getf_done (λ st, ents st !! s)).
Qed.

Lemma load_link_run st k t :
  repr (nodes st) 0 (plug k t) → root st = ptr (plug k t) →
  load_link (link_of k) st = Done (ptr t, st).
Proof.
  intros Hr Hroot. destruct k as [|[d c p s sib] k]; simpl.
  { simpl in Hroot. rewrite <-Hroot. done. }
  cbn [plug] in Hr. unfold plug1 in Hr; simpl in Hr. rewrite repr_plug in Hr.
  destruct Hr as [Hr _]. rewrite repr_mk in Hr. destruct Hr as (_&Hp&_).
  erewrite bind_done by (by apply load_run). by rewrite n_child_mk_same.
Qed.

Lemma plug_app k1 k2 t : plug (k1 ++ k2) t = plug k2 (plug k1 t).
Proof. revert t; induction k1; intros; simpl; auto. Qed.
Lemma kleft_app k1 k2 : kleft (k1 ++ k2) = kleft k2 ++ kleft k1.
Proof.
  induction k1 as [|[d c p s sib] k IH]; simpl; [by rewrite app_nil_r|].
  by rewrite IH, <-app_assoc.
Qed.
Lemma kright_app k1 k2 : kright (k1 ++ k2) = kright k1 ++ kright k2.
Proof. induction k1 as [|[d c p s sib] k IH]; simpl; [done|]. by rewrite IH, <-app_assoc. Qed.

(** The order of a node's key against its subtrees. *)
Lemma ordered_T es c l p s r :
  ordered es (T c l p s r) →
  ordered es l ∧ ordered es r ∧
  Forall (λ x, key_of es x ≤ key_of es s) (entities l) ∧
  Forall (λ x, key_of es s ≤ key_of es x) (entities r).
Proof.
  unfold ordered, entities; simpl. rewrite fmap_app, fmap_cons. intros Hs.
  apply StronglySorted_app in Hs as (Hlr&Hl&Hr). apply StronglySorted_cons in Hr as [Hsr Hr].
  split_and!; [done..| |].
  - apply Forall_forall. intros x Hx. apply Hlr; [done|by left].
  - done.
Qed.

(** The descent of [rb_insert] ends at an empty slot with the smaller and
    equal keys to its left and the larger keys to its right. *)
Lemma insert_loop_ok t fuel st key k lm :
  repr (nodes st) 0 (plug k t) → root st = ptr (plug k t) →
  Forall (λ s, is_Some (ents st !! s)) (entities t) → ordered (ents st) t →
  (length (taddrs t) < fuel)%nat →
  ∃ k1, insert_loop fuel key (link_of k) (cpar k) lm st
        = Done ((link_of (k1 ++ k), cpar (k1 ++ k), lm && bool_decide (kleft k1 = [])), st) ∧
    plug k1 E = t ∧
    Forall (λ x, key_of (ents st) (x.2) ≤ key) (kleft k1) ∧
    Forall (λ x, key < key_of (ents st) (x.2)) (kright k1).
Proof.
  revert fuel k lm. induction t as [|c l IHl p s r IHr]; intros fuel k lm Hr Hroot He Ho Hf;
    (destruct fuel as [|fuel]; [lia|]); cbn [insert_loop].
  - erewrite bind_done by (by eapply load_link_run). rewrite decide_True by done.
    exists []. simpl. by rewrite andb_true_r.
  - erewrite bind_done by (by eapply load_link_run). cbn [ptr].
    pose proof Hr as Hr'. rewrite repr_plug in Hr'. destruct Hr' as [(Hp0&Hp&_) _].
    rewrite decide_False by done. erewrite bind_done by (by apply load_run). simpl n_se.
    assert (Forall (λ s, is_Some (ents st !! s)) (entities l) ∧ is_Some (ents st !! s) ∧
      Forall (λ s, is_Some (ents st !! s)) (entities r)) as (Hel&Hes&Her).
    { unfold entities in *. simpl in He. rewrite fmap_app, fmap_cons in He.
      apply Forall_app in He as [? He]. by apply Forall_cons in He as [? ?]. }
    destruct (ordered_T _ _ _ _ _ _ Ho) as (Hol&Hor&Hll&Hrr).
    erewrite bind_done by (by apply entity_key_run).
    simpl in Hf. rewrite length_app in Hf; simpl in Hf. case_decide as Hkey.
    + destruct (IHl fuel (Fr LEFT c p s r :: k) lm) as (k1&Hrun&Hpl&HL&HR); try done; [lia|].
      exists (k1 ++ [Fr LEFT c p s r]). rewrite <-app_assoc. simpl app. split_and!.
      * rewrite kleft_app. simpl. exact Hrun.
      * by rewrite plug_app, Hpl.
      * by rewrite kleft_app.
      * rewrite kright_app. simpl. apply Forall_app. split; [done|]. rewrite app_nil_r.
        apply Forall_cons; split; [done|]. unfold entities in Hrr.
        rewrite Forall_fmap in Hrr. eapply Forall_impl; [exact Hrr|]. simpl. intros; lia.
    + destruct (IHr fuel (Fr RIGHT c p s l :: k) false) as (k1&Hrun&Hpl&HL&HR); try done; [lia|].
      exists (k1 ++ [Fr RIGHT c p s l]). rewrite <-app_assoc. simpl app. split_and!.
      * rewrite kleft_app. etransitivity; [exact Hrun|]. simpl. do 3 f_equal.
        destruct (inorder l); simpl; by rewrite andb_false_r.
      * by rewrite plug_app, Hpl.
      * rewrite kleft_app. simpl. apply Forall_app. split; [|done]. apply Forall_app; split.
        { unfold entities in Hll. rewrite Forall_fmap in Hll.
          eapply Forall_impl; [exact Hll|]. simpl; intros; lia. }
        apply Forall_singleton. simpl; lia.
      * rewrite kright_app. simpl. by rewrite app_nil_r.
Qed.
End search.

Section insert.
Context {H : Type} `{!Allocator H} (ok : H → Prop) `{!AllocatorLaws H ok}.
Context (uninit : rb_node_t).
Implicit Types (st : rb_state H) (k : list frame).

Lemma kaddrs_length k t : (length k ≤ length (taddrs (plug k t)))%nat.
Proof.
  rewrite taddrs_plug, length_app. induction k as [|f k IH]; simpl; [lia|].
  rewrite length_app. lia.
Qed.

(** Hanging a fresh red leaf into the empty slot of a context. *)
Lemma hang_leaf st k run se x y :
  repr (nodes st) 0 (plug k E) → NoDup (taddrs (plug k E)) →
  root st = ptr (plug k E) → run ≠ 0 → run ∉ taddrs (plug k E) →
  dom (nodes st) = {[run]} ∪ list_to_set (taddrs (plug k E)) →
  nodes st !! run = Some (mk_rb_node 0 0 x y se) → y = RED →
  ∃ st', (∀ B (K : M (rb_state H) B),
      (update run (with_parent (cpar k));; store_link (link_of k) run;; K) st = K st') ∧
    represents st' (plug k (T RED E run se E)) ∧ same_env st st'.
Proof.
  intros Hr Hnd Hroot Hrun0 Hfresh Hd Hrun ->.
  rewrite taddrs_plug in Hnd, Hfresh; simpl in Hnd, Hfresh.
  rewrite repr_plug in Hr. destruct Hr as [_ Hk]. rewrite ptr_plug in Hroot.
  set (ns1 := <[run := mk_rb_node 0 0 (cpar k) RED se]> (nodes st)).
  destruct (store_link_spec (set_nodes ns1 st) 0 run k) as (ns2&Hrun2&Hk2&Hag2&Hd2); simpl.
  { eapply repr_ctx_frame; [|exact Hk]. intros a Ha. unfold ns1.
    rewrite lookup_insert_ne; [done|]. set_solver. }
  { done. }
  { done. }
  eexists. split_and!.
  - intros B K. erewrite bind_done by (by apply update_run).
    erewrite bind_done by exact Hrun2. done.
  - split_and!; simpl in *.
    + by rewrite ptr_plug.
    + apply repr_plug; simpl. split_and!; try done. rewrite Hag2 by done.
      unfold ns1. by simplify_map_eq.
    + rewrite taddrs_plug; simpl. constructor; done.
    + rewrite Hd2. unfold ns1. rewrite dom_insert_L, Hd. apply set_eq. intros a.
      rewrite !elem_of_union, elem_of_singleton, !elem_of_list_to_set, !taddrs_plug; simpl.
      set_solver.
  - done.
Qed.

(** The allocation and the initialisation of the new node. *)
Lemma new_node_run st se p h' B (K : Z → M (rb_state H) B) :
  h_alloc sizeof_rb_node (heap st) = Done (p, h') → p ≠ 0 →
  (run ← alloc_node uninit;
   update run (with_color RED);; update run (with_child RIGHT 0);;
   update run (with_child LEFT 0);; update run (with_se se);; K run) st
  = K p (set_nodes (<[p := mk_rb_node 0 0 (n_parent uninit) RED se]> (nodes st))
          (set_heap h' st)).
Proof.
  intros Ha Hp. unfold alloc_node. step. erewrite bind_done.
  2:{ unfold zoom. rewrite Ha. done. }
  rewrite decide_False by done. repeat step.
  erewrite bind_done by (apply update_run; simpl; by simplify_map_eq).
  erewrite bind_done by (apply update_run; simpl; by simplify_map_eq).
  erewrite bind_done by (apply update_run; simpl; by simplify_map_eq).
  erewrite bind_done by (apply update_run; simpl; by simplify_map_eq).
  simpl. unfold set_nodes, set_heap; simpl. by rewrite !insert_insert_eq.
Qed.

Lemma ordered_insert es l1 l2 s :
  StronglySorted (λ s s', key_of es s ≤ key_of es s') (l1 ++ l2) →
  Forall (λ x, key_of es x ≤ key_of es s) l1 → Forall (λ x, key_of es s < key_of es x) l2 →
  StronglySorted (λ s s', key_of es s ≤ key_of es s') (l1 ++ s :: l2).
Proof.
  rewrite !StronglySorted_app. intros (Hlr&H1&H2) F1 F2. rewrite !Forall_forall in *.
  split_and!; [|done|].
  - intros x1 x2 Hx1 [->|Hx2]%elem_of_cons; eauto.
  - apply SSorted_cons; [done|]. apply Forall_forall. intros x Hx. specialize (F2 x Hx). lia.
Qed.

Lemma head_insert (l1 l2 : list Z) x :
  default 0 (head (l1 ++ x :: l2)) = if decide (l1 = []) then x else default 0 (head (l1 ++ l2)).
Proof. by destruct l1. Qed.

(** Inserting keeps every invariant of the tree and puts the entity after
    the entities with smaller or equal keys and before the larger ones. *)
Lemma rb_insert_spec st t se p h' :
  rb_ok ok st t → is_Some (ents st !! se) →
  h_alloc sizeof_rb_node (heap st) = Done (p, h') → p ≠ 0 →
  ∃ st' t' l1 l2, rb_insert uninit se st = Done (tt, st') ∧ rb_ok ok st' t' ∧
    ents st' = ents st ∧ heap st' = h' ∧
    entities t = l1 ++ l2 ∧ entities t' = l1 ++ se :: l2 ∧
    Forall (λ x, key_of (ents st) x ≤ key_of (ents st) se) l1 ∧
    Forall (λ x, key_of (ents st) se < key_of (ents st) x) l2.
Proof.
  intros [(Hroot&Hr&Hnd&Hd) Hrb He Ho Hlm Hok Hlive] Hse Ha Hp.
  destruct (alloc_ok (heap st) sizeof_rb_node p h' Hok ltac:(unfold sizeof_rb_node; lia) Ha) as (Hok'&_&Hfr).
  destruct (Hfr Hp) as [Hpl Hlive'].
  assert (Hpt : p ∉ taddrs t) by set_solver.
  set (st1 := set_nodes (<[p := mk_rb_node 0 0 (n_parent uninit) RED se]> (nodes st))
          (set_heap h' st)).
  destruct (insert_loop_ok t (tree_fuel st1) st1 (key_of (ents st) se) [] true)
    as (k&Hloop&Hpl1&HL&HR); simpl; try done.
  { eapply repr_frame; [|exact Hr]. intros a Hain. simpl. rewrite lookup_insert_ne; [done|].
    set_solver. }
  { unfold tree_fuel, st1; simpl. rewrite map_size_insert_None.
    - rewrite <-size_dom, Hd, size_list_to_set by done. lia.
    - apply not_elem_of_dom. rewrite Hd. by rewrite elem_of_list_to_set. }
  rewrite app_nil_r in Hloop. subst t.
  set (st2 := if bool_decide (kleft k = []) then set_leftmost p st1 else st1).
  destruct (hang_leaf st2 k p se (n_parent uninit) RED) as (st3&Hrun3&Hr3&He3); try done.
  { unfold st2. case_bool_decide; (eapply repr_frame; [|exact Hr]); intros a Hain; simpl;
      (rewrite lookup_insert_ne; [done|]); set_solver. }
  { unfold st2. by case_bool_decide. }
  { unfold st2. case_bool_decide; simpl; rewrite dom_insert_L, Hd; done. }
  { unfold st2. case_bool_decide; simpl; by simplify_map_eq. }
  assert (Hents2 : ents st2 = ents st ∧ heap st2 = h') by (unfold st2; by case_bool_decide).
  assert (Hk0 : kv k BLACK 0).
  { destruct (plug_kv _ _ Hrb) as (c&n&Hkv&Hrbe). by inversion Hrbe; subst. }
  assert (Hbal : rebalanced (balance_tree_insert p (cpar k)) st3
    (inorder (plug k (T RED E p se E)))).
  { unfold balance_tree_insert. destruct k as [|f k].
    - simpl. destruct (recolor_focus st3 [] LEFT RED E p se E BLACK Hr3) as (st4&Hrun4&Hr4&He4&_).
      exists st4, (T BLACK E p se E). split_and!; try done. repeat eexists. eauto with rb.
    - rewrite decide_False.
      2:{ destruct f as [df cf pf sf yf]. apply (represents_lookup_mk st3 k df cf _ pf sf yf Hr3). }
      unfold rebalanced. step. apply (balance_insert_loop_ok _ st3 (f :: k) (T RED E p se E) 0); eauto with rb.
      unfold tree_fuel. rewrite (size_represents _ _ Hr3).
      pose proof (kaddrs_length (f :: k) (T RED E p se E)). lia. }
  destruct Hbal as (st4&t4&Hrun4&Hr4&Hrb4&Hin4&He4).
  rewrite inorder_plug in Hin4. simpl in Hin4.
  assert (Hent : entities t4 = (kleft k).*2 ++ se :: (kright k).*2).
  { unfold entities. by rewrite Hin4, fmap_app, fmap_cons. }
  assert (Hent0 : entities (plug k E) = (kleft k).*2 ++ (kright k).*2).
  { unfold entities. by rewrite inorder_plug, fmap_app. }
  destruct He4 as (Hl4&Hes4&Hh4), He3 as (Hl3&Hes3&Hh3), Hents2 as [Hes2 Hh2].
  assert (Hes : ents st4 = ents st) by congruence.
  exists st4, t4, (kleft k).*2, (kright k).*2. split_and!; try done; try congruence.
  - unfold rb_insert. erewrite bind_done by (by apply entity_key_run).
    erewrite new_node_run by done. fold st1. step. erewrite bind_done by exact Hloop.
    cbv beta iota. rewrite andb_true_l. erewrite bind_done.
    2:{ instantiate (1 := st2). instantiate (1 := tt). unfold st2. by case_bool_decide. }
    rewrite Hrun3. exact Hrun4.
  - constructor; rewrite ?Hes; try done.
    + rewrite Hent. apply Forall_app. rewrite Hent0 in He. apply Forall_app in He as [??].
      split; [done|]. by constructor.
    + unfold ordered. rewrite Hent. apply ordered_insert.
      * by rewrite <-Hent0.
      * by rewrite Forall_fmap.
      * by rewrite Forall_fmap.
    + rewrite Hl4, Hl3, <-(inorder_taddrs t4), Hin4, fmap_app, fmap_cons, head_insert.
      unfold st2. rewrite <-inorder_taddrs, inorder_plug, fmap_app in Hlm.
      case_bool_decide as Hk; simpl.
      * by rewrite Hk.
      * rewrite decide_False; [exact Hlm|]. by destruct (kleft k).
    + rewrite Hh4, Hh3, Hh2. done.
    + rewrite Hh4, Hh3, Hh2, Hlive'. rewrite <-(inorder_taddrs t4), Hin4.
      rewrite <-inorder_taddrs, inorder_plug in Hlive. rewrite !fmap_app, ?fmap_cons in *.
      simpl in *. rewrite list_to_set_app_L, list_to_set_cons, ?list_to_set_app_L in *.
      set_solver.
  - by rewrite Forall_fmap.
  - by rewrite Forall_fmap.
Qed.
End insert.

(** ** Properties of [rb_insert] *)

(** A two-level tree in memory, for the examples: entity [s] has key [s]. *)
Definition ex_tree : tree := T BLACK (T RED E 64 3 E) 128 5 (T RED E 192 8 E).
Definition ex_ents : gmap Z sched_entity_t :=
  list_to_map ((λ s, (s, mk_sched_entity s 0)) <$> [3; 4; 5; 8; 9]).
Definition ex_state : rb_state bump :=
  mk_rb_state 128 64
    (list_to_map [(64, mk_rb_node 0 0 128 RED 3); (128, mk_rb_node 64 192 0 BLACK 5);
                  (192, mk_rb_node 0 0 128 RED 8)])
    ex_ents (mk_bump 256 {[64; 128; 192]}).
Definition ex_uninit : rb_node_t := mk_rb_node 7 7 7 BLACK 7.

Lemma ex_state_ok : rb_ok bump_ok ex_state ex_tree.
Proof.
  constructor.
  - unfold represents. split_and!; try done.
    apply (bool_decide_unpack _). by vm_compute.
  - exists BLACK, 1%nat. eauto with rb.
  - repeat constructor; by eexists.
  - unfold ordered. simpl. repeat constructor; by vm_compute.
  - done.
  - split; simpl; [lia|]. intros a Ha. set_solver by lia.
  - set_solver.
Qed.

(** C1: with a heap that grants the allocation, [rb_insert] returns, the store
    is again a red-black search tree over known entities with [leftmost] on
    its first node and all nodes live, and the new entity stands after every
    entity with a smaller or equal key and before every larger one. *)
Theorem rb_insert_correct {H} `{!Allocator H} (ok : H → Prop) `{!AllocatorLaws H ok}
    uninit (st : rb_state H) t se p h' :
  rb_ok ok st t → is_Some (ents st !! se) →
  h_alloc sizeof_rb_node (heap st) = Done (p, h') → p ≠ 0 →
  ∃ st' t' l1 l2, rb_insert uninit se st = Done (tt, st') ∧ rb_ok ok st' t' ∧
    ents st' = ents st ∧ heap st' = h' ∧
    entities t = l1 ++ l2 ∧ entities t' = l1 ++ se :: l2 ∧
    Forall (λ x, key_of (ents st) x ≤ key_of (ents st) se) l1 ∧
    Forall (λ x, key_of (ents st) se < key_of (ents st) x) l2.
Proof. exact (rb_insert_spec ok uninit st t se p h'). Qed.

Lemma rb_insert_correct_witness :
  ∃ st' t' l1 l2, rb_insert ex_uninit 4 ex_state = Done (tt, st') ∧ rb_ok bump_ok st' t' ∧
    ents st' = ents ex_state ∧ heap st' = mk_bump 296 ({[256]} ∪ {[64; 128; 192]}) ∧
    entities ex_tree = l1 ++ l2 ∧ entities t' = l1 ++ 4 :: l2 ∧
    Forall (λ x, key_of ex_ents x ≤ key_of ex_ents 4) l1 ∧
    Forall (λ x, key_of ex_ents 4 < key_of ex_ents x) l2.
Proof.
  apply (rb_insert_correct bump_ok ex_uninit ex_state ex_tree 4 256
    (mk_bump 296 ({[256]} ∪ {[64; 128; 192]}))); [apply ex_state_ok|by eexists|done|lia].
Defined.

(** When the heap is exhausted ([alloc] returns [NULL]), [rb_insert]
    writes through the null pointer: it does not check the result. *)
Lemma rb_insert_out_of_memory {H} `{!Allocator H} (ok : H → Prop)
    uninit (st : rb_state H) t se h' :
  rb_ok ok st t → is_Some (ents st !! se) →
  h_alloc sizeof_rb_node (heap st) = Done (0, h') →
  rb_insert uninit se st = Fault.
Proof.
  intros Hok Hse Ha. unfold rb_insert. erewrite bind_done by (by apply entity_key_run).
  unfold alloc_node. step. erewrite bind_done by (unfold zoom; rewrite Ha; done).
  rewrite decide_True by done. step. apply bind_fault.
  unfold update, modifyf. simpl. replace (nodes st !! 0) with (@None rb_node_t); [done|].
  symmetry. apply not_elem_of_dom. destruct Hok as [(_&Hr&_&Hd) _ _ _ _ _ _].
  rewrite Hd, elem_of_list_to_set. by eapply repr_nonnull.
Qed.

(** An allocator that never grants anything. *)
#[local] Instance exhausted_allocator : Allocator unit := {|
  h_alloc := λ _ h, Done (0, h);
  h_free := λ _ h, Done (tt, h);
  h_live := λ _, ∅;
|}.

Lemma rb_insert_out_of_memory_witness :
  rb_insert ex_uninit 4 (mk_rb_state 0 0 ∅ ex_ents tt) = Fault.
Proof.
  apply (rb_insert_out_of_memory (λ _, True) ex_uninit (mk_rb_state 0 0 ∅ ex_ents tt) E 4 tt).
  - constructor; try done.
    + unfold represents. split_and!; try done. constructor.
    + by exists BLACK, 0%nat; constructor.
    + constructor.
  - by eexists.
  - done.
Defined.
