(* ===== verification/RbRemove.v ===== *)
(** * [rb_remove] is a red-black removal

    Rebalancing before a black leaf is cut off, the three ways a node leaves
    the tree, the search, and the correctness of [rb_remove]. *)
From S2P Require Import Prelude.
From S2P Require Import Interfaces.
From S2P Require Import RbTree.
From S2P Require Import RbRepr.
From S2P Require Import RbInv.
From S2P Require Import RbInsert.

Section balance.
Context {H : Type}.
Implicit Types (st : rb_state H) (k : list frame).

(** Two contexts around the same nodes in the same order, whose hole is on
    the same side of its parent. *)
Definition kdir k : option dir_t := f_dir <$> head k.
Definition ksame k k' : Prop :=
  kdir k' = kdir k ∧ ∀ y, inorder (plug k' y) = inorder (plug k y).

(** Rebalancing above the subtree [x]: [k'] accepts a subtree that is one
    black node shorter than what [k] accepts. *)
Definition shortened (m : M (rb_state H) unit) st k x (n : nat) : Prop :=
  ∃ st' k', m st = Done (tt, st') ∧ represents st' (plug k' x) ∧ kv k' BLACK n ∧
    ksame k k' ∧ same_env st st'.

Lemma kv_red k c n : kv k RED n → kv k c n.
Proof. inversion 1; subst; eauto with rb. Qed.

(** Swapping the first frame for one with the same colour. *)
Lemma kv_swap d c p s sib k n d' p' s' sib' :
  kv (Fr d c p s sib :: k) BLACK n → rb sib' BLACK n →
  kv (Fr d' c p' s' sib' :: k) BLACK n.
Proof. inversion 1; subst; eauto with rb. Qed.

(** Case 6: the far nephew is red. *)
Lemma case6_ok st k0 dir cp x p sp c ps ss e dc pd sd dd n :
  let d := mk e RED dc pd sd dd in
  represents st (plug k0 (mk dir cp x p sp (mk dir BLACK c ps ss d))) →
  kv (Fr dir cp p sp (mk dir BLACK c ps ss d) :: k0) BLACK (S n) →
  (∃ cc, rb c cc n) → rb d RED n →
  shortened (rotate p dir;; pn ← load p; update ps (with_color (n_color pn));;
             update p (with_color BLACK);; update pd (with_color BLACK)) st
    (Fr dir cp p sp (mk dir BLACK c ps ss d) :: k0) x n.
Proof.
  intros d Hr Hk [cc Hc] Hd. unfold shortened.
  destruct (rotate_spec _ _ _ _ _ _ _ _ _ _ _ _ Hr) as (st1&Hrun1&Hr1&He1).
  erewrite bind_done by exact Hrun1.
  erewrite bind_done by (exact (load_focus_mk st1 (Fr dir BLACK ps ss d :: k0) dir cp x p sp c Hr1)).
  rewrite n_color_mk.
  destruct (recolor_focus st1 k0 dir BLACK _ ps ss d cp Hr1) as (st2&Hrun2&Hr2&He2&_).
  erewrite bind_done by exact Hrun2.
  destruct (recolor_focus st2 (Fr dir cp ps ss d :: k0) dir cp x p sp c BLACK Hr2)
    as (st3&Hrun3&Hr3&He3&_).
  erewrite bind_done by exact Hrun3. rewrite plug_sib in Hr3.
  destruct (recolor_focus st3 _ e RED dc pd sd dd BLACK Hr3) as (st4&Hrun4&Hr4&He4&_).
  rewrite <-plug_sib in Hr4.
  exists st4, (Fr dir BLACK p sp c :: Fr dir cp ps ss (mk e BLACK dc pd sd dd) :: k0).
  split_and!; [exact Hrun4|exact Hr4| | |by do 3 etransitivity].
  - apply rb_mk_inv in Hd as [_ [??]]. eapply kv_B; [done|]. eapply kv_swap; eauto with rb.
  - split; [done|]. intros y. simpl. apply inorder_plug_eq. unfold plug1; simpl.
    rewrite (inorder_rotate _ BLACK cp cp BLACK). apply inorder_mk_eq; [done|].
    apply inorder_mk_eq; [done|]. apply inorder_mk_color.
Qed.

(** Case 5: the near nephew is red, the far one black. *)
Lemma case5_ok st k0 dir cp x p sp c1 pc sc c2 ps ss d n :
  let c := mk dir RED c1 pc sc c2 in
  represents st (plug k0 (mk dir cp x p sp (mk dir BLACK c ps ss d))) →
  kv (Fr dir cp p sp (mk dir BLACK c ps ss d) :: k0) BLACK (S n) →
  rb c RED n → rb d BLACK n →
  shortened (rotate ps (flip_dir dir);; update pc (with_color BLACK);;
             update ps (with_color RED);;
             rotate p dir;; pn ← load p; update pc (with_color (n_color pn));;
             update p (with_color BLACK);; update ps (with_color BLACK)) st
    (Fr dir cp p sp (mk dir BLACK c ps ss d) :: k0) x n.
Proof.
  intros c Hr Hk Hc Hd. unfold shortened. apply rb_mk_inv in Hc as [_ [Hc1 Hc2]].
  pose proof Hr as Hr0.
  change (represents st (plug (Fr dir cp p sp (mk dir BLACK c ps ss d) :: k0) x)) in Hr0.
  rewrite plug_sib in Hr0. unfold c in Hr0.
  rewrite <-(mk_flip dir BLACK d), <-(mk_flip dir RED c2) in Hr0.
  destruct (rotate_spec _ _ _ _ _ _ _ _ _ _ _ _ Hr0) as (st1&Hrun1&Hr1&He1).
  erewrite bind_done by exact Hrun1.
  destruct (recolor_focus st1 _ _ _ _ _ _ _ BLACK Hr1) as (st2&Hrun2&Hr2&He2&_).
  erewrite bind_done by exact Hrun2.
  destruct (recolor_focus st2 (Fr (flip_dir dir) BLACK pc sc c1 :: Fr (flip_dir dir) cp p sp x :: k0)
    (flip_dir dir) BLACK d ps ss c2 RED Hr2)
    as (st3&Hrun3&Hr3&He3&_).
  erewrite bind_done by exact Hrun3.
  change (represents st3 (plug (Fr (flip_dir dir) cp p sp x :: k0)
    (mk (flip_dir dir) BLACK (mk (flip_dir dir) RED d ps ss c2) pc sc c1))) in Hr3.
  rewrite <-plug_sib, !mk_flip in Hr3.
  destruct (case6_ok st3 k0 dir cp x p sp c1 pc sc dir c2 ps ss d n) as (st4&k'&Hrun4&Hr4&Hk4&[Hs1 Hs2]&He4).
  - exact Hr3.
  - eapply kv_swap; [exact Hk|]. eauto with rb.
  - eauto.
  - eauto with rb.
  - exists st4, k'. split_and!; try done; [|by do 3 etransitivity].
    split; [done|]. intros y. rewrite Hs2. simpl. apply inorder_plug_eq. unfold plug1; simpl.
    apply inorder_mk_eq; [done|]. symmetry. apply inorder_rotate.
Qed.

(** The part of the loop body that follows case 3, where the sibling [s] is
    black and its children are [c] and [d]; [up] is the next round. *)
Definition remove_tail (up : M (rb_state H) unit) (n p s c d : Z) (dir : dir_t) :
    M (rb_state H) unit :=
  let case6 (s d : Z) :=
    rotate p dir;; pn ← load p; update s (with_color (n_color pn));;
    update p (with_color BLACK);; update d (with_color BLACK) in
  db ← null_or_black d;
  if db : bool then
    cb ← null_or_black c;
    if cb : bool then
      update s (with_color RED);;
      pn ← load p;
      if decide (n_color pn = BLACK) then up else update p (with_color BLACK)
    else
      rotate s (flip_dir dir);; update c (with_color BLACK);;
      update s (with_color RED);; case6 c s
  else case6 s d.

(** A black sibling: cases 2, 4, 5 and 6. *)
Lemma remove_tail_ok up st k0 dir cp x p sp c ps ss d n :
  let s := mk dir BLACK c ps ss d in
  let k := Fr dir cp p sp s :: k0 in
  represents st (plug k x) → kv k BLACK (S n) →
  (cp = BLACK → rb c BLACK n → rb d BLACK n → ∀ st1, represents st1 (plug (Fr dir BLACK p sp (mk dir RED c ps ss d) :: k0) x) →
     shortened up st1 (Fr dir BLACK p sp (mk dir RED c ps ss d) :: k0) x n) →
  shortened (remove_tail up (ptr x) p ps (ptr c) (ptr d) dir) st k x n.
Proof.
  intros s k Hr Hk Hup.
  assert (Hs : ∃ cc cd, rb c cc n ∧ rb d cd n).
  { inversion Hk as [|? ? ? ? ? ? Hs|? ? ? ? ? ? ? ? Hs]; subst;
      apply rb_mk_inv in Hs as [_ (m&cc&cd&[= <-]&?&?)]; eauto. }
  destruct Hs as (cc&cd&Hc&Hd). unfold shortened, remove_tail.
  pose proof Hr as Hrs. unfold k in Hrs. rewrite plug_sib in Hrs.
  pose proof Hrs as Hrc. unfold s in Hrs, Hrc.
  change (represents st (plug (Fr dir BLACK ps ss d :: Fr (flip_dir dir) cp p sp x :: k0) c)) in Hrc.
  pose proof Hrc as Hrd. rewrite plug_sib in Hrd.
  erewrite bind_done by (exact (null_or_black_spec _ _ _ Hrd)).
  rewrite (rb_tcolor _ _ _ Hd). destruct cd.
  { rewrite bool_decide_false by done.
    assert (Hd0 : d ≠ E) by (intros ->; inversion Hd).
    destruct (mk_surj d LEFT Hd0) as (c0&dc&pd&sd&dd&->).
    pose proof (rb_tcolor _ _ _ Hd) as Hcol; simpl in Hcol; subst c0.
    eapply (case6_ok st k0 dir cp x p sp c ps ss LEFT); eauto. }
  rewrite bool_decide_true by done.
  erewrite bind_done by (exact (null_or_black_spec _ _ _ Hrc)).
  rewrite (rb_tcolor _ _ _ Hc). destruct cc.
  { rewrite bool_decide_false by done.
    assert (Hc0 : c ≠ E) by (intros ->; inversion Hc).
    destruct (mk_surj c dir Hc0) as (c0&c1&pc&sc&c2&->).
    pose proof Hc as Hc'. apply rb_mk_inv in Hc' as [<- _]. rewrite ptr_mk.
    eapply (case5_ok st k0 dir cp x p sp c1 pc sc c2 ps ss d n); eauto. }
  rewrite bool_decide_true by done.
  destruct (recolor_focus st _ dir BLACK c ps ss d RED Hrs) as (st1&Hrun1&Hr1&He1&_).
  erewrite bind_done by exact Hrun1. rewrite <-plug_sib in Hr1.
  erewrite bind_done by (exact (load_focus_mk st1 k0 dir cp x p sp _ Hr1)).
  rewrite n_color_mk. destruct cp.
  - rewrite decide_False by done.
    destruct (recolor_focus st1 k0 dir RED x p sp _ BLACK Hr1) as (st2&Hrun2&Hr2&He2&_).
    exists st2, (Fr dir BLACK p sp (mk dir RED c ps ss d) :: k0).
    split_and!; [done|exact Hr2| | |by etransitivity].
    + inversion Hk; subst. eapply kv_B; [eauto with rb|]. by apply kv_red.
    + split; [done|]. intros y. simpl. apply inorder_plug_eq. unfold plug1; simpl.
      apply inorder_mk_eq; [done|]. apply inorder_mk_color.
  - rewrite decide_True by done.
    destruct (Hup eq_refl Hc Hd st1 Hr1) as (st2&k'&Hrun2&Hr2&Hk2&[Hs1 Hs2]&He2).
    exists st2, k'. split_and!; try done; [|by etransitivity].
    split; [done|]. intros y. rewrite Hs2. simpl. apply inorder_plug_eq. unfold plug1; simpl.
    apply inorder_mk_eq; [done|]. apply inorder_mk_color.
Qed.

(** Case 3: a red sibling becomes the parent of [p]. *)
Lemma case3_ok st k0 dir x p sp c ps ss d n :
  represents st (plug k0 (mk dir BLACK x p sp (mk dir RED c ps ss d))) →
  kv (Fr dir BLACK p sp (mk dir RED c ps ss d) :: k0) BLACK (S n) →
  ∃ st', (∀ B (K : M (rb_state H) B),
      (rotate p dir;; update p (with_color RED);; update ps (with_color BLACK);; K) st = K st') ∧
    let k' := Fr dir RED p sp c :: Fr dir BLACK ps ss d :: k0 in
    represents st' (plug k' x) ∧ kv k' BLACK (S n) ∧
    ksame (Fr dir BLACK p sp (mk dir RED c ps ss d) :: k0) k' ∧ same_env st st'.
Proof.
  intros Hr Hk.
  destruct (rotate_spec _ _ _ _ _ _ _ _ _ _ _ _ Hr) as (st1&Hrun1&Hr1&He1).
  destruct (recolor_focus st1 (Fr dir RED ps ss d :: k0) dir BLACK x p sp c RED Hr1)
    as (st2&Hrun2&Hr2&He2&_).
  destruct (recolor_focus st2 k0 dir RED _ ps ss d BLACK Hr2) as (st3&Hrun3&Hr3&He3&_).
  exists st3. split.
  { intros B K. erewrite bind_done by exact Hrun1. erewrite bind_done by exact Hrun2.
    by erewrite bind_done by exact Hrun3. }
  intros k'. split_and!; [exact Hr3| | |by do 2 etransitivity].
  - inversion Hk as [| |? ? ? ? ? ? ? ? Hs Hk0]; subst.
    apply rb_mk_inv in Hs as [_ [??]]. eauto with rb.
  - split; [done|]. intros y. simpl. apply inorder_plug_eq. unfold plug1; simpl.
    apply inorder_rotate.
Qed.

(** A subtree's own node, read through its address. *)
Lemma load_ptr st k x :
  represents st (plug k x) → ptr x ≠ 0 →
  ∃ nn, load (ptr x) st = Done (nn, st) ∧ n_parent nn = cpar k.
Proof. intros Hr Hx. destruct x; [done|]. eexists. by split; [by eapply load_focus|]. Qed.

(** [continue]: go on from the parent, or stop at the root. *)
Definition remove_up (loop : Z → M (rb_state H) unit) (n : Z) : M (rb_state H) unit :=
  nn ← load n;
  let n := n_parent nn in
  if decide (n = 0) then modify (set_root n)
  else
    nn ← load n;
    if decide (n_parent nn = 0) then modify (set_root n) else loop n.

Lemma remove_up_ok loop st k0 dir x p sp s n cs :
  (∀ st k y m, represents st (plug k y) → ptr y ≠ 0 → kv k BLACK (S m) → k ≠ [] →
     (length k ≤ length k0)%nat → shortened (loop (ptr y)) st k y m) →
  represents st (plug (Fr dir BLACK p sp s :: k0) x) → ptr x ≠ 0 →
  rb s cs n → kv k0 BLACK (S (S n)) →
  shortened (remove_up loop (ptr x)) st (Fr dir BLACK p sp s :: k0) x n.
Proof.
  intros IH Hr Hx Hs Hk0. unfold shortened, remove_up.
  destruct (load_ptr _ _ _ Hr Hx) as (nn&Hl&Hpar). erewrite bind_done by exact Hl.
  rewrite Hpar; cbn [cpar f_p].
  assert (Hp0 : p ≠ 0) by apply (represents_lookup_mk st k0 dir BLACK x p sp s Hr).
  rewrite decide_False by done.
  erewrite bind_done by (exact (load_focus_mk st k0 dir BLACK x p sp s Hr)).
  rewrite n_parent_mk. destruct k0 as [|f k0].
  - rewrite decide_True by done. exists (set_root p st), [Fr dir BLACK p sp s].
    split_and!; try done; [|eauto with rb].
    destruct Hr as (Hroot&Hr). split; [|done]. simpl. unfold plug1. by rewrite ptr_mk.
  - assert (Hf0 : f_p f ≠ 0).
    { destruct f as [df cf pf sf yf]. apply (represents_lookup_mk st k0 df cf _ pf sf yf Hr). }
    cbn [cpar]. rewrite decide_False by done.
    pose proof (IH st (f :: k0) (mk dir BLACK x p sp s) (S n) Hr) as IH1. rewrite ptr_mk in IH1.
    destruct IH1 as (st2&k'&Hrun2&Hr2&Hk2&[Hs1 Hs2]&He2); try done.
    exists st2, (Fr dir BLACK p sp s :: k'). split_and!; try done; [eauto with rb|].
    split; [done|]. intros y. change (inorder (plug k' (mk dir BLACK y p sp s))
      = inorder (plug (f :: k0) (mk dir BLACK y p sp s))). apply Hs2.
Qed.

(** The loop never runs out of fuel: a round that goes on moves one level up. *)
Lemma balance_remove_loop_ok fuel st k x n :
  represents st (plug k x) → ptr x ≠ 0 → kv k BLACK (S n) → k ≠ [] →
  (length k ≤ fuel)%nat →
  shortened (balance_remove_loop fuel (ptr x)) st k x n.
Proof.
  revert st k x n. induction fuel as [|fuel IH]; intros st k x n Hr Hx Hk Hne Hlen.
  { destruct k; [done|simpl in Hlen; lia]. }
  destruct k as [|[dir cp p sp s] k0]; [done|]. unfold shortened.
  cbn [balance_remove_loop].
  erewrite bind_done by (by eapply DIR_focus).
  destruct (load_ptr _ _ _ Hr Hx) as (nn&Hl&Hpar). erewrite bind_done by exact Hl.
  rewrite Hpar; cbn [cpar f_p].
  erewrite bind_done by (exact (load_focus_mk st k0 dir cp x p sp s Hr)).
  rewrite n_child_mk_flip.
  assert (Hs : ∃ cs, rb s cs (S n) ∧ (cs = RED → cp = BLACK)).
  { inversion Hk; subst; eauto. }
  destruct Hs as (cs&Hs&Hcs). destruct (mk_surj s dir (rb_S_inv _ _ _ Hs)) as (c0&c&ps&ss&d&->).
  pose proof (rb_mk_inv _ _ _ _ _ _ _ _ Hs) as [-> _]. rewrite ptr_mk.
  pose proof Hr as Hrs. rewrite plug_sib in Hrs.
  erewrite bind_done by (exact (load_focus_mk st _ dir c0 c ps ss d Hrs)).
  rewrite n_color_mk, n_child_mk_same, n_child_mk_flip. destruct c0.
  - rewrite decide_True by done. rewrite (Hcs eq_refl) in *.
    destruct (case3_ok st k0 dir x p sp c ps ss d n Hr Hk) as (st1&Hrun1&Hr1&Hk1&[Hs1 Hs2]&He1).
    apply rb_mk_inv in Hs as [_ [Hc _]].
    destruct (mk_surj c dir (rb_S_inv _ _ _ Hc)) as (c0&c1&pc&sc&c2&->).
    pose proof (rb_mk_inv _ _ _ _ _ _ _ _ Hc) as [<- _].
    pose proof Hr1 as Hrc. rewrite plug_sib in Hrc.
    erewrite bind_done.
    2:{ rewrite Hrun1. erewrite bind_done by
          (rewrite ptr_mk; exact (load_focus_mk st1 _ dir BLACK c1 pc sc c2 Hrc)).
        rewrite n_child_mk_same, n_child_mk_flip, ptr_mk. reflexivity. }
    destruct (remove_tail_ok (remove_up (balance_remove_loop fuel) (ptr x)) st1
      (Fr dir BLACK ps ss d :: k0) dir RED x p sp c1 pc sc c2 n Hr1 Hk1) as
      (st2&k'&Hrun2&Hr2&Hk2&[Hs3 Hs4]&He2); [done|].
    exists st2, k'. split_and!; try done; [|by etransitivity].
    split; [by rewrite Hs3|]. intros y. by rewrite Hs4, Hs2.
  - rewrite decide_False by done. step. cbv beta iota.
    apply (remove_tail_ok (remove_up (balance_remove_loop fuel) (ptr x))
      st k0 dir cp x p sp c ps ss d n Hr Hk).
    intros -> Hc Hd st1 Hr1. inversion Hk as [| |? ? ? ? ? ? ? ? Hs' Hk0]; subst.
    eapply remove_up_ok; [|done|done|eauto with rb|done].
    intros st' k' y m ?????. simpl in Hlen. apply IH; try done. lia.
Qed.
End balance.

Section cut.
Context {H : Type} `{!Allocator H}.
Implicit Types (st : rb_state H) (k : list frame).

(** A store that holds the tree [t] and one unlinked node [n]. *)
Definition cut st (n : Z) (t : tree) : Prop :=
  root st = ptr t ∧ repr (nodes st) 0 t ∧ NoDup (taddrs t) ∧ n ∉ taddrs t ∧
  dom (nodes st) = {[n]} ∪ list_to_set (taddrs t).

Lemma cut_link st k c n s :
  represents st (plug k (T c E n s E)) →
  ∃ st1, store_link (link_of k) 0 st = Done (tt, st1) ∧ cut st1 n (plug k E) ∧ same_env st st1.
Proof.
  intros (Hroot&Hr&Hnd&Hd). rewrite repr_plug in Hr. destruct Hr as [_ Hk].
  rewrite ptr_plug in Hroot. rewrite taddrs_plug in Hnd; simpl in Hnd.
  apply NoDup_cons in Hnd as [Hn Hnd].
  destruct (store_link_spec st n 0 k Hk Hnd Hroot) as (ns'&Hrun&Hk'&Hag&Hd').
  eexists. split_and!; [exact Hrun| |done]. unfold cut; simpl.
  split_and!.
  - by rewrite ptr_plug.
  - by rewrite repr_plug.
  - by rewrite taddrs_plug.
  - by rewrite taddrs_plug.
  - rewrite Hd', Hd. apply set_eq. intros a.
    rewrite elem_of_union, elem_of_singleton, !elem_of_list_to_set, !taddrs_plug; simpl.
    set_solver.
Qed.

Lemma cut_root st c n s : represents st (T c E n s E) → cut (set_root 0 st) n E.
Proof.
  intros (Hroot&Hr&Hnd&Hd). unfold cut; simpl in *. split_and!; [done..|constructor| |].
  - by intros ?%elem_of_nil.
  - rewrite Hd. set_solver.
Qed.

Lemma cut_free st n t h' :
  cut st n t → h_free n (heap st) = Done (tt, h') →
  ∃ st', free_node n st = Done (tt, st') ∧ represents st' t ∧
    leftmost st' = leftmost st ∧ ents st' = ents st ∧ heap st' = h'.
Proof.
  intros (Hroot&Hr&Hnd&Hn&Hd) Hf. unfold free_node.
  eexists. split.
  { erewrite bind_done by (unfold zoom; rewrite Hf; done). done. }
  split; [|done]. unfold represents; simpl. split_and!; try done.
  - eapply repr_frame; [|exact Hr]. intros a Ha. simpl. apply lookup_delete_ne. set_solver.
  - rewrite dom_delete_L, Hd. apply set_eq. intros a. set_solver.
Qed.

Lemma cut_set_leftmost st n t v : cut st n t → cut (set_leftmost v st) n t.
Proof. done. Qed.

Lemma head_first (l r : list Z) n :
  NoDup (l ++ n :: r) → n = default 0 (head (l ++ n :: r)) → l = [].
Proof.
  intros Hnd Heq. destruct l as [|x l]; [done|]. simpl in *. subst x.
  apply NoDup_cons in Hnd as [Hnd _]. exfalso. apply Hnd. set_solver.
Qed.

(** The address that [leftmost] gets when the leaf [n] goes. *)
Lemma leaf_leftmost k n :
  NoDup ((kleft k).*1 ++ n :: (kright k).*1) →
  (if decide (n = default 0 (head ((kleft k).*1 ++ n :: (kright k).*1))) then cpar k
   else default 0 (head ((kleft k).*1 ++ n :: (kright k).*1)))
  = default 0 (head ((kleft k).*1 ++ (kright k).*1)).
Proof.
  intros Hnd. case_decide as Hd.
  - apply head_first in Hd; [|done]. rewrite Hd. simpl.
    destruct k as [|[[] c p s sib] k]; simpl in *; try done.
    exfalso. rewrite !fmap_app in Hd. by destruct ((kleft k).*1), ((inorder sib).*1).
  - destruct ((kleft k).*1); [done|]. done.
Qed.

Lemma ktop_in h k : k ≠ [] → ktop h k ∈ kaddrs k.
Proof.
  revert h; induction k as [|f k IH]; intros h Hk; [done|]. simpl.
  destruct k as [|f' k]; [by left|]. right. apply elem_of_app; right. by apply IH.
Qed.

Lemma root_ne st f k c l n s r :
  represents st (plug (f :: k) (T c l n s r)) → n ≠ root st.
Proof.
  intros (Hroot&_&Hnd&_). rewrite Hroot, ptr_plug. intros Heq.
  rewrite taddrs_plug in Hnd. apply NoDup_app in Hnd as (_&Hnd&_).
  apply (Hnd n); [simpl; set_solver|]. rewrite Heq. by apply ktop_in.
Qed.

(** What removing one node gives: the tree without it, one node freed. *)
Definition removed (r : res (unit * rb_state H)) st (as0 : list Z) (es' : list Z) : Prop :=
  ∃ st' t' a h', r = Done (tt, st') ∧ represents st' t' ∧ red_black t' ∧
    entities t' = es' ∧ leftmost st' = default 0 (head (taddrs t')) ∧
    ents st' = ents st ∧ h_free a (heap st) = Done (tt, h') ∧ heap st' = h' ∧
    as0 ≡ₚ a :: taddrs t'.

(** The node has no child. *)
Lemma remove_leaf_ok st k c n s :
  let t := plug k (T c E n s E) in
  represents st t → red_black t → leftmost st = default 0 (head (taddrs t)) →
  (∀ a, a ∈ taddrs t → ∃ h', h_free a (heap st) = Done (tt, h')) →
  removed (remove_node n st) st (taddrs t) ((kleft k).*2 ++ (kright k).*2).
Proof.
  intros t Hr Hrb Hlm Hfree. unfold remove_node.
  assert (Hat : taddrs t = (kleft k).*1 ++ n :: (kright k).*1).
  { rewrite <-inorder_taddrs. unfold t. by rewrite inorder_plug, fmap_app. }
  destruct (Hfree n) as [h' Hh']; [rewrite Hat; set_solver|].
  erewrite bind_done by (exact (load_focus st k c E n s E Hr)). cbn [n_left n_right ptr n_parent].
  rewrite decide_False by naive_solver. step.
  set (st1 := if decide (n = leftmost st) then set_leftmost (cpar k) st else st).
  erewrite bind_done.
  2:{ instantiate (1 := st1). instantiate (1 := tt). unfold st1. by case_decide. }
  assert (Hr1 : represents st1 t) by (unfold st1; by case_decide).
  assert (Hst1 : ents st1 = ents st ∧ heap st1 = heap st) by (unfold st1; by case_decide).
  destruct Hst1 as [Hes1 Hhe1].
  assert (Hlm1 : leftmost st1 = default 0 (head ((kleft k).*1 ++ (kright k).*1))).
  { pose proof Hr as (_&_&Hnd&_). rewrite Hat in Hnd. rewrite <-(leaf_leftmost k n Hnd).
    unfold st1. rewrite <-Hat, <-Hlm. by case_decide. }
  assert (Hfin : ∀ st3 k' o, o = free_node n st3 →
    cut st3 n (plug k' E) → same_env st1 st3 → kv k' BLACK 0 →
    inorder (plug k' E) = kleft k ++ kright k → removed o st (taddrs t) ((kleft k).*2 ++ (kright k).*2)).
  { intros st3 k' o Ho Hc3 (Hl3&He3&Hh3) Hk3 Hin.
    destruct (cut_free st3 n (plug k' E) h') as (st4&Hrun4&Hr4&Hl4&He4&Hh4); [done|congruence|].
    exists st4, (plug k' E), n, h'. split_and!; try congruence.
    - eapply kv_plug; [done|constructor].
    - unfold entities. by rewrite Hin, fmap_app.
    - rewrite Hl4, Hl3, Hlm1, <-inorder_taddrs, Hin, fmap_app. done.
    - rewrite Hat, <-inorder_taddrs, Hin, fmap_app. solve_Permutation. }
  step.
  destruct (plug_kv _ _ Hrb) as (c0&m&Hkv&Hrbn).
  destruct k as [|f k].
  - simpl plug in Hr1. pose proof Hr1 as [Hroot _]. simpl in Hroot.
    rewrite Hroot, decide_True by done. step.
    eapply (Hfin (set_root 0 st1) []); try done; [by eapply cut_root|constructor].
  - set (kk := f :: k) in *. assert (Hn0 : n ≠ 0) by (by eapply represents_lookup).
    rewrite decide_False by (by eapply root_ne).
    destruct f as [d cp p sp sib].
    pose proof (DIR_focus st1 d cp p sp sib k (T c E n s E) Hr1 Hn0) as HD; simpl ptr in HD.
    erewrite bind_done by exact HD.
    erewrite bind_done by (exact (load_focus st1 kk c E n s E Hr1)).
    cbn [n_color n_parent]. destruct c.
    + rewrite decide_True by done.
      destruct (cut_link st1 kk RED n s Hr1) as (st2&Hrun2&Hc2&He2).
      eapply (Hfin st2 kk); try done.
      * erewrite bind_done by exact Hrun2. done.
      * inversion Hrbn as [|? ? ? ? ? HE|]; subst. inversion HE; subst. by apply kv_red.
      * by rewrite inorder_plug.
    + rewrite decide_False by done. inversion Hrbn as [| |? ? ? ? ? ? ? HE]; subst.
      inversion HE; subst. unfold balance_tree_remove.
      step. step.
      destruct (balance_remove_loop_ok (tree_fuel st1) st1 kk (T BLACK E n s E) 0)
        as (st2&k'&Hrun2&Hr2&Hk2&[Hd2 Hin2]&He2); try done.
      { unfold tree_fuel. rewrite (size_represents _ _ Hr1).
        pose proof (kaddrs_length kk (T BLACK E n s E)). unfold t. lia. }
      destruct (cut_link st2 k' BLACK n s Hr2) as (st3&Hrun3&Hc3&He3).
      eapply (Hfin st3 k'); try done; [|by etransitivity|by rewrite Hin2, inorder_plug].
      simpl ptr in Hrun2. erewrite bind_done by exact Hrun2.
      erewrite bind_done by (by eapply load_focus). cbn [n_parent].
      destruct k' as [|[d' c' p' s' y'] k']; simpl in Hd2; [done|]. injection Hd2 as ->.
      erewrite bind_done by exact Hrun3. done.
Qed.

(** A node with one child is black and its child is a red leaf. *)
Lemma one_child_shape d c x p s c' n :
  x ≠ E → rb (mk d c x p s E) c' n →
  c = BLACK ∧ c' = BLACK ∧ n = 1%nat ∧ ∃ q sq, x = T RED E q sq E.
Proof.
  intros Hx [-> Hrb]%rb_mk_inv. destruct c.
  - destruct Hrb as [Hl Hr]. inversion Hr; subst. by inversion Hl; subst.
  - destruct Hrb as (m&cx&cy&->&Hl&Hr). inversion Hr; subst.
    inversion Hl as [|? ? ? ? ? HL HR|]; subst; [done|].
    inversion HL; inversion HR; subst. eauto 10.
Qed.

(** [leftmost] when the red child [q] of [n] goes and [n] takes its entity. *)
Lemma child_leftmost d (l r : list Z) n q :
  let m := match d with LEFT => [q; n] | RIGHT => [n; q] end in
  NoDup (l ++ m ++ r) →
  (if decide (q = default 0 (head (l ++ m ++ r))) then n
   else default 0 (head (l ++ m ++ r))) = default 0 (head (l ++ n :: r)).
Proof.
  intros m Hnd. destruct l as [|x l]; simpl in *.
  - destruct d; simpl in *; [by rewrite decide_True by done|].
    rewrite decide_False; [done|]. apply NoDup_cons in Hnd as [Hnd _].
    intros ->. apply Hnd. by left.
  - rewrite decide_False; [done|]. intros ->. apply NoDup_cons in Hnd as [Hnd _].
    apply Hnd. apply elem_of_app; right. apply elem_of_app; left.
    destruct d; simpl; [by left|by right; left].
Qed.

(** The node has one child, which takes its place. *)
Lemma remove_one_child_ok st k d c q n s x :
  let t := plug k (mk d c x n s E) in
  x ≠ E → represents st t → red_black t → leftmost st = default 0 (head (taddrs t)) →
  ptr x = q →
  (∀ a, a ∈ taddrs t → ∃ h', h_free a (heap st) = Done (tt, h')) →
  removed (remove_node n st) st (taddrs t) ((kleft k).*2 ++ entities x ++ (kright k).*2).
Proof.
  intros t Hx Hr Hrb Hlm Hq Hfree. unfold remove_node.
  destruct (plug_kv _ _ Hrb) as (c0&m&Hkv&Hrbn).
  destruct (one_child_shape _ _ _ _ _ _ _ Hx Hrbn) as (->&->&->&q'&sq&->).
  simpl in Hq; subst q'.
  assert (Hat : taddrs t = (kleft k).*1 ++ match d with LEFT => [q; n] | RIGHT => [n; q] end
    ++ (kright k).*1).
  { rewrite <-inorder_taddrs. unfold t. rewrite inorder_plug, !fmap_app. by destruct d. }
  set (kq := Fr d BLACK n s E :: k). pose proof (Hr : represents st (plug kq _)) as Hrq.
  assert (Hq0 : q ≠ 0) by (by eapply represents_lookup).
  assert (Hnn : n ≠ 0) by (by eapply represents_lookup_mk).
  destruct (Hfree q) as [h' Hh'].
  { rewrite Hat, !elem_of_app. right; left. clear.
    destruct d; rewrite !elem_of_cons; tauto. }
  erewrite bind_done by (exact (load_focus_mk st k d BLACK _ n s E Hr)).
  rewrite decide_True by (destruct d; simpl; auto).
  replace (if decide (n_left (mk_node d (ptr (T RED E q sq E)) (ptr E) (cpar k) BLACK s) ≠ 0)
    then _ else _) with q by (destruct d; simpl; try case_decide; done).
  erewrite bind_done by (exact (DIR_focus st d BLACK n s E k _ Hrq Hq0)).
  erewrite bind_done by (exact (load_focus st kq RED E q sq E Hrq)). cbn [n_se].
  destruct (update_focus_mk st k d BLACK (T RED E q sq E) n s E (with_se sq) BLACK sq Hr)
    as (st1&Hrun1&Hr1&(Hl1&He1&Hh1)&_); [done|].
  erewrite bind_done by exact Hrun1.
  destruct (cut_link st1 (Fr d BLACK n sq E :: k) RED q sq Hr1) as (st2&Hrun2&Hc2&(Hl2&He2&Hh2)).
  erewrite bind_done by exact Hrun2. step.
  set (st3 := if decide (q = leftmost st2) then set_leftmost n st2 else st2).
  erewrite bind_done.
  2:{ instantiate (1 := st3). instantiate (1 := tt). unfold st3. by case_decide. }
  assert (Hc3 : cut st3 q (plug (Fr d BLACK n sq E :: k) E)) by (unfold st3; by case_decide).
  destruct (cut_free st3 q _ h' Hc3) as (st4&Hrun4&Hr4&Hl4&He4&Hh4).
  { assert (heap st3 = heap st) as -> by (unfold st3; case_decide; simpl; congruence). done. }
  assert (Hin : inorder (plug (Fr d BLACK n sq E :: k) E) = kleft k ++ (n, sq) :: kright k).
  { simpl. unfold plug1; simpl. rewrite inorder_plug. by destruct d. }
  exists st4. eexists _, q, h'. split_and!; [exact Hrun4|exact Hr4| | | | |done..|].
  - eapply kv_plug; [|constructor]. eapply kv_B; [constructor|done].
  - unfold entities. rewrite Hin, fmap_app. done.
  - rewrite Hl4, <-inorder_taddrs, Hin, fmap_app, fmap_cons. cbn [fst].
    pose proof Hr as (_&_&Hnd&_). rewrite Hat in Hnd.
    rewrite <-(child_leftmost d _ _ n q Hnd), <-Hat, <-Hlm.
    unfold st3. rewrite Hl2, Hl1. case_decide; simpl; congruence.
  - rewrite He4. unfold st3. case_decide; simpl; congruence.
  - rewrite Hat, <-inorder_taddrs, Hin, fmap_app. destruct d; simpl; solve_Permutation.
Qed.

(** [remove_node] on a node with at most one child. *)
Lemma remove_node_ok st k c l n s r :
  let t := plug k (T c l n s r) in
  (l = E ∨ r = E) → represents st t → red_black t →
  leftmost st = default 0 (head (taddrs t)) →
  (∀ a, a ∈ taddrs t → ∃ h', h_free a (heap st) = Done (tt, h')) →
  removed (remove_node n st) st (taddrs t)
    ((kleft k).*2 ++ entities l ++ entities r ++ (kright k).*2).
Proof.
  intros t Hlr Hr Hrb Hlm Hfree.
  destruct (decide (l = E)) as [->|Hl]; [destruct (decide (r = E)) as [->|Hrr]|].
  - by apply (remove_leaf_ok st k c n s).
  - by apply (remove_one_child_ok st k RIGHT c (ptr r) n s r).
  - assert (r = E) as -> by naive_solver.
    by apply (remove_one_child_ok st k LEFT c (ptr l) n s l).
Qed.
End cut.

Section remove.
Context {H : Type} `{!Allocator H} (ok : H → Prop) `{!AllocatorLaws H ok}.
Implicit Types (st : rb_state H) (k : list frame).

Lemma rightmost_loop_ok t fuel st k :
  represents st (plug k t) → t ≠ E → (length (taddrs t) ≤ fuel)%nat →
  ∃ k1 c l p s, rightmost_loop fuel (ptr t) st = Done (p, st) ∧
    t = plug k1 (T c l p s E) ∧ kright k1 = [].
Proof.
  revert fuel k. induction t as [|c l _ p s r IHr]; intros fuel k Hr Ht Hf; [done|].
  simpl in Hf. rewrite length_app in Hf; simpl in Hf.
  destruct fuel as [|fuel]; [lia|]. cbn [rightmost_loop ptr].
  erewrite bind_done by (by eapply load_focus). cbn [n_right].
  destruct (decide (r = E)) as [->|Hre].
  { rewrite decide_True by done. by exists [], c, l, p, s. }
  rewrite decide_False.
  2:{ destruct r as [|c' l' p' s' r']; [done|]; simpl.
      apply (represents_lookup st (Fr RIGHT c p s l :: k) c' l' p' s' r' Hr). }
  destruct (IHr fuel (Fr RIGHT c p s l :: k)) as (k1&c1&l1&p1&s1&Hrun&->&Hk1); try done; [lia|].
  exists (k1 ++ [Fr RIGHT c p s l]), c1, l1, p1, s1. split_and!; [done| |].
  - by rewrite plug_app.
  - by rewrite kright_app, Hk1.
Qed.

Lemma elem_of_entities_T c l p s r x :
  x ∈ entities (T c l p s r) ↔ x ∈ entities l ∨ x = s ∨ x ∈ entities r.
Proof. unfold entities; simpl. rewrite fmap_app, fmap_cons, elem_of_app, elem_of_cons. done. Qed.

(** The search finds an entity whose key no other entity has. *)
Lemma remove_search_found t fuel st se k :
  represents st (plug k t) → ordered (ents st) t →
  Forall (λ s, is_Some (ents st !! s)) (entities t) →
  se ∈ entities t →
  (∀ x, x ∈ entities t → key_of (ents st) x = key_of (ents st) se → x = se) →
  (length (taddrs t) < fuel)%nat →
  ∃ k1 c l p r, remove_search fuel (key_of (ents st) se) se (ptr t) st = Done (p, st) ∧
    t = plug k1 (T c l p se r).
Proof.
  revert fuel k. induction t as [|c l IHl p s r IHr]; intros fuel k Hr Ho He Hin Huniq Hf.
  { by apply elem_of_nil in Hin. }
  simpl in Hf. rewrite length_app in Hf; simpl in Hf.
  destruct fuel as [|fuel]; [lia|]. cbn [remove_search ptr].
  rewrite decide_False by (by eapply represents_lookup).
  erewrite bind_done by (by eapply load_focus). cbn [n_se n_left n_right].
  destruct (decide (s = se)) as [->|Hs].
  { by exists [], c, l, p, r. }
  setoid_rewrite elem_of_entities_T in Huniq.
  destruct (ordered_T _ _ _ _ _ _ Ho) as (Hol&Hor&Hll&Hrr).
  rewrite Forall_forall in He, Hll, Hrr. setoid_rewrite elem_of_entities_T in He.
  erewrite bind_done by (apply entity_key_run; naive_solver).
  assert (key_of (ents st) s ≠ key_of (ents st) se) by naive_solver.
  apply elem_of_entities_T in Hin as [Hin|[->|Hin]]; [|done|].
  - specialize (Hll se Hin). rewrite decide_True by lia.
    destruct (IHl fuel (Fr LEFT c p s r :: k)) as (k1&c1&l1&p1&r1&Hrun&->); try done.
    { apply Forall_forall. naive_solver. } { naive_solver. } { lia. }
    exists (k1 ++ [Fr LEFT c p s r]), c1, l1, p1, r1. split; [done|]. by rewrite plug_app.
  - specialize (Hrr se Hin). rewrite decide_False by lia.
    destruct (IHr fuel (Fr RIGHT c p s l :: k)) as (k1&c1&l1&p1&r1&Hrun&->); try done.
    { apply Forall_forall. naive_solver. } { naive_solver. } { lia. }
    exists (k1 ++ [Fr RIGHT c p s l]), c1, l1, p1, r1. split; [done|]. by rewrite plug_app.
Qed.

(** The search for an entity that is not in the tree ends with [NULL]. *)
Lemma remove_search_missing t fuel st se key k :
  represents st (plug k t) →
  Forall (λ s, is_Some (ents st !! s)) (entities t) →
  se ∉ entities t → (length (taddrs t) < fuel)%nat →
  remove_search fuel key se (ptr t) st = Done (0, st).
Proof.
  revert fuel k. induction t as [|c l IHl p s r IHr]; intros fuel k Hr He Hin Hf;
    (destruct fuel as [|fuel]; [lia|]); cbn [remove_search ptr]; [done|].
  simpl in Hf. rewrite length_app in Hf; simpl in Hf.
  rewrite decide_False by (by eapply represents_lookup).
  erewrite bind_done by (by eapply load_focus). cbn [n_se n_left n_right].
  rewrite elem_of_entities_T in Hin. rewrite decide_False by naive_solver.
  rewrite Forall_forall in He. setoid_rewrite elem_of_entities_T in He.
  erewrite bind_done by (apply entity_key_run; naive_solver). case_decide.
  - apply (IHl fuel (Fr LEFT c p s r :: k)); try done; [|naive_solver|lia].
    apply Forall_forall. naive_solver.
  - apply (IHr fuel (Fr RIGHT c p s l :: k)); try done; [|naive_solver|lia].
    apply Forall_forall. naive_solver.
Qed.

(** [se] stands in the left part of a node with the same key, where the search
    for it never looks. *)
Fixpoint shadowed (es : gmap Z sched_entity_t) (se : Z) (t : tree) : Prop :=
  match t with
  | E => False
  | T _ l _ x r => (key_of es x = key_of es se ∧ se ∈ entities l) ∨ shadowed es se l ∨ shadowed es se r
  end.

Lemma shadowed_in es se t : shadowed es se t → se ∈ entities t.
Proof. induction t as [|c l IHl p x r IHr]; cbn [shadowed]; [done|]. rewrite elem_of_entities_T. naive_solver. Qed.

Lemma NoDup_entities_T c l p s r :
  NoDup (entities (T c l p s r)) →
  NoDup (entities l) ∧ NoDup (entities r) ∧ s ∉ entities l ∧ s ∉ entities r ∧ (∀ x, x ∈ entities l → x ∉ entities r).
Proof.
  unfold entities; simpl. rewrite fmap_app, fmap_cons. intros (Hl & Hx & [Hs Hr]%NoDup_cons)%NoDup_app.
  split_and!; try done.
  - intros Hin. apply (Hx s Hin). by left.
  - intros x Hin Hin'. apply (Hx x Hin). by right.
Qed.

(** The search misses a shadowed entity and finds any other one. *)
Lemma remove_search_shadowed t fuel st se k :
  represents st (plug k t) → Forall (λ s, is_Some (ents st !! s)) (entities t) → NoDup (entities t) →
  shadowed (ents st) se t → (length (taddrs t) < fuel)%nat →
  remove_search fuel (key_of (ents st) se) se (ptr t) st = Done (0, st).
Proof.
  revert fuel k. induction t as [|c l IHl p s r IHr]; intros fuel k Hr He Hnd Hsh Hf; [done|].
  pose proof (shadowed_in _ _ _ Hsh) as Hin. simpl in Hf. rewrite length_app in Hf; simpl in Hf.
  destruct fuel as [|fuel]; [lia|]. cbn [remove_search ptr shadowed] in *.
  rewrite decide_False by (by eapply represents_lookup).
  erewrite bind_done by (by eapply load_focus). cbn [n_se n_left n_right].
  apply NoDup_entities_T in Hnd as (Hl & Hrn & Hsl & Hsr & Hx).
  assert (s ≠ se) as Hs by (intros ->; pose proof (shadowed_in (ents st) se l); pose proof (shadowed_in (ents st) se r); naive_solver).
  rewrite decide_False by done. rewrite Forall_forall in He. setoid_rewrite elem_of_entities_T in He.
  erewrite bind_done by (apply entity_key_run; naive_solver).
  assert (Forall (λ s, is_Some (ents st !! s)) (entities l) ∧ Forall (λ s, is_Some (ents st !! s)) (entities r)) as [Hel Her].
  { rewrite !Forall_forall. naive_solver. }
  case_decide.
  - destruct Hsh as [[? _]|[Hsh|Hsh]]; [lia|apply (IHl fuel (Fr LEFT c p s r :: k)); by auto with lia|].
    apply (remove_search_missing l fuel st se _ (Fr LEFT c p s r :: k)); [done|done| |lia].
    intros Hinl. apply shadowed_in in Hsh. naive_solver.
  - assert (shadowed (ents st) se r ∨ se ∈ entities l) as [Hshr|Hinl].
    { destruct Hsh as [[_ ?]|[Hsh|?]]; [by right|right; by eapply shadowed_in|by left]. }
    + apply (IHr fuel (Fr RIGHT c p s l :: k)); by auto with lia.
    + apply (remove_search_missing r fuel st se _ (Fr RIGHT c p s l :: k)); [done|done|by apply Hx|lia].
Qed.

Lemma remove_search_unshadowed t fuel st se k :
  represents st (plug k t) → ordered (ents st) t → Forall (λ s, is_Some (ents st !! s)) (entities t) →
  se ∈ entities t → ¬ shadowed (ents st) se t → (length (taddrs t) < fuel)%nat →
  ∃ k1 c l p r, remove_search fuel (key_of (ents st) se) se (ptr t) st = Done (p, st) ∧ t = plug k1 (T c l p se r).
Proof.
  revert fuel k. induction t as [|c l IHl p s r IHr]; intros fuel k Hr Ho He Hin Hsh Hf; [by apply elem_of_nil in Hin|].
  simpl in Hf. rewrite length_app in Hf; simpl in Hf.
  destruct fuel as [|fuel]; [lia|]. cbn [remove_search ptr shadowed] in *.
  rewrite decide_False by (by eapply represents_lookup).
  erewrite bind_done by (by eapply load_focus). cbn [n_se n_left n_right].
  destruct (decide (s = se)) as [->|Hs]; [by exists [], c, l, p, r|].
  destruct (ordered_T _ _ _ _ _ _ Ho) as (Hol&Hor&Hll&Hrr).
  rewrite Forall_forall in He, Hll, Hrr. setoid_rewrite elem_of_entities_T in He.
  erewrite bind_done by (apply entity_key_run; naive_solver).
  apply elem_of_entities_T in Hin as [Hin|[->|Hin]]; [|done|].
  - specialize (Hll se Hin). assert (key_of (ents st) s ≠ key_of (ents st) se) by naive_solver.
    rewrite decide_True by lia.
    destruct (IHl fuel (Fr LEFT c p s r :: k)) as (k1&c1&l1&p1&r1&Hrun&->); try done; [|naive_solver|lia|].
    { apply Forall_forall. naive_solver. }
    exists (k1 ++ [Fr LEFT c p s r]), c1, l1, p1, r1. split; [done|]. by rewrite plug_app.
  - specialize (Hrr se Hin). rewrite decide_False by lia.
    destruct (IHr fuel (Fr RIGHT c p s l :: k)) as (k1&c1&l1&p1&r1&Hrun&->); try done; [|naive_solver|lia|].
    { apply Forall_forall. naive_solver. }
    exists (k1 ++ [Fr RIGHT c p s l]), c1, l1, p1, r1. split; [done|]. by rewrite plug_app.
Qed.

(** Whatever the keys are, the search ends, with [NULL] or with the node of
    the entity. *)
Lemma remove_search_any t fuel st se key k :
  represents st (plug k t) →
  Forall (λ s, is_Some (ents st !! s)) (entities t) → (length (taddrs t) < fuel)%nat →
  remove_search fuel key se (ptr t) st = Done (0, st) ∨
  ∃ k1 c l p r, remove_search fuel key se (ptr t) st = Done (p, st) ∧ t = plug k1 (T c l p se r).
Proof.
  revert fuel k. induction t as [|c l IHl p s r IHr]; intros fuel k Hr He Hf;
    (destruct fuel as [|fuel]; [lia|]); cbn [remove_search ptr]; [by left|].
  simpl in Hf. rewrite length_app in Hf; simpl in Hf.
  rewrite decide_False by (by eapply represents_lookup).
  erewrite bind_done by (by eapply load_focus). cbn [n_se n_left n_right].
  destruct (decide (s = se)) as [->|Hs]; [right; by exists [], c, l, p, r|].
  rewrite Forall_forall in He. setoid_rewrite elem_of_entities_T in He.
  erewrite bind_done by (apply entity_key_run; naive_solver). case_decide.
  - destruct (IHl fuel (Fr LEFT c p s r :: k)) as [?|(k1&c1&l1&p1&r1&?&->)]; try done; [|lia|by left|].
    { apply Forall_forall. naive_solver. }
    right. exists (k1 ++ [Fr LEFT c p s r]), c1, l1, p1, r1. split; [done|]. by rewrite plug_app.
  - destruct (IHr fuel (Fr RIGHT c p s l :: k)) as [?|(k1&c1&l1&p1&r1&?&->)]; try done; [|lia|by left|].
    { apply Forall_forall. naive_solver. }
    right. exists (k1 ++ [Fr RIGHT c p s l]), c1, l1, p1, r1. split; [done|]. by rewrite plug_app.
Qed.

(** Swapping a node's entity with its predecessor's and removing the latter. *)
Lemma remove_found_ok st k c l n s r :
  let t := plug k (T c l n s r) in
  represents st t → red_black t → leftmost st = default 0 (head (taddrs t)) →
  (∀ a, a ∈ taddrs t → ∃ h', h_free a (heap st) = Done (tt, h')) →
  removed ((nn ← load n;
      if decide (n_left nn ≠ 0 ∧ n_right nn ≠ 0) then
        sw ← rightmost (n_left nn);
        sn ← load sw;
        update n (with_se (n_se sn));;
        remove_node sw
      else remove_node n) st) st (taddrs t)
    ((kleft k).*2 ++ entities l ++ entities r ++ (kright k).*2).
Proof.
  intros t Hr Hrb Hlm Hfree.
  erewrite bind_done by (exact (load_focus st k c l n s r Hr)). cbn [n_left n_right].
  case_decide as Hch.
  2:{ apply remove_node_ok; try done. destruct l; [by left|]. destruct r; [by right|].
      exfalso. apply Hch. split.
      - apply (represents_lookup st (Fr LEFT c n s _ :: k) _ _ _ _ _ Hr).
      - pose proof (Hr : represents st (plug (Fr LEFT c n s _ :: k) _)) as Hr2.
        rewrite plug_sib in Hr2. apply represents_lookup in Hr2 as [Hr2 _]. exact Hr2. }
  destruct Hch as [Hl0 _]. unfold rightmost. step. step.
  destruct (rightmost_loop_ok l (tree_fuel st) st (Fr LEFT c n s r :: k) Hr)
    as (k1&c1&l1&sw&s1&Hrun1&->&Hk1).
  { by intros ->. }
  { unfold tree_fuel. rewrite (size_represents _ _ Hr). unfold t.
    rewrite taddrs_plug, length_app. simpl. rewrite !length_app. lia. }
  erewrite bind_done by exact Hrun1.
  pose proof Hr as Hr1. unfold t in Hr1.
  change (T c (plug k1 (T c1 l1 sw s1 E)) n s r)
    with (plug [Fr LEFT c n s r] (plug k1 (T c1 l1 sw s1 E))) in Hr1.
  rewrite <-plug_app, <-plug_app in Hr1.
  erewrite bind_done by (exact (load_focus st _ c1 l1 sw s1 E Hr1)). cbn [n_se].
  destruct (update_focus st k c (plug k1 (T c1 l1 sw s1 E)) n s r (with_se s1) c s1 Hr)
    as (st2&Hrun2&Hr2&(Hl2&He2&Hh2)&_); [done|].
  erewrite bind_done by exact Hrun2.
  set (t2 := plug k (T c (plug k1 (T c1 l1 sw s1 E)) n s1 r)) in *.
  assert (Ht2 : t2 = plug ((k1 ++ [Fr LEFT c n s1 r]) ++ k) (T c1 l1 sw s1 E)).
  { by rewrite !plug_app. }
  assert (Hadd : taddrs t2 = taddrs t).
  { rewrite <-!inorder_taddrs. unfold t2, t. rewrite !inorder_plug. simpl.
    rewrite !fmap_app, !fmap_cons. done. }
  rewrite <-Hadd in Hlm, Hfree |- *. rewrite <-Hl2 in Hlm.
  destruct (remove_node_ok st2 ((k1 ++ [Fr LEFT c n s1 r]) ++ k) c1 l1 sw s1 E)
    as (st3&t3&a&h'&Hrun3&Hr3&Hrb3&Hent3&Hl3&He3&Hf3&Hh3&Hp3); rewrite <-?Ht2; try done.
  - by right.
  - unfold t2. destruct (plug_kv _ _ Hrb) as (c0&m&Hkv&Hrbn). eapply kv_plug; [done|].
    inversion Hrbn; subst; eauto with rb.
  - rewrite Hh2. done.
  - exists st3, t3, a, h'. rewrite <-Ht2 in Hp3. split_and!; try done; try congruence.
    rewrite Hent3, !kleft_app, !kright_app, Hk1. unfold entities.
    rewrite inorder_plug, Hk1. simpl. rewrite !fmap_app, ?fmap_cons. simpl.
    rewrite ?app_nil_r. by rewrite <-!app_assoc.
Qed.

Lemma ordered_remove es l1 x l2 :
  StronglySorted (λ s s', key_of es s ≤ key_of es s') (l1 ++ x :: l2) →
  StronglySorted (λ s s', key_of es s ≤ key_of es s') (l1 ++ l2).
Proof.
  rewrite !StronglySorted_app, StronglySorted_cons. intros (Hlr&H1&_&H2).
  split_and!; try done. intros x1 x2 ??. apply Hlr; [done|by right].
Qed.

(** What [rb_remove] does to a tree it takes [se] out of. *)
Definition taken_out se st t (r : res (unit * rb_state H)) : Prop :=
  ∃ st' t' l1 l2 a, r = Done (tt, st') ∧ rb_ok ok st' t' ∧
    entities t = l1 ++ se :: l2 ∧ entities t' = l1 ++ l2 ∧
    ents st' = ents st ∧ taddrs t ≡ₚ a :: taddrs t' ∧
    h_free a (heap st) = Done (tt, heap st').

(** Once the search has found its node, [rb_remove] keeps every invariant of
    the tree, takes exactly that entity out and frees exactly one node. *)
Lemma rb_remove_found st t se k c l n r :
  rb_ok ok st t → t = plug k (T c l n se r) →
  (∀ a, a ∈ taddrs t → ∃ h', h_free a (heap st) = Done (tt, h')) →
  remove_search (tree_fuel st) (key_of (ents st) se) se (ptr t) st = Done (n, st) →
  taken_out se st t (rb_remove se st).
Proof.
  intros [Hr Hrb He Ho Hlm Hok Hlive] -> Hfree Hrun.
  destruct (remove_found_ok st k c l n se r Hr Hrb Hlm Hfree)
    as (st'&t'&a&h'&Hrun'&Hr'&Hrb'&Hent'&Hlm'&He'&Hf'&Hh'&Hp').
  assert (Hent : entities (plug k (T c l n se r))
    = ((kleft k).*2 ++ entities l) ++ se :: (entities r ++ (kright k).*2)).
  { unfold entities. rewrite inorder_plug, !fmap_app. simpl. rewrite fmap_app, fmap_cons.
    by rewrite <-!app_assoc. }
  rewrite app_assoc in Hent'.
  exists st', t', ((kleft k).*2 ++ entities l), (entities r ++ (kright k).*2), a.
  split_and!; try done; [| |by rewrite Hf', Hh'].
  - unfold rb_remove. step. erewrite bind_done.
    2:{ apply entity_key_run. rewrite Forall_forall in He. apply He. rewrite Hent. apply elem_of_app. right. by left. }
    step. destruct Hr as (Hroot&?&?&?). rewrite Hroot. erewrite bind_done by exact Hrun.
    rewrite decide_False; [exact Hrun'|].
    by apply (represents_lookup st k c l n se r).
  - assert (Ha : a ∈ taddrs (plug k (T c l n se r))) by (rewrite Hp'; by left).
    assert (Hal : a ∈ h_live (heap st)) by (apply Hlive, elem_of_list_to_set, Ha).
    destruct (free_ok (heap st) a h' Hok Hal Hf') as [Hok' Hlive'].
    unfold ordered in Ho. rewrite Hent in He, Ho.
    constructor; rewrite ?He', ?Hh', ?Hent'; try done.
    + apply Forall_app in He as [? He]. apply Forall_cons in He as [_ ?]. by apply Forall_app.
    + unfold ordered. rewrite Hent'. by eapply ordered_remove.
    + rewrite Hlive'. pose proof Hr as (_&_&Hnd&_). rewrite Hp' in Hnd, Hlive.
      apply NoDup_cons in Hnd as [Hnd _]. simpl in Hlive. set_solver.
Qed.

(** An entity whose key is its own is taken out. *)
Lemma rb_remove_spec st t se :
  rb_ok ok st t → se ∈ entities t →
  (∀ x, x ∈ entities t → key_of (ents st) x = key_of (ents st) se → x = se) →
  (∀ a, a ∈ taddrs t → ∃ h', h_free a (heap st) = Done (tt, h')) →
  taken_out se st t (rb_remove se st).
Proof.
  intros Hok Hin Huniq Hfree. pose proof Hok as [Hr _ He Ho _ _ _].
  destruct (remove_search_found t (tree_fuel st) st se [] Hr Ho He Hin Huniq)
    as (k&c&l&n&r&Hrun&Ht).
  { unfold tree_fuel. rewrite (size_represents _ _ Hr). lia. }
  by eapply rb_remove_found.
Qed.

(** Whatever the keys are, [rb_remove] of an entity takes it out or leaves the
    tree as it is. *)
Lemma rb_remove_any st t se :
  rb_ok ok st t → is_Some (ents st !! se) →
  (∀ a, a ∈ taddrs t → ∃ h', h_free a (heap st) = Done (tt, h')) →
  taken_out se st t (rb_remove se st) ∨ rb_remove se st = Done (tt, st).
Proof.
  intros Hok Hse Hfree. pose proof Hok as [Hr _ He _ _ _ _].
  destruct (remove_search_any t (tree_fuel st) st se (key_of (ents st) se) [] Hr He) as [Hrun|(k&c&l&n&r&Hrun&Ht)].
  { unfold tree_fuel. rewrite (size_represents _ _ Hr). lia. }
  - right. unfold rb_remove. step. erewrite bind_done by (by apply entity_key_run). step.
    destruct Hr as (Hroot&?&?&?). rewrite Hroot. by erewrite bind_done by exact Hrun.
  - left. by eapply rb_remove_found.
Qed.
End remove.

(** ** Properties of [rb_remove] *)

(** C2: when an entity of the tree has a key of its own, [rb_remove] returns,
    the store is again a red-black search tree with [leftmost] on its first
    node, exactly that entity is gone and exactly one node was freed. *)
Theorem rb_remove_correct {H} `{!Allocator H} (ok : H → Prop) `{!AllocatorLaws H ok}
    (st : rb_state H) t se :
  rb_ok ok st t → se ∈ entities t →
  (∀ x, x ∈ entities t → key_of (ents st) x = key_of (ents st) se → x = se) →
  (∀ a, a ∈ taddrs t → ∃ h', h_free a (heap st) = Done (tt, h')) →
  ∃ st' t' l1 l2 a, rb_remove se st = Done (tt, st') ∧ rb_ok ok st' t' ∧
    entities t = l1 ++ se :: l2 ∧ entities t' = l1 ++ l2 ∧
    ents st' = ents st ∧ taddrs t ≡ₚ a :: taddrs t' ∧
    h_free a (heap st) = Done (tt, heap st').
Proof. exact (rb_remove_spec ok st t se). Qed.

Lemma rb_remove_correct_witness :
  ∃ st' t' l1 l2 a, rb_remove 5 ex_state = Done (tt, st') ∧ rb_ok bump_ok st' t' ∧
    entities ex_tree = l1 ++ 5 :: l2 ∧ entities t' = l1 ++ l2 ∧
    ents st' = ents ex_state ∧ taddrs ex_tree ≡ₚ a :: taddrs t' ∧
    h_free a (heap ex_state) = Done (tt, heap st').
Proof.
  apply (rb_remove_correct bump_ok ex_state ex_tree 5).
  - apply ex_state_ok.
  - apply (bool_decide_unpack _). by vm_compute.
  - intros x Hx. change (x ∈ [3; 5; 8]) in Hx. rewrite !elem_of_cons, elem_of_nil in Hx.
    destruct Hx as [->|[->|[->|[]]]]; by vm_compute.
  - intros a _. by eexists.
Defined.

(** Asking [rb_remove] for an entity that is not in the tree changes
    nothing. *)
Lemma rb_remove_absent {H} `{!Allocator H} (ok : H → Prop) (st : rb_state H) t se :
  rb_ok ok st t → se ∉ entities t → is_Some (ents st !! se) →
  rb_remove se st = Done (tt, st).
Proof.
  intros [Hr Hrb He Ho Hlm Hok Hlive] Hin Hse. unfold rb_remove. step.
  erewrite bind_done by (by apply entity_key_run). step.
  pose proof Hr as [Hroot _]. rewrite Hroot. erewrite bind_done.
  2:{ eapply (remove_search_missing t _ st se _ [] Hr He Hin).
      unfold tree_fuel. rewrite (size_represents _ _ Hr). lia. }
  done.
Qed.

Lemma rb_remove_absent_witness : rb_remove 4 ex_state = Done (tt, ex_state).
Proof.
  apply (rb_remove_absent bump_ok ex_state ex_tree 4).
  - apply ex_state_ok.
  - apply (bool_decide_unpack _). by vm_compute.
  - by eexists.
Defined.

(** Three entities with one key: the rotation of the third insertion puts the
    first one to the left of the root, where the search never looks. *)
Definition twins : rb_state bump :=
  mk_rb_state 0 0 ∅
    (list_to_map ((λ s, (s, mk_sched_entity 10 0)) <$> [1; 2; 3])) (mk_bump 64 ∅).

(** The tree the three insertions build. *)
Definition twins3 : rb_state bump :=
  mk_rb_state 104 64
    (list_to_map [(64, mk_rb_node 0 0 104 RED 1); (104, mk_rb_node 64 144 0 BLACK 2);
                  (144, mk_rb_node 0 0 104 RED 3)])
    (ents twins) (mk_bump 184 {[64; 104; 144]}).

Definition twins_tree : tree := T BLACK (T RED E 64 1 E) 104 2 (T RED E 144 3 E).

Lemma twins_inserted : (rb_insert ex_uninit 1;; rb_insert ex_uninit 2;; rb_insert ex_uninit 3) twins = Done (tt, twins3).
Proof. vm_compute. reflexivity. Qed.

Lemma twins3_ok : rb_ok bump_ok twins3 twins_tree.
Proof.
  constructor.
  - unfold represents. split_and!; try done.
    apply (bool_decide_unpack _). by vm_compute.
  - exists BLACK, 1%nat. eauto with rb.
  - repeat constructor; by eexists.
  - unfold ordered. simpl. repeat constructor; by vm_compute.
  - done.
  - split; simpl; [lia|]. intros a Ha. set_solver by lia.
  - set_solver.
Qed.

(** C21: with equal keys [rb_remove] can miss an entity of the tree: it leaves
    the tree as it is when the entity stands in the left part of a node with
    the same key, and takes exactly that entity out in every other case. *)
Theorem rb_remove_misses_equal_key {H} `{!Allocator H} (ok : H → Prop) `{!AllocatorLaws H ok} (st : rb_state H) t se :
  rb_ok ok st t → NoDup (entities t) → se ∈ entities t →
  (∀ a, a ∈ taddrs t → ∃ h', h_free a (heap st) = Done (tt, h')) →
  (shadowed (ents st) se t → rb_remove se st = Done (tt, st)) ∧
  (¬ shadowed (ents st) se t → taken_out ok se st t (rb_remove se st)).
Proof.
  intros Hok Hnd Hin Hfree. pose proof Hok as [Hr _ He Ho _ _ _].
  assert (length (taddrs t) < tree_fuel st)%nat as Hfuel by (unfold tree_fuel; rewrite (size_represents _ _ Hr); lia).
  split; intros Hsh.
  - unfold rb_remove. step. rewrite Forall_forall in He. erewrite bind_done by (apply entity_key_run; by apply He). step.
    pose proof Hr as (Hroot&_). rewrite Hroot. rewrite <- Forall_forall in He.
    by erewrite bind_done by (exact (remove_search_shadowed t _ st se [] Hr He Hnd Hsh Hfuel)).
  - destruct (remove_search_unshadowed t (tree_fuel st) st se [] Hr Ho He Hin Hsh Hfuel) as (k&c&l&n&r&Hrun&Ht).
    by eapply rb_remove_found.
Qed.

(** Of three entities with one key, inserted one after the other, the first
    one is missed: it is the one the scheduler picks and dequeues. *)
Lemma rb_remove_misses_equal_key_witness :
  n_se <$> nodes twins3 !! leftmost twins3 = Some 1 ∧ rb_remove 1 twins3 = Done (tt, twins3).
Proof.
  split; [done|]. apply (rb_remove_misses_equal_key bump_ok twins3 twins_tree 1).
  - apply twins3_ok.
  - apply (bool_decide_unpack _). by vm_compute.
  - apply (bool_decide_unpack _). by vm_compute.
  - intros a _. by eexists.
  - left. split; [done|]. apply (bool_decide_unpack _). by vm_compute.
Defined.
