(* ===== verification/RbTest.v ===== *)
(** * The test and the benchmark of the tree

    tests/rb_tree_test.c with tests/test.h, and
    benchmarks/rb_tree_benchmark.c: the check [is_valid_tree], the shuffled
    lists of numbers, the loops that insert and remove.  The random numbers of
    the host are a parameter.  The check is the boolean function [valid] of
    the tree behind the pointers; the test passes whatever the random numbers
    are, equal ones included. *)
From S2P Require Import Prelude.
From S2P Require Import Interfaces.
From S2P Require Import RbTree.
From S2P Require Import RbRepr.
From S2P Require Import RbInv.
From S2P Require Import RbInsert.
From S2P Require Import RbRemove.

(** ** The check *)

Section check.
Context {H : Type}.
Abbreviation RB := (M (rb_state H)).
Implicit Type st : rb_state H.

(** The test of one child of a node with key [key] and colour [c]; [rec] is
    the recursive call. *)
Definition check_child (rec : Z → option Z → RB (bool * option Z)) (key : Z) (c : rb_col) (d : dir_t) (child : Z) : RB bool :=
  if decide (child ≠ 0) then
    cn ← load child;
    k ← entity_key (n_se cn);
    if (match d with LEFT => bool_decide (key < k) | RIGHT => bool_decide (key > k) end) then mret false else
    if decide (c = RED ∧ n_color cn = RED) then mret false else
    r ← rec child (Some 0);
    mret r.1
  else mret true.

(** [is_valid_tree]; [height] is the target of the pointer, [None] for
    [NULL].  The heights of the children are not used. *)
Fixpoint is_valid_tree (fuel : nat) (n : Z) (height : option Z) : RB (bool * option Z) :=
  match fuel with
  | O => out_of_fuel
  | S fuel =>
      if decide (n = 0) then mret (true, height) else
      nn ← load n;
      key ← entity_key (n_se nn);
      ok ← check_child (is_valid_tree fuel) key (n_color nn) LEFT (n_left nn);
      if negb ok then mret (false, height) else
      ok ← check_child (is_valid_tree fuel) key (n_color nn) RIGHT (n_right nn);
      if negb ok then mret (false, height) else
      mret (true, if decide (n_color nn = BLACK) then Z.succ <$> height else height)
  end.

(** What the check computes: a node and its children are in order, and no red
    node has a red child. *)
Definition side (es : gmap Z sched_entity_t) (c : rb_col) (key : Z) (d : dir_t) (t : tree) : bool :=
  match t with
  | E => true
  | T c' _ _ s _ =>
      (match d with LEFT => bool_decide (key_of es s ≤ key) | RIGHT => bool_decide (key ≤ key_of es s) end) &&
      negb (bool_decide (c = RED ∧ c' = RED))
  end.
Fixpoint valid (es : gmap Z sched_entity_t) (t : tree) : bool :=
  match t with
  | E => true
  | T c l _ s r => side es c (key_of es s) LEFT l && valid es l && (side es c (key_of es s) RIGHT r && valid es r)
  end.

Lemma check_child_run rec st k c d s x t p :
  represents st (plug (Fr d c p s x :: k) t) → (∀ y, y ∈ entities t → is_Some (ents st !! y)) →
  (∀ h, ∃ h', rec (ptr t) h st = Done ((valid (ents st) t, h'), st)) →
  check_child rec (key_of (ents st) s) c d (ptr t) st = Done (side (ents st) c (key_of (ents st) s) d t && valid (ents st) t, st).
Proof.
  intros Hr He Hrec. unfold check_child. destruct t as [|c' l' p' s' r']; [done|]. cbn [ptr].
  rewrite decide_True by (by eapply represents_lookup).
  erewrite bind_done by (by eapply load_focus). cbn [n_se n_color].
  erewrite bind_done by (apply entity_key_run, He, elem_of_entities_T; auto). cbn [side].
  assert (match d with LEFT => bool_decide (key_of (ents st) s < key_of (ents st) s') | RIGHT => bool_decide (key_of (ents st) s > key_of (ents st) s') end
    = negb (match d with LEFT => bool_decide (key_of (ents st) s' ≤ key_of (ents st) s) | RIGHT => bool_decide (key_of (ents st) s ≤ key_of (ents st) s') end)) as ->.
  { destruct d; rewrite <- bool_decide_not; apply bool_decide_ext; lia. }
  destruct (match d with LEFT => _ | RIGHT => _ end); cbn [negb andb]; [|done].
  case_decide as Hc; [by rewrite bool_decide_eq_true_2|rewrite bool_decide_eq_false_2 by done]. cbn [negb andb].
  destruct (Hrec (Some 0)) as (h' & E1). by rewrite (bind_done _ _ _ _ _ E1).
Qed.

(** The check returns, and computes [valid]. *)
Lemma is_valid_tree_run t fuel st k h :
  represents st (plug k t) → (∀ s, s ∈ entities t → is_Some (ents st !! s)) → (length (taddrs t) < fuel)%nat →
  ∃ h', is_valid_tree fuel (ptr t) h st = Done ((valid (ents st) t, h'), st).
Proof.
  revert fuel k h. induction t as [|c l IHl p s r IHr]; intros fuel k h Hr He Hf;
    (destruct fuel as [|fuel]; [lia|]); cbn [is_valid_tree ptr]; [by exists h|].
  simpl in Hf. rewrite length_app in Hf; simpl in Hf. setoid_rewrite elem_of_entities_T in He.
  rewrite decide_False by (by eapply represents_lookup).
  erewrite bind_done by (by eapply load_focus). cbn [n_se n_left n_right n_color].
  erewrite bind_done by (apply entity_key_run; naive_solver).
  erewrite bind_done.
  2: { eapply (check_child_run _ st k c LEFT s r l p); [done|naive_solver|]. intros h'. eapply (IHl fuel (Fr LEFT c p s r :: k)); [done|naive_solver|lia]. }
  cbn [valid]. destruct (side _ _ _ LEFT l && valid _ l); cbn [negb andb]; [|by exists h].
  erewrite bind_done.
  2: { eapply (check_child_run _ st k c RIGHT s l r p); [done|naive_solver|]. intros h'. eapply (IHr fuel (Fr RIGHT c p s l :: k)); [done|naive_solver|lia]. }
  destruct (side _ _ _ RIGHT r && valid _ r); cbn [negb]; by eexists.
Qed.

(** A well-coloured search tree passes. *)
Lemma rb_valid es t : red_black t → ordered es t → valid es t = true.
Proof.
  intros (c & n & Hrb). induction Hrb as [|l p s r n Hl IHl Hr IHr|l p s r cl cr n Hl IHl Hr IHr]; intros Ho; [done|..].
  all: destruct (ordered_T _ _ _ _ _ _ Ho) as (Hol & Hor & Hll & Hrr); cbn [valid]; rewrite IHl, IHr by done; rewrite !andb_true_r.
  all: rewrite Forall_forall in Hll, Hrr; apply andb_true_iff; split.
  all: match goal with |- side _ _ _ _ ?t = true => destruct t as [|c' l' p' s' r']; [done|] end; cbn [side]; apply andb_true_iff; split.
  all: try (apply bool_decide_eq_true; (apply Hll || apply Hrr); apply elem_of_entities_T; auto).
  all: apply negb_true_iff, bool_decide_eq_false; intros [Hc ->]; try done; first [by inversion Hl|by inversion Hr].
Qed.
End check.

(** ** The host *)

(** tests/test.h *)
Inductive status := OK | ERROR.

(** The tree with the memory of the program, the state of the random numbers
    and the messages. *)
Record host (H : Type) := mk_host {
  h_tree : rb_state H;
  h_seed : Z;
  h_drawn : nat;
  h_out : list (status * string);
}.
Arguments mk_host {H}.
Arguments h_tree {H}.
Arguments h_seed {H}.
Arguments h_drawn {H}.
Arguments h_out {H}.

(** The conversion to [int]. *)
Definition int32 (z : Z) : Z := if decide (w32 z < 2 ^ 31) then w32 z else w32 z - 2 ^ 32.
Definition sizeof_sched_entity : Z := 16.
Definition TEST_N : Z := 10000.

Section test.
Context {H : Type} `{!Allocator H}.
Context (uninit : rb_node_t).
(** [rand]: the numbers that follow a seed. *)
Context (rand_of : Z → nat → Z).
Abbreviation TEST := (M (host H)).
Implicit Type s : host H.

Definition set_tree (t : rb_state H) s : host H := mk_host t (h_seed s) (h_drawn s) (h_out s).
Definition on_tree {A} : M (rb_state H) A → TEST A := zoom h_tree set_tree.

Definition srand (n : Z) : TEST unit := modify (λ s, mk_host (h_tree s) n 0 (h_out s)).
Definition rand : TEST Z :=
  r ← gets (λ s, rand_of (h_seed s) (h_drawn s));
  modify (λ s, mk_host (h_tree s) (h_seed s) (S (h_drawn s)) (h_out s));; mret r.
Definition log_test (st : status) (msg : string) : TEST unit :=
  modify (λ s, mk_host (h_tree s) (h_seed s) (h_drawn s) (h_out s ++ [(st, msg)])).

Definition random_range (a b : Z) : TEST Z :=
  r ← rand;
  let d := int32 (b - a) in
  if decide (d = 0) then fault else mret (w32 (Z.rem r d + a)).

Definition at_index (l : list Z) (i : Z) : option Z := if decide (0 ≤ i) then l !! Z.to_nat i else None.

(** The loop of [shuffle], [n] rounds left from [i]. *)
Fixpoint shuffle_loop (n : nat) (i sz : Z) (l : list Z) : TEST (list Z) :=
  match n with
  | O => mret l
  | S n =>
      j ← random_range i (w32 sz);
      tmp ← getf (λ _, at_index l i);
      x ← getf (λ _, at_index l j);
      shuffle_loop n (i + 1) sz (<[Z.to_nat j := tmp]> (<[Z.to_nat i := x]> l))
  end.
Definition shuffle (sz : Z) (l : list Z) : TEST (list Z) :=
  srand 5465451;; shuffle_loop (Z.to_nat (w64 (sz - 1))) 0 sz l.

(** [n] random numbers for an array of [u32]. *)
Fixpoint rands (n : nat) : TEST (list Z) :=
  match n with O => mret [] | S n => r ← rand; l ← rands n; mret (w32 r :: l) end.

(** The arrays [insert_list] and [remove_perm]. *)
Definition generate_test_list (N : Z) : TEST (list Z * list Z) :=
  srand 5;;
  il ← rands (Z.to_nat N);
  rp ← shuffle N (seqZ 0 N);
  mret (il, rp).

(** [calloc(N, sizeof(sched_entity_t))]. *)
Definition entity_at (base i : Z) : Z := base + sizeof_sched_entity * i.
Definition calloc_ents (N : Z) : TEST Z :=
  base ← on_tree (zoom heap set_heap (h_alloc (N * sizeof_sched_entity)));
  if decide (base = 0) then mret 0 else
  on_tree (modify (λ t, mk_rb_state (root t) (leftmost t) (nodes t)
    (list_to_map ((λ i, (entity_at base i, mk_sched_entity 0 0)) <$> seqZ 0 N) ∪ ents t) (heap t)));;
  mret base.

(** [ents[i].vruntime = l[i]], from [i] on. *)
Fixpoint set_keys (base i : Z) (l : list Z) : TEST unit :=
  match l with
  | [] => mret tt
  | v :: l =>
      on_tree (modifyf (λ t, e ← ents t !! entity_at base i;
        Some (mk_rb_state (root t) (leftmost t) (nodes t) (<[entity_at base i := mk_sched_entity v (exec_start_time e)]> (ents t)) (heap t))));;
      set_keys base (i + 1) l
  end.

(** [is_valid_tree(t.root, NULL)]. *)
Definition check_tree : TEST bool :=
  on_tree (n ← gets root; fuel ← gets tree_fuel; r ← is_valid_tree fuel n None; mret r.1).

Fixpoint insert_check (n : nat) (base i : Z) : TEST bool :=
  match n with
  | O => mret true
  | S n =>
      on_tree (rb_insert uninit (entity_at base i));;
      ok ← check_tree;
      if negb ok then log_test ERROR "rb_insert";; mret false else insert_check n base (i + 1)
  end.
Fixpoint remove_check (base : Z) (l : list Z) : TEST bool :=
  match l with
  | [] => mret true
  | i :: l =>
      on_tree (rb_remove (entity_at base i));;
      ok ← check_tree;
      if negb ok then log_test ERROR "rb_remove";; mret false else remove_check base l
  end.

(** [main] of the test, for arrays of size [N]. *)
Definition test_main (N : Z) : TEST Z :=
  on_tree (modify (λ t, set_leftmost 0 (set_root 0 t)));;
  base ← calloc_ents N;
  p ← generate_test_list N;
  set_keys base 0 p.1;;
  ok ← insert_check (Z.to_nat N) base 0;
  if negb ok then mret 1 else
  log_test OK "rb_insert";;
  ok ← remove_check base p.2;
  if negb ok then mret 1 else
  log_test OK "rb_remove";;
  mret 0.

(** ** The benchmark *)

(** Its [shuffle] does not set the seed. *)
Definition bench_shuffle (sz : Z) (l : list Z) : TEST (list Z) := shuffle_loop (Z.to_nat (w64 (sz - 1))) 0 sz l.

(** The arrays [insert_list], [op_value] and [op_order]; [now] is the time. *)
Definition bench_lists (now T_SIZE N : Z) : TEST (list Z * list Z * list Z) :=
  srand now;;
  il ← rands (Z.to_nat T_SIZE);
  ov ← rands (Z.to_nat N);
  oo ← bench_shuffle N (seqZ 0 N);
  mret (il, ov, oo).

Fixpoint fill (n : nat) (base i : Z) : TEST unit :=
  match n with
  | O => mret tt
  | S n => on_tree (rb_insert uninit (entity_at base i));; fill n base (i + 1)
  end.
(** The measured loop. *)
Fixpoint bench_ops (base : Z) (l : list Z) : TEST unit :=
  match l with
  | [] => mret tt
  | i :: l =>
      on_tree (rb_insert uninit (entity_at base i));;
      on_tree (rb_remove (entity_at base i));;
      bench_ops base l
  end.

(** [main] from the allocations on; [start] and [stop] tell whether the two
    readings of the clock succeed. *)
Definition bench_main (now T_SIZE N : Z) (start stop : bool) : TEST Z :=
  on_tree (modify (λ t, set_leftmost 0 (set_root 0 t)));;
  ents ← calloc_ents T_SIZE;
  p ← bench_lists now T_SIZE N;
  let '(il, ov, oo) := p in
  set_keys ents 0 il;;
  fill (Z.to_nat T_SIZE) ents 0;;
  op_ents ← calloc_ents N;
  set_keys op_ents 0 ov;;
  if negb start then log_test ERROR "Clock error";; mret 1 else
  bench_ops op_ents oo;;
  if negb stop then log_test ERROR "Clock error";; mret 1 else
  mret 0.
End test.

(** ** Shuffling *)

Section proofs.
Context {H : Type} `{!Allocator H} (ok : H → Prop) `{!AllocatorLaws H ok}.
Context (uninit : rb_node_t) (rand_of : Z → nat → Z).
Hypothesis rand_range : ∀ seed k, 0 ≤ rand_of seed k < 2 ^ 31.
Implicit Type s : host H.

(** Only the random numbers have moved on. *)
Definition drew s s' : Prop := h_tree s' = h_tree s ∧ h_out s' = h_out s.

Lemma rand_run s : ∃ s', rand rand_of s = Done (rand_of (h_seed s) (h_drawn s), s') ∧ drew s s' ∧ h_seed s' = h_seed s ∧ h_drawn s' = S (h_drawn s).
Proof. by eexists. Qed.

Lemma random_range_run s a b :
  0 ≤ a < b → b < 2 ^ 31 → ∃ j s', random_range rand_of a b s = Done (j, s') ∧ a ≤ j < b ∧ drew s s'.
Proof.
  intros Ha Hb. unfold random_range. destruct (rand_run s) as (s1 & E1 & D1 & _). rewrite (bind_done _ _ _ _ _ E1).
  pose proof (rand_range (h_seed s) (h_drawn s)) as Hr. set (r := rand_of _ _) in *.
  assert (int32 (b - a) = b - a) as -> by (unfold int32; rewrite w32_small by lia; by rewrite decide_True by lia).
  rewrite decide_False by lia. rewrite Z.rem_mod_nonneg by lia. pose proof (Z.mod_pos_bound r (b - a) ltac:(lia)).
  eexists _, s1. split; [done|]. rewrite w32_small by lia. split; [lia|done].
Qed.

Lemma drew_trans s s1 s2 : drew s s1 → drew s1 s2 → drew s s2.
Proof. intros [A1 A2] [B1 B2]. split; congruence. Qed.

(** Swapping keeps the elements, whatever is drawn. *)
Lemma shuffle_loop_run n i sz l s :
  0 ≤ i → i + Z.of_nat n < sz → sz = Z.of_nat (length l) → sz < 2 ^ 31 →
  ∃ l' s', shuffle_loop rand_of n i sz l s = Done (l', s') ∧ l' ≡ₚ l ∧ drew s s'.
Proof.
  revert i l s. induction n as [|n IH]; intros i l s Hi Hn Hsz Hb; cbn [shuffle_loop]; [by exists l, s|].
  rewrite w32_small by lia. destruct (random_range_run s i sz) as (j & s1 & E1 & Hj & D1); [lia|done|]. rewrite (bind_done _ _ _ _ _ E1).
  destruct (lookup_lt_is_Some_2 l (Z.to_nat i) ltac:(lia)) as [x Hx]. destruct (lookup_lt_is_Some_2 l (Z.to_nat j) ltac:(lia)) as [y Hy].
  erewrite bind_done by (apply (getf_done (λ _, at_index l i)); unfold at_index; rewrite decide_True by lia; exact Hx).
  erewrite bind_done by (apply (getf_done (λ _, at_index l j)); unfold at_index; rewrite decide_True by lia; exact Hy).
  destruct (IH (i + 1) (<[Z.to_nat j := x]> (<[Z.to_nat i := y]> l)) s1) as (l' & s' & E2 & P2 & D2); rewrite ?length_insert; try lia.
  exists l', s'. split_and!; [done| |by eapply drew_trans]. rewrite P2. by apply Permutation_insert_swap.
Qed.

(** [shuffle] permutes the array. *)
Lemma shuffle_run sz l s :
  0 < sz < 2 ^ 31 → sz = Z.of_nat (length l) → ∃ l' s', shuffle rand_of sz l s = Done (l', s') ∧ l' ≡ₚ l ∧ drew s s'.
Proof.
  intros Hb Hsz. unfold shuffle, srand. step. rewrite w64_small by lia.
  match goal with |- context [shuffle_loop _ _ _ _ _ ?s0] => destruct (shuffle_loop_run (Z.to_nat (sz - 1)) 0 sz l s0) as (l' & s' & E1 & P1 & D1); [lia..|] end.
  exists l', s'. done.
Qed.

Lemma rands_run n s :
  ∃ s', rands rand_of n s = Done ((λ j, w32 (rand_of (h_seed s) j)) <$> seq (h_drawn s) n, s') ∧ drew s s' ∧ h_seed s' = h_seed s.
Proof.
  revert s. induction n as [|n IH]; intros s; cbn [rands]; [by exists s|].
  destruct (rand_run s) as (s1 & E1 & D1 & F1 & F2). rewrite (bind_done _ _ _ _ _ E1).
  destruct (IH s1) as (s' & E2 & D2 & F3). rewrite (bind_done _ _ _ _ _ E2), F1, F2. exists s'. split_and!; [done|by eapply drew_trans|congruence].
Qed.

(** The keys that are inserted: the first numbers of the seed 5. *)
Definition test_keys (N : Z) : list Z := (λ j, w32 (rand_of 5 j)) <$> seq 0 (Z.to_nat N).

Lemma generate_run N s :
  0 < N < 2 ^ 31 → ∃ rp s', generate_test_list rand_of N s = Done ((test_keys N, rp), s') ∧ rp ≡ₚ seqZ 0 N ∧ drew s s'.
Proof.
  intros HN. unfold generate_test_list, srand. step. set (s0 := mk_host _ _ _ _).
  destruct (rands_run (Z.to_nat N) s0) as (s1 & E1 & D1 & _). rewrite (bind_done _ _ _ _ _ E1).
  destruct (shuffle_run N (seqZ 0 N) s1) as (rp & s2 & E2 & P2 & D2); [done|rewrite length_seqZ; lia|]. rewrite (bind_done _ _ _ _ _ E2).
  exists rp, s2. split_and!; [done|done|]. eapply drew_trans; [|exact D2]. eapply drew_trans; [|exact D1]. done.
Qed.
(** ** The loops *)

(** The memory of the host does not run out. *)
Hypothesis heap_gives : ∀ h n, ok h → 0 < n < 2 ^ 32 → ∃ a h', h_alloc n h = Done (a, h') ∧ a ≠ 0.
Hypothesis heap_takes : ∀ h a, ok h → a ∈ h_live h → ∃ h', h_free a h = Done (tt, h').

Lemma on_tree_run {A} (f : M (rb_state H) A) s a t : f (h_tree s) = Done (a, t) → on_tree f s = Done (a, set_tree t s).
Proof. intros Hf. unfold on_tree, zoom. by rewrite Hf. Qed.

Lemma check_tree_run s t : rb_ok ok (h_tree s) t → check_tree s = Done (true, s).
Proof.
  intros [Hr Hrb He Ho _ _ _]. rewrite Forall_forall in He.
  destruct (is_valid_tree_run t (tree_fuel (h_tree s)) (h_tree s) [] None) as (h' & E1); [done|done|unfold tree_fuel; rewrite (size_represents _ _ Hr); lia|].
  unfold check_tree. erewrite on_tree_run; [|step; step; destruct Hr as (-> & _); rewrite (bind_done _ _ _ _ _ E1), (rb_valid _ _ Hrb Ho); reflexivity].
  by destruct s.
Qed.

(** The tree [t'] of [s'] in place of [t]; the entities and messages stay. *)
Definition moved s s' : Prop := ents (h_tree s') = ents (h_tree s) ∧ h_out s' = h_out s.
Abbreviation known s base l := (∀ i, i ∈ l → is_Some (ents (h_tree s) !! entity_at base i)).

Lemma insert_one_run se s t :
  rb_ok ok (h_tree s) t → is_Some (ents (h_tree s) !! se) →
  ∃ st1 t1, rb_insert uninit se (h_tree s) = Done (tt, st1) ∧ rb_ok ok st1 t1 ∧ ents st1 = ents (h_tree s) ∧ entities t1 ≡ₚ se :: entities t.
Proof.
  intros Hok Hse. destruct (heap_gives (heap (h_tree s)) sizeof_rb_node (ok_heap _ _ _ Hok)) as (a & h' & Ha & Ha0); [done|].
  destruct (rb_insert_spec ok uninit (h_tree s) t se a h' Hok Hse Ha Ha0) as (st1 & t1 & l1 & l2 & E1 & Hok1 & He1 & _ & L1 & L2 & _).
  exists st1, t1. split_and!; [done..|]. rewrite L1, L2. by rewrite <- Permutation_middle.
Qed.

Lemma insert_check_run n base i s t :
  rb_ok ok (h_tree s) t → known s base (seqZ i (Z.of_nat n)) →
  ∃ s' t', insert_check uninit n base i s = Done (true, s') ∧ rb_ok ok (h_tree s') t' ∧
    entities t' ≡ₚ (entity_at base <$> seqZ i (Z.of_nat n)) ++ entities t ∧ moved s s'.
Proof.
  revert i s t. induction n as [|n IH]; intros i s t Hok Hk; cbn [insert_check]; [by exists s, t|].
  rewrite (seqZ_cons i) in Hk by lia. rewrite (seqZ_cons i) by lia. replace (Z.pred (Z.of_nat (S n))) with (Z.of_nat n) in * by lia. rewrite <- Z.add_1_r in *.
  destruct (insert_one_run (entity_at base i) s t Hok) as (st1 & t1 & E1 & Hok1 & He1 & P1); [apply Hk; by left|].
  rewrite (bind_done _ _ _ _ _ (on_tree_run _ s _ _ E1)), (bind_done _ _ _ _ _ (check_tree_run (set_tree st1 s) t1 Hok1)). cbn [negb].
  destruct (IH (i + 1) (set_tree st1 s) t1 Hok1) as (s' & t' & E2 & Hok' & P2 & M1 & M2).
  { intros j Hj. cbn. rewrite He1. apply Hk. by right. }
  exists s', t'. split_and!; [done|done| |split; [by rewrite M1; cbn|done]].
  rewrite P2, P1. by rewrite <- Permutation_middle.
Qed.

(** All keys of the tree are different. *)
Definition distinct s t : Prop := ∀ x y, x ∈ entities t → y ∈ entities t → key_of (ents (h_tree s)) x = key_of (ents (h_tree s)) y → x = y.

(** One removal: the tree stays a search tree, and when all keys are
    different exactly the entity is gone. *)
Lemma remove_one_run se s t :
  rb_ok ok (h_tree s) t → is_Some (ents (h_tree s) !! se) →
  ∃ st1 t1, rb_remove se (h_tree s) = Done (tt, st1) ∧ rb_ok ok st1 t1 ∧ ents st1 = ents (h_tree s) ∧
    (distinct s t → se ∈ entities t → entities t ≡ₚ se :: entities t1).
Proof.
  intros Hok Hk.
  assert (∀ a, a ∈ taddrs t → ∃ h', h_free a (heap (h_tree s)) = Done (tt, h')) as Hfree.
  { intros a Ha. apply heap_takes; [apply Hok|]. apply (ok_live _ _ _ Hok). by apply elem_of_list_to_set. }
  assert (taken_out ok se (h_tree s) t (rb_remove se (h_tree s)) ∨
    rb_remove se (h_tree s) = Done (tt, h_tree s) ∧ ¬ (distinct s t ∧ se ∈ entities t)) as [Ht|[E1 Hno]].
  { destruct (decide (se ∈ entities t ∧ Forall (λ x, key_of (ents (h_tree s)) x = key_of (ents (h_tree s)) se → x = se) (entities t))) as [[Hin Hu]|Hno].
    - left. apply rb_remove_spec; try done. by rewrite Forall_forall in Hu.
    - destruct (rb_remove_any ok (h_tree s) t se Hok Hk Hfree) as [?|E1]; [by left|right]. split; [done|]. intros [Hd Hin]. apply Hno.
      split; [done|]. apply Forall_forall. intros x Hx. by apply Hd. }
  - destruct Ht as (st1 & t1 & l1 & l2 & a & E1 & Hok1 & L1 & L2 & He1 & _). exists st1, t1. split_and!; try done. intros _ _. rewrite L1, L2. by rewrite <- Permutation_middle.
  - exists (h_tree s), t. split_and!; try done. intros Hd Hin. by destruct Hno.
Qed.

Lemma remove_check_run base l s t rest :
  rb_ok ok (h_tree s) t → known s base l →
  ∃ s' t', remove_check base l s = Done (true, s') ∧ rb_ok ok (h_tree s') t' ∧ moved s s' ∧
    (distinct s t → entities t ≡ₚ (entity_at base <$> l) ++ rest → entities t' ≡ₚ rest).
Proof.
  revert s t. induction l as [|i l IH]; intros s t Hok Hk; cbn [remove_check]; [by exists s, t|].
  destruct (remove_one_run (entity_at base i) s t Hok) as (st1 & t1 & E1 & Hok1 & He1 & Hd1); [apply Hk; by left|].
  rewrite (bind_done _ _ _ _ _ (on_tree_run _ s _ _ E1)), (bind_done _ _ _ _ _ (check_tree_run (set_tree st1 s) t1 Hok1)). cbn [negb].
  destruct (IH (set_tree st1 s) t1 Hok1) as (s' & t' & E2 & Hok' & [M1 M2] & HP').
  { intros j Hj. cbn. rewrite He1. apply Hk. by right. }
  exists s', t'. split_and!; [done|done|split; [by rewrite M1; cbn|done]|].
  intros Hd HP. specialize (Hd1 Hd ltac:(rewrite HP; by left)). apply HP'.
  - intros x y Hx Hy. cbn. rewrite He1. apply Hd; rewrite Hd1; by right.
  - rewrite HP in Hd1. symmetry in Hd1. by apply (Permutation_cons_inv (a := entity_at base i)).
Qed.

(** The measured loop of the benchmark returns with a search tree, over the
    same entities when every key is new to the tree. *)
Lemma bench_ops_run base l s t :
  rb_ok ok (h_tree s) t → known s base l →
  ∃ s' t', bench_ops uninit base l s = Done (tt, s') ∧ rb_ok ok (h_tree s') t' ∧ moved s s' ∧
    ((∀ i x y, i ∈ l → x ∈ entity_at base i :: entities t → y ∈ entity_at base i :: entities t →
      key_of (ents (h_tree s)) x = key_of (ents (h_tree s)) y → x = y) → entities t' ≡ₚ entities t).
Proof.
  revert s t. induction l as [|i l IH]; intros s t Hok Hk; cbn [bench_ops]; [by exists s, t|].
  destruct (insert_one_run (entity_at base i) s t Hok) as (st1 & t1 & E1 & Hok1 & He1 & P1); [apply Hk; by left|].
  rewrite (bind_done _ _ _ _ _ (on_tree_run _ s _ _ E1)). set (s1 := set_tree st1 s).
  destruct (remove_one_run (entity_at base i) s1 t1 Hok1) as (st2 & t2 & E2 & Hok2 & He2 & P2); [cbn; rewrite He1; apply Hk; by left|].
  rewrite (bind_done _ _ _ _ _ (on_tree_run _ s1 _ _ E2)). cbn in He2. rewrite He1 in He2.
  destruct (IH (set_tree st2 s1) t2 Hok2) as (s' & t' & E3 & Hok' & [M1 M2] & P3).
  { intros j Hj. cbn. rewrite He2. apply Hk. by right. }
  exists s', t'. split_and!; [done|done|split; [by rewrite M1; cbn|done]|]. intros Hd.
  assert (entities t2 ≡ₚ entities t) as P4.
  { apply (Permutation_cons_inv (a := entity_at base i)). rewrite <- P1. symmetry. apply P2; [|rewrite P1; by left].
    intros x y Hx Hy. cbn. rewrite He1. rewrite P1 in Hx, Hy. apply (Hd i); [by left|done|done]. }
  rewrite P3, P4; [done|]. intros j x y Hj. cbn. rewrite He2, P4. intros Hx Hy. apply (Hd j); [by right|done|done].
Qed.

(** ** The entities *)

Lemma entity_at_inj base i j : entity_at base i = entity_at base j → i = j.
Proof. unfold entity_at, sizeof_sched_entity. lia. Qed.

(** [calloc] with memory available. *)
Lemma calloc_run N s t :
  rb_ok ok (h_tree s) t → entities t = [] → 0 < N < 2 ^ 27 →
  ∃ base s', calloc_ents N s = Done (base, s') ∧ rb_ok ok (h_tree s') t ∧ h_out s' = h_out s ∧ known s' base (seqZ 0 N).
Proof.
  intros [Hr Hrb He Ho Hl Hok Hlive] Ht HN.
  destruct (heap_gives (heap (h_tree s)) (N * sizeof_sched_entity) Hok) as (base & h' & Ha & Hb); [unfold sizeof_sched_entity; lia|].
  destruct (alloc_ok _ (N * sizeof_sched_entity) base h' Hok) as (Hok' & _ & Hlive'); [unfold sizeof_sched_entity; lia|done|]. destruct (Hlive' Hb) as [_ Hl'].
  unfold calloc_ents. erewrite bind_done by (apply on_tree_run; unfold zoom; rewrite Ha; reflexivity). rewrite decide_False by done.
  erewrite bind_done by (apply on_tree_run; reflexivity). eexists base, _. split; [done|]. split_and!; [|done|].
  - split; cbn; try done; [by rewrite Ht|unfold ordered; rewrite Ht; constructor|]. rewrite Hl'. set_solver.
  - intros i Hi. cbn. exists (mk_sched_entity 0 0). apply lookup_union_Some_l, elem_of_list_to_map_1.
    + rewrite <- list_fmap_compose. apply NoDup_fmap_2_strong; [|apply NoDup_seqZ]. intros x y _ _. apply entity_at_inj.
    + apply list_elem_of_fmap. by exists i.
Qed.

(** Writing the keys. *)
Lemma set_keys_run base i l s t :
  rb_ok ok (h_tree s) t → entities t = [] → known s base (seqZ i (Z.of_nat (length l))) →
  ∃ s', set_keys base i l s = Done (tt, s') ∧ rb_ok ok (h_tree s') t ∧ h_out s' = h_out s ∧
    (∀ j k, l !! j = Some k → key_of (ents (h_tree s')) (entity_at base (i + Z.of_nat j)) = k) ∧
    (∀ x, (∀ j, i ≤ j → x ≠ entity_at base j) → ents (h_tree s') !! x = ents (h_tree s) !! x) ∧
    (∀ x, is_Some (ents (h_tree s) !! x) → is_Some (ents (h_tree s') !! x)).
Proof.
  revert i s. induction l as [|v l IH]; intros i s Hok Ht Hk; cbn [set_keys]; [exists s; by split_and!|].
  cbn [length] in Hk. rewrite (seqZ_cons i) in Hk by lia. replace (Z.pred (Z.of_nat (S (length l)))) with (Z.of_nat (length l)) in Hk by lia. rewrite <- Z.add_1_r in Hk.
  destruct (Hk i) as [e He]; [by left|].
  erewrite bind_done by (apply on_tree_run, modifyf_done; rewrite He; reflexivity). set (st1 := mk_rb_state _ _ _ _ _).
  destruct (IH (i + 1) (set_tree st1 s)) as (s' & E2 & Hok' & Ho' & K1 & K2 & K3).
  { destruct Hok as [Hr Hrb _ _ Hl Hok Hlive]. split; cbn; try done; [by rewrite Ht|unfold ordered; rewrite Ht; constructor]. }
  { done. }
  { intros j Hj. cbn. apply lookup_insert_is_Some'. right. apply Hk. by right. }
  exists s'. split_and!; [done|done|done| | |].
  - intros [|j] k Hj; cbn in Hj.
    + injection Hj as <-. rewrite Z.add_0_r. unfold key_of. rewrite K2; [cbn; by rewrite lookup_insert_eq|]. intros j Hj ->%entity_at_inj. lia.
    + replace (i + Z.of_nat (S j)) with (i + 1 + Z.of_nat j) by lia. by apply K1.
  - intros x Hx. rewrite K2 by (intros j Hj; apply Hx; lia). cbn. apply lookup_insert_ne. intros E0. by apply (Hx i).
  - intros x Hx. apply K3. cbn. apply lookup_insert_is_Some'. by right.
Qed.
(** ** The test *)

Lemma test_keys_length N : 0 ≤ N → Z.of_nat (length (test_keys N)) = N.
Proof. intros HN. unfold test_keys. rewrite length_fmap, length_seq. lia. Qed.

(** The inserted entities have different keys if the numbers are different. *)
Lemma keys_distinct base N s t :
  0 ≤ N → entities t ≡ₚ entity_at base <$> seqZ 0 N → NoDup (test_keys N) →
  (∀ j k, test_keys N !! j = Some k → key_of (ents (h_tree s)) (entity_at base (0 + Z.of_nat j)) = k) → distinct s t.
Proof.
  intros HN HP Hnd Hk x y Hx Hy Hxy. rewrite HP in Hx, Hy. apply list_elem_of_fmap in Hx as (i & -> & Hi), Hy as (j & -> & Hj). apply elem_of_seqZ in Hi, Hj.
  assert (∀ i, 0 ≤ i < N → test_keys N !! Z.to_nat i = Some (key_of (ents (h_tree s)) (entity_at base i))) as Hl.
  { intros z Hz. destruct (lookup_lt_is_Some_2 (test_keys N) (Z.to_nat z)) as [k Hzk]; [pose proof (test_keys_length N HN); lia|].
    rewrite Hzk. f_equal. rewrite <- (Hk _ _ Hzk). do 2 f_equal. lia. }
  assert (Z.to_nat i = Z.to_nat j) as Hij by (eapply NoDup_lookup; [exact Hnd|apply Hl; lia|rewrite Hl by lia; by rewrite Hxy]).
  f_equal. lia.
Qed.

Lemma empty_tree_ok s : nodes (h_tree s) = ∅ → ok (heap (h_tree s)) → rb_ok ok (set_leftmost 0 (set_root 0 (h_tree s))) E.
Proof.
  intros Hn Hh. split; cbn; try done.
  - unfold represents. cbn. rewrite Hn. split_and!; [done|done|constructor|by rewrite dom_empty_L].
  - exists BLACK, 0%nat. constructor.
  - constructor.
Qed.

(** C37: the test of the tree passes: whatever numbers are drawn, [main] of
    rb_tree_test.c inserts and removes its entities, every check of the tree
    succeeds, both messages report success and the result is 0.  When the
    numbers drawn for the keys are all different the tree is empty at the
    end; with equal numbers some entities may stay in it, and the test does
    not notice. *)
Theorem test_passes N s :
  nodes (h_tree s) = ∅ → ok (heap (h_tree s)) → 0 < N < 2 ^ 27 →
  ∃ s' t, test_main uninit rand_of N s = Done (0, s') ∧ h_out s' = h_out s ++ [(OK, "rb_insert"); (OK, "rb_remove")] ∧
    rb_ok ok (h_tree s') t ∧ (NoDup (test_keys N) → t = E).
Proof.
  intros Hn Hh HN. unfold test_main. erewrite bind_done by (apply on_tree_run; reflexivity). set (s0 := set_tree _ s).
  pose proof (empty_tree_ok s Hn Hh : rb_ok ok (h_tree s0) E) as Hok0.
  destruct (calloc_run N s0 E Hok0 eq_refl HN) as (base & s1 & E1 & Hok1 & O1 & K1). rewrite (bind_done _ _ _ _ _ E1).
  destruct (generate_run N s1) as (rp & s2 & E2 & P2 & T2 & O2); [lia|]. rewrite (bind_done _ _ _ _ _ E2). cbn [fst snd]. rewrite <- T2 in Hok1, K1.
  destruct (set_keys_run base 0 (test_keys N) s2 E Hok1 eq_refl) as (s3 & E3 & Hok3 & O3 & Hk3 & _ & K3); [by rewrite test_keys_length by lia|].
  rewrite (bind_done _ _ _ _ _ E3).
  destruct (insert_check_run (Z.to_nat N) base 0 s3 E Hok3) as (s4 & t4 & E4 & Hok4 & P4 & M4 & O4); [rewrite Z2Nat.id by lia; intros i Hi; by apply K3, K1|].
  rewrite (bind_done _ _ _ _ _ E4). cbn [negb]. rewrite Z2Nat.id, app_nil_r in P4 by lia. erewrite bind_done by reflexivity. set (s5 := mk_host _ _ _ _).
  destruct (remove_check_run base rp s5 t4 [] Hok4) as (s6 & t6 & E6 & Hok6 & (M6 & O6) & P6).
  { intros i Hi. cbn. rewrite M4. apply K3, K1. by rewrite <- P2. }
  rewrite (bind_done _ _ _ _ _ E6). cbn [negb]. eexists _, t6. split; [done|]. cbn [h_out]. split; [|split; [done|]].
  - rewrite O6. cbn. rewrite O4, O3, O2, O1. cbn. by rewrite <- app_assoc.
  - intros Hnd. assert (entities t6 = []) as He.
    { apply Permutation_nil_r, P6; [|by rewrite app_nil_r, P2]. apply (keys_distinct base N); [lia|done|done|]. cbn. by rewrite M4. }
    destruct t6 as [|c l p se r]; [done|]. unfold entities in He. cbn in He. rewrite fmap_app in He. by destruct ((inorder l).*2).
Qed.
End proofs.

(** ** What the check does not see *)

(** A chain of three black nodes to the right: the black heights differ, and
    the counters of the check, which never leave a call, do not tell. *)
Definition chain_tree : tree := T BLACK E 64 3 (T BLACK E 128 5 (T BLACK E 192 8 E)).
(** A tree whose left child has a right child with a larger key than the
    root: every child is in order with its parent. *)
Definition twisted_tree : tree := T BLACK (T BLACK E 64 3 (T RED E 128 8 E)) 192 5 E.

Lemma check_accepts_unbalanced : valid ex_ents chain_tree = true ∧ ¬ red_black chain_tree.
Proof.
  split; [by vm_compute|]. intros (c & n & Hrb). unfold chain_tree in Hrb. inversion Hrb as [| |? ? ? ? ? ? ? Hl Hr]; subst.
  inversion Hl; subst. inversion Hr.
Qed.
Lemma check_accepts_unordered : valid ex_ents twisted_tree = true ∧ ¬ ordered ex_ents twisted_tree.
Proof.
  split; [by vm_compute|]. unfold ordered, twisted_tree. cbn. intros Hs. inversion Hs as [|? ? Hs2 _]; subst.
  inversion Hs2 as [|? ? _ Hf]; subst. apply Forall_cons in Hf as [Hf _]. by vm_compute in Hf.
Qed.

(** A benchmark of no operation divides by zero: the bound of the loop of
    [shuffle] wraps around. *)
Lemma bench_of_nothing_faults {H} rand_of (s : host H) l : bench_shuffle rand_of 0 l s = Fault.
Proof.
  unfold bench_shuffle. change (w64 (0 - 1)) with (2 ^ 64 - 1). destruct (Z.to_nat (2 ^ 64 - 1)) eqn:En; [lia|]. cbn [shuffle_loop].
  apply bind_fault. unfold random_range. erewrite bind_done by reflexivity. reflexivity.
Qed.

(** ** An example *)

Definition ex_rand (seed : Z) (k : nat) : Z := (seed * 7919 + Z.of_nat k * 104729) mod 2 ^ 31.
Definition ex_host : host bump := mk_host (mk_rb_state 0 0 ∅ ∅ (mk_bump 64 ∅)) 0 0 [].

Lemma test_passes_witness :
  ∃ s' t, test_main ex_uninit ex_rand 10000 ex_host = Done (0, s') ∧ h_out s' = [] ++ [(OK, "rb_insert"); (OK, "rb_remove")] ∧
    rb_ok bump_ok (h_tree s') t ∧ (NoDup (test_keys ex_rand 10000) → t = E).
Proof.
  refine (test_passes bump_ok ex_uninit ex_rand _ _ _ TEST_N ex_host _ _ _).
  - intros seed k. apply Z.mod_pos_bound. lia.
  - intros h n [Hn _] _. eexists _, _. split; [reflexivity|]. lia.
  - intros h a _ _. by eexists.
  - done.
  - split; cbn; [lia|]. intros a Ha. by apply elem_of_empty in Ha.
  - unfold TEST_N. lia.
Defined.
