(* ===== verification/Cfs.v ===== *)
(** * The fair scheduler's run queue (kernel/scheduler/cfs.c)

    The run queue keeps the waiting threads ordered by weighted run time in
    the red-black tree of [RbTree].  Its specification is a list of pairs of
    run time and entity in increasing order; the operations refine it. *)
From S2P Require Import Prelude.
From S2P Require Import Interfaces.
From S2P Require Import Double.
From S2P Require Import RbTree.
From S2P Require Import RbRepr.
From S2P Require Import RbInv.
From S2P Require Import RbInsert.
From S2P Require Import RbRemove.

(** [cfs_t cfs], and the [prio] field of the threads: an entity is the first
    field of its thread, so both have the same address. *)
Record cfs_t (H : Type) := mk_cfs {
  tree_of : rb_state H;
  running : Z;
  prio : gmap Z Z;
}.
Arguments mk_cfs {H}.
Arguments tree_of {H}.
Arguments running {H}.
Arguments prio {H}.

Section cfs.
Context {H : Type} `{!Allocator H}.
Context (uninit : rb_node_t).

Abbreviation CFS := (M (cfs_t H)).

Definition set_tree (v : rb_state H) (st : cfs_t H) : cfs_t H :=
  mk_cfs v (running st) (prio st).
Definition set_running (v : Z) (st : cfs_t H) : cfs_t H :=
  mk_cfs (tree_of st) v (prio st).
Definition set_entity (se : Z) (e : sched_entity_t) (st : cfs_t H) : cfs_t H :=
  let t := tree_of st in
  set_tree (mk_rb_state (root t) (leftmost t) (nodes t) (<[se := e]> (ents t)) (heap t)) st.

Definition weight_delta (se delta : Z) : CFS Z :=
  p ← getf (λ st, prio st !! se);
  mret (delta *64 (1 + p)).

(** [update]; [now] is what [uptime()] returns. *)
Definition update_entity (now se : Z) : CFS unit :=
  e ← getf (λ st, ents (tree_of st) !! se);
  let delta := now -64 exec_start_time e in
  delta_w ← weight_delta se delta;
  modify (set_entity se (mk_sched_entity (vruntime e +64 delta_w) (exec_start_time e))).

Definition cfs_queue (now se : Z) : CFS unit :=
  update_entity now se;;
  modify (λ st, set_running (running st +64 1) st);;
  zoom tree_of set_tree (rb_insert uninit se).

Definition cfs_dequeue (se : Z) : CFS unit :=
  modify (λ st, set_running (running st -64 1) st);;
  zoom tree_of set_tree (rb_remove se).

Definition cfs_pick_next : CFS Z :=
  lm ← gets (λ st, leftmost (tree_of st));
  if decide (lm = 0) then mret 0
  else n ← getf (λ st, nodes (tree_of st) !! lm); mret (n_se n).

(** [max] of libc/math/max.c *)
Definition umax (a b : Z) : Z := if a >? b then a else b.

(** [TIME_UNIT] and [GRANULARITY] are double constants: the quotient is a
    double and both arguments of [max] are converted back to integers. *)
Definition TIME_UNIT : dbl := d_of_Z 100000000.
Definition GRANULARITY : dbl := d_of_Z 1000000.

Definition get_timeslice (t : Z) : CFS Z :=
  p ← getf (λ st, prio st !! t);
  r ← gets running;
  let n := (1 + p) *64 (r +64 1) in
  getf (λ _, a ← (if n =? 0 then None else d_to_u64 (d_div TIME_UNIT (d_of_Z n)));
             b ← d_to_u64 GRANULARITY;
             Some (umax a b)).
End cfs.

(** ** The specification: an ordered queue *)
Abbreviation rq := (list (Z * Z)).

(** Enqueue after the entries with a smaller or equal run time. *)
Fixpoint rq_insert (x : Z * Z) (q : rq) : rq :=
  match q with
  | [] => [x]
  | y :: q => if decide (x.1 < y.1) then x :: y :: q else y :: rq_insert x q
  end.
Definition rq_pick (q : rq) : Z := match q with [] => 0 | y :: _ => y.2 end.
Definition rq_remove (se : Z) (q : rq) : rq := filter (λ y, y.2 ≠ se) q.

Lemma rq_insert_split x q1 q2 :
  Forall (λ y, y.1 ≤ x.1) q1 → Forall (λ y, x.1 < y.1) q2 →
  rq_insert x (q1 ++ q2) = q1 ++ x :: q2.
Proof.
  intros H1 H2. induction H1 as [|y q1 Hy H1 IH]; simpl.
  - destruct H2; simpl; [done|]. by rewrite decide_True.
  - rewrite decide_False by lia. by rewrite IH.
Qed.

Lemma rq_filter_absent se q : se ∉ q.*2 → filter (λ y : Z * Z, y.2 ≠ se) q = q.
Proof.
  intros Hq. induction q as [|y q IH]; [done|]. rewrite fmap_cons in Hq.
  rewrite filter_cons_True by set_solver. f_equal. apply IH. set_solver.
Qed.

Lemma rq_remove_split se k q1 q2 :
  NoDup ((q1 ++ (k, se) :: q2).*2) → rq_remove se (q1 ++ (k, se) :: q2) = q1 ++ q2.
Proof.
  rewrite fmap_app, fmap_cons; simpl. rewrite NoDup_app, NoDup_cons. intros (_&H12&Hse&_).
  unfold rq_remove. rewrite filter_app, filter_cons_False by (simpl; naive_solver).
  rewrite !rq_filter_absent; [done|done|]. intros Hin. apply (H12 _ Hin). by left.
Qed.

Section refinement.
Context {H : Type} `{!Allocator H} (ok : H → Prop) `{!AllocatorLaws H ok}.
Context (uninit : rb_node_t).
Implicit Types (st : cfs_t H) (q : rq).

(** The queue a tree stands for. *)
Definition rq_of (es : gmap Z sched_entity_t) (t : tree) : rq :=
  (λ s, (key_of es s, s)) <$> entities t.

(** A run queue state stands for [q]: some red-black tree holds [q], every
    entity once, and [running] counts it. *)
Definition refines st q : Prop :=
  ∃ t, rb_ok ok (tree_of st) t ∧ rq_of (ents (tree_of st)) t = q ∧
    NoDup (entities t) ∧ 0 ∉ entities t ∧
    running st = Z.of_nat (length q) ∧ u64p (running st).

Lemma rq_of_entities es t : (rq_of es t).*2 = entities t.
Proof. unfold rq_of. rewrite <-list_fmap_compose. apply list_fmap_id. Qed.

Lemma head_taddrs_node t (st : rb_state H) :
  represents st t → t ≠ E →
  ∃ n, head (taddrs t) = Some n ∧ n ≠ 0 ∧
    (nodes st !! n) ≫= (λ nd, Some (n_se nd)) = head (entities t).
Proof.
  intros (_&Hr&_&_) Ht. revert Hr. generalize 0 at 1 as par.
  induction t as [|c l IHl p s r _]; [done|]. intros par (Hp0&Hp&Hl&Hr).
  destruct (decide (l = E)) as [->|Hle].
  - exists p. simpl. by rewrite Hp.
  - destruct (IHl Hle p Hl) as (n&Hn&Hn0&Hs). exists n. unfold entities in *. simpl.
    rewrite fmap_app. destruct (taddrs l); [done|]. destruct ((inorder l).*2) eqn:El; [|done].
    exfalso. destruct l; [done|]. simpl in El. rewrite fmap_app in El. by destruct (inorder l1).
Qed.

Lemma entities_nil t : entities t = [] → t = E.
Proof.
  destruct t as [|c l p s r]; [done|]. unfold entities; simpl. rewrite fmap_app.
  by destruct (inorder l).
Qed.

Lemma cfs_pick_next_spec st q : refines st q → cfs_pick_next st = Done (rq_pick q, st).
Proof.
  intros (t&Hok&<-&_). unfold cfs_pick_next. step.
  destruct Hok as [Hr _ _ _ Hlm _ _]. destruct (decide (t = E)) as [->|Ht].
  { by rewrite Hlm. }
  destruct (head_taddrs_node t _ Hr Ht) as (n&Hn&Hn0&Hs).
  rewrite Hlm, Hn; simpl. rewrite decide_False by done.
  unfold rq_of. destruct (entities t) as [|s es] eqn:Ee.
  { by apply entities_nil in Ee. }
  simpl in Hs. destruct (nodes (tree_of st) !! n) as [nd|] eqn:En; [|done].
  injection Hs as Hs. erewrite bind_done; [|by apply (getf_done (λ st, nodes (tree_of st) !! n))].
  simpl. by rewrite Hs.
Qed.

(** Writing an entity that is not queued keeps the tree's invariants. *)
Lemma key_of_insert_ne es s e x : x ≠ s → key_of (<[s := e]> es) x = key_of es x.
Proof. intros Hne. unfold key_of. by rewrite lookup_insert_ne. Qed.

Lemma rb_ok_set_entity (r : rb_state H) t s e :
  rb_ok ok r t → s ∉ entities t →
  rb_ok ok (mk_rb_state (root r) (leftmost r) (nodes r) (<[s := e]> (ents r)) (heap r)) t.
Proof.
  intros [Hr Hrb He Ho Hlm Hok Hl] Hs. constructor; try done; simpl.
  - eapply Forall_impl; [exact He|]. intros x Hx. simpl. rewrite lookup_insert.
    case_decide; [by eexists|done].
  - unfold ordered in *. revert Hs Ho. generalize (entities t) as es. intros es Hs Ho.
    induction Ho as [|x l Ho IH Hx]; [constructor|].
    apply not_elem_of_cons in Hs as [Hsx Hs]. constructor; [by apply IH|].
    rewrite Forall_forall in Hx |- *. intros y Hy.
    assert (y ≠ s) by (by intros ->). rewrite !key_of_insert_ne by done. by apply Hx.
Qed.

Lemma rq_of_set_entity es t s e : s ∉ entities t → rq_of (<[s := e]> es) t = rq_of es t.
Proof.
  intros Hs. unfold rq_of. apply list_fmap_ext. intros i x Hx. f_equal.
  apply key_of_insert_ne. intros ->. apply Hs. by eapply list_elem_of_lookup_2.
Qed.

(** The run time an entity is queued with. *)
Definition charged (now : Z) (e : sched_entity_t) (p : Z) : Z :=
  vruntime e +64 ((now -64 exec_start_time e) *64 (1 + p)).

Lemma update_entity_run st now se e p :
  ents (tree_of st) !! se = Some e → prio st !! se = Some p →
  update_entity now se st
  = Done (tt, set_entity se (mk_sched_entity (charged now e p) (exec_start_time e)) st).
Proof.
  intros He Hp. unfold update_entity.
  erewrite bind_done by (by apply (getf_done (λ st, ents (tree_of st) !! se))).
  unfold weight_delta. step.
  erewrite bind_done by (by apply (getf_done (λ st, prio st !! se))). by step.
Qed.

Lemma cfs_queue_spec st q now se e p a h' :
  refines st q → se ≠ 0 → se ∉ q.*2 →
  ents (tree_of st) !! se = Some e → prio st !! se = Some p →
  h_alloc sizeof_rb_node (heap (tree_of st)) = Done (a, h') → a ≠ 0 →
  Z.of_nat (length q) + 1 < 2 ^ 64 →
  ∃ st', cfs_queue uninit now se st = Done (tt, st') ∧
    refines st' (rq_insert (charged now e p, se) q) ∧ prio st' = prio st ∧
    ents (tree_of st') = <[se := mk_sched_entity (charged now e p) (exec_start_time e)]> (ents (tree_of st)) ∧
    heap (tree_of st') = h'.
Proof.
  intros (t&Hok&Hq&Hnd&H0&Hrun&Hu) Hse0 Hse He Hp Ha Ha0 Hlen. subst q.
  rewrite rq_of_entities in Hse. unfold cfs_queue.
  erewrite bind_done by (by apply update_entity_run). step.
  set (e' := mk_sched_entity _ _). pose proof (rb_ok_set_entity _ t se e' Hok Hse) as Hok1.
  set (st1 := set_running _ _).
  destruct (rb_insert_spec ok uninit (tree_of st1) t se a h' Hok1)
    as (r'&t'&l1&l2&Hins&Hok'&Hes'&Hh'&Hl&Hl'&Hle&Hgt).
  { simpl. rewrite lookup_insert_eq. by eexists. } { done. } { done. }
  exists (set_tree r' st1). split.
  { unfold zoom. by rewrite Hins. }
  split; [|split_and!; [done|exact Hes'|exact Hh']].
  assert (Hkey : key_of (ents (tree_of st1)) se = charged now e p).
  { unfold key_of. simpl. by rewrite lookup_insert_eq. }
  assert (Hq : rq_of (ents r') t' = rq_insert (charged now e p, se) (rq_of (ents (tree_of st)) t)).
  { rewrite <-(rq_of_set_entity _ t se e' Hse), Hes'. unfold rq_of. rewrite Hl, Hl'.
    rewrite !fmap_app, fmap_cons, Hkey, rq_insert_split; [done| |].
    - rewrite Forall_fmap. eapply Forall_impl; [exact Hle|]. rewrite Hkey. done.
    - rewrite Forall_fmap. eapply Forall_impl; [exact Hgt|]. rewrite Hkey. done. }
  exists t'. split_and!; try done.
  - simpl. rewrite Hl'. rewrite Hl in Hnd, Hse. rewrite NoDup_app, NoDup_cons in *. set_solver.
  - rewrite Hl'. rewrite Hl in H0. set_solver.
  - simpl. rewrite <-Hq, Hrun. unfold rq_of in *. rewrite !length_fmap in *.
    rewrite Hl', Hl in *. rewrite !length_app in *. simpl. rewrite w64_small by lia. lia.
  - apply w64_range.
Qed.

Lemma cfs_dequeue_spec st q k se :
  refines st q → (k, se) ∈ q → (∀ y, y ∈ q → y.1 = k → y.2 = se) →
  (∀ a, is_Some (nodes (tree_of st) !! a) →
     ∃ h', h_free a (heap (tree_of st)) = Done (tt, h')) →
  ∃ st', cfs_dequeue se st = Done (tt, st') ∧ refines st' (rq_remove se q) ∧ prio st' = prio st ∧
    ents (tree_of st') = ents (tree_of st).
Proof.
  intros (t&Hok&Hq&Hnd&H0&Hrun&Hu) Hin Huniq Hfree. subst q. unfold cfs_dequeue. step.
  unfold rq_of in Hin. apply list_elem_of_fmap in Hin as (x&[= -> <-]&Hin).
  set (st1 := set_running _ st).
  destruct (rb_remove_spec ok (tree_of st1) t se) as (r'&t'&l1&l2&a&Hrem&Hok'&Hl&Hl'&Hes'&_&_);
    try done.
  { intros x Hx Hk. apply (Huniq (key_of (ents (tree_of st)) x, x)); [|exact Hk].
    unfold rq_of. apply list_elem_of_fmap. eauto. }
  { intros a Hina. apply Hfree. apply elem_of_dom. destruct Hok as [(_&_&_&->) _ _ _ _ _ _].
    by apply elem_of_list_to_set. }
  exists (set_tree r' st1). split.
  { unfold zoom. by rewrite Hrem. }
  split; [|split; [done|exact Hes']].
  assert (Hq : rq_of (ents r') t' = rq_remove se (rq_of (ents (tree_of st)) t)).
  { rewrite Hes'. unfold rq_of. rewrite Hl, Hl'. rewrite !fmap_app, fmap_cons.
    rewrite rq_remove_split; [done|].
    assert (Hnd2 : NoDup ((rq_of (ents (tree_of st)) t).*2)) by (by rewrite rq_of_entities).
    unfold rq_of in Hnd2. by rewrite Hl, (fmap_app _ l1), (fmap_cons _ se) in Hnd2. }
  exists t'. split_and!; try done.
  - simpl. rewrite Hl'. rewrite Hl in Hnd. rewrite NoDup_app, NoDup_cons in *. set_solver.
  - rewrite Hl'. rewrite Hl in H0. set_solver.
  - simpl. rewrite <-Hq, Hrun. unfold rq_of in *. rewrite !length_fmap in *.
    rewrite Hl', Hl in *. rewrite !length_app in *. simpl length in *.
    unfold u64p in Hu. rewrite w64_small by lia. lia.
  - apply w64_range.
Qed.
End refinement.

(** ** Time slices *)
Section timeslice.
Context {H : Type}.

(** Below 101 shares the quotient is computed exactly. *)
Lemma timeslice_small n :
  1 ≤ n ≤ 100 → d_trunc (d_div TIME_UNIT (d_of_Z n)) = 100000000 / n.
Proof.
  intros Hn. assert (Hall : Forall (λ n, d_trunc (d_div TIME_UNIT (d_of_Z n)) = 100000000 / n)
    (seqZ 1 100)).
  { apply (bool_decide_unpack _). by vm_compute. }
  rewrite Forall_forall in Hall. apply Hall. apply elem_of_seqZ. lia.
Qed.

(** From 101 shares on the granularity wins. *)
Lemma timeslice_large n :
  101 ≤ n < 2 ^ 53 → d_trunc (d_div TIME_UNIT (d_of_Z n)) ≤ 1000000.
Proof.
  intros Hn. unfold d_div. pose proof (d_of_Z_exact n ltac:(lia)) as Hx.
  pose proof (d_of_Z_exact 100000000 ltac:(lia)) as Ht. fold TIME_UNIT in Ht.
  pose proof (d_den_pos TIME_UNIT). pose proof (d_den_pos (d_of_Z n)).
  rewrite Hx, Ht. set (w := d_den TIME_UNIT) in *. set (v := d_den (d_of_Z n)) in *.
  apply fl_trunc_le; nia.
Qed.

Lemma get_timeslice_run (st : cfs_t H) t p :
  prio st !! t = Some p → 0 ≤ p < 2 ^ 8 → 0 ≤ running st < 2 ^ 32 →
  get_timeslice t st
  = Done (Z.max (100000000 / ((1 + p) * (running st + 1))) 1000000, st).
Proof.
  intros Hp Hpr Hr. unfold get_timeslice.
  erewrite bind_done by (by apply (getf_done (λ st, prio st !! t))). step.
  rewrite (w64_small (running st + 1)) by lia. set (n := (1 + p) * (running st + 1)).
  assert (Hn : 1 ≤ n < 2 ^ 41) by nia. rewrite w64_small by lia.
  apply (getf_done (λ _ : cfs_t H, _)). rewrite (proj2 (Z.eqb_neq n 0)) by lia.
  assert (Hg : d_to_u64 GRANULARITY = Some 1000000) by (by vm_compute). rewrite Hg.
  assert (Hq : d_to_u64 (d_div TIME_UNIT (d_of_Z n))
    = Some (d_trunc (d_div TIME_UNIT (d_of_Z n))) ∧
    umax (d_trunc (d_div TIME_UNIT (d_of_Z n))) 1000000 = Z.max (100000000 / n) 1000000).
  { unfold d_to_u64, umax. destruct (decide (n ≤ 100)) as [Hle|Hgt].
    - rewrite (timeslice_small n) by lia.
      assert (100000000 / n ≤ 100000000) by (apply Z.div_le_upper_bound; nia).
      rewrite (proj2 (Z.ltb_lt _ _)) by lia. split; [done|].
      destruct (Z.gtb_spec (100000000 / n) 1000000); lia.
    - pose proof (timeslice_large n ltac:(lia)).
      assert (100000000 / n ≤ 1000000) by (apply Z.div_le_upper_bound; lia).
      rewrite (proj2 (Z.ltb_lt _ _)) by lia. split; [done|].
      destruct (Z.gtb_spec (d_trunc (d_div TIME_UNIT (d_of_Z n))) 1000000); lia. }
  destruct Hq as [-> Hq]. by rewrite <-Hq.
Qed.
End timeslice.

(** ** Properties of the run queue *)
Section properties.
Context {H : Type} `{!Allocator H} (ok : H → Prop) `{!AllocatorLaws H ok}.
Context (uninit : rb_node_t).
Implicit Types (st : cfs_t H) (q : rq).

(** C18: [cfs_queue] refines the ordered insertion: the entity is charged the
    time since its start weighted by its priority, enters behind every entry
    with a smaller or equal run time, and [running] goes up by one. *)
Theorem cfs_queue_refines st q now se e p a h' :
  refines ok st q → se ≠ 0 → se ∉ q.*2 →
  ents (tree_of st) !! se = Some e → prio st !! se = Some p →
  h_alloc sizeof_rb_node (heap (tree_of st)) = Done (a, h') → a ≠ 0 →
  Z.of_nat (length q) + 1 < 2 ^ 64 →
  ∃ st', cfs_queue uninit now se st = Done (tt, st') ∧
    refines ok st' (rq_insert (charged now e p, se) q).
Proof.
  intros. destruct (cfs_queue_spec ok uninit st q now se e p a h') as (st' & ? & ? & _); eauto.
Qed.

(** C19: picking and dequeuing, as [schedule] does it: the entity with the
    least run time comes out and the rest of the queue stays, provided no
    other entry has the same run time and the heap takes the tree node back
    (with equal run times [rb_remove] can leave the entry in the tree). *)
Theorem cfs_pick_and_dequeue st k se q :
  refines ok st ((k, se) :: q) → Forall (λ y, y.1 ≠ k) q →
  (∀ a, is_Some (nodes (tree_of st) !! a) →
     ∃ h', h_free a (heap (tree_of st)) = Done (tt, h')) →
  ∃ st', (x ← cfs_pick_next; cfs_dequeue x;; mret x) st = Done (se, st') ∧
    refines ok st' q ∧ Forall (λ y, k < y.1) q.
Proof.
  intros Href Hk Hfree. erewrite bind_done by (by eapply cfs_pick_next_spec). simpl rq_pick.
  destruct (cfs_dequeue_spec ok st _ k se Href) as (st'&Hrun&Href'&_); [by left| |done|].
  { intros y [->|Hy]%elem_of_cons Hyk; [done|]. rewrite Forall_forall in Hk.
    by destruct (Hk y Hy). }
  exists st'. erewrite bind_done by exact Hrun. split; [done|].
  destruct Href as (t&[_ _ _ Ho _ _ _]&Hq&Hnd&_). unfold rq_of, ordered in *.
  destruct (entities t) as [|x l]; [done|]. injection Hq as Hx1 -> Hl.
  assert (Hgt : Forall (λ y, k < y.1) q).
  { apply StronglySorted_cons in Ho as [Ho _]. rewrite <-Hl in Hk |- *.
    rewrite Forall_fmap in Hk |- *. rewrite Forall_forall in Ho, Hk |- *.
    intros y Hy. specialize (Ho y Hy). specialize (Hk y Hy). simpl in *. lia. }
  split; [|done]. unfold rq_remove in Href'. rewrite filter_cons_False in Href' by (simpl; naive_solver).
  assert (Hse : se ∉ q.*2).
  { rewrite <-Hl, <-list_fmap_compose. apply NoDup_cons in Hnd as [Hnd _].
    intros (y&Hy&Hin)%list_elem_of_fmap. simpl in Hy. by subst. }
  by rewrite rq_filter_absent in Href'.
Qed.
End properties.

(** C22: the time slice of a thread is its share of 100 ms, never less than
    1 ms, and the double computation of it is exact. *)
Theorem get_timeslice_share {H} (st : cfs_t H) t p :
  prio st !! t = Some p → 0 ≤ p < 2 ^ 8 → 0 ≤ running st < 2 ^ 32 →
  get_timeslice t st
  = Done (Z.max (100000000 / ((1 + p) * (running st + 1))) 1000000, st).
Proof. apply get_timeslice_run. Qed.

(** The run queue of the example tree: entity [s] has run time [s]. *)
Definition ex_cfs : cfs_t bump :=
  mk_cfs ex_state 3 (list_to_map ((λ s, (s, 1)) <$> [3; 4; 5; 8; 9])).

Lemma ex_cfs_refines : refines bump_ok ex_cfs [(3, 3); (5, 5); (8, 8)].
Proof.
  exists ex_tree. split_and!; [apply ex_state_ok|done| | |done|done].
  - apply (bool_decide_unpack _). by vm_compute.
  - apply (bool_decide_unpack _). by vm_compute.
Qed.

Lemma cfs_queue_refines_witness :
  ∃ st', cfs_queue ex_uninit 100 4 ex_cfs = Done (tt, st') ∧
    refines bump_ok st' (rq_insert (charged 100 (mk_sched_entity 4 0) 1, 4)
                                   [(3, 3); (5, 5); (8, 8)]).
Proof.
  apply (cfs_queue_refines bump_ok ex_uninit ex_cfs _ 100 4 (mk_sched_entity 4 0) 1 256
    (mk_bump 296 ({[256]} ∪ {[64; 128; 192]}))); try done.
  - apply ex_cfs_refines.
  - apply (bool_decide_unpack _). by vm_compute.
Defined.

Lemma cfs_pick_and_dequeue_witness :
  ∃ st', (x ← cfs_pick_next; cfs_dequeue x;; mret x) ex_cfs = Done (3, st') ∧
    refines bump_ok st' [(5, 5); (8, 8)] ∧ Forall (λ y, 3 < y.1) [(5, 5); (8, 8)].
Proof.
  apply (cfs_pick_and_dequeue bump_ok ex_cfs 3 3 [(5, 5); (8, 8)]).
  - apply ex_cfs_refines.
  - repeat constructor; done.
  - intros a _. by eexists.
Defined.

Lemma get_timeslice_share_witness :
  get_timeslice 3 ex_cfs = Done (12500000, ex_cfs).
Proof. apply (get_timeslice_share ex_cfs 3 1); [done|lia|simpl; lia]. Defined.
