(* ===== verification/Cpu.v ===== *)
(** * Per-CPU state and interrupt nesting (kernel/kernel.c, kernel.h)

    [cpu_status] is a static array indexed by the APIC id of the running CPU;
    [push_off]/[pop_off] count nested requests to keep interrupts off.  Every
    operation takes the APIC id [c] that [get_apic_id] reads. *)
From S2P Require Import Prelude.

Definition MAX_CORES : Z := 32.

(** [struct cpu_status].  [cpu_IF] is the interrupt flag of that CPU's
    RFLAGS, which [cli] and [sti] write; it is not a field of the struct. *)
Record cpu_status_t := mk_cpu {
  cpu_id : Z;
  push_off_count : Z;
  int_on : Z;
  thread : Z;
  vmm : Z;
  cpu_IF : bool;
}.
#[export] Instance cpu_status_eq_dec : EqDecision cpu_status_t.
Proof. solve_decision. Defined.

(** The array [cpu_status]: the keys in range are 0 .. MAX_CORES - 1. *)
Abbreviation cpus := (gmap Z cpu_status_t).
Abbreviation CPU := (M cpus).

Definition cpu_get (c : Z) : CPU cpu_status_t := getf (λ st, st !! c).
Definition cpu_put (c : Z) (v : cpu_status_t) : CPU unit :=
  modifyf (λ st, match st !! c with Some _ => Some (<[c := v]> st) | None => None end).

Definition set_cpu_id (v : Z) (k : cpu_status_t) :=
  mk_cpu v (push_off_count k) (int_on k) (thread k) (vmm k) (cpu_IF k).
Definition set_count (v : Z) (k : cpu_status_t) :=
  mk_cpu (cpu_id k) v (int_on k) (thread k) (vmm k) (cpu_IF k).
Definition set_int_on (v : Z) (k : cpu_status_t) :=
  mk_cpu (cpu_id k) (push_off_count k) v (thread k) (vmm k) (cpu_IF k).
Definition set_cpu_thread (v : Z) (k : cpu_status_t) :=
  mk_cpu (cpu_id k) (push_off_count k) (int_on k) v (vmm k) (cpu_IF k).
Definition set_cpu_vmm (v : Z) (k : cpu_status_t) :=
  mk_cpu (cpu_id k) (push_off_count k) (int_on k) (thread k) v (cpu_IF k).
Definition set_IF (v : bool) (k : cpu_status_t) :=
  mk_cpu (cpu_id k) (push_off_count k) (int_on k) (thread k) (vmm k) v.

(** [get_cpu]: the entry of the running CPU, whose [id] it repairs. *)
Definition get_cpu (c : Z) : CPU cpu_status_t :=
  k ← cpu_get c;
  (if decide (cpu_id k ≠ c) then cpu_put c (set_cpu_id c k) else mret tt);;
  cpu_get c.

Definition disable_interrupt (c : Z) : CPU unit :=
  k ← cpu_get c; cpu_put c (set_IF false k).
Definition enable_interrupt (c : Z) : CPU unit :=
  k ← cpu_get c; cpu_put c (set_IF true k).

Definition push_off (c : Z) : CPU unit :=
  k ← get_cpu c;
  (if decide (int_on k ≠ 0) then
     cpu_put c (set_int_on 0 k);;
     disable_interrupt c
   else mret tt);;
  k ← cpu_get c;
  cpu_put c (set_count (w32 (push_off_count k + 1)) k).

Definition pop_off (c : Z) : CPU unit :=
  k ← get_cpu c;
  if decide (int_on k ≠ 0) then panic else
  cpu_put c (set_count (w32 (push_off_count k - 1)) k);;
  k ← cpu_get c;
  if decide (push_off_count k = 0) then
    cpu_put c (set_int_on 1 k);;
    enable_interrupt c
  else mret tt.

(** ** Closed forms *)

(** The effect of the two operations on the entry of the running CPU. *)
Definition pushed (c : Z) (k : cpu_status_t) : cpu_status_t :=
  mk_cpu c (w32 (push_off_count k + 1)) 0 (thread k) (vmm k)
    (if decide (int_on k ≠ 0) then false else cpu_IF k).
Definition popped (c : Z) (k : cpu_status_t) : cpu_status_t :=
  let n := w32 (push_off_count k - 1) in
  mk_cpu c n (if decide (n = 0) then 1 else 0) (thread k) (vmm k)
    (if decide (n = 0) then true else cpu_IF k).

Lemma cpu_get_run c st k : st !! c = Some k → cpu_get c st = Done (k, st).
Proof. apply getf_done. Qed.

Lemma cpu_put_run c v st k : st !! c = Some k → cpu_put c v st = Done (tt, <[c := v]> st).
Proof. intros E. apply modifyf_done. by rewrite E. Qed.

Ltac run_cpu :=
  first [ step
        | erewrite bind_done by (apply cpu_get_run; simplify_map_eq; reflexivity)
        | erewrite bind_done by (eapply cpu_put_run; simplify_map_eq; reflexivity) ];
  cbv beta; rewrite ?insert_insert_eq.

Lemma get_cpu_run c st k :
  st !! c = Some k → get_cpu c st = Done (set_cpu_id c k, <[c := set_cpu_id c k]> st).
Proof.
  intros E. unfold get_cpu. run_cpu. case_decide as Hid.
  - run_cpu. apply cpu_get_run. by simplify_map_eq.
  - run_cpu. assert (set_cpu_id c k = k) as -> by (destruct k; unfold set_cpu_id; simpl in *; f_equal; lia).
    rewrite insert_id by done. by apply cpu_get_run.
Qed.

Lemma push_off_run c st k :
  st !! c = Some k → push_off c st = Done (tt, <[c := pushed c k]> st).
Proof.
  intros E. unfold push_off, disable_interrupt, pushed.
  erewrite bind_done by by apply get_cpu_run. cbv beta. simpl.
  destruct (decide (int_on k ≠ 0)) as [Hi|Hi]; simpl.
  - repeat run_cpu. erewrite cpu_put_run by by simplify_map_eq.
    by rewrite !insert_insert_eq.
  - repeat run_cpu. erewrite cpu_put_run by by simplify_map_eq.
    rewrite !insert_insert_eq. repeat f_equal. unfold set_count; simpl. f_equal. lia.
Qed.

Lemma pop_off_run c st k :
  st !! c = Some k → int_on k = 0 → pop_off c st = Done (tt, <[c := popped c k]> st).
Proof.
  intros E Hi. unfold pop_off, enable_interrupt, popped.
  erewrite bind_done by by apply get_cpu_run. cbv beta. simpl.
  rewrite decide_False by (rewrite Hi; lia). repeat run_cpu. simpl.
  destruct (decide (w32 (push_off_count k - 1) = 0)) as [Hn|Hn].
  - repeat run_cpu. erewrite cpu_put_run by by simplify_map_eq.
    by rewrite !insert_insert_eq.
  - unfold mret, M_ret, set_count. simpl. rewrite Hi. done.
Qed.

Lemma pop_off_panics c st k :
  st !! c = Some k → int_on k ≠ 0 → pop_off c st = Panic.
Proof.
  intros E Hi. unfold pop_off. erewrite bind_done by by apply get_cpu_run.
  cbv beta. simpl. by rewrite decide_True by done.
Qed.

(** [nest n k]: entry [k] is inside [n] unbalanced [push_off]s that started
    with interrupts on. *)
Definition nest (c n : Z) (k : cpu_status_t) : Prop :=
  cpu_id k = c ∧ push_off_count k = n ∧
  (n = 0 → int_on k = 1 ∧ cpu_IF k = true) ∧
  (n ≠ 0 → int_on k = 0 ∧ cpu_IF k = false).

Lemma nest_pushed c n k : 0 ≤ n < 2 ^ 32 - 1 → nest c n k → nest c (n + 1) (pushed c k).
Proof.
  intros Hn (Hid & Hc & H0 & H1). unfold nest, pushed; simpl. rewrite Hc, w32_small by lia.
  repeat split; intros; try lia.
  case_decide as Hi; [done|]. destruct (decide (n = 0)) as [->|Hz].
  - destruct (H0 eq_refl) as [Hon _]. lia.
  - by apply H1.
Qed.

Lemma nest_popped c n k : 0 < n < 2 ^ 32 → nest c n k → nest c (n - 1) (popped c k).
Proof.
  intros Hn (Hid & Hc & H0 & H1). unfold nest, popped; simpl. rewrite Hc, w32_small by lia.
  repeat split; try case_decide; try done; try lia. apply H1. lia.
Qed.

(** Entry [k] is inside [n] unbalanced [push_off]s; the hardware flag may be
    anything, as in the handler of an interrupt. *)
Definition counted (c n : Z) (k : cpu_status_t) : Prop :=
  cpu_id k = c ∧ push_off_count k = n ∧ int_on k = if decide (n = 0) then 1 else 0.
(** What a [push_off] and its [pop_off] leave: outside every other pair
    interrupts are on, whatever they were. *)
Definition settled (k : cpu_status_t) : cpu_status_t := if decide (push_off_count k = 0) then set_IF true k else k.

Lemma nest_counted c n k : nest c n k → counted c n k.
Proof. intros (Hid & Hc & H0 & H1). split_and!; [done..|]. case_decide; [by apply H0|by apply H1]. Qed.

Lemma nest_settled c n k : nest c n k → settled k = k.
Proof.
  intros (_ & Hc & H0 & _). unfold settled. case_decide as Hz; [|done]. destruct H0 as [_ Hi]; [congruence|]. destruct k; cbn in *. by subst.
Qed.

(** A sequence of [push_off] ([true]) and [pop_off] ([false]) calls. *)
Fixpoint offs (c : Z) (l : list bool) : CPU unit :=
  match l with
  | [] => mret tt
  | b :: l => (if b then push_off c else pop_off c);; offs c l
  end.

(** The depth after a sequence, when every [pop_off] has its [push_off]. *)
Fixpoint depth (n : Z) (l : list bool) : option Z :=
  match l with
  | [] => Some n
  | true :: l => if decide (n < 2 ^ 32 - 1) then depth (n + 1) l else None
  | false :: l => if decide (0 < n) then depth (n - 1) l else None
  end.

(** C23: along any sequence of [push_off] and [pop_off] calls in which every
    [pop_off] closes a [push_off], no call panics, the counter is the nesting
    depth, and interrupts are on (in [int_on] and in RFLAGS) exactly when the
    depth is zero. *)
Theorem push_pop_off_nesting c l n n' st k :
  st !! c = Some k → nest c n k → 0 ≤ n < 2 ^ 32 → depth n l = Some n' →
  ∃ k', offs c l st = Done (tt, <[c := k']> st) ∧ nest c n' k'.
Proof.
  revert n st k. induction l as [|[] l IH]; intros n st k E Hn Hr Hd; simpl in *.
  - simplify_eq. exists k. by rewrite insert_id.
  - case_decide; [|done]. erewrite bind_done by by apply push_off_run. cbv beta.
    destruct (IH (n + 1) (<[c:=pushed c k]> st) (pushed c k)) as (k'&Hk'&Hn');
      [by simplify_map_eq|apply nest_pushed; [lia|done]|lia|done|].
    rewrite insert_insert_eq in Hk'. by exists k'.
  - case_decide; [|done]. assert (int_on k = 0) by (apply Hn; lia).
    erewrite bind_done by by apply pop_off_run. cbv beta.
    destruct (IH (n - 1) (<[c:=popped c k]> st) (popped c k)) as (k'&Hk'&Hn');
      [by simplify_map_eq|apply nest_popped; [lia|done]|lia|done|].
    rewrite insert_insert_eq in Hk'. by exists k'.
Qed.

Definition ex_cpus : cpus := {[ 1 := mk_cpu 1 0 1 0 0 true ]}.

Lemma push_pop_off_nesting_witness :
  ∃ k', offs 1 [true; true; false; true; false; false] ex_cpus
          = Done (tt, <[1 := k']> ex_cpus) ∧ nest 1 0 k'.
Proof.
  apply (push_pop_off_nesting 1 _ 0 0 ex_cpus (mk_cpu 1 0 1 0 0 true)).
  - reflexivity.
  - split; [done|]. split; [done|]. split; intros; done.
  - lia.
  - vm_compute. reflexivity.
Defined.

(** [int_on] does not follow the hardware flag.  An interrupt gate clears
    the flag on entry and leaves [int_on] at 1, so a handler that takes and
    releases a lock ([push_off] then [pop_off]) leaves with interrupts on
    although it had them off. *)
Lemma pop_off_enables_in_handler c st k :
  st !! c = Some k → int_on k = 1 → push_off_count k = 0 → cpu_IF k = false →
  offs c [true; false] st = Done (tt, <[c := set_IF true (set_cpu_id c k)]> st).
Proof.
  intros E Hon Hc HIF. simpl. erewrite bind_done by by apply push_off_run. cbv beta.
  erewrite bind_done.
  2:{ eapply pop_off_run; [by simplify_map_eq|done]. }
  rewrite insert_insert_eq. unfold mret, M_ret, popped, pushed, set_IF, set_cpu_id. simpl.
  rewrite Hc, Hon. reflexivity.
Qed.

Lemma pop_off_enables_in_handler_witness :
  offs 1 [true; false] {[ 1 := mk_cpu 1 0 1 0 0 false ]}
  = Done (tt, <[1 := mk_cpu 1 0 1 0 0 true]> {[ 1 := mk_cpu 1 0 1 0 0 false ]}).
Proof.
  apply (pop_off_enables_in_handler 1 _ (mk_cpu 1 0 1 0 0 false)); reflexivity.
Defined.
