(* ===== verification/Spinlock.v ===== *)
(** * Spin locks (kernel/synchronization/spinlock.c, sync.h)

    [acquire] and [release] as the atomic actions their C code performs, one
    program counter per CPU, interleaved in any order on one lock; and as the
    sequential functions the other components call.  Memory is sequentially
    consistent here: the source uses acquire/release orderings and a full
    fence around the owner field.  *)
From S2P Require Import Prelude.
From S2P Require Import Cpu.

(** [struct spinlock]; a null [name] is [None]. *)
Record spinlock_t := mk_lock { held : Z; lk_cpu_id : Z; lk_name : option string }.

Definition set_held (v : Z) (l : spinlock_t) := mk_lock v (lk_cpu_id l) (lk_name l).
Definition set_lk_cpu (v : Z) (l : spinlock_t) := mk_lock (held l) v (lk_name l).

(** log.c: [level_prefix], which [log] indexes with its level. *)
Definition level_prefix : list string := ["DEBUG"; "INFO"; "WARNING"; "ERROR"]%string.
Definition LOG_LEVEL : Z := 1.

(** The part of [log]/[logf] that can go wrong: levels under [LOG_LEVEL] are
    dropped, every other level indexes [level_prefix] ([log_qemu] is always
    true), which has to be inside the array. *)
Definition log_ok (level : Z) : bool :=
  bool_decide (level < LOG_LEVEL) || bool_decide (level < Z.of_nat (length level_prefix)).

(** The macro of [acquire] that shadows the log level of the same name. *)
Definition WARNING : Z := 10000000.

(** The local [log] of [acquire]: false for a lock without a name and for the
    lock of the log's own serial line. *)
Definition log_wanted (l : spinlock_t) : bool :=
  match lk_name l with
  | None => false
  | Some n => negb (String.prefix "QEMU serial" n)
  end.

Definition holding (c : Z) (l : spinlock_t) : bool :=
  bool_decide (held l ≠ 0) && bool_decide (lk_cpu_id l = c).

(** ** Sequential form *)

Abbreviation sl_state := (cpus * spinlock_t)%type.
Abbreviation SL := (M sl_state).
Definition on_cpus {A} (m : CPU A) : SL A := zoom fst (λ v s, (v, s.2)) m.

(** The loop [while (__atomic_test_and_set(&lock->held))] of [acquire]. *)
Fixpoint spin (fuel : nat) (nb_tries : Z) (warned : bool) : SL unit :=
  match fuel with
  | O => out_of_fuel
  | S fuel =>
      l ← gets snd;
      modify (λ s, (s.1, set_held 1 s.2));;
      if decide (held l = 0) then mret tt else
      if (bool_decide (WARNING < nb_tries) && negb warned)%bool then
        (if log_wanted l && negb (log_ok WARNING) then fault else mret tt);;
        spin fuel (nb_tries +64 1) true
      else spin fuel (nb_tries +64 1) warned
  end.

Definition acquire (fuel : nat) (c : Z) : SL unit :=
  on_cpus (push_off c);;
  k ← on_cpus (get_cpu c);
  l ← gets snd;
  if holding (cpu_id k) l then panic else
  spin fuel 0 false;;
  k ← on_cpus (get_cpu c);
  modify (λ s, (s.1, set_lk_cpu (cpu_id k) s.2)).

Definition release (c : Z) : SL unit :=
  modify (λ s, (s.1, set_lk_cpu 0 s.2));;
  modify (λ s, (s.1, set_held 0 s.2));;
  on_cpus (pop_off c).

(** ** Interleaved form *)

(** Where a CPU is: outside, in [acquire] (before reading [held], before
    reading [cpu_id], spinning, before writing [cpu_id]), in the critical
    section, in [release] (before clearing [held], before [pop_off]), or
    stopped by [panic] or by a bad access. *)
Inductive pc :=
| Out
| AHeld
| ACpu
| ASpin (nb_tries : Z) (warned : bool)
| ASet
| Crit
| RClear
| RPop
| Panicked
| Faulted.

#[export] Instance pc_eq_dec : EqDecision pc.
Proof. solve_decision. Defined.

Record sys := mk_sys { s_cpus : cpus; s_lock : spinlock_t; s_pc : gmap Z pc }.

Definition goto (c : Z) (p : pc) (s : sys) : sys :=
  mk_sys (s_cpus s) (s_lock s) (<[c := p]> (s_pc s)).
Definition with_lock (l : spinlock_t) (s : sys) : sys := mk_sys (s_cpus s) l (s_pc s).
Definition with_cpus (k : cpus) (s : sys) : sys := mk_sys k (s_lock s) (s_pc s).

(** Running per-CPU code; a panic or a fault stops the CPU. *)
Definition call {A} (c : Z) (m : CPU A) (k : A → sys → sys) (s : sys) : sys :=
  match m (s_cpus s) with
  | Done (a, cp) => k a (with_cpus cp s)
  | Panic => goto c Panicked s
  | _ => goto c Faulted s
  end.

(** The next atomic action of CPU [c]. *)
Definition cpu_step (c : Z) (s : sys) : option sys :=
  let l := s_lock s in
  match s_pc s !! c with
  | None | Some Panicked | Some Faulted => None
  | Some Out => Some (call c (push_off c) (λ _, goto c AHeld) s)
  | Some AHeld =>
      Some (goto c (if decide (held l ≠ 0) then ACpu else ASpin 0 false) s)
  | Some ACpu =>
      Some (call c (get_cpu c) (λ k,
              goto c (if decide (lk_cpu_id l = cpu_id k) then Panicked else ASpin 0 false)) s)
  | Some (ASpin n w) =>
      Some (goto c
        (if decide (held l = 0) then ASet
         else if (bool_decide (WARNING < n) && negb w)%bool then
           if log_wanted l && negb (log_ok WARNING) then Faulted else ASpin (n +64 1) true
         else ASpin (n +64 1) w)
        (with_lock (set_held 1 l) s))
  | Some ASet =>
      Some (call c (get_cpu c) (λ k s, goto c Crit (with_lock (set_lk_cpu (cpu_id k) l) s)) s)
  | Some Crit => Some (goto c RClear (with_lock (set_lk_cpu 0 l) s))
  | Some RClear => Some (goto c RPop (with_lock (set_held 0 l) s))
  | Some RPop => Some (call c (pop_off c) (λ _, goto c Out) s)
  end.

(** Any CPU moves next. *)
Inductive sl_step : sys → sys → Prop :=
| step_cpu c s s' : cpu_step c s = Some s' → sl_step s s'.

(** All CPUs outside, interrupts on, the lock free and zeroed but for its name. *)
Definition init_sys (s : sys) : Prop :=
  held (s_lock s) = 0 ∧ lk_cpu_id (s_lock s) = 0 ∧
  ∀ c p, s_pc s !! c = Some p → p = Out ∧ ∃ k, s_cpus s !! c = Some k ∧ nest c 0 k.

Inductive reachable : sys → Prop :=
| reach_init s : init_sys s → reachable s
| reach_step s s' : reachable s → sl_step s s' → reachable s'.

(** Running a schedule: the CPUs in the order they move. *)
Fixpoint run_sched (sched : list Z) (s : sys) : option sys :=
  match sched with
  | [] => Some s
  | c :: sched => match cpu_step c s with Some s' => run_sched sched s' | None => None end
  end.

(** ** The invariant *)

(** Program points at which a CPU owns the lock. *)
Definition owns (p : pc) : bool :=
  match p with ASet | Crit | RClear => true | _ => false end.

(** Nesting depth of [push_off] at a program point. *)
Definition pc_depth (p : pc) : Z := match p with Out => 0 | _ => 1 end.

(** [o] is the CPU that owns the lock. *)
Record inv (o : option Z) (s : sys) : Prop := mk_inv {
  i_cpus : ∀ c p, s_pc s !! c = Some p →
    ∃ k, s_cpus s !! c = Some k ∧ nest c (pc_depth p) k;
  i_owner : ∀ c p, s_pc s !! c = Some p → owns p = true ↔ o = Some c;
  i_dom : ∀ c, o = Some c → is_Some (s_pc s !! c);
  i_held : held (s_lock s) ≠ 0 ↔ o ≠ None;
  i_cpu : lk_cpu_id (s_lock s) =
    match o with
    | Some c => if decide (s_pc s !! c = Some Crit) then c else 0
    | None => 0
    end;
  i_panic : ∀ c, s_pc s !! c = Some Panicked → c = 0;
}.

Lemma init_inv s : init_sys s → inv None s.
Proof.
  intros (Hh & Hc & Hp). split.
  - intros c p E. destruct (Hp c p E) as [-> Hk]. done.
  - intros c p E. destruct (Hp c p E) as [-> Hk]. done.
  - done.
  - naive_solver.
  - done.
  - intros c E. by destruct (Hp c _ E).
Qed.

(** One CPU moves from [p] to [p'], its entry becomes [k'], the lock [l']. *)
Definition moved (c : Z) (p' : pc) (k' : cpu_status_t) (l' : spinlock_t) (s : sys) : sys :=
  mk_sys (<[c := k']> (s_cpus s)) l' (<[c := p']> (s_pc s)).

Lemma moved_cpus o c p' k' l' s :
  inv o s → nest c (pc_depth p') k' →
  ∀ c0 p0, s_pc (moved c p' k' l' s) !! c0 = Some p0 →
    ∃ k, s_cpus (moved c p' k' l' s) !! c0 = Some k ∧ nest c0 (pc_depth p0) k.
Proof.
  intros Hi Hn c0 p0 E. simpl in *. destruct (decide (c0 = c)) as [->|Hne]; simplify_map_eq.
  - eauto.
  - by apply Hi.
Qed.

(** A move that neither takes nor gives up the lock, off the critical section. *)
Lemma inv_stay o c p p' k' l' s :
  inv o s → s_pc s !! c = Some p → owns p = false → owns p' = false →
  (p' = Panicked → c = 0) → nest c (pc_depth p') k' →
  (held l' ≠ 0 ↔ held (s_lock s) ≠ 0) → lk_cpu_id l' = lk_cpu_id (s_lock s) →
  inv o (moved c p' k' l' s).
Proof.
  intros Hi E Hp Hp' Hpan Hk Hl Hc. pose proof (i_owner _ _ Hi _ _ E) as Ho.
  assert (Hoc : o ≠ Some c) by (rewrite Hp in Ho; intros ->; naive_solver).
  split.
  - by eapply moved_cpus.
  - simpl. intros c0 p0 E0. destruct (decide (c0 = c)) as [->|]; simplify_map_eq.
    + naive_solver.
    + by eapply i_owner.
  - simpl. intros c0 ->. rewrite lookup_insert_ne by congruence. by eapply i_dom.
  - simpl. rewrite Hl. apply Hi.
  - simpl. rewrite Hc, (i_cpu _ _ Hi). destruct o as [c1|]; [|done].
    by rewrite lookup_insert_ne by congruence.
  - simpl. intros c0 E0. destruct (decide (c0 = c)) as [->|]; simplify_map_eq; [auto|].
    by eapply i_panic.
Qed.

(** A move of the owner (old, new or both) while it keeps or takes the lock. *)
Lemma inv_own o c p p' k' l' s :
  inv o s → s_pc s !! c = Some p → (o = None ∨ o = Some c) → owns p' = true →
  nest c 1 k' → held l' ≠ 0 → lk_cpu_id l' = (if decide (p' = Crit) then c else 0) →
  inv (Some c) (moved c p' k' l' s).
Proof.
  intros Hi E Ho Hp' Hk Hl Hc.
  assert (pc_depth p' = 1) as Hd by by destruct p'. split.
  - eapply moved_cpus; [done|by rewrite Hd].
  - simpl. intros c0 p0 E0. destruct (decide (c0 = c)) as [->|]; simplify_map_eq.
    + naive_solver.
    + pose proof (i_owner _ _ Hi _ _ E0). naive_solver.
  - simpl. intros c0 [= <-]. rewrite lookup_insert_eq. eauto.
  - naive_solver.
  - simpl. rewrite Hc, lookup_insert_eq. repeat case_decide; naive_solver.
  - simpl. intros c0 E0. destruct (decide (c0 = c)) as [->|]; simplify_map_eq.
    by eapply i_panic.
Qed.

(** The owner gives the lock up. *)
Lemma inv_drop c p p' k' l' s :
  inv (Some c) s → s_pc s !! c = Some p → owns p' = false → p' ≠ Panicked →
  nest c (pc_depth p') k' → held l' = 0 → lk_cpu_id l' = 0 →
  inv None (moved c p' k' l' s).
Proof.
  intros Hi E Hp' Hnp Hk Hl Hc. split.
  - by eapply moved_cpus.
  - simpl. intros c0 p0 E0. destruct (decide (c0 = c)) as [->|]; simplify_map_eq.
    + rewrite Hp'. by split.
    + rewrite (i_owner _ _ Hi _ _ E0). split; congruence.
  - done.
  - simpl. rewrite Hl. by split.
  - done.
  - simpl. intros c0 E0. destruct (decide (c0 = c)) as [->|]; simplify_map_eq.
    by eapply i_panic.
Qed.

Ltac cpu_of Hi E :=
  destruct (i_cpus _ _ Hi _ _ E) as (k & Ek & Hk).

Lemma nest_set_id c n k : nest c n k → nest c n (set_cpu_id c k).
Proof. by intros (?&?&?&?). Qed.

Lemma moved_refl c p' s k l' :
  s_cpus s !! c = Some k → goto c p' (with_lock l' s) = moved c p' k l' s.
Proof. intros E. unfold goto, with_lock, moved. simpl. by rewrite (insert_id (s_cpus s)). Qed.

Lemma moved_goto c p' s k :
  s_cpus s !! c = Some k → goto c p' s = moved c p' k (s_lock s) s.
Proof. intros E. unfold goto, moved. simpl. by rewrite (insert_id (s_cpus s)). Qed.

Lemma spin_inv o c n w s s' :
  inv o s → s_pc s !! c = Some (ASpin n w) → cpu_step c s = Some s' → ∃ o', inv o' s'.
Proof.
  intros Hi E Hs. unfold cpu_step in Hs. rewrite E in Hs. injection Hs as <-.
  cpu_of Hi E. erewrite moved_refl by done.
  pose proof (i_owner _ _ Hi _ _ E) as Ho. simpl in Ho.
  pose proof (i_held _ _ Hi) as Hh. pose proof (i_cpu _ _ Hi) as Hc.
  case_decide as Hz.
  - assert (o = None) as -> by (destruct o; [exfalso; by apply Hh|done]).
    exists (Some c). by eapply inv_own; eauto.
  - exists o. eapply inv_stay; eauto; repeat case_match; simpl; try done; lia.
Qed.

(** Every action of every CPU preserves the invariant. *)
Lemma step_inv o s s' : inv o s → sl_step s s' → ∃ o', inv o' s'.
Proof.
  intros Hi Hst. revert Hi. destruct Hst as [c s1 s1' Hs]. intros Hi. destruct (s_pc s1 !! c) as [p|] eqn:E.
  2:{ unfold cpu_step in Hs. by rewrite E in Hs. }
  pose proof (i_owner _ _ Hi _ _ E) as Ho. pose proof (i_cpu _ _ Hi) as Hc.
  pose proof (i_held _ _ Hi) as Hh. destruct p eqn:Ep; simpl in Ho.
  4:{ by eapply spin_inv. }
  all: unfold cpu_step, call in Hs; rewrite E in Hs; cpu_of Hi E; simplify_eq/=.
  - rewrite (push_off_run c _ k) by done. exists o.
    apply (inv_stay o c Out AHeld (pushed c k) (s_lock s1) s1); try done.
    apply (nest_pushed c 0); [lia|done].
  - exists o. erewrite moved_goto by done.
    eapply inv_stay; eauto; repeat case_decide; done.
  - rewrite (get_cpu_run c _ k) by done. exists o. simpl.
    apply (inv_stay o c ACpu _ (set_cpu_id c k) (s_lock s1) s1);
      try done; try case_decide; try done; try by apply nest_set_id.
    intros _. rewrite Hc in *. destruct o as [c1|]; [|done]. case_decide; [|done].
    subst. by rewrite E in *.
  - rewrite (get_cpu_run c _ k) by done. exists (Some c). simpl.
    apply (inv_own o c ASet Crit (set_cpu_id c k) (set_lk_cpu c (s_lock s1)) s1);
      try done; try by apply nest_set_id.
    + right. by apply Ho.
    + simpl. apply Hh. intros ->. by destruct Ho as [Ho _]; specialize (Ho eq_refl).
  - exists (Some c). erewrite moved_refl by done.
    assert (o = Some c) as -> by by apply Ho.
    eapply (inv_own (Some c) c); eauto. simpl. by apply Hh.
  - exists None. erewrite moved_refl by done. assert (o = Some c) as -> by by apply Ho.
    eapply inv_drop; eauto; try done. simpl. rewrite Hc, E. by case_decide.
  - rewrite (pop_off_run c _ k) by (done || by apply Hk). exists o.
    apply (inv_stay o c RPop Out (popped c k) (s_lock s1) s1); try done.
    apply (nest_popped c 1); [lia|done].
Qed.

Lemma reachable_inv s : reachable s → ∃ o, inv o s.
Proof.
  induction 1 as [s H|s s' _ [o IH] Hs]; [eauto using init_inv|by eapply step_inv].
Qed.

(** C8: mutual exclusion.  In every reachable interleaving of [acquire] and
    [release] at most one CPU is between its successful test-and-set and its
    clearing of [held]; that CPU sees [held] set and has interrupts off. *)
Theorem spinlock_mutual_exclusion s c1 c2 p1 p2 :
  reachable s → s_pc s !! c1 = Some p1 → s_pc s !! c2 = Some p2 →
  owns p1 = true → owns p2 = true →
  c1 = c2 ∧ held (s_lock s) ≠ 0 ∧
  ∃ k, s_cpus s !! c1 = Some k ∧ int_on k = 0 ∧ cpu_IF k = false.
Proof.
  intros [o Hi]%reachable_inv E1 E2 O1 O2.
  apply (i_owner _ _ Hi _ _ E1) in O1 as Ho1. apply (i_owner _ _ Hi _ _ E2) in O2 as Ho2.
  split; [congruence|]. split; [apply (i_held _ _ Hi); congruence|].
  destruct (i_cpus _ _ Hi _ _ E1) as (k & Hk & _ & _ & _ & Hn).
  exists k. split; [done|]. apply Hn. by destruct p1.
Qed.

(** Two CPUs, and the lock of the physical allocator. *)
Definition ex_sys : sys :=
  mk_sys {[ 0 := mk_cpu 0 0 1 0 0 true; 1 := mk_cpu 1 0 1 0 0 true ]}
    (mk_lock 0 0 (Some "Physical Allocator"%string)) {[ 0 := Out; 1 := Out ]}.

Lemma run_reachable l s s' : reachable s → run_sched l s = Some s' → reachable s'.
Proof.
  revert s. induction l as [|c l IH]; intros s Hr E; simpl in E; [by simplify_eq|].
  destruct (cpu_step c s) as [s1|] eqn:Es; [|done].
  apply (IH s1); [|done]. eapply reach_step; [done|by econstructor].
Qed.

Lemma run_sched_app l1 l2 s s1 :
  run_sched l1 s = Some s1 → run_sched (l1 ++ l2) s = run_sched l2 s1.
Proof.
  revert s. induction l1 as [|c l1 IH]; intros s E; simpl in *; [by simplify_eq|].
  destruct (cpu_step c s); [by apply IH|done].
Qed.

Lemma ex_sys_init : init_sys ex_sys.
Proof.
  split; [done|]. split; [done|]. intros c p E.
  unfold ex_sys in E; simpl in E. apply lookup_insert_Some in E as [[<- <-]|[_ E]].
  - split; [done|]. eexists; split; [reflexivity|by repeat split].
  - apply lookup_singleton_Some in E as [<- <-].
    split; [done|]. eexists; split; [reflexivity|by repeat split].
Qed.

(** CPU 1 in its critical section, CPU 0 spinning. *)
Definition ex_busy : sys :=
  mk_sys {[ 0 := mk_cpu 0 1 0 0 0 false; 1 := mk_cpu 1 1 0 0 0 false ]}
    (mk_lock 1 1 (Some "Physical Allocator"%string)) {[ 0 := ASpin 1 false; 1 := Crit ]}.

Lemma spinlock_mutual_exclusion_witness :
  1 = 1 ∧ held (s_lock ex_busy) ≠ 0 ∧
  ∃ k, s_cpus ex_busy !! 1 = Some k ∧ int_on k = 0 ∧ cpu_IF k = false.
Proof.
  apply (spinlock_mutual_exclusion ex_busy 1 1 Crit Crit); try reflexivity.
  apply (run_reachable [1; 1; 1; 1; 0; 0; 0; 0] ex_sys).
  - by apply reach_init, ex_sys_init.
  - vm_compute. reflexivity.
Defined.

(** A CPU other than CPU 0 never stops in [panic]: for it, "already
    holding" is reported only when it does hold the lock, which a CPU that
    calls [acquire] from outside does not. *)
Lemma acquire_panics_only_on_cpu_0 s c :
  reachable s → s_pc s !! c = Some Panicked → c = 0.
Proof. intros [o Hi]%reachable_inv E. by apply (i_panic _ _ Hi). Qed.

(** CPU 0 can stop in [panic] without holding the lock.  Between CPU 1's
    test-and-set and its write of [cpu_id] the lock reads as held by CPU 0
    (the zero that [release] leaves), and CPU 0 takes it for its own. *)
Lemma acquire_spurious_panic :
  ∃ s, run_sched [1; 1; 1; 0; 0; 0] ex_sys = Some s ∧
    s_pc s !! 0 = Some Panicked ∧ s_pc s !! 1 = Some ASet.
Proof. eexists. split; [vm_compute; reflexivity|]. by split. Qed.
(** ** The sequential form *)

Lemma on_cpus_run {A} (m : CPU A) a st st' l :
  m st = Done (a, st') → on_cpus m (st, l) = Done (a, (st', l)).
Proof. intros E. unfold on_cpus, zoom. simpl. by rewrite E. Qed.

Lemma spin_free fuel n w st l :
  held l = 0 → spin (S fuel) n w (st, l) = Done (tt, (st, set_held 1 l)).
Proof. intros E. cbn [spin]. do 2 step. simpl. by rewrite decide_True by done. Qed.

#[global] Arguments spin : simpl never.

Lemma acquire_free_run fuel c st k l :
  st !! c = Some k → held l = 0 →
  acquire (S fuel) c (st, l)
  = Done (tt, (<[c := pushed c k]> st, mk_lock 1 c (lk_name l))).
Proof.
  intros E Hl. unfold acquire. erewrite bind_done by by eapply on_cpus_run, push_off_run.
  cbv beta. erewrite bind_done by by eapply on_cpus_run, get_cpu_run, lookup_insert_eq.
  cbv beta. rewrite insert_insert_eq. step. simpl. unfold holding.
  rewrite bool_decide_false by (simpl; lia). simpl.
  erewrite bind_done by by apply spin_free.
  cbv beta. simpl. erewrite bind_done by by eapply on_cpus_run, get_cpu_run, lookup_insert_eq.
  cbv beta. rewrite insert_insert_eq. reflexivity.
Qed.

Lemma release_run c st k l :
  st !! c = Some k → int_on k = 0 →
  release c (st, l) = Done (tt, (<[c := popped c k]> st, mk_lock 0 0 (lk_name l))).
Proof.
  intros E Hi. unfold release. repeat step. simpl.
  by apply on_cpus_run, pop_off_run.
Qed.

Lemma popped_pushed c k :
  0 ≤ push_off_count k < 2 ^ 32 - 1 →
  popped c (pushed c k)
  = mk_cpu c (push_off_count k) (if decide (push_off_count k = 0) then 1 else 0) (thread k) (vmm k)
      (if decide (push_off_count k = 0) then true
       else if decide (int_on k ≠ 0) then false else cpu_IF k).
Proof.
  intros Hc. unfold popped, pushed. simpl. rewrite (w32_small (_ + 1)) by lia.
  rewrite w32_small by lia. by replace (push_off_count k + 1 - 1) with (push_off_count k) by lia.
Qed.

(** [release] after the [acquire] of the same CPU. *)
Lemma release_settles c n st k l nm :
  counted c n k → 0 ≤ n < 2 ^ 32 - 1 →
  release c (<[c := pushed c k]> st, mk_lock 1 l nm) = Done (tt, (<[c := settled k]> st, mk_lock 0 0 nm)).
Proof.
  intros (Hid & Hc & Hi) Hr. erewrite release_run; [|apply lookup_insert_eq|done]. rewrite insert_insert_eq. cbn [lk_name].
  rewrite popped_pushed by lia. do 5 f_equal. unfold settled. destruct k as [i n' io th vm IF]; cbn in *. subst.
  repeat case_decide; try done; try lia.
Qed.

(** At any nesting depth that started with interrupts on, nothing changes. *)
Lemma locked_release_run c n st k l nm :
  st !! c = Some k → nest c n k → 0 ≤ n < 2 ^ 32 - 1 →
  release c (<[c := pushed c k]> st, mk_lock 1 l nm) = Done (tt, (st, mk_lock 0 0 nm)).
Proof.
  intros E Hn Hr. rewrite (release_settles c n) by (by apply nest_counted || done). by rewrite (nest_settled c n), insert_id.
Qed.

(** A CPU that holds a lock and asks for it again panics instead of
    waiting for itself for ever, whatever the fuel. *)
Lemma acquire_self_panics fuel fuel' c st k l :
  st !! c = Some k → held l = 0 →
  (acquire (S fuel) c;; acquire fuel' c) (st, l) = Panic.
Proof.
  intros E Hl. erewrite bind_done by by apply acquire_free_run. cbv beta. unfold acquire.
  erewrite bind_done by by eapply on_cpus_run, push_off_run, lookup_insert_eq.
  cbv beta. erewrite bind_done by by eapply on_cpus_run, get_cpu_run, lookup_insert_eq.
  cbv beta. step. unfold holding. simpl. by rewrite bool_decide_true by lia.
Qed.

Lemma acquire_self_panics_witness :
  (acquire 1 1;; acquire 5 1) (ex_cpus, mk_lock 0 0 None) = Panic.
Proof.
  apply (acquire_self_panics 0 5 1 ex_cpus (mk_cpu 1 0 1 0 0 true) (mk_lock 0 0 None));
    reflexivity.
Defined.

(** A CPU that has tried more than [WARNING] times reports it with the
    macro's value 10000000 as log level, which is past the end of
    [level_prefix]: waiting long for a named lock ends in a bad access. *)
Lemma acquire_warning_faults s c n :
  s_pc s !! c = Some (ASpin n false) → held (s_lock s) ≠ 0 →
  log_wanted (s_lock s) = true → WARNING < n →
  ∃ s', cpu_step c s = Some s' ∧ s_pc s' !! c = Some Faulted.
Proof.
  intros E Hh Hl Hn. unfold cpu_step. rewrite E. rewrite decide_False by done.
  rewrite bool_decide_true by done. rewrite Hl. simpl.
  eexists. split; [reflexivity|]. simpl. apply lookup_insert_eq.
Qed.

Lemma acquire_warning_faults_witness :
  ∃ s', cpu_step 0 (mk_sys (s_cpus ex_busy) (s_lock ex_busy)
                      {[ 0 := ASpin 10000001 false; 1 := Crit ]}) = Some s' ∧
    s_pc s' !! 0 = Some Faulted.
Proof. apply (acquire_warning_faults _ 0 10000001); reflexivity || by vm_compute. Defined.

(** The sequential [acquire] and [release] are the interleaved ones with
    one CPU moving: from outside, four moves of a CPU that finds the lock free
    do what [acquire] does, and three more do what [release] does. *)
Lemma acquire_release_sequential fuel c s k :
  s_pc s !! c = Some Out → s_cpus s !! c = Some k → held (s_lock s) = 0 →
  ∃ st1 l1 st2 l2,
    acquire (S fuel) c (s_cpus s, s_lock s) = Done (tt, (st1, l1)) ∧
    release c (st1, l1) = Done (tt, (st2, l2)) ∧
    run_sched [c; c; c; c] s = Some (mk_sys st1 l1 (<[c := Crit]> (s_pc s))) ∧
    run_sched [c; c; c; c; c; c; c] s = Some (mk_sys st2 l2 (<[c := Out]> (s_pc s))).
Proof.
  intros E Ek Hl. do 4 eexists. split; [by apply acquire_free_run|].
  split; [by apply release_run; [apply lookup_insert_eq|]|].
  assert (run_sched [c; c; c; c] s = Some (mk_sys (<[c := pushed c k]> (s_cpus s))
            (mk_lock 1 c (lk_name (s_lock s))) (<[c := Crit]> (s_pc s)))) as H4.
  { cbn [run_sched]. unfold cpu_step at 1. rewrite E. unfold call.
    rewrite (push_off_run c _ k) by done. unfold cpu_step at 1. simpl.
    rewrite lookup_insert_eq, decide_False by lia. unfold cpu_step at 1. simpl.
    rewrite lookup_insert_eq, decide_True by done. unfold cpu_step, call. simpl.
    rewrite lookup_insert_eq. erewrite get_cpu_run by apply lookup_insert_eq.
    unfold goto, with_lock, with_cpus; simpl. by rewrite !insert_insert_eq. }
  split; [done|]. etransitivity; [exact (run_sched_app [c; c; c; c] [c; c; c] s _ H4)|].
  cbn [run_sched].
  unfold cpu_step, call; simpl. rewrite lookup_insert_eq. simpl.
  rewrite lookup_insert_eq. simpl. rewrite lookup_insert_eq.
  erewrite pop_off_run; [|apply lookup_insert_eq|done].
  unfold goto, with_cpus; simpl. by rewrite !insert_insert_eq.
Qed.

Lemma acquire_release_sequential_witness :
  ∃ st1 l1 st2 l2,
    acquire 1 1 (s_cpus ex_sys, s_lock ex_sys) = Done (tt, (st1, l1)) ∧
    release 1 (st1, l1) = Done (tt, (st2, l2)) ∧
    run_sched [1; 1; 1; 1] ex_sys = Some (mk_sys st1 l1 (<[1 := Crit]> (s_pc ex_sys))) ∧
    run_sched [1; 1; 1; 1; 1; 1; 1] ex_sys
    = Some (mk_sys st2 l2 (<[1 := Out]> (s_pc ex_sys))).
Proof.
  apply (acquire_release_sequential 0 1 ex_sys (mk_cpu 1 0 1 0 0 true)); reflexivity.
Defined.
