(* ===== verification/Lst.v ===== *)
(** * Circular doubly linked lists (kernel/list.c, list.h)

    The links live in the memory of the linked objects, at their addresses.
    The specification is the list of addresses from [lst->next] on. *)
From S2P Require Import Prelude.

(** The [struct lst]s in memory: for each field, its value by the address of
    the struct.  Reading a field that was never written is a fault, and so is
    any access through the null pointer. *)
Record lst := mk_lst { prevs : gmap Z Z; nexts : gmap Z Z }.
Abbreviation LST := (M lst).

Definition get_next (a : Z) : LST Z :=
  getf (λ m, if decide (a = 0) then None else nexts m !! a).
Definition get_prev (a : Z) : LST Z :=
  getf (λ m, if decide (a = 0) then None else prevs m !! a).
Definition set_next (a v : Z) : LST unit :=
  modifyf (λ m, if decide (a = 0) then None else Some (mk_lst (prevs m) (<[a := v]> (nexts m)))).
Definition set_prev (a v : Z) : LST unit :=
  modifyf (λ m, if decide (a = 0) then None else Some (mk_lst (<[a := v]> (prevs m)) (nexts m))).

Definition lst_init (h : Z) : LST unit :=
  set_next h h;;
  set_prev h h.

Definition lst_empty (h : Z) : LST bool :=
  n ← get_next h; mret (bool_decide (n = h)).

Definition lst_push (h n : Z) : LST unit :=
  v ← get_next h;
  set_next n v;;
  set_prev n h;;
  v ← get_next h;
  (if decide (v ≠ 0) then (v ← get_next h; set_prev v n) else mret tt);;
  set_next h n.

Definition lst_push_end (h n : Z) : LST unit :=
  v ← get_prev h;
  set_prev n v;;
  set_next n h;;
  v ← get_prev h;
  set_next v n;;
  set_prev h n.

Definition lst_pop (h : Z) : LST Z :=
  v ← get_next h;
  if decide (v = h) then panic else
  n ← get_next h;
  nn ← get_next n;
  set_prev nn h;;
  nn ← get_next n;
  set_next h nn;;
  mret n.

Definition lst_pop_end (h : Z) : LST Z :=
  v ← get_prev h;
  if decide (v = h) then panic else
  p ← get_prev h;
  pp ← get_prev p;
  set_next pp h;;
  pp ← get_prev p;
  set_prev h pp;;
  mret p.

(** ** Representation *)

(** Following [f] from [a] visits [l] and then reaches [b]. *)
Fixpoint link (f : gmap Z Z) (a : Z) (l : list Z) (b : Z) : Prop :=
  match l with
  | [] => f !! a = Some b
  | x :: l => f !! a = Some x ∧ link f x l b
  end.

(** List head [h] holds the nodes [l], linked in both directions. *)
Record holds (m : lst) (h : Z) (l : list Z) : Prop := mk_holds {
  h_next : link (nexts m) h l h;
  h_prev : link (prevs m) h (reverse l) h;
  h_nodup : NoDup (h :: l);
  h_null : 0 ∉ h :: l;
}.

Lemma link_app f a l1 x l2 b :
  link f a (l1 ++ x :: l2) b ↔ link f a l1 x ∧ link f x l2 b.
Proof. revert a. induction l1 as [|y l1 IH]; intros a; simpl; [done|]. rewrite IH. tauto. Qed.

Lemma link_insert f a l b z v : z ∉ a :: l → link f a l b → link (<[z := v]> f) a l b.
Proof.
  revert a. induction l as [|x l IH]; intros a [Hza Hz]%not_elem_of_cons Hl; simpl in *;
    rewrite lookup_insert_ne by done; [done|].
  destruct Hl as [Ha Hl]. auto.
Qed.

(** Sending the last hop of a chain elsewhere. *)
Lemma link_retarget f a l b c :
  NoDup (a :: l) → link f a l b → link (<[default a (last l) := c]> f) a l c.
Proof.
  revert a. induction l as [|x l IH]; intros a Hnd Hl; simpl in *.
  - by rewrite lookup_insert_eq.
  - destruct Hl as [Ha Hl]. inversion_clear Hnd as [|?? Hin Hnd'].
    assert (default a (last (x :: l)) = default x (last l)) as ->
      by (rewrite last_cons; by destruct (last l)).
    split; [|by apply IH]. rewrite lookup_insert_ne; [done|]. intros E. apply Hin. rewrite <- E.
    destruct (last l) as [y|] eqn:El; simpl; [|by left]. right. by apply last_Some_elem_of in El.
Qed.

(** The first hop of a chain. *)
Lemma link_first f a l b : link f a l b → f !! a = Some (default b (head l)).
Proof. destruct l; simpl; tauto. Qed.

Lemma nn_get_next a v m : a ≠ 0 → nexts m !! a = Some v → get_next a m = Done (v, m).
Proof. intros Ha E. apply getf_done. by rewrite decide_False. Qed.
Lemma nn_get_prev a v m : a ≠ 0 → prevs m !! a = Some v → get_prev a m = Done (v, m).
Proof. intros Ha E. apply getf_done. by rewrite decide_False. Qed.
Lemma nn_set_next a v m :
  a ≠ 0 → set_next a v m = Done (tt, mk_lst (prevs m) (<[a := v]> (nexts m))).
Proof. intros Ha. apply modifyf_done. by rewrite decide_False. Qed.
Lemma nn_set_prev a v m :
  a ≠ 0 → set_prev a v m = Done (tt, mk_lst (<[a := v]> (prevs m)) (nexts m)).
Proof. intros Ha. apply modifyf_done. by rewrite decide_False. Qed.

(** Run one access to a field whose address is not null. *)
Ltac lst_acc :=
  first [ erewrite bind_done by (apply nn_get_next; [done|simpl; simplify_map_eq; done])
        | erewrite bind_done by (apply nn_get_prev; [done|simpl; simplify_map_eq; done])
        | erewrite bind_done by (apply nn_set_next; done)
        | erewrite bind_done by (apply nn_set_prev; done) ]; cbv beta; simpl.

Lemma nodup_reverse (l : list Z) : NoDup l → NoDup (reverse l).
Proof. by rewrite reverse_Permutation. Qed.

Lemma holds_head_nn m h l : holds m h l → h ≠ 0.
Proof. intros [_ _ _ H0] ->. apply H0. by left. Qed.

Lemma holds_first m h l : holds m h l → nexts m !! h = Some (default h (head l)).
Proof. intros Hh. apply (link_first _ _ _ _ (h_next _ _ _ Hh)). Qed.

Lemma holds_last m h l : holds m h l → prevs m !! h = Some (default h (last l)).
Proof.
  intros Hh. pose proof (link_first _ _ _ _ (h_prev _ _ _ Hh)) as E.
  by rewrite head_reverse in E.
Qed.

(** Reading the list the other way round: [next] and [prev] swap roles. *)
Definition flip_lst (m : lst) : lst := mk_lst (nexts m) (prevs m).

Lemma holds_flip m h l : holds m h l → holds (flip_lst m) h (reverse l).
Proof.
  intros [Hn Hp Hd H0]. split; simpl; [done|by rewrite reverse_involutive| |].
  - inversion_clear Hd. constructor; [by rewrite elem_of_reverse|by apply nodup_reverse].
  - rewrite elem_of_cons, elem_of_reverse. by rewrite elem_of_cons in H0.
Qed.

(** Linking [x] in between [h] and the first node. *)
Lemma holds_link_front m h l x :
  holds m h l → x ∉ h :: l → x ≠ 0 →
  holds (mk_lst (<[default h (head l) := x]> (<[x := h]> (prevs m)))
                (<[h := x]> (<[x := default h (head l)]> (nexts m)))) h (x :: l).
Proof.
  intros [Hn Hp Hd H0] Hx Hx0. pose proof Hx as [Hxh Hxl]%not_elem_of_cons.
  pose proof Hd as [Hhl Hdl]%NoDup_cons. split; simpl.
  - split; [by rewrite lookup_insert_eq|]. destruct l as [|y l]; simpl in *.
    + by rewrite lookup_insert_ne, lookup_insert_eq.
    + split; [by rewrite lookup_insert_ne, lookup_insert_eq by done|].
      apply link_insert; [done|]. apply link_insert; [done|].
      by destruct Hn.
  - rewrite reverse_cons, link_app. split.
    + rewrite <- last_reverse. eapply link_retarget.
      * constructor; [by rewrite elem_of_reverse|by apply nodup_reverse].
      * apply link_insert; [|done]. by rewrite elem_of_cons, elem_of_reverse, <- elem_of_cons.
    + simpl. rewrite lookup_insert_ne; [by rewrite lookup_insert_eq|].
      destruct l as [|y l]; simpl; [done|]. intros ->. apply Hxl. by left.
  - apply NoDup_cons. split; [|by apply NoDup_cons]. by apply not_elem_of_cons.
  - rewrite elem_of_cons in H0 |- *. rewrite elem_of_cons. naive_solver.
Qed.

(** Unlinking the first node. *)
Lemma holds_unlink_front m h l x :
  holds m h (x :: l) →
  holds (mk_lst (<[default h (head l) := h]> (prevs m))
                (<[h := default h (head l)]> (nexts m))) h l.
Proof.
  intros [Hn Hp Hd H0]. pose proof Hd as [Hhl [Hxl Hdl]%NoDup_cons]%NoDup_cons.
  apply not_elem_of_cons in Hhl as [Hhx Hhl]. split; simpl.
  - destruct Hn as [_ Hn]. destruct l as [|y l]; simpl in *.
    + by rewrite lookup_insert_eq.
    + split; [by rewrite lookup_insert_eq|]. apply link_insert; [done|]. by destruct Hn.
  - rewrite reverse_cons, link_app in Hp. destruct Hp as [Hp _].
    rewrite <- last_reverse. eapply link_retarget; [|done].
    constructor; [by rewrite elem_of_reverse|by apply nodup_reverse].
  - by apply NoDup_cons.
  - rewrite elem_of_cons in H0 |- *. rewrite elem_of_cons in H0. naive_solver.
Qed.

Lemma lst_init_spec m h :
  h ≠ 0 → ∃ m', lst_init h m = Done (tt, m') ∧ holds m' h [].
Proof.
  intros Hh. eexists. split.
  - unfold lst_init. lst_acc. by apply nn_set_prev.
  - split; simpl; [by rewrite lookup_insert_eq..|by apply NoDup_singleton|].
    by intros <-%list_elem_of_singleton.
Qed.

Lemma lst_empty_spec m h l :
  holds m h l → lst_empty h m = Done (bool_decide (l = []), m).
Proof.
  intros Hh. pose proof (holds_head_nn _ _ _ Hh). pose proof (holds_first _ _ _ Hh).
  unfold lst_empty. lst_acc. unfold mret, M_ret. repeat f_equal. apply bool_decide_ext.
  destruct l as [|x l]; simpl; [done|]. split; [intros ->|done].
  destruct Hh as [_ _ [Hd _]%NoDup_cons _]. exfalso. apply Hd. by left.
Qed.

Lemma lst_push_spec m h l x :
  holds m h l → x ∉ h :: l → x ≠ 0 →
  ∃ m', lst_push h x m = Done (tt, m') ∧ holds m' h (x :: l).
Proof.
  intros Hh Hx Hx0. eexists. split; [|by apply holds_link_front].
  pose proof (holds_head_nn _ _ _ Hh). pose proof (holds_first _ _ _ Hh).
  assert (x ≠ h) by (intros ->; apply Hx; by left).
  assert (default h (head l) ≠ 0) as Hv.
  { destruct Hh as [_ _ _ Hz]. destruct l; simpl; [done|]. intros ->. apply Hz. right; by left. }
  unfold lst_push. do 4 lst_acc. rewrite decide_True by done. rewrite bind_assoc.
  do 2 lst_acc. by rewrite nn_set_next by done.
Qed.

Lemma lst_pop_spec m h x l :
  holds m h (x :: l) → ∃ m', lst_pop h m = Done (x, m') ∧ holds m' h l.
Proof.
  intros Hh. eexists. split; [|by eapply holds_unlink_front].
  pose proof (holds_head_nn _ _ _ Hh). pose proof (holds_first _ _ _ Hh) as E. simpl in E.
  assert (x ≠ h) by (destruct Hh as [_ _ [Hd _]%NoDup_cons _]; intros ->; apply Hd; by left).
  assert (x ≠ 0) by (destruct Hh as [_ _ _ Hz]; intros ->; apply Hz; right; by left).
  assert (nexts m !! x = Some (default h (head l))) as E2
    by (destruct Hh as [[_ Hn] _ _ _]; by apply link_first in Hn).
  assert (default h (head l) ≠ 0) as Hv.
  { destruct Hh as [_ _ _ Hz]. destruct l; simpl; [done|]. intros ->. apply Hz. right; right; by left. }
  unfold lst_pop. lst_acc. rewrite decide_False by done. do 5 lst_acc. done.
Qed.

Lemma lst_pop_empty_spec m h : holds m h [] → lst_pop h m = Panic.
Proof.
  intros Hh. pose proof (holds_head_nn _ _ _ Hh). pose proof (holds_first _ _ _ Hh) as E.
  simpl in E. unfold lst_pop. lst_acc. by rewrite decide_True.
Qed.

Lemma lst_push_end_spec m h l x :
  holds m h l → x ∉ h :: l → x ≠ 0 →
  ∃ m', lst_push_end h x m = Done (tt, m') ∧ holds m' h (l ++ [x]).
Proof.
  intros Hh Hx Hx0. pose proof (holds_flip _ _ _ (holds_link_front (flip_lst m) h (reverse l) x
    (holds_flip _ _ _ Hh) ltac:(by rewrite elem_of_cons, elem_of_reverse, <- elem_of_cons) Hx0)) as Hf.
  rewrite reverse_cons, reverse_involutive, head_reverse in Hf.
  eexists. split; [|exact Hf].
  pose proof (holds_head_nn _ _ _ Hh). pose proof (holds_last _ _ _ Hh).
  assert (x ≠ h) by (intros ->; apply Hx; by left).
  assert (default h (last l) ≠ 0) as Hv.
  { destruct Hh as [_ _ _ Hz]. destruct (last l) as [y|] eqn:El; simpl; [|done]. intros ->.
    apply Hz. right. by apply last_Some_elem_of. }
  unfold lst_push_end. do 5 lst_acc. by rewrite nn_set_prev by done.
Qed.

Lemma lst_pop_end_spec m h x l :
  holds m h (l ++ [x]) → ∃ m', lst_pop_end h m = Done (x, m') ∧ holds m' h l.
Proof.
  intros Hh. pose proof (holds_flip _ _ _ Hh) as Hf. rewrite reverse_snoc in Hf.
  pose proof (holds_flip _ _ _ (holds_unlink_front _ _ _ _ Hf)) as Hf'.
  rewrite reverse_involutive, head_reverse in Hf'. eexists. split; [|exact Hf'].
  pose proof (holds_head_nn _ _ _ Hh). pose proof (holds_first _ _ _ Hf) as E. simpl in E.
  assert (x ≠ h) by (destruct Hf as [_ _ [Hd _]%NoDup_cons _]; intros ->; apply Hd; by left).
  assert (x ≠ 0) by (destruct Hf as [_ _ _ Hz]; intros ->; apply Hz; right; by left).
  assert (prevs m !! x = Some (default h (last l))) as E2.
  { destruct Hf as [[_ Hn] _ _ _]. apply link_first in Hn. by rewrite head_reverse in Hn. }
  assert (default h (last l) ≠ 0) as Hv.
  { destruct Hh as [_ _ _ Hz]. destruct (last l) as [y|] eqn:El; simpl; [|done]. intros ->.
    apply Hz. right. apply elem_of_app. left. by apply last_Some_elem_of. }
  unfold lst_pop_end. lst_acc. rewrite decide_False by done. do 5 lst_acc. done.
Qed.

Lemma lst_pop_end_empty_spec m h : holds m h [] → lst_pop_end h m = Panic.
Proof.
  intros Hh. pose proof (holds_head_nn _ _ _ Hh). pose proof (holds_last _ _ _ Hh) as E.
  simpl in E. unfold lst_pop_end. lst_acc. by rewrite decide_True.
Qed.

(** ** Refinement of a double-ended queue *)

Inductive lop := Push (x : Z) | PushEnd (x : Z) | Pop | PopEnd | IsEmpty.

(** Each operation in C, its result as an integer. *)
Definition lst_exec (h : Z) (op : lop) : LST Z :=
  match op with
  | Push x => lst_push h x;; mret 0
  | PushEnd x => lst_push_end h x;; mret 0
  | Pop => lst_pop h
  | PopEnd => lst_pop_end h
  | IsEmpty => b ← lst_empty h; mret (if (b : bool) then 1 else 0)
  end.

(** Its specification on the list of nodes; [None] is the panic of a pop on an
    empty list. *)
Definition deque_spec (op : lop) (l : list Z) : option (Z * list Z) :=
  match op with
  | Push x => Some (0, x :: l)
  | PushEnd x => Some (0, l ++ [x])
  | Pop => match l with [] => None | x :: l => Some (x, l) end
  | PopEnd => match reverse l with [] => None | x :: l => Some (x, reverse l) end
  | IsEmpty => Some (if bool_decide (l = []) then 1 else 0, l)
  end.

(** A pushed node is a fresh object. *)
Definition op_fresh (h : Z) (op : lop) (l : list Z) : Prop :=
  match op with
  | Push x | PushEnd x => x ≠ 0 ∧ x ∉ h :: l
  | _ => True
  end.

Lemma lst_exec_spec h op m l :
  holds m h l → op_fresh h op l →
  match deque_spec op l with
  | Some (r, l') => ∃ m', lst_exec h op m = Done (r, m') ∧ holds m' h l'
  | None => lst_exec h op m = Panic
  end.
Proof.
  intros Hh Hf. destruct op as [x|x| | |]; simpl in *.
  - destruct Hf as [H0 Hx]. destruct (lst_push_spec m h l x) as (m'&E&Hm'); [done..|].
    exists m'. by erewrite bind_done by done.
  - destruct Hf as [H0 Hx]. destruct (lst_push_end_spec m h l x) as (m'&E&Hm'); [done..|].
    exists m'. by erewrite bind_done by done.
  - destruct l as [|x l]; [by apply lst_pop_empty_spec|by apply lst_pop_spec].
  - destruct l as [|x l _] using rev_ind; [by apply lst_pop_end_empty_spec|].
    rewrite reverse_snoc, reverse_involutive. by apply lst_pop_end_spec.
  - exists m. by erewrite bind_done by by apply lst_empty_spec.
Qed.

(** A run of operations with the results, in C and in the specification. *)
Fixpoint lst_run (h : Z) (ops : list lop) : LST (list Z) :=
  match ops with
  | [] => mret []
  | op :: ops => r ← lst_exec h op; rs ← lst_run h ops; mret (r :: rs)
  end.

Fixpoint deque_run (h : Z) (ops : list lop) (l : list Z) : option (list Z * list Z) :=
  match ops with
  | [] => Some ([], l)
  | op :: ops =>
      match deque_spec op l with
      | None => None
      | Some (r, l1) =>
          match deque_run h ops l1 with Some (rs, l2) => Some (r :: rs, l2) | None => None end
      end
  end.

Fixpoint run_fresh (h : Z) (ops : list lop) (l : list Z) : Prop :=
  match ops with
  | [] => True
  | op :: ops => op_fresh h op l ∧
      match deque_spec op l with Some (_, l1) => run_fresh h ops l1 | None => True end
  end.

(** C24: [struct lst] implements a double-ended queue.  From an empty list,
    every sequence of pushes (of fresh nodes) and pops at either end returns
    the results of the queue and leaves its contents, and panics exactly when
    the sequence pops an empty queue. *)
Theorem lst_refines_deque h ops m m0 :
  lst_init h m = Done (tt, m0) → h ≠ 0 → run_fresh h ops [] →
  match deque_run h ops [] with
  | Some (rs, l') => ∃ m', lst_run h ops m0 = Done (rs, m') ∧ holds m' h l'
  | None => lst_run h ops m0 = Panic
  end.
Proof.
  intros Hi H0. destruct (lst_init_spec m h H0) as (m1 & Hi1 & Hm). rewrite Hi in Hi1.
  injection Hi1 as <-. clear m Hi. rename m0 into m1.
  revert m1 Hm. generalize (@nil Z) as l. induction ops as [|op ops IH]; intros l m Hm Hf; simpl.
  { by exists m. }
  destruct Hf as [Hf1 Hf]. pose proof (lst_exec_spec h op m l Hm Hf1) as Hs.
  revert Hs Hf. destruct (deque_spec op l) as [[r l1]|]; intros Hs Hf; simpl.
  - destruct Hs as (m1 & E & Hm1). rewrite (bind_done _ _ _ _ _ E).
    specialize (IH l1 m1 Hm1 Hf). revert IH. destruct (deque_run h ops l1) as [[rs l2]|]; intros IH; simpl.
    + destruct IH as (m2 & E2 & Hm2). exists m2. by rewrite (bind_done _ _ _ _ _ E2).
    + by apply bind_panic.
  - by apply bind_panic.
Qed.

Lemma lst_refines_deque_witness :
  ∃ m', lst_run 8 [Push 16; PushEnd 24; Push 32; Pop; PopEnd; IsEmpty; Pop; IsEmpty]
          (mk_lst {[8 := 8]} {[8 := 8]}) = Done ([0; 0; 0; 32; 24; 0; 16; 1], m') ∧ holds m' 8 [].
Proof.
  apply (lst_refines_deque 8 [Push 16; PushEnd 24; Push 32; Pop; PopEnd; IsEmpty; Pop; IsEmpty]
    (mk_lst ∅ ∅)).
  - reflexivity.
  - lia.
  - simpl. repeat split; try lia; apply (bool_decide_unpack _); by vm_compute.
Defined.
