(* ===== verification/Layout.v ===== *)
(** * Address arithmetic (arch/x86-64/memory_layout.h)

    Page rounding, the split of a virtual address into table indices, the
    recursive mapping's addresses, and the bit fields of table entries. *)
From S2P Require Import Prelude.

Definition PAGE_SIZE : Z := 4096.
Definition BIG_PAGE_SIZE : Z := 0x40000000.
Definition PHYSICAL_OFFSET : Z := 0xFFFFFE8000000000.
Definition LOWHALF_START : Z := 0x200000.
Definition LOWHALF_END : Z := 0x800000000000.
Definition PML4_RECURSE_ENTRY : Z := 510.

(** The macros, with [size] an [int] that is promoted to [u64]. *)
Definition PAGE_START (addr size : Z) : Z := addr -64 (addr mod size).
Definition PAGE_END (addr size : Z) : Z := w64 (PAGE_START addr size + size - 1).

Definition VA2INDEX (va level : Z) : Z := Z.land (Z.shiftr va (12 + level * 9)) 0x1FF.

Definition get_va (pml4_e pdpt_e pd_e pt_e offset : Z) : Z :=
  let addr := if decide (Z.land pml4_e 0x100 ≠ 0) then w64 (Z.shiftl 0xFFFF 48) else 0 in
  let addr := Z.lor addr (w64 (Z.shiftl pml4_e 39)) in
  let addr := Z.lor addr (w64 (Z.shiftl pdpt_e 30)) in
  let addr := Z.lor addr (w64 (Z.shiftl pd_e 21)) in
  let addr := if decide (pt_e < 512) then Z.lor addr (w64 (Z.shiftl pt_e 12)) else addr in
  Z.lor addr offset.

Definition pdpt_va (pml4_offset : Z) : Z :=
  get_va PML4_RECURSE_ENTRY PML4_RECURSE_ENTRY PML4_RECURSE_ENTRY pml4_offset 0.
Definition pd_va (pml4_offset pdpt_offset : Z) : Z :=
  get_va PML4_RECURSE_ENTRY PML4_RECURSE_ENTRY pml4_offset pdpt_offset 0.
Definition pt_va (pml4_offset pdpt_offset pd_offset : Z) : Z :=
  get_va PML4_RECURSE_ENTRY pml4_offset pdpt_offset pd_offset 0.

(** Linear arithmetic with division and remainder by constants. *)
Ltac lia_div := Z.div_mod_to_equations; lia.

(** ** Page rounding *)

Lemma PAGE_START_eq a : u64p a → PAGE_START a PAGE_SIZE = a - a mod 4096.
Proof.
  intros Ha. unfold PAGE_START, PAGE_SIZE. apply w64_small.
  pose proof (Z.mod_pos_bound a 4096 eq_refl). pose proof (Z.mod_le a 4096). unfold u64p in *. lia.
Qed.

Lemma PAGE_START_aligned a : a mod 4096 = 0 → u64p a → PAGE_START a PAGE_SIZE = a.
Proof. intros Hm Ha. rewrite PAGE_START_eq by done. lia. Qed.

Lemma PAGE_END_eq a : u64p a → PAGE_END a PAGE_SIZE = a - a mod 4096 + 4095.
Proof.
  intros Ha. unfold PAGE_END. rewrite PAGE_START_eq by done. unfold PAGE_SIZE, u64p in *.
  rewrite w64_small; [lia|]. pose proof (Z.div_mod a 4096). pose proof (Z.mod_pos_bound a 4096 eq_refl).
  assert (a / 4096 < 2 ^ 52) by (apply Z.div_lt_upper_bound; lia).
  assert (0 ≤ a / 4096) by (apply Z.div_pos; lia). lia.
Qed.

Lemma mod_page_add a k : (a + k * 4096) mod 4096 = a mod 4096.
Proof. apply Z.mod_add. lia. Qed.

Lemma PAGE_START_in_page b o :
  b mod 4096 = 0 → 0 ≤ o < 4096 → u64p b → b + 4096 ≤ 2 ^ 64 → PAGE_START (b + o) PAGE_SIZE = b.
Proof.
  intros Hb Ho Hu Hw. rewrite PAGE_START_eq by (unfold u64p in *; lia).
  rewrite Z.add_mod, Hb, Z.add_0_l, Z.mod_mod, (Z.mod_small o) by lia. lia.
Qed.

(** ** Indices *)

Lemma lor_disjoint a b k : 0 ≤ k → 0 ≤ b < 2 ^ k → a mod 2 ^ k = 0 → Z.lor a b = a + b.
Proof.
  intros Hk Hb Ha. destruct (decide (b = 0)) as [->|Hnz]; [rewrite Z.lor_0_r; lia|].
  rewrite <- Z.lxor_lor, <- Z.add_nocarry_lxor; [done|..].
  all: apply Z.bits_inj'; intros n Hn; rewrite Z.land_spec, Z.bits_0;
    destruct (Z.lt_ge_cases n k) as [Hl|Hl].
  all: try (rewrite <- (Z.mod_pow2_bits_low a k) by lia; rewrite Ha, Z.bits_0; done).
  all: rewrite (Z.bits_above_log2 b), andb_false_r; [done|lia|].
  all: enough (Z.log2 b < k) by lia; apply Z.log2_lt_pow2; lia.
Qed.

Lemma VA2INDEX_eq va level :
  0 ≤ level → VA2INDEX va level = (va / 2 ^ (12 + level * 9)) mod 512.
Proof.
  intros Hl. unfold VA2INDEX. change 0x1FF with (Z.ones 9). rewrite Z.land_ones by lia.
  by rewrite Z.shiftr_div_pow2 by lia.
Qed.

(** The sign extension of a canonical address. *)
Definition canonical_high (pml4_e : Z) : Z := if decide (256 ≤ pml4_e) then 0xFFFF * 2 ^ 48 else 0.

Lemma land_256 a : 0 ≤ a < 512 → Z.land a 256 = a / 256 * 256.
Proof.
  intros Ha. change 256 with (2 ^ 8). apply Z.bits_inj'. intros n Hn.
  rewrite Z.land_spec, Z.pow2_bits_eqb by lia. destruct (Z.lt_ge_cases n 8) as [Hl|Hl].
  - rewrite Z.mul_pow2_bits_low by lia. destruct (Z.eqb_spec 8 n); [lia|]. by rewrite andb_false_r.
  - rewrite Z.mul_pow2_bits by lia. rewrite <- Z.shiftr_div_pow2, Z.shiftr_spec by lia.
    replace (n - 8 + 8) with n by lia. destruct (Z.eqb_spec 8 n); [by rewrite andb_true_r|].
    rewrite andb_false_r. symmetry. apply Z.bits_above_log2; [lia|].
    destruct (decide (a = 0)) as [->|]; [simpl; lia|].
    enough (Z.log2 a < 9) by lia. apply Z.log2_lt_pow2; lia.
Qed.

Lemma get_va_eq a b c d o :
  0 ≤ a < 512 → 0 ≤ b < 512 → 0 ≤ c < 512 → 0 ≤ d < 512 → 0 ≤ o < 4096 →
  get_va a b c d o = canonical_high a + a * 2 ^ 39 + b * 2 ^ 30 + c * 2 ^ 21 + d * 2 ^ 12 + o.
Proof.
  intros Ha Hb Hc Hd Ho. unfold get_va. rewrite (decide_True _ _ (proj2 Hd)).
  rewrite !Z.shiftl_mul_pow2 by lia. rewrite !(w64_small (_ * 2 ^ _)) by lia.
  assert ((if decide (Z.land a 256 ≠ 0) then 65535 * 2 ^ 48 else 0) = canonical_high a) as ->.
  { unfold canonical_high. rewrite land_256 by done.
    destruct (decide (256 ≤ a)); [by rewrite decide_True by lia_div|].
    rewrite decide_False; [done|]. intros Hx. apply Hx. lia_div. }
  assert (canonical_high a mod 2 ^ 48 = 0) by (unfold canonical_high; by case_decide).
  rewrite (lor_disjoint _ (a * 2 ^ 39) 48), (lor_disjoint _ (b * 2 ^ 30) 39),
    (lor_disjoint _ (c * 2 ^ 21) 30), (lor_disjoint _ (d * 2 ^ 12) 21), (lor_disjoint _ o 12); lia_div.
Qed.

(** [get_va] and the index macros are inverse: the indices and the offset
    of an address built by [get_va] are its arguments, and a canonical address
    is rebuilt from its indices and offset. *)
Lemma get_va_indices a b c d o :
  0 ≤ a < 512 → 0 ≤ b < 512 → 0 ≤ c < 512 → 0 ≤ d < 512 → 0 ≤ o < 4096 →
  let va := get_va a b c d o in
  VA2INDEX va 3 = a ∧ VA2INDEX va 2 = b ∧ VA2INDEX va 1 = c ∧ VA2INDEX va 0 = d ∧
  va mod 4096 = o ∧
  (∀ va', 0 ≤ va' < 2 ^ 47 ∨ 2 ^ 64 - 2 ^ 47 ≤ va' < 2 ^ 64 →
    get_va (VA2INDEX va' 3) (VA2INDEX va' 2) (VA2INDEX va' 1) (VA2INDEX va' 0) (va' mod 4096) = va').
Proof.
  intros Ha Hb Hc Hd Ho va. unfold va. rewrite get_va_eq by done. rewrite !VA2INDEX_eq by lia.
  simpl (12 + _). unfold canonical_high.
  split_and!; [case_decide; lia_div..|]. intros va' Hva. rewrite !VA2INDEX_eq by lia.
  simpl (12 + _). rewrite get_va_eq by lia_div. unfold canonical_high. case_decide; lia_div.
Qed.

Lemma get_va_indices_witness :
  let va := get_va 510 1 2 3 0x123 in
  VA2INDEX va 3 = 510 ∧ VA2INDEX va 2 = 1 ∧ VA2INDEX va 1 = 2 ∧ VA2INDEX va 0 = 3 ∧
  va mod 4096 = 0x123 ∧
  (∀ va', 0 ≤ va' < 2 ^ 47 ∨ 2 ^ 64 - 2 ^ 47 ≤ va' < 2 ^ 64 →
    get_va (VA2INDEX va' 3) (VA2INDEX va' 2) (VA2INDEX va' 1) (VA2INDEX va' 0) (va' mod 4096) = va').
Proof. refine (get_va_indices 510 1 2 3 0x123 _ _ _ _ _); lia. Defined.
