(* ===== verification/PhysAlloc.v ===== *)
(** * The physical page allocator (arch/x86-64/memory/physical_allocator.c)

    Free pages form a [struct lst] through their own memory, and a bitmap says
    for each page whether it is in use.  The bitmap occupies the first pages
    of the region; the two stores are disjoint, so they are kept apart. *)
From S2P Require Import Prelude.
From S2P Require Import Interfaces.
From S2P Require Import Cpu.
From S2P Require Import Spinlock.
From S2P Require Import Lst.
From S2P Require Import Layout.

(** The statics [base], [alloc] (the bitmap's bytes by index), [alloc_size],
    the memory of [free_lst] and of the free pages, and [phys_alloc_lock] with
    the CPUs. *)
Record phys := mk_phys {
  base : Z;
  alloc : gmap Z Z;
  alloc_size : Z;
  flst : lst;
  psl : sl_state;
}.

(** The fields of the [memory_area_t] that [init_phys_allocator] reads. *)
Record ram_area := mk_ram { ram_start : Z; ram_size : Z }.

Abbreviation PA := (M phys).

Definition on_flst {A} : LST A → PA A :=
  zoom flst (λ v s, mk_phys (base s) (alloc s) (alloc_size s) v (psl s)).
Definition on_psl {A} : SL A → PA A :=
  zoom psl (λ v s, mk_phys (base s) (alloc s) (alloc_size s) (flst s) v).
Definition set_base (v : Z) : PA unit :=
  modify (λ s, mk_phys v (alloc s) (alloc_size s) (flst s) (psl s)).
Definition set_alloc (v : gmap Z Z) : PA unit :=
  modify (λ s, mk_phys (base s) v (alloc_size s) (flst s) (psl s)).
Definition set_alloc_size (v : Z) : PA unit :=
  modify (λ s, mk_phys (base s) (alloc s) v (flst s) (psl s)).

Definition page_index (addr : Z) : PA Z :=
  let pstart := PAGE_START addr PAGE_SIZE in
  b ← gets base;
  mret ((pstart -64 b) / PAGE_SIZE).

Definition page_addr (index : Z) : PA Z :=
  b ← gets base; mret (b +64 (index *64 PAGE_SIZE)).

Definition bit_isset (index : Z) : PA bool :=
  c ← getf (λ s, alloc s !! (index / 8));
  mret (Z.testbit c (index mod 8)).

Definition bit_update (index : Z) (f : Z → Z) : PA unit :=
  c ← getf (λ s, alloc s !! (index / 8));
  a ← gets alloc;
  set_alloc (<[index / 8 := w8 (f c)]> a).
Definition bit_set (index : Z) : PA unit :=
  bit_update index (λ c, Z.lor c (Z.shiftl 1 (index mod 8))).
Definition bit_clear (index : Z) : PA unit :=
  bit_update index (λ c, Z.land c (Z.lnot (Z.shiftl 1 (index mod 8)))).

(** [memset(alloc, 0, alloc_size)]. *)
Definition zero_bytes (n : Z) : gmap Z Z :=
  list_to_map ((λ i, (Z.of_nat i, 0)) <$> seq 0 (Z.to_nat n)).

(** A loop [for (; i < end; i++) body(i)] over [u64]s. *)
Fixpoint for_u64 (n : nat) (i : Z) (body : Z → PA unit) : PA unit :=
  match n with
  | O => mret tt
  | S n => body i;; for_u64 n (i + 1) body
  end.
Definition for_range (i till : Z) (body : Z → PA unit) : PA unit :=
  for_u64 (Z.to_nat (till - i)) i body.

Section phys.
(** The address of the static [free_lst]; the spins granted to [acquire]; the
    running CPU. *)
Context (free_lst : Z) (spins : nat) (c : Z).

Definition init_phys_allocator (ram : ram_area) : PA unit :=
  on_flst (lst_init free_lst);;
  set_base (w64 (PAGE_END (ram_start ram) PAGE_SIZE + 1));;
  let page_count := ram_size ram / PAGE_SIZE in
  if decide (page_count = 0) then mret tt else
  let asz := (page_count - 1) / 8 + 1 in
  set_alloc_size asz;;
  set_alloc (zero_bytes asz);;
  b ← gets base;
  i ← page_index (w64 (b + asz - 1));
  let index := i +64 1 in
  for_range 0 index bit_set;;
  for_range index page_count (λ i,
    on_flst (lst_push_end free_lst (w64 (b + i * PAGE_SIZE + PHYSICAL_OFFSET))));;
  for_range (Z.max index page_count) (asz *64 8) bit_set.

Definition kalloc_page : PA Z :=
  on_psl (acquire (S spins) c);;
  e ← on_flst (lst_empty free_lst);
  if (e : bool) then
    on_psl (release c);; mret 0
  else
    p ← on_flst (lst_pop free_lst);
    let page := p -64 PHYSICAL_OFFSET in
    i ← page_index page;
    bit_set i;;
    on_psl (release c);;
    mret page.

Definition kfree_page (page : Z) : PA unit :=
  let addr := PAGE_START page PAGE_SIZE in
  index ← page_index addr;
  b ← bit_isset index;
  if negb b then mret tt else
  on_psl (acquire (S spins) c);;
  on_flst (lst_push free_lst (addr +64 PHYSICAL_OFFSET));;
  bit_clear index;;
  on_psl (release c).
End phys.

(** ** The bitmap *)

Definition pbit (al : gmap Z Z) (i : Z) : option bool :=
  (λ c, Z.testbit c (i mod 8)) <$> al !! (i / 8).

(** The [n] bytes of [al] hold the bits [f], and there are no others. *)
Definition bm (al : gmap Z Z) (n : Z) (f : Z → bool) : Prop :=
  (∀ i, 0 ≤ i < 8 * n → pbit al i = Some (f i)) ∧ ∀ j, n ≤ j → al !! j = None.

Definition with_alloc (al : gmap Z Z) (s : phys) : phys :=
  mk_phys (base s) al (alloc_size s) (flst s) (psl s).

Lemma w8_testbit z k : 0 ≤ k < 8 → Z.testbit (w8 z) k = Z.testbit z k.
Proof. intros Hk. unfold w8. apply Z.mod_pow2_bits_low. lia. Qed.

Lemma same_byte i j : i / 8 = j / 8 → i mod 8 = j mod 8 → i = j.
Proof. intros Hq Hr. pose proof (Z.div_mod i 8). pose proof (Z.div_mod j 8). lia. Qed.

(** Writing one bit leaves every other one. *)
Lemma bm_update al n f i c v g :
  bm al n f → 0 ≤ i < 8 * n → al !! (i / 8) = Some c →
  (∀ k, 0 ≤ k < 8 → Z.testbit (g c) k = if decide (k = i mod 8) then v else Z.testbit c k) →
  bm (<[i / 8 := w8 (g c)]> al) n (λ j, if decide (j = i) then v else f j).
Proof.
  intros [Hb Hout] Hi Hc Hg. split.
  2: { intros j Hj. rewrite lookup_insert_ne; [by apply Hout|]. pose proof (Z.div_lt_upper_bound i 8 n). lia. }
  intros j Hj. specialize (Hb j Hj). unfold pbit in *.
  pose proof (Z.mod_pos_bound j 8 eq_refl) as Hm.
  destruct (decide (j / 8 = i / 8)) as [E|E].
  - rewrite E, lookup_insert_eq. rewrite E, Hc in Hb. simpl in *.
    rewrite w8_testbit, Hg by done. destruct (decide (j = i)) as [->|Hne].
    + by rewrite decide_True.
    + rewrite decide_False; [done|]. intros ?. by apply Hne, same_byte.
  - rewrite lookup_insert_ne by done. rewrite Hb, decide_False; [done|]. by intros ->.
Qed.

Lemma bm_byte al n f i : bm al n f → 0 ≤ i < 8 * n → ∃ c, al !! (i / 8) = Some c ∧ Z.testbit c (i mod 8) = f i.
Proof.
  intros [Hb _] Hi. specialize (Hb i Hi). unfold pbit in Hb.
  destruct (al !! (i / 8)) as [c|]; simplify_eq/=. eauto.
Qed.

Lemma testbit_one k j : 0 ≤ k → 0 ≤ j → Z.testbit (Z.shiftl 1 j) k = bool_decide (k = j).
Proof.
  intros Hk Hj. rewrite Z.shiftl_1_l, Z.pow2_bits_eqb by lia.
  destruct (Z.eqb_spec j k) as [E|E]; [by rewrite bool_decide_true|by rewrite bool_decide_false by lia].
Qed.

Lemma bit_set_run s n f i :
  bm (alloc s) n f → 0 ≤ i < 8 * n →
  ∃ al, bit_set i s = Done (tt, with_alloc al s) ∧ bm al n (λ j, if decide (j = i) then true else f j).
Proof.
  intros Hb Hi. destruct (bm_byte _ _ _ _ Hb Hi) as (b & Hc & _). eexists. split.
  - unfold bit_set, bit_update. erewrite bind_done by by apply getf_done.
    cbv beta. step. reflexivity.
  - eapply (bm_update _ _ _ _ b true (λ c, Z.lor c (Z.shiftl 1 (i mod 8)))); try done.
    intros k Hk. pose proof (Z.mod_pos_bound i 8 eq_refl).
    rewrite Z.lor_spec, testbit_one by lia. case_decide as E.
    + rewrite bool_decide_true by done. apply orb_true_r.
    + rewrite bool_decide_false by done. apply orb_false_r.
Qed.

Lemma bit_clear_run s n f i :
  bm (alloc s) n f → 0 ≤ i < 8 * n →
  ∃ al, bit_clear i s = Done (tt, with_alloc al s) ∧
    bm al n (λ j, if decide (j = i) then false else f j).
Proof.
  intros Hb Hi. destruct (bm_byte _ _ _ _ Hb Hi) as (b & Hc & _). eexists. split.
  - unfold bit_clear, bit_update. erewrite bind_done by by apply getf_done.
    cbv beta. step. reflexivity.
  - eapply (bm_update _ _ _ _ b false (λ c, Z.land c (Z.lnot (Z.shiftl 1 (i mod 8))))); try done.
    intros k Hk. pose proof (Z.mod_pos_bound i 8 eq_refl).
    rewrite Z.land_spec, Z.lnot_spec, testbit_one by lia. case_decide as E.
    + rewrite bool_decide_true by done. apply andb_false_r.
    + rewrite bool_decide_false by done. apply andb_true_r.
Qed.

Lemma bit_isset_run s n f i :
  bm (alloc s) n f → 0 ≤ i < 8 * n → bit_isset i s = Done (f i, s).
Proof.
  intros Hb Hi. destruct (bm_byte _ _ _ _ Hb Hi) as (b & Hc & E).
  unfold bit_isset. erewrite bind_done by by apply getf_done. cbv beta. by rewrite E.
Qed.

Lemma bm_zero n : bm (zero_bytes n) n (λ _, false).
Proof.
  split.
  2: { intros j Hj. apply not_elem_of_list_to_map_1. rewrite <- list_fmap_compose. intros (k & -> & Hk%elem_of_seq)%list_elem_of_fmap. cbn in Hj. lia. }
  intros i Hi. unfold pbit, zero_bytes.
  assert (Hq : 0 ≤ i / 8 < n) by (split; [apply Z.div_pos; lia|apply Z.div_lt_upper_bound; lia]).
  rewrite (elem_of_list_to_map_1 _ _ 0).
  - simpl. by rewrite Z.testbit_0_l.
  - rewrite <- list_fmap_compose. apply NoDup_fmap_2; [intros ???; simpl in *; lia|apply NoDup_seq].
  - apply list_elem_of_fmap. exists (Z.to_nat (i / 8)). split; [f_equal; lia|].
    apply elem_of_seq. lia.
Qed.

Lemma bm_ext al n f g : bm al n f → (∀ i, 0 ≤ i < 8 * n → f i = g i) → bm al n g.
Proof. intros [Hb Ho] E. split; [|done]. intros i Hi. rewrite <- E by done. by apply Hb. Qed.

(** Setting a run of bits. *)
Lemma set_range_run k i s n f :
  bm (alloc s) n f → 0 ≤ i → i + Z.of_nat k ≤ 8 * n →
  ∃ al, for_u64 k i bit_set s = Done (tt, with_alloc al s) ∧
    bm al n (λ j, bool_decide (i ≤ j < i + Z.of_nat k) || f j).
Proof.
  revert i s f. induction k as [|k IH]; intros i s f Hb Hi Hk; simpl.
  - exists (alloc s). split; [by destruct s|]. eapply bm_ext; [done|].
    intros j _. by rewrite bool_decide_false by lia.
  - destruct (bit_set_run s n f i Hb) as (al & E & Hb1); [lia|].
    rewrite (bind_done _ _ _ _ _ E).
    destruct (IH (i + 1) (with_alloc al s) _ Hb1) as (al' & E' & Hb'); [lia..|].
    exists al'. split; [done|]. eapply bm_ext; [done|]. intros j _. cbv beta.
    destruct (decide (j = i)) as [->|Hj].
    + rewrite (bool_decide_true (i ≤ i < _)) by lia. apply orb_true_r.
    + f_equal. apply bool_decide_ext. split; intros; split; lia.
Qed.

(** ** The invariant *)

(** Where the [struct lst] of page [i] lies. *)
Definition page_node (b i : Z) : Z := b + i * 4096 + PHYSICAL_OFFSET.
(** The first page after the bitmap. *)
Definition first_page (s : phys) : Z := (alloc_size s - 1) / 4096 + 1.

Section phys_proofs.
Context (free_lst : Z) (spins : nat) (c : Z).
(** [free_lst] is a static of the kernel image, not a page of the direct mapping. *)
Context (Hfree : 0 < free_lst ∧ ¬ (PHYSICAL_OFFSET ≤ free_lst < PHYSICAL_OFFSET + 2 ^ 39)).

(** [pc] pages are managed, those of index in [fr] are free. *)
Record phys_ok (pc : Z) (fr : list Z) (s : phys) : Prop := mk_phys_ok {
  ok_base : base s mod 4096 = 0 ∧ 0 < base s;
  ok_end : base s + pc * 4096 ≤ 2 ^ 39;
  ok_size : 0 < pc ∧ alloc_size s = (pc - 1) / 8 + 1;
  ok_list : holds (flst s) free_lst (page_node (base s) <$> fr);
  ok_nodup : NoDup fr;
  ok_range : Forall (λ i, first_page s ≤ i < pc) fr;
  ok_bits : bm (alloc s) (alloc_size s) (λ i, bool_decide (i ∉ fr));
  ok_lock : held (psl s).2 = 0;
  ok_cpu : ∃ k n, (psl s).1 !! c = Some k ∧ nest c n k ∧ 0 ≤ n < 2 ^ 32 - 1;
}.

Lemma ok_bit_range pc fr s i : phys_ok pc fr s → 0 ≤ i < pc → 0 ≤ i < 8 * alloc_size s.
Proof.
  intros Ho Hi. destruct (ok_size _ _ _ Ho) as [_ ->]. pose proof (Z.div_mod (pc - 1) 8).
  pose proof (Z.mod_pos_bound (pc - 1) 8 eq_refl). lia.
Qed.

Lemma first_page_pos pc fr s : phys_ok pc fr s → 0 < first_page s.
Proof.
  intros Ho. unfold first_page. destruct (ok_size _ _ _ Ho) as [Hp ->].
  assert (0 ≤ (pc - 1) / 8) by (apply Z.div_pos; lia).
  assert (0 ≤ ((pc - 1) / 8 + 1 - 1) / 4096) by (apply Z.div_pos; lia). lia.
Qed.

Lemma ok_free_bounds pc fr s i : phys_ok pc fr s → i ∈ fr → 0 ≤ i < pc.
Proof.
  intros Ho Hi. pose proof (first_page_pos _ _ _ Ho).
  pose proof (proj1 (Forall_forall _ _) (ok_range _ _ _ Ho) i Hi) as Hr. simpl in Hr. lia.
Qed.

Lemma page_index_run pc fr s i o s' :
  phys_ok pc fr s → 0 ≤ i < pc → 0 ≤ o < 4096 → base s' = base s →
  page_index (base s + i * 4096 + o) s' = Done (i, s').
Proof.
  intros Ho Hi Hoff Hbs. destruct (ok_base _ _ _ Ho) as [Hb Hb0]. pose proof (ok_end _ _ _ Ho).
  unfold page_index. rewrite PAGE_START_in_page; unfold u64p; try lia.
  2:{ by rewrite mod_page_add. }
  step. rewrite Hbs. unfold mret, M_ret. repeat f_equal. rewrite w64_small by lia.
  replace (base s + i * 4096 - base s) with (i * PAGE_SIZE) by (unfold PAGE_SIZE; lia).
  apply Z.div_mul. done.
Qed.

(** Taking and giving back the allocator's lock around [m]. *)
Lemma acquire_psl s k :
  (psl s).1 !! c = Some k → held (psl s).2 = 0 →
  on_psl (acquire (S spins) c) s
  = Done (tt, mk_phys (base s) (alloc s) (alloc_size s) (flst s)
           (<[c := pushed c k]> (psl s).1, mk_lock 1 c (lk_name (psl s).2))).
Proof.
  intros E Hl. unfold on_psl, zoom. destruct (psl s) as [st l] eqn:Es. simpl in *.
  by rewrite (acquire_free_run _ _ _ k).
Qed.

Lemma release_psl b al sz f st k n l nm :
  st !! c = Some k → nest c n k → 0 ≤ n < 2 ^ 32 - 1 →
  on_psl (release c) (mk_phys b al sz f (<[c := pushed c k]> st, mk_lock 1 l nm))
  = Done (tt, mk_phys b al sz f (st, mk_lock 0 0 nm)).
Proof.
  intros E Hn Hr. unfold on_psl, zoom. simpl. by rewrite (locked_release_run _ n).
Qed.

Lemma on_flst_run {A} (m : LST A) (a : A) f f' b al sz p :
  m f = Done (a, f') → on_flst m (mk_phys b al sz f p) = Done (a, mk_phys b al sz f' p).
Proof. intros E. unfold on_flst, zoom. simpl. by rewrite E. Qed.

Lemma kalloc_empty_run pc s :
  phys_ok pc [] s → ∃ s', kalloc_page free_lst spins c s = Done (0, s') ∧ phys_ok pc [] s' ∧
    base s' = base s ∧ alloc_size s' = alloc_size s.
Proof.
  intros Ho. destruct (ok_cpu _ _ _ Ho) as (k & n & Hk & Hn & Hr). eexists. split.
  - unfold kalloc_page. rewrite (bind_done _ _ _ _ _ (acquire_psl s k Hk (ok_lock _ _ _ Ho))).
    erewrite bind_done by (by eapply on_flst_run, lst_empty_spec, (ok_list _ _ _ Ho)).
    cbv beta. simpl. by erewrite bind_done by by eapply release_psl.
  - destruct Ho as [??????? Hl Hc]. split; [|by simpl].
    split; simpl; eauto.
Qed.

Lemma kalloc_run pc s i fr :
  phys_ok pc (i :: fr) s →
  ∃ s', kalloc_page free_lst spins c s = Done (base s + i * 4096, s') ∧ phys_ok pc fr s' ∧
    base s' = base s ∧ alloc_size s' = alloc_size s.
Proof.
  intros Ho. destruct (ok_cpu _ _ _ Ho) as (k & n & Hk & Hn & Hr).
  pose proof (ok_list _ _ _ Ho) as Hl. rewrite fmap_cons in Hl.
  assert (0 ≤ i < pc) as Hi by (eapply ok_free_bounds; [done|by left]).
  destruct (lst_pop_spec _ _ _ _ Hl) as (f' & Hpop & Hl').
  pose proof (ok_end _ _ _ Ho). destruct (ok_base _ _ _ Ho) as [Hb Hb0].
  set (s1 := mk_phys (base s) (alloc s) (alloc_size s) f'
    (<[c := pushed c k]> (psl s).1, mk_lock 1 c (lk_name (psl s).2))).
  destruct (bit_set_run s1 (alloc_size s) _ i (ok_bits _ _ _ Ho)) as (al & Hset & Hal).
  { by eapply ok_bit_range. }
  eexists. split.
  - unfold kalloc_page. rewrite (bind_done _ _ _ _ _ (acquire_psl s k Hk (ok_lock _ _ _ Ho))).
    erewrite bind_done by (by eapply on_flst_run, lst_empty_spec, Hl). cbv beta. simpl.
    erewrite bind_done by (by eapply on_flst_run, Hpop). cbv beta. unfold page_node.
    rewrite w64_small by (unfold PHYSICAL_OFFSET; lia).
    replace (base s + i * 4096 + PHYSICAL_OFFSET - PHYSICAL_OFFSET) with (base s + i * 4096 + 0) by lia.
    erewrite bind_done by (by apply (page_index_run pc (i :: fr) s i 0); try done).
    cbv beta. fold s1. rewrite (bind_done _ _ _ _ _ Hset).
    erewrite bind_done by by eapply release_psl. by rewrite Z.add_0_r.
  - pose proof (ok_nodup _ _ _ Ho) as [Hni Hnd]%NoDup_cons.
    pose proof (ok_range _ _ _ Ho) as [_ Hrng]%Forall_cons.
    destruct Ho as [?? ??????]. split; [|by simpl]. split; simpl; try done.
    eapply bm_ext; [exact Hal|]. intros j Hj. cbv beta.
    destruct (decide (j = i)) as [->|Hne]; [by rewrite bool_decide_true|].
    apply bool_decide_ext. rewrite not_elem_of_cons. tauto.
Qed.

Lemma page_node_inj b i j : page_node b i = page_node b j → i = j.
Proof. unfold page_node. lia. Qed.

Lemma page_node_fresh pc fr s i :
  phys_ok pc fr s → 0 ≤ i < pc → i ∉ fr → page_node (base s) i ∉ free_lst :: (page_node (base s) <$> fr).
Proof.
  intros Ho Hi Hn. pose proof (ok_end _ _ _ Ho). destruct (ok_base _ _ _ Ho) as [_ Hb].
  intros [E|E]%elem_of_cons.
  - unfold page_node in E. lia.
  - apply list_elem_of_fmap in E as (j & E%page_node_inj & Hj). by subst.
Qed.

Lemma page_in pc fr s i o :
  phys_ok pc fr s → 0 ≤ i < pc → 0 ≤ o < 4096 →
  PAGE_START (base s + i * 4096 + o) PAGE_SIZE = base s + i * 4096.
Proof.
  intros Ho Hi Hoff. destruct (ok_base _ _ _ Ho) as [Hb Hb0]. pose proof (ok_end _ _ _ Ho).
  apply PAGE_START_in_page; unfold u64p; try lia. by rewrite mod_page_add.
Qed.

Lemma kfree_free_run pc fr s i o :
  phys_ok pc fr s → i ∈ fr → 0 ≤ o < 4096 →
  kfree_page free_lst spins c (base s + i * 4096 + o) s = Done (tt, s).
Proof.
  intros Ho Hi Hoff. assert (0 ≤ i < pc) as Hr by by eapply ok_free_bounds.
  unfold kfree_page. rewrite (page_in pc fr) by done.
  rewrite <- (Z.add_0_r (base s + i * 4096)).
  erewrite bind_done by (apply (page_index_run pc fr s i 0); done || lia). cbv beta.
  erewrite bind_done.
  2:{ eapply bit_isset_run; [apply (ok_bits _ _ _ Ho)|by eapply ok_bit_range]. }
  cbv beta. by rewrite bool_decide_false by tauto.
Qed.

Lemma kfree_run pc fr s i o :
  phys_ok pc fr s → i ∉ fr → first_page s ≤ i < pc → 0 ≤ o < 4096 →
  ∃ s', kfree_page free_lst spins c (base s + i * 4096 + o) s = Done (tt, s') ∧
    phys_ok pc (i :: fr) s' ∧ base s' = base s ∧ alloc_size s' = alloc_size s.
Proof.
  intros Ho Hni Hir Hoff. pose proof (first_page_pos _ _ _ Ho). assert (0 ≤ i < pc) as Hr by lia.
  destruct (ok_cpu _ _ _ Ho) as (k & n & Hk & Hn & Hrn).
  pose proof (ok_end _ _ _ Ho). destruct (ok_base _ _ _ Ho) as [Hb Hb0].
  destruct (lst_push_spec _ _ _ (page_node (base s) i) (ok_list _ _ _ Ho)) as (f' & Hpush & Hl').
  { by eapply page_node_fresh. }
  { unfold page_node, PHYSICAL_OFFSET. lia. }
  set (s1 := mk_phys (base s) (alloc s) (alloc_size s) f'
    (<[c := pushed c k]> (psl s).1, mk_lock 1 c (lk_name (psl s).2))).
  destruct (bit_clear_run s1 (alloc_size s) _ i (ok_bits _ _ _ Ho)) as (al & Hclr & Hal).
  { by eapply ok_bit_range. }
  eexists. split.
  - unfold kfree_page. rewrite (page_in pc fr) by done.
    erewrite bind_done.
    2:{ rewrite <- (Z.add_0_r (base s + i * 4096)). apply (page_index_run pc fr s i 0); done || lia. }
    cbv beta. erewrite bind_done.
    2:{ eapply bit_isset_run; [apply (ok_bits _ _ _ Ho)|by eapply ok_bit_range]. }
    cbv beta. rewrite bool_decide_true by done. cbn [negb].
    rewrite (bind_done _ _ _ _ _ (acquire_psl s k Hk (ok_lock _ _ _ Ho))).
    rewrite w64_small by (unfold PHYSICAL_OFFSET; lia).
    erewrite bind_done by (by eapply on_flst_run, Hpush). cbv beta. fold s1.
    rewrite (bind_done _ _ _ _ _ Hclr). by eapply release_psl.
  - destruct Ho as [? ? ? ? Hnd Hrg ? ? ?]. split; [|by simpl]. split; simpl; try done.
    + by apply NoDup_cons.
    + by apply Forall_cons.
    + eapply bm_ext; [exact Hal|]. intros j Hj. cbv beta.
      destruct (decide (j = i)) as [->|Hne].
      * rewrite bool_decide_false; [done|]. intros Hx. apply Hx. by left.
      * apply bool_decide_ext. rewrite not_elem_of_cons. tauto.
Qed.

(** [kfree(0)]: the number of the page wraps around, and the bitmap is read
    far behind its end. *)
Lemma kfree_null_faults pc fr s : phys_ok pc fr s → kfree_page free_lst spins c 0 s = Fault.
Proof.
  intros Ho. destruct (ok_base _ _ _ Ho) as [Hb Hb0]. pose proof (ok_end _ _ _ Ho) as He. destruct (ok_size _ _ _ Ho) as [Hp Hsz].
  unfold kfree_page, page_index. change (PAGE_START (PAGE_START 0 PAGE_SIZE) PAGE_SIZE) with 0. rewrite bind_assoc. step. step.
  apply bind_fault, bind_fault, (getf_none (λ s, alloc s !! _)), (ok_bits _ _ _ Ho). rewrite Hsz.
  assert (w64 (0 - base s) = 2 ^ 64 - base s) as -> by (symmetry; apply (Z.mod_unique _ _ (-1)); cbn; lia).
  unfold PAGE_SIZE. rewrite Z.div_div by lia. assert ((pc - 1) / 8 < 2 ^ 27) by (apply Z.div_lt_upper_bound; lia).
  assert (2 ^ 27 ≤ (2 ^ 64 - base s) / (4096 * 8)) by (apply Z.div_le_lower_bound; lia). lia.
Qed.

(** ** Initialisation *)

Lemma push_range_run k i s b fr pcount :
  base s = b → holds (flst s) free_lst (page_node b <$> fr) → 0 ≤ i →
  Forall (λ j, j < i) fr → i + Z.of_nat k ≤ pcount → 0 < b → b + pcount * 4096 ≤ 2 ^ 39 →
  ∃ f', for_u64 k i (λ i,
      on_flst (lst_push_end free_lst (w64 (b + i * PAGE_SIZE + PHYSICAL_OFFSET)))) s
    = Done (tt, mk_phys b (alloc s) (alloc_size s) f' (psl s)) ∧
    holds f' free_lst (page_node b <$> fr ++ seqZ i (Z.of_nat k)).
Proof.
  intros Hbs Hh Hi Hlt Hle Hb He. revert i s fr Hbs Hh Hi Hlt Hle.
  induction k as [|k IH]; intros i s fr Hbs Hh Hi Hlt Hle.
  { exists (flst s). rewrite app_nil_r. split; [|done]. subst b. by destruct s. }
  cbn [for_u64]. destruct s as [b0 al sz f p]. simpl in *. subst b0.
  assert (w64 (b + i * PAGE_SIZE + PHYSICAL_OFFSET) = page_node b i) as ->.
  { apply w64_small. unfold page_node, PAGE_SIZE, PHYSICAL_OFFSET. lia. }
  destruct (lst_push_end_spec f free_lst _ (page_node b i) Hh) as (f1 & E1 & Hh1).
  { intros [E|E]%elem_of_cons; [unfold page_node, PHYSICAL_OFFSET in *; lia|].
    apply list_elem_of_fmap in E as (j & E%page_node_inj & Hj). subst j.
    rewrite Forall_forall in Hlt. specialize (Hlt i Hj). lia. }
  { unfold page_node, PHYSICAL_OFFSET. lia. }
  rewrite (bind_done _ _ _ _ _ (on_flst_run _ _ _ _ b al sz p E1)).
  destruct (IH (i + 1) (mk_phys b al sz f1 p) (fr ++ [i])) as (f' & E & Hh'); try done; try lia.
  { by rewrite fmap_app. }
  { apply Forall_app. split; [|constructor; [lia|done]]. eapply Forall_impl; [done|].
    simpl. intros. lia. }
  exists f'. split; [exact E|]. rewrite seqZ_cons by lia.
  replace (Z.pred (Z.of_nat (S k))) with (Z.of_nat k) by lia.
  replace (Z.succ i) with (i + 1) by lia. by rewrite <- app_assoc in Hh'.
Qed.

(** The lock is free and the running CPU's entry is sound. *)
Definition cpu_ready (s : phys) : Prop :=
  held (psl s).2 = 0 ∧ ∃ k n, (psl s).1 !! c = Some k ∧ nest c n k ∧ 0 ≤ n < 2 ^ 32 - 1.

(** The bitmap of [pc] pages fits in the first of them. *)
Lemma bitmap_pages pc :
  0 < pc → 0 < ((pc - 1) / 8 + 1 - 1) / 4096 + 1 ≤ pc ∧ pc ≤ 8 * ((pc - 1) / 8 + 1).
Proof.
  intros Hp. replace ((pc - 1) / 8 + 1 - 1) with ((pc - 1) / 8) by lia.
  rewrite Z.div_div by lia. pose proof (Z.div_mod (pc - 1) 8).
  pose proof (Z.mod_pos_bound (pc - 1) 8 eq_refl).
  assert (0 ≤ (pc - 1) / (8 * 4096)) by (apply Z.div_pos; lia).
  assert ((pc - 1) / (8 * 4096) ≤ pc - 1) by (apply Z.div_le_upper_bound; lia). lia.
Qed.

Lemma page_index_gen b o s :
  base s = b → b mod 4096 = 0 → 0 ≤ b → 0 ≤ o → b + o + 4096 ≤ 2 ^ 64 →
  page_index (b + o) s = Done (o / 4096, s).
Proof.
  intros Hbs Hb Hb0 Ho Hw. unfold page_index. step. unfold mret, M_ret. do 2 f_equal.
  rewrite PAGE_START_eq by (unfold u64p; lia). rewrite Hbs.
  replace ((b + o) mod 4096) with (o mod 4096)
    by (rewrite Z.add_mod, Hb, Z.add_0_l, Z.mod_mod by lia; done).
  pose proof (Z.div_mod o 4096). pose proof (Z.mod_pos_bound o 4096 eq_refl).
  assert (0 ≤ o / 4096) by (apply Z.div_pos; lia). rewrite w64_small by lia.
  replace (b + o - o mod 4096 - b) with (o / 4096 * PAGE_SIZE) by (unfold PAGE_SIZE; lia).
  by apply Z.div_mul.
Qed.

(** The allocator right after initialisation: the pages behind the bitmap. *)
Definition initial_pages (pc : Z) : list Z :=
  let index := ((pc - 1) / 8 + 1 - 1) / 4096 + 1 in seqZ index (pc - index).

Lemma init_phys_run ram s :
  let pc := ram_size ram / 4096 in
  let b := ram_start ram - ram_start ram mod 4096 + 4096 in
  0 ≤ ram_start ram → 0 < pc → b + pc * 4096 ≤ 2 ^ 39 → cpu_ready s →
  ∃ s', init_phys_allocator free_lst ram s = Done (tt, s') ∧
    phys_ok pc (initial_pages pc) s' ∧ base s' = b.
Proof.
  intros pc b Hst Hpc He [Hlk Hcpu]. pose proof (bitmap_pages pc Hpc) as [Hix Hsz].
  set (asz := (pc - 1) / 8 + 1) in *. set (index := (asz - 1) / 4096 + 1) in *.
  pose proof (Z.mod_pos_bound (ram_start ram) 4096 eq_refl) as Hm.
  assert (Hasz : 0 < asz ≤ pc).
  { unfold asz. split; [pose proof (Z.div_pos (pc - 1) 8); lia|].
    pose proof (Z.div_le_upper_bound (pc - 1) 8 (pc - 1)). lia. }
  assert (Hb0 : 0 < b) by (unfold b; pose proof (Z.mod_le (ram_start ram) 4096); lia).
  assert (Hbm : b mod 4096 = 0).
  { unfold b. rewrite <- (mod_page_add _ (-1)). 
    replace (_ + -1 * 4096) with (ram_start ram - ram_start ram mod 4096) by lia.
    rewrite Zminus_mod_idemp_r, Z.sub_diag. done. }
  destruct (lst_init_spec (flst s) free_lst) as (f0 & Ef0 & Hf0); [lia|].
  destruct s as [b0 al0 sz0 f p]. simpl in *.
  destruct (set_range_run (Z.to_nat index) 0 (mk_phys b (zero_bytes asz) asz f0 p) asz _
    (bm_zero asz)) as (al1 & E1 & Hal1); [lia..|].
  destruct (push_range_run (Z.to_nat (pc - index)) index (mk_phys b al1 asz f0 p) b [] pc)
    as (f1 & E2 & Hf1); try done; try lia.
  rewrite Z2Nat.id in Hf1 by lia.
  destruct (set_range_run (Z.to_nat (asz * 8 - pc)) pc (mk_phys b al1 asz f1 p) asz _ Hal1)
    as (al2 & E3 & Hal2); [lia..|].
  eexists. split.
  - unfold init_phys_allocator. rewrite (bind_done _ _ _ _ _ (on_flst_run _ _ _ _ b0 al0 sz0 p Ef0)).
    unfold set_base. step. simpl.
    assert (w64 (PAGE_END (ram_start ram) PAGE_SIZE + 1) = b) as ->.
    { rewrite PAGE_END_eq by (unfold u64p; lia). rewrite w64_small; unfold b; lia. }
    change (ram_size ram / PAGE_SIZE) with pc. rewrite decide_False by lia.
    change ((pc - 1) / 8 + 1) with asz. unfold set_alloc_size, set_alloc. do 3 step. simpl.
    rewrite (w64_small (b + asz - 1)) by lia. replace (b + asz - 1) with (b + (asz - 1)) by lia.
    erewrite bind_done by (apply page_index_gen; [done|done|lia..]). cbv beta.
    rewrite (w64_small (_ + 1)) by (fold index; lia). fold index.
    unfold for_range. rewrite Z.sub_0_r. rewrite (bind_done _ _ _ _ _ E1). simpl.
    rewrite (bind_done _ _ _ _ _ E2). rewrite w64_small by lia.
    rewrite Z.max_r by lia. exact E3.
  - split; [|done]. split; simpl; try done; try (split; lia).
    + apply NoDup_seqZ.
    + apply Forall_forall. unfold initial_pages. fold asz index.
      intros i Hi%elem_of_seqZ. unfold first_page. simpl. fold index. lia.
    + eapply bm_ext; [exact Hal2|]. intros i Hi. cbv beta. unfold initial_pages. fold asz index.
      rewrite orb_false_r, <- !bool_decide_or. apply bool_decide_ext. rewrite elem_of_seqZ. lia.
Qed.

(** ** Refinement of a stack of free pages *)

Inductive pop := Kalloc | Kfree (page : Z).

Definition phys_exec (op : pop) : PA Z :=
  match op with
  | Kalloc => kalloc_page free_lst spins c
  | Kfree page => kfree_page free_lst spins c page;; mret 0
  end.

(** The specification, on the base address and the indices of free pages. *)
Definition stack_spec (b : Z) (op : pop) (fr : list Z) : Z * list Z :=
  match op with
  | Kalloc => match fr with [] => (0, []) | i :: fr => (b + i * 4096, fr) end
  | Kfree page =>
      let i := (page - b) / 4096 in (0, if decide (i ∈ fr) then fr else i :: fr)
  end.

(** [Kfree] is given an address inside a managed page. *)
Definition pop_valid (b lo hi : Z) (op : pop) : Prop :=
  match op with
  | Kalloc => True
  | Kfree page => lo ≤ (page - b) / 4096 < hi
  end.

Lemma phys_exec_spec pc fr s op :
  phys_ok pc fr s → pop_valid (base s) (first_page s) pc op →
  ∃ s', phys_exec op s = Done ((stack_spec (base s) op fr).1, s') ∧
    phys_ok pc (stack_spec (base s) op fr).2 s' ∧ base s' = base s ∧ first_page s' = first_page s.
Proof.
  intros Ho Hv. unfold first_page. destruct op as [|page]; simpl.
  - destruct fr as [|i fr].
    + destruct (kalloc_empty_run pc s Ho) as (s' & E & Ho' & Hb & Hs). exists s'. by rewrite Hs.
    + destruct (kalloc_run pc s i fr Ho) as (s' & E & Ho' & Hb & Hs). exists s'. by rewrite Hs.
  - set (i := (page - base s) / 4096) in *. simpl in Hv. fold i in Hv.
    pose proof (Z.div_mod (page - base s) 4096). fold i in H.
    pose proof (Z.mod_pos_bound (page - base s) 4096 eq_refl) as Hm.
    replace page with (base s + i * 4096 + (page - base s) mod 4096) by lia.
    case_decide as Hi.
    + exists s. by erewrite bind_done by by eapply kfree_free_run.
    + destruct (kfree_run pc fr s i _ Ho Hi Hv Hm) as (s' & E & Ho' & Hb & Hs).
      exists s'. rewrite (bind_done _ _ _ _ _ E). by rewrite Hs.
Qed.

(** Runs of operations with their results. *)
Fixpoint phys_run (ops : list pop) : PA (list Z) :=
  match ops with
  | [] => mret []
  | op :: ops => r ← phys_exec op; rs ← phys_run ops; mret (r :: rs)
  end.

Fixpoint stack_run (b : Z) (ops : list pop) (fr : list Z) : list Z * list Z :=
  match ops with
  | [] => ([], fr)
  | op :: ops =>
      let '(r, fr1) := stack_spec b op fr in
      let '(rs, fr2) := stack_run b ops fr1 in (r :: rs, fr2)
  end.

Lemma phys_run_spec pc ops fr s :
  phys_ok pc fr s → Forall (pop_valid (base s) (first_page s) pc) ops →
  ∃ s', phys_run ops s = Done ((stack_run (base s) ops fr).1, s') ∧
    phys_ok pc (stack_run (base s) ops fr).2 s'.
Proof.
  revert fr s. induction ops as [|op ops IH]; intros fr s Ho Hv; simpl; [by exists s|].
  apply Forall_cons in Hv as [Hv1 Hv].
  destruct (phys_exec_spec pc fr s op Ho Hv1) as (s1 & E1 & Ho1 & Hb1 & Hf1).
  destruct (stack_spec (base s) op fr) as [r fr1] eqn:Es. simpl in *.
  rewrite (bind_done _ _ _ _ _ E1). destruct (IH fr1 s1 Ho1) as (s2 & E2 & Ho2).
  { by rewrite Hb1, Hf1. }
  rewrite Hb1 in *. rewrite (bind_done _ _ _ _ _ E2).
  destruct (stack_run (base s) ops fr1) as [rs fr2]. by exists s2.
Qed.

(** C9: the page allocator refines a stack of free pages.  After
    [init_phys_allocator] on a region, any sequence of [kalloc] and [kfree]
    calls (on addresses inside managed pages) returns what the stack returns:
    [kalloc] pops a page, or 0 when there is none, [kfree] pushes the page
    unless it is free already, and the bitmap, the list and the lock agree
    with the stack at every moment. *)
Theorem phys_allocator_refines_stack ram ops s :
  let pc := ram_size ram / 4096 in
  let b := ram_start ram - ram_start ram mod 4096 + 4096 in
  0 ≤ ram_start ram → 0 < pc → b + pc * 4096 ≤ 2 ^ 39 → cpu_ready s →
  Forall (pop_valid b (((pc - 1) / 8 + 1 - 1) / 4096 + 1) pc) ops →
  ∃ s', (init_phys_allocator free_lst ram;; phys_run ops) s
        = Done ((stack_run b ops (initial_pages pc)).1, s') ∧
    phys_ok pc (stack_run b ops (initial_pages pc)).2 s'.
Proof.
  intros pc b Hs Hp He Hr Hv. destruct (init_phys_run ram s Hs Hp He Hr) as (s1 & E & Ho & Hb).
  rewrite (bind_done _ _ _ _ _ E). fold b in Hb. rewrite <- Hb.
  apply phys_run_spec; [done|]. unfold first_page. destruct (ok_size _ _ _ Ho) as [_ ->].
  by rewrite Hb.
Qed.

(** The last page put on the free list lies past the end of the region.
    The base is rounded up by a page even when the region starts on a page
    boundary (as [kvminit] passes it), but the page count is not reduced: when
    every page is handed out, the last one starts inside no page of the
    region and ends after [start + size]. *)
Lemma last_page_outside_ram ram s :
  let pc := ram_size ram / 4096 in
  ram_start ram mod 4096 = 0 → 0 ≤ ram_start ram → 1 < pc →
  ram_start ram + 4096 + pc * 4096 ≤ 2 ^ 39 → cpu_ready s →
  ∃ s' i, init_phys_allocator free_lst ram s = Done (tt, s') ∧
    phys_ok pc (initial_pages pc) s' ∧ i ∈ initial_pages pc ∧
    ram_start ram + ram_size ram < base s' + i * 4096 + 4096.
Proof.
  intros pc Hal Hs Hp He Hr.
  destruct (init_phys_run ram s Hs) as (s' & E & Ho & Hb); fold pc; [lia|lia|done|].
  exists s', (pc - 1). split_and!; try done.
  - unfold initial_pages. apply elem_of_seqZ.
    replace ((pc - 1) / 8 + 1 - 1) with ((pc - 1) / 8) by lia. rewrite Z.div_div by lia.
    assert ((pc - 1) / (8 * 4096) < pc - 1) by (apply Z.div_lt_upper_bound; lia). lia.
  - rewrite Hb, Hal. pose proof (Z.div_mod (ram_size ram) 4096).
    pose proof (Z.mod_pos_bound (ram_size ram) 4096 eq_refl). subst pc. lia.
Qed.

(** The state, with what initialisation fixed, that the interface talks about. *)
#[export] Instance phys_page_allocator : PageAllocator (phys * list Z) := {|
  kalloc := λ '(s, fr),
    match kalloc_page free_lst spins c s with
    | Done (a, s') => Done (a, (s', (stack_spec (base s) Kalloc fr).2))
    | Panic => Panic | Fault => Fault | OutOfFuel => OutOfFuel
    end;
  kfree := λ p '(s, fr),
    match kfree_page free_lst spins c p s with
    | Done (a, s') => Done (a, (s', (stack_spec (base s) (Kfree p) fr).2))
    | Panic => Panic | Fault => Fault | OutOfFuel => OutOfFuel
    end;
  free_pages := λ '(s, fr), (λ i, base s + i * 4096) <$> fr;
|}.

Definition phys_managed (pc : Z) (s : phys * list Z) (a : Z) : Prop :=
  ∃ i, first_page s.1 ≤ i < pc ∧ a = base s.1 + i * 4096.

(** The allocator meets the contract its clients rely on. *)
#[export] Instance phys_laws pc :
  PageAllocatorLaws (phys * list Z) (λ s, phys_ok pc s.2 s.1) (phys_managed pc).
Proof.
  split.
  - intros [s fr] Ho. simpl in *. split_and!.
    + apply NoDup_fmap_2; [intros ???; lia|apply (ok_nodup _ _ _ Ho)].
    + apply Forall_forall. intros a (i & -> & Hi)%list_elem_of_fmap.
      destruct (ok_base _ _ _ Ho) as [Hb Hb0]. pose proof (ok_end _ _ _ Ho).
      pose proof (ok_free_bounds _ _ _ i Ho Hi). split; [by rewrite mod_page_add|lia].
    + apply Forall_forall. intros a (i & -> & Hi)%list_elem_of_fmap. exists i. split; [|done].
      by apply (proj1 (Forall_forall _ _) (ok_range _ _ _ Ho)).
  - intros [s fr] Ho E. simpl in *. apply fmap_nil_inv in E as ->.
    destruct (kalloc_empty_run pc s Ho) as (s' & E & Ho' & Hb & Hs). rewrite E.
    eexists. split_and!; [done|done|done|].
    intros a. unfold phys_managed, first_page. simpl. by rewrite Hb, Hs.
  - intros [s fr] x l Ho E. simpl in *. apply fmap_cons_inv in E as (i & fr' & -> & -> & ->).
    destruct (kalloc_run pc s i fr' Ho) as (s' & E & Ho' & Hb & Hs). rewrite E.
    eexists. split_and!; [done|done|simpl; by rewrite Hb|].
    intros a. unfold phys_managed, first_page. simpl. by rewrite Hb, Hs.
  - intros [s fr] x Ho (i & Hi & ->) Hx. simpl in *.
    assert (i ∉ fr) as Hni by (intros Hin; apply Hx, list_elem_of_fmap; eauto).
    destruct (kfree_run pc fr s i 0 Ho Hni Hi) as (s' & E & Ho' & Hb & Hs); [lia|].
    rewrite Z.add_0_r in E. rewrite E.
    replace (base s + i * 4096 - base s) with (i * 4096) by lia. rewrite Z.div_mul by lia.
    rewrite decide_False by done.
    eexists. split_and!; [done|done|simpl; by rewrite Hb|].
    intros a. unfold phys_managed, first_page. simpl. by rewrite Hb, Hs.
  - intros [s fr] x Ho (i & -> & Hi)%list_elem_of_fmap. simpl in *.
    pose proof (kfree_free_run pc fr s i 0 Ho Hi) as E. rewrite Z.add_0_r in E.
    rewrite E by lia. replace (base s + i * 4096 - base s) with (i * 4096) by lia.
    rewrite Z.div_mul by lia. by rewrite decide_True.
Qed.
End phys_proofs.

Definition ex_phys : phys :=
  mk_phys 0 ∅ 0 (mk_lst ∅ ∅) (ex_cpus, mk_lock 0 0 (Some "Physical Allocator"%string)).

Lemma ex_phys_ready : cpu_ready 1 ex_phys.
Proof. split; [done|]. exists (mk_cpu 1 0 1 0 0 true), 0. by repeat split. Qed.

Definition ex_ops : list pop := [Kalloc; Kalloc; Kfree 0x202010; Kfree 0x202000; Kalloc; Kalloc; Kalloc].

Definition ex_ram : ram_area := mk_ram 0x200000 0x4000.

Lemma ex_stack : stack_run 0x201000 ex_ops (initial_pages 4)
  = ([0x202000; 0x203000; 0; 0; 0x202000; 0x204000; 0], []).
Proof. vm_compute. reflexivity. Qed.

Lemma ex_static : 0 < 64 ∧ ¬ (PHYSICAL_OFFSET ≤ 64 < PHYSICAL_OFFSET + 2 ^ 39).
Proof. unfold PHYSICAL_OFFSET. lia. Qed.

Lemma phys_allocator_refines_stack_witness :
  let pc := ram_size ex_ram / 4096 in
  let b := ram_start ex_ram - ram_start ex_ram mod 4096 + 4096 in
  ∃ s', (init_phys_allocator 64 ex_ram;; phys_run 64 0 1 ex_ops) ex_phys
        = Done ((stack_run b ex_ops (initial_pages pc)).1, s') ∧
    phys_ok 64 1 pc (stack_run b ex_ops (initial_pages pc)).2 s'.
Proof.
  refine (phys_allocator_refines_stack 64 0 1 ex_static ex_ram ex_ops ex_phys _ _ _ _ _).
  - by vm_compute.
  - by vm_compute.
  - by vm_compute.
  - apply ex_phys_ready.
  - repeat constructor; by vm_compute.
Defined.

Lemma last_page_outside_ram_witness :
  let pc := ram_size ex_ram / 4096 in
  ∃ s' i, init_phys_allocator 64 ex_ram ex_phys = Done (tt, s') ∧
    phys_ok 64 1 pc (initial_pages pc) s' ∧ i ∈ initial_pages pc ∧
    ram_start ex_ram + ram_size ex_ram < base s' + i * 4096 + 4096.
Proof.
  refine (last_page_outside_ram 64 1 ex_static ex_ram ex_phys _ _ _ _ ex_phys_ready); by vm_compute.
Defined.
