(* ===== verification/Vm.v ===== *)
(** * Page tables (arch/x86-64/memory/vm.c)

    Four-level page tables in physical memory, reached through the direct
    mapping at [PHYSICAL_OFFSET].  Memory is a store of 64-bit words; the page
    allocator is any implementation of the [PageAllocator] interface. *)
From S2P Require Import Prelude.
From S2P Require Import Interfaces.
From S2P Require Import Layout.

(** ** Table entries

    The unions [pml4e_t], [pdpte_t] and [pte_t] lay the same fields over the
    raw word. *)
Definition present (e : Z) : bool := Z.testbit e 0.
Definition page_size (e : Z) : bool := Z.testbit e 7.
(** [pdpt_addr], [pd_addr], [phys_addr]: bits 12 to 50. *)
Definition pd_addr (e : Z) : Z := Z.land (Z.shiftr e 12) (Z.ones 39).
(** Assignment to a one-bit field. *)
Definition set_bit (n : Z) (b : bool) (e : Z) : Z :=
  if b then Z.lor e (Z.shiftl 1 n) else Z.land e (Z.lnot (Z.shiftl 1 n)).
Definition set_present := set_bit 0.
Definition set_writable := set_bit 1.
Definition set_user_page := set_bit 2.
Definition set_page_size := set_bit 7.
Definition set_xd := set_bit 63.

Definition PAGE_FLAG_MASK : Z := 0x8000000000000006.
Definition MEMORY_FLAG_WRITE : Z := 1.
Definition MEMORY_FLAG_USER : Z := 2.
Definition MEMORY_FLAG_EXEC : Z := 4.

Definition vmflag_to_x86flag (nx : bool) (flag : Z) : Z :=
  let result := if nx && bool_decide (Z.land flag MEMORY_FLAG_EXEC = 0)
                then Z.lor 0 (Z.shiftl 1 63) else 0 in
  Z.lor result (w64 (Z.shiftl (Z.land flag (Z.lor MEMORY_FLAG_WRITE MEMORY_FLAG_USER)) 1)).

(** Memory words, the page allocator, and [kernel_status.nx_flag_enabled]. *)
Record vm (P : Type) := mk_vm { words : gmap Z Z; pages : P; nx_flag_enabled : bool }.
Arguments mk_vm {P}.
Arguments words {P}.
Arguments pages {P}.
Arguments nx_flag_enabled {P}.

Section vm.
Context {P : Type} `{!PageAllocator P}.
Abbreviation VM := (M (vm P)).

Definition rd (a : Z) : VM Z := getf (λ s, words s !! a).
Definition wr (a v : Z) : VM unit :=
  modifyf (λ s, match words s !! a with
                | Some _ => Some (mk_vm (<[a := v]> (words s)) (pages s) (nx_flag_enabled s))
                | None => None
                end).
Definition on_pages {A} : M P A → VM A :=
  zoom pages (λ v s, mk_vm (words s) v (nx_flag_enabled s)).

(** [memset(page, 0, PAGE_SIZE)] on a page of the direct mapping. *)
Definition zero_words (a : Z) : gmap Z Z :=
  list_to_map ((λ i, (a + 8 * Z.of_nat i, 0)) <$> seq 0 512).
Definition zero_page (a : Z) : VM unit :=
  modify (λ s, mk_vm (zero_words a ∪ words s) (pages s) (nx_flag_enabled s)).

(** The address of [table[index]]. *)
Definition entry_at (table index : Z) : Z := table +64 8 * index.

(** The loop of [walk] from a level down, and its final address. *)
Fixpoint walk_from (level : nat) (current_pt addr : Z) (alloc : bool) : VM Z :=
  match level with
  | O => mret (entry_at current_pt (VA2INDEX addr 0))
  | S l =>
      let entry := entry_at current_pt (VA2INDEX addr (Z.of_nat level)) in
      e ← rd entry;
      if present e then
        if page_size e then mret entry
        else walk_from l (w64 (Z.shiftl (pd_addr e) 12 + PHYSICAL_OFFSET)) addr alloc
      else if negb alloc then mret 0 else
        new_pt ← on_pages kalloc;
        if decide (new_pt = 0) then mret 0 else
        wr entry new_pt;;
        e ← rd entry; wr entry (set_present true e);;
        e ← rd entry; wr entry (set_writable true e);;
        e ← rd entry; wr entry (set_user_page true e);;
        let current_pt := new_pt +64 PHYSICAL_OFFSET in
        zero_page current_pt;;
        walk_from l current_pt addr alloc
  end.

Definition walk (pagetable va : Z) (alloc : bool) : VM Z := walk_from 3 pagetable va alloc.

(** [for (int i = 0; i < 512; i++)] of [freewalk], [n] entries left. *)
Fixpoint freewalk_entries (child : Z → VM unit) (leaf : bool) (table : Z) (n : nat) : VM unit :=
  match n with
  | O => mret tt
  | S n' =>
      e ← rd (entry_at table (512 - Z.of_nat n));
      (if negb (present e) then mret tt
       else if negb (page_size e) && negb leaf then
         let c := w64 (Z.shiftl (pd_addr e) 12) in
         child (c +64 PHYSICAL_OFFSET);;
         on_pages (kfree c)
       else panic);;
      freewalk_entries child leaf table n'
  end.
Fixpoint freewalk (level : nat) (table : Z) : VM unit :=
  match level with
  | O => freewalk_entries (λ _, mret tt) true table 512
  | S l => freewalk_entries (freewalk l) false table 512
  end.

(** The loop of [unmappages], from [current]. *)
Fixpoint unmap_loop (fuel : nat) (pagetable current till : Z) (free : bool) : VM unit :=
  if decide (current < till) then
    match fuel with
    | O => out_of_fuel
    | S fuel =>
        descriptor ← walk pagetable current false;
        (if decide (descriptor = 0) then mret tt else
           (if free then
              e ← rd descriptor; on_pages (kfree (w64 (Z.shiftl (pd_addr e) 12)))
            else mret tt);;
           e ← rd descriptor; wr descriptor (set_present false e));;
        unmap_loop fuel pagetable (current +64 PAGE_SIZE) till free
    end
  else mret tt.

(** Enough iterations for a loop that steps by pages from [a] up to [b]. *)
Definition page_fuel (a b : Z) : nat := Z.to_nat ((b - a) / PAGE_SIZE + 1).

Definition unmappages (pagetable va sz : Z) (free : bool) : VM Z :=
  let current := PAGE_START va PAGE_SIZE in
  let till := PAGE_END (w64 (va + sz - 1)) PAGE_SIZE in
  unmap_loop (page_fuel current till) pagetable current till free;;
  mret 0.

(** The loop of [mappages]; [va] is the argument, for the unwinding. *)
Fixpoint map_loop (fuel : nat) (pagetable va current current_pa till x86_flags : Z) : VM Z :=
  if decide (current < till) then
    match fuel with
    | O => out_of_fuel
    | S fuel =>
        descriptor ← walk pagetable current true;
        mapped ← (if decide (descriptor = 0) then mret true
                  else e ← rd descriptor; mret (present e));
        if (mapped : bool) then
          unmappages pagetable va (current -64 va) false;;
          mret (-1)
        else
          wr descriptor current_pa;;
          e ← rd descriptor; wr descriptor (Z.lor e x86_flags);;
          e ← rd descriptor; wr descriptor (set_present true e);;
          map_loop fuel pagetable va (current +64 PAGE_SIZE) (current_pa +64 PAGE_SIZE) till x86_flags
    end
  else mret 0.

Definition mappages (pagetable va sz pa flags : Z) : VM Z :=
  let current := PAGE_START va PAGE_SIZE in
  let current_pa := PAGE_START pa PAGE_SIZE in
  let till := PAGE_END (w64 (va + sz - 1)) PAGE_SIZE in
  nx ← gets nx_flag_enabled;
  map_loop (page_fuel current till) pagetable va current current_pa till (vmflag_to_x86flag nx flags).

Fixpoint update_loop (fuel : nat) (pagetable current till x86_flags : Z) : VM Z :=
  if decide (current < till) then
    match fuel with
    | O => out_of_fuel
    | S fuel =>
        descriptor ← walk pagetable current false;
        if decide (descriptor = 0) then mret 1 else
        e ← rd descriptor; wr descriptor (Z.land e (w64 (Z.lnot PAGE_FLAG_MASK)));;
        e ← rd descriptor; wr descriptor (Z.lor e x86_flags);;
        update_loop fuel pagetable (current +64 PAGE_SIZE) till x86_flags
    end
  else mret 0.

Definition updatepages (pagetable va sz flags : Z) : VM Z :=
  let current := PAGE_START va PAGE_SIZE in
  let till := PAGE_END (w64 (va + sz - 1)) PAGE_SIZE in
  nx ← gets nx_flag_enabled;
  update_loop (page_fuel current till) pagetable current till (vmflag_to_x86flag nx flags).

(** [map_higher_half], the loop over entries [i] to 511. *)
Fixpoint map_higher_loop (n : nat) (pagetable kernel_pml4 i : Z) : VM unit :=
  match n with
  | O => mret tt
  | S n =>
      e ← rd (entry_at kernel_pml4 i);
      wr (entry_at pagetable i) e;;
      map_higher_loop n pagetable kernel_pml4 (i + 1)
  end.
Definition map_higher_half (kernel_pml4 pt_addr : Z) : VM unit :=
  map_higher_loop 256 pt_addr kernel_pml4 256.
End vm.
