(* ===== verification/VmWalk.v ===== *)
(** * Well-formed page tables and [walk]

    A page table is described by the map [tabs] from the path of indices
    leading to a table to the address of that table ([[]] is the root, paths
    of length 3 lead to the tables of leaf entries).  [mapped] is the function
    from virtual addresses to present leaf entries that the tables implement. *)
From S2P Require Import Prelude.
From S2P Require Import Interfaces.
From S2P Require Import Layout.
From S2P Require Import Vm.

(** ** Facts on table entries *)

Lemma pd_addr_eq e : pd_addr e = (e / 4096) mod 2 ^ 39.
Proof. unfold pd_addr. by rewrite Z.land_ones, Z.shiftr_div_pow2 by lia. Qed.

Lemma page_low_bit x n : x mod 4096 = 0 → 0 ≤ n < 12 → Z.testbit x n = false.
Proof.
  intros Hx Hn. rewrite <- (Z.mod_pow2_bits_low x 12) by lia. change (2 ^ 12) with 4096.
  by rewrite Hx, Z.bits_0.
Qed.

(** The entry [walk] writes for a new table at page [x]. *)
Definition table_entry (x : Z) : Z := set_user_page true (set_writable true (set_present true x)).

Lemma table_entry_eq x : x mod 4096 = 0 → table_entry x = x + 7.
Proof.
  intros Hx. unfold table_entry, set_user_page, set_writable, set_present, set_bit.
  rewrite <- !Z.lor_assoc. change (Z.lor (Z.shiftl 1 0) (Z.lor (Z.shiftl 1 1) (Z.shiftl 1 2))) with 7.
  apply (lor_disjoint x 7 12); [lia|lia|done].
Qed.

Lemma table_entry_fields x :
  phys_page x → present (table_entry x) = true ∧ page_size (table_entry x) = false ∧
  pd_addr (table_entry x) = x / 4096 ∧ u64p (table_entry x).
Proof.
  intros [Hx Hr]. split_and!.
  - unfold present, table_entry, set_user_page, set_writable, set_present, set_bit.
    by rewrite !Z.lor_spec, (page_low_bit x 0) by (done || lia).
  - unfold page_size, table_entry, set_user_page, set_writable, set_present, set_bit.
    by rewrite !Z.lor_spec, (page_low_bit x 7) by (done || lia).
  - rewrite table_entry_eq, pd_addr_eq by done. lia_div.
  - rewrite table_entry_eq by done. unfold u64p. lia.
Qed.

Lemma u64_bits e : (∀ n, 64 ≤ n → Z.testbit e n = false) ↔ u64p e.
Proof.
  unfold u64p. split.
  - intros Hb. enough (e = e mod 2 ^ 64) as -> by (apply Z.mod_pos_bound; lia).
    apply Z.bits_inj'. intros n Hn. destruct (Z.lt_ge_cases n 64) as [Hl|Hl].
    + by rewrite Z.mod_pow2_bits_low.
    + rewrite Z.mod_pow2_bits_high by lia. by apply Hb.
  - intros He n Hn. rewrite <- (Z.mod_small e (2 ^ 64)) by done. apply Z.mod_pow2_bits_high. lia.
Qed.

Lemma lor_u64 a b : u64p a → u64p b → u64p (Z.lor a b).
Proof.
  rewrite <- !u64_bits. intros Ha Hb n Hn. by rewrite Z.lor_spec, Ha, Hb.
Qed.

Lemma land_u64 a b : u64p a → u64p (Z.land a b).
Proof. rewrite <- !u64_bits. intros Ha n Hn. by rewrite Z.land_spec, Ha. Qed.

Lemma set_bit_u64 n b e : 0 ≤ n < 64 → u64p e → u64p (set_bit n b e).
Proof.
  intros Hn He. unfold set_bit. destruct b; [|by apply land_u64]. apply lor_u64; [done|].
  rewrite Z.shiftl_1_l. split; [lia|]. apply Z.pow_lt_mono_r; lia.
Qed.

Lemma VA2INDEX_range va level : 0 ≤ level → 0 ≤ VA2INDEX va level < 512.
Proof. intros Hl. rewrite VA2INDEX_eq by done. lia_div. Qed.

(** ** Well-formedness *)

Definition is_table (a : Z) : Prop := a mod 4096 = 0 ∧ 0 < a ∧ a + 4096 ≤ 2 ^ 64.

Record pt_wf (w : gmap Z Z) (root : Z) (tabs : gmap (list Z) Z) : Prop := mk_wf {
  wf_root : tabs !! [] = Some root;
  wf_tab p a : tabs !! p = Some a → (length p ≤ 3)%nat ∧ is_table a;
  wf_words p a i : tabs !! p = Some a → 0 ≤ i < 512 →
    ∃ e, w !! (a + 8 * i) = Some e ∧ u64p e;
  wf_child p a i e b : tabs !! p = Some a → w !! (a + 8 * i) = Some e → tabs !! (p ++ [i]) = Some b →
    present e = true ∧ page_size e = false ∧ b = w64 (Z.shiftl (pd_addr e) 12 + PHYSICAL_OFFSET);
  wf_parent p i a : tabs !! (p ++ [i]) = Some a → is_Some (tabs !! p) ∧ 0 ≤ i < 512;
  wf_inj p q a : tabs !! p = Some a → tabs !! q = Some a → p = q;
}.

(** The indices of [va] from level [l] down to level 1. *)
Fixpoint path_from (va : Z) (l : nat) : list Z :=
  match l with
  | O => []
  | S l' => VA2INDEX va (Z.of_nat l) :: path_from va l'
  end.
Definition leaf_path (va : Z) : list Z := path_from va 3.

(** The leaf entry of [va], when its tables exist. *)
Definition leaf_addr (tabs : gmap (list Z) Z) (va : Z) : option Z :=
  (λ a, a + 8 * VA2INDEX va 0) <$> tabs !! leaf_path va.
Definition leaf (w : gmap Z Z) (tabs : gmap (list Z) Z) (va : Z) : option Z :=
  match leaf_addr tabs va with Some d => w !! d | None => None end.
(** What [va] is mapped to: its leaf entry when it is present. *)
Definition mapped (w : gmap Z Z) (tabs : gmap (list Z) Z) (va : Z) : option Z :=
  match leaf w tabs va with
  | Some e => if present e then Some e else None
  | None => None
  end.

#[global] Arguments zero_words : simpl never.
#[global] Arguments VA2INDEX : simpl never.
#[global] Arguments table_entry : simpl never.
#[global] Arguments entry_at : simpl never.

Lemma leaf_some w tabs va a :
  tabs !! leaf_path va = Some a → leaf w tabs va = w !! (a + 8 * VA2INDEX va 0).
Proof. unfold leaf, leaf_addr. by intros ->. Qed.

Lemma leaf_none w tabs va : tabs !! leaf_path va = None → leaf w tabs va = None.
Proof. unfold leaf, leaf_addr. by intros ->. Qed.

(** No entry on the way to [va] is a large page or leads to a table that is not
    one of [tabs]. *)
Definition no_big (w : gmap Z Z) (tabs : gmap (list Z) Z) (va : Z) : Prop :=
  ∀ q i r a e, leaf_path va = q ++ i :: r → tabs !! q = Some a → w !! (a + 8 * i) = Some e →
    present e = true → page_size e = false ∧ is_Some (tabs !! (q ++ [i])).

(** The entry [e] of the root is present. *)
Definition top_entry (w : gmap Z Z) (tabs : gmap (list Z) Z) (i e : Z) : Prop :=
  0 ≤ i < 512 ∧ present e = true ∧ ∃ r, tabs !! [] = Some r ∧ w !! (r + 8 * i) = Some e.

(** No large page or foreign table appears, and no present entry of the root
    changes: in a process, the kernel's half stays. *)
Record calm (w : gmap Z Z) (tabs : gmap (list Z) Z) (w' : gmap Z Z) (tabs' : gmap (list Z) Z) : Prop := mk_calm {
  calm_big va : no_big w tabs va → no_big w' tabs' va;
  calm_top i e : top_entry w tabs i e → top_entry w' tabs' i e;
}.

Lemma calm_refl w tabs : calm w tabs w tabs.
Proof. by split. Qed.

Lemma calm_trans w1 t1 w2 t2 w3 t3 : calm w1 t1 w2 t2 → calm w2 t2 w3 t3 → calm w1 t1 w3 t3.
Proof. intros [A1 A2] [B1 B2]. split; auto. Qed.

Lemma entry_at_eq a i : is_table a → 0 ≤ i < 512 → entry_at a i = a + 8 * i.
Proof. intros [_ Ha] Hi. unfold entry_at. apply w64_small. lia. Qed.

(** Words of different tables, or of different entries, do not overlap. *)
Lemma entry_inj a b i j :
  is_table a → is_table b → 0 ≤ i < 512 → 0 ≤ j < 512 → a + 8 * i = b + 8 * j → a = b ∧ i = j.
Proof. intros [Ha _] [Hb _] Hi Hj E. lia_div. Qed.

Lemma zero_words_lookup a b i :
  is_table a → is_table b → 0 ≤ i < 512 →
  zero_words a !! (b + 8 * i) = if decide (a = b) then Some 0 else None.
Proof.
  intros Ha Hb Hi. unfold zero_words. case_decide as E.
  - subst b. apply elem_of_list_to_map_1.
    + rewrite <- list_fmap_compose. apply NoDup_fmap_2; [intros ???; simpl in *; lia|apply NoDup_seq].
    + apply list_elem_of_fmap. exists (Z.to_nat i). split; [f_equal; lia|]. apply elem_of_seq. lia.
  - apply not_elem_of_list_to_map_1. intros Hin.
    rewrite <- list_fmap_compose in Hin. apply list_elem_of_fmap in Hin as (j & Ej & Hj%elem_of_seq).
    simpl in Ej. apply E. apply (entry_inj a b (Z.of_nat j) i); (done || lia).
Qed.

(** ** Adding a table *)

Definition add_table (w : gmap Z Z) (a i x : Z) : gmap Z Z :=
  zero_words (x + PHYSICAL_OFFSET) ∪ <[a + 8 * i := table_entry x]> w.

Lemma phys_page_table x : phys_page x → is_table (x + PHYSICAL_OFFSET).
Proof. intros [Hx Hr]. unfold is_table, PHYSICAL_OFFSET. lia_div. Qed.

Lemma phys_page_w64 x : phys_page x → w64 (x + PHYSICAL_OFFSET) = x + PHYSICAL_OFFSET.
Proof. intros [Hx Hr]. apply w64_small. unfold PHYSICAL_OFFSET. lia. Qed.

Lemma table_entry_child x :
  phys_page x → w64 (Z.shiftl (pd_addr (table_entry x)) 12 + PHYSICAL_OFFSET) = x + PHYSICAL_OFFSET.
Proof.
  intros Hx. destruct (table_entry_fields x Hx) as (_ & _ & -> & _).
  rewrite Z.shiftl_mul_pow2 by lia. replace (x / 4096 * 2 ^ 12) with x; [by apply phys_page_w64|].
  destruct Hx as [Hx _]. lia_div.
Qed.

Section add_table.
Context (w : gmap Z Z) (root : Z) (tabs : gmap (list Z) Z).
Context (p : list Z) (a i e x : Z).
Context (Hwf : pt_wf w root tabs) (Hp : tabs !! p = Some a) (Hlen : (length p < 3)%nat).
Context (Hi : 0 ≤ i < 512) (He : w !! (a + 8 * i) = Some e) (Hpe : present e = false).
Context (Hx : phys_page x) (Hfresh : ∀ q, tabs !! q ≠ Some (x + PHYSICAL_OFFSET)).

Let w' := add_table w a i x.
Let tabs' := <[p ++ [i] := x + PHYSICAL_OFFSET]> tabs.

Lemma add_table_new j : 0 ≤ j < 512 → w' !! (x + PHYSICAL_OFFSET + 8 * j) = Some 0.
Proof.
  intros Hj. apply lookup_union_Some_l. rewrite zero_words_lookup by (done || by apply phys_page_table).
  by rewrite decide_True.
Qed.

Lemma add_table_old q b j :
  tabs !! q = Some b → 0 ≤ j < 512 →
  w' !! (b + 8 * j) = if decide (q = p ∧ j = i) then Some (table_entry x) else w !! (b + 8 * j).
Proof.
  intros Hq Hj. destruct (wf_tab _ _ _ Hwf _ _ Hq) as [_ Hb].
  destruct (wf_tab _ _ _ Hwf _ _ Hp) as [_ Ha].
  unfold w', add_table. rewrite lookup_union_r.
  - case_decide as E.
    + destruct E as [-> ->]. rewrite Hq in Hp. injection Hp as ->. apply lookup_insert_eq.
    + apply lookup_insert_ne. intros Eq. apply E.
      destruct (entry_inj a b i j Ha Hb Hi Hj Eq) as [-> ->]. split; [|done].
      by eapply (wf_inj _ _ _ Hwf).
  - rewrite zero_words_lookup by (done || by apply phys_page_table).
    rewrite decide_False; [done|]. intros <-. by eapply Hfresh.
Qed.

Lemma no_child_before : tabs !! (p ++ [i]) = None.
Proof.
  destruct (tabs !! (p ++ [i])) as [b|] eqn:Eb; [|done]. destruct (wf_child _ _ _ Hwf p a i e b Hp He Eb) as (Hc & _). congruence.
Qed.

Lemma no_grandchild j : tabs !! ((p ++ [i]) ++ [j]) = None.
Proof.
  destruct (tabs !! ((p ++ [i]) ++ [j])) as [b|] eqn:E; [|done].
  apply (wf_parent _ _ _ Hwf) in E as [[? E] _]. by rewrite no_child_before in E.
Qed.

Lemma tabs'_lookup q b :
  tabs' !! q = Some b →
  (q = p ++ [i] ∧ b = x + PHYSICAL_OFFSET) ∨ (q ≠ p ++ [i] ∧ tabs !! q = Some b).
Proof. intros [[<- <-]|[? ?]]%lookup_insert_Some; [by left|right; split; [congruence|done]]. Qed.

Lemma tabs_sub : tabs ⊆ tabs'.
Proof. apply insert_subseteq, no_child_before. Qed.

Lemma snoc_ne (q : list Z) : q ≠ q ++ [i].
Proof. intros E. apply (f_equal length) in E. rewrite length_app in E. simpl in E. lia. Qed.

Lemma add_table_child q b j e' b' :
  tabs' !! q = Some b → w' !! (b + 8 * j) = Some e' → tabs' !! (q ++ [j]) = Some b' →
  present e' = true ∧ page_size e' = false ∧ b' = w64 (Z.shiftl (pd_addr e') 12 + PHYSICAL_OFFSET).
Proof.
  intros [[-> ->]|[Hne Hq]]%tabs'_lookup Hw [[Eq ->]|[Hn Hb']]%tabs'_lookup.
  - apply (f_equal length) in Eq. rewrite !length_app in Eq. simpl in Eq. lia.
  - by rewrite no_grandchild in Hb'.
  - apply app_inj_tail in Eq as [-> ->]. rewrite (add_table_old p), decide_True in Hw by done. injection Hw as <-.
    destruct (table_entry_fields x Hx) as (-> & -> & _ & _). by rewrite table_entry_child.
  - destruct (wf_parent _ _ _ Hwf _ _ _ Hb') as [_ Hj]. rewrite (add_table_old q), decide_False in Hw by first [done|by intros [-> ->]].
    exact (wf_child _ _ _ Hwf q b j e' b' Hq Hw Hb').
Qed.

Lemma add_table_wf : pt_wf w' root tabs'.
Proof.
  split.
  - unfold tabs'. rewrite lookup_insert_ne; [apply (wf_root _ _ _ Hwf)|]. by destruct p.
  - intros q b [[-> ->]|[_ Hq]]%tabs'_lookup; [|by eapply wf_tab].
    split; [rewrite length_app; simpl; lia|by apply phys_page_table].
  - intros q b j [[-> ->]|[_ Hq]]%tabs'_lookup Hj.
    + exists 0. split; [by apply add_table_new|unfold u64p; lia].
    + rewrite (add_table_old q) by done. case_decide.
      * eexists. split; [done|]. by apply table_entry_fields.
      * by eapply wf_words.
  - apply add_table_child.
  - intros q j b [[E ->]|[_ Hq]]%tabs'_lookup.
    + apply app_inj_tail in E as [-> ->]. split; [|done]. unfold tabs'.
      rewrite lookup_insert_ne by (intros E; by eapply snoc_ne). eauto.
    + apply (wf_parent _ _ _ Hwf) in Hq as [[b' Hb'] Hj]. split; [|done]. exists b'.
      eapply lookup_weaken; [done|apply tabs_sub].
  - intros q r b [[-> ->]|[Hq1 Hq]]%tabs'_lookup [[-> E]|[Hr1 Hr]]%tabs'_lookup; try done.
    + by apply Hfresh in Hr.
    + subst b. by apply Hfresh in Hq.
    + by eapply wf_inj.
Qed.

Lemma leaf_path_length va : length (leaf_path va) = 3%nat.
Proof. done. Qed.

Lemma add_table_mapped va : mapped w' tabs' va = mapped w tabs va.
Proof.
  unfold mapped. pose proof (VA2INDEX_range va 0 ltac:(lia)) as Hr.
  destruct (decide (leaf_path va = p ++ [i])) as [E|E].
  - rewrite (leaf_some w' tabs' va (x + PHYSICAL_OFFSET)), (leaf_none w tabs va).
    + by rewrite add_table_new by done.
    + rewrite E. apply no_child_before.
    + rewrite E. apply lookup_insert_eq.
  - assert (tabs' !! leaf_path va = tabs !! leaf_path va) as Et by by apply lookup_insert_ne.
    destruct (tabs !! leaf_path va) as [b|] eqn:Eb.
    + rewrite (leaf_some w' tabs' va b), (leaf_some w tabs va b) by done.
      rewrite (add_table_old (leaf_path va)) by done. rewrite decide_False; [done|].
      intros [Eq _]. pose proof (leaf_path_length va) as Hll. rewrite Eq in Hll. lia.
    + by rewrite !leaf_none.
Qed.

Lemma add_table_no_big va : no_big w tabs va → no_big w' tabs' va.
Proof.
  intros Hn q j r b e' Hq Hb Hw Hpr.
  assert (0 ≤ j < 512) as Hj.
  { assert (j ∈ leaf_path va) as Hin by (rewrite Hq; apply elem_of_app; right; by left).
    unfold leaf_path in Hin. simpl in Hin. rewrite !elem_of_cons in Hin.
    destruct Hin as [->|[->|[->|Hin]]]; try (apply VA2INDEX_range; lia).
    by apply not_elem_of_nil in Hin. }
  apply tabs'_lookup in Hb as [[-> ->]|[_ Hb]].
  - rewrite add_table_new in Hw by done. by injection Hw as <-.
  - rewrite (add_table_old q) in Hw by done. case_decide as Hc.
    + injection Hw as <-. destruct (table_entry_fields x Hx) as (_ & -> & _). split; [done|].
      destruct Hc as [-> ->]. unfold tabs'. rewrite lookup_insert_eq. by eexists.
    + destruct (Hn q j r b e' Hq Hb Hw Hpr) as [Hps [c Hc']]. split; [done|]. exists c. by eapply lookup_weaken, tabs_sub.
Qed.

Lemma add_table_calm : calm w tabs w' tabs'.
Proof.
  split; [apply add_table_no_big|]. intros j e' (Hj & Hpe' & r & Hr & Hw). split; [done|]. split; [done|]. exists r.
  split; [by eapply lookup_weaken, tabs_sub|]. rewrite (add_table_old []) by done. rewrite decide_False; [done|]. intros [Ep Ej].
  rewrite <- Ep in Hp. congruence.
Qed.
End add_table.

(** ** [walk] *)

Section walk.
Context {P : Type} `{!PageAllocator P} (ok : P → Prop) (managed : P → Z → Prop).
Context `{!PageAllocatorLaws P ok managed}.

(** The tables are well formed, the allocator is sound, and no free page is
    one of the tables. *)
Record vm_ok (root : Z) (tabs : gmap (list Z) Z) (st : vm P) : Prop := mk_vm_ok {
  vo_wf : pt_wf (words st) root tabs;
  vo_pages : ok (pages st);
  vo_free x q : x ∈ free_pages (pages st) → tabs !! q ≠ Some (x + PHYSICAL_OFFSET);
}.

(** From one state to the next tables may be added, nothing that was mapped
    or unmapped changes, and no large page appears, and no page becomes free. *)
Record grows (st : vm P) (tabs : gmap (list Z) Z) (st' : vm P) (tabs' : gmap (list Z) Z) : Prop := mk_grows {
  gr_tabs : tabs ⊆ tabs';
  gr_mapped va : mapped (words st') tabs' va = mapped (words st) tabs va;
  gr_calm : calm (words st) tabs (words st') tabs';
  gr_nx : nx_flag_enabled st' = nx_flag_enabled st;
  gr_free : free_pages (pages st') ⊆ free_pages (pages st);
}.

Lemma grows_refl st tabs : grows st tabs st tabs.
Proof. by split. Qed.

Lemma grows_trans s1 t1 s2 t2 s3 t3 : grows s1 t1 s2 t2 → grows s2 t2 s3 t3 → grows s1 t1 s3 t3.
Proof.
  intros [A1 B1 C1 D1 E1] [A2 B2 C2 D2 E2]. split; [by etrans|intros; by rewrite B2|by eapply calm_trans|congruence|by etrans].
Qed.

Lemma rd_run (st : vm P) a v : words st !! a = Some v → rd a st = Done (v, st).
Proof. exact (getf_done (λ s, words s !! a) st v). Qed.

Lemma wr_run (st : vm P) a v e :
  words st !! a = Some e →
  wr a v st = Done (tt, mk_vm (<[a := v]> (words st)) (pages st) (nx_flag_enabled st)).
Proof. intros E. apply modifyf_done. by rewrite E. Qed.

Lemma on_pages_run {A} (m : M P A) st a s' :
  m (pages st) = Done (a, s') →
  on_pages m st = Done (a, mk_vm (words st) s' (nx_flag_enabled st)).
Proof. intros E. unfold on_pages, zoom. by rewrite E. Qed.

Lemma wf_prefix w root tabs p q b :
  pt_wf w root tabs → tabs !! (p ++ q) = Some b → is_Some (tabs !! p).
Proof.
  intros Hwf. revert b. induction q as [|i q IH] using rev_ind; intros b E.
  - rewrite app_nil_r in E. eauto.
  - rewrite app_assoc in E. apply (wf_parent _ _ _ Hwf) in E as [[b' E] _]. by eapply IH.
Qed.

(** The entry at one level of the way down. *)
Lemma level_entry root tabs (st : vm P) p a va l :
  pt_wf (words st) root tabs → tabs !! p = Some a →
  let i := VA2INDEX va (Z.of_nat l) in
  ∃ e, entry_at a i = a + 8 * i ∧ words st !! (a + 8 * i) = Some e ∧
    rd (entry_at a i) st = Done (e, st) ∧ 0 ≤ i < 512.
Proof.
  intros Hwf Hp i. assert (0 ≤ i < 512) as Hi by (apply VA2INDEX_range; lia).
  destruct (wf_words _ _ _ Hwf p a i Hp Hi) as (e & He & _). exists e.
  rewrite entry_at_eq by (done || by eapply wf_tab). split_and!; try done; try lia. by apply rd_run.
Qed.

Lemma walk_from_found l root tabs (st : vm P) p a va alloc b :
  pt_wf (words st) root tabs → tabs !! p = Some a → (length p + l = 3)%nat →
  tabs !! (p ++ path_from va l) = Some b →
  walk_from l a va alloc st = Done (b + 8 * VA2INDEX va 0, st).
Proof.
  revert p a. induction l as [|l IH]; intros p a Hwf Hp Hlen Hb.
  - simpl in *. rewrite app_nil_r in Hb. rewrite Hp in Hb. injection Hb as ->.
    rewrite entry_at_eq; [done|by eapply wf_tab|apply VA2INDEX_range; lia].
  - destruct (level_entry root tabs st p a va (S l) Hwf Hp) as (e & Ha & He & Hrd & Hi).
    set (i := VA2INDEX va (Z.of_nat (S l))) in *.
    change (path_from va (S l)) with ([i] ++ path_from va l) in Hb. rewrite app_assoc in Hb.
    destruct (wf_prefix _ _ _ _ _ _ Hwf Hb) as [c Hc].
    destruct (wf_child _ _ _ Hwf p a i e c Hp He Hc) as (Hpr & Hps & ->).
    cbn [walk_from]. fold i. rewrite (bind_done _ _ _ _ _ Hrd), Hpr, Hps.
    eapply IH; [done|done| |done]. rewrite length_app. simpl. lia.
Qed.

(** What [walk] returns when it may not allocate. *)
Lemma walk_no_alloc root tabs (st : vm P) va :
  pt_wf (words st) root tabs → no_big (words st) tabs va →
  walk root va false st = Done (default 0 (leaf_addr tabs va), st).
Proof.
  intros Hwf Hnb. unfold walk, leaf_addr. destruct (tabs !! leaf_path va) as [b|] eqn:Eb.
  { by eapply (walk_from_found 3 root tabs st []); [|apply (wf_root _ _ _ Hwf)| |]. }
  assert (Hgen : ∀ l p a, tabs !! p = Some a → (length p + l = 3)%nat →
    leaf_path va = p ++ path_from va l → walk_from l a va false st = Done (0, st)).
  { induction l as [|l IH]; intros p a Hp Hlen Hpath.
    - simpl in Hpath. rewrite app_nil_r in Hpath. by rewrite Hpath, Hp in Eb.
    - destruct (level_entry root tabs st p a va (S l) Hwf Hp) as (e & Ha & He & Hrd & Hi).
      set (i := VA2INDEX va (Z.of_nat (S l))) in *.
      change (path_from va (S l)) with (i :: path_from va l) in Hpath.
      cbn [walk_from]. fold i. rewrite (bind_done _ _ _ _ _ Hrd).
      destruct (present e) eqn:Hpr; [|done]. destruct (Hnb p i _ a e Hpath Hp He Hpr) as [Hps [c Hc]].
      destruct (wf_child _ _ _ Hwf p a i e c Hp He Hc) as (_ & _ & ->). rewrite Hps. simpl.
      apply (IH (p ++ [i])); [done|rewrite length_app; simpl; lia|by rewrite <- app_assoc]. }
  by apply (Hgen 3%nat [] root (wf_root _ _ _ Hwf)).
Qed.

Ltac wd :=
  first [ erewrite bind_done by (apply rd_run; simpl; by rewrite lookup_insert_eq)
        | erewrite bind_done by (eapply wr_run; simpl; by rewrite lookup_insert_eq) ];
  cbv beta; cbn [words pages nx_flag_enabled]; rewrite ?insert_insert_eq.

(** Linking a fresh page as the next table. *)
Lemma new_table_run {B} (k : M (vm P) B) st a i e x :
  words st !! (a + 8 * i) = Some e → phys_page x →
  (let en := a + 8 * i in
   wr en x;;
   e ← rd en; wr en (set_present true e);;
   e ← rd en; wr en (set_writable true e);;
   e ← rd en; wr en (set_user_page true e);;
   zero_page (x +64 PHYSICAL_OFFSET);; k) st
  = k (mk_vm (add_table (words st) a i x) (pages st) (nx_flag_enabled st)).
Proof.
  intros He Hx. cbv zeta. rewrite (bind_done _ _ _ _ _ (wr_run st _ x e He)). do 6 wd.
  unfold zero_page. step. cbn [words pages nx_flag_enabled]. by rewrite phys_page_w64.
Qed.

(** One missing level of [walk] with allocation. *)
Lemma walk_level_new root tabs st p a va l e x fr :
  let i := VA2INDEX va (Z.of_nat (S l)) in
  vm_ok root tabs st → tabs !! p = Some a → (length p < 3)%nat →
  words st !! (a + 8 * i) = Some e → present e = false → free_pages (pages st) = x :: fr →
  ∃ st', walk_from (S l) a va true st = walk_from l (x + PHYSICAL_OFFSET) va true st' ∧
    let tabs' := <[p ++ [i] := x + PHYSICAL_OFFSET]> tabs in
    vm_ok root tabs' st' ∧ grows st tabs st' tabs' ∧ free_pages (pages st') = fr.
Proof.
  intros i [Hwf Hok Hfree] Hp Hlen He Hpe Hfp.
  destruct (level_entry root tabs st p a va (S l) Hwf Hp) as (e' & Ha & He' & Hrd & Hi).
  fold i in Ha, He', Hrd, Hi. rewrite He in He'. injection He' as <-.
  destruct (free_pages_ok _ Hok) as (Hnd & Hpp & _). rewrite Hfp in Hnd, Hpp.
  apply Forall_cons in Hpp as [Hx _]. apply NoDup_cons in Hnd as [Hxf _].
  destruct (kalloc_some _ x fr Hok Hfp) as (s' & Hk & Hok' & Hfr' & _).
  assert (Hfx : ∀ q, tabs !! q ≠ Some (x + PHYSICAL_OFFSET)).
  { intros q. apply Hfree. rewrite Hfp. by left. }
  exists (mk_vm (add_table (words st) a i x) s' (nx_flag_enabled st)). split.
  - cbn [walk_from]. fold i. rewrite (bind_done _ _ _ _ _ Hrd). rewrite Hpe. cbn [negb].
    rewrite (bind_done _ _ _ _ _ (on_pages_run _ _ _ _ Hk)).
    rewrite decide_False by (destruct Hx; lia). rewrite Ha.
    rewrite (new_table_run _ _ a i e x); [|done|done]. by rewrite phys_page_w64.
  - split_and!; [split; simpl|split; simpl|done].
    + by eapply add_table_wf.
    + done.
    + intros y q Hy. destruct (decide (q = p ++ [i])) as [->|Hne].
      * rewrite lookup_insert_eq. intros [= E]. rewrite Hfr' in Hy. assert (x = y) by lia. by subst.
      * rewrite lookup_insert_ne by done. apply Hfree. rewrite Hfp. right. by rewrite <- Hfr'.
    + by eapply tabs_sub.
    + intros va'. by eapply add_table_mapped.
    + by eapply add_table_calm.
    + done.
    + rewrite Hfr', Hfp. set_solver.
Qed.

Lemma walk_from_alloc l root tabs st p a va :
  vm_ok root tabs st → tabs !! p = Some a → (length p + l = 3)%nat →
  leaf_path va = p ++ path_from va l → no_big (words st) tabs va →
  ∃ r st' tabs', walk_from l a va true st = Done (r, st') ∧ vm_ok root tabs' st' ∧
    grows st tabs st' tabs' ∧ (r = 0 ∨ leaf_addr tabs' va = Some r) ∧
    ((l ≤ length (free_pages (pages st)))%nat → leaf_addr tabs' va = Some r) ∧
    (length (free_pages (pages st)) ≤ length (free_pages (pages st')) + l)%nat.
Proof.
  revert st tabs p a. induction l as [|l IH]; intros st tabs p a Hok Hp Hlen Hpath Hnb.
  - assert (leaf_addr tabs va = Some (a + 8 * VA2INDEX va 0)) as Hl.
    { unfold leaf_addr. rewrite Hpath. simpl. by rewrite app_nil_r, Hp. }
    exists (a + 8 * VA2INDEX va 0), st, tabs. split_and!; auto using grows_refl with lia.
    simpl. rewrite entry_at_eq; [done|by eapply wf_tab, Hp; apply Hok|apply VA2INDEX_range; lia].
  - destruct (level_entry root tabs st p a va (S l) (vo_wf _ _ _ Hok) Hp) as (e & Ha & He & Hrd & Hi).
    set (i := VA2INDEX va (Z.of_nat (S l))) in *.
    change (path_from va (S l)) with (i :: path_from va l) in Hpath.
    assert (Hlp : (length (p ++ [i]) + l = 3)%nat) by (rewrite length_app; simpl; lia).
    assert (Hpath' : leaf_path va = (p ++ [i]) ++ path_from va l) by by rewrite <- app_assoc.
    destruct (present e) eqn:Hpe.
    + destruct (Hnb p i _ a e Hpath Hp He Hpe) as [Hn [c Hch]].
      destruct (wf_child _ _ _ (vo_wf _ _ _ Hok) p a i e c Hp He Hch) as (_ & _ & ->).
      destruct (IH st tabs (p ++ [i]) _ Hok Hch Hlp Hpath' Hnb)
        as (r & st' & tabs' & E & Hok' & Hg & Hr & Hf & Hlf).
      exists r, st', tabs'. split_and!; try done; try lia; [|intros; apply Hf; lia].
      cbn [walk_from]. fold i. rewrite (bind_done _ _ _ _ _ Hrd). by rewrite Hpe, Hn.
    + destruct (free_pages (pages st)) as [|x fr] eqn:Hfp.
      * destruct (kalloc_none _ (vo_pages _ _ _ Hok) Hfp) as (s' & Hk & Hok' & Hfr' & _).
        exists 0, (mk_vm (words st) s' (nx_flag_enabled st)), tabs. split_and!; auto; try (simpl; lia).
        -- cbn [walk_from]. fold i. rewrite (bind_done _ _ _ _ _ Hrd). rewrite Hpe. cbn [negb].
           by rewrite (bind_done _ _ _ _ _ (on_pages_run _ _ _ _ Hk)).
        -- split; simpl; [apply Hok|done|]. intros y q. rewrite Hfr'. by intros ?%not_elem_of_nil.
        -- split; try done. simpl. rewrite Hfr'. set_solver.
      * destruct (walk_level_new root tabs st p a va l e x fr Hok Hp) as (st1 & E1 & Hok1 & Hg1 & Hf1);
          [lia|done..|].
        destruct (IH st1 _ (p ++ [i]) _ Hok1 (lookup_insert_eq _ _ _) Hlp Hpath' (calm_big _ _ _ _ (gr_calm _ _ _ _ Hg1) va Hnb))
          as (r & st' & tabs' & E & Hok' & Hg & Hr & Hf & Hlf).
        rewrite Hf1 in *. exists r, st', tabs'. rewrite E1. simpl in *.
        split_and!; try done; try lia; [by eapply grows_trans|intros; apply Hf; lia].
Qed.

(** [walk] with allocation: it returns 0 only when pages ran out, and
    otherwise the leaf entry's address; what was mapped stays as it was. *)
Lemma walk_alloc root tabs st va :
  vm_ok root tabs st → no_big (words st) tabs va →
  ∃ r st' tabs', walk root va true st = Done (r, st') ∧ vm_ok root tabs' st' ∧
    grows st tabs st' tabs' ∧ (r = 0 ∨ leaf_addr tabs' va = Some r) ∧
    ((3 ≤ length (free_pages (pages st)))%nat ∨ leaf_addr tabs va ≠ None → leaf_addr tabs' va = Some r) ∧
    (length (free_pages (pages st)) ≤ length (free_pages (pages st')) + 3)%nat.
Proof.
  intros Hok Hnb. destruct (leaf_addr tabs va) as [d|] eqn:Hd.
  { exists d, st, tabs. unfold leaf_addr in *. destruct (tabs !! leaf_path va) as [b|] eqn:Eb; [|done]. injection Hd as <-.
    split_and!; auto using grows_refl; [|lia]. pose proof (vo_wf _ _ _ Hok) as Hwf.
    by eapply (walk_from_found 3 root tabs st []); [|apply (wf_root _ _ _ Hwf)| |]. }
  enough (∃ r st' tabs', walk root va true st = Done (r, st') ∧ vm_ok root tabs' st' ∧
    grows st tabs st' tabs' ∧ (r = 0 ∨ leaf_addr tabs' va = Some r) ∧
    ((3 ≤ length (free_pages (pages st)))%nat → leaf_addr tabs' va = Some r) ∧
    (length (free_pages (pages st)) ≤ length (free_pages (pages st')) + 3)%nat) as (r & st' & tabs' & H1 & H2 & H3 & H4 & H5 & H6).
  { exists r, st', tabs'. split_and!; try done. intros [?|?]; [by apply H5|done]. }
  apply (walk_from_alloc 3 root tabs st [] root va); try done.
  apply (wf_root _ _ _ (vo_wf _ _ _ Hok)).
Qed.
End walk.
