(* ===== verification/VmMap.v ===== *)
(** * Mapping, unmapping and re-protecting pages (arch/x86-64/memory/vm.c)

    What [mappages], [unmappages] and [updatepages] do to the function from
    virtual addresses to leaf entries that a page table implements. *)
From S2P Require Import Prelude.
From S2P Require Import Interfaces.
From S2P Require Import Layout.
From S2P Require Import Vm.
From S2P Require Import VmWalk.

(** The 36 bits of a virtual address that select its leaf entry. *)
Definition page_no (va : Z) : Z := (va / 4096) mod 2 ^ 36.

(** Page numbers of the [n] pages from [a] on. *)
Definition page_list (a n : Z) : list Z := (λ k, page_no (a + 4096 * k)) <$> seqZ 0 n.

Lemma index_page_no va l :
  0 ≤ l < 4 → VA2INDEX va l = (page_no va / 512 ^ l) mod 512.
Proof.
  intros Hl. rewrite VA2INDEX_eq by lia. unfold page_no.
  assert (l = 0 ∨ l = 1 ∨ l = 2 ∨ l = 3) as [-> | [-> | [-> | ->]]] by lia; simpl; lia_div.
Qed.

Lemma same_page va va' :
  page_no va = page_no va' ↔ leaf_path va = leaf_path va' ∧ VA2INDEX va 0 = VA2INDEX va' 0.
Proof.
  split.
  - intros E. unfold leaf_path. cbn [path_from]. rewrite !index_page_no by lia. by rewrite E.
  - unfold leaf_path. cbn [path_from]. intros [[= E3 E2 E1] E0].
    rewrite !index_page_no in * by lia. simpl in *.
    assert (∀ v, 0 ≤ page_no v < 2 ^ 36) as Hr by (intros v; unfold page_no; lia_div).
    pose proof (Hr va). pose proof (Hr va'). generalize dependent (page_no va).
    generalize dependent (page_no va'). intros. lia_div.
Qed.

Lemma leaf_path_range va i : i ∈ leaf_path va → 0 ≤ i < 512.
Proof.
  unfold leaf_path. cbn [path_from]. rewrite !elem_of_cons.
  intros [->|[->|[->|Hin]]]; try (apply VA2INDEX_range; lia). by apply not_elem_of_nil in Hin.
Qed.

(** ** Writing a leaf entry *)

Section write_leaf.
Context (w : gmap Z Z) (root : Z) (tabs : gmap (list Z) Z) (va d v : Z).
Context (Hwf : pt_wf w root tabs) (Hd : leaf_addr tabs va = Some d) (Hv : u64p v).
Let w' := <[d := v]> w.

Lemma write_leaf_table : ∃ a, tabs !! leaf_path va = Some a ∧ d = a + 8 * VA2INDEX va 0 ∧ is_table a.
Proof.
  unfold leaf_addr in Hd. destruct (tabs !! leaf_path va) as [a|] eqn:E; [|done].
  exists a. injection Hd as <-. split_and!; [done|done|]. by eapply wf_tab.
Qed.

Lemma write_leaf_lookup q b j :
  tabs !! q = Some b → 0 ≤ j < 512 →
  w' !! (b + 8 * j) = if decide (q = leaf_path va ∧ j = VA2INDEX va 0) then Some v else w !! (b + 8 * j).
Proof.
  intros Hq Hj. destruct write_leaf_table as (a & Ha & -> & Hta).
  destruct (wf_tab _ _ _ Hwf _ _ Hq) as [_ Hb].
  pose proof (VA2INDEX_range va 0 ltac:(lia)) as Hr. unfold w'. case_decide as E.
  - destruct E as [-> ->]. rewrite Ha in Hq. injection Hq as ->. apply lookup_insert_eq.
  - apply lookup_insert_ne. intros Eq. apply E.
    destruct (entry_inj _ _ _ _ Hta Hb Hr Hj Eq) as [-> ->]. split; [|done].
    by eapply (wf_inj _ _ _ Hwf).
Qed.

Lemma write_leaf_inner q b j :
  tabs !! q = Some b → (length q < 3)%nat → 0 ≤ j < 512 → w' !! (b + 8 * j) = w !! (b + 8 * j).
Proof.
  intros Hq Hl Hj. rewrite (write_leaf_lookup q) by done. rewrite decide_False; [done|].
  intros [-> _]. pose proof (leaf_path_length va). lia.
Qed.

Lemma write_leaf_wf : pt_wf w' root tabs.
Proof.
  split; try apply Hwf.
  - intros q b j Hq Hj. rewrite (write_leaf_lookup q) by done. case_decide; [eauto|by eapply wf_words].
  - intros q b j e c Hq He Hc. destruct (wf_parent _ _ _ Hwf _ _ _ Hc) as [_ Hj]. destruct (wf_tab _ _ _ Hwf _ _ Hc) as [Hl _].
    rewrite length_app in Hl. simpl in Hl. rewrite (write_leaf_inner q) in He by (done || lia). exact (wf_child _ _ _ Hwf q b j e c Hq He Hc).
Qed.

Lemma write_leaf_no_big va' : no_big w tabs va' → no_big w' tabs va'.
Proof.
  intros Hn q j r b e Hq Hb He Hpr. eapply Hn; [done..| |done]. rewrite (write_leaf_inner q) in He; [done|done| |].
  - pose proof (leaf_path_length va') as Hl. rewrite Hq, length_app in Hl. simpl in Hl. lia.
  - apply (leaf_path_range va'). rewrite Hq. apply elem_of_app. right. by left.
Qed.

Lemma write_leaf_calm : calm w tabs w' tabs.
Proof.
  split; [apply write_leaf_no_big|]. intros j e (Hj & Hpe & r & Hr & He). split; [done|]. split; [done|]. exists r.
  by rewrite (write_leaf_inner []) by (done || cbn; lia).
Qed.

Lemma write_leaf_leaf va' :
  leaf w' tabs va' = if decide (page_no va' = page_no va) then Some v else leaf w tabs va'.
Proof.
  pose proof (VA2INDEX_range va' 0 ltac:(lia)) as Hr.
  destruct write_leaf_table as (a & Ha & _ & _).
  destruct (tabs !! leaf_path va') as [b|] eqn:Eb.
  - rewrite (leaf_some w' tabs va' b), (leaf_some w tabs va' b) by done.
    rewrite (write_leaf_lookup (leaf_path va')) by done.
    destruct (decide (page_no va' = page_no va)) as [E|E].
    + apply same_page in E. by rewrite decide_True.
    + rewrite decide_False; [done|]. by intros ?%same_page.
  - rewrite !leaf_none by done. rewrite decide_False; [done|]. intros [E _]%same_page. congruence.
Qed.

Lemma write_leaf_mapped va' :
  mapped w' tabs va' =
    if decide (page_no va' = page_no va) then (if present v then Some v else None)
    else mapped w tabs va'.
Proof. unfold mapped. rewrite write_leaf_leaf. by case_decide. Qed.

Lemma write_leaf_old : ∃ e, w !! d = Some e ∧ u64p e ∧ leaf w tabs va = Some e.
Proof.
  destruct write_leaf_table as (a & Ha & -> & _).
  destruct (wf_words _ _ _ Hwf _ a (VA2INDEX va 0) Ha) as (e & He & Hu); [apply VA2INDEX_range; lia|].
  exists e. split_and!; [done|done|]. by rewrite (leaf_some _ _ _ a).
Qed.
End write_leaf.

Lemma set_bit_testbit n b e k :
  0 ≤ n → 0 ≤ k → Z.testbit (set_bit n b e) k = if decide (k = n) then b else Z.testbit e k.
Proof.
  intros Hn Hk. unfold set_bit.
  assert (Z.testbit (Z.shiftl 1 n) k = bool_decide (k = n)) as Hs.
  { rewrite Z.shiftl_1_l, Z.pow2_bits_eqb by lia.
    destruct (Z.eqb_spec n k); [by rewrite bool_decide_true|by rewrite bool_decide_false by lia]. }
  destruct b; [rewrite Z.lor_spec, Hs|rewrite Z.land_spec, Z.lnot_spec, Hs by lia];
    case_decide; subst; rewrite ?bool_decide_true, ?bool_decide_false by done;
    rewrite ?orb_true_r, ?orb_false_r, ?andb_false_r, ?andb_true_r; done.
Qed.

Lemma present_set b e : present (set_present b e) = b.
Proof. unfold present, set_present. by rewrite set_bit_testbit, decide_True by lia. Qed.

Lemma page_list_S a n :
  0 ≤ n → page_list a (n + 1) = page_no a :: page_list (a + 4096) n.
Proof.
  intros Hn. unfold page_list. rewrite seqZ_cons by lia. rewrite fmap_cons.
  replace (a + 4096 * 0) with a by lia. f_equal. replace (Z.pred (n + 1)) with n by lia.
  change (Z.succ 0) with (1 + 0). rewrite <- (fmap_add_seqZ 1 0 n), <- list_fmap_compose. apply list_fmap_ext. intros _ k _. simpl.
  f_equal. lia.
Qed.

Lemma page_list_snoc a n :
  0 ≤ n → page_list a (n + 1) = page_list a n ++ [page_no (a + 4096 * n)].
Proof.
  intros Hn. unfold page_list. rewrite seqZ_app by lia. rewrite fmap_app. by rewrite Z.add_0_l.
Qed.

Lemma elem_of_page_list a n x : x ∈ page_list a n ↔ ∃ k, 0 ≤ k < n ∧ x = page_no (a + 4096 * k).
Proof.
  unfold page_list. rewrite list_elem_of_fmap. setoid_rewrite elem_of_seqZ.
  split; intros (k & H1 & H2); exists k; split; (done || lia).
Qed.

Section mapping.
Context {P : Type} `{!PageAllocator P} (ok : P → Prop) (managed : P → Z → Prop).
Context `{!PageAllocatorLaws P ok managed}.
Implicit Types st : vm P.

Definition with_word (d v : Z) (st : vm P) : vm P :=
  mk_vm (<[d := v]> (words st)) (pages st) (nx_flag_enabled st).

Lemma vm_ok_write root tabs st va d v :
  vm_ok ok root tabs st → leaf_addr tabs va = Some d → u64p v → vm_ok ok root tabs (with_word d v st).
Proof. intros [Hwf Hp Hf] Hd Hv. split; [by eapply write_leaf_wf|done|done]. Qed.

Lemma leaf_addr_nonzero root tabs st va d :
  vm_ok ok root tabs st → leaf_addr tabs va = Some d → d ≠ 0.
Proof.
  intros [Hwf _ _] Hd. destruct (write_leaf_table _ _ _ _ _ 0 Hwf Hd) as (a & _ & -> & [_ ?]).
  pose proof (VA2INDEX_range va 0). lia.
Qed.

(** What one page of [unmappages] without [free] does. *)
Lemma unmap_one root tabs st va :
  vm_ok ok root tabs st → no_big (words st) tabs va →
  ∃ st',
    (descriptor ← walk root va false;
     if decide (descriptor = 0) then mret tt else
       mret tt;; e ← rd descriptor; wr descriptor (set_present false e)) st = Done (tt, st') ∧
    vm_ok ok root tabs st' ∧ pages st' = pages st ∧ nx_flag_enabled st' = nx_flag_enabled st ∧
    calm (words st) tabs (words st') tabs ∧
    (∀ va', mapped (words st') tabs va' =
      if decide (page_no va' = page_no va) then None else mapped (words st) tabs va').
Proof.
  intros Hok Hnb. pose proof (vo_wf _ _ _ _ Hok) as Hwf.
  rewrite (bind_done _ _ _ _ _ (walk_no_alloc root tabs st va Hwf Hnb)).
  destruct (leaf_addr tabs va) as [d|] eqn:Hd; simpl.
  - rewrite decide_False by by eapply leaf_addr_nonzero.
    destruct (write_leaf_old _ _ _ _ _ 0 Hwf Hd) as (e & He & Hu & _). step.
    rewrite (bind_done _ _ _ _ _ (rd_run st d e He)).
    assert (u64p (set_present false e)) as Hu' by (apply set_bit_u64; [lia|done]).
    exists (with_word d (set_present false e) st). split_and!; try done.
    + by eapply wr_run.
    + by eapply vm_ok_write.
    + by eapply write_leaf_calm.
    + intros va'. unfold with_word. cbn [words]. rewrite (write_leaf_mapped _ _ _ _ _ _ Hwf Hd). by rewrite present_set.
  - exists st. split_and!; try done. intros va'. case_decide as E; [|done].
    unfold mapped. rewrite leaf_none; [done|]. apply same_page in E as [-> _].
    unfold leaf_addr in Hd. by destruct (tabs !! leaf_path va).
Qed.

Lemma unmap_loop_spec n root tabs st a :
  vm_ok ok root tabs st → 0 ≤ a → a + Z.of_nat n * 4096 < 2 ^ 64 →
  (∀ k, 0 ≤ k < Z.of_nat n → no_big (words st) tabs (a + 4096 * k)) →
  ∃ st', unmap_loop n root a (a + Z.of_nat n * 4096 - 1) false st = Done (tt, st') ∧
    vm_ok ok root tabs st' ∧ pages st' = pages st ∧ nx_flag_enabled st' = nx_flag_enabled st ∧
    calm (words st) tabs (words st') tabs ∧
    (∀ va', mapped (words st') tabs va' =
      if decide (page_no va' ∈ page_list a (Z.of_nat n)) then None else mapped (words st) tabs va').
Proof.
  revert st a. induction n as [|n IH]; intros st a Hok Ha He Hnb.
  { exists st. cbn [unmap_loop]. rewrite decide_False by lia. by split_and!. }
  destruct (unmap_one root tabs st a Hok) as (st1 & E1 & Hok1 & Hp1 & Hn1 & Hb1 & Hm1).
  { specialize (Hnb 0). rewrite Z.mul_0_r, Z.add_0_r in Hnb. apply Hnb. lia. }
  destruct (IH st1 (a + 4096) Hok1) as (st2 & E2 & Hok2 & Hp2 & Hn2 & Hb2 & Hm2); [lia|lia| |].
  { intros k Hk. replace (a + 4096 + 4096 * k) with (a + 4096 * (k + 1)) by lia.
    apply Hb1, Hnb. lia. }
  exists st2. split_and!; [|done|congruence|congruence|by eapply calm_trans|].
  - cbn [unmap_loop]. rewrite decide_True by lia. rewrite <- bind_assoc.
    rewrite (bind_done _ _ _ _ _ E1). rewrite w64_small by (unfold PAGE_SIZE; lia).
    unfold PAGE_SIZE. replace (a + Z.of_nat (S n) * 4096 - 1) with (a + 4096 + Z.of_nat n * 4096 - 1) by lia.
    exact E2.
  - intros va'. rewrite Hm2, Hm1. replace (Z.of_nat (S n)) with (Z.of_nat n + 1) by lia.
    rewrite page_list_S by lia. repeat case_decide; try done; exfalso; set_solver.
Qed.

Lemma PAGE_END_last b : b mod 4096 = 0 → 0 < b < 2 ^ 64 → PAGE_END (b - 1) PAGE_SIZE = b - 1.
Proof. intros Hb Hr. rewrite PAGE_END_eq by (unfold u64p; lia). lia_div. Qed.

Lemma page_fuel_eq a n : 0 ≤ n → page_fuel a (a + n * 4096 - 1) = Z.to_nat n.
Proof. intros Hn. unfold page_fuel, PAGE_SIZE. f_equal. lia_div. Qed.

(** The unwinding of [mappages] after [n] pages. *)
Lemma unwind_spec n root tabs st va :
  let a := va - va mod 4096 in
  vm_ok ok root tabs st → 0 < a → a + Z.of_nat n * 4096 < 2 ^ 64 →
  (∀ k, 0 ≤ k < Z.of_nat n → no_big (words st) tabs (a + 4096 * k)) →
  ∃ st', unmappages root va (a + Z.of_nat n * 4096 -64 va) false st = Done (0, st') ∧
    vm_ok ok root tabs st' ∧ pages st' = pages st ∧ nx_flag_enabled st' = nx_flag_enabled st ∧
    calm (words st) tabs (words st') tabs ∧
    (∀ va', mapped (words st') tabs va' =
      if decide (page_no va' ∈ page_list a (Z.of_nat n)) then None else mapped (words st) tabs va').
Proof.
  intros a Hok Ha He Hnb. assert (Hal : a mod 4096 = 0) by (unfold a; lia_div).
  assert (0 ≤ va < 2 ^ 64) as Hva by (unfold a in *; lia_div).
  destruct (unmap_loop_spec n root tabs st a Hok) as (st' & E & Hok' & Hp & Hn & Hb & Hm); [lia|lia|done|].
  exists st'. split_and!; try done. unfold unmappages.
  rewrite PAGE_START_eq by done. fold a.
  assert (w64 (va + w64 (a + Z.of_nat n * 4096 - va) - 1) = a + Z.of_nat n * 4096 - 1) as ->.
  { unfold w64. rewrite Z.add_sub_swap, Z.add_mod_idemp_r by lia. 
    replace (va - 1 + (a + Z.of_nat n * 4096 - va)) with (a + Z.of_nat n * 4096 - 1) by lia.
    apply Z.mod_small. lia. }
  rewrite PAGE_END_last by lia_div. rewrite page_fuel_eq, Nat2Z.id by lia.
  by rewrite (bind_done _ _ _ _ _ E).
Qed.

(** The leaf entry [mappages] writes. *)
Definition leaf_entry (pa x86_flags : Z) : Z := set_present true (Z.lor pa x86_flags).

Lemma leaf_entry_u64 pa xf : u64p pa → u64p xf → u64p (leaf_entry pa xf).
Proof. intros Hp Hx. apply set_bit_u64; [lia|by apply lor_u64]. Qed.

Lemma write_leaf_run {B} (k : M (vm P) B) st d e pa xf :
  words st !! d = Some e →
  (wr d pa;;
   e ← rd d; wr d (Z.lor e xf);;
   e ← rd d; wr d (set_present true e);; k) st
  = k (with_word d (leaf_entry pa xf) st).
Proof.
  intros He. rewrite (bind_done _ _ _ _ _ (wr_run st d pa e He)).
  do 4 (first [ erewrite bind_done by (apply rd_run; simpl; by rewrite lookup_insert_eq)
        | erewrite bind_done by (eapply wr_run; simpl; by rewrite lookup_insert_eq) ];
    cbv beta; cbn [words pages nx_flag_enabled]; rewrite ?insert_insert_eq). done.
Qed.

Lemma page_no_inj a j k :
  a mod 4096 = 0 → 0 ≤ j < 2 ^ 36 → 0 ≤ k < 2 ^ 36 →
  page_no (a + 4096 * j) = page_no (a + 4096 * k) → j = k.
Proof. intros Ha Hj Hk. unfold page_no. lia_div. Qed.

(** The first [i] pages from [a] on are mapped to the frames from [pa] on, all
    else is as in [m0], where those pages were free. *)
Record mapped_upto (m0 : Z → option Z) (a pa xf i : Z) (m : Z → option Z) : Prop := mk_upto {
  mu_done k : 0 ≤ k < i → m (a + 4096 * k) = Some (leaf_entry (pa + 4096 * k) xf);
  mu_rest v : page_no v ∉ page_list a i → m v = m0 v;
  mu_free v : page_no v ∈ page_list a i → m0 v = None;
}.

Lemma mapped_upto_0 m a pa xf : mapped_upto m a pa xf 0 m.
Proof. split; [lia|done|]. intros v Hv. by apply not_elem_of_nil in Hv. Qed.

Lemma mapped_upto_ext m0 a pa xf i m m' :
  (∀ v, m' v = m v) → mapped_upto m0 a pa xf i m → mapped_upto m0 a pa xf i m'.
Proof. intros E [A B C]. split; intros; rewrite ?E; auto. Qed.

Lemma mapped_upto_S m0 a pa xf i m m' :
  a mod 4096 = 0 → 0 ≤ i < 2 ^ 36 → mapped_upto m0 a pa xf i m →
  (∀ v, page_no v = page_no (a + 4096 * i) → m v = None) →
  (∀ v, m' v = if decide (page_no v = page_no (a + 4096 * i))
               then Some (leaf_entry (pa + 4096 * i) xf) else m v) →
  mapped_upto m0 a pa xf (i + 1) m'.
Proof.
  intros Ha Hi [A B C] Hf E.
  assert (page_no (a + 4096 * i) ∉ page_list a i) as Hni.
  { rewrite elem_of_page_list. intros (k & Hk & Ek). apply page_no_inj in Ek; lia. }
  split.
  - intros k Hk. rewrite E. case_decide as Ek.
    + apply page_no_inj in Ek; [by subst|lia..].
    + apply A. assert (k ≠ i) by congruence. lia.
  - intros v Hv. rewrite page_list_snoc, elem_of_app, list_elem_of_singleton in Hv by lia.
    rewrite E, decide_False by tauto. apply B. tauto.
  - intros v Hv. rewrite page_list_snoc, elem_of_app, list_elem_of_singleton in Hv by lia.
    destruct Hv as [Hv|Hv]; [by apply C|]. rewrite <- B; [by apply Hf|]. by rewrite Hv.
Qed.

(** Mapping [n] pages takes three free pages for each at most, and makes no
    large page. *)
Record spares (n : nat) (st : vm P) (tabs : gmap (list Z) Z) (st' : vm P) (tabs' : gmap (list Z) Z) : Prop := mk_spares {
  sp_sub : free_pages (pages st') ⊆ free_pages (pages st);
  sp_len : (length (free_pages (pages st)) ≤ length (free_pages (pages st')) + 3 * n)%nat;
  sp_calm : calm (words st) tabs (words st') tabs';
  sp_nx : nx_flag_enabled st' = nx_flag_enabled st;
}.

(** Entry by entry, [mappages] either maps the next page or undoes everything. *)
Lemma map_loop_spec n root tabs st va pa xf i m0 :
  let a := va - va mod 4096 in
  let N := i + Z.of_nat n in
  vm_ok ok root tabs st → 0 < a → 0 ≤ i → N ≤ 2 ^ 36 → a + N * 4096 < 2 ^ 64 →
  0 ≤ pa → pa + N * 4096 < 2 ^ 64 → u64p xf →
  (∀ k, 0 ≤ k < N → no_big (words st) tabs (a + 4096 * k)) →
  mapped_upto m0 a pa xf i (mapped (words st) tabs) →
  ∃ r st' tabs', map_loop n root va (a + 4096 * i) (pa + 4096 * i) (a + N * 4096 - 1) xf st
      = Done (r, st') ∧ vm_ok ok root tabs' st' ∧
    ((r = 0 ∧ mapped_upto m0 a pa xf N (mapped (words st') tabs')) ∨
     (r = -1 ∧ ∀ v, mapped (words st') tabs' v = m0 v)) ∧
    ((∀ k, i ≤ k < N → m0 (a + 4096 * k) = None) →
     (3 * n ≤ length (free_pages (pages st)))%nat ∨ (∀ k, i ≤ k < N → leaf_addr tabs (a + 4096 * k) ≠ None) → r = 0) ∧
    spares n st tabs st' tabs'.
Proof.
  intros a. assert (Hal : a mod 4096 = 0) by (unfold a; lia_div).
  revert st tabs i. induction n as [|n IH]; intros st tabs i N Hok Ha Hi HN He Hpa Hpe Hxf Hnb Hup.
  { exists 0, st, tabs. unfold N in *. cbn [map_loop]. rewrite decide_False by lia.
    replace (i + Z.of_nat 0) with i by lia. split_and!; auto. split; try done. lia. }
  destruct (walk_alloc ok managed root tabs st (a + 4096 * i) Hok) as
    (d & st1 & tabs1 & E1 & Hok1 & Hg1 & Hd & Hf & Hlen); [apply Hnb; unfold N; lia|].
  pose proof (gr_free _ _ _ _ Hg1) as Hsub.
  assert (Hup1 : mapped_upto m0 a pa xf i (mapped (words st1) tabs1)).
  { eapply mapped_upto_ext; [|exact Hup]. apply Hg1. }
  assert (Hnb1 : ∀ k, 0 ≤ k < N → no_big (words st1) tabs1 (a + 4096 * k)).
  { intros k Hk. apply Hg1, Hnb, Hk. }
  cbn [map_loop]. rewrite decide_True by (unfold N; lia). rewrite (bind_done _ _ _ _ _ E1).
  assert (Hfail : ∃ st', (unmappages root va (a + 4096 * i -64 va) false;; mret (-1)) st1 = Done (-1, st')
      ∧ vm_ok ok root tabs1 st' ∧ pages st' = pages st1 ∧ (∀ v, mapped (words st') tabs1 v = m0 v) ∧ spares (S n) st tabs st' tabs1).
  { destruct (unwind_spec (Z.to_nat i) root tabs1 st1 va Hok1) as (st' & E & Hok' & Hp' & Hn' & Hb' & Hm');
      rewrite ?Z2Nat.id in * by lia; [done|unfold N in *; fold a; lia|intros; apply Hnb1; lia|].
    exists st'. fold a in E. replace (a + 4096 * i) with (a + i * 4096) by lia.
    rewrite (bind_done _ _ _ _ _ E). split_and!; try done.
    - intros v. rewrite Hm'. fold a. case_decide as Hin; [by rewrite (mu_free _ _ _ _ _ _ Hup1)|by apply (mu_rest _ _ _ _ _ _ Hup1)].
    - split; rewrite ?Hp'; [done|lia|eapply calm_trans; [apply Hg1|done]|rewrite Hn'; apply Hg1]. }
  destruct Hfail as (stf & Ef & Hokf & Hpf & Hmf & Hspf). rewrite <- Hpf in Hsub.
  destruct (decide (d = 0)) as [->|Hd0].
  { step. exists (-1), stf, tabs1. split_and!; auto. intros _ Hl.
    exfalso. assert (leaf_addr tabs1 (a + 4096 * i) = Some 0) as Hz.
    { apply Hf. destruct Hl as [?|Hl]; [left; lia|right; apply Hl; unfold N; lia]. }
    by apply (leaf_addr_nonzero root tabs1 st1 (a + 4096 * i) 0 Hok1 Hz). }
  destruct Hd as [?|Hd]; [done|].
  destruct (write_leaf_old _ _ _ _ _ 0 (vo_wf _ _ _ _ Hok1) Hd) as (e & He1 & Hu & Hleaf).
  rewrite bind_assoc. rewrite (bind_done _ _ _ _ _ (rd_run st1 d e He1)). step.
  assert (Hmi : mapped (words st1) tabs1 (a + 4096 * i) = if present e then Some e else None).
  { unfold mapped. by rewrite Hleaf. }
  destruct (present e) eqn:Hpr; rewrite ?Hpr in Hmi.
  { exists (-1), stf, tabs1. split_and!; auto. intros Hnone _. exfalso.
    rewrite (gr_mapped _ _ _ _ Hg1) in Hmi. rewrite (mu_rest _ _ _ _ _ _ Hup) in Hmi.
    - rewrite Hnone in Hmi; [done|unfold N; lia].
    - rewrite elem_of_page_list. intros (k & Hk & Ek). apply page_no_inj in Ek; unfold N in *; lia. }
  rewrite (write_leaf_run _ st1 d e); [|done].
  assert (Hul : u64p (leaf_entry (pa + 4096 * i) xf)).
  { apply leaf_entry_u64; [unfold u64p, N in *; lia|done]. }
  destruct (IH (with_word d (leaf_entry (pa + 4096 * i) xf) st1) tabs1 (i + 1))
    as (r & st' & tabs' & E & Hok' & Hres & Hgood & Hsp); unfold N in *; try done; try lia.
  { by eapply vm_ok_write. }
  { intros k Hk. eapply write_leaf_no_big; [apply Hok1|done|]. apply Hnb1. lia. }
  { eapply (mapped_upto_S _ _ _ _ _ (mapped (words st1) tabs1)); [done|lia|done| |].
    - intros v Ev. rewrite <- Hmi. unfold mapped, leaf, leaf_addr. by apply same_page in Ev as [-> ->].
    - intros v. unfold with_word. cbn [words]. rewrite (write_leaf_mapped _ _ _ _ _ _ (vo_wf _ _ _ _ Hok1) Hd).
      unfold leaf_entry. by rewrite present_set. }
  replace (i + 1 + Z.of_nat n) with (i + Z.of_nat (S n)) in * by lia.
  exists r, st', tabs'. split_and!; try done.
  - rewrite !w64_small by (unfold PAGE_SIZE; lia). unfold PAGE_SIZE.
    replace (a + 4096 * i + 4096) with (a + 4096 * (i + 1)) by lia.
    by replace (pa + 4096 * i + 4096) with (pa + 4096 * (i + 1)) by lia.
  - intros Hnone Hl. apply Hgood; [intros; apply Hnone; lia|]. simpl. destruct Hl as [Hl|Hl]; [left; lia|right].
    intros k Hk Hnl. apply (Hl k); [lia|]. revert Hnl. unfold leaf_addr. destruct (tabs !! leaf_path (a + 4096 * k)) as [b|] eqn:Eb; [|done].
    by rewrite (lookup_weaken _ _ _ _ Eb (gr_tabs _ _ _ _ Hg1)).
  - destruct Hsp as [S1 S2 S3 S4]. cbn [pages with_word nx_flag_enabled] in *. split.
    + etrans; [exact S1|]. by rewrite <- Hpf.
    + lia.
    + eapply calm_trans; [apply Hg1|]. eapply calm_trans; [eapply write_leaf_calm; [apply Hok1|done]|exact S3].
    + rewrite S4. apply Hg1.
Qed.

Lemma x86flag_u64 nx flags : 0 ≤ flags < 256 → u64p (vmflag_to_x86flag nx flags).
Proof.
  intros Hf. unfold vmflag_to_x86flag. apply lor_u64; [|apply w64_range].
  destruct (nx && _); unfold u64p; vm_compute; split; congruence.
Qed.

(** The number of pages that [[va, va + sz)] touches. *)
Definition page_span (va sz : Z) : Z := (va + sz - 1) / 4096 - va / 4096 + 1.

Lemma span_end va sz :
  0 ≤ va → 0 < sz → va + sz - 1 < 2 ^ 64 - 4096 →
  PAGE_END (w64 (va + sz - 1)) PAGE_SIZE = va - va mod 4096 + page_span va sz * 4096 - 1.
Proof.
  intros Hv Hs He. rewrite w64_small by lia. rewrite PAGE_END_eq by (unfold u64p; lia).
  unfold page_span. lia_div.
Qed.

(** What [mappages] returns and does on every branch. *)
Lemma mappages_run root tabs st va sz pa flags :
  let a := va - va mod 4096 in
  let b := pa - pa mod 4096 in
  let N := page_span va sz in
  let xf := vmflag_to_x86flag (nx_flag_enabled st) flags in
  vm_ok ok root tabs st → 4096 ≤ va → 0 < sz → N ≤ 2 ^ 36 → va + sz - 1 < 2 ^ 64 - 4096 →
  0 ≤ pa → b + N * 4096 < 2 ^ 64 → 0 ≤ flags < 256 →
  (∀ k, 0 ≤ k < N → no_big (words st) tabs (a + 4096 * k)) →
  ∃ r st' tabs', mappages root va sz pa flags st = Done (r, st') ∧ vm_ok ok root tabs' st' ∧
    ((r = 0 ∧ mapped_upto (mapped (words st) tabs) a b xf N (mapped (words st') tabs')) ∨
     (r = -1 ∧ ∀ v, mapped (words st') tabs' v = mapped (words st) tabs v)) ∧
    ((∀ k, 0 ≤ k < N → mapped (words st) tabs (a + 4096 * k) = None) →
     (3 * Z.to_nat N ≤ length (free_pages (pages st)))%nat ∨ (∀ k, 0 ≤ k < N → leaf_addr tabs (a + 4096 * k) ≠ None) → r = 0) ∧
    spares (Z.to_nat N) st tabs st' tabs'.
Proof.
  intros a b N xf Hok Hva Hsz HN He Hpa Hpe Hfl Hnb.
  assert (HN0 : 0 ≤ N) by (unfold N, page_span; lia_div).
  assert (Hend : a + N * 4096 < 2 ^ 64) by (unfold a, N, page_span; lia_div).
  assert (Hpu : u64p pa) by (unfold u64p, b in *; lia_div).
  unfold mappages. step. rewrite (PAGE_START_eq va) by (unfold u64p; lia_div).
  rewrite (PAGE_START_eq pa) by done.
  rewrite span_end by lia. fold a b N xf. rewrite page_fuel_eq by done.
  pose proof (map_loop_spec (Z.to_nat N) root tabs st va b xf 0 (mapped (words st) tabs)) as Hl.
  cbv zeta in Hl. fold a in Hl. rewrite Z.add_0_l, Z.mul_0_r, !Z.add_0_r, Z2Nat.id in Hl by done.
  apply Hl; try done; try lia.
  - unfold a. lia_div.
  - unfold b. lia_div.
  - by apply x86flag_u64.
  - apply mapped_upto_0.
Qed.

(** C10: [mappages] is all or nothing.  Over a range with no large page in the
    way it returns 0, and then exactly the pages of the range are mapped, to
    consecutive frames with the translated flags, and nothing else changed; or
    it returns -1, and then nothing is mapped differently from before, the
    pages mapped before the failure having been unmapped.  With all pages of
    the range unmapped and three table pages per page at hand it succeeds. *)
Theorem mappages_all_or_nothing root tabs st va sz pa flags :
  let a := va - va mod 4096 in
  let b := pa - pa mod 4096 in
  let N := page_span va sz in
  let xf := vmflag_to_x86flag (nx_flag_enabled st) flags in
  vm_ok ok root tabs st → 4096 ≤ va → 0 < sz → N ≤ 2 ^ 36 → va + sz - 1 < 2 ^ 64 - 4096 →
  0 ≤ pa → b + N * 4096 < 2 ^ 64 → 0 ≤ flags < 256 →
  (∀ k, 0 ≤ k < N → no_big (words st) tabs (a + 4096 * k)) →
  ∃ r st' tabs', mappages root va sz pa flags st = Done (r, st') ∧ vm_ok ok root tabs' st' ∧
    ((r = 0 ∧ mapped_upto (mapped (words st) tabs) a b xf N (mapped (words st') tabs')) ∨
     (r = -1 ∧ ∀ v, mapped (words st') tabs' v = mapped (words st) tabs v)) ∧
    ((∀ k, 0 ≤ k < N → mapped (words st) tabs (a + 4096 * k) = None) →
     (3 * Z.to_nat N ≤ length (free_pages (pages st)))%nat → r = 0).
Proof.
  intros a b N xf. intros. edestruct mappages_run as (r & st' & tabs' & E & Hok & Hres & Hgood & _); [done..|].
  exists r, st', tabs'. split_and!; try done. intros ??. apply Hgood; [done|by left].
Qed.

(** [unmappages] with [free] set gives the frame of a leaf entry back to
    the page allocator without looking at its [present] bit.  An entry that
    was unmapped before keeps its frame address, so unmapping the page again
    frees a frame that may belong to someone else by now. *)
Lemma unmappages_frees_stale_frame root tabs st va d e :
  vm_ok ok root tabs st → no_big (words st) tabs va →
  0 < va < 2 ^ 64 - 8192 → va mod 4096 = 0 →
  leaf_addr tabs va = Some d → words st !! d = Some e → present e = false →
  managed (pages st) (pd_addr e * 4096) → pd_addr e * 4096 ∉ free_pages (pages st) →
  ∃ st', unmappages root va 4096 true st = Done (0, st') ∧
    free_pages (pages st') = (pd_addr e * 4096) :: free_pages (pages st) ∧
    words st' = words st.
Proof.
  intros Hok Hnb Hva Hal Hd He Hpr Hm Hnf.
  destruct (kfree_used _ _ (vo_pages _ _ _ _ Hok) Hm Hnf) as (s' & Hk & _ & Hf & _).
  assert (w64 (Z.shiftl (pd_addr e) 12) = pd_addr e * 4096) as Hsh.
  { rewrite Z.shiftl_mul_pow2 by lia. apply w64_small. rewrite pd_addr_eq. lia_div. }
  assert (set_present false e = e) as Hse.
  { apply Z.bits_inj'. intros n Hn. unfold set_present. rewrite set_bit_testbit by lia.
    case_decide; [by subst|done]. }
  exists (with_word d e (mk_vm (words st) s' (nx_flag_enabled st))). split; [|split].
  - unfold unmappages. rewrite PAGE_START_eq by (unfold u64p; lia). rewrite Hal, Z.sub_0_r.
    rewrite w64_small by lia.
    rewrite PAGE_END_last by lia_div.
    replace (va + 4096 - 1) with (va + 1 * 4096 - 1) by lia. rewrite page_fuel_eq by lia.
    change (Z.to_nat 1) with 1%nat. cbn [unmap_loop].
    rewrite decide_True by lia. rewrite bind_assoc.
    rewrite (bind_done _ _ _ _ _ (walk_no_alloc root tabs st va (vo_wf _ _ _ _ Hok) Hnb)).
    rewrite Hd. simpl default.
    destruct (decide (d = 0)) as [Hz|_]; [by eapply leaf_addr_nonzero in Hz|].
    rewrite !bind_assoc. rewrite (bind_done _ _ _ _ _ (rd_run st d e He)). rewrite Hsh.
    rewrite (bind_done _ _ _ _ _ (on_pages_run _ _ _ _ Hk)).
    rewrite !bind_assoc. erewrite bind_done by (by apply rd_run). cbv beta.
    rewrite Hse. erewrite bind_done by (by eapply wr_run). cbv beta.
    rewrite decide_False; [done|]. rewrite w64_small; unfold PAGE_SIZE; lia.
  - done.
  - simpl. by rewrite insert_id.
Qed.

(** The entry that [updatepages] makes of [e]. *)
Definition updated_entry (xf e : Z) : Z := Z.lor (Z.land e (w64 (Z.lnot PAGE_FLAG_MASK))) xf.

Lemma update_loop_spec n root tabs st a xf :
  vm_ok ok root tabs st → 0 ≤ a → a mod 4096 = 0 → Z.of_nat n ≤ 2 ^ 36 →
  a + Z.of_nat n * 4096 < 2 ^ 64 → u64p xf →
  (∀ k, 0 ≤ k < Z.of_nat n → no_big (words st) tabs (a + 4096 * k) ∧
    is_Some (leaf_addr tabs (a + 4096 * k))) →
  ∃ st', update_loop n root a (a + Z.of_nat n * 4096 - 1) xf st = Done (0, st') ∧
    vm_ok ok root tabs st' ∧ pages st' = pages st ∧
    (∀ va', leaf (words st') tabs va' =
      if decide (page_no va' ∈ page_list a (Z.of_nat n))
      then updated_entry xf <$> leaf (words st) tabs va' else leaf (words st) tabs va').
Proof.
  revert st a. induction n as [|n IH]; intros st a Hok Ha Hal Hn He Hxf Hnb.
  { exists st. cbn [update_loop]. rewrite decide_False by lia. by split_and!. }
  destruct (Hnb 0) as [Hnb0 [d Hd]]; [lia|]. rewrite Z.mul_0_r, Z.add_0_r in Hnb0, Hd.
  pose proof (vo_wf _ _ _ _ Hok) as Hwf.
  destruct (write_leaf_old _ _ _ _ _ 0 Hwf Hd) as (e & Hed & Hu & Hl).
  assert (Hu' : u64p (updated_entry xf e)) by (apply lor_u64; [by apply land_u64|done]).
  destruct (IH (with_word d (updated_entry xf e) st) (a + 4096)) as (st2 & E2 & Hok2 & Hp2 & Hm2);
    try lia; [by eapply vm_ok_write|lia_div|done| |].
  { intros k Hk. replace (a + 4096 + 4096 * k) with (a + 4096 * (k + 1)) by lia.
    destruct (Hnb (k + 1)) as [Hb Hs]; [lia|]. split; [|done]. by eapply write_leaf_no_big. }
  exists st2. split_and!; [|done|done|].
  - cbn [update_loop]. rewrite decide_True by lia.
    rewrite (bind_done _ _ _ _ _ (walk_no_alloc root tabs st a Hwf Hnb0)). rewrite Hd. simpl default.
    rewrite decide_False by by eapply leaf_addr_nonzero.
    rewrite (bind_done _ _ _ _ _ (rd_run st d e Hed)).
    rewrite (bind_done _ _ _ _ _ (wr_run st d _ e Hed)).
    erewrite bind_done by (apply rd_run; cbn [words]; by rewrite lookup_insert_eq). cbv beta.
    erewrite bind_done by (eapply wr_run; cbn [words]; by rewrite lookup_insert_eq). cbv beta.
    cbn [words pages nx_flag_enabled]. rewrite insert_insert_eq.
    rewrite w64_small by (unfold PAGE_SIZE; lia). unfold PAGE_SIZE.
    replace (a + Z.of_nat (S n) * 4096 - 1) with (a + 4096 + Z.of_nat n * 4096 - 1) by lia. exact E2.
  - intros va'. rewrite Hm2. unfold with_word. cbn [words]. rewrite (write_leaf_leaf _ _ _ _ _ _ Hwf Hd).
    replace (Z.of_nat (S n)) with (Z.of_nat n + 1) by lia. rewrite page_list_S by lia.
    assert (page_no a ∉ page_list (a + 4096) (Z.of_nat n)) as Hni.
    { rewrite elem_of_page_list. intros (k & Hk & Ek).
      replace (a + 4096 + 4096 * k) with (a + 4096 * (k + 1)) in Ek by lia.
      replace a with (a + 4096 * 0) in Ek at 1 by lia. apply page_no_inj in Ek; lia. }
    destruct (decide (page_no va' = page_no a)) as [Ev|Ev].
    + rewrite Ev. rewrite decide_False by done. rewrite decide_True by by left.
      apply same_page in Ev as [E3 E0].
      assert (leaf (words st) tabs va' = Some e) as ->; [|done].
      rewrite <- Hl. unfold leaf, leaf_addr. by rewrite E3, E0.
    + destruct (decide (page_no va' ∈ page_list (a + 4096) (Z.of_nat n))) as [Hin|Hin].
      * by rewrite decide_True by by right.
      * rewrite decide_False; [done|]. by intros [?|?]%elem_of_cons.
Qed.

(** Over a range whose tables exist and with no large page, [updatepages]
    returns 0 and replaces exactly the write, user and execute-disable bits of
    the leaf entries of the range; every other leaf entry is untouched. *)
Lemma updatepages_sets_flags root tabs st va sz flags :
  let a := va - va mod 4096 in
  let N := page_span va sz in
  let xf := vmflag_to_x86flag (nx_flag_enabled st) flags in
  vm_ok ok root tabs st → 0 ≤ va → 0 < sz → N ≤ 2 ^ 36 → va + sz - 1 < 2 ^ 64 - 4096 →
  0 ≤ flags < 256 →
  (∀ k, 0 ≤ k < N → no_big (words st) tabs (a + 4096 * k) ∧ is_Some (leaf_addr tabs (a + 4096 * k))) →
  ∃ st', updatepages root va sz flags st = Done (0, st') ∧ vm_ok ok root tabs st' ∧
    pages st' = pages st ∧
    ∀ va', leaf (words st') tabs va' =
      if decide (page_no va' ∈ page_list a N)
      then updated_entry xf <$> leaf (words st) tabs va' else leaf (words st) tabs va'.
Proof.
  intros a N xf Hok Hva Hsz HN He Hfl Hnb.
  assert (HN0 : 0 ≤ N) by (unfold N, page_span; lia_div).
  assert (Hend : a + N * 4096 < 2 ^ 64) by (unfold a, N, page_span; lia_div).
  unfold updatepages. step. rewrite (PAGE_START_eq va) by (unfold u64p; lia_div).
  rewrite span_end by lia. fold a N xf. rewrite page_fuel_eq by done.
  pose proof (update_loop_spec (Z.to_nat N) root tabs st a xf Hok) as Hl.
  rewrite Z2Nat.id in Hl by done. apply Hl; try done.
  - unfold a. lia_div.
  - unfold a. lia_div.
  - by apply x86flag_u64.
Qed.

(** [map_higher_half] entry by entry. *)
Lemma map_higher_spec n kp pt i st :
  is_table kp → is_table pt → kp ≠ pt → 0 ≤ i → i + Z.of_nat n = 512 →
  (∀ j, 0 ≤ j < 512 → is_Some (words st !! (kp + 8 * j)) ∧ is_Some (words st !! (pt + 8 * j))) →
  ∃ st', map_higher_loop n pt kp i st = Done (tt, st') ∧ (pages st' = pages st ∧ nx_flag_enabled st' = nx_flag_enabled st) ∧
    (∀ j, i ≤ j < 512 → words st' !! (pt + 8 * j) = words st !! (kp + 8 * j)) ∧
    (∀ x, (∀ j, i ≤ j < 512 → x ≠ pt + 8 * j) → words st' !! x = words st !! x).
Proof.
  intros Hk Hp Hne. revert st i. induction n as [|n IH]; intros st i Hi Hin Hw.
  { exists st. split_and!; try done. intros j ?. lia. }
  destruct (Hw i) as [[e He] [e' He']]; [lia|].
  cbn [map_higher_loop]. rewrite !entry_at_eq by (done || lia).
  rewrite (bind_done _ _ _ _ _ (rd_run st _ e He)). rewrite (bind_done _ _ _ _ _ (wr_run st _ e _ He')).
  assert (Hdis : ∀ j, 0 ≤ j < 512 → pt + 8 * i ≠ kp + 8 * j).
  { intros j Hj E. destruct (entry_inj pt kp i j Hp Hk) as [? _]; [lia|done|done|]. done. }
  destruct (IH (mk_vm (<[pt + 8 * i := e]> (words st)) (pages st) (nx_flag_enabled st)) (i + 1))
    as (st' & E & Hps & Hc & Ho); [lia|lia| |].
  { intros j Hj. cbn [words]. rewrite (lookup_insert_ne _ _ (kp + 8 * j)) by (by apply Hdis).
    destruct (decide (j = i)) as [->|]; [rewrite lookup_insert_eq|rewrite lookup_insert_ne by lia].
    - split; [apply Hw; lia|eauto].
    - by apply Hw. }
  exists st'. split_and!; [done|apply Hps|apply Hps| |].
  - intros j Hj. destruct (decide (j = i)) as [->|].
    + rewrite Ho by (intros; lia). cbn [words]. by rewrite lookup_insert_eq, He.
    + rewrite Hc by lia. cbn [words]. apply lookup_insert_ne, Hdis. lia.
  - intros x Hx. rewrite Ho by (intros; apply Hx; lia). cbn [words]. apply lookup_insert_ne.
    intros <-. by apply (Hx i); [lia|].
Qed.
End mapping.

(** ** An empty address space *)

Lemma empty_root_wf r : is_table r → pt_wf (zero_words r) r {[ [] := r ]}.
Proof.
  intros Hr. assert (Hl : ∀ p (a : Z), ({[ [] := r ]} : gmap (list Z) Z) !! p = Some a → p = [] ∧ a = r).
  { intros p a [<- <-]%lookup_singleton_Some. done. }
  assert (Hz : ∀ i, 0 ≤ i < 512 → zero_words r !! (r + 8 * i) = Some 0).
  { intros i Hi. rewrite zero_words_lookup by done. by rewrite decide_True. }
  split.
  - apply lookup_singleton_eq.
  - intros p a [-> ->]%Hl. split; [simpl; lia|done].
  - intros p a i [-> ->]%Hl Hi. exists 0. split; [by apply Hz|unfold u64p; lia].
  - intros p a i e b _ _ [E _]%Hl. by destruct p.
  - intros p i a [E _]%Hl. by destruct p.
  - intros p q a [-> _]%Hl [-> _]%Hl. done.
Qed.

Lemma empty_root_no_big r va : is_table r → no_big (zero_words r) {[ [] := r ]} va.
Proof.
  intros Hr q i l a e Hq [<- <-]%lookup_singleton_Some.
  rewrite zero_words_lookup; [|done|done|].
  - rewrite decide_True by done. by intros [= <-].
  - apply (leaf_path_range va). rewrite Hq. by left.
Qed.

Definition ex_root : Z := PHYSICAL_OFFSET + 0x1000.
Definition ex_frames : list Z := [0x2000; 0x3000; 0x4000; 0x5000; 0x6000; 0x7000].
Definition ex_vm : vm (list Z) := mk_vm (zero_words ex_root) ex_frames true.

Lemma ex_root_table : is_table ex_root.
Proof. unfold is_table, ex_root, PHYSICAL_OFFSET. by vm_compute. Qed.

Lemma ex_vm_ok : vm_ok list_pages_ok ex_root {[ [] := ex_root ]} ex_vm.
Proof.
  split; simpl.
  - apply empty_root_wf, ex_root_table.
  - split; [apply (bool_decide_unpack _); by vm_compute|]. repeat constructor; by vm_compute.
  - intros x q Hx [<- E]%lookup_singleton_Some. unfold ex_root in E.
    assert (x = 0x1000) as -> by lia. revert Hx. apply (bool_decide_unpack _). by vm_compute.
Qed.

Lemma mappages_all_or_nothing_witness :
  let va := 0x200010 in let sz := 0x1000 in let pa := 0x8000 in
  let a := va - va mod 4096 in
  let b := pa - pa mod 4096 in
  let N := page_span va sz in
  let tabs := {[ [] := ex_root ]} in
  let xf := vmflag_to_x86flag (nx_flag_enabled ex_vm) 3 in
  ∃ r st' tabs', mappages ex_root va sz pa 3 ex_vm = Done (r, st') ∧
    vm_ok list_pages_ok ex_root tabs' st' ∧
    ((r = 0 ∧ mapped_upto (mapped (words ex_vm) tabs) a b xf N (mapped (words st') tabs')) ∨
     (r = -1 ∧ ∀ v, mapped (words st') tabs' v = mapped (words ex_vm) tabs v)) ∧
    ((∀ k, 0 ≤ k < N → mapped (words ex_vm) tabs (a + 4096 * k) = None) →
     (3 * Z.to_nat N ≤ length (free_pages (pages ex_vm)))%nat → r = 0).
Proof.
  intros va sz pa a b N tabs xf.
  refine (mappages_all_or_nothing list_pages_ok (λ _, phys_page) ex_root tabs ex_vm va sz pa 3
    ex_vm_ok _ _ _ _ _ _ _ _).
  1-7: by vm_compute.
  intros k _. apply empty_root_no_big, ex_root_table.
Defined.

(** The pages left after the tables of [0x200000] were made. *)
Definition ex_left (r : res (Z * vm (list Z))) : list Z :=
  match r with Done (_, s) => pages s | _ => [] end.

Lemma ex_left_eq : ex_left (walk ex_root 0x200000 true ex_vm) = [0x5000; 0x6000; 0x7000].
Proof. vm_compute. reflexivity. Qed.

Lemma unmappages_frees_stale_frame_witness :
  ∃ st st' : vm (list Z), unmappages ex_root 0x200000 4096 true st = Done (0, st') ∧
    free_pages (pages st) = [0x5000; 0x6000; 0x7000] ∧
    free_pages (pages st') = [0x9000; 0x5000; 0x6000; 0x7000].
Proof.
  destruct (walk_alloc list_pages_ok (λ _, phys_page) ex_root {[ [] := ex_root ]} ex_vm 0x200000 ex_vm_ok)
    as (d & st & tabs & E & Hok & Hg & _ & Hd & _).
  { apply empty_root_no_big, ex_root_table. }
  pose proof ex_left_eq as Hp. rewrite E in Hp. simpl in Hp.
  assert (Hd' : leaf_addr tabs 0x200000 = Some d) by (apply Hd; simpl; lia).
  assert (Hnb : no_big (words st) tabs 0x200000)
    by apply (gr_calm _ _ _ _ Hg), empty_root_no_big, ex_root_table.
  clear E Hg Hd. exists (with_word d 0x9000 st).
  destruct (unmappages_frees_stale_frame list_pages_ok (λ _, phys_page) ex_root tabs
    (with_word d 0x9000 st) 0x200000 d 0x9000) as (st' & E' & Hf & _).
  - refine (vm_ok_write _ _ _ _ _ _ _ Hok Hd' _). by vm_compute.
  - exact (write_leaf_no_big _ _ _ _ _ _ (vo_wf _ _ _ _ Hok) Hd' _ Hnb).
  - lia.
  - by vm_compute.
  - exact Hd'.
  - apply lookup_insert_eq.
  - by vm_compute.
  - by vm_compute.
  - simpl. rewrite Hp. apply (bool_decide_unpack _). by vm_compute.
  - exists st'. split; [done|]. simpl in *. rewrite Hp in *. done.
Defined.

Lemma updatepages_sets_flags_witness :
  ∃ (st st' : vm (list Z)) tabs, updatepages ex_root 0x200000 4096 1 st = Done (0, st') ∧
    leaf (words st') tabs 0x200123
    = updated_entry (vmflag_to_x86flag (nx_flag_enabled st) 1) <$> leaf (words st) tabs 0x200123.
Proof.
  destruct (walk_alloc list_pages_ok (λ _, phys_page) ex_root {[ [] := ex_root ]} ex_vm 0x200000 ex_vm_ok)
    as (d & st & tabs & _ & Hok & Hg & _ & Hd & _).
  { apply empty_root_no_big, ex_root_table. }
  assert (Hd' : leaf_addr tabs 0x200000 = Some d) by (apply Hd; simpl; lia).
  assert (Hnb : no_big (words st) tabs 0x200000)
    by apply (gr_calm _ _ _ _ Hg), empty_root_no_big, ex_root_table.
  clear Hg Hd. exists st.
  destruct (updatepages_sets_flags list_pages_ok ex_root tabs st 0x200000 4096 1)
    as (st' & E & _ & _ & Hl).
  - exact Hok.
  - lia.
  - lia.
  - by vm_compute.
  - lia.
  - lia.
  - intros k Hk. assert (k = 0) as ->.
    { change (page_span 2097152 4096) with 1 in Hk. lia. }
    split; [exact Hnb|exists d; exact Hd'].
  - exists st', tabs. split; [exact E|]. by rewrite Hl.
Defined.
