(* ===== verification/VmType.v ===== *)
(** * The type of the page tables

    Every operation of vm.c, whatever its arguments and whether it succeeds or
    unwinds, leaves memory an array of aligned 64-bit words: the unions
    [pml4e_t], [pdpte_t] and [pte_t] never hold more than their raw word, and
    no address that is handed on exceeds 64 bits. *)
From S2P Require Import Prelude.
From S2P Require Import Interfaces.
From S2P Require Import Layout.
From S2P Require Import Vm.
From S2P Require Import VmWalk.

Section typing.
Context {P : Type} `{!PageAllocator P}.
Implicit Type s : vm P.
(** An invariant of the allocator: [kalloc] returns a page or null. *)
Context (pg : P → Prop).
Hypothesis kalloc_type : ∀ p x p', pg p → kalloc p = Done (x, p') → pg p' ∧ (x = 0 ∨ phys_page x).
Hypothesis kfree_type : ∀ p x p', pg p → kfree x p = Done (tt, p') → pg p'.

Definition words_typed s : Prop := map_Forall (λ a v, u64p a ∧ a mod 8 = 0 ∧ u64p v) (words s) ∧ pg (pages s).

(** [m] keeps the words typed, and what it returns satisfies [Q]. *)
Definition typed {A} (m : M (vm P) A) (Q : A → Prop) : Prop :=
  ∀ s a s', words_typed s → m s = Done (a, s') → words_typed s' ∧ Q a.

Lemma typed_ret {A} (a : A) (Q : A → Prop) : Q a → typed (mret a) Q.
Proof. intros Hq s a' s' Hs [= <- <-]. done. Qed.

Lemma typed_bind {A B} (m : M (vm P) A) (f : A → M (vm P) B) Q R : typed m Q → (∀ a, Q a → typed (f a) R) → typed (m ≫= f) R.
Proof. intros Hm Hf s b s' Hs (a & s1 & E1 & E2)%bind_inv. destruct (Hm s a s1 Hs E1) as [Hs1 Ha]. by apply (Hf a Ha s1). Qed.

Lemma typed_weaken {A} (m : M (vm P) A) (Q R : A → Prop) : typed m Q → (∀ a, Q a → R a) → typed m R.
Proof. intros Hm Hw s a s' Hs E1. destruct (Hm s a s' Hs E1). auto. Qed.

Lemma typed_true {A} (m : M (vm P) A) Q : typed m Q → typed m (λ _, True).
Proof. intros Hm. by eapply typed_weaken. Qed.

Lemma typed_fail {A} (m : M (vm P) A) Q : (∀ s r, m s ≠ Done r) → typed m Q.
Proof. intros Hm s a s' _ E1. by destruct (Hm s (a, s')). Qed.

Lemma typed_gets {A} (f : vm P → A) : typed (gets f) (λ _, True).
Proof. by intros s a s' Hs [= <- <-]. Qed.

Lemma typed_rd a : typed (rd a) u64p.
Proof.
  intros s v s' Hs E1. unfold rd, getf in E1. destruct (words s !! a) as [v'|] eqn:Ea; [|done]. injection E1 as <- <-.
  split; [done|]. by apply (map_Forall_lookup_1 _ _ _ _ (proj1 Hs) Ea).
Qed.

Lemma typed_wr a v : u64p v → typed (wr a v) (λ _, True).
Proof.
  intros Hv s [] s' [Hs Hpg] E1. unfold wr, modifyf in E1. destruct (words s !! a) as [v'|] eqn:Ea; [|done]. injection E1 as <-.
  split; [|done]. split; [|done]. cbn. apply map_Forall_insert_2; [|done].
  destruct (map_Forall_lookup_1 _ _ _ _ Hs Ea) as (? & ? & _). done.
Qed.

Lemma typed_kalloc : typed (on_pages kalloc) (λ x, x = 0 ∨ phys_page x).
Proof.
  intros s x s' [Hs Hpg] E1. unfold on_pages, zoom in E1. destruct (kalloc (pages s)) as [[y p]| | |] eqn:Ek; simplify_eq.
  by destruct (kalloc_type _ _ _ Hpg Ek).
Qed.

Lemma typed_kfree x : typed (on_pages (kfree x)) (λ _, True).
Proof.
  intros s [] s' [Hs Hpg] E1. unfold on_pages, zoom in E1. destruct (kfree x (pages s)) as [[[] p]| | |] eqn:Ek; simplify_eq.
  split; [|done]. split; [done|]. by apply (kfree_type _ _ _ Hpg Ek).
Qed.

Lemma typed_zero_page x : phys_page x → typed (zero_page (x +64 PHYSICAL_OFFSET)) (λ _, True).
Proof.
  intros [Hx Hr] s [] s' [Hs Hpg] E1. unfold zero_page in E1. injection E1 as <-. split; [|done]. split; [|done]. cbn.
  apply map_Forall_union_2; [|done]. intros a v Ha. unfold zero_words in Ha.
  apply elem_of_list_to_map_2, list_elem_of_fmap in Ha as (i & [= -> ->] & Hi%elem_of_seq).
  rewrite w64_small by (unfold PHYSICAL_OFFSET; lia). unfold u64p, PHYSICAL_OFFSET. split_and!; try lia. lia_div.
Qed.

Lemma page_u64 x : phys_page x → u64p x.
Proof. intros [_ ?]. unfold u64p. lia. Qed.

#[local] Hint Resolve typed_rd typed_wr typed_kalloc typed_kfree typed_gets typed_zero_page page_u64 lor_u64 land_u64 : typing.
#[local] Hint Extern 1 (u64p (set_present _ _)) => apply set_bit_u64; [lia|] : typing.
#[local] Hint Extern 1 (u64p (set_writable _ _)) => apply set_bit_u64; [lia|] : typing.
#[local] Hint Extern 1 (u64p (set_user_page _ _)) => apply set_bit_u64; [lia|] : typing.
#[local] Hint Extern 1 (u64p (w64 _)) => apply w64_range : typing.
#[local] Hint Extern 1 (u64p (entry_at _ _)) => apply w64_range : typing.
#[local] Hint Extern 1 (u64p 0) => done : typing.

(** One statement at a time. *)
Ltac ty :=
  repeat first
    [ progress intros
    | match goal with
      | |- typed (mbind _ _) _ => eapply typed_bind; [solve [eauto with typing]|]; cbv beta
      | |- typed (mret _) _ => apply typed_ret; auto with typing
      | |- typed (if decide ?Q then _ else _) _ => destruct (decide Q)
      | |- typed (if ?b then _ else _) _ => destruct b
      | |- typed panic _ => by apply typed_fail
      | |- typed out_of_fuel _ => by apply typed_fail
      end
    | solve [eauto with typing] ].

Lemma typed_walk_from l pt va alloc : typed (walk_from l pt va alloc) u64p.
Proof.
  revert pt. induction l as [|l IH]; intros pt; cbn [walk_from]; [ty|]. ty.
  match goal with Hk : _ ∨ phys_page _ |- _ => destruct Hk as [|Hp]; [done|] end. ty.
Qed.
Lemma typed_walk pt va alloc : typed (walk pt va alloc) u64p.
Proof. apply typed_walk_from. Qed.
#[local] Hint Resolve typed_walk : typing.

Lemma typed_freewalk_entries child leaf table n :
  (∀ c, typed (child c) (λ _, True)) → typed (freewalk_entries child leaf table n) (λ _, True).
Proof. intros Hc. induction n as [|n IH]; cbn [freewalk_entries]; ty. eapply (typed_bind _ _ (λ _, True)); ty. Qed.
Lemma typed_freewalk l table : typed (freewalk l table) (λ _, True).
Proof. revert table. induction l as [|l IH]; intros table; cbn [freewalk]; apply typed_freewalk_entries; ty. Qed.

Lemma typed_unmap_loop fuel pt current till free : typed (unmap_loop fuel pt current till free) (λ _, True).
Proof.
  revert current. induction fuel as [|fuel IH]; intros current; cbn [unmap_loop]; ty.
  eapply (typed_bind _ _ (λ _, True)); [|by ty]. ty. eapply (typed_bind _ _ (λ _, True)); ty.
Qed.
Lemma typed_unmappages pt va sz free : typed (unmappages pt va sz free) (λ _, True).
Proof. unfold unmappages. eapply typed_bind; [apply typed_unmap_loop|]. ty. Qed.
#[local] Hint Resolve typed_unmappages : typing.

Lemma x86flags_typed nx flag : u64p (vmflag_to_x86flag nx flag).
Proof. unfold vmflag_to_x86flag. apply lor_u64; [|apply w64_range]. by destruct (_ && _). Qed.

Lemma typed_map_loop fuel pt va current pa till flags :
  u64p pa → u64p flags → typed (map_loop fuel pt va current pa till flags) (λ _, True).
Proof.
  revert current pa. induction fuel as [|fuel IH]; intros current pa Hpa Hf; cbn [map_loop]; ty.
  eapply (typed_bind _ _ (λ _, True)); [by ty|]. ty.
Qed.

Lemma typed_update_loop fuel pt current till flags : u64p flags → typed (update_loop fuel pt current till flags) (λ _, True).
Proof. intros Hf. revert current. induction fuel as [|fuel IH]; intros current; cbn [update_loop]; ty. Qed.

Lemma typed_map_higher_loop n pt kpt i : typed (map_higher_loop n pt kpt i) (λ _, True).
Proof. revert i. induction n as [|n IH]; intros i; cbn [map_higher_loop]; ty. Qed.

(** The operations of vm.c on the tables, with their arguments. *)
Inductive table_op :=
| Walk (pagetable va : Z) (alloc : bool)
| Mappages (pagetable va sz pa flags : Z)
| Updatepages (pagetable va sz flags : Z)
| Unmappages (pagetable va sz : Z) (free : bool)
| MapHigherHalf (kernel_pml4 pt_addr : Z)
| Freewalk (table : Z).
Definition table_run (o : table_op) : M (vm P) Z :=
  match o with
  | Walk pt va alloc => walk pt va alloc
  | Mappages pt va sz pa flags => mappages pt va sz pa flags
  | Updatepages pt va sz flags => updatepages pt va sz flags
  | Unmappages pt va sz free => unmappages pt va sz free
  | MapHigherHalf k pt => map_higher_half k pt;; mret 0
  | Freewalk table => freewalk 3 table;; mret 0
  end.
Fixpoint tables_run (l : list table_op) : M (vm P) unit :=
  match l with [] => mret tt | o :: l => table_run o;; tables_run l end.

Lemma typed_op o : typed (table_run o) (λ _, True).
Proof.
  destruct o; cbn [table_run].
  - apply (typed_true _ u64p), typed_walk.
  - unfold mappages. ty. apply typed_map_loop; [apply w64_range|apply x86flags_typed].
  - unfold updatepages. ty. apply typed_update_loop, x86flags_typed.
  - apply typed_unmappages.
  - unfold map_higher_half. eapply typed_bind; [apply typed_map_higher_loop|]. ty.
  - eapply typed_bind; [apply typed_freewalk|]. ty.
Qed.

Lemma typed_ops l : typed (tables_run l) (λ _, True).
Proof. induction l as [|o l IH]; cbn [tables_run]; [ty|]. eapply typed_bind; [apply typed_op|]. auto. Qed.

(** Memory stays an array of aligned 64-bit words through every sequence of
    operations on page tables, whatever their arguments: [walk], [mappages]
    with its unwinding, [updatepages], [unmappages], [map_higher_half] and
    [freewalk]. *)
Lemma tables_stay_typed l s s' : words_typed s → tables_run l s = Done (tt, s') → words_typed s'.
Proof. intros Hs E1. by destruct (typed_ops l s tt s' Hs E1). Qed.
End typing.

(** ** An example: a page mapped, its rights changed, and unmapped *)

(** Pages handed out from an address upwards. *)
Definition above (p : Z) : Prop := p mod 4096 = 0 ∧ 0 < p.
#[local] Instance rising_pages : PageAllocator Z := {|
  kalloc := λ p, if decide (p < 0x10000) then Done (p, p + 4096) else Done (0, p);
  kfree := λ _ p, Done (tt, p);
  free_pages := λ _, [];
|}.
Definition typed_ops0 : list table_op :=
  [Mappages (PHYSICAL_OFFSET + 0x1000) 0x400000 4096 0xb8000 1; Updatepages (PHYSICAL_OFFSET + 0x1000) 0x400000 4096 4;
   Walk (PHYSICAL_OFFSET + 0x1000) 0x400000 false; Unmappages (PHYSICAL_OFFSET + 0x1000) 0x400000 4096 true].
Definition typed_vm0 : vm Z := mk_vm (zero_words (PHYSICAL_OFFSET + 0x1000)) 0x2000 true.

Lemma tables_stay_typed_witness : ∃ s', tables_run typed_ops0 typed_vm0 = Done (tt, s') ∧ words_typed above s'.
Proof.
  destruct (tables_run typed_ops0 typed_vm0) as [[[] s']| | |] eqn:E1.
  2-4: exfalso; assert (match tables_run typed_ops0 typed_vm0 with Done _ => true | _ => false end = true) as Hd by (by vm_compute); by rewrite E1 in Hd.
  exists s'. split; [reflexivity|]. refine (tables_stay_typed above _ _ typed_ops0 typed_vm0 s' _ E1).
  - clear E1. intros p x p' [Hp H0] Ek. cbn in Ek. case_decide; simplify_eq; (split; [|]).
    + split; [lia_div|lia].
    + right. split; [done|lia].
    + done.
    + by left.
  - clear E1. intros p x p' Hp Ek. cbn in Ek. by simplify_eq.
  - clear E1. split; [|done]. intros a v Ha. cbn in Ha. unfold zero_words in Ha.
    apply elem_of_list_to_map_2, list_elem_of_fmap in Ha as (i & [= -> ->] & Hi%elem_of_seq).
    unfold u64p, PHYSICAL_OFFSET. split_and!; try lia. lia_div.
Defined.
