(* ===== verification/PageMap.v ===== *)
(** * The page tables as a map of pages

    The rights [updatepages] sets, and the refinement of a map from pages to
    entries by every sequence of changes to the lower half of an address
    space. *)
From S2P Require Import Prelude.
From S2P Require Import Interfaces.
From S2P Require Import Layout.
From S2P Require Import Vm.
From S2P Require Import VmWalk.
From S2P Require Import VmMap.

(** ** Rights of a page *)

(** The bits of a leaf entry: writable, user, no execution. *)
Definition e_write (e : Z) : bool := Z.testbit e 1.
Definition e_user (e : Z) : bool := Z.testbit e 2.
Definition e_nx (e : Z) : bool := Z.testbit e 63.

Lemma kept_bits n : 0 ≤ n → Z.testbit (w64 (Z.lnot PAGE_FLAG_MASK)) n = bool_decide (n = 0 ∨ 3 ≤ n < 63).
Proof.
  intros Hn. change (w64 (Z.lnot PAGE_FLAG_MASK)) with (Z.lor 1 (Z.shiftl (Z.ones 60) 3)).
  rewrite Z.lor_spec, Z.shiftl_spec by lia. change 1 with (2 ^ 0) at 1. rewrite Z.pow2_bits_eqb by lia.
  destruct (decide (n < 3)) as [Hlt|Hge].
  - rewrite (Z.testbit_neg_r _ (n - 3)), orb_false_r by lia. apply eq_true_iff_eq. rewrite Z.eqb_eq, bool_decide_eq_true. lia.
  - rewrite Z.testbit_ones_nonneg by lia. apply eq_true_iff_eq. rewrite orb_true_iff, Z.eqb_eq, Z.ltb_lt, bool_decide_eq_true. lia.
Qed.

Lemma updated_bit xf e n : 0 ≤ n → Z.testbit (updated_entry xf e) n =
  (Z.testbit e n && bool_decide (n = 0 ∨ 3 ≤ n < 63)) || Z.testbit xf n.
Proof. intros Hn. unfold updated_entry. by rewrite Z.lor_spec, Z.land_spec, kept_bits. Qed.

(** Flags do not reach the bits of the frame. *)
Lemma x86flag_high nx flags n : 12 ≤ n < 51 → Z.testbit (vmflag_to_x86flag nx flags) n = false.
Proof.
  intros Hn. unfold vmflag_to_x86flag. rewrite Z.lor_spec, orb_false_iff. split.
  - destruct (nx && _); [|apply Z.bits_0]. rewrite Z.lor_0_l, Z.shiftl_1_l, Z.pow2_bits_eqb by lia. apply Z.eqb_neq. lia.
  - assert (0 ≤ Z.land flags 3 < 2 ^ 2) as Hl.
    { change 3 with (Z.ones 2). rewrite Z.land_ones by lia. apply Z.mod_pos_bound. lia. }
    change (Z.lor MEMORY_FLAG_WRITE MEMORY_FLAG_USER) with 3. rewrite Z.shiftl_mul_pow2, w64_small by lia.
    rewrite <- (Z.mod_small (Z.land flags 3 * 2 ^ 1) (2 ^ 3)) by lia. apply Z.mod_pow2_bits_high. lia.
Qed.

(** The rights of [flags] replace those of the entry; its frame stays. *)
Lemma updated_frame nx flags e : pd_addr (updated_entry (vmflag_to_x86flag nx flags) e) = pd_addr e.
Proof.
  unfold pd_addr. apply Z.bits_inj'. intros n Hn. rewrite !Z.land_spec, !Z.shiftr_spec by lia.
  destruct (decide (n < 39)) as [Hl|Hl]; [|rewrite (Z.ones_spec_high 39 n) by lia; by rewrite !andb_false_r].
  rewrite updated_bit, x86flag_high, orb_false_r by lia. by rewrite bool_decide_eq_true_2, andb_true_r by lia.
Qed.

(** The rights of memory flags, without and with the execute-disable bit. *)
Lemma flag_rights nx flags :
  0 ≤ flags < 8 →
  let x := vmflag_to_x86flag nx flags in
  Z.testbit x 0 = false ∧ e_write x = Z.testbit flags 0 ∧ e_user x = Z.testbit flags 1 ∧ e_nx x = nx && negb (Z.testbit flags 2).
Proof.
  intros Hf. assert (flags = 0 ∨ flags = 1 ∨ flags = 2 ∨ flags = 3 ∨ flags = 4 ∨ flags = 5 ∨ flags = 6 ∨ flags = 7) as Hc by lia.
  destruct nx; repeat destruct Hc as [->|Hc]; try subst flags; by vm_compute.
Qed.

Lemma updated_rights nx flags e :
  0 ≤ flags < 8 →
  let x := updated_entry (vmflag_to_x86flag nx flags) e in
  present x = present e ∧ e_write x = Z.testbit flags 0 ∧ e_user x = Z.testbit flags 1 ∧ e_nx x = nx && negb (Z.testbit flags 2).
Proof.
  intros Hf x. destruct (flag_rights nx flags Hf) as (H0 & H1 & H2 & H3).
  unfold present, e_write, e_user, e_nx, x in *. rewrite !updated_bit, H0, H1, H2, H3 by lia.
  rewrite bool_decide_eq_true_2, !bool_decide_eq_false_2 by lia. by rewrite andb_true_r, orb_false_r, !andb_false_r.
Qed.

(** ** Changing the rights of an area *)

Section tables.
Context {P : Type} `{!PageAllocator P} (ok : P → Prop) (managed : P → Z → Prop) `{!PageAllocatorLaws P ok managed}.

(** One page whose table exists. *)
Lemma update_one_mapped root tabs (st : vm P) a d e xf va' :
  vm_ok ok root tabs st → leaf_addr tabs a = Some d → words st !! d = Some e → present (updated_entry xf e) = present e →
  mapped (words (with_word d (updated_entry xf e) st)) tabs va' =
    if decide (page_no va' = page_no a) then updated_entry xf <$> mapped (words st) tabs va' else mapped (words st) tabs va'.
Proof.
  intros Hok Hd He Hp. unfold mapped. unfold with_word. cbn [words].
  rewrite (write_leaf_leaf _ _ _ _ _ _ (vo_wf _ _ _ _ Hok) Hd).
  destruct (decide (page_no va' = page_no a)) as [Ep|Ep]; [|done].
  assert (leaf (words st) tabs va' = Some e) as ->.
  { unfold leaf, leaf_addr. apply same_page in Ep as [-> ->]. unfold leaf_addr in Hd. by rewrite Hd. }
  rewrite Hp. by destruct (present e).
Qed.

(** The walk of [update_loop] over [n] pages from [a]: it stops at the first
    page without a table.  Entries that are there keep their frame. *)
Record updated (xf a : Z) (n : nat) (tabs : gmap (list Z) Z) (st st' : vm P) : Prop := mk_updated {
  up_pages : pages st' = pages st;
  up_nx : nx_flag_enabled st' = nx_flag_enabled st;
  up_calm : calm (words st) tabs (words st') tabs;
  up_either va : mapped (words st') tabs va = mapped (words st) tabs va ∨ mapped (words st') tabs va = updated_entry xf <$> mapped (words st) tabs va;
  up_out va : page_no va ∉ page_list a (Z.of_nat n) → mapped (words st') tabs va = mapped (words st) tabs va;
  up_in j : 0 ≤ j < Z.of_nat n → (∀ k, 0 ≤ k ≤ j → mapped (words st) tabs (a + 4096 * k) ≠ None) →
    mapped (words st') tabs (a + 4096 * j) = updated_entry xf <$> mapped (words st) tabs (a + 4096 * j);
}.

Lemma updated_none xf a n tabs st : mapped (words st) tabs a = None ∨ n = 0%nat → updated xf a n tabs st st.
Proof.
  intros Hn. split; try done; [by left|]. intros j Hj Hk. destruct Hn as [Hn|Hn]; [|subst n; cbn in Hj; lia].
  destruct (Hk 0); [lia|]. by rewrite Z.mul_0_r, Z.add_0_r.
Qed.

Lemma page_step a n : 0 ≤ a → a mod 4096 = 0 → Z.of_nat n < 2 ^ 36 → page_no a ∉ page_list (a + 4096) (Z.of_nat n).
Proof.
  intros Ha Hal Hn. rewrite elem_of_page_list. intros (k & Hk & Ek).
  replace (a + 4096 + 4096 * k) with (a + 4096 * (k + 1)) in Ek by lia.
  replace a with (a + 4096 * 0) in Ek at 1 by lia. apply page_no_inj in Ek; lia.
Qed.

Lemma updated_cons root xf a n tabs (st st2 : vm P) d e :
  vm_ok ok root tabs st → 0 ≤ a → a mod 4096 = 0 → Z.of_nat n < 2 ^ 36 → Z.testbit xf 0 = false →
  leaf_addr tabs a = Some d → words st !! d = Some e →
  updated xf (a + 4096) n tabs (with_word d (updated_entry xf e) st) st2 → updated xf a (S n) tabs st st2.
Proof.
  intros Hok Ha Hal Hn Hxf Hd He [P2 N2 B2 E2 O2 I2].
  assert (present (updated_entry xf e) = present e) as Hp.
  { unfold present. rewrite updated_bit, Hxf, orb_false_r by lia. by rewrite bool_decide_eq_true_2, andb_true_r by lia. }
  pose proof (λ va', update_one_mapped root tabs st a d e xf va' Hok Hd He Hp) as H1.
  set (st1 := with_word d (updated_entry xf e) st) in *. pose proof (page_step a n Ha Hal Hn) as Hni.
  assert (∀ va, page_no va = page_no a → mapped (words st2) tabs va = updated_entry xf <$> mapped (words st) tabs va) as Hfirst.
  { intros va Ev. rewrite O2 by (by rewrite Ev). by rewrite H1, decide_True. }
  replace (Z.of_nat (S n)) with (Z.of_nat n + 1) by lia.
  split; try done; rewrite ?page_list_S by lia.
  - eapply calm_trans; [|exact B2]. by eapply write_leaf_calm; [apply (vo_wf _ _ _ _ Hok)|..].
  - intros va. destruct (decide (page_no va = page_no a)) as [Ev|Ev]; [right; by apply Hfirst|].
    specialize (E2 va). rewrite H1, decide_False in E2 by done. done.
  - intros va. replace (Z.of_nat (S n)) with (Z.of_nat n + 1) by lia. rewrite page_list_S by lia. intros [Hv1 Hv2]%not_elem_of_cons.
    rewrite O2 by done. by rewrite H1, decide_False.
  - intros j Hj Hk. destruct (decide (j = 0)) as [->|Hj0]; [apply Hfirst; by rewrite Z.mul_0_r, Z.add_0_r|].
    assert (∀ k, 0 ≤ k < Z.of_nat n → mapped (words st1) tabs (a + 4096 + 4096 * k) = mapped (words st) tabs (a + 4096 * (k + 1))) as Hsh.
    { intros k Hkk. replace (a + 4096 + 4096 * k) with (a + 4096 * (k + 1)) by lia. rewrite H1, decide_False; [done|].
      intros Ep. apply Hni. rewrite <- Ep. apply elem_of_page_list. exists k. split; [lia|]. f_equal. lia. }
    specialize (I2 (j - 1)). rewrite Hsh in I2 by lia. replace (j - 1 + 1) with j in I2 by lia.
    replace (a + 4096 * j) with (a + 4096 + 4096 * (j - 1)) at 1 by lia. apply I2; [lia|].
    intros k Hkk. rewrite Hsh by lia. apply Hk. lia.
Qed.

Lemma update_loop_any n root tabs (st : vm P) a xf :
  vm_ok ok root tabs st → 0 ≤ a → a mod 4096 = 0 → Z.of_nat n ≤ 2 ^ 36 → a + Z.of_nat n * 4096 < 2 ^ 64 → u64p xf →
  Z.testbit xf 0 = false → (∀ k, 0 ≤ k < Z.of_nat n → no_big (words st) tabs (a + 4096 * k)) →
  ∃ r st', update_loop n root a (a + Z.of_nat n * 4096 - 1) xf st = Done (r, st') ∧ vm_ok ok root tabs st' ∧ updated xf a n tabs st st' ∧
    ((∀ k, 0 ≤ k < Z.of_nat n → leaf_addr tabs (a + 4096 * k) ≠ None) → r = 0).
Proof.
  revert st a. induction n as [|n IH]; intros st a Hok Ha Hal Hn He Hxf H0 Hnb.
  { exists 0, st. cbn [update_loop]. rewrite decide_False by lia. split_and!; [done|done| |done]. apply updated_none. by right. }
  pose proof (Hnb 0 ltac:(lia)) as Hnb0. rewrite Z.mul_0_r, Z.add_0_r in Hnb0. pose proof (vo_wf _ _ _ _ Hok) as Hwf.
  cbn [update_loop]. rewrite decide_True by lia.
  rewrite (bind_done _ _ _ _ _ (walk_no_alloc root tabs st a Hwf Hnb0)).
  destruct (leaf_addr tabs a) as [d|] eqn:Hd; simpl default.
  2: { rewrite decide_True by done. exists 1, st. split_and!; [done|done|apply updated_none; left; unfold mapped, leaf; by rewrite Hd|].
       intros Hall. destruct (Hall 0); [lia|]. by rewrite Z.mul_0_r, Z.add_0_r. }
  rewrite decide_False by by eapply leaf_addr_nonzero.
  destruct (write_leaf_old _ _ _ _ _ 0 Hwf Hd) as (e & Hed & Hu & Hl).
  assert (Hu' : u64p (updated_entry xf e)) by (apply lor_u64; [by apply land_u64|done]).
  destruct (IH (with_word d (updated_entry xf e) st) (a + 4096)) as (r & st2 & E2 & Hok2 & Hup & Hr);
    try lia; [by eapply vm_ok_write|lia_div|done|done| |].
  { intros k Hk. replace (a + 4096 + 4096 * k) with (a + 4096 * (k + 1)) by lia. eapply write_leaf_no_big; [done..|]. apply Hnb. lia. }
  exists r, st2. split_and!; [|done|by eapply updated_cons; [..|exact Hup]; try done; lia|].
  2: { intros Hall. apply Hr. intros k Hk. replace (a + 4096 + 4096 * k) with (a + 4096 * (k + 1)) by lia. apply Hall. lia. }
  rewrite (bind_done _ _ _ _ _ (rd_run st d e Hed)).
  rewrite (bind_done _ _ _ _ _ (wr_run st d _ e Hed)).
  erewrite bind_done by (apply rd_run; cbn [words]; by rewrite lookup_insert_eq). cbv beta.
  erewrite bind_done by (eapply wr_run; cbn [words]; by rewrite lookup_insert_eq). cbv beta.
  cbn [words pages nx_flag_enabled]. rewrite insert_insert_eq.
  rewrite w64_small by (unfold PAGE_SIZE; lia). unfold PAGE_SIZE.
  replace (a + Z.of_nat (S n) * 4096 - 1) with (a + 4096 + Z.of_nat n * 4096 - 1) by lia. exact E2.
Qed.

(** [updatepages] over whole pages. *)
Lemma updatepages_any root tabs (st : vm P) a n flags :
  vm_ok ok root tabs st → 0 ≤ a → a mod 4096 = 0 → 0 < Z.of_nat n ≤ 2 ^ 36 → a + Z.of_nat n * 4096 < 2 ^ 64 → 0 ≤ flags < 8 →
  (∀ k, 0 ≤ k < Z.of_nat n → no_big (words st) tabs (a + 4096 * k)) →
  ∃ r st', updatepages root a (Z.of_nat n * 4096) flags st = Done (r, st') ∧ vm_ok ok root tabs st' ∧
    updated (vmflag_to_x86flag (nx_flag_enabled st) flags) a n tabs st st' ∧
    ((∀ k, 0 ≤ k < Z.of_nat n → leaf_addr tabs (a + 4096 * k) ≠ None) → r = 0).
Proof.
  intros Hok Ha Hal Hn He Hfl Hnb. unfold updatepages. step. rewrite (PAGE_START_eq a) by (unfold u64p; lia).
  replace (a - a mod 4096) with a by lia. rewrite w64_small by lia.
  rewrite PAGE_END_last by (try lia; rewrite Z.add_mod, Z.mod_mul, Hal by lia; done).
  rewrite page_fuel_eq, Nat2Z.id by lia.
  apply update_loop_any; try done; try lia; [apply x86flag_u64; lia|by apply flag_rights].
Qed.
End tables.

(** ** Any sequence of changes *)

(** A call on the address space: pages mapped, unmapped (their frames are
    kept), their rights changed. *)
Inductive map_op :=
  | MapPages (va sz pa flags : Z)
  | UnmapPages (va sz : Z)
  | UpdatePages (va sz flags : Z).

(** The pages of the range of [sz] bytes at [va]. *)
Abbreviation range_pages va sz := (page_list (va - va mod 4096) (page_span va sz)).
Definition range_ok (va sz : Z) : Prop := 0 ≤ va ∧ 0 < sz ∧ va + sz ≤ 2 ^ 47.
Definition op_ok (o : map_op) : Prop :=
  match o with
  | MapPages va sz pa flags => range_ok va sz ∧ 4096 ≤ va ∧ 0 ≤ pa < 2 ^ 52 ∧ 0 ≤ flags < 8
  | UnmapPages va sz => range_ok va sz
  | UpdatePages va sz flags => range_ok va sz ∧ va mod 4096 = 0 ∧ sz mod 4096 = 0 ∧ 0 ≤ flags < 8
  end.
(** Pages it maps. *)
Definition op_need (o : map_op) : nat := match o with MapPages va sz _ _ => Z.to_nat (page_span va sz) | _ => 0 end.

(** What a call that returns [r] does to the map [m] from addresses to the
    entry of their page; [enough] tells whether there is memory for tables.
    - Mapping succeeds exactly when no page of the range was mapped, and then
      maps them to consecutive frames with the rights asked for; otherwise
      nothing changes.
    - Unmapping removes the pages of the range.
    - The rights of pages in the range are replaced and their frames kept, all
      of them when the whole range is mapped; nothing else changes. *)
Definition map_step (nx : bool) (enough : Prop) (m : Z → option Z) (o : map_op) (r : Z) (m' : Z → option Z) : Prop :=
  match o with
  | MapPages va sz pa flags =>
      (r = 0 ∧ mapped_upto m (va - va mod 4096) (pa - pa mod 4096) (vmflag_to_x86flag nx flags) (page_span va sz) m') ∨
      (r = -1 ∧ (∀ v, m' v = m v) ∧ (enough → ¬ ∀ v, page_no v ∈ range_pages va sz → m v = None))
  | UnmapPages va sz => r = 0 ∧ ∀ v, m' v = if decide (page_no v ∈ range_pages va sz) then None else m v
  | UpdatePages va sz flags =>
      (∀ v, m' v = m v ∨ page_no v ∈ range_pages va sz ∧ m' v = updated_entry (vmflag_to_x86flag nx flags) <$> m v) ∧
      ((∀ v, page_no v ∈ range_pages va sz → m v ≠ None) →
        r = 0 ∧ ∀ v, page_no v ∈ range_pages va sz → m' v = updated_entry (vmflag_to_x86flag nx flags) <$> m v)
  end.
Fixpoint map_steps (nx : bool) (enough : Prop) (m : Z → option Z) (l : list map_op) (rs : list Z) (m' : Z → option Z) : Prop :=
  match l, rs with
  | [], [] => ∀ v, m' v = m v
  | o :: l, r :: rs => ∃ m1, map_step nx enough m o r m1 ∧ map_steps nx enough m1 l rs m'
  | _, _ => False
  end.

Section sequences.
Context {P : Type} `{!PageAllocator P} (ok : P → Prop) (managed : P → Z → Prop) `{!PageAllocatorLaws P ok managed}.
Implicit Type st : vm P.

Definition op_run (root : Z) (o : map_op) : M (vm P) Z :=
  match o with
  | MapPages va sz pa flags => mappages root va sz pa flags
  | UnmapPages va sz => unmappages root va sz false
  | UpdatePages va sz flags => updatepages root va sz flags
  end.
Fixpoint ops_run (root : Z) (l : list map_op) : M (vm P) (list Z) :=
  match l with
  | [] => mret []
  | o :: l => r ← op_run root o; rs ← ops_run root l; mret (r :: rs)
  end.

(** No large page in the lower half. *)
Definition small_pages st (tabs : gmap (list Z) Z) : Prop := ∀ va, 0 ≤ va < 2 ^ 47 → no_big (words st) tabs va.

Lemma range_small st tabs va sz k :
  small_pages st tabs → range_ok va sz → 0 ≤ k < page_span va sz → no_big (words st) tabs (va - va mod 4096 + 4096 * k).
Proof. intros Hs (H0 & Hz & He) Hk. apply Hs. unfold page_span in Hk. lia_div. Qed.

Lemma mapped_page w tabs va va' : page_no va = page_no va' → mapped w tabs va = mapped w tabs va'.
Proof. intros Ep. unfold mapped, leaf, leaf_addr. by apply same_page in Ep as [-> ->]. Qed.

(** One call. *)
Lemma op_run_step root tabs st o (enough : Prop) :
  vm_ok ok root tabs st → small_pages st tabs → op_ok o → (enough → (3 * op_need o ≤ length (free_pages (pages st)))%nat) →
  ∃ r st' tabs', op_run root o st = Done (r, st') ∧ vm_ok ok root tabs' st' ∧ small_pages st' tabs' ∧
    nx_flag_enabled st' = nx_flag_enabled st ∧ (length (free_pages (pages st)) ≤ length (free_pages (pages st')) + 3 * op_need o)%nat ∧
    map_step (nx_flag_enabled st) enough (mapped (words st) tabs) o r (mapped (words st') tabs').
Proof.
  intros Hok Hs Ho Hen. destruct o as [va sz pa flags|va sz|va sz flags]; cbn [op_run op_ok op_need map_step] in *.
  - destruct Ho as (Hr & Hva & Hpa & Hfl). pose proof Hr as (H0 & Hz & He). assert (page_span va sz ≤ 2 ^ 36) by (unfold page_span; lia_div).
    destruct (mappages_run ok managed root tabs st va sz pa flags) as (r & st' & tabs' & E1 & Hok' & Hres & Hgood & [S1 S2 S3 S4]);
      try done; try lia; [lia_div|intros k Hk; by apply (range_small _ _ va sz)|].
    exists r, st', tabs'. split_and!; try done; [intros v Hv; by apply S3, Hs|].
    destruct Hres as [Hres|[-> Hsame]]; [by left|right]. split_and!; [done|done|]. intros He' Hfree. enough (-1 = 0) by lia. apply Hgood; [|left; auto].
    intros k Hk. apply Hfree, elem_of_page_list. by exists k.
  - pose proof Ho as (H0 & Hz & He). set (a := va - va mod 4096). set (N := page_span va sz).
    assert (0 ≤ N) as HN by (unfold N, page_span; lia_div).
    destruct (unmap_loop_spec ok managed (Z.to_nat N) root tabs st a Hok) as (st' & E1 & Hok' & Hp & Hn & Hc & Hm); rewrite ?Z2Nat.id by done.
    { unfold a. lia_div. }
    { unfold a, N, page_span. lia_div. }
    { intros k Hk. by apply (range_small _ _ va sz). }
    exists 0, st', tabs. rewrite Z2Nat.id in E1, Hm by done. split_and!; try done; [|intros v Hv; by apply Hc, Hs|rewrite Hp; lia].
    unfold unmappages. rewrite PAGE_START_eq by (unfold u64p; lia). rewrite span_end by lia. fold a N. rewrite page_fuel_eq by done.
    by rewrite (bind_done _ _ _ _ _ E1).
  - destruct Ho as (Hr & Hal & Hsal & Hfl). pose proof Hr as (H0 & Hz & He). replace (va - va mod 4096) with va in * by lia.
    set (N := page_span va sz) in *. assert (sz = N * 4096 ∧ 0 < N ≤ 2 ^ 36) as [Hsz HN] by (unfold N, page_span; lia_div).
    destruct (updatepages_any ok root tabs st va (Z.to_nat N) flags) as (r & st' & E1 & Hok' & [U1 U2 U3 U4 U5 U6] & Hr0); rewrite ?Z2Nat.id in *; try done; try lia.
    { intros k Hk. pose proof (range_small st tabs va sz k Hs Hr Hk) as Hb. by replace (va - va mod 4096) with va in Hb by lia. }
    exists r, st', tabs. rewrite Hsz. split_and!; try done; [intros v Hv; by apply U3, Hs|rewrite U1; lia| |].
    + intros v. destruct (decide (page_no v ∈ page_list va N)) as [Hin|Hout]; [|left; by apply U5]. destruct (U4 v) as [|]; [by left|by right].
    + intros Hall. assert (∀ k, 0 ≤ k < N → mapped (words st) tabs (va + 4096 * k) ≠ None) as Hk.
      { intros k Hk. apply Hall, elem_of_page_list. by exists k. }
      split.
      * apply Hr0. intros k Hkr Hnone. apply (Hk k Hkr). unfold mapped, leaf. by rewrite Hnone.
      * intros v (k & Hkr & Ev)%elem_of_page_list. rewrite !(mapped_page _ _ _ _ Ev). apply U6; [done|]. intros k' Hk'. apply Hk. lia.
Qed.

(** C6: the page tables of an address space are a map from pages to frames and
    rights.  Any sequence of [mappages], [unmappages] and [updatepages] on
    ranges of its lower half, where it has no large page, returns and does to
    the addresses the processor can translate exactly what the same calls do
    to a map of pages, whatever the levels of the tables were: a range is
    mapped whole or not at all, and refused only when one of its pages is
    mapped, given three free pages of memory per page of the mapped ranges;
    rights are replaced on the whole of a mapped range, and on part of a range
    that is not wholly mapped.  The tables stay well formed.  Ranges that are
    mapped lie above the first page, and ranges whose rights change are whole
    pages. *)
Theorem page_ops_refine_map root tabs st l :
  vm_ok ok root tabs st → small_pages st tabs → Forall op_ok l →
  ∃ rs st' tabs', ops_run root l st = Done (rs, st') ∧ vm_ok ok root tabs' st' ∧ small_pages st' tabs' ∧
    map_steps (nx_flag_enabled st) (3 * sum_list (op_need <$> l) ≤ length (free_pages (pages st)))%nat
      (mapped (words st) tabs) l rs (mapped (words st') tabs').
Proof.
  intros Hok Hs Hl. set (enough := (3 * sum_list (op_need <$> l) ≤ length (free_pages (pages st)))%nat).
  assert (enough → (3 * sum_list (op_need <$> l) ≤ length (free_pages (pages st)))%nat) as Hen by done. clearbody enough.
  revert tabs st Hok Hs Hen. induction Hl as [|o l Ho Hl IH]; intros tabs st Hok Hs Hen; cbn [ops_run].
  { by exists [], st, tabs. }
  cbn in Hen. destruct (op_run_step root tabs st o enough Hok Hs Ho) as (r & st1 & tabs1 & E1 & Hok1 & Hs1 & Hn1 & Hf1 & Hm1); [intros; specialize (Hen H); lia|].
  destruct (IH tabs1 st1 Hok1 Hs1) as (rs & st' & tabs' & E2 & Hok' & Hs' & Hm'); [intros; specialize (Hen H); lia|].
  exists (r :: rs), st', tabs'. rewrite (bind_done _ _ _ _ _ E1), (bind_done _ _ _ _ _ E2). split_and!; try done.
  exists (mapped (words st1) tabs1). by rewrite <- Hn1 at 2.
Qed.
End sequences.

(** ** An example: a page mapped, made read-only, mapped again in vain, unmapped *)

Lemma page_ops_refine_map_witness :
  let l := [MapPages 0x400000 4096 0x8000 3; UpdatePages 0x400000 4096 2; MapPages 0x400000 4096 0x20000 3; UnmapPages 0x400000 4096] in
  ∃ rs st' tabs', ops_run ex_root l ex_vm = Done (rs, st') ∧ vm_ok list_pages_ok ex_root tabs' st' ∧ small_pages st' tabs' ∧
    map_steps true (3 * sum_list (op_need <$> l) ≤ length (free_pages (pages ex_vm)))%nat
      (mapped (words ex_vm) {[ [] := ex_root ]}) l rs (mapped (words st') tabs').
Proof.
  intros l. refine (page_ops_refine_map list_pages_ok (λ _, phys_page) ex_root {[ [] := ex_root ]} ex_vm l ex_vm_ok _ _).
  - intros va _. apply empty_root_no_big, ex_root_table.
  - repeat constructor; by vm_compute.
Defined.
