(* ===== verification/Heap.v ===== *)
(** * The kernel heap (kernel/memory/heap.c, heap.h)

    A list of blocks, each a 32-byte header followed by its payload.  Headers
    are kept by address; a header that was merged away keeps its last value,
    as in memory.  Payload bytes are a separate store: clients write inside
    their own blocks. *)
From S2P Require Import Prelude.
From S2P Require Import Interfaces.

Definition FREE : Z := 0.
Definition USED : Z := 1.
Definition sizeof_heap_node : Z := 32.

(** [struct heap_node]. *)
Record heap_node_t := mk_node { n_size : Z; n_status : Z; n_prev : Z; n_next : Z }.

(** [kernel_heap], the headers in memory, the payload bytes, and the kernel's
    address space. *)
Record heap_state (V : Type) := mk_heap {
  kernel_heap : Z;
  hdrs : gmap Z heap_node_t;
  data : gmap Z Z;
  space : V;
}.
Arguments mk_heap {V}.
Arguments kernel_heap {V}.
Arguments hdrs {V}.
Arguments data {V}.
Arguments space {V}.

Section heap.
Context {V : Type} `{!AreaAllocator V}.
Abbreviation HP := (M (heap_state V)).

Definition set_hdrs (v : gmap Z heap_node_t) (s : heap_state V) : heap_state V :=
  mk_heap (kernel_heap s) v (data s) (space s).

(** Reading a header; the null pointer has none. *)
Definition node (a : Z) : HP heap_node_t :=
  getf (λ s, if decide (a = 0) then None else hdrs s !! a).
(** Assigning a field of an existing header. *)
Definition upd (a : Z) (f : heap_node_t → heap_node_t) : HP unit :=
  modifyf (λ s, if decide (a = 0) then None else
    match hdrs s !! a with
    | Some n => Some (set_hdrs (<[a := f n]> (hdrs s)) s)
    | None => None
    end).
(** Writing all fields of a header, to memory that may not have held one. *)
Definition new_node (a : Z) (n : heap_node_t) : HP unit :=
  modifyf (λ s, if decide (a = 0) then None else Some (set_hdrs (<[a := n]> (hdrs s)) s)).

Definition set_size v n := mk_node v (n_status n) (n_prev n) (n_next n).
Definition set_status v n := mk_node (n_size n) v (n_prev n) (n_next n).
Definition set_prev v n := mk_node (n_size n) (n_status n) v (n_next n).
Definition set_next v n := mk_node (n_size n) (n_status n) (n_prev n) v.

Definition init_heap (heap size : Z) : HP unit :=
  new_node heap (mk_node (size -64 sizeof_heap_node) FREE 0 0).

(** [cur->status == USED || cur->size < size] *)
Definition unfit (size : Z) (n : heap_node_t) : bool :=
  bool_decide (n_status n = USED) || bool_decide (n_size n < size).

(** The search loop of [alloc]. *)
Fixpoint find_fit (fuel : nat) (size cur : Z) : HP Z :=
  match fuel with
  | O => out_of_fuel
  | S fuel =>
      n ← node cur;
      if unfit size n then
        if decide (n_next n = 0) then mret cur else find_fit fuel size (n_next n)
      else mret cur
  end.

(** Growing the heap behind its last block [cur]; [None] is out of memory. *)
Definition grow (cur size : Z) : HP (option Z) :=
  area ← zoom space (λ v s, mk_heap (kernel_heap s) (hdrs s) (data s) v) (area_alloc_at cur size);
  match area with
  | None => mret None
  | Some (start, asize) =>
      n ← node cur;
      if decide (start = cur +64 n_size n) then
        upd cur (set_size (n_size n +64 asize));;
        mret (Some cur)
      else
        new_node start (mk_node asize FREE cur 0);;
        upd cur (set_next start);;
        mret (Some start)
  end.

(** The rest of [alloc], once a block is chosen: split it and take it. *)
Definition take (cur size : Z) : HP Z :=
  let result := cur +64 sizeof_heap_node in
  n ← node cur;
  (if decide (size +64 sizeof_heap_node < n_size n) then
     let next := result +64 size in
     new_node next (mk_node (w64 (n_size n - size - sizeof_heap_node)) FREE cur (n_next n));;
     upd cur (set_next next);;
     upd cur (set_size size)
   else mret tt);;
  upd cur (set_status USED);;
  mret result.

(** [alloc]; every block is visited at most once, so the number of headers
    bounds the search. *)
Definition alloc (size : Z) : HP Z :=
  s ← get;
  cur ← find_fit (S (base.size (hdrs s))) size (kernel_heap s);
  n ← node cur;
  if (bool_decide (n_next n = 0) && unfit size n)%bool then
    c ← grow cur size;
    match c with
    | None => mret 0
    | Some cur => take cur size
    end
  else take cur size.

Definition merge_right (a : Z) : HP unit :=
  n ← node a;
  let ptr := a +64 sizeof_heap_node in
  if decide (n_next n = 0) then mret tt else
  m ← node (n_next n);
  if decide (n_status m ≠ FREE) then mret tt else
  if decide (n_size n +64 ptr ≠ n_next n) then mret tt else
  let merging := n_next n in
  (if decide (n_next m ≠ 0) then upd (n_next m) (set_prev a) else mret tt);;
  m ← node merging;
  upd a (set_next (n_next m));;
  n ← node a;
  m ← node merging;
  upd a (set_size (w64 (n_size n + n_size m + sizeof_heap_node))).

Definition free (ptr : Z) : HP unit :=
  let a := ptr -64 sizeof_heap_node in
  n ← node a;
  if (bool_decide (n_status n ≠ FREE) && bool_decide (n_status n ≠ USED))%bool then mret tt else
  if decide (n_status n = FREE) then mret tt else
  upd a (set_status FREE);;
  merge_right a;;
  n ← node a;
  if decide (n_prev n = 0) then mret tt else
  p ← node (n_prev n);
  if decide (n_status p ≠ FREE) then mret tt else
  if decide (w64 (n_prev n + n_size p + sizeof_heap_node) ≠ a) then mret tt else
  let prev := n_prev n in
  upd prev (set_next (n_next n));;
  upd (n_next n) (set_prev prev);;
  n ← node a;
  p ← node prev;
  upd prev (set_size (w64 (n_size p + n_size n + sizeof_heap_node))).

(** [memmove(dst, src, n)] on payload bytes; it returns the same bytes whatever
    the overlap, and faults on a null destination. *)
Definition memmove_data (dst src n : Z) : HP unit :=
  modifyf (λ s, if (bool_decide (0 < n) && bool_decide (dst = 0))%bool then None else
    let moved := omap (λ i, (λ v, (dst + i, v)) <$> data s !! (src + i)) (seqZ 0 n) in
    Some (mk_heap (kernel_heap s) (hdrs s) (list_to_map moved ∪ data s) (space s))).

(** [realloc].  When a block grows by less than a header into its free
    neighbour, the new header overlaps the old one while that is still read;
    headers are whole records here, so this case is a fault. *)
Definition realloc (ptr sz : Z) : HP Z :=
  if decide (ptr = 0) then alloc sz else
  if decide (sz = 0) then free ptr;; mret 0 else
  let a := ptr -64 sizeof_heap_node in
  n ← node a;
  if decide (sz < n_size n) then
    if decide (n_size n - sz < sizeof_heap_node) then mret ptr else
    let freed := ptr +64 sz in
    new_node freed (mk_node (w64 (n_size n - sz - sizeof_heap_node)) FREE a (n_next n));;
    upd a (set_size sz);;
    (if decide (n_next n ≠ 0) then upd (n_next n) (set_prev freed) else mret tt);;
    upd a (set_next freed);;
    merge_right freed;;
    mret ptr
  else
  stay ← (if decide (n_next n = 0) then mret false else
          m ← node (n_next n);
          mret (bool_decide (n_status m = FREE) && bool_decide (n_size n +64 ptr = n_next n) &&
                bool_decide (sz ≤ n_size m +64 n_size n))%bool);
  if negb stay then
    new_ptr ← alloc sz;
    n ← node a;
    memmove_data new_ptr ptr (n_size n);;
    free ptr;;
    mret new_ptr
  else
    m ← node (n_next n);
    let right := ptr +64 sz in
    (if decide (n_next n < right < n_next n + sizeof_heap_node) then fault else mret tt);;
    new_node right (mk_node (w64 (n_size n + n_size m - sz)) FREE a (n_next m));;
    upd a (set_next right);;
    upd a (set_size sz);;
    r ← node right;
    (if decide (n_next r ≠ 0) then upd (n_next r) (set_prev right) else mret tt);;
    mret ptr.
End heap.

(** ** Payload bytes *)

Section payload.
Context {V : Type} `{!AreaAllocator V}.
Abbreviation HP := (M (heap_state V)).
Implicit Type s : heap_state V.

(** [f] leaves the payload bytes alone. *)
Definition keeps_data {A} (f : HP A) : Prop := ∀ s a s', f s = Done (a, s') → data s' = data s.

Lemma keeps_ret {A} (a : A) : keeps_data (mret a).
Proof. by intros s b s' [= _ <-]. Qed.
Lemma keeps_get {A} (f : heap_state V → A) : keeps_data (gets f).
Proof. by intros s b s' [= _ <-]. Qed.
Lemma keeps_fuel {A} : keeps_data (out_of_fuel : HP A).
Proof. by intros s b s'. Qed.
Lemma keeps_fault {A} : keeps_data (fault : HP A).
Proof. by intros s b s'. Qed.
Lemma keeps_bind {A B} (f : HP A) (g : A → HP B) : keeps_data f → (∀ a, keeps_data (g a)) → keeps_data (f ≫= g).
Proof. intros Hf Hg s b s' (a & s1 & E1 & E2)%bind_inv. rewrite (Hg _ _ _ _ E2). by eapply Hf. Qed.
Lemma keeps_node a : keeps_data (node a).
Proof. intros s b s'. unfold node, getf. repeat case_match; naive_solver. Qed.
Lemma keeps_upd a f : keeps_data (upd a f).
Proof. intros s b s'. unfold upd, modifyf. repeat case_match; naive_solver. Qed.
Lemma keeps_new a n : keeps_data (new_node a n).
Proof. intros s b s'. unfold new_node, modifyf. repeat case_match; naive_solver. Qed.
Lemma keeps_if {A} (P : Prop) `{!Decision P} (f g : HP A) : keeps_data f → keeps_data g → keeps_data (if decide P then f else g).
Proof. by case_decide. Qed.

#[local] Hint Resolve keeps_ret keeps_get keeps_fuel keeps_fault keeps_bind keeps_node keeps_upd keeps_new keeps_if : core.

Lemma keeps_find_fit fuel size cur : keeps_data (find_fit fuel size cur).
Proof. revert cur. induction fuel as [|fuel IH]; intros cur; cbn [find_fit]; [auto|]. apply keeps_bind; [auto|]. intros n. destruct (unfit size n); auto. Qed.
Lemma keeps_grow cur size : keeps_data (grow cur size).
Proof.
  apply keeps_bind.
  - intros s a s'. unfold zoom. destruct (area_alloc_at cur size (space s)) as [[? ?]| | |]; naive_solver.
  - intros [[start asize]|]; auto 10.
Qed.
Lemma keeps_take cur size : keeps_data (take cur size).
Proof. unfold take. auto 20. Qed.
Lemma keeps_alloc size : keeps_data (alloc size).
Proof.
  unfold alloc. apply keeps_bind; [intros s a s' [= _ <-]; done|]. intros s. apply keeps_bind; [apply keeps_find_fit|]. intros cur.
  apply keeps_bind; [auto|]. intros n. destruct (_ && _); [|apply keeps_take].
  apply keeps_bind; [apply keeps_grow|]. intros [?|]; [apply keeps_take|auto].
Qed.
Lemma keeps_merge a : keeps_data (merge_right a).
Proof. unfold merge_right. auto 30. Qed.
Lemma keeps_free ptr : keeps_data (free ptr).
Proof.
  unfold free. pose proof keeps_merge. apply keeps_bind; [auto|]. intros n. destruct (_ && _); [auto|]. auto 30.
Qed.

Lemma memmove_data_copies dst src n s s' :
  memmove_data dst src n s = Done (tt, s') →
  ∀ i v, 0 ≤ i < n → data s !! (src + i) = Some v → data s' !! (dst + i) = Some v.
Proof.
  unfold memmove_data, modifyf. destruct (_ && _); [done|]. intros [= <-] i v Hi Hv. cbn.
  apply lookup_union_Some_l. apply elem_of_list_to_map_1'.
  - intros y (i' & _ & Ei)%list_elem_of_omap. destruct (data s !! (src + i')) as [w|] eqn:Ew; [|done].
    cbn in Ei. injection Ei as Ei <-. assert (i' = i) as -> by lia. congruence.
  - apply list_elem_of_omap. exists i. split; [apply elem_of_seqZ; lia|]. by rewrite Hv.
Qed.

(** Whenever [realloc] of a block returns a block, that block starts with the
    bytes the old one held, as many of them as both have room for; allocating
    must leave the header of the old block alone. *)
Lemma realloc_keeps_contents ptr sz n s p' s' :
  ptr ≠ 0 → node (ptr -64 sizeof_heap_node) s = Done (n, s) → realloc ptr sz s = Done (p', s') → p' ≠ 0 →
  (∀ np s1, alloc sz s = Done (np, s1) → node (ptr -64 sizeof_heap_node) s1 = Done (n, s1)) →
  ∀ i v, 0 ≤ i < Z.min sz (n_size n) → data s !! (ptr + i) = Some v → data s' !! (p' + i) = Some v.
Proof.
  intros Hp Hn. unfold realloc. rewrite decide_False by done. intros Hr H0 Hkeep i v Hi Hv.
  destruct (decide (sz = 0)); [lia|]. rewrite (bind_done _ _ _ _ _ Hn) in Hr.
  assert (∀ f : HP Z, f s = Done (p', s') → keeps_data f → p' = ptr → data s' !! (p' + i) = Some v) as Hstay.
  { intros f Ef Hf ->. by rewrite (Hf _ _ _ Ef). }
  destruct (decide (sz < n_size n)).
  { destruct (decide (n_size n - sz < sizeof_heap_node)); [by injection Hr as <- <-|].
    eapply Hstay; [exact Hr| |].
    - pose proof keeps_merge. auto 20.
    - repeat (apply bind_inv in Hr as (? & ? & _ & Hr)). by injection Hr. }
  apply bind_inv in Hr as (stay & s1 & Es & Hr).
  assert (s1 = s) as ->.
  { destruct (decide _); [by injection Es|]. apply bind_inv in Es as (m & s2 & Em & [= _ <-]). revert Em. unfold node, getf.
    repeat case_match; naive_solver. }
  destruct (negb stay).
  - apply bind_inv in Hr as (np & s2 & Ea & Hr). apply bind_inv in Hr as (n2 & s3 & En & Hr).
    apply bind_inv in Hr as ([] & s4 & Em & Hr). apply bind_inv in Hr as ([] & s5 & Ef & [= -> ->]).
    rewrite (keeps_free _ _ _ _ Ef). eapply memmove_data_copies; [exact Em| |].
    + rewrite (Hkeep _ _ Ea) in En. injection En as <- <-. lia.
    + by rewrite (keeps_node _ _ _ _ En), (keeps_alloc _ _ _ _ Ea).
  - assert (p' = ptr) as ->.
    { apply bind_inv in Hr as (m & s2 & _ & Hr). cbv zeta in Hr. repeat (apply bind_inv in Hr as (? & ? & _ & Hr)). by injection Hr. }
    enough (data s' = data s) as -> by done. revert Hr.
    match goal with |- ?f s = _ → _ => assert (keeps_data f) as Hk by (auto 30) end. apply Hk.
Qed.
End payload.

(** ** Blocks in address order *)

Record block := mk_block { b_addr : Z; b_size : Z; b_used : bool }.

Definition b_status (b : block) : Z := if b_used b then USED else FREE.
(** The end of a block's payload. *)
Definition b_end (b : block) : Z := b_addr b + sizeof_heap_node + b_size b.

(** Following [next] from [a] finds the blocks [l]; [prev] is free. *)
Fixpoint chain (h : gmap Z heap_node_t) (a : Z) (l : list block) : Prop :=
  match l with
  | [] => a = 0
  | b :: l => a = b_addr b ∧ a ≠ 0 ∧
      ∃ p nx, h !! a = Some (mk_node (b_size b) (b_status b) p nx) ∧ chain h nx l
  end.

(** The blocks lie in [[lo, hi)] in increasing order and do not overlap. *)
Fixpoint fits (lo : Z) (l : list block) (hi : Z) : Prop :=
  match l with
  | [] => lo ≤ hi
  | b :: l => lo ≤ b_addr b ∧ 0 ≤ b_size b ∧ fits (b_end b) l hi
  end.

Lemma fits_app lo l1 b l2 hi :
  fits lo (l1 ++ b :: l2) hi ↔ fits lo l1 (b_addr b) ∧ 0 ≤ b_size b ∧ fits (b_end b) l2 hi.
Proof.
  revert lo. induction l1 as [|c l1 IH]; intros lo; simpl; [tauto|]. rewrite IH. tauto.
Qed.

Lemma fits_le lo l hi : fits lo l hi → lo ≤ hi.
Proof.
  revert lo. induction l as [|b l IH]; intros lo; simpl; [done|].
  intros (H1 & H2 & H3%IH). unfold b_end, sizeof_heap_node in *. lia.
Qed.

Lemma fits_elem lo l hi b : fits lo l hi → b ∈ l → lo ≤ b_addr b ∧ b_end b ≤ hi ∧ 0 ≤ b_size b.
Proof.
  revert lo. induction l as [|c l IH]; intros lo; simpl; [by intros _ ?%not_elem_of_nil|].
  intros (H1 & H2 & H3) [->|Hin]%elem_of_cons.
  - split_and!; [done|by eapply fits_le|done].
  - destruct (IH _ H3 Hin) as (? & ? & ?). unfold b_end, sizeof_heap_node in *. lia.
Qed.

Lemma fits_before lo l hi b : fits lo l hi → b ∈ l → b_addr b < hi.
Proof.
  intros H Hb. destruct (fits_elem _ _ _ _ H Hb) as (?&?&?).
  unfold b_end, sizeof_heap_node in *. lia.
Qed.

Lemma chain_insert h a l x n :
  Forall (λ b, b_addr b ≠ x) l → chain h a l → chain (<[x := n]> h) a l.
Proof.
  revert a. induction l as [|b l IH]; intros a; simpl; [done|].
  intros [Hb Hl]%Forall_cons (-> & H0 & p & nx & E & Hc). split_and!; [done|done|].
  exists p, nx. rewrite lookup_insert_ne by done. auto.
Qed.

Lemma chain_app h a l1 b l2 :
  chain h a (l1 ++ b :: l2) →
  chain h (b_addr b) (b :: l2) ∧ (l1 = [] → a = b_addr b).
Proof.
  revert a. induction l1 as [|c l1 IH]; intros a.
  - simpl. intros (-> & ?). by split.
  - intros (-> & _ & p & nx & _ & Hc%IH). by split; [apply Hc|].
Qed.

Lemma chain_replace h h' a l1 b l2 l2' :
  chain h a (l1 ++ b :: l2) →
  (∀ c, c ∈ l1 → h' !! b_addr c = h !! b_addr c) →
  chain h' (b_addr b) l2' → chain h' a (l1 ++ l2').
Proof.
  revert a. induction l1 as [|c l1 IH]; intros a; simpl.
  - intros (-> & _) _ ?. done.
  - intros (-> & H0 & p & nx & E & Hc) Hs Ht. split_and!; [done|done|].
    exists p, nx. split; [rewrite Hs; [done|by left]|]. apply (IH nx); [done| |done].
    intros d Hd. apply Hs. by right.
Qed.

Lemma chain_length h a l lo hi :
  chain h a l → fits lo l hi → (length l ≤ base.size h)%nat.
Proof.
  intros Hc Hf. rewrite <- (length_fmap b_addr), <- size_dom.
  rewrite <- (size_list_to_set (C := gset Z)).
  - apply subseteq_size. intros x. rewrite elem_of_list_to_set, elem_of_dom.
    clear Hf. revert a Hc. induction l as [|b l IH]; intros a; simpl.
    + by intros _ ?%not_elem_of_nil.
    + intros (-> & _ & p & nx & E & Hc) [->|Hx]%elem_of_cons; [eauto|by eapply IH].
  - clear Hc. revert lo Hf. induction l as [|b l IH]; intros lo; simpl; [constructor|].
    intros (H1 & H2 & H3). apply NoDup_cons. split; [|by eapply IH].
    intros (c & E & Hin)%list_elem_of_fmap. destruct (fits_elem _ _ _ _ H3 Hin) as (? & _).
    unfold b_end, sizeof_heap_node in *. lia.
Qed.

(** The blocks a block of the heap becomes when [sz] bytes are taken from it. *)
Definition split_block (b : block) (sz : Z) : list block :=
  if decide (sz + sizeof_heap_node < b_size b) then
    [ mk_block (b_addr b) sz true;
      mk_block (b_addr b + sizeof_heap_node + sz) (b_size b - sz - sizeof_heap_node) false ]
  else [ mk_block (b_addr b) (b_size b) true ].

Definition block_fits (sz : Z) (b : block) : bool := negb (b_used b) && bool_decide (sz ≤ b_size b).

Section heap_proofs.
Context {V : Type} `{!AreaAllocator V}.
Implicit Types s : heap_state V.

(** The heap's blocks are [l], in increasing order inside [[lo, hi)]. *)
Definition heap_ok (lo hi : Z) (l : list block) s : Prop :=
  chain (hdrs s) (kernel_heap s) l ∧ fits lo l hi ∧ 0 < lo ∧ hi < 2 ^ 64.

Lemma node_run s a n : a ≠ 0 → hdrs s !! a = Some n → node a s = Done (n, s).
Proof. intros H0 E. apply getf_done. by rewrite decide_False. Qed.

Lemma upd_run s a n f :
  a ≠ 0 → hdrs s !! a = Some n → upd a f s = Done (tt, set_hdrs (<[a := f n]> (hdrs s)) s).
Proof. intros H0 E. apply modifyf_done. by rewrite decide_False, E. Qed.

Lemma hdr_new_run s a n : a ≠ 0 → new_node a n s = Done (tt, set_hdrs (<[a := n]> (hdrs s)) s).
Proof. intros H0. apply modifyf_done. by rewrite decide_False. Qed.

(** Symbolic execution of header accesses whose addresses are known. *)
Ltac hp_look :=
  cbn [hdrs set_hdrs kernel_heap data space];
  repeat first [rewrite lookup_insert_eq | rewrite lookup_insert_ne by lia];
  first [reflexivity | eassumption].
Ltac hp :=
  first [ erewrite bind_done by (apply node_run; [lia|hp_look])
        | erewrite bind_done by (eapply upd_run; [lia|hp_look])
        | erewrite bind_done by (apply hdr_new_run; lia)
        | step ];
  cbv beta; unfold set_next, set_prev, set_size, set_status;
  cbn [hdrs set_hdrs kernel_heap data space n_size n_status n_prev n_next].

Lemma unfit_block sz b p nx :
  unfit sz (mk_node (b_size b) (b_status b) p nx) = negb (block_fits sz b).
Proof.
  unfold unfit, block_fits, b_status. simpl. destruct (b_used b); simpl; [done|].
  rewrite <- bool_decide_not. apply bool_decide_ext. lia.
Qed.

(** The search stops at the first block that fits, or at the last one. *)
Lemma find_fit_run s sz l1 b l2 fuel a :
  chain (hdrs s) a (l1 ++ b :: l2) → Forall (λ c, block_fits sz c = false) l1 →
  block_fits sz b = true ∨ l2 = [] → (length l1 < fuel)%nat →
  find_fit fuel sz a s = Done (b_addr b, s).
Proof.
  revert a fuel. induction l1 as [|c l1 IH]; intros a fuel Hc Hl Hb Hf; destruct fuel as [|fuel];
    try (simpl in Hf; lia); cbn [find_fit app] in *.
  - destruct Hc as (-> & H0 & p & nx & E & Hc). erewrite bind_done by by apply node_run. cbv beta.
    rewrite unfit_block. destruct (block_fits sz b); simpl; [done|].
    destruct Hb as [?| -> ]; [done|]. simpl in Hc. by rewrite decide_True.
  - destruct Hc as (-> & H0 & p & nx & E & Hc). apply Forall_cons in Hl as [Hcf Hl].
    erewrite bind_done by by apply node_run. cbv beta. rewrite unfit_block, Hcf. simpl.
    rewrite decide_False; [apply IH; try done; simpl in Hf; lia|].
    intros ->. destruct l1; simpl in Hc; destruct Hc as (_ & ? & _); done.
Qed.

(** Taking a block that is large enough. *)
Lemma take_run s b l2 sz lo hi :
  chain (hdrs s) (b_addr b) (b :: l2) → fits lo (b :: l2) hi → 0 < lo → hi < 2 ^ 64 →
  0 ≤ sz ≤ b_size b → b_used b = false →
  ∃ h, take (b_addr b) sz s = Done (b_addr b + sizeof_heap_node, set_hdrs h s) ∧
    chain h (b_addr b) (split_block b sz ++ l2) ∧
    (∀ x, x < b_addr b → h !! x = hdrs s !! x).
Proof.
  intros (_ & H0 & p & nx & E & Hc) (Hlo & Hs & Hf) Hlo0 Hhi Hsz Hu.
  pose proof (fits_le _ _ _ Hf) as Hend. unfold b_end, sizeof_heap_node in *.
  assert (Hrest : Forall (λ c, b_addr b + 32 + b_size b ≤ b_addr c) l2).
  { apply Forall_forall. intros c Hin. destruct (fits_elem _ _ _ _ Hf Hin) as (? & _). lia. }
  unfold take, split_block, sizeof_heap_node. rewrite (w64_small (b_addr b + 32)) by lia.
  erewrite bind_done by by apply node_run. cbv beta. cbn [n_size n_next].
  rewrite (w64_small (sz + 32)) by lia. destruct (decide (sz + 32 < b_size b)) as [Hsp|Hsp].
  - rewrite (w64_small (b_addr b + 32 + sz)) by lia.
    rewrite (w64_small (b_size b - sz - 32)) by lia. repeat hp. eexists. split; [reflexivity|].
    split.
    + simpl. split_and!; [done|done|]. do 2 eexists. split; [by simplify_map_eq|].
      split_and!; [done|lia|]. do 2 eexists. split.
      { rewrite !lookup_insert_ne by lia. rewrite !lookup_insert_eq. reflexivity. }
      repeat (apply chain_insert; [eapply Forall_impl; [exact Hrest|simpl; intros; lia]|]). done.
    + intros x Hx. by rewrite !lookup_insert_ne by lia.
  - repeat hp. eexists. split; [reflexivity|]. split.
    + simpl. split_and!; [done|done|]. do 2 eexists. split; [by simplify_map_eq|].
      apply chain_insert; [eapply Forall_impl; [exact Hrest|simpl; intros; lia]|done].
    + intros x Hx. by rewrite !lookup_insert_ne by lia.
Qed.

Lemma split_fits lo l1 b l2 hi sz :
  fits lo (l1 ++ b :: l2) hi → 0 ≤ sz ≤ b_size b → fits lo (l1 ++ split_block b sz ++ l2) hi.
Proof.
  intros (H1 & H2 & H3)%fits_app Hsz. unfold split_block.
  case_decide; cbn [app]; apply fits_app; unfold b_end, sizeof_heap_node in *; simpl;
    unfold b_end, sizeof_heap_node; simpl; split_and!; try done; try lia.
  by replace (_ + 32 + (b_size b - sz - 32)) with (b_addr b + 32 + b_size b) by lia.
Qed.

Lemma alloc_run lo hi l1 b l2 s sz :
  heap_ok lo hi (l1 ++ b :: l2) s → Forall (λ c, block_fits sz c = false) l1 →
  block_fits sz b = true → 0 ≤ sz →
  ∃ h, alloc sz s = Done (b_addr b + sizeof_heap_node, set_hdrs h s) ∧
    heap_ok lo hi (l1 ++ split_block b sz ++ l2) (set_hdrs h s).
Proof.
  intros (Hc & Hf & Hlo & Hhi) Hl Hb Hsz.
  pose proof Hb as [Hu Hbs]%andb_true_iff. apply negb_true_iff in Hu. apply bool_decide_eq_true in Hbs.
  destruct (chain_app _ _ _ _ _ Hc) as [Hcb _].
  pose proof Hf as (Hf1 & Hf2 & Hf3)%fits_app. pose proof (fits_le _ _ _ Hf1).
  destruct (take_run s b l2 sz (b_addr b) hi Hcb) as (h & Et & Hch & Hlow); try done; try lia.
  exists h. split.
  - unfold alloc. erewrite bind_done by reflexivity. cbv beta.
    erewrite bind_done.
    2:{ eapply (find_fit_run s sz l1 b l2); [done|done|by left|].
        pose proof (chain_length _ _ _ _ _ Hc Hf) as Hlen. rewrite length_app in Hlen. simpl in Hlen.
        lia. }
    cbv beta. destruct Hcb as (_ & H0 & p & nx & E & _).
    erewrite bind_done by by apply node_run. cbv beta. rewrite unfit_block, Hb. simpl.
    by rewrite andb_false_r.
  - split_and!; try done; [|by apply split_fits]. simpl.
    eapply chain_replace; [exact Hc| |exact Hch]. intros c Hin. apply Hlow. by eapply fits_before.
Qed.

(** C17: [alloc] is first fit.  When some block is free and large enough, it
    takes the first such block, splits off the rest when more than a header
    is left, keeps the blocks in order and disjoint, and the payload it
    returns overlaps no block that was in use. *)
Theorem alloc_first_fit lo hi l1 b l2 s sz :
  heap_ok lo hi (l1 ++ b :: l2) s → Forall (λ c, block_fits sz c = false) l1 →
  block_fits sz b = true → 0 ≤ sz →
  ∃ s', alloc sz s = Done (b_addr b + sizeof_heap_node, s') ∧
    heap_ok lo hi (l1 ++ split_block b sz ++ l2) s' ∧
    ∀ c, c ∈ l1 ++ b :: l2 → b_used c = true →
      b_end c ≤ b_addr b ∨ b_addr b + sizeof_heap_node + sz ≤ b_addr c.
Proof.
  intros Hok Hl Hb Hsz. destruct (alloc_run lo hi l1 b l2 s sz Hok Hl Hb Hsz) as (h & E & Hok').
  exists (set_hdrs h s). split_and!; [done|done|]. intros c Hin Hu.
  apply andb_true_iff in Hb as [Hbu Hbs%bool_decide_eq_true].
  destruct Hok as (_ & (H1 & H2 & H3)%fits_app & _).
  apply elem_of_app in Hin as [Hin|[->|Hin]%elem_of_cons].
  - left. apply (fits_elem _ _ _ _ H1 Hin).
  - by rewrite Hu in Hbu.
  - right. destruct (fits_elem _ _ _ _ H3 Hin) as (? & _). unfold b_end in *. lia.
Qed.

(** Two allocations on a fresh heap, run symbolically. *)
Definition two_blocks (h S s1 s2 : Z) (old : gmap Z heap_node_t) : gmap Z heap_node_t :=
  <[h + 32 + s1 := mk_node s2 USED h (h + 32 + s1 + 32 + s2)]>
  (<[h + 32 + s1 + 32 + s2 := mk_node (S - 32 - s1 - 32 - s2 - 32) FREE (h + 32 + s1) 0]>
  (<[h := mk_node s1 USED 0 (h + 32 + s1)]> old)).

Lemma alloc_one_run (h S s1 : Z) s :
  0 < h → 0 ≤ s1 → s1 + 32 < S - 32 → h + S < 2 ^ 64 → kernel_heap s = h →
  hdrs s !! h = Some (mk_node (S - 32) FREE 0 0) →
  alloc s1 s = Done (h + 32, set_hdrs
    (<[h := mk_node s1 USED 0 (h + 32 + s1)]>
      (<[h + 32 + s1 := mk_node (S - 32 - s1 - 32) FREE h 0]> (hdrs s))) s).
Proof.
  intros Hh H1 Hr He Hk Eh. unfold alloc. erewrite bind_done by reflexivity. cbv beta.
  rewrite Hk. erewrite bind_done.
  2:{ apply (find_fit_run s s1 [] (mk_block h (S - 32) false) [] _ h); try done.
      - simpl. split_and!; [done|lia|eauto].
      - by right.
      - simpl. lia. }
  cbv beta. cbn [b_addr]. hp. unfold unfit. cbn [n_next n_status n_size].
  rewrite (bool_decide_false (FREE = USED)), (bool_decide_false (S - 32 < s1)) by (done || lia).
  rewrite andb_false_r. unfold take, sizeof_heap_node. rewrite (w64_small (h + 32)) by lia. hp.
  rewrite (w64_small (s1 + 32)) by lia. rewrite decide_True by lia.
  rewrite (w64_small (h + 32 + s1)) by lia. rewrite w64_small by lia. repeat hp.
  rewrite !insert_insert_eq. reflexivity.
Qed.

(** A fresh heap at [h], and two allocations. *)
Definition alloc_two (h S s1 s2 : Z) : M (heap_state V) (Z * Z) :=
  init_heap h S;; a ← alloc s1; b ← alloc s2; mret (a, b).

Lemma alloc_two_run (h S s1 s2 : Z) s :
  0 < h → 0 ≤ s1 → 0 ≤ s2 → s1 + 32 + s2 + 32 < S - 32 → h + S < 2 ^ 64 →
  kernel_heap s = h →
  alloc_two h S s1 s2 s = Done ((h + 32, h + 32 + s1 + 32), set_hdrs (two_blocks h S s1 s2 (hdrs s)) s).
Proof.
  intros Hh H1 H2 Hr He Hk. unfold alloc_two, init_heap, sizeof_heap_node.
  rewrite (w64_small (S - 32)) by lia.
  hp. erewrite bind_done.
  2:{ apply (alloc_one_run h S); try (simpl; lia). simpl. apply lookup_insert_eq. }
  cbv beta. cbn [hdrs set_hdrs kernel_heap data space].
  rewrite (insert_insert_ne _ (h + 32 + s1) h) by lia. rewrite insert_insert_eq.
  set (s' := set_hdrs _ (set_hdrs _ s)).
  assert (Hc : chain (hdrs s') h [mk_block h s1 true; mk_block (h + 32 + s1) (S - 32 - s1 - 32) false]).
  { unfold s'. simpl. split_and!; [done|lia|]. do 2 eexists. split; [by rewrite lookup_insert_eq|].
    split_and!; [done|lia|]. do 2 eexists. split; [|done].
    by rewrite lookup_insert_ne, lookup_insert_eq by lia. }
  erewrite bind_done; [reflexivity|]. unfold alloc. erewrite bind_done by reflexivity. cbv beta.
  unfold s' at 2. cbn [kernel_heap set_hdrs]. rewrite Hk. erewrite bind_done.
  2:{ apply (find_fit_run s' s2 [mk_block h s1 true] (mk_block (h + 32 + s1) (S - 32 - s1 - 32) false) []);
        [done|by constructor|by right|].
      assert (base.size (hdrs s') ≠ 0)%nat as Hnz; [|cbn [length]; lia].
      intros Hz%map_size_empty_inv. unfold s' in Hz. simpl in Hz. by apply insert_non_empty in Hz. }
  cbv beta. cbn [b_addr]. unfold s'. hp. unfold unfit. cbn [n_next n_status n_size].
  rewrite (bool_decide_false (FREE = USED)), (bool_decide_false (_ < s2)) by (done || lia).
  rewrite andb_false_r. unfold take, sizeof_heap_node. rewrite (w64_small (_ + 32)) by lia. hp.
  rewrite (w64_small (s2 + 32)) by lia. rewrite decide_True by lia.
  rewrite (w64_small (h + 32 + s1 + 32 + s2)) by lia. rewrite w64_small by lia. repeat hp.
  unfold set_hdrs. cbn [hdrs kernel_heap data space mret M_ret].
  match goal with |- mret _ (mk_heap _ ?m _ _) = _ => assert (m = two_blocks h S s1 s2 (hdrs s)) as -> end;
    [|done].
  unfold two_blocks. apply map_eq. intros x.
  destruct (decide (x = h + 32 + s1)) as [->|N1]; [by rewrite !lookup_insert_eq|].
  rewrite !(lookup_insert_ne _ (h + 32 + s1) x) by done.
  destruct (decide (x = h + 32 + s1 + 32 + s2)) as [->|N2]; [by rewrite !lookup_insert_eq|].
  rewrite !(lookup_insert_ne _ (h + 32 + s1 + 32 + s2) x) by done.
  destruct (decide (x = h)) as [->|N3]; [by rewrite !lookup_insert_eq|].
  by rewrite !(lookup_insert_ne _ h x), (lookup_insert_ne _ (h + 32 + s1) x) by done.
Qed.

Ltac dec :=
  lazymatch goal with
  | |- context [ @decide ?P _ ] =>
      first [ rewrite (decide_True (P := P)) by (unfold USED, FREE; lia)
            | rewrite (decide_False (P := P)) by (unfold USED, FREE; lia) ]
  | |- context [ @bool_decide ?P _ ] =>
      first [ rewrite (bool_decide_true P) by (unfold USED, FREE; lia)
            | rewrite (bool_decide_false P) by (unfold USED, FREE; lia) ]; cbn [andb orb negb]
  end.

Lemma free_ptr a : 0 < a → a + 32 < 2 ^ 64 → w64 (a + 32 - sizeof_heap_node) = a.
Proof. intros H1 H2. unfold sizeof_heap_node. rewrite w64_small; lia. Qed.

(** Freeing the first block: its right neighbour is in use. *)
Lemma free_first_run (h S s1 s2 : Z) s :
  0 < h → 0 ≤ s1 → 0 ≤ s2 → s1 + 32 + s2 + 32 < S - 32 → h + S < 2 ^ 64 →
  free (h + 32) (set_hdrs (two_blocks h S s1 s2 (hdrs s)) s)
  = Done (tt, set_hdrs (<[h := mk_node s1 FREE 0 (h + 32 + s1)]> (two_blocks h S s1 s2 (hdrs s))) s).
Proof.
  intros Hh H1 H2 Hr He. unfold free. rewrite free_ptr by lia. unfold two_blocks. hp.
  repeat dec. hp. erewrite bind_done.
  2:{ unfold merge_right. hp. dec. hp. dec. reflexivity. }
  cbv beta. hp. dec. reflexivity.
Qed.

(** [merge_right] of the second block, when it is free: it swallows the rest. *)
Lemma merge_second_run (h S s1 s2 p : Z) (m : gmap Z heap_node_t) s :
  let b := h + 32 + s1 in let c := b + 32 + s2 in
  0 < h → 0 ≤ s1 → 0 ≤ s2 → s1 + 32 + s2 + 32 < S - 32 → h + S < 2 ^ 64 →
  m !! b = Some (mk_node s2 FREE p c) →
  m !! c = Some (mk_node (S - 32 - s1 - 32 - s2 - 32) FREE b 0) →
  merge_right b (set_hdrs m s)
  = Done (tt, set_hdrs (<[b := mk_node (S - 32 - s1 - 32) FREE p 0]> m) s).
Proof.
  intros b c Hh H1 H2 Hr He Eb Ec. subst c b. unfold merge_right, sizeof_heap_node. hp. dec. hp. dec.
  rewrite (w64_small (h + 32 + s1 + 32)) by lia. rewrite (w64_small (s2 + _)) by lia. dec. dec. repeat hp.
  erewrite upd_run; [|lia|hp_look]. unfold set_hdrs, set_size.
  cbn [hdrs kernel_heap data space n_size n_status n_prev n_next]. rewrite w64_small by lia.
  rewrite !insert_insert_eq. 
  by replace (s2 + (S - 32 - s1 - 32 - s2 - 32) + 32) with (S - 32 - s1 - 32) by lia.
Qed.

(** Freeing in the order of allocation crashes.  On a fresh heap with room
    for both, allocate two blocks and free the first, then the second: the
    second [free] has merged its block with the free rest of the heap, finds
    the first block free on its left, and writes [node->next->prev] although
    [node->next] is null. *)
Lemma free_in_order_faults (h S s1 s2 : Z) s :
  0 < h → 0 ≤ s1 → 0 ≤ s2 → s1 + 32 + s2 + 32 < S - 32 → h + S < 2 ^ 64 → kernel_heap s = h →
  (ab ← alloc_two h S s1 s2; free ab.1;; free ab.2) s = Fault.
Proof.
  intros Hh H1 H2 Hr He Hk.
  erewrite bind_done by (apply alloc_two_run; done). cbv beta. cbn [fst snd].
  rewrite (bind_done _ _ _ _ _ (free_first_run h S s1 s2 s Hh H1 H2 Hr He)).
  unfold free. rewrite free_ptr by lia. unfold two_blocks. hp. repeat dec. hp.
  erewrite bind_done by (apply (merge_second_run h S s1 s2 h); try done; hp_look). cbv beta.
  hp. dec. hp. dec. unfold sizeof_heap_node. rewrite w64_small by lia. dec. hp. done.
Qed.

(** Freeing in the reverse order gives everything back: the heap is one
    free block of the initial size again. *)
Lemma free_in_reverse_order (h S s1 s2 : Z) s :
  0 < h → 0 ≤ s1 → 0 ≤ s2 → s1 + 32 + s2 + 32 < S - 32 → h + S < 2 ^ 64 → kernel_heap s = h →
  ∃ s', (ab ← alloc_two h S s1 s2; free ab.2;; free ab.1) s = Done (tt, s') ∧
    hdrs s' !! h = Some (mk_node (S - 32) FREE 0 0) ∧
    heap_ok h (h + S) [mk_block h (S - 32) false] s'.
Proof.
  intros Hh H1 H2 Hr He Hk.
  erewrite bind_done by (apply alloc_two_run; done). cbv beta. cbn [fst snd].
  erewrite bind_done.
  2:{ unfold free. rewrite free_ptr by lia. unfold two_blocks. hp. repeat dec. hp.
      erewrite bind_done by (apply (merge_second_run h S s1 s2 h); try done; hp_look). cbv beta.
      hp. dec. hp. dec. reflexivity. }
  cbv beta. unfold free. rewrite free_ptr by lia. hp. repeat dec. hp.
  erewrite bind_done.
  2:{ unfold merge_right, sizeof_heap_node. hp. dec. hp. dec.
      rewrite (w64_small (h + 32)) by lia. rewrite (w64_small (s1 + _)) by lia. dec. dec. repeat hp.
      erewrite upd_run; [|lia|hp_look]. reflexivity. }
  cbv beta. unfold set_next, set_prev, set_size, set_status.
  cbn [hdrs set_hdrs kernel_heap data space n_size n_status n_prev n_next].
  rewrite !insert_insert_eq, w64_small by lia. hp. dec.
  replace (s1 + (S - 32 - s1 - 32) + 32) with (S - 32) by lia.
  eexists. split; [reflexivity|]. cbn [hdrs set_hdrs]. rewrite lookup_insert_eq. split; [done|].
  unfold heap_ok. cbn [hdrs set_hdrs kernel_heap]. rewrite Hk. split_and!; try lia.
  - simpl. split_and!; [done|lia|]. exists 0, 0. by rewrite lookup_insert_eq.
  - simpl. unfold b_end, sizeof_heap_node. simpl. lia.
Qed.

(** A block that [alloc] gets by growing the heap does not fit its area.
    When the last block is in use and the address space hands out an area of
    [asize] bytes, too small to be split, the header takes 32 bytes of it but
    the block's size is the whole area: a payload of [asize] bytes ends 32
    bytes after the area. *)
Lemma grown_block_overruns_area lo hi l b s asize start v' :
  heap_ok lo hi (l ++ [b]) s → Forall (λ c, block_fits asize c = false) (l ++ [b]) →
  area_alloc_at (b_addr b) asize (space s) = Done (Some (start, asize), v') →
  0 ≤ asize → hi ≤ start → start + asize + 64 < 2 ^ 64 → start ≠ b_addr b + b_size b →
  ∃ s' p, alloc asize s = Done (p, s') ∧
    hdrs s' !! (p - 32) = Some (mk_node asize USED (b_addr b) 0) ∧
    start ≤ p ∧ start + asize < p + asize.
Proof.
  intros (Hc & Hf & Hlo & Hhi) Hl Ha Has Hst Hw Hne.
  apply Forall_app in Hl as [Hl [Hb _]%Forall_cons].
  pose proof (chain_app _ _ _ _ _ Hc) as [(_ & H0 & p & nx & E & Hnx) _]. simpl in Hnx. subst nx.
  destruct (fits_elem _ _ _ b Hf) as (Hb1 & Hb2 & Hb3); [apply elem_of_app; right; by left|].
  unfold b_end, sizeof_heap_node in Hb2.
  eexists _, (start + 32). split; [|split; [|lia]].
  - unfold alloc. erewrite bind_done by reflexivity. cbv beta. erewrite bind_done.
    2:{ eapply (find_fit_run s asize l b []); [done|done|by right|].
        pose proof (chain_length _ _ _ _ _ Hc Hf) as Hlen. rewrite length_app in Hlen. simpl in Hlen. lia. }
    cbv beta. hp. rewrite unfit_block, Hb. dec. cbn [negb]. erewrite bind_done.
    2:{ unfold grow. erewrite bind_done by (unfold zoom; rewrite Ha; reflexivity). cbv beta iota. hp.
        rewrite w64_small by lia. dec. hp. hp. reflexivity. }
    cbv beta iota. unfold take, sizeof_heap_node. rewrite (w64_small (start + 32)) by lia. hp.
    rewrite (w64_small (asize + 32)) by lia. dec. hp. hp. reflexivity.
  - cbn [hdrs set_hdrs]. replace (start + 32 - 32) with start by lia.
    rewrite lookup_insert_eq. reflexivity.
Qed.
End heap_proofs.

(** ** Examples *)

Definition ex_heap : heap_state Z := mk_heap 0x1000 ∅ ∅ 0x9000.

(** A heap with a used block, a small free one and a large free one. *)
Definition ex_heap3 : heap_state Z := mk_heap 0x1000
  {[ 0x1000 := mk_node 0x10 USED 0 0x1030;
     0x1030 := mk_node 0x8 FREE 0x1000 0x1058;
     0x1058 := mk_node 0x100 FREE 0x1030 0 ]} ∅ 0x9000.
Definition ex_b1 := mk_block 0x1000 0x10 true.
Definition ex_b2 := mk_block 0x1030 0x8 false.
Definition ex_b3 := mk_block 0x1058 0x100 false.

Lemma alloc_first_fit_witness :
  ∃ s', alloc 0x20 ex_heap3 = Done (0x1078, s') ∧
    heap_ok 0x1000 0x2000 ([ex_b1; ex_b2] ++ split_block ex_b3 0x20 ++ []) s' ∧
    ∀ c, c ∈ [ex_b1; ex_b2] ++ ex_b3 :: [] → b_used c = true →
      b_end c ≤ b_addr ex_b3 ∨ b_addr ex_b3 + sizeof_heap_node + 0x20 ≤ b_addr c.
Proof.
  refine (alloc_first_fit 0x1000 0x2000 [ex_b1; ex_b2] ex_b3 [] ex_heap3 0x20 _ _ _ _).
  - split_and!; [|by vm_compute..]. simpl. split_and!; [done|done|].
    do 2 eexists. split; [reflexivity|]. split_and!; [done|done|].
    do 2 eexists. split; [reflexivity|]. split_and!; [done|done|].
    do 2 eexists. by split; [reflexivity|].
  - repeat constructor.
  - reflexivity.
  - lia.
Defined.

Lemma free_in_order_faults_witness :
  (ab ← alloc_two 0x1000 0x1000 0x20 0x40; free ab.1;; free ab.2) ex_heap = Fault.
Proof. refine (free_in_order_faults 0x1000 0x1000 0x20 0x40 ex_heap _ _ _ _ _ _); lia || done. Defined.

Lemma free_in_reverse_order_witness :
  ∃ s', (ab ← alloc_two 0x1000 0x1000 0x20 0x40; free ab.2;; free ab.1) ex_heap = Done (tt, s') ∧
    hdrs s' !! 0x1000 = Some (mk_node (0x1000 - 32) FREE 0 0) ∧
    heap_ok 0x1000 (0x1000 + 0x1000) [mk_block 0x1000 (0x1000 - 32) false] s'.
Proof. refine (free_in_reverse_order 0x1000 0x1000 0x20 0x40 ex_heap _ _ _ _ _ _); lia || done. Defined.

(** A full heap of one block, and a request of one page. *)
Definition ex_full : heap_state Z := mk_heap 0x1000
  {[ 0x1000 := mk_node 0xfe0 USED 0 0 ]} ∅ 0x9000.

Lemma grown_block_overruns_area_witness :
  ∃ s' p, alloc 0x1000 ex_full = Done (p, s') ∧
    hdrs s' !! (p - 32) = Some (mk_node 0x1000 USED 0x1000 0) ∧
    0x9000 ≤ p ∧ 0x9000 + 0x1000 < p + 0x1000.
Proof.
  refine (grown_block_overruns_area 0x1000 0x2000 [] (mk_block 0x1000 0xfe0 true) ex_full
    0x1000 0x9000 0xa000 _ _ _ _ _ _ _).
  - split_and!; [|by vm_compute..]. simpl. split_and!; [done|done|].
    do 2 eexists. by split; [reflexivity|].
  - repeat constructor.
  - reflexivity.
  - lia.
  - lia.
  - lia.
  - by vm_compute.
Defined.

