(* ===== verification/Vmm.v ===== *)
(** * Address space management (kernel/memory/vmm.c, vmm.h)

    An address space is a doubly linked list of areas in increasing address
    order; the area records live in container pages.  Vmm structures, areas,
    containers and locks are kept by address; the page tables, the page
    allocator and the heap are the components they call. *)
From S2P Require Import Prelude.
From S2P Require Import Interfaces.
From S2P Require Import Cpu.
From S2P Require Import Spinlock.
From S2P Require Import Layout.
From S2P Require Import Vm.
From S2P Require Import VmWalk.
From S2P Require Import VmMap.

(** [struct memory_area]. *)
Record memory_area_t := mk_area {
  a_start : Z; a_size : Z; a_flags : Z; a_is_mmio : Z; a_next : Z; a_prev : Z;
}.
Definition sizeof_memory_area : Z := 40.
Definition ITEM_PER_CONTAINER : Z := PAGE_SIZE / sizeof_memory_area.

(** [struct vmm_info]. *)
Record vmm_info_t := mk_vmm {
  root_pagetable : Z; user_vmm : bool;
  vmm_start : Z; vmm_data_start : Z; vmm_data_end : Z;
  current_index : Z; root_container : Z; current_container : Z;
  current_addr : Z; first_area : Z; current_area : Z;
  lock : Z;
}.
Definition sizeof_vmm_info : Z := 96.
Definition sizeof_spinlock : Z := 16.

(** The vmm structures, the areas, the [next] fields of the containers, and
    the locks, by address; the CPUs with the page table each has loaded; the
    page tables; the heap. *)
Record vmm_state (P H : Type) := mk_vs {
  vmms : gmap Z vmm_info_t;
  areas : gmap Z memory_area_t;
  conts : gmap Z Z;
  locks : gmap Z spinlock_t;
  vcpus : cpus;
  cr3 : gmap Z Z;
  tables : vm P;
  vheap : H;
}.
Arguments mk_vs {P H}.
Arguments vmms {P H}.
Arguments areas {P H}.
Arguments conts {P H}.
Arguments locks {P H}.
Arguments vcpus {P H}.
Arguments cr3 {P H}.
Arguments tables {P H}.
Arguments vheap {P H}.

Definition set_a_next v a := mk_area (a_start a) (a_size a) (a_flags a) (a_is_mmio a) v (a_prev a).
Definition set_a_prev v a := mk_area (a_start a) (a_size a) (a_flags a) (a_is_mmio a) (a_next a) v.
Definition set_a_flags v a := mk_area (a_start a) (a_size a) v (a_is_mmio a) (a_next a) (a_prev a).
Definition set_a_mmio v a := mk_area (a_start a) (a_size a) (a_flags a) v (a_next a) (a_prev a).

Definition set_first v m := mk_vmm (root_pagetable m) (user_vmm m) (vmm_start m) (vmm_data_start m)
  (vmm_data_end m) (current_index m) (root_container m) (current_container m) (current_addr m) v
  (current_area m) (lock m).
Definition set_current v m := mk_vmm (root_pagetable m) (user_vmm m) (vmm_start m) (vmm_data_start m)
  (vmm_data_end m) (current_index m) (root_container m) (current_container m) (current_addr m)
  (first_area m) v (lock m).
Definition set_current_addr v m := mk_vmm (root_pagetable m) (user_vmm m) (vmm_start m) (vmm_data_start m)
  (vmm_data_end m) (current_index m) (root_container m) (current_container m) v
  (first_area m) (current_area m) (lock m).
Definition set_index v m := mk_vmm (root_pagetable m) (user_vmm m) (vmm_start m) (vmm_data_start m)
  (vmm_data_end m) v (root_container m) (current_container m) (current_addr m)
  (first_area m) (current_area m) (lock m).
Definition set_root_container v m := mk_vmm (root_pagetable m) (user_vmm m) (vmm_start m)
  (vmm_data_start m) (vmm_data_end m) (current_index m) v (current_container m) (current_addr m)
  (first_area m) (current_area m) (lock m).
Definition set_container v m := mk_vmm (root_pagetable m) (user_vmm m) (vmm_start m)
  (vmm_data_start m) (vmm_data_end m) (current_index m) (root_container m) v (current_addr m)
  (first_area m) (current_area m) (lock m).

Section vmm.
Context {P H : Type} `{!PageAllocator P} `{!Allocator H}.
(** The addresses of the statics [kernel_vmm] and [kernel_vmm_lock]; the
    contents of memory that was never written (area slots and [next] fields
    of a fresh container page); the spins granted to [acquire]; the CPU. *)
Context (kernel_vmm kernel_vmm_lock : Z).
Context (uninit_area : Z → memory_area_t) (uninit_next : Z → Z).
Context (spins : nat) (cpu : Z).
Abbreviation VS := (M (vmm_state P H)).

Definition load_vmm (m : Z) : VS vmm_info_t :=
  getf (λ s, if decide (m = 0) then None else vmms s !! m).
Definition store_vmm (m : Z) (v : vmm_info_t) : VS unit :=
  modifyf (λ s, if decide (m = 0) then None else
    Some (mk_vs (<[m := v]> (vmms s)) (areas s) (conts s) (locks s) (vcpus s) (cr3 s) (tables s) (vheap s))).
Definition upd_vmm (m : Z) (f : vmm_info_t → vmm_info_t) : VS unit :=
  v ← load_vmm m; store_vmm m (f v).

Definition load_area (a : Z) : VS memory_area_t :=
  getf (λ s, if decide (a = 0) then None else areas s !! a).
Definition store_area (a : Z) (v : memory_area_t) : VS unit :=
  modifyf (λ s, if decide (a = 0) then None else
    Some (mk_vs (vmms s) (<[a := v]> (areas s)) (conts s) (locks s) (vcpus s) (cr3 s) (tables s) (vheap s))).
Definition upd_area (a : Z) (f : memory_area_t → memory_area_t) : VS unit :=
  v ← load_area a; store_area a (f v).

Definition load_cont (c : Z) : VS Z := getf (λ s, if decide (c = 0) then None else conts s !! c).
Definition store_cont (c v : Z) : VS unit :=
  modifyf (λ s, if decide (c = 0) then None else
    Some (mk_vs (vmms s) (areas s) (<[c := v]> (conts s)) (locks s) (vcpus s) (cr3 s) (tables s) (vheap s))).

Definition on_tables {A} : M (vm P) A → VS A :=
  zoom tables (λ v s, mk_vs (vmms s) (areas s) (conts s) (locks s) (vcpus s) (cr3 s) v (vheap s)).
Definition on_heap {A} : M H A → VS A :=
  zoom vheap (λ v s, mk_vs (vmms s) (areas s) (conts s) (locks s) (vcpus s) (cr3 s) (tables s) v).
Definition on_vcpus {A} : CPU A → VS A :=
  zoom vcpus (λ v s, mk_vs (vmms s) (areas s) (conts s) (locks s) v (cr3 s) (tables s) (vheap s)).
(** [acquire]/[release] on the lock at address [l]. *)
Definition on_lock (l : Z) (f : SL unit) : VS unit := λ s,
  match locks s !! l with
  | None => Fault
  | Some lk =>
      match f (vcpus s, lk) with
      | Done (_, (cp, lk')) =>
          Done (tt, mk_vs (vmms s) (areas s) (conts s) (<[l := lk']> (locks s)) cp (cr3 s) (tables s) (vheap s))
      | Panic => Panic | Fault => Fault | OutOfFuel => OutOfFuel
      end
  end.

Definition vmm_init (m pagetable start till : Z) (user : bool) (lk : Z) : VS unit :=
  let vstart := PAGE_START start PAGE_SIZE in
  let vstart := if decide (vstart = 0) then vstart +64 PAGE_SIZE else vstart in
  store_vmm m (mk_vmm pagetable user vstart vstart (PAGE_END till PAGE_SIZE +64 1) 0 0 0 0 0 0
    (if decide (m ≠ kernel_vmm) then lk else kernel_vmm_lock)).

(** The loop of [get_memory_area]. *)
Fixpoint find_area (fuel : nat) (cur va : Z) : VS Z :=
  if decide (cur = 0) then mret 0 else
  match fuel with
  | O => out_of_fuel
  | S fuel =>
      a ← load_area cur;
      if decide (a_start a ≤ va ∧ va < a_start a +64 a_size a) then mret cur
      else find_area fuel (a_next a) va
  end.

Definition get_memory_area (m va : Z) : VS Z :=
  if decide (m = 0) then mret 0 else
  v ← load_vmm m;
  if decide (current_addr v < va) then mret 0 else
  n ← gets (λ s, size (areas s));
  find_area n (first_area v) va.

(** The search for a gap in [vmm_alloc_at]; whatever it finds, [found] is set
    to 0 after the loop.  The result is [(prev, cur)] at its end. *)
Fixpoint gap_search (fuel : nat) (base length data_start prev cur : Z) : VS (Z * Z) :=
  if decide (cur = 0) then mret (prev, cur) else
  match fuel with
  | O => out_of_fuel
  | S fuel =>
      a ← load_area cur;
      if decide (w64 (a_start a + a_size a - 1) < base) then
        gap_search fuel base length data_start cur (a_next a)
      else
        low ← (if decide (prev = 0) then mret data_start else
               p ← load_area prev;
               mret (w64 (PAGE_END (w64 (a_start p + a_size p - 1)) PAGE_SIZE + 1)));
        let high := a_start a in
        if decide (low +64 length < high) then mret (prev, cur)
        else gap_search fuel base length data_start cur (a_next a)
  end.

(** A slot for a new area; a full or missing container is replaced by a fresh
    page, whose address is used unchecked. *)
Definition area_slot (m : Z) : VS Z :=
  v ← load_vmm m;
  (if decide (current_index v = ITEM_PER_CONTAINER ∨ root_container v = 0) then
     phy ← on_tables (on_pages kalloc);
     let new_container := phy +64 PHYSICAL_OFFSET in
     store_cont new_container (uninit_next new_container);;
     (if decide (current_container v ≠ 0) then store_cont (current_container v) new_container
      else upd_vmm m (set_root_container new_container));;
     upd_vmm m (set_container new_container);;
     upd_vmm m (set_index 0)
   else mret tt);;
  v ← load_vmm m;
  let new := current_container v +64 current_index v * sizeof_memory_area in
  upd_vmm m (λ v, set_index (current_index v +64 1) v);;
  mret new.

(** Linking the new area between [prev] and [cur]. *)
Definition link_area (m new found length flags prev cur : Z) : VS unit :=
  v ← load_vmm m;
  old ← gets (λ s, default (uninit_area new) (areas s !! new));
  let flags := if user_vmm v then Z.lor flags MEMORY_FLAG_USER else flags in
  store_area new (mk_area found (length +64 1) flags (a_is_mmio old) cur (a_prev old));;
  (if decide (cur ≠ 0) then upd_area cur (set_a_prev new) else mret tt);;
  upd_area new (set_a_prev prev);;
  (if decide (prev ≠ 0) then upd_area prev (set_a_next new)
   else upd_vmm m (set_first new));;
  v ← load_vmm m;
  if decide (prev = current_area v) then
    upd_vmm m (set_current new);;
    a ← load_area new;
    upd_vmm m (set_current_addr (w64 (a_start a + a_size a - 1)))
  else mret tt.

Definition vmm_alloc_at (base m sz flags : Z) : VS Z :=
  let length := PAGE_END (sz -64 1) PAGE_SIZE in
  v ← load_vmm m;
  let high_bound := vmm_data_end v in
  on_lock (lock v) (acquire (S spins) cpu);;
  v ← load_vmm m;
  let cur := current_area v in
  let low_bound := if decide (cur = 0) then vmm_data_start v
                   else w64 (PAGE_END (current_addr v) PAGE_SIZE + 1) in
  let base := PAGE_START base PAGE_SIZE in
  let found := if decide (low_bound < base) then base else low_bound in
  r ← (if decide (high_bound < found +64 length) then
         n ← gets (λ s, size (areas s));
         pc ← gap_search n base length (vmm_data_start v) 0 (first_area v);
         mret (0, pc)
       else mret (found, (cur, 0)));
  let '(found, (prev, cur)) := r in
  if decide (found = 0) then
    on_lock (lock v) (release cpu);; mret 0
  else
    new ← area_slot m;
    link_area m new found length flags prev cur;;
    v ← load_vmm m;
    on_lock (lock v) (release cpu);;
    mret new.

Definition vmm_alloc (m sz flags : Z) : VS Z := vmm_alloc_at 0 m sz flags.

(** The search of [vmm_free_area] for the container of [area]. *)
Fixpoint find_container (fuel : nat) (cur area : Z) : VS Z :=
  if decide (cur = 0) then mret 0 else
  match fuel with
  | O => out_of_fuel
  | S fuel =>
      if decide (cur ≤ area ∧ area ≤ cur + (ITEM_PER_CONTAINER - 1) * sizeof_memory_area) then mret cur
      else n ← load_cont cur; find_container fuel n area
  end.

Definition vmm_free_area (m area : Z) : VS Z :=
  if decide (area = 0) then mret (-1) else
  v ← load_vmm m;
  n ← gets (λ s, size (conts s));
  c ← find_container (S n) (root_container v) area;
  if decide (c = 0) then mret (-1) else
  a ← load_area area;
  (if decide (a_prev a ≠ 0) then upd_area (a_prev a) (set_a_next (a_next a))
   else upd_vmm m (set_first (a_next a)));;
  a ← load_area area;
  (if decide (a_next a ≠ 0) then upd_area (a_next a) (set_a_prev (a_prev a))
   else upd_vmm m (set_current (a_prev a)));;
  a ← load_area area;
  v ← load_vmm m;
  on_tables (unmappages (root_pagetable v) (a_start a) (a_size a) (bool_decide (a_is_mmio a = 0)));;
  mret 0.

(** [change_current_vmm]; writing cr3 is [change_pagetable]. *)
Definition change_current_vmm (m : Z) : VS unit :=
  k ← on_vcpus (get_cpu cpu);
  on_vcpus (cpu_put cpu (set_cpu_vmm m k));;
  if decide (m ≠ kernel_vmm) then
    v ← load_vmm m;
    modify (λ s, mk_vs (vmms s) (areas s) (conts s) (locks s) (vcpus s)
      (<[cpu := root_pagetable v -64 PHYSICAL_OFFSET]> (cr3 s)) (tables s) (vheap s))
  else mret tt.

Definition get_current_vmm : VS Z :=
  k ← on_vcpus (get_cpu cpu);
  mret (if decide (vmm k ≠ 0) then vmm k else kernel_vmm).

Definition get_relevant_vmm (va : Z) : VS Z :=
  if decide (0xFFFF800000000000 ≤ va) then mret kernel_vmm else get_current_vmm.

Definition vmm_free (va : Z) : VS Z :=
  m ← get_relevant_vmm va;
  area ← get_memory_area m va;
  if decide (area = 0) then mret (-1) else vmm_free_area m area.

Definition update_area_access (m area flags : Z) : VS Z :=
  upd_area area (set_a_flags flags);;
  v ← load_vmm m;
  (if user_vmm v then upd_area area (λ a, set_a_flags (Z.lor (a_flags a) MEMORY_FLAG_USER) a)
   else mret tt);;
  a ← load_area area;
  on_tables (updatepages (root_pagetable v) (a_start a) (a_size a) (a_flags a)).

Definition on_demand_allocation (va : Z) : VS Z :=
  m ← get_relevant_vmm va;
  area ← get_memory_area m va;
  if decide (area = 0) then mret (-1) else
  page ← on_tables (on_pages kalloc);
  v ← load_vmm m;
  a ← load_area area;
  r ← on_tables (mappages (root_pagetable v) (PAGE_START va PAGE_SIZE) PAGE_SIZE page (a_flags a));
  mret (if decide (r ≠ 0) then -1 else 0).

Definition vmm_create (start till : Z) (user : bool) : VS Z :=
  m ← on_heap (h_alloc sizeof_vmm_info);
  if decide (m = 0) then mret 0 else
  pt ← on_tables (on_pages kalloc);
  if decide (pt = 0) then on_heap (h_free m);; mret 0 else
  let pagetable := pt +64 PHYSICAL_OFFSET in
  lk ← on_heap (h_alloc sizeof_spinlock);
  if decide (lk = 0) then
    on_tables (on_pages (kfree (pagetable -64 PHYSICAL_OFFSET)));;
    on_heap (h_free m);; mret 0
  else
  modify (λ s, mk_vs (vmms s) (areas s) (conts s) (<[lk := mk_lock 0 0 None]> (locks s))
    (vcpus s) (cr3 s) (tables s) (vheap s));;
  vmm_init m pagetable start till user lk;;
  mret m.

Fixpoint unmap_areas (fuel : nat) (root cur : Z) : VS unit :=
  if decide (cur = 0) then mret tt else
  match fuel with
  | O => out_of_fuel
  | S fuel =>
      a ← load_area cur;
      on_tables (unmappages root (a_start a) (a_size a) true);;
      a ← load_area cur;
      unmap_areas fuel root (a_next a)
  end.

Fixpoint free_containers (fuel : nat) (cur : Z) : VS unit :=
  if decide (cur = 0) then mret tt else
  match fuel with
  | O => out_of_fuel
  | S fuel =>
      n ← load_cont cur;
      on_tables (on_pages (kfree (cur -64 PHYSICAL_OFFSET)));;
      free_containers fuel n
  end.

Definition vmm_destroy (m : Z) : VS unit :=
  v ← load_vmm m;
  n ← gets (λ s, size (areas s));
  unmap_areas n (root_pagetable v) (first_area v);;
  n ← gets (λ s, size (conts s));
  free_containers (S n) (root_container v);;
  on_heap (h_free (lock v));;
  on_tables (on_pages (kfree (root_pagetable v -64 PHYSICAL_OFFSET)));;
  on_heap (h_free m).

Definition map_mmio (m physical sz : Z) (writable : bool) : VS Z :=
  let m := if decide (m = 0) then kernel_vmm else m in
  v ← load_vmm m;
  let flag := if writable then Z.lor 0 MEMORY_FLAG_WRITE else 0 in
  let flag := if user_vmm v then Z.lor flag MEMORY_FLAG_USER else flag in
  area ← vmm_alloc m sz flag;
  if decide (area = 0) then mret 0 else
  upd_area area (set_a_mmio 1);;
  a ← load_area area;
  v ← load_vmm m;
  r ← on_tables (mappages (root_pagetable v) (a_start a) (a_size a) physical (a_flags a));
  if decide (r ≠ 0) then mret 0 else
  a ← load_area area;
  mret (a_start a).

Definition unmap_mmio (va : Z) : VS unit :=
  m ← get_relevant_vmm va;
  area ← get_memory_area m va;
  if decide (area = 0) then mret tt else
  a ← load_area area;
  if decide (a_is_mmio a = 0) then mret tt else
  vmm_free_area m area;; mret tt.
End vmm.
