(* ===== verification/VmmAlloc.v ===== *)
(** * Allocating and looking up areas (kernel/memory/vmm.c)

    The invariant of an address space, and what [vmm_alloc_at] and
    [get_memory_area] do under it. *)
From S2P Require Import Prelude.
From S2P Require Import Interfaces.
From S2P Require Import Cpu.
From S2P Require Import Spinlock.
From S2P Require Import Layout.
From S2P Require Import Vm.
From S2P Require Import VmWalk.
From S2P Require Import Vmm.

Lemma alter_as_insert {A} (f : A → A) (m : gmap Z A) i x :
  m !! i = Some x → alter f i m = <[i := f x]> m.
Proof.
  intros E. apply map_eq. intros j. destruct (decide (i = j)) as [<-|Hne].
  - by rewrite lookup_alter_eq, lookup_insert_eq, E.
  - by rewrite lookup_alter_ne, lookup_insert_ne.
Qed.

(** An area as the specification sees it. *)
Record desc := mk_desc { d_addr : Z; d_start : Z; d_size : Z }.
Definition d_end (d : desc) : Z := d_start d + d_size d.

(** The areas [l], doubly linked, from [cur] on. *)
Fixpoint achain (am : gmap Z memory_area_t) (prev cur : Z) (l : list desc) : Prop :=
  match l with
  | [] => cur = 0
  | d :: l => cur = d_addr d ∧ cur ≠ 0 ∧
      ∃ a, am !! cur = Some a ∧ a_start a = d_start d ∧ a_size a = d_size d ∧ a_prev a = prev ∧
        achain am cur (a_next a) l
  end.

(** In increasing order from [lo], each a positive number of pages. *)
Fixpoint alay (lo : Z) (l : list desc) (hi : Z) : Prop :=
  match l with
  | [] => lo ≤ hi
  | d :: l => lo ≤ d_start d ∧ 0 < d_size d ∧ d_start d mod 4096 = 0 ∧ d_size d mod 4096 = 0 ∧
      alay (d_end d) l hi
  end.

Lemma alay_le lo l hi : alay lo l hi → lo ≤ hi.
Proof.
  revert lo. induction l as [|d l IH]; intros lo; simpl; [done|].
  intros (? & ? & _ & _ & ?%IH). unfold d_end in *. lia.
Qed.

Lemma alay_elem lo l hi d :
  alay lo l hi → d ∈ l → lo ≤ d_start d ∧ d_end d ≤ hi ∧ 0 < d_size d.
Proof.
  revert lo. induction l as [|c l IH]; intros lo; simpl; [by intros _ ?%not_elem_of_nil|].
  intros (? & ? & _ & _ & Hl) [->|Hin]%elem_of_cons.
  - apply alay_le in Hl. done.
  - destruct (IH _ Hl Hin) as (? & ? & ?). unfold d_end in *. lia.
Qed.

Lemma alay_weaken lo l hi hi' : hi ≤ hi' → alay lo l hi → alay lo l hi'.
Proof.
  intros Hh. revert lo. induction l as [|d l IH]; intros lo; simpl; [lia|]. naive_solver.
Qed.

Lemma alay_snoc lo l hi d hi' :
  alay lo l hi → hi ≤ d_start d → 0 < d_size d → d_start d mod 4096 = 0 → d_size d mod 4096 = 0 →
  d_end d ≤ hi' → alay lo (l ++ [d]) hi'.
Proof.
  intros Hl Hs Hz Ha Hb He. revert lo Hl. induction l as [|c l IH]; intros lo; simpl.
  - intros. split_and!; (done || lia).
  - intros (? & ? & ? & ? & ?%IH). done.
Qed.

(** Two different areas of a layout do not overlap. *)
Lemma alay_disjoint lo l hi i j d e :
  alay lo l hi → l !! i = Some d → l !! j = Some e → (i < j)%nat → d_end d ≤ d_start e.
Proof.
  revert lo i j. induction l as [|c l IH]; intros lo i j; simpl; [done|].
  intros (? & ? & _ & _ & Hl) Hd He Hij. destruct i as [|i], j as [|j]; simpl in *; try lia.
  - injection Hd as ->. apply list_elem_of_lookup_2 in He. by apply (alay_elem _ _ _ _ Hl).
  - eapply IH; [done..|lia].
Qed.

Lemma achain_lookup am prev cur l d :
  achain am prev cur l → d ∈ l →
  ∃ a, am !! d_addr d = Some a ∧ a_start a = d_start d ∧ a_size a = d_size d ∧ d_addr d ≠ 0.
Proof.
  revert prev cur. induction l as [|c l IH]; intros prev cur; simpl; [by intros _ ?%not_elem_of_nil|].
  intros (-> & H0 & a & Ha & Hs & Hz & _ & Hc) [->|Hin]%elem_of_cons; [eauto 6|by eapply IH].
Qed.

(** Different areas have different addresses. *)
Lemma achain_nodup am prev cur l lo hi :
  achain am prev cur l → alay lo l hi → NoDup (d_addr <$> l).
Proof.
  revert prev cur lo. induction l as [|d l IH]; intros prev cur lo; simpl; [constructor|].
  intros (-> & H0 & a & Ha & Hs & Hz & _ & Hc) (? & ? & _ & _ & Hl).
  apply NoDup_cons. split; [|by eapply IH].
  intros (e & E & Hin)%list_elem_of_fmap.
  destruct (achain_lookup _ _ _ _ _ Hc Hin) as (a' & Ha' & Hs' & _).
  destruct (alay_elem _ _ _ _ Hl Hin) as (? & _). rewrite <- E, Ha in Ha'. simplify_eq.
  unfold d_end in *. lia.
Qed.

Lemma achain_length am prev cur l lo hi :
  achain am prev cur l → alay lo l hi → (length l ≤ size am)%nat.
Proof.
  intros Hc Hl. rewrite <- (length_fmap d_addr), <- size_dom.
  rewrite <- (size_list_to_set (C := gset Z)) by by eapply achain_nodup.
  apply subseteq_size. intros x. rewrite elem_of_list_to_set, elem_of_dom.
  intros (d & -> & Hin)%list_elem_of_fmap.
  destruct (achain_lookup _ _ _ _ _ Hc Hin) as (a & Ha & _). eauto.
Qed.

Lemma achain_insert am prev cur l x a :
  x ∉ d_addr <$> l → achain am prev cur l → achain (<[x := a]> am) prev cur l.
Proof.
  revert prev cur. induction l as [|d l IH]; intros prev cur; simpl; [done|].
  intros [Hx Hl]%not_elem_of_cons (-> & H0 & b & Hb & ? & ? & ? & Hc).
  split_and!; [done|done|]. exists b. rewrite lookup_insert_ne by done. split_and!; auto.
Qed.

(** Hanging a new area behind the last one. *)
Lemma achain_snoc am prev cur l d x :
  achain am prev cur l → NoDup (d_addr <$> l) → d_addr d ∉ d_addr <$> l → d_addr d ≠ 0 →
  a_start x = d_start d → a_size x = d_size d → a_next x = 0 →
  a_prev x = default prev (d_addr <$> last l) →
  achain (<[d_addr d := x]> (match last l with
    | Some e => alter (set_a_next (d_addr d)) (d_addr e) am
    | None => am end)) prev (if decide (l = []) then d_addr d else cur) (l ++ [d]).
Proof.
  intros Hc Hnd Hn H0 Hs Hz Hx Hp. revert prev cur Hc Hp.
  induction l as [|c l IH]; intros prev cur Hc Hp; simpl in *.
  - subst cur. split_and!; [done|done|]. exists x. rewrite lookup_insert_eq. split_and!; done.
  - destruct Hc as (-> & Hc0 & b & Hb & Hbs & Hbz & Hbp & Hc).
    apply NoDup_cons in Hnd as [Hcn Hnd]. apply not_elem_of_cons in Hn as [Hnc Hnl].
    split_and!; [done|done|]. destruct l as [|e l].
    + simpl in *. exists (set_a_next (d_addr d) b). rewrite lookup_insert_ne, lookup_alter_eq, Hb by done.
      simpl. split_and!; try done. exists x. rewrite lookup_insert_eq. split_and!; done.
    + exists b. change (last (c :: e :: l)) with (last (e :: l)) in *.
      destruct (last (e :: l)) as [f|] eqn:El; [|by apply last_None in El].
      assert (d_addr f ≠ d_addr c) as Hfc.
      { intros E. apply Hcn, list_elem_of_fmap. exists f. split; [done|]. by apply last_Some_elem_of. }
      rewrite lookup_insert_ne, lookup_alter_ne by done. split_and!; try done.
      specialize (IH Hnd Hnl (d_addr c) (a_next b) Hc).
      rewrite decide_False in IH by done. apply IH. by rewrite Hp.
Qed.

(** ** Container pages *)

Definition slot_of (c j : Z) : Z := c + j * sizeof_memory_area.

Lemma ITEM_eq : ITEM_PER_CONTAINER = 102.
Proof. reflexivity. Qed.

Lemma slot_inj c c' j j' :
  is_table c → is_table c' → 0 ≤ j < 102 → 0 ≤ j' < 102 → slot_of c j = slot_of c' j' → c = c' ∧ j = j'.
Proof. unfold is_table, slot_of, sizeof_memory_area. intros [] [] ? ? ?. lia_div. Qed.

Section vmm_proofs.
Context {P H : Type} `{!PageAllocator P} `{!Allocator H}.
Context (ok : P → Prop) (managed : P → Z → Prop) `{!PageAllocatorLaws P ok managed}.
Context (uninit_area : Z → memory_area_t) (uninit_next : Z → Z).
Context (spins : nat) (cpu : Z).
Implicit Types s : vmm_state P H.

(** The containers [cl] of [v] hold the areas at the addresses [used]. *)
Record cont_ok (v : vmm_info_t) (cl used : list Z) (pg : P) : Prop := mk_cont_ok {
  co_root : root_container v = default 0 (head cl);
  co_cur : current_container v = default 0 (last cl);
  co_nodup : NoDup cl;
  co_tab : Forall is_table cl;
  co_idx : 0 ≤ current_index v ≤ 102;
  co_used x : x ∈ used → ∃ c j, c ∈ cl ∧ x = slot_of c j ∧ 0 ≤ j < 102 ∧
    (last cl = Some c → j < current_index v);
  co_pages : ok pg;
  co_free x : x ∈ free_pages pg → x + PHYSICAL_OFFSET ∉ cl;
}.

Definition put_vmm (m : Z) (v : vmm_info_t) s : vmm_state P H :=
  mk_vs (<[m := v]> (vmms s)) (areas s) (conts s) (locks s) (vcpus s) (cr3 s) (tables s) (vheap s).
Definition put_areas (am : gmap Z memory_area_t) s : vmm_state P H :=
  mk_vs (vmms s) am (conts s) (locks s) (vcpus s) (cr3 s) (tables s) (vheap s).
Definition put_conts (cm : gmap Z Z) s : vmm_state P H :=
  mk_vs (vmms s) (areas s) cm (locks s) (vcpus s) (cr3 s) (tables s) (vheap s).
Definition put_pages (pg : P) s : vmm_state P H :=
  mk_vs (vmms s) (areas s) (conts s) (locks s) (vcpus s) (cr3 s)
    (mk_vm (words (tables s)) pg (nx_flag_enabled (tables s))) (vheap s).

Definition put_tables (t : vm P) s : vmm_state P H := mk_vs (vmms s) (areas s) (conts s) (locks s) (vcpus s) (cr3 s) t (vheap s).

Lemma on_tables_run {A} (f : M (vm P) A) s a t : f (tables s) = Done (a, t) → on_tables f s = Done (a, put_tables t s).
Proof. intros Hf. unfold on_tables, zoom. by rewrite Hf. Qed.

Lemma load_vmm_run m v s : m ≠ 0 → vmms s !! m = Some v → load_vmm m s = Done (v, s).
Proof. intros H0 E. apply getf_done. by rewrite decide_False. Qed.

Lemma upd_vmm_run m f v s :
  m ≠ 0 → vmms s !! m = Some v → upd_vmm m f s = Done (tt, put_vmm m (f v) s).
Proof.
  intros H0 E. unfold upd_vmm. rewrite (bind_done _ _ _ _ _ (load_vmm_run m v s H0 E)).
  apply modifyf_done. by rewrite decide_False.
Qed.

Lemma load_area_run a v s : a ≠ 0 → areas s !! a = Some v → load_area a s = Done (v, s).
Proof. intros H0 E. apply getf_done. by rewrite decide_False. Qed.

Lemma store_area_run a v s :
  a ≠ 0 → store_area a v s = Done (tt, put_areas (<[a := v]> (areas s)) s).
Proof. intros H0. apply modifyf_done. by rewrite decide_False. Qed.

Lemma upd_area_run a f v s :
  a ≠ 0 → areas s !! a = Some v → upd_area a f s = Done (tt, put_areas (<[a := f v]> (areas s)) s).
Proof.
  intros H0 E. unfold upd_area. rewrite (bind_done _ _ _ _ _ (load_area_run a v s H0 E)).
  by apply store_area_run.
Qed.

Lemma store_cont_run c v s :
  c ≠ 0 → store_cont c v s = Done (tt, put_conts (<[c := v]> (conts s)) s).
Proof. intros H0. apply modifyf_done. by rewrite decide_False. Qed.

Lemma kalloc_run_pages s x pg :
  kalloc (pages (tables s)) = Done (x, pg) →
  on_tables (on_pages kalloc) s = Done (x, put_pages pg s).
Proof. intros E. unfold on_tables, zoom, on_pages, zoom. by rewrite E. Qed.

(** The two parts of [area_slot]: making room, and taking the next slot. *)
Definition same_but_containers (v v' : vmm_info_t) : Prop :=
  root_pagetable v' = root_pagetable v ∧ user_vmm v' = user_vmm v ∧ vmm_start v' = vmm_start v ∧
  vmm_data_start v' = vmm_data_start v ∧ vmm_data_end v' = vmm_data_end v ∧
  current_addr v' = current_addr v ∧ first_area v' = first_area v ∧
  current_area v' = current_area v ∧ lock v' = lock v.

Lemma cont_ok_take v cl used pg c :
  cont_ok v cl used pg → last cl = Some c → current_index v < 102 →
  slot_of c (current_index v) ∉ used ∧
  cont_ok (set_index (current_index v + 1) v) cl (used ++ [slot_of c (current_index v)]) pg.
Proof.
  intros [Hr Hc Hn Ht Hi Hu Hp Hf] Hl Hlt.
  assert (Hin : c ∈ cl) by by apply last_Some_elem_of.
  assert (Htab : ∀ d, d ∈ cl → is_table d) by (by apply Forall_forall). split.
  - intros Hx. destruct (Hu _ Hx) as (c' & j & Hc' & E & Hj & Hlast).
    apply slot_inj in E as [<- <-]; [|auto|auto|lia|done]. specialize (Hlast Hl). lia.
  - split; simpl; try done; [lia|]. intros x [Hx|Hx]%elem_of_app.
    + destruct (Hu _ Hx) as (c' & j & ? & ? & ? & Hlast). exists c', j.
      split_and!; [done|done|lia|lia|intros E; specialize (Hlast E); lia].
    + apply list_elem_of_singleton in Hx as ->. exists c, (current_index v).
      split_and!; (done || lia).
Qed.

Lemma cont_ok_grow v cl used pg x fr pg' :
  cont_ok v cl used pg → free_pages pg = x :: fr → ok pg' → free_pages pg' = fr → phys_page x →
  x ∉ fr → cont_ok (set_index 0 (set_container (x + PHYSICAL_OFFSET)
    (if decide (current_container v ≠ 0) then v else set_root_container (x + PHYSICAL_OFFSET) v)))
    (cl ++ [x + PHYSICAL_OFFSET]) used pg'.
Proof.
  intros [Hr Hc Hn Ht Hi Hu Hp Hf] Hfx Hok' Hfr Hx Hxf.
  assert (Hnew : x + PHYSICAL_OFFSET ∉ cl) by (apply Hf; rewrite Hfx; by left).
  assert (Htab : ∀ d, d ∈ cl → is_table d) by (by apply Forall_forall).
  assert (Hcn : current_container v = 0 ↔ cl = []).
  { rewrite Hc. destruct (last cl) as [d|] eqn:El; simpl.
    - split; [|by intros ->]. intros ->. apply last_Some_elem_of, Htab in El as [_ ?]. lia.
    - by apply last_None in El. }
  split; simpl; try done.
  - case_decide as Hd; simpl.
    + rewrite Hr. destruct cl; [by destruct Hd; apply Hcn|done].
    + assert (cl = []) as -> by (apply Hcn; lia). done.
  - by rewrite last_snoc.
  - apply NoDup_app. split_and!; [done| |apply NoDup_singleton].
    intros d Hd ->%list_elem_of_singleton. done.
  - apply Forall_app. split; [done|]. constructor; [by apply phys_page_table|done].
  - intros y Hy. destruct (Hu y Hy) as (c & j & Hin & ? & ? & _). exists c, j.
    split_and!; [by apply elem_of_app; left|done|lia|lia|]. rewrite last_snoc. intros [= <-]. done.
  - intros y Hy [Hin|Hin]%elem_of_app.
    + rewrite Hfr in Hy. eapply Hf; [rewrite Hfx; right; exact Hy|done].
    + apply list_elem_of_singleton in Hin. assert (x = y) as <- by lia. by rewrite Hfr in Hy.
Qed.

(** At most one page has been taken from the allocator. *)
Definition at_most_one_taken (pg pg' : P) : Prop := ∃ x, free_pages pg = x ++ free_pages pg' ∧ (length x ≤ 1)%nat.

Lemma area_slot_run m v cl used s :
  m ≠ 0 → vmms s !! m = Some v → cont_ok v cl used (pages (tables s)) →
  (current_index v = 102 ∨ cl = [] → free_pages (pages (tables s)) ≠ []) →
  ∃ new v' cl' cm pg, area_slot uninit_next m s
      = Done (new, put_vmm m v' (put_conts cm (put_pages pg s))) ∧
    same_but_containers v v' ∧ new ∉ used ∧ new ≠ 0 ∧ cont_ok v' cl' (used ++ [new]) pg ∧
    at_most_one_taken (pages (tables s)) pg.
Proof.
  intros Hm Hv Hco Hfree.
  assert (Hroot : root_container v = 0 ↔ cl = []).
  { rewrite (co_root _ _ _ _ Hco). destruct cl as [|c cl]; simpl; [done|]. split; [|done].
    pose proof (co_tab _ _ _ _ Hco) as [[_ ?] _]%Forall_cons. lia. }
  assert (Htake : ∀ s1 v1 cl1 pg1 c, vmms s1 !! m = Some v1 → cont_ok v1 cl1 used pg1 →
    last cl1 = Some c → current_index v1 < 102 →
    (v ← load_vmm m;
     let new := current_container v +64 current_index v * sizeof_memory_area in
     upd_vmm m (λ v, set_index (current_index v +64 1) v);; mret new) s1
    = Done (slot_of c (current_index v1), put_vmm m (set_index (current_index v1 + 1) v1) s1)).
  { intros s1 v1 cl1 pg1 c Hv1 Hco1 Hl Hlt.
    rewrite (bind_done _ _ _ _ _ (load_vmm_run m v1 s1 Hm Hv1)).
    rewrite (bind_done _ _ _ _ _ (upd_vmm_run m _ v1 s1 Hm Hv1)).
    destruct Hco1 as [_ Hc _ Ht Hi _ _ _]. rewrite Hl in Hc. simpl in Hc.
    assert (is_table c) as [_ Hb] by (eapply Forall_forall; [exact Ht|by apply last_Some_elem_of]).
    rewrite Hc, !w64_small by (unfold sizeof_memory_area; lia). done. }
  unfold area_slot. rewrite (bind_done _ _ _ _ _ (load_vmm_run m v s Hm Hv)).
  destruct (decide (current_index v = ITEM_PER_CONTAINER ∨ root_container v = 0)) as [Hd|Hd].
  - rewrite ITEM_eq in Hd. destruct (free_pages (pages (tables s))) as [|x fr] eqn:Hfp.
    { exfalso. apply Hfree; [|done]. destruct Hd as [?|?]; [by left|right; by apply Hroot]. }
    destruct (free_pages_ok _ (co_pages _ _ _ _ Hco)) as (Hnd & Hpp & _). rewrite Hfp in Hnd, Hpp.
    apply Forall_cons in Hpp as [Hx _]. apply NoDup_cons in Hnd as [Hxf _].
    destruct (kalloc_some _ x fr (co_pages _ _ _ _ Hco) Hfp) as (pg & Hk & Hok' & Hfr & _).
    pose proof (cont_ok_grow v cl used _ x fr pg Hco Hfp Hok' Hfr Hx Hxf) as Hg.
    set (nc := x + PHYSICAL_OFFSET) in *.
    assert (nc ≠ 0) as Hnc by (destruct (phys_page_table x Hx) as [_ ?]; unfold nc; lia).
    set (v0 := if decide (current_container v ≠ 0) then v else set_root_container nc v) in *.
    destruct (cont_ok_take _ _ _ _ nc Hg (last_snoc _ _)) as [Hnu Hck]; [simpl; lia|].
    assert (Hpre : ∃ cm, (phy ← on_tables (on_pages kalloc);
        let new_container := phy +64 PHYSICAL_OFFSET in
        store_cont new_container (uninit_next new_container);;
        (if decide (current_container v ≠ 0) then store_cont (current_container v) new_container
         else upd_vmm m (set_root_container new_container));;
        upd_vmm m (set_container new_container);;
        upd_vmm m (set_index 0)) s
      = Done (tt, put_vmm m (set_index 0 (set_container nc v0)) (put_conts cm (put_pages pg s)))).
    { rewrite (bind_done _ _ _ _ _ (kalloc_run_pages s x pg Hk)). cbv zeta.
      rewrite phys_page_w64 by done. fold nc.
      rewrite (bind_done _ _ _ _ _ (store_cont_run nc _ _ Hnc)). unfold v0.
      destruct (decide (current_container v ≠ 0)) as [Hcc|Hcc].
      - eexists. rewrite (bind_done _ _ _ _ _ (store_cont_run _ nc _ Hcc)).
        erewrite bind_done by (by apply upd_vmm_run). cbv beta.
        erewrite upd_vmm_run; [|done|apply lookup_insert_eq].
        unfold put_vmm; simpl. by rewrite insert_insert_eq.
      - eexists. erewrite bind_done by (by apply upd_vmm_run). cbv beta.
        erewrite bind_done by (apply upd_vmm_run; [done|apply lookup_insert_eq]). cbv beta.
        erewrite upd_vmm_run; [|done|apply lookup_insert_eq].
        unfold put_vmm; simpl. by rewrite !insert_insert_eq. }
    destruct Hpre as [cm Hpre]. exists (slot_of nc 0), (set_index 1 (set_index 0 (set_container nc v0))).
    exists (cl ++ [nc]), cm, pg. rewrite (bind_done _ _ _ _ _ Hpre).
    erewrite Htake; [|apply lookup_insert_eq|exact Hg|apply last_snoc|simpl; lia].
    split_and!; [by unfold put_vmm; simpl; rewrite insert_insert_eq| |exact Hnu| |exact Hck|].
    + unfold v0. by case_decide.
    + unfold slot_of. lia.
    + exists [x]. by rewrite Hfp, Hfr.
  - assert (Hne : cl ≠ []) by (intros E; apply Hd; right; by apply Hroot).
    destruct (last cl) as [c|] eqn:Hl; [|by apply last_None in Hl].
    assert (Hlt : current_index v < 102).
    { pose proof (co_idx _ _ _ _ Hco). assert (current_index v ≠ 102); [|lia].
      intros E. apply Hd. left. by rewrite E. }
    destruct (cont_ok_take _ _ _ _ c Hco Hl Hlt) as [Hnu Hck].
    exists (slot_of c (current_index v)), (set_index (current_index v + 1) v), cl, (conts s), (pages (tables s)).
    step. erewrite Htake by done. split_and!; try done.
    + by destruct s as [????? ? [] ?].
    + assert (is_table c) as [_ Hb].
      { eapply Forall_forall; [exact (co_tab _ _ _ _ Hco)|by apply last_Some_elem_of]. }
      pose proof (co_idx _ _ _ _ Hco). unfold slot_of, sizeof_memory_area. lia.
    + exists []. split; [reflexivity|cbn; lia].
Qed.

(** ** The invariant of an address space *)

(** Address space [m] with structure [v] has the containers [cl] and the areas
    [l], in increasing order; its lock is free. *)
Record vmm_inv (m : Z) (v : vmm_info_t) (cl : list Z) (l : list desc) s : Prop := mk_vmm_inv {
  vi_vmm : m ≠ 0 ∧ vmms s !! m = Some v;
  vi_chain : achain (areas s) 0 (first_area v) l;
  vi_last : current_area v = default 0 (d_addr <$> last l);
  vi_lay : alay (vmm_data_start v) l (if decide (l = []) then vmm_data_start v else current_addr v + 1);
  vi_bounds : 0 < vmm_data_start v ∧ vmm_data_start v mod 4096 = 0 ∧
    vmm_data_end v mod 4096 = 0 ∧ vmm_data_start v ≤ vmm_data_end v < 2 ^ 64 ∧
    0 ≤ current_addr v < vmm_data_end v;
  vi_cont : cont_ok v cl (d_addr <$> l) (pages (tables s));
  vi_lock : ∃ lk, locks s !! lock v = Some lk ∧ held lk = 0;
  vi_cpu : ∃ k n, vcpus s !! cpu = Some k ∧ nest cpu n k ∧ 0 ≤ n < 2 ^ 32 - 1;
}.

(** Where [vmm_alloc_at] places the next area. *)
Definition next_found (v : vmm_info_t) (base : Z) : Z :=
  let low := if decide (current_area v = 0) then vmm_data_start v
             else w64 (PAGE_END (current_addr v) PAGE_SIZE + 1) in
  if decide (low < PAGE_START base PAGE_SIZE) then PAGE_START base PAGE_SIZE else low.

Lemma current_nil m v cl l s : vmm_inv m v cl l s → current_area v = 0 ↔ l = [].
Proof.
  intros Hi. rewrite (vi_last _ _ _ _ _ Hi). destruct (last l) as [d|] eqn:El; simpl.
  - apply last_Some_elem_of in El as Hin.
    destruct (achain_lookup _ _ _ _ d (vi_chain _ _ _ _ _ Hi) Hin) as (_ & _ & _ & _ & H0).
    split; [done|]. by intros ->.
  - by apply last_None in El.
Qed.

Lemma next_found_spec m v cl l s base :
  vmm_inv m v cl l s → u64p base → vmm_data_end v + 4096 ≤ 2 ^ 64 →
  let f := next_found v base in
  f mod 4096 = 0 ∧ 0 < f ∧ PAGE_START base PAGE_SIZE ≤ f ∧
  (if decide (l = []) then vmm_data_start v else current_addr v + 1) ≤ f.
Proof.
  intros Hi Hb He. destruct (vi_bounds _ _ _ _ _ Hi) as (Hs0 & Hsa & Hea & Hse & Hca).
  unfold next_found. rewrite PAGE_START_eq by done.
  pose proof (current_nil _ _ _ _ _ Hi) as Hcn. unfold u64p in Hb.
  destruct (decide (current_area v = 0)) as [Hc|Hc], (decide (l = [])) as [Hl|Hl]; try tauto.
  - case_decide; lia_div.
  - rewrite PAGE_END_eq by (unfold u64p; lia). rewrite w64_small by lia_div. case_decide; lia_div.
Qed.

(** Taking and giving back the lock of an address space. *)
Definition put_lock (l : Z) (lk : spinlock_t) (cp : cpus) s : vmm_state P H :=
  mk_vs (vmms s) (areas s) (conts s) (<[l := lk]> (locks s)) cp (cr3 s) (tables s) (vheap s).

Lemma acquire_vmm l lk k s :
  locks s !! l = Some lk → held lk = 0 → vcpus s !! cpu = Some k →
  on_lock l (acquire (S spins) cpu) s
  = Done (tt, put_lock l (mk_lock 1 cpu (lk_name lk)) (<[cpu := pushed cpu k]> (vcpus s)) s).
Proof. intros E Hh Hk. unfold on_lock. rewrite E. by rewrite (acquire_free_run _ _ _ k). Qed.

Lemma release_vmm l i nm k n cp s :
  locks s !! l = Some (mk_lock 1 i nm) → vcpus s = <[cpu := pushed cpu k]> cp →
  cp !! cpu = Some k → nest cpu n k → 0 ≤ n < 2 ^ 32 - 1 →
  on_lock l (release cpu) s = Done (tt, put_lock l (mk_lock 0 0 nm) cp s).
Proof.
  intros E Hv Hk Hn Hr. unfold on_lock. rewrite E, Hv. by rewrite (locked_release_run cpu n).
Qed.

(** Linking a new last area, and what it leaves of the structures. *)
Definition linked (v : vmm_info_t) (new found size : Z) : vmm_info_t :=
  set_current_addr (found + size - 1) (set_current new
    (if decide (current_area v = 0) then set_first new v else v)).

Lemma link_area_run m v l s new found len flags :
  m ≠ 0 → vmms s !! m = Some v → achain (areas s) 0 (first_area v) l →
  NoDup (d_addr <$> l) → current_area v = default 0 (d_addr <$> last l) →
  (current_area v = 0 ↔ l = []) → new ∉ d_addr <$> l → new ≠ 0 →
  0 ≤ found → 0 ≤ len → found + len < 2 ^ 64 - 1 →
  ∃ am, link_area uninit_area m new found len flags (current_area v) 0 s
      = Done (tt, put_vmm m (linked v new found (len + 1)) (put_areas am s)) ∧
    achain am 0 (first_area (linked v new found (len + 1))) (l ++ [mk_desc new found (len + 1)]) ∧
    ∃ a, am !! new = Some a ∧ a_flags a = (if user_vmm v then Z.lor flags MEMORY_FLAG_USER else flags).
Proof.
  intros Hm Hv Hc Hnd Hcur Hcn Hnew Hn0 Hf Hlen Hw. unfold link_area.
  rewrite (bind_done _ _ _ _ _ (load_vmm_run m v s Hm Hv)). step. cbv zeta.
  rewrite (w64_small (len + 1)) by lia.
  set (fl := if user_vmm v then Z.lor flags MEMORY_FLAG_USER else flags).
  set (old := default (uninit_area new) (areas s !! new)).
  set (x := mk_area found (len + 1) fl (a_is_mmio old) 0 (current_area v)).
  rewrite (bind_done _ _ _ _ _ (store_area_run new _ s Hn0)).
  rewrite (decide_False (P := 0 ≠ 0)) by (by intros []). step.
  erewrite bind_done by (eapply upd_area_run; [done|apply lookup_insert_eq]). cbv beta.
  unfold put_areas; cbn [areas vmms conts locks vcpus cr3 tables vheap]. rewrite insert_insert_eq.
  change (set_a_prev _ _) with x.
  pose proof (achain_snoc (areas s) 0 (first_area v) l (mk_desc new found (len + 1)) x Hc Hnd Hnew Hn0
    eq_refl eq_refl eq_refl Hcur) as Hsn. simpl in Hsn.
  destruct (decide (current_area v = 0)) as [Hz|Hz].
  - assert (l = []) as -> by by apply Hcn. rewrite decide_False by tauto.
    erewrite bind_done by (by apply upd_vmm_run). cbv beta.
    erewrite bind_done by (apply load_vmm_run; [done|apply lookup_insert_eq]). cbv beta.
    rewrite decide_True by done.
    erewrite bind_done by (apply upd_vmm_run; [done|apply lookup_insert_eq]). cbv beta.
    erewrite bind_done by (apply load_area_run; [done|apply lookup_insert_eq]). cbv beta.
    erewrite upd_vmm_run; [|done|apply lookup_insert_eq]. cbn [a_start a_size x].
    rewrite w64_small by lia. unfold put_vmm; cbn [areas vmms conts locks vcpus cr3 tables vheap].
    rewrite !insert_insert_eq. eexists. split; [unfold linked; by rewrite decide_True|].
    split; [|eexists; split; [apply lookup_insert_eq|done]].
    unfold linked. rewrite decide_True by done. simpl. exact Hsn.
  - destruct (last l) as [e|] eqn:El; [|by apply last_None in El; exfalso; apply Hz, Hcn].
    simpl in Hcur. rewrite decide_True by done. rewrite Hcur in *.
    assert (Hel : e ∈ l) by by apply last_Some_elem_of.
    destruct (achain_lookup _ _ _ _ e Hc Hel) as (b & Hb & _).
    assert (Hne : new ≠ d_addr e) by (intros ->; apply Hnew, list_elem_of_fmap; eauto).
    erewrite bind_done by (apply upd_area_run; [done|cbn [areas]; rewrite lookup_insert_ne by done; exact Hb]).
    cbv beta. erewrite bind_done by (by apply load_vmm_run). cbv beta. rewrite decide_True by done.
    erewrite bind_done by (by apply upd_vmm_run). cbv beta.
    erewrite bind_done by (apply load_area_run; [done|]; cbn [areas put_vmm put_areas];
      rewrite lookup_insert_ne by done; apply lookup_insert_eq). cbv beta.
    erewrite upd_vmm_run; [|done|apply lookup_insert_eq]. cbn [a_start a_size x].
    rewrite w64_small by lia. unfold put_vmm, put_areas; cbn [areas vmms conts locks vcpus cr3 tables vheap].
    rewrite insert_insert_eq. eexists. split; [unfold linked; by rewrite decide_False by (by rewrite Hcur)|].
    split; [|eexists; split; [rewrite lookup_insert_ne by done; apply lookup_insert_eq|done]].
    unfold linked. rewrite decide_False by (by rewrite Hcur). simpl.
    rewrite decide_False in Hsn by (by intros ->).
    rewrite insert_insert_ne by done. rewrite <- (alter_as_insert _ (areas s) _ _ Hb). exact Hsn.
Qed.

(** The last byte's offset of an area for [sz] bytes. *)
Definition area_len (sz : Z) : Z := (sz - 1) - (sz - 1) mod 4096 + 4095.

Lemma area_len_eq sz : 0 < sz < 2 ^ 64 → PAGE_END (w64 (sz - 1)) PAGE_SIZE = area_len sz.
Proof. intros Hs. rewrite w64_small by lia. by rewrite PAGE_END_eq by (unfold u64p; lia). Qed.

Lemma area_len_mod sz : (area_len sz + 1) mod 4096 = 0.
Proof. unfold area_len. lia_div. Qed.

Lemma area_len_ge sz : 0 < sz → sz ≤ area_len sz + 1 ∧ 0 ≤ area_len sz.
Proof. intros. unfold area_len. lia_div. Qed.

Lemma linked_inv m v v' cl' l s new am cm pg found len lk cp :
  m ≠ 0 → same_but_containers v v' →
  cont_ok v' cl' ((d_addr <$> l) ++ [new]) pg →
  achain am 0 (first_area (linked v' new found (len + 1))) (l ++ [mk_desc new found (len + 1)]) →
  alay (vmm_data_start v) l (if decide (l = []) then vmm_data_start v else current_addr v + 1) →
  0 < vmm_data_start v ∧ vmm_data_start v mod 4096 = 0 ∧ vmm_data_end v mod 4096 = 0 ∧
    vmm_data_start v ≤ vmm_data_end v < 2 ^ 64 ∧ 0 ≤ current_addr v < vmm_data_end v →
  (if decide (l = []) then vmm_data_start v else current_addr v + 1) ≤ found →
  found mod 4096 = 0 → (len + 1) mod 4096 = 0 → 0 ≤ len → found + len ≤ vmm_data_end v →
  held lk = 0 → (∃ k n, cp !! cpu = Some k ∧ nest cpu n k ∧ 0 ≤ n < 2 ^ 32 - 1) →
  vmm_inv m (linked v' new found (len + 1)) cl' (l ++ [mk_desc new found (len + 1)])
    (put_lock (lock v) lk cp (put_vmm m (linked v' new found (len + 1))
      (put_areas am (put_conts cm (put_pages pg s))))).
Proof.
  intros Hm (S1 & S2 & S3 & S4 & S5 & S6 & S7 & S8 & S9) Hco Hch Hlay (B1 & B2 & B3 & B4 & B5) Hlo Hfm Hlm Hl0 Hhi Hlk Hcp.
  assert (Hfl : found + len + 1 ≤ vmm_data_end v) by lia_div.
  assert (E : ∀ (f : vmm_info_t → Z), f = vmm_data_start ∨ f = vmm_data_end ∨ f = lock →
    f (linked v' new found (len + 1)) = f v).
  { intros f [->|[->| -> ]]; unfold linked; destruct (decide (current_area v' = 0)); done. }
  split.
  - split; [done|]. apply lookup_insert_eq.
  - exact Hch.
  - rewrite last_snoc. unfold linked. by destruct (decide (current_area v' = 0)).
  - rewrite decide_False by (by destruct l). rewrite (E vmm_data_start) by tauto.
    eapply alay_snoc; [exact Hlay|done|simpl; lia|done|done|].
    unfold d_end; simpl. unfold linked. destruct (decide (current_area v' = 0)); simpl; lia.
  - rewrite (E vmm_data_start), (E vmm_data_end) by tauto.
    assert (current_addr (linked v' new found (len + 1)) = found + len) as ->.
    { unfold linked. destruct (decide (current_area v' = 0)); simpl; lia. }
    assert (0 < found) by (destruct (decide (l = [])); lia). split_and!; (done || lia).
  - rewrite fmap_app. simpl. unfold linked. destruct Hco as [C1 C2 C3 C4 C5 C6 C7 C8].
    destruct (decide (current_area v' = 0)); split; done.
  - exists lk. rewrite (E lock) by tauto. simpl. by rewrite lookup_insert_eq.
  - exact Hcp.
Qed.

(** What the new area [new] of the address space [v] leaves of the state [s]:
    the tables are the same, at most one page has been taken, and the areas
    end at [till]. *)
Record placed (v : vmm_info_t) s (new till flags : Z) (v' : vmm_info_t) s' : Prop := mk_placed {
  pl_words : words (tables s') = words (tables s);
  pl_nx : nx_flag_enabled (tables s') = nx_flag_enabled (tables s);
  pl_pages : at_most_one_taken (pages (tables s)) (pages (tables s'));
  pl_root : root_pagetable v' = root_pagetable v;
  pl_user : user_vmm v' = user_vmm v;
  pl_lock : lock v' = lock v;
  pl_cr3 : cr3 s' = cr3 s;
  pl_addr : current_addr v' = till;
  pl_area : ∃ a, areas s' !! new = Some a ∧ a_flags a = (if user_vmm v then Z.lor flags MEMORY_FLAG_USER else flags);
}.

Lemma vmm_alloc_at_run m v cl l s base sz flags :
  let len := area_len sz in
  let found := next_found v base in
  vmm_inv m v cl l s → u64p base → vmm_data_end v + 4096 ≤ 2 ^ 64 → 0 < sz < 2 ^ 63 →
  found + len ≤ vmm_data_end v →
  (current_index v = 102 ∨ cl = [] → free_pages (pages (tables s)) ≠ []) →
  ∃ new s' v' cl', vmm_alloc_at uninit_area uninit_next spins cpu base m sz flags s = Done (new, s') ∧
    new ≠ 0 ∧ vmm_inv m v' cl' (l ++ [mk_desc new found (len + 1)]) s' ∧
    vmm_data_start v' = vmm_data_start v ∧ vmm_data_end v' = vmm_data_end v ∧
    vheap s' = vheap s ∧ vcpus s' = vcpus s ∧ (∀ m', m' ≠ m → vmms s' !! m' = vmms s !! m') ∧
    (∀ k, k ≠ lock v → locks s' !! k = locks s !! k) ∧ placed v s new (found + len) flags v' s'.
Proof.
  intros len found Hi Hb He Hsz Hfit Hfree.
  pose proof (area_len_mod sz) as Hlm. pose proof (area_len_ge sz) as [Hlg Hl0]; [lia|]. fold len in Hlm, Hlg, Hl0.
  destruct (next_found_spec m v cl l s base Hi Hb He) as (Hfm & Hf0 & Hfb & Hflo). fold found in Hfm, Hf0, Hfb, Hflo.
  destruct (vi_vmm _ _ _ _ _ Hi) as [Hm Hv]. destruct (vi_lock _ _ _ _ _ Hi) as (lk & Hlk & Hh).
  destruct (vi_cpu _ _ _ _ _ Hi) as (k & n & Hk & Hn & Hr).
  pose proof (vi_bounds _ _ _ _ _ Hi) as Hbd.
  set (s1 := put_lock (lock v) (mk_lock 1 cpu (lk_name lk)) (<[cpu := pushed cpu k]> (vcpus s)) s).
  destruct (area_slot_run m v cl (d_addr <$> l) s1 Hm Hv (vi_cont _ _ _ _ _ Hi) Hfree)
    as (new & v' & cl' & cm & pg & Eslot & Hsame & Hnew & Hn0 & Hco' & Htk).
  pose proof Hsame as (S1 & S2 & S3 & S4 & S5 & S6 & S7 & S8 & S9).
  set (s2 := put_vmm m v' (put_conts cm (put_pages pg s1))).
  destruct (link_area_run m v' l s2 new found len flags Hm) as (am & Elink & Hch & Har).
  { apply lookup_insert_eq. }
  { rewrite S7. apply (vi_chain _ _ _ _ _ Hi). }
  { eapply achain_nodup; [apply (vi_chain _ _ _ _ _ Hi)|apply (vi_lay _ _ _ _ _ Hi)]. }
  { rewrite S8. apply (vi_last _ _ _ _ _ Hi). }
  { rewrite S8. by eapply current_nil. }
  { done. }
  { done. }
  { lia. }
  { lia. }
  { lia. }
  rewrite S8 in Elink.
  exists new, (put_lock (lock v) (mk_lock 0 0 (lk_name lk)) (vcpus s)
    (put_vmm m (linked v' new found (len + 1)) (put_areas am (put_conts cm (put_pages pg s))))),
    (linked v' new found (len + 1)), cl'.
  split; [|split; [done|split; [|split; [|split; [|split_and!; try done]]]]].
  - unfold vmm_alloc_at. cbv beta. rewrite area_len_eq by lia. fold len. cbv zeta.
    rewrite (bind_done _ _ _ _ _ (load_vmm_run m v s Hm Hv)).
    rewrite (bind_done _ _ _ _ _ (acquire_vmm (lock v) lk k s Hlk Hh Hk)). fold s1.
    rewrite (bind_done _ _ _ _ _ (load_vmm_run m v s1 Hm Hv)).
    change (if decide (_ < PAGE_START base PAGE_SIZE) then _ else _) with found.
    rewrite (w64_small (found + len)) by lia. rewrite decide_False by lia. step.
    rewrite decide_False by lia. rewrite (bind_done _ _ _ _ _ Eslot). fold s2.
    rewrite (bind_done _ _ _ _ _ Elink).
    erewrite bind_done by (apply load_vmm_run; [done|apply lookup_insert_eq]). cbv beta.
    assert (lock (linked v' new found (len + 1)) = lock v) as ->.
    { unfold linked. by destruct (decide (current_area v' = 0)). }
    erewrite bind_done.
    2:{ eapply release_vmm; [apply lookup_insert_eq|reflexivity|exact Hk|exact Hn|exact Hr]. }
    cbv beta. unfold mret, M_ret, s2, s1. unfold put_lock, put_vmm, put_areas, put_conts, put_pages.
    cbn [areas vmms conts locks vcpus cr3 tables vheap words pages nx_flag_enabled].
    by rewrite !insert_insert_eq.
  - eapply linked_inv; try done; [apply (vi_lay _ _ _ _ _ Hi)|eauto].
  - unfold linked. by destruct (decide (current_area v' = 0)).
  - unfold linked. by destruct (decide (current_area v' = 0)).
  - intros m' Hm'. by apply lookup_insert_ne.
  - intros i Hi'. by apply lookup_insert_ne.
  - split; try done; try (unfold linked; by destruct (decide (current_area v' = 0))).
    + unfold linked. destruct (decide (current_area v' = 0)); cbn; lia.
    + destruct Har as (a & Ha & Hf). exists a. split; [done|]. by rewrite Hf, S2.
Qed.

(** ** Searching the list of areas *)

Lemma gap_search_total fuel base len ds prev cur l s pv :
  achain (areas s) pv cur l → (length l ≤ fuel)%nat →
  (prev ≠ 0 → is_Some (areas s !! prev)) →
  ∃ r, gap_search fuel base len ds prev cur s = Done (r, s).
Proof.
  revert prev cur pv fuel. induction l as [|d l IH]; intros prev cur pv fuel Hc Hf Hp.
  { simpl in Hc. subst cur. destruct fuel; cbn [gap_search]; rewrite decide_True by done; eexists; reflexivity. }
  destruct Hc as (-> & H0 & a & Ha & _ & _ & _ & Hc). destruct fuel as [|fuel]; [simpl in Hf; lia|].
  cbn [gap_search]. rewrite decide_False by done.
  rewrite (bind_done _ _ _ _ _ (load_area_run _ _ _ H0 Ha)).
  assert (Hnext : ∃ r, gap_search fuel base len ds (d_addr d) (a_next a) s = Done (r, s)).
  { eapply IH; [exact Hc|simpl in Hf; lia|eauto]. }
  case_decide; [done|].
  assert (Hlow : ∃ low, (if decide (prev = 0) then mret ds else
      p ← load_area prev; mret (w64 (PAGE_END (w64 (a_start p + a_size p - 1)) PAGE_SIZE + 1))) s
      = Done (low, s)).
  { destruct (decide (prev = 0)) as [|Hp0]; [eexists; reflexivity|]. destruct (Hp Hp0) as [p Hpp].
    rewrite (bind_done _ _ _ _ _ (load_area_run _ _ _ Hp0 Hpp)). eexists; reflexivity. }
  destruct Hlow as [low Hlow]. rewrite (bind_done _ _ _ _ _ Hlow). clear Hlow. cbv zeta.
  case_decide; [eexists; reflexivity|done].
Qed.

(** C16: [vmm_alloc_at] appends.  When the space behind the last area (or from
    [base] on) still holds the request, it returns a new area there: page
    aligned, at least as large as asked, not below [base] rounded down, after
    every other area; the list, the container slots and the lock stay
    consistent. *)
Theorem vmm_alloc_at_appends m v cl l s base sz flags :
  let len := area_len sz in
  let found := next_found v base in
  vmm_inv m v cl l s → u64p base → vmm_data_end v + 4096 ≤ 2 ^ 64 → 0 < sz < 2 ^ 63 →
  found + len ≤ vmm_data_end v →
  (current_index v = 102 ∨ cl = [] → free_pages (pages (tables s)) ≠ []) →
  ∃ new s' v' cl', vmm_alloc_at uninit_area uninit_next spins cpu base m sz flags s = Done (new, s') ∧
    new ≠ 0 ∧ vmm_inv m v' cl' (l ++ [mk_desc new found (len + 1)]) s' ∧
    sz ≤ len + 1 ∧ PAGE_START base PAGE_SIZE ≤ found ∧ Forall (λ d, d_end d ≤ found) l.
Proof.
  intros len found Hi Hb He Hsz Hfit Hfree.
  destruct (vmm_alloc_at_run m v cl l s base sz flags Hi Hb He Hsz Hfit Hfree)
    as (new & s' & v' & cl' & E & Hn & Hi' & _).
  exists new, s', v', cl'. split_and!; try done.
  - apply area_len_ge. lia.
  - apply (next_found_spec m v cl l s base Hi Hb He).
  - apply Forall_forall. intros d Hd.
    destruct (next_found_spec m v cl l s base Hi Hb He) as (_ & _ & _ & Hlo).
    destruct (alay_elem _ _ _ _ (vi_lay _ _ _ _ _ Hi) Hd) as (_ & ? & _). fold found in Hlo. lia.
Qed.

(** The search for a gap never succeeds.  When the space behind the last
    area does not hold the request, [vmm_alloc_at] walks the list and returns
    null, whatever gaps earlier areas left: [found] is reset after the loop. *)
Lemma vmm_alloc_at_ignores_gaps m v cl l s base sz flags :
  let len := area_len sz in
  let found := next_found v base in
  vmm_inv m v cl l s → u64p base → 0 < sz < 2 ^ 63 → found < 2 ^ 64 →
  vmm_data_end v < w64 (found + len) →
  ∃ s', vmm_alloc_at uninit_area uninit_next spins cpu base m sz flags s = Done (0, s') ∧
    vmms s' = vmms s ∧ areas s' = areas s ∧ tables s' = tables s ∧ vmm_inv m v cl l s'.
Proof.
  intros len found Hi Hb Hsz Hfu Hno.
  destruct (vi_vmm _ _ _ _ _ Hi) as [Hm Hv]. destruct (vi_lock _ _ _ _ _ Hi) as (lk & Hlk & Hh).
  destruct (vi_cpu _ _ _ _ _ Hi) as (k & n & Hk & Hn & Hr).
  set (s1 := put_lock (lock v) (mk_lock 1 cpu (lk_name lk)) (<[cpu := pushed cpu k]> (vcpus s)) s).
  destruct (gap_search_total (size (areas s1)) (PAGE_START base PAGE_SIZE) len (vmm_data_start v) 0
    (first_area v) l s1 0) as [[p c] Eg].
  { apply (vi_chain _ _ _ _ _ Hi). }
  { eapply achain_length; [apply (vi_chain _ _ _ _ _ Hi)|apply (vi_lay _ _ _ _ _ Hi)]. }
  { done. }
  exists (put_lock (lock v) (mk_lock 0 0 (lk_name lk)) (vcpus s) s). split_and!; try done.
  - unfold vmm_alloc_at. cbv beta. rewrite area_len_eq by lia. fold len. cbv zeta.
    rewrite (bind_done _ _ _ _ _ (load_vmm_run m v s Hm Hv)).
    rewrite (bind_done _ _ _ _ _ (acquire_vmm (lock v) lk k s Hlk Hh Hk)). fold s1.
    rewrite (bind_done _ _ _ _ _ (load_vmm_run m v s1 Hm Hv)).
    change (if decide (_ < PAGE_START base PAGE_SIZE) then _ else _) with found.
    rewrite (decide_True (P := vmm_data_end v < w64 (found + len))) by done. step. step.
    rewrite bind_assoc, (bind_done _ _ _ _ _ Eg). step. rewrite decide_True by done.
    erewrite bind_done.
    2:{ eapply release_vmm; [apply lookup_insert_eq|reflexivity|exact Hk|exact Hn|exact Hr]. }
    unfold mret, M_ret, s1, put_lock. cbn [locks vmms areas conts vcpus cr3 tables vheap].
    by rewrite insert_insert_eq.
  - destruct Hi as [I1 I2 I3 I4 I5 I6 I7 I8]. split; try done.
    + exists (mk_lock 0 0 (lk_name lk)). split; [apply lookup_insert_eq|done].
Qed.

(** The area of [l] that holds [va], by address; 0 when there is none. *)
Fixpoint area_of (l : list desc) (va : Z) : Z :=
  match l with
  | [] => 0
  | d :: l => if decide (d_start d ≤ va < d_end d) then d_addr d else area_of l va
  end.

Lemma area_of_zero am pv cur l va :
  achain am pv cur l → area_of l va = 0 ↔ Forall (λ d, ¬ (d_start d ≤ va < d_end d)) l.
Proof.
  revert pv cur. induction l as [|d l IH]; intros pv cur; simpl.
  - intros _. split; [constructor|done].
  - intros (-> & H0 & a & _ & _ & _ & _ & Hc). rewrite Forall_cons, <- (IH _ _ Hc).
    case_decide; tauto.
Qed.

Lemma find_area_run fuel cur va l s pv lo hi :
  achain (areas s) pv cur l → alay lo l hi → 0 ≤ lo → hi < 2 ^ 64 → (length l ≤ fuel)%nat →
  find_area fuel cur va s = Done (area_of l va, s).
Proof.
  revert cur pv lo fuel. induction l as [|d l IH]; intros cur pv lo fuel Hc Hl Hlo Hhi Hf.
  { simpl in Hc. subst cur. destruct fuel; cbn [find_area]; by rewrite decide_True. }
  destruct Hc as (-> & H0 & a & Ha & Hs & Hz & _ & Hc). destruct fuel as [|fuel]; [simpl in Hf; lia|].
  destruct Hl as (H1 & H2 & _ & _ & Hl). pose proof (alay_le _ _ _ Hl).
  cbn [find_area area_of]. rewrite decide_False by done.
  rewrite (bind_done _ _ _ _ _ (load_area_run _ _ _ H0 Ha)). rewrite Hs, Hz.
  unfold d_end in *. rewrite w64_small by lia.
  case_decide; [done|].
  eapply IH; [exact Hc|exact Hl|lia|done|simpl in Hf; lia].
Qed.

(** The part of the invariant that concerns the address space alone, whatever
    the state of its lock and of the processors: it also holds inside an
    interrupt handler. *)
Record space_ok (m : Z) (v : vmm_info_t) (cl : list Z) (l : list desc) s : Prop := mk_space_ok {
  so_vmm : m ≠ 0 ∧ vmms s !! m = Some v;
  so_chain : achain (areas s) 0 (first_area v) l;
  so_last : current_area v = default 0 (d_addr <$> last l);
  so_lay : alay (vmm_data_start v) l (if decide (l = []) then vmm_data_start v else current_addr v + 1);
  so_bounds : 0 < vmm_data_start v ∧ vmm_data_start v mod 4096 = 0 ∧
    vmm_data_end v mod 4096 = 0 ∧ vmm_data_start v ≤ vmm_data_end v < 2 ^ 64 ∧
    0 ≤ current_addr v < vmm_data_end v;
  so_cont : cont_ok v cl (d_addr <$> l) (pages (tables s));
}.

Lemma inv_space m v cl l s : vmm_inv m v cl l s → space_ok m v cl l s.
Proof. by intros [I1 I2 I3 I4 I5 I6 _ _]. Qed.

(** [get_memory_area] finds the area of an address: its result is the
    area that contains [va], and 0 exactly when no area does. *)
Lemma get_area_space m v cl l s va :
  space_ok m v cl l s →
  get_memory_area m va s = Done (area_of l va, s) ∧
  (area_of l va = 0 ↔ Forall (λ d, ¬ (d_start d ≤ va < d_end d)) l).
Proof.
  intros [[Hm Hv] Hchain _ Hlay (B1 & _ & _ & B4 & B5) _].
  assert (Hz : area_of l va = 0 ↔ Forall (λ d, ¬ (d_start d ≤ va < d_end d)) l) by (by eapply area_of_zero).
  split; [|done]. unfold get_memory_area. rewrite decide_False by done.
  rewrite (bind_done _ _ _ _ _ (load_vmm_run m v s Hm Hv)).
  destruct (decide (current_addr v < va)) as [Hva|Hva].
  - assert (area_of l va = 0) as ->; [|done]. apply Hz, Forall_forall. intros d Hd.
    destruct (alay_elem _ _ _ _ Hlay Hd) as (_ & He & _).
    rewrite decide_False in He by (by intros ->; apply not_elem_of_nil in Hd). lia.
  - step. eapply find_area_run; [exact Hchain|exact Hlay|lia| |].
    + destruct (decide (l = [])); lia.
    + eapply achain_length; [exact Hchain|exact Hlay].
Qed.

Lemma get_memory_area_run m v cl l s va :
  vmm_inv m v cl l s →
  get_memory_area m va s = Done (area_of l va, s) ∧
  (area_of l va = 0 ↔ Forall (λ d, ¬ (d_start d ≤ va < d_end d)) l).
Proof. intros Hi. eapply get_area_space, inv_space, Hi. Qed.

(** ** A fresh address space *)

Context (kernel_vmm kernel_vmm_lock : Z).

(** What [vmm_init] needs of the state: the lock it installs exists and is
    free, and the running CPU's entry and the page allocator are sound. *)
Definition init_ready (lk : Z) s : Prop :=
  (∃ l, locks s !! lk = Some l ∧ held l = 0) ∧
  (∃ k n, vcpus s !! cpu = Some k ∧ nest cpu n k ∧ 0 ≤ n < 2 ^ 32 - 1) ∧
  ok (pages (tables s)).

Definition fresh_vmm (pt start till lk : Z) (user : bool) : vmm_info_t :=
  mk_vmm pt user start start (till - till mod 4096 + 4096) 0 0 0 0 0 0 lk.

Lemma fresh_inv m pt start till user lk s :
  m ≠ 0 → 0 < start → start mod 4096 = 0 → start ≤ till → till + 8192 ≤ 2 ^ 64 →
  init_ready lk s →
  vmm_inv m (fresh_vmm pt start till lk user) [] [] (put_vmm m (fresh_vmm pt start till lk user) s).
Proof.
  intros Hm Hs0 Hsa Hst Ht (Hl & Hc & Hp). split; simpl; try done.
  - split; [done|]. apply lookup_insert_eq.
  - split_and!; lia_div.
  - split; simpl; try done; try lia; try apply NoDup_nil_2;
      intros x Hx; [by apply not_elem_of_nil in Hx|apply not_elem_of_nil].
Qed.

(** [vmm_init] establishes the invariant, with no area. *)
Lemma vmm_init_run m pt start till user lk s :
  let lk' := if decide (m ≠ kernel_vmm) then lk else kernel_vmm_lock in
  m ≠ 0 → 0 < start → start mod 4096 = 0 → start ≤ till → till + 8192 ≤ 2 ^ 64 →
  init_ready lk' s →
  ∃ s', vmm_init kernel_vmm kernel_vmm_lock m pt start till user lk s = Done (tt, s') ∧
    vmm_inv m (fresh_vmm pt start till lk' user) [] [] s' ∧ tables s' = tables s.
Proof.
  intros lk' Hm Hs0 Hsa Hst Ht Hr.
  exists (put_vmm m (fresh_vmm pt start till lk' user) s). split_and!; [|by apply fresh_inv|done].
  unfold vmm_init. rewrite PAGE_START_aligned by (unfold u64p; lia). cbv zeta.
  rewrite (decide_False (P := start = 0)) by lia. rewrite PAGE_END_eq by (unfold u64p; lia).
  rewrite w64_small by lia_div. unfold store_vmm.
  rewrite (modifyf_done _ _ (put_vmm m (fresh_vmm pt start till lk' user) s)); [done|].
  rewrite decide_False by done.
  by replace (till - till mod 4096 + 4095 + 1) with (till - till mod 4096 + 4096) by lia.
Qed.

(** The kernel's address space overlaps the direct mapping.  [kvminit]
    passes [PHYSICAL_OFFSET], the first address after the region, as its end,
    but [vmm_init] rounds the end up past the page that contains it: the
    kernel address space hands out the page at [PHYSICAL_OFFSET], where
    physical page 0 is mapped. *)
Lemma kernel_vmm_overlaps_direct_map pt s flags :
  kernel_vmm ≠ 0 → init_ready kernel_vmm_lock s → free_pages (pages (tables s)) ≠ [] →
  ∃ new s' v' cl', (vmm_init kernel_vmm kernel_vmm_lock kernel_vmm pt 0xFFFF800000000000
      PHYSICAL_OFFSET false 0;;
    vmm_alloc_at uninit_area uninit_next spins cpu PHYSICAL_OFFSET kernel_vmm 4096 flags) s
    = Done (new, s') ∧
    vmm_inv kernel_vmm v' cl' [mk_desc new PHYSICAL_OFFSET 4096] s'.
Proof.
  intros Hk Hr Hf.
  destruct (vmm_init_run kernel_vmm pt 0xFFFF800000000000 PHYSICAL_OFFSET false 0 s)
    as (s1 & E1 & Hi1 & Ht1); try done.
  { by rewrite decide_False by (by intros []). }
  rewrite (bind_done _ _ _ _ _ E1).
  destruct (vmm_alloc_at_run kernel_vmm _ [] [] s1 PHYSICAL_OFFSET 4096 flags Hi1)
    as (new & s' & v' & cl' & E & _ & Hi' & _); try done.
  { by rewrite Ht1. }
  exists new, s', v', cl'. split; [exact E|]. exact Hi'.
Qed.
End vmm_proofs.

Definition ex_area_mem : Z → memory_area_t := λ _, mk_area 7 7 7 7 7 7.
Definition ex_next_mem : Z → Z := λ _, 7.
Definition ex_vs : vmm_state (list Z) bump :=
  mk_vs ∅ ∅ ∅ {[ 0x600 := mk_lock 0 0 (Some "Kernel vmm"%string) ]} ex_cpus ∅
    (mk_vm ∅ [0x2000; 0x3000] true) (mk_bump 0x9000 ∅).

Lemma ex_vs_ready : init_ready list_pages_ok 1 0x600 ex_vs.
Proof.
  split_and!.
  - eexists. split; [reflexivity|done].
  - exists (mk_cpu 1 0 1 0 0 true), 0. split; [reflexivity|]. by repeat split.
  - split; [apply (bool_decide_unpack _); by vm_compute|]. repeat constructor; by vm_compute.
Qed.

Lemma kernel_vmm_overlaps_direct_map_witness :
  ∃ new s' v' cl', (vmm_init 0x500 0x600 0x500 0x1000 0xFFFF800000000000
      PHYSICAL_OFFSET false 0;;
    vmm_alloc_at ex_area_mem ex_next_mem 0 1 PHYSICAL_OFFSET 0x500 4096 1) ex_vs
    = Done (new, s') ∧
    vmm_inv list_pages_ok 1 0x500 v' cl' [mk_desc new PHYSICAL_OFFSET 4096] s'.
Proof.
  refine (kernel_vmm_overlaps_direct_map list_pages_ok (λ _, phys_page) ex_area_mem ex_next_mem 0 1
    0x500 0x600 0x1000 ex_vs 1 _ ex_vs_ready _); done.
Defined.

(** The kernel's address space, fresh. *)
Definition ex_kvmm : vmm_info_t := fresh_vmm 0x1000 0xFFFF800000000000 PHYSICAL_OFFSET 0x600 false.
Definition ex_space : vmm_state (list Z) bump := put_vmm 0x500 ex_kvmm ex_vs.

Lemma ex_space_inv : vmm_inv list_pages_ok 1 0x500 ex_kvmm [] [] ex_space.
Proof. apply (fresh_inv list_pages_ok ex_area_mem ex_next_mem); try done. apply ex_vs_ready. Qed.

Lemma vmm_alloc_at_appends_witness :
  ∃ new s' v' cl', vmm_alloc_at ex_area_mem ex_next_mem 0 1 0 0x500 5000 1 ex_space = Done (new, s') ∧
    new ≠ 0 ∧
    vmm_inv list_pages_ok 1 0x500 v' cl'
      ([] ++ [mk_desc new (next_found ex_kvmm 0) (area_len 5000 + 1)]) s' ∧
    5000 ≤ area_len 5000 + 1 ∧ PAGE_START 0 PAGE_SIZE ≤ next_found ex_kvmm 0 ∧
    Forall (λ d, d_end d ≤ next_found ex_kvmm 0) [].
Proof.
  refine (vmm_alloc_at_appends list_pages_ok (λ _, phys_page) ex_area_mem ex_next_mem 0 1
    0x500 ex_kvmm [] [] ex_space 0 5000 1 ex_space_inv _ _ _ _ _).
  - by vm_compute.
  - by vm_compute.
  - lia.
  - by vm_compute.
  - intros _. done.
Defined.

(** One area on the last page: everything before it is free. *)
Lemma ex_high_space :
  ∃ new (s : vmm_state (list Z) bump) v cl, vmm_inv list_pages_ok 1 0x500 v cl [mk_desc new PHYSICAL_OFFSET 4096] s ∧
    vmm_data_start v = 0xFFFF800000000000 ∧ vmm_data_end v = PHYSICAL_OFFSET + 4096.
Proof.
  destruct (vmm_alloc_at_run list_pages_ok (λ _, phys_page) ex_area_mem ex_next_mem 0 1
    0x500 ex_kvmm [] [] ex_space PHYSICAL_OFFSET 4096 1 ex_space_inv)
    as (new & s & v & cl & _ & _ & Hi & Hs & He & _); try done.
  exists new, s, v, cl. split; [exact Hi|]. by rewrite Hs, He.
Qed.

Lemma vmm_alloc_at_ignores_gaps_witness :
  ∃ new (s s' : vmm_state (list Z) bump), (∃ v cl, vmm_inv list_pages_ok 1 0x500 v cl [mk_desc new PHYSICAL_OFFSET 4096] s ∧
      vmm_data_start v = 0xFFFF800000000000) ∧
    vmm_alloc_at ex_area_mem ex_next_mem 0 1 0 0x500 4096 1 s = Done (0, s').
Proof.
  destruct ex_high_space as (new & s & v & cl & Hi & Hs & He).
  assert (Hca : current_addr v = PHYSICAL_OFFSET + 4095).
  { pose proof (vi_lay _ _ _ _ _ _ _ Hi) as Hl. destruct (vi_bounds _ _ _ _ _ _ _ Hi) as (_ & _ & _ & _ & Hb).
    simpl in Hl. unfold d_end in Hl. simpl in Hl. lia. }
  assert (Hf : next_found v 0 = PHYSICAL_OFFSET + 4096).
  { unfold next_found. rewrite Hca. rewrite (decide_False (P := current_area v = 0)); [reflexivity|].
    intros E. by apply (current_nil _ _ _ _ _ _ _ Hi) in E. }
  destruct (vmm_alloc_at_ignores_gaps list_pages_ok ex_area_mem ex_next_mem 0 1
    0x500 v cl _ s 0 4096 1 Hi) as (s' & E & _).
  - by vm_compute.
  - lia.
  - rewrite Hf. by vm_compute.
  - rewrite Hf, He. by vm_compute.
  - exists new, s, s'. split; [by exists v, cl|exact E].
Defined.

Lemma get_memory_area_run_example :
  ∃ new (s : vmm_state (list Z) bump), get_memory_area 0x500 (PHYSICAL_OFFSET + 5) s = Done (new, s) ∧ new ≠ 0.
Proof.
  destruct ex_high_space as (new & s & v & cl & Hi & _ & _). exists new, s.
  destruct (get_memory_area_run list_pages_ok ex_area_mem ex_next_mem 1 0x500 v cl _ s (PHYSICAL_OFFSET + 5) Hi) as [E Hz].
  split; [exact E|]. intros Hn. pose proof (proj1 Hz Hn) as Hall.
  apply Forall_cons in Hall as [Hall _]. apply Hall. by vm_compute.
Defined.
