(* ===== verification/Teardown.v ===== *)
(** * Taking an address space down (kernel/memory/vmm.c, arch/x86-64/memory/vm.c)

    What [unmappages] does when it frees the frames, and what [vmm_destroy]
    gives back to the allocators.  Both loops over pages and areas are one
    walk over the list of the pages of the areas ([area_pages]), which gives
    the result when every page with a table has a frame, and the crash on
    the first page that has a table but was never touched. *)
From S2P Require Import Prelude.
From S2P Require Import Interfaces.
From S2P Require Import Cpu.
From S2P Require Import Spinlock.
From S2P Require Import Layout.
From S2P Require Import PhysAlloc.
From S2P Require Import Vm.
From S2P Require Import VmWalk.
From S2P Require Import VmMap.
From S2P Require Import Vmm.
From S2P Require Import VmmAlloc.

(** The frame of a leaf entry. *)
Definition frame (e : Z) : Z := pd_addr e * 4096.

Lemma frame_shift e : w64 (Z.shiftl (pd_addr e) 12) = frame e.
Proof. unfold frame. rewrite Z.shiftl_mul_pow2, pd_addr_eq by lia. apply w64_small. lia_div. Qed.

Lemma frame_unpresent e : frame (set_present false e) = frame e.
Proof.
  unfold frame, pd_addr. f_equal. apply Z.bits_inj'. intros n Hn. rewrite !Z.land_spec. f_equal.
  rewrite !Z.shiftr_spec by lia. unfold set_present. rewrite set_bit_testbit by lia. by rewrite decide_False by lia.
Qed.

(** The addresses of [n] pages from [a] on, and of the pages of areas. *)
Definition pages_at (a n : Z) : list Z := (λ k, a + 4096 * k) <$> seqZ 0 n.
Definition area_pages (l : list desc) : list Z := d ← l; pages_at (d_start d) (d_size d / 4096).

(** The frames that the leaf entries of the pages [vas] name. *)
Definition frames (w : gmap Z Z) (tabs : gmap (list Z) Z) (vas : list Z) : list Z :=
  omap (λ va, frame <$> leaf w tabs va) vas.

Lemma pages_at_S a n : 0 ≤ n → pages_at a (n + 1) = a :: pages_at (a + 4096) n.
Proof.
  intros Hn. unfold pages_at. rewrite seqZ_cons, fmap_cons by lia. replace (Z.pred (n + 1)) with n by lia. f_equal; [lia|].
  change (Z.succ 0) with (1 + 0). rewrite <- (fmap_add_seqZ 1 0 n), <- list_fmap_compose. apply list_fmap_ext. intros _ k _. cbn. lia.
Qed.

Section unmap.
Context {P : Type} `{!PageAllocator P}.

(** One page of [unmappages] with [free] set, and a list of pages. *)
Definition unmap_page (root va : Z) : M (vm P) unit :=
  descriptor ← walk root va false;
  if decide (descriptor = 0) then mret tt else
  (e ← rd descriptor; on_pages (kfree (w64 (Z.shiftl (pd_addr e) 12))));;
  e ← rd descriptor; wr descriptor (set_present false e).
Fixpoint unmap_list (root : Z) (vas : list Z) : M (vm P) unit :=
  match vas with [] => mret tt | va :: vas => unmap_page root va;; unmap_list root vas end.

Lemma unmap_list_app root l1 l2 st : unmap_list root (l1 ++ l2) st = (unmap_list root l1;; unmap_list root l2) st.
Proof.
  revert st. induction l1 as [|va l1 IH]; intros st; [reflexivity|]. cbn [app unmap_list]. rewrite bind_assoc.
  apply bind_cong; [done|]. intros ? st'. apply IH.
Qed.

Lemma unmap_loop_list n root a st :
  0 ≤ a → a + Z.of_nat n * 4096 < 2 ^ 64 →
  unmap_loop n root a (a + Z.of_nat n * 4096 - 1) true st = unmap_list root (pages_at a (Z.of_nat n)) st.
Proof.
  revert a st. induction n as [|n IH]; intros a st Ha He.
  { cbn [unmap_loop]. by rewrite decide_False by lia. }
  replace (Z.of_nat (S n)) with (Z.of_nat n + 1) by lia. rewrite pages_at_S by lia. cbn [unmap_loop unmap_list].
  rewrite decide_True by lia. rewrite <- bind_assoc. apply bind_cong; [done|]. intros ? st'. rewrite w64_small by (unfold PAGE_SIZE; lia).
  unfold PAGE_SIZE. rewrite <- IH by lia. do 2 f_equal. lia.
Qed.

(** [unmappages] of an area with [free] set goes through its pages. *)
Lemma unmappages_list root va sz st :
  va mod 4096 = 0 → sz mod 4096 = 0 → 0 ≤ va → 0 < sz → va + sz < 2 ^ 64 →
  unmappages root va sz true st = (unmap_list root (pages_at va (sz / 4096));; mret 0) st.
Proof.
  intros Hv Hs H0 Hz He. assert (∃ n, sz = n * 4096 ∧ sz / 4096 = n) as (n & -> & ->) by (exists (sz / 4096); lia_div).
  unfold unmappages. rewrite PAGE_START_eq by (unfold u64p; lia). rewrite Hv, Z.sub_0_r.
  rewrite w64_small by lia. rewrite PAGE_END_last by lia_div. rewrite page_fuel_eq by lia. apply bind_cong; [|done].
  rewrite <- (Z2Nat.id n) at 2 3 by lia. by rewrite unmap_loop_list by lia.
Qed.
End unmap.

(** ** Giving the frames back *)

Section release.
Context {P : Type} `{!PageAllocator P} (ok : P → Prop) (managed : P → Z → Prop) `{!PageAllocatorLaws P ok managed}.
Implicit Type st : vm P.

(** The pages [F] can be given back: they are different pages of the
    allocator, in use; and none of them is a table. *)
Definition givable (F : list Z) (pg : P) : Prop := NoDup F ∧ ∀ x, x ∈ F → managed pg x ∧ x ∉ free_pages pg.
Definition no_table (tabs : gmap (list Z) Z) (F : list Z) : Prop := ∀ x q, x ∈ F → tabs !! q ≠ Some (x + PHYSICAL_OFFSET).

(** From [pg] to [pg'] the pages [F] have been given back in this order. *)
Definition gave (F : list Z) (pg pg' : P) : Prop :=
  ok pg' ∧ free_pages pg' = reverse F ++ free_pages pg ∧ ∀ a, managed pg' a ↔ managed pg a.

Lemma gave_trans F1 F2 p1 p2 p3 : gave F1 p1 p2 → gave F2 p2 p3 → gave (F1 ++ F2) p1 p3.
Proof.
  intros (_ & A1 & B1) (Hok & A2 & B2). split_and!; [done|by rewrite A2, A1, reverse_app, app_assoc|]. intros a. by rewrite B2.
Qed.

Lemma givable_app F1 F2 pg pg' : givable (F1 ++ F2) pg → gave F1 pg pg' → givable F2 pg'.
Proof.
  intros [(H1 & H12 & H2)%NoDup_app Hx] (_ & Hf & Hm). split; [done|]. intros x Hin. destruct (Hx x) as (? & ?); [set_solver|].
  rewrite Hm, Hf. split; [done|]. set_solver.
Qed.

Lemma givable_l F1 F2 pg : givable (F1 ++ F2) pg → givable F1 pg.
Proof. intros [(H1 & _ & _)%NoDup_app Hx]. split; [done|]. intros x Hin. apply Hx, elem_of_app. by left. Qed.

Lemma kfree_gives x F pg : ok pg → givable (x :: F) pg → ∃ pg', kfree x pg = Done (tt, pg') ∧ gave [x] pg pg' ∧ givable F pg'.
Proof.
  intros Hok Hg. destruct (proj2 Hg x) as [Hm Hnf]; [by left|]. destruct (kfree_used _ _ Hok Hm Hnf) as (pg' & E & Hok' & Hf & Hm').
  exists pg'. assert (gave [x] pg pg') as Hgv by done. split_and!; [done..|]. by apply (givable_app [x] F pg).
Qed.

(** From [st] to [st'] the pages [F] have become free, the pages with the
    numbers [V] are no longer mapped, and nothing else has changed. *)
Record released (tabs : gmap (list Z) Z) (F V : list Z) st st' : Prop := mk_released {
  re_gave : gave F (pages st) (pages st');
  re_nx : nx_flag_enabled st' = nx_flag_enabled st;
  re_calm : calm (words st) tabs (words st') tabs;
  re_frame va : frame <$> leaf (words st') tabs va = frame <$> leaf (words st) tabs va;
  re_mapped va : mapped (words st') tabs va = if decide (page_no va ∈ V) then None else mapped (words st) tabs va;
}.

Lemma released_nil tabs st : ok (pages st) → released tabs [] [] st st.
Proof. by split. Qed.

Lemma released_trans tabs F1 V1 F2 V2 st1 st2 st3 :
  released tabs F1 V1 st1 st2 → released tabs F2 V2 st2 st3 → released tabs (F1 ++ F2) (V1 ++ V2) st1 st3.
Proof.
  intros [A1 C1 D1 E1 G1] [A2 C2 D2 E2 G2]. split.
  - by eapply gave_trans.
  - congruence.
  - by eapply calm_trans.
  - intros va. by rewrite E2.
  - intros va. rewrite G2, G1. repeat case_decide; try done; set_solver.
Qed.

(** One page. *)
Lemma unmap_page_run root tabs st va :
  vm_ok ok root tabs st → no_big (words st) tabs va →
  givable (frames (words st) tabs [va]) (pages st) → no_table tabs (frames (words st) tabs [va]) →
  ∃ st', unmap_page root va st = Done (tt, st') ∧ vm_ok ok root tabs st' ∧
    released tabs (frames (words st) tabs [va]) [page_no va] st st'.
Proof.
  intros Hok Hnb Hfr Hnt. pose proof (vo_wf _ _ _ _ Hok) as Hwf. unfold unmap_page.
  rewrite (bind_done _ _ _ _ _ (walk_no_alloc root tabs st va Hwf Hnb)).
  destruct (leaf_addr tabs va) as [d|] eqn:Hd; cbn [default].
  - rewrite decide_False by by eapply leaf_addr_nonzero.
    destruct (write_leaf_old _ _ _ _ _ 0 Hwf Hd) as (e & He & Hu & Hl). unfold frames in *. cbn [omap list_omap] in *. rewrite Hl in *.
    cbn [fmap option_fmap option_map] in *. destruct (kfree_gives _ _ _ (vo_pages _ _ _ _ Hok) Hfr) as (s' & Hk & Hgv & _). pose proof Hgv as (Hok' & Hf & _).
    rewrite bind_assoc, (bind_done _ _ _ _ _ (rd_run st d e He)), frame_shift, (bind_done _ _ _ _ _ (on_pages_run _ _ _ _ Hk)).
    set (st1 := mk_vm (words st) s' (nx_flag_enabled st)). rewrite (bind_done _ _ _ _ _ (rd_run st1 d e He)).
    assert (u64p (set_present false e)) as Hu' by (apply set_bit_u64; [lia|done]).
    exists (with_word d (set_present false e) st1). split_and!; [by eapply wr_run| |split].
    + eapply vm_ok_write; [|done..]. split; [done..|]. intros x q Hx. cbn [pages st1] in Hx. rewrite Hf in Hx. apply elem_of_cons in Hx as [->|Hx]; [apply Hnt; by left|by apply (vo_free _ _ _ _ Hok)].
    + done.
    + done.
    + by eapply write_leaf_calm.
    + intros va'. cbn [words with_word]. rewrite (write_leaf_leaf _ _ _ _ _ _ Hwf Hd). case_decide as E; [|done].
      assert (leaf (words st) tabs va' = Some e) as ->. { unfold leaf, leaf_addr in *. by apply same_page in E as [-> ->]. }
      cbn [fmap option_fmap option_map]. by rewrite frame_unpresent.
    + intros va'. cbn [words with_word]. rewrite (write_leaf_mapped _ _ _ _ _ _ Hwf Hd), present_set. repeat case_decide; set_solver.
  - assert (tabs !! leaf_path va = None) as Hp by (unfold leaf_addr in Hd; by destruct (tabs !! leaf_path va)).
    unfold frames. cbn [omap list_omap]. rewrite (leaf_none _ _ _ Hp). cbn.
    exists st. split_and!; [done..|]. split; try done; [split; [apply (vo_pages _ _ _ _ Hok)|done]|]. intros va'. case_decide as E; [|done].
    apply list_elem_of_singleton in E. unfold mapped. rewrite leaf_none; [done|]. by apply same_page in E as [-> _].
Qed.

Lemma frames_cons w tabs va vas : frames w tabs (va :: vas) = frames w tabs [va] ++ frames w tabs vas.
Proof. unfold frames. cbn [omap list_omap]. by destruct (leaf w tabs va). Qed.

Lemma frames_same w w' tabs vas : (∀ va, frame <$> leaf w' tabs va = frame <$> leaf w tabs va) → frames w' tabs vas = frames w tabs vas.
Proof. intros Hs. unfold frames. induction vas as [|va vas IH]; [done|]. cbn [omap list_omap]. by rewrite Hs, IH. Qed.

(** A list of pages. *)
Lemma unmap_list_run root tabs vas st :
  vm_ok ok root tabs st → (∀ va, va ∈ vas → no_big (words st) tabs va) →
  givable (frames (words st) tabs vas) (pages st) → no_table tabs (frames (words st) tabs vas) →
  ∃ st', unmap_list root vas st = Done (tt, st') ∧ vm_ok ok root tabs st' ∧
    released tabs (frames (words st) tabs vas) (page_no <$> vas) st st'.
Proof.
  revert st. induction vas as [|va vas IH]; intros st Hok Hnb Hfr Hnt.
  { exists st. split_and!; [done..|]. apply released_nil, (vo_pages _ _ _ _ Hok). }
  rewrite frames_cons in Hfr, Hnt |- *. destruct (unmap_page_run root tabs st va Hok) as (st1 & E1 & Hok1 & Hr1).
  { apply Hnb. by left. }
  { by eapply givable_l. }
  { intros x q Hx. apply Hnt, elem_of_app. by left. }
  pose proof (givable_app _ _ _ _ Hfr (re_gave _ _ _ _ _ Hr1)) as Hfr1.
  rewrite <- (frames_same _ _ _ vas (re_frame _ _ _ _ _ Hr1)) in Hfr1, Hnt |- *.
  destruct (IH st1 Hok1) as (st2 & E2 & Hok2 & Hr2); [|done|intros x q Hx; apply Hnt, elem_of_app; by right|].
  { intros va' Hin. apply (re_calm _ _ _ _ _ Hr1), Hnb. by right. }
  exists st2. cbn [unmap_list]. rewrite (bind_done _ _ _ _ _ E1). split_and!; [done..|]. exact (released_trans _ _ [_] _ _ _ _ _ Hr1 Hr2).
Qed.

(** [unmappages] with [free] set gives back the frames of its pages. *)
Lemma unmappages_gives_back root tabs va sz st :
  vm_ok ok root tabs st → va mod 4096 = 0 → sz mod 4096 = 0 → 0 ≤ va → 0 < sz → va + sz < 2 ^ 64 →
  let vas := pages_at va (sz / 4096) in
  (∀ va', va' ∈ vas → no_big (words st) tabs va') →
  givable (frames (words st) tabs vas) (pages st) → no_table tabs (frames (words st) tabs vas) →
  ∃ st', unmappages root va sz true st = Done (0, st') ∧ vm_ok ok root tabs st' ∧
    released tabs (frames (words st) tabs vas) (page_no <$> vas) st st'.
Proof.
  intros Hok Hv Hs H0 Hz He vas Hnb Hfr Hnt. destruct (unmap_list_run root tabs vas st Hok Hnb Hfr Hnt) as (st' & E & Hok' & Hr).
  exists st'. rewrite unmappages_list by done. by rewrite (bind_done _ _ _ _ _ E).
Qed.
End release.

(** ** [vmm_destroy] *)

Section destroy.
Context {P H : Type} `{!PageAllocator P} `{!Allocator H}.
Context (ok : P → Prop) (managed : P → Z → Prop) `{!PageAllocatorLaws P ok managed}.
Context (cpu : Z).
Implicit Types s : vmm_state P H.

Lemma area_pages_cons d l : area_pages (d :: l) = pages_at (d_start d) (d_size d / 4096) ++ area_pages l.
Proof. done. Qed.

(** The loop over the areas is a walk over their pages. *)
Lemma unmap_areas_list l fuel root prev cur lo hi s :
  achain (areas s) prev cur l → alay lo l hi → 0 ≤ lo → hi < 2 ^ 64 → (length l ≤ fuel)%nat →
  unmap_areas fuel root cur s = on_tables (unmap_list root (area_pages l)) s.
Proof.
  revert fuel prev cur lo s. induction l as [|d l IH]; intros fuel prev cur lo s Hc Hl Hlo Hhi Hf.
  { cbn in Hc. subst cur. destruct fuel; [by destruct s|]. by destruct s. }
  destruct Hc as (-> & H0 & a & Ha & Hs & Hz & _ & Hc). destruct Hl as (L1 & L2 & L3 & L4 & L5). pose proof (alay_le _ _ _ L5) as L6.
  destruct fuel as [|fuel]; [cbn in Hf; lia|]. cbn [unmap_areas]. rewrite decide_False by done.
  rewrite (bind_done _ _ _ _ _ (load_area_run _ _ s H0 Ha)), Hs, Hz, area_pages_cons.
  unfold on_tables at 2, zoom. rewrite unmap_list_app. unfold on_tables, zoom, mbind, M_bind. unfold d_end in *.
  rewrite unmappages_list by (done || lia). unfold mbind, M_bind, mret, M_ret.
  destruct (unmap_list root _ (tables s)) as [[[] t]| | |] eqn:E; try done.
  cbn [tables]. set (s1 := mk_vs _ _ _ _ _ _ t _).
  rewrite (load_area_run _ _ s1 H0 Ha). by rewrite (IH fuel (d_addr d) (a_next a) (d_start d + d_size d) s1 Hc L5) by (cbn in Hf; lia).
Qed.

(** The containers [C], physical pages, linked from [cur] on. *)
Fixpoint cchain (cm : gmap Z Z) (cur : Z) (C : list Z) : Prop :=
  match C with
  | [] => cur = 0
  | x :: C => cur = x + PHYSICAL_OFFSET ∧ phys_page x ∧ ∃ n, cm !! cur = Some n ∧ cchain cm n C
  end.

Lemma cchain_in cm cur C x : cchain cm cur C → x ∈ C → is_Some (cm !! (x + PHYSICAL_OFFSET)).
Proof.
  revert cur. induction C as [|y C IH]; intros cur; [by intros _ ?%not_elem_of_nil|].
  intros (-> & _ & n & Hn & Hc) [->|Hx]%elem_of_cons; [eauto|by eapply IH].
Qed.

Lemma cchain_length cm cur C : cchain cm cur C → NoDup C → (length C ≤ size cm)%nat.
Proof.
  intros Hc Hn. rewrite <- (length_fmap (λ x, x + PHYSICAL_OFFSET)), <- size_dom.
  rewrite <- (size_list_to_set (C := gset Z)) by (apply NoDup_fmap_2; [intros ???; lia|done]).
  apply subseteq_size. intros x. rewrite elem_of_list_to_set, elem_of_dom. intros (y & -> & Hin)%list_elem_of_fmap. by eapply cchain_in.
Qed.

Lemma load_cont_run c n s : c ≠ 0 → conts s !! c = Some n → load_cont c s = Done (n, s).
Proof. intros H0 E. apply getf_done. by rewrite decide_False. Qed.

Lemma kfree_page_run x F s :
  ok (pages (tables s)) → phys_page x → givable managed (x :: F) (pages (tables s)) →
  ∃ pg, on_tables (on_pages (kfree (x + PHYSICAL_OFFSET -64 PHYSICAL_OFFSET))) s = Done (tt, put_pages pg s) ∧
    gave ok managed [x] (pages (tables s)) pg ∧ givable managed F pg.
Proof.
  intros Hok [_ Hx] Hg. destruct (kfree_gives ok managed x F _ Hok Hg) as (pg & E & Hgv & Hg'). exists pg. split_and!; try done.
  rewrite w64_small by lia. replace (x + PHYSICAL_OFFSET - PHYSICAL_OFFSET) with x by lia.
  unfold on_tables, zoom, on_pages, zoom. by rewrite E.
Qed.

Lemma free_containers_run C F fuel cur s :
  ok (pages (tables s)) → cchain (conts s) cur C → givable managed (C ++ F) (pages (tables s)) → (length C ≤ fuel)%nat →
  ∃ pg, free_containers fuel cur s = Done (tt, put_pages pg s) ∧ gave ok managed C (pages (tables s)) pg ∧ givable managed F pg.
Proof.
  revert fuel cur s. induction C as [|x C IH]; intros fuel cur s Hok Hc Hg Hf.
  { cbn in Hc. subst cur. exists (pages (tables s)). split_and!; [|done..]. destruct fuel; by destruct s as [????? ? [] ?]. }
  destruct Hc as (-> & Hx & n & Hn & Hc). destruct fuel as [|fuel]; [cbn in Hf; lia|]. cbn [free_containers].
  assert (x + PHYSICAL_OFFSET ≠ 0) as H0 by (destruct Hx; unfold PHYSICAL_OFFSET; lia).
  rewrite decide_False, (bind_done _ _ _ _ _ (load_cont_run _ n s H0 Hn)) by done.
  destruct (kfree_page_run x (C ++ F) s Hok Hx Hg) as (p1 & E1 & G1 & Hg1). rewrite (bind_done _ _ _ _ _ E1).
  destruct (IH fuel n (put_pages p1 s) (proj1 G1) Hc Hg1) as (p2 & E2 & G2 & Hg2); [cbn in Hf; lia|].
  exists p2. rewrite E2. split_and!; [done| |done]. exact (gave_trans ok managed [x] C _ _ _ G1 G2).
Qed.

(** C14: [vmm_destroy] of an address space in which every page of an area that
    has a table also has a frame gives back exactly the frames its areas are
    mapped to, its containers, its root table and the two structures of the
    heap, the areas are no longer mapped, and no other structure changes.
    The tables between the root and the pages are not given back: none of
    them is free afterwards. *)
Theorem vmm_destroy_gives_back m v cl l s C r tabs h1 h2 :
  let w := words (tables s) in
  let F := frames w tabs (area_pages l) in
  vmm_inv ok cpu m v cl l s → root_pagetable v = r + PHYSICAL_OFFSET → phys_page r →
  vm_ok ok (r + PHYSICAL_OFFSET) tabs (tables s) → (∀ va, va ∈ area_pages l → no_big w tabs va) →
  cchain (conts s) (root_container v) C → givable managed (F ++ C ++ [r]) (pages (tables s)) → no_table tabs (F ++ C) →
  h_free (lock v) (vheap s) = Done (tt, h1) → h_free m h1 = Done (tt, h2) →
  ∃ s', vmm_destroy m s = Done (tt, s') ∧ ok (pages (tables s')) ∧ vheap s' = h2 ∧
    free_pages (pages (tables s')) = r :: reverse C ++ reverse F ++ free_pages (pages (tables s)) ∧
    (∀ va, mapped (words (tables s')) tabs va = if decide (page_no va ∈ page_no <$> area_pages l) then None else mapped w tabs va) ∧
    (∀ p x, p ≠ [] → tabs !! p = Some (x + PHYSICAL_OFFSET) → x ∉ free_pages (pages (tables s'))) ∧
    (vmms s', areas s', conts s', locks s', vcpus s', cr3 s') = (vmms s, areas s, conts s, locks s, vcpus s, cr3 s).
Proof.
  intros w F Hi Hr Hrp Hok Hnb Hcc Hg Hnt Hh1 Hh2. destruct (vi_vmm _ _ _ _ _ _ _ Hi) as [Hm Hv].
  destruct (vi_bounds _ _ _ _ _ _ _ Hi) as (B1 & _ & _ & B4 & B5). pose proof (vi_chain _ _ _ _ _ _ _ Hi) as Hc. pose proof (vi_lay _ _ _ _ _ _ _ Hi) as Hl.
  unfold vmm_destroy. rewrite (bind_done _ _ _ _ _ (load_vmm_run m v s Hm Hv)). step. rewrite Hr.
  destruct (unmap_list_run ok managed (r + PHYSICAL_OFFSET) tabs (area_pages l) (tables s) Hok Hnb) as (t & E & Hokt & Hre).
  { by eapply givable_l. }
  { intros x q Hx. apply Hnt, elem_of_app. by left. }
  pose proof (re_gave _ _ _ _ _ _ _ Hre) as G1. pose proof (givable_app _ _ _ _ _ _ Hg G1) as Hg1.
  erewrite bind_done.
  2: { erewrite unmap_areas_list; [apply on_tables_run, E|exact Hc|exact Hl|lia|case_decide; lia|by eapply achain_length]. }
  step. destruct (free_containers_run C [r] (S (size (conts s))) (root_container v) (put_tables t s)) as (p2 & E2 & G2 & Hg2); [apply G1|done|done| |].
  { apply Nat.le_le_succ_r, cchain_length with (root_container v); [done|]. by apply (givable_l managed C [r]) in Hg1 as []. }
  rewrite (bind_done _ _ _ _ _ E2).
  set (s2 := put_pages p2 (put_tables t s)).
  erewrite bind_done by (unfold on_heap, zoom; cbn [vheap s2 put_pages put_tables]; rewrite Hh1; reflexivity). set (s3 := mk_vs _ _ _ _ _ _ _ h1).
  destruct (kfree_page_run r [] s3 (proj1 G2) Hrp Hg2) as (p4 & E4 & G4 & _). rewrite (bind_done _ _ _ _ _ E4).
  pose proof (gave_trans _ _ _ _ _ _ _ (gave_trans _ _ _ _ _ _ _ G1 G2) G4) as (Hok4 & Hf4 & _).
  unfold on_heap, zoom. cbn [vheap s3 put_pages]. rewrite Hh2. eexists. split; [reflexivity|]. cbn [tables pages words put_pages put_tables s3 s2 vheap].
  rewrite !reverse_app, <- !app_assoc in Hf4. split_and!; [done|done|exact Hf4|apply (re_mapped _ _ _ _ _ _ _ Hre)| |done].
  intros p x Hp Hx Hin. cbn in Hf4. rewrite Hf4 in Hin. apply elem_of_cons in Hin as [->|Hin].
  - apply Hp, (wf_inj _ _ _ (vo_wf _ _ _ _ Hok) _ _ _ Hx), (wf_root _ _ _ (vo_wf _ _ _ _ Hok)).
  - rewrite !elem_of_app, !elem_of_reverse in Hin. destruct Hin as [?|[?|?]]; [apply (Hnt x p); set_solver..|by apply (vo_free _ _ _ _ Hok x p)].
Qed.

(** An allocator whose [kfree(0)] crashes takes the kernel down on the first
    page that has a table and was never touched: [unmappages] does not look
    at the [present] bit. *)
Hypothesis kfree_null : ∀ pg, ok pg → kfree 0 pg = Fault.

Lemma unmap_untouched root tabs st va e :
  vm_ok ok root tabs st → no_big (words st) tabs va → leaf (words st) tabs va = Some e → frame e = 0 → unmap_page root va st = Fault.
Proof.
  intros Hok Hnb Hl He. pose proof (vo_wf _ _ _ _ Hok) as Hwf. unfold unmap_page.
  rewrite (bind_done _ _ _ _ _ (walk_no_alloc root tabs st va Hwf Hnb)). unfold leaf in Hl.
  destruct (leaf_addr tabs va) as [d|] eqn:Hd; [|done]. cbn [default]. rewrite decide_False by by eapply leaf_addr_nonzero.
  apply bind_fault. rewrite (bind_done _ _ _ _ _ (rd_run st d e Hl)), frame_shift, He.
  unfold on_pages, zoom. by rewrite kfree_null by apply (vo_pages _ _ _ _ Hok).
Qed.

Lemma destroy_untouched_crashes m v cl l s tabs V1 va V2 e :
  let w := words (tables s) in
  vmm_inv ok cpu m v cl l s → vm_ok ok (root_pagetable v) tabs (tables s) → area_pages l = V1 ++ va :: V2 →
  (∀ va', va' ∈ V1 ++ [va] → no_big w tabs va') →
  givable managed (frames w tabs V1) (pages (tables s)) → no_table tabs (frames w tabs V1) →
  leaf w tabs va = Some e → frame e = 0 →
  vmm_destroy m s = Fault.
Proof.
  intros w Hi Hok Hpg Hnb Hg Hnt Hl He. destruct (vi_vmm _ _ _ _ _ _ _ Hi) as [Hm Hv].
  destruct (vi_bounds _ _ _ _ _ _ _ Hi) as (B1 & _ & _ & B4 & B5). pose proof (vi_chain _ _ _ _ _ _ _ Hi) as Hc. pose proof (vi_lay _ _ _ _ _ _ _ Hi) as Hla.
  unfold vmm_destroy. rewrite (bind_done _ _ _ _ _ (load_vmm_run m v s Hm Hv)). step. apply bind_fault.
  erewrite unmap_areas_list; [|exact Hc|exact Hla|lia|case_decide; lia|by eapply achain_length].
  unfold on_tables, zoom. rewrite Hpg, unmap_list_app.
  destruct (unmap_list_run ok managed (root_pagetable v) tabs V1 (tables s) Hok) as (t & E & Hokt & Hre); try done.
  { intros va' Hin. apply Hnb, elem_of_app. by left. }
  rewrite (bind_done _ _ _ _ _ E). cbn [unmap_list]. rewrite bind_fault; [done|].
  pose proof (re_frame _ _ _ _ _ _ _ Hre va) as Hf. fold w in Hf. rewrite Hl in Hf.
  destruct (leaf (words t) tabs va) as [e'|] eqn:Hl'; [|done]. injection Hf as Hf.
  apply (unmap_untouched _ tabs t va e'); [done|apply (re_calm _ _ _ _ _ _ _ Hre), Hnb; set_solver|done|congruence].
Qed.
End destroy.

(** With the kernel's page allocator: [kfree(0)] reads the bitmap far behind
    its end, and destroying an address space with an untouched page next to
    touched ones crashes. *)
Lemma destroy_untouched_faults {H} `{!Allocator H} free_lst spins c pc cpu m v cl l (s : vmm_state (phys * list Z) H) tabs V1 va V2 e :
  let _ := phys_page_allocator free_lst spins c in
  let ok := λ s : phys * list Z, phys_ok free_lst c pc s.2 s.1 in
  let w := words (tables s) in
  0 < free_lst ∧ ¬ (PHYSICAL_OFFSET ≤ free_lst < PHYSICAL_OFFSET + 2 ^ 39) →
  vmm_inv ok cpu m v cl l s → vm_ok ok (root_pagetable v) tabs (tables s) → area_pages l = V1 ++ va :: V2 →
  (∀ va', va' ∈ V1 ++ [va] → no_big w tabs va') →
  givable (phys_managed pc) (frames w tabs V1) (pages (tables s)) → no_table tabs (frames w tabs V1) →
  leaf w tabs va = Some e → frame e = 0 →
  vmm_destroy m s = Fault.
Proof.
  intros ? ok w Hfl Hi Hok Hpg Hnb Hg Hnt Hl He. pose proof (phys_laws free_lst spins c Hfl pc) as ?.
  eapply (destroy_untouched_crashes ok (phys_managed pc) cpu); try done.
  intros [s0 fr] Ho. cbn. by rewrite (kfree_null_faults free_lst spins c pc fr s0 Ho).
Qed.

(** ** An example

    An area of two pages, mapped to the frames at 0x9000 and 0xa000, in the
    container at 0x8000. *)
Definition ex_vm2 : vm (list Z) := mk_vm (zero_words ex_root) (ex_frames ++ [0x8000; 0x9000; 0xa000]) true.

Lemma ex_vm2_ok : vm_ok list_pages_ok ex_root {[ [] := ex_root ]} ex_vm2.
Proof.
  split; simpl.
  - apply empty_root_wf, ex_root_table.
  - split; [apply (bool_decide_unpack _); by vm_compute|]. repeat constructor; by vm_compute.
  - intros x q Hx [<- E]%lookup_singleton_Some. unfold ex_root in E.
    assert (x = 0x1000) as -> by lia. revert Hx. apply (bool_decide_unpack _). by vm_compute.
Qed.

Lemma ex_walk_pages : ex_left (walk ex_root 0x200000 true ex_vm2) = [0x5000; 0x6000; 0x7000; 0x8000; 0x9000; 0xa000].
Proof. vm_compute. reflexivity. Qed.

Lemma ex_built : ∃ tabs (st : vm (list Z)), vm_ok list_pages_ok ex_root tabs st ∧ pages st = [0x5000; 0x6000; 0x7000] ∧
  (∀ va, no_big (words st) tabs va) ∧ frames (words st) tabs [0x200000; 0x201000] = [0x9000; 0xa000] ∧
  no_table tabs [0x9000; 0xa000; 0x8000].
Proof.
  destruct (walk_alloc list_pages_ok (λ _, phys_page) ex_root {[ [] := ex_root ]} ex_vm2 0x200000 ex_vm2_ok)
    as (d & st & tabs & E & Hok & Hg & _ & Hd & _).
  { apply empty_root_no_big, ex_root_table. }
  pose proof ex_walk_pages as Hp. rewrite E in Hp. simpl in Hp.
  assert (leaf_addr tabs 0x200000 = Some d) as Hd1 by (apply Hd; simpl; lia).
  assert (∃ d2, leaf_addr tabs 0x201000 = Some d2) as [d2 Hd2].
  { unfold leaf_addr in *. change (leaf_path 0x201000) with (leaf_path 0x200000). destruct (tabs !! leaf_path 0x200000); [by eexists|done]. }
  assert (∀ va, no_big (words st) tabs va) as Hnb.
  { intros va. apply (gr_calm _ _ _ _ Hg), empty_root_no_big, ex_root_table. }
  assert (∀ x, x ∈ [0x5000; 0x6000; 0x7000; 0x8000; 0x9000; 0xa000] → ∀ q, tabs !! q ≠ Some (x + PHYSICAL_OFFSET)) as Hnt.
  { intros x Hx q. apply (vo_free _ _ _ _ Hok). cbn. by rewrite Hp. }
  clear E Hg Hd. set (st0 := mk_vm (words st) [0x5000; 0x6000; 0x7000] true).
  assert (vm_ok list_pages_ok ex_root tabs st0) as Hok0.
  { split; [apply Hok| |].
    - split; [apply (bool_decide_unpack _); by vm_compute|]. repeat constructor; by vm_compute.
    - intros x q Hx. apply Hnt, (elem_of_app [0x5000; 0x6000; 0x7000] [0x8000; 0x9000; 0xa000]). by left. }
  pose proof (vm_ok_write _ _ _ _ _ _ 0x9007 Hok0 Hd1 ltac:(by vm_compute)) as Hok1.
  pose proof (vm_ok_write _ _ _ _ _ _ 0xa007 Hok1 Hd2 ltac:(by vm_compute)) as Hok2.
  exists tabs, (with_word d2 0xa007 (with_word d 0x9007 st0)). split_and!; [exact Hok2|done|..].
  - intros va. apply (write_leaf_no_big _ _ _ _ _ _ (vo_wf _ _ _ _ Hok1) Hd2), (write_leaf_no_big _ _ _ _ _ _ (vo_wf _ _ _ _ Hok0) Hd1), Hnb.
  - unfold frames. cbn [omap list_omap words with_word].
    rewrite !(write_leaf_leaf _ _ _ _ _ 0xa007 (vo_wf _ _ _ _ Hok1) Hd2).
    rewrite decide_False by (by vm_compute). rewrite decide_True by done.
    rewrite (write_leaf_leaf _ _ _ _ _ 0x9007 (vo_wf _ _ _ _ Hok0) Hd1). rewrite decide_True by done. reflexivity.
  - intros x q Hx. apply Hnt. revert x Hx. apply (proj1 (Forall_forall _ _)), (bool_decide_unpack _). by vm_compute.
Qed.

Definition ex_cont : Z := 0x8000 + PHYSICAL_OFFSET.
Definition ex_proc_vmm : vmm_info_t :=
  mk_vmm ex_root true 0x200000 0x200000 0x800000 1 ex_cont ex_cont 0x201fff ex_cont ex_cont 0x600.
Definition ex_proc_space (t : vm (list Z)) : vmm_state (list Z) bump :=
  mk_vs {[ 0x500 := ex_proc_vmm ]} {[ ex_cont := mk_area 0x200000 8192 3 0 0 0 ]} {[ ex_cont := 0 ]}
    {[ 0x600 := mk_lock 0 0 None ]} ex_cpus ∅ t (mk_bump 0x9000 {[ 0x500; 0x600 ]}).

Lemma ex_proc_inv t : pages t = [0x5000; 0x6000; 0x7000] →
  vmm_inv list_pages_ok 1 0x500 ex_proc_vmm [ex_cont] [mk_desc ex_cont 0x200000 8192] (ex_proc_space t).
Proof.
  intros Hp. assert (is_table ex_cont) as Ht by (by apply phys_page_table).
  split.
  - done.
  - split; [done|]. split; [by vm_compute|]. eexists. by split_and!.
  - done.
  - by vm_compute.
  - by vm_compute.
  - split; try done.
    + apply NoDup_singleton.
    + by repeat constructor.
    + intros x Hx. cbn in Hx. apply list_elem_of_singleton in Hx as ->. exists ex_cont, 0. split_and!; [by left|by vm_compute|done..].
    + cbn. rewrite Hp. split; [apply (bool_decide_unpack _); by vm_compute|]. repeat constructor; by vm_compute.
    + cbn. rewrite Hp. intros x Hx Hc. apply list_elem_of_singleton in Hc. unfold ex_cont in Hc. assert (x = 0x8000) as -> by lia.
      revert Hx. apply (bool_decide_unpack _). by vm_compute.
  - by eexists.
  - exists (mk_cpu 1 0 1 0 0 true), 0. split; [reflexivity|]. by repeat split.
Qed.

Lemma vmm_destroy_gives_back_witness :
  ∃ tabs (t : vm (list Z)) s', vmm_destroy 0x500 (ex_proc_space t) = Done (tt, s') ∧ list_pages_ok (pages (tables s')) ∧
    vheap s' = mk_bump 0x9000 ({[ 0x500; 0x600 ]} ∖ {[ 0x600 ]} ∖ {[ 0x500 ]}) ∧
    free_pages (pages (tables s')) = [0x1000; 0x8000; 0xa000; 0x9000; 0x5000; 0x6000; 0x7000] ∧
    mapped (words (tables s')) tabs 0x200123 = None.
Proof.
  destruct ex_built as (tabs & st & Hok & Hp & Hnb & Hf & Hnt). exists tabs, st.
  destruct (vmm_destroy_gives_back list_pages_ok (λ _, phys_page) 1 0x500 ex_proc_vmm [ex_cont] [mk_desc ex_cont 0x200000 8192]
    (ex_proc_space st) [0x8000] 0x1000 tabs (mk_bump 0x9000 ({[ 0x500; 0x600 ]} ∖ {[ 0x600 ]})) (mk_bump 0x9000 ({[ 0x500; 0x600 ]} ∖ {[ 0x600 ]} ∖ {[ 0x500 ]}))
    (ex_proc_inv st Hp)) as (s' & E & A1 & A2 & A3 & A4 & _).
  - done.
  - by vm_compute.
  - exact Hok.
  - intros va _. apply Hnb.
  - split; [done|]. split; [by vm_compute|]. by exists 0.
  - change (area_pages _) with [0x200000; 0x201000]. cbn [tables ex_proc_space]. rewrite Hf, Hp.
    split; [apply (bool_decide_unpack _); by vm_compute|]. apply (proj1 (Forall_forall _ _)). unfold phys_page.
    apply (bool_decide_unpack _). by vm_compute.
  - change (area_pages _) with [0x200000; 0x201000]. cbn [tables ex_proc_space]. rewrite Hf. exact Hnt.
  - done.
  - done.
  - exists s'. split_and!; [exact E|exact A1|exact A2| |].
    + rewrite A3. change (area_pages _) with [0x200000; 0x201000]. cbn [tables ex_proc_space]. rewrite Hf. cbn. by rewrite Hp.
    + rewrite A4, decide_True; [done|]. change (area_pages _) with [0x200000; 0x201000]. apply (bool_decide_unpack _). by vm_compute.
Defined.
