(* ===== verification/Libc.v ===== *)
(** * The C library (libc/string, libc/math)

    Memory functions over a store of bytes, in which an access to an address
    that holds no byte is a fault, and the integer helpers. *)
From S2P Require Import Prelude.
From S2P Require Import Layout.

Abbreviation mem := (gmap Z Z).
Abbreviation MEM := (M mem).

Definition ldb (a : Z) : MEM Z := getf (λ m, m !! a).
Definition stb (a v : Z) : MEM unit :=
  modifyf (λ m, match m !! a with Some _ => Some (<[a := v]> m) | None => None end).

(** [for (i = from; i < from + n; i++) body(i)], and downwards. *)
Fixpoint for_up (n : nat) (from : Z) (body : Z → MEM unit) : MEM unit :=
  match n with O => mret tt | S n => body from;; for_up n (from + 1) body end.
Fixpoint for_down (n : nat) (body : Z → MEM unit) : MEM unit :=
  match n with O => mret tt | S n => body (Z.of_nat n);; for_down n body end.

Definition memcpy (dst src size : Z) : MEM Z :=
  for_up (Z.to_nat size) 0 (λ i, v ← ldb (src + i); stb (dst + i) v);; mret dst.

Definition memmove (dest src size : Z) : MEM Z :=
  (if decide (dest < src) then
     for_up (Z.to_nat size) 0 (λ i, v ← ldb (src + i); stb (dest + i) v)
   else for_down (Z.to_nat size) (λ i, v ← ldb (src + i); stb (dest + i) v));;
  mret dest.

Definition memset (s c size : Z) : MEM Z :=
  for_up (Z.to_nat size) 0 (λ i, stb (s + i) (w8 c));; mret s.

Fixpoint memcmp_loop (n : nat) (a b : Z) : MEM Z :=
  match n with
  | O => mret 0
  | S n =>
      x ← ldb a; y ← ldb b;
      if decide (x < y) then mret (-1) else if decide (y < x) then mret 1
      else memcmp_loop n (a + 1) (b + 1)
  end.
Definition memcmp (a b size : Z) : MEM Z := memcmp_loop (Z.to_nat size) a b.

Fixpoint strncmp_loop (n : nat) (a b : Z) : MEM Z :=
  match n with
  | O => mret 0
  | S n =>
      x ← ldb a; y ← ldb b;
      if decide (x < y) then mret (-1) else if decide (y < x) then mret 1
      else if decide (x = 0) then mret 0 else strncmp_loop n (a + 1) (b + 1)
  end.
Definition strncmp (a b n : Z) : MEM Z := strncmp_loop (Z.to_nat n) a b.

Fixpoint strlen_loop (fuel : nat) (s len : Z) : MEM Z :=
  match fuel with
  | O => out_of_fuel
  | S fuel =>
      c ← ldb (s + len);
      if decide (c = 0) then mret len else strlen_loop fuel s (len + 1)
  end.
(** A string ends inside memory or the scan leaves it: the number of bytes in
    memory bounds the loop. *)
Definition strlen (s : Z) : MEM Z := m ← get; strlen_loop (S (size m)) s 0.

Fixpoint strnlen_loop (n : nat) (s len : Z) : MEM Z :=
  match n with
  | O => mret len
  | S n =>
      c ← ldb (s + len);
      if decide (c = 0) then mret len else strnlen_loop n s (len + 1)
  end.
Definition strnlen (s maxlen : Z) : MEM Z := strnlen_loop (Z.to_nat maxlen) s 0.

Definition strncpy (dst src dsize : Z) : MEM Z :=
  dlen ← strnlen src dsize;
  memcpy dst src dlen;;
  memset (dst + dlen) 0 (dsize - dlen);;
  mret dst.

(** ** Integers *)

(** [int] division truncates. *)
Definition ceildiv (x y : Z) : Z := 1 + Z.quot (x - 1) y.

Fixpoint ceillog2_loop (fuel : nat) (value result : Z) (sup : bool) : res Z :=
  match fuel with
  | O => OutOfFuel
  | S fuel =>
      if decide (1 < value) then
        ceillog2_loop fuel (Z.shiftr value 1) (w8 (result + 1))
          (sup || bool_decide (Z.land value 1 ≠ 0))
      else Done (w8 (result + (if sup then 1 else 0)))
  end.
Definition ceillog2 (value : Z) : res Z :=
  if decide (value = 0) then Done 0 else if decide (value = 1) then Done 1 else
  ceillog2_loop 65 value 0 false.

Definition umin (a b : Z) : Z := if decide (a < b) then a else b.

(** [itoa]: the digits are written from the least significant one on. *)
Definition digit_char (caps : bool) (r : Z) : Z :=
  if decide (r < 10) then r + 48 else r + (if caps then 65 else 97) - 10.

Fixpoint itoa_digits (fuel : nat) (p ud base : Z) (caps : bool) : MEM Z :=
  match fuel with
  | O => out_of_fuel
  | S fuel =>
      stb p (digit_char caps (ud mod base));;
      if decide (ud / base ≠ 0) then itoa_digits fuel (p + 1) (ud / base) base caps
      else mret (p + 1)
  end.

Fixpoint reverse_loop (fuel : nat) (p1 p2 : Z) : MEM unit :=
  if decide (p1 < p2) then
    match fuel with
    | O => out_of_fuel
    | S fuel =>
        tmp ← ldb p1;
        x ← ldb p2;
        stb p1 x;;
        stb p2 tmp;;
        reverse_loop fuel (p1 + 1) (p2 - 1)
    end
  else mret tt.

(** [d] is an [int]; [ud] its conversion to [unsigned int]; [-d] wraps for the
    smallest [int], as the compiled code does.  A 32-bit number has at most 32
    digits, which bounds both loops. *)
Definition itoa (buf base d : Z) (caps : bool) : MEM unit :=
  let ud := w32 d in
  (if decide (base = 10 ∧ d < 0) then
     stb buf 45;;
     p ← itoa_digits 33 (buf + 1) (w32 (- d)) base caps;
     stb p 0;;
     reverse_loop 33 (buf + 1) (p - 1)
   else
     p ← itoa_digits 33 buf ud base caps;
     stb p 0;;
     reverse_loop 33 buf (p - 1)).

(** ** Blocks of bytes *)

(** The bytes [l] stand at [a]. *)
Definition at_ (m : mem) (a : Z) (l : list Z) : Prop :=
  ∀ i x, l !! i = Some x → m !! (a + Z.of_nat i) = Some x.

(** All of [[a, a+n)] holds bytes. *)
Definition has (m : mem) (a n : Z) : Prop := ∀ i, 0 ≤ i < n → is_Some (m !! (a + i)).

Lemma ldb_run m a v : m !! a = Some v → ldb a m = Done (v, m).
Proof. apply (getf_done (λ m, m !! a)). Qed.

Lemma stb_run m a v : is_Some (m !! a) → stb a v m = Done (tt, <[a := v]> m).
Proof. intros [x E]. apply modifyf_done. by rewrite E. Qed.

Lemma has_insert m a n x v : has m a n → has (<[x := v]> m) a n.
Proof.
  intros Hh i Hi. destruct (decide (x = a + i)) as [->|Hne].
  - rewrite lookup_insert_eq. eauto.
  - rewrite lookup_insert_ne by done. by apply Hh.
Qed.

(** The upward copy is right when it never reads what it wrote. *)
Lemma copy_up_run n m0 m dst src i :
  (∀ j, i ≤ j < i + Z.of_nat n → m !! (src + j) = m0 !! (src + j)) →
  (dst < src ∨ ∀ j k, i ≤ j < i + Z.of_nat n → i ≤ k < i + Z.of_nat n → dst + j ≠ src + k) →
  has m dst (i + Z.of_nat n) → has m0 src (i + Z.of_nat n) → 0 ≤ i →
  ∃ m', for_up n i (λ i, v ← ldb (src + i); stb (dst + i) v) m = Done (tt, m') ∧
    (∀ j, i ≤ j < i + Z.of_nat n → m' !! (dst + j) = m0 !! (src + j)) ∧
    (∀ a, (∀ j, i ≤ j < i + Z.of_nat n → a ≠ dst + j) → m' !! a = m !! a).
Proof.
  revert m i. induction n as [|n IH]; intros m i Hs Hd Hh Hh0 Hi.
  { exists m. split_and!; [done|intros; lia|done]. }
  destruct (Hh0 i) as [v Hv]; [lia|].
  destruct (IH (<[dst + i := v]> m) (i + 1)) as (m' & E & Hc & Hf).
  - intros j Hj. rewrite lookup_insert_ne; [apply Hs; lia|].
    destruct Hd as [?|Hd]; [lia|apply Hd; lia].
  - destruct Hd as [?|Hd]; [by left|right]. intros j k Hj Hk. apply Hd; lia.
  - apply has_insert. intros k Hk. apply Hh. lia.
  - intros k Hk. apply Hh0. lia.
  - lia.
  - exists m'. split_and!.
    + cbn [for_up]. rewrite bind_assoc. erewrite bind_done by (apply ldb_run; by rewrite Hs by lia).
      cbv beta. erewrite bind_done by (apply stb_run, Hh; lia). exact E.
    + intros j Hj. destruct (decide (j = i)) as [->|]; [|apply Hc; lia].
      rewrite Hf by (intros; lia). by rewrite lookup_insert_eq.
    + intros a Ha. rewrite Hf by (intros; apply Ha; lia). apply lookup_insert_ne.
      intros <-. by apply (Ha i); [lia|].
Qed.

Lemma copy_down_run n m0 m dst src :
  (∀ j, 0 ≤ j < Z.of_nat n → m !! (src + j) = m0 !! (src + j)) → src ≤ dst →
  has m dst (Z.of_nat n) → has m0 src (Z.of_nat n) →
  ∃ m', for_down n (λ i, v ← ldb (src + i); stb (dst + i) v) m = Done (tt, m') ∧
    (∀ j, 0 ≤ j < Z.of_nat n → m' !! (dst + j) = m0 !! (src + j)) ∧
    (∀ a, (∀ j, 0 ≤ j < Z.of_nat n → a ≠ dst + j) → m' !! a = m !! a).
Proof.
  revert m. induction n as [|n IH]; intros m Hs Hd Hh Hh0.
  { exists m. split_and!; [done|intros; lia|done]. }
  destruct (Hh0 (Z.of_nat n)) as [v Hv]; [lia|].
  destruct (IH (<[dst + Z.of_nat n := v]> m)) as (m' & E & Hc & Hf).
  - intros j Hj. rewrite lookup_insert_ne by lia. apply Hs. lia.
  - done.
  - apply has_insert. intros k Hk. apply Hh. lia.
  - intros k Hk. apply Hh0. lia.
  - exists m'. split_and!.
    + cbn [for_down]. rewrite bind_assoc. erewrite bind_done by (apply ldb_run; by rewrite Hs by lia).
      cbv beta. erewrite bind_done by (apply stb_run, Hh; lia). exact E.
    + intros j Hj. destruct (decide (j = Z.of_nat n)) as [->|]; [|apply Hc; lia].
      rewrite Hf by (intros; lia). by rewrite lookup_insert_eq.
    + intros a Ha. rewrite Hf by (intros; apply Ha; lia). apply lookup_insert_ne.
      intros <-. by apply (Ha (Z.of_nat n)); [lia|].
Qed.

(** C25: [memmove] copies whatever the overlap: afterwards the destination
    holds the bytes the source held before the call, and no other byte of
    memory changed. *)
Theorem memmove_copies m dst src n :
  0 ≤ n → has m dst n → has m src n →
  ∃ m', memmove dst src n m = Done (dst, m') ∧
    (∀ j, 0 ≤ j < n → m' !! (dst + j) = m !! (src + j)) ∧
    (∀ a, ¬ (dst ≤ a < dst + n) → m' !! a = m !! a).
Proof.
  intros Hn Hd Hs. rewrite <- (Z2Nat.id n) in Hd, Hs by done. unfold memmove.
  assert (∃ m', (if decide (dst < src) then
     for_up (Z.to_nat n) 0 (λ i, v ← ldb (src + i); stb (dst + i) v)
   else for_down (Z.to_nat n) (λ i, v ← ldb (src + i); stb (dst + i) v)) m = Done (tt, m') ∧
    (∀ j, 0 ≤ j < Z.of_nat (Z.to_nat n) → m' !! (dst + j) = m !! (src + j)) ∧
    (∀ a, (∀ j, 0 ≤ j < Z.of_nat (Z.to_nat n) → a ≠ dst + j) → m' !! a = m !! a)) as (m' & E & Hc & Hf).
  { case_decide as Hlt.
    - by apply (copy_up_run (Z.to_nat n) m m dst src 0); [|left| | |].
    - apply (copy_down_run (Z.to_nat n) m m dst src); [done|lia|done|done]. }
  rewrite Z2Nat.id in Hc, Hf by done. exists m'. rewrite (bind_done _ _ _ _ _ E). split_and!; [done|done|].
  intros a Ha. apply Hf. intros; lia.
Qed.

Lemma memmove_copies_witness :
  ∃ m', memmove 12 10 4 (list_to_map ((λ i, (Z.of_nat i, Z.of_nat i + 100)) <$> seq 10 8)) = Done (12, m') ∧
    (∀ j, 0 ≤ j < 4 → m' !! (12 + j)
      = (list_to_map ((λ i, (Z.of_nat i, Z.of_nat i + 100)) <$> seq 10 8) : mem) !! (10 + j)) ∧
    (∀ a, ¬ (12 ≤ a < 12 + 4) → m' !! a
      = (list_to_map ((λ i, (Z.of_nat i, Z.of_nat i + 100)) <$> seq 10 8) : mem) !! a).
Proof.
  refine (memmove_copies _ 12 10 4 _ _ _); [lia| |].
  all: intros i Hi; assert (i = 0 ∨ i = 1 ∨ i = 2 ∨ i = 3) as [-> | [-> | [-> | ->]]] by lia;
    by eexists; vm_compute.
Defined.

(** ** Strings in memory *)

Lemma at_cons m a x l : at_ m a (x :: l) ↔ m !! a = Some x ∧ at_ m (a + 1) l.
Proof.
  split.
  - intros Ha. split; [rewrite <- (Ha 0%nat x eq_refl); f_equal; lia|].
    intros i y Hy. rewrite <- (Ha (S i) y Hy). f_equal. lia.
  - intros [Hx Hl] [|i] y Hy; simplify_eq/=; [rewrite <- Hx; f_equal; lia|].
    rewrite <- (Hl i y Hy). f_equal. lia.
Qed.

Lemma at_app m a l k : at_ m a (l ++ k) ↔ at_ m a l ∧ at_ m (a + Z.of_nat (length l)) k.
Proof.
  revert a. induction l as [|x l IH]; intros a; cbn [app length].
  - rewrite Z.add_0_r. split; [|tauto]. intros ?. split; [|done]. intros i y Hy. by rewrite lookup_nil in Hy.
  - rewrite !at_cons, IH. replace (a + 1 + Z.of_nat (length l)) with (a + Z.of_nat (S (length l))) by lia.
    tauto.
Qed.

Lemma at_nil m a : at_ m a [].
Proof. intros i y Hy. by rewrite lookup_nil in Hy. Qed.

Lemma at_frame m m' a l :
  at_ m a l → (∀ b, a ≤ b < a + Z.of_nat (length l) → m' !! b = m !! b) → at_ m' a l.
Proof.
  intros Ha Hf i x Hi. rewrite Hf; [by apply Ha|]. apply lookup_lt_Some in Hi. lia.
Qed.

Lemma at_has m a l : at_ m a l → has m a (Z.of_nat (length l)).
Proof.
  intros Ha i Hi. destruct (lookup_lt_is_Some_2 l (Z.to_nat i)) as [x Hx]; [lia|].
  exists x. rewrite <- (Ha _ _ Hx). f_equal. lia.
Qed.

Lemma has_frame m m' a n : has m a n → (∀ b, is_Some (m !! b) → is_Some (m' !! b)) → has m' a n.
Proof. intros Hh Hf i Hi. by apply Hf, Hh. Qed.

Lemma has_mono m a n b k : has m a n → a ≤ b → b + k ≤ a + n → has m b k.
Proof. intros Hh Hb Hk i Hi. replace (b + i) with (a + (b - a + i)) by lia. apply Hh. lia. Qed.

(** ** [itoa] *)

(** The number a string of digits denotes, most significant digit first. *)
Definition digit_value (c : Z) : Z := if decide (c < 58) then c - 48 else if decide (c < 91) then c - 55 else c - 87.
Definition parse_digits (base : Z) (l : list Z) : Z := fold_left (λ acc c, acc * base + digit_value c) l 0.

Lemma digit_value_char caps r : 0 ≤ r < 16 → digit_value (digit_char caps r) = r.
Proof. intros Hr. unfold digit_value, digit_char. destruct caps; repeat case_decide; lia. Qed.

Lemma digit_char_pos caps r : 0 ≤ r < 16 → 48 ≤ digit_char caps r < 128.
Proof. intros Hr. unfold digit_char. destruct caps; case_decide; lia. Qed.

(** The digits of a number, least significant first. *)
Fixpoint digits_lsd (fuel : nat) (ud base : Z) (caps : bool) : list Z :=
  match fuel with
  | O => []
  | S fuel => digit_char caps (ud mod base) :: if decide (ud / base ≠ 0) then digits_lsd fuel (ud / base) base caps else []
  end.

Lemma itoa_digits_run base caps n fuel m p ud :
  2 ≤ base ≤ 16 → 0 ≤ ud < base ^ Z.of_nat (S n) → (S n ≤ fuel)%nat → has m p (Z.of_nat (S n)) →
  ∃ ds m', itoa_digits fuel p ud base caps m = Done (p + Z.of_nat (length ds), m') ∧
    (1 ≤ length ds ≤ S n)%nat ∧ at_ m' p ds ∧ parse_digits base (reverse ds) = ud ∧ Forall (λ c, 48 ≤ c < 128) ds ∧
    ds = digits_lsd fuel ud base caps ∧
    (∀ b, ¬ (p ≤ b < p + Z.of_nat (length ds)) → m' !! b = m !! b).
Proof.
  intros Hb. revert fuel m p ud. induction n as [|n IH]; intros [|fuel] m p ud Hud Hf Hh; try lia; cbn [itoa_digits digits_lsd].
  all: assert (0 ≤ ud mod base < base) as Hr by (apply Z.mod_pos_bound; lia).
  all: pose proof (Z.div_mod ud base ltac:(lia)) as Hdm.
  all: assert (is_Some (m !! p)) as Hp by (rewrite <- (Z.add_0_r p); apply Hh; lia).
  all: erewrite bind_done by (by apply stb_run); cbv beta.
  all: assert (ud / base = 0 → ∃ ds m',
    Done (p + 1, <[p:=digit_char caps (ud mod base)]> m) = Done (p + Z.of_nat (length ds), m') ∧
    (1 ≤ length ds ≤ 1)%nat ∧ at_ m' p ds ∧ parse_digits base (reverse ds) = ud ∧ Forall (λ c, 48 ≤ c < 128) ds ∧
    ds = [digit_char caps (ud mod base)] ∧
    (∀ b, ¬ (p ≤ b < p + Z.of_nat (length ds)) → m' !! b = m !! b)) as Hend.
  1,3: intros Hz; exists [digit_char caps (ud mod base)], (<[p := digit_char caps (ud mod base)]> m);
    split_and!; [done|done|done| | | |done|];
    [rewrite at_cons, lookup_insert_eq; auto using at_nil
    |cbn; rewrite digit_value_char by lia; lia
    |constructor; [apply digit_char_pos; lia|constructor]
    |cbn; intros b Hb'; apply lookup_insert_ne; lia].
  { assert (ud / base = 0) as Hz by (apply Z.div_small; lia). rewrite Hz, !decide_False by tauto. by apply Hend. }
  destruct (decide (ud / base ≠ 0)) as [Hz|Hz].
  2: { destruct Hend as (ds & m' & E & ? & ?); [lia|]. exists ds, m'. split; [exact E|]. intuition lia || done. }
  destruct (IH fuel (<[p := digit_char caps (ud mod base)]> m) (p + 1) (ud / base)) as (ds & m' & E & Hl & Ha & Hv & Hc & Hds & Hfr).
  - split; [apply Z.div_pos; lia|]. apply Z.div_lt_upper_bound; [lia|].
    rewrite <- Z.pow_succ_r by lia. replace (Z.succ (Z.of_nat (S n))) with (Z.of_nat (S (S n))) by lia. lia.
  - lia.
  - apply has_insert. eapply has_mono; [exact Hh|lia|lia].
  - exists (digit_char caps (ud mod base) :: ds), m'. cbn [length]. split_and!.
    + rewrite E. do 2 f_equal. lia.
    + lia.
    + lia.
    + rewrite at_cons. split; [|done]. rewrite Hfr by lia. by rewrite lookup_insert_eq.
    + unfold parse_digits in *. rewrite reverse_cons, fold_left_app, Hv. cbn. rewrite digit_value_char by lia. lia.
    + constructor; [apply digit_char_pos; lia|done].
    + by rewrite Hds.
    + intros b Hb'. rewrite Hfr by lia. apply lookup_insert_ne. lia.
Qed.

Lemma reverse_loop_run fuel m p l :
  (length l ≤ 2 * fuel + 1)%nat → at_ m p l →
  ∃ m', reverse_loop fuel p (p + Z.of_nat (length l) - 1) m = Done (tt, m') ∧ at_ m' p (reverse l) ∧
    (∀ b, ¬ (p ≤ b < p + Z.of_nat (length l)) → m' !! b = m !! b).
Proof.
  revert m p l. induction fuel as [|fuel IH]; intros m p l Hlen Ha; cbn [reverse_loop].
  all: destruct l as [|x l]; [exists m; rewrite decide_False by (cbn; lia); eauto using at_nil|].
  all: destruct l as [|y l _] using rev_ind; [exists m; rewrite decide_False by (cbn; lia); eauto using at_nil|].
  { cbn in Hlen. rewrite length_app in Hlen. cbn in Hlen. lia. }
  cbn [length] in *. rewrite length_app in *. cbn [length] in *.
  rewrite decide_True by lia.
  rewrite at_cons, at_app, at_cons in Ha. destruct Ha as (Hx & Hl & Hy & _).
  replace (p + Z.of_nat (S (length l + 1)) - 1) with (p + 1 + Z.of_nat (length l)) by lia.
  erewrite bind_done by (by apply ldb_run). cbv beta.
  erewrite bind_done by (by apply ldb_run). cbv beta.
  erewrite bind_done by (by apply stb_run; eauto). cbv beta.
  erewrite bind_done by (apply stb_run; rewrite lookup_insert_ne by lia; eauto). cbv beta.
  destruct (IH (<[p + 1 + Z.of_nat (length l) := x]> (<[p := y]> m)) (p + 1) l) as (m' & E & Hr & Hfr).
  { lia. }
  { eapply at_frame; [exact Hl|]. intros b Hb. by rewrite !lookup_insert_ne by lia. }
  exists m'. split_and!.
  - exact E.
  - rewrite reverse_cons, reverse_app, reverse_singleton. cbn [app].
    rewrite at_cons, at_app, at_cons, length_reverse. split_and!; [|done| |apply at_nil].
    + rewrite Hfr by lia. rewrite lookup_insert_ne by lia. by rewrite lookup_insert_eq.
    + rewrite Hfr by lia. by rewrite lookup_insert_eq.
  - intros b Hb. rewrite Hfr by lia. by rewrite !lookup_insert_ne by lia.
Qed.

(** What [itoa] leaves at [buf], sign included: the digits at [p] reversed and
    terminated. *)
Lemma itoa_digits_reversed base caps k m p ud :
  2 ≤ base ≤ 16 → 0 ≤ ud < base ^ Z.of_nat (S k) → (S k ≤ 33)%nat → has m p (Z.of_nat (S k) + 1) →
  ∃ ds m', ds = reverse (digits_lsd 33 ud base caps) ∧ (q ← itoa_digits 33 p ud base caps; stb q 0;; reverse_loop 33 p (q - 1)) m = Done (tt, m') ∧
    (1 ≤ length ds ≤ S k)%nat ∧ at_ m' p (ds ++ [0]) ∧ parse_digits base ds = ud ∧ Forall (λ c, 48 ≤ c < 128) ds ∧
    (∀ b, ¬ (p ≤ b ≤ p + Z.of_nat (length ds)) → m' !! b = m !! b).
Proof.
  intros Hb Hud Hk Hh.
  destruct (itoa_digits_run base caps k 33 m p ud) as (ds & m1 & E1 & Hl & Ha & Hv & Hc & Hds & Hf1);
    [done|done|done|eapply has_mono; [exact Hh|lia|lia]|].
  destruct (reverse_loop_run 33 (<[p + Z.of_nat (length ds) := 0]> m1) p ds) as (m2 & E2 & Hr & Hf2); [lia| |].
  { eapply at_frame; [exact Ha|]. intros b Hb'. apply lookup_insert_ne. lia. }
  exists (reverse ds), m2. split; [by rewrite Hds|]. rewrite (bind_done _ _ _ _ _ E1). cbv beta.
  erewrite bind_done by (apply stb_run; rewrite Hf1 by lia; apply Hh; lia). cbv beta. rewrite length_reverse.
  split_and!; [exact E2|lia|lia| |done|by apply Forall_reverse|].
  - rewrite at_app, at_cons, length_reverse. split_and!; [done| |apply at_nil].
    rewrite Hf2 by lia. by rewrite lookup_insert_eq.
  - intros b Hb'. rewrite Hf2 by lia. rewrite lookup_insert_ne by lia. apply Hf1. lia.
Qed.

(** The number a printed string denotes, with a leading minus sign. *)
Definition parse_int (base : Z) (s : list Z) : Z :=
  match s with
  | c :: s' => if decide (c = 45) then - parse_digits base s' else parse_digits base s
  | [] => 0
  end.

Lemma parse_int_digits base s : Forall (λ c, 48 ≤ c < 128) s → s ≠ [] → parse_int base s = parse_digits base s.
Proof. intros Hs Hne. destruct s as [|c s]; [done|]. inversion Hs; subst. cbn. by rewrite decide_False by lia. Qed.

(** The text of an [int] in a base. *)
Definition num_string (base d : Z) (caps : bool) : list Z :=
  if decide (base = 10 ∧ d < 0) then 45 :: reverse (digits_lsd 33 (- d) base caps)
  else reverse (digits_lsd 33 (w32 d) base caps).

Lemma itoa_run m buf base d caps :
  8 ≤ base ≤ 16 → - 2 ^ 31 ≤ d < 2 ^ 31 → has m buf 13 →
  ∃ s m', s = num_string base d caps ∧ itoa buf base d caps m = Done (tt, m') ∧
    (1 ≤ length s ≤ 12)%nat ∧ at_ m' buf (s ++ [0]) ∧ Forall (λ c, 0 < c < 128) s ∧
    parse_int base s = (if decide (base = 10) then d else d mod 2 ^ 32) ∧
    (∀ b, ¬ (buf ≤ b ≤ buf + Z.of_nat (length s)) → m' !! b = m !! b).
Proof.
  intros Hb Hd Hh. unfold itoa, num_string.
  assert (8 ^ 11 ≤ base ^ 11) as Hpow by (apply Z.pow_le_mono_l; lia).
  destruct (decide (base = 10 ∧ d < 0)) as [[-> Hneg]|Hpos].
  - erewrite bind_done by (apply stb_run; rewrite <- (Z.add_0_r buf); apply Hh; lia). cbv beta.
    assert (w32 (- d) = - d) as -> by (apply Z.mod_small; lia).
    destruct (itoa_digits_reversed 10 caps 9 (<[buf := 45]> m) (buf + 1) (- d)) as (ds & m' & Hds & E & Hl & Ha & Hv & Hc & Hf);
      [lia|cbn; lia|lia|apply has_insert; eapply has_mono; [exact Hh|lia|lia]|].
    exists (45 :: ds), m'. cbn [length app]. rewrite decide_True by done. cbn [parse_int].
    rewrite at_cons, decide_True by done. split_and!; [by rewrite Hds|exact E|lia|lia| |done| |lia|].
    + rewrite Hf by lia. by rewrite lookup_insert_eq.
    + constructor; [lia|]. eapply Forall_impl; [exact Hc|]. cbn. lia.
    + intros b Hb'. rewrite Hf by lia. apply lookup_insert_ne. lia.
  - assert (0 ≤ w32 d < 2 ^ 32) as Hw by (apply Z.mod_pos_bound; lia).
    destruct (itoa_digits_reversed base caps 10 m buf (w32 d)) as (ds & m' & Hds & E & Hl & Ha & Hv & Hc & Hf);
      [lia|change (Z.of_nat 11) with 11; lia|lia|eapply has_mono; [exact Hh|lia|lia]|].
    exists ds, m'. rewrite parse_int_digits by (first [done|by intros -> ; cbn in Hl; lia]).
    split_and!; [done|exact E|lia|lia|done|eapply Forall_impl; [exact Hc|cbn; lia]| |].
    + rewrite Hv. case_decide; [|done]. apply Z.mod_small. lia.
    + intros b Hb'. apply Hf. lia.
Qed.

(** C26: [itoa] fits the 13 bytes [printf] gives it: for every [int] and every
    base from 8 to 16 it writes at most 12 characters and a terminator inside
    the buffer and nothing else, and reading the characters back in that base
    gives the number (its [unsigned] value in the bases other than 10). *)
Theorem itoa_roundtrip m buf base d caps :
  8 ≤ base ≤ 16 → - 2 ^ 31 ≤ d < 2 ^ 31 → has m buf 13 →
  ∃ s m', itoa buf base d caps m = Done (tt, m') ∧
    (1 ≤ length s ≤ 12)%nat ∧ at_ m' buf (s ++ [0]) ∧ Forall (λ c, 0 < c < 128) s ∧
    parse_int base s = (if decide (base = 10) then d else d mod 2 ^ 32) ∧
    (∀ b, ¬ (buf ≤ b < buf + 13) → m' !! b = m !! b).
Proof.
  intros Hb Hd Hh. destruct (itoa_run m buf base d caps Hb Hd Hh) as (s & m' & _ & ? & ? & ? & ? & ? & Hf).
  exists s, m'. split_and!; try done; try lia. intros b Hb'. apply Hf. lia.
Qed.

(** Thirteen bytes of zeros at 100. *)
Definition buf13 : mem := list_to_map ((λ i, (100 + Z.of_nat i, 0)) <$> seq 0 13).

Lemma buf13_has : has buf13 100 13.
Proof.
  intros i Hi. exists 0. apply elem_of_list_to_map_1'; [|].
  - intros y Hy. apply list_elem_of_fmap in Hy as (j & ? & ?). by simplify_eq.
  - apply list_elem_of_fmap. exists (Z.to_nat i). rewrite Z2Nat.id by lia. split; [done|]. apply elem_of_seq. lia.
Qed.

Lemma itoa_roundtrip_witness :
  ∃ s m', itoa 100 10 (- 2 ^ 31) false buf13 = Done (tt, m') ∧
    (1 ≤ length s ≤ 12)%nat ∧ at_ m' 100 (s ++ [0]) ∧ Forall (λ c, 0 < c < 128) s ∧
    parse_int 10 s = (if decide (10 = 10) then - 2 ^ 31 else (- 2 ^ 31) mod 2 ^ 32) ∧
    (∀ b, ¬ (100 ≤ b < 100 + 13) → m' !! b = buf13 !! b).
Proof. refine (itoa_roundtrip buf13 100 10 (- 2 ^ 31) false _ _ buf13_has); lia. Defined.

(** ** [ceillog2] *)

Lemma ceillog2_loop_run fuel v r sup :
  1 ≤ v < 2 ^ Z.of_nat fuel → 0 ≤ r → r + Z.log2 v + 1 < 256 →
  ceillog2_loop fuel v r sup =
    Done (r + Z.log2 v + (if sup || bool_decide (v ≠ 2 ^ Z.log2 v) then 1 else 0)).
Proof.
  revert v r sup. induction fuel as [|fuel IH]; intros v r sup Hv Hr Hb; [cbn in Hv; lia|].
  cbn [ceillog2_loop]. destruct (decide (1 < v)) as [Hlt|Hge].
  - pose proof (Z.div_mod v 2 ltac:(lia)) as Hdm. pose proof (Z.mod_pos_bound v 2 ltac:(lia)) as Hm.
    assert (Z.log2 v = Z.log2 (v / 2) + 1) as Hlog.
    { pose proof (Z.log2_shiftr v 1 ltac:(lia)) as Hs. pose proof (Z.log2_pos v Hlt).
      rewrite Z.shiftr_div_pow2 in Hs by lia. change (2 ^ 1) with 2 in Hs. lia. }
    rewrite Z.shiftr_div_pow2 by lia. change (2 ^ 1) with 2. unfold w8. rewrite Z.mod_small by (pose proof (Z.log2_nonneg (v / 2)); lia).
    rewrite IH; [| |lia|lia].
    2: { split; [lia_div|]. apply Z.div_lt_upper_bound; [lia|]. rewrite <- Z.pow_succ_r by lia.
         replace (Z.succ (Z.of_nat fuel)) with (Z.of_nat (S fuel)) by lia. lia. }
    f_equal. rewrite Hlog. f_equal; [lia|].
    assert (Z.land v 1 = v mod 2) as -> by (apply (Z.land_ones v 1); lia).
    rewrite Z.pow_add_r by (try apply Z.log2_nonneg; lia). change (2 ^ 1) with 2.
    destruct sup; cbn [orb]; [done|].
    destruct (decide (v mod 2 ≠ 0)) as [Ho|Ho].
    + rewrite (bool_decide_eq_true_2 _ Ho). cbn [orb]. rewrite bool_decide_eq_true_2; [done|].
      intros Heq. apply Ho. rewrite Heq. rewrite Z.mul_comm. lia_div.
    + rewrite (bool_decide_eq_false_2 _ Ho). cbn [orb].
      assert (v mod 2 = 0) as Hz by lia. rewrite Hz in Hdm.
      replace (bool_decide (v / 2 ≠ 2 ^ Z.log2 (v / 2))) with (bool_decide (v ≠ 2 ^ Z.log2 (v / 2) * 2)); [done|].
      apply bool_decide_ext. lia.
  - assert (v = 1) as -> by lia. change (Z.log2 1) with 0 in *. unfold w8.
    replace (bool_decide (1 ≠ 2 ^ 0)) with false by done. rewrite orb_false_r, Z.mod_small by (destruct sup; lia).
    f_equal. lia.
Qed.

Lemma log2_up_pow v : 1 < v → Z.log2_up v = Z.log2 v + (if bool_decide (v ≠ 2 ^ Z.log2 v) then 1 else 0).
Proof.
  intros Hv. pose proof (Z.log2_spec v ltac:(lia)) as [Hl Hu].
  case_bool_decide as Hne.
  - apply Z.log2_up_unique; [pose proof (Z.log2_nonneg v); lia|].
    replace (Z.pred (Z.log2 v + 1)) with (Z.log2 v) by lia. unfold Z.succ in Hu. lia.
  - assert (v = 2 ^ Z.log2 v) as Hp by lia. rewrite Hp at 1. rewrite Z.log2_up_pow2 by apply Z.log2_nonneg. lia.
Qed.

(** [ceillog2] is the rounded-up binary logarithm of every 64-bit number
    above 1: the least exponent whose power of two reaches it. *)
Lemma ceillog2_is_log2_up v :
  1 < v < 2 ^ 64 → ceillog2 v = Done (Z.log2_up v) ∧ 2 ^ (Z.log2_up v - 1) < v ≤ 2 ^ Z.log2_up v.
Proof.
  intros Hv. split; [|apply (Z.log2_up_spec v); lia].
  unfold ceillog2. rewrite decide_False, decide_False by lia.
  assert (Z.log2 v < 64) by (apply Z.log2_lt_pow2; lia).
  rewrite ceillog2_loop_run; [|cbn; lia|lia|lia]. rewrite log2_up_pow by lia. done.
Qed.

Lemma ceillog2_is_log2_up_witness :
  ceillog2 (2 ^ 40 + 2) = Done (Z.log2_up (2 ^ 40 + 2)) ∧
  2 ^ (Z.log2_up (2 ^ 40 + 2) - 1) < 2 ^ 40 + 2 ≤ 2 ^ Z.log2_up (2 ^ 40 + 2).
Proof. refine (ceillog2_is_log2_up (2 ^ 40 + 2) _). lia. Defined.
