(* ===== verification/Tty.v ===== *)
(** * The text terminal (kernel/tty.c, vga.h, pc_font.h; libc/stdio/putchar.c)

    A grid of characters kept in a heap buffer of [TERMINAL_HEIGHT] lines of
    [TERMINAL_WIDTH + 1] bytes, rendered glyph by glyph into the framebuffer.
    The buffer, the framebuffer and the font are bytes of one store; the two
    kernel calls that provide memory ([map_mmio] and [alloc]) are an
    interface, [MemSource].  Calls of [log] are not modelled. *)
From S2P Require Import Prelude.
From S2P Require Import Layout.
From S2P Require Import Libc.

(** What the terminal asks of [map_mmio] and [alloc], over a store of bytes
    and an environment [E]: a null pointer, or fresh bytes. *)
Class MemSource (E : Type) := {
  src_map_mmio : Z → Z → Z → bool → M (mem * E) Z;
  src_alloc : Z → M (mem * E) Z;
}.

(** The new bytes [[p, p+n)] were not there before, and no other byte changed. *)
Definition fresh_bytes (m m' : mem) (p n : Z) : Prop :=
  (∀ i, 0 ≤ i < n → m !! (p + i) = None ∧ is_Some (m' !! (p + i))) ∧
  (∀ a, ¬ (p ≤ a < p + n) → m' !! a = m !! a).

Class MemSourceLaws (E : Type) `{!MemSource E} := {
  src_map_mmio_ok vmm pa n w m e p m' e' : src_map_mmio vmm pa n w (m, e) = Done (p, (m', e')) →
    p ≠ 0 → fresh_bytes m m' p n;
  src_alloc_ok n m e p m' e' : src_alloc n (m, e) = Done (p, (m', e')) → p ≠ 0 → fresh_bytes m m' p n;
}.

(** [struct pc_font], the header of a PSF font. *)
Record pc_font := mk_font {
  magic : Z; version : Z; headersize : Z; fflags : Z; numglyph : Z;
  bytesperglyph : Z; f_height : Z; f_width : Z;
}.

(** The fields of [struct framebuffer] that the terminal uses. *)
Record framebuffer := mk_fb { fb_addr : Z; pitch : Z; fb_width : Z; fb_height : Z; bpp : Z }.

Record tty (E : Type) := mk_tty {
  tm : mem; tenv : E;
  display : framebuffer; font_start : Z;
  TERMINAL_WIDTH : Z; TERMINAL_HEIGHT : Z;
  row : Z; column : Z; fg : Z; bg : Z; tty_buffer : Z;
}.
Arguments mk_tty {E}.
Arguments tm {E}.
Arguments tenv {E}.
Arguments display {E}.
Arguments font_start {E}.
Arguments TERMINAL_WIDTH {E}.
Arguments TERMINAL_HEIGHT {E}.
Arguments row {E}.
Arguments column {E}.
Arguments fg {E}.
Arguments bg {E}.
Arguments tty_buffer {E}.

Definition set_tm {E} (m : mem) (s : tty E) := mk_tty m (tenv s) (display s) (font_start s)
  (TERMINAL_WIDTH s) (TERMINAL_HEIGHT s) (row s) (column s) (fg s) (bg s) (tty_buffer s).
Definition set_row {E} (v : Z) (s : tty E) := mk_tty (tm s) (tenv s) (display s) (font_start s)
  (TERMINAL_WIDTH s) (TERMINAL_HEIGHT s) v (column s) (fg s) (bg s) (tty_buffer s).
Definition set_column {E} (v : Z) (s : tty E) := mk_tty (tm s) (tenv s) (display s) (font_start s)
  (TERMINAL_WIDTH s) (TERMINAL_HEIGHT s) (row s) v (fg s) (bg s) (tty_buffer s).

(** A store of a 32-bit word, little endian. *)
Definition st32 (a v : Z) : MEM unit :=
  stb a (v mod 256);; stb (a + 1) (v / 256 mod 256);;
  stb (a + 2) (v / 65536 mod 256);; stb (a + 3) (v / 16777216 mod 256).

(** [char] is signed. *)
Definition to_char (b : Z) : Z := if decide (b < 128) then b else b - 256.

Section tty.
Context {E : Type} `{!MemSource E}.
(** The font file linked into the kernel: its address and its header. *)
Context (_binary_font_psfu_start : Z) (font : pc_font).
Abbreviation TTY := (M (tty E)).

Definition on_mem {A} : MEM A → TTY A := zoom tm set_tm.
Definition on_sys {A} : M (mem * E) A → TTY A :=
  zoom (λ s, (tm s, tenv s)) (λ '(m, e) s, mk_tty m e (display s) (font_start s)
    (TERMINAL_WIDTH s) (TERMINAL_HEIGHT s) (row s) (column s) (fg s) (bg s) (tty_buffer s)).

Definition terminal_clear : TTY Z :=
  s ← get;
  if decide (fb_addr (display s) = 0) then mret 1 else
  on_mem (memset (tty_buffer s) 0 (TERMINAL_HEIGHT s *64 (TERMINAL_WIDTH s +64 1)));;
  on_mem (memset (fb_addr (display s)) 0 (w32 (pitch (display s) * fb_height (display s))));;
  mret 0.

Definition terminal_initialize (fb : framebuffer) : TTY Z :=
  vaddr ← on_sys (src_map_mmio 0 (fb_addr fb) (w32 (pitch fb * fb_height fb)) true);
  if decide (vaddr = 0) then
    modify (λ s, mk_tty (tm s) (tenv s) fb (font_start s) (TERMINAL_WIDTH s) (TERMINAL_HEIGHT s)
      (row s) (column s) (fg s) (bg s) (tty_buffer s));; mret 1
  else
  let h := fb_height fb / w32 (f_height font + 1) in
  let w := fb_width fb / w32 (f_width font + 1) in
  buf ← on_sys (src_alloc (h *64 (w +64 1)));
  modify (λ s, mk_tty (tm s) (tenv s) (mk_fb vaddr (pitch fb) (fb_width fb) (fb_height fb) (bpp fb))
    (_binary_font_psfu_start + headersize font) w h 0 0 (w16 0xFFFFFF) 0 buf);;
  terminal_clear.

(** [terminal_render_char]: bits of a glyph byte, bytes of a glyph line, lines. *)
Fixpoint render_bits (n : nat) (s : tty E) (x i line glyph off : Z) : MEM unit :=
  match n with
  | O => mret tt
  | S n =>
      if decide (x + i >= f_width font) then mret tt else
      b ← ldb (glyph + off);
      st32 (line + w32 ((x + i) * (bpp (display s) / 8)))
        (if decide (Z.land b (Z.shiftr 0x80 i) ≠ 0) then fg s else bg s);;
      render_bits n s x (i + 1) line glyph off
  end.

Fixpoint render_bytes (fuel : nat) (s : tty E) (x line glyph off : Z) : MEM unit :=
  if decide (x < f_width font) then
    match fuel with
    | O => out_of_fuel
    | S fuel =>
        render_bits 8 s x 0 line glyph off;;
        render_bytes fuel s (x + 8) line glyph (w8 (off + 1))
    end
  else mret tt.

Fixpoint render_lines (n : nat) (s : tty E) (y x_org y_org glyph : Z) : MEM unit :=
  match n with
  | O => mret tt
  | S n =>
      render_bytes (Z.to_nat (f_width font)) s 0 (fb_addr (display s) + y_org + x_org) glyph
        (w8 (ceildiv (f_width font) 8 * y));;
      render_lines n s (y + 1) x_org (y_org + pitch (display s)) glyph
  end.

Definition terminal_render_char (s : tty E) (x_org y_org c : Z) : MEM unit :=
  let font_char := font_start s + w32 (c * bytesperglyph font) in
  render_lines (Z.to_nat (f_height font)) s 0 x_org y_org font_char.

(** The body of the loops of [terminal_render]. *)
Definition render_cell (s : tty E) (x y : Z) : MEM unit :=
  let y0 := y *64 w32 (f_height font + 1) *64 pitch (display s) in
  let x0 := x *64 w32 (f_width font + 1) *64 (bpp (display s) / 8) in
  b ← ldb (tty_buffer s + (x + y * (TERMINAL_WIDTH s + 1)));
  let c := to_char b in
  if decide (0x20 ≤ c ∧ c < 0x7F) then terminal_render_char s x0 y0 c else
  let c := if decide (c = 0 ∨ c = 10) then 32 else c in
  terminal_render_char s x0 y0 c.

Definition terminal_render : TTY unit :=
  s ← get;
  on_mem (for_up (Z.to_nat (TERMINAL_HEIGHT s)) 0 (λ y,
    for_up (Z.to_nat (TERMINAL_WIDTH s)) 0 (λ x, render_cell s x y))).

(** [tty_buffer[c + r * (TERMINAL_WIDTH + 1)]]. *)
Definition cell (s : tty E) (r c : Z) : Z := tty_buffer s + (c + r * (TERMINAL_WIDTH s + 1)).
Definition store_cell (v : Z) : TTY unit :=
  s ← get; on_mem (stb (cell s (row s) (column s)) v).

Definition terminal_move_up : TTY unit :=
  s ← get;
  on_mem (for_up (Z.to_nat (TERMINAL_HEIGHT s - 1)) 1 (λ y,
    memcpy (cell s (y - 1) 0) (cell s y 0) (TERMINAL_WIDTH s + 1);; mret tt));;
  let y := Z.max 1 (TERMINAL_HEIGHT s) in
  on_mem (memset (cell s (y - 1) 0) 0 (TERMINAL_WIDTH s + 1));;
  terminal_render.

Definition terminal_return : TTY unit :=
  store_cell 10;;
  s ← get;
  modify (set_row (row s + 1));;
  (if decide (row s + 1 = TERMINAL_HEIGHT s) then
     terminal_move_up;;
     s ← get; modify (set_row (row s - 1))
   else mret tt);;
  modify (set_column 0).

Definition terminal_putchar (c : Z) : TTY unit :=
  s ← get;
  (if decide (column s = TERMINAL_WIDTH s) then terminal_return else mret tt);;
  store_cell c;;
  s ← get;
  modify (set_column (column s + 1)).

(** The search of [terminal_backspace] for the end of the line above; it ends
    at a newline or leaves memory, so the number of bytes bounds it. *)
Fixpoint backspace_loop (fuel : nat) : TTY unit :=
  s ← get;
  b ← on_mem (ldb (tty_buffer s + (column s + row s * (TERMINAL_WIDTH s - 1))));
  if decide (b = 10) then mret tt else
  match fuel with
  | O => out_of_fuel
  | S fuel => modify (set_column (column s + 1));; backspace_loop fuel
  end.

Definition terminal_backspace : TTY unit :=
  s ← get;
  if decide (column s ≠ 0) then
    modify (set_column (column s - 1));;
    terminal_putchar 0;;
    s ← get; modify (set_column (column s - 1))
  else if decide (row s ≠ 0) then
    modify (set_row (row s - 1));;
    modify (set_column 0);;
    backspace_loop (size (tm s))
  else mret tt.

Definition terminal_write (data : Z) : TTY unit :=
  s ← get;
  if decide (fb_addr (display s) = 0) then mret tt else
  (if decide (0x20 ≤ data ∧ data < 0x7F) then terminal_putchar data else mret tt);;
  (if decide (data = 8) then terminal_backspace;; store_cell 0
   else if decide (data = 9) then mret tt
   else if decide (data = 10) then store_cell data;; terminal_return
   else mret tt);;
  terminal_render.

Fixpoint writestring_loop (fuel : nat) (data i : Z) : TTY unit :=
  b ← on_mem (ldb (data + i));
  if decide (b = 0) then mret tt else
  match fuel with
  | O => out_of_fuel
  | S fuel => terminal_write b;; writestring_loop fuel data (i + 1)
  end.
Definition terminal_writestring (data : Z) : TTY unit :=
  s ← get; writestring_loop (size (tm s)) data 0.

(** libc/stdio/putchar.c, as compiled into the kernel. *)
Definition putchar (c : Z) : TTY Z := terminal_write c;; mret c.

End tty.

(** ** Rendering

    [touches lo n m m']: no byte outside [[lo, lo+n)] changed, none went away. *)
Definition touches (lo n : Z) (m m' : mem) : Prop :=
  (∀ a, ¬ (lo ≤ a < lo + n) → m' !! a = m !! a) ∧ (∀ a, is_Some (m !! a) → is_Some (m' !! a)).

#[export] Instance touches_refl lo n : Reflexive (touches lo n).
Proof. by split. Qed.
#[export] Instance touches_trans lo n : Transitive (touches lo n).
Proof.
  intros m1 m2 m3 [H1 H1'] [H2 H2']. split; [|auto]. intros a Ha. by rewrite H2, H1.
Qed.

Lemma has_touches lo n m m' a k : touches lo n m m' → has m a k → has m' a k.
Proof. intros [_ Ht] Hh. by eapply has_frame. Qed.

(** The bytes of a 32-bit word. *)
Definition word_bytes (v : Z) : list Z := [v mod 256; v / 256 mod 256; v / 65536 mod 256; v / 16777216 mod 256].

(** The character drawn for a cell: blank for an unused one and for the end of
    a line. *)
Definition visible (c : Z) : Z := if decide (c = 0 ∨ c = 10) then 32 else c.

Section tty_render.
Context {E : Type} `{!MemSource E}.
Context (font : pc_font).
Abbreviation fbw := (f_width font).
Abbreviation fbh := (f_height font).

(** The framebuffer is mapped, has 32 bits per pixel and holds the grid; the
    font has the 128 ASCII glyphs, each large enough for its lines. *)
Record screen_ok (s : tty E) : Prop := {
  sc_addr : fb_addr (display s) ≠ 0;
  sc_bpp : bpp (display s) = 32;
  sc_font : 0 < fbw < 2 ^ 31 ∧ 0 < fbh < 2 ^ 31;
  sc_glyph : ceildiv fbw 8 * fbh ≤ 256 ∧ ceildiv fbw 8 * fbh ≤ bytesperglyph font ∧ 128 * bytesperglyph font < 2 ^ 32;
  sc_width : 0 < TERMINAL_WIDTH s ∧ TERMINAL_WIDTH s * (fbw + 1) ≤ fb_width (display s);
  sc_height : 0 < TERMINAL_HEIGHT s ∧ TERMINAL_HEIGHT s * (fbh + 1) ≤ fb_height (display s);
  sc_pitch : fb_width (display s) * 4 ≤ pitch (display s) ∧ pitch (display s) * fb_height (display s) < 2 ^ 32;
}.

Lemma ceildiv_8 w : 0 < w → ceildiv w 8 = (w + 7) / 8.
Proof. intros Hw. unfold ceildiv. rewrite Z.quot_div_nonneg by lia. lia_div. Qed.

Context (s : tty E) (g : Z → Z → Z).
Abbreviation fb := (fb_addr (display s)).
Abbreviation p := (pitch (display s)).
Abbreviation fb_size := (pitch (display s) * fb_height (display s)).
Abbreviation font_size := (128 * bytesperglyph font).

(** Pixel [(px, py)] of the glyph of character [c], in the font in [m]: a bit
    of a byte; its colour; the address of that pixel of cell [(x, y)]. *)
Definition glyph_byte (m : mem) (c px py : Z) : option Z :=
  m !! (font_start s + (c * bytesperglyph font + (ceildiv fbw 8 * py + px / 8))).
Definition colour (b px : Z) : Z := if Z.testbit b (7 - px mod 8) then fg s else bg s.
Definition pixel (x y px py : Z) : Z := fb + (y * (fbh + 1) + py) * p + 4 * (x * (fbw + 1) + px).

(** Every cell of the screen shows the glyph of its character of the grid [g],
    pixel by pixel. *)
Definition drawn (m : mem) : Prop :=
  ∀ x y px py, 0 ≤ x < TERMINAL_WIDTH s → 0 ≤ y < TERMINAL_HEIGHT s → 0 ≤ px < fbw → 0 ≤ py < fbh →
  ∃ b, glyph_byte m (visible (g y x)) px py = Some b ∧ at_ m (pixel x y px py) (word_bytes (colour b px)).

(** The memory before; the byte the picture of [g] has at an address of the
    framebuffer. *)
Context (base : mem).
Definition spot_colour (x y px py : Z) : Z := colour (default 0 (glyph_byte base (visible (g y x)) px py)) px.
Definition pic (a : Z) : Z :=
  let o := a - fb in let X := o mod p / 4 in let Y := o / p in
  nth (Z.to_nat (o mod p mod 4))
    (word_bytes (spot_colour (X / (fbw + 1)) (Y / (fbh + 1)) (X mod (fbw + 1)) (Y mod (fbh + 1)))) 0.

Hypothesis Hsc : screen_ok s.
Hypothesis Hfont : ∀ i, 0 ≤ i < font_size → ¬ (fb ≤ font_start s + i < fb + fb_size).
Hypothesis Hbuf : ∀ x y, 0 ≤ x < TERMINAL_WIDTH s → 0 ≤ y < TERMINAL_HEIGHT s →
  ¬ (fb ≤ tty_buffer s + (x + y * (TERMINAL_WIDTH s + 1)) < fb + fb_size).
Hypothesis Hascii : ∀ x y, 0 ≤ x < TERMINAL_WIDTH s → 0 ≤ y < TERMINAL_HEIGHT s → 0 ≤ g y x < 128.

Lemma pixel_range x y px py :
  0 ≤ x < TERMINAL_WIDTH s → 0 ≤ y < TERMINAL_HEIGHT s → 0 ≤ px < fbw → 0 ≤ py < fbh →
  0 ≤ x * (fbw + 1) + px < fb_width (display s) ∧ 0 ≤ y * (fbh + 1) + py < fb_height (display s).
Proof. intros Hx Hy Hpx Hpy. destruct Hsc. nia. Qed.

Lemma pixel_in_fb x y px py :
  0 ≤ x < TERMINAL_WIDTH s → 0 ≤ y < TERMINAL_HEIGHT s → 0 ≤ px < fbw → 0 ≤ py < fbh →
  fb ≤ pixel x y px py ∧ pixel x y px py + 4 ≤ fb + fb_size.
Proof.
  intros Hx Hy Hpx Hpy. destruct (pixel_range x y px py Hx Hy Hpx Hpy) as [HX HY]. unfold pixel.
  set (X := x * (fbw + 1) + px) in *. set (Y := y * (fbh + 1) + py) in *. destruct Hsc. nia.
Qed.

Lemma pic_pixel x y px py j :
  0 ≤ x < TERMINAL_WIDTH s → 0 ≤ y < TERMINAL_HEIGHT s → 0 ≤ px < fbw → 0 ≤ py < fbh → 0 ≤ j < 4 →
  pic (pixel x y px py + j) = nth (Z.to_nat j) (word_bytes (spot_colour x y px py)) 0.
Proof.
  intros Hx Hy Hpx Hpy Hj. destruct (pixel_range x y px py Hx Hy Hpx Hpy) as [HX HY]. unfold pic, pixel.
  assert (fb_width (display s) * 4 ≤ p) as Hp by apply Hsc.
  replace (fb + (y * (fbh + 1) + py) * p + 4 * (x * (fbw + 1) + px) + j - fb)
    with ((y * (fbh + 1) + py) * p + (4 * (x * (fbw + 1) + px) + j)) by lia.
  set (X := x * (fbw + 1) + px) in *. set (Y := y * (fbh + 1) + py) in *.
  assert ((Y * p + (4 * X + j)) mod p = 4 * X + j) as -> by (rewrite Z.add_comm, Z.mod_add by lia; apply Z.mod_small; lia).
  assert ((Y * p + (4 * X + j)) / p = Y) as -> by (rewrite Z.div_add_l by lia; rewrite Z.div_small by lia; lia).
  assert ((4 * X + j) / 4 = X) as -> by lia_div. assert ((4 * X + j) mod 4 = j) as -> by lia_div.
  assert (X / (fbw + 1) = x) as -> by (unfold X; rewrite Z.div_add_l by lia; rewrite Z.div_small by lia; lia).
  assert (Y / (fbh + 1) = y) as -> by (unfold Y; rewrite Z.div_add_l by lia; rewrite Z.div_small by lia; lia).
  assert (X mod (fbw + 1) = px) as -> by (unfold X; rewrite Z.add_comm, Z.mod_add by lia; apply Z.mod_small; lia).
  assert (Y mod (fbh + 1) = py) as -> by (unfold Y; rewrite Z.add_comm, Z.mod_add by lia; apply Z.mod_small; lia).
  done.
Qed.

(** Memory with the framebuffer, the font and the grid. *)
Record canvas (m : mem) : Prop := {
  cv_fb : has m fb fb_size;
  cv_font i : 0 ≤ i < font_size → m !! (font_start s + i) = base !! (font_start s + i) ∧ is_Some (base !! (font_start s + i));
  cv_grid x y : 0 ≤ x < TERMINAL_WIDTH s → 0 ≤ y < TERMINAL_HEIGHT s →
    m !! (tty_buffer s + (x + y * (TERMINAL_WIDTH s + 1))) = Some (g y x);
}.

(** From [m] to [m'] some bytes of the framebuffer have become those of the
    picture. *)
Definition coloured (m m' : mem) : Prop :=
  ∀ a, m' !! a = m !! a ∨ (fb ≤ a < fb + fb_size ∧ m' !! a = Some (pic a)).

(** Code that, on a canvas, ends, draws the picture at the addresses [S] and
    perhaps elsewhere, and changes nothing else. *)
Definition paints (S : Z → Prop) (f : MEM unit) : Prop :=
  ∀ m, canvas m → ∃ m', f m = Done (tt, m') ∧ (∀ a, S a → m' !! a = Some (pic a)) ∧ coloured m m'.

Ltac as_paints m Hm :=
  lazymatch goal with |- ∃ m', ?f m = _ ∧ (∀ a, @?S a → _) ∧ _ => apply (λ Hp : paints S f, Hp m Hm) end.

Lemma coloured_touches m m' : coloured m m' → touches fb fb_size m m'.
Proof.
  intros Hc. split.
  - intros a Ha. by destruct (Hc a) as [?|[? _]].
  - intros a Ha. destruct (Hc a) as [->|[_ ->]]; eauto.
Qed.

Lemma coloured_canvas m m' : canvas m → coloured m m' → canvas m'.
Proof.
  intros [Hf Ho Hg] Hc. pose proof (coloured_touches _ _ Hc) as Ht. split.
  - by eapply has_touches.
  - intros i Hi. destruct Ht as [Ht _]. rewrite Ht by by apply Hfont. by apply Ho.
  - intros x y Hx Hy. destruct Ht as [Ht _]. rewrite Ht by by apply Hbuf. by apply Hg.
Qed.

Lemma paints_ret : paints (λ _, False) (mret tt).
Proof. intros m _. exists m. split_and!; [done..|]. intros a. by left. Qed.

Lemma paints_mono (S S' : Z → Prop) f : paints S f → (∀ a, S' a → S a) → paints S' f.
Proof. intros Hp Hs m Hm. destruct (Hp m Hm) as (m' & Ef & Ha & Hc). exists m'. split_and!; auto. Qed.

Lemma paints_seq (S1 S2 : Z → Prop) f f' : paints S1 f → paints S2 f' → paints (λ a, S1 a ∨ S2 a) (f;; f').
Proof.
  intros H1 H2 m Hm. destruct (H1 m Hm) as (m1 & E1 & A1 & C1).
  destruct (H2 m1 (coloured_canvas _ _ Hm C1)) as (m2 & E2 & A2 & C2).
  exists m2. rewrite (bind_done _ _ _ _ _ E1). split_and!; [done| |].
  - intros a [Ha|Ha]; [|by apply A2]. destruct (C2 a) as [->|[_ ->]]; [by apply A1|done].
  - intros a. destruct (C2 a) as [->|?]; [apply C1|by right].
Qed.

Lemma paints_for (S : Z → Z → Prop) k i body :
  (∀ j, i ≤ j < i + Z.of_nat k → paints (S j) (body j)) → paints (λ a, ∃ j, i ≤ j < i + Z.of_nat k ∧ S j a) (for_up k i body).
Proof.
  revert i. induction k as [|k IH]; intros i Hb; cbn [for_up].
  { eapply paints_mono; [apply paints_ret|]. intros a (j & ? & _). lia. }
  eapply paints_mono; [apply paints_seq; [apply Hb; lia|apply IH; intros j Hj; apply Hb; lia]|].
  intros a (j & Hj & Ha). destruct (decide (j = i)) as [->|]; [by left|]. right. exists j. split; [lia|done].
Qed.

(** One byte, and one pixel. *)
Lemma paints_stb a v : fb ≤ a < fb + fb_size → v = pic a → paints (λ b, b = a) (stb a v).
Proof.
  intros Ha -> m Hm. exists (<[a := pic a]> m). split_and!.
  - apply stb_run. replace a with (fb + (a - fb)) by lia. apply (cv_fb _ Hm). lia.
  - intros ? ->. apply lookup_insert_eq.
  - intros b. destruct (decide (a = b)) as [<-|]; [right; by rewrite lookup_insert_eq|left; by rewrite lookup_insert_ne].
Qed.

Abbreviation spot x y px py := (λ a, pixel x y px py ≤ a < pixel x y px py + 4).

Lemma paints_spot x y px py :
  0 ≤ x < TERMINAL_WIDTH s → 0 ≤ y < TERMINAL_HEIGHT s → 0 ≤ px < fbw → 0 ≤ py < fbh →
  paints (spot x y px py) (st32 (pixel x y px py) (spot_colour x y px py)).
Proof.
  intros Hx Hy Hpx Hpy. pose proof (pixel_in_fb x y px py Hx Hy Hpx Hpy) as Hin.
  pose proof (λ j Hj, pic_pixel x y px py j Hx Hy Hpx Hpy Hj) as Hpic. unfold st32.
  eapply paints_mono.
  { repeat apply paints_seq; apply paints_stb; try lia.
    - rewrite <- (Z.add_0_r (pixel x y px py)). by rewrite Hpic.
    - by rewrite Hpic.
    - by rewrite Hpic.
    - by rewrite Hpic. }
  intros a Ha. cbn. lia.
Qed.

Lemma land_mask b i : 0 ≤ i < 8 → Z.land b (Z.shiftr 0x80 i) ≠ 0 ↔ Z.testbit b (7 - i) = true.
Proof.
  intros Hi. assert (Z.shiftr 0x80 i = 2 ^ (7 - i)) as ->.
  { rewrite Z.shiftr_div_pow2 by lia. change 0x80 with (2 ^ 7). rewrite <- Z.pow_sub_r by lia. done. }
  assert (Z.land b (2 ^ (7 - i)) = if Z.testbit b (7 - i) then 2 ^ (7 - i) else 0) as ->.
  { apply Z.bits_inj'. intros n Hn. rewrite Z.land_spec, Z.pow2_bits_eqb by lia.
    destruct (decide (7 - i = n)) as [<-|Hne].
    - rewrite Z.eqb_refl, andb_true_r. destruct (Z.testbit b (7 - i)); [by rewrite Z.pow2_bits_true by lia|by rewrite Z.bits_0].
    - assert ((7 - i =? n) = false) as -> by (apply Z.eqb_neq; lia). rewrite andb_false_r.
      destruct (Z.testbit b (7 - i)); [by rewrite Z.pow2_bits_false by lia|by rewrite Z.bits_0]. }
  destruct (Z.testbit b (7 - i)); [|done]. split; [done|]. intros _. apply Z.pow_nonzero; lia.
Qed.

Section glyph.
Context (x y : Z) (Hx : 0 ≤ x < TERMINAL_WIDTH s) (Hy : 0 ≤ y < TERMINAL_HEIGHT s).
Abbreviation ch := (visible (g y x)).
Abbreviation glyph := (font_start s + ch * bytesperglyph font).

Lemma char_range : 0 ≤ ch < 128.
Proof using Hx Hy Hascii. pose proof (Hascii x y Hx Hy). unfold visible. case_decide; lia. Qed.

Lemma glyph_in_font px py : 0 ≤ px < fbw → 0 ≤ py < fbh →
  0 ≤ ch * bytesperglyph font + (ceildiv fbw 8 * py + px / 8) < font_size.
Proof using Hx Hy Hascii Hsc.
  intros Hpx Hpy. pose proof char_range as Hc. destruct Hsc as [_ _ [Hw Hh] (_ & G & _) _ _ _]. rewrite ceildiv_8 in * by lia.
  assert (0 ≤ px / 8 < (fbw + 7) / 8) as Hq by lia_div. set (cd := (fbw + 7) / 8) in *. set (q := px / 8) in *.
  assert (0 ≤ cd * py ∧ cd * py + cd ≤ cd * fbh) by nia. assert (0 ≤ ch * bytesperglyph font ∧ ch * bytesperglyph font + bytesperglyph font ≤ font_size) by nia. lia.
Qed.

Lemma render_bits_paints n k i py :
  0 ≤ k → 0 ≤ i → i + Z.of_nat n ≤ 8 → 0 ≤ py < fbh → 8 * k < fbw →
  paints (λ a, ∃ px, 8 * k + i ≤ px < 8 * k + i + Z.of_nat n ∧ px < fbw ∧ spot x y px py a)
    (render_bits font n s (8 * k) i (fb + (y * (fbh + 1) + py) * p + 4 * (x * (fbw + 1))) glyph (ceildiv fbw 8 * py + k)).
Proof using Hx Hy Hascii Hsc Hfont Hbuf.
  intros Hk. revert i. induction n as [|n IH]; intros i Hi Hn Hpy Hkw; cbn [render_bits].
  { eapply paints_mono; [apply paints_ret|]. intros a (px & ? & _). lia. }
  case_decide as Hge. { eapply paints_mono; [apply paints_ret|]. intros a (px & ? & ? & _). lia. }
  assert (Hpx : 0 ≤ 8 * k + i < fbw) by lia. pose proof (glyph_in_font (8 * k + i) py Hpx Hpy) as Hgf.
  assert ((8 * k + i) / 8 = k ∧ (8 * k + i) mod 8 = i) as [Hdiv Hmod] by lia_div. rewrite Hdiv in Hgf.
  intros m Hm. destruct (cv_font _ Hm _ Hgf) as [Eb [b Hb]]. rewrite Hb in Eb.
  replace (font_start s + (ch * bytesperglyph font + (ceildiv fbw 8 * py + k))) with (glyph + (ceildiv fbw 8 * py + k)) in Eb by lia.
  rewrite (bind_done _ _ _ _ _ (ldb_run _ _ _ Eb)). rewrite (sc_bpp _ Hsc). change (32 / 8) with 4.
  assert (w32 ((8 * k + i) * 4) = (8 * k + i) * 4) as ->.
  { apply w32_small. destruct (pixel_range x y (8 * k + i) py Hx Hy Hpx Hpy). destruct Hsc. nia. }
  replace (fb + (y * (fbh + 1) + py) * p + 4 * (x * (fbw + 1)) + (8 * k + i) * 4) with (pixel x y (8 * k + i) py) by (unfold pixel; lia).
  assert ((if decide (Z.land b (Z.shiftr 0x80 i) ≠ 0) then fg s else bg s) = spot_colour x y (8 * k + i) py) as ->.
  { unfold spot_colour, glyph_byte, colour. rewrite Hdiv, Hb, Hmod. change (default 0 (Some b)) with b.
    destruct (decide (Z.land b (Z.shiftr 128 i) ≠ 0)) as [Hl|Hl]; rewrite land_mask in Hl by lia; [by rewrite Hl|].
    by apply not_true_is_false in Hl as ->. }
  as_paints m Hm.
  eapply paints_mono; [apply paints_seq; [apply paints_spot; done|apply (IH (i + 1)); lia]|].
  intros a (px & Hp1 & Hp2 & Ha). destruct (decide (px = 8 * k + i)) as [->|]; [by left|]. right. exists px. split_and!; (done || lia).
Qed.

Lemma render_bytes_paints fuel k py :
  0 ≤ k → fbw - 8 * k ≤ Z.of_nat fuel → 0 ≤ py < fbh →
  paints (λ a, ∃ px, 8 * k ≤ px < fbw ∧ spot x y px py a)
    (render_bytes font fuel s (8 * k) (fb + (y * (fbh + 1) + py) * p + 4 * (x * (fbw + 1))) glyph (w8 (ceildiv fbw 8 * py + k))).
Proof using Hx Hy Hascii Hsc Hfont Hbuf.
  revert k. induction fuel as [|fuel IH]; intros k Hk Hf Hpy; cbn [render_bytes].
  { rewrite decide_False by lia. eapply paints_mono; [apply paints_ret|]. intros a (px & ? & _). lia. }
  case_decide as Hlt; [|eapply paints_mono; [apply paints_ret|]; intros a (px & ? & _); lia].
  assert (0 ≤ ceildiv fbw 8 * py + k < 256) as Ho.
  { destruct Hsc. rewrite ceildiv_8 in * by lia. assert (k < (fbw + 7) / 8) by lia_div. nia. }
  rewrite (w8_small (_ + k)) by lia.
  eapply paints_mono; [apply paints_seq; [apply render_bits_paints; lia|]|].
  - replace (8 * k + 8) with (8 * (k + 1)) by lia. replace (ceildiv fbw 8 * py + k + 1) with (ceildiv fbw 8 * py + (k + 1)) by lia. apply IH; lia.
  - intros a (px & Hp & Ha). destruct (decide (px < 8 * k + 8)); [left|right]; exists px; split_and!; (done || lia).
Qed.

Lemma render_lines_paints n py :
  0 ≤ py → py + Z.of_nat n ≤ fbh →
  paints (λ a, ∃ px py', 0 ≤ px < fbw ∧ py ≤ py' < py + Z.of_nat n ∧ spot x y px py' a)
    (render_lines font n s py (4 * (x * (fbw + 1))) ((y * (fbh + 1) + py) * p) glyph).
Proof using Hx Hy Hascii Hsc Hfont Hbuf.
  revert py. induction n as [|n IH]; intros py Hpy Hn; cbn [render_lines].
  { eapply paints_mono; [apply paints_ret|]. intros a (px & py' & _ & ? & _). lia. }
  eapply paints_mono; [apply paints_seq|].
  - rewrite <- (Z.add_0_r (ceildiv fbw 8 * py)). apply (render_bytes_paints _ 0 py); [lia| |lia]. destruct Hsc. lia.
  - replace ((y * (fbh + 1) + py) * p + p) with ((y * (fbh + 1) + (py + 1)) * p) by lia. apply IH; lia.
  - intros a (px & py' & Hp & Hq & Ha). destruct (decide (py' = py)) as [->|].
    + left. exists px. split; [lia|done].
    + right. exists px, py'. split_and!; (done || lia).
Qed.

Lemma render_cell_paints : paints (λ a, ∃ px py, 0 ≤ px < fbw ∧ 0 ≤ py < fbh ∧ spot x y px py a) (render_cell font s x y).
Proof using Hx Hy Hascii Hsc Hfont Hbuf.
  intros m Hm. unfold render_cell. erewrite bind_done by (apply ldb_run, (cv_grid _ Hm x y Hx Hy)).
  pose proof (Hascii x y Hx Hy) as Hc. pose proof char_range as Hch.
  assert (to_char (g y x) = g y x) as -> by (unfold to_char; by rewrite decide_True by lia).
  destruct (pixel_range x y 0 0 Hx Hy) as [HX HY]; [destruct Hsc; lia..|].
  assert (0 ≤ ch * bytesperglyph font < 2 ^ 32) as Hgl.
  { pose proof (glyph_in_font 0 0) as Hg. rewrite Z.mul_0_r, Z.div_0_l, !Z.add_0_r in Hg by lia. destruct Hsc. lia. }
  assert (terminal_render_char font s (x *64 w32 (fbw + 1) *64 (bpp (display s) / 8)) (y *64 w32 (fbh + 1) *64 p) ch
    = render_lines font (Z.to_nat fbh) s 0 (4 * (x * (fbw + 1))) ((y * (fbh + 1) + 0) * p) glyph) as Er.
  { unfold terminal_render_char. rewrite (sc_bpp _ Hsc), (w32_small (ch * _)) by lia. change (32 / 8) with 4. cbv beta.
    destruct Hsc as [_ _ [] _ [] [] [Hp1 Hp2]]. rewrite Z.add_0_r in HX, HY. set (X := x * (fbw + 1)) in *. set (Y := y * (fbh + 1)) in *.
    assert (p ≤ fb_size) by nia. assert (fb_height (display s) ≤ fb_size) by nia. assert (0 ≤ Y * p ≤ fb_size) by nia.
    rewrite (w32_small (fbw + 1)), (w32_small (fbh + 1)) by lia. fold X Y. rewrite !w64_small by (rewrite ?w64_small; lia). f_equal; lia. }
  assert ((if decide (0x20 ≤ g y x ∧ g y x < 0x7F)
    then terminal_render_char font s (x *64 w32 (fbw + 1) *64 (bpp (display s) / 8)) (y *64 w32 (fbh + 1) *64 p) (g y x)
    else terminal_render_char font s (x *64 w32 (fbw + 1) *64 (bpp (display s) / 8)) (y *64 w32 (fbh + 1) *64 p)
      (if decide (g y x = 0 ∨ g y x = 10) then 32 else g y x))
    = render_lines font (Z.to_nat fbh) s 0 (4 * (x * (fbw + 1))) ((y * (fbh + 1) + 0) * p) glyph) as ->.
  { case_decide; [|exact Er]. rewrite <- Er. unfold visible. by rewrite decide_False by lia. }
  as_paints m Hm. eapply paints_mono; [apply (render_lines_paints (Z.to_nat fbh) 0); destruct Hsc; lia|].
  intros a (px & py & Hpx & Hpy & Ha). exists px, py. split_and!; (done || lia).
Qed.
End glyph.

(** The picture stays when neither framebuffer nor font change. *)
Lemma drawn_keeps m m' :
  drawn m → (∀ a, fb ≤ a < fb + fb_size → m' !! a = m !! a) →
  (∀ i, 0 ≤ i < font_size → m' !! (font_start s + i) = m !! (font_start s + i)) → drawn m'.
Proof using Hascii Hsc.
  intros Hd Hf Ho x y px py Hx Hy Hpx Hpy. destruct (Hd x y px py Hx Hy Hpx Hpy) as (b & Hb & Ha).
  exists b. split.
  - unfold glyph_byte in *. rewrite Ho; [done|]. by apply (glyph_in_font x y).
  - pose proof (pixel_in_fb x y px py Hx Hy Hpx Hpy) as Hin. intros i v Hi. rewrite Hf; [by apply Ha|].
    apply lookup_lt_Some in Hi. cbn in Hi. lia.
Qed.

(** [terminal_render] draws the picture of the grid. *)
Lemma render_draws m :
  canvas m → ∃ m', for_up (Z.to_nat (TERMINAL_HEIGHT s)) 0 (λ y, for_up (Z.to_nat (TERMINAL_WIDTH s)) 0 (λ x, render_cell font s x y)) m = Done (tt, m') ∧
    drawn m' ∧ touches fb fb_size m m'.
Proof using Hascii Hsc Hfont Hbuf.
  intros Hm. destruct (paints_for (λ y a, ∃ x, 0 ≤ x < 0 + Z.of_nat (Z.to_nat (TERMINAL_WIDTH s)) ∧ ∃ px py, 0 ≤ px < fbw ∧ 0 ≤ py < fbh ∧ spot x y px py a)
    (Z.to_nat (TERMINAL_HEIGHT s)) 0 (λ y, for_up (Z.to_nat (TERMINAL_WIDTH s)) 0 (λ x, render_cell font s x y))) with m
    as (m' & E1 & Ha & Hc); [|done|].
  { intros y Hy. apply (paints_for (λ x a, ∃ px py, 0 ≤ px < fbw ∧ 0 ≤ py < fbh ∧ spot x y px py a)). intros x Hx. apply render_cell_paints; lia. }
  exists m'. split_and!; [done| |by apply coloured_touches].
  intros x y px py Hx Hy Hpx Hpy. pose proof (coloured_canvas _ _ Hm Hc) as Hm'.
  destruct (cv_font _ Hm' _ (glyph_in_font x y Hx Hy px py Hpx Hpy)) as [Eb [b Hb]].
  exists b. split; [unfold glyph_byte; by rewrite Eb|]. intros i v Hi.
  assert (0 ≤ Z.of_nat i < 4) as Hr by (apply lookup_lt_Some in Hi; cbn in Hi; lia).
  rewrite Ha; [|exists y; split; [lia|]; exists x; split; [lia|]; exists px, py; split_and!; (done || lia)].
  rewrite pic_pixel, Nat2Z.id by (done || lia). unfold spot_colour, glyph_byte. rewrite Hb. change (default 0 (Some b)) with b.
  by rewrite (nth_lookup_Some _ _ _ v Hi).
Qed.
End tty_render.

(** ** Block operations, once more as region writes *)

Lemma touches_mono lo n lo' n' m m' :
  touches lo n m m' → lo' ≤ lo → lo + n ≤ lo' + n' → touches lo' n' m m'.
Proof. intros [Hf Hd] Hl Hu. split; [|done]. intros a Ha. apply Hf. lia. Qed.

Lemma memcpy_run m dst src n :
  0 ≤ n → has m dst n → has m src n → dst + n ≤ src ∨ src + n ≤ dst →
  ∃ m', memcpy dst src n m = Done (dst, m') ∧
    (∀ j, 0 ≤ j < n → m' !! (dst + j) = m !! (src + j)) ∧ touches dst n m m'.
Proof.
  intros Hn Hd Hs Hdis.
  destruct (copy_up_run (Z.to_nat n) m m dst src 0) as (m' & E & Hc & Hf);
    rewrite ?Z.add_0_l, ?Z2Nat.id in * by done; [done|right; lia|done|done|done|].
  exists m'. unfold memcpy. rewrite (bind_done _ _ _ _ _ E). split_and!; [done|done|].
  split; [intros a Ha; apply Hf; lia|].
  intros a Ha. destruct (decide (dst ≤ a < dst + n)); [|rewrite Hf by lia; done].
  replace a with (dst + (a - dst)) by lia. rewrite Hc by lia. apply Hs. lia.
Qed.

Lemma fill_run k m a i v :
  has m a (i + Z.of_nat k) → 0 ≤ i →
  ∃ m', for_up k i (λ i, stb (a + i) v) m = Done (tt, m') ∧
    (∀ j, i ≤ j < i + Z.of_nat k → m' !! (a + j) = Some v) ∧
    (∀ b, (∀ j, i ≤ j < i + Z.of_nat k → b ≠ a + j) → m' !! b = m !! b).
Proof.
  revert m i. induction k as [|k IH]; intros m i Hh Hi; [exists m; split_and!; [done|lia|done]|].
  destruct (IH (<[a + i := v]> m) (i + 1)) as (m' & E & Hc & Hf).
  { apply has_insert. eapply has_mono; [exact Hh|lia|lia]. }
  { lia. }
  exists m'. cbn [for_up]. erewrite bind_done by (apply stb_run, Hh; lia). split_and!; [done| |].
  - intros j Hj. destruct (decide (j = i)) as [->|]; [|apply Hc; lia].
    rewrite Hf by (intros; lia). by rewrite lookup_insert_eq.
  - intros b Hb. rewrite Hf by (intros; apply Hb; lia). apply lookup_insert_ne. intros <-. by apply (Hb i); [lia|].
Qed.

Lemma memset_run m a c n :
  0 ≤ n → has m a n →
  ∃ m', memset a c n m = Done (a, m') ∧
    (∀ j, 0 ≤ j < n → m' !! (a + j) = Some (w8 c)) ∧ touches a n m m'.
Proof.
  intros Hn Hh. destruct (fill_run (Z.to_nat n) m a 0 (w8 c)) as (m' & E & Hc & Hf);
    rewrite ?Z.add_0_l, ?Z2Nat.id in * by done; [done|done|].
  exists m'. unfold memset. rewrite (bind_done _ _ _ _ _ E). split_and!; [done|done|].
  split; [intros b Hb; apply Hf; lia|].
  intros b Hb. destruct (decide (a ≤ b < a + n)); [|rewrite Hf by lia; done].
  replace b with (a + (b - a)) by lia. rewrite Hc by lia. eauto.
Qed.

(** ** The abstract terminal: a grid of characters and a cursor *)

Record text := mk_text { glyph_at : Z → Z → Z; t_row : Z; t_col : Z }.

(** The screen shows the text. *)
Definition displays {E} (font : pc_font) (s : tty E) (t : text) : Prop := drawn font s (glyph_at t) (tm s).

Definition put_at (g : Z → Z → Z) (r c x : Z) : Z → Z → Z :=
  λ r' c', if decide (r' = r ∧ c' = c) then x else g r' c'.
(** All lines one up, the last one blank. *)
Definition scrolled (H : Z) (g : Z → Z → Z) : Z → Z → Z :=
  λ r c, if decide (r < H - 1) then g (r + 1) c else 0.

Definition text_newline (H : Z) (t : text) : text :=
  let g := put_at (glyph_at t) (t_row t) (t_col t) 10 in
  if decide (t_row t + 1 = H) then mk_text (scrolled H g) (t_row t) 0 else mk_text g (t_row t + 1) 0.

(** A character beyond the last column starts a new line. *)
Definition text_put (W H x : Z) (t : text) : text :=
  let t := if decide (t_col t = W) then text_newline H t else t in
  mk_text (put_at (glyph_at t) (t_row t) (t_col t) x) (t_row t) (t_col t + 1).

Definition text_erase (t : text) : text :=
  let c := Z.max 0 (t_col t - 1) in mk_text (put_at (glyph_at t) (t_row t) c 0) (t_row t) c.

Definition text_write (W H : Z) (t : text) (x : Z) : text :=
  if decide (0x20 ≤ x < 0x7F) then text_put W H x t
  else if decide (x = 8) then text_erase t
  else if decide (x = 10) then text_newline H t else t.

Section tty_text.
Context {E : Type} `{!MemSource E}.
Context (font : pc_font) (W H : Z).
(** The display, the addresses of the character buffer and of the font, and
    the memory before the terminal wrote to them. *)
Context (D : framebuffer) (B F : Z) (base : mem).
Implicit Types (s : tty E) (t : text) (g : Z → Z → Z).
Abbreviation fb_size s := (pitch (display s) * fb_height (display s)).

(** Memory that is neither framebuffer nor character buffer. *)
Definition outside (a : Z) : Prop :=
  ¬ (fb_addr D ≤ a < fb_addr D + pitch D * fb_height D) ∧ ¬ (B ≤ a < B + H * (W + 1)).

(** A usable terminal of [H] lines of [W] columns whose buffer lies outside
    the framebuffer, and which wrote nothing else. *)
Record tty_ok s : Prop := {
  ok_screen : screen_ok font s;
  ok_width : TERMINAL_WIDTH s = W;
  ok_height : TERMINAL_HEIGHT s = H;
  ok_fb : has (tm s) (fb_addr (display s)) (fb_size s);
  ok_font : has (tm s) (font_start s) (128 * bytesperglyph font);
  ok_apart : fb_addr (display s) + fb_size s ≤ tty_buffer s ∨ tty_buffer s + H * (W + 1) ≤ fb_addr (display s);
  ok_font_apart i : 0 ≤ i < 128 * bytesperglyph font → ¬ (fb_addr (display s) ≤ font_start s + i < fb_addr (display s) + fb_size s);
  ok_display : display s = D;
  ok_buffer : tty_buffer s = B;
  ok_font_start : font_start s = F;
  ok_rest a : outside a → tm s !! a = base !! a;
}.

(** The bytes at [cell s r c] are the grid [g], all of them ASCII. *)
Definition cells (m : mem) s g : Prop :=
  ∀ r c, 0 ≤ r < H → 0 ≤ c ≤ W → m !! cell s r c = Some (g r c) ∧ 0 ≤ g r c < 128.

(** The terminal [s] displays the text [t]. *)
Definition shows s t : Prop :=
  tty_ok s ∧ cells (tm s) s (glyph_at t) ∧ row s = t_row t ∧ column s = t_col t ∧
  0 ≤ t_row t ≤ H ∧ 0 ≤ t_col t ≤ W.

Lemma shows_dims s t : shows s t → 0 < W ∧ 0 < H.
Proof. intros [[[] <- <- _ _ _ _ _ _ _ _] _]. lia. Qed.

Lemma cell_range s r c : 0 ≤ r < H → 0 ≤ c ≤ W → TERMINAL_WIDTH s = W →
  tty_buffer s ≤ cell s r c < tty_buffer s + H * (W + 1).
Proof. intros Hr Hc <-. unfold cell. nia. Qed.

Lemma cell_inj s r c r' c' : TERMINAL_WIDTH s = W → 0 ≤ c ≤ W → 0 ≤ c' ≤ W →
  cell s r c = cell s r' c' → r = r' ∧ c = c'.
Proof. unfold cell. intros -> Hc Hc' Heq. assert (r = r') as -> by nia. lia. Qed.

Lemma tty_ok_tm s m' :
  tty_ok s → (∀ a, is_Some (tm s !! a) → is_Some (m' !! a)) → (∀ a, outside a → m' !! a = tm s !! a) →
  tty_ok (set_tm m' s).
Proof.
  intros [[] ?? Hf Hg ? ? ??? Hr] Hd Ho. split; [by split|done|done|by eapply has_frame|by eapply has_frame|done|done|done|done|done|].
  intros a Ha. cbn. by rewrite Ho, Hr.
Qed.

(** [f] runs to the end from [s] and leaves the text [t']. *)
Definition goes (f : M (tty E) unit) s t' : Prop := ∃ s', f s = Done (tt, s') ∧ shows s' t'.

Lemma goes_seq f f' s t1 t2 :
  goes f s t1 → (∀ s1, shows s1 t1 → goes f' s1 t2) → goes (f;; f') s t2.
Proof.
  intros (s1 & E1 & H1) Hg. destruct (Hg s1 H1) as (s2 & E2 & H2).
  exists s2. by rewrite (bind_done _ _ _ _ _ E1).
Qed.

Lemma goes_get (k : tty E → M (tty E) unit) s t : goes (k s) s t → goes (get ≫= k) s t.
Proof. done. Qed.

Lemma goes_ret s t : shows s t → goes (mret tt) s t.
Proof. by exists s. Qed.

Lemma tty_ok_row s v : tty_ok s → tty_ok (set_row v s).
Proof. intros [[] ??????????]. by split; [split|..]. Qed.
Lemma tty_ok_col s v : tty_ok s → tty_ok (set_column v s).
Proof. intros [[] ??????????]. by split; [split|..]. Qed.

Lemma goes_row s t v : shows s t → 0 ≤ v ≤ H → goes (modify (set_row v)) s (mk_text (glyph_at t) v (t_col t)).
Proof. intros (Hok & ?) Hv. eexists. split; [done|]. split; [by apply tty_ok_row|]. naive_solver. Qed.

Lemma goes_col s t v : shows s t → 0 ≤ v ≤ W → goes (modify (set_column v)) s (mk_text (glyph_at t) (t_row t) v).
Proof. intros (Hok & ?) Hv. eexists. split; [done|]. split; [by apply tty_ok_col|]. naive_solver. Qed.

Lemma zoom_mem_run {A} (f : MEM A) s a m' : f (tm s) = Done (a, m') → on_mem f s = Done (a, set_tm m' s).
Proof. intros Hf. unfold on_mem, zoom. by rewrite Hf. Qed.

(** A change of memory that keeps the grid or replaces it. *)
Lemma shows_tm s t m' g' :
  shows s t → (∀ a, is_Some (tm s !! a) → is_Some (m' !! a)) → (∀ a, outside a → m' !! a = tm s !! a) → cells m' s g' →
  shows (set_tm m' s) (mk_text g' (t_row t) (t_col t)).
Proof. intros (Hok & Hc & ? & ? & ? & ?) Hd Ho Hc'. split; [by apply tty_ok_tm|]. split; [exact Hc'|auto]. Qed.

Lemma store_cell_goes s t x :
  shows s t → t_row t < H → 0 ≤ x < 128 →
  goes (store_cell x) s (mk_text (put_at (glyph_at t) (t_row t) (t_col t) x) (t_row t) (t_col t)).
Proof.
  intros Hs Hr Hx. pose proof Hs as (Hok & Hc & Er & Ec & Hrr & Hcc).
  destruct (Hc (t_row t) (t_col t)) as [Hl _]; [lia|lia|].
  apply goes_get. rewrite Er, Ec. eexists. split.
  { apply zoom_mem_run, stb_run. eauto. }
  apply shows_tm; [done| | |].
  - intros a Ha. destruct (decide (cell s (t_row t) (t_col t) = a)) as [<-|];
      [rewrite lookup_insert_eq; eauto|by rewrite lookup_insert_ne].
  - intros a [_ Ha]. apply lookup_insert_ne. intros <-. apply Ha. rewrite <- (ok_buffer _ Hok).
    apply cell_range; [lia|lia|apply Hok].
  - intros r c Hr' Hc'. unfold put_at. case_decide as Hd.
    + destruct Hd as [-> ->]. by rewrite lookup_insert_eq.
    + rewrite lookup_insert_ne; [by apply Hc|].
      intros Heq. destruct (cell_inj s (t_row t) (t_col t) r c) as [? ?]; [apply Hok|done|done|done|].
      apply Hd. by split.
Qed.

Lemma cells_touches s g m m' :
  tty_ok s → cells m s g → touches (fb_addr (display s)) (fb_size s) m m' → cells m' s g.
Proof.
  intros Hok Hc [T _] r c Hr Hc'. rewrite T; [by apply Hc|].
  pose proof (cell_range s r c Hr Hc' (ok_width _ Hok)). pose proof (ok_apart _ Hok). lia.
Qed.

Lemma render_run s t : shows s t → ∃ s', terminal_render font s = Done (tt, s') ∧ shows s' t ∧ displays font s' t.
Proof.
  intros Hs. pose proof Hs as (Hok & Hc & _). pose proof Hok as [Hsc HW HH Hfb Hfo Hap Hfa HD _ _ _].
  destruct (render_draws font s (glyph_at t) (tm s) Hsc Hfa) with (tm s) as (m' & Er & Hd & T).
  - intros x y Hx Hy. pose proof (cell_range s y x ltac:(lia) ltac:(lia) HW) as Hr. unfold cell in Hr. lia.
  - intros x y Hx Hy. apply Hc; lia.
  - split; [done| |].
    + intros i Hi. split; [done|]. by apply Hfo.
    + intros x y Hx Hy. apply (Hc y x); lia.
  - exists (set_tm m' s). split_and!; [by apply zoom_mem_run| |exact Hd].
    destruct t as [g r c]. apply (shows_tm s (mk_text g r c)); [done|apply T| |by eapply cells_touches].
    intros a [Ha _]. apply T. by rewrite HD.
Qed.

Lemma displays_keeps s t m' :
  shows s t → displays font s t → (∀ a, fb_addr D ≤ a < fb_addr D + pitch D * fb_height D → m' !! a = tm s !! a) →
  (∀ i, 0 ≤ i < 128 * bytesperglyph font → m' !! (F + i) = tm s !! (F + i)) → displays font (set_tm m' s) t.
Proof.
  intros (Hok & Hc & _) Hd Hf Ho. pose proof Hok as [Hsc HW HH _ _ _ _ HD _ HF _]. rewrite <- HD in Hf. rewrite <- HF in Ho.
  apply (drawn_keeps font s (glyph_at t) Hsc) with (tm s); try done. intros x y Hx Hy. apply Hc; lia.
Qed.

Lemma render_goes s t : shows s t → goes (terminal_render font) s t.
Proof. intros Hs. destruct (render_run s t Hs) as (s' & E1 & H1 & _). by exists s'. Qed.

(** The grid while the lines before [y] have moved up. *)
Definition moving (y : Z) g : Z → Z → Z := λ r c, if decide (r < y - 1) then g (r + 1) c else g r c.

Lemma cells_line m s g r : cells m s g → 0 ≤ r < H → has m (cell s r 0) (W + 1).
Proof.
  intros Hc Hr i Hi. destruct (Hc r i) as [Ev _]; [done|lia|]. exists (g r i). rewrite <- Ev. f_equal. unfold cell. lia.
Qed.

Lemma move_lines_run s g n y m :
  TERMINAL_WIDTH s = W → 0 < W → cells m s (moving y g) → 1 ≤ y → y + Z.of_nat n = H →
  (∀ r c, 0 ≤ r < H → 0 ≤ c ≤ W → 0 ≤ g r c < 128) →
  ∃ m', for_up n y (λ y, memcpy (cell s (y - 1) 0) (cell s y 0) (W + 1);; mret tt) m = Done (tt, m') ∧
    cells m' s (moving H g) ∧ touches (tty_buffer s) (H * (W + 1)) m m'.
Proof.
  intros HW Hpos. revert y m. induction n as [|n IH]; intros y m Hc Hy Hn Hg.
  { exists m. replace H with y by lia. done. }
  cbn [for_up].
  destruct (memcpy_run m (cell s (y - 1) 0) (cell s y 0) (W + 1)) as (m1 & E1 & Hcp & T1).
  { lia. }
  { eapply cells_line; [exact Hc|lia]. }
  { eapply cells_line; [exact Hc|lia]. }
  { left. unfold cell. rewrite HW. lia. }
  destruct (IH (y + 1) m1) as (m2 & E2 & Hc2 & T2).
  { intros r c Hr Hc'. assert (cell s r c = cell s r 0 + c) as Ecell by (unfold cell; lia). rewrite Ecell.
    unfold moving. destruct (decide (r = y - 1)) as [->|Hne].
    - rewrite decide_True by lia. split; [|apply Hg; lia]. rewrite Hcp by lia.
      replace (y - 1 + 1) with y by lia. destruct (Hc y c) as [Ev _]; [lia|lia|]. unfold moving in Ev.
      rewrite decide_False in Ev by lia. rewrite <- Ev. f_equal. unfold cell. lia.
    - rewrite <- Ecell. destruct T1 as [T1 _]. rewrite T1.
      + destruct (Hc r c) as [Ec Hb]; [done|done|]. unfold moving in Ec, Hb.
        destruct (decide (r < y - 1)); [by rewrite decide_True by lia|by rewrite decide_False by lia].
      + unfold cell. rewrite HW. nia. }
  { lia. }
  { lia. }
  { done. }
  exists m2. rewrite bind_assoc, (bind_done _ _ _ _ _ E1). split_and!; [exact E2|done|].
  etrans; [|exact T2]. eapply touches_mono; [exact T1|unfold cell; nia|unfold cell; nia].
Qed.

Lemma move_up_goes s t : shows s t → goes (terminal_move_up font) s (mk_text (scrolled H (glyph_at t)) (t_row t) (t_col t)).
Proof.
  intros Hs. pose proof Hs as (Hok & Hc & _). destruct (shows_dims _ _ Hs) as [HW HH]. apply goes_get.
  pose proof (ok_width _ Hok) as Ew. pose proof (ok_height _ Hok) as Eh.
  destruct (move_lines_run s (glyph_at t) (Z.to_nat (H - 1)) 1 (tm s)) as (m1 & E1 & Hc1 & T1); [done|done| |lia|lia| |].
  { intros r c Hr Hc'. unfold moving. rewrite decide_False by lia. by apply Hc. }
  { intros r c Hr Hc'. by apply Hc. }
  destruct (memset_run m1 (cell s (H - 1) 0) 0 (W + 1)) as (m2 & E2 & Hz & T2); [lia| |].
  { eapply cells_line; [exact Hc1|lia]. }
  rewrite Eh, Ew. replace (Z.max 1 H) with H by lia. cbv zeta.
  assert (on_mem (for_up (Z.to_nat (H - 1)) 1 (λ y, memcpy (cell s (y - 1) 0) (cell s y 0) (W + 1);; mret tt)) s
    = Done (tt, set_tm m1 s)) as F1 by by apply zoom_mem_run.
  assert (on_mem (memset (cell s (H - 1) 0) 0 (W + 1)) (set_tm m1 s)
    = Done (cell s (H - 1) 0, set_tm m2 s)) as F2.
  { apply (zoom_mem_run (memset (cell s (H - 1) 0) 0 (W + 1)) (set_tm m1 s)). exact E2. }
  assert (shows (set_tm m2 s) (mk_text (scrolled H (glyph_at t)) (t_row t) (t_col t))) as Hs2.
  { assert (tty_buffer s ≤ cell s (H - 1) 0 ∧ cell s (H - 1) 0 + (W + 1) ≤ tty_buffer s + H * (W + 1)) as Hlast
      by (unfold cell; rewrite Ew; nia).
    apply shows_tm; [done| | |].
    - intros a Ha. apply T2, T1, Ha.
    - intros a [_ Ha]. rewrite <- (ok_buffer _ Hok) in Ha. destruct T1 as [T1 _], T2 as [T2 _].
      rewrite T2 by lia. by apply T1.
    - intros r c Hr Hc'. unfold scrolled. case_decide as Hd.
      + destruct T2 as [T2 _]. rewrite T2 by (unfold cell; rewrite Ew; nia).
        destruct (Hc1 r c) as [Ec Hb]; [done|done|]. unfold moving in Ec, Hb. by rewrite decide_True in Ec, Hb by lia.
      + assert (r = H - 1) as -> by lia. split; [|lia]. specialize (Hz c ltac:(lia)). change (w8 0) with 0 in Hz.
        rewrite <- Hz. f_equal. unfold cell. lia. }
  destruct (render_goes _ _ Hs2) as (s3 & E3 & Hs3). exists s3. split; [|done].
  rewrite (bind_done _ _ _ _ _ F1), (bind_done _ _ _ _ _ F2). exact E3.
Qed.

Lemma return_goes s t : shows s t → t_row t < H → goes (terminal_return font) s (text_newline H t).
Proof.
  intros Hs Hr. pose proof Hs as (Hok & _). destruct (shows_dims _ _ Hs) as [HW HH].
  eapply goes_seq; [by apply store_cell_goes|]. intros s1 Hs1.
  pose proof Hs1 as (Hok1 & _ & Er1 & _ & Hr1 & Hc1). cbn in Er1, Hr1, Hc1. apply goes_get. rewrite Er1.
  eapply goes_seq; [apply goes_row; [done|lia]|]. intros s2 Hs2. cbn [t_row t_col glyph_at] in Hs2.
  rewrite (ok_height _ Hok1). unfold text_newline. cbv zeta. destruct (decide (t_row t + 1 = H)) as [Hd|Hd].
  - eapply goes_seq.
    { eapply goes_seq; [by apply move_up_goes|]. intros s3 Hs3. apply goes_get. pose proof Hs3 as (_ & _ & Er3 & _).
      rewrite Er3. cbn [t_row]. apply goes_row; [done|]. cbn. lia. }
    intros s4 Hs4. cbn [t_row t_col glyph_at] in *. 
    replace (t_row t + 1 - 1) with (t_row t) in Hs4 by lia. apply (goes_col _ _ 0) in Hs4; [exact Hs4|lia].
  - eapply goes_seq; [by apply goes_ret|]. intros s4 Hs4. apply (goes_col _ _ 0) in Hs4; [exact Hs4|lia].
Qed.

Lemma text_newline_range t : 0 < H → 0 ≤ t_row t < H → 0 ≤ t_row (text_newline H t) < H ∧ t_col (text_newline H t) = 0.
Proof. intros ??. unfold text_newline. case_decide; cbn; lia. Qed.

Lemma putchar_goes s t x : shows s t → t_row t < H → 0 ≤ x < 128 → goes (terminal_putchar font x) s (text_put W H x t).
Proof.
  intros Hs Hr Hx. pose proof Hs as (Hok & _ & Er & Ec & Hrr & Hcc). destruct (shows_dims _ _ Hs) as [HW HH]. apply goes_get.
  rewrite (ok_width _ Hok), Ec. unfold text_put. cbv zeta.
  set (t1 := if decide (t_col t = W) then text_newline H t else t).
  assert (0 ≤ t_row t1 < H ∧ t_col t1 < W) as [Hr1 Hc1].
  { unfold t1. case_decide; [|lia]. pose proof (text_newline_range t). lia. }
  eapply (goes_seq _ _ _ t1).
  { unfold t1. case_decide; [by apply return_goes|by apply goes_ret]. }
  intros s1 Hs1. eapply goes_seq; [apply store_cell_goes; [done|lia|done]|].
  intros s2 Hs2. apply goes_get. pose proof Hs2 as (_ & _ & _ & Ec2 & _ & Hc2). rewrite Ec2. cbn [t_col] in *.
  apply (goes_col _ _ (t_col t1 + 1)) in Hs2; [exact Hs2|lia].
Qed.


Lemma goes_ext f s t t' :
  (∀ r c, glyph_at t r c = glyph_at t' r c) → t_row t = t_row t' → t_col t = t_col t' →
  goes f s t → goes f s t'.
Proof.
  intros Hg Hr Hc (s' & Ef & Hok & Hcs & Hs). exists s'. split; [done|]. split; [done|].
  rewrite <- Hr, <- Hc. split; [|done]. intros r c ??. rewrite <- Hg. by apply Hcs.
Qed.

(** A backspace inside a line, or at the origin. *)
Lemma backspace_goes s t :
  shows s t → t_row t < H → t_col t ≠ 0 ∨ t_row t = 0 →
  goes (terminal_backspace font;; store_cell 0) s (text_erase t).
Proof.
  intros Hs Hr Hb. pose proof Hs as (Hok & _ & Er & Ec & Hrr & Hcc).
  destruct (shows_dims _ _ Hs) as [HW HH]. unfold text_erase. cbv zeta.
  destruct (decide (t_col t ≠ 0)) as [Hc|Hc].
  - replace (Z.max 0 (t_col t - 1)) with (t_col t - 1) by lia.
    eapply (goes_seq _ _ _ (mk_text (put_at (glyph_at t) (t_row t) (t_col t - 1) 0) (t_row t) (t_col t - 1))).
    + apply goes_get. rewrite Ec, decide_True by done.
      eapply goes_seq; [apply goes_col; [done|lia]|]. intros s1 Hs1.
      eapply goes_seq; [apply putchar_goes; [done|cbn; lia|lia]|]. intros s2 Hs2.
      unfold text_put in Hs2. cbn [t_col t_row glyph_at] in Hs2.
      rewrite decide_False in Hs2 by lia. cbn [t_col t_row glyph_at] in Hs2.
      apply goes_get. pose proof Hs2 as (_ & _ & _ & Ec2 & _). rewrite Ec2. cbn [t_col].
      replace (t_col t - 1 + 1 - 1) with (t_col t - 1) by lia.
      apply (goes_col _ _ (t_col t - 1)) in Hs2; [exact Hs2|lia].
    + intros s1 Hs1. eapply goes_ext; [| | |apply store_cell_goes; [exact Hs1|cbn; lia|lia]]; [|done|done].
      intros r c. cbn. unfold put_at. repeat case_decide; naive_solver.
  - assert (t_col t = 0) as Hc0 by lia. replace (Z.max 0 (t_col t - 1)) with (t_col t) by lia.
    eapply goes_seq.
    + apply goes_get. rewrite Ec, decide_False by tauto. rewrite Er, decide_False by lia. by apply goes_ret.
    + intros s1 Hs1. apply store_cell_goes; [done|lia|lia].
Qed.

Lemma write_run s t x :
  shows s t → t_row t < H → 0 ≤ x < 256 → (x = 8 → t_col t ≠ 0 ∨ t_row t = 0) →
  ∃ s', terminal_write font x s = Done (tt, s') ∧ shows s' (text_write W H t x) ∧ displays font s' (text_write W H t x).
Proof.
  intros Hs Hr Hx Hb. pose proof Hs as (Hok & _).
  enough (goes ((if decide (0x20 ≤ x ∧ x < 0x7F) then terminal_putchar font x else mret tt);;
    (if decide (x = 8) then terminal_backspace font;; store_cell 0 else if decide (x = 9) then mret tt
     else if decide (x = 10) then store_cell x;; terminal_return font else mret tt)) s (text_write W H t x)) as (s1 & E1 & Hs1).
  { destruct (render_run s1 _ Hs1) as (s2 & E2 & Hs2 & Hd2). exists s2. split; [|done]. unfold terminal_write.
    rewrite (bind_done get _ s s s eq_refl), decide_False by apply Hok. rewrite <- bind_assoc. by rewrite (bind_done _ _ _ _ _ E1). }
  unfold text_write.
  eapply (goes_seq _ _ _ (if decide (0x20 ≤ x < 0x7F) then text_put W H x t else t)).
  { case_decide; [apply putchar_goes; [done|done|lia]|by apply goes_ret]. }
  intros s1 Hs1.
  destruct (decide (0x20 ≤ x < 0x7F)) as [Hp|Hp].
  { rewrite !decide_False by lia. by apply goes_ret. }
  destruct (decide (x = 8)) as [->|]; [apply backspace_goes; auto|].
  destruct (decide (x = 9)) as [->|]; [rewrite decide_False by done; by apply goes_ret|].
  destruct (decide (x = 10)) as [->|]; [|by apply goes_ret].
  eapply goes_seq; [by apply store_cell_goes|]. intros s2 Hs2.
  eapply goes_ext; [| | |apply return_goes; [exact Hs2|done]].
  all: unfold text_newline; cbn [t_row t_col glyph_at]; case_decide; cbn; try done.
  all: intros r c; unfold scrolled, put_at; repeat case_decide; naive_solver.
Qed.

Lemma write_goes s t x :
  shows s t → t_row t < H → 0 ≤ x < 256 → (x = 8 → t_col t ≠ 0 ∨ t_row t = 0) →
  goes (terminal_write font x) s (text_write W H t x).
Proof. intros Hs Hr Hx Hb. destruct (write_run s t x Hs Hr Hx Hb) as (s' & E1 & H1 & _). by exists s'. Qed.

Lemma text_write_row t x : 0 < H → 0 ≤ t_row t < H → 0 ≤ t_row (text_write W H t x) < H.
Proof.
  intros HH Hr. pose proof (text_newline_range t HH Hr). unfold text_write, text_put, text_erase.
  repeat (case_decide; cbn); lia.
Qed.

(** Writing the bytes of [xs] one after the other. *)
Fixpoint write_all (xs : list Z) : M (tty E) unit :=
  match xs with [] => mret tt | x :: xs => terminal_write font x;; write_all xs end.

(** No backspace of [xs] meets the cursor at the start of a line below the
    first. *)
Fixpoint no_join (t : text) (xs : list Z) : Prop :=
  match xs with
  | [] => True
  | x :: xs => (0 ≤ x < 256 ∧ (x = 8 → t_col t ≠ 0 ∨ t_row t = 0)) ∧ no_join (text_write W H t x) xs
  end.

Lemma write_all_run s t xs :
  shows s t → t_row t < H → no_join t xs →
  ∃ s', write_all xs s = Done (tt, s') ∧ shows s' (fold_left (text_write W H) xs t) ∧
    (xs ≠ [] ∨ displays font s t → displays font s' (fold_left (text_write W H) xs t)).
Proof.
  revert s t. induction xs as [|x xs IH]; intros s t Hs Hr; cbn [write_all fold_left no_join].
  { intros _. exists s. split_and!; [done..|]. by intros [?|?]. }
  intros [[Hx Hb] Hn]. destruct (shows_dims _ _ Hs) as [HW HH]. destruct (write_run s t x Hs Hr Hx Hb) as (s1 & E1 & Hs1 & Hd1).
  destruct (IH s1 _ Hs1) as (s2 & E2 & Hs2 & Hd2); [|done|].
  { pose proof Hs as (_ & _ & _ & _ & Hrr & _). pose proof (text_write_row t x). lia. }
  exists s2. rewrite (bind_done _ _ _ _ _ E1). auto.
Qed.

(** C20: the terminal is a scrolling grid of characters.  From a terminal that
    holds a text, writing bytes (no backspace of which meets the cursor at the
    start of a line below the first, where the code goes wrong) ends, never
    leaves the character buffer, the framebuffer or the font, changes no
    memory but the two buffers, and leaves the text those bytes give:
    printable characters at the cursor, wrapping after [TERMINAL_WIDTH]
    columns, a newline ending the line, all lines moving up by one when the
    last one is full.  The screen displays that text: every pixel of every
    cell has the colour the font gives it for the character of the cell. *)
Theorem terminal_write_refines_grid s t xs :
  shows s t → t_row t < H → no_join t xs →
  ∃ s', write_all xs s = Done (tt, s') ∧ shows s' (fold_left (text_write W H) xs t) ∧
    (xs ≠ [] ∨ displays font s t → displays font s' (fold_left (text_write W H) xs t)).
Proof. apply write_all_run. Qed.

(** A backspace at the start of a line loses the cursor: the search for
    the end of the line above uses lines of [TERMINAL_WIDTH - 1] bytes instead
    of [TERMINAL_WIDTH + 1]; when the line before that one is full the search
    stops at its end and the cursor goes to column 1, wherever the line above
    ends. *)
Lemma backspace_loses_column s t :
  shows s t → t_row t = 2 → t_row t < H → t_col t = 0 →
  glyph_at t 0 (W - 1) ≠ 10 → glyph_at t 0 W = 10 →
  ∃ s', terminal_backspace font s = Done (tt, s') ∧ row s' = 1 ∧ column s' = 1.
Proof.
  intros Hs Hr Hlt Hc0 H1 H2. pose proof Hs as (Hok & Hc & Er & Ec & Hrr & Hcc).
  destruct (shows_dims _ _ Hs) as [HW HH]. pose proof (ok_width _ Hok) as Ew.
  exists (set_column 1 (set_row 1 s)). split; [|done].
  destruct (Hc 0 (W - 1)) as [L1 _]; [lia|lia|]. destruct (Hc 0 W) as [L2 _]; [lia|lia|].
  unfold terminal_backspace. rewrite (bind_done get _ s s s eq_refl). cbv beta.
  rewrite Ec, decide_False by tauto. rewrite Er, decide_True by lia. do 2 step.
  assert (∃ n, size (tm s) = S n) as [n ->].
  { destruct (size (tm s)) eqn:Esz; [|eauto]. apply map_size_empty_inv in Esz. by rewrite Esz, lookup_empty in L1. }
  cbn [backspace_loop]. rewrite (bind_done get _ _ _ _ eq_refl). cbv beta.
  rewrite (bind_done _ _ _ (glyph_at t 0 (W - 1)) (set_column 0 (set_row (t_row t - 1) s))); cycle 1.
  { apply (zoom_mem_run _ (set_column 0 (set_row (t_row t - 1) s))), ldb_run. rewrite <- L1. unfold cell. cbn. f_equal. rewrite Ew. lia. }
  rewrite decide_False by done. step.
  destruct n; cbn [backspace_loop]; rewrite (bind_done get _ _ _ _ eq_refl); cbv beta.
  all: rewrite (bind_done _ _ _ (glyph_at t 0 W) (set_column 1 (set_row 1 s))).
  2,4: cbn; rewrite Hr; apply (zoom_mem_run _ (set_column 1 (set_row 1 s))), ldb_run; rewrite <- L2; unfold cell; cbn; f_equal; rewrite Ew; lia.
  all: by rewrite decide_True.
Qed.
End tty_text.

(** ** Initialisation *)

Section tty_init.
Context {E : Type} `{!MemSource E, !MemSourceLaws E}.
Context (_binary_font_psfu_start : Z) (font : pc_font).
Implicit Types (s : tty E) (fb : framebuffer).

(** What the boot loader's framebuffer and the linked font satisfy. *)
Record mode_ok fb : Prop := {
  md_bpp : bpp fb = 32;
  md_font : 0 < f_width font < 2 ^ 31 ∧ 0 < f_height font < 2 ^ 31;
  md_glyph : ceildiv (f_width font) 8 * f_height font ≤ 256 ∧
    ceildiv (f_width font) 8 * f_height font ≤ bytesperglyph font ∧ 128 * bytesperglyph font < 2 ^ 32;
  md_width : f_width font < fb_width fb;
  md_height : f_height font < fb_height fb;
  md_pitch : fb_width fb * 4 ≤ pitch fb ∧ pitch fb * fb_height fb < 2 ^ 32;
}.

Abbreviation cols fb := (fb_width fb / (f_width font + 1)).
Abbreviation lines fb := (fb_height fb / (f_height font + 1)).

Lemma on_sys_run {A} (f : M (mem * E) A) s a m' e' :
  f (tm s, tenv s) = Done (a, (m', e')) →
  on_sys f s = Done (a, mk_tty m' e' (display s) (font_start s) (TERMINAL_WIDTH s) (TERMINAL_HEIGHT s)
    (row s) (column s) (fg s) (bg s) (tty_buffer s)).
Proof. intros Hf. unfold on_sys, zoom. by rewrite Hf. Qed.

Lemma fresh_has m m' p n : fresh_bytes m m' p n → has m' p n.
Proof. intros [Hf _] i Hi. by apply Hf. Qed.

Lemma fresh_dom m m' p n a : fresh_bytes m m' p n → is_Some (m !! a) → is_Some (m' !! a).
Proof.
  intros [Hf Hk] Ha. destruct (decide (p ≤ a < p + n)); [|by rewrite Hk].
  destruct (Hf (a - p)) as [Hn _]; [lia|]. replace (p + (a - p)) with a in Hn by lia.
  rewrite Hn in Ha. by destruct Ha.
Qed.

(** Two successive fresh regions are apart. *)
Lemma fresh_apart m m' m'' p n q k :
  fresh_bytes m m' p n → fresh_bytes m' m'' q k → 0 < n → 0 < k → p + n ≤ q ∨ q + k ≤ p.
Proof.
  intros [H1 _] [H2 _] Hn Hk. destruct (decide (p + n ≤ q ∨ q + k ≤ p)) as [|Hov]; [done|]. exfalso.
  destruct (H1 (Z.max p q - p)) as [_ Hs]; [lia|]. destruct (H2 (Z.max p q - q)) as [Hno _]; [lia|].
  replace (q + (Z.max p q - q)) with (p + (Z.max p q - p)) in Hno by lia. rewrite Hno in Hs. by destruct Hs.
Qed.

Lemma dims_range fb : mode_ok fb →
  (0 < cols fb ∧ cols fb * (f_width font + 1) ≤ fb_width fb ∧ cols fb < 2 ^ 32) ∧
  (0 < lines fb ∧ lines fb * (f_height font + 1) ≤ fb_height fb ∧ lines fb < 2 ^ 32) ∧
  0 < pitch fb * fb_height fb.
Proof.
  intros [_ [] _ Hw Hh [Hp Hs]].
  assert (0 < cols fb) by (apply Z.div_str_pos; lia). assert (0 < lines fb) by (apply Z.div_str_pos; lia).
  pose proof (Z.mul_div_le (fb_width fb) (f_width font + 1) ltac:(lia)).
  pose proof (Z.mul_div_le (fb_height fb) (f_height font + 1) ltac:(lia)).
  assert (fb_width fb < 2 ^ 32) by nia. assert (fb_height fb < 2 ^ 32) by nia.
  split_and!; try done; try lia; try nia.
Qed.

Lemma on_mem_inv {A} (f : MEM A) s a s' :
  on_mem f s = Done (a, s') → ∃ m', f (tm s) = Done (a, m') ∧ s' = set_tm m' s.
Proof. unfold on_mem, zoom. destruct (f (tm s)) as [[a' m']| | |]; intros; simplify_eq. eauto. Qed.

(** [terminal_clear] over fresh memory: a blank grid and the same regions. *)
Lemma clear_inv W H s s' :
  terminal_clear s = Done (0, s') → TERMINAL_WIDTH s = W → TERMINAL_HEIGHT s = H →
  0 < W < 2 ^ 32 → 0 < H < 2 ^ 32 → 0 < pitch (display s) * fb_height (display s) < 2 ^ 32 →
  has (tm s) (tty_buffer s) (H * (W + 1)) →
  has (tm s) (fb_addr (display s)) (pitch (display s) * fb_height (display s)) →
  fb_addr (display s) + pitch (display s) * fb_height (display s) ≤ tty_buffer s ∨
    tty_buffer s + H * (W + 1) ≤ fb_addr (display s) →
  ∃ m', s' = set_tm m' s ∧ (∀ a, is_Some (tm s !! a) → is_Some (m' !! a)) ∧
    (∀ a, outside W H (display s) (tty_buffer s) a → m' !! a = tm s !! a) ∧ cells W H m' s (λ _ _, 0).
Proof.
  intros Hcl Ew Eh HW HH Hsz Hb Hf Hap. unfold terminal_clear in Hcl.
  rewrite (bind_done get _ s s s eq_refl) in Hcl. cbv beta in Hcl. rewrite Ew, Eh in Hcl.
  case_decide; [done|]. assert (0 ≤ H * (W + 1) < 2 ^ 64) by nia.
  rewrite (w64_small (W + 1)), w64_small, w32_small in Hcl by lia.
  destruct (memset_run (tm s) (tty_buffer s) 0 (H * (W + 1))) as (m1 & E1 & Hz & T1); [lia|done|].
  rewrite (bind_done _ _ _ _ _ (zoom_mem_run _ s _ _ E1)) in Hcl.
  destruct (memset_run m1 (fb_addr (display s)) 0 (pitch (display s) * fb_height (display s))) as (m2 & E2 & _ & T2);
    [lia|by eapply has_touches|].
  rewrite (bind_done _ _ _ _ _ (zoom_mem_run _ (set_tm m1 s) _ _ E2)) in Hcl.
  exists m2. injection Hcl as <-. split_and!; [done|intros a Ha; by apply T2, T1| |].
  { intros a [Ha1 Ha2]. destruct T1 as [T1 _], T2 as [T2 _]. by rewrite T2, T1. }
  intros r c Hr Hc. split; [|lia]. pose proof (cell_range W H s r c Hr Hc Ew).
  destruct T2 as [T2 _]. rewrite T2 by lia.
  replace (cell s r c) with (tty_buffer s + (cell s r c - tty_buffer s)) by lia. rewrite Hz by lia. done.
Qed.

(** A successful [terminal_initialize] shows an empty text. *)
Lemma initialize_shows fb s s' :
  mode_ok fb → has (tm s) (_binary_font_psfu_start + headersize font) (128 * bytesperglyph font) →
  terminal_initialize _binary_font_psfu_start font fb s = Done (0, s') → tty_buffer s' ≠ 0 →
  shows font (cols fb) (lines fb) (display s') (tty_buffer s') (font_start s') (tm s') s' (mk_text (λ _ _, 0) 0 0).
Proof.
  intros Hm Hfont Hi Hbuf. destruct (dims_range fb Hm) as ((HW0 & HW1 & HW2) & (HH0 & HH1 & HH2) & Hfb0). pose proof Hm as [Hbpp [Hfw Hfh] Hg Hw Hh [Hp Hsz]].
  unfold terminal_initialize in Hi. cbv zeta in Hi.
  rewrite (w32_small (pitch fb * fb_height fb)) in Hi by lia. rewrite !w32_small in Hi by lia.
  apply bind_inv in Hi as (va & s1 & E1 & Hi). unfold on_sys, zoom in E1.
  destruct (src_map_mmio _ _ _ _ _) as [[va' [m1 e1]]| | |] eqn:Em; simplify_eq.
  case_decide as Hva; [by apply bind_inv in Hi as (?&?&?&?)|].
  apply src_map_mmio_ok in Em; [|done].
  apply bind_inv in Hi as (bu & s2 & E2 & Hi). unfold on_sys, zoom in E2. cbn [tm tenv] in E2.
  destruct (src_alloc _ _) as [[bu' [m2 e2]]| | |] eqn:Ea; simplify_eq.
  rewrite (bind_done (modify _) _ _ _ _ eq_refl) in Hi. cbn in Hi.
  set (s2 := mk_tty _ _ _ _ _ _ _ _ _ _ _) in Hi.
  assert (tty_buffer s' = bu) as Eb.
  { unfold terminal_clear in Hi. rewrite (bind_done get _ _ _ _ eq_refl) in Hi. cbn in Hi.
    rewrite decide_False in Hi by done.
    apply bind_inv in Hi as (? & ? & (m3 & _ & ->)%on_mem_inv & Hi).
    by apply bind_inv in Hi as (? & ? & (m4 & _ & ->)%on_mem_inv & [= <-]). }
  rewrite Eb in Hbuf. apply src_alloc_ok in Ea; [|done].
  assert (0 < lines fb * (cols fb + 1) < 2 ^ 64) by nia.
  rewrite (w64_small (cols fb + 1)), w64_small in Ea by lia.
  pose proof (fresh_has _ _ _ _ Em) as Hfb. pose proof (fresh_apart _ _ _ _ _ _ _ Em Ea) as Hap.
  destruct (clear_inv (cols fb) (lines fb) s2 s' Hi) as (m' & -> & Hd & _ & Hc);
    [done|done|lia|lia|cbn; lia|by eapply fresh_has| |cbn; lia|].
  { cbn. eapply has_frame; [exact Hfb|]. intros a. by apply fresh_dom with (1 := Ea). }
  split; [|split_and!; cbn; [exact Hc|lia..]].
  assert (∀ a, is_Some (tm s !! a) → is_Some (m' !! a)) by (intros a ?; apply Hd; cbn; eauto using fresh_dom).
  split; cbn; [split; cbn; done|done|done| |by eapply has_frame|lia| |done|done|done|done].
  2: { intros i Hir Hin. destruct (Hfont i Hir) as [b Hb]. destruct Em as [Hnone _]. destruct (Hnone (_binary_font_psfu_start + headersize font + i - va)) as [Hn _]; [lia|].
       replace (va + _) with (_binary_font_psfu_start + headersize font + i) in Hn by lia. by rewrite Hb in Hn. }
  eapply has_frame; [exact Hfb|]. intros a Ha. apply Hd. cbn. eauto using fresh_dom.
Qed.
End tty_init.

(** ** A small terminal *)

(** A source that hands out zeroed bytes at increasing addresses, null when
    they are taken. *)
Definition byte_range (p n : Z) : list Z := (λ i, p + Z.of_nat i) <$> seq 0 (Z.to_nat n).
Definition zeroed (m : mem) (l : list Z) : mem := foldr (λ a m, <[a := 0]> m) m l.
Definition bump_bytes (n : Z) : M (mem * Z) Z := λ '(m, p),
  if decide (Forall (λ a, m !! a = None) (byte_range p n))
  then Done (p, (zeroed m (byte_range p n), p + n)) else Done (0, (m, p)).

#[export] Instance bump_source : MemSource Z :=
  {| src_map_mmio := λ _ _ n _, bump_bytes n; src_alloc := bump_bytes |}.

Lemma byte_range_in p n a : a ∈ byte_range p n ↔ p ≤ a < p + n.
Proof.
  unfold byte_range. rewrite list_elem_of_fmap. split.
  - intros (i & -> & Hi%elem_of_seq). lia.
  - intros Ha. exists (Z.to_nat (a - p)). rewrite elem_of_seq. lia.
Qed.

Lemma zeroed_lookup m l a : zeroed m l !! a = if decide (a ∈ l) then Some 0 else m !! a.
Proof.
  unfold zeroed. induction l as [|b l IH]; cbn [foldr]; [by rewrite decide_False by apply not_elem_of_nil|].
  destruct (decide (b = a)) as [->|Hne]; [by rewrite lookup_insert_eq, decide_True by set_solver|].
  rewrite lookup_insert_ne by done. rewrite IH. repeat case_decide; set_solver.
Qed.

Lemma bump_bytes_fresh n m e p m' e' : bump_bytes n (m, e) = Done (p, (m', e')) → p ≠ 0 → fresh_bytes m m' p n.
Proof.
  unfold bump_bytes. case_decide as Hf; intros; simplify_eq. rewrite Forall_forall in Hf. split.
  - intros i Hi. rewrite zeroed_lookup, decide_True by (apply byte_range_in; lia).
    split; [apply Hf, byte_range_in; lia|eauto].
  - intros a Ha. rewrite zeroed_lookup, decide_False; [done|]. rewrite byte_range_in. lia.
Qed.

#[export] Instance bump_source_laws : MemSourceLaws Z.
Proof.
  split.
  - intros vmm pa n w m e p m' e'. apply bump_bytes_fresh.
  - intros n m e p m' e'. apply bump_bytes_fresh.
Qed.

(** A font of 2x1 pixels at 1000, and a framebuffer of 9x8 pixels: a terminal
    of 4 lines of 3 columns. *)
Definition font0 : pc_font := mk_font 0x72b54a86 0 32 0 128 1 1 2.
Definition fb0 : framebuffer := mk_fb 0xfd000000 36 9 8 32.
Definition boot0 : tty Z :=
  mk_tty (zeroed ∅ (byte_range 1000 160)) 2000 fb0 0 0 0 0 0 0 0 0.
Definition ran {A} (d : tty Z) (r : res (A * tty Z)) : tty Z := match r with Done (_, s) => s | _ => d end.
Definition tty0 : tty Z := ran boot0 (terminal_initialize 1000 font0 fb0 boot0).

Abbreviation shows0 := (shows font0 3 4 (display tty0) (tty_buffer tty0) (font_start tty0) (tm tty0)).
Lemma tty0_shows : shows0 tty0 (mk_text (λ _ _, 0) 0 0).
Proof.
  apply (initialize_shows 1000 font0 fb0 boot0 tty0).
  - by split.
  - intros i Hi. cbn in Hi. exists 0. change (tm boot0) with (zeroed ∅ (byte_range 1000 160)).
    rewrite zeroed_lookup, decide_True; [done|]. apply byte_range_in. cbn. lia.
  - vm_compute. done.
  - vm_compute. done.
Qed.

(** "abcde" and a newline: the first line wraps. *)
Definition abcde : list Z := [97; 98; 99; 100; 101; 10].

Lemma terminal_write_refines_grid_witness :
  ∃ s', write_all font0 [97; 98; 8; 120; 10; 10; 99; 10; 122] tty0 = Done (tt, s') ∧
    shows0 s' (fold_left (text_write 3 4) [97; 98; 8; 120; 10; 10; 99; 10; 122] (mk_text (λ _ _, 0) 0 0)) ∧
    displays font0 s' (fold_left (text_write 3 4) [97; 98; 8; 120; 10; 10; 99; 10; 122] (mk_text (λ _ _, 0) 0 0)).
Proof.
  cut (∃ s', write_all font0 [97; 98; 8; 120; 10; 10; 99; 10; 122] tty0 = Done (tt, s') ∧
    shows0 s' (fold_left (text_write 3 4) [97; 98; 8; 120; 10; 10; 99; 10; 122] (mk_text (λ _ _, 0) 0 0)) ∧
    ([97; 98; 8; 120; 10; 10; 99; 10; 122] ≠ [] ∨ displays font0 tty0 (mk_text (λ _ _, 0) 0 0) →
     displays font0 s' (fold_left (text_write 3 4) [97; 98; 8; 120; 10; 10; 99; 10; 122] (mk_text (λ _ _, 0) 0 0)))).
  { intros (s' & E1 & H1 & H2). exists s'. split_and!; [done..|]. apply H2. by left. }
  refine (terminal_write_refines_grid font0 3 4 _ _ _ _ tty0 _ _ tty0_shows _ _); [done|].
  cbn. repeat split; try done; by left.
Defined.

Definition tty1 : tty Z := ran tty0 (write_all font0 abcde tty0).
Definition text1 : text := fold_left (text_write 3 4) abcde (mk_text (λ _ _, 0) 0 0).

Lemma tty1_shows : shows0 tty1 text1.
Proof.
  destruct (write_all_run font0 3 4 _ _ _ _ tty0 _ abcde tty0_shows) as (s' & Ew & Hs & _); [done| |].
  - cbn. repeat split; done.
  - unfold tty1. rewrite Ew. exact Hs.
Qed.

Lemma backspace_loses_column_witness :
  ∃ s', terminal_backspace font0 tty1 = Done (tt, s') ∧ row s' = 1 ∧ column s' = 1.
Proof. refine (backspace_loses_column font0 3 4 _ _ _ _ tty1 text1 tty1_shows _ _ _ _ _); done. Defined.
