(* ===== verification/Printf.v ===== *)
(** * Formatted output (libc/stdio/printf.c)

    [format] with its [dump] callback, over any state that has a memory.  The
    variable arguments are a list; the two locals whose addresses are passed
    to [dump] ([c] and [buf]) have a stack slot each. *)
From S2P Require Import Prelude.
From S2P Require Import Layout.
From S2P Require Import Libc.
From S2P Require Import Tty.

Definition INT_MAX : Z := 2 ^ 31 - 1.
Definition EOF : Z := -1.
(** Conversion to [int]. *)
Definition s32 (z : Z) : Z := (z + 2 ^ 31) mod 2 ^ 32 - 2 ^ 31.

(** [while (formats[amount] && formats[amount] != '%') amount++]. *)
Fixpoint lit_amount (fuel : nat) (f amount : Z) : MEM Z :=
  match fuel with
  | O => out_of_fuel
  | S fuel =>
      b ← ldb (f + amount);
      if decide (b ≠ 0 ∧ b ≠ 37) then lit_amount fuel f (amount + 1) else mret amount
  end.

Definition is_number (c : Z) : Prop := c = 100 ∨ c = 105 ∨ c = 111 ∨ c = 120 ∨ c = 88.
#[export] Instance is_number_dec c : Decision (is_number c).
Proof. unfold is_number. apply _. Defined.

(** The base of a numeric conversion. *)
Definition number_base (c : Z) : Z := if decide (c = 100 ∨ c = 105) then 10 else if decide (c = 111) then 8 else 16.

Section format.
Context {S : Type} (lift_mem : ∀ A, MEM A → M S A).
Context (dump : Z → Z → Z → M S bool) (c_slot buf_slot : Z).
Abbreviation lift f := (lift_mem _ f).

(** Passing a chunk to [dump]: [false] is the error return. *)
Definition chunk (maxrem dest written p len : Z) (checked : bool) (k : M S Z) : M S Z :=
  if decide (checked ∧ maxrem < len) then mret (-1) else
  ok ← dump (dest + written) p len;
  if (ok : bool) then k else mret (-1).

Fixpoint format_loop (fuel : nat) (dest f written : Z) (args : list Z) : M S Z :=
  match fuel with
  | O => out_of_fuel
  | Datatypes.S fuel =>
      c ← lift (ldb f);
      if decide (c = 0) then mret written else
      let maxrem := w64 (INT_MAX - written) in
      b ← (if decide (c ≠ 37) then mret 0 else lift (ldb (f + 1)));
      if decide (c ≠ 37 ∨ b = 37) then
        let f := if decide (c = 37) then f + 1 else f in
        amount ← lift (m ← get; lit_amount (size m) f 1);
        chunk maxrem dest written f amount true
          (format_loop fuel dest (f + amount) (s32 (written + amount)) args)
      else if decide (b = 99) then
        match args with
        | [] => fault
        | a :: args =>
            lift (stb c_slot (w8 a));;
            chunk maxrem dest written c_slot 1 true (format_loop fuel dest (f + 2) (s32 (written + 1)) args)
        end
      else if decide (b = 115) then
        match args with
        | [] => fault
        | a :: args =>
            len ← lift (strlen a);
            chunk maxrem dest written a len true (format_loop fuel dest (f + 2) (s32 (written + len)) args)
        end
      else if decide (is_number b) then
        match args with
        | [] => fault
        | a :: args =>
            lift (memset buf_slot 0 13);;
            lift (itoa buf_slot (number_base b) (s32 a) (bool_decide (b = 88)));;
            len ← lift (strlen buf_slot);
            chunk maxrem dest written buf_slot len false (format_loop fuel dest (f + 2) (s32 (written + len)) args)
        end
      else
        len ← lift (strlen f);
        chunk maxrem dest written f len true (format_loop fuel dest (f + len) (s32 (written + len)) args)
  end.

(** Every iteration but the last consumes a byte of the format string. *)
Definition format (dest formats : Z) (parameters : list Z) : M S Z :=
  m ← lift get;
  format_loop (Datatypes.S (size m)) dest formats 0 parameters.
End format.

(** [vsprintf] and [sprintf], over memory. *)
Definition write_to_buf (dst src len : Z) : MEM bool := memcpy dst src len;; mret true.
Definition vsprintf (c_slot buf_slot str formats : Z) (ap : list Z) : MEM Z :=
  format (λ _ f, f) write_to_buf c_slot buf_slot str formats ap.
Definition sprintf (c_slot buf_slot str formats : Z) (parameters : list Z) : MEM Z :=
  vsprintf c_slot buf_slot str formats parameters.

(** [printf], over the terminal. *)
Section printf.
Context {E : Type} (font : pc_font).
Fixpoint print_loop (n : nat) (p : Z) : M (tty E) bool :=
  match n with
  | O => mret true
  | S n =>
      b ← on_mem (ldb p);
      r ← putchar font b;
      if decide (r = EOF) then mret false else print_loop n (p + 1)
  end.
Definition print (_ data length : Z) : M (tty E) bool := print_loop (Z.to_nat length) data.
Definition printf (c_slot buf_slot formats : Z) (parameters : list Z) : M (tty E) Z :=
  format (@on_mem E) print c_slot buf_slot 0 formats parameters.
End printf.

(** ** What a format string means *)

Section spec.
(** The strings that arguments point to. *)
Context (str : Z → option (list Z)).

Fixpoint fmt_spec (fs args : list Z) : option (list Z) :=
  match fs with
  | [] => Some []
  | c :: fs' =>
      if decide (c ≠ 37) then match fmt_spec fs' args with Some o => Some (c :: o) | None => None end else
      match fs' with
      | [] => Some [c]
      | b :: fs'' =>
          if decide (b = 37) then match fmt_spec fs'' args with Some o => Some (37 :: o) | None => None end else
          if decide (b = 99) then
            match args with
            | a :: args => match fmt_spec fs'' args with Some o => Some (w8 a :: o) | None => None end
            | [] => None
            end else
          if decide (b = 115) then
            match args with
            | a :: args =>
                match str a, fmt_spec fs'' args with Some l, Some o => Some (l ++ o) | _, _ => None end
            | [] => None
            end else
          if decide (is_number b) then
            match args with
            | a :: args =>
                match fmt_spec fs'' args with
                | Some o => Some (num_string (number_base b) (s32 a) (bool_decide (b = 88)) ++ o)
                | None => None
                end
            | [] => None
            end
          else Some fs
      end
  end.
End spec.

(** ** Scanning strings *)

Lemma at_length m a l : at_ m a l → (length l ≤ size m)%nat.
Proof.
  revert m a. induction l as [|x l IH]; intros m a Ha; cbn [length]; [lia|].
  apply at_cons in Ha as [Hx Hl].
  assert (at_ (delete a m) (a + 1) l) as Hd.
  { eapply at_frame; [exact Hl|]. intros b Hb. apply lookup_delete_ne. lia. }
  specialize (IH _ _ Hd). rewrite map_size_delete_Some in IH by eauto.
  assert (size m ≠ 0%nat) by (apply map_size_non_empty_iff; intros ->; by rewrite lookup_empty in Hx). lia.
Qed.

Lemma strlen_loop_run fuel m a l n :
  at_ m (a + n) (l ++ [0]) → 0 ∉ l → (length l < fuel)%nat →
  strlen_loop fuel a n m = Done (n + Z.of_nat (length l), m).
Proof.
  revert fuel n. induction l as [|x l IH]; intros [|fuel] n Ha Hn Hf; cbn [length app] in *; try lia; cbn [strlen_loop].
  all: apply at_cons in Ha as [Hx Ha]; rewrite (bind_done _ _ _ _ _ (ldb_run _ _ _ Hx)).
  - rewrite decide_True by done. by rewrite Z.add_0_r.
  - rewrite decide_False by set_solver. rewrite IH; [do 2 f_equal; lia| |set_solver|lia].
    by replace (a + (n + 1)) with (a + n + 1) by lia.
Qed.

Lemma strlen_run m a l : at_ m a (l ++ [0]) → 0 ∉ l → strlen a m = Done (Z.of_nat (length l), m).
Proof.
  intros Ha Hn. unfold strlen. rewrite (bind_done get _ _ _ _ eq_refl).
  rewrite (strlen_loop_run _ _ _ l 0); [done|by rewrite Z.add_0_r|done|].
  pose proof (at_length _ _ _ Ha) as Hl. rewrite length_app in Hl. cbn in Hl. lia.
Qed.

Lemma lit_amount_run fuel m f n l b :
  at_ m (f + n) (l ++ [b]) → 0 ∉ l → 37 ∉ l → b = 0 ∨ b = 37 → (length l < fuel)%nat →
  lit_amount fuel f n m = Done (n + Z.of_nat (length l), m).
Proof.
  intros Ha Hz Hp Hb. revert fuel n Ha. induction l as [|x l IH]; intros [|fuel] n Ha Hf; cbn [length app] in *; try lia; cbn [lit_amount].
  all: apply at_cons in Ha as [Hx Ha]; rewrite (bind_done _ _ _ _ _ (ldb_run _ _ _ Hx)).
  - rewrite decide_False by lia. by rewrite Z.add_0_r.
  - rewrite decide_True by set_solver. rewrite IH; [do 2 f_equal; lia|set_solver|set_solver| |lia].
    by replace (f + (n + 1)) with (f + n + 1) by lia.
Qed.

(** The literal run before the next ['%'] or the end. *)
Lemma literal_run fs :
  ∃ l rest, fs = l ++ rest ∧ 37 ∉ l ∧ (rest = [] ∨ ∃ r, rest = 37 :: r).
Proof.
  induction fs as [|c fs (l & rest & -> & Hl & Hr)]; [exists [], []; set_solver|].
  destruct (decide (c = 37)) as [->|Hc].
  - exists [], (37 :: l ++ rest). split_and!; [done|set_solver|eauto].
  - exists (c :: l), rest. split_and!; [done|set_solver|done].
Qed.

Lemma fmt_spec_literal str l rest args :
  37 ∉ l → fmt_spec str (l ++ rest) args = match fmt_spec str rest args with Some o => Some (l ++ o) | None => None end.
Proof.
  induction l as [|c l IH]; intros Hl; cbn [app]; [by destruct (fmt_spec str rest args)|].
  cbn [fmt_spec]. rewrite decide_True by set_solver. rewrite IH by set_solver. by destruct (fmt_spec str rest args).
Qed.

Lemma s32_small z : - 2 ^ 31 ≤ z < 2 ^ 31 → s32 z = z.
Proof. intros Hz. unfold s32. rewrite Z.mod_small by lia. lia. Qed.

Lemma s32_range z : - 2 ^ 31 ≤ s32 z < 2 ^ 31.
Proof. unfold s32. pose proof (Z.mod_pos_bound (z + 2 ^ 31) (2 ^ 32)). lia. Qed.

(** ** [format] over any state and any [dump] *)

Section format_proof.
Context {S : Type} (lift_mem : ∀ A, MEM A → M S A) (dump : Z → Z → Z → M S bool).
Context (c_slot buf_slot dest : Z) (str : Z → option (list Z)).
(** The memory of a state; the state after some output; the addresses that
    hold the format and the strings, in the memory [m0] of the call; the whole
    output. *)
Context (view : S → mem) (inv : S → list Z → Prop) (static : Z → Prop) (m0 : mem) (final : list Z).

Definition slot (a : Z) : Prop := a = c_slot ∨ buf_slot ≤ a < buf_slot + 13.

(** What [format] needs of its environment. *)
Record format_env : Prop := {
  fe_read A (f : MEM A) s a : f (view s) = Done (a, view s) → lift_mem A f s = Done (a, s);
  fe_write A (f : MEM A) s a m' out : inv s out → f (view s) = Done (a, m') →
    (∀ x, ¬ slot x → m' !! x = view s !! x) → (∀ x, is_Some (view s !! x) → is_Some (m' !! x)) →
    ∃ s', lift_mem A f s = Done (a, s') ∧ view s' = m' ∧ inv s' out;
  fe_dump s out p l : inv s out → at_ (view s) p l →
    (∀ i, 0 ≤ i < Z.of_nat (length l) → static (p + i) ∨ slot (p + i)) → (out ++ l) `prefix_of` final →
    ∃ s', dump (dest + Z.of_nat (length out)) p (Z.of_nat (length l)) s = Done (true, s') ∧ inv s' (out ++ l);
  fe_static s out a : inv s out → static a → view s !! a = m0 !! a;
  fe_slots s out : inv s out → has (view s) c_slot 1 ∧ has (view s) buf_slot 13;
  fe_final : Z.of_nat (length final) ≤ INT_MAX;
}.
Hypothesis env : format_env.

(** A string of the program's data. *)
Definition text_at (a : Z) (l : list Z) : Prop :=
  at_ m0 a (l ++ [0]) ∧ 0 ∉ l ∧ ∀ i, 0 ≤ i ≤ Z.of_nat (length l) → static (a + i).
Hypothesis str_ok : ∀ a l, str a = Some l → text_at a l.

Lemma text_view s out a l : inv s out → text_at a l → at_ (view s) a (l ++ [0]).
Proof.
  intros Hi (Ha & _ & Hs). eapply at_frame; [exact Ha|]. intros b Hb. apply (fe_static env s out); [done|].
  replace b with (a + (b - a)) by lia. apply Hs. rewrite length_app in Hb. cbn in Hb. lia.
Qed.

Lemma text_suffix a l r : text_at a (l ++ r) → text_at (a + Z.of_nat (length l)) r.
Proof.
  intros (Ha & Hz & Hs). rewrite <- app_assoc, at_app in Ha. split_and!; [apply Ha|set_solver|].
  intros i Hi. rewrite <- Z.add_assoc. apply Hs. rewrite length_app. lia.
Qed.

Lemma text_prefix_static a l r : text_at a (l ++ r) → ∀ i, 0 ≤ i < Z.of_nat (length l) → static (a + i) ∨ slot (a + i).
Proof. intros (_ & _ & Hs) i Hi. left. apply Hs. rewrite length_app. lia. Qed.

(** Output [l] from [p] and go on. *)
Lemma chunk_run s out p l checked k v :
  inv s out → at_ (view s) p l → (∀ i, 0 ≤ i < Z.of_nat (length l) → static (p + i) ∨ slot (p + i)) →
  (out ++ l) `prefix_of` final →
  (∀ s', inv s' (out ++ l) → ∃ s'', k (s32 (Z.of_nat (length out) + Z.of_nat (length l))) s' = Done (v, s'') ∧ inv s'' final) →
  ∃ s', chunk dump (w64 (INT_MAX - Z.of_nat (length out))) dest (Z.of_nat (length out)) p (Z.of_nat (length l)) checked
    (k (s32 (Z.of_nat (length out) + Z.of_nat (length l)))) s = Done (v, s') ∧ inv s' final.
Proof.
  intros Hi Ha Hs Hp Hk. pose proof (fe_final env) as Hf.
  pose proof (prefix_length _ _ Hp) as Hlen. rewrite length_app in Hlen.
  unfold chunk. rewrite decide_False.
  2: { intros [_ Hlt]. unfold INT_MAX in *. rewrite w64_small in Hlt by lia. lia. }
  destruct (fe_dump env s out p l Hi Ha Hs Hp) as (s1 & E1 & H1).
  rewrite (bind_done _ _ _ _ _ E1). by apply Hk.
Qed.

(** A run of literal text, as both literal cases output it. *)
Lemma literal_chunk_run s out f c l rest k v :
  inv s out → text_at f (c :: l ++ rest) → 37 ∉ l → (rest = [] ∨ ∃ r, rest = 37 :: r) →
  (out ++ c :: l) `prefix_of` final →
  (∀ s', inv s' (out ++ c :: l) → ∃ s'',
    k (f + Z.of_nat (length (c :: l))) (s32 (Z.of_nat (length out) + Z.of_nat (length (c :: l)))) s' = Done (v, s'') ∧ inv s'' final) →
  ∃ s', (amount ← lift_mem _ (m ← get; lit_amount (size m) f 1);
    chunk dump (w64 (INT_MAX - Z.of_nat (length out))) dest (Z.of_nat (length out)) f amount true
      (k (f + amount) (s32 (Z.of_nat (length out) + amount)))) s = Done (v, s') ∧ inv s' final.
Proof.
  intros Hi Ht Hl Hr Hp Hk. pose proof (text_view _ _ _ _ Hi Ht) as Ha.
  assert (lift_mem _ (m ← get; lit_amount (size m) f 1) s = Done (Z.of_nat (length (c :: l)), s)) as E1.
  { apply (fe_read env). rewrite (bind_done get _ _ _ _ eq_refl).
    assert (∃ b tl, rest ++ [0] = b :: tl ∧ (b = 0 ∨ b = 37)) as (b & tl & Eb & Hb).
    { destruct Hr as [->|[r ->]]; [exists 0, []|exists 37, (r ++ [0])]; auto. }
    cbn [app] in Ha. rewrite <- app_assoc, Eb in Ha. change (c :: l ++ b :: tl) with ((c :: l) ++ [b] ++ tl) in Ha.
    rewrite app_assoc, at_app in Ha. destruct Ha as [Ha _]. pose proof (at_length _ _ _ Ha) as Hsz.
    cbn [app] in Ha. apply at_cons in Ha as [_ Ha]. cbn in Hsz. rewrite length_app in Hsz. cbn in Hsz.
    rewrite (lit_amount_run _ _ f 1 l b); [cbn; do 2 f_equal; lia|done| |done|done|lia].
    destruct Ht as (_ & Hz & _). set_solver. }
  rewrite (bind_done _ _ _ _ _ E1).
  change (c :: l ++ rest) with ((c :: l) ++ rest) in Ht.
  apply (chunk_run s out f (c :: l) true (k (f + Z.of_nat (length (c :: l)))) v); [done| |by eapply text_prefix_static|done|done].
  change (c :: l ++ rest) with ((c :: l) ++ rest) in Ha. rewrite <- app_assoc, at_app in Ha. apply Ha.
Qed.

Lemma text_head s out a c l : inv s out → text_at a (c :: l) → lift_mem _ (ldb a) s = Done (c, s).
Proof.
  intros Hi Ht. apply (fe_read env), ldb_run. pose proof (text_view _ _ _ _ Hi Ht) as Ha.
  by apply at_cons in Ha as [Ha _].
Qed.

(** The byte after a ['%']: the next character, or the terminator. *)
Lemma text_second s out a c l :
  inv s out → text_at a (c :: l) → lift_mem _ (ldb (a + 1)) s = Done (match l with b :: _ => b | [] => 0 end, s).
Proof.
  intros Hi Ht. apply (fe_read env), ldb_run. pose proof (text_view _ _ _ _ Hi Ht) as Ha.
  apply at_cons in Ha as [_ Ha]. destruct l as [|b l]; by apply at_cons in Ha as [Ha _].
Qed.

(** The numeric conversions: the text of the number in [buf]. *)
Lemma number_run s out b a :
  inv s out → is_number b →
  ∃ s1, (∀ B (k : Z → M S B),
      (lift_mem _ (memset buf_slot 0 13);; lift_mem _ (itoa buf_slot (number_base b) (s32 a) (bool_decide (b = 88)));;
       len ← lift_mem _ (strlen buf_slot); k len) s
      = k (Z.of_nat (length (num_string (number_base b) (s32 a) (bool_decide (b = 88))))) s1) ∧
    inv s1 out ∧ at_ (view s1) buf_slot (num_string (number_base b) (s32 a) (bool_decide (b = 88))) ∧
    Z.of_nat (length (num_string (number_base b) (s32 a) (bool_decide (b = 88)))) ≤ 12.
Proof.
  intros Hi Hb. destruct (fe_slots env s out Hi) as [_ Hbuf].
  destruct (memset_run (view s) buf_slot 0 13) as (m1 & E1 & _ & [F1 D1]); [lia|done|].
  destruct (fe_write env _ _ s _ _ out Hi E1) as (s1 & R1 & V1 & H1); [intros x Hx; apply F1; unfold slot in Hx; lia|done|].
  destruct (itoa_run m1 buf_slot (number_base b) (s32 a) (bool_decide (b = 88))) as (ns & m2 & Hns & E2 & Hl & Ha & Hc & _ & F2).
  { unfold number_base. repeat case_decide; lia. }
  { apply s32_range. }
  { intros i Hi'. apply D1. by apply Hbuf. }
  rewrite <- V1 in E2.
  destruct (fe_write env _ _ s1 _ _ out H1 E2) as (s2 & R2 & V2 & H2).
  { intros x Hx. rewrite V1. apply F2. unfold slot in Hx. lia. }
  { intros x Hx. rewrite V1 in Hx. destruct (decide (buf_slot ≤ x ≤ buf_slot + Z.of_nat (length ns))).
    - replace x with (buf_slot + (x - buf_slot)) by lia. apply (at_has _ _ _ Ha). rewrite length_app. cbn. lia.
    - by rewrite F2. }
  assert (lift_mem _ (strlen buf_slot) s2 = Done (Z.of_nat (length ns), s2)) as R3.
  { apply (fe_read env), strlen_run; [by rewrite V2|]. intros Hz. rewrite Forall_forall in Hc. specialize (Hc 0 Hz). lia. }
  exists s2. rewrite <- Hns, V2. apply at_app in Ha as [Ha _]. split_and!; [|done|done|lia].
  intros B k. by rewrite (bind_done _ _ _ _ _ R1), (bind_done _ _ _ _ _ R2), (bind_done _ _ _ _ _ R3).
Qed.

(** What is left to do after the output [out]: [k], given the new count. *)
Definition resumes (k : Z → M S Z) (out : list Z) (v : Z) : Prop :=
  ∀ s, inv s out → ∃ s', k (s32 (Z.of_nat (length out))) s = Done (v, s') ∧ inv s' final.

Lemma resumes_app k out l v :
  resumes k (out ++ l) v → ∀ s, inv s (out ++ l) → ∃ s', k (s32 (Z.of_nat (length out) + Z.of_nat (length l))) s = Done (v, s') ∧ inv s' final.
Proof. intros Hk s Hi. destruct (Hk s Hi) as (s' & E & Hf). exists s'. rewrite length_app, Nat2Z.inj_add in E. done. Qed.

Abbreviation room out := (w64 (INT_MAX - Z.of_nat (length out))).
Abbreviation ch out p len checked k :=
  (chunk dump (room out) dest (Z.of_nat (length out)) p len checked (k (s32 (Z.of_nat (length out) + len)))).

(** The output of a whole string: ["%s"], and an unknown conversion. *)
Lemma string_run s out a l k v :
  inv s out → text_at a l → (out ++ l) `prefix_of` final → resumes (k (Z.of_nat (length l))) (out ++ l) v →
  ∃ s', (len ← lift_mem _ (strlen a); ch out a len true (k len)) s = Done (v, s') ∧ inv s' final.
Proof.
  intros Hi Ht Hp Hk. pose proof (text_view _ _ _ _ Hi Ht) as Ha.
  assert (lift_mem _ (strlen a) s = Done (Z.of_nat (length l), s)) as E1.
  { apply (fe_read env), strlen_run; [done|apply Ht]. }
  rewrite (bind_done _ _ _ _ _ E1).
  apply (chunk_run s out a l true (k (Z.of_nat (length l)))); [done|by apply at_app in Ha as [? _]| |done|by apply resumes_app].
  apply (text_prefix_static a l []). by rewrite app_nil_r.
Qed.

(** ["%c"]. *)
Lemma char_run s out a k v :
  inv s out → (out ++ [w8 a]) `prefix_of` final → resumes k (out ++ [w8 a]) v →
  ∃ s', (lift_mem _ (stb c_slot (w8 a));; ch out c_slot 1 true k) s = Done (v, s') ∧ inv s' final.
Proof.
  intros Hi Hp Hk. destruct (fe_slots env s out Hi) as [Hcs _].
  assert (is_Some (view s !! c_slot)) as Hcs' by (rewrite <- (Z.add_0_r c_slot); apply Hcs; lia).
  destruct (fe_write env _ _ s _ _ out Hi (stb_run _ _ (w8 a) Hcs')) as (s1 & R1 & V1 & H1).
  { intros x Hx. apply lookup_insert_ne. unfold slot in Hx. lia. }
  { intros x Hx. destruct (decide (c_slot = x)) as [->|]; [rewrite lookup_insert_eq; eauto|by rewrite lookup_insert_ne]. }
  rewrite (bind_done _ _ _ _ _ R1).
  apply (chunk_run s1 out c_slot [w8 a] true k); [done| | |done|by apply resumes_app].
  - rewrite V1, at_cons, lookup_insert_eq. auto using at_nil.
  - cbn. intros i Hi'. right. left. lia.
Qed.

(** A number. *)
Lemma number_chunk_run s out b a k v :
  let ns := num_string (number_base b) (s32 a) (bool_decide (b = 88)) in
  inv s out → is_number b → (out ++ ns) `prefix_of` final → resumes k (out ++ ns) v →
  ∃ s', (lift_mem _ (memset buf_slot 0 13);; lift_mem _ (itoa buf_slot (number_base b) (s32 a) (bool_decide (b = 88)));;
         len ← lift_mem _ (strlen buf_slot); ch out buf_slot len false k) s = Done (v, s') ∧ inv s' final.
Proof.
  intros ns Hi Hn Hp Hk. destruct (number_run s out b a Hi Hn) as (s1 & -> & H1 & Ha & Hl). fold ns in Ha, Hl |- *.
  apply (chunk_run s1 out buf_slot ns false k); [done|done| |done|by apply resumes_app].
  intros i Hi'. right. right. lia.
Qed.

Lemma format_loop_run fuel fs f out args r s :
  text_at f fs → (length fs < fuel)%nat → inv s out → fmt_spec str fs args = Some r → out ++ r = final →
  ∃ s', format_loop lift_mem dump c_slot buf_slot fuel dest f (Z.of_nat (length out)) args s
    = Done (Z.of_nat (length final), s') ∧ inv s' final.
Proof.
  revert fs f out args r s. induction fuel as [|fuel IH]; intros fs f out args r s Ht Hfuel Hi Hr Hfin; [lia|].
  cbn [format_loop]. pose proof (fe_final env) as Hmax. unfold INT_MAX in Hmax.
  destruct fs as [|c fs'].
  { assert (lift_mem _ (ldb f) s = Done (0, s)) as E1.
    { apply (fe_read env), ldb_run. pose proof (text_view _ _ _ _ Hi Ht) as Ha. by apply at_cons in Ha as [Ha _]. }
    rewrite (bind_done _ _ _ _ _ E1), decide_True by done. cbn in Hr. simplify_eq. rewrite app_nil_r in Hfin. exists s. by rewrite <- Hfin. }
  assert (c ≠ 0) as Hc0 by (destruct Ht as (_ & Hz & _); set_solver).
  rewrite (bind_done _ _ _ _ _ (text_head _ _ _ _ _ Hi Ht)), decide_False by done. cbv zeta.
  assert (∀ l rest args' l' r', c :: fs' = l ++ rest → l ≠ [] → fmt_spec str rest args' = Some r' → r = l' ++ r' →
    (out ++ l') `prefix_of` final ∧
    resumes (λ w, format_loop lift_mem dump c_slot buf_slot fuel dest (f + Z.of_nat (length l)) w args')
      (out ++ l') (Z.of_nat (length final))) as Hrest.
  { intros l rest args' l' r' El Hne Hr' ->. rewrite app_assoc in Hfin. split; [by exists r'|].
    intros s' Hi'. rewrite El in Ht, Hfuel. rewrite length_app in Hfuel.
    rewrite s32_small by (rewrite <- Hfin, length_app in Hmax; lia).
    apply (IH rest _ _ args' r'); [by apply text_suffix| |done|done|done]. destruct l; [done|]. cbn in Hfuel. lia. }
  destruct (decide (c ≠ 37)) as [Hc|Hc].
  { step. rewrite decide_True by auto. rewrite decide_False by done.
    destruct (literal_run fs') as (l & rest & -> & Hl & Hrt).
    change (c :: l ++ rest) with ((c :: l) ++ rest) in Hr. rewrite fmt_spec_literal in Hr by set_solver.
    destruct (fmt_spec str rest args) as [o|] eqn:Eo; simplify_eq.
    destruct (Hrest (c :: l) rest args (c :: l) o) as [Hp Hk]; [done..|].
    apply (literal_chunk_run s out f c l rest (λ f w, format_loop lift_mem dump c_slot buf_slot fuel dest f w args));
      [done|done|done|done|done|exact (resumes_app _ _ _ _ Hk)]. }
  assert (c = 37) as -> by lia.
  rewrite (bind_done _ _ _ _ _ (text_second _ _ _ _ _ Hi Ht)).
  cbn [fmt_spec] in Hr. rewrite decide_False in Hr by tauto.
  (* the rest of the format, verbatim: an unknown conversion or a lone '%' *)
  assert (r = 37 :: fs' → ∃ s', (len ← lift_mem _ (strlen f); ch out f len true
      (λ w, format_loop lift_mem dump c_slot buf_slot fuel dest (f + len) w args)) s
    = Done (Z.of_nat (length final), s') ∧ inv s' final) as Hverb.
  { intros ->. destruct (Hrest (37 :: fs') [] args (37 :: fs') []) as [Hp Hk]; [by rewrite app_nil_r|done|done|by rewrite app_nil_r|].
    by apply (string_run s out f (37 :: fs') (λ len w, format_loop lift_mem dump c_slot buf_slot fuel dest (f + len) w args)). }
  destruct fs' as [|b fs''].
  { rewrite !decide_False by first [lia|unfold is_number; lia]. simplify_eq. by apply Hverb. }
  destruct (decide (b = 37)) as [->|Hb].
  { rewrite decide_True by auto. rewrite decide_True by done.
    destruct (literal_run fs'') as (l & rest & -> & Hl & Hrt). rewrite fmt_spec_literal in Hr by done.
    destruct (fmt_spec str rest args) as [o|] eqn:Eo; simplify_eq.
    destruct (Hrest (37 :: 37 :: l) rest args (37 :: l) o) as [Hp Hk]; [done..|].
    apply (literal_chunk_run s out (f + 1) 37 l rest (λ f w, format_loop lift_mem dump c_slot buf_slot fuel dest f w args));
      [done|exact (text_suffix f [37] _ Ht)|done|done|done|].
    replace (f + 1 + Z.of_nat (length (37 :: l))) with (f + Z.of_nat (length (37 :: 37 :: l))) by (cbn; lia).
    exact (resumes_app _ _ _ _ Hk). }
  rewrite decide_False by lia.
  destruct (decide (b = 99)) as [->|Hbc].
  { destruct args as [|a args']; [done|]. destruct (fmt_spec str fs'' args') as [o|] eqn:Eo; simplify_eq.
    destruct (Hrest [37; 99] fs'' args' [w8 a] o) as [Hp Hk]; [done..|].
    by apply (char_run s out a (λ w, format_loop lift_mem dump c_slot buf_slot fuel dest (f + 2) w args')). }
  destruct (decide (b = 115)) as [->|Hbs].
  { destruct args as [|a args']; [done|]. destruct (str a) as [l|] eqn:El; [|done].
    destruct (fmt_spec str fs'' args') as [o|] eqn:Eo; simplify_eq.
    destruct (Hrest [37; 115] fs'' args' l o) as [Hp Hk]; [done..|].
    apply (string_run s out a l (λ _ w, format_loop lift_mem dump c_slot buf_slot fuel dest (f + 2) w args'));
      [done|by apply str_ok|done|done]. }
  destruct (decide (is_number b)) as [Hn|Hn]; [|simplify_eq; by apply Hverb].
  destruct args as [|a args']; [done|]. destruct (fmt_spec str fs'' args') as [o|] eqn:Eo; simplify_eq.
  destruct (Hrest [37; b] fs'' args' (num_string (number_base b) (s32 a) (bool_decide (b = 88))) o) as [Hp Hk]; [done..|].
  by apply (number_chunk_run s out b a (λ w, format_loop lift_mem dump c_slot buf_slot fuel dest (f + 2) w args')).
Qed.

Lemma format_run f fs args s :
  text_at f fs → inv s [] → fmt_spec str fs args = Some final →
  ∃ s', format lift_mem dump c_slot buf_slot dest f args s = Done (Z.of_nat (length final), s') ∧ inv s' final.
Proof.
  intros Ht Hi Hr. unfold format.
  rewrite (bind_done _ _ _ (view s) s); [|by apply (fe_read env)].
  apply (format_loop_run _ fs f [] args final); [done| |done|done|done].
  pose proof (at_length _ _ _ (text_view _ _ _ _ Hi Ht)) as Hl. rewrite length_app in Hl. cbn in Hl. lia.
Qed.
End format_proof.

(** ** [sprintf] *)

Section sprintf.
Context (m0 : mem) (c_slot buf_slot dest : Z) (out : list Z).
Abbreviation slot := (slot c_slot buf_slot).

(** The bytes [sprintf] may write. *)
Definition busy (a : Z) : Prop := dest ≤ a < dest + Z.of_nat (length out) ∨ slot a.

(** Where the call has got to. *)
Definition written (m : mem) (done : list Z) : Prop :=
  at_ m dest done ∧ done `prefix_of` out ∧ (∀ a, ¬ busy a → m !! a = m0 !! a) ∧ (∀ a, is_Some (m0 !! a) → is_Some (m !! a)).

Record sprintf_env : Prop := {
  se_dest : has m0 dest (Z.of_nat (length out));
  se_slots : has m0 c_slot 1 ∧ has m0 buf_slot 13;
  se_apart a : slot a → ¬ (dest ≤ a < dest + Z.of_nat (length out));
  se_max : Z.of_nat (length out) ≤ INT_MAX;
}.

Lemma region_apart p d n k :
  0 ≤ n → d + n ≤ dest + k → dest ≤ d → (∀ i, 0 ≤ i < n → ¬ (dest ≤ p + i < dest + k)) → d + n ≤ p ∨ p + n ≤ d.
Proof.
  intros Hn Hd Hd' Hp. destruct (decide (d + n ≤ p ∨ p + n ≤ d)) as [|Hov]; [done|]. exfalso.
  apply (Hp (Z.max p d - p)); lia.
Qed.

Lemma sprintf_format_env :
  sprintf_env → format_env (λ _ f, f) write_to_buf c_slot buf_slot dest (λ m, m) written (λ a, ¬ busy a) m0 out.
Proof.
  intros Hse. split; [done| | | | |apply Hse].
  - intros A f m a m' o (Ha & Hp & Hf & Hd) E Hs Hdom. exists m'. split_and!; [done|done|].
    apply prefix_length in Hp as Hlen. split_and!; [|done| |auto].
    + eapply at_frame; [exact Ha|]. intros b Hb. apply Hs. intros Hb'. apply (se_apart Hse) in Hb'. lia.
    + intros x Hx. rewrite Hs; [by apply Hf|]. unfold busy in Hx. tauto.
  - intros m o p l (Ha & Hp & Hf & Hd) Hl Hsrc Hpre. apply prefix_length in Hpre as Hlen. rewrite length_app in Hlen.
    assert (∀ a n, has m0 a n → has m a n) as Hhas by (intros; by eapply has_frame).
    destruct (memcpy_run m (dest + Z.of_nat (length o)) p (Z.of_nat (length l))) as (m' & E & Hc & T).
    + lia.
    + eapply has_mono; [apply Hhas, Hse|lia|lia].
    + by apply at_has.
    + apply (region_apart _ _ _ (Z.of_nat (length out))); [lia|lia|lia|].
      intros i Hi Hb. destruct (Hsrc i Hi) as [Hn|Hn]; [apply Hn; by left|]. by apply (se_apart Hse) in Hn.
    + exists m'. unfold write_to_buf. rewrite (bind_done _ _ _ _ _ E). split; [done|]. destruct T as [T Td].
      split_and!; [|done| |auto].
      * apply at_app. split; [eapply at_frame; [exact Ha|]; intros b Hb; apply T; lia|].
        intros i x Hi. rewrite Hc by (apply lookup_lt_Some in Hi; lia). by apply Hl.
      * intros a Ha'. rewrite T; [by apply Hf|]. unfold busy in Ha'. lia.
  - intros m o a (_ & _ & Hf & _). apply Hf.
  - intros m o (_ & _ & _ & Hd). destruct (se_slots Hse). split; by eapply has_frame.
Qed.

Lemma sprintf_run str f fs args :
  sprintf_env → fmt_spec str fs args = Some out →
  text_at (λ a, ¬ busy a) m0 f fs →
  (∀ a l, str a = Some l → text_at (λ a, ¬ busy a) m0 a l) →
  ∃ m', sprintf c_slot buf_slot dest f args m0 = Done (Z.of_nat (length out), m') ∧
    at_ m' dest out ∧ (∀ a, ¬ busy a → m' !! a = m0 !! a) ∧ (∀ a, is_Some (m0 !! a) → is_Some (m' !! a)).
Proof.
  intros Hse Hr Ht Hs.
  destruct (format_run (λ _ f, f) write_to_buf c_slot buf_slot dest str (λ m, m) written (λ a, ¬ busy a) m0 out
    (sprintf_format_env Hse) Hs f fs args m0) as (m' & E & Ha & _ & Hf & Hd); [done| |done|by exists m'].
  split_and!; [apply at_nil|apply prefix_nil|done|done].
Qed.

(** C27: [sprintf] writes exactly the text its format string and arguments
    describe: literal text, ["%%"], ["%c"], ["%s"], the numeric conversions,
    and the rest of the format verbatim at an unknown conversion.  It returns
    the length and changes no byte beyond the text (so the result is not
    terminated by this call). *)
Theorem sprintf_writes str f fs args :
  sprintf_env → fmt_spec str fs args = Some out →
  text_at (λ a, ¬ busy a) m0 f fs →
  (∀ a l, str a = Some l → text_at (λ a, ¬ busy a) m0 a l) →
  ∃ m', sprintf c_slot buf_slot dest f args m0 = Done (Z.of_nat (length out), m') ∧
    at_ m' dest out ∧ (∀ a, ¬ busy a → m' !! a = m0 !! a).
Proof.
  intros Hse Hr Ht Hs. destruct (sprintf_run str f fs args Hse Hr Ht Hs) as (m' & E & Ha & Hf & _). by exists m'.
Qed.
End sprintf.

(** ** [printf] on the terminal *)

Section printf_tty.
Context {E : Type} (font : pc_font) (W H : Z) (D : framebuffer) (B F : Z).
Context (m0 : mem) (c_slot buf_slot : Z) (t0 : text) (out : list Z).
Abbreviation slot := (slot c_slot buf_slot).
Abbreviation outside := (outside W H D B).
Implicit Type s : tty E.

(** Data that neither the terminal nor [format] writes. *)
Definition quiet (a : Z) : Prop := outside a ∧ ¬ slot a.

Definition printed s (done : list Z) : Prop :=
  shows font W H D B F (tm s) s (fold_left (text_write W H) done t0) ∧
  t_row (fold_left (text_write W H) done t0) < H ∧ done `prefix_of` out ∧
  (done ≠ [] → displays font s (fold_left (text_write W H) done t0)) ∧
  (∀ a, quiet a → tm s !! a = m0 !! a) ∧ (∀ a, slot a → is_Some (tm s !! a)).

Record printf_env : Prop := {
  pe_slots a : slot a → outside a;
  pe_font i : 0 ≤ i < 128 * bytesperglyph font → ¬ slot (F + i);
  pe_join : no_join W H t0 out;
  pe_max : Z.of_nat (length out) ≤ INT_MAX;
}.

Lemma shows_rebase base s t : shows font W H D B F base s t → shows font W H D B F (tm s) s t.
Proof. intros ([] & ?). by split. Qed.

Lemma no_join_app t l k : no_join W H t (l ++ k) → no_join W H t l ∧ no_join W H (fold_left (text_write W H) l t) k.
Proof. revert t. induction l as [|x l IH]; intros t; cbn; [done|]. intros [? []%IH]. auto. Qed.

(** The writes of [format] to its locals leave the terminal alone. *)
Lemma shows_slots s t m' :
  (∀ a, slot a → outside a) → shows font W H D B F (tm s) s t →
  (∀ x, ¬ slot x → m' !! x = tm s !! x) → (∀ x, is_Some (tm s !! x) → is_Some (m' !! x)) →
  shows font W H D B F m' (set_tm m' s) t.
Proof.
  intros Hsl Hs Hm Hd. pose proof Hs as (Hok & Hc & Hrest). split; [|split; [|exact Hrest]].
  - pose proof Hok as [[] ??????????]. split; [by split|done|done|by eapply has_frame|by eapply has_frame|done|done|done|done|done|done].
  - intros r c Hr Hc'. change (cell (set_tm m' s) r c) with (cell s r c). cbn. rewrite Hm; [by apply Hc|].
    intros Hb. apply Hsl in Hb as [_ Hb]. apply Hb. rewrite <- (ok_buffer _ _ _ _ _ _ _ _ Hok).
    apply cell_range; [done|done|apply Hok].
Qed.

Lemma on_mem_done {A} (f : MEM A) s a m' : f (tm s) = Done (a, m') → on_mem f s = Done (a, set_tm m' s).
Proof. intros Hf. unfold on_mem, zoom. by rewrite Hf. Qed.

Lemma on_mem_read {A} (f : MEM A) s a : f (tm s) = Done (a, tm s) → on_mem f s = Done (a, s).
Proof. intros Hf. erewrite on_mem_done by done. by destruct s. Qed.

(** [print] writes the bytes one after the other. *)
Lemma print_loop_run l p s done :
  printf_env → printed s done → at_ (tm s) p l →
  (∀ i, 0 ≤ i < Z.of_nat (length l) → quiet (p + i) ∨ slot (p + i)) → (done ++ l) `prefix_of` out →
  ∃ s', print_loop font (length l) p s = Done (true, s') ∧ printed s' (done ++ l).
Proof.
  intros Hpe. revert p s done. induction l as [|x l IH]; intros p s done Hp Ha Hq Hpre.
  { exists s. by rewrite app_nil_r. }
  cbn [print_loop length] in *. apply at_cons in Ha as [Hx Ha].
  rewrite (bind_done _ _ _ _ _ (on_mem_read _ s _ (ldb_run _ _ _ Hx))).
  pose proof Hp as (Hs & Hr & _ & _ & Hquiet & Hslots).
  assert (no_join W H (fold_left (text_write W H) done t0) (x :: l)) as [[Hb Hj] _].
  { destruct Hpre as [k Ek]. pose proof (pe_join Hpe) as Hall. rewrite Ek in Hall.
    apply no_join_app in Hall as [Hall _]. by apply no_join_app in Hall as [_ ?]. }
  destruct (write_run font W H D B F (tm s) s _ x Hs Hr Hb Hj) as (s1 & E1 & Hs1 & Hd1).
  pose proof (ok_rest _ _ _ _ _ _ _ _ (proj1 Hs1)) as Hrest. cbn in Hrest.
  unfold putchar. rewrite bind_assoc, (bind_done _ _ _ _ _ E1). step.
  rewrite decide_False by (unfold EOF; lia).
  replace (done ++ x :: l) with ((done ++ [x]) ++ l) in * by by rewrite <- app_assoc.
  assert (∀ i, 0 ≤ i < Z.of_nat (length l) → outside (p + 1 + i)) as Hout.
  { intros i Hi. rewrite <- Z.add_assoc. destruct (Hq (1 + i)) as [[? _]|?]; [lia|done|by apply (pe_slots Hpe)]. }
  apply (IH (p + 1) s1 (done ++ [x])).
  - destruct (shows_dims _ _ _ _ _ _ _ _ _ Hs) as [_ HH].
    split_and!.
    + rewrite fold_left_app. cbn. by eapply shows_rebase.
    + rewrite fold_left_app. cbn. apply text_write_row; [done|]. pose proof Hs as (_ & _ & _ & _ & ? & _). lia.
    + etrans; [|exact Hpre]. by apply prefix_app_r.
    + intros _. by rewrite fold_left_app.
    + intros a Hqa. rewrite Hrest by apply Hqa. by apply Hquiet.
    + intros a Hsa. rewrite Hrest by by apply (pe_slots Hpe). by apply Hslots.
  - eapply at_frame; [exact Ha|]. intros b Hb'. apply Hrest. replace b with (p + 1 + (b - (p + 1))) by lia. apply Hout. lia.
  - intros i Hi. rewrite <- Z.add_assoc. apply Hq. lia.
  - done.
Qed.

Lemma printf_format_env :
  printf_env → format_env (@on_mem E) (print font) c_slot buf_slot 0 tm printed quiet m0 out.
Proof.
  intros Hpe. split; [intros; by apply on_mem_read| | | | |apply Hpe].
  - intros A f s a m' o (Hs & Hr & Hp & Hdi & Hq & Hsl) Hf Hm Hd. exists (set_tm m' s). split; [by apply on_mem_done|].
    split; [done|]. split_and!; [|done|done| | |].
    + eapply shows_slots; [apply Hpe|done|done|done].
    + intros Ho. eapply displays_keeps; [exact Hs|by apply Hdi| |].
      * intros b Hb. apply Hm. intros Hsb. by apply (pe_slots Hpe) in Hsb as [? _].
      * intros i Hi. by apply Hm, (pe_font Hpe).
    + intros x [Hx Hns]. cbn. rewrite Hm by done. by apply Hq.
    + intros x Hx. apply Hd, Hsl, Hx.
  - intros s o p l Hp Ha Hq Hpre. unfold print. rewrite Nat2Z.id. by apply print_loop_run.
  - intros s o a (_ & _ & _ & _ & Hq & _). apply Hq.
  - intros s o (_ & _ & _ & _ & _ & Hsl). split; intros i Hi; apply Hsl; unfold Printf.slot; lia.
Qed.

Lemma printf_run str f fs args s :
  printf_env → shows font W H D B F m0 s t0 → tm s = m0 → t_row t0 < H → (∀ a, slot a → is_Some (m0 !! a)) →
  fmt_spec str fs args = Some out → text_at quiet m0 f fs →
  (∀ a l, str a = Some l → text_at quiet m0 a l) →
  ∃ s', printf font c_slot buf_slot f args s = Done (Z.of_nat (length out), s') ∧ printed s' out.
Proof.
  intros Hpe Hs Hm Hr Hsl Hspec Ht Hstr.
  apply (format_run (@on_mem E) (print font) c_slot buf_slot 0 str tm printed quiet m0 out
    (printf_format_env Hpe) Hstr f fs args s); [done| |done].
  rewrite <- Hm in Hs, Hsl. split_and!; [done|done|apply prefix_nil|done|by rewrite Hm|done].
Qed.
End printf_tty.

(** ** An example in memory *)

Fixpoint bytes_at (a : Z) (l : list Z) (m : mem) : mem :=
  match l with [] => m | x :: l => <[a := x]> (bytes_at (a + 1) l m) end.

Fixpoint at_check (m : mem) (a : Z) (l : list Z) : bool :=
  match l with [] => true | x :: l => bool_decide (m !! a = Some x) && at_check m (a + 1) l end.

Lemma at_check_true m a l : at_check m a l = true → at_ m a l.
Proof.
  revert a. induction l as [|x l IH]; intros a; cbn; [intros; apply at_nil|].
  rewrite andb_true_iff, bool_decide_eq_true, at_cons. intros [? ?%IH]. done.
Qed.

Lemma has_check m a n : forallb (λ b, bool_decide (is_Some (m !! b))) (byte_range a n) = true → has m a n.
Proof.
  rewrite forallb_forall. intros Hb i Hi. apply (bool_decide_eq_true (is_Some (m !! (a + i)))), Hb.
  apply list_elem_of_In, byte_range_in. lia.
Qed.

(** The format "%s=%d%%" at 500, the string "ab" at 600, 32 bytes at 700 for
    the result, the locals at 800 and 810. *)
Definition fmt0 : list Z := [37; 115; 61; 37; 100; 37; 37].
Definition smem : mem :=
  bytes_at 500 (fmt0 ++ [0]) (bytes_at 600 [97; 98; 0]
    (zeroed ∅ (byte_range 700 32 ++ byte_range 800 1 ++ byte_range 810 13))).
Definition str0 (a : Z) : option (list Z) := if decide (a = 600) then Some [97; 98] else None.

Lemma sprintf_writes_witness :
  let out := [97; 98; 61; 45; 52; 50; 37] in
  ∃ m', sprintf 800 810 700 500 [600; -42] smem = Done (Z.of_nat (length out), m') ∧
    at_ m' 700 out ∧ (∀ a, ¬ busy 800 810 700 out a → m' !! a = smem !! a).
Proof.
  refine (sprintf_writes smem 800 810 700 _ str0 500 fmt0 [600; -42] _ _ _ _).
  - split; [by apply has_check; vm_compute|split; by apply has_check; vm_compute| |done].
    cbn. intros a [->|?]; lia.
  - by vm_compute.
  - split_and!; [by apply at_check_true; vm_compute|by apply (bool_decide_unpack _)|].
    cbn. intros i Hi [?|[?|?]]; lia.
  - intros a l. unfold str0. case_decide as Ha; [|done]. intros [= <-]. subst a.
    split_and!; [by apply at_check_true; vm_compute|by apply (bool_decide_unpack _)|].
    cbn. intros i Hi [?|[?|?]]; lia.
Defined.
