(* ===== verification/Keyboard.v ===== *)
(** * The keyboard (kernel/driver/keyboard, keyboard.h)

    The PS/2 driver: initialisation, the decoder of scan code set 1 and the
    translation of key codes to characters printed on the terminal.  The I/O
    ports are an interface, [Ports]: the device is outside the program. *)
From S2P Require Import Prelude.
From S2P Require Import Layout.
From S2P Require Import Libc.
From S2P Require Import Tty.
From S2P Require Import Printf.

(** The instructions [inb] and [outb] on a device. *)
Class Ports (V : Type) := {
  port_in : Z → V → Z * V;
  port_out : Z → Z → V → V;
}.

(** [enum scancode]. *)
Inductive scancode :=
  | IGNORED | SCANCODE_ESC | SCANCODE_1 | SCANCODE_2 | SCANCODE_3 | SCANCODE_4 | SCANCODE_5
  | SCANCODE_6 | SCANCODE_7 | SCANCODE_8 | SCANCODE_9 | SCANCODE_0 | SCANCODE_MINUS
  | SCANCODE_EQUALS | SCANCODE_BACKSPACE | SCANCODE_TAB | SCANCODE_Q | SCANCODE_W | SCANCODE_E
  | SCANCODE_R | SCANCODE_T | SCANCODE_Y | SCANCODE_U | SCANCODE_I | SCANCODE_O | SCANCODE_P
  | SCANCODE_LBRAKET | SCANCODE_RBRAKET | SCANCODE_RETURN | SCANCODE_LCTRL | SCANCODE_A
  | SCANCODE_S | SCANCODE_D | SCANCODE_F | SCANCODE_G | SCANCODE_H | SCANCODE_J | SCANCODE_K
  | SCANCODE_L | SCANCODE_SEMI_COLON | SCANCODE_QUOTE | SCANCODE_BACKTICK | SCANCODE_LSHIFT
  | SCANCODE_BACKSLASH | SCANCODE_Z | SCANCODE_X | SCANCODE_C | SCANCODE_V | SCANCODE_B
  | SCANCODE_N | SCANCODE_M | SCANCODE_COMMA | SCANCODE_DOT | SCANCODE_SLASH | SCANCODE_RSHIFT
  | SCANCODE_KEYPAD_MULT | SCANCODE_LALT | SCANCODE_SPACE | SCANCODE_CAPS_LOCK | SCANCODE_F1
  | SCANCODE_F2 | SCANCODE_F3 | SCANCODE_F4 | SCANCODE_F5 | SCANCODE_F6 | SCANCODE_F7
  | SCANCODE_F8 | SCANCODE_F9 | SCANCODE_F10 | SCANCODE_NUMLOCK | SCANCODE_SCROLL_LOCK
  | SCANCODE_KEYPAD_7 | SCANCODE_KEYPAD_8 | SCANCODE_KEYPAD_9 | SCANCODE_KEYPAD_MINUS
  | SCANCODE_KEYPAD_4 | SCANCODE_KEYPAD_5 | SCANCODE_KEYPAD_6 | SCANCODE_KEYPAD_PLUS
  | SCANCODE_KEYPAD_1 | SCANCODE_KEYPAD_2 | SCANCODE_KEYPAD_3 | SCANCODE_KEYPAD_0
  | SCANCODE_KEYPAD_DOT | SCANCODE_F11 | SCANCODE_F12.

(** The key codes of keyboard.h that scan code set 1 reaches. *)
Inductive keycode :=
  | KEY_RESERVED | KEY_ESC | KEY_1 | KEY_2 | KEY_3 | KEY_4 | KEY_5 | KEY_6 | KEY_7 | KEY_8
  | KEY_9 | KEY_0 | KEY_MINUS | KEY_EQUAL | KEY_BACKSPACE | KEY_TAB | KEY_Q | KEY_W | KEY_E
  | KEY_R | KEY_T | KEY_Y | KEY_U | KEY_I | KEY_O | KEY_P | KEY_LEFTBRACE | KEY_RIGHTBRACE
  | KEY_ENTER | KEY_LEFTCTRL | KEY_A | KEY_S | KEY_D | KEY_F | KEY_G | KEY_H | KEY_J | KEY_K
  | KEY_L | KEY_SEMICOLON | KEY_APOSTROPHE | KEY_GRAVE | KEY_LEFTSHIFT | KEY_BACKSLASH | KEY_Z
  | KEY_X | KEY_C | KEY_V | KEY_B | KEY_N | KEY_M | KEY_COMMA | KEY_DOT | KEY_SLASH
  | KEY_RIGHTSHIFT | KEY_KPASTERISK | KEY_LEFTALT | KEY_SPACE | KEY_CAPSLOCK | KEY_F1 | KEY_F2
  | KEY_F3 | KEY_F4 | KEY_F5 | KEY_F6 | KEY_F7 | KEY_F8 | KEY_F9 | KEY_F10 | KEY_NUMLOCK
  | KEY_SCROLLLOCK | KEY_KP7 | KEY_KP8 | KEY_KP9 | KEY_KPMINUS | KEY_KP4 | KEY_KP5 | KEY_KP6
  | KEY_KPPLUS | KEY_KP1 | KEY_KP2 | KEY_KP3 | KEY_KP0 | KEY_KPDOT | KEY_F11 | KEY_F12.

(** The values of the enumerators. *)
Definition scancode_value (s : scancode) : Z :=
  match s with
  | IGNORED => 0 | SCANCODE_ESC => 1 | SCANCODE_1 => 2 | SCANCODE_2 => 3 | SCANCODE_3 => 4
  | SCANCODE_4 => 5 | SCANCODE_5 => 6 | SCANCODE_6 => 7 | SCANCODE_7 => 8 | SCANCODE_8 => 9
  | SCANCODE_9 => 10 | SCANCODE_0 => 11 | SCANCODE_MINUS => 12 | SCANCODE_EQUALS => 13
  | SCANCODE_BACKSPACE => 14 | SCANCODE_TAB => 15 | SCANCODE_Q => 16 | SCANCODE_W => 17
  | SCANCODE_E => 18 | SCANCODE_R => 19 | SCANCODE_T => 20 | SCANCODE_Y => 21
  | SCANCODE_U => 22 | SCANCODE_I => 23 | SCANCODE_O => 24 | SCANCODE_P => 25
  | SCANCODE_LBRAKET => 26 | SCANCODE_RBRAKET => 27 | SCANCODE_RETURN => 28
  | SCANCODE_LCTRL => 29 | SCANCODE_A => 30 | SCANCODE_S => 31 | SCANCODE_D => 32
  | SCANCODE_F => 33 | SCANCODE_G => 34 | SCANCODE_H => 35 | SCANCODE_J => 36
  | SCANCODE_K => 37 | SCANCODE_L => 38 | SCANCODE_SEMI_COLON => 39 | SCANCODE_QUOTE => 40
  | SCANCODE_BACKTICK => 41 | SCANCODE_LSHIFT => 42 | SCANCODE_BACKSLASH => 43
  | SCANCODE_Z => 44 | SCANCODE_X => 45 | SCANCODE_C => 46 | SCANCODE_V => 47
  | SCANCODE_B => 48 | SCANCODE_N => 49 | SCANCODE_M => 50 | SCANCODE_COMMA => 51
  | SCANCODE_DOT => 52 | SCANCODE_SLASH => 53 | SCANCODE_RSHIFT => 54
  | SCANCODE_KEYPAD_MULT => 55 | SCANCODE_LALT => 56 | SCANCODE_SPACE => 57
  | SCANCODE_CAPS_LOCK => 58 | SCANCODE_F1 => 59 | SCANCODE_F2 => 60 | SCANCODE_F3 => 61
  | SCANCODE_F4 => 62 | SCANCODE_F5 => 63 | SCANCODE_F6 => 64 | SCANCODE_F7 => 65
  | SCANCODE_F8 => 66 | SCANCODE_F9 => 67 | SCANCODE_F10 => 68 | SCANCODE_NUMLOCK => 69
  | SCANCODE_SCROLL_LOCK => 70 | SCANCODE_KEYPAD_7 => 71 | SCANCODE_KEYPAD_8 => 72
  | SCANCODE_KEYPAD_9 => 73 | SCANCODE_KEYPAD_MINUS => 74 | SCANCODE_KEYPAD_4 => 75
  | SCANCODE_KEYPAD_5 => 76 | SCANCODE_KEYPAD_6 => 77 | SCANCODE_KEYPAD_PLUS => 78
  | SCANCODE_KEYPAD_1 => 79 | SCANCODE_KEYPAD_2 => 80 | SCANCODE_KEYPAD_3 => 81
  | SCANCODE_KEYPAD_0 => 82 | SCANCODE_KEYPAD_DOT => 83 | SCANCODE_F11 => 87
  | SCANCODE_F12 => 88
  end.

Definition keycode_value (k : keycode) : Z :=
  match k with
  | KEY_RESERVED => 0 | KEY_ESC => 1 | KEY_1 => 2 | KEY_2 => 3 | KEY_3 => 4 | KEY_4 => 5
  | KEY_5 => 6 | KEY_6 => 7 | KEY_7 => 8 | KEY_8 => 9 | KEY_9 => 10 | KEY_0 => 11
  | KEY_MINUS => 12 | KEY_EQUAL => 13 | KEY_BACKSPACE => 14 | KEY_TAB => 15 | KEY_Q => 16
  | KEY_W => 17 | KEY_E => 18 | KEY_R => 19 | KEY_T => 20 | KEY_Y => 21 | KEY_U => 22
  | KEY_I => 23 | KEY_O => 24 | KEY_P => 25 | KEY_LEFTBRACE => 26 | KEY_RIGHTBRACE => 27
  | KEY_ENTER => 28 | KEY_LEFTCTRL => 29 | KEY_A => 30 | KEY_S => 31 | KEY_D => 32
  | KEY_F => 33 | KEY_G => 34 | KEY_H => 35 | KEY_J => 36 | KEY_K => 37 | KEY_L => 38
  | KEY_SEMICOLON => 39 | KEY_APOSTROPHE => 40 | KEY_GRAVE => 41 | KEY_LEFTSHIFT => 42
  | KEY_BACKSLASH => 43 | KEY_Z => 44 | KEY_X => 45 | KEY_C => 46 | KEY_V => 47 | KEY_B => 48
  | KEY_N => 49 | KEY_M => 50 | KEY_COMMA => 51 | KEY_DOT => 52 | KEY_SLASH => 53
  | KEY_RIGHTSHIFT => 54 | KEY_KPASTERISK => 55 | KEY_LEFTALT => 56 | KEY_SPACE => 57
  | KEY_CAPSLOCK => 58 | KEY_F1 => 59 | KEY_F2 => 60 | KEY_F3 => 61 | KEY_F4 => 62
  | KEY_F5 => 63 | KEY_F6 => 64 | KEY_F7 => 65 | KEY_F8 => 66 | KEY_F9 => 67 | KEY_F10 => 68
  | KEY_NUMLOCK => 69 | KEY_SCROLLLOCK => 70 | KEY_KP7 => 71 | KEY_KP8 => 72 | KEY_KP9 => 73
  | KEY_KPMINUS => 74 | KEY_KP4 => 75 | KEY_KP5 => 76 | KEY_KP6 => 77 | KEY_KPPLUS => 78
  | KEY_KP1 => 79 | KEY_KP2 => 80 | KEY_KP3 => 81 | KEY_KP0 => 82 | KEY_KPDOT => 83
  | KEY_F11 => 87 | KEY_F12 => 88
  end.

(** The key of a scan code. *)
Definition scancode_key (s : scancode) : keycode :=
  match s with
  | IGNORED => KEY_RESERVED | SCANCODE_ESC => KEY_ESC | SCANCODE_1 => KEY_1
  | SCANCODE_2 => KEY_2 | SCANCODE_3 => KEY_3 | SCANCODE_4 => KEY_4 | SCANCODE_5 => KEY_5
  | SCANCODE_6 => KEY_6 | SCANCODE_7 => KEY_7 | SCANCODE_8 => KEY_8 | SCANCODE_9 => KEY_9
  | SCANCODE_0 => KEY_0 | SCANCODE_MINUS => KEY_MINUS | SCANCODE_EQUALS => KEY_EQUAL
  | SCANCODE_BACKSPACE => KEY_BACKSPACE | SCANCODE_TAB => KEY_TAB | SCANCODE_Q => KEY_Q
  | SCANCODE_W => KEY_W | SCANCODE_E => KEY_E | SCANCODE_R => KEY_R | SCANCODE_T => KEY_T
  | SCANCODE_Y => KEY_Y | SCANCODE_U => KEY_U | SCANCODE_I => KEY_I | SCANCODE_O => KEY_O
  | SCANCODE_P => KEY_P | SCANCODE_LBRAKET => KEY_LEFTBRACE
  | SCANCODE_RBRAKET => KEY_RIGHTBRACE | SCANCODE_RETURN => KEY_ENTER
  | SCANCODE_LCTRL => KEY_LEFTCTRL | SCANCODE_A => KEY_A | SCANCODE_S => KEY_S
  | SCANCODE_D => KEY_D | SCANCODE_F => KEY_F | SCANCODE_G => KEY_G | SCANCODE_H => KEY_H
  | SCANCODE_J => KEY_J | SCANCODE_K => KEY_K | SCANCODE_L => KEY_L
  | SCANCODE_SEMI_COLON => KEY_SEMICOLON | SCANCODE_QUOTE => KEY_APOSTROPHE
  | SCANCODE_BACKTICK => KEY_GRAVE | SCANCODE_LSHIFT => KEY_LEFTSHIFT
  | SCANCODE_BACKSLASH => KEY_BACKSLASH | SCANCODE_Z => KEY_Z | SCANCODE_X => KEY_X
  | SCANCODE_C => KEY_C | SCANCODE_V => KEY_V | SCANCODE_B => KEY_B | SCANCODE_N => KEY_N
  | SCANCODE_M => KEY_M | SCANCODE_COMMA => KEY_COMMA | SCANCODE_DOT => KEY_DOT
  | SCANCODE_SLASH => KEY_SLASH | SCANCODE_RSHIFT => KEY_RIGHTSHIFT
  | SCANCODE_KEYPAD_MULT => KEY_KPASTERISK | SCANCODE_LALT => KEY_LEFTALT
  | SCANCODE_SPACE => KEY_SPACE | SCANCODE_CAPS_LOCK => KEY_CAPSLOCK | SCANCODE_F1 => KEY_F1
  | SCANCODE_F2 => KEY_F2 | SCANCODE_F3 => KEY_F3 | SCANCODE_F4 => KEY_F4
  | SCANCODE_F5 => KEY_F5 | SCANCODE_F6 => KEY_F6 | SCANCODE_F7 => KEY_F7
  | SCANCODE_F8 => KEY_F8 | SCANCODE_F9 => KEY_F9 | SCANCODE_F10 => KEY_F10
  | SCANCODE_NUMLOCK => KEY_NUMLOCK | SCANCODE_SCROLL_LOCK => KEY_SCROLLLOCK
  | SCANCODE_KEYPAD_7 => KEY_KP7 | SCANCODE_KEYPAD_8 => KEY_KP8 | SCANCODE_KEYPAD_9 => KEY_KP9
  | SCANCODE_KEYPAD_MINUS => KEY_KPMINUS | SCANCODE_KEYPAD_4 => KEY_KP4
  | SCANCODE_KEYPAD_5 => KEY_KP5 | SCANCODE_KEYPAD_6 => KEY_KP6
  | SCANCODE_KEYPAD_PLUS => KEY_KPPLUS | SCANCODE_KEYPAD_1 => KEY_KP1
  | SCANCODE_KEYPAD_2 => KEY_KP2 | SCANCODE_KEYPAD_3 => KEY_KP3 | SCANCODE_KEYPAD_0 => KEY_KP0
  | SCANCODE_KEYPAD_DOT => KEY_KPDOT | SCANCODE_F11 => KEY_F11 | SCANCODE_F12 => KEY_F12
  end.

(** The character table of keyboard.c, by key code. *)
Definition keycode_to_ascii : list Z :=
  [0; 0; 49; 50; 51; 52; 53; 54; 55; 56; 57; 48; 45; 43; 8; 9; 113; 119; 101; 114; 116; 121;
  117; 105; 111; 112; 93; 91; 10; 0; 97; 115; 100; 102; 103; 104; 106; 107; 108; 59; 39; 96;
  0; 92; 122; 120; 99; 118; 98; 110; 109; 44; 46; 47; 0; 42; 0; 32; 0; 0; 0; 0; 0; 0; 0; 0; 0;
  0; 0; 0; 0; 55; 56; 57; 45; 52; 53; 54; 43; 49; 50; 51; 48; 46].

Definition KEYBOARD_PORT : Z := 0x60.
Definition CONTROLLER_PORT : Z := 0x64.
Definition MAX_RETRY : Z := 3.
Definition SCANCODE_SET_1 : Z := 0x43.

Record kbd (V E : Type) := mk_kbd {
  scancode_set : Z; last_scancode : Z; port : V; screen : tty E;
}.
Arguments mk_kbd {V E}.
Arguments scancode_set {V E}.
Arguments last_scancode {V E}.
Arguments port {V E}.
Arguments screen {V E}.

Section keyboard.
Context {V E : Type} `{!Ports V}.
(** The font, the locals of [printf], and the address of the literal "%c". *)
Context (font : pc_font) (c_slot buf_slot fmt_c : Z).
Abbreviation KBD := (M (kbd V E)).

Definition inb (p : Z) : KBD Z := λ k,
  let '(b, v) := port_in p (port k) in Done (w8 b, mk_kbd (scancode_set k) (last_scancode k) v (screen k)).
Definition outb (p b : Z) : KBD unit :=
  modify (λ k, mk_kbd (scancode_set k) (last_scancode k) (port_out p b (port k)) (screen k)).
Definition on_screen {A} : M (tty E) A → KBD A :=
  zoom screen (λ t k, mk_kbd (scancode_set k) (last_scancode k) (port k) t).
Definition set_scancode_set (x : Z) : KBD unit :=
  modify (λ k, mk_kbd x (last_scancode k) (port k) (screen k)).
Definition set_last (x : Z) : KBD unit :=
  modify (λ k, mk_kbd (scancode_set k) x (port k) (screen k)).

(** The [do while] of [init_keyboard]: at most [MAX_RETRY + 1] rounds. *)
Fixpoint init_retry (fuel : nat) (retry : Z) : KBD unit :=
  match fuel with
  | O => out_of_fuel
  | S fuel =>
      outb KEYBOARD_PORT 0xF0;;
      outb KEYBOARD_PORT 0;;
      sc ← inb KEYBOARD_PORT;
      if decide (sc = 0xFE) then
        if decide (retry < MAX_RETRY) then init_retry fuel (retry + 1) else mret tt
      else mret tt
  end.

Definition init_keyboard : KBD unit :=
  k ← get;
  if decide (scancode_set k ≠ 0) then mret tt else
  init_retry 4 0;;
  sc ← inb KEYBOARD_PORT;
  set_scancode_set sc;;
  outb CONTROLLER_PORT 0x20;;
  sc ← inb KEYBOARD_PORT;
  if decide (Z.land sc (Z.shiftl 1 6) ≠ 0) then set_scancode_set SCANCODE_SET_1 else mret tt.

Definition key_pressed (code : Z) : KBD unit :=
  if decide (code ≤ 83) then
    match keycode_to_ascii !! Z.to_nat code with
    | Some c => on_screen (printf font c_slot buf_slot fmt_c [c]);; mret tt
    | None => fault
    end
  else mret tt.

Definition key_release (_ : Z) : KBD unit := mret tt.

(** [scancode & ~0x80], on a byte. *)
Definition key_bits (sc : Z) : Z := Z.land sc (Z.lnot 0x80).

Definition handle_set1 (sc : Z) : KBD unit :=
  k ← get;
  (if decide (last_scancode k = 0xE0) then mret tt
   else if decide (sc = 0xE0) then mret tt
   else if decide (key_bits sc ≤ 0x58) then
     if decide (sc >= 0x80) then key_release (key_bits sc) else key_pressed (key_bits sc)
   else mret tt);;
  set_last sc.

Definition keystroke_handler : KBD unit :=
  sc ← inb KEYBOARD_PORT;
  k ← get;
  if decide (scancode_set k = SCANCODE_SET_1) then handle_set1 sc else mret tt.

End keyboard.

(** ** Tables *)

(** Scan codes of set 1 are key codes, as handle_set1 assumes. *)
Lemma scancode_is_keycode s : scancode_value s = keycode_value (scancode_key s).
Proof. by destruct s. Qed.

(** The characters of the two bracket keys are exchanged. *)
Lemma bracket_keys_exchanged :
  keycode_to_ascii !! Z.to_nat (keycode_value KEY_LEFTBRACE) = Some 93 ∧
  keycode_to_ascii !! Z.to_nat (keycode_value KEY_RIGHTBRACE) = Some 91.
Proof. done. Qed.

(** The key of "=" is given the character "+". *)
Lemma equal_key_plus : keycode_to_ascii !! Z.to_nat (keycode_value KEY_EQUAL) = Some 43.
Proof. done. Qed.

(** ** The US layout *)

(** Every scan code of the enumeration. *)
Definition all_scancodes : list scancode :=
  [IGNORED; SCANCODE_ESC; SCANCODE_1; SCANCODE_2; SCANCODE_3; SCANCODE_4; SCANCODE_5;
  SCANCODE_6; SCANCODE_7; SCANCODE_8; SCANCODE_9; SCANCODE_0; SCANCODE_MINUS;
  SCANCODE_EQUALS; SCANCODE_BACKSPACE; SCANCODE_TAB; SCANCODE_Q; SCANCODE_W; SCANCODE_E;
  SCANCODE_R; SCANCODE_T; SCANCODE_Y; SCANCODE_U; SCANCODE_I; SCANCODE_O; SCANCODE_P;
  SCANCODE_LBRAKET; SCANCODE_RBRAKET; SCANCODE_RETURN; SCANCODE_LCTRL; SCANCODE_A;
  SCANCODE_S; SCANCODE_D; SCANCODE_F; SCANCODE_G; SCANCODE_H; SCANCODE_J; SCANCODE_K;
  SCANCODE_L; SCANCODE_SEMI_COLON; SCANCODE_QUOTE; SCANCODE_BACKTICK; SCANCODE_LSHIFT;
  SCANCODE_BACKSLASH; SCANCODE_Z; SCANCODE_X; SCANCODE_C; SCANCODE_V; SCANCODE_B;
  SCANCODE_N; SCANCODE_M; SCANCODE_COMMA; SCANCODE_DOT; SCANCODE_SLASH; SCANCODE_RSHIFT;
  SCANCODE_KEYPAD_MULT; SCANCODE_LALT; SCANCODE_SPACE; SCANCODE_CAPS_LOCK; SCANCODE_F1;
  SCANCODE_F2; SCANCODE_F3; SCANCODE_F4; SCANCODE_F5; SCANCODE_F6; SCANCODE_F7;
  SCANCODE_F8; SCANCODE_F9; SCANCODE_F10; SCANCODE_NUMLOCK; SCANCODE_SCROLL_LOCK;
  SCANCODE_KEYPAD_7; SCANCODE_KEYPAD_8; SCANCODE_KEYPAD_9; SCANCODE_KEYPAD_MINUS;
  SCANCODE_KEYPAD_4; SCANCODE_KEYPAD_5; SCANCODE_KEYPAD_6; SCANCODE_KEYPAD_PLUS;
  SCANCODE_KEYPAD_1; SCANCODE_KEYPAD_2; SCANCODE_KEYPAD_3; SCANCODE_KEYPAD_0;
  SCANCODE_KEYPAD_DOT; SCANCODE_F11; SCANCODE_F12].

Lemma all_scancodes_complete s : s ∈ all_scancodes.
Proof. destruct s; by repeat constructor. Qed.

#[export] Instance keycode_eq_dec : EqDecision keycode.
Proof. solve_decision. Defined.

(** The keys of a US keyboard without a modifier, row by row, with what is
    engraved on them. *)
Definition us_rows : list (list keycode * string) := [
  ([KEY_GRAVE; KEY_1; KEY_2; KEY_3; KEY_4; KEY_5; KEY_6; KEY_7; KEY_8; KEY_9; KEY_0;
    KEY_MINUS; KEY_EQUAL], "`1234567890-=");
  ([KEY_Q; KEY_W; KEY_E; KEY_R; KEY_T; KEY_Y; KEY_U; KEY_I; KEY_O; KEY_P; KEY_LEFTBRACE;
    KEY_RIGHTBRACE; KEY_BACKSLASH], "qwertyuiop[]\");
  ([KEY_A; KEY_S; KEY_D; KEY_F; KEY_G; KEY_H; KEY_J; KEY_K; KEY_L; KEY_SEMICOLON;
    KEY_APOSTROPHE], "asdfghjkl;'");
  ([KEY_Z; KEY_X; KEY_C; KEY_V; KEY_B; KEY_N; KEY_M; KEY_COMMA; KEY_DOT; KEY_SLASH],
    "zxcvbnm,./");
  ([KEY_SPACE], " ");
  ([KEY_KPASTERISK; KEY_KPMINUS; KEY_KPPLUS], "*-+");
  ([KEY_KP7; KEY_KP8; KEY_KP9; KEY_KP4; KEY_KP5; KEY_KP6; KEY_KP1; KEY_KP2; KEY_KP3;
    KEY_KP0; KEY_KPDOT], "7894561230.") ]%string.

(** The character of a key: the engraved one, or the control character of the
    backspace, tabulation and return keys. *)
Definition us_chars : list (keycode * Z) :=
  (KEY_BACKSPACE, 8) :: (KEY_TAB, 9) :: (KEY_ENTER, 10) ::
  concat ((λ kr, zip kr.1 ((λ c, Z.of_N (Ascii.N_of_ascii c)) <$> String.list_ascii_of_string kr.2)) <$> us_rows).
Definition us_char (k : keycode) : option Z :=
  snd <$> find (λ kc, bool_decide (kc.1 = k)) us_chars.

(** The key that a byte of scan code set 1 reports as pressed. *)
Definition set1_key (sc : Z) : option keycode :=
  scancode_key <$> find (λ s, bool_decide (scancode_value s = sc)) all_scancodes.

(** The keys pressed in a sequence of bytes; after the prefix 0xE0 one byte is
    skipped. *)
Fixpoint pressed (ext : bool) (scs : list Z) : list keycode :=
  match scs with
  | [] => []
  | sc :: scs => (if ext then [] else option_list (set1_key sc)) ++ pressed (bool_decide (sc = 0xE0)) scs
  end.

(** The text typed by a sequence of bytes. *)
Definition us_text (ext : bool) (scs : list Z) : list Z := omap us_char (pressed ext scs).

(** The keys whose entry in the table of keyboard.c is not the character of
    the US layout. *)
Definition odd_keys : list keycode := [KEY_EQUAL; KEY_LEFTBRACE; KEY_RIGHTBRACE].

Lemma ascii_lookup code : 0 ≤ code ≤ 83 → ∃ c, keycode_to_ascii !! Z.to_nat code = Some c ∧ 0 ≤ c < 128.
Proof.
  intros Hc. destruct (lookup_lt_is_Some_2 keycode_to_ascii (Z.to_nat code)) as [c E].
  { change (length keycode_to_ascii) with 84%nat. lia. }
  exists c. split; [done|]. assert (Forall (λ c, 0 ≤ c < 128) keycode_to_ascii) as HF.
  { apply (bool_decide_unpack _). by vm_compute. }
  rewrite Forall_lookup in HF. eauto.
Qed.

Lemma inb_done {V E} `{!Ports V} (k : kbd V E) p :
  ∃ b v, inb p k = Done (b, mk_kbd (scancode_set k) (last_scancode k) v (screen k)).
Proof. unfold inb. destruct (port_in p (port k)) as [b v]. eauto. Qed.

(** Run the next [inb]. *)
Ltac step_in :=
  match goal with
  | |- context [ (mbind ?f (inb ?p)) ?k ] =>
      let b := fresh "b" in let v := fresh "v" in let Eb := fresh "Eb" in
      destruct (inb_done k p) as (b & v & Eb); rewrite (bind_done _ f _ _ _ Eb); cbv beta
  end.

(** [init_keyboard] ends whatever the device answers. *)
Lemma init_retry_done {V E} `{!Ports V} (k : kbd V E) fuel retry :
  0 ≤ MAX_RETRY - retry < Z.of_nat fuel →
  ∃ v, init_retry fuel retry k = Done (tt, mk_kbd (scancode_set k) (last_scancode k) v (screen k)).
Proof.
  revert k retry. induction fuel as [|fuel IH]; intros k retry Hf; cbn [init_retry]; [lia|].
  unfold outb. do 2 step. step_in.
  case_decide; [|eexists; reflexivity]. case_decide; [|eexists; reflexivity].
  edestruct IH as [v' ->]; [|eexists; reflexivity]. lia.
Qed.

(** With a controller that translates, the driver uses set 1. *)
Lemma init_keyboard_done {V E} `{!Ports V} (k : kbd V E) :
  ∃ x v, init_keyboard k = Done (tt, mk_kbd x (last_scancode k) v (screen k)) ∧
    (scancode_set k ≠ 0 → x = scancode_set k).
Proof.
  unfold init_keyboard. rewrite (bind_done get _ _ _ _ eq_refl). case_decide as Hz.
  { exists (scancode_set k), (port k). by destruct k. }
  destruct (init_retry_done k 4 0) as [v Ei]; [unfold MAX_RETRY; lia|]. rewrite (bind_done _ _ _ _ _ Ei).
  step_in.
  unfold set_scancode_set, outb. do 2 step. step_in.
  case_decide; do 2 eexists; (split; [reflexivity|tauto]).
Qed.

(** ** What a sequence of scan codes types *)

(** After the prefix 0xE0 one code is skipped; codes up to 83 are keys being
    pressed and print their character; everything else is silent. *)
Fixpoint typed (ext : bool) (scs : list Z) : list Z :=
  match scs with
  | [] => []
  | sc :: scs =>
      match ext, keycode_to_ascii !! Z.to_nat sc with
      | false, Some c => c :: typed false scs
      | _, _ => typed (bool_decide (sc = 0xE0)) scs
      end
  end.

Lemma typed_cons ext sc scs : typed ext (sc :: scs) = typed ext [sc] ++ typed (bool_decide (sc = 0xE0)) scs.
Proof.
  cbn. destruct ext; [done|]. destruct (keycode_to_ascii !! Z.to_nat sc) eqn:Ek; [|done]. cbn. f_equal.
  rewrite bool_decide_eq_false_2; [done|]. intros ->. by vm_compute in Ek.
Qed.

Lemma us_text_cons ext sc scs : us_text ext (sc :: scs) = us_text ext [sc] ++ us_text (bool_decide (sc = 0xE0)) scs.
Proof. unfold us_text. cbn [pressed]. by rewrite app_nil_r, omap_app. Qed.

(** The table of keyboard.c is the US layout, the odd keys apart: zero stands
    for no character. *)
Lemma typed_us_one sc :
  0 ≤ sc < 256 → Forall (.∉ odd_keys) (pressed false [sc]) → filter (.≠ 0) (typed false [sc]) = us_text false [sc].
Proof.
  intros Hsc. assert (Forall (λ sc, Forall (.∉ odd_keys) (pressed false [sc]) →
    filter (.≠ 0) (typed false [sc]) = us_text false [sc]) (seqZ 0 256)) as HF.
  { apply (bool_decide_unpack _). by vm_compute. }
  rewrite Forall_forall in HF. apply HF, elem_of_seqZ. lia.
Qed.

Lemma typed_us ext scs :
  Forall (λ sc, 0 ≤ sc < 256) scs → Forall (.∉ odd_keys) (pressed ext scs) →
  filter (.≠ 0) (typed ext scs) = us_text ext scs.
Proof.
  intros Hb. revert ext. induction Hb as [|sc scs Hsc _ IH]; intros ext Hk; [done|].
  rewrite typed_cons, us_text_cons, filter_app. cbn [pressed] in Hk. apply Forall_app in Hk as [Hk1 Hk2].
  f_equal; [|by apply IH]. destruct ext; [done|]. apply typed_us_one; [done|]. cbn [pressed]. by rewrite app_nil_r.
Qed.

(** A zero prints nothing. *)
Lemma text_write_filter W H xs t :
  fold_left (text_write W H) (filter (.≠ 0) xs) t = fold_left (text_write W H) xs t.
Proof. revert t. induction xs as [|x xs IH]; intros t; [done|]. rewrite filter_cons. case_decide as Hx; cbn; [done|]. by subst x. Qed.

Lemma no_join_filter W H xs t : no_join W H t (filter (.≠ 0) xs) → no_join W H t xs.
Proof.
  revert t. induction xs as [|x xs IH]; intros t; [done|]. rewrite filter_cons. case_decide as Hx; cbn; [naive_solver|].
  subst x. intros Hj. split; [lia|]. by apply IH.
Qed.

Lemma key_bits_low sc : 0 ≤ sc < 0x80 → key_bits sc = sc.
Proof.
  intros Hs. unfold key_bits. rewrite <- Z.ldiff_land. apply Z.bits_inj'. intros n Hn.
  rewrite Z.ldiff_spec. destruct (decide (n = 7)) as [->|].
  - assert (Z.testbit sc 7 = false) as -> by (apply Z.bits_above_log2; [lia|]; destruct (decide (sc = 0)) as [->|]; [done|apply Z.log2_lt_pow2; lia]). done.
  - replace (Z.testbit 0x80 n) with false; [by rewrite andb_true_r|].
    change 0x80 with (2 ^ 7). symmetry. apply Z.pow2_bits_false. lia.
Qed.

Section keyboard_proof.
Context {V E : Type} `{!Ports V}.
Context (font : pc_font) (c_slot buf_slot fmt_c : Z).
Context (W H : Z) (D : framebuffer) (B F : Z).
Hypothesis slots_outside : ∀ a, slot c_slot buf_slot a → outside W H D B a.
Hypothesis slots_font : ∀ i, 0 ≤ i < 128 * bytesperglyph font → ¬ slot c_slot buf_slot (F + i).
Abbreviation quiet := (quiet W H D B c_slot buf_slot).

(** A terminal in order, with the locals of [printf] and the literal "%c". *)
Definition console (s : tty E) (t : text) : Prop :=
  shows font W H D B F (tm s) s t ∧ t_row t < H ∧ (∀ a, slot c_slot buf_slot a → is_Some (tm s !! a)) ∧
  text_at quiet (tm s) fmt_c [37; 99].

Lemma print_char_run s t c :
  console s t → no_join W H t [c] →
  ∃ s', printf font c_slot buf_slot fmt_c [c] s = Done (1, s') ∧ console s' (text_write W H t c) ∧
    displays font s' (text_write W H t c).
Proof.
  intros (Hs & Hr & Hsl & Ht) Hj.
  destruct (printf_run font W H D B F (tm s) c_slot buf_slot t [c] (λ _, None) fmt_c [37; 99] [c] s) as (s' & Ep & Hp);
    [by split; [| | |cbn; unfold INT_MAX; lia]|done|done|done|done| |done|done|].
  { destruct Hj as [[Hb _] _]. cbn. by rewrite w8_small by lia. }
  exists s'. split; [done|]. destruct Hp as (Hs' & Hr' & _ & Hdi & Hq & Hsl'). cbn in Hs', Hr', Hdi.
  split; [|by apply Hdi]. split_and!; [done|done|done|].
  destruct Ht as (Ha & Hz & Hst). split_and!; [|done|done].
  eapply at_frame; [exact Ha|]. intros b Hb. apply Hq. replace b with (fmt_c + (b - fmt_c)) by lia. apply Hst. cbn in *. lia.
Qed.

Lemma on_screen_run {A} (f : M (tty E) A) (k : kbd V E) a s' :
  f (screen k) = Done (a, s') → on_screen f k = Done (a, mk_kbd (scancode_set k) (last_scancode k) (port k) s').
Proof. intros Hf. unfold on_screen, zoom. by rewrite Hf. Qed.

(** One scan code. *)
Lemma handle_set1_run (k : kbd V E) t sc :
  console (screen k) t → 0 ≤ sc < 256 → no_join W H t (typed (bool_decide (last_scancode k = 0xE0)) [sc]) →
  ∃ s', handle_set1 font c_slot buf_slot fmt_c sc k = Done (tt, mk_kbd (scancode_set k) sc (port k) s') ∧
    console s' (fold_left (text_write W H) (typed (bool_decide (last_scancode k = 0xE0)) [sc]) t) ∧
    (typed (bool_decide (last_scancode k = 0xE0)) [sc] ≠ [] ∨ displays font (screen k) t →
     displays font s' (fold_left (text_write W H) (typed (bool_decide (last_scancode k = 0xE0)) [sc]) t)).
Proof.
  intros Hc Hsc Hj. unfold handle_set1. rewrite (bind_done get _ _ _ _ eq_refl).
  assert (∀ s' : tty E, (mret tt ;; set_last sc) (mk_kbd (scancode_set k) (last_scancode k) (port k) s')
    = Done (tt, mk_kbd (scancode_set k) sc (port k) s')) as Hlast by done.
  case_bool_decide as Hext; cbn [typed fold_left no_join] in *.
  { rewrite decide_True by done. exists (screen k). destruct k; naive_solver. }
  rewrite decide_False by done. destruct (decide (sc ≤ 83)) as [Hle|Hgt].
  - rewrite decide_False by lia. rewrite key_bits_low, decide_True, decide_False by lia.
    destruct (ascii_lookup sc) as (c & Ec & Hcr); [lia|]. rewrite Ec in *. unfold key_pressed.
    rewrite decide_True by lia. rewrite Ec.
    destruct (print_char_run (screen k) t c Hc Hj) as (s' & Ep & Hc' & Hd').
    rewrite bind_assoc, (bind_done _ _ _ _ _ (on_screen_run _ k _ _ Ep)). exists s'. by rewrite Hlast.
  - assert (keycode_to_ascii !! Z.to_nat sc = None) as Hnone.
    { apply lookup_ge_None_2. change (length keycode_to_ascii) with 84%nat. lia. }
    rewrite Hnone in *. exists (screen k). split; [|naive_solver].
    assert (∀ f, f = mret tt → (f ;; set_last sc) k = Done (tt, mk_kbd (scancode_set k) sc (port k) (screen k))) as Hmret.
    { intros f ->. by destruct k. }
    apply Hmret. case_decide; [done|]. destruct (decide (key_bits sc ≤ 0x58)) as [Hkb|]; [|done].
    destruct (decide (sc >= 0x80)); [done|]. rewrite key_bits_low by lia. unfold key_pressed. by rewrite decide_False by lia.
Qed.

(** The device hands out the bytes [scs] on the keyboard port. *)
Fixpoint reads (v : V) (scs : list Z) : Prop :=
  match scs with
  | [] => True
  | sc :: scs => 0 ≤ sc < 256 ∧ ∃ v', port_in KEYBOARD_PORT v = (sc, v') ∧ reads v' scs
  end.

(** [n] keyboard interrupts. *)
Fixpoint keystrokes (n : nat) : M (kbd V E) unit :=
  match n with O => mret tt | S n => keystroke_handler font c_slot buf_slot fmt_c;; keystrokes n end.

(** The keyboard interrupts, against the table of the driver. *)
Lemma keystrokes_run (k : kbd V E) t scs :
  console (screen k) t → scancode_set k = SCANCODE_SET_1 → reads (port k) scs →
  no_join W H t (typed (bool_decide (last_scancode k = 0xE0)) scs) →
  ∃ k', keystrokes (length scs) k = Done (tt, k') ∧
    console (screen k') (fold_left (text_write W H) (typed (bool_decide (last_scancode k = 0xE0)) scs) t) ∧
    (typed (bool_decide (last_scancode k = 0xE0)) scs ≠ [] ∨ displays font (screen k) t →
     displays font (screen k') (fold_left (text_write W H) (typed (bool_decide (last_scancode k = 0xE0)) scs) t)).
Proof using slots_outside slots_font.
  revert k t. induction scs as [|sc scs IH]; intros k t Hc Hset Hrd Hj; [exists k; naive_solver|].
  destruct Hrd as (Hsc & v' & Ev & Hrd). rewrite typed_cons in Hj |- *. apply no_join_app in Hj as [Hj1 Hj2].
  set (k1 := mk_kbd (scancode_set k) (last_scancode k) v' (screen k)).
  assert (inb KEYBOARD_PORT k = Done (sc, k1)) as Ein by (unfold inb; rewrite Ev, w8_small by lia; done).
  destruct (handle_set1_run k1 t sc Hc Hsc Hj1) as (s' & Eh & Hc' & Hd').
  set (k2 := mk_kbd (scancode_set k) sc v' s').
  assert (keystroke_handler font c_slot buf_slot fmt_c k = Done (tt, k2)) as Ek.
  { unfold keystroke_handler. rewrite (bind_done _ _ _ _ _ Ein), (bind_done get _ _ _ _ eq_refl).
    rewrite decide_True by done. exact Eh. }
  destruct (IH k2 _ Hc' Hset Hrd Hj2) as (k' & E' & Hk' & Hdk).
  exists k'. cbn [length keystrokes]. rewrite (bind_done _ _ _ _ _ Ek), fold_left_app. split_and!; [done|done|].
  intros Hor. apply Hdk. cbn [screen k2 last_scancode].
  destruct (decide (typed (bool_decide (sc = 0xE0)) scs = [])) as [En|]; [right|by left]. apply Hd'.
  cbn [screen k1 last_scancode]. rewrite En, app_nil_r in Hor. exact Hor.
Qed.

Lemma reads_bytes (v : V) scs : reads v scs → Forall (λ sc, 0 ≤ sc < 256) scs.
Proof. revert v. induction scs as [|sc scs IH]; intros v; [done|]. intros (? & v' & _ & ?). constructor; eauto. Qed.

(** C28: typing: for bytes of scan code set 1 that report no press of the keys
    "=", "[" and "]" (whose table entries differ from the US layout) and no
    backspace at the start of a line below the first, each keyboard interrupt
    decodes one byte (releases, the byte after 0xE0 and keys without a
    character are silent), and the terminal's text continues at the cursor
    with the characters of the US layout of the keys pressed, in order; once a
    character was typed, or if the screen was up to date before, every pixel
    of the screen is that of this text. *)
Theorem keystrokes_show_typed_text (k : kbd V E) t scs :
  let ext := bool_decide (last_scancode k = 0xE0) in
  console (screen k) t → scancode_set k = SCANCODE_SET_1 → reads (port k) scs →
  Forall (.∉ odd_keys) (pressed ext scs) → no_join W H t (us_text ext scs) →
  ∃ k', keystrokes (length scs) k = Done (tt, k') ∧
    console (screen k') (fold_left (text_write W H) (us_text ext scs) t) ∧
    (us_text ext scs ≠ [] ∨ displays font (screen k) t →
     displays font (screen k') (fold_left (text_write W H) (us_text ext scs) t)).
Proof using slots_outside slots_font.
  intros ext Hc Hset Hrd Hodd Hj. pose proof (typed_us _ _ (reads_bytes _ _ Hrd) Hodd) as Et.
  rewrite <- Et in Hj |- *. apply no_join_filter in Hj. rewrite text_write_filter.
  destruct (keystrokes_run k t scs Hc Hset Hrd Hj) as (k' & E' & Hk & Hd). exists k'. split_and!; [done|done|].
  intros [Hne|]; apply Hd; [left|by right]. intros En. apply Hne. fold ext in En. by rewrite En.
Qed.
End keyboard_proof.

(** ** An example: the keys "h", "i", return *)

(** A keyboard that sends the bytes of a list. *)
#[export] Instance list_ports : Ports (list Z) := {|
  port_in := λ _ l, match l with [] => (0, []) | x :: l => (x, l) end;
  port_out := λ _ _ l, l;
|}.

(** Memory added beside the terminal. *)
Lemma shows_extend {E} font W H D B F (s : tty E) t m' :
  shows font W H D B F (tm s) s t → (∀ a v, tm s !! a = Some v → m' !! a = Some v) →
  shows font W H D B F m' (set_tm m' s) t.
Proof.
  intros (Hok & Hc & Hrest) Hm. split; [|split; [|exact Hrest]].
  - assert (∀ a, is_Some (tm s !! a) → is_Some (m' !! a)) by (intros a [v Hv]; eauto).
    destruct Hok as [[] ?? Hf Hg ? ? ??? _].
    split; [by split|done|done|by eapply has_frame|by eapply has_frame|done|done|done|done|done|done].
  - intros r c Hr Hc'. destruct (Hc r c Hr Hc') as [Hl Hb]. split; [by apply Hm|done].
Qed.

Lemma tty0_layout :
  map_Forall (λ a _, a < 3000) (tm tty0) ∧ fb_addr (display tty0) = 2000 ∧ tty_buffer tty0 = 2288 ∧
  pitch (display tty0) = 36 ∧ fb_height (display tty0) = 8.
Proof. split_and!; [apply (bool_decide_unpack _); by vm_compute|by vm_compute..]. Qed.

(** The literal "%c" at 3000 and the locals of [printf] at 3010 and 3020. *)
Definition console_mem (m : mem) : mem :=
  bytes_at 3000 [37; 99; 0] (zeroed m (byte_range 3010 1 ++ byte_range 3020 13)).

Lemma console_mem_low m a : a < 3000 → console_mem m !! a = m !! a.
Proof.
  intros Ha. unfold console_mem. cbn [bytes_at]. rewrite !lookup_insert_ne by lia.
  rewrite zeroed_lookup, decide_False; [done|]. rewrite elem_of_app, !byte_range_in. lia.
Qed.

Lemma console_mem_slot m a : slot 3010 3020 a → is_Some (console_mem m !! a).
Proof.
  intros Ha. unfold console_mem. cbn [bytes_at]. rewrite !lookup_insert_ne by (destruct Ha; lia).
  rewrite zeroed_lookup, decide_True; [eauto|]. rewrite elem_of_app, !byte_range_in. destruct Ha; lia.
Qed.

Lemma console_mem_fmt m : at_ (console_mem m) 3000 [37; 99; 0].
Proof.
  unfold console_mem. cbn [bytes_at]. rewrite !at_cons. split_and!; [| | |apply at_nil].
  - by rewrite lookup_insert_eq.
  - by rewrite lookup_insert_ne, lookup_insert_eq by lia.
  - by rewrite !lookup_insert_ne, lookup_insert_eq by lia.
Qed.

Definition console0 : tty Z := set_tm (console_mem (tm tty0)) tty0.
Definition kbd0 : kbd (list Z) Z := mk_kbd SCANCODE_SET_1 0 [35; 163; 23; 151; 0xE0; 28; 28] console0.

Lemma slots0_outside a : slot 3010 3020 a → outside 3 4 (display tty0) (tty_buffer tty0) a.
Proof.
  destruct tty0_layout as (_ & E1 & E2 & E3 & E4). unfold outside. rewrite E1, E2, E3, E4. intros [->|?]; lia.
Qed.

Lemma console0_ok : console font0 3010 3020 3000 3 4 (display tty0) (tty_buffer tty0) (font_start tty0) console0 (mk_text (λ _ _, 0) 0 0).
Proof.
  destruct tty0_layout as (Hlim & E1 & E2 & E3 & E4). split_and!.
  - apply shows_extend; [exact tty0_shows|]. intros a v Ha. rewrite console_mem_low; [done|]. exact (Hlim a v Ha).
  - done.
  - apply console_mem_slot.
  - split_and!; [apply console_mem_fmt|by apply (bool_decide_unpack _)|].
    cbn [length]. intros i Hi. unfold quiet, outside. rewrite E1, E2, E3, E4. split; [lia|]. intros [?|?]; lia.
Qed.

Lemma font0_apart i : 0 ≤ i < 128 * bytesperglyph font0 → ¬ slot 3010 3020 (font_start tty0 + i).
Proof.
  assert (font_start tty0 + 128 * bytesperglyph font0 ≤ 3010) by by vm_compute. intros Hi [?|?]; lia.
Qed.

Lemma keystrokes_show_typed_text_witness :
  ∃ k', keystrokes font0 3010 3020 3000 7 kbd0 = Done (tt, k') ∧
    console font0 3010 3020 3000 3 4 (display tty0) (tty_buffer tty0) (font_start tty0) (screen k')
      (fold_left (text_write 3 4) [104; 105; 10] (mk_text (λ _ _, 0) 0 0)) ∧
    displays font0 (screen k') (fold_left (text_write 3 4) [104; 105; 10] (mk_text (λ _ _, 0) 0 0)).
Proof.
  assert (us_text false [35; 163; 23; 151; 0xE0; 28; 28] = [104; 105; 10]) as Eu by by vm_compute.
  assert (∃ k', keystrokes font0 3010 3020 3000 7 kbd0 = Done (tt, k') ∧
    console font0 3010 3020 3000 3 4 (display tty0) (tty_buffer tty0) (font_start tty0) (screen k')
      (fold_left (text_write 3 4) (us_text false [35; 163; 23; 151; 0xE0; 28; 28]) (mk_text (λ _ _, 0) 0 0)) ∧
    (us_text false [35; 163; 23; 151; 0xE0; 28; 28] ≠ [] ∨ displays font0 (screen kbd0) (mk_text (λ _ _, 0) 0 0) →
     displays font0 (screen k') (fold_left (text_write 3 4) (us_text false [35; 163; 23; 151; 0xE0; 28; 28]) (mk_text (λ _ _, 0) 0 0))))
    as (k' & E' & Hc & Hd).
  { refine (keystrokes_show_typed_text font0 3010 3020 3000 3 4 _ _ _ slots0_outside font0_apart kbd0 _
      [35; 163; 23; 151; 0xE0; 28; 28] console0_ok eq_refl _ _ _).
    - cbn. repeat (split; [done|]; eexists; split; [reflexivity|]). done.
    - apply (bool_decide_unpack _). by vm_compute.
    - change (bool_decide (last_scancode kbd0 = 0xE0)) with false. rewrite Eu. cbn. repeat split; done. }
  rewrite Eu in Hc, Hd. exists k'. split_and!; [done|done|]. apply Hd. by left.
Defined.
