(* ===== verification/Log.v ===== *)
(** * Log and serial line (kernel/log.c, kernel/serial.c, kernel/debug/qemu.c)

    [log] writes a line with the number of the processor, the level and the
    message to the serial port of the emulator, and to the terminal when that
    is switched on.  Buffers on the stack and string literals are addresses in
    the memory the terminal has its buffers in. *)
From S2P Require Import Prelude.
From S2P Require Import Cpu.
From S2P Require Import Spinlock.
From S2P Require Import Layout.
From S2P Require Import Libc.
From S2P Require Import Tty.
From S2P Require Import Printf.
From S2P Require Import Keyboard.

Definition QEMU_SERIAL_PORT : Z := 0x3F8.

(** The serial device, [qemu_serial_lock] with the processors, memory and
    terminal, and the switches of log.c. *)
Record logs (Q E : Type) := mk_logs {
  lg_port : Q; lg_sl : sl_state; lg_tty : tty E; log_qemu : bool; log_tty : bool;
}.
Arguments mk_logs {Q E}.
Arguments lg_port {Q E}.
Arguments lg_sl {Q E}.
Arguments lg_tty {Q E}.
Arguments log_qemu {Q E}.
Arguments log_tty {Q E}.

Section log.
Context {Q E : Type} `{!Ports Q}.
Abbreviation LOG := (M (logs Q E)).
Implicit Type s : logs Q E.

Definition set_port (q : Q) s : logs Q E := mk_logs q (lg_sl s) (lg_tty s) (log_qemu s) (log_tty s).
Definition on_log_sl {A} : SL A → LOG A :=
  zoom lg_sl (λ l s, mk_logs (lg_port s) l (lg_tty s) (log_qemu s) (log_tty s)).
Definition on_log_tty {A} : M (tty E) A → LOG A :=
  zoom lg_tty (λ t s, mk_logs (lg_port s) (lg_sl s) t (log_qemu s) (log_tty s)).
Definition on_log_mem {A} (f : MEM A) : LOG A := on_log_tty (on_mem f).

(** ** The serial port *)

Definition ser_in (p : Z) : LOG Z := λ s, let '(b, q) := port_in p (lg_port s) in Done (w8 b, set_port q s).
Definition ser_out (p b : Z) : LOG unit := modify (λ s, set_port (port_out p b (lg_port s)) s).

Definition init_serial (port : Z) : LOG Z :=
  ser_out (port + 1) 0x00;;
  ser_out (port + 3) 0x80;;
  ser_out (port + 0) 0x0C;;
  ser_out (port + 1) 0x00;;
  ser_out (port + 3) 0x03;;
  ser_out (port + 2) 0xC7;;
  ser_out (port + 4) 0x0B;;
  ser_out (port + 4) 0x1E;;
  ser_out (port + 0) 0xAE;;
  b ← ser_in (port + 0);
  if decide (b ≠ 0xAE) then mret 1 else
  ser_out (port + 4) 0x0F;;
  mret 0.
Definition init_qemu_serial : LOG Z := init_serial QEMU_SERIAL_PORT.

(** Spins granted to [acquire], polls granted to the wait for the transmitter;
    the processor; the locals of [format]; the font. *)
Context (spins polls : nat) (cpu : Z) (c_slot buf_slot : Z) (font : pc_font).

Fixpoint wait_ready (fuel : nat) : LOG unit :=
  match fuel with
  | O => out_of_fuel
  | S fuel => b ← ser_in (QEMU_SERIAL_PORT + 5); if decide (Z.land b 0x20 = 0) then wait_ready fuel else mret tt
  end.
Definition qemu_write_char (ch : Z) : LOG unit :=
  wait_ready (S polls);;
  ser_out QEMU_SERIAL_PORT ch.

(** The loop of [qemu_print]; the string ends in memory, whose size bounds it. *)
Fixpoint print_string (fuel : nat) (string : Z) : LOG unit :=
  match fuel with
  | O => out_of_fuel
  | S fuel =>
      c ← on_log_mem (ldb string);
      if decide (c = 0) then mret tt else
      qemu_write_char c;;
      print_string fuel (string + 1)
  end.
Definition qemu_print (string : Z) : LOG unit :=
  on_log_sl (acquire (S spins) cpu);;
  n ← gets (λ s, size (tm (lg_tty s)));
  print_string (S n) string;;
  on_log_sl (release cpu).

(** ** The log *)

(** The literals of log.c by address, the strings of [level_prefix], and the
    buffers [prefix], [fmsg] and [final] on the stack. *)
Context (fmt_prefix fmt_line : Z) (level_names : list Z) (prefix_buf fmsg_buf final_buf : Z).

Definition enable_tty_log : LOG unit := modify (λ s, mk_logs (lg_port s) (lg_sl s) (lg_tty s) (log_qemu s) true).
Definition disable_tty_log : LOG unit := modify (λ s, mk_logs (lg_port s) (lg_sl s) (lg_tty s) (log_qemu s) false).

Definition log (level msg : Z) : LOG unit :=
  if decide (level < LOG_LEVEL) then mret tt else
  s ← get;
  if negb (log_qemu s || log_tty s) then mret tt else
  on_log_mem (memset prefix_buf 0 32);;
  k ← on_log_sl (on_cpus (get_cpu cpu));
  name ← getf (λ _, level_names !! Z.to_nat level);
  on_log_mem (sprintf c_slot buf_slot prefix_buf fmt_prefix [cpu_id k; name]);;
  s ← get;
  (if log_qemu s then
     on_log_mem (memset fmsg_buf 0 200);;
     on_log_mem (sprintf c_slot buf_slot fmsg_buf fmt_line [prefix_buf; msg]);;
     qemu_print fmsg_buf
   else mret tt);;
  s ← get;
  if log_tty s then on_log_tty (printf font c_slot buf_slot fmt_line [prefix_buf; msg]);; mret tt else mret tt.

Definition logf (level msg : Z) (args : list Z) : LOG unit :=
  if decide (level < LOG_LEVEL) then mret tt else
  s ← get;
  if negb (log_qemu s || log_tty s) then mret tt else
  on_log_mem (memset final_buf 0 128);;
  on_log_mem (vsprintf c_slot buf_slot final_buf msg args);;
  log level final_buf.
End log.

(** ** Texts *)

(** "[CPU #%d] [%s]: " and "%s%s\n". *)
Definition prefix_fmt : list Z := [91; 67; 80; 85; 32; 35; 37; 100; 93; 32; 91; 37; 115; 93; 58; 32].
Definition line_fmt : list Z := [37; 115; 37; 115; 10].

(** The prefix of processor [id] for the level with name [name]. *)
Definition prefix_text (id : Z) (name : list Z) : list Z :=
  [91; 67; 80; 85; 32; 35] ++ num_string 10 (s32 id) false ++ [93; 32; 91] ++ name ++ [93; 58; 32].

Lemma num_string_ok base d caps : 8 ≤ base ≤ 16 → - 2 ^ 31 ≤ d < 2 ^ 31 →
  Z.of_nat (length (num_string base d caps)) ≤ 12 ∧ 0 ∉ num_string base d caps.
Proof.
  intros Hb Hd. destruct (itoa_run (zeroed ∅ (byte_range 0 13)) 0 base d caps Hb Hd) as (s & m' & -> & _ & Hl & _ & Hc & _).
  { apply has_check. by vm_compute. }
  split; [lia|]. intros H0. rewrite Forall_forall in Hc. specialize (Hc 0 H0). lia.
Qed.

(** One conversion of a format at a time. *)
Section conversions.
Context (str : Z → option (list Z)).
Lemma fs_char c fs args o : c ≠ 37 → fmt_spec str fs args = Some o → fmt_spec str (c :: fs) args = Some (c :: o).
Proof. intros Hc Ho. cbn [fmt_spec]. by rewrite decide_True, Ho. Qed.
Lemma fs_string a l fs args o :
  str a = Some l → fmt_spec str fs args = Some o → fmt_spec str (37 :: 115 :: fs) (a :: args) = Some (l ++ o).
Proof.
  intros Ha Ho. cbn [fmt_spec]. rewrite (decide_False (P := 37 ≠ 37)) by tauto.
  rewrite (decide_False (P := 115 = 37)), (decide_False (P := 115 = 99)), (decide_True (P := 115 = 115)) by lia. by rewrite Ha, Ho.
Qed.
Lemma fs_decimal a fs args o :
  fmt_spec str fs args = Some o → fmt_spec str (37 :: 100 :: fs) (a :: args) = Some (num_string 10 (s32 a) false ++ o).
Proof.
  intros Ho. cbn [fmt_spec]. rewrite (decide_False (P := 37 ≠ 37)) by tauto.
  rewrite (decide_False (P := 100 = 37)), (decide_False (P := 100 = 99)), (decide_False (P := 100 = 115)) by lia.
  rewrite (decide_True (P := is_number 100)) by (by left). by rewrite Ho.
Qed.
End conversions.

Lemma fmt_prefix_spec str id a name : str a = Some name → fmt_spec str prefix_fmt [id; a] = Some (prefix_text id name).
Proof.
  intros Ha. unfold prefix_fmt, prefix_text. cbn [app]. do 6 (apply fs_char; [lia|]). apply fs_decimal.
  do 3 (apply fs_char; [lia|]). apply fs_string; [done|]. do 3 (apply fs_char; [lia|]). done.
Qed.

Lemma fmt_line_spec str a b l k : str a = Some l → str b = Some k → fmt_spec str line_fmt [a; b] = Some (l ++ k ++ [10]).
Proof. intros Ha Hb. apply fs_string; [done|]. apply fs_string; [done|]. apply fs_char; [lia|]. done. Qed.

Lemma prefix_text_ok id name : 0 ∉ name → 0 ∉ prefix_text id name ∧ Z.of_nat (length (prefix_text id name)) ≤ 24 + Z.of_nat (length name).
Proof.
  intros Hn. destruct (num_string_ok 10 (s32 id) false ltac:(lia) (s32_range id)) as [Hl H0]. unfold prefix_text.
  split; [|rewrite !length_app; cbn [length]; lia]. rewrite !elem_of_app. intros [H|[?|[H|[?|H]]]]; try done.
  all: by repeat (apply elem_of_cons in H as [?|H]; [done|]); apply not_elem_of_nil in H.
Qed.

(** A buffer cleared and then written by [sprintf] holds a string. *)
Lemma fresh_sprintf_run m c_slot buf_slot dest n str f fs args out :
  let static a := ¬ (dest ≤ a < dest + n) ∧ ¬ slot c_slot buf_slot a in
  has m dest n → has m c_slot 1 → has m buf_slot 13 → (∀ a, slot c_slot buf_slot a → ¬ (dest ≤ a < dest + n)) →
  n ≤ INT_MAX → Z.of_nat (length out) < n → fmt_spec str fs args = Some out →
  text_at static m f fs → (∀ a l, str a = Some l → text_at static m a l) →
  ∃ m1 m2, memset dest 0 n m = Done (dest, m1) ∧ sprintf c_slot buf_slot dest f args m1 = Done (Z.of_nat (length out), m2) ∧
    at_ m2 dest (out ++ [0]) ∧ (∀ a, static a → m2 !! a = m !! a) ∧ (∀ a, is_Some (m !! a) → is_Some (m2 !! a)).
Proof.
  intros static Hd Hc Hb Hap Hmax Hout Hspec Hf Hs.
  destruct (memset_run m dest 0 n ltac:(lia) Hd) as (m1 & E1 & Z1 & [F1 D1]).
  assert (∀ a l, text_at static m a l → text_at (λ a, ¬ busy c_slot buf_slot dest out a) m1 a l) as Ht.
  { intros a l (Ha & Hz & Hst). split_and!; [|done|].
    - eapply at_frame; [exact Ha|]. intros b Hb'. apply F1. destruct (Hst (b - a)) as [Hn _]; [rewrite length_app in Hb'; cbn in Hb'; lia|].
      replace (a + (b - a)) with b in Hn by lia. done.
    - intros i Hi [Hbz|Hbz]; destruct (Hst i Hi); [|done]. lia. }
  destruct (sprintf_run m1 c_slot buf_slot dest out str f fs args) as (m2 & E2 & A2 & F2 & D2); try done.
  { split.
    - intros i Hi. apply D1, Hd. lia.
    - split; intros i Hi; apply D1; auto.
    - intros a Ha Hr. apply (Hap a Ha). lia.
    - lia. }
  { by apply Ht. } { intros a l Ha. by apply Ht, Hs. }
  exists m1, m2. split_and!; try done.
  - apply at_app. split; [done|]. apply at_cons. split; [|apply at_nil]. rewrite F2.
    + apply Z1. lia.
    + intros [?|Hsl]; [lia|]. apply (Hap _ Hsl). lia.
  - intros a [Ha Hns]. rewrite F2; [by apply F1|]. intros [?|?]; [lia|done].
  - intros a Ha. by apply D2, D1.
Qed.

(** ** What the serial line shows *)

(** A serial port: what it has sent, and how many polls of the status find it
    busy.  Documented: bit 5 of the status is set when the transmitter can
    take a byte, and stays set until a byte is written; reading the status
    sends nothing; a byte written while the transmitter can take it is sent.
    Nothing is known of a byte written while it is busy. *)
Class Serial (Q : Type) `{!Ports Q} := {
  sent : Q → list Z;
  busy_for : Q → nat;
  status_sent q : sent (port_in (QEMU_SERIAL_PORT + 5) q).2 = sent q;
  status_ready q : busy_for q = O → Z.testbit (port_in (QEMU_SERIAL_PORT + 5) q).1 5 = true ∧
    busy_for (port_in (QEMU_SERIAL_PORT + 5) q).2 = O;
  status_busy q n : busy_for q = S n → Z.testbit (port_in (QEMU_SERIAL_PORT + 5) q).1 5 = false ∧
    busy_for (port_in (QEMU_SERIAL_PORT + 5) q).2 = n;
  data_sent b q : busy_for q = O → sent (port_out QEMU_SERIAL_PORT b q) = sent q ++ [b];
}.

Lemma land_bit5 b : (Z.land (w8 b) 0x20 = 0) ↔ Z.testbit b 5 = false.
Proof.
  assert (Z.land (w8 b) 0x20 = if Z.testbit b 5 then 0x20 else 0) as ->.
  { apply Z.bits_inj'. intros n Hn. change 0x20 with (2 ^ 5). rewrite Z.land_spec, Z.pow2_bits_eqb by lia.
    destruct (decide (n = 5)) as [->|Hne].
    - rewrite Z.eqb_refl, andb_true_r. unfold w8. rewrite Z.mod_pow2_bits_low by lia. by destruct (Z.testbit b 5).
    - assert ((5 =? n) = false) as -> by (apply Z.eqb_neq; lia). rewrite andb_false_r. symmetry.
      destruct (Z.testbit b 5); [|apply Z.bits_0]. rewrite Z.pow2_bits_eqb by lia. apply Z.eqb_neq. lia. }
  destruct (Z.testbit b 5); done.
Qed.

Section serial.
Context {Q E : Type} `{!Ports Q, !Serial Q}.
Implicit Type s : logs Q E.
Context (spins polls : nat) (cpu : Z) (c_slot buf_slot : Z) (font : pc_font).
(** The transmitter takes a byte after at most [polls] polls. *)
Hypothesis ready_soon : ∀ q : Q, (busy_for q ≤ polls)%nat.

Lemma set_port_port s : set_port (lg_port s) s = s.
Proof. by destruct s. Qed.

Lemma wait_ready_run s fuel : (busy_for (lg_port s) < fuel)%nat →
  ∃ q, wait_ready fuel s = Done (tt, set_port q s) ∧ sent q = sent (lg_port s) ∧ busy_for q = O.
Proof.
  revert s. induction fuel as [|fuel IH]; intros s Hf; [lia|]. cbn [wait_ready].
  assert (ser_in (QEMU_SERIAL_PORT + 5) s = Done (w8 (port_in (QEMU_SERIAL_PORT + 5) (lg_port s)).1,
    set_port (port_in (QEMU_SERIAL_PORT + 5) (lg_port s)).2 s)) as Ei.
  { unfold ser_in. by destruct (port_in _ (lg_port s)). }
  rewrite (bind_done _ _ _ _ _ Ei). destruct (busy_for (lg_port s)) as [|n] eqn:En.
  - destruct (status_ready _ En) as [Hr Hz]. rewrite decide_False by (rewrite land_bit5; congruence).
    eexists. split_and!; [done|apply status_sent|done].
  - destruct (status_busy _ _ En) as [Hb Hn]. rewrite decide_True by (by apply land_bit5).
    destruct (IH (set_port (port_in (QEMU_SERIAL_PORT + 5) (lg_port s)).2 s)) as (q & Eq & Hq & Hz); [cbn; lia|].
    exists q. split_and!; [by rewrite Eq| |done]. rewrite Hq. cbn. apply status_sent.
Qed.

Lemma qemu_write_char_run s ch :
  ∃ q, qemu_write_char polls ch s = Done (tt, set_port q s) ∧ sent q = sent (lg_port s) ++ [ch].
Proof.
  unfold qemu_write_char. destruct (wait_ready_run s (S polls)) as (q & E1 & Hq & Hz); [pose proof (ready_soon (lg_port s)); lia|].
  rewrite (bind_done _ _ _ _ _ E1). eexists. split; [done|]. cbn. by rewrite data_sent, Hq.
Qed.

Lemma on_log_read {A} (f : MEM A) s a : f (tm (lg_tty s)) = Done (a, tm (lg_tty s)) → on_log_mem f s = Done (a, s).
Proof.
  intros Hf. unfold on_log_mem, on_log_tty, zoom. rewrite (on_mem_read f (lg_tty s) a Hf). by destruct s.
Qed.

Lemma print_string_run l s string fuel :
  at_ (tm (lg_tty s)) string (l ++ [0]) → 0 ∉ l → (length l < fuel)%nat →
  ∃ q, print_string polls fuel string s = Done (tt, set_port q s) ∧ sent q = sent (lg_port s) ++ l.
Proof.
  revert s string fuel. induction l as [|c l IH]; intros s string fuel Ha Hz Hf; (destruct fuel as [|fuel]; [cbn in Hf; lia|]); cbn [print_string app] in *.
  all: apply at_cons in Ha as [Hc Ha]; rewrite (bind_done _ _ _ _ _ (on_log_read _ s _ (ldb_run _ _ _ Hc))).
  - rewrite decide_True by done. exists (lg_port s). by rewrite set_port_port, app_nil_r.
  - rewrite decide_False by set_solver. destruct (qemu_write_char_run s c) as (q & E1 & Hq). rewrite (bind_done _ _ _ _ _ E1).
    destruct (IH (set_port q s) (string + 1) fuel) as (q' & E2 & Hq'); [done|set_solver|cbn in Hf; lia|].
    exists q'. split; [by rewrite E2|]. rewrite Hq'. cbn. rewrite Hq. by rewrite <- app_assoc.
Qed.

(** The processor may take the lock, which is free; it may be in the handler
    of an interrupt. *)
Definition may_log (l : sl_state) (k : cpu_status_t) : Prop :=
  l.1 !! cpu = Some k ∧ held l.2 = 0 ∧ ∃ n, counted cpu n k ∧ 0 ≤ n < 2 ^ 32 - 1.
(** The lock and the processors after it. *)
Definition logged (l : sl_state) (k : cpu_status_t) : sl_state := (<[cpu := settled k]> l.1, mk_lock 0 0 (lk_name l.2)).

Definition put_sl (l : sl_state) s : logs Q E := mk_logs (lg_port s) l (lg_tty s) (log_qemu s) (log_tty s).

Lemma qemu_print_run s k string l :
  may_log (lg_sl s) k → at_ (tm (lg_tty s)) string (l ++ [0]) → 0 ∉ l →
  ∃ q, qemu_print spins polls cpu string s = Done (tt, put_sl (logged (lg_sl s) k) (set_port q s)) ∧
    sent q = sent (lg_port s) ++ l.
Proof.
  intros (Hk & Hh & n & Hn & Hr) Ha Hz. unfold qemu_print. destruct s as [p [st lk] t b1 b2]. cbn [lg_sl lg_tty fst snd] in *.
  erewrite bind_done.
  2: { unfold on_log_sl, zoom. cbn [lg_sl]. by rewrite (acquire_free_run spins cpu st k lk Hk Hh). }
  step. cbn [lg_tty lg_sl lg_port].
  destruct (print_string_run l (mk_logs p (<[cpu := pushed cpu k]> st, mk_lock 1 cpu (lk_name lk)) t b1 b2) string (S (size (tm t))))
    as (q & E1 & Hq); [done|done| |].
  { pose proof (at_length _ _ _ Ha) as Hl. rewrite length_app in Hl. cbn in Hl. lia. }
  erewrite bind_done by exact E1. exists q. split; [|done].
  unfold on_log_sl, zoom. cbn [lg_sl set_port]. by rewrite (release_settles cpu n st k _ _ Hn Hr).
Qed.
End serial.

(** ** What the log shows *)

Section logging.
Context {Q E : Type} `{!Ports Q, !Serial Q}.
Implicit Type s : logs Q E.
Context (spins polls : nat) (cpu : Z) (c_slot buf_slot : Z) (font : pc_font).
Context (fmt_prefix fmt_line : Z) (level_names : list Z) (prefix_buf fmsg_buf final_buf : Z).
Hypothesis ready_soon : ∀ q : Q, (busy_for q ≤ polls)%nat.
Abbreviation slot := (slot c_slot buf_slot).

(** The memory the call writes: its two buffers and the locals of [format]. *)
Definition in_prefix (a : Z) : Prop := prefix_buf ≤ a < prefix_buf + 32.
Definition in_fmsg (a : Z) : Prop := fmsg_buf ≤ a < fmsg_buf + 200.
Definition log_busy (a : Z) : Prop := in_prefix a ∨ in_fmsg a ∨ slot a.
Definition in_final (a : Z) : Prop := final_buf ≤ a < final_buf + 128.
Definition data (a : Z) : Prop := ¬ log_busy a ∧ ¬ in_final a.
Abbreviation literal := (text_at data).
Abbreviation message := (text_at (λ a, ¬ log_busy a)).

(** The stack and the literals of log.c. *)
Record log_env (m : mem) : Prop := {
  le_prefix : has m prefix_buf 32;
  le_fmsg : has m fmsg_buf 200;
  le_slots : has m c_slot 1 ∧ has m buf_slot 13;
  le_apart a : slot a → ¬ in_prefix a ∧ ¬ in_fmsg a;
  le_bufs a : in_prefix a → ¬ in_fmsg a;
  le_final : has m final_buf 128;
  le_final_apart a : in_final a → ¬ log_busy a;
  le_fmt_prefix : literal m fmt_prefix prefix_fmt;
  le_fmt_line : literal m fmt_line line_fmt;
}.

Definition put_mem (m : mem) s : logs Q E :=
  mk_logs (lg_port s) (lg_sl s) (set_tm m (lg_tty s)) (log_qemu s) (log_tty s).

Lemma on_log_mem_run {A} (f : MEM A) s a m' : f (tm (lg_tty s)) = Done (a, m') → on_log_mem f s = Done (a, put_mem m' s).
Proof. intros Hf. unfold on_log_mem, on_log_tty, zoom. by rewrite (on_mem_done f (lg_tty s) a m' Hf). Qed.

Lemma put_mem_again m m' s : put_mem m' (put_mem m s) = put_mem m' s.
Proof. by destruct s as [? ? []]. Qed.

Lemma text_at_mono (P P' : Z → Prop) m m' a l :
  (∀ b, P b → P' b) → (∀ b, P b → m' !! b = m !! b) → text_at P m a l → text_at P' m' a l.
Proof.
  intros HP Hm (Ha & Hz & Hs). split_and!; [|done|auto]. eapply at_frame; [exact Ha|]. intros b Hb. apply Hm.
  replace b with (a + (b - a)) by lia. apply Hs. rewrite length_app in Hb. cbn in Hb. lia.
Qed.

(** The prefix in its buffer: 32 bytes are enough for every level. *)
Lemma log_prefix_run m id name_addr name :
  log_env m → literal m name_addr name → Z.of_nat (length name) ≤ 7 →
  ∃ m1 m2, memset prefix_buf 0 32 m = Done (prefix_buf, m1) ∧
    sprintf c_slot buf_slot prefix_buf fmt_prefix [id; name_addr] m1 = Done (Z.of_nat (length (prefix_text id name)), m2) ∧
    text_at (λ a, ¬ in_fmsg a ∧ ¬ slot a) m2 prefix_buf (prefix_text id name) ∧
    (∀ a, ¬ log_busy a → m2 !! a = m !! a) ∧ log_env m2.
Proof.
  intros Hle Hn Hl. pose proof Hle as []. destruct (prefix_text_ok id name) as [H0 Hpl]; [apply Hn|].
  destruct (fresh_sprintf_run m c_slot buf_slot prefix_buf 32 (λ a, if decide (a = name_addr) then Some name else None)
    fmt_prefix prefix_fmt [id; name_addr] (prefix_text id name)) as (m1 & m2 & E1 & E2 & A2 & F2 & D2); try tauto.
  - intros a Ha. by apply le_apart0.
  - done.
  - lia.
  - apply fmt_prefix_spec. by rewrite decide_True.
  - eapply text_at_mono, le_fmt_prefix0; [|done]. unfold data, log_busy, in_prefix. tauto.
  - intros a l. cbv beta. case_decide; [|done]. intros [= <-]. subst. eapply text_at_mono, Hn; [|done]. unfold data, log_busy, in_prefix. tauto.
  - assert (∀ a, ¬ log_busy a → m2 !! a = m !! a) as F3 by (intros; apply F2; unfold log_busy, in_prefix in *; tauto).
    exists m1, m2. split_and!; try done.
    + split_and!; [done|done|]. intros i Hi. assert (in_prefix (prefix_buf + i)) as Hp by (unfold in_prefix; lia). split; [by apply le_bufs0|].
      intros Hsl. by destruct (le_apart0 _ Hsl).
    + split; try done; try (intros i Hi; apply D2; by auto).
      * split; intros i Hi; apply D2; by apply le_slots0.
      * eapply text_at_mono, le_fmt_prefix0; [done|]. intros b [Hb _]. by apply F3.
      * eapply text_at_mono, le_fmt_line0; [done|]. intros b [Hb _]. by apply F3.
Qed.

(** The line in its buffer. *)
Lemma log_line_run m pre msg text :
  log_env m → text_at (λ a, ¬ in_fmsg a ∧ ¬ slot a) m prefix_buf pre → message m msg text →
  Z.of_nat (length pre) + Z.of_nat (length text) + 1 < 200 →
  ∃ m1 m2, memset fmsg_buf 0 200 m = Done (fmsg_buf, m1) ∧
    sprintf c_slot buf_slot fmsg_buf fmt_line [prefix_buf; msg] m1 = Done (Z.of_nat (length (pre ++ text ++ [10])), m2) ∧
    at_ m2 fmsg_buf ((pre ++ text ++ [10]) ++ [0]) ∧ (∀ a, ¬ log_busy a → m2 !! a = m !! a).
Proof.
  intros Hle Hp Ht Hl. pose proof Hle as [].
  assert (msg ≠ prefix_buf) as Hne.
  { intros ->. destruct Ht as (_ & _ & Hs). apply (Hs 0); [lia|]. left. unfold in_prefix. lia. }
  destruct (fresh_sprintf_run m c_slot buf_slot fmsg_buf 200
    (λ a, if decide (a = prefix_buf) then Some pre else if decide (a = msg) then Some text else None)
    fmt_line line_fmt [prefix_buf; msg] (pre ++ text ++ [10])) as (m1 & m2 & E1 & E2 & A2 & F2 & D2); try tauto.
  - intros a Ha. by apply le_apart0.
  - done.
  - rewrite !length_app. cbn [length]. lia.
  - apply fmt_line_spec; [by rewrite decide_True|by rewrite decide_False, decide_True].
  - eapply text_at_mono, le_fmt_line0; [|done]. unfold data, log_busy, in_fmsg. tauto.
  - intros a l. cbv beta. case_decide; [by intros [= <-]; subst|]. case_decide; [|done]. intros [= <-]. subst.
    eapply text_at_mono, Ht; [|done]. unfold log_busy, in_fmsg. tauto.
  - exists m1, m2. split_and!; try done. intros a Ha. apply F2. unfold log_busy, in_fmsg in *. tauto.
Qed.

(** [log] sends one line. *)
Lemma log_run s k level msg text name_addr name :
  LOG_LEVEL ≤ level → level_names !! Z.to_nat level = Some name_addr → Z.of_nat (length name) ≤ 7 →
  log_qemu s = true → log_tty s = false → may_log cpu (lg_sl s) k → log_env (tm (lg_tty s)) →
  literal (tm (lg_tty s)) name_addr name → message (tm (lg_tty s)) msg text →
  Z.of_nat (length (prefix_text cpu name)) + Z.of_nat (length text) + 1 < 200 →
  ∃ s', log spins polls cpu c_slot buf_slot font fmt_prefix fmt_line level_names prefix_buf fmsg_buf level msg s = Done (tt, s') ∧
    sent (lg_port s') = sent (lg_port s) ++ prefix_text cpu name ++ text ++ [10] ∧
    lg_sl s' = logged cpu (lg_sl s) k ∧
    ∀ a, ¬ log_busy a → tm (lg_tty s') !! a = tm (lg_tty s) !! a.
Proof.
  intros Hlv Hna Hnl Hq Ht Hmay Hle Hname Hmsg Hfit. pose proof Hmay as (Hk & Hh & n & (Hid & Hnr) & Hrange).
  unfold log. rewrite decide_False by lia. step. rewrite Hq. cbn [orb negb].
  destruct (log_prefix_run (tm (lg_tty s)) cpu name_addr name Hle Hname Hnl) as (m1 & m2 & E1 & E2 & A2 & F2 & Hle2).
  rewrite (bind_done _ _ _ _ _ (on_log_mem_run _ s _ _ E1)).
  assert (on_log_sl (on_cpus (get_cpu cpu)) (put_mem m1 s) = Done (k, put_mem m1 s)) as Eg.
  { unfold on_log_sl, zoom. destruct s as [p [st lk] t b1 b2]. cbn in Hk |- *. rewrite (on_cpus_run _ k st st lk); [done|].
    rewrite (get_cpu_run _ _ _ Hk). assert (set_cpu_id cpu k = k) as -> by (destruct k; cbn in *; by subst). by rewrite insert_id. }
  rewrite (bind_done _ _ _ _ _ Eg), (bind_done _ _ _ _ _ (getf_done (λ _, level_names !! Z.to_nat level) (put_mem m1 s) name_addr Hna)), Hid.
  rewrite (bind_done _ _ _ _ _ (on_log_mem_run _ (put_mem m1 s) _ m2 E2)), put_mem_again.
  step. cbn [log_qemu put_mem]. rewrite Hq.
  destruct (log_line_run m2 (prefix_text cpu name) msg text Hle2 A2) as (m3 & m4 & E3 & E4 & A4 & F4); [|done|].
  { by eapply text_at_mono, Hmsg. }
  rewrite !bind_assoc.
  erewrite bind_done by exact (on_log_mem_run _ (put_mem m2 s) _ m3 E3). rewrite !bind_assoc.
  erewrite bind_done by exact (on_log_mem_run _ (put_mem m3 (put_mem m2 s)) _ m4 E4). rewrite !put_mem_again.
  destruct (qemu_print_run spins polls cpu ready_soon (put_mem m4 s) k fmsg_buf (prefix_text cpu name ++ text ++ [10]))
    as (q & E5 & Hs5); [done|done| |].
  { destruct A2 as (_ & Hp0 & _), Hmsg as (_ & Hz & _). rewrite !elem_of_app. intros [?|[?|?%list_elem_of_singleton]]; done. }
  erewrite bind_done by exact E5. step. cbn [log_tty put_sl set_port put_mem]. rewrite Ht. eexists. split; [reflexivity|].
  cbn. split_and!; [done|done|]. intros a Ha. by rewrite F4, F2.
Qed.

(** C35: [logf] at a level that is not dropped sends exactly one line to the
    serial port, "[CPU #id] [LEVEL]: ", the text its format and arguments
    describe, and a newline, when the text is shorter than its buffer of 128
    bytes, the log goes to the serial port only, and every byte finds the
    transmitter ready within the polls granted: the call returns, no byte is
    written while the transmitter is busy, the line fits in the buffers of
    [log], the lock of the serial line is free again, the processor keeps its
    nesting, with interrupts on after the call when it is in no other lock
    (also in the handler of an interrupt, which had them off), and of memory
    only the three buffers and the locals of [format] change. *)
Theorem logf_sends_one_line s k level msg fs args str text name_addr name :
  LOG_LEVEL ≤ level → level_names !! Z.to_nat level = Some name_addr → Z.of_nat (length name) ≤ 7 →
  log_qemu s = true → log_tty s = false → may_log cpu (lg_sl s) k → log_env (tm (lg_tty s)) →
  literal (tm (lg_tty s)) name_addr name → literal (tm (lg_tty s)) msg fs →
  (∀ a l, str a = Some l → literal (tm (lg_tty s)) a l) →
  fmt_spec str fs args = Some text → 0 ∉ text → Z.of_nat (length text) < 128 →
  ∃ s', logf spins polls cpu c_slot buf_slot font fmt_prefix fmt_line level_names prefix_buf fmsg_buf final_buf level msg args s = Done (tt, s') ∧
    sent (lg_port s') = sent (lg_port s) ++ prefix_text cpu name ++ text ++ [10] ∧
    lg_sl s' = logged cpu (lg_sl s) k ∧
    ∀ a, data a → tm (lg_tty s') !! a = tm (lg_tty s) !! a.
Proof.
  intros Hlv Hna Hnl Hq Ht Hmay Hle Hname Hmsg Hstr Hspec Hz Hfit. pose proof Hle as [].
  assert (∀ a, data a → ¬ (final_buf ≤ a < final_buf + 128) ∧ ¬ slot a) as Hd by (unfold data, log_busy, in_final; tauto).
  unfold logf. rewrite decide_False by lia. step. rewrite Hq. cbn [orb negb].
  destruct (fresh_sprintf_run (tm (lg_tty s)) c_slot buf_slot final_buf 128 str msg fs args text)
    as (m1 & m2 & E1 & E2 & A2 & F2 & D2); try done; try tauto.
  { intros a Hs Hf. apply (le_final_apart0 a Hf). by right; right. }
  { by eapply text_at_mono, Hmsg. }
  { intros a l Ha. by eapply text_at_mono, Hstr. }
  assert (∀ a, data a → m2 !! a = tm (lg_tty s) !! a) as F3 by (intros; apply F2; auto).
  rewrite (bind_done _ _ _ _ _ (on_log_mem_run _ s _ _ E1)).
  erewrite bind_done by exact (on_log_mem_run _ (put_mem m1 s) _ m2 E2). rewrite put_mem_again.
  destruct (log_run (put_mem m2 s) k level final_buf text name_addr name) as (s' & E3 & S3 & L3 & F4); try done.
  - split; try done; try (intros i Hi; apply D2; by auto).
    + split; intros i Hi; apply D2; by apply le_slots0.
    + by eapply text_at_mono, le_fmt_prefix0.
    + by eapply text_at_mono, le_fmt_line0.
  - by eapply text_at_mono, Hname.
  - split_and!; [done|done|]. intros i Hi. apply le_final_apart0. unfold in_final. lia.
  - destruct (prefix_text_ok cpu name) as [_ ?]; [apply Hname|]. lia.
  - exists s'. split_and!; [done|done|done|]. intros a Ha. rewrite F4 by apply Ha. by apply F3.
Qed.

(** A level under [LOG_LEVEL] leaves everything as it is; a level that has no
    name is read outside [level_prefix]. *)
Lemma log_dropped s level msg : level < LOG_LEVEL →
  log spins polls cpu c_slot buf_slot font fmt_prefix fmt_line level_names prefix_buf fmsg_buf level msg s = Done (tt, s).
Proof. intros Hl. unfold log. by rewrite decide_True. Qed.
End logging.

(** ** An example: "up %d" with 3 at level WARNING *)

(** A transmitter that is busy for one poll after every byte, and loses what
    is written while it is. *)
#[export] Instance line_ports : Ports (bool * list Z) := {|
  port_in := λ _ (q : bool * list Z), ((if q.1 then 0 else 0x20), (false, q.2));
  port_out := λ _ b (q : bool * list Z), (true, if q.1 then q.2 else q.2 ++ [b]);
|}.
#[export, refine] Instance line_serial : Serial (bool * list Z) := {|
  sent := λ q : bool * list Z, q.2;
  busy_for := λ q : bool * list Z, if q.1 then 1%nat else 0%nat;
|}.
Proof. all: by intros; repeat (match goal with q : bool * list Z |- _ => destruct q as [[] ?] end); cbn in *; simplify_eq. Defined.

Definition log_fmt0 : list Z := [117; 112; 32; 37; 100].
Definition warning_name : list Z := [87; 65; 82; 78; 73; 78; 71].
Definition log_mem0 : mem :=
  bytes_at 100 (prefix_fmt ++ [0]) (bytes_at 120 (line_fmt ++ [0]) (bytes_at 140 (warning_name ++ [0]) (bytes_at 160 (log_fmt0 ++ [0])
    (zeroed ∅ (byte_range 1000 32 ++ byte_range 1100 200 ++ byte_range 1400 1 ++ byte_range 1410 13 ++ byte_range 1500 128))))).
Definition logs0 : logs (bool * list Z) unit :=
  mk_logs (true, []) ({[0 := mk_cpu 0 0 1 0 0 false]}, mk_lock 0 0 (Some "QEMU serial"%string))
    (mk_tty log_mem0 tt (mk_fb 0 0 0 0 0) 0 0 0 0 0 0 0 0) true false.

Lemma logf_sends_one_line_witness :
  ∃ s', logf 0 1 0 1400 1410 font0 100 120 [0; 0; 140; 0] 1000 1100 1500 2 160 [3] logs0 = Done (tt, s') ∧
    sent (lg_port s') = prefix_text 0 warning_name ++ [117; 112; 32; 51; 10] ∧
    lg_sl s' = ({[0 := mk_cpu 0 0 1 0 0 true]}, mk_lock 0 0 (Some "QEMU serial"%string)) ∧
    ∀ a, data 1400 1410 1000 1100 1500 a → tm (lg_tty s') !! a = tm (lg_tty logs0) !! a.
Proof.
  assert (∀ a l, at_check log_mem0 a (l ++ [0]) = true → 0 ∉ l → 0 ≤ a → a + Z.of_nat (length l) < 1000 →
    text_at (data 1400 1410 1000 1100 1500) log_mem0 a l) as Hlit.
  { intros a l Ha H0 Hp Hl. split_and!; [by apply at_check_true|done|]. intros i Hi.
    unfold data, log_busy, in_prefix, in_fmsg, in_final, slot. lia. }
  refine (logf_sends_one_line 0 1 0 1400 1410 font0 100 120 [0; 0; 140; 0] 1000 1100 1500 _ logs0 (mk_cpu 0 0 1 0 0 false)
    2 160 log_fmt0 [3] (λ _, None) [117; 112; 32; 51] 140 warning_name _ _ _ _ _ _ _ _ _ _ _ _ _); try done.
  - by intros [[] ?]; cbn; lia.
  - split; [done|split; [done|]]. exists 0. done.
  - split; try (apply has_check; by vm_compute).
    + split; apply has_check; by vm_compute.
    + unfold slot, in_prefix, in_fmsg. lia.
    + unfold in_prefix, in_fmsg. lia.
    + unfold in_final, log_busy, in_prefix, in_fmsg, slot. lia.
    + apply Hlit; [by vm_compute|by apply (bool_decide_unpack _)|done|done].
    + apply Hlit; [by vm_compute|by apply (bool_decide_unpack _)|done|done].
  - apply Hlit; [by vm_compute|by apply (bool_decide_unpack _)|done|done].
  - apply Hlit; [by vm_compute|by apply (bool_decide_unpack _)|done|done].
  - by apply (bool_decide_unpack _).
Defined.
