(* ===== verification/ThreadArray.v ===== *)
(** * Growable arrays of threads (kernel/process.c, struct thread_arr)

    [init_thread_array], [add], [get], [remove] and [remove_el] over heap
    blocks of pointer slots.  The specification is a list. *)
From S2P Require Import Prelude.
From S2P Require Import Layout.

(** [alloc] and [realloc] of the kernel heap, which provide the blocks. *)
Class ArrayHeap (H : Type) := {
  ah_alloc : Z → M H Z;
  ah_realloc : Z → Z → M H Z;
}.

(** [struct thread_arr]. *)
Record thread_array := mk_ta { ta_data : Z; ta_len : Z; ta_capacity : Z }.
#[export] Instance thread_array_eq_dec : EqDecision thread_array.
Proof. solve_decision. Defined.

(** The blocks, as lists of 8-byte slots by address, and the heap. *)
Record blocks (H : Type) := mk_blocks { slots : gmap Z (list Z); ta_heap : H }.
Arguments mk_blocks {H}.
Arguments slots {H}.
Arguments ta_heap {H}.

Section thread_array.
Context {H : Type} `{!ArrayHeap H}.
(** What a fresh block at an address holds. *)
Context (junk : Z → nat → list Z).
Abbreviation TA := (M (blocks H)).

Definition on_ta_heap {A} : M H A → TA A := zoom ta_heap (λ h s, mk_blocks (slots s) h).

Definition ta_alloc (n : Z) : TA Z :=
  p ← on_ta_heap (ah_alloc n);
  (if decide (p = 0) then mret tt
   else modify (λ s, mk_blocks (<[p := take (Z.to_nat (n / 8)) (junk p (Z.to_nat (n / 8)))]> (slots s)) (ta_heap s)));;
  mret p.

(** A grown block keeps what the old one held: the contract of [realloc],
    which [Heap.realloc_keeps_contents] establishes for the kernel heap. *)
Definition ta_realloc (p n : Z) : TA Z :=
  p' ← on_ta_heap (ah_realloc p n);
  (if decide (p' = 0) then mret tt else
   modifyf (λ s,
     match slots s !! p with
     | Some old => Some (mk_blocks (<[p' := take (Z.to_nat (n / 8)) (old ++ junk p' (Z.to_nat (n / 8)))]> (delete p (slots s))) (ta_heap s))
     | None => None
     end));;
  mret p'.

Definition load_slot (data i : Z) : TA Z :=
  getf (λ s, match slots s !! data with Some b => if decide (0 ≤ i) then b !! Z.to_nat i else None | None => None end).
Definition store_slot (data i v : Z) : TA unit :=
  modifyf (λ s,
    match slots s !! data with
    | Some b => if decide (0 ≤ i < Z.of_nat (length b))
                then Some (mk_blocks (<[data := <[Z.to_nat i := v]> b]> (slots s)) (ta_heap s)) else None
    | None => None
    end).

Definition init_thread_array : TA thread_array :=
  p ← ta_alloc (8 *64 8);
  mret (mk_ta p 0 8).

Definition add (arr : thread_array) (t : Z) : TA thread_array :=
  arr ← (if decide (ta_len arr >= ta_capacity arr) then
           let capacity := ta_capacity arr *64 2 in
           p ← ta_realloc (ta_data arr) (capacity *64 8);
           mret (mk_ta p (ta_len arr) capacity)
         else mret arr);
  if decide (ta_data arr = 0) then mret arr else
  store_slot (ta_data arr) (ta_len arr) t;;
  mret (mk_ta (ta_data arr) (ta_len arr +64 1) (ta_capacity arr)).

Definition ta_get (arr : thread_array) (index : Z) : TA Z := load_slot (ta_data arr) index.

(** [memmove] one slot down; an access outside the block ends it, so the
    block's length bounds the loop. *)
Fixpoint move_down (fuel : nat) (data index j n : Z) : TA unit :=
  if decide (j < n) then
    match fuel with
    | O => out_of_fuel
    | S fuel =>
        v ← load_slot data (index + 1 + j);
        store_slot data (index + j) v;;
        move_down fuel data index (j + 1) n
    end
  else mret tt.

Definition remove (arr : thread_array) (index : Z) : TA thread_array :=
  if decide (index = ta_len arr -64 1) then
    store_slot (ta_data arr) index 0;;
    mret (mk_ta (ta_data arr) (ta_len arr -64 1) (ta_capacity arr))
  else
    fuel ← gets (λ s, match slots s !! ta_data arr with Some b => length b | None => O end);
    move_down (S fuel) (ta_data arr) index 0 (w64 (ta_len arr - index - 1));;
    mret (mk_ta (ta_data arr) (ta_len arr -64 1) (ta_capacity arr)).

(** The loop of [remove_el], from index [i]. *)
Fixpoint remove_el_loop (n : nat) (arr : thread_array) (t i : Z) : TA thread_array :=
  match n with
  | O => mret arr
  | S n =>
      v ← load_slot (ta_data arr) i;
      if decide (v = t) then remove arr i else remove_el_loop n arr t (i + 1)
  end.
Definition remove_el (arr : thread_array) (t : Z) : TA thread_array :=
  remove_el_loop (Z.to_nat (ta_len arr)) arr t 0.

(** ** The specification *)

Fixpoint remove_first (t : Z) (l : list Z) : list Z :=
  match l with [] => [] | x :: l => if decide (x = t) then l else x :: remove_first t l end.

(** The array stands for [l]: its block has [capacity] slots and starts with [l]. *)
Definition holds_list (s : blocks H) (arr : thread_array) (l : list Z) : Prop :=
  ∃ b, slots s !! ta_data arr = Some b ∧ ta_data arr ≠ 0 ∧ take (length l) b = l ∧
    ta_len arr = Z.of_nat (length l) ∧ ta_capacity arr = Z.of_nat (length b) ∧
    (length l ≤ length b)%nat ∧ 0 < ta_capacity arr.

Lemma load_slot_run s data i b v :
  slots s !! data = Some b → b !! i = Some v → load_slot data (Z.of_nat i) s = Done (v, s).
Proof.
  intros Hb Hv. apply (getf_done (λ s, _)). rewrite Hb, decide_True by lia. by rewrite Nat2Z.id.
Qed.

Lemma store_slot_run s data i b v :
  slots s !! data = Some b → (i < length b)%nat →
  store_slot data (Z.of_nat i) v s = Done (tt, mk_blocks (<[data := <[i := v]> b]> (slots s)) (ta_heap s)).
Proof.
  intros Hb Hi. apply (modifyf_done (λ s, _)). rewrite Hb, decide_True by lia. by rewrite Nat2Z.id.
Qed.

Lemma take_snoc_insert (l : list Z) (t : Z) (b : list Z) :
  take (length l) b = l → (length l < length b)%nat → take (length l + 1) (<[length l := t]> b) = l ++ [t].
Proof.
  intros Ht Hl. rewrite <- (take_drop (length l) b) at 1. rewrite Ht.
  rewrite insert_app_r_alt by lia. rewrite Nat.sub_diag.
  destruct (drop (length l) b) as [|x k] eqn:Ed.
  { apply (f_equal length) in Ed. rewrite length_drop in Ed. cbn in Ed. lia. }
  cbn. rewrite take_app_ge by lia. replace (length l + 1 - length l)%nat with 1%nat by lia. done.
Qed.

(** Enough room: [add] appends in place. *)
Lemma add_in_place s arr l t :
  holds_list s arr l → ta_len arr < ta_capacity arr → ta_capacity arr < 2 ^ 60 →
  ∃ arr' s', add arr t s = Done (arr', s') ∧ holds_list s' arr' (l ++ [t]) ∧ ta_heap s' = ta_heap s ∧
    ta_capacity arr' = ta_capacity arr.
Proof.
  intros (b & Hb & H0 & Ht & Hlen & Hcap & Hle & Hpos) Hlt Hbig. unfold add.
  rewrite decide_False by lia. step. rewrite decide_False by done. rewrite Hlen.
  erewrite bind_done by (apply store_slot_run; [done|lia]).
  eexists _, _. split; [done|]. split; [|done]. exists (<[length l := t]> b). cbn.
  rewrite lookup_insert_eq, length_insert, length_app. cbn. rewrite w64_small by lia.
  split_and!; try done; try lia. apply take_snoc_insert; [done|lia].
Qed.

(** No room: the block doubles and moves. *)
Lemma add_grows s arr l t p' h' :
  holds_list s arr l → ta_len arr = ta_capacity arr → ta_capacity arr < 2 ^ 59 →
  ah_realloc (ta_data arr) (ta_capacity arr * 2 * 8) (ta_heap s) = Done (p', h') → p' ≠ 0 →
  (∀ n, length (junk p' n) = n) →
  ∃ arr' s', add arr t s = Done (arr', s') ∧ holds_list s' arr' (l ++ [t]) ∧ ta_heap s' = h' ∧
    ta_capacity arr' = 2 * ta_capacity arr.
Proof.
  intros (b & Hb & H0 & Ht & Hlen & Hcap & Hle & Hpos) Hfull Hbig Hre Hp' Hjunk. unfold add.
  rewrite decide_True by lia. rewrite (w64_small (ta_capacity arr * 2)), w64_small by lia.
  set (n := Z.to_nat (ta_capacity arr * 2 * 8 / 8)).
  assert (n = length b + length b)%nat as Hn by (unfold n; rewrite Z.div_mul by lia; lia).
  set (b' := take n (b ++ junk p' n)).
  assert (length b' = n) as Hb' by (unfold b'; rewrite length_take, length_app, Hjunk; lia).
  set (s1 := mk_blocks (<[p' := b']> (delete (ta_data arr) (slots s))) h').
  assert (ta_realloc (ta_data arr) (ta_capacity arr * 2 * 8) s = Done (p', s1)) as E1.
  { unfold ta_realloc. rewrite (bind_done _ _ _ p' (mk_blocks (slots s) h')); [|unfold on_ta_heap, zoom; by rewrite Hre].
    rewrite decide_False by done. erewrite bind_done; [done|]. apply (modifyf_done (λ s, _)). cbn. by rewrite Hb. }
  rewrite bind_assoc, (bind_done _ _ _ _ _ E1). step. rewrite decide_False by done. cbn [ta_data ta_len ta_capacity].
  assert (slots s1 !! p' = Some b') as Hl1 by (cbn; by rewrite lookup_insert_eq).
  rewrite Hlen. erewrite bind_done by (apply store_slot_run; [exact Hl1|lia]).
  eexists _, _. split; [done|]. split; [|cbn; split; [done|lia]]. exists (<[length l := t]> b'). cbn.
  rewrite lookup_insert_eq, length_insert, length_app. cbn. rewrite w64_small by lia.
  split_and!; try done; try lia. apply take_snoc_insert; [|lia].
  unfold b'. rewrite take_take, take_app_le by lia. rewrite Nat.min_l by lia. done.
Qed.

(** The block while the slots from [i + 1] on move down, [j] of them done. *)
Definition moved (b b' : list Z) (i j : nat) : Prop :=
  ∀ k, b' !! k = if decide ((i ≤ k < i + j)%nat) then b !! S k else b !! k.

Lemma moved_length b b' i j : (i + j < length b)%nat → moved b b' i j → length b' = length b.
Proof.
  intros Hij Hm. apply Nat.le_antisymm.
  - apply lookup_ge_None. rewrite Hm. case_decide; apply lookup_ge_None; lia.
  - destruct (length b') as [|n] eqn:E; [apply nil_length_inv in E; subst b'|].
    + specialize (Hm 0%nat). rewrite lookup_nil in Hm. case_decide; symmetry in Hm; apply lookup_ge_None in Hm; lia.
    + assert (b' !! S n = None) as Hn by (apply lookup_ge_None; lia). rewrite Hm in Hn.
      case_decide; apply lookup_ge_None in Hn; lia.
Qed.

Lemma move_down_run fuel s data b b' i j n :
  slots s !! data = Some b' → moved b b' i j → (i + n < length b)%nat → (j ≤ n)%nat → (n - j < fuel)%nat →
  ∃ b'', move_down fuel data (Z.of_nat i) (Z.of_nat j) (Z.of_nat n) s
      = Done (tt, mk_blocks (<[data := b'']> (slots s)) (ta_heap s)) ∧ moved b b'' i n.
Proof.
  revert s b' j. induction fuel as [|fuel IH]; intros s b' j Hs Hm Hin Hj Hf; [lia|]. cbn [move_down].
  destruct (decide (Z.of_nat j < Z.of_nat n)) as [Hlt|Hge].
  2: { assert (j = n) as -> by lia. exists b'. split; [|done]. rewrite insert_id by done. by destruct s. }
  assert (length b' = length b) as Hlb by (eapply moved_length; [|exact Hm]; lia).
  destruct (lookup_lt_is_Some_2 b (i + 1 + j)) as [v Hv]; [lia|].
  replace (Z.of_nat i + 1 + Z.of_nat j) with (Z.of_nat (i + 1 + j)) by lia.
  erewrite bind_done by (eapply load_slot_run; [done|rewrite Hm, decide_False by lia; exact Hv]).
  replace (Z.of_nat i + Z.of_nat j) with (Z.of_nat (i + j)) by lia.
  erewrite bind_done by (apply store_slot_run; [done|lia]).
  replace (Z.of_nat j + 1) with (Z.of_nat (S j)) by lia.
  destruct (IH (mk_blocks (<[data := <[(i + j)%nat := v]> b']> (slots s)) (ta_heap s)) (<[(i + j)%nat := v]> b') (S j))
    as (b'' & E & Hm'').
  - cbn. by rewrite lookup_insert_eq.
  - intros k. destruct (decide (k = i + j)%nat) as [->|Hk].
    + rewrite list_lookup_insert_eq by lia. rewrite decide_True by lia. rewrite <- Hv. f_equal. lia.
    + rewrite list_lookup_insert_ne by lia. rewrite Hm. repeat case_decide; try done; lia.
  - lia.
  - lia.
  - lia.
  - exists b''. split; [|done]. rewrite E. cbn. by rewrite insert_insert_eq.
Qed.

Lemma moved_delete b b' i l :
  take (length l) b = l → (i < length l)%nat → moved b b' i (length l - i - 1) →
  take (length (delete i l)) b' = delete i l.
Proof.
  intros Ht Hi Hm. apply list_eq. intros k. rewrite length_delete by (by apply lookup_lt_is_Some).
  destruct (decide (k < length l - 1)%nat) as [Hk|Hk].
  - rewrite lookup_take_lt by lia. rewrite Hm.
    assert (∀ k, (k < length l)%nat → b !! k = l !! k) as Hbl.
    { intros k' Hk'. rewrite <- (lookup_take_lt b (length l)) by lia. by rewrite Ht. }
    destruct (decide (i ≤ k)%nat).
    + rewrite decide_True by lia. rewrite list_lookup_delete_ge by lia. apply Hbl. lia.
    + rewrite decide_False by lia. rewrite list_lookup_delete_lt by lia. apply Hbl. lia.
  - rewrite lookup_take_ge by lia. symmetry. apply lookup_ge_None. rewrite length_delete by (by apply lookup_lt_is_Some). lia.
Qed.

Lemma remove_run s arr l i :
  holds_list s arr l → (i < length l)%nat → ta_capacity arr < 2 ^ 60 →
  ∃ arr' s', remove arr (Z.of_nat i) s = Done (arr', s') ∧ holds_list s' arr' (delete i l) ∧ ta_heap s' = ta_heap s ∧
    ta_capacity arr' = ta_capacity arr.
Proof.
  intros (b & Hb & H0 & Ht & Hlen & Hcap & Hle & Hpos) Hi Hbig. unfold remove.
  rewrite Hlen, !w64_small by lia.
  pose proof (length_delete l i ltac:(by apply lookup_lt_is_Some)) as Hdl.
  destruct (decide (Z.of_nat i = Z.of_nat (length l) - 1)) as [Hlast|Hmid].
  - erewrite bind_done by (apply store_slot_run; [done|lia]).
    eexists _, _. split; [done|]. split; [|done]. exists (<[i := 0]> b). cbn. rewrite lookup_insert_eq, length_insert.
    split_and!; try done; try lia.
    rewrite take_insert_ge by lia. apply (moved_delete b b i l Ht Hi).
    intros k. rewrite decide_False by lia. done.
  - rewrite (bind_done (gets _) _ _ _ _ eq_refl). cbv beta. rewrite Hb.
    destruct (move_down_run (S (length b)) s (ta_data arr) b b i 0 (length l - i - 1)) as (b' & E & Hm);
      [done| |lia|lia|lia|].
    { intros k. rewrite decide_False by lia. done. }
    replace (Z.of_nat (length l) - Z.of_nat i - 1) with (Z.of_nat (length l - i - 1)) by lia.
    rewrite (bind_done _ _ _ _ _ E). eexists _, _. split; [done|]. split; [|done].
    exists b'. cbn. rewrite lookup_insert_eq. assert (length b' = length b) as Hlb by (eapply moved_length; [|exact Hm]; lia).
    split_and!; try done; try lia. by apply (moved_delete b).
Qed.

Lemma remove_first_absent t l : t ∉ l → remove_first t l = l.
Proof. induction l as [|x l IH]; [done|]. intros Hn. cbn. rewrite decide_False by set_solver. f_equal. apply IH. set_solver. Qed.

Lemma remove_el_loop_run s arr l1 l2 t :
  holds_list s arr (l1 ++ l2) → t ∉ l1 → ta_capacity arr < 2 ^ 60 →
  ∃ arr' s', remove_el_loop (length l2) arr t (Z.of_nat (length l1)) s = Done (arr', s') ∧
    holds_list s' arr' (remove_first t (l1 ++ l2)) ∧ ta_heap s' = ta_heap s ∧ ta_capacity arr' = ta_capacity arr.
Proof.
  revert l1. induction l2 as [|x l2 IH]; intros l1 Hh Hn Hbig; cbn [length remove_el_loop].
  { exists arr, s. split; [done|]. rewrite app_nil_r in *. by rewrite remove_first_absent. }
  pose proof Hh as (b & Hb & _ & Ht & _).
  assert (b !! length l1 = Some x) as Hx.
  { rewrite <- (lookup_take_lt _ (length (l1 ++ x :: l2))) by (rewrite length_app; cbn; lia). rewrite Ht. by apply list_lookup_middle. }
  erewrite bind_done by (by eapply load_slot_run). case_decide as Hd.
  - subst x. destruct (remove_run s arr (l1 ++ t :: l2) (length l1) Hh) as (arr' & s' & E & Hh' & Hr); [rewrite length_app; cbn; lia|done|].
    exists arr', s'. split; [done|]. split; [|done].
    replace (remove_first t (l1 ++ t :: l2)) with (delete (length l1) (l1 ++ t :: l2)); [done|].
    rewrite delete_middle. clear -Hn. induction l1 as [|y l1 IH]; cbn; [by rewrite decide_True|].
    rewrite decide_False by set_solver. f_equal. apply IH. set_solver.
  - replace (Z.of_nat (length l1) + 1) with (Z.of_nat (length (l1 ++ [x]))) by (rewrite length_app; cbn; lia).
    replace (l1 ++ x :: l2) with ((l1 ++ [x]) ++ l2) in * by by rewrite <- app_assoc.
    apply IH; [done|set_solver|done].
Qed.

(** ** Sequences of operations *)

Inductive ta_op := OAdd (t : Z) | OGet (i : Z) | ORemove (i : Z) | ORemoveEl (t : Z).

Definition ta_exec (op : ta_op) (arr : thread_array) : TA (Z * thread_array) :=
  match op with
  | OAdd t => arr' ← add arr t; mret (0, arr')
  | OGet i => v ← ta_get arr i; mret (v, arr)
  | ORemove i => arr' ← remove arr i; mret (0, arr')
  | ORemoveEl t => arr' ← remove_el arr t; mret (0, arr')
  end.

(** [None]: an index out of the list, which the callers never pass. *)
Definition list_op (op : ta_op) (l : list Z) : option (Z * list Z) :=
  match op with
  | OAdd t => Some (0, l ++ [t])
  | OGet i => if decide (0 ≤ i) then match l !! Z.to_nat i with Some v => Some (v, l) | None => None end else None
  | ORemove i => if decide (0 ≤ i < Z.of_nat (length l)) then Some (0, delete (Z.to_nat i) l) else None
  | ORemoveEl t => Some (0, remove_first t l)
  end.

Fixpoint ta_run (ops : list ta_op) (arr : thread_array) : TA (list Z * thread_array) :=
  match ops with
  | [] => mret ([], arr)
  | op :: ops => r ← ta_exec op arr; rs ← ta_run ops r.2; mret (r.1 :: rs.1, rs.2)
  end.
Fixpoint list_run (ops : list ta_op) (l : list Z) : option (list Z * list Z) :=
  match ops with
  | [] => Some ([], l)
  | op :: ops =>
      match list_op op l with
      | Some (v, l') => match list_run ops l' with Some (vs, l'') => Some (v :: vs, l'') | None => None end
      | None => None
      end
  end.

(** How many additions a sequence has. *)
Fixpoint adds (ops : list ta_op) : nat :=
  match ops with [] => O | OAdd _ :: ops => S (adds ops) | _ :: ops => adds ops end.

(** The heap can serve [k] calls of [realloc] of at most [lim] bytes. *)
Fixpoint grants (lim : Z) (k : nat) (h : H) : Prop :=
  match k with
  | O => True
  | S k => ∀ p n, 0 ≤ n ≤ lim → ∃ p' h', ah_realloc p n h = Done (p', h') ∧ p' ≠ 0 ∧ grants lim k h'
  end.

Lemma grants_less lim k h : grants lim (S k) h → grants lim k h.
Proof.
  revert h. induction k as [|k IH]; intros h Hg; [done|]. intros p n Hn.
  destruct (Hg p n Hn) as (p' & h' & E & Hp & Hg'). exists p', h'. split_and!; [done|done|]. by apply IH.
Qed.

Hypothesis junk_length : ∀ p n, length (junk p n) = n.

(** Capacity for [n] more elements behind a list of length [len]. *)
Definition bounded (arr : thread_array) (len n : nat) : Prop :=
  ta_capacity arr < 2 ^ 59 ∧ 2 * Z.of_nat (len + n) < 2 ^ 59.

Lemma remove_first_length t l : (length (remove_first t l) ≤ length l)%nat.
Proof. induction l as [|x l IH]; cbn; [lia|]. case_decide; cbn; lia. Qed.

Lemma list_op_length op l v l' :
  list_op op l = Some (v, l') → (length l' + 0 ≤ length l + adds [op])%nat.
Proof.
  destruct op as [t|i|i|t]; cbn [list_op adds]; intros Ho.
  - simplify_eq. rewrite length_app. cbn. lia.
  - repeat case_match; simplify_eq. lia.
  - case_decide as Hi; simplify_eq. rewrite length_delete by (apply lookup_lt_is_Some; lia). lia.
  - simplify_eq. pose proof (remove_first_length t l). lia.
Qed.

Lemma ta_exec_run s arr l op v l' lim k :
  holds_list s arr l → bounded arr (length l) (adds [op] + k) → list_op op l = Some (v, l') →
  16 * Z.of_nat (length l + adds [op] + k) ≤ lim → grants lim (adds [op] + k) (ta_heap s) →
  ∃ arr' s', ta_exec op arr s = Done ((v, arr'), s') ∧ holds_list s' arr' l' ∧ bounded arr' (length l') k ∧ grants lim k (ta_heap s').
Proof.
  intros Hh [Hcap Hlim] Hop Hl Hg. pose proof (list_op_length _ _ _ _ Hop) as Hll.
  pose proof Hh as (b & Hb & H0 & Ht & Hlen & Hc & Hle & Hpos).
  destruct op as [t|i|i|t]; cbn [ta_exec list_op adds Nat.add] in *; unfold bounded.
  - simplify_eq. destruct (decide (ta_len arr < ta_capacity arr)) as [Hlt|Hge].
    + destruct (add_in_place s arr l t Hh Hlt) as (arr' & s' & E & Hh' & Hs' & Hc'); [lia|].
      exists arr', s'. rewrite (bind_done _ _ _ _ _ E), Hs'. split_and!; [done|done|lia|lia|by apply grants_less].
    + destruct (Hg (ta_data arr) (ta_capacity arr * 2 * 8)) as (p' & h' & Hre & Hp' & Hg'); [lia|].
      destruct (add_grows s arr l t p' h' Hh) as (arr' & s' & E & Hh' & Hs' & Hc'); [lia|lia|done|done|done|].
      exists arr', s'. rewrite (bind_done _ _ _ _ _ E), Hs'. split_and!; [done|done|lia|lia|done].
  - case_decide; [|done]. destruct (l !! Z.to_nat i) as [x|] eqn:El; simplify_eq.
    exists arr, s. split_and!; [|done|lia|lia|done].
    erewrite bind_done; [done|]. unfold ta_get. rewrite <- (Z2Nat.id i) by done. eapply load_slot_run; [done|].
    rewrite <- (lookup_take_lt b (length l')) by (by eapply lookup_lt_Some). by rewrite Ht.
  - case_decide as Hi; simplify_eq.
    destruct (remove_run s arr l (Z.to_nat i) Hh) as (arr' & s' & E & Hh' & Hs' & Hcap'); [lia|lia|].
    rewrite Z2Nat.id in E by lia. exists arr', s'. rewrite (bind_done _ _ _ _ _ E), Hs'. split_and!; [done|done|lia|lia|done].
  - simplify_eq. destruct (remove_el_loop_run s arr [] l t Hh) as (arr' & s' & E & Hh' & Hs' & Hcap'); [by apply not_elem_of_nil|lia|].
    exists arr', s'. unfold remove_el. rewrite Hlen, Nat2Z.id. rewrite app_nil_l in Hh'.
    rewrite (bind_done _ _ _ _ _ E), Hs'. split_and!; [done|done|lia|lia|done].
Qed.

End thread_array.

(** ** An example: a full array grows *)

(** A heap that hands out increasing addresses. *)
#[export] Instance bump_array_heap : ArrayHeap Z := {|
  ah_alloc := λ n h, Done (h, h + n);
  ah_realloc := λ _ n h, Done (Z.max 1 h, Z.max 1 h + n);
|}.
Definition zero_junk (_ : Z) (n : nat) : list Z := replicate n 0.
Definition pair_array : thread_array := mk_ta 64 2 2.
Definition pair_blocks : blocks Z := mk_blocks {[64 := [11; 22]]} 1024.

