(* ===== verification/Bytes.v ===== *)
(** * Little-endian words in byte memory

    The tables that the boot loader and the firmware leave in memory are read
    field by field: a field of [n] bytes at an address is the little-endian
    number of those bytes. *)
From S2P Require Import Prelude.
From S2P Require Import Layout.
From S2P Require Import Libc.

Fixpoint ldn (n : nat) (a : Z) : MEM Z :=
  match n with
  | O => mret 0
  | S n => b ← ldb a; r ← ldn n (a + 1); mret (b + 256 * r)
  end.
Abbreviation ld16 := (ldn 2).
Abbreviation ld32 := (ldn 4).
Abbreviation ld64 := (ldn 8).

(** The bytes of a number. *)
Fixpoint le_bytes (n : nat) (v : Z) : list Z :=
  match n with O => [] | S n => v mod 256 :: le_bytes n (v / 256) end.

Lemma le_bytes_length n v : length (le_bytes n v) = n.
Proof. revert v. induction n as [|n IH]; intros v; cbn; [done|]. by rewrite IH. Qed.

Lemma ldn_run n m a v :
  at_ m a (le_bytes n v) → 0 ≤ v < 256 ^ Z.of_nat n → ldn n a m = Done (v, m).
Proof.
  revert a v. induction n as [|n IH]; intros a v Ha Hv; cbn [ldn le_bytes] in *.
  { cbn in Hv. replace v with 0 by lia. done. }
  apply at_cons in Ha as [Hb Ha]. rewrite (bind_done _ _ _ _ _ (ldb_run _ _ _ Hb)).
  rewrite Nat2Z.inj_succ, Z.pow_succ_r in Hv by lia.
  assert (0 ≤ v / 256 < 256 ^ Z.of_nat n) as Hq.
  { split; [apply Z.div_pos; lia|apply Z.div_lt_upper_bound; lia]. }
  rewrite (bind_done _ _ _ _ _ (IH _ _ Ha Hq)), ret_run. do 2 f_equal.
  pose proof (Z.div_mod v 256). lia.
Qed.

Lemma ldn_total n m a : has m a (Z.of_nat n) → ∃ v, ldn n a m = Done (v, m).
Proof.
  revert a. induction n as [|n IH]; intros a Hh; cbn [ldn]; [eauto|].
  destruct (Hh 0) as [b Hb]; [lia|]. rewrite Z.add_0_r in Hb. rewrite (bind_done _ _ _ _ _ (ldb_run _ _ _ Hb)).
  destruct (IH (a + 1)) as [r Hr].
  - eapply has_mono; [exact Hh|lia|lia].
  - rewrite (bind_done _ _ _ _ _ Hr), ret_run. eauto.
Qed.

(** Round up to a multiple of 8, as the tag lists are aligned. *)
Definition align8 (z : Z) : Z := (z + 7) / 8 * 8.

Lemma align8_spec z : 0 ≤ z → z ≤ align8 z < z + 8 ∧ align8 z mod 8 = 0.
Proof. intros Hz. unfold align8. split; [lia_div|apply Z.mod_mul; lia]. Qed.

(** The C expression [(z + 7) & ~7] on an [unsigned int]. *)
Definition round8 (z : Z) : Z := Z.land (w32 (z + 7)) (w32 (Z.lnot 7)).

Lemma round8_align z : 0 ≤ z < 2 ^ 32 - 7 → round8 z = align8 z.
Proof.
  intros Hz. unfold round8, align8. rewrite w32_small by lia.
  replace (w32 (Z.lnot 7)) with (Z.ldiff (Z.ones 32) (Z.ones 3)) by done.
  rewrite Z.ldiff_land, Z.land_assoc, Z.land_ones, Z.mod_small by lia.
  rewrite <- Z.ldiff_land, Z.ldiff_ones_r by lia. rewrite Z.shiftr_div_pow2, Z.shiftl_mul_pow2 by lia. done.
Qed.

(** ** Bit fields *)

(** Bit fields: [w] bits at bit [lo]. *)
Definition field (lo w raw : Z) : Z := Z.land (Z.shiftr raw lo) (Z.ones w).
Definition set_field (lo w v raw : Z) : Z :=
  Z.lor (Z.ldiff raw (Z.shiftl (Z.ones w) lo)) (Z.shiftl (Z.land v (Z.ones w)) lo).

Lemma field_set lo w v raw : 0 ≤ lo → 0 ≤ w → 0 ≤ v < 2 ^ w → field lo w (set_field lo w v raw) = v.
Proof.
  intros Hlo Hw Hv. unfold field, set_field. apply Z.bits_inj'. intros n Hn.
  rewrite Z.land_spec, Z.shiftr_spec, Z.lor_spec, Z.ldiff_spec, !Z.shiftl_spec by lia.
  replace (n + lo - lo) with n by lia. rewrite Z.land_spec.
  destruct (decide (n < w)) as [Hnw|Hnw].
  - rewrite Z.ones_spec_low by lia. cbn. by rewrite andb_false_r, !andb_true_r.
  - rewrite Z.ones_spec_high by lia. rewrite !andb_false_r. symmetry.
    destruct (decide (v = 0)) as [->|]; [apply Z.bits_0|].
    apply Z.bits_above_log2; [lia|]. apply (Z.lt_le_trans _ w); [|lia]. apply Z.log2_lt_pow2; lia.
Qed.

Lemma field_other lo w lo' w' v raw :
  0 ≤ lo → 0 ≤ w → 0 ≤ lo' → 0 ≤ w' → lo + w ≤ lo' ∨ lo' + w' ≤ lo →
  field lo w (set_field lo' w' v raw) = field lo w raw.
Proof.
  intros Hlo Hw Hlo' Hw' Hd. unfold field, set_field. apply Z.bits_inj'. intros n Hn.
  rewrite !Z.land_spec, !Z.shiftr_spec, Z.lor_spec, Z.ldiff_spec by lia.
  destruct (decide (n < w)) as [Hnw|Hnw]; [|by rewrite Z.ones_spec_high, !andb_false_r by lia].
  f_equal. destruct (decide (n + lo < lo')) as [Hlt|Hge].
  - rewrite !Z.shiftl_spec_low by lia. cbn. by rewrite andb_true_r, orb_false_r.
  - rewrite !Z.shiftl_spec, Z.land_spec, Z.ones_spec_high by lia. cbn. by rewrite andb_true_r, andb_false_r, orb_false_r.
Qed.

Lemma set_field_range lo w v raw n :
  0 ≤ lo → 0 ≤ w → lo + w ≤ n → 0 ≤ raw < 2 ^ n → 0 ≤ set_field lo w v raw < 2 ^ n.
Proof.
  intros Hlo Hw Hn Hr.
  assert (∀ x, 0 ≤ x → (∀ i, n ≤ i → Z.testbit x i = false) → 0 ≤ x < 2 ^ n) as Hbits.
  { intros x Hx Hb. split; [done|]. destruct (decide (x = 0)) as [->|]; [apply Z.pow_pos_nonneg; lia|].
    apply Z.log2_lt_pow2; [lia|]. destruct (Z.lt_ge_cases (Z.log2 x) n) as [|Hge]; [done|].
    specialize (Hb _ Hge). rewrite Z.bit_log2 in Hb by lia. done. }
  apply Hbits.
  - unfold set_field. apply Z.lor_nonneg. split; [apply Z.ldiff_nonneg; lia|].
    apply Z.shiftl_nonneg, Z.land_nonneg. right. rewrite Z.ones_equiv. pose proof (Z.pow_pos_nonneg 2 w ltac:(lia) Hw). lia.
  - intros i Hi. unfold set_field. rewrite Z.lor_spec, Z.ldiff_spec.
    assert (Z.testbit raw i = false) as ->.
    { destruct (decide (raw = 0)) as [->|]; [apply Z.bits_0|]. apply Z.bits_above_log2; [lia|].
      apply (Z.lt_le_trans _ n); [apply Z.log2_lt_pow2; lia|lia]. }
    rewrite andb_false_l, orb_false_l, Z.shiftl_spec, Z.land_spec, Z.ones_spec_high by lia. by rewrite andb_false_r.
Qed.

(** The parts of a number put together again. *)
Lemma split_bits v i j : 0 ≤ i → 0 ≤ j → 0 ≤ v →
  Z.land v (Z.ones i) + 2 ^ i * Z.land (Z.shiftr v i) (Z.ones j) = Z.land v (Z.ones (i + j)).
Proof.
  intros Hi Hj Hv. rewrite !Z.land_ones, Z.shiftr_div_pow2, Z.pow_add_r by lia.
  pose proof (Z.pow_pos_nonneg 2 i ltac:(lia) Hi). pose proof (Z.pow_pos_nonneg 2 j ltac:(lia) Hj).
  by rewrite Z.rem_mul_r by lia.
Qed.

(** ** Storing words *)

Fixpoint stn (n : nat) (a v : Z) : MEM unit :=
  match n with
  | O => mret tt
  | S n => stb a (v mod 256);; stn n (a + 1) (v / 256)
  end.
Abbreviation st64 := (stn 8).

Lemma stn_run n m a v : has m a (Z.of_nat n) →
  ∃ m', stn n a v m = Done (tt, m') ∧ at_ m' a (le_bytes n v) ∧ ∀ b, ¬ (a ≤ b < a + Z.of_nat n) → m' !! b = m !! b.
Proof.
  revert m a v. induction n as [|n IH]; intros m a v Hh; cbn [stn le_bytes]; [by eexists|].
  destruct (Hh 0) as [x Hx]; [lia|]. rewrite Z.add_0_r in Hx.
  rewrite (bind_done _ _ _ _ _ (stb_run m a (v mod 256) (mk_is_Some _ _ Hx))).
  destruct (IH (<[a := v mod 256]> m) (a + 1) (v / 256)) as (m' & E & Ha & Ho).
  { apply has_insert. eapply has_mono; [exact Hh|lia|lia]. }
  exists m'. split; [done|]. split.
  - apply at_cons. split; [|done]. rewrite Ho by lia. apply lookup_insert_eq.
  - intros b Hb. rewrite Ho by lia. apply lookup_insert_ne. lia.
Qed.
