(* ===== verification/Multiboot.v ===== *)
(** * The boot information (kernel/multiboot.c, multiboot2.h)

    [load_multiboot_info] walks the list of tags the boot loader left in
    memory and records, for every kind of tag the caller asked for, where the
    tag is. *)
From S2P Require Import Prelude.
From S2P Require Import Layout.
From S2P Require Import Libc.
From S2P Require Import Printf.
From S2P Require Import Bytes.

Definition MULTIBOOT_BOOTLOADER_MAGIC : Z := 0x36d76289.
Definition MULTIBOOT_HEADER_TAG_END : Z := 0.
Definition MULTIBOOT_TAG_TYPE_MODULES : Z := 3.
Definition MULTIBOOT_TAG_TYPE_VBE_INFO : Z := 7.

(** [struct multiboot_boot_information]: every field but [module_size] is the
    address of a variable of the caller that receives the tag's address, or
    null; [module] is an array of [module_size] such variables. *)
Record boot_information := mk_info {
  cmd_line : Z; bootloader : Z; module : Z; module_size : Z; basic_meminfo : Z;
  bios_boot_device : Z; memory_map : Z; vbe : Z; framebuffer_ : Z; elf_symbols : Z;
  apm : Z; efi32 : Z; efi64 : Z; smbios : Z; acpi_old : Z; acpi_new : Z; network : Z;
  efi_mmap : Z; efi32_handle : Z; efi64_handle : Z; load_base_addr : Z;
}.

Definition set_module_size (n : Z) (i : boot_information) :=
  mk_info (cmd_line i) (bootloader i) (module i) n (basic_meminfo i) (bios_boot_device i) (memory_map i)
    (vbe i) (framebuffer_ i) (elf_symbols i) (apm i) (efi32 i) (efi64 i) (smbios i) (acpi_old i) (acpi_new i)
    (network i) (efi_mmap i) (efi32_handle i) (efi64_handle i) (load_base_addr i).
Definition set_vbe (v : Z) (i : boot_information) :=
  mk_info (cmd_line i) (bootloader i) (module i) (module_size i) (basic_meminfo i) (bios_boot_device i) (memory_map i)
    v (framebuffer_ i) (elf_symbols i) (apm i) (efi32 i) (efi64 i) (smbios i) (acpi_old i) (acpi_new i)
    (network i) (efi_mmap i) (efi32_handle i) (efi64_handle i) (load_base_addr i).

(** The switch over the tag type, for the cases of the form
    [if (boot_info->x) *boot_info->x = header]; the boot command line, the
    loader's name, the EFI boot services tag and unknown tags are skipped. *)
Definition tag_field (type : Z) (i : boot_information) : option Z :=
  match type with
  | 4 => Some (basic_meminfo i)
  | 5 => Some (bios_boot_device i)
  | 6 => Some (memory_map i)
  | 8 => Some (framebuffer_ i)
  | 9 => Some (elf_symbols i)
  | 10 => Some (apm i)
  | 11 => Some (efi32 i)
  | 12 => Some (efi64 i)
  | 13 => Some (smbios i)
  | 14 => Some (acpi_old i)
  | 15 => Some (acpi_new i)
  | 16 => Some (network i)
  | 17 => Some (efi_mmap i)
  | 19 => Some (efi32_handle i)
  | 20 => Some (efi64_handle i)
  | 21 => Some (load_base_addr i)
  | _ => None
  end.

(** The caller's structure and variables, and the index of the next module. *)
Record mb_state := mk_mb { info : boot_information; vars : gmap Z Z; module_index : Z }.

(** The body of the loop for a tag of a type at an address; [header_slot] is
    the address of the local variable [header]. *)
Definition handle_tag (header_slot : Z) (type header : Z) (s : mb_state) : mb_state :=
  let i := info s in
  if decide (type = MULTIBOOT_TAG_TYPE_MODULES) then
    if decide (module i ≠ 0 ∧ module_index s < module_size i) then
      mk_mb i (<[module i + 8 * module_index s := header]> (vars s)) (w32 (module_index s + 1))
    else s
  else if decide (type = MULTIBOOT_TAG_TYPE_VBE_INFO) then
    if decide (vbe i ≠ 0) then mk_mb (set_vbe header_slot i) (vars s) (module_index s) else s
  else
    match tag_field type i with
    | Some p => if decide (p ≠ 0) then mk_mb i (<[p := header]> (vars s)) (module_index s) else s
    | None => s
    end.

Fixpoint tag_loop (header_slot : Z) (fuel : nat) (header : Z) (s : mb_state) : MEM mb_state :=
  match fuel with
  | O => out_of_fuel
  | S fuel =>
      type ← ld32 header;
      if decide (type = MULTIBOOT_HEADER_TAG_END) then mret s else
      size ← ld32 (header + 4);
      tag_loop header_slot fuel (header + round8 size) (handle_tag header_slot type header s)
  end.

(** A list of tags lies in memory and every tag takes a byte at least. *)
Definition load_multiboot_info (header_slot magic addr : Z) (i : boot_information) (v : gmap Z Z) : MEM mb_state :=
  if decide (magic ≠ MULTIBOOT_BOOTLOADER_MAGIC) then panic else
  m ← get;
  s ← tag_loop header_slot (S (size m)) (addr + 8) (mk_mb i v 0);
  mret (mk_mb (set_module_size (module_index s) (info s)) (vars s) (module_index s)).

(** ** Tag lists in memory *)

(** A tag: its type and the bytes after its header. *)
Abbreviation tag := (Z * list Z)%type.
Definition tag_size (t : tag) : Z := 8 + Z.of_nat (length t.2).

(** The tags [ts] lie in memory from [a] on, each at a multiple of 8 from the
    first, and an end tag follows. *)
Fixpoint tags_at (m : mem) (a : Z) (ts : list tag) : Prop :=
  match ts with
  | [] => at_ m a (le_bytes 4 0)
  | t :: ts =>
      0 < t.1 < 2 ^ 32 ∧ tag_size t < 2 ^ 31 ∧
      at_ m a (le_bytes 4 t.1 ++ le_bytes 4 (tag_size t) ++ t.2) ∧
      tags_at m (a + align8 (tag_size t)) ts
  end.

(** The tags with their addresses. *)
Fixpoint placed (a : Z) (ts : list tag) : list (Z * Z) :=
  match ts with [] => [] | t :: ts => (t.1, a) :: placed (a + align8 (tag_size t)) ts end.

Lemma tag_size_align t : tag_size t ≤ align8 (tag_size t).
Proof. apply align8_spec. unfold tag_size. lia. Qed.

(** The bytes of the list bound the number of its tags. *)
Lemma tags_at_fuel m a ts : tags_at m a ts → (length ts < size m)%nat.
Proof.
  revert m a. induction ts as [|t ts IH]; intros m a Ht; cbn [tags_at length] in *.
  { apply at_length in Ht. rewrite le_bytes_length in Ht. lia. }
  destruct Ht as (_ & _ & Ha & Ht).
  assert (is_Some (m !! a)) as [x Hx].
  { replace a with (a + 0) by lia. eapply at_has; [exact Ha|]. rewrite !length_app, !le_bytes_length. lia. }
  assert (∀ a' ts, a < a' → tags_at m a' ts → tags_at (delete a m) a' ts) as Hdel.
  { clear. intros a' ts. revert a'. induction ts as [|t ts IH]; intros a' Hlt Ht; cbn [tags_at] in *.
    - eapply at_frame; [exact Ht|]. intros b Hb. apply lookup_delete_ne. lia.
    - destruct Ht as (?&?&Ha&Ht). split_and!; try lia.
      + eapply at_frame; [exact Ha|]. intros b Hb. apply lookup_delete_ne. lia.
      + apply IH; [|done]. pose proof (tag_size_align t). unfold tag_size in *. lia. }
  assert (a < a + align8 (tag_size t)) as Hlt by (pose proof (tag_size_align t); unfold tag_size in *; lia).
  pose proof (IH (delete a m) _ (Hdel _ _ Hlt Ht)) as Hl.
  rewrite map_size_delete_Some in Hl by eauto. lia.
Qed.

Lemma tag_loop_run header_slot fuel m a ts s :
  tags_at m a ts → (length ts < fuel)%nat →
  tag_loop header_slot fuel a s m =
    Done (fold_left (λ s ta, handle_tag header_slot ta.1 ta.2 s) (placed a ts) s, m).
Proof.
  revert a s fuel. induction ts as [|t ts IH]; intros a s [|fuel] Ht Hf; cbn [length] in Hf; try lia; cbn [tag_loop tags_at placed fold_left] in *.
  - rewrite (bind_done _ _ _ _ _ (ldn_run 4 m a 0 Ht ltac:(lia))). by rewrite decide_True.
  - destruct Ht as (Hty & Hsz & Ha & Ht). rewrite !at_app, le_bytes_length in Ha. destruct Ha as (Ha1 & Ha2 & _).
    rewrite (bind_done _ _ _ _ _ (ldn_run 4 m a t.1 Ha1 ltac:(lia))). rewrite decide_False by (unfold MULTIBOOT_HEADER_TAG_END; lia).
    assert (0 ≤ tag_size t) by (unfold tag_size; lia).
    rewrite (bind_done _ _ _ _ _ (ldn_run 4 m (a + 4) (tag_size t) Ha2 ltac:(lia))).
    rewrite round8_align by lia. apply IH; [done|lia].
Qed.

(** ** What the walk records *)

(** The addresses of the tags of a type, in order. *)
Definition of_type (t : Z) (l : list (Z * Z)) : list Z := (filter (λ ta, ta.1 = t) l).*2.

Lemma of_type_snoc t l ty a : of_type t (l ++ [(ty, a)]) = of_type t l ++ (if decide (ty = t) then [a] else []).
Proof.
  unfold of_type. rewrite filter_app, fmap_app. f_equal. case_decide as Hd.
  - by rewrite filter_cons_True.
  - by rewrite filter_cons_False.
Qed.

(** The caller's variables are distinct. *)
Record separate (i : boot_information) : Prop := {
  sep_fields t t' p : tag_field t i = Some p → tag_field t' i = Some p → p ≠ 0 → t = t';
  sep_modules t p k : tag_field t i = Some p → p ≠ 0 → 0 ≤ k < module_size i → p ≠ module i + 8 * k;
  sep_size : 0 ≤ module_size i < 2 ^ 31;
}.

(** The modules recorded. *)
Definition mods (i : boot_information) (l : list (Z * Z)) : list Z :=
  if decide (module i = 0) then [] else take (Z.to_nat (module_size i)) (of_type MULTIBOOT_TAG_TYPE_MODULES l).
(** The caller's structure after the tags [l]: a VBE tag makes [vbe] point to
    the local variable [header] if it was not null. *)
Definition info_after (header_slot : Z) (i : boot_information) (l : list (Z * Z)) : boot_information :=
  if decide (vbe i ≠ 0 ∧ of_type MULTIBOOT_TAG_TYPE_VBE_INFO l ≠ []) then set_vbe header_slot i else i.

Lemma info_after_same header_slot i l :
  (∀ t, tag_field t (info_after header_slot i l) = tag_field t i) ∧
  module (info_after header_slot i l) = module i ∧ module_size (info_after header_slot i l) = module_size i.
Proof. unfold info_after. by case_decide. Qed.

(** No variable of the caller that the tags [l] set is at [p]. *)
Definition unasked (i : boot_information) (l : list (Z * Z)) (p : Z) : Prop :=
  (∀ t, tag_field t i = Some p → p = 0 ∨ of_type t l = []) ∧ (∀ k, (k < length (mods i l))%nat → p ≠ module i + 8 * Z.of_nat k).

(** The record after the tags [l]. *)
Record recorded (header_slot : Z) (i : boot_information) (v : gmap Z Z) (l : list (Z * Z)) (s : mb_state) : Prop := {
  rec_info : info s = info_after header_slot i l;
  rec_var t p : tag_field t i = Some p → p ≠ 0 →
    vars s !! p = match last (of_type t l) with Some a => Some a | None => v !! p end;
  rec_index : module_index s = Z.of_nat (length (mods i l));
  rec_modules k a : mods i l !! k = Some a → vars s !! (module i + 8 * Z.of_nat k) = Some a;
  rec_else p : unasked i l p → vars s !! p = v !! p;
}.

Lemma mods_snoc i l ty a :
  0 ≤ module_size i →
  mods i (l ++ [(ty, a)]) = if decide (ty = MULTIBOOT_TAG_TYPE_MODULES ∧ module i ≠ 0 ∧ Z.of_nat (length (mods i l)) < module_size i)
    then mods i l ++ [a] else mods i l.
Proof.
  intros Hs. unfold mods. destruct (decide (module i = 0)) as [Hz|Hz]; [rewrite decide_False by tauto; done|].
  rewrite of_type_snoc, length_take. destruct (decide (ty = MULTIBOOT_TAG_TYPE_MODULES)) as [->|Hne].
  - destruct (decide (_ ∧ _)) as [(_ & _ & Hlt)|Hge]; [rewrite !take_ge by (rewrite ?length_app; cbn; lia); done|].
    rewrite take_app_le; [done|]. lia.
  - rewrite app_nil_r, decide_False by tauto. done.
Qed.

Lemma mods_length i l : 0 ≤ module_size i → Z.of_nat (length (mods i l)) ≤ module_size i.
Proof. intros Hs. unfold mods. case_decide; cbn; [lia|]. rewrite length_take. lia. Qed.

Lemma info_after_snoc header_slot i l ty a :
  info_after header_slot i (l ++ [(ty, a)]) =
    if decide (ty = MULTIBOOT_TAG_TYPE_VBE_INFO ∧ vbe i ≠ 0) then set_vbe header_slot i else info_after header_slot i l.
Proof.
  unfold info_after. rewrite of_type_snoc. destruct (decide (ty = _)) as [->|Hne].
  - destruct (decide (vbe i ≠ 0)) as [Hv|Hv].
    + rewrite (decide_True (P := _ ∧ vbe i ≠ 0)) by done. rewrite decide_True; [done|].
      split; [done|]. by destruct (of_type MULTIBOOT_TAG_TYPE_VBE_INFO l).
    + rewrite !decide_False by tauto. done.
  - rewrite app_nil_r. rewrite (decide_False (P := _ ∧ vbe i ≠ 0)) by tauto. done.
Qed.

Lemma unasked_less i l ty a p : 0 ≤ module_size i → unasked i (l ++ [(ty, a)]) p → unasked i l p.
Proof.
  intros Hs [Hu Hm]. split.
  - intros t Ht. destruct (Hu t Ht) as [?|Hn]; [by left|]. rewrite of_type_snoc in Hn. apply app_nil in Hn as [? _]. by right.
  - intros k Hk. apply Hm. rewrite mods_snoc by done. case_decide; rewrite ?length_app; lia.
Qed.

(** A tag that is not a module changes no module entry. *)
Lemma recorded_other header_slot i v l s s' ty a :
  separate i → recorded header_slot i v l s → ty ≠ MULTIBOOT_TAG_TYPE_MODULES → module_index s' = module_index s →
  info s' = info_after header_slot i (l ++ [(ty, a)]) →
  (∀ t p, tag_field t i = Some p → p ≠ 0 → vars s' !! p = if decide (t = ty) then Some a else vars s !! p) →
  (∀ k, 0 ≤ k < module_size i → vars s' !! (module i + 8 * k) = vars s !! (module i + 8 * k)) →
  (∀ p, (∀ q, tag_field ty i = Some q → q ≠ 0 → p ≠ q) → vars s' !! p = vars s !! p) →
  recorded header_slot i v (l ++ [(ty, a)]) s'.
Proof.
  intros [_ _ Hss] [Hf Hv Hi Hk He] Hty Hidx Hf' Hv' Hk' He'.
  assert (mods i (l ++ [(ty, a)]) = mods i l) as Hm by (rewrite mods_snoc by lia; rewrite decide_False by tauto; done).
  split; [done| |by rewrite Hidx, Hm| |].
  - intros t p Hp Hp0. rewrite (Hv' t p Hp Hp0), of_type_snoc. case_decide as Hd.
    + subst t. rewrite decide_True by done. by rewrite last_snoc.
    + rewrite decide_False by done. rewrite app_nil_r. by apply Hv.
  - intros k x. rewrite Hm. intros Hx. rewrite Hk'; [by apply Hk|]. apply lookup_lt_Some in Hx.
    pose proof (mods_length i l). lia.
  - intros p Hu. rewrite He'; [apply He; eapply unasked_less; [|exact Hu]; lia|].
    intros q Hq Hq0 ->. destruct Hu as [Hu _]. destruct (Hu ty Hq) as [?|Hn]; [done|].
    rewrite of_type_snoc, decide_True in Hn by done. by apply app_nil in Hn as [_ ?].
Qed.

(** A module goes into the next free entry, if there is one. *)
Lemma handle_module_recorded header_slot i v l s a :
  separate i → recorded header_slot i v l s →
  recorded header_slot i v (l ++ [(MULTIBOOT_TAG_TYPE_MODULES, a)]) (handle_tag header_slot MULTIBOOT_TAG_TYPE_MODULES a s).
Proof.
  intros [Hsf Hsm Hss] [Hf Hv Hi Hk He]. unfold handle_tag. cbv zeta. rewrite decide_True by done.
  destruct (info_after_same header_slot i l) as (_ & Hm1 & Hm2). rewrite Hf, Hm1, Hm2, Hi.
  assert (∀ t p, tag_field t i = Some p → of_type t (l ++ [(MULTIBOOT_TAG_TYPE_MODULES, a)]) = of_type t l) as Hoth.
  { intros t p Hp. rewrite of_type_snoc, decide_False by (intros <-; by cbn in Hp). by rewrite app_nil_r. }
  assert (info_after header_slot i (l ++ [(MULTIBOOT_TAG_TYPE_MODULES, a)]) = info_after header_slot i l) as Hia
    by (rewrite info_after_snoc; by rewrite decide_False by (by intros [? _])).
  pose proof (mods_snoc i l MULTIBOOT_TAG_TYPE_MODULES a ltac:(lia)) as Hms.
  destruct (decide (module i ≠ 0 ∧ Z.of_nat (length (mods i l)) < module_size i)) as [[Hmod Hlt]|Hno].
  - rewrite decide_True in Hms by done. split; cbn [info vars module_index]; [by rewrite Hia| | | |].
    + intros t p Hp Hp0. rewrite (Hoth t p Hp), lookup_insert_ne; [by apply Hv|].
      intros Heq. apply (Hsm t p (Z.of_nat (length (mods i l))) Hp Hp0); [lia|done].
    + rewrite Hms, length_app. cbn. rewrite w32_small by lia. lia.
    + intros k x. rewrite Hms. intros [Hx|[Hx1 Hx2]]%lookup_app_Some.
      * rewrite lookup_insert_ne by (apply lookup_lt_Some in Hx; lia). by apply Hk.
      * apply list_lookup_singleton_Some in Hx2 as [Hk0 <-]. replace k with (length (mods i l)) by lia. by rewrite lookup_insert_eq.
    + intros p Hu. rewrite lookup_insert_ne.
      * apply He. eapply unasked_less; [|exact Hu]. lia.
      * intros <-. destruct Hu as [_ Hu]. apply (Hu (length (mods i l))); [|done]. rewrite Hms, length_app. cbn. lia.
  - rewrite decide_False in Hms by tauto. split; rewrite ?Hia, ?Hms; [done| |done|done|].
    + intros t p Hp Hp0. rewrite (Hoth t p Hp). by apply Hv.
    + intros p Hu. apply He. eapply unasked_less; [|exact Hu]. lia.
Qed.

Lemma handle_tag_recorded header_slot i v l s ty a :
  separate i → recorded header_slot i v l s → recorded header_slot i v (l ++ [(ty, a)]) (handle_tag header_slot ty a s).
Proof.
  intros Hsep Hr. destruct (decide (ty = MULTIBOOT_TAG_TYPE_MODULES)) as [->|Hnm]; [by apply handle_module_recorded|].
  pose proof Hsep as [Hsf Hsm Hss]. pose proof Hr as [Hf Hv Hi Hk He].
  destruct (info_after_same header_slot i l) as (Hif & _).
  unfold handle_tag. cbv zeta. rewrite decide_False by done.
  destruct (decide (ty = MULTIBOOT_TAG_TYPE_VBE_INFO)) as [->|Hnv].
  - assert (vbe (info s) ≠ 0 → vbe i ≠ 0) as Hvb.
    { rewrite Hf. unfold info_after. case_decide; [tauto|done]. }
    case_decide as Hb; (eapply recorded_other; [done|exact Hr|done|done| |intros t p Hp _; by rewrite decide_False by (intros ->; by cbn in Hp)|done|done]).
    + cbn. rewrite info_after_snoc, decide_True by auto. rewrite Hf. unfold info_after. by case_decide.
    + rewrite info_after_snoc, Hf. case_decide as Hc; [|done]. destruct Hc as [_ Hc]. revert Hb. rewrite Hf. unfold info_after.
      case_decide; [done|]. intros Hb. by destruct Hb.
  - rewrite Hf, Hif.
    assert (info_after header_slot i l = info_after header_slot i (l ++ [(ty, a)])) as Hia
      by (rewrite info_after_snoc; by rewrite decide_False by tauto).
    destruct (tag_field ty i) as [p|] eqn:Ep; [case_decide as Hp0|].
    + eapply recorded_other; [done|exact Hr|done|done|exact Hia| | |]; cbn [vars].
      * intros t q Hq Hq0. destruct (decide (t = ty)) as [->|Hne].
        -- rewrite Ep in Hq. simplify_eq. by rewrite lookup_insert_eq.
        -- rewrite lookup_insert_ne; [done|]. intros <-. apply Hne. by apply (Hsf t ty p).
      * intros k Hkr. rewrite lookup_insert_ne; [done|]. by apply (Hsm ty p k).
      * intros q Hq. rewrite lookup_insert_ne; [done|]. intros <-. by apply (Hq p).
    + eapply recorded_other; [done|exact Hr|done|done|by rewrite Hf| |done|done].
      intros t q Hq Hq0. rewrite decide_False; [done|]. intros ->. rewrite Ep in Hq. simplify_eq.
    + eapply recorded_other; [done|exact Hr|done|done|by rewrite Hf| |done|done].
      intros t q Hq Hq0. rewrite decide_False; [done|]. intros ->. by rewrite Ep in Hq.
Qed.

Lemma walk_recorded header_slot i v l :
  separate i → recorded header_slot i v l (fold_left (λ s ta, handle_tag header_slot ta.1 ta.2 s) l (mk_mb i v 0)).
Proof.
  intros Hsep. induction l as [|[ty a] l IH] using rev_ind.
  - assert (mods i [] = []) as Hm by (unfold mods, of_type; cbn; rewrite take_nil; by case_decide).
    split; cbn; rewrite ?Hm; try done. unfold info_after. rewrite decide_False by (by intros [_ ?]). done.
  - rewrite fold_left_app. cbn. by apply handle_tag_recorded.
Qed.

(** The kinds of tags of the Multiboot2 specification that the caller can ask
    for, with the field that asks. *)
Definition kinds : list (Z * (boot_information → Z)) :=
  [(4, basic_meminfo); (5, bios_boot_device); (6, memory_map); (8, framebuffer_); (9, elf_symbols); (10, apm);
   (11, efi32); (12, efi64); (13, smbios); (14, acpi_old); (15, acpi_new); (16, network); (17, efi_mmap);
   (19, efi32_handle); (20, efi64_handle); (21, load_base_addr)].

Lemma kinds_fields t f i : (t, f) ∈ kinds → tag_field t i = Some (f i).
Proof. intros Hk. repeat (apply elem_of_cons in Hk as [[= -> ->]|Hk]; [done|]). by apply not_elem_of_nil in Hk. Qed.

(** C30: [load_multiboot_info] ends on every well-formed tag list and finds
    what the caller asked for: each variable given for one of the [kinds] of
    tags holds the address of the last tag of that kind (its old value if
    there is none), the module array holds the addresses of the first modules
    in order, and [module_size] is how many.  Of the caller's structure only
    [module_size] changes, and [vbe] when there is a VBE tag and it was not
    null: it then points to the local variable [header], and no VBE tag is
    found.  No other variable changes; the command line and the loader's name
    are never looked up. *)
Theorem load_multiboot_info_finds header_slot m addr ts i v :
  tags_at m (addr + 8) ts → separate i →
  let l := placed (addr + 8) ts in
  ∃ s, load_multiboot_info header_slot MULTIBOOT_BOOTLOADER_MAGIC addr i v m = Done (s, m) ∧
    (∀ t f, (t, f) ∈ kinds → f i ≠ 0 →
       vars s !! f i = match last (of_type t l) with Some a => Some a | None => v !! f i end) ∧
    (∀ k a, mods i l !! k = Some a → vars s !! (module i + 8 * Z.of_nat k) = Some a) ∧
    info s = set_module_size (Z.of_nat (length (mods i l))) (info_after header_slot i l) ∧
    (∀ p, unasked i l p → vars s !! p = v !! p).
Proof.
  intros Ht Hsep l. pose proof (walk_recorded header_slot i v l Hsep) as [Hf Hv Hi Hk He].
  unfold load_multiboot_info. rewrite decide_False by (intros Hm; by apply Hm). rewrite (bind_done get _ _ _ _ eq_refl).
  erewrite bind_done by (apply tag_loop_run; [exact Ht|pose proof (tags_at_fuel _ _ _ Ht); lia]).
  fold l. eexists. split; [done|]. cbn [info vars]. split_and!; [|done|by rewrite Hf, Hi|done].
  intros t f Hkind Hf0. apply Hv; [by apply kinds_fields|done].
Qed.

(** ** An example: a memory map, two modules and a framebuffer *)

Definition mb_tags : list tag := [(6, [1; 2; 3]); (3, [7]); (8, []); (3, [8; 9]); (99, [0])].
Fixpoint put_tags (a : Z) (ts : list tag) (m : mem) : mem :=
  match ts with
  | [] => bytes_at a (le_bytes 4 0) m
  | t :: ts => bytes_at a (le_bytes 4 t.1 ++ le_bytes 4 (tag_size t) ++ t.2) (put_tags (a + align8 (tag_size t)) ts m)
  end.
Definition mb_mem : mem := put_tags 4104 mb_tags ∅.
Definition mb_info : boot_information :=
  mk_info 0 0 9000 1 0 0 8000 0 8008 0 0 0 0 0 0 8016 0 0 0 0 0.

Lemma mb_separate : separate mb_info.
Proof.
  assert (∀ t p, tag_field t mb_info = Some p → p ≠ 0 → (t = 6 ∧ p = 8000) ∨ (t = 8 ∧ p = 8008) ∨ (t = 15 ∧ p = 8016)) as Hall.
  { intros t p Hp Hp0. unfold tag_field, mb_info in Hp. cbn in Hp.
    repeat (case_match; simplify_eq; try tauto). }
  split; [| |by cbn].
  - intros t t' p Hp Hp' Hp0. specialize (Hall t p Hp Hp0) as H1. specialize (Hall t' p Hp' Hp0). lia.
  - intros t p k Hp Hp0 Hk. specialize (Hall t p Hp Hp0). cbn in *. lia.
Qed.

Lemma load_multiboot_info_finds_witness :
  let l := placed (4096 + 8) mb_tags in
  ∃ s, load_multiboot_info 5000 MULTIBOOT_BOOTLOADER_MAGIC 4096 mb_info ∅ mb_mem = Done (s, mb_mem) ∧
    (∀ t f, (t, f) ∈ kinds → f mb_info ≠ 0 →
       vars s !! f mb_info = match last (of_type t l) with Some a => Some a | None => (∅ : gmap Z Z) !! f mb_info end) ∧
    (∀ k a, mods mb_info l !! k = Some a → vars s !! (module mb_info + 8 * Z.of_nat k) = Some a) ∧
    info s = set_module_size (Z.of_nat (length (mods mb_info l))) (info_after 5000 mb_info l) ∧
    (∀ p, unasked mb_info l p → vars s !! p = (∅ : gmap Z Z) !! p).
Proof.
  refine (load_multiboot_info_finds 5000 mb_mem 4096 mb_tags mb_info ∅ _ mb_separate).
  unfold mb_tags. cbn [tags_at fst snd].
  repeat (split; [done|]; split; [done|]; split; [by apply at_check_true; vm_compute|]).
  by apply at_check_true; vm_compute.
Defined.
