(* ===== verification/Acpi.v ===== *)
(** * ACPI tables (kernel/acpi.c, acpi.h)

    The root pointers the firmware leaves in memory, their checksums, and the
    search of a table by its signature.  Table addresses are physical and are
    read through the direct mapping at [PHYSICAL_OFFSET]. *)
From S2P Require Import Prelude.
From S2P Require Import Layout.
From S2P Require Import Libc.
From S2P Require Import Tty.
From S2P Require Import Printf.
From S2P Require Import Bytes.

(** Field offsets of [struct rsdp], [struct xsdp] and [struct acpi_sdt_header];
    [struct xsdt] is not packed, so its 8-byte entries start at 40, not at the
    end of the 36-byte header. *)
Definition sizeof_rsdp : Z := 20.
Definition sizeof_xsdp : Z := 36.
Definition rsdp_revision : Z := 15.
Definition rsdp_rsdt_addr : Z := 16.
Definition xsdp_xsdt_address : Z := 24.
Definition sdt_length : Z := 4.
Definition sizeof_sdt_header : Z := 36.
Definition rsdt_addresses : Z := 36.
Definition xsdt_addresses : Z := 40.

(** Memory and the globals [rsdt] and [xsdt]. *)
Record acpi := mk_acpi { amem : mem; rsdt : Z; xsdt : Z }.
Abbreviation ACPI := (M acpi).
Definition on_amem {A} : MEM A → ACPI A := zoom amem (λ m s, mk_acpi m (rsdt s) (xsdt s)).

(** [for (i = 0; i < n; i++) sum += byte[i]] on a [u32]. *)
Fixpoint sum_bytes (n : nat) (a sum : Z) : MEM Z :=
  match n with
  | O => mret sum
  | S n => b ← ldb a; sum_bytes n (a + 1) (w32 (sum + b))
  end.

Definition validate_sdt (header : Z) : ACPI bool :=
  len ← on_amem (ld32 (header + sdt_length));
  sum ← on_amem (sum_bytes (Z.to_nat len) header 0);
  mret (bool_decide (Z.land sum 0xFF = 0)).

Definition load_rsdp (p : Z) : ACPI Z :=
  sum ← on_amem (sum_bytes (Z.to_nat sizeof_rsdp) p 0);
  if decide (Z.land sum 0xFF ≠ 0) then mret 1 else
  addr ← on_amem (ld32 (p + rsdp_rsdt_addr));
  modify (λ s, mk_acpi (amem s) (addr +64 PHYSICAL_OFFSET) (xsdt s));;
  mret 0.

(** The loop [for (i = 0; sizeof(struct xsdp); i++) sum += byte[i]]: its
    condition is a non-zero constant. *)
Fixpoint sum_forever (fuel : nat) (a sum : Z) : MEM Z :=
  match fuel with
  | O => out_of_fuel
  | S fuel =>
      if decide (sizeof_xsdp ≠ 0) then b ← ldb a; sum_forever fuel (a + 1) (w32 (sum + b))
      else mret sum
  end.

Definition load_xsdp (fuel : nat) (p : Z) : ACPI Z :=
  r ← load_rsdp p;
  if decide (r ≠ 0) then mret 1 else
  rev ← on_amem (ldb (p + rsdp_revision));
  if decide (rev = 0) then mret 0 else
  sum ← on_amem (sum_forever fuel p 0);
  if decide (Z.land sum 0xFF ≠ 0) then mret 1 else
  addr ← on_amem (ld64 (p + xsdp_xsdt_address));
  modify (λ s, mk_acpi (amem s) (rsdt s) (addr +64 PHYSICAL_OFFSET));;
  mret 0.

(** [is_acpi_table(header, signature)]. *)
Definition is_acpi_table (header signature : Z) : MEM bool :=
  r ← memcmp header signature 4; mret (bool_decide (r = 0)).

(** The loops of [find_table_in_rsdt] and [find_table_in_xsdt], over entries
    of [w] bytes at [a]. *)
Fixpoint find_entry (w n : nat) (a signature : Z) : MEM Z :=
  match n with
  | O => mret 0
  | S n =>
      e ← ldn w a;
      let header := e +64 PHYSICAL_OFFSET in
      ok ← is_acpi_table header signature;
      if (ok : bool) then mret header else find_entry w n (a + Z.of_nat w) signature
  end.

Definition find_table_in_rsdt (signature : Z) : ACPI Z :=
  r ← gets rsdt;
  if decide (r = 0) then mret 0 else
  len ← on_amem (ld32 (r + sdt_length));
  let entries := w32 ((len -64 sizeof_sdt_header) / 4) in
  on_amem (find_entry 4 (Z.to_nat entries) (r + rsdt_addresses) signature).

Definition find_table_in_xsdt (signature : Z) : ACPI Z :=
  x ← gets xsdt;
  if decide (x = 0) then mret 0 else
  len ← on_amem (ld32 (x + sdt_length));
  let entries := w32 ((len -64 sizeof_sdt_header) / 8) in
  on_amem (find_entry 8 (Z.to_nat entries) (x + xsdt_addresses) signature).

Definition find_table (signature : Z) : ACPI Z :=
  x ← gets xsdt;
  if decide (x ≠ 0) then find_table_in_xsdt signature else find_table_in_rsdt signature.

(** ** Reading *)

Lemma on_amem_read {A} (f : MEM A) s a : f (amem s) = Done (a, amem s) → on_amem f s = Done (a, s).
Proof. intros Hf. unfold on_amem, zoom. rewrite Hf. by destruct s. Qed.

(** The sum of a block. *)
Definition total (l : list Z) : Z := foldr Z.add 0 l.

Lemma sum_bytes_run m a l sum :
  at_ m a l → 0 ≤ sum < 2 ^ 32 → sum_bytes (length l) a sum m = Done (w32 (sum + total l), m).
Proof.
  revert a sum. induction l as [|b l IH]; intros a sum Ha Hs; cbn [sum_bytes length total foldr].
  { rewrite Z.add_0_r, w32_small by lia. done. }
  apply at_cons in Ha as [Hb Ha]. rewrite (bind_done _ _ _ _ _ (ldb_run _ _ _ Hb)).
  rewrite IH; [|done|apply w32_range]. do 2 f_equal. unfold w32. rewrite Zplus_mod_idemp_l. f_equal. unfold total. lia.
Qed.

Lemma land_ff_w32 z : Z.land (w32 z) 0xFF = z mod 256.
Proof.
  unfold w32. change 0xFF with (Z.ones 8). rewrite Z.land_ones by lia. change (2 ^ 32) with (256 * 2 ^ 24).
  rewrite Z.rem_mul_r by lia. change (2 ^ 8) with 256. rewrite (Z.mul_comm 256), Z.mod_add by lia. apply Z.mod_mod. lia.
Qed.

(** [validate_sdt] accepts a table exactly when its bytes, as many as its
    header says, add up to a multiple of 256. *)
Lemma validate_sdt_checksum s header l :
  at_ (amem s) header l → at_ (amem s) (header + sdt_length) (le_bytes 4 (Z.of_nat (length l))) →
  Z.of_nat (length l) < 2 ^ 32 →
  validate_sdt header s = Done (bool_decide (total l mod 256 = 0), s).
Proof.
  intros Ha Hl Hb. unfold validate_sdt.
  rewrite (bind_done _ _ _ _ _ (on_amem_read _ s _ (ldn_run 4 _ _ _ Hl ltac:(lia)))). rewrite Nat2Z.id.
  rewrite (bind_done _ _ _ _ _ (on_amem_read _ s _ (sum_bytes_run _ _ l 0 Ha ltac:(lia)))).
  rewrite Z.add_0_l, land_ff_w32. done.
Qed.

Lemma sum_forever_diverges fuel m a sum r : sum_forever fuel a sum m ≠ Done r.
Proof.
  revert a sum. induction fuel as [|fuel IH]; intros a sum; cbn [sum_forever]; [done|].
  rewrite decide_True by done. intros (b & m' & E & Hd)%bind_inv.
  unfold ldb, getf in E. case_match; simplify_eq. by eapply IH.
Qed.

(** C31: on an extended root pointer (a revision other than 0) whose first
    checksum is right, [load_xsdp] never returns: the loop over its bytes has
    a constant condition, so it runs until it leaves memory. *)
Theorem load_xsdp_never_returns s p l a rev :
  at_ (amem s) p l → length l = Z.to_nat sizeof_rsdp → total l mod 256 = 0 →
  at_ (amem s) (p + rsdp_rsdt_addr) (le_bytes 4 a) → 0 ≤ a < 2 ^ 32 →
  amem s !! (p + rsdp_revision) = Some rev → rev ≠ 0 →
  ∀ fuel r, load_xsdp fuel p s ≠ Done r.
Proof.
  intros Hl Hlen Hsum Ha Hab Hrev Hr0 fuel r Hd. unfold load_xsdp in Hd.
  assert (load_rsdp p s = Done (0, mk_acpi (amem s) (a +64 PHYSICAL_OFFSET) (xsdt s))) as E1.
  { unfold load_rsdp. rewrite <- Hlen.
    rewrite (bind_done _ _ _ _ _ (on_amem_read _ s _ (sum_bytes_run _ _ l 0 Hl ltac:(lia)))).
    rewrite Z.add_0_l, land_ff_w32, Hsum, decide_False by lia.
    rewrite (bind_done _ _ _ _ _ (on_amem_read _ s _ (ldn_run 4 _ _ _ Ha ltac:(lia)))). done. }
  set (s1 := mk_acpi (amem s) _ _) in E1. rewrite (bind_done _ _ _ _ _ E1), decide_False in Hd by lia.
  rewrite (bind_done _ _ _ _ _ (on_amem_read (ldb (p + rsdp_revision)) s1 rev (ldb_run _ _ _ Hrev))), decide_False in Hd by done.
  apply bind_inv in Hd as (sum & s' & E & _). unfold on_amem, zoom in E.
  destruct (sum_forever fuel p 0 _) as [[? ?]| | |] eqn:Es; simplify_eq. by apply sum_forever_diverges in Es.
Qed.

(** ** The search *)

(** [memcmp] of equal or different blocks. *)
Lemma memcmp_loop_run m a b l k :
  at_ m a l → at_ m b k → length l = length k →
  ∃ r, memcmp_loop (length l) a b m = Done (r, m) ∧ (r = 0 ↔ l = k).
Proof.
  revert a b k. induction l as [|x l IH]; intros a b [|y k] Ha Hb Hlen; cbn [length memcmp_loop] in *; try lia.
  { exists 0. done. }
  apply at_cons in Ha as [Hx Ha]. apply at_cons in Hb as [Hy Hb].
  rewrite (bind_done _ _ _ _ _ (ldb_run _ _ _ Hx)), (bind_done _ _ _ _ _ (ldb_run _ _ _ Hy)).
  destruct (decide (x < y)); [exists (-1); split; [done|]; split; [lia|]; intros [= -> ->]; lia|].
  destruct (decide (y < x)); [exists 1; split; [done|]; split; [lia|]; intros [= -> ->]; lia|].
  assert (x = y) as -> by lia. destruct (IH (a + 1) (b + 1) k Ha Hb) as (r & E & Hr); [lia|].
  exists r. split; [done|]. rewrite Hr. split; [by intros ->|by intros [= ->]].
Qed.

(** The entries [es] of [w] bytes lie at [a]; every one points to a table,
    whose first four bytes are its signature. *)
Definition entries_at (m : mem) (w : nat) (a : Z) (es : list (Z * list Z)) : Prop :=
  at_ m a (es ≫= λ e, le_bytes w e.1) ∧
  Forall (λ e, 0 ≤ e.1 < 256 ^ Z.of_nat w ∧ length e.2 = 4%nat ∧ at_ m (e.1 +64 PHYSICAL_OFFSET) e.2) es.

(** The first table with a signature, 0 if there is none. *)
Fixpoint first_with (sig : list Z) (es : list (Z * list Z)) : Z :=
  match es with [] => 0 | e :: es => if decide (e.2 = sig) then e.1 +64 PHYSICAL_OFFSET else first_with sig es end.

Lemma find_entry_run m w a es signature sig :
  entries_at m w a es → at_ m signature sig → length sig = 4%nat →
  find_entry w (length es) a signature m = Done (first_with sig es, m).
Proof.
  intros [Ha Hes] Hsig Hlen. revert a Ha. induction Hes as [|e es (He & Hl & Ht) Hes IH]; intros a Ha; cbn [length find_entry first_with]; [done|].
  rewrite bind_cons, at_app, le_bytes_length in Ha. destruct Ha as [Ha1 Ha2].
  rewrite (bind_done _ _ _ _ _ (ldn_run w m a e.1 Ha1 He)). cbv zeta beta.
  destruct (memcmp_loop_run m (e.1 +64 PHYSICAL_OFFSET) signature e.2 sig Ht Hsig ltac:(lia)) as (r & E & Hr).
  assert (is_acpi_table (e.1 +64 PHYSICAL_OFFSET) signature m = Done (bool_decide (e.2 = sig), m)) as E2.
  { unfold is_acpi_table, memcmp. rewrite Hl in E. change (Z.to_nat 4) with 4%nat. rewrite (bind_done _ _ _ _ _ E), ret_run.
    do 2 f_equal. by apply bool_decide_ext. }
  rewrite (bind_done _ _ _ _ _ E2). case_bool_decide; [by rewrite decide_True|]. rewrite decide_False by done. by apply IH.
Qed.

(** C39: [find_table] returns the first table of the root table whose
    signature is the one asked for, as an address of the direct mapping, and
    null when there is none. *)
Theorem find_table_finds s es signature sig :
  xsdt s = 0 → rsdt s ≠ 0 →
  at_ (amem s) (rsdt s + sdt_length) (le_bytes 4 (36 + 4 * Z.of_nat (length es))) →
  36 + 4 * Z.of_nat (length es) < 2 ^ 32 →
  entries_at (amem s) 4 (rsdt s + rsdt_addresses) es →
  at_ (amem s) signature sig → length sig = 4%nat →
  find_table signature s = Done (first_with sig es, s).
Proof.
  intros Hx Hr Hl Hb Hes Hsig Hlen. unfold find_table, find_table_in_rsdt. step. rewrite Hx, decide_False by tauto.
  step. rewrite decide_False by done.
  rewrite (bind_done _ _ _ _ _ (on_amem_read _ s _ (ldn_run 4 _ _ _ Hl ltac:(lia)))). cbv zeta beta.
  unfold sizeof_sdt_header. rewrite w64_small by lia.
  replace (36 + 4 * Z.of_nat (length es) - 36) with (Z.of_nat (length es) * 4) by lia.
  rewrite Z.div_mul, w32_small, Nat2Z.id by lia. apply on_amem_read. by apply find_entry_run.
Qed.

(** ** An example *)

(** A root table at the direct mapping of 0x1000 with two entries, and the
    signature "APIC" at 64. *)
Definition acpi_mem : mem :=
  bytes_at (PHYSICAL_OFFSET + 0x1000) ([82; 83; 68; 84] ++ le_bytes 4 44 ++ replicate 28 0 ++ le_bytes 4 0x2000 ++ le_bytes 4 0x3000)
    (bytes_at (PHYSICAL_OFFSET + 0x2000) [70; 65; 67; 80] (bytes_at (PHYSICAL_OFFSET + 0x3000) ([65; 80; 73; 67] ++ le_bytes 4 12 ++ [0; 0; 0; 215])
      (bytes_at 64 [65; 80; 73; 67] ∅))).
Definition acpi0 : acpi := mk_acpi acpi_mem (PHYSICAL_OFFSET + 0x1000) 0.

Lemma find_table_finds_witness : find_table 64 acpi0 = Done (PHYSICAL_OFFSET + 0x3000, acpi0).
Proof.
  refine (find_table_finds acpi0 [(0x2000, [70; 65; 67; 80]); (0x3000, [65; 80; 73; 67])] 64 [65; 80; 73; 67] _ _ _ _ _ _ _);
    try done; try (by apply at_check_true; vm_compute).
  split; [by apply at_check_true; vm_compute|].
  repeat constructor; try done; by apply at_check_true; vm_compute.
Defined.

Lemma validate_sdt_checksum_witness :
  validate_sdt (PHYSICAL_OFFSET + 0x3000) acpi0 = Done (true, acpi0).
Proof.
  refine (validate_sdt_checksum acpi0 (PHYSICAL_OFFSET + 0x3000) ([65; 80; 73; 67] ++ le_bytes 4 12 ++ [0; 0; 0; 215]) _ _ _);
    [by apply at_check_true; vm_compute|by apply at_check_true; vm_compute|done].
Defined.

(** A root pointer of revision 2 whose first 20 bytes add up to 256. *)
Definition xsdp0 : list Z := replicate 15 0 ++ [2; 0; 16; 0; 238].

Lemma load_xsdp_never_returns_witness :
  ¬ ∃ fuel r, load_xsdp fuel 512 (mk_acpi (bytes_at 512 xsdp0 ∅) 0 0) = Done r.
Proof.
  intros (fuel & r & Hr). revert Hr.
  refine (load_xsdp_never_returns (mk_acpi (bytes_at 512 xsdp0 ∅) 0 0) 512 xsdp0 0xEE001000 2 _ _ _ _ _ _ _ fuel r);
    try done; by apply at_check_true; vm_compute.
Defined.
