(* ===== verification/Ioapic.v ===== *)
(** * The I/O interrupt controller (kernel/arch/x86-64/interrupt/ioapic.c)

    Its registers are reached through a selector and a window; the registers
    themselves are an interface, [IoApicDev].  [read_madt] walks the interrupt
    controller table of ACPI. *)
From S2P Require Import Prelude.
From S2P Require Import Cpu.
From S2P Require Import Layout.
From S2P Require Import Libc.
From S2P Require Import Tty.
From S2P Require Import Printf.
From S2P Require Import Bytes.
From S2P Require Import Acpi.

(** The registers of the device, 32 bits each. *)
Class IoApicDev (V : Type) := {
  dev_read : Z → V → Z;
  dev_write : Z → Z → V → V;
}.
(** Documented: a redirection register (0x10 to 0x3F) holds what was last
    written to it; the two status bits of an entry, which are read-only, are
    taken to be clear, as they are while no interrupt is under way. *)
Class IoApicLaws (V : Type) `{!IoApicDev V} := {
  dev_read_write r v d : 0x10 ≤ r < 0x40 → 0 ≤ v < 2 ^ 32 → dev_read r (dev_write r v d) = v;
  dev_read_other r r' v d : 0x10 ≤ r < 0x40 → 0x10 ≤ r' < 0x40 → r ≠ r' → dev_read r (dev_write r' v d) = dev_read r d;
}.

(** [union io_apic_redirect]. *)
Definition rd_vector (raw : Z) : Z := field 0 8 raw.
Definition rd_destination_mode (raw : Z) : Z := field 11 1 raw.
Definition rd_masked (raw : Z) : Z := field 16 1 raw.
Definition rd_destination (raw : Z) : Z := field 56 8 raw.

Record ioapic (V E : Type) := mk_ioapic {
  imem : mem; ienv : E; irsdt : Z; ixsdt : Z;
  io_apic_reg_sel : Z; io_apic_win : Z; core_available : Z; idev : V;
}.
Arguments mk_ioapic {V E}.
Arguments imem {V E}.
Arguments ienv {V E}.
Arguments irsdt {V E}.
Arguments ixsdt {V E}.
Arguments io_apic_reg_sel {V E}.
Arguments io_apic_win {V E}.
Arguments core_available {V E}.
Arguments idev {V E}.

Definition IC_TYPE_LAPIC : Z := 0.
Definition IC_TYPE_IO_APIC : Z := 1.
Definition madt_controllers : Z := 44.

Section ioapic.
Context {V E : Type} `{!IoApicDev V} `{!MemSource E}.
(** The address of the string "APIC". *)
Context (ACPI_TABLE_APIC : Z).
Abbreviation IOA := (M (ioapic V E)).
Implicit Type s : ioapic V E.

Definition set_idev (d : V) s := mk_ioapic (imem s) (ienv s) (irsdt s) (ixsdt s) (io_apic_reg_sel s) (io_apic_win s) (core_available s) d.
Definition set_cores (n : Z) s := mk_ioapic (imem s) (ienv s) (irsdt s) (ixsdt s) (io_apic_reg_sel s) (io_apic_win s) n (idev s).
Definition set_regs (sel win : Z) s := mk_ioapic (imem s) (ienv s) (irsdt s) (ixsdt s) sel win (core_available s) (idev s).

Definition read_ioapic_register (reg : Z) : IOA Z :=
  s ← get;
  if decide (io_apic_reg_sel s = 0) then fault else mret (dev_read reg (idev s)).

Definition write_ioapic_register (reg value : Z) : IOA unit :=
  s ← get;
  if decide (io_apic_reg_sel s = 0) then mret tt else
  modify (λ s, set_idev (dev_write reg value (idev s)) s).

Definition write_ioapic_redirect (index entry : Z) : IOA unit :=
  if decide (index < 0x10 ∨ 0x3F < index) then mret tt else
  if decide (index mod 2 ≠ 0) then mret tt else
  let low := w32 (Z.land entry 0xFFFFFFFF) in
  let high := w32 (Z.shiftr entry 32) in
  write_ioapic_register index low;;
  write_ioapic_register (w8 (index + 1)) high.

Definition set_irq (irq idt_entry dest dest_mode : Z) (masked : bool) : IOA Z :=
  raw ← read_ioapic_register (w8 (0x10 + irq * 2));
  if decide (rd_vector raw ≠ 0) then mret (-1) else
  let raw := Z.land idt_entry 0xFF in
  let raw := set_field 11 1 dest_mode raw in
  let raw := set_field 56 8 dest raw in
  let raw := set_field 16 1 (if masked then 1 else 0) raw in
  write_ioapic_redirect (w8 (0x10 + irq * 2)) raw;;
  mret 0.

Definition on_imem {A} : MEM A → IOA A :=
  zoom imem (λ m s, mk_ioapic m (ienv s) (irsdt s) (ixsdt s) (io_apic_reg_sel s) (io_apic_win s) (core_available s) (idev s)).
Definition on_isys {A} : M (mem * E) A → IOA A :=
  zoom (λ s, (imem s, ienv s)) (λ '(m, e) s, mk_ioapic m e (irsdt s) (ixsdt s) (io_apic_reg_sel s) (io_apic_win s) (core_available s) (idev s)).
Definition on_acpi {A} : M acpi A → IOA A :=
  zoom (λ s, mk_acpi (imem s) (irsdt s) (ixsdt s))
    (λ a s, mk_ioapic (amem a) (ienv s) (rsdt a) (xsdt a) (io_apic_reg_sel s) (io_apic_win s) (core_available s) (idev s)).

(** The body of the loop of [read_madt]; [true] is the error return. *)
Definition madt_entry (header type : Z) : IOA bool :=
  if decide (type = IC_TYPE_LAPIC) then
    flags ← on_imem (ld32 (header + 4));
    (if decide (Z.land flags 1 ≠ 0) then modify (λ s, set_cores (w32 (core_available s + 1)) s) else mret tt);;
    mret false
  else if decide (type = IC_TYPE_IO_APIC) then
    s ← get;
    if decide (io_apic_reg_sel s = 0) then
      address ← on_imem (ld32 (header + 4));
      sel ← on_isys (src_map_mmio 0 address 0x20 true);
      modify (set_regs sel (io_apic_win s));;
      if decide (sel = 0) then mret true else
      modify (set_regs sel (sel +64 0x10));; mret false
    else mret false
  else mret false.

(** The loop of [read_madt]: every entry has at least a byte, or the loop
    does not end. *)
Fixpoint madt_loop (fuel : nat) (madt header : Z) : IOA bool :=
  len ← on_imem (ld32 (madt + sdt_length));
  if decide (header - madt < len) then
    match fuel with
    | O => out_of_fuel
    | S fuel =>
        type ← on_imem (ldb header);
        failed ← madt_entry header type;
        if (failed : bool) then mret true else
        n ← on_imem (ldb (header + 1));
        madt_loop fuel madt (header + n)
    end
  else mret false.

Definition read_madt : IOA Z :=
  madt ← on_acpi (find_table ACPI_TABLE_APIC);
  if decide (madt = 0) then mret 1 else
  s ← get;
  failed ← madt_loop (size (imem s)) madt (madt + madt_controllers);
  if (failed : bool) then mret 1 else
  modify (λ s, if decide (core_available s > MAX_CORES) then set_cores MAX_CORES s else s);;
  mret 0.

(** ** Programming an interrupt line *)

(** The redirection entry of a line, from its two registers. *)
Definition redirect (d : V) (irq : Z) : Z := dev_read (0x10 + irq * 2) d + 2 ^ 32 * dev_read (0x10 + irq * 2 + 1) d.

(** The entry [set_irq] builds. *)
Definition irq_entry (idt_entry dest dest_mode : Z) (masked : bool) : Z :=
  set_field 16 1 (if masked then 1 else 0) (set_field 56 8 dest (set_field 11 1 dest_mode (Z.land idt_entry 0xFF))).

Lemma irq_entry_range v dest mode masked : 0 ≤ irq_entry v dest mode masked < 2 ^ 64.
Proof.
  unfold irq_entry. repeat apply set_field_range; try lia.
  change 0xFF with (Z.ones 8). rewrite Z.land_ones by lia. pose proof (Z.mod_pos_bound v (2 ^ 8)). lia.
Qed.

Lemma write_register_run (s : ioapic V E) r v :
  io_apic_reg_sel s ≠ 0 → write_ioapic_register r v s = Done (tt, set_idev (dev_write r v (idev s)) s).
Proof. intros Hsel. unfold write_ioapic_register. rewrite (bind_done get _ _ _ _ eq_refl). by rewrite decide_False. Qed.

Lemma set_irq_run (s : ioapic V E) irq v dest mode masked :
  io_apic_reg_sel s ≠ 0 → 0 ≤ irq < 24 → rd_vector (dev_read (0x10 + irq * 2) (idev s)) = 0 →
  let e := irq_entry v dest mode masked in
  set_irq irq v dest mode masked s =
    Done (0, set_idev (dev_write (0x10 + irq * 2 + 1) (e / 2 ^ 32) (dev_write (0x10 + irq * 2) (e mod 2 ^ 32) (idev s))) s).
Proof.
  intros Hsel Hirq Hfree e. pose proof (irq_entry_range v dest mode masked) as He. fold e in He.
  unfold set_irq. rewrite w8_small by lia.
  rewrite (bind_done _ _ _ (dev_read (0x10 + irq * 2) (idev s)) s).
  2: { unfold read_ioapic_register. rewrite (bind_done get _ _ _ _ eq_refl). by rewrite decide_False. }
  rewrite Hfree, decide_False by lia. cbv zeta. fold (irq_entry v dest mode masked). fold e.
  unfold write_ioapic_redirect. rewrite decide_False by lia.
  rewrite decide_False by (replace (16 + irq * 2) with ((8 + irq) * 2) by lia; rewrite Z.mod_mul; lia).
  change 0xFFFFFFFF with (Z.ones 32). rewrite Z.land_ones, Z.shiftr_div_pow2 by lia.
  assert (0 ≤ e / 2 ^ 32 < 2 ^ 32) by (split; [apply Z.div_pos; lia|apply Z.div_lt_upper_bound; lia]).
  pose proof (Z.mod_pos_bound e (2 ^ 32) ltac:(lia)).
  rewrite (w32_small (e mod _)), (w32_small (e / _)), w8_small by lia.
  rewrite bind_assoc, (bind_done _ _ _ _ _ (write_register_run s _ _ Hsel)).
  by rewrite (bind_done _ _ _ _ _ (write_register_run (set_idev _ s) _ _ Hsel)).
Qed.

(** C32: [set_irq] on a free line routes it: the line's entry gets the vector,
    destination and mask bit asked for, no other line changes, and a later
    [set_irq] on the same line is refused. *)
Theorem set_irq_routes `{!IoApicLaws V} (s : ioapic V E) irq v dest mode masked :
  io_apic_reg_sel s ≠ 0 → 0 ≤ irq < 24 → rd_vector (dev_read (0x10 + irq * 2) (idev s)) = 0 →
  0 < v < 256 → 0 ≤ dest < 256 → 0 ≤ mode < 2 →
  ∃ s', set_irq irq v dest mode masked s = Done (0, s') ∧
    (let r := redirect (idev s') irq in
     rd_vector r = v ∧ rd_destination r = dest ∧ rd_destination_mode r = mode ∧
     rd_masked r = (if masked then 1 else 0)) ∧
    (∀ irq', 0 ≤ irq' < 24 → irq' ≠ irq → redirect (idev s') irq' = redirect (idev s) irq') ∧
    (∀ v' dest' mode' masked', set_irq irq v' dest' mode' masked' s' = Done (-1, s')).
Proof.
  intros Hsel Hirq Hfree Hv Hdest Hmode. set (e := irq_entry v dest mode masked).
  pose proof (irq_entry_range v dest mode masked) as He. fold e in He.
  assert (0 ≤ e / 2 ^ 32 < 2 ^ 32) by (split; [apply Z.div_pos; lia|apply Z.div_lt_upper_bound; lia]).
  pose proof (Z.mod_pos_bound e (2 ^ 32) ltac:(lia)).
  eexists. split; [by apply set_irq_run|]. fold e. cbn [idev set_idev].
  set (d' := dev_write _ _ _).
  assert (dev_read (0x10 + irq * 2) d' = e mod 2 ^ 32) as Hlow.
  { unfold d'. rewrite dev_read_other, dev_read_write by lia. done. }
  assert (redirect d' irq = e) as ->.
  { unfold redirect. rewrite Hlow. unfold d'. rewrite dev_read_write by lia. pose proof (Z.div_mod e (2 ^ 32)). lia. }
  assert (rd_vector e = v ∧ rd_destination e = dest ∧ rd_destination_mode e = mode ∧ rd_masked e = (if masked then 1 else 0))
    as (Ev & Ed & Em & Ek).
  { unfold rd_vector, rd_destination, rd_destination_mode, rd_masked, e, irq_entry.
    split_and!; rewrite ?field_set, ?field_other, ?field_set by first [lia|destruct masked; lia]; try done.
    change 0xFF with (Z.ones 8). unfold field. rewrite Z.shiftr_0_r, !Z.land_ones, Z.mod_mod, Z.mod_small by lia. done. }
  split_and!; [done..| |].
  - intros irq' Hr Hne. unfold redirect, d'. rewrite !dev_read_other by lia. done.
  - intros v' dest' mode' masked'. unfold set_irq. rewrite w8_small by lia.
    set (s' := set_idev d' s).
    rewrite (bind_done _ _ _ (dev_read (0x10 + irq * 2) d') s').
    2: { unfold read_ioapic_register. rewrite (bind_done get _ _ _ _ eq_refl). by rewrite decide_False. }
    rewrite Hlow, decide_True; [done|]. unfold rd_vector, field in Ev |- *. rewrite Z.shiftr_0_r, Z.land_ones in Ev |- * by lia.
    change (2 ^ 32) with (2 ^ 8 * 2 ^ 24). rewrite Z.rem_mul_r, Z.mul_comm, Z.mod_add, Z.mod_mod by lia. lia.
Qed.
End ioapic.

(** ** Walking the interrupt controller table *)

Section madt.
Context {V E : Type} `{!IoApicDev V} `{!MemSource E, !MemSourceLaws E}.
Context (ACPI_TABLE_APIC : Z).
Implicit Type s : ioapic V E.
(** [map_mmio] returns, with an address or null. *)
Hypothesis mmio_total : ∀ vmm pa n w st, ∃ p st', src_map_mmio vmm pa n w st = Done (p, st').

(** An entry: its type and the bytes after its two-byte header. *)
Abbreviation ic := (Z * list Z)%type.
Definition ic_bytes (e : ic) : list Z := e.1 :: Z.of_nat (length e.2 + 2) :: e.2.

(** An enabled processor. *)
Definition enabled_lapic (e : ic) : bool :=
  match e with (ty, _ :: _ :: f0 :: _) => bool_decide (ty = IC_TYPE_LAPIC) && Z.odd f0 | _ => false end.
(** Well formed: a length that fits a byte, and room for the fields read. *)
Definition ic_ok (e : ic) : Prop :=
  (length e.2 + 2 < 256)%nat ∧ Forall (λ b, 0 ≤ b < 256) e.2 ∧
  (e.1 = IC_TYPE_LAPIC ∨ e.1 = IC_TYPE_IO_APIC → (6 ≤ length e.2)%nat).

Definition enabled_count (es : list ic) : Z := Z.of_nat (length (filter (λ e, enabled_lapic e = true) es)).

(** Later memory that still has every byte of [m0]. *)
Definition keeps (m0 m : mem) : Prop := ∀ a v, m0 !! a = Some v → m !! a = Some v.

Lemma at_keeps m0 m a l : keeps m0 m → at_ m0 a l → at_ m a l.
Proof. intros Hk Ha i x Hi. by apply Hk, Ha. Qed.

Lemma fresh_keeps m m' p n : fresh_bytes m m' p n → keeps m m'.
Proof.
  intros [Hf Ho] a v Ha. destruct (decide (p ≤ a < p + n)); [|by rewrite Ho].
  destruct (Hf (a - p)) as [Hn _]; [lia|]. replace (p + (a - p)) with a in Hn by lia. congruence.
Qed.

Lemma on_imem_read {A} (f : MEM A) s a : f (imem s) = Done (a, imem s) → on_imem f s = Done (a, s).
Proof. intros Hf. unfold on_imem, zoom. rewrite Hf. by destruct s. Qed.

(** One entry: an enabled processor counts; the first controller is mapped. *)
Lemma madt_entry_run s header e m0 :
  keeps m0 (imem s) → at_ m0 header (ic_bytes e) → ic_ok e → 0 ≤ core_available s < 2 ^ 32 - 1 →
  ∃ failed s', madt_entry header e.1 s = Done (failed, s') ∧
    (if failed then io_apic_reg_sel s' = 0 else keeps m0 (imem s') ∧
       core_available s' = core_available s + (if enabled_lapic e then 1 else 0)).
Proof.
  intros Hk Ha (Hlen & Hb & Hsz) Hc. destruct e as [ty l]. cbn [fst snd] in *. unfold madt_entry.
  apply (at_keeps _ _ _ _ Hk) in Ha. unfold ic_bytes in Ha. cbn [fst snd] in Ha.
  apply at_cons in Ha as [_ Ha]. apply at_cons in Ha as [_ Ha].
  assert (ty = IC_TYPE_LAPIC ∨ ty = IC_TYPE_IO_APIC → ∃ f0 w, ld32 (header + 4) (imem s) = Done (f0 + 256 * w, imem s) ∧
    ∃ a b r, l = a :: b :: f0 :: r) as Hld.
  { intros Hty. specialize (Hsz Hty). destruct l as [|a [|b [|f0 [|f1 [|f2 [|f3 r]]]]]]; cbn in Hsz; try lia.
    do 2 (apply at_cons in Ha as [_ Ha]). replace (header + 1 + 1 + 1 + 1) with (header + 4) in Ha by lia.
    apply at_cons in Ha as [H0 Ha]. apply at_cons in Ha as [H1 Ha]. apply at_cons in Ha as [H2 Ha]. apply at_cons in Ha as [H3 _].
    exists f0, (f1 + 256 * (f2 + 256 * (f3 + 256 * 0))). split; [|eauto]. cbn [ldn].
    repeat (first [rewrite (bind_done _ _ _ _ _ (ldb_run _ _ _ H0))|rewrite (bind_done _ _ _ _ _ (ldb_run _ _ _ H1))
      |rewrite (bind_done _ _ _ _ _ (ldb_run _ _ _ H2))|rewrite (bind_done _ _ _ _ _ (ldb_run _ _ _ H3))|step]). done. }
  destruct (decide (ty = IC_TYPE_LAPIC)) as [->|Hl].
  - destruct (Hld (or_introl eq_refl)) as (f0 & w & El & a & b & r & ->).
    rewrite (bind_done _ _ _ _ _ (on_imem_read _ s _ El)).
    assert (Z.land (f0 + 256 * w) 1 = f0 mod 2) as ->.
    { change 1 with (Z.ones 1). rewrite Z.land_ones by lia. change (2 ^ 1) with 2.
      replace (f0 + 256 * w) with (f0 + (128 * w) * 2) by lia. apply Z.mod_add. lia. }
    rewrite Zmod_odd. cbn [enabled_lapic]. rewrite bool_decide_eq_true_2 by done. destruct (Z.odd f0) eqn:Eo; cbn [andb].
    + rewrite decide_True by done. step. eexists _, _. split; [done|]. cbn. by rewrite w32_small by lia.
    + rewrite decide_False by tauto. step. eexists _, _. split; [done|]. split; [done|lia].
  - assert (enabled_lapic (ty, l) = false) as ->.
    { destruct l as [|? [|? [|? ?]]]; try done. cbn. by rewrite bool_decide_eq_false_2. }
    destruct (decide (ty = IC_TYPE_IO_APIC)) as [->|Hi]; [|eexists _, _; split; [done|]; split; [done|lia]].
    rewrite (bind_done get _ _ _ _ eq_refl).
    destruct (decide (io_apic_reg_sel s = 0)) as [Hz|Hz]; [|eexists _, _; split; [done|]; split; [done|lia]].
    destruct (Hld (or_intror eq_refl)) as (f0 & w & El & _). rewrite (bind_done _ _ _ _ _ (on_imem_read _ s _ El)).
    destruct (mmio_total 0 (f0 + 256 * w) 0x20 true (imem s, ienv s)) as (sel & [m' e'] & Em).
    erewrite bind_done by (unfold on_isys, zoom; rewrite Em; done). step. case_decide as Hs0.
    + subst sel. eexists _, _. by split.
    + step. eexists _, _. split; [done|]. cbn. apply src_map_mmio_ok in Em; [|done].
      split; [|lia]. intros a v Hv. by apply (fresh_keeps _ _ _ _ Em), Hk.
Qed.

(** The walk over all entries. *)
Lemma madt_loop_run fuel s m0 madt header es :
  keeps m0 (imem s) → at_ m0 header (es ≫= ic_bytes) → Forall ic_ok es → (length es ≤ fuel)%nat →
  let len := header - madt + Z.of_nat (length (es ≫= ic_bytes)) in
  at_ m0 (madt + sdt_length) (le_bytes 4 len) → 0 ≤ len < 2 ^ 32 →
  0 ≤ core_available s → core_available s + Z.of_nat (length es) < 2 ^ 32 →
  ∃ failed s', madt_loop fuel madt header s = Done (failed, s') ∧
    (if failed then io_apic_reg_sel s' = 0 else core_available s' = core_available s + enabled_count es).
Proof.
  revert s header fuel. induction es as [|e es IH]; intros s header fuel Hk Ha Hok Hf len Hlen Hlb Hc0 Hc.
  all: assert (0 ≤ len < 256 ^ Z.of_nat 4) as Hlb' by (change (256 ^ Z.of_nat 4) with (2 ^ 32); exact Hlb).
  all: pose proof (ldn_run 4 _ _ _ (at_keeps _ _ _ _ Hk Hlen) Hlb') as Hld; clear Hlb'.
  { assert (¬ header - madt < len) as Hend by (unfold len; change (length ([] ≫= ic_bytes)) with 0%nat; lia).
    assert (madt_loop fuel madt header s = Done (false, s)) as ->.
    { destruct fuel; cbn [madt_loop]; rewrite (bind_done _ _ _ _ _ (on_imem_read _ s _ Hld));
        rewrite decide_False by exact Hend; done. }
    eexists _, _. split; [done|]. cbn. unfold enabled_count. cbn. lia. }
  destruct fuel as [|fuel]; cbn [length] in Hf, Hc; [lia|]. cbn [madt_loop].
  rewrite (bind_done _ _ _ _ _ (on_imem_read _ s _ Hld)).
  rewrite bind_cons, at_app in Ha. destruct Ha as [He Ha]. inversion Hok as [|? ? Hoke Hokes]; subst.
  assert (Z.of_nat (length (ic_bytes e)) = Z.of_nat (length e.2 + 2)) as Hle by (cbn; lia).
  rewrite decide_True by (unfold len; rewrite bind_cons, length_app; lia).
  pose proof (at_keeps _ _ _ _ Hk He) as Hes. unfold ic_bytes in Hes. apply at_cons in Hes as [Hty _].
  rewrite (bind_done _ _ _ _ _ (on_imem_read _ s _ (ldb_run _ _ _ Hty))).
  destruct (madt_entry_run s header e m0 Hk He Hoke) as (failed & s1 & E1 & H1); [lia|].
  rewrite (bind_done _ _ _ _ _ E1). destruct failed; [eexists _, _; by split|]. destruct H1 as [Hk1 Hc1].
  pose proof (at_keeps _ _ _ _ Hk1 He) as Hes1. unfold ic_bytes in Hes1.
  apply at_cons in Hes1 as [_ Hes1]. apply at_cons in Hes1 as [Hn _].
  rewrite (bind_done _ _ _ _ _ (on_imem_read _ s1 _ (ldb_run _ _ _ Hn))).
  rewrite Hle in Ha. unfold len in Hlen, Hlb. rewrite bind_cons, length_app, Nat2Z.inj_add, Hle in Hlen, Hlb.
  destruct (IH s1 (header + Z.of_nat (length e.2 + 2)) fuel Hk1 Ha Hokes) as (failed & s2 & E2 & H2).
  - lia.
  - replace (header + Z.of_nat (length e.2 + 2) - madt + Z.of_nat (length (es ≫= ic_bytes)))
      with (header - madt + (Z.of_nat (length e.2 + 2) + Z.of_nat (length (es ≫= ic_bytes)))) by lia. done.
  - lia.
  - destruct (enabled_lapic e); lia.
  - destruct (enabled_lapic e); lia.
  - exists failed, s2. split; [done|]. destruct failed; [done|]. rewrite H2, Hc1. unfold enabled_count. 
    destruct (enabled_lapic e) eqn:Ee; [rewrite filter_cons_True by done; cbn; lia|].
    rewrite filter_cons_False by (by rewrite Ee). lia.
Qed.

Lemma entries_length es : (length es ≤ length (es ≫= ic_bytes))%nat.
Proof. induction es as [|e es IH]; [done|]. rewrite bind_cons, length_app. cbn. lia. Qed.

(** [read_madt] ends on every well-formed table whatever its entries are,
    and counts the enabled processors, at most [MAX_CORES]; it reports an
    error exactly when the table is missing or a controller could not be
    mapped. *)
Lemma read_madt_counts s madt es :
  find_table ACPI_TABLE_APIC (mk_acpi (imem s) (irsdt s) (ixsdt s)) = Done (madt, mk_acpi (imem s) (irsdt s) (ixsdt s)) →
  madt ≠ 0 → at_ (imem s) (madt + madt_controllers) (es ≫= ic_bytes) → Forall ic_ok es →
  at_ (imem s) (madt + sdt_length) (le_bytes 4 (44 + Z.of_nat (length (es ≫= ic_bytes)))) →
  44 + Z.of_nat (length (es ≫= ic_bytes)) < 2 ^ 32 →
  0 ≤ core_available s → core_available s + Z.of_nat (length es) < 2 ^ 32 →
  ∃ r s', read_madt ACPI_TABLE_APIC s = Done (r, s') ∧
    ((r = 0 ∧ core_available s' = Z.min MAX_CORES (core_available s + enabled_count es)) ∨
     (r = 1 ∧ io_apic_reg_sel s' = 0)).
Proof.
  intros Hft Hm Ha Hok Hlen Hlb Hc0 Hc. unfold read_madt.
  rewrite (bind_done _ _ _ madt s); [|unfold on_acpi, zoom; rewrite Hft; by destruct s].
  rewrite decide_False by done. rewrite (bind_done get _ _ _ _ eq_refl).
  destruct (madt_loop_run (size (imem s)) s (imem s) madt (madt + madt_controllers) es) as (failed & s' & E1 & H1); try done.
  - by intros a v.
  - etrans; [apply entries_length|]. by eapply at_length.
  - unfold madt_controllers. replace (madt + 44 - madt) with 44 by lia. done.
  - unfold madt_controllers. lia.
  - rewrite (bind_done _ _ _ _ _ E1). destruct failed; [eexists _, _; split; [done|]; auto|].
    step. eexists _, _. split; [done|]. left. split; [done|]. unfold MAX_CORES. case_decide; cbn; lia.
Qed.
End madt.

(** ** An example: line 1, the keyboard *)

#[export] Instance gmap_ioapic : IoApicDev (gmap Z Z) := {|
  dev_read := λ r d, default 0x10000 (d !! r);
  dev_write := λ r v d, <[r := v]> d;
|}.
#[export] Instance gmap_ioapic_laws : IoApicLaws (gmap Z Z).
Proof.
  split; intros; cbn; [by rewrite lookup_insert_eq|by rewrite lookup_insert_ne].
Qed.

Definition ioapic0 : ioapic (gmap Z Z) unit := mk_ioapic ∅ tt 0 0 4096 4112 1 ∅.

Lemma set_irq_routes_witness :
  ∃ s', set_irq 1 0x21 0 0 false ioapic0 = Done (0, s') ∧
    (let r := redirect (idev s') 1 in
     rd_vector r = 0x21 ∧ rd_destination r = 0 ∧ rd_destination_mode r = 0 ∧ rd_masked r = 0) ∧
    (∀ irq', 0 ≤ irq' < 24 → irq' ≠ 1 → redirect (idev s') irq' = redirect (idev ioapic0) irq') ∧
    (∀ v' dest' mode' masked', set_irq 1 v' dest' mode' masked' s' = Done (-1, s')).
Proof. refine (set_irq_routes ioapic0 1 0x21 0 0 false _ _ _ _ _ _); first [done|lia]. Defined.

(** A table with an enabled processor, a disabled one and a controller. *)
Definition madt_ics : list (Z * list Z) :=
  [(0, [0; 0; 1; 0; 0; 0]); (0, [1; 1; 0; 0; 0; 0]); (1, [0; 0; 0; 0; 192; 254; 0; 0; 0; 0])].
Definition madt_mem : mem :=
  bytes_at (PHYSICAL_OFFSET + 0x1000) (replicate 4 0 ++ le_bytes 4 40 ++ replicate 28 0 ++ le_bytes 4 0x3000)
    (bytes_at (PHYSICAL_OFFSET + 0x3000) ([65; 80; 73; 67] ++ le_bytes 4 72 ++ replicate 36 0 ++ (madt_ics ≫= ic_bytes))
      (bytes_at 64 [65; 80; 73; 67] ∅)).
Definition ioapic1 : ioapic (gmap Z Z) Z := mk_ioapic madt_mem 4096 (PHYSICAL_OFFSET + 0x1000) 0 0 0 0 ∅.

Lemma read_madt_counts_witness :
  ∃ r s', read_madt 64 ioapic1 = Done (r, s') ∧
    ((r = 0 ∧ core_available s' = Z.min MAX_CORES (core_available ioapic1 + enabled_count madt_ics)) ∨
     (r = 1 ∧ io_apic_reg_sel s' = 0)).
Proof.
  refine (read_madt_counts 64 _ ioapic1 (PHYSICAL_OFFSET + 0x3000) madt_ics _ _ _ _ _ _ _ _); try done.
  - intros vmm pa n w [m e]. cbn. unfold bump_bytes. case_decide; eauto.
  - by apply at_check_true; vm_compute.
  - repeat constructor; cbn; lia.
  - by apply at_check_true; vm_compute.
Defined.
