(* ===== verification/Elf.v ===== *)
(** * ELF images (libc/elf.c, libc/include/elf.h)

    The headers of an ELF image as records with their layout in memory, the
    functions that find a section, a segment or a name in an image, and the
    symbol hash. *)
From S2P Require Import Prelude.
From S2P Require Import Layout.
From S2P Require Import Libc.
From S2P Require Import Printf.
From S2P Require Import Bytes.

(** [Elf64_Ehdr]. *)
Record Elf64_Ehdr := mk_ehdr {
  e_ident : list Z; e_type : Z; e_machine : Z; e_version : Z; e_entry : Z;
  e_phoff : Z; e_shoff : Z; e_flags : Z; e_ehsize : Z; e_phentisze : Z;
  e_phnum : Z; e_shentsize : Z; e_shnum : Z; e_shstrndx : Z;
}.
(** [Elf64_Shdr]. *)
Record Elf64_Shdr := mk_shdr {
  sh_name : Z; sh_type : Z; sh_flags : Z; sh_addr : Z; sh_offset : Z; sh_size : Z;
  sh_link : Z; sh_info : Z; sh_addralign : Z; sh_entsize : Z;
}.
(** [Elf64_Phdr]. *)
Record Elf64_Phdr := mk_phdr {
  p_type : Z; p_flags : Z; p_offset : Z; p_vaddr : Z; p_paddr : Z;
  p_filesz : Z; p_memsz : Z; p_align : Z;
}.

Definition SHN_UNDEF : Z := 0.
Definition PT_LOAD : Z := 1.
Definition PF_X : Z := 1.
Definition PF_W : Z := 2.

(** The layout: the fields in order, without padding. *)
Definition ehdr_bytes (e : Elf64_Ehdr) : list Z :=
  e_ident e ++ le_bytes 2 (e_type e) ++ le_bytes 2 (e_machine e) ++ le_bytes 4 (e_version e) ++
  le_bytes 8 (e_entry e) ++ le_bytes 8 (e_phoff e) ++ le_bytes 8 (e_shoff e) ++ le_bytes 4 (e_flags e) ++
  le_bytes 2 (e_ehsize e) ++ le_bytes 2 (e_phentisze e) ++ le_bytes 2 (e_phnum e) ++
  le_bytes 2 (e_shentsize e) ++ le_bytes 2 (e_shnum e) ++ le_bytes 2 (e_shstrndx e).
Definition shdr_bytes (h : Elf64_Shdr) : list Z :=
  le_bytes 4 (sh_name h) ++ le_bytes 4 (sh_type h) ++ le_bytes 8 (sh_flags h) ++ le_bytes 8 (sh_addr h) ++
  le_bytes 8 (sh_offset h) ++ le_bytes 8 (sh_size h) ++ le_bytes 4 (sh_link h) ++ le_bytes 4 (sh_info h) ++
  le_bytes 8 (sh_addralign h) ++ le_bytes 8 (sh_entsize h).
Definition phdr_bytes (h : Elf64_Phdr) : list Z :=
  le_bytes 4 (p_type h) ++ le_bytes 4 (p_flags h) ++ le_bytes 8 (p_offset h) ++ le_bytes 8 (p_vaddr h) ++
  le_bytes 8 (p_paddr h) ++ le_bytes 8 (p_filesz h) ++ le_bytes 8 (p_memsz h) ++ le_bytes 8 (p_align h).

Definition sizeof_ehdr : Z := 64.
Definition sizeof_shdr : Z := 64.
Definition sizeof_phdr : Z := 56.

(** Reading a field of the image header at [h]. *)
Definition ld_e_entry (h : Z) : MEM Z := ld64 (h + 24).
Definition ld_e_phoff (h : Z) : MEM Z := ld64 (h + 32).
Definition ld_e_shoff (h : Z) : MEM Z := ld64 (h + 40).
Definition ld_e_phnum (h : Z) : MEM Z := ld16 (h + 56).
Definition ld_e_shnum (h : Z) : MEM Z := ld16 (h + 60).
Definition ld_e_shstrndx (h : Z) : MEM Z := ld16 (h + 62).

(** Reading a whole segment or section header. *)
Definition load_phdr (p : Z) : MEM Elf64_Phdr :=
  t ← ld32 p; fl ← ld32 (p + 4); off ← ld64 (p + 8); va ← ld64 (p + 16); pa ← ld64 (p + 24);
  fsz ← ld64 (p + 32); msz ← ld64 (p + 40); al ← ld64 (p + 48);
  mret (mk_phdr t fl off va pa fsz msz al).
Definition load_shdr (p : Z) : MEM Elf64_Shdr :=
  n ← ld32 p; t ← ld32 (p + 4); fl ← ld64 (p + 8); ad ← ld64 (p + 16); off ← ld64 (p + 24);
  sz ← ld64 (p + 32); lk ← ld32 (p + 40); inf ← ld32 (p + 44); al ← ld64 (p + 48); es ← ld64 (p + 56);
  mret (mk_shdr n t fl ad off sz lk inf al es).

Definition get_section (header idx : Z) : MEM Z :=
  section_count ← ld_e_shnum header;
  if decide (idx > section_count) then mret 0 else
  off ← ld_e_shoff header;
  mret (w64 (header + off + idx * sizeof_shdr)).

Definition get_segment (header idx : Z) : MEM Z :=
  seg_count ← ld_e_phnum header;
  if decide (idx > seg_count) then mret 0 else
  off ← ld_e_phoff header;
  mret (w64 (header + off + idx * sizeof_phdr)).

Definition get_elf_string (header off : Z) : MEM Z :=
  ndx ← ld_e_shstrndx header;
  if decide (ndx = SHN_UNDEF) then mret 0 else
  string_table ← get_section header ndx;
  size ← ld64 (string_table + 32);
  if decide (off > size) then mret 0 else
  sh_off ← ld64 (string_table + 24);
  mret (w64 (header + sh_off + off)).

(** The body of the loop of [elf64_has]; [unsigned long] is 64 bits wide. *)
Definition hash_step (h c : Z) : Z :=
  let h := w64 (w64 (Z.shiftl h 4) + c) in
  let g := Z.land h 0xf0000000 in
  let h := if decide (g ≠ 0) then Z.lxor h (Z.shiftr g 24) else h in
  Z.land h 0x0fffffff.
Fixpoint hash_loop (fuel : nat) (name h : Z) : MEM Z :=
  match fuel with
  | O => out_of_fuel
  | S fuel =>
      c ← ldb name;
      if decide (c = 0) then mret h else hash_loop fuel (name + 1) (hash_step h c)
  end.
(** The loop ends at a zero byte or leaves memory. *)
Definition elf64_has (name : Z) : MEM Z := m ← get; hash_loop (S (size m)) name 0.

(** ** Images *)

Definition fits (n v : Z) : Prop := 0 ≤ v < 2 ^ n.
Definition ehdr_wf (e : Elf64_Ehdr) : Prop :=
  length (e_ident e) = 16%nat ∧ fits 64 (e_entry e) ∧ fits 64 (e_phoff e) ∧ fits 64 (e_shoff e) ∧
  fits 16 (e_phnum e) ∧ fits 16 (e_shnum e) ∧ fits 16 (e_shstrndx e).
Definition phdr_wf (h : Elf64_Phdr) : Prop :=
  fits 32 (p_type h) ∧ fits 32 (p_flags h) ∧ fits 64 (p_offset h) ∧ fits 64 (p_vaddr h) ∧
  fits 64 (p_paddr h) ∧ fits 64 (p_filesz h) ∧ fits 64 (p_memsz h) ∧ fits 64 (p_align h).
Definition shdr_wf (h : Elf64_Shdr) : Prop :=
  fits 32 (sh_name h) ∧ fits 32 (sh_type h) ∧ fits 64 (sh_flags h) ∧ fits 64 (sh_addr h) ∧
  fits 64 (sh_offset h) ∧ fits 64 (sh_size h) ∧ fits 32 (sh_link h) ∧ fits 32 (sh_info h) ∧
  fits 64 (sh_addralign h) ∧ fits 64 (sh_entsize h).

(** An image at [h]: its header, and its segment and section tables where the
    header says. *)
Record elf_at (m : mem) (h : Z) (e : Elf64_Ehdr) (ps : list Elf64_Phdr) (ss : list Elf64_Shdr) : Prop := {
  elf_hdr : at_ m h (ehdr_bytes e);
  elf_wf : ehdr_wf e;
  elf_ps : at_ m (h + e_phoff e) (ps ≫= phdr_bytes);
  elf_ss : at_ m (h + e_shoff e) (ss ≫= shdr_bytes);
  elf_phnum : e_phnum e = Z.of_nat (length ps);
  elf_shnum : e_shnum e = Z.of_nat (length ss);
  elf_ps_wf : Forall phdr_wf ps;
  elf_ss_wf : Forall shdr_wf ss;
  elf_base : 0 < h;
  elf_room : h + e_phoff e + sizeof_phdr * (e_phnum e + 1) < 2 ^ 64 ∧
             h + e_shoff e + sizeof_shdr * (e_shnum e + 1) < 2 ^ 64;
}.

(** [peel H]: split a memory layout into its fields. *)
Ltac peel H :=
  repeat match type of H with at_ _ _ (_ ++ _) =>
    let F := fresh "F" in
    apply at_app in H; destruct H as [F H]; rewrite ?le_bytes_length in H
  end.
(** [rd]: the next field of a layout in the context. *)
Ltac rd :=
  lazymatch goal with
  | |- context [ mbind ?f (ldn ?n ?a) ?m ] =>
      match goal with
      | H : at_ m ?b (le_bytes n ?v) |- _ =>
          replace a with b by lia; rewrite (bind_done (ldn n b) f m v m (ldn_run n m b v H ltac:(done)))
      end
  end.

Lemma load_phdr_run m p h : at_ m p (phdr_bytes h) → phdr_wf h → load_phdr p m = Done (h, m).
Proof.
  intros Ha (H1 & H2 & H3 & H4 & H5 & H6 & H7 & H8). unfold phdr_bytes in Ha. peel Ha. unfold load_phdr.
  do 8 rd. by destruct h.
Qed.

Lemma load_shdr_run m p h : at_ m p (shdr_bytes h) → shdr_wf h → load_shdr p m = Done (h, m).
Proof.
  intros Ha (H1 & H2 & H3 & H4 & H5 & H6 & H7 & H8 & H9 & H10). unfold shdr_bytes in Ha. peel Ha. unfold load_shdr.
  do 10 rd. by destruct h.
Qed.

(** The fields of the image header the functions read. *)
Lemma ehdr_fields m h e :
  at_ m h (ehdr_bytes e) → ehdr_wf e →
  ld_e_entry h m = Done (e_entry e, m) ∧ ld_e_phoff h m = Done (e_phoff e, m) ∧
  ld_e_shoff h m = Done (e_shoff e, m) ∧ ld_e_phnum h m = Done (e_phnum e, m) ∧
  ld_e_shnum h m = Done (e_shnum e, m) ∧ ld_e_shstrndx h m = Done (e_shstrndx e, m).
Proof.
  intros Ha (H0 & H1 & H2 & H3 & H4 & H5 & H6). unfold ehdr_bytes in Ha. peel Ha. rewrite H0 in *.
  unfold ld_e_entry, ld_e_phoff, ld_e_shoff, ld_e_phnum, ld_e_shnum, ld_e_shstrndx.
  split_and!;
    match goal with
    | |- ldn ?n ?a m = Done (?v, m) =>
        match goal with H : at_ m ?b (le_bytes n v) |- _ => replace a with b by lia; by apply ldn_run end
    end.
Qed.

(** Entry [i] of a table of entries of one size. *)
Lemma table_entry {A} (enc : A → list Z) (sz : nat) m a l i x :
  (∀ x, length (enc x) = sz) → at_ m a (l ≫= enc) → l !! i = Some x →
  at_ m (a + Z.of_nat i * Z.of_nat sz) (enc x).
Proof.
  intros Hsz. revert a i. induction l as [|y l IH]; intros a i Ha Hi; [by rewrite lookup_nil in Hi|].
  rewrite bind_cons, at_app, Hsz in Ha. destruct Ha as [Hy Ha]. destruct i as [|i]; cbn in Hi.
  - simplify_eq. by rewrite Z.add_0_r.
  - replace (a + Z.of_nat (S i) * Z.of_nat sz) with (a + Z.of_nat sz + Z.of_nat i * Z.of_nat sz) by lia. by apply IH.
Qed.

Lemma phdr_bytes_length h : length (phdr_bytes h) = 56%nat.
Proof. done. Qed.
Lemma shdr_bytes_length h : length (shdr_bytes h) = 64%nat.
Proof. done. Qed.

Lemma get_segment_run m h e ps ss idx :
  elf_at m h e ps ss → 0 ≤ idx →
  get_segment h idx m = Done (if decide (idx ≤ e_phnum e) then h + e_phoff e + idx * sizeof_phdr else 0, m).
Proof.
  intros [Hh Hwf _ _ _ _ _ _ Hb [Hr _]] Hi. pose proof (ehdr_fields m h e Hh Hwf) as (_ & Eo & _ & En & _).
  destruct Hwf as (_ & _ & Ho & _). unfold get_segment, sizeof_phdr, fits in *. rewrite (bind_done _ _ _ _ _ En).
  destruct (decide (idx ≤ e_phnum e)).
  - rewrite decide_False by lia. rewrite (bind_done _ _ _ _ _ Eo), ret_run, w64_small by nia. done.
  - by rewrite decide_True by lia.
Qed.

Lemma get_section_run m h e ps ss idx :
  elf_at m h e ps ss → 0 ≤ idx →
  get_section h idx m = Done (if decide (idx ≤ e_shnum e) then h + e_shoff e + idx * sizeof_shdr else 0, m).
Proof.
  intros [Hh Hwf _ _ _ _ _ _ Hb [_ Hr]] Hi. pose proof (ehdr_fields m h e Hh Hwf) as (_ & _ & Eo & _ & En & _).
  destruct Hwf as (_ & _ & _ & Ho & _). unfold get_section, sizeof_shdr, fits in *. rewrite (bind_done _ _ _ _ _ En).
  destruct (decide (idx ≤ e_shnum e)).
  - rewrite decide_False by lia. rewrite (bind_done _ _ _ _ _ Eo), ret_run, w64_small by nia. done.
  - by rewrite decide_True by lia.
Qed.

(** The segment and section headers of an image read back: for an index
    inside a table, [get_segment] and [get_section] return the address of
    that entry's header; above the entry one past the end they return null. *)
Lemma elf_headers_read_back m h e ps ss :
  elf_at m h e ps ss →
  (∀ i p, ps !! i = Some p → ∃ a, get_segment h (Z.of_nat i) m = Done (a, m) ∧ a ≠ 0 ∧ load_phdr a m = Done (p, m)) ∧
  (∀ i s, ss !! i = Some s → ∃ a, get_section h (Z.of_nat i) m = Done (a, m) ∧ a ≠ 0 ∧ load_shdr a m = Done (s, m)) ∧
  (∀ i, Z.of_nat (length ps) < i → get_segment h i m = Done (0, m)) ∧
  (∀ i, Z.of_nat (length ss) < i → get_section h i m = Done (0, m)).
Proof.
  intros He. pose proof He as [_ (_ & _ & Ho1 & Ho2 & _) Hps Hss Hn1 Hn2 Hw1 Hw2 Hb _]. unfold fits in *. split_and!.
  - intros i p Hi. eexists. rewrite (get_segment_run m h e ps ss) by (done || lia). apply lookup_lt_Some in Hi as Hl.
    rewrite decide_True by lia. split; [done|]. unfold sizeof_phdr. split; [lia|].
    apply load_phdr_run; [|by eapply Forall_lookup_1]. by apply (table_entry phdr_bytes 56 m _ ps).
  - intros i s Hi. eexists. rewrite (get_section_run m h e ps ss) by (done || lia). apply lookup_lt_Some in Hi as Hl.
    rewrite decide_True by lia. split; [done|]. unfold sizeof_shdr. split; [lia|].
    apply load_shdr_run; [|by eapply Forall_lookup_1]. by apply (table_entry shdr_bytes 64 m _ ss).
  - intros i Hi. rewrite (get_segment_run m h e ps ss) by (done || lia). by rewrite decide_False by lia.
  - intros i Hi. rewrite (get_section_run m h e ps ss) by (done || lia). by rewrite decide_False by lia.
Qed.

(** The bound is one too large: the index one past the end of the table is
    accepted, and the header returned is outside the table. *)
Lemma get_segment_past_end m h e ps ss :
  elf_at m h e ps ss →
  get_segment h (Z.of_nat (length ps)) m = Done (h + e_phoff e + Z.of_nat (length ps) * sizeof_phdr, m).
Proof.
  intros He. pose proof He as [_ _ _ _ Hn _ _ _ _ _]. rewrite (get_segment_run m h e ps ss) by (done || lia).
  by rewrite decide_True by lia.
Qed.

(** The name at offset [off] of the string section. *)
Lemma get_elf_string_run m h e ps ss s off :
  elf_at m h e ps ss → e_shstrndx e ≠ SHN_UNDEF → ss !! Z.to_nat (e_shstrndx e) = Some s →
  0 ≤ off ≤ sh_size s → h + sh_offset s + off < 2 ^ 64 →
  get_elf_string h off m = Done (h + sh_offset s + off, m).
Proof.
  intros He Hu Hs Hoff Hr. pose proof He as [Hh Hwf _ Hss _ Hn _ Hw Hb _].
  pose proof (ehdr_fields m h e Hh Hwf) as (_ & _ & _ & _ & _ & Ex).
  assert (0 ≤ e_shstrndx e) as Hx by apply Hwf. apply lookup_lt_Some in Hs as Hl.
  unfold get_elf_string. rewrite (bind_done _ _ _ _ _ Ex), decide_False by done.
  rewrite (bind_done _ _ _ _ _ (get_section_run m h e ps ss _ He Hx)), decide_True by lia.
  pose proof (table_entry shdr_bytes 64 m _ ss _ s shdr_bytes_length Hss Hs) as Ha. unfold sizeof_shdr.
  rewrite Z2Nat.id in Ha by done. change (Z.of_nat 64) with 64 in Ha.
  pose proof (Forall_lookup_1 _ _ _ _ Hw Hs) as (_ & _ & _ & _ & Ho & Hz & _). unfold shdr_bytes in Ha. peel Ha.
  rd. rewrite decide_False by lia. rd. rewrite ret_run, w64_small; [done|]. unfold fits in *. lia.
Qed.

(** ** The symbol hash *)

(** The System V hash in the 32-bit arithmetic of its specification. *)
Definition sysv_step (h c : Z) : Z :=
  let h := w32 (w32 (Z.shiftl h 4) + c) in
  let g := Z.land h 0xf0000000 in
  Z.land (Z.lxor h (Z.shiftr g 24)) (w32 (Z.lnot g)).
Definition sysv_hash (name : list Z) : Z := foldl sysv_step 0 name.

Lemma testbit_f0 i : 0 ≤ i → Z.testbit 0xf0000000 i = bool_decide (28 ≤ i < 32).
Proof.
  intros Hi. change 0xf0000000 with (Z.shiftl (Z.ones 4) 28). rewrite Z.shiftl_spec by done.
  destruct (decide (28 ≤ i)); [|rewrite Z.testbit_neg_r by lia; symmetry; apply bool_decide_eq_false; lia].
  rewrite Z.testbit_ones by lia. rewrite bool_decide_decide. destruct (decide (28 ≤ i < 32)); lia.
Qed.

Lemma testbit_w32 z i : 0 ≤ i → Z.testbit (w32 z) i = bool_decide (i < 32) && Z.testbit z i.
Proof.
  intros Hi. unfold w32. destruct (decide (i < 32)).
  - by rewrite Z.mod_pow2_bits_low, bool_decide_eq_true_2.
  - by rewrite Z.mod_pow2_bits_high, bool_decide_eq_false_2 by lia.
Qed.

Lemma hash_step_sysv h c : 0 ≤ h < 2 ^ 28 → 0 ≤ c < 256 → hash_step h c = sysv_step h c ∧ 0 ≤ hash_step h c < 2 ^ 28.
Proof.
  intros Hh Hc. unfold hash_step, sysv_step. rewrite Z.shiftl_mul_pow2 by lia. change (2 ^ 4) with 16.
  rewrite (w64_small (h * 16)), w64_small, (w32_small (h * 16)) by lia. set (x := h * 16 + c).
  assert (Z.land x 0xf0000000 = Z.land (w32 x) 0xf0000000) as Hg.
  { apply Z.bits_inj'. intros i Hi. rewrite !Z.land_spec, testbit_f0, testbit_w32 by done.
    destruct (decide (i < 32)); [by rewrite (bool_decide_eq_true_2 (i < 32))|].
    rewrite (bool_decide_eq_false_2 (28 ≤ i < 32)) by lia. by rewrite !andb_false_r. }
  rewrite <- Hg. set (g := Z.land x 0xf0000000).
  assert ((if decide (g ≠ 0) then Z.lxor x (Z.shiftr g 24) else x) = Z.lxor x (Z.shiftr g 24)) as ->.
  { destruct (decide (g ≠ 0)) as [|Hn]; [done|]. assert (g = 0) as -> by lia. by rewrite Z.shiftr_0_l, Z.lxor_0_r. }
  change 0x0fffffff with (Z.ones 28). split; [|rewrite Z.land_ones by lia; apply Z.mod_pos_bound; lia].
  apply Z.bits_inj'. intros i Hi. rewrite !Z.land_spec, !Z.lxor_spec, Z.testbit_ones, !testbit_w32 by lia.
  rewrite Z.lnot_spec, Z.shiftr_spec by lia. unfold g. rewrite !Z.land_spec, !testbit_f0 by lia.
  rewrite !bool_decide_decide. destruct (decide (28 ≤ i + 24 < 32)), (decide (28 ≤ i < 32)), (decide (i < 32)); try lia;
    destruct (Z.testbit x i); cbn; rewrite ?andb_true_r, ?andb_false_r, ?xorb_false_r; cbn; try lia.
  all: destruct (0 <=? i) eqn:?, (i <? 28) eqn:?; cbn; try lia; by destruct (Z.testbit x (i + 24)).
Qed.

Lemma hash_loop_run fuel m name l h :
  at_ m name (l ++ [0]) → Forall (λ c, 0 < c < 256) l → (length l < fuel)%nat → 0 ≤ h < 2 ^ 28 →
  hash_loop fuel name h m = Done (foldl sysv_step h l, m) ∧ 0 ≤ foldl sysv_step h l < 2 ^ 28.
Proof.
  revert fuel name h. induction l as [|c l IH]; intros fuel name h Ha Hl Hf Hh; (destruct fuel as [|fuel]; [cbn in Hf; lia|]).
  all: cbn [app] in Ha; apply at_cons in Ha as [Hc Ha]; cbn [hash_loop]; rewrite (bind_done _ _ _ _ _ (ldb_run _ _ _ Hc)).
  { by rewrite decide_True. }
  apply Forall_cons in Hl as [Hc0 Hl]. rewrite decide_False by lia.
  destruct (hash_step_sysv h c Hh) as [E Hr]; [lia|]. rewrite E in *. cbn [foldl]. apply IH; try done. cbn in Hf. lia.
Qed.

(** C40: the symbol hash, computed with 64-bit words, is the System V hash of
    the name in 32-bit arithmetic and is below 2^28; it ends on every
    terminated name. *)
Theorem elf64_has_is_sysv m name l :
  at_ m name (l ++ [0]) → Forall (λ c, 0 < c < 256) l →
  elf64_has name m = Done (sysv_hash l, m) ∧ 0 ≤ sysv_hash l < 2 ^ 28.
Proof.
  intros Ha Hl. unfold elf64_has. rewrite (bind_done get _ _ _ _ eq_refl). apply hash_loop_run; try done.
  apply at_length in Ha. rewrite length_app in Ha. cbn in Ha. lia.
Qed.

(** ** An example image: two segments, one section *)

Definition ex_ehdr : Elf64_Ehdr :=
  mk_ehdr (replicate 16 1) 2 62 1 0x400000 64 176 0 64 56 2 64 1 0.
Definition ex_phdrs : list Elf64_Phdr :=
  [mk_phdr PT_LOAD 5 4096 0x400000 0 100 8192 4096; mk_phdr PT_LOAD 6 8192 0x600000 0 50 4096 4096].
Definition ex_shdrs : list Elf64_Shdr := [mk_shdr 1 3 0 0 300 20 0 0 1 0].
Definition ex_elf_mem : mem :=
  bytes_at 4096 (ehdr_bytes ex_ehdr ++ (ex_phdrs ≫= phdr_bytes) ++ (ex_shdrs ≫= shdr_bytes)) ∅.

Lemma ex_elf_at : elf_at ex_elf_mem 4096 ex_ehdr ex_phdrs ex_shdrs.
Proof.
  split; try done; try (by apply at_check_true; vm_compute); repeat constructor; done.
Qed.

Lemma elf_headers_read_back_witness :
  (∀ i p, ex_phdrs !! i = Some p →
     ∃ a, get_segment 4096 (Z.of_nat i) ex_elf_mem = Done (a, ex_elf_mem) ∧ a ≠ 0 ∧ load_phdr a ex_elf_mem = Done (p, ex_elf_mem)) ∧
  (∀ i s, ex_shdrs !! i = Some s →
     ∃ a, get_section 4096 (Z.of_nat i) ex_elf_mem = Done (a, ex_elf_mem) ∧ a ≠ 0 ∧ load_shdr a ex_elf_mem = Done (s, ex_elf_mem)) ∧
  (∀ i, 2 < i → get_segment 4096 i ex_elf_mem = Done (0, ex_elf_mem)) ∧
  (∀ i, 1 < i → get_section 4096 i ex_elf_mem = Done (0, ex_elf_mem)).
Proof. exact (elf_headers_read_back ex_elf_mem 4096 ex_ehdr ex_phdrs ex_shdrs ex_elf_at). Defined.

Lemma elf64_has_is_sysv_witness :
  elf64_has 64 (bytes_at 64 [112; 114; 105; 110; 116; 102; 0] ∅)
    = Done (0x77905a6, bytes_at 64 [112; 114; 105; 110; 116; 102; 0] ∅) ∧ 0 ≤ 0x77905a6 < 2 ^ 28.
Proof.
  refine (elf64_has_is_sysv _ 64 [112; 114; 105; 110; 116; 102] _ _).
  - by apply at_check_true; vm_compute.
  - repeat constructor; lia.
Defined.
