(* ===== verification/Idt.v ===== *)
(** * Interrupt descriptors and the task state segment
    (kernel/arch/x86-64/interrupt/interrupt.c, kernel/arch/x86-64/tss.c)

    The gates of the interrupt table and the descriptor of the task state
    segment hold an address in pieces; the processor puts them together
    again. *)
From S2P Require Import Prelude.
From S2P Require Import Layout.
From S2P Require Import Libc.
From S2P Require Import Tty.
From S2P Require Import Printf.
From S2P Require Import Bytes.

(** ** The interrupt table *)

(** [struct interrupt_descriptor]. *)
Record interrupt_descriptor := mk_gate {
  g_addr_low : Z; g_selector : Z; g_ist : Z; g_flags : Z; g_addr_med : Z; g_addr_high : Z; g_reserved : Z;
}.
Definition sizeof_gate : Z := 16.

(** [struct IDTR], the operand of [lidt]. *)
Record IDTR := mk_idtr { idtr_size : Z; idtr_base : Z }.

(** The array [idt] of 256 gates, and the register [lidt] loads. *)
Record idts := mk_idts { idt : list interrupt_descriptor; idtr : IDTR }.
Abbreviation IDT := (M idts).

Definition GDT_ENTRY_KERNEL_CODE : Z := 0x8.
Definition FLAGS_DPL (x : Z) : Z := Z.shiftl x 5.
Definition FLAGS_GATE_TYPE (x : Z) : Z := x.

(** [set_idt_entry]: a [u8] vector is inside the array. *)
Definition set_idt_entry (vector handler_addr selector flags : Z) : IDT unit :=
  modifyf (λ s,
    match idt s !! Z.to_nat vector with
    | None => None
    | Some g =>
        Some (mk_idts
          (<[Z.to_nat vector := mk_gate (w16 (Z.land handler_addr 0xFFFF)) selector (g_ist g) (w8 (Z.lor flags 0x80))
              (w16 (Z.land (Z.shiftr handler_addr 16) 0xFFFF)) (w32 (Z.land (Z.shiftr handler_addr 32) 0xFFFFFFFF))
              (g_reserved g)]> (idt s))
          (idtr s))
    end).

(** The loop of [load_idt] over the reserved vectors, from [i]. *)
Fixpoint reserved_loop (n : nat) (vector_handler_0 i : Z) : IDT unit :=
  match n with
  | O => mret tt
  | S n =>
      set_idt_entry i (w64 (vector_handler_0 + i * 16)) GDT_ENTRY_KERNEL_CODE (Z.lor (FLAGS_DPL 0) (FLAGS_GATE_TYPE 0xE));;
      reserved_loop n vector_handler_0 (i + 1)
  end.

(** [load_idt]; [idt_addr] is the address of [idt], [vector_handler_0] that of
    the first stub of isr_wrapper.S. *)
Definition load_idt (idt_addr vector_handler_0 : Z) : IDT unit :=
  reserved_loop 32 vector_handler_0 0;;
  modify (λ s, mk_idts (idt s) (mk_idtr (w16 (sizeof_gate * 256 - 1)) idt_addr)).

(** What the processor reads out of a gate. *)
Definition gate_handler (g : interrupt_descriptor) : Z := g_addr_low g + 2 ^ 16 * (g_addr_med g + 2 ^ 16 * g_addr_high g).
Definition gate_present (g : interrupt_descriptor) : bool := Z.testbit (g_flags g) 7.
Definition gate_dpl (g : interrupt_descriptor) : Z := field 5 2 (g_flags g).
Definition gate_type (g : interrupt_descriptor) : Z := field 0 4 (g_flags g).

(** Three pieces of 16, 16 and 32 bits. *)
Lemma three_pieces a : 0 ≤ a < 2 ^ 64 →
  w16 (Z.land a 0xFFFF) + 2 ^ 16 * (w16 (Z.land (Z.shiftr a 16) 0xFFFF) + 2 ^ 16 * w32 (Z.land (Z.shiftr a 32) 0xFFFFFFFF)) = a.
Proof.
  intros Ha. change 0xFFFF with (Z.ones 16). change 0xFFFFFFFF with (Z.ones 32).
  unfold w16, w32. rewrite !Z.land_ones, !Z.mod_mod, !Z.shiftr_div_pow2 by lia. lia_div.
Qed.

(** Installing a gate. *)
Definition gate_for (handler selector flags : Z) (old : interrupt_descriptor) : interrupt_descriptor :=
  mk_gate (w16 (Z.land handler 0xFFFF)) selector (g_ist old) (w8 (Z.lor flags 0x80))
    (w16 (Z.land (Z.shiftr handler 16) 0xFFFF)) (w32 (Z.land (Z.shiftr handler 32) 0xFFFFFFFF)) (g_reserved old).

Lemma set_idt_entry_run s v h sel fl g :
  idt s !! Z.to_nat v = Some g →
  set_idt_entry v h sel fl s = Done (tt, mk_idts (<[Z.to_nat v := gate_for h sel fl g]> (idt s)) (idtr s)).
Proof. intros Hg. apply modifyf_done. by rewrite Hg. Qed.

Lemma gate_for_handler h sel fl g : 0 ≤ h < 2 ^ 64 → gate_handler (gate_for h sel fl g) = h.
Proof. intros Hh. by apply three_pieces. Qed.

Definition reserved_gate (vector_handler_0 i : Z) : interrupt_descriptor → interrupt_descriptor :=
  gate_for (w64 (vector_handler_0 + i * 16)) GDT_ENTRY_KERNEL_CODE 0xE.

Lemma reserved_loop_run n s vh i :
  (i + n ≤ length (idt s))%nat →
  ∃ l, reserved_loop n vh (Z.of_nat i) s = Done (tt, mk_idts l (idtr s)) ∧ length l = length (idt s) ∧
    ∀ j, l !! j = if decide (i ≤ j < i + n)%nat then reserved_gate vh (Z.of_nat j) <$> idt s !! j else idt s !! j.
Proof.
  revert s i. induction n as [|n IH]; intros s i Hn; cbn [reserved_loop].
  { exists (idt s). split; [by destruct s|]. split; [done|]. intros j. by rewrite decide_False by lia. }
  destruct (lookup_lt_is_Some_2 (idt s) i) as [g Hg]; [lia|].
  erewrite bind_done by (apply set_idt_entry_run; by rewrite Nat2Z.id). rewrite Nat2Z.id.
  replace (Z.of_nat i + 1) with (Z.of_nat (S i)) by lia.
  set (s1 := mk_idts _ _). destruct (IH s1 (S i)) as (l & E & Hl & Hj); [cbn; rewrite length_insert; lia|].
  exists l. split; [done|]. cbn in Hl. rewrite length_insert in Hl. split; [done|]. intros j. rewrite Hj. cbn [idt s1].
  destruct (decide (j = i)) as [->|Hne].
  - rewrite decide_False, decide_True by lia. by rewrite list_lookup_insert_eq, Hg by lia.
  - rewrite list_lookup_insert_ne by done. destruct (decide (i ≤ j < i + S n)%nat); [rewrite decide_True by lia; done|].
    by rewrite decide_False by lia.
Qed.

(** After [load_idt] each of the 32 reserved vectors is a present
    interrupt gate of the most privileged level to the kernel's code segment,
    from which the processor reads the address of the vector's own stub; the
    other gates are as before, and the table register covers exactly the 256
    gates. *)
Lemma load_idt_run s idt_addr vh :
  length (idt s) = 256%nat → 0 ≤ vh → vh + 32 * 16 ≤ 2 ^ 64 →
  ∃ l, load_idt idt_addr vh s = Done (tt, mk_idts l (mk_idtr 4095 idt_addr)) ∧ length l = 256%nat ∧
    (∀ j, (j < 32)%nat → ∃ g, l !! j = Some g ∧ gate_handler g = vh + Z.of_nat j * 16 ∧
       g_selector g = GDT_ENTRY_KERNEL_CODE ∧ gate_present g = true ∧ gate_dpl g = 0 ∧ gate_type g = 0xE) ∧
    (∀ j, (32 ≤ j)%nat → l !! j = idt s !! j).
Proof.
  intros Hlen H0 Hvh. destruct (reserved_loop_run 32 s vh 0) as (l & E & Hl & Hj); [lia|].
  exists l. unfold load_idt. change (Z.of_nat 0) with 0 in E. rewrite (bind_done _ _ _ _ _ E). split; [done|]. split; [lia|]. split.
  - intros j Hlt. destruct (lookup_lt_is_Some_2 (idt s) j) as [g Hg]; [lia|].
    exists (reserved_gate vh (Z.of_nat j) g). rewrite Hj, decide_True, Hg by lia. split; [done|].
    split; [|done]. unfold reserved_gate. rewrite gate_for_handler by apply w64_range. apply w64_small. lia.
  - intros j Hge. by rewrite Hj, decide_False by lia.
Qed.

(** ** The task state segment *)

(** The offset of [rsp0] in the packed [struct tss], and its size. *)
Definition tss_rsp0 : Z := 4.
Definition sizeof_tss : Z := 104.

(** [tss_descriptor_t]. *)
Record tss_descriptor_t := mk_tssd {
  limit_low : Z; addr_low : Z; addr_mid0 : Z; access : Z; limit_high : Z; tflag : Z;
  addr_mid1 : Z; addr_high : Z; tssd_pad : Z;
}.

(** Memory and its source, the variable [tss], the descriptor in the segment
    table, and the selector in the task register. *)
Record tsss (E : Type) := mk_tsss { tsmem : mem; tsenv : E; tss : Z; gdt_tss_entry : tss_descriptor_t; task_reg : Z }.
Arguments mk_tsss {E}.
Arguments tsmem {E}.
Arguments tsenv {E}.
Arguments tss {E}.
Arguments gdt_tss_entry {E}.
Arguments task_reg {E}.

Definition FLAG_DPL (x : Z) : Z := Z.shiftl x 5.
Definition FLAG_PRESENT : Z := Z.shiftl 1 7.
Definition FLAG_TYPE_TSS_AVAIL : Z := 0x9.

Section tss.
Context {E : Type} `{!MemSource E}.
Abbreviation TSS := (M (tsss E)).

Definition on_tsmem {A} : MEM A → TSS A :=
  zoom tsmem (λ m s, mk_tsss m (tsenv s) (tss s) (gdt_tss_entry s) (task_reg s)).
Definition ts_alloc (n : Z) : TSS Z :=
  zoom (λ s, (tsmem s, tsenv s)) (λ '(m, e) s, mk_tsss m e (tss s) (gdt_tss_entry s) (task_reg s)) (src_alloc n).

(** The descriptor [setup_tss] writes for a segment at [t]. *)
Definition write_descriptor (t : Z) (d : tss_descriptor_t) : tss_descriptor_t :=
  mk_tssd 0xFFFF (w16 (Z.land t 0xFFFF)) (w8 (Z.land (Z.shiftr t 16) 0xFF))
    (Z.lor (Z.lor FLAG_PRESENT (FLAG_DPL 0)) FLAG_TYPE_TSS_AVAIL) 0xF (Z.shiftl 1 3)
    (w8 (Z.land (Z.shiftr t 24) 0xFF)) (w32 (Z.land (Z.shiftr t 32) 0xFFFFFFFF)) (tssd_pad d).

Definition setup_tss : TSS unit :=
  t ← ts_alloc sizeof_tss;
  modify (λ s, mk_tsss (tsmem s) (tsenv s) t (gdt_tss_entry s) (task_reg s));;
  on_tsmem (memset t 0 sizeof_tss);;
  modify (λ s, mk_tsss (tsmem s) (tsenv s) (tss s) (write_descriptor t (gdt_tss_entry s)) 0x28).

Definition get_rsp0 : TSS Z :=
  t ← gets tss;
  if decide (t = 0) then mret 0 else on_tsmem (ld64 (t + tss_rsp0)).

Definition update_rsp0 (rsp0 : Z) : TSS unit :=
  t ← gets tss;
  if decide (t = 0) then mret tt else on_tsmem (st64 (t + tss_rsp0) rsp0).

(** The base the processor reads out of the descriptor. *)
Definition tssd_base (d : tss_descriptor_t) : Z :=
  addr_low d + 2 ^ 16 * (addr_mid0 d + 2 ^ 8 * (addr_mid1 d + 2 ^ 8 * addr_high d)).

Lemma four_pieces a : 0 ≤ a < 2 ^ 64 → tssd_base (write_descriptor a (mk_tssd 0 0 0 0 0 0 0 0 0)) = a.
Proof.
  intros Ha. unfold tssd_base, write_descriptor. cbn [addr_low addr_mid0 addr_mid1 addr_high].
  change 0xFFFF with (Z.ones 16). change 0xFFFFFFFF with (Z.ones 32). change 0xFF with (Z.ones 8).
  unfold w16, w32, w8. rewrite !Z.land_ones, !Z.mod_mod, !Z.shiftr_div_pow2 by lia. lia_div.
Qed.

Lemma tssd_base_written t d : 0 ≤ t < 2 ^ 64 → tssd_base (write_descriptor t d) = t.
Proof. intros Ht. by rewrite <- (four_pieces t Ht) at 2. Qed.

Lemma on_tsmem_run {A} (f : MEM A) s a m : f (tsmem s) = Done (a, m) →
  on_tsmem f s = Done (a, mk_tsss m (tsenv s) (tss s) (gdt_tss_entry s) (task_reg s)).
Proof. intros Hf. unfold on_tsmem, zoom. by rewrite Hf. Qed.

(** A segment that is set up: its bytes are there. *)
Definition tss_ready (s : tsss E) : Prop := tss s ≠ 0 ∧ has (tsmem s) (tss s) sizeof_tss.

Lemma rsp0_roundtrip s v : tss_ready s → 0 ≤ v < 2 ^ 64 →
  ∃ s', update_rsp0 v s = Done (tt, s') ∧ tss_ready s' ∧ get_rsp0 s' = Done (v, s') ∧
    tss s' = tss s ∧ gdt_tss_entry s' = gdt_tss_entry s ∧ task_reg s' = task_reg s.
Proof.
  intros [H0 Hh] Hv. unfold sizeof_tss, tss_ready, get_rsp0, update_rsp0, tss_rsp0 in *.
  destruct (stn_run 8 (tsmem s) (tss s + 4) v) as (m' & E1 & Ha & Ho); [eapply has_mono; [exact Hh|lia|lia]|].
  exists (mk_tsss m' (tsenv s) (tss s) (gdt_tss_entry s) (task_reg s)). step. rewrite decide_False by done.
  split; [by apply (on_tsmem_run (st64 (tss s + 4) v))|]. cbn [tss tsmem]. split_and!; [done| | |done..].
  - intros i Hi. destruct (decide (4 ≤ i < 12)) as [Hin|Hin]; [|rewrite Ho by lia; by apply Hh].
    destruct (at_has _ _ _ Ha (i - 4)) as [x Hx]; [rewrite le_bytes_length; lia|].
    replace (tss s + i) with (tss s + 4 + (i - 4)) by lia. eauto.
  - step. cbn [tss]. rewrite decide_False by done. erewrite on_tsmem_run by (apply ldn_run; [exact Ha|exact Hv]). done.
Qed.

(** Before the segment is set up the two functions do nothing. *)
Lemma rsp0_no_tss s v : tss s = 0 → update_rsp0 v s = Done (tt, s) ∧ get_rsp0 s = Done (0, s).
Proof. intros H0. unfold update_rsp0, get_rsp0. rewrite !(bind_done (gets tss) _ _ _ _ eq_refl), H0. done. Qed.

(** The result of [alloc] is used unchecked: without memory for the segment
    [setup_tss] clears the bytes at address 0. *)
Lemma setup_tss_no_memory s m e :
  src_alloc sizeof_tss (tsmem s, tsenv s) = Done (0, (m, e)) → m !! 0 = None → setup_tss s = Fault.
Proof.
  intros Ea Hm. unfold setup_tss. erewrite bind_done by (unfold ts_alloc, zoom; rewrite Ea; done). step.
  apply bind_fault. unfold on_tsmem, zoom, memset. cbn [tsmem]. change (Z.to_nat sizeof_tss) with (S 103).
  cbn [for_up]. rewrite bind_assoc, bind_fault; [done|]. unfold stb, modifyf. rewrite Z.add_0_l. by rewrite Hm.
Qed.

(** The processor lets user code use port [p] when the bit of [p] in the map
    of the segment is clear; the map starts at [io_map_base_addr], the last
    field of the segment. *)
Definition port_open (s : tsss E) (p : Z) : Prop :=
  ∃ base b, ld16 (tss s + 102) (tsmem s) = Done (base, tsmem s) ∧
    tsmem s !! (tss s + base + p / 8) = Some b ∧ Z.testbit b (p mod 8) = false.

Lemma setup_tss_run s t m e `{!MemSourceLaws E} :
  src_alloc sizeof_tss (tsmem s, tsenv s) = Done (t, (m, e)) → t ≠ 0 →
  ∃ m', setup_tss s = Done (tt, mk_tsss m' e t (write_descriptor t (gdt_tss_entry s)) 0x28) ∧
    (∀ j, 0 ≤ j < sizeof_tss → m' !! (t + j) = Some 0).
Proof.
  intros Ea Ht. destruct (src_alloc_ok _ _ _ _ _ _ Ea Ht) as [Hf _].
  destruct (memset_run m t 0 sizeof_tss) as (m' & E1 & Hz & _); [done|intros i Hi; by apply Hf|].
  exists m'. unfold setup_tss. erewrite bind_done by (unfold ts_alloc, zoom; rewrite Ea; done). step. cbn [tsmem tsenv gdt_tss_entry task_reg].
  erewrite bind_done by (apply (on_tsmem_run (memset t 0 sizeof_tss) (mk_tsss m e t (gdt_tss_entry s) (task_reg s)) t m' E1)).
  done.
Qed.

(** [setup_tss] with memory available loads the task register with a
    present descriptor from which the processor reads the address of the
    cleared segment, and from then on [get_rsp0] returns what [update_rsp0]
    last stored. *)
Lemma setup_tss_ready `{!MemSourceLaws E} s t m e vs v :
  src_alloc sizeof_tss (tsmem s, tsenv s) = Done (t, (m, e)) → t ≠ 0 → 0 ≤ t < 2 ^ 64 →
  Forall (λ v, 0 ≤ v < 2 ^ 64) (vs ++ [v]) →
  ∃ s', (setup_tss;; foldr (λ v k, update_rsp0 v;; k) (mret tt) (vs ++ [v]);; get_rsp0) s = Done (v, s') ∧
    task_reg s' = 0x28 ∧ tss s' = t ∧ tssd_base (gdt_tss_entry s') = t ∧ access (gdt_tss_entry s') = 0x89.
Proof.
  intros Ea Ht Hr Hvs. destruct (setup_tss_run s t m e Ea Ht) as (m' & Es & Hz).
  rewrite (bind_done _ _ _ _ _ Es).
  set (s1 := mk_tsss _ _ _ _ _).
  assert (tss_ready s1 ∧ task_reg s1 = 0x28 ∧ tss s1 = t ∧ tssd_base (gdt_tss_entry s1) = t ∧ access (gdt_tss_entry s1) = 0x89) as Hs1.
  { split_and!; try done; [split; [done|intros i Hi; cbn; rewrite Hz by done; eauto]|by apply tssd_base_written]. }
  clearbody s1. clear Es Hz. revert s1 Hs1. induction vs as [|u vs IH]; intros s1 (Hok & H28 & Htt & Hb & Hacc); cbn [app foldr] in *.
  - apply Forall_cons in Hvs as [Hv _]. destruct (rsp0_roundtrip s1 v Hok Hv) as (s2 & E2 & Hok2 & Eg & Et & Ed & Er).
    exists s2. rewrite bind_assoc, (bind_done _ _ _ _ _ E2). step. rewrite Eg, Et, Ed, Er. by split_and!.
  - apply Forall_cons in Hvs as [Hu Hvs]. destruct (rsp0_roundtrip s1 u Hok Hu) as (s2 & E2 & Hok2 & _ & Et & Ed & Er).
    rewrite bind_assoc, (bind_done _ _ _ _ _ E2). apply IH; [done|]. rewrite Et, Ed, Er. by split_and!.
Qed.

(** The limit of the descriptor is the largest one and the segment is cleared,
    so the port map is taken from offset 0 of the segment: user code may use
    every port below 816, the keyboard's and the interrupt controllers'
    among them. *)
Lemma setup_tss_opens_ports `{!MemSourceLaws E} s t m e :
  src_alloc sizeof_tss (tsmem s, tsenv s) = Done (t, (m, e)) → t ≠ 0 →
  ∃ s', setup_tss s = Done (tt, s') ∧ ∀ p, 0 ≤ p < 816 → port_open s' p.
Proof.
  intros Ea Ht. destruct (setup_tss_run s t m e Ea Ht) as (m' & Es & Hz).
  eexists. split; [exact Es|]. intros p Hp. unfold port_open, sizeof_tss in *. cbn [tss tsmem]. exists 0, 0. split_and!.
  - apply ldn_run; [|done]. intros i x Hi. rewrite <- Z.add_assoc. destruct i as [|[|i]]; cbn in Hi; simplify_eq; apply Hz; lia.
  - rewrite Z.add_0_r. apply Hz. lia_div.
  - apply Z.bits_0.
Qed.
End tss.

(** ** Examples *)

Definition idts0 : idts := mk_idts (replicate 256 (mk_gate 0 0 0 0 0 0 0)) (mk_idtr 0 0).
Definition vector0 : Z := 0xffffffff80101230.

Lemma load_idt_run_example :
  ∃ l, load_idt 0xffffffff80200000 vector0 idts0 = Done (tt, mk_idts l (mk_idtr 4095 0xffffffff80200000)) ∧ length l = 256%nat ∧
    (∀ j, (j < 32)%nat → ∃ g, l !! j = Some g ∧ gate_handler g = vector0 + Z.of_nat j * 16 ∧
       g_selector g = GDT_ENTRY_KERNEL_CODE ∧ gate_present g = true ∧ gate_dpl g = 0 ∧ gate_type g = 0xE) ∧
    (∀ j, (32 ≤ j)%nat → l !! j = idt idts0 !! j).
Proof. by refine (load_idt_run idts0 0xffffffff80200000 vector0 _ _ _). Defined.

Definition tsss0 : tsss Z := mk_tsss ∅ 0xffff900000000000 0 (mk_tssd 0 0 0 0 0 0 0 0 0) 0.

Lemma setup_tss_ready_witness :
  ∃ s', (setup_tss;; foldr (λ v k, update_rsp0 v;; k) (mret tt) ([0x1000] ++ [0x2000]);; get_rsp0) tsss0 = Done (0x2000, s') ∧
    task_reg s' = 0x28 ∧ tss s' = 0xffff900000000000 ∧ tssd_base (gdt_tss_entry s') = 0xffff900000000000 ∧
    access (gdt_tss_entry s') = 0x89.
Proof.
  refine (setup_tss_ready tsss0 0xffff900000000000 _ _ [0x1000] 0x2000 eq_refl _ _ _); try done.
  repeat constructor; lia.
Defined.
