(* ===== verification/Lapic.v ===== *)
(** * The local interrupt controllers (kernel/arch/x86-64/interrupt/apic.c)

    Each processor reaches its controller through model-specific registers
    when it supports the x2APIC, through memory-mapped registers otherwise.
    The processor's identification, its model-specific registers, the ports
    and the memory-mapped registers are the hardware behind an interface. *)
From S2P Require Import Prelude.
From S2P Require Import Cpu.
From S2P Require Import Layout.
From S2P Require Import Libc.
From S2P Require Import Tty.
From S2P Require Import Printf.
From S2P Require Import Bytes.
From S2P Require Import Idt.

(** The hardware as the running processor sees it.  A read of a controller
    register can change the device: time passes. *)
Class LapicDev (V : Type) := {
  hw_cpuid : Z → V → option (Z * Z * Z * Z);
  hw_rdmsr : Z → V → Z;
  hw_wrmsr : Z → Z → V → V;
  hw_outb : Z → Z → V → V;
  hw_read : Z → V → Z * V;
  hw_write : Z → Z → V → V;
}.

(** The writes of model-specific registers the kernel makes: the extended
    features, the registers of the controller in x2APIC mode, and the base
    register of the controller with its enable bit set. *)
Definition kernel_msr (r v : Z) : Prop := r = 0xC0000080 ∨ 0x800 ≤ r < 0x900 ∨ r = 0x1B ∧ Z.testbit v 11 = true.

(** Documented: these writes and the accesses to the controller, which is
    enabled from reset on, do not change the processor's identification. *)
Class LapicLaws (V : Type) `{!LapicDev V} := {
  cpuid_wrmsr l r v (d : V) : kernel_msr r v → hw_cpuid l (hw_wrmsr r v d) = hw_cpuid l d;
  cpuid_outb l p v (d : V) : hw_cpuid l (hw_outb p v d) = hw_cpuid l d;
  cpuid_read l r (d : V) : hw_cpuid l (hw_read r d).2 = hw_cpuid l d;
  cpuid_write l r v (d : V) : hw_cpuid l (hw_write r v d) = hw_cpuid l d;
}.

(** [support_xapic2], [lapic_base_address] and the interrupt table, with the
    memory [map_mmio] hands out and the hardware. *)
Record lapics (V E : Type) := mk_lapics {
  lmem : mem; lenv : E; lidt : idts;
  support_xapic2 : list bool; lapic_base_address : list Z; ldev : V;
}.
Arguments mk_lapics {V E}.
Arguments lmem {V E}.
Arguments lenv {V E}.
Arguments lidt {V E}.
Arguments support_xapic2 {V E}.
Arguments lapic_base_address {V E}.
Arguments ldev {V E}.

Definition PIC_COMMAND_MASTER : Z := 0x20.
Definition PIC_DATA_MASTER : Z := 0x21.
Definition PIC_COMMAND_SLAVE : Z := 0xA0.
Definition PIC_DATA_SLAVE : Z := 0xA1.
Definition ICW_1 : Z := 0x11.
Definition ICW_2_M : Z := 0x20.
Definition ICW_2_S : Z := 0x28.
Definition ICW_3_M : Z := 0x2.
Definition ICW_3_S : Z := 0x4.
Definition ICW_4_8086 : Z := 0x01.
Definition IA32_APIC_BASE : Z := 0x1B.
Definition LAPIC_REG_EOI : Z := 0xB0.
Definition LAPIC_REG_SPURIOUS_VECTOR : Z := 0xF0.
Definition LAPIC_REG_INTERRUPT_COMMAND : Z := 0x300.

(** [union ipi_command]: the fields the kernel uses. *)
Definition ipi_deliv_status (raw : Z) : Z := field 12 1 raw.

Section lapic.
Context {V E : Type} `{!LapicDev V} `{!MemSource E}.
Abbreviation LAPIC := (M (lapics V E)).
Implicit Type s : lapics V E.

Definition set_ldev (d : V) s := mk_lapics (lmem s) (lenv s) (lidt s) (support_xapic2 s) (lapic_base_address s) d.
Definition on_lidt {A} : IDT A → LAPIC A :=
  zoom lidt (λ i s, mk_lapics (lmem s) (lenv s) i (support_xapic2 s) (lapic_base_address s) (ldev s)).
Definition on_lsys {A} : M (mem * E) A → LAPIC A :=
  zoom (λ s, (lmem s, lenv s))
    (λ me s, mk_lapics me.1 me.2 (lidt s) (support_xapic2 s) (lapic_base_address s) (ldev s)).

Definition cpuid1 : LAPIC (Z * Z * Z * Z) := getf (λ s, hw_cpuid 1 (ldev s)).
Definition get_apic_id : LAPIC Z := r ← cpuid1; let '(_, ebx, _, _) := r in mret (Z.shiftr ebx 24).

Definition rdmsr (msr : Z) : LAPIC Z := gets (λ s, hw_rdmsr msr (ldev s)).
Definition wrmsr (msr v : Z) : LAPIC unit := modify (λ s, set_ldev (hw_wrmsr msr v (ldev s)) s).
Definition outb (port v : Z) : LAPIC unit := modify (λ s, set_ldev (hw_outb port v (ldev s)) s).
Definition iowait : LAPIC unit := outb 0x80 0.

Definition disable_pic : LAPIC unit :=
  outb PIC_COMMAND_MASTER ICW_1;;
  outb PIC_COMMAND_SLAVE ICW_1;;
  iowait;;
  outb PIC_DATA_MASTER ICW_2_M;;
  outb PIC_DATA_SLAVE ICW_2_S;;
  iowait;;
  outb PIC_DATA_MASTER ICW_3_M;;
  outb PIC_DATA_SLAVE ICW_3_S;;
  iowait;;
  outb PIC_DATA_MASTER ICW_4_8086;;
  outb PIC_DATA_SLAVE ICW_4_8086;;
  iowait;;
  outb PIC_DATA_MASTER 0xFF;;
  outb PIC_DATA_SLAVE 0xFF.

(** [support_xapic2[id]] and [lapic_base_address[id]]: the arrays have
    [MAX_CORES] entries. *)
Definition supports (id : Z) : LAPIC bool := getf (λ s, support_xapic2 s !! Z.to_nat id).
Definition set_supports (id : Z) (b : bool) : LAPIC unit :=
  modifyf (λ s, if decide (Z.to_nat id < length (support_xapic2 s))%nat
    then Some (mk_lapics (lmem s) (lenv s) (lidt s) (<[Z.to_nat id := b]> (support_xapic2 s)) (lapic_base_address s) (ldev s))
    else None).
Definition base_address (id : Z) : LAPIC Z := getf (λ s, lapic_base_address s !! Z.to_nat id).
Definition set_base_address (id v : Z) : LAPIC unit :=
  modifyf (λ s, if decide (Z.to_nat id < length (lapic_base_address s))%nat
    then Some (mk_lapics (lmem s) (lenv s) (lidt s) (support_xapic2 s) (<[Z.to_nat id := v]> (lapic_base_address s)) (ldev s))
    else None).

Definition check_lapic_availability (apic_id : Z) : LAPIC bool :=
  r ← cpuid1;
  let '(_, _, ecx, edx) := r in
  let has_lapic := bool_decide (Z.land edx 0x100 ≠ 0) in
  set_supports apic_id (bool_decide (Z.land ecx (Z.shiftl 1 21) ≠ 0));;
  mret has_lapic.

(** Register [reg] through the mapping of the controller's page. *)
Definition mmio_read (base reg : Z) : LAPIC Z := λ s,
  if decide (base = 0) then Fault else
  let '(v, d) := hw_read reg (ldev s) in Done (w32 v, set_ldev d s).
Definition mmio_write (base reg v : Z) : LAPIC unit := λ s,
  if decide (base = 0) then Fault else Done (tt, set_ldev (hw_write reg v (ldev s)) s).

Definition read_lapic_register (reg : Z) : LAPIC Z :=
  apic_id ← get_apic_id;
  x2 ← supports apic_id;
  if (x2 : bool) then v ← rdmsr (w32 (0x800 + Z.shiftr reg 4)); mret (w32 v)
  else base ← base_address apic_id; mmio_read base reg.

Definition write_lapic_register (reg value : Z) : LAPIC unit :=
  apic_id ← get_apic_id;
  x2 ← supports apic_id;
  if (x2 : bool) then wrmsr (w32 (0x800 + Z.shiftr reg 4)) value
  else base ← base_address apic_id; mmio_write base reg value.

Definition read_icr : LAPIC Z :=
  apic_id ← get_apic_id;
  x2 ← supports apic_id;
  if (x2 : bool) then rdmsr 0x830 else
  low ← read_lapic_register LAPIC_REG_INTERRUPT_COMMAND;
  high ← read_lapic_register (LAPIC_REG_INTERRUPT_COMMAND + 0x10);
  mret (Z.lor low (Z.shiftl high 32)).

Definition write_icr (value : Z) : LAPIC unit :=
  apic_id ← get_apic_id;
  x2 ← supports apic_id;
  if (x2 : bool) then wrmsr 0x830 value else
  let low := w32 value in
  let high := w32 (Z.shiftr value 32) in
  write_lapic_register (LAPIC_REG_INTERRUPT_COMMAND + 0x10) high;;
  write_lapic_register LAPIC_REG_INTERRUPT_COMMAND low.

(** [do pause; while (deliv_status)]: at most [fuel] polls. *)
Fixpoint wait_delivery (fuel : nat) : LAPIC unit :=
  match fuel with
  | O => out_of_fuel
  | S fuel =>
      icr ← read_icr;
      if decide (ipi_deliv_status (w32 icr) ≠ 0) then wait_delivery fuel else mret tt
  end.

Definition send_ipi (fuel : nat) (dest command : Z) : LAPIC unit :=
  apic_id ← get_apic_id;
  x2 ← supports apic_id;
  let full_cmd := Z.lor command (if (x2 : bool) then w64 (Z.shiftl dest 32) else w64 (Z.shiftl dest 56)) in
  write_icr full_cmd;;
  x2 ← supports apic_id;
  if (x2 : bool) then mret tt else wait_delivery fuel.

Definition send_eoi : LAPIC unit := write_lapic_register LAPIC_REG_EOI 0.

(** [enable_lapic]; [vector_handler_0xFF] is the address of the stub. *)
Definition enable_lapic (vector_handler_0xFF apic_id : Z) : LAPIC Z :=
  ok ← check_lapic_availability apic_id;
  if negb ok then mret 1 else
  disable_pic;;
  apic_base ← rdmsr IA32_APIC_BASE;
  let apic_base := Z.lor apic_base 0x800 in
  x2 ← supports apic_id;
  let apic_base := if (x2 : bool) then Z.lor apic_base (Z.shiftl 1 10) else apic_base in
  wrmsr IA32_APIC_BASE apic_base;;
  failed ← (if (x2 : bool) then mret false else
    p ← on_lsys (src_map_mmio 0 (Z.land apic_base 0xFFFFF000) 0x400 true);
    set_base_address apic_id p;;
    mret (bool_decide (p = 0)));
  if (failed : bool) then mret 1 else
  write_lapic_register LAPIC_REG_SPURIOUS_VECTOR (Z.lor 0xFF 0x100);;
  on_lidt (set_idt_entry 0xFF vector_handler_0xFF GDT_ENTRY_KERNEL_CODE (Z.lor (FLAGS_DPL 0) (FLAGS_GATE_TYPE 0xE)));;
  mret 0.

(** ** The running processor *)

(** The running processor is [id]; [x2] tells its mode and [base] is where its
    controller is mapped. *)
Record on_cpu s (id : Z) (x2 : bool) (base : Z) : Prop := {
  oc_id : ∃ eax ebx ecx edx, hw_cpuid 1 (ldev s) = Some (eax, ebx, ecx, edx) ∧ Z.shiftr ebx 24 = id;
  oc_x2 : support_xapic2 s !! Z.to_nat id = Some x2;
  oc_base : lapic_base_address s !! Z.to_nat id = Some base;
  oc_mapped : x2 = false → base ≠ 0;
}.

Lemma get_apic_id_run s id x2 base : on_cpu s id x2 base → get_apic_id s = Done (id, s).
Proof.
  intros [(eax & ebx & ecx & edx & Hc & <-) _ _ _]. unfold get_apic_id, cpuid1.
  by rewrite (bind_done _ _ _ _ _ (getf_done (λ s, hw_cpuid 1 (ldev s)) s _ Hc)).
Qed.

Lemma supports_run s id x2 base : on_cpu s id x2 base → supports id s = Done (x2, s).
Proof. intros [_ Hx _ _]. apply (getf_done (λ s, support_xapic2 s !! Z.to_nat id)). exact Hx. Qed.

Lemma base_address_run s id x2 base : on_cpu s id x2 base → base_address id s = Done (base, s).
Proof. intros [_ _ Hb _]. apply (getf_done (λ s, lapic_base_address s !! Z.to_nat id)). exact Hb. Qed.

(** A register access, in the mode of the processor. *)
Definition reg_write (x2 : bool) (reg v : Z) (d : V) : V :=
  if x2 then hw_wrmsr (w32 (0x800 + Z.shiftr reg 4)) v d else hw_write reg v d.
Definition reg_read (x2 : bool) (reg : Z) (d : V) : Z * V :=
  if x2 then (hw_rdmsr (w32 (0x800 + Z.shiftr reg 4)) d, d) else hw_read reg d.

Lemma write_lapic_register_run s id x2 base reg v :
  on_cpu s id x2 base → write_lapic_register reg v s = Done (tt, set_ldev (reg_write x2 reg v (ldev s)) s).
Proof.
  intros Hc. unfold write_lapic_register. rewrite (bind_done _ _ _ _ _ (get_apic_id_run _ _ _ _ Hc)).
  rewrite (bind_done _ _ _ _ _ (supports_run _ _ _ _ Hc)). destruct x2; [done|].
  rewrite (bind_done _ _ _ _ _ (base_address_run _ _ _ _ Hc)). unfold mmio_write.
  by rewrite decide_False by (by apply (oc_mapped _ _ _ _ Hc)).
Qed.

Lemma read_lapic_register_run s id x2 base reg :
  on_cpu s id x2 base →
  read_lapic_register reg s = Done (w32 (reg_read x2 reg (ldev s)).1, set_ldev (reg_read x2 reg (ldev s)).2 s).
Proof.
  intros Hc. unfold read_lapic_register. rewrite (bind_done _ _ _ _ _ (get_apic_id_run _ _ _ _ Hc)).
  rewrite (bind_done _ _ _ _ _ (supports_run _ _ _ _ Hc)). destruct x2.
  - unfold rdmsr. step. by destruct s.
  - rewrite (bind_done _ _ _ _ _ (base_address_run _ _ _ _ Hc)). unfold mmio_read.
    rewrite decide_False by (by apply (oc_mapped _ _ _ _ Hc)). cbn. by destruct (hw_read reg (ldev s)).
Qed.

Context `{!LapicLaws V}.

Lemma on_cpu_dev s id x2 base d :
  on_cpu s id x2 base → hw_cpuid 1 d = hw_cpuid 1 (ldev s) → on_cpu (set_ldev d s) id x2 base.
Proof. intros [Hi Hx Hb Hm] Hd. split; cbn; try done. by rewrite Hd. Qed.

Lemma cpuid_reg_write l x2 r v d : 0 ≤ r < 0x1000 → hw_cpuid l (reg_write x2 r v d) = hw_cpuid l d.
Proof.
  intros Hr. destruct x2; [|apply cpuid_write]. apply cpuid_wrmsr. right. left. rewrite Z.shiftr_div_pow2 by lia.
  assert (0 ≤ r / 2 ^ 4 < 0x100) by lia_div. rewrite w32_small by lia. lia.
Qed.

Lemma command_msr v : kernel_msr 0x830 v.
Proof. right. left. lia. Qed.
Lemma base_msr b c : kernel_msr IA32_APIC_BASE (if c : bool then Z.lor (Z.lor b 0x800) (Z.shiftl 1 10) else Z.lor b 0x800).
Proof.
  right. right. split; [done|]. change 0x800 with (2 ^ 11). change (Z.shiftl 1 10) with (2 ^ 10). destruct c; rewrite !Z.lor_spec, !Z.pow2_bits_eqb by lia; cbn.
  - by rewrite orb_true_r.
  - by rewrite orb_true_r.
Qed.
Lemma cpuid_reg_read l x2 r d : hw_cpuid l (reg_read x2 r d).2 = hw_cpuid l d.
Proof. destruct x2; [done|apply cpuid_read]. Qed.

(** ** Sending an interrupt to another processor *)

(** One poll of the command register: its low word, and the device after it. *)
Definition icr_low (d : V) : Z := w32 (hw_read LAPIC_REG_INTERRUPT_COMMAND d).1.
Definition icr_poll (d : V) : V :=
  (hw_read (LAPIC_REG_INTERRUPT_COMMAND + 0x10) (hw_read LAPIC_REG_INTERRUPT_COMMAND d).2).2.
Definition pending (d : V) : Prop := ipi_deliv_status (icr_low d) ≠ 0.

Lemma read_icr_run s id base :
  on_cpu s id false base → ∃ high, read_icr s = Done (Z.lor (icr_low (ldev s)) (Z.shiftl (w32 high) 32), set_ldev (icr_poll (ldev s)) s).
Proof.
  intros Hc. unfold read_icr. rewrite (bind_done _ _ _ _ _ (get_apic_id_run _ _ _ _ Hc)).
  rewrite (bind_done _ _ _ _ _ (supports_run _ _ _ _ Hc)).
  rewrite (bind_done _ _ _ _ _ (read_lapic_register_run _ _ _ _ _ Hc)).
  eexists. erewrite bind_done by (apply (read_lapic_register_run _ id false base); apply on_cpu_dev; [done|by apply cpuid_read]).
  done.
Qed.

Lemma low_word low high : 0 ≤ low < 2 ^ 32 → w32 (Z.lor low (Z.shiftl high 32)) = low.
Proof.
  intros Hl. rewrite Z.lor_comm, Z.shiftl_mul_pow2, (lor_disjoint _ low 32) by (try apply Z.mod_mul; lia).
  unfold w32. rewrite Z.add_comm, Z.mod_add, Z.mod_small by lia. done.
Qed.

Lemma wait_delivery_run k fuel s id base :
  on_cpu s id false base →
  (∀ i, (i < k)%nat → pending (Nat.iter i icr_poll (ldev s))) → ¬ pending (Nat.iter k icr_poll (ldev s)) → (k < fuel)%nat →
  wait_delivery fuel s = Done (tt, set_ldev (Nat.iter (S k) icr_poll (ldev s)) s).
Proof.
  revert fuel s. induction k as [|k IH]; intros fuel s Hc Hp Hn Hf; (destruct fuel as [|fuel]; [lia|]); cbn [wait_delivery].
  all: destruct (read_icr_run s id base Hc) as (high & E1); rewrite (bind_done _ _ _ _ _ E1), low_word by apply w32_range.
  - by rewrite decide_False.
  - assert (pending (ldev s)) as Hp0 by (apply (Hp 0%nat); lia). rewrite decide_True by exact Hp0.
    rewrite (IH fuel (set_ldev (icr_poll (ldev s)) s)).
    + by rewrite (Nat.iter_succ_r (S k) icr_poll (ldev s)).
    + apply on_cpu_dev; [done|]. unfold icr_poll. by rewrite !cpuid_read.
    + intros i Hi. cbn [ldev set_ldev]. rewrite <- Nat.iter_succ_r. apply Hp. lia.
    + cbn [ldev set_ldev]. by rewrite <- Nat.iter_succ_r.
    + lia.
Qed.

Lemma wait_delivery_pending fuel s id base :
  on_cpu s id false base → (∀ i, pending (Nat.iter i icr_poll (ldev s))) → wait_delivery fuel s = OutOfFuel.
Proof.
  revert s. induction fuel as [|fuel IH]; intros s Hc Hp; cbn [wait_delivery]; [done|].
  destruct (read_icr_run s id base Hc) as (high & E1). rewrite (bind_done _ _ _ _ _ E1), low_word by apply w32_range.
  rewrite decide_True by exact (Hp 0%nat). apply IH.
  - apply on_cpu_dev; [done|]. unfold icr_poll. by rewrite !cpuid_read.
  - intros i. cbn [ldev set_ldev]. rewrite <- Nat.iter_succ_r. apply Hp.
Qed.
(** The two words of a command for the memory-mapped registers. *)
Lemma command_words dest c : 0 ≤ dest < 256 → 0 ≤ c < 2 ^ 32 →
  w32 (Z.lor c (w64 (Z.shiftl dest 56))) = c ∧ w32 (Z.shiftr (Z.lor c (w64 (Z.shiftl dest 56))) 32) = dest * 2 ^ 24.
Proof.
  intros Hd Hc. rewrite Z.shiftl_mul_pow2, w64_small by lia.
  replace (dest * 2 ^ 56) with (Z.shiftl (dest * 2 ^ 24) 32) by (rewrite Z.shiftl_mul_pow2 by lia; lia).
  rewrite low_word by done. split; [done|]. rewrite Z.shiftr_lor, Z.shiftr_shiftl_l by lia. cbn [Z.sub].
  rewrite Z.shiftr_div_pow2, Z.div_small, Z.lor_0_l, Z.shiftl_0_r by lia. apply w32_small. lia.
Qed.

(** The device once the command is given to it: in x2APIC mode one register
    takes command and destination; otherwise the word with the destination
    comes before the one that starts the delivery. *)
Definition commanded (x2 : bool) (dest c : Z) (d : V) : V :=
  if x2 then hw_wrmsr 0x830 (c + 2 ^ 32 * dest) d
  else hw_write LAPIC_REG_INTERRUPT_COMMAND c (hw_write (LAPIC_REG_INTERRUPT_COMMAND + 0x10) (dest * 2 ^ 24) d).

Lemma send_ipi_commands fuel s id x2 base dest c :
  on_cpu s id x2 base → 0 ≤ c < 2 ^ 32 → 0 ≤ dest < (if x2 then 2 ^ 32 else 256) →
  send_ipi fuel dest c s =
    (if x2 then mret tt else wait_delivery fuel) (set_ldev (commanded x2 dest c (ldev s)) s).
Proof.
  intros Hc Hcmd Hd. unfold send_ipi. rewrite (bind_done _ _ _ _ _ (get_apic_id_run _ _ _ _ Hc)).
  rewrite (bind_done _ _ _ _ _ (supports_run _ _ _ _ Hc)). cbv zeta.
  set (full := Z.lor _ _).
  assert (write_icr full s = Done (tt, set_ldev (commanded x2 dest c (ldev s)) s)) as Ew.
  { unfold write_icr. rewrite (bind_done _ _ _ _ _ (get_apic_id_run _ _ _ _ Hc)).
    rewrite (bind_done _ _ _ _ _ (supports_run _ _ _ _ Hc)). destruct x2.
    - unfold commanded, wrmsr. assert (full = c + 2 ^ 32 * dest) as ->; [|done]. unfold full.
      rewrite Z.shiftl_mul_pow2, w64_small, Z.lor_comm, (lor_disjoint _ c 32) by (try apply Z.mod_mul; lia). lia.
    - destruct (command_words dest c Hd Hcmd) as [El Eh]. cbv zeta. unfold full. rewrite El, Eh.
      rewrite (bind_done _ _ _ _ _ (write_lapic_register_run _ _ _ _ _ _ Hc)).
      erewrite write_lapic_register_run by (apply on_cpu_dev; [exact Hc|by apply cpuid_write]). done. }
  rewrite (bind_done _ _ _ _ _ Ew).
  rewrite (bind_done _ _ _ x2 (set_ldev (commanded x2 dest c (ldev s)) s)).
  - by destruct x2.
  - apply (supports_run _ id x2 base). apply on_cpu_dev; [done|]. destruct x2; cbn; rewrite ?cpuid_wrmsr, ?cpuid_write; auto using command_msr.
Qed.

(** C33: [send_ipi] gives the device the whole command for the destination,
    the word that starts the delivery last.  In x2APIC mode it returns at
    once.  Otherwise it returns as soon as a poll finds the delivery done,
    however late that is, and waits for ever exactly when none does. *)
Theorem send_ipi_waits_for_delivery s id x2 base dest c :
  on_cpu s id x2 base → 0 ≤ c < 2 ^ 32 → 0 ≤ dest < (if x2 then 2 ^ 32 else 256) →
  let d := commanded x2 dest c (ldev s) in
  if x2 then ∀ fuel, send_ipi fuel dest c s = Done (tt, set_ldev d s)
  else
    (∀ k, (∀ i, (i < k)%nat → pending (Nat.iter i icr_poll d)) → ¬ pending (Nat.iter k icr_poll d) →
       ∀ fuel, (k < fuel)%nat → send_ipi fuel dest c s = Done (tt, set_ldev (Nat.iter (S k) icr_poll d) s)) ∧
    ((∀ i, pending (Nat.iter i icr_poll d)) → ∀ fuel, send_ipi fuel dest c s = OutOfFuel).
Proof.
  intros Hc Hcmd Hd d.
  assert (on_cpu (set_ldev d s) id x2 base) as Hc'.
  { apply on_cpu_dev; [done|]. unfold d. destruct x2; cbn; rewrite ?cpuid_wrmsr, ?cpuid_write; auto using command_msr. }
  pose proof (λ fuel, send_ipi_commands fuel s id x2 base dest c Hc Hcmd Hd) as Hs. fold d in Hs.
  destruct x2; [done|]. split.
  - intros k Hp Hn fuel Hf. rewrite Hs. by erewrite (wait_delivery_run k fuel (set_ldev d s)).
  - intros Hp fuel. rewrite Hs. by eapply wait_delivery_pending.
Qed.
(** ** Switching the controller on *)

(** The writes of [disable_pic]: the two 8259 controllers are initialised and
    then all their lines masked. *)
Definition pic_writes : list (Z * Z) :=
  [(0x20, 0x11); (0xA0, 0x11); (0x80, 0); (0x21, 0x20); (0xA1, 0x28); (0x80, 0); (0x21, 2); (0xA1, 4); (0x80, 0);
   (0x21, 1); (0xA1, 1); (0x80, 0); (0x21, 0xFF); (0xA1, 0xFF)].
Definition outbs (l : list (Z * Z)) (d : V) : V := foldl (λ d pv, hw_outb pv.1 pv.2 d) d l.

Lemma disable_pic_run s : disable_pic s = Done (tt, set_ldev (outbs pic_writes (ldev s)) s).
Proof. unfold disable_pic, iowait, outb. by repeat step. Qed.

Lemma cpuid_outbs l pvs d : hw_cpuid l (outbs pvs d) = hw_cpuid l d.
Proof. unfold outbs. revert d. induction pvs as [|pv pvs IH]; intros d; cbn; [done|]. by rewrite IH, cpuid_outb. Qed.

(** [enable_lapic] of the running processor, when it succeeds: the mode is the
    one the processor supports, the controller is switched on with its
    spurious vector, which has a gate, and the controller's registers can be
    used from then on. *)
Lemma enable_lapic_run s vh id eax ebx ecx edx g :
  hw_cpuid 1 (ldev s) = Some (eax, ebx, ecx, edx) → Z.shiftr ebx 24 = id →
  (Z.to_nat id < length (support_xapic2 s))%nat → (Z.to_nat id < length (lapic_base_address s))%nat →
  Z.land edx 0x100 ≠ 0 → idt (lidt s) !! 255%nat = Some g →
  (∀ pa, ∃ p me, src_map_mmio 0 pa 0x400 true (lmem s, lenv s) = Done (p, me) ∧ p ≠ 0) →
  let x2 := bool_decide (Z.land ecx (Z.shiftl 1 21) ≠ 0) in
  let d := outbs pic_writes (ldev s) in
  let b := Z.lor (hw_rdmsr IA32_APIC_BASE d) 0x800 in
  ∃ s' base, enable_lapic vh id s = Done (0, s') ∧ on_cpu s' id x2 base ∧
    ldev s' = reg_write x2 LAPIC_REG_SPURIOUS_VECTOR 0x1FF
                (hw_wrmsr IA32_APIC_BASE (if x2 then Z.lor b (Z.shiftl 1 10) else b) d) ∧
    lidt s' = mk_idts (<[255%nat := gate_for vh GDT_ENTRY_KERNEL_CODE 0xE g]> (idt (lidt s))) (idtr (lidt s)).
Proof.
  intros Hcpu Hid Hl1 Hl2 Hedx Hg Hmap x2 d b. unfold enable_lapic, check_lapic_availability, cpuid1.
  rewrite bind_assoc, (bind_done _ _ _ _ _ (getf_done (λ s, hw_cpuid 1 (ldev s)) s _ Hcpu)).
  rewrite (bool_decide_eq_true_2 (Z.land edx 0x100 ≠ 0)) by done.
  assert (set_supports id x2 s = Done (tt, mk_lapics (lmem s) (lenv s) (lidt s)
    (<[Z.to_nat id := x2]> (support_xapic2 s)) (lapic_base_address s) (ldev s))) as E1.
  { apply modifyf_done. by rewrite decide_True. }
  rewrite bind_assoc, (bind_done _ _ _ _ _ E1). step. cbn [negb]. set (s1 := mk_lapics _ _ _ _ _ _) in *.
  rewrite (bind_done _ _ _ _ _ (disable_pic_run s1)). unfold rdmsr. step. cbn [ldev set_ldev]. fold d.
  assert (support_xapic2 s1 !! Z.to_nat id = Some x2) as Hx by (by apply list_lookup_insert_eq).
  erewrite bind_done by (apply (getf_done (λ s, support_xapic2 s !! Z.to_nat id)); exact Hx).
  unfold wrmsr. step. cbn [ldev set_ldev].
  assert (hw_cpuid 1 d = Some (eax, ebx, ecx, edx)) as Hd by (unfold d; by rewrite cpuid_outbs).
  set (d2 := hw_wrmsr _ _ _).
  assert (hw_cpuid 1 d2 = Some (eax, ebx, ecx, edx)) as Hd2 by (unfold d2; rewrite cpuid_wrmsr; [done|apply base_msr]).
  assert (∃ s2 base, (if x2 then mret false else
    p ← on_lsys (src_map_mmio 0 (Z.land (if x2 then Z.lor b (Z.shiftl 1 10) else b) 0xFFFFF000) 0x400 true);
    set_base_address id p;; mret (bool_decide (p = 0))) (set_ldev d2 s1) = Done (false, s2) ∧
    on_cpu s2 id x2 base ∧ ldev s2 = d2 ∧ lidt s2 = lidt s) as (s2 & base & E2 & Hc2 & Hd2' & Hi2).
  { destruct x2 eqn:Ex.
    - destruct (lookup_lt_is_Some_2 _ _ Hl2) as [base Hb]. exists (set_ldev d2 s1), base. split; [done|].
      split; [|done]. split; cbn; try done. by exists eax, ebx, ecx, edx.
    - destruct (Hmap (Z.land b 0xFFFFF000)) as (p & [m' e'] & Em & Hp).
      erewrite bind_done by (unfold on_lsys, zoom; cbn [lmem lenv set_ldev s1]; rewrite Em; done).
      eexists _, p. erewrite bind_done.
      2: { apply modifyf_done. cbn. by rewrite decide_True. }
      rewrite ret_run, bool_decide_eq_false_2 by done. split; [done|]. split; [|done].
      split; cbn; try done; [by exists eax, ebx, ecx, edx|by apply list_lookup_insert_eq]. }
  rewrite (bind_done _ _ _ _ _ E2).
  rewrite (bind_done _ _ _ _ _ (write_lapic_register_run _ _ _ _ _ _ Hc2)).
  erewrite bind_done.
  2: { unfold on_lidt, zoom. erewrite set_idt_entry_run by (cbn; rewrite Hi2; exact Hg). done. }
  eexists _, base. split; [done|]. cbn. rewrite Hi2, Hd2'. split_and!; try done.
  destruct Hc2 as [_ H2 H3 H4]. split; cbn; try done. exists eax, ebx, ecx, edx. by rewrite cpuid_reg_write by done.
Qed.
End lapic.

(** ** A device: command words answered after two polls *)

(** Processor 3; [sv_busy] polls still find the delivery pending. *)
Record sim := mk_sim { sv_msr : gmap Z Z; sv_reg : gmap Z Z; sv_busy : Z }.
#[export] Instance sim_dev : LapicDev sim := {|
  hw_cpuid := λ l _, if decide (l = 1) then Some (0, 0x03000000, 0, 0x300)
    else if decide (l = 0x80000001) then Some (0, 0, 0, 0x4100000) else None;
  hw_rdmsr := λ r d, default 0 (sv_msr d !! r);
  hw_wrmsr := λ r v d, mk_sim (<[r := v]> (sv_msr d)) (sv_reg d) (sv_busy d);
  hw_outb := λ _ _ d, d;
  hw_read := λ r d,
    let v := default 0 (sv_reg d !! r) in
    if decide (r = 0x300) then (if decide (sv_busy d > 0) then (Z.lor v 0x1000, mk_sim (sv_msr d) (sv_reg d) (sv_busy d - 1)) else (v, d))
    else (v, d);
  hw_write := λ r v d, mk_sim (sv_msr d) (<[r := v]> (sv_reg d)) (if decide (r = 0x300) then 2 else sv_busy d);
|}.
#[export] Instance sim_laws : LapicLaws sim.
Proof. split; intros; cbn; by repeat case_decide. Qed.
Definition lapics0 : lapics sim unit :=
  mk_lapics ∅ tt idts0 (replicate 32 false) (replicate 32 0xffff800000003000) (mk_sim ∅ ∅ 0).

(** INIT to processor 1: two polls find the delivery pending. *)
Lemma send_ipi_waits_for_delivery_witness :
  let d := commanded false 1 0xC500 (ldev lapics0) in
  (∀ k, (∀ i, (i < k)%nat → pending (Nat.iter i icr_poll d)) → ¬ pending (Nat.iter k icr_poll d) →
     ∀ fuel, (k < fuel)%nat → send_ipi fuel 1 0xC500 lapics0 = Done (tt, set_ldev (Nat.iter (S k) icr_poll d) lapics0)) ∧
  ((∀ i, pending (Nat.iter i icr_poll d)) → ∀ fuel, send_ipi fuel 1 0xC500 lapics0 = OutOfFuel).
Proof.
  refine (send_ipi_waits_for_delivery lapics0 3 false 0xffff800000003000 1 0xC500 _ _ _); try done.
  split; try done. by exists 0, 0x03000000, 0, 0x300.
Defined.
