(* ===== verification/Timer.v ===== *)
(** * Timers (kernel/arch/x86-64/timer/hpet.c, apic_timer.c, timer.c)

    The HPET gives the time since boot and the delays; the timer of the local
    controller wakes the scheduler.  Durations are computed in [double]. *)
From S2P Require Import Prelude.
From S2P Require Import Double.
From S2P Require Import Cpu.
From S2P Require Import Layout.
From S2P Require Import Libc.
From S2P Require Import Tty.
From S2P Require Import Printf.
From S2P Require Import Bytes.
From S2P Require Import Acpi.
From S2P Require Import Ioapic.
From S2P Require Import Idt.
From S2P Require Import Lapic.

(** The registers of the HPET, 64 bits each, by index.  A read can change the
    device: the counter runs. *)
Class HpetDev (W : Type) := {
  hp_read : Z → W → Z * W;
  hp_write : Z → Z → W → W;
}.

(** The local controllers with the interrupt table and memory; the tables of
    the firmware; the I/O controller; the processors; and the variables of
    the timers: [hpet_base_addr], [hpet_period], [timer_count] and [period]. *)
Record timers (V W U E : Type) := mk_timers {
  tlap : lapics V E;
  t_rsdt : Z; t_xsdt : Z;
  t_sel : Z; t_win : Z; t_cores : Z; t_io : U;
  t_cpus : cpus;
  hpet_base_addr : Z; hpet_period : Z; timer_count : Z; hpet : W;
  period : Z;
}.
Arguments mk_timers {V W U E}.
Arguments tlap {V W U E}.
Arguments t_rsdt {V W U E}.
Arguments t_xsdt {V W U E}.
Arguments t_sel {V W U E}.
Arguments t_win {V W U E}.
Arguments t_cores {V W U E}.
Arguments t_io {V W U E}.
Arguments t_cpus {V W U E}.
Arguments hpet_base_addr {V W U E}.
Arguments hpet_period {V W U E}.
Arguments timer_count {V W U E}.
Arguments hpet {V W U E}.
Arguments period {V W U E}.

Definition GENERAL_CAPABILTIES_REG : Z := 0.
Definition GENERAL_CONFIGURATION_REG : Z := 2.
Definition MAIN_COUNTER_VALUE_REG : Z := 30.
Definition TIMER_CONFIG_REG (n : Z) : Z := 32 + 4 * n.
Definition TIMER_COMPARATOR_REG (n : Z) : Z := 33 + 4 * n.
Definition HPET_BASE_INT_VEC : Z := 0x30.
Definition LAPIC_REG_LVT_TIMER : Z := 0x320.
Definition LAPIC_REG_INITIAL_COUNT : Z := 0x380.
Definition LAPIC_REG_CURRENT_COUNT : Z := 0x390.
Definition CALIBRATION_DURATION : Z := 5.
Definition UINT32_MAX : Z := 2 ^ 32 - 1.
Definition DEST_LOGICAL : Z := 1.

(** [struct hpet_acpi]: the offset of [base_addr.addr]. *)
Definition hpet_acpi_addr : Z := 44.

(** [union timer_config] and [union lvt_timer_entry]. *)
Definition cf_int_route_cnf (raw : Z) : Z := field 9 5 raw.
Definition cf_per_int_cap (raw : Z) : Z := field 4 1 raw.
Definition cf_int_route_cap (raw : Z) : Z := field 32 32 raw.
Definition set_int_route_cnf (v : Z) : Z → Z := set_field 9 5 v.
Definition set_int_enb_cnf (v : Z) : Z → Z := set_field 2 1 v.
Definition set_per_int_cnf (v : Z) : Z → Z := set_field 3 1 v.
Definition set_val_set_cnf (v : Z) : Z → Z := set_field 6 1 v.
Definition set_lvt_vector (v : Z) : Z → Z := set_field 0 8 v.
Definition set_lvt_masked (v : Z) : Z → Z := set_field 16 1 v.
Definition set_lvt_mode (v : Z) : Z → Z := set_field 17 2 v.

(** A double result stored in a [u64]; out of range it is undefined. *)
Definition d_u64 {S} (x : dbl) : M S Z := getf (λ _, d_to_u64 x).
Definition E6 : dbl := d_of_Z 1000000.

Section timers.
Context {V W U E : Type} `{!LapicDev V, !HpetDev W, !IoApicDev U, !MemSource E}.
Abbreviation TM := (M (timers V W U E)).
Implicit Type s : timers V W U E.
(** The APIC id of the running processor; the addresses of [kernel_vmm] and of the string "HPET";
    the addresses of the stubs of vectors 0x30 and up and of vector 0x40; and
    the polls granted to a waiting loop. *)
Context (cpu kernel_vmm hpet_sig : Z) (hpet_vec_handler : list Z) (vector_handler_0x40 : Z) (polls : nat).

Definition set_hpet (d : W) s := mk_timers (tlap s) (t_rsdt s) (t_xsdt s) (t_sel s) (t_win s) (t_cores s) (t_io s)
  (t_cpus s) (hpet_base_addr s) (hpet_period s) (timer_count s) d (period s).
Definition set_hpet_vars (base per cnt : Z) s := mk_timers (tlap s) (t_rsdt s) (t_xsdt s) (t_sel s) (t_win s) (t_cores s)
  (t_io s) (t_cpus s) base per cnt (hpet s) (period s).
Definition set_period (p : Z) s := mk_timers (tlap s) (t_rsdt s) (t_xsdt s) (t_sel s) (t_win s) (t_cores s) (t_io s)
  (t_cpus s) (hpet_base_addr s) (hpet_period s) (timer_count s) (hpet s) p.
Definition set_tlap (l : lapics V E) s := mk_timers l (t_rsdt s) (t_xsdt s) (t_sel s) (t_win s) (t_cores s) (t_io s)
  (t_cpus s) (hpet_base_addr s) (hpet_period s) (timer_count s) (hpet s) (period s).
Definition set_tcpus (c : cpus) s := mk_timers (tlap s) (t_rsdt s) (t_xsdt s) (t_sel s) (t_win s) (t_cores s) (t_io s)
  c (hpet_base_addr s) (hpet_period s) (timer_count s) (hpet s) (period s).

Definition on_lapics {A} : M (lapics V E) A → TM A := zoom tlap set_tlap.
Definition on_tcpus {A} : CPU A → TM A := zoom t_cpus set_tcpus.
(** The I/O controller's state inside the timers' state. *)
Definition io_of s : ioapic U E :=
  mk_ioapic (lmem (tlap s)) (lenv (tlap s)) (t_rsdt s) (t_xsdt s) (t_sel s) (t_win s) (t_cores s) (t_io s).
Definition put_io (i : ioapic U E) s :=
  mk_timers (mk_lapics (imem i) (ienv i) (lidt (tlap s)) (support_xapic2 (tlap s)) (lapic_base_address (tlap s)) (ldev (tlap s)))
    (irsdt i) (ixsdt i) (io_apic_reg_sel i) (io_apic_win i) (core_available i) (idev i)
    (t_cpus s) (hpet_base_addr s) (hpet_period s) (timer_count s) (hpet s) (period s).
Definition on_ioapic {A} : M (ioapic U E) A → TM A := zoom io_of put_io.

(** ** hpet.c *)

Definition read_hpet_register (reg : Z) : TM Z := λ s,
  if decide (hpet_base_addr s = 0) then Fault else
  let '(v, d) := hp_read reg (hpet s) in Done (w64 v, set_hpet d s).
Definition write_hpet_register (reg value : Z) : TM unit := λ s,
  if decide (hpet_base_addr s = 0) then Fault else Done (tt, set_hpet (hp_write reg value (hpet s)) s).

Definition enable_hpet : TM unit :=
  config ← read_hpet_register GENERAL_CONFIGURATION_REG;
  write_hpet_register GENERAL_CONFIGURATION_REG (Z.lor config 1).

Definition configure_timer (timer conf : Z) : TM unit :=
  n ← gets timer_count;
  if decide (timer >= n) then mret tt else write_hpet_register (TIMER_CONFIG_REG timer) conf.

Definition poll_hpet : TM Z := read_hpet_register MAIN_COUNTER_VALUE_REG.

Definition uptime : TM Z :=
  c ← poll_hpet;
  p ← gets hpet_period;
  let femto := c *64 p in
  d_u64 (d_div (d_of_Z femto) E6).

(** [while (poll_hpet() > target)] and [while (poll_hpet() < target)]. *)
Fixpoint wait_above (fuel : nat) (target : Z) : TM unit :=
  match fuel with
  | O => out_of_fuel
  | S fuel => c ← poll_hpet; if decide (c > target) then wait_above fuel target else mret tt
  end.
Fixpoint wait_below (fuel : nat) (target : Z) : TM unit :=
  match fuel with
  | O => out_of_fuel
  | S fuel => c ← poll_hpet; if decide (c < target) then wait_below fuel target else mret tt
  end.

Definition sleep_polled_hpet (femto : Z) : TM unit :=
  p ← gets hpet_period;
  if decide (p = 0) then fault else
  let cycle := femto / p in
  main_counter ← poll_hpet;
  let target := main_counter +64 cycle in
  (if decide (main_counter > target) then wait_above polls target else mret tt);;
  wait_below polls target.

(** The search of [arm_hpet_timer] for a line, from [irq_used] on. *)
Fixpoint skip_lines (fuel : nat) (irq_used available_irq : Z) : TM (Z * Z) :=
  if decide (Z.land available_irq 1 = 0) then
    match fuel with
    | O => out_of_fuel
    | S fuel => skip_lines fuel (w8 (irq_used + 1)) (Z.shiftr available_irq 1)
    end
  else mret (irq_used, available_irq).
Fixpoint find_line (fuel : nat) (timer irq_used available_irq : Z) : TM (Z * Z) :=
  if decide (available_irq = 0) then mret (irq_used, available_irq) else
  match fuel with
  | O => out_of_fuel
  | S fuel =>
      r ← skip_lines 32 irq_used available_irq;
      let '(irq_used, available_irq) := r in
      v ← on_ioapic (set_irq irq_used (w8 (0x30 + timer)) DEST_LOGICAL 0xFF false);
      if decide (v = 0) then mret (irq_used, available_irq)
      else find_line fuel timer irq_used available_irq
  end.

(** The route of the timer's interrupt; [None] when no line is left. *)
Definition route_timer (timer config : Z) : TM (option Z) :=
  if decide (cf_int_route_cnf config = 0) then
    r ← find_line polls timer 9 (Z.shiftr (cf_int_route_cap config) 9);
    let '(irq_used, available_irq) := r in
    if decide (available_irq = 0) then mret None
    else mret (Some (set_int_route_cnf irq_used config))
  else mret (Some config).

Definition arm_hpet_timer (timer femto : Z) (periodic : bool) : TM Z :=
  on_tcpus (push_off cpu);;
  n ← gets timer_count;
  if decide (timer >= n) then mret 1 else
  p ← gets hpet_period;
  if decide (p = 0) then fault else
  let cycle := femto / p in
  config ← read_hpet_register (TIMER_CONFIG_REG timer);
  r ← route_timer timer config;
  match r with
  | None => mret 1
  | Some config =>
      let config := set_int_enb_cnf 1 config in
      if periodic && bool_decide (cf_per_int_cap config = 0) then mret 1 else
      let config := set_val_set_cnf (if periodic then 1 else 0) (set_per_int_cnf (if periodic then 1 else 0) config) in
      c ← poll_hpet;
      write_hpet_register (TIMER_COMPARATOR_REG timer) (c +64 cycle);;
      write_hpet_register (TIMER_CONFIG_REG timer) config;;
      c ← poll_hpet;
      write_hpet_register (TIMER_COMPARATOR_REG timer) (c +64 cycle);;
      (if periodic then write_hpet_register (TIMER_COMPARATOR_REG timer) cycle else mret tt);;
      on_tcpus (pop_off cpu);;
      mret 0
  end.

(** The gates of the timers; the array has 32 entries. *)
Fixpoint hpet_gates (n : nat) (i : Z) : TM unit :=
  match n with
  | O => mret tt
  | S n =>
      h ← getf (λ _, hpet_vec_handler !! Z.to_nat i);
      on_lapics (on_lidt (set_idt_entry (w8 (HPET_BASE_INT_VEC + i)) h GDT_ENTRY_KERNEL_CODE
        (Z.lor (FLAGS_DPL 0) (FLAGS_GATE_TYPE 0xE))));;
      hpet_gates n (i + 1)
  end.


Definition on_tsys {A} : M (mem * E) A → TM A := λ f s, on_lapics (on_lsys f) s.

Definition setup_hpet : TM Z :=
  header ← on_ioapic (on_acpi (find_table hpet_sig));
  ok ← on_ioapic (on_acpi (validate_sdt header));
  if negb ok then mret 1 else
  pa ← on_ioapic (on_imem (ld64 (header + hpet_acpi_addr)));
  base ← on_tsys (src_map_mmio kernel_vmm pa 0x400 true);
  modify (λ s, set_hpet_vars base (hpet_period s) (timer_count s) s);;
  if decide (base = 0) then mret 1 else
  general_cap ← read_hpet_register GENERAL_CAPABILTIES_REG;
  modify (λ s, set_hpet_vars (hpet_base_addr s) (w32 (Z.shiftr general_cap 32))
    (w8 (Z.land (Z.shiftr general_cap 8) 0x1F + 1)) s);;
  enable_hpet;;
  n ← gets timer_count;
  hpet_gates (Z.to_nat n) 0;;
  mret 0.

(** ** timer.c: delays *)

Definition nanodelay (nano : Z) : TM unit :=
  femto ← d_u64 (d_mul (d_of_Z nano) E6);
  sleep_polled_hpet femto.
Definition millidelay (milli : Z) : TM unit :=
  nano ← d_u64 (d_mul (d_of_Z milli) E6);
  nanodelay nano.

(** ** apic_timer.c *)

(** A quotient of doubles; by zero it is infinite, and its conversion to an
    integer undefined. *)
Definition div_u64 (x : dbl) (n : Z) : TM Z := if decide (n = 0) then fault else d_u64 (d_div x (d_of_Z n)).

Definition calibrate_apic_timer : TM unit :=
  r ← gets (λ s, hw_cpuid 0x15 (ldev (tlap s)));
  p ← match r with
      | Some (_, _, ecx, _) => div_u64 (d_of_Z (10 ^ 15)) ecx
      | None =>
          entry ← on_lapics (read_lapic_register LAPIC_REG_LVT_TIMER);
          let entry := set_lvt_mode 0 (set_lvt_masked 1 entry) in
          on_lapics (write_lapic_register LAPIC_REG_LVT_TIMER entry);;
          on_lapics (write_lapic_register LAPIC_REG_INITIAL_COUNT UINT32_MAX);;
          millidelay CALIBRATION_DURATION;;
          cycles ← on_lapics (read_lapic_register LAPIC_REG_CURRENT_COUNT);
          div_u64 (d_mul (d_of_Z CALIBRATION_DURATION) (d_of_Z (10 ^ 12))) (UINT32_MAX - cycles)
      end;
  modify (set_period p);;
  on_lapics (on_lidt (set_idt_entry 0x40 vector_handler_0x40 GDT_ENTRY_KERNEL_CODE
    (Z.lor (FLAGS_DPL 0) (FLAGS_GATE_TYPE 0xE)))).

Definition arm_apic_timer (nano : Z) (periodic : bool) : TM unit :=
  p ← gets period;
  (if decide (p = 0) then calibrate_apic_timer else mret tt);;
  p ← gets period;
  cycle ← div_u64 (d_mul (d_of_Z nano) E6) p;
  let cycle := if decide (Z.shiftr cycle 32 ≠ 0) then UINT32_MAX else cycle in
  entry ← on_lapics (read_lapic_register LAPIC_REG_LVT_TIMER);
  let entry := set_lvt_vector 0x40 (set_lvt_masked 0 (set_lvt_mode (if periodic then 1 else 0) entry)) in
  on_lapics (write_lapic_register LAPIC_REG_LVT_TIMER entry);;
  on_lapics (write_lapic_register LAPIC_REG_INITIAL_COUNT (w32 cycle)).

Definition arm_timer (nano : Z) (periodic local : bool) : TM unit :=
  if local then arm_apic_timer nano periodic
  else femto ← d_u64 (d_mul (d_of_Z nano) E6); arm_hpet_timer 0 femto periodic;; mret tt.
End timers.

(** ** The counter *)

Section counter.
Context {V W U E : Type} `{!LapicDev V, !HpetDev W, !IoApicDev U, !MemSource E}.
Implicit Type s : timers V W U E.
Implicit Type d : W.

(** The value the next poll reads, and the device after it. *)
Definition count d : Z := w64 (hp_read MAIN_COUNTER_VALUE_REG d).1.
Definition tick d : W := (hp_read MAIN_COUNTER_VALUE_REG d).2.

Lemma poll_hpet_run s : hpet_base_addr s ≠ 0 → poll_hpet s = Done (count (hpet s), set_hpet (tick (hpet s)) s).
Proof.
  intros Hb. unfold poll_hpet, read_hpet_register, count, tick. rewrite decide_False by done.
  by destruct (hp_read MAIN_COUNTER_VALUE_REG (hpet s)).
Qed.

(** The reading in nanoseconds of the femtoseconds modulo 2^64. *)
Lemma uptime_run s :
  hpet_base_addr s ≠ 0 →
  let ns := (count (hpet s) *64 hpet_period s) / 10 ^ 6 in
  ∃ t, uptime s = Done (t, set_hpet (tick (hpet s)) s) ∧ ns - 1 ≤ t ≤ ns + 2 ∧ 0 ≤ t < 2 ^ 64.
Proof.
  intros Hb ns. unfold uptime. rewrite (bind_done _ _ _ _ _ (poll_hpet_run s Hb)). step. cbn [hpet_period set_hpet].
  cbv beta in ns. pose proof (w64_range (count (hpet s) * hpet_period s)) as Hf.
  set (f := w64 (count (hpet s) * hpet_period s)) in *.
  destruct (d_of_Z_near f Hf) as (z & Hz & Hz0 & Hnear).
  assert (d_is E6 1000000) as He6 by (by apply d_is_of_Z).
  set (t := d_trunc (d_div (d_of_Z f) E6)).
  assert (f / 10 ^ 6 - 1 ≤ t ≤ f / 10 ^ 6 + 2 ∧ 0 ≤ t) as [Ht Ht0].
  { unfold t, d_div. rewrite Hz, He6. pose proof (d_den_pos (d_of_Z f)) as H1. pose proof (d_den_pos E6) as H2.
    set (c := d_den (d_of_Z f) * d_den E6). assert (0 < c) by nia.
    replace (z * d_den (d_of_Z f) * d_den E6) with (z * c) by lia.
    replace (d_den (d_of_Z f) * (1000000 * d_den E6)) with (1000000 * c) by lia.
    change (10 ^ 6) with 1000000. pose proof (Z.div_mod f 1000000 ltac:(lia)). pose proof (Z.mod_pos_bound f 1000000 ltac:(lia)).
    assert (0 ≤ d_trunc (fl (z * c) (1000000 * c))) by (apply fl_trunc_ge; nia).
    split_and!; [|apply fl_trunc_le; nia|done].
    destruct (decide (f / 1000000 = 0)) as [->|]; [lia|apply fl_trunc_ge; nia]. }
  assert (f / 10 ^ 6 < 2 ^ 60) by (apply Z.div_lt_upper_bound; lia).
  exists t. split_and!; try lia; try exact Ht. unfold d_u64. apply (getf_done (λ _, d_to_u64 _)). unfold d_to_u64. fold t.
  rewrite (proj2 (Z.ltb_lt _ _)) by lia. done.
Qed.

(** [uptime] is the time since boot in nanoseconds, off by at most two,
    as long as the counter times its period is below 2^64 femtoseconds. *)
Lemma uptime_nanoseconds s :
  hpet_base_addr s ≠ 0 → 0 ≤ hpet_period s → count (hpet s) * hpet_period s < 2 ^ 64 →
  let ns := count (hpet s) * hpet_period s / 10 ^ 6 in
  ∃ t, uptime s = Done (t, set_hpet (tick (hpet s)) s) ∧ ns - 1 ≤ t ≤ ns + 2.
Proof.
  intros Hb Hp Hlt ns. pose proof (w64_range (hp_read MAIN_COUNTER_VALUE_REG (hpet s)).1) as Hc. fold (count (hpet s)) in Hc.
  destruct (uptime_run s Hb) as (t & Et & Ht & _). rewrite w64_small in Ht by nia. by exists t.
Qed.

(** ** Delays *)

Lemma wait_below_run k fuel target s :
  hpet_base_addr s ≠ 0 → (∀ i, (i < k)%nat → count (Nat.iter i tick (hpet s)) < target) →
  target ≤ count (Nat.iter k tick (hpet s)) → (k < fuel)%nat →
  wait_below fuel target s = Done (tt, set_hpet (Nat.iter (S k) tick (hpet s)) s).
Proof.
  revert fuel s. induction k as [|k IH]; intros fuel s Hb Hlt Hge Hf; (destruct fuel as [|fuel]; [lia|]); cbn [wait_below].
  all: rewrite (bind_done _ _ _ _ _ (poll_hpet_run s Hb)).
  - cbn in Hge. by rewrite decide_False by lia.
  - rewrite decide_True by (apply (Hlt 0%nat); lia). rewrite (IH fuel (set_hpet (tick (hpet s)) s)).
    + by rewrite (Nat.iter_succ_r (S k) tick (hpet s)).
    + done.
    + intros i Hi. cbn [hpet set_hpet]. rewrite <- Nat.iter_succ_r. apply Hlt. lia.
    + cbn [hpet set_hpet]. by rewrite <- Nat.iter_succ_r.
    + lia.
Qed.

Lemma wait_below_stopped fuel target s :
  hpet_base_addr s ≠ 0 → (∀ i, count (Nat.iter i tick (hpet s)) < target) → wait_below fuel target s = OutOfFuel.
Proof.
  revert s. induction fuel as [|fuel IH]; intros s Hb Hlt; cbn [wait_below]; [done|].
  rewrite (bind_done _ _ _ _ _ (poll_hpet_run s Hb)), decide_True by exact (Hlt 0%nat). apply IH; [done|].
  intros i. cbn [hpet set_hpet]. rewrite <- Nat.iter_succ_r. apply Hlt.
Qed.

(** [sleep_polled_hpet] returns at the first poll that finds the counter
    [femto / hpet_period] ticks or more after the start, and never when the
    counter does not get there. *)
Lemma sleep_polled_hpet_waits s femto :
  hpet_base_addr s ≠ 0 → 0 < hpet_period s → 0 ≤ femto → count (hpet s) + femto / hpet_period s < 2 ^ 64 →
  let target := count (hpet s) + femto / hpet_period s in
  let d := tick (hpet s) in
  (∀ k, (∀ i, (i < k)%nat → count (Nat.iter i tick d) < target) → target ≤ count (Nat.iter k tick d) →
     ∀ polls, (k < polls)%nat → sleep_polled_hpet polls femto s = Done (tt, set_hpet (Nat.iter (S k) tick d) s)) ∧
  ((∀ i, count (Nat.iter i tick d) < target) → ∀ polls, sleep_polled_hpet polls femto s = OutOfFuel).
Proof.
  intros Hb Hp Hf Hlt target d.
  assert (0 ≤ femto / hpet_period s) by (apply Z.div_pos; lia).
  pose proof (w64_range (hp_read MAIN_COUNTER_VALUE_REG (hpet s)).1) as Hc. fold (count (hpet s)) in Hc.
  assert (∀ polls, sleep_polled_hpet polls femto s = wait_below polls target (set_hpet d s)) as Hs.
  { intros polls. unfold sleep_polled_hpet. step. rewrite decide_False by lia.
    rewrite (bind_done _ _ _ _ _ (poll_hpet_run s Hb)). cbv zeta.
    rewrite w64_small by lia. rewrite decide_False by lia. by step. }
  split.
  - intros k Hi Hk polls Hpolls. rewrite Hs. by rewrite (wait_below_run k polls target (set_hpet d s)).
  - intros Hi polls. rewrite Hs. by apply wait_below_stopped.
Qed.

(** ** The scheduler's timer *)

Lemma d_u64_run {S} (x : dbl) v (st : S) : d_trunc x = v → v < 2 ^ 64 → d_u64 x st = Done (v, st).
Proof.
  intros Hx Hv. unfold d_u64. apply (getf_done (λ _, d_to_u64 x)). unfold d_to_u64. rewrite Hx.
  by rewrite (proj2 (Z.ltb_lt _ _)) by done.
Qed.

Lemma nano_is nano : 0 ≤ nano → nano * 10 ^ 6 < 2 ^ 53 → d_is (d_mul (d_of_Z nano) E6) (nano * 10 ^ 6).
Proof. intros H0 Hn. apply d_is_mul; [apply d_is_of_Z; lia|by apply d_is_of_Z|lia]. Qed.

Context (cpu vh40 : Z) (polls : nat).

(** The device after the timer is armed with an entry and a count. *)
Definition armed (x2 : bool) (entry cnt : Z) (h : V) : V :=
  reg_write x2 LAPIC_REG_INITIAL_COUNT cnt (reg_write x2 LAPIC_REG_LVT_TIMER entry (reg_read x2 LAPIC_REG_LVT_TIMER h).2).

Lemma cpuid_armed `{!LapicLaws V} l x2 entry cnt (h : V) : hw_cpuid l (armed x2 entry cnt h) = hw_cpuid l h.
Proof. unfold armed. by rewrite !cpuid_reg_write, cpuid_reg_read by done. Qed.

(** Arming the timer of the running processor, once it is calibrated: the
    timer's entry gets vector 0x40, unmasked, in the mode asked for, and the
    count is the duration divided by the period of the timer, exactly, at
    most the largest 32-bit count; nothing else changes. *)
Lemma arm_timer_run `{!LapicLaws V} s nano (periodic : bool) id x2 base :
  on_cpu (tlap s) id x2 base → 0 < period s < 2 ^ 53 → 0 ≤ nano → nano * 10 ^ 6 < 2 ^ 53 →
  let cnt := Z.min (nano * 10 ^ 6 / period s) (2 ^ 32 - 1) in
  ∃ entry, field 0 8 entry = 0x40 ∧ field 16 1 entry = 0 ∧ field 17 2 entry = (if periodic then 1 else 0) ∧
    arm_timer cpu vh40 polls nano periodic true s
      = Done (tt, set_tlap (set_ldev (armed x2 entry cnt (ldev (tlap s))) (tlap s)) s).
Proof.
  intros Hc Hp H0 Hn cnt. unfold arm_timer, arm_apic_timer. step. rewrite decide_False by lia. step. step.
  assert (0 ≤ nano * 10 ^ 6 / period s < 2 ^ 53) as Hq.
  { split; [apply Z.div_pos; lia|apply Z.div_lt_upper_bound; nia]. }
  unfold div_u64. rewrite decide_False by lia.
  erewrite bind_done; [|apply d_u64_run; [apply (d_div_floor _ _ (nano * 10 ^ 6) (period s));
    [by apply nano_is|apply d_is_of_Z; lia|lia|lia]|lia]].
  cbv zeta.
  assert ((if decide (Z.shiftr (nano * 10 ^ 6 / period s) 32 ≠ 0) then UINT32_MAX else nano * 10 ^ 6 / period s) = cnt) as ->.
  { unfold cnt, UINT32_MAX. rewrite Z.shiftr_div_pow2 by lia. destruct (decide (_ ≠ 0)) as [Hs|Hs]; lia_div. }
  assert (0 ≤ cnt < 2 ^ 32) by (unfold cnt; lia).
  erewrite bind_done by (unfold on_lapics, zoom; rewrite (read_lapic_register_run _ _ _ _ _ Hc); done).
  set (entry := set_lvt_vector _ _). exists entry.
  assert (field 0 8 entry = 0x40 ∧ field 16 1 entry = 0 ∧ field 17 2 entry = (if periodic then 1 else 0)) as (F1 & F2 & F3).
  { unfold entry, set_lvt_vector, set_lvt_masked, set_lvt_mode.
    split_and!; rewrite ?field_set, ?field_other, ?field_set by first [lia|destruct periodic; lia]; done. }
  split_and!; try done.
  assert (∀ h : V, hw_cpuid 1 h = hw_cpuid 1 (ldev (tlap s)) → on_cpu (set_ldev h (tlap s)) id x2 base) as Hon
    by (intros h Hd; by apply on_cpu_dev).
  erewrite bind_done.
  2: { unfold on_lapics, zoom. cbn [tlap set_tlap].
       erewrite write_lapic_register_run by (apply Hon; apply cpuid_reg_read). done. }
  unfold on_lapics, zoom. cbn [tlap set_tlap]. rewrite w32_small by done.
  erewrite write_lapic_register_run.
  2: { apply Hon. cbn. by rewrite cpuid_reg_write, cpuid_reg_read by done. }
  done.
Qed.

(** ** Arming a timer of the HPET *)

Lemma push_off_timers s k :
  t_cpus s !! cpu = Some k → on_tcpus (push_off cpu) s = Done (tt, set_tcpus (<[cpu := pushed cpu k]> (t_cpus s)) s).
Proof. intros Hk. unfold on_tcpus, zoom. by rewrite (push_off_run _ _ _ Hk). Qed.

(** A timer that does not exist is refused, and interrupts stay off: the early
    returns have no [pop_off]. *)
Lemma arm_hpet_timer_leaves_interrupts_off s k timer femto (periodic : bool) :
  t_cpus s !! cpu = Some k → timer >= timer_count s →
  arm_hpet_timer cpu polls timer femto periodic s = Done (1, set_tcpus (<[cpu := pushed cpu k]> (t_cpus s)) s).
Proof.
  intros Hk Ht. unfold arm_hpet_timer. rewrite (bind_done _ _ _ _ _ (push_off_timers s k Hk)). step.
  cbn [timer_count set_tcpus]. by rewrite decide_True.
Qed.

(** [skip_lines] goes to the first line that is allowed. *)
Lemma skip_lines_run fuel s irq av n :
  0 ≤ n < Z.of_nat fuel → Z.testbit av n = true → (∀ m, 0 ≤ m < n → Z.testbit av m = false) → 0 ≤ irq → irq + n < 256 →
  skip_lines fuel irq av s = Done ((irq + n, Z.shiftr av n), s).
Proof.
  intros Hn Ht Hf H0 H1. assert (∀ a, (Z.land a 1 = 0) ↔ Z.testbit a 0 = false) as Hb.
  { intros a. change 1 with (Z.ones 1). rewrite Z.land_ones by lia. change (2 ^ 1) with 2.
    rewrite Zmod_odd, <- Z.bit0_odd. destruct (Z.testbit a 0); done. }
  revert irq av n Hn Ht Hf H0 H1. induction fuel as [|fuel IH]; intros irq av n Hn Ht Hf H0 H1; [lia|]. cbn [skip_lines].
  destruct (decide (n = 0)) as [->|Hn0].
  - rewrite decide_False by (rewrite Hb; congruence). by rewrite Z.add_0_r, Z.shiftr_0_r.
  - rewrite decide_True by (rewrite Hb; apply Hf; lia). rewrite w8_small by lia.
    rewrite (IH (irq + 1) (Z.shiftr av 1) (n - 1)); try lia.
    + rewrite Z.shiftr_shiftr by lia. do 3 f_equal; [lia|f_equal; lia].
    + rewrite Z.shiftr_spec by lia. replace (n - 1 + 1) with n by lia. done.
    + intros m Hm. rewrite Z.shiftr_spec by lia. apply Hf. lia.
Qed.

(** A line that is already routed is refused and nothing changes. *)
Lemma set_irq_busy s irq v dest mode masked :
  t_sel s ≠ 0 → rd_vector (dev_read (w8 (0x10 + irq * 2)) (t_io s)) ≠ 0 →
  on_ioapic (set_irq irq v dest mode masked) s = Done (-1, s).
Proof.
  intros Hs Hv. unfold on_ioapic, zoom, set_irq.
  rewrite (bind_done _ _ _ (dev_read (w8 (0x10 + irq * 2)) (t_io s)) (io_of s)).
  - rewrite decide_True by done. unfold put_io. cbn. by destruct s as [[] ? ? ? ? ? ? ? ? ? ? ? ?].
  - unfold read_ioapic_register. rewrite (bind_done get _ _ _ _ eq_refl). by rewrite decide_False.
Qed.

Lemma find_line_busy fuel s timer irq av n :
  0 ≤ n < 32 → Z.testbit av n = true → (∀ m, 0 ≤ m < n → Z.testbit av m = false) → 0 ≤ irq → irq + n < 256 →
  t_sel s ≠ 0 → rd_vector (dev_read (w8 (0x10 + (irq + n) * 2)) (t_io s)) ≠ 0 →
  find_line fuel timer irq av s = OutOfFuel.
Proof.
  revert irq av n. induction fuel as [|fuel IH]; intros irq av n Hn Ht Hf H0 H1 Hs Hv; cbn [find_line].
  all: rewrite decide_False by (intros ->; by rewrite Z.bits_0 in Ht).
  { done. }
  rewrite (bind_done _ _ _ _ _ (skip_lines_run 32 s irq av n ltac:(lia) Ht Hf H0 H1)).
  rewrite (bind_done _ _ _ _ _ (set_irq_busy s (irq + n) _ _ _ _ Hs Hv)), decide_False by lia.
  apply (IH (irq + n) (Z.shiftr av n) 0); try lia; try done; rewrite ?Z.add_0_r; try done.
  - by rewrite Z.shiftr_spec, Z.add_0_l by lia.
Qed.

(** When the first line a timer of the HPET may use is already routed,
    [arm_hpet_timer] asks for the same line for ever. *)
Lemma arm_hpet_timer_never_ends s k timer femto (periodic : bool) v n :
  t_cpus s !! cpu = Some k → hpet_base_addr s ≠ 0 → timer < timer_count s → 0 < hpet_period s →
  (hp_read (TIMER_CONFIG_REG timer) (hpet s)).1 = v → 0 ≤ v < 2 ^ 64 → cf_int_route_cnf v = 0 →
  0 ≤ n < 23 → Z.testbit (cf_int_route_cap v) (9 + n) = true →
  (∀ m, 0 ≤ m < n → Z.testbit (cf_int_route_cap v) (9 + m) = false) →
  t_sel s ≠ 0 → rd_vector (dev_read (0x10 + (9 + n) * 2) (t_io s)) ≠ 0 →
  ∀ polls, arm_hpet_timer cpu polls timer femto periodic s = OutOfFuel.
Proof.
  intros Hk Hb Ht Hp Hv Hvr Hr Hn Hbit Hlow Hs Hbusy fuel. unfold arm_hpet_timer.
  destruct (hp_read (TIMER_CONFIG_REG timer) (hpet s)) as [v' d'] eqn:Er. cbn in Hv. subst v'.
  rewrite (bind_done _ _ _ _ _ (push_off_timers s k Hk)). step. cbn [timer_count set_tcpus]. rewrite decide_False by lia.
  step. cbn [hpet_period set_tcpus]. rewrite decide_False by lia. cbv zeta.
  erewrite bind_done.
  2: { unfold read_hpet_register. cbn [hpet_base_addr hpet set_tcpus]. rewrite decide_False by done.
       rewrite Er. reflexivity. }
  rewrite w64_small by done. unfold route_timer. rewrite decide_True by done.
  unfold mbind at 1, M_bind at 1. unfold mbind at 1, M_bind at 1.
  rewrite (find_line_busy fuel _ timer 9 _ n); try done; try lia.
  - rewrite Z.shiftr_spec by lia. by rewrite Z.add_comm.
  - intros m Hm. rewrite Z.shiftr_spec by lia. rewrite Z.add_comm. by apply Hlow.
  - cbn. by rewrite w8_small by lia.
Qed.
End counter.

(** ** Examples *)

(** A counter that advances by 7 at every poll, with a period of 10^7 fs. *)
Record clock := mk_clock { ck_now : Z; ck_regs : gmap Z Z }.
#[export] Instance clock_dev : HpetDev clock := {|
  hp_read := λ r c, if decide (r = 30) then (ck_now c, mk_clock (ck_now c + 7) (ck_regs c)) else (default 0 (ck_regs c !! r), c);
  hp_write := λ r v c, mk_clock (ck_now c) (<[r := v]> (ck_regs c));
|}.
Definition timers_at (now : Z) : timers sim clock (gmap Z Z) unit :=
  mk_timers lapics0 0 0 4096 4112 1 {[0x22 := 0x30]} ex_cpus 0xffff800000004000 10000000 3 (mk_clock now {[32 := 2 ^ 41 + 2 ^ 42]}) 10000000.

Lemma uptime_nanoseconds_witness :
  ∃ t, uptime (timers_at 12345) = Done (t, set_hpet (mk_clock 12352 {[32 := 2 ^ 41 + 2 ^ 42]}) (timers_at 12345)) ∧
    123450 - 1 ≤ t ≤ 123450 + 2.
Proof. by refine (uptime_nanoseconds (timers_at 12345) _ _ _). Defined.

(** The time since boot is computed modulo 2^64 femtoseconds: after about five
    hours it starts again from zero. *)
Lemma uptime_wraps :
  ∃ t t' s s', uptime (timers_at 1844674407370) = Done (t, s) ∧ uptime (timers_at 1844674407371) = Done (t', s') ∧
    t = 18446744073700 ∧ t' = 0.
Proof. eexists _, _, _, _. vm_compute. repeat split. Qed.

Lemma sleep_polled_hpet_waits_witness :
  (∀ k, (∀ i, (i < k)%nat → count (Nat.iter i tick (mk_clock 107 {[32 := 2 ^ 41 + 2 ^ 42]})) < 1100) →
     1100 ≤ count (Nat.iter k tick (mk_clock 107 {[32 := 2 ^ 41 + 2 ^ 42]})) →
     ∀ polls, (k < polls)%nat → sleep_polled_hpet polls 10000000000 (timers_at 100)
       = Done (tt, set_hpet (Nat.iter (S k) tick (mk_clock 107 {[32 := 2 ^ 41 + 2 ^ 42]})) (timers_at 100))) ∧
  ((∀ i, count (Nat.iter i tick (mk_clock 107 {[32 := 2 ^ 41 + 2 ^ 42]})) < 1100) →
     ∀ polls, sleep_polled_hpet polls 10000000000 (timers_at 100) = OutOfFuel).
Proof. by refine (sleep_polled_hpet_waits (timers_at 100) 10000000000 _ _ _ _). Defined.

(** A millisecond on a timer with a period of 10 ns. *)
Lemma arm_timer_run_example :
  ∃ entry, field 0 8 entry = 0x40 ∧ field 16 1 entry = 0 ∧ field 17 2 entry = 0 ∧
    arm_timer 1 0 0 1000000 false true (timers_at 0)
      = Done (tt, set_tlap (set_ldev (armed false entry 100000 (mk_sim ∅ ∅ 0)) lapics0) (timers_at 0)).
Proof.
  refine (arm_timer_run 1 0 0 (timers_at 0) 1000000 false 3 false 0xffff800000003000 _ _ _ _); try done.
  split; try done. by exists 0, 0x03000000, 0, 0x300.
Defined.

(** Line 9 is taken: the timer never tries line 10. *)
Lemma arm_hpet_timer_never_ends_witness :
  arm_hpet_timer 1 1000 0 1000 false (timers_at 0) = OutOfFuel.
Proof.
  refine (arm_hpet_timer_never_ends 1 (timers_at 0) (mk_cpu 1 0 1 0 0 true) 0 1000 false (2 ^ 41 + 2 ^ 42) 0 _ _ _ _ _ _ _ _ _ _ _ _ 1000%nat);
    try done.
  lia.
Defined.
