(* ===== verification/Process.v ===== *)
(** * Processes and threads (kernel/process.c, process.h, x86-64.h)

    A process has an address space, a growable array of threads and a place
    in the list of processes; a thread has the register frame it resumes
    with, a stack area and its place in the run queue.  Creating a process
    loads the segments of an ELF image into its address space, page by page
    as the page faults ask for them.  Structures are kept by address, each
    kind in its own map; the run queue, the address spaces and the arrays of
    threads share the kernel heap. *)
From S2P Require Import Prelude.
From S2P Require Import Interfaces.
From S2P Require Import Cpu.
From S2P Require Import RbTree.
From S2P Require Import Cfs.
From S2P Require Import Spinlock.
From S2P Require Import Lst.
From S2P Require Import Layout.
From S2P Require Import Vm.
From S2P Require Import Vmm.
From S2P Require Import Libc.
From S2P Require Import ThreadArray.
From S2P Require Import Bytes.
From S2P Require Import Tty.
From S2P Require Import Elf.
From S2P Require Import Ioapic.
From S2P Require Import Idt.
From S2P Require Import Lapic.
From S2P Require Import Timer.

(** ** Register frames *)

(** [struct registers]; the [xmm] registers as pairs of words. *)
Record registers := mk_regs {
  r_cr2 : Z; r_r15 : Z; r_r14 : Z; r_r13 : Z; r_r12 : Z; r_r11 : Z; r_r10 : Z; r_r9 : Z; r_r8 : Z;
  r_rdi : Z; r_rsi : Z; r_rbp : Z; r_rsp : Z; r_rbx : Z; r_rdx : Z; r_rcx : Z; r_rax : Z;
  r_xmm : list (Z * Z);
}.
(** [struct interrupt_frame]. *)
Record int_frame_t := mk_frame {
  f_registers : registers; vector_number : Z; error_code : Z;
  iret_rip : Z; iret_cs : Z; iret_flags : Z; iret_rsp : Z; iret_ss : Z;
}.
Definition zero_regs : registers := mk_regs 0 0 0 0 0 0 0 0 0 0 0 0 0 0 0 0 0 (replicate 16 (0, 0)).
Definition zero_frame : int_frame_t := mk_frame zero_regs 0 0 0 0 0 0 0.

Definition set_rsp (v : Z) (f : int_frame_t) : int_frame_t :=
  let r := f_registers f in
  mk_frame (mk_regs (r_cr2 r) (r_r15 r) (r_r14 r) (r_r13 r) (r_r12 r) (r_r11 r) (r_r10 r) (r_r9 r) (r_r8 r)
      (r_rdi r) (r_rsi r) (r_rbp r) v (r_rbx r) (r_rdx r) (r_rcx r) (r_rax r) (r_xmm r))
    (vector_number f) (error_code f) (iret_rip f) (iret_cs f) (iret_flags f) (iret_rsp f) (iret_ss f).
Definition set_iret_rip (v : Z) (f : int_frame_t) :=
  mk_frame (f_registers f) (vector_number f) (error_code f) v (iret_cs f) (iret_flags f) (iret_rsp f) (iret_ss f).
Definition set_iret_cs (v : Z) (f : int_frame_t) :=
  mk_frame (f_registers f) (vector_number f) (error_code f) (iret_rip f) v (iret_flags f) (iret_rsp f) (iret_ss f).
Definition set_iret_flags (v : Z) (f : int_frame_t) :=
  mk_frame (f_registers f) (vector_number f) (error_code f) (iret_rip f) (iret_cs f) v (iret_rsp f) (iret_ss f).
Definition set_iret_rsp (v : Z) (f : int_frame_t) :=
  mk_frame (f_registers f) (vector_number f) (error_code f) (iret_rip f) (iret_cs f) (iret_flags f) v (iret_ss f).
Definition set_iret_ss (v : Z) (f : int_frame_t) :=
  mk_frame (f_registers f) (vector_number f) (error_code f) (iret_rip f) (iret_cs f) (iret_flags f) (iret_rsp f) v.

(** ** Threads and processes *)

Inductive thread_state_t := ACTIVE | SLEEPING | WAITING | DEAD.
#[export] Instance thread_state_eq_dec : EqDecision thread_state_t.
Proof. solve_decision. Defined.

(** [struct thread]; its first field, the entity, and [prio] are in the run
    queue's maps, at the address of the thread. *)
Record thread_t := mk_thread {
  tid : Z; t_name : list Z; t_state : thread_state_t; t_proc : Z; t_context : int_frame_t; t_stack : Z;
}.
(** [struct process]; its links are in the list's maps, at its address. *)
Record proc_t := mk_proc {
  p_id : Z; p_name : list Z; p_threads : thread_array; p_vmm : Z; heap_start : Z;
}.
#[export] Instance proc_eq_dec : EqDecision proc_t.
Proof. solve_decision. Defined.
Definition PROC_NAME_LEN : Z := 64.
Definition THREAD_NAME_LEN : Z := 64.
Definition sizeof_thread : Z := 560.
Definition sizeof_proc : Z := 128.

Definition set_tid v t := mk_thread v (t_name t) (t_state t) (t_proc t) (t_context t) (t_stack t).
Definition set_t_name v t := mk_thread (tid t) v (t_state t) (t_proc t) (t_context t) (t_stack t).
Definition set_t_state v t := mk_thread (tid t) (t_name t) v (t_proc t) (t_context t) (t_stack t).
Definition set_t_proc v t := mk_thread (tid t) (t_name t) (t_state t) v (t_context t) (t_stack t).
Definition set_t_context v t := mk_thread (tid t) (t_name t) (t_state t) (t_proc t) v (t_stack t).
Definition set_t_stack v t := mk_thread (tid t) (t_name t) (t_state t) (t_proc t) (t_context t) v.

Definition set_p_id v p := mk_proc v (p_name p) (p_threads p) (p_vmm p) (heap_start p).
Definition set_p_name v p := mk_proc (p_id p) v (p_threads p) (p_vmm p) (heap_start p).
Definition set_p_threads v p := mk_proc (p_id p) (p_name p) v (p_vmm p) (heap_start p).
Definition set_p_vmm v p := mk_proc (p_id p) (p_name p) (p_threads p) v (heap_start p).

(** ** The machine *)

(** Address spaces with the processors and the heap; the run queue, whose
    nodes come from that heap; threads, processes, the links of the list of
    processes, the blocks of the thread arrays; bytes of kernel memory and of
    the physical frames; the counters of process.c; the timers; and the task
    state segment. *)
Record machine (P H V W U E : Type) := mk_machine {
  sv : vmm_state P H;
  squeue : cfs_t unit;
  sthreads : gmap Z thread_t;
  sprocs : gmap Z proc_t;
  slinks : lst;
  sslots : gmap Z (list Z);
  smem : mem;
  sframes : mem;
  next_free_pid : Z;
  next_free_tid : Z;
  stimers : timers V W U E;
  stss : tsss E;
}.
Arguments mk_machine {P H V W U E}.
Arguments sv {P H V W U E}.
Arguments squeue {P H V W U E}.
Arguments sthreads {P H V W U E}.
Arguments sprocs {P H V W U E}.
Arguments slinks {P H V W U E}.
Arguments sslots {P H V W U E}.
Arguments smem {P H V W U E}.
Arguments sframes {P H V W U E}.
Arguments next_free_pid {P H V W U E}.
Arguments next_free_tid {P H V W U E}.
Arguments stimers {P H V W U E}.
Arguments stss {P H V W U E}.

(** The run queue with a heap put into it, or taken out. *)
Definition with_heap {H} (h : H) (c : cfs_t unit) : cfs_t H :=
  let t := tree_of c in
  mk_cfs (mk_rb_state (root t) (leftmost t) (nodes t) (ents t) h) (running c) (prio c).
Definition no_heap {H} (c : cfs_t H) : cfs_t unit :=
  let t := tree_of c in
  mk_cfs (mk_rb_state (root t) (leftmost t) (nodes t) (ents t) tt) (running c) (prio c).

Section process.
Context {P H V W U E : Type} `{!PageAllocator P, !Allocator H, !LapicDev V, !HpetDev W, !IoApicDev U, !MemSource E}.
Abbreviation mach := (machine P H V W U E).
Abbreviation SYS := (M mach).
Implicit Type s : mach.

(** The statics of the kernel, by address: [kernel_vmm], its lock, the table
    it runs on, the two locks of process.c and the list of processes. *)
Context (kernel_vmm kernel_vmm_lock kernel_pml4 free_pid_lock free_tid_lock process_list : Z).
(** What memory holds before it is written, by address: areas, containers,
    tree nodes, the slots of a block, threads with their entity and priority,
    processes. *)
Context (uninit_area : Z → memory_area_t) (uninit_next : Z → Z) (uninit_node : rb_node_t) (junk : Z → nat → list Z).
Context (uninit_thread : Z → thread_t) (uninit_entity : Z → sched_entity_t) (uninit_prio : Z → Z) (uninit_proc : Z → proc_t).
(** [realloc] of the heap; the spins granted to [acquire]; the processor. *)
Context (h_realloc : Z → Z → M H Z) (spins : nat) (cpu : Z).

#[local] Instance arrays_from_heap : ArrayHeap H := {| ah_alloc := h_alloc; ah_realloc := h_realloc |}.

Definition set_sv v s : mach := mk_machine v (squeue s) (sthreads s) (sprocs s) (slinks s) (sslots s) (smem s) (sframes s)
  (next_free_pid s) (next_free_tid s) (stimers s) (stss s).
Definition set_squeue v s : mach := mk_machine (sv s) v (sthreads s) (sprocs s) (slinks s) (sslots s) (smem s) (sframes s)
  (next_free_pid s) (next_free_tid s) (stimers s) (stss s).
Definition set_sthreads v s : mach := mk_machine (sv s) (squeue s) v (sprocs s) (slinks s) (sslots s) (smem s) (sframes s)
  (next_free_pid s) (next_free_tid s) (stimers s) (stss s).
Definition set_sprocs v s : mach := mk_machine (sv s) (squeue s) (sthreads s) v (slinks s) (sslots s) (smem s) (sframes s)
  (next_free_pid s) (next_free_tid s) (stimers s) (stss s).
Definition set_slinks v s : mach := mk_machine (sv s) (squeue s) (sthreads s) (sprocs s) v (sslots s) (smem s) (sframes s)
  (next_free_pid s) (next_free_tid s) (stimers s) (stss s).
Definition set_sslots v s : mach := mk_machine (sv s) (squeue s) (sthreads s) (sprocs s) (slinks s) v (smem s) (sframes s)
  (next_free_pid s) (next_free_tid s) (stimers s) (stss s).
Definition set_smem v s : mach := mk_machine (sv s) (squeue s) (sthreads s) (sprocs s) (slinks s) (sslots s) v (sframes s)
  (next_free_pid s) (next_free_tid s) (stimers s) (stss s).
Definition set_sframes v s : mach := mk_machine (sv s) (squeue s) (sthreads s) (sprocs s) (slinks s) (sslots s) (smem s) v
  (next_free_pid s) (next_free_tid s) (stimers s) (stss s).
Definition set_next_pid v s : mach := mk_machine (sv s) (squeue s) (sthreads s) (sprocs s) (slinks s) (sslots s) (smem s) (sframes s)
  v (next_free_tid s) (stimers s) (stss s).
Definition set_next_tid v s : mach := mk_machine (sv s) (squeue s) (sthreads s) (sprocs s) (slinks s) (sslots s) (smem s) (sframes s)
  (next_free_pid s) v (stimers s) (stss s).
Definition set_stimers v s : mach := mk_machine (sv s) (squeue s) (sthreads s) (sprocs s) (slinks s) (sslots s) (smem s) (sframes s)
  (next_free_pid s) (next_free_tid s) v (stss s).
Definition set_stss v s : mach := mk_machine (sv s) (squeue s) (sthreads s) (sprocs s) (slinks s) (sslots s) (smem s) (sframes s)
  (next_free_pid s) (next_free_tid s) (stimers s) v.

Definition set_vheap (h : H) (v : vmm_state P H) : vmm_state P H :=
  mk_vs (vmms v) (areas v) (conts v) (locks v) (vcpus v) (cr3 v) (tables v) h.
Definition set_vcpus (c : cpus) (v : vmm_state P H) : vmm_state P H :=
  mk_vs (vmms v) (areas v) (conts v) (locks v) c (cr3 v) (tables v) (vheap v).

(** The components inside the machine. *)
Definition on_vs {A} : M (vmm_state P H) A → SYS A := zoom sv set_sv.
Definition on_sheap {A} : M H A → SYS A := λ f s, on_vs (on_heap f) s.
Definition on_scpus {A} : CPU A → SYS A := λ f s, on_vs (on_vcpus f) s.
Definition on_smem {A} : MEM A → SYS A := zoom smem set_smem.
Definition on_slinks {A} : LST A → SYS A := zoom slinks set_slinks.
Definition on_stss {A} : M (tsss E) A → SYS A := zoom stss set_stss.
Definition on_blocks {A} : M (blocks H) A → SYS A :=
  zoom (λ s, mk_blocks (sslots s) (vheap (sv s)))
    (λ b s, set_sslots (slots b) (set_sv (set_vheap (ta_heap b) (sv s)) s)).
Definition on_queue {A} : M (cfs_t H) A → SYS A :=
  zoom (λ s, with_heap (vheap (sv s)) (squeue s))
    (λ c s, set_squeue (no_heap c) (set_sv (set_vheap (heap (tree_of c)) (sv s)) s)).
Definition on_timers {A} : M (timers V W U E) A → SYS A :=
  zoom (λ s, set_tcpus (vcpus (sv s)) (stimers s))
    (λ t s, set_stimers t (set_sv (set_vcpus (t_cpus t) (sv s)) s)).

(** Threads, processes. *)
Definition load_thread (t : Z) : SYS thread_t := getf (λ s, sthreads s !! t).
Definition upd_thread (t : Z) (f : thread_t → thread_t) : SYS unit :=
  modifyf (λ s, match sthreads s !! t with Some v => Some (set_sthreads (<[t := f v]> (sthreads s)) s) | None => None end).
Definition load_proc (p : Z) : SYS proc_t := getf (λ s, sprocs s !! p).
Definition upd_proc (p : Z) (f : proc_t → proc_t) : SYS unit :=
  modifyf (λ s, match sprocs s !! p with Some v => Some (set_sprocs (<[p := f v]> (sprocs s)) s) | None => None end).

(** [alloc(sizeof(thread_t))]: the fields of the new thread are whatever the
    memory held. *)
Definition alloc_thread : SYS Z :=
  t ← on_sheap (h_alloc sizeof_thread);
  if decide (t = 0) then mret 0 else
  modify (λ s, set_sthreads (<[t := uninit_thread t]> (sthreads s)) s);;
  on_queue (modify (λ c, mk_cfs (tree_of (set_entity t (uninit_entity t) c)) (running c) (<[t := uninit_prio t]> (prio c))));;
  mret t.
Definition free_thread (t : Z) : SYS unit :=
  on_sheap (h_free t);;
  modify (λ s, set_sthreads (delete t (sthreads s)) s).
Definition alloc_proc : SYS Z :=
  p ← on_sheap (h_alloc sizeof_proc);
  if decide (p = 0) then mret 0 else
  modify (λ s, set_sprocs (<[p := uninit_proc p]> (sprocs s)) s);; mret p.
Definition free_proc (p : Z) : SYS unit :=
  on_sheap (h_free p);;
  modify (λ s, set_sprocs (delete p (sprocs s)) s).

(** [strncpy] of the string at [src] into an array of [n] bytes of a
    structure: the string, cut or padded with zeros. *)
Fixpoint read_bytes (n : nat) (src : Z) : MEM (list Z) :=
  match n with O => mret [] | S n => b ← ldb src; l ← read_bytes n (src + 1); mret (b :: l) end.
Definition strncpy_field (src n : Z) : MEM (list Z) :=
  len ← strnlen src n;
  l ← read_bytes (Z.to_nat len) src;
  mret (l ++ replicate (Z.to_nat (n - len)) 0).

(** The field [threads] of a process, changed by an operation on arrays. *)
Definition on_threads (p : Z) (f : thread_array → M (blocks H) thread_array) : SYS unit :=
  v ← load_proc p;
  arr ← on_blocks (f (p_threads v));
  upd_proc p (set_p_threads arr).

Definition add_thread (proc name entry : Z) : SYS Z :=
  t ← alloc_thread;
  if decide (t = 0) then mret 0 else
  on_vs (on_lock free_tid_lock (acquire (S spins) cpu));;
  n ← gets next_free_tid;
  upd_thread t (set_tid n);;
  modify (set_next_tid (n +64 1));;
  on_vs (on_lock free_tid_lock (release cpu));;
  upd_thread t (set_t_state WAITING);;
  upd_thread t (set_t_context (set_iret_ss (Z.lor 0x20 3) (set_iret_cs (Z.lor 0x18 3) (set_iret_flags 0x202 zero_frame))));;
  nm ← on_smem (strncpy_field name THREAD_NAME_LEN);
  upd_thread t (set_t_name nm);;
  p ← load_proc proc;
  stack ← on_vs (vmm_alloc uninit_area uninit_next spins cpu (p_vmm p) PAGE_SIZE MEMORY_FLAG_WRITE);
  if decide (stack = 0) then free_thread t;; mret 0 else
  upd_thread t (set_t_stack stack);;
  a ← on_vs (load_area stack);
  upd_thread t (λ v, set_t_context (set_iret_rsp (a_start a +64 a_size a) (t_context v)) v);;
  upd_thread t (λ v, set_t_context (set_iret_rip entry (t_context v)) v);;
  upd_thread t (set_t_proc proc);;
  on_threads proc (λ arr, add junk arr t);;
  mret t.

Definition destroy_process (proc : Z) : SYS unit :=
  prev ← on_slinks (get_prev proc);
  next ← on_slinks (get_next proc);
  on_slinks (set_next prev next);;
  next ← on_slinks (get_next proc);
  prev ← on_slinks (get_prev proc);
  on_slinks (set_prev next prev);;
  p ← load_proc proc;
  on_vs (vmm_destroy (p_vmm p));;
  on_sheap (h_free (ta_data (p_threads p)));;
  modify (λ s, set_sslots (delete (ta_data (p_threads p)) (sslots s)) s);;
  free_proc proc.

Definition destroy_thread (t : Z) : SYS unit :=
  v ← load_thread t;
  let proc := t_proc v in
  on_threads proc (λ arr, remove_el arr t);;
  p ← load_proc proc;
  v ← load_thread t;
  on_vs (vmm_free_area (p_vmm p) (t_stack v));;
  free_thread t;;
  p ← load_proc proc;
  if decide (ta_len (p_threads p) = 0) then destroy_process proc else mret tt.

(** ** Queueing *)

(** [cfs_queue] with the time since boot. *)
Definition queue_entity (se : Z) : SYS unit :=
  now ← on_timers uptime;
  on_queue (cfs_queue uninit_node now se).

(** [se->exec_start_time = 0]. *)
Definition reset_start (se : Z) : SYS unit :=
  on_queue (modifyf (λ c, match ents (tree_of c) !! se with
    | Some e => Some (set_entity se (mk_sched_entity (vruntime e) 0) c)
    | None => None
    end)).

(** The loop of [run_proc], [n] threads left from [i]. *)
Fixpoint run_loop (n : nat) (p i : Z) : SYS unit :=
  match n with
  | O => mret tt
  | S n =>
      v ← load_proc p;
      se ← on_blocks (load_slot (ta_data (p_threads v)) i);
      reset_start se;;
      queue_entity se;;
      run_loop n p (i + 1)
  end.
Definition run_proc (p : Z) : SYS unit :=
  v ← load_proc p;
  run_loop (Z.to_nat (ta_len (p_threads v))) p 0.

(** ** Loading an image *)

(** The frame a page of the current address space is mapped to. *)
Definition translate (va : Z) : SYS (option Z) :=
  m ← on_vs (get_relevant_vmm kernel_vmm cpu va);
  v ← on_vs (load_vmm m);
  e ← on_vs (on_tables (walk (root_pagetable v) va false));
  if decide (e = 0) then mret None else
  pte ← on_vs (on_tables (rd e));
  mret (if present pte then Some (Z.shiftl (pd_addr pte) 12 + va mod PAGE_SIZE) else None).

(** The bits of [union page_fault_error_code] that the handler tests. *)
Definition pf_present (e : Z) : bool := Z.testbit e 0.
Definition pf_rsvd (e : Z) : bool := Z.testbit e 3.
Definition pf_ifetch (e : Z) : bool := Z.testbit e 4.
Definition pf_pk (e : Z) : bool := Z.testbit e 5.
Definition pf_ss (e : Z) : bool := Z.testbit e 6.
Definition pf_hlat (e : Z) : bool := Z.testbit e 7.
Definition pf_sgx (e : Z) : bool := Z.testbit e 15.

(** The page fault branch of [interrupt_dispatch]: [error] is the error code;
    a missing page is allocated, anything else stops the kernel. *)
Definition page_fault (va error : Z) : SYS unit :=
  if negb (pf_present error || pf_rsvd error || pf_ifetch error || pf_pk error || pf_ss error || pf_hlat error || pf_sgx error) then
    r ← on_vs (on_demand_allocation kernel_vmm cpu va);
    if decide (r ≠ 0) then panic else mret tt
  else panic.

(** A byte written by the kernel to a user address: a missing page faults
    (the error code has only the bit of a write), the handler acknowledges as
    [interrupt_dispatch] does, and the instruction is tried again. *)
Definition user_store (va b : Z) : SYS unit :=
  r ← translate va;
  r ← match r with Some pa => mret (Some pa) | None => page_fault va 2;; on_timers (on_lapics send_eoi);; translate va end;
  match r with
  | Some pa => modify (λ s, set_sframes (<[pa := b]> (sframes s)) s)
  | None => fault
  end.
Fixpoint copy_in (n : nat) (dst src : Z) : SYS unit :=
  match n with
  | O => mret tt
  | S n => b ← on_smem (ldb src); user_store dst b;; copy_in n (dst + 1) (src + 1)
  end.

(** One segment; [false] is the jump to the error label. *)
Definition load_segment (vmm elf i : Z) : SYS bool :=
  seg ← on_smem (get_segment elf i);
  ph ← on_smem (load_phdr seg);
  if decide (p_type ph = PT_LOAD) then
    let mem_flag := if decide (Z.land (p_flags ph) PF_W ≠ 0) then MEMORY_FLAG_WRITE else 0 in
    let mem_flag := if decide (Z.land (p_flags ph) PF_X ≠ 0) then Z.lor mem_flag MEMORY_FLAG_EXEC else mem_flag in
    area ← on_vs (vmm_alloc_at uninit_area uninit_next spins cpu (p_vaddr ph) vmm (p_memsz ph) (Z.lor mem_flag MEMORY_FLAG_WRITE));
    if decide (area = 0) then mret false else
    a ← on_vs (load_area area);
    if decide (a_start a ≠ p_vaddr ph) then mret false else
    copy_in (Z.to_nat (p_filesz ph)) (a_start a) (elf +64 p_offset ph);;
    on_vs (update_area_access vmm area mem_flag);;
    mret true
  else mret true.
Fixpoint load_segments (n : nat) (vmm elf i : Z) : SYS bool :=
  match n with
  | O => mret true
  | S n => ok ← load_segment vmm elf i; if (ok : bool) then load_segments n vmm elf (i + 1) else mret false
  end.

(** The labels [free_vmm] and [free_proc] of [create_process]. *)
Definition fail_free_proc (proc : Z) : SYS Z := free_proc proc;; mret 0.
Definition fail_free_vmm (proc vmm current_vmm : Z) : SYS Z :=
  on_vs (change_current_vmm kernel_vmm cpu current_vmm);;
  on_vs (vmm_destroy vmm);;
  fail_free_proc proc.

(** [create_process] in three parts: up to the empty address space, the
    program, the rest.  [empty] is the address of the string "". *)
Definition create_finish (empty elf proc vmm current_vmm : Z) : SYS Z :=
  (if decide (current_vmm ≠ 0) then on_vs (change_current_vmm kernel_vmm cpu current_vmm) else mret tt);;
  on_scpus (pop_off cpu);;
  arr ← on_blocks (init_thread_array junk);
  upd_proc proc (set_p_threads arr);;
  entry ← on_smem (ld_e_entry elf);
  t ← add_thread proc empty entry;
  if decide (t = 0) then fail_free_vmm proc vmm current_vmm else
  on_slinks (lst_push_end process_list proc);;
  mret proc.
Definition create_load (empty elf proc vmm current_vmm : Z) : SYS Z :=
  phnum ← on_smem (ld_e_phnum elf);
  ok ← load_segments (Z.to_nat phnum) vmm elf 0;
  if negb ok then fail_free_vmm proc vmm current_vmm else create_finish empty elf proc vmm current_vmm.
Definition create_process (empty name elf : Z) (user_proc : bool) : SYS Z :=
  k ← on_scpus (get_cpu cpu);
  let current_vmm := Cpu.vmm k in
  proc ← alloc_proc;
  if decide (proc = 0) then mret 0 else
  on_vs (on_lock free_pid_lock (acquire (S spins) cpu));;
  n ← gets next_free_pid;
  upd_proc proc (set_p_id n);;
  modify (set_next_pid (n +64 1));;
  on_vs (on_lock free_pid_lock (release cpu));;
  nm ← on_smem (strncpy_field name PROC_NAME_LEN);
  upd_proc proc (set_p_name nm);;
  vmm ← on_vs (vmm_create kernel_vmm kernel_vmm_lock LOWHALF_START LOWHALF_END user_proc);
  if decide (vmm = 0) then fail_free_proc proc else
  v ← on_vs (load_vmm vmm);
  on_vs (on_tables (map_higher_half kernel_pml4 (root_pagetable v)));;
  on_scpus (push_off cpu);;
  on_vs (change_current_vmm kernel_vmm cpu vmm);;
  upd_proc proc (set_p_vmm vmm);;
  create_load empty elf proc vmm current_vmm.
End process.
