(* ===== verification/Sched.v ===== *)
(** * Switching threads (kernel/scheduler/scheduler.c)

    [schedule] runs in the timer interrupt: it picks the waiting thread with
    the least weighted run time, queues the interrupted one and exchanges the
    register frames.  Every round refines a step of the abstract scheduler,
    whose bounded waiting is proved here as well. *)
From S2P Require Import Prelude.
From S2P Require Import Interfaces.
From S2P Require Import Double.
From S2P Require Import Cpu.
From S2P Require Import RbTree.
From S2P Require Import RbRepr.
From S2P Require Import RbInv.
From S2P Require Import RbInsert.
From S2P Require Import Cfs.
From S2P Require Import Spinlock.
From S2P Require Import Lst.
From S2P Require Import Layout.
From S2P Require Import Vm.
From S2P Require Import Vmm.
From S2P Require Import VmmAlloc.
From S2P Require Import Libc.
From S2P Require Import ThreadArray.
From S2P Require Import Bytes.
From S2P Require Import Tty.
From S2P Require Import Ioapic.
From S2P Require Import Idt.
From S2P Require Import Lapic.
From S2P Require Import Timer.
From S2P Require Import Process.

Section schedule.
Context {P H V W U E : Type} `{!PageAllocator P, !Allocator H, !LapicDev V, !HpetDev W, !IoApicDev U, !MemSource E}.
Abbreviation mach := (machine P H V W U E).
Abbreviation SYS := (M mach).
Implicit Type s : mach.
(** As in [Process]; [idle_t] is the address of the idle thread, and
    [vector_handler_0x40] that of the stub of the timer's vector. *)
Context (kernel_vmm idle_t vector_handler_0x40 : Z).
Context (uninit_node : rb_node_t) (polls : nat) (cpu : Z).

Definition set_current_thread (t : Z) : SYS unit :=
  on_scpus (k ← get_cpu cpu; cpu_put cpu (set_cpu_thread t k)).

Definition arm (nano : Z) : SYS unit :=
  on_timers (arm_timer cpu vector_handler_0x40 polls nano false true).

(** What happens to the interrupted thread; the result is the thread to run. *)
Definition retire (old se : Z) (context : int_frame_t) : SYS Z :=
  if decide (old = 0 ∨ old = idle_t) then
    on_stss (update_rsp0 (iret_rsp context));; mret se
  else
    o ← load_thread old;
    if decide (t_state o ≠ DEAD) then
      if decide (se = 0) then mret old else
      upd_thread old (set_t_state WAITING);;
      queue_entity uninit_node old;;
      upd_thread old (set_t_context context);;
      mret se
    else destroy_thread old;; mret se.

(** [schedule]: the frame it leaves in place of [context]. *)
Definition schedule (context : int_frame_t) : SYS int_frame_t :=
  let rsp := r_rsp (f_registers context) in
  k ← on_scpus (get_cpu cpu);
  let old_thread := thread k in
  se ← on_queue cfs_pick_next;
  new_thread ← retire old_thread se context;
  if decide (new_thread = 0) then
    set_current_thread idle_t;;
    i ← load_thread idle_t;
    r0 ← on_stss get_rsp0;
    on_vs (change_current_vmm kernel_vmm cpu kernel_vmm);;
    arm 1000000;;
    mret (set_iret_rsp r0 (set_iret_rip (iret_rip (t_context i)) context))
  else
    context ← (if decide (new_thread ≠ old_thread) then
        on_queue (cfs_dequeue se);;
        upd_thread new_thread (set_t_state ACTIVE);;
        set_current_thread new_thread;;
        n ← load_thread new_thread;
        p ← load_proc (t_proc n);
        on_vs (change_current_vmm kernel_vmm cpu (p_vmm p));;
        mret (t_context n)
      else mret context);
    timeslice ← on_queue (get_timeslice new_thread);
    arm timeslice;;
    mret (set_rsp rsp context).
End schedule.

(** ** The abstract scheduler *)

(** One round: [cur] ran until its key is [key]; the head of the queue runs. *)
Definition rq_switch (key cur : Z) (q : rq) : rq :=
  match q with [] => [] | y :: q' => rq_insert (key, cur) q' end.

Lemma rq_insert_elem x q y : y ∈ rq_insert x q ↔ y = x ∨ y ∈ q.
Proof.
  induction q as [|z q IH]; cbn [rq_insert]; [set_solver|]. case_decide; [set_solver|].
  rewrite !elem_of_cons, IH. tauto.
Qed.

Lemma rq_insert_ids x q t : t ∈ (rq_insert x q).*2 ↔ t = x.2 ∨ t ∈ q.*2.
Proof.
  rewrite !list_elem_of_fmap. split.
  - intros (y & -> & [->|Hy]%rq_insert_elem); [by left|right; eauto].
  - intros [->|(y & -> & Hy)]; [exists x; rewrite rq_insert_elem; auto|exists y; rewrite rq_insert_elem; auto].
Qed.

Lemma rq_insert_length x q : length (rq_insert x q) = S (length q).
Proof. induction q as [|y q IH]; cbn [rq_insert]; [done|]. case_decide; cbn; lia. Qed.

(** Taking the head off after the insertion, as [schedule] does. *)
Lemma rq_remove_head k se key cur q :
  cur ≠ se → se ∉ q.*2 → Forall (λ y, k ≤ y.1) q →
  rq_remove se (rq_insert (key, cur) ((k, se) :: q)) = rq_insert (key, cur) q.
Proof.
  intros Hne Hq Hs. assert (∀ q', se ∉ q'.*2 → filter (λ y : Z * Z, y.2 ≠ se) q' = q') as Hf by (intros; by apply rq_filter_absent).
  cbn [rq_insert fst]. unfold rq_remove. destruct (decide (key < k)).
  - rewrite filter_cons_True by (cbn; congruence). rewrite filter_cons_False by (cbn; tauto). rewrite Hf by done.
    destruct Hs as [|y q Hy Hs]; [done|]. cbn [rq_insert fst]. by rewrite decide_True by lia.
  - rewrite filter_cons_False by (cbn; tauto). apply Hf. rewrite rq_insert_ids. cbn. intros [->|?]; done.
Qed.

(** What a queue state tells about its entries. *)
Section entries.
Context {H : Type} `{!Allocator H} (ok : H → Prop).

Lemma refines_ids (st : cfs_t H) q : refines ok st q → NoDup (q.*2) ∧ 0 ∉ q.*2.
Proof. intros (t & _ & <- & Hnd & H0 & _). by rewrite rq_of_entities. Qed.

Lemma refines_sorted (st : cfs_t H) k se q :
  refines ok st ((k, se) :: q) → Forall (λ y, k ≤ y.1) q ∧ se ∉ q.*2 ∧ se ≠ 0.
Proof.
  intros Hr. pose proof (refines_ids _ _ Hr) as [Hnd H0]. rewrite fmap_cons in Hnd, H0. cbn in Hnd, H0.
  apply NoDup_cons in Hnd as [Hse _]. split_and!; [|done|set_solver].
  destruct Hr as (t & [_ _ _ Ho _ _ _] & Hq & _). unfold rq_of, ordered in *.
  destruct (entities t) as [|x l]; [done|]. injection Hq as Hk -> <-. apply StronglySorted_cons in Ho as [Ho _].
  rewrite Forall_fmap. eapply Forall_impl; [exact Ho|]. intros y Hy. cbn in *. lia.
Qed.

Lemma refines_key (st : cfs_t H) q k se :
  refines ok st q → (k, se) ∈ q → ∃ e, ents (tree_of st) !! se = Some e ∧ vruntime e = k.
Proof.
  intros (t & [_ _ He _ _ _ _] & <- & _) Hin. unfold rq_of in Hin. apply list_elem_of_fmap in Hin as (x & [= -> ->] & Hx).
  rewrite Forall_forall in He. destruct (He x Hx) as [e Ee]. exists e. unfold key_of. by rewrite Ee.
Qed.

Lemma refines_live (st : cfs_t H) q a :
  refines ok st q → is_Some (nodes (tree_of st) !! a) → ok (heap (tree_of st)) ∧ a ∈ h_live (heap (tree_of st)).
Proof.
  intros (t & [(_ & _ & _ & Hd) _ _ _ _ Hok Hl] & _) Ha. split; [done|]. apply Hl. rewrite <- Hd. by apply elem_of_dom.
Qed.

Lemma refines_heap (st : cfs_t H) q : refines ok st q → ok (heap (tree_of st)) ∧ 0 ≤ running st < 2 ^ 64 ∧ running st = Z.of_nat (length q).
Proof. intros (t & [_ _ _ _ _ Hok _] & _ & _ & _ & Hr & Hu). done. Qed.
End entries.

Section switch.
Context {P H V W U E : Type} `{!PageAllocator P, !Allocator H, !LapicDev V, !HpetDev W, !IoApicDev U, !MemSource E}.
Context `{!LapicLaws V}.
Abbreviation mach := (machine P H V W U E).
Implicit Type s : mach.
Context (ok : H → Prop) `{!AllocatorLaws H ok}.
Context (kernel_vmm idle_t vector_handler_0x40 : Z).
Context (uninit_node : rb_node_t) (polls : nat) (cpu : Z).

(** ** Components inside the machine *)

Definition q_of s : cfs_t H := with_heap (vheap (sv s)) (squeue s).
Definition put_q (c : cfs_t H) s : mach := set_squeue (no_heap c) (set_sv (set_vheap (heap (tree_of c)) (sv s)) s).

Lemma q_of_put c s : q_of (put_q c s) = c.
Proof. by destruct c as [[]]. Qed.

Lemma on_queue_run {A} (f : M (cfs_t H) A) s a c : f (q_of s) = Done (a, c) → on_queue f s = Done (a, put_q c s).
Proof. intros Hf. unfold on_queue, zoom. fold (q_of s). by rewrite Hf. Qed.

Lemma put_q_same s : put_q (q_of s) s = s.
Proof. by destruct s as [[] [[? ? ? ? []]] ? ? ? ? ? ? ? ? ? ?]. Qed.

Definition t_of s : timers V W U E := set_tcpus (vcpus (sv s)) (stimers s).
Definition put_t (t : timers V W U E) s : mach := set_stimers t (set_sv (set_vcpus (t_cpus t) (sv s)) s).

Lemma on_timers_run {A} (f : M (timers V W U E) A) s a t : f (t_of s) = Done (a, t) → on_timers f s = Done (a, put_t t s).
Proof. intros Hf. unfold on_timers, zoom. fold (t_of s). by rewrite Hf. Qed.

Lemma on_scpus_run {A} (f : CPU A) s a c :
  f (vcpus (sv s)) = Done (a, c) → on_scpus f s = Done (a, set_sv (set_vcpus c (sv s)) s).
Proof. intros Hf. unfold on_scpus, on_vs, on_vcpus, zoom. by rewrite Hf. Qed.

Lemma load_thread_run s t v : sthreads s !! t = Some v → load_thread t s = Done (v, s).
Proof. apply (getf_done (λ s, sthreads s !! t)). Qed.
Lemma load_proc_run s p v : sprocs s !! p = Some v → load_proc p s = Done (v, s).
Proof. apply (getf_done (λ s, sprocs s !! p)). Qed.
Lemma upd_thread_run s t v f :
  sthreads s !! t = Some v → upd_thread t f s = Done (tt, set_sthreads (<[t := f v]> (sthreads s)) s).
Proof. intros Hv. apply modifyf_done. by rewrite Hv. Qed.

(** ** The invariant *)

(** Thread [t] can run: its process, its address space, its entity and its
    priority exist, and its state is [st]. *)
Record runnable s (t : Z) (st : thread_state_t) : Prop := mk_runnable {
  rn_thread : ∃ th p v, sthreads s !! t = Some th ∧ t_state th = st ∧ sprocs s !! t_proc th = Some p ∧
    p_vmm p ≠ 0 ∧ vmms (sv s) !! p_vmm p = Some v;
  rn_entity : is_Some (ents (tree_of (squeue s)) !! t);
  rn_prio : ∃ p, prio (squeue s) !! t = Some p ∧ 0 ≤ p < 2 ^ 8;
}.

(** The processor runs [cur]; the waiting threads are the queue [q]; the
    timers work. *)
Record sched_ok s (q : rq) (cur : Z) : Prop := mk_sched_ok {
  so_cpu : ∃ k, vcpus (sv s) !! cpu = Some k ∧ cpu_id k = cpu ∧ thread k = cur;
  so_queue : refines ok (q_of s) q;
  so_cur : cur ≠ 0 ∧ cur ≠ idle_t ∧ cur ∉ q.*2;
  so_idle : idle_t ∉ q.*2;
  so_active : runnable s cur ACTIVE;
  so_waiting : ∀ t, t ∈ q.*2 → runnable s t WAITING;
  so_timers : hpet_base_addr (stimers s) ≠ 0 ∧ 0 < period (stimers s) < 2 ^ 53 ∧
    ∃ x2 base, on_cpu (tlap (stimers s)) cpu x2 base;
  so_room : Z.of_nat (length q) < 2 ^ 32 - 1;
}.

(** What the run queue's clock reads in [s], and the run time thread [t] is
    charged with there. *)
Definition now_of s : Z := match uptime (stimers s) with Done (t, _) => t | _ => 0 end.
Definition key_after s (t : Z) : Z :=
  match ents (tree_of (squeue s)) !! t, prio (squeue s) !! t with
  | Some e, Some p => charged (now_of s) e p
  | _, _ => 0
  end.

(** The heap has room for one tree node, and then takes back what it gave. *)
Definition serves (h : H) : Prop :=
  ∃ a h', h_alloc sizeof_rb_node h = Done (a, h') ∧ a ≠ 0 ∧ (∀ x, x ∈ h_live h' → ∃ h2, h_free x h' = Done (tt, h2)).

(** The time slice of a thread of priority [p] when [n] threads wait. *)
Definition slice (p n : Z) : Z := Z.max (100000000 / ((1 + p) * (n + 1))) 1000000.
(** Between [t] and [t'] the timer of the processor was armed once for [nano]
    nanoseconds: vector 0x40, not masked, one shot, and the count. *)
Definition timer_armed (t : timers V W U E) (nano : Z) (t' : timers V W U E) : Prop :=
  ∃ x2 base entry, on_cpu (tlap t) cpu x2 base ∧ field 0 8 entry = 0x40 ∧ field 16 1 entry = 0 ∧ field 17 2 entry = 0 ∧
    ldev (tlap t') = armed x2 entry (Z.min (nano * 10 ^ 6 / period t) (2 ^ 32 - 1)) (ldev (tlap t)).

Lemma runnable_frame s s' t st :
  runnable s t st → sthreads s' !! t = sthreads s !! t → sprocs s' = sprocs s → vmms (sv s') = vmms (sv s) →
  (is_Some (ents (tree_of (squeue s)) !! t) → is_Some (ents (tree_of (squeue s')) !! t)) →
  prio (squeue s') = prio (squeue s) → runnable s' t st.
Proof.
  intros [(th & p & v & H1 & H2 & H3 & H4 & H5) He Hp] Et Ep Ev Ee Epr. split; [|by apply Ee|by rewrite Epr].
  exists th, p, v. by rewrite Et, Ep, Ev.
Qed.

(** Reading the clock. *)
Lemma clock_run s : hpet_base_addr (stimers s) ≠ 0 →
  on_timers uptime s = Done (now_of s, put_t (set_hpet (tick (hpet (stimers s))) (t_of s)) s) ∧ 0 ≤ now_of s < 2 ^ 64.
Proof.
  intros Hb. unfold now_of. destruct (uptime_run (stimers s) Hb) as (n & E1 & _ & Hr). rewrite E1. split; [|done].
  apply on_timers_run. destruct (uptime_run (t_of s) Hb) as (n' & E2 & _).
  assert (n' = n) as ->; [|done].
  unfold uptime in E1, E2. rewrite (bind_done _ _ _ _ _ (poll_hpet_run _ Hb)) in E1.
  rewrite (bind_done _ _ _ _ _ (poll_hpet_run (t_of s) Hb)) in E2.
  rewrite (bind_done (gets hpet_period) _ _ _ _ eq_refl) in E1.
  rewrite (bind_done (gets hpet_period) _ _ _ _ eq_refl) in E2. cbn [hpet_period set_hpet t_of set_tcpus hpet] in E1, E2.
  unfold d_u64, getf in E1, E2. destruct (d_to_u64 _); by simplify_eq.
Qed.

(** The interrupted thread is queued with what it ran. *)
Lemma retire_run s q cur k se q' context th :
  sched_ok s q cur → q = (k, se) :: q' → sthreads s !! cur = Some th → serves (vheap (sv s)) →
  ∃ s1, retire idle_t uninit_node cur se context s = Done (se, s1) ∧
    sthreads s1 = <[cur := set_t_context context (set_t_state WAITING th)]> (sthreads s) ∧
    sprocs s1 = sprocs s ∧ vmms (sv s1) = vmms (sv s) ∧ vcpus (sv s1) = vcpus (sv s) ∧
    refines ok (q_of s1) (rq_insert (key_after s cur, cur) q) ∧ prio (squeue s1) = prio (squeue s) ∧
    (∃ e, ents (tree_of (squeue s)) !! cur = Some e ∧
       ents (tree_of (squeue s1)) = <[cur := mk_sched_entity (key_after s cur) (exec_start_time e)]> (ents (tree_of (squeue s)))) ∧
    stimers s1 = set_hpet (tick (hpet (stimers s))) (set_tcpus (vcpus (sv s)) (stimers s)) ∧
    (∀ x, x ∈ h_live (vheap (sv s1)) → ∃ h2, h_free x (vheap (sv s1)) = Done (tt, h2)).
Proof.
  intros [_ Hq (Hc0 & Hci & Hcq) _ [Hth He Hp] _ (Hb & _) Hroom] Eq Eth (a & h' & Ea & Ha0 & Hfr).
  destruct Hth as (th' & p & v & Eth' & Hst & _). rewrite Eth in Eth'. injection Eth' as <-.
  destruct He as [e He]. destruct Hp as (pr & Hpr & Hprr).
  subst q. destruct (refines_sorted _ _ _ _ _ Hq) as (_ & _ & Hse0).
  unfold retire. rewrite decide_False by tauto. rewrite (bind_done _ _ _ _ _ (load_thread_run _ _ _ Eth)).
  rewrite decide_True by (rewrite Hst; done). rewrite decide_False by done.
  rewrite (bind_done _ _ _ _ _ (upd_thread_run _ _ _ _ Eth)). set (sa := set_sthreads _ s).
  unfold queue_entity. rewrite bind_assoc.
  destruct (clock_run sa) as [Ec Hn]; [done|]. rewrite (bind_done _ _ _ _ _ Ec). set (sb := put_t _ sa).
  change (now_of sa) with (now_of s) in *.
  destruct (cfs_queue_spec ok uninit_node (q_of sb) _ (now_of s) cur e pr a h' Hq Hc0 Hcq He Hpr Ea Ha0) as (c & Ecq & Hc & Hcp & Hce & Hch).
  { cbn [length] in *. lia. }
  rewrite (bind_done _ _ _ _ _ (on_queue_run _ sb tt c Ecq)).
  assert (key_after s cur = charged (now_of s) e pr) as Hkey by (unfold key_after; by rewrite He, Hpr).
  erewrite bind_done by (apply upd_thread_run; cbn; apply lookup_insert_eq).
  eexists. split; [done|]. rewrite Hkey. split_and!; try done.
  - cbn. by rewrite insert_insert_eq.
  - assert (∀ th', q_of (set_sthreads th' (put_q c sb)) = c) as -> by (intros; by destruct c as [[]]). done.
  - exists e. split; [done|]. exact Hce.
  - change (∀ x, x ∈ h_live (heap (tree_of c)) → ∃ h2, h_free x (heap (tree_of c)) = Done (tt, h2)). by rewrite Hch.
Qed.

Lemma get_cpu_same s k :
  vcpus (sv s) !! cpu = Some k → cpu_id k = cpu → get_cpu cpu (vcpus (sv s)) = Done (k, vcpus (sv s)).
Proof.
  intros Hk Hid. rewrite (get_cpu_run _ _ _ Hk). assert (set_cpu_id cpu k = k) as ->; [|by rewrite insert_id].
  destruct k. cbn in *. by subst.
Qed.

Lemma read_cpu_run s k :
  vcpus (sv s) !! cpu = Some k → cpu_id k = cpu → on_scpus (get_cpu cpu) s = Done (k, s).
Proof.
  intros Hk Hid. rewrite (on_scpus_run _ s _ _ (get_cpu_same s k Hk Hid)). by destruct s as [[]].
Qed.

Lemma set_current_thread_run s k t :
  vcpus (sv s) !! cpu = Some k → cpu_id k = cpu →
  set_current_thread cpu t s = Done (tt, set_sv (set_vcpus (<[cpu := set_cpu_thread t k]> (vcpus (sv s))) (sv s)) s).
Proof.
  intros Hk Hid. apply on_scpus_run. rewrite (bind_done _ _ _ _ _ (get_cpu_same s k Hk Hid)). by apply (cpu_put_run _ _ _ k).
Qed.

Lemma change_vmm_run s k m v :
  vcpus (sv s) !! cpu = Some k → cpu_id k = cpu → m ≠ 0 → vmms (sv s) !! m = Some v →
  ∃ c, on_vs (change_current_vmm kernel_vmm cpu m) s
    = Done (tt, set_sv (mk_vs (vmms (sv s)) (areas (sv s)) (conts (sv s)) (locks (sv s))
        (<[cpu := set_cpu_vmm m k]> (vcpus (sv s))) c (tables (sv s)) (vheap (sv s))) s) ∧
      (m ≠ kernel_vmm → c !! cpu = Some (root_pagetable v -64 PHYSICAL_OFFSET)).
Proof.
  intros Hk Hid Hm Hv. unfold on_vs, zoom, change_current_vmm.
  erewrite bind_done.
  2: { unfold on_vcpus, zoom. rewrite (get_cpu_same s k Hk Hid). done. }
  erewrite bind_done.
  2: { unfold on_vcpus, zoom. cbn [vcpus]. rewrite (cpu_put_run _ _ _ k Hk). done. }
  cbn [vmms areas conts locks vcpus cr3 tables vheap]. destruct (decide (m ≠ kernel_vmm)) as [Hne|Heq].
  - erewrite bind_done.
    2: { apply load_vmm_run; [done|exact Hv]. }
    eexists. split; [done|]. intros _. cbn. apply lookup_insert_eq.
  - eexists. split; [done|]. intros Hne. done.
Qed.

Lemma arm_run s nano :
  hpet_base_addr (stimers s) ≠ 0 → 0 < period (stimers s) < 2 ^ 53 →
  (∃ x2 base, on_cpu (tlap (stimers s)) cpu x2 base) → 0 ≤ nano → nano * 10 ^ 6 < 2 ^ 53 →
  ∃ t, arm vector_handler_0x40 polls cpu nano s = Done (tt, put_t t s) ∧ t_cpus t = vcpus (sv s) ∧
    hpet t = hpet (stimers s) ∧ hpet_period t = hpet_period (stimers s) ∧
    (hpet_base_addr t ≠ 0 ∧ 0 < period t < 2 ^ 53 ∧ (∃ x2 base, on_cpu (tlap t) cpu x2 base)) ∧
    timer_armed (stimers s) nano t.
Proof.
  intros Hb Hp (x2 & base & Hc) H0 Hn.
  destruct (arm_timer_run cpu vector_handler_0x40 polls (t_of s) nano false cpu x2 base) as (entry & F1 & F2 & F3 & Ea); try done.
  eexists. split; [by apply on_timers_run|]. cbn. split_and!; try done; try tauto.
  - exists x2, base. apply on_cpu_dev; [done|]. apply cpuid_armed.
  - by exists x2, base, entry.
Qed.

Lemma timeslice_range p r : 0 ≤ p → 0 ≤ r → 1000000 ≤ slice p r ≤ 100000000.
Proof. unfold slice. intros Hp Hr. split; [lia|]. apply Z.max_lub; [|lia]. apply Z.div_le_upper_bound; nia. Qed.

(** What a switch from [cur] to [se] leaves: [thc] and [thn] are the two
    threads before it, [context] the interrupted frame, [q'] the queue
    without its head, [p] the process of [thn]. *)
Record switched s (q' : rq) (cur se : Z) (thc thn : thread_t) (context : int_frame_t) (p : proc_t) s' : Prop := mk_switched {
  sw_threads : sthreads s' = <[se := set_t_state ACTIVE thn]> (<[cur := set_t_context context (set_t_state WAITING thc)]> (sthreads s));
  sw_cpu : ∃ kc, vcpus (sv s') !! cpu = Some kc ∧ cpu_id kc = cpu ∧ thread kc = se ∧ vmm kc = p_vmm p;
  sw_cr3 v : vmms (sv s) !! p_vmm p = Some v → p_vmm p ≠ kernel_vmm →
    cr3 (sv s') !! cpu = Some (root_pagetable v -64 PHYSICAL_OFFSET);
  sw_procs : sprocs s' = sprocs s ∧ vmms (sv s') = vmms (sv s);
  sw_queue : refines ok (q_of s') (rq_insert (key_after s cur, cur) q');
  sw_prio : prio (squeue s') = prio (squeue s);
  sw_ents : ∃ st, ents (tree_of (squeue s')) = <[cur := mk_sched_entity (key_after s cur) st]> (ents (tree_of (squeue s)));
  sw_timers : hpet_base_addr (stimers s') ≠ 0 ∧ 0 < period (stimers s') < 2 ^ 53 ∧
    ∃ x2 base, on_cpu (tlap (stimers s')) cpu x2 base;
  sw_armed pr : prio (squeue s) !! se = Some pr →
    timer_armed (stimers s) (slice pr (Z.of_nat (S (length q')))) (stimers s');
}.

(** The head of the queue leaves it. *)
Lemma dequeue_head s1 k se q' key cur :
  refines ok (q_of s1) (rq_insert (key, cur) ((k, se) :: q')) → cur ≠ se → se ∉ q'.*2 → Forall (λ y, k ≤ y.1) q' →
  Forall (λ y, y.1 ≠ k) q' → key ≠ k →
  (∀ x, x ∈ h_live (vheap (sv s1)) → ∃ h2, h_free x (vheap (sv s1)) = Done (tt, h2)) →
  ∃ c, on_queue (cfs_dequeue se) s1 = Done (tt, put_q c s1) ∧ refines ok c (rq_insert (key, cur) q') ∧
    prio c = prio (squeue s1) ∧ ents (tree_of c) = ents (tree_of (squeue s1)).
Proof.
  intros Hq Hne Hseq Hsorted Hk Hkey Hfr.
  destruct (cfs_dequeue_spec ok (q_of s1) _ k se Hq) as (c & Ed & Rc & Prc & Enc).
  { apply rq_insert_elem. right. by left. }
  { intros y [->|[->|Hy]%elem_of_cons]%rq_insert_elem Hyk; [done|done|]. rewrite Forall_forall in Hk. by destruct (Hk y Hy). }
  { intros a Ha. destruct (refines_live _ _ _ _ Hq Ha) as [Hok1 Hlive]. by apply Hfr. }
  exists c. rewrite rq_remove_head in Rc by done. split; [by apply on_queue_run|done].
Qed.

Lemma schedule_run s k se q' cur context thc thn p :
  sched_ok s ((k, se) :: q') cur → Forall (λ y, y.1 ≠ k) q' → key_after s cur ≠ k → serves (vheap (sv s)) →
  sthreads s !! cur = Some thc → sthreads s !! se = Some thn → sprocs s !! t_proc thn = Some p →
  ∃ s', schedule kernel_vmm idle_t vector_handler_0x40 uninit_node polls cpu context s
      = Done (set_rsp (r_rsp (f_registers context)) (t_context thn), s') ∧
    switched s q' cur se thc thn context p s'.
Proof.
  intros Hok Hk Hkey Hserve Ethc Ethn Ep. pose proof Hok as [(kc & Ekc & Hid & Hthr) Hq (_ & _ & Hcq) _ _ Hwait (Hb & Hper & Hon) Hroom].
  pose proof (refines_sorted _ _ _ _ _ Hq) as (Hsorted & Hseq & Hse0).
  assert (se ≠ cur) as Hne by (intros ->; apply Hcq; by left).
  destruct (Hwait se) as [(thn' & p' & v & E1 & _ & E2 & Hp0 & Ev) _ (pr & Hpr & Hprr)]; [by left|].
  rewrite Ethn in E1. injection E1 as <-. rewrite Ep in E2. injection E2 as <-.
  destruct (retire_run s _ cur k se q' context thc Hok eq_refl Ethc Hserve)
    as (s1 & Er & T1 & P1 & V1 & C1 & Q1 & Pr1 & (e & Ee & En1) & Ti1 & Fr1).
  unfold schedule. cbv zeta. rewrite (bind_done _ _ _ _ _ (read_cpu_run s kc Ekc Hid)), Hthr.
  erewrite bind_done by (apply on_queue_run; eapply cfs_pick_next_spec; exact Hq). rewrite put_q_same.
  cbn [rq_pick snd]. rewrite (bind_done _ _ _ _ _ Er), decide_False by done. rewrite decide_True by done.
  destruct (dequeue_head s1 k se q' _ cur Q1) as (c & Ed & Rc & Prc & Enc); try done.
  rewrite bind_assoc, (bind_done _ _ _ _ _ Ed), bind_assoc.
  erewrite bind_done by (apply upd_thread_run; cbn; rewrite T1, lookup_insert_ne by done; exact Ethn).
  set (s2 := set_sthreads _ (put_q c s1)). assert (vcpus (sv s2) !! cpu = Some kc) as Ek2 by (cbn; by rewrite C1).
  rewrite bind_assoc, (bind_done _ _ _ _ _ (set_current_thread_run s2 kc se Ek2 Hid)), bind_assoc.
  erewrite bind_done by (apply load_thread_run; cbn; apply lookup_insert_eq). rewrite bind_assoc.
  erewrite bind_done by (apply load_proc_run; cbn; rewrite P1; exact Ep). set (s3 := set_sv _ s2).
  destruct (change_vmm_run s3 (set_cpu_thread se kc) (p_vmm p) v) as (cr & Em & Hcr);
    [cbn; apply lookup_insert_eq|done|done|cbn; by rewrite V1|].
  rewrite bind_assoc, (bind_done _ _ _ _ _ Em). step. set (s4 := set_sv _ s3).
  assert (q_of s4 = c) as Hq4 by (by destruct c as [[]]).
  destruct (refines_heap _ _ _ Rc) as (_ & _ & Hrun). rewrite rq_insert_length in Hrun. cbn [length] in Hroom.
  assert (prio (q_of s4) !! se = Some pr) as Hpr4 by (rewrite Hq4, Prc, Pr1; exact Hpr).
  erewrite bind_done by (apply on_queue_run; apply (get_timeslice_run _ _ pr Hpr4 Hprr); rewrite Hq4; lia).
  rewrite put_q_same, Hq4, Hrun. fold (slice pr (Z.of_nat (S (length q')))). set (ts := slice _ _).
  assert (1000000 ≤ ts ≤ 100000000) as Hts by (apply timeslice_range; lia).
  destruct (arm_run s4 ts) as (tm & Ea & Tm1 & _ & _ & Tm2 & Tm3); [cbn; by rewrite Ti1..|lia|lia|].
  rewrite (bind_done _ _ _ _ _ Ea). eexists. split; [done|].
  split; [cbn; by rewrite T1| | |by split; cbn|by change (q_of (put_t tm s4)) with (q_of s4); rewrite Hq4|cbn; by rewrite Prc| |exact Tm2|].
  - eexists. split; [cbn; rewrite Tm1; cbn; apply lookup_insert_eq|done].
  - intros v' Ev'. rewrite Ev in Ev'. injection Ev' as <-. exact Hcr.
  - exists (exec_start_time e). cbn. rewrite Enc. exact En1.
  - intros pr'. rewrite Hpr. intros [= <-]. fold ts. change (stimers (put_t tm s4)) with tm. destruct Tm3 as (x2 & base & entry & Hx).
    exists x2, base, entry. cbn in Hx. rewrite Ti1 in Hx. exact Hx.
Qed.

(** The invariant after a switch. *)
Lemma switched_ok s k se q' cur context thc thn p s' :
  sched_ok s ((k, se) :: q') cur → sthreads s !! cur = Some thc → sthreads s !! se = Some thn →
  switched s q' cur se thc thn context p s' → sched_ok s' (rq_insert (key_after s cur, cur) q') se.
Proof.
  intros [_ Hq (Hc0 & Hci & Hcq) Hidle Hact Hwait _ Hroom] Ethc Ethn [T5 (kc & C5 & Hid & Hthr & _) _ [P5 V5] Q5 Pr5 (st & En5) Tm5 _].
  pose proof (refines_sorted _ _ _ _ _ Hq) as (_ & Hseq & Hse0). rewrite fmap_cons in Hcq, Hidle. cbn [snd] in Hcq, Hidle.
  apply not_elem_of_cons in Hcq as [Hne Hcq]. apply not_elem_of_cons in Hidle as [Hnei Hidle].
  assert (∀ t, is_Some (ents (tree_of (squeue s)) !! t) → is_Some (ents (tree_of (squeue s')) !! t)) as Hen.
  { intros t Ht. rewrite En5, lookup_insert. by case_decide. }
  assert (∀ t st st' th th', runnable s t st → sthreads s !! t = Some th → sthreads s' !! t = Some th' → t_state th' = st' →
    t_proc th' = t_proc th → runnable s' t st') as Hrun.
  { intros t st1 st2 th th' [(th0 & p0 & v0 & E0 & _ & Ep & Hp0 & Ev) He Hp] Eth Eth' Hst Hpr.
    rewrite Eth in E0. injection E0 as <-. split; [|by apply Hen|by rewrite Pr5]. exists th', p0, v0. by rewrite P5, V5, Hpr. }
  split; try done; [eauto| | | | |].
  - split_and!; [done|done|]. rewrite rq_insert_ids. cbn. by intros [->|?].
  - rewrite rq_insert_ids. cbn. by intros [->|?].
  - eapply (Hrun se); [apply Hwait; by left|exact Ethn|rewrite T5; apply lookup_insert_eq|done|done].
  - intros t. rewrite rq_insert_ids. cbn [snd]. intros [->|Hin].
    + eapply (Hrun cur); [exact Hact|exact Ethc|rewrite T5, lookup_insert_ne by done; apply lookup_insert_eq|done|done].
    + assert (t ≠ cur) by (by intros ->). assert (t ≠ se) by (by intros ->).
      apply (runnable_frame s); [apply Hwait; by right|by rewrite T5, !lookup_insert_ne|done|done|apply Hen|done].
  - rewrite rq_insert_length. cbn in Hroom. lia.
Qed.

(** C3: a round of [schedule] while another thread waits, when the heap has
    room for a tree node and the waiting thread with the least run time is the
    only one with that run time (the interrupted one included).  It returns
    with the frame of that thread, makes its process's address space the
    current one and loads its page table, arms the timer of the processor for
    the thread's time slice, keeps the interrupted frame in the interrupted
    thread, which is queued with the run time it is charged, and touches no
    other thread, no process and no address space; the invariant of the
    scheduler is preserved. *)
Theorem schedule_switches s k se q' cur context thc thn p v pr :
  sched_ok s ((k, se) :: q') cur → Forall (λ y, y.1 ≠ k) q' → key_after s cur ≠ k → serves (vheap (sv s)) →
  sthreads s !! cur = Some thc → sthreads s !! se = Some thn → sprocs s !! t_proc thn = Some p →
  vmms (sv s) !! p_vmm p = Some v → p_vmm p ≠ kernel_vmm → prio (squeue s) !! se = Some pr →
  ∃ s' kc, schedule kernel_vmm idle_t vector_handler_0x40 uninit_node polls cpu context s
      = Done (set_rsp (r_rsp (f_registers context)) (t_context thn), s') ∧
    sched_ok s' (rq_insert (key_after s cur, cur) q') se ∧
    sthreads s' = <[se := set_t_state ACTIVE thn]> (<[cur := set_t_context context (set_t_state WAITING thc)]> (sthreads s)) ∧
    sprocs s' = sprocs s ∧ vmms (sv s') = vmms (sv s) ∧
    vcpus (sv s') !! cpu = Some kc ∧ thread kc = se ∧ vmm kc = p_vmm p ∧
    cr3 (sv s') !! cpu = Some (root_pagetable v -64 PHYSICAL_OFFSET) ∧
    timer_armed (stimers s) (slice pr (Z.of_nat (S (length q')))) (stimers s').
Proof.
  intros Hok Hk Hkey Hsv Ethc Ethn Ep Ev Hne Epr.
  destruct (schedule_run s k se q' cur context thc thn p) as (s' & Es & Hsw); try done.
  pose proof (switched_ok _ _ _ _ _ _ _ _ _ _ Hok Ethc Ethn Hsw) as Hok'.
  destruct Hsw as [T5 (kc & C5 & _ & Hthr & Hv) Hcr [P5 V5] _ _ _ _ Har]. exists s', kc. split_and!; auto.
Qed.

(** ** Bounded waiting *)

Definition vruntime_of s (t : Z) : Z := match ents (tree_of (squeue s)) !! t with Some e => vruntime e | None => 0 end.

(** The scheduler run once for every interrupted frame of a list: the threads
    it starts. *)
Fixpoint sched_run (frames : list int_frame_t) : M mach (list Z) :=
  match frames with
  | [] => mret []
  | f :: frames =>
      schedule kernel_vmm idle_t vector_handler_0x40 uninit_node polls cpu f;;
      k ← on_scpus (get_cpu cpu);
      l ← sched_run frames;
      mret (thread k :: l)
  end.

(** At every round of the run the heap has room for a tree node, the head of
    the queue is the only thread with its run time, and the interrupted thread
    is charged some time without wrap-around. *)
Fixpoint rounds_fair (frames : list int_frame_t) s (q : rq) (cur : Z) : Prop :=
  match frames, q with
  | [], _ => True
  | _, [] => False
  | f :: frames, (k, se) :: q' =>
      Forall (λ y, y.1 ≠ k) q' ∧ key_after s cur ≠ k ∧ serves (vheap (sv s)) ∧ vruntime_of s cur < key_after s cur ∧
      match schedule kernel_vmm idle_t vector_handler_0x40 uninit_node polls cpu f s with
      | Done (_, s') => rounds_fair frames s' (rq_insert (key_after s cur, cur) q') se
      | _ => True
      end
  end.

(** How far the run times of the other threads are below the one of [w]. *)
Definition lead (kw k : Z) : Z := Z.max 0 (kw + 1 - k).
Fixpoint leads (kw w : Z) (q : rq) : Z :=
  match q with
  | [] => 0
  | y :: q => (if decide (y.2 = w) then 0 else lead kw y.1) + leads kw w q
  end.
(** The rounds [w] waits at most. *)
Definition wait_bound (kw w : Z) (q : rq) (kc : Z) : Z := leads kw w q + (if decide (kc ≤ kw) then lead kw kc else 1).

Lemma leads_insert kw w k t q : t ≠ w → leads kw w (rq_insert (k, t) q) = lead kw k + leads kw w q.
Proof.
  intros Ht. induction q as [|y q IH]; cbn [rq_insert leads snd fst]; [by rewrite decide_False|].
  case_decide; cbn [leads snd fst]; [rewrite (decide_False (P := t = w)) by done; lia|rewrite IH; lia].
Qed.

Lemma leads_nonneg kw w q : 0 ≤ leads kw w q.
Proof. induction q as [|y q IH]; cbn; [lia|]. unfold lead. case_decide; lia. Qed.

Lemma wait_bound_pos kw w q kc : 1 ≤ wait_bound kw w q kc.
Proof. unfold wait_bound, lead. pose proof (leads_nonneg kw w q). case_decide; lia. Qed.

(** A round in which [w] is not started brings it closer. *)
Lemma wait_bound_decreases kw w k se q' kc key cur :
  cur ≠ w → se ≠ w → k ≤ kw → kc < key →
  wait_bound kw w (rq_insert (key, cur) q') k < wait_bound kw w ((k, se) :: q') kc.
Proof.
  intros Hc Hs Hk Hkc. unfold wait_bound. rewrite leads_insert by done. cbn [leads snd fst].
  rewrite (decide_False (P := se = w)) by done. rewrite (decide_True (P := k ≤ kw)) by done. unfold lead. case_decide; lia.
Qed.

(** One fair round. *)
Lemma round_run s k se q' cur f :
  sched_ok s ((k, se) :: q') cur → Forall (λ y, y.1 ≠ k) q' → key_after s cur ≠ k → serves (vheap (sv s)) →
  ∃ s1 f' kc, schedule kernel_vmm idle_t vector_handler_0x40 uninit_node polls cpu f s = Done (f', s1) ∧
    sched_ok s1 (rq_insert (key_after s cur, cur) q') se ∧ vruntime_of s1 se = k ∧
    on_scpus (get_cpu cpu) s1 = Done (kc, s1) ∧ thread kc = se.
Proof.
  intros Hok Hk Hkey Hserve. destruct (rn_thread _ _ _ (so_active _ _ _ Hok)) as (thc & _ & _ & Ethc & _).
  destruct (rn_thread _ _ _ (so_waiting _ _ _ Hok se ltac:(by left))) as (thn & p & _ & Ethn & _ & Ep & _).
  destruct (schedule_run s k se q' cur f thc thn p) as (s1 & Es & Hsw); try done.
  pose proof (switched_ok _ _ _ _ _ _ _ _ _ _ Hok Ethc Ethn Hsw) as Hok1.
  destruct (so_cpu _ _ _ Hok1) as (kc & Ekc & Hid & Hthr).
  eexists s1, _, kc. split_and!; [exact Es|done| |by apply read_cpu_run|done].
  destruct (refines_key _ _ _ k se (so_queue _ _ _ Hok)) as (e & Ee & <-); [by left|].
  destruct (sw_ents _ _ _ _ _ _ _ _ _ Hsw) as (st & En), (so_cur _ _ _ Hok) as (_ & _ & Hcq).
  unfold vruntime_of. rewrite En, lookup_insert_ne; [|intros <-; apply Hcq; by left]. cbn in Ee. by rewrite Ee.
Qed.

(** The run never gets stuck. *)
Lemma sched_run_total frames s q cur :
  sched_ok s q cur → rounds_fair frames s q cur → ∃ l s', sched_run frames s = Done (l, s').
Proof.
  revert s q cur. induction frames as [|f frames IH]; intros s q cur Hok Hf; [by eexists _, _|].
  destruct q as [|[k se] q']; [done|]. destruct Hf as (Hk & Hkey & Hserve & _ & Hrest).
  destruct (round_run s k se q' cur f Hok Hk Hkey Hserve) as (s1 & f' & kc & Es & Hok1 & _ & Ec & Hthr). rewrite Es in Hrest.
  cbn [sched_run]. rewrite (bind_done _ _ _ _ _ Es), (bind_done _ _ _ _ _ Ec).
  destruct (IH s1 _ se Hok1 Hrest) as (l & s' & El). rewrite (bind_done _ _ _ _ _ El). by eexists _, _.
Qed.

(** C12: no waiting thread starves in a fair run ([rounds_fair]): a run in
    which no two threads ever have the least run time together, the thread
    interrupted is each time charged some time without wrap-around, and the
    heap always has room for a tree node.  While the processor keeps calling
    the scheduler in such a run, every waiting thread [w] is started after at
    most as many rounds as [wait_bound] says, which depends only on how far the
    run times of the other threads are below its own. *)
Theorem waiting_thread_runs frames s q cur kw w :
  sched_ok s q cur → (kw, w) ∈ q → rounds_fair frames s q cur →
  wait_bound kw w q (vruntime_of s cur) ≤ Z.of_nat (length frames) →
  ∃ l s', sched_run frames s = Done (l, s') ∧ w ∈ l.
Proof.
  revert s q cur. induction frames as [|f frames IH]; intros s q cur Hok Hw Hf Hb.
  { pose proof (wait_bound_pos kw w q (vruntime_of s cur)). cbn in Hb. lia. }
  destruct q as [|[k se] q']; [done|]. destruct Hf as (Hk & Hkey & Hserve & Hcharge & Hrest).
  destruct (round_run s k se q' cur f Hok Hk Hkey Hserve) as (s1 & f' & kc & Es & Hok1 & Hvr & Ec & Hthr). rewrite Es in Hrest.
  cbn [sched_run]. rewrite (bind_done _ _ _ _ _ Es), (bind_done _ _ _ _ _ Ec), Hthr.
  destruct (decide (se = w)) as [->|Hne].
  { destruct (sched_run_total frames s1 _ w Hok1 Hrest) as (l & s' & El). rewrite (bind_done _ _ _ _ _ El).
    eexists _, _. split; [done|]. by left. }
  assert (cur ≠ w) as Hcw.
  { intros ->. destruct (so_cur _ _ _ Hok) as (_ & _ & Hcq). apply Hcq, list_elem_of_fmap. by exists (kw, w). }
  apply elem_of_cons in Hw as [[= -> ->]|Hw]; [done|].
  destruct (refines_sorted _ _ _ _ _ (so_queue _ _ _ Hok)) as (Hsorted & _). rewrite Forall_forall in Hsorted.
  pose proof (Hsorted _ Hw) as Hkw. cbn in Hkw.
  destruct (IH s1 (rq_insert (key_after s cur, cur) q') se) as (l & s' & El & Hin); try done.
  - apply rq_insert_elem. by right.
  - rewrite Hvr. pose proof (wait_bound_decreases kw w k se q' (vruntime_of s cur) (key_after s cur) cur Hcw Hne Hkw Hcharge).
    cbn [length] in Hb. lia.
  - rewrite (bind_done _ _ _ _ _ El). eexists _, _. split; [done|]. by right.
Qed.
End switch.

(** ** Examples *)

(** Processor 3 runs thread 4; threads 3, 5 and 8 wait. *)
Definition ex_frame : int_frame_t := mk_frame zero_regs 0x40 0 0x400010 0x1B 0x202 0x7000 0x23.
Definition ex_thread (t : Z) : thread_t :=
  mk_thread t (replicate 64 0) (if decide (t = 4) then ACTIVE else WAITING) 100 (set_iret_rip (0x400000 + t) ex_frame) 0.
Definition ex_proc : proc_t := mk_proc 1 (replicate 64 0) (mk_ta 0x700 4 8) 0x500 0.
Definition ex_root_pt : Z := PHYSICAL_OFFSET + 0x1000.
Definition ex_user_vmm : vmm_info_t := mk_vmm ex_root_pt true 0x200000 0x200000 0x800000000000 0 0 0 0 0 0 0x600.
Definition ex_vmms : vmm_state (list Z) bump :=
  mk_vs {[0x500 := ex_user_vmm]} ∅ ∅ {[0x600 := mk_lock 0 0 None]} {[3 := mk_cpu 3 0 1 4 0x500 true]} {[3 := 0x1000]}
    (mk_vm (zero_words ex_root_pt) [0x2000; 0x3000] true) (mk_bump 256 {[64; 128; 192]}).
Definition ex_machine : machine (list Z) bump sim clock (gmap Z Z) unit :=
  mk_machine ex_vmms (no_heap ex_cfs) (list_to_map ((λ t, (t, ex_thread t)) <$> [3; 4; 5; 8; 9])) {[100 := ex_proc]}
    (mk_lst ∅ ∅) ∅ ∅ ∅ 2 10 (timers_at 12345) (mk_tsss ∅ tt 0 (mk_tssd 0 0 0 0 0 0 0 0 0) 0).

Lemma ex_sched_ok : sched_ok bump_ok 9 3 ex_machine [(3, 3); (5, 5); (8, 8)] 4.
Proof.
  assert (∀ t st, t ∈ [3; 4; 5; 8] → st = (if decide (t = 4) then ACTIVE else WAITING) → runnable ex_machine t st) as Hrun.
  { intros t st Ht ->. split.
    - exists (ex_thread t), ex_proc, ex_user_vmm. split_and!; try done.
      repeat (apply elem_of_cons in Ht as [->|Ht]; [done|]). by apply not_elem_of_nil in Ht.
    - repeat (apply elem_of_cons in Ht as [->|Ht]; [by eexists|]). by apply not_elem_of_nil in Ht.
    - exists 1. split; [|lia]. repeat (apply elem_of_cons in Ht as [->|Ht]; [done|]). by apply not_elem_of_nil in Ht. }
  split.
  - by eexists.
  - apply ex_cfs_refines.
  - split_and!; [done|done|]. apply (bool_decide_unpack _). by vm_compute.
  - apply (bool_decide_unpack _). by vm_compute.
  - apply Hrun; [set_solver|done].
  - intros t Ht. cbn in Ht. apply Hrun; [set_solver|]. rewrite decide_False; [done|]. intros ->. set_solver.
  - split_and!; try done. exists false, 0xffff800000003000. split; try done. by exists 0, 0x03000000, 0, 0x300.
  - done.
Qed.

Lemma bump_serves (h : bump) : b_next h ≠ 0 → serves h.
Proof. intros Hn. eexists _, _. split; [done|]. split; [done|]. intros x _. by eexists. Qed.

Lemma schedule_switches_witness :
  ∃ s' kc, schedule 0 9 0 ex_uninit 0 3 ex_frame ex_machine = Done (set_rsp 0 (t_context (ex_thread 3)), s') ∧
    sched_ok bump_ok 9 3 s' (rq_insert (246904, 4) [(5, 5); (8, 8)]) 3 ∧
    sthreads s' = <[3 := set_t_state ACTIVE (ex_thread 3)]>
      (<[4 := set_t_context ex_frame (set_t_state WAITING (ex_thread 4))]> (sthreads ex_machine)) ∧
    sprocs s' = sprocs ex_machine ∧ vmms (sv s') = vmms (sv ex_machine) ∧
    vcpus (sv s') !! 3 = Some kc ∧ thread kc = 3 ∧ vmm kc = 0x500 ∧
    cr3 (sv s') !! 3 = Some (ex_root_pt -64 PHYSICAL_OFFSET) ∧
    timer_armed 3 (stimers ex_machine) (slice 1 3) (stimers s').
Proof.
  replace 246904 with (key_after ex_machine 4) by (by vm_compute).
  refine (schedule_switches bump_ok 0 9 0 ex_uninit 0 3 ex_machine 3 3 [(5, 5); (8, 8)] 4 ex_frame
    (ex_thread 4) (ex_thread 3) ex_proc ex_user_vmm 1 ex_sched_ok _ _ _ eq_refl eq_refl eq_refl eq_refl _ eq_refl).
  - repeat constructor; done.
  - by vm_compute.
  - by apply bump_serves.
  - done.
Defined.

(** A run that passes the check is fair. *)
Fixpoint fair_check (frames : list int_frame_t) (s : machine (list Z) bump sim clock (gmap Z Z) unit) (q : rq) (cur : Z) : bool :=
  match frames, q with
  | [], _ => true
  | _, [] => false
  | f :: frames, (k, se) :: q' =>
      forallb (λ y : Z * Z, bool_decide (y.1 ≠ k)) q' && bool_decide (key_after s cur ≠ k) && bool_decide (b_next (vheap (sv s)) ≠ 0) &&
      bool_decide (vruntime_of s cur < key_after s cur) &&
      match schedule 0 9 0 ex_uninit 0 3 f s with
      | Done (_, s') => fair_check frames s' (rq_insert (key_after s cur, cur) q') se
      | _ => true
      end
  end.

Lemma fair_check_true frames s q cur : fair_check frames s q cur = true → rounds_fair 0 9 0 ex_uninit 0 3 frames s q cur.
Proof.
  revert s q cur. induction frames as [|f frames IH]; intros s q cur; [done|]. destruct q as [|[k se] q']; [done|].
  cbn [fair_check rounds_fair]. rewrite !andb_true_iff, !bool_decide_eq_true, forallb_forall. intros ((((H1 & H2) & H2') & H3) & H4).
  split_and!; try done; [|by apply bump_serves|].
  - apply Forall_forall. intros y Hy. specialize (H1 y). rewrite bool_decide_eq_true in H1. apply H1. by apply list_elem_of_In.
  - destruct (schedule _ _ _ _ _ _ _ _) as [[f' s']| | |]; try done. by apply IH.
Qed.

Lemma waiting_thread_runs_witness :
  ∃ l s', sched_run 0 9 0 ex_uninit 0 3 (replicate 5 ex_frame) ex_machine = Done (l, s') ∧ 5 ∈ l.
Proof.
  refine (waiting_thread_runs bump_ok 0 9 0 ex_uninit 0 3 (replicate 5 ex_frame) ex_machine
    [(3, 3); (5, 5); (8, 8)] 4 5 5 ex_sched_ok _ _ _).
  - apply (bool_decide_unpack _). by vm_compute.
  - apply fair_check_true. by vm_compute.
  - by vm_compute.
Defined.

(** The only thread of the only process has died in user mode; its stack is
    one page at 0x400000. *)
Definition exit_cont : Z := PHYSICAL_OFFSET + 0x9000.
Definition exit_vmms : vmm_state (list Z) bump :=
  mk_vs {[0x500 := mk_vmm ex_root_pt true 0x200000 0x200000 0x800000000000 1 exit_cont exit_cont 0x400fff exit_cont exit_cont 0x600]}
    {[exit_cont := mk_area 0x400000 4096 3 0 0 0]} {[exit_cont := 0]} {[0x600 := mk_lock 0 0 None]}
    {[3 := mk_cpu 3 0 1 4 0x500 true]} {[3 := 0x1000]} (mk_vm (zero_words ex_root_pt) [] true)
    (mk_bump 0x2000 {[4; 100; 0x500; 0x600; 0x700]}).
Definition exit_machine : machine (list Z) bump sim clock (gmap Z Z) unit :=
  mk_machine exit_vmms (mk_cfs (mk_rb_state 0 0 ∅ ∅ tt) 0 ∅)
    {[4 := mk_thread 1 (replicate 64 0) DEAD 100 ex_frame exit_cont; 9 := ex_thread 9]}
    {[100 := mk_proc 1 (replicate 64 0) (mk_ta 0x700 1 8) 0x500 0]}
    (mk_lst {[100 := 50; 50 := 100]} {[100 := 50; 50 := 100]}) {[0x700 := [4; 0; 0; 0; 0; 0; 0; 0]]} ∅ ∅ 2 10
    (timers_at 12345) (mk_tsss ∅ tt 0 (mk_tssd 0 0 0 0 0 0 0 0 0) 0).

(** When the last thread exits, its address space is destroyed while the
    processor runs on it, and the switch to the idle thread does not load the
    kernel's page table: the processor idles on a table whose page has been
    given back.  The idle code is entered with the segments of the dead
    thread, that is in user mode. *)
Lemma exit_idles_on_freed_table :
  ∃ f s', schedule 0x900 9 0 ex_uninit 0 3 ex_frame exit_machine = Done (f, s') ∧
    cr3 (sv s') !! 3 = Some 0x1000 ∧ 0x1000 ∈ free_pages (pages (tables (sv s'))) ∧
    iret_rip f = iret_rip (t_context (ex_thread 9)) ∧ Z.land (iret_cs f) 3 = 3.
Proof.
  assert (match schedule 0x900 9 0 ex_uninit 0 3 ex_frame exit_machine with
    | Done (f, s') => bool_decide (cr3 (sv s') !! 3 = Some 0x1000) && bool_decide (0x1000 ∈ pages (tables (sv s'))) &&
        bool_decide (iret_rip f = iret_rip (t_context (ex_thread 9))) && bool_decide (Z.land (iret_cs f) 3 = 3)
    | _ => false end = true) as Hb by (by vm_compute).
  destruct (schedule _ _ _ _ _ _ _ _) as [[f s']| | |]; [|discriminate Hb..]. exists f, s'.
  rewrite !andb_true_iff, !bool_decide_eq_true in Hb. destruct Hb as (((H1 & H2) & H3) & H4).
  split; [reflexivity|]. split; [exact H1|]. split; [exact H2|]. split; [exact H3|exact H4].
Qed.
