(* ===== verification/ProcOps.v ===== *)
(** * Creating and starting threads (kernel/process.c)

    [add_thread] gives a process a new thread with a stack of its own that
    starts in user mode at the entry point; [run_proc] puts all threads of a
    process into the run queue. *)
From S2P Require Import Prelude.
From S2P Require Import Interfaces.
From S2P Require Import Double.
From S2P Require Import Cpu.
From S2P Require Import RbTree.
From S2P Require Import RbInsert.
From S2P Require Import Cfs.
From S2P Require Import Spinlock.
From S2P Require Import Lst.
From S2P Require Import Layout.
From S2P Require Import Vm.
From S2P Require Import Vmm.
From S2P Require Import VmmAlloc.
From S2P Require Import Libc.
From S2P Require Import Tty.
From S2P Require Import Printf.
From S2P Require Import ThreadArray.
From S2P Require Import Bytes.
From S2P Require Import Ioapic.
From S2P Require Import Idt.
From S2P Require Import Lapic.
From S2P Require Import Timer.
From S2P Require Import Process.
From S2P Require Import Sched.

Section procops.
Context {P H V W U E : Type} `{!PageAllocator P, !Allocator H, !LapicDev V, !HpetDev W, !IoApicDev U, !MemSource E}.
Context `{!LapicLaws V}.
Abbreviation mach := (machine P H V W U E).
Implicit Type s : mach.
Context (pg_ok : P → Prop) (managed : P → Z → Prop) `{!PageAllocatorLaws P pg_ok managed}.
Context (ok : H → Prop) `{!AllocatorLaws H ok}.
Context (free_tid_lock : Z).
Context (uninit_area : Z → memory_area_t) (uninit_next : Z → Z) (uninit_node : rb_node_t) (junk : Z → nat → list Z).
Context (uninit_thread : Z → thread_t) (uninit_entity : Z → sched_entity_t) (uninit_prio : Z → Z).
Context (h_realloc : Z → Z → M H Z) (spins : nat) (cpu : Z).

(** ** Strings *)

Lemma read_bytes_run m a l : at_ m a l → read_bytes (length l) a m = Done (l, m).
Proof.
  revert a. induction l as [|x l IH]; intros a Ha; cbn [length read_bytes]; [done|].
  apply at_cons in Ha as [Hx Ha]. rewrite (bind_done _ _ _ _ _ (ldb_run _ _ _ Hx)), (bind_done _ _ _ _ _ (IH _ Ha)). done.
Qed.

Lemma strnlen_run m a l (n : nat) len :
  at_ m (a + len) (l ++ [0]) → Forall (λ c, c ≠ 0) l → (length l < n)%nat →
  strnlen_loop n a len m = Done (len + Z.of_nat (length l), m).
Proof.
  revert n len. induction l as [|c l IH]; intros n len Ha Hl Hn; (destruct n as [|n]; [cbn in Hn; lia|]); cbn [strnlen_loop app] in *.
  all: apply at_cons in Ha as [Hc Ha]; rewrite (bind_done _ _ _ _ _ (ldb_run _ _ _ Hc)).
  - rewrite decide_True by done. rewrite ret_run. do 2 f_equal. cbn. lia.
  - apply Forall_cons in Hl as [H0 Hl]. rewrite decide_False by done. rewrite <- Z.add_assoc in Ha.
    rewrite IH by (try done; cbn in Hn; lia). do 2 f_equal. cbn [length]. lia.
Qed.

(** A name that fits is copied and padded with zeros. *)
Lemma strncpy_field_run m a l n :
  at_ m a (l ++ [0]) → Forall (λ c, c ≠ 0) l → Z.of_nat (length l) < n →
  strncpy_field a n m = Done (l ++ replicate (Z.to_nat (n - Z.of_nat (length l))) 0, m).
Proof.
  intros Ha Hl Hn. unfold strncpy_field, strnlen.
  rewrite (bind_done _ _ _ _ _ (strnlen_run m a l (Z.to_nat n) 0 ltac:(by rewrite Z.add_0_r) Hl ltac:(lia))).
  rewrite Z.add_0_l, Nat2Z.id. apply at_app in Ha as [Ha _]. by rewrite (bind_done _ _ _ _ _ (read_bytes_run _ _ _ Ha)).
Qed.

(** ** Locks and address spaces inside the machine *)

Lemma on_vs_run {A} (f : M (vmm_state P H) A) s a v : f (sv s) = Done (a, v) → on_vs f s = Done (a, set_sv v s).
Proof. intros Hf. unfold on_vs, zoom. by rewrite Hf. Qed.

Lemma vmm_inv_frame m v cl l (a b : vmm_state P H) :
  vmm_inv pg_ok cpu m v cl l a → vmms b = vmms a → areas b = areas a → tables b = tables a → vcpus b = vcpus a →
  locks b !! lock v = locks a !! lock v → vmm_inv pg_ok cpu m v cl l b.
Proof.
  intros [I1 I2 I3 I4 I5 I6 I7 I8] E1 E2 E3 E4 E5. split; rewrite ?E1, ?E2, ?E3, ?E4, ?E5; done.
Qed.

(** The frame a new thread starts with: user mode, interrupts on. *)
Definition start_frame (entry sp : Z) : int_frame_t :=
  mk_frame zero_regs 0 0 entry (Z.lor 0x18 3) 0x202 sp (Z.lor 0x20 3).

Abbreviation the_add_thread := (add_thread (V := V) (W := W) (U := U) (E := E) free_tid_lock uninit_area uninit_next junk
  uninit_thread uninit_entity uninit_prio h_realloc spins cpu).

Lemma alloc_thread_run s t h' :
  h_alloc sizeof_thread (vheap (sv s)) = Done (t, h') → t ≠ 0 →
  ∃ c, alloc_thread uninit_thread uninit_entity uninit_prio s
    = Done (t, set_squeue c (set_sthreads (<[t := uninit_thread t]> (sthreads s)) (set_sv (set_vheap h' (sv s)) s))).
Proof.
  intros Ha Ht. unfold alloc_thread.
  erewrite bind_done.
  2: { unfold on_sheap. apply on_vs_run. unfold on_heap, zoom. by rewrite Ha. }
  rewrite decide_False by done. step. eexists.
  erewrite bind_done by (apply on_queue_run; done). done.
Qed.

(** Taking the next thread number under its lock. *)
Lemma take_tid_run {A} (f : M mach A) s t th lk k n :
  sthreads s !! t = Some th → locks (sv s) !! free_tid_lock = Some lk → held lk = 0 →
  vcpus (sv s) !! cpu = Some k → nest cpu n k → 0 ≤ n < 2 ^ 32 - 1 →
  (on_vs (on_lock free_tid_lock (acquire (S spins) cpu));;
   n ← gets next_free_tid;
   upd_thread t (set_tid n);;
   modify (set_next_tid (n +64 1));;
   on_vs (on_lock free_tid_lock (release cpu));; f) s
  = f (set_next_tid (next_free_tid s +64 1) (set_sthreads (<[t := set_tid (next_free_tid s) th]> (sthreads s))
      (set_sv (put_lock free_tid_lock (mk_lock 0 0 (lk_name lk)) (vcpus (sv s)) (sv s)) s))).
Proof.
  intros Ht Hlk Hh Hk Hn Hr.
  rewrite (bind_done _ _ _ _ _ (on_vs_run _ s _ _ (acquire_vmm spins cpu _ _ _ _ Hlk Hh Hk))). step.
  erewrite bind_done by (apply upd_thread_run; cbn; exact Ht). step.
  erewrite bind_done.
  2: { apply on_vs_run. cbn. eapply release_vmm; [apply lookup_insert_eq|reflexivity|exact Hk|exact Hn|exact Hr]. }
  f_equal. destruct s as [[]]. unfold put_lock, set_sv. cbn. by rewrite insert_insert_eq.
Qed.

Definition b_of s : blocks H := mk_blocks (sslots s) (vheap (sv s)).

Lemma on_threads_run s proc p f arr b :
  sprocs s !! proc = Some p → f (p_threads p) (b_of s) = Done (arr, b) →
  on_threads proc f s = Done (tt, set_sprocs (<[proc := set_p_threads arr p]> (sprocs s))
    (set_sslots (slots b) (set_sv (set_vheap (ta_heap b) (sv s)) s))).
Proof.
  intros Hp Hf. unfold on_threads. rewrite (bind_done _ _ _ _ _ (load_proc_run _ _ _ Hp)).
  erewrite bind_done.
  2: { unfold on_blocks, zoom. fold (b_of s). rewrite Hf. done. }
  apply modifyf_done. cbn. by rewrite Hp.
Qed.

(** What [add_thread] leaves alone. *)
Record add_frame s s' : Prop := mk_add_frame {
  af_words : words (tables (sv s')) = words (tables (sv s));
  af_nx : nx_flag_enabled (tables (sv s')) = nx_flag_enabled (tables (sv s));
  af_cpus : vcpus (sv s') = vcpus (sv s);
  af_frames : sframes s' = sframes s;
  af_links : slinks s' = slinks s;
  af_pid : next_free_pid s' = next_free_pid s;
  af_cr3 : cr3 (sv s') = cr3 (sv s);
}.

Lemma add_thread_run s proc p name nm entry t h' lk v cl l lt :
  h_alloc sizeof_thread (vheap (sv s)) = Done (t, h') → t ≠ 0 →
  locks (sv s) !! free_tid_lock = Some lk → held lk = 0 → lock v ≠ free_tid_lock →
  at_ (smem s) name (nm ++ [0]) → Forall (λ c, c ≠ 0) nm → (length nm < 64)%nat →
  sprocs s !! proc = Some p → vmm_inv pg_ok cpu (p_vmm p) v cl l (sv s) →
  vmm_data_end v + 4096 ≤ 2 ^ 64 → next_found v 0 + 4095 ≤ vmm_data_end v →
  (current_index v = 102 ∨ cl = [] → free_pages (pages (tables (sv s))) ≠ []) →
  holds_list (b_of s) (p_threads p) lt → ta_len (p_threads p) < ta_capacity (p_threads p) < 2 ^ 60 →
  ∃ s' v' cl' stack arr, the_add_thread proc name entry s = Done (t, s') ∧
    sthreads s' = <[t := mk_thread (next_free_tid s) (nm ++ replicate (64 - length nm) 0) WAITING proc
                     (start_frame entry (next_found v 0 + 4096)) stack]> (sthreads s) ∧
    next_free_tid s' = next_free_tid s +64 1 ∧
    sprocs s' = <[proc := set_p_threads arr p]> (sprocs s) ∧ holds_list (b_of s') arr (lt ++ [t]) ∧
    vmm_inv pg_ok cpu (p_vmm p) v' cl' (l ++ [mk_desc stack (next_found v 0) 4096]) (sv s') ∧ root_pagetable v' = root_pagetable v ∧
    add_frame s s'.
Proof.
  intros Ha Ht Hlk Hh Hlv Hnm Hnz Hnl Hp Hi Hend Hroom Hpages Harr [Hlt Hcap]. unfold add_thread.
  destruct (alloc_thread_run s t h' Ha Ht) as (c & E1). rewrite (bind_done _ _ _ _ _ E1), decide_False by done.
  set (s1 := set_squeue c _).
  destruct (vi_cpu _ _ _ _ _ _ _ Hi) as (k & n & Hk & Hn & Hr).
  rewrite (take_tid_run _ s1 t (uninit_thread t) lk k n); try done; [|cbn; apply lookup_insert_eq].
  set (s2 := set_next_tid _ _).
  erewrite bind_done by (apply upd_thread_run; cbn; apply lookup_insert_eq).
  erewrite bind_done by (apply upd_thread_run; cbn; apply lookup_insert_eq).
  set (s3 := set_sthreads _ (set_sthreads _ s2)).
  rewrite (bind_done _ _ _ (nm ++ replicate (64 - length nm) 0) s3).
  2: { unfold on_smem, zoom. cbn [smem s3 s2 s1 set_sthreads set_next_tid set_sv set_squeue].
       rewrite (strncpy_field_run (smem s) name nm THREAD_NAME_LEN Hnm Hnz) by (unfold THREAD_NAME_LEN; lia).
       unfold THREAD_NAME_LEN. replace (Z.to_nat (64 - Z.of_nat (length nm))) with (64 - length nm)%nat by lia. done. }
  erewrite bind_done by (apply upd_thread_run; cbn; apply lookup_insert_eq).
  erewrite bind_done by (apply load_proc_run; cbn; exact Hp). set (s4 := set_sthreads _ s3).
  assert (vmm_inv pg_ok cpu (p_vmm p) v cl l (sv s4)) as Hi4.
  { eapply vmm_inv_frame; [exact Hi|done..|]. cbn. by rewrite lookup_insert_ne. }
  destruct (vmm_alloc_at_run pg_ok managed uninit_area uninit_next spins cpu (p_vmm p) v cl l (sv s4) 0 PAGE_SIZE MEMORY_FLAG_WRITE Hi4)
    as (stack & sv5 & v' & cl' & E5 & Hst0 & Hi5 & _ & _ & Hheap & Hcp5 & _ & _ & Hpl5); [unfold u64p; lia|done|done|done|done|].
  rewrite (bind_done _ _ _ _ _ (on_vs_run _ s4 _ _ E5)), decide_False by done.
  change (area_len PAGE_SIZE + 1) with 4096 in Hi5.
  erewrite bind_done by (apply upd_thread_run; cbn; apply lookup_insert_eq).
  destruct (achain_lookup _ _ _ _ (mk_desc stack (next_found v 0) 4096) (vi_chain _ _ _ _ _ _ _ Hi5)) as (a & Ea & Hs & Hz & _);
    [apply elem_of_app; right; by left|]. cbn [d_addr d_start d_size] in Ea, Hs, Hz.
  erewrite bind_done by (apply on_vs_run, load_area_run; [done|exact Ea]).
  rewrite Hs, Hz.
  assert (next_found v 0 +64 4096 = next_found v 0 + 4096) as ->.
  { pose proof (next_found_spec pg_ok uninit_area uninit_next cpu _ _ _ _ _ 0 Hi4 ltac:(unfold u64p; lia) Hend) as (Hm & Hpos & _). apply w64_small. lia_div. }
  erewrite bind_done by (apply upd_thread_run; cbn; apply lookup_insert_eq).
  erewrite bind_done by (apply upd_thread_run; cbn; apply lookup_insert_eq).
  erewrite bind_done by (apply upd_thread_run; cbn; apply lookup_insert_eq).
  set (s6 := set_sthreads _ _).
  destruct (add_in_place (ArrayHeap0 := arrays_from_heap h_realloc) junk (b_of s6) (p_threads p) lt t) as (arr & b & E6 & Hb & Hbh & _); [|done|done|].
  { destruct Harr as (bl & Hbl & Hrest). by exists bl. }
  erewrite bind_done by (apply on_threads_run; [cbn; exact Hp|exact E6]).
  eexists _, v', cl', stack, arr. split; [done|]. split_and!; try done.
  - cbn. rewrite !insert_insert_eq. done.
  - eapply vmm_inv_frame; [exact Hi5|done..].
  - apply Hpl5.
  - pose proof (pl_cr3 _ _ _ _ _ _ _ Hpl5). destruct Hpl5 as [W1 W2 _ _ _ _ _ _ _]. split; try done.
Qed.

(** C38: [add_thread] with memory available returns a new thread of the
    process: waiting, with the next number, its name, and a frame that starts
    in user mode at the entry point with the stack pointer at the end of a
    stack area of its own, behind every other area of the address space; the
    thread is the last of the process's array, and the address space stays
    well formed. *)
Theorem add_thread_creates s proc p name nm entry t h' lk v cl l lt :
  h_alloc sizeof_thread (vheap (sv s)) = Done (t, h') → t ≠ 0 →
  locks (sv s) !! free_tid_lock = Some lk → held lk = 0 → lock v ≠ free_tid_lock →
  at_ (smem s) name (nm ++ [0]) → Forall (λ c, c ≠ 0) nm → (length nm < 64)%nat →
  sprocs s !! proc = Some p → vmm_inv pg_ok cpu (p_vmm p) v cl l (sv s) →
  vmm_data_end v + 4096 ≤ 2 ^ 64 → next_found v 0 + 4095 ≤ vmm_data_end v →
  (current_index v = 102 ∨ cl = [] → free_pages (pages (tables (sv s))) ≠ []) →
  holds_list (b_of s) (p_threads p) lt → ta_len (p_threads p) < ta_capacity (p_threads p) < 2 ^ 60 →
  ∃ s' v' cl' stack arr, the_add_thread proc name entry s = Done (t, s') ∧
    sthreads s' = <[t := mk_thread (next_free_tid s) (nm ++ replicate (64 - length nm) 0) WAITING proc
                     (start_frame entry (next_found v 0 + 4096)) stack]> (sthreads s) ∧
    next_free_tid s' = next_free_tid s +64 1 ∧
    sprocs s' = <[proc := set_p_threads arr p]> (sprocs s) ∧ holds_list (b_of s') arr (lt ++ [t]) ∧
    vmm_inv pg_ok cpu (p_vmm p) v' cl' (l ++ [mk_desc stack (next_found v 0) 4096]) (sv s').
Proof.
  intros. destruct (add_thread_run s proc p name nm entry t h' lk v cl l lt) as (s' & v' & cl' & stack & arr & E1 & A1 & A2 & A3 & A4 & A5 & _); try done.
  by exists s', v', cl', stack, arr.
Qed.

(** ** Starting a process *)

Lemma now_of_eq s s' :
  hpet_base_addr (stimers s) ≠ 0 → hpet (stimers s') = hpet (stimers s) →
  hpet_base_addr (stimers s') = hpet_base_addr (stimers s) → hpet_period (stimers s') = hpet_period (stimers s) →
  now_of s' = now_of s.
Proof.
  intros Hb Eh Eb Ep. unfold now_of, uptime.
  rewrite (bind_done _ _ _ _ _ (poll_hpet_run _ Hb)), (bind_done _ _ _ _ _ (poll_hpet_run (stimers s') ltac:(by rewrite Eb))).
  rewrite !(bind_done (gets hpet_period) _ _ _ _ eq_refl). cbn [hpet_period set_hpet]. rewrite Eh, Ep.
  unfold d_u64, getf. by destruct (d_to_u64 _).
Qed.

(** The clock after [n] more readings. *)
Definition clock_at s (n : nat) : Z := now_of (set_stimers (set_hpet (Nat.iter n tick (hpet (stimers s))) (stimers s)) s).

(** The queue after the threads of a list have been queued one after the
    other, each charged the time since boot on top of its run time; [n] is the
    number of readings of the clock before. *)
Fixpoint start_queue s (n : nat) (l : list Z) (q : rq) : rq :=
  match l with
  | [] => q
  | t :: l =>
      let p := match prio (squeue s) !! t with Some p => p | None => 0 end in
      start_queue s (S n) l (rq_insert (charged (clock_at s n) (mk_sched_entity (vruntime_of s t) 0) p, t) q)
  end.

Lemma start_queue_ids s l n q : (start_queue s n l q).*2 ≡ₚ l ++ q.*2.
Proof.
  revert n q. induction l as [|t l IH]; intros n q; cbn [start_queue app]; [done|]. rewrite IH.
  rewrite Permutation_middle. apply Permutation_app; [done|]. generalize (charged (clock_at s n) (mk_sched_entity (vruntime_of s t) 0)
    match prio (squeue s) !! t with Some p => p | None => 0 end). intros k. clear.
  induction q as [|y q IH]; cbn [rq_insert]; [done|]. case_decide; [done|]. rewrite !fmap_cons, IH. apply perm_swap.
Qed.

Lemma refines_set_entity (st : cfs_t H) q se e : refines ok st q → se ∉ q.*2 → refines ok (set_entity se e st) q.
Proof.
  intros (t & Hok & <- & Hrest) Hse. rewrite rq_of_entities in Hse. exists t.
  split; [by apply rb_ok_set_entity|]. cbn. split; [by apply rq_of_set_entity|done].
Qed.

(** The heap has room for [n] tree nodes. *)
Fixpoint room (n : nat) (h : H) : Prop :=
  match n with
  | O => True
  | S n => ∃ a h', h_alloc sizeof_rb_node h = Done (a, h') ∧ a ≠ 0 ∧ room n h'
  end.

(** The machine [s'] is [s] but for the run queue, the heap and the clock,
    after the threads of [l] have been queued: as many readings of the clock,
    no priority and no entity but theirs changed. *)
Record run_frame s (l : list Z) s' : Prop := mk_run_frame {
  rf_rest : s' = set_stimers (stimers s') (set_squeue (squeue s') (set_sv (set_vheap (vheap (sv s')) (sv s)) s));
  rf_clock : t_of s' = set_hpet (Nat.iter (length l) tick (hpet (stimers s))) (t_of s);
  rf_prio : prio (squeue s') = prio (squeue s);
  rf_ents t : t ∉ l → ents (tree_of (squeue s')) !! t = ents (tree_of (squeue s)) !! t;
}.

Lemma run_frame_refl s : run_frame s [] s.
Proof. split; [by destruct s as [[]]|by destruct s as [? ? ? ? ? ? ? ? ? ? []]|done|done]. Qed.

Lemma run_frame_clock s l s' : run_frame s l s' →
  hpet (stimers s') = Nat.iter (length l) tick (hpet (stimers s)) ∧
  hpet_base_addr (stimers s') = hpet_base_addr (stimers s) ∧ hpet_period (stimers s') = hpet_period (stimers s).
Proof.
  intros [_ Et _ _]. split_and!; [change (hpet (stimers s')) with (hpet (t_of s'))|
    change (hpet_base_addr (stimers s')) with (hpet_base_addr (t_of s'))|
    change (hpet_period (stimers s')) with (hpet_period (t_of s'))]; by rewrite Et.
Qed.

(** One thread of the loop. *)
Lemma run_one s s1 done n t q e pr :
  run_frame s done s1 → t ∉ done → hpet_base_addr (stimers s) ≠ 0 → refines ok (q_of s1) q → t ∉ q.*2 → t ≠ 0 →
  ents (tree_of (squeue s)) !! t = Some e → prio (squeue s) !! t = Some pr → Z.of_nat (length q) + 1 < 2 ^ 64 →
  room (S n) (vheap (sv s1)) →
  ∃ s2, (reset_start t;; queue_entity uninit_node t) s1 = Done (tt, s2) ∧ run_frame s (done ++ [t]) s2 ∧
    refines ok (q_of s2) (rq_insert (charged (clock_at s (length done)) (mk_sched_entity (vruntime e) 0) pr, t) q) ∧
    room n (vheap (sv s2)).
Proof using AllocatorLaws0.
  intros Hf Htl Hb Hq Htq Ht0 He Hpr Hlen (a & h' & Ea & Ha0 & Hroom).
  pose proof (run_frame_clock _ _ _ Hf) as (F8 & F9 & F10). destruct Hf as [Er Ec0 F4 F5].
  assert (ents (tree_of (squeue s1)) !! t = Some e) as He1 by (by rewrite F5).
  set (e0 := mk_sched_entity (vruntime e) 0).
  assert (reset_start t s1 = Done (tt, put_q (set_entity t e0 (q_of s1)) s1)) as Ers.
  { apply on_queue_run. apply modifyf_done. cbn. by rewrite He1. }
  rewrite (bind_done _ _ _ _ _ Ers). set (sa := put_q _ s1). unfold queue_entity.
  destruct (clock_run sa) as [Ec _]; [cbn; by rewrite F9|]. rewrite (bind_done _ _ _ _ _ Ec). set (sb := put_t _ sa).
  assert (now_of sa = clock_at s (length done)) as ->.
  { apply now_of_eq; cbn; try done. }
  assert (q_of sb = set_entity t e0 (q_of s1)) as Eq by reflexivity.
  pose proof (refines_set_entity _ _ t e0 Hq Htq) as Hq'.
  destruct (cfs_queue_spec ok uninit_node (q_of sb) q (clock_at s (length done)) t e0 pr a h') as (c & Ecq & Hc & Hcp & Hce & Hch); try done.
  { rewrite Eq. cbn. apply lookup_insert_eq. } { rewrite Eq. cbn. by rewrite F4. }
  eexists. split; [exact (on_queue_run _ sb tt c Ecq)|]. split; [|split; [by rewrite q_of_put|cbn; by rewrite Hch]]. split.
  - subst sb sa. rewrite Er. done.
  - rewrite length_app. cbn [length]. rewrite Nat.add_1_r. change (Nat.iter (S (length done)) tick (hpet (stimers s))) with (tick (Nat.iter (length done) tick (hpet (stimers s)))).
    rewrite <- F8. change (set_hpet (tick (hpet (stimers s1))) (t_of s1) = set_hpet (tick (hpet (stimers s1))) (t_of s)). by rewrite Ec0.
  - change (prio c = prio (squeue s)). by rewrite Hcp, Eq.
  - intros x Hx. change (ents (tree_of c) !! x = ents (tree_of (squeue s)) !! x). rewrite Hce, Eq. cbn.
    rewrite elem_of_app in Hx. rewrite !lookup_insert_ne by (intros ->; apply Hx; right; by left). apply F5. intros ?. apply Hx. by left.
Qed.

Lemma run_loop_run s proc p bl :
  sprocs s !! proc = Some p → slots (b_of s) !! ta_data (p_threads p) = Some bl → hpet_base_addr (stimers s) ≠ 0 →
  ∀ l done s1 q, run_frame s done s1 → NoDup (done ++ l) → refines ok (q_of s1) q → (∀ t, t ∈ l → (t ∉ q.*2) ∧ t ≠ 0 ∧
    is_Some (ents (tree_of (squeue s)) !! t) ∧ is_Some (prio (squeue s) !! t)) →
  take (length l) (drop (length done) bl) = l → Z.of_nat (length q + length l) < 2 ^ 64 → room (length l) (vheap (sv s1)) →
  ∃ s', run_loop uninit_node (length l) proc (Z.of_nat (length done)) s1 = Done (tt, s') ∧
    run_frame s (done ++ l) s' ∧ refines ok (q_of s') (start_queue s (length done) l q).
Proof using AllocatorLaws0.
  intros Hp Hbl Hb. induction l as [|t l IH]; intros done s1 q Hf Hnd Hq Hl Ht Hlen Hroom; cbn [length run_loop start_queue].
  { exists s1. rewrite app_nil_r. by split_and!. }
  destruct (Hl t ltac:(by left)) as (Htq & Ht0 & [e He] & [pr Hpr]).
  assert (t ∉ done ∧ t ∉ l) as [Htd Htl] by (apply NoDup_app in Hnd as (_ & Hd & Hnd); apply NoDup_cons in Hnd as [? _]; split; [intros Hx; by destruct (Hd t Hx); left|done]).
  destruct (run_one s s1 done (length l) t q e pr) as (s2 & E2 & Hf2 & Hq2 & Hr2); try done; [cbn in Hlen; lia|].
  erewrite bind_done by (apply load_proc_run; rewrite (rf_rest _ _ _ Hf); exact Hp).
  assert (drop (length done) bl = t :: drop (length (done ++ [t])) bl) as Ed.
  { rewrite length_app, Nat.add_1_r.
    destruct (drop (length done) bl) as [|x r] eqn:Ex; [done|]. cbn in Ht. injection Ht as -> _. f_equal.
    change r with (drop 1 (t :: r)). rewrite <- Ex, drop_drop. f_equal. lia. }
  assert (bl !! length done = Some t) as Hn by (rewrite <- (Nat.add_0_r (length done)), <- lookup_drop, Ed; done).
  assert (on_blocks (load_slot (ta_data (p_threads p)) (Z.of_nat (length done))) s1 = Done (t, s1)) as Els.
  { unfold on_blocks, zoom. erewrite load_slot_run; [by destruct s1 as [[]]|cbn; rewrite (rf_rest _ _ _ Hf); exact Hbl|done]. }
  rewrite (bind_done _ _ _ _ _ Els), <- bind_assoc, (bind_done _ _ _ _ _ E2). rewrite Hpr.
  assert (vruntime_of s t = vruntime e) as -> by (unfold vruntime_of; by rewrite He).
  assert (S (length done) = length (done ++ [t])) as Es by (rewrite length_app; cbn; lia).
  replace (Z.of_nat (length done) + 1) with (Z.of_nat (length (done ++ [t]))) by lia. rewrite Es.
  assert (NoDup ((done ++ [t]) ++ l)) as Hnd2 by (by rewrite <- app_assoc).
  destruct (IH (done ++ [t]) s2 _ Hf2 Hnd2 Hq2) as (s' & E3 & Hf' & Hq'); [| | |exact Hr2|].
  - intros x Hx. destruct (Hl x ltac:(by right)) as (Hxq & Hx0 & Hxe & Hxp). split_and!; try done.
    rewrite rq_insert_ids. cbn. by intros [->|?].
  - rewrite Ed in Ht. cbn in Ht. by injection Ht.
  - rewrite rq_insert_length. cbn in Hlen. lia.
  - exists s'. split; [exact E3|]. split; [|done]. by rewrite <- app_assoc in Hf'.
Qed.

(** C15: when the heap has room for a tree node per thread and none of the
    threads waits already, [run_proc] queues every thread of the process, in
    the order of its array, each with its start time reset and charged the
    time since boot: the run queue then holds the threads of the process and
    those that waited.  The clock is read once per thread; nothing else of the
    machine changes but the tree, the heap and the entities of the threads
    queued. *)
Theorem run_proc_queues s proc p lt q :
  sprocs s !! proc = Some p → holds_list (b_of s) (p_threads p) lt → NoDup lt → refines ok (q_of s) q →
  hpet_base_addr (stimers s) ≠ 0 → (∀ t, t ∈ lt → (t ∉ q.*2) ∧ t ≠ 0 ∧
    is_Some (ents (tree_of (squeue s)) !! t) ∧ is_Some (prio (squeue s) !! t)) →
  Z.of_nat (length q + length lt) < 2 ^ 64 → room (length lt) (vheap (sv s)) →
  ∃ s' q', run_proc uninit_node proc s = Done (tt, s') ∧ q' = start_queue s 0 lt q ∧ refines ok (q_of s') q' ∧
    q'.*2 ≡ₚ lt ++ q.*2 ∧ run_frame s lt s'.
Proof using AllocatorLaws0.
  intros Hp (bl & Hbl & _ & Htk & Hlen & _) Hnd Hq Hb Hl Hsz Hroom. unfold run_proc.
  rewrite (bind_done _ _ _ _ _ (load_proc_run _ _ _ Hp)), Hlen, Nat2Z.id.
  destruct (run_loop_run s proc p bl Hp Hbl Hb lt [] s q) as (s' & E2 & Hf & Hq'); try done; [apply run_frame_refl|].
  eexists s', _. split; [exact E2|]. split; [done|]. split; [done|]. split; [apply start_queue_ids|done].
Qed.
End procops.

(** ** Examples *)

(** Process 100 has an address space and no thread yet; the name of its first
    thread is at 0x40. *)
Definition spawn_vmm : vmm_info_t := fresh_vmm 0x1000 LOWHALF_START LOWHALF_END 0x600 true.
Definition spawn_proc : proc_t := mk_proc 1 (replicate 64 0) (mk_ta 0x700 0 8) 0x500 0.
Definition spawn_vs : vmm_state (list Z) bump :=
  mk_vs ∅ ∅ ∅ {[ 0x600 := mk_lock 0 0 None; 0x608 := mk_lock 0 0 None ]} ex_cpus ∅
    (mk_vm ∅ [0x2000; 0x3000] true) (mk_bump 0x9000 ∅).
Definition spawn_mem : mem := bytes_at 0x40 [109; 97; 105; 110; 0] ∅.
Definition spawn_machine : machine (list Z) bump sim clock (gmap Z Z) unit :=
  mk_machine (put_vmm 0x500 spawn_vmm spawn_vs) (no_heap ex_cfs) ∅ {[100 := spawn_proc]}
    (mk_lst ∅ ∅) {[0x700 := replicate 8 0]} spawn_mem ∅ 2 10 (timers_at 12345) (mk_tsss ∅ tt 0 (mk_tssd 0 0 0 0 0 0 0 0 0) 0).

Lemma spawn_space_inv : vmm_inv list_pages_ok 1 0x500 spawn_vmm [] [] (sv spawn_machine).
Proof.
  apply (fresh_inv list_pages_ok ex_area_mem ex_next_mem); try done.
  destruct ex_vs_ready as (_ & Hc & Hp). split; [by eexists|by split].
Qed.

Lemma add_thread_creates_witness :
  ∃ s' v' cl' stack arr, add_thread 0x608 ex_area_mem ex_next_mem (λ _ n, replicate n 0) (λ _, ex_thread 9) (λ _, mk_sched_entity 0 0)
      (λ _, 1) (λ _ _, mret 0) 0 1 100 0x40 0x400000 spawn_machine = Done (0x9000, s') ∧
    sthreads s' = <[0x9000 := mk_thread 10 ([109; 97; 105; 110] ++ replicate (64 - 4) 0) WAITING 100
                     (start_frame 0x400000 (next_found spawn_vmm 0 + 4096)) stack]> (sthreads spawn_machine) ∧
    next_free_tid s' = 10 +64 1 ∧
    sprocs s' = <[100 := set_p_threads arr spawn_proc]> (sprocs spawn_machine) ∧ holds_list (b_of s') arr ([] ++ [0x9000]) ∧
    vmm_inv list_pages_ok 1 0x500 v' cl' ([] ++ [mk_desc stack (next_found spawn_vmm 0) 4096]) (sv s').
Proof.
  refine (add_thread_creates list_pages_ok (λ _, phys_page) 0x608 ex_area_mem ex_next_mem (λ _ n, replicate n 0) (λ _, ex_thread 9)
    (λ _, mk_sched_entity 0 0) (λ _, 1) (λ _ _, mret 0) 0 1 spawn_machine 100 spawn_proc 0x40 [109; 97; 105; 110] 0x400000 0x9000 _
    (mk_lock 0 0 None) spawn_vmm [] [] [] _ _ _ _ _ _ _ _ _ spawn_space_inv _ _ _ _ _); try done.
  - by apply at_check_true; vm_compute.
  - by repeat constructor.
  - cbn. lia.
  - exists (replicate 8 0). split_and!; try done. cbn. lia.
Defined.

(** Thread 4 of process 100 has not been started. *)
Definition start_proc : proc_t := mk_proc 1 (replicate 64 0) (mk_ta 0x700 1 8) 0x500 0.
Definition start_machine : machine (list Z) bump sim clock (gmap Z Z) unit :=
  set_sslots {[0x700 := 4 :: replicate 7 0]} (set_sprocs {[100 := start_proc]} ex_machine).

Lemma run_proc_queues_witness :
  ∃ s' q', run_proc ex_uninit 100 start_machine = Done (tt, s') ∧
    q' = start_queue start_machine 0 [4] [(3, 3); (5, 5); (8, 8)] ∧ refines bump_ok (q_of s') q' ∧
    q'.*2 ≡ₚ [4] ++ [3; 5; 8] ∧ run_frame start_machine [4] s'.
Proof.
  refine (run_proc_queues bump_ok ex_uninit start_machine 100 start_proc [4] [(3, 3); (5, 5); (8, 8)]
    _ _ _ ex_cfs_refines _ _ _ _); try done.
  - exists (4 :: replicate 7 0). split_and!; try done. cbn. lia.
  - apply NoDup_singleton.
  - intros t ->%list_elem_of_singleton. split_and!; [|done|by eexists..]. apply (bool_decide_unpack _). by vm_compute.
  - by eexists _, _.
Defined.
