(* ===== verification/Kvm.v ===== *)
(** * Setting up memory at boot (arch/x86-64/memory/vm.c)

    [kvminit] looks for the largest block of RAM in the memory map of the
    boot loader, maps the first 512 GB of physical memory at
    [PHYSICAL_OFFSET], and starts the page allocator and the address space of
    the kernel. *)
From S2P Require Import Prelude.
From S2P Require Import Interfaces.
From S2P Require Import Cpu.
From S2P Require Import Spinlock.
From S2P Require Import Lst.
From S2P Require Import Layout.
From S2P Require Import PhysAlloc.
From S2P Require Import Vm.
From S2P Require Import VmWalk.
From S2P Require Import VmMap.
From S2P Require Import Vmm.
From S2P Require Import VmmAlloc.
From S2P Require Import Libc.
From S2P Require Import Tty.
From S2P Require Import Printf.
From S2P Require Import Bytes.
From S2P Require Import Lapic.

Definition IA32_EFER : Z := 0xC0000080.
Definition SMALL_PAGE_SIZE : Z := 4096.

(** [struct multiboot_mmap_entry] and its bytes. *)
Record mmap_entry := mk_mmap { base_addr : Z; mm_length : Z; mm_type : Z }.
Definition sizeof_mmap_entry : Z := 24.
Definition mmap_bytes (e : mmap_entry) : list Z :=
  le_bytes 8 (base_addr e) ++ le_bytes 8 (mm_length e) ++ le_bytes 4 (mm_type e) ++ le_bytes 4 0.
Definition load_mmap (a : Z) : MEM mmap_entry :=
  b ← ld64 a; l ← ld64 (a + 8); t ← ld32 (a + 16); mret (mk_mmap b l t).

(** The memory the boot loader left, the processor, the page tables with the
    page allocator and the address spaces, and the flag for 1 GB pages. *)
Record boot (V H : Type) := mk_boot {
  b_mem : mem; b_dev : V; b_vs : vmm_state phys H; big_page_size_supported : bool; kernel_pml4 : Z;
}.
Arguments mk_boot {V H}.
Arguments b_mem {V H}.
Arguments b_dev {V H}.
Arguments b_vs {V H}.
Arguments big_page_size_supported {V H}.
Arguments kernel_pml4 {V H}.

Section kvm.
Context {V H : Type} `{!LapicDev V}.
Abbreviation BT := (M (boot V H)).
Implicit Type s : boot V H.
(** Addresses of the linker script and of statics: [pml4], [physical_mapping]
    and its physical address, the physical end of the kernel, [kernel_vmm] and
    its lock, [free_lst].  [alias] gives the address under which the rest of
    the kernel reaches a word of the recursive mapping. *)
Context (pml4 physical_mapping mapping_phys kernel_physical_end kernel_vmm kernel_vmm_lock free_lst : Z) (alias : Z → Z).

Definition set_b_vs v s : boot V H := mk_boot (b_mem s) (b_dev s) v (big_page_size_supported s) (kernel_pml4 s).
Definition set_b_dev v s : boot V H := mk_boot (b_mem s) v (b_vs s) (big_page_size_supported s) (kernel_pml4 s).
Definition set_b_big v s : boot V H := mk_boot (b_mem s) (b_dev s) (b_vs s) v (kernel_pml4 s).
Definition set_pml4 v s : boot V H := mk_boot (b_mem s) (b_dev s) (b_vs s) (big_page_size_supported s) v.
Definition set_b_tables (t : vm phys) s : boot V H :=
  let v := b_vs s in set_b_vs (mk_vs (vmms v) (areas v) (conts v) (locks v) (vcpus v) (cr3 v) t (vheap v)) s.
Definition set_nx (b : bool) s : boot V H :=
  let t := tables (b_vs s) in set_b_tables (mk_vm (words t) (pages t) b) s.

Definition on_bmem {A} : MEM A → BT A :=
  zoom b_mem (λ m s, mk_boot m (b_dev s) (b_vs s) (big_page_size_supported s) (kernel_pml4 s)).
Definition on_bvs {A} : M (vmm_state phys H) A → BT A := zoom b_vs set_b_vs.
Definition on_btab {A} : M (vm phys) A → BT A := zoom (λ s, tables (b_vs s)) set_b_tables.
Definition on_bphys {A} : PA A → BT A := λ f s, on_btab (on_pages f) s.

Definition enable_nx_flag : BT unit :=
  v ← gets (λ s, hw_rdmsr IA32_EFER (b_dev s));
  modify (λ s, set_b_dev (hw_wrmsr IA32_EFER (Z.lor v (Z.shiftl 1 11)) (b_dev s)) s).

Definition disable_id_mapping : BT unit :=
  let kernel_p2 := alias (pd_va 0 0) in
  e ← on_btab (rd kernel_p2);
  on_btab (wr kernel_p2 (set_present false e)).

(** The loop over the memory map, [n] entries left from [i]. *)
Fixpoint ram_loop (n : nat) (mmap i max_base max_size : Z) : BT (Z * Z) :=
  match n with
  | O => mret (max_base, max_size)
  | S n =>
      entry ← on_bmem (load_mmap (mmap + 16 + sizeof_mmap_entry * i));
      if decide (mm_type entry = 1 ∧ max_size < mm_length entry)
      then ram_loop n mmap (i + 1) (base_addr entry) (mm_length entry)
      else ram_loop n mmap (i + 1) max_base max_size
  end.

(** The entry of the direct mapping for the [i]th gigabyte. *)
Definition direct_entry (nx : bool) (i : Z) : Z :=
  set_page_size true (set_xd nx (set_writable true (set_present true (BIG_PAGE_SIZE * i)))).
Fixpoint direct_loop (n : nat) (i : Z) : BT unit :=
  match n with
  | O => mret tt
  | S n =>
      nx ← gets (λ s, nx_flag_enabled (tables (b_vs s)));
      on_btab (wr (physical_mapping + 8 * i) (direct_entry nx i));;
      direct_loop n (i + 1)
  end.

(** The first part of [kvminit]: the features of the processor, and entry 509
    of the root table. *)
Definition kvm_features : BT unit :=
  modify (set_pml4 pml4);;
  r ← getf (λ s, hw_cpuid 0x80000001 (b_dev s));
  let '(_, _, _, edx) := r in
  modify (set_nx (bool_decide (Z.land edx (Z.shiftl 1 20) ≠ 0)));;
  modify (set_b_big (bool_decide (Z.land edx (Z.shiftl 1 26) ≠ 0)));;
  nx ← gets (λ s, nx_flag_enabled (tables (b_vs s)));
  (if nx : bool then enable_nx_flag else mret tt);;
  let physical_entry := set_xd nx (set_writable true (set_present true mapping_phys)) in
  on_btab (wr (alias (pdpt_va PML4_RECURSE_ENTRY + 8 * 509)) physical_entry).

Definition kvminit (mmap : Z) : BT unit :=
  kvm_features;;
  size ← on_bmem (ld32 (mmap + 4));
  entry_size ← on_bmem (ld32 (mmap + 8));
  if decide (entry_size = 0) then fault else
  r ← ram_loop (Z.to_nat (w32 (size - 16) / entry_size)) mmap 0 0 0;
  let '(max_ram_base_addr, max_ram_size) := r in
  if decide (max_ram_size = 0) then panic else
  let phys_memory_end := w64 (max_ram_base_addr + max_ram_size - 1) in
  let start := w64 (PAGE_END kernel_physical_end SMALL_PAGE_SIZE + 1) in
  let ram := mk_ram start (w64 (phys_memory_end - start + 1)) in
  direct_loop 512 0;;
  on_bphys (init_phys_allocator free_lst ram);;
  p ← gets kernel_pml4;
  on_bvs (vmm_init kernel_vmm kernel_vmm_lock kernel_vmm p 0xFFFF800000000000 0xFFFFFE8000000000 false 0).
End kvm.

(** ** The memory map *)

(** The first of the largest blocks of RAM, (0, 0) when there is none. *)
Definition largest (es : list mmap_entry) (acc : Z * Z) : Z * Z :=
  foldl (λ acc e, if decide (mm_type e = 1 ∧ acc.2 < mm_length e) then (base_addr e, mm_length e) else acc) acc es.

Lemma largest_spec es acc :
  acc.2 ≤ (largest es acc).2 ∧ Forall (λ e, mm_type e = 1 → mm_length e ≤ (largest es acc).2) es ∧
  (largest es acc = acc ∨ ∃ e, e ∈ es ∧ mm_type e = 1 ∧ largest es acc = (base_addr e, mm_length e)).
Proof.
  revert acc. induction es as [|e es IH]; intros acc; [by split_and!; [..|left]|]. unfold largest in *. cbn [foldl].
  destruct (decide (mm_type e = 1 ∧ acc.2 < mm_length e)) as [[Ht Hl]|Hno].
  - destruct (IH (base_addr e, mm_length e)) as (H1 & H2 & H3). cbn in H1. split_and!.
    + lia.
    + apply Forall_cons. by split.
    + right. destruct H3 as [->|(e' & Hin & Ht' & ->)]; [exists e|exists e']; split_and!; try done; [by left|by right].
  - destruct (IH acc) as (H1 & H2 & H3). split_and!; [done| |].
    + apply Forall_cons. split; [intros; lia|done].
    + destruct H3 as [->|(e' & Hin & Ht' & ->)]; [by left|right]. exists e'. split_and!; try done. by right.
Qed.

Definition mmap_wf (e : mmap_entry) : Prop :=
  0 ≤ base_addr e < 2 ^ 64 ∧ 0 ≤ mm_length e < 2 ^ 64 ∧ 0 ≤ mm_type e < 2 ^ 32.

(** The tag of the memory map at [a], with the entries [es]. *)
Record mmap_at (m : mem) (a : Z) (es : list mmap_entry) : Prop := mk_mmap_at {
  ma_size : at_ m (a + 4) (le_bytes 4 (16 + 24 * Z.of_nat (length es)));
  ma_esize : at_ m (a + 8) (le_bytes 4 24);
  ma_entries : at_ m (a + 16) (es ≫= mmap_bytes);
  ma_wf : Forall mmap_wf es;
  ma_fits : 16 + 24 * Z.of_nat (length es) < 2 ^ 32;
}.

Lemma load_mmap_run m a e : at_ m a (mmap_bytes e) → mmap_wf e → load_mmap a m = Done (e, m).
Proof.
  intros Ha (H1 & H2 & H3). unfold mmap_bytes in Ha.
  apply at_app in Ha as [A1 Ha]. apply at_app in Ha as [A2 Ha]. apply at_app in Ha as [A3 _].
  rewrite !le_bytes_length in *. rewrite <- Z.add_assoc in A3. unfold load_mmap.
  erewrite bind_done by (apply ldn_run; [exact A1|done]). erewrite bind_done by (apply ldn_run; [exact A2|done]).
  erewrite bind_done by (apply ldn_run; [exact A3|done]). by destruct e.
Qed.

Lemma mmap_bytes_length e : length (mmap_bytes e) = 24%nat.
Proof. unfold mmap_bytes. by rewrite !length_app, !le_bytes_length. Qed.

Section boot.
Context {V H : Type} `{!LapicDev V, !LapicLaws V}.
Implicit Type s : boot V H.
Context (pml4 physical_mapping mapping_phys kernel_physical_end kernel_vmm kernel_vmm_lock free_lst : Z) (alias : Z → Z).
Context (cpu : Z) (Hstatic : 0 < free_lst ∧ ¬ (PHYSICAL_OFFSET ≤ free_lst < PHYSICAL_OFFSET + 2 ^ 39)).

Lemma on_bmem_run {A} (f : MEM A) s a : f (b_mem s) = Done (a, b_mem s) → on_bmem f s = Done (a, s).
Proof. intros Hf. unfold on_bmem, zoom. rewrite Hf. by destruct s. Qed.

Lemma ram_loop_run s a es i acc :
  at_ (b_mem s) (a + 16 + 24 * i) (es ≫= mmap_bytes) → Forall mmap_wf es →
  ram_loop (length es) a i acc.1 acc.2 s = Done (largest es acc, s).
Proof.
  revert i acc. induction es as [|e es IH]; intros i acc Ha Hwf; cbn [ram_loop length].
  { by destruct acc. }
  cbn [mbind list_bind] in Ha. apply at_app in Ha as [A1 A2]. rewrite mmap_bytes_length in A2. apply Forall_cons in Hwf as [H1 H2].
  erewrite bind_done by (apply on_bmem_run, load_mmap_run; [exact A1|done]).
  replace (a + 16 + 24 * i + Z.of_nat 24) with (a + 16 + 24 * (i + 1)) in A2 by lia.
  unfold largest. cbn [foldl]. case_decide; [exact (IH (i + 1) (_, _) A2 H2)|exact (IH (i + 1) acc A2 H2)].
Qed.

(** ** The direct mapping *)

Lemma direct_entry_ok nx i : 0 ≤ i < 512 →
  present (direct_entry nx i) = true ∧ page_size (direct_entry nx i) = true ∧
  pd_addr (direct_entry nx i) * 4096 = i * 2 ^ 30 ∧ Z.testbit (direct_entry nx i) 63 = nx.
Proof.
  intros Hi. set (f := λ i, let e := direct_entry nx (Z.of_nat i) in present e && page_size e &&
    bool_decide (pd_addr e * 4096 = Z.of_nat i * 2 ^ 30) && Bool.eqb (Z.testbit e 63) nx).
  assert (forallb f (seq 0 512) = true) as Hall by (destruct nx; by vm_compute).
  rewrite forallb_forall in Hall. specialize (Hall (Z.to_nat i) ltac:(apply in_seq; lia)). unfold f in Hall.
  rewrite Z2Nat.id in Hall by lia. rewrite !andb_true_iff, bool_decide_eq_true, eqb_true_iff in Hall. tauto.
Qed.

Lemma pd_addr_set_bit k b e : 0 ≤ k < 12 ∨ 51 ≤ k → pd_addr (set_bit k b e) = pd_addr e.
Proof.
  intros Hk. unfold pd_addr. apply Z.bits_inj'. intros i Hi. rewrite !Z.land_spec, !Z.shiftr_spec, set_bit_testbit by lia.
  destruct (decide (i < 39)); [rewrite decide_False by lia; done|]. rewrite Z.ones_spec_high by lia. by rewrite !andb_false_r.
Qed.

(** The entry of the root table leads to the page it was made from. *)
Lemma root_entry_ok nx x : x mod 4096 = 0 → 0 ≤ x < 2 ^ 51 →
  let e := set_xd nx (set_writable true (set_present true x)) in present e = true ∧ pd_addr e * 4096 = x.
Proof.
  intros Hm Hx e. unfold e, present, set_xd, set_writable, set_present.
  split; [rewrite !set_bit_testbit by lia; rewrite !decide_False by lia; by rewrite decide_True|].
  rewrite !pd_addr_set_bit by lia. rewrite pd_addr_eq. lia_div.
Qed.

Definition put_words (w : gmap Z Z) s : boot V H :=
  let t := tables (b_vs s) in set_b_tables (mk_vm w (pages t) (nx_flag_enabled t)) s.

Lemma wr_boot_run s a v : is_Some (words (tables (b_vs s)) !! a) →
  on_btab (wr a v) s = Done (tt, put_words (<[a := v]> (words (tables (b_vs s)))) s).
Proof. intros [e He]. unfold on_btab, zoom. by rewrite (wr_run _ a v e He). Qed.

(** The words of the direct mapping from entry [i] on. *)
Fixpoint direct_words (nx : bool) (n : nat) (i : Z) (w : gmap Z Z) : gmap Z Z :=
  match n with O => w | S n => direct_words nx n (i + 1) (<[physical_mapping + 8 * i := direct_entry nx i]> w) end.

Lemma direct_words_lookup nx n i w a :
  direct_words nx n i w !! a =
    if decide (physical_mapping + 8 * i ≤ a < physical_mapping + 8 * (i + Z.of_nat n) ∧ (a - physical_mapping) mod 8 = 0)
    then Some (direct_entry nx ((a - physical_mapping) / 8)) else w !! a.
Proof.
  revert i w. induction n as [|n IH]; intros i w; cbn [direct_words].
  { rewrite decide_False by lia. done. }
  rewrite IH. destruct (decide (a = physical_mapping + 8 * i)) as [->|Hne].
  - rewrite decide_False by lia. rewrite lookup_insert_eq, decide_True by lia_div. do 2 f_equal. lia_div.
  - rewrite lookup_insert_ne by done.
    match goal with |- (if decide ?A then _ else _) = (if decide ?B then _ else _) =>
      assert (A ↔ B) as Hiff by lia_div; destruct (decide A), (decide B); try done; tauto end.
Qed.

Lemma direct_loop_run n i s :
  (∀ j, i ≤ j < i + Z.of_nat n → is_Some (words (tables (b_vs s)) !! (physical_mapping + 8 * j))) →
  direct_loop physical_mapping n i s =
    Done (tt, put_words (direct_words (nx_flag_enabled (tables (b_vs s))) n i (words (tables (b_vs s)))) s).
Proof.
  revert i s. induction n as [|n IH]; intros i s Hw; cbn [direct_loop direct_words].
  { by destruct s as [? ? [? ? ? ? ? ? [] ?]]. }
  step. rewrite (bind_done _ _ _ _ _ (wr_boot_run s _ _ (Hw i ltac:(lia)))). rewrite IH; [done|].
  intros j Hj. cbn. destruct (decide (physical_mapping + 8 * i = physical_mapping + 8 * j)) as [->|Hne]; [rewrite lookup_insert_eq; eauto|].
  rewrite lookup_insert_ne by done. apply Hw. lia.
Qed.

(** ** [kvminit] *)

Definition words_of s : gmap Z Z := words (tables (b_vs s)).

(** What the processor makes of a virtual address that leads to a 1 GB page:
    [root] is the root table, [view] the address at which the words of a table
    in a physical page are found, [gb] says whether 1 GB pages are supported. *)
Definition hw_translate (view : Z → Z) (gb : bool) (w : gmap Z Z) (root va : Z) : option Z :=
  match w !! (root + 8 * (va / 2 ^ 39 mod 512)) with
  | Some e4 =>
      if present e4 then
        match w !! (view (pd_addr e4 * 4096) + 8 * (va / 2 ^ 30 mod 512)) with
        | Some e3 => if present e3 && page_size e3 && gb then Some (pd_addr e3 * 4096 + va mod 2 ^ 30) else None
        | None => None
        end
      else None
  | None => None
  end.

(** [PHYSICAL_OFFSET + x] is mapped to [x] on a processor with 1 GB pages. *)
Definition maps_direct (view : Z → Z) s (x : Z) : Prop :=
  hw_translate view true (words_of s) pml4 (PHYSICAL_OFFSET + x) = Some x.

Lemma direct_translate view nx w x :
  0 ≤ x < 2 ^ 39 → mapping_phys mod 4096 = 0 → 0 ≤ mapping_phys < 2 ^ 51 → view mapping_phys = physical_mapping →
  w !! (pml4 + 8 * 509) = Some (set_xd nx (set_writable true (set_present true mapping_phys))) →
  w !! (physical_mapping + 8 * (x / 2 ^ 30)) = Some (direct_entry nx (x / 2 ^ 30)) →
  hw_translate view true w pml4 (PHYSICAL_OFFSET + x) = Some x.
Proof.
  intros Hx Hm Hr Hv E4 E3. unfold hw_translate.
  assert ((PHYSICAL_OFFSET + x) / 2 ^ 39 mod 512 = 509) as -> by (unfold PHYSICAL_OFFSET; lia_div).
  assert ((PHYSICAL_OFFSET + x) / 2 ^ 30 mod 512 = x / 2 ^ 30) as -> by (unfold PHYSICAL_OFFSET; lia_div).
  rewrite E4. destruct (root_entry_ok nx mapping_phys Hm Hr) as [-> ->]. rewrite Hv, E3.
  destruct (direct_entry_ok nx (x / 2 ^ 30)) as (-> & -> & -> & _); [lia_div|]. cbn [andb]. f_equal. unfold PHYSICAL_OFFSET. lia_div.
Qed.

(** Detecting the features of the processor and entering the direct mapping. *)
Lemma features_run s r0 r1 r2 edx :
  let nx := bool_decide (Z.land edx (Z.shiftl 1 20) ≠ 0) in
  let slot := alias (pdpt_va PML4_RECURSE_ENTRY + 8 * 509) in
  hw_cpuid 0x80000001 (b_dev s) = Some (r0, r1, r2, edx) → is_Some (words_of s !! slot) →
  ∃ s1, kvm_features pml4 mapping_phys alias s = Done (tt, s1) ∧
    words_of s1 = <[slot := set_xd nx (set_writable true (set_present true mapping_phys))]> (words_of s) ∧
    pages (tables (b_vs s1)) = pages (tables (b_vs s)) ∧ nx_flag_enabled (tables (b_vs s1)) = nx ∧
    big_page_size_supported s1 = bool_decide (Z.land edx (Z.shiftl 1 26) ≠ 0) ∧
    b_mem s1 = b_mem s ∧ kernel_pml4 s1 = pml4 ∧ vmms (b_vs s1) = vmms (b_vs s).
Proof.
  intros nx slot Hc Hs. unfold kvm_features. step.
  rewrite (bind_done _ _ _ _ _ (getf_done (λ s, hw_cpuid 0x80000001 (b_dev s)) (set_pml4 pml4 s) _ Hc)).
  do 3 step. cbn [nx_flag_enabled tables b_vs set_b_big set_nx set_b_tables set_b_vs]. fold nx slot.
  set (s0 := set_b_big _ _).
  assert (∃ d, (if nx then enable_nx_flag else mret tt) s0 = Done (tt, set_b_dev d s0)) as [d Ed].
  { destruct nx; [|by exists (b_dev s0)]. eexists. unfold enable_nx_flag. step. done. }
  rewrite (bind_done _ _ _ _ _ Ed). eexists. split; [by apply wr_boot_run|]. split_and!; done.
Qed.

Lemma vmm_init_kernel (v : vmm_state phys H) pt : kernel_vmm ≠ 0 →
  vmm_init kernel_vmm kernel_vmm_lock kernel_vmm pt 0xFFFF800000000000 0xFFFFFE8000000000 false 0 v
  = Done (tt, put_vmm kernel_vmm (fresh_vmm pt 0xFFFF800000000000 0xFFFFFE8000000000 kernel_vmm_lock false) v).
Proof.
  intros Hk. unfold vmm_init, store_vmm. apply modifyf_done. rewrite (decide_False (P := kernel_vmm = 0)) by done.
  rewrite (decide_False (P := kernel_vmm ≠ kernel_vmm)) by tauto. done.
Qed.

(** What [kvminit] leaves behind. *)
Lemma kvminit_run s mmap es b n r0 r1 r2 edx view :
  let nx := bool_decide (Z.land edx (Z.shiftl 1 20) ≠ 0) in
  let slot := alias (pdpt_va PML4_RECURSE_ENTRY + 8 * 509) in
  let start := kernel_physical_end - kernel_physical_end mod 4096 + 4096 in
  let pc := (b + n - start) / 4096 in
  hw_cpuid 0x80000001 (b_dev s) = Some (r0, r1, r2, edx) → mmap_at (b_mem s) mmap es → largest es (0, 0) = (b, n) →
  is_Some (words_of s !! slot) → (∀ i, 0 ≤ i < 512 → is_Some (words_of s !! (physical_mapping + 8 * i)) ∧ physical_mapping + 8 * i ≠ slot) →
  0 ≤ kernel_physical_end → 0 ≤ b → 0 < n → start + 4096 ≤ b + n ≤ 2 ^ 39 - 8192 → kernel_vmm ≠ 0 →
  cpu_ready cpu (pages (tables (b_vs s))) →
  slot = pml4 + 8 * 509 → mapping_phys mod 4096 = 0 → 0 ≤ mapping_phys < 2 ^ 51 → view mapping_phys = physical_mapping →
  ∃ s', kvminit pml4 physical_mapping mapping_phys kernel_physical_end kernel_vmm kernel_vmm_lock free_lst alias mmap s = Done (tt, s') ∧
    words_of s' !! slot = Some (set_xd nx (set_writable true (set_present true mapping_phys))) ∧
    (∀ x, 0 ≤ x < 2 ^ 39 → maps_direct view s' x) ∧
    big_page_size_supported s' = bool_decide (Z.land edx (Z.shiftl 1 26) ≠ 0) ∧ nx_flag_enabled (tables (b_vs s')) = nx ∧
    phys_ok free_lst cpu pc (initial_pages pc) (pages (tables (b_vs s'))) ∧ base (pages (tables (b_vs s'))) = start + 4096 ∧
    vmms (b_vs s') !! kernel_vmm = Some (fresh_vmm pml4 0xFFFF800000000000 0xFFFFFE8000000000 kernel_vmm_lock false).
Proof.
  intros nx slot start pc Hc Hm El Hslot Hpm Hk0 Hb Hn Hend Hkv Hcpu Hal4 Hmp Hmr Hview.
  destruct (features_run s r0 r1 r2 edx Hc Hslot) as (s1 & E1 & W1 & P1 & N1 & B1 & M1 & K1 & _). fold slot nx in W1, N1.
  destruct Hm as [A1 A2 A3 Hwf Hfit]. unfold kvminit. rewrite (bind_done _ _ _ _ _ E1).
  erewrite bind_done by (apply on_bmem_run; rewrite M1; apply ldn_run; [exact A1|lia]).
  erewrite bind_done by (apply on_bmem_run; rewrite M1; apply ldn_run; [exact A2|lia]).
  rewrite decide_False by lia. rewrite w32_small by lia.
  replace ((16 + 24 * Z.of_nat (length es) - 16) / 24) with (Z.of_nat (length es)) by lia_div. rewrite Nat2Z.id.
  erewrite bind_done by (apply (ram_loop_run s1 mmap es 0 (0, 0)); [rewrite M1; by rewrite Z.mul_0_r, Z.add_0_r|done]).
  rewrite El. rewrite decide_False by lia.
  assert (w64 (PAGE_END kernel_physical_end SMALL_PAGE_SIZE + 1) = start) as Est.
  { change SMALL_PAGE_SIZE with PAGE_SIZE. unfold start in *. rewrite PAGE_END_eq by (unfold u64p; lia_div). rewrite w64_small; lia_div. }
  rewrite Est, (w64_small (b + n - 1)), w64_small by (unfold start in *; lia_div).
  replace (b + n - 1 - start + 1) with (b + n - start) by lia.
  erewrite bind_done.
  2: { apply direct_loop_run. intros j Hj. change (is_Some (words_of s1 !! (physical_mapping + 8 * j))). rewrite W1.
       destruct (Hpm j ltac:(lia)) as [Hj1 Hj2]. by rewrite lookup_insert_ne. }
  set (s2 := put_words _ s1). assert (start mod 4096 = 0) as Hal by (unfold start; lia_div).
  destruct (init_phys_run free_lst cpu Hstatic (mk_ram start (b + n - start)) (pages (tables (b_vs s)))) as (p & Ep & Hp & Hbase);
    cbn [ram_start ram_size]; [unfold start; lia_div|lia_div|lia_div|done|].
  assert (on_bphys (init_phys_allocator free_lst (mk_ram start (b + n - start))) s2
    = Done (tt, set_b_tables (mk_vm (words (tables (b_vs s2))) p (nx_flag_enabled (tables (b_vs s2)))) s2)) as Eb.
  { unfold on_bphys, on_btab, on_pages, zoom. cbn [pages tables b_vs s2 put_words set_b_tables set_b_vs]. rewrite P1. by rewrite Ep. }
  rewrite (bind_done _ _ _ _ _ Eb). step. cbn [ram_start ram_size] in *.
  eexists. split.
  { unfold on_bvs, zoom. rewrite vmm_init_kernel by done. done. }
  assert (∀ a, words_of s2 !! a = if decide (physical_mapping ≤ a < physical_mapping + 8 * 512 ∧ (a - physical_mapping) mod 8 = 0)
    then Some (direct_entry nx ((a - physical_mapping) / 8)) else words_of s1 !! a) as Hw.
  { intros a. unfold words_of at 1. cbn [words tables b_vs s2 put_words set_b_tables set_b_vs]. rewrite direct_words_lookup, N1.
    by rewrite Z.mul_0_r, Z.add_0_r, Z.add_0_l. }
  assert (words_of s2 !! slot = Some (set_xd nx (set_writable true (set_present true mapping_phys)))) as Hs2.
  { rewrite Hw, decide_False, W1; [apply lookup_insert_eq|]. intros [Hr Hmod].
    destruct (Hpm ((slot - physical_mapping) / 8) ltac:(lia_div)) as [_ Hne]. apply Hne. lia_div. }
  split; [exact Hs2|split; [|split; [exact B1|split; [exact N1|split; [exact Hp|split]]]]].
  - intros x Hx. apply (direct_translate view nx (words_of s2)); try done; [by rewrite <- Hal4|].
    rewrite Hw, decide_True by lia_div. do 2 f_equal. lia_div.
  - etrans; [exact Hbase|]. lia.
  - rewrite <- K1. apply lookup_insert_eq.
Qed.

(** C13: [kvminit] sets up memory.  When the largest block of RAM of the memory
    map ends behind the kernel and the processor supports 1 GB pages, the
    processor translates [PHYSICAL_OFFSET + x] to [x] for every physical
    address [x] below 512 GB, through entry 509 of the root table and the
    table [physical_mapping]; without 1 GB pages the same entries are written
    and [big_page_size_supported] is false.  The page allocator is started
    with [pc] pages from [start + 4096] on, the pages of the bitmap taken, as
    many as lie between the end of the kernel and the end of that block: the
    last of them lies a page past the end of the block.  The kernel has an
    empty address space on the root table. *)
Theorem kvminit_sets_up s mmap es b n r0 r1 r2 edx view :
  let nx := bool_decide (Z.land edx (Z.shiftl 1 20) ≠ 0) in
  let slot := alias (pdpt_va PML4_RECURSE_ENTRY + 8 * 509) in
  let start := kernel_physical_end - kernel_physical_end mod 4096 + 4096 in
  let pc := (b + n - start) / 4096 in
  hw_cpuid 0x80000001 (b_dev s) = Some (r0, r1, r2, edx) → mmap_at (b_mem s) mmap es → largest es (0, 0) = (b, n) →
  is_Some (words_of s !! slot) → (∀ i, 0 ≤ i < 512 → is_Some (words_of s !! (physical_mapping + 8 * i)) ∧ physical_mapping + 8 * i ≠ slot) →
  0 ≤ kernel_physical_end → 0 ≤ b → 0 < n → start + 4096 ≤ b + n ≤ 2 ^ 39 - 8192 → kernel_vmm ≠ 0 →
  cpu_ready cpu (pages (tables (b_vs s))) →
  slot = pml4 + 8 * 509 → mapping_phys mod 4096 = 0 → 0 ≤ mapping_phys < 2 ^ 51 → view mapping_phys = physical_mapping →
  ∃ s', kvminit pml4 physical_mapping mapping_phys kernel_physical_end kernel_vmm kernel_vmm_lock free_lst alias mmap s = Done (tt, s') ∧
    words_of s' !! slot = Some (set_xd nx (set_writable true (set_present true mapping_phys))) ∧
    (∀ x, 0 ≤ x < 2 ^ 39 → maps_direct view s' x) ∧
    big_page_size_supported s' = bool_decide (Z.land edx (Z.shiftl 1 26) ≠ 0) ∧ nx_flag_enabled (tables (b_vs s')) = nx ∧
    phys_ok free_lst cpu pc (initial_pages pc) (pages (tables (b_vs s'))) ∧ base (pages (tables (b_vs s'))) = start + 4096 ∧
    vmms (b_vs s') !! kernel_vmm = Some (fresh_vmm pml4 0xFFFF800000000000 0xFFFFFE8000000000 kernel_vmm_lock false).
Proof. apply kvminit_run. Qed.

(** The block between the kernel and the largest block of RAM is taken for RAM
    whatever the memory map says of it: every page in it, but for those of the
    bitmap, is on the free list. *)
Lemma kvminit_hands_out_hole s mmap es b n r0 r1 r2 edx x :
  let slot := alias (pdpt_va PML4_RECURSE_ENTRY + 8 * 509) in
  let start := kernel_physical_end - kernel_physical_end mod 4096 + 4096 in
  let pc := (b + n - start) / 4096 in
  hw_cpuid 0x80000001 (b_dev s) = Some (r0, r1, r2, edx) → mmap_at (b_mem s) mmap es → largest es (0, 0) = (b, n) →
  is_Some (words_of s !! slot) → (∀ i, 0 ≤ i < 512 → is_Some (words_of s !! (physical_mapping + 8 * i)) ∧ physical_mapping + 8 * i ≠ slot) →
  0 ≤ kernel_physical_end → 0 ≤ b → 0 < n → start + 4096 ≤ b + n ≤ 2 ^ 39 - 8192 → kernel_vmm ≠ 0 →
  cpu_ready cpu (pages (tables (b_vs s))) →
  slot = pml4 + 8 * 509 → mapping_phys mod 4096 = 0 → 0 ≤ mapping_phys < 2 ^ 51 →
  x mod 4096 = 0 → start + 4096 * (2 + ((pc - 1) / 8) / 4096) ≤ x < b →
  ∃ s' fr i, kvminit pml4 physical_mapping mapping_phys kernel_physical_end kernel_vmm kernel_vmm_lock free_lst alias mmap s = Done (tt, s') ∧
    phys_ok free_lst cpu pc fr (pages (tables (b_vs s'))) ∧ i ∈ fr ∧ x = base (pages (tables (b_vs s'))) + 4096 * i.
Proof.
  intros slot start pc Hc Hm El Hslot Hpm Hk0 Hb Hn Hend Hkv Hcpu Hs4 Hmp Hmr Hx Hr.
  destruct (kvminit_run s mmap es b n r0 r1 r2 edx (λ _, physical_mapping)) as (s' & E & _ & _ & _ & _ & Hp & Hbase & _); try done. fold start pc in Hp, Hbase.
  exists s', (initial_pages pc), ((x - start - 4096) / 4096). split_and!; try done.
  - unfold initial_pages. apply elem_of_seqZ. replace ((pc - 1) / 8 + 1 - 1) with ((pc - 1) / 8) by lia.
    assert (b + n - start - 4095 ≤ pc * 4096) as Hpc by (unfold pc; lia_div).
    clearbody pc start. lia_div.
  - rewrite Hbase. assert (start mod 4096 = 0) by (unfold start; lia_div). lia_div.
Qed.
End boot.

(** ** Examples *)

(** The kernel ends at 0x1fffff; RAM up to 0x208000, and a reserved block. *)
Definition boot_mmap : list mmap_entry := [mk_mmap 0 0x9fc00 1; mk_mmap 0x100000 0x108000 1; mk_mmap 0x208000 0x400000 2].
Definition boot_mem : mem :=
  bytes_at 0x1000 (le_bytes 4 6 ++ le_bytes 4 88 ++ le_bytes 4 24 ++ le_bytes 4 0 ++ (boot_mmap ≫= mmap_bytes)) ∅.
Definition boot_words : gmap Z Z := zero_words 0x4000 ∪ zero_words 0x5000.
Definition boot0 : boot sim bump :=
  mk_boot boot_mem (mk_sim ∅ ∅ 0) (mk_vs ∅ ∅ ∅ ∅ ex_cpus ∅ (mk_vm boot_words ex_phys false) (mk_bump 0x9000 ∅)) false 0.
(** The root table is at 0x4000. *)
Definition boot_alias (a : Z) : Z := a - pdpt_va PML4_RECURSE_ENTRY + 0x4000.

Lemma boot_words_some i : 0 ≤ i < 512 → is_Some (boot_words !! (0x5000 + 8 * i)).
Proof.
  intros Hi. assert (forallb (λ i, bool_decide (is_Some (boot_words !! (0x5000 + 8 * Z.of_nat i)))) (seq 0 512) = true) as Hall
    by (by vm_compute). rewrite forallb_forall in Hall. specialize (Hall (Z.to_nat i) ltac:(apply in_seq; lia)).
  rewrite Z2Nat.id in Hall by lia. by apply bool_decide_eq_true in Hall.
Qed.

Lemma kvminit_sets_up_witness :
  let start := 0x1fffff - 0x1fffff mod 4096 + 4096 in
  let pc := (0x100000 + 0x108000 - start) / 4096 in
  ∃ s', kvminit 0x4000 0x5000 0x5000 0x1fffff 0x500 0x600 64 boot_alias 0x1000 boot0 = Done (tt, s') ∧
    words_of s' !! boot_alias (pdpt_va PML4_RECURSE_ENTRY + 8 * 509) = Some (set_xd true (set_writable true (set_present true 0x5000))) ∧
    (∀ x, 0 ≤ x < 2 ^ 39 → maps_direct 0x4000 (λ p, p) s' x) ∧ big_page_size_supported s' = true ∧ nx_flag_enabled (tables (b_vs s')) = true ∧
    phys_ok 64 1 pc (initial_pages pc) (pages (tables (b_vs s'))) ∧ base (pages (tables (b_vs s'))) = start + 4096 ∧
    vmms (b_vs s') !! 0x500 = Some (fresh_vmm 0x4000 0xFFFF800000000000 0xFFFFFE8000000000 0x600 false).
Proof.
  intros start pc.
  refine (kvminit_sets_up 0x4000 0x5000 0x5000 0x1fffff 0x500 0x600 64 boot_alias 1 ex_static boot0 0x1000 boot_mmap 0x100000 0x108000
    0 0 0 0x4100000 (λ p, p) eq_refl _ _ _ _ _ _ _ _ _ ex_phys_ready _ _ _ _).
  - split; [by apply at_check_true; vm_compute..| |done]. repeat constructor; by vm_compute.
  - by vm_compute.
  - apply (bool_decide_unpack _). by vm_compute.
  - intros i Hi. split; [by apply boot_words_some|]. assert (boot_alias (pdpt_va PML4_RECURSE_ENTRY + 8 * 509) = 0x4fe8) as -> by (by vm_compute). lia.
  - lia.
  - lia.
  - lia.
  - by vm_compute.
  - lia.
  - by vm_compute.
  - done.
  - lia.
  - done.
Defined.
