(* ===== verification/Dispatch.v ===== *)
(** * Interrupts (kernel/arch/x86-64/interrupt/interrupt_handler.c)

    [interrupt_dispatch] is what the interrupt stubs call: a page fault on an
    area of the address space is answered by mapping a fresh frame, the timer
    by switching threads, the keyboard by printing the key.  The machine of
    the processes and the console are put together here. *)
From S2P Require Import Prelude.
From S2P Require Import Interfaces.
From S2P Require Import Cpu.
From S2P Require Import RbTree.
From S2P Require Import RbRepr.
From S2P Require Import RbInsert.
From S2P Require Import Cfs.
From S2P Require Import Spinlock.
From S2P Require Import Lst.
From S2P Require Import Layout.
From S2P Require Import Vm.
From S2P Require Import VmWalk.
From S2P Require Import VmMap.
From S2P Require Import Vmm.
From S2P Require Import VmmAlloc.
From S2P Require Import Libc.
From S2P Require Import Tty.
From S2P Require Import Printf.
From S2P Require Import Keyboard.
From S2P Require Import ThreadArray.
From S2P Require Import Bytes.
From S2P Require Import Ioapic.
From S2P Require Import Idt.
From S2P Require Import Lapic.
From S2P Require Import Timer.
From S2P Require Import Process.
From S2P Require Import Sched.
From S2P Require Import ProcOps.

(** The vectors of x86-64.h. *)
Definition GENERAL_PROTECTION : Z := 13.
Definition PAGE_FAULT : Z := 14.
Definition IRQ_VECTOR_KEYBOARD : Z := 0x21.
Definition IRQ_HPET_TIMER (n : Z) : Z := 0x30 + n.
Definition APIC_TIMER_INTERRUPT : Z := 0x40.

(** The machine and the console. *)
Record kernel (S K : Type) := mk_kernel { ksys : S; kcon : K }.
Arguments mk_kernel {S K}.
Arguments ksys {S K}.
Arguments kcon {S K}.

Section dispatch.
Context {P H V W U E Q F : Type}.
Context `{!PageAllocator P, !Allocator H, !LapicDev V, !HpetDev W, !IoApicDev U, !MemSource E, !Ports Q}.
Abbreviation mach := (machine P H V W U E).
Abbreviation KRN := (M (kernel mach (kbd Q F))).
Context (kernel_vmm idle_t vector_handler_0x40 : Z) (uninit_node : rb_node_t) (polls : nat) (cpu : Z).
Context (font : pc_font) (c_slot buf_slot fmt_c : Z).

Definition on_machine {A} : M mach A → KRN A := zoom ksys (λ s k, mk_kernel s (kcon k)).
Definition on_console {A} : M (kbd Q F) A → KRN A := zoom kcon (λ c k, mk_kernel (ksys k) c).

(** The frame to return with.  The two messages of the timers have the level
    [DEBUG], which [log] drops. *)
Definition interrupt_dispatch (context : int_frame_t) : KRN int_frame_t :=
  let v := vector_number context in
  context ←
    (if decide (v = GENERAL_PROTECTION) then panic
     else if decide (v = PAGE_FAULT) then
       on_machine (page_fault kernel_vmm cpu (r_cr2 (f_registers context)) (error_code context));; mret context
     else if decide (v = IRQ_VECTOR_KEYBOARD) then
       on_console (keystroke_handler font c_slot buf_slot fmt_c);; mret context
     else if decide (v = IRQ_HPET_TIMER 0) then mret context
     else if decide (v = APIC_TIMER_INTERRUPT) then
       on_machine (schedule kernel_vmm idle_t vector_handler_0x40 uninit_node polls cpu context)
     else mret context);
  on_machine (on_timers (on_lapics send_eoi));;
  mret context.
End dispatch.

(** ** Demand paging *)

Section demand.
Context {P H : Type} `{!PageAllocator P, !Allocator H}.
Context (pg_ok : P → Prop) (managed : P → Z → Prop) `{!PageAllocatorLaws P pg_ok managed}.
Context (uninit_area : Z → memory_area_t) (uninit_next : Z → Z).
Context (kernel_vmm cpu : Z).
Abbreviation vs := (vmm_state P H).
Implicit Type s : vs.

(** The address space an address belongs to, on a processor with status [k]. *)
Definition relevant (k : cpu_status_t) (va : Z) : Z :=
  if decide (0xFFFF800000000000 ≤ va) then kernel_vmm else if decide (vmm k ≠ 0) then vmm k else kernel_vmm.

Lemma get_relevant_vmm_run s k va :
  vcpus s !! cpu = Some k → cpu_id k = cpu → get_relevant_vmm kernel_vmm cpu va s = Done (relevant k va, s).
Proof.
  intros Hk Hid. unfold get_relevant_vmm, relevant, get_current_vmm. case_decide; [done|].
  assert (set_cpu_id cpu k = k) as Es by (destruct k; cbn in *; by subst).
  erewrite bind_done; [done|]. unfold on_vcpus, zoom. rewrite (get_cpu_run _ _ _ Hk), Es, insert_id by done. by destruct s.
Qed.

(** The tables may change as long as no page becomes free. *)
Lemma vmm_inv_tables m v cl l s t :
  vmm_inv pg_ok cpu m v cl l s → pg_ok (pages t) → free_pages (pages t) ⊆ free_pages (pages (tables s)) →
  vmm_inv pg_ok cpu m v cl l (put_tables t s).
Proof.
  intros [I1 I2 I3 I4 I5 [C1 C2 C3 C4 C5 C6 C7 C8] I7 I8] Hok Hsub. split; try done. split; try done.
  intros x Hx. apply C8. by apply Hsub.
Qed.

(** Asking for a frame keeps the tables well formed. *)
Lemma vm_ok_take root tabs (t : vm P) p' :
  vm_ok pg_ok root tabs t → free_pages p' ⊆ free_pages (pages t) → pg_ok p' → vm_ok pg_ok root tabs (mk_vm (words t) p' (nx_flag_enabled t)).
Proof. intros [Hwf _ Hf] Hsub Hok. split; try done. intros y q Hy. apply Hf. by apply Hsub. Qed.

Lemma space_ok_tables m v cl l s t :
  space_ok pg_ok m v cl l s → pg_ok (pages t) → free_pages (pages t) ⊆ free_pages (pages (tables s)) →
  space_ok pg_ok m v cl l (put_tables t s).
Proof.
  intros [I1 I2 I3 I4 I5 [C1 C2 C3 C4 C5 C6 C7 C8]] Hok Hsub. split; try done. split; try done.
  intros x Hx. apply C8. by apply Hsub.
Qed.

(** What [on_demand_allocation] does with the answer [x] of [kalloc], which it
    does not test: the missing page of an area is mapped to the frame [x] with
    the flags of the area, and no other page changes. *)
Lemma on_demand_answer s k va m v cl l a tabs x p' :
  vcpus s !! cpu = Some k → cpu_id k = cpu → relevant k va = m → space_ok pg_ok m v cl l s →
  area_of l va ≠ 0 → areas s !! area_of l va = Some a → 0 ≤ a_flags a < 256 → 4096 ≤ va < 2 ^ 64 - 8192 →
  vm_ok pg_ok (root_pagetable v) tabs (tables s) → no_big (words (tables s)) tabs va →
  mapped (words (tables s)) tabs va = None →
  kalloc (pages (tables s)) = Done (x, p') → pg_ok p' → free_pages p' ⊆ free_pages (pages (tables s)) →
  x mod 4096 = 0 → 0 ≤ x < 2 ^ 39 → (3 ≤ length (free_pages p'))%nat ∨ leaf_addr tabs va ≠ None →
  ∃ t tabs', on_demand_allocation kernel_vmm cpu va s = Done (0, put_tables t s) ∧
    vm_ok pg_ok (root_pagetable v) tabs' t ∧
    (free_pages (pages t) ⊆ free_pages p' ∧ (length (free_pages p') ≤ length (free_pages (pages t)) + 3)%nat ∧
     calm (words (tables s)) tabs (words t) tabs' ∧ nx_flag_enabled t = nx_flag_enabled (tables s)) ∧
    ∀ va', mapped (words t) tabs' va' =
      if decide (page_no va' = page_no va) then Some (leaf_entry x (vmflag_to_x86flag (nx_flag_enabled (tables s)) (a_flags a)))
      else mapped (words (tables s)) tabs va'.
Proof.
  intros Hk Hid Hm Hi Hne Ha Hfl Hva Hok Hnb Hun Ek Hp' Hsubp Hx Hxr Hroom.
  destruct (so_vmm _ _ _ _ _ _ Hi) as [Hm0 Hv].
  unfold on_demand_allocation. rewrite (bind_done _ _ _ _ _ (get_relevant_vmm_run s k va Hk Hid)), Hm.
  destruct (get_area_space pg_ok uninit_area uninit_next cpu m v cl l s va Hi) as [Ega _].
  rewrite (bind_done _ _ _ _ _ Ega), decide_False by done.
  rewrite (bind_done _ _ _ _ _ (on_tables_run _ s _ _ (on_pages_run _ _ _ _ Ek))). set (t1 := mk_vm _ p' _). set (s1 := put_tables t1 s).
  rewrite (bind_done _ _ _ _ _ (load_vmm_run m v s1 Hm0 Hv)), (bind_done _ _ _ _ _ (load_area_run _ a s1 Hne Ha)).
  pose proof (vm_ok_take _ _ _ _ Hok Hsubp Hp') as Hok1. fold t1 in Hok1.
  rewrite PAGE_START_eq by (unfold u64p; lia). set (pg := va - va mod 4096).
  assert (page_no pg = page_no va) as Epg by (unfold page_no, pg; lia_div).
  assert (Hspan : page_span pg PAGE_SIZE = 1) by (unfold page_span, pg, PAGE_SIZE; lia_div).
  destruct (mappages_run pg_ok managed (root_pagetable v) tabs t1 pg PAGE_SIZE x (a_flags a) Hok1)
    as (r & t & tabs' & E & Hok' & Hres & Hgood & [Hsub Hslen Hsbig Hsnx]); rewrite ?Hspan; try done; try (unfold pg, PAGE_SIZE; lia_div).
  { intros j Hj. replace (_ + 4096 * j) with pg by (unfold pg; lia_div). unfold no_big. by apply same_page in Epg as [-> _]. }
  rewrite Hspan in *. assert (pg - pg mod 4096 = pg) as Epp by (unfold pg; lia_div). assert (x - x mod 4096 = x) as Exx by lia. rewrite Epp, Exx in *.
  assert (r = 0) as ->.
  { apply Hgood.
    - intros j Hj. replace (pg + 4096 * j) with pg by lia. rewrite <- Hun. unfold mapped, leaf, leaf_addr. by apply same_page in Epg as [-> ->].
    - destruct Hroom as [?|Hl]; [left; cbn; lia|right]. intros j Hj. replace (pg + 4096 * j) with pg by lia.
      revert Hl. unfold leaf_addr. by apply same_page in Epg as [-> ->]. }
  rewrite (bind_done _ _ _ _ _ (on_tables_run _ s1 _ _ E)), decide_False by lia.
  exists t, tabs'. split_and!; try done.
  destruct Hres as [[_ [M1 M2 _]]|[? _]]; [|lia]. intros va'. specialize (M1 0 ltac:(lia)). rewrite !Z.mul_0_r, !Z.add_0_r in M1.
  destruct (decide (page_no va' = page_no va)) as [Ep|Ep].
  - etrans; [|exact M1]. rewrite <- Epg in Ep. unfold mapped, leaf, leaf_addr. by apply same_page in Ep as [-> ->].
  - apply M2. rewrite elem_of_page_list. intros (j & Hj & Ej). apply Ep. rewrite Ej, <- Epg. f_equal. lia.
Qed.

(** With a free frame and three more for tables. *)
Lemma on_demand_space s k va m v cl l a tabs x fr :
  vcpus s !! cpu = Some k → cpu_id k = cpu → relevant k va = m → space_ok pg_ok m v cl l s →
  area_of l va ≠ 0 → areas s !! area_of l va = Some a → 0 ≤ a_flags a < 256 → 4096 ≤ va < 2 ^ 64 - 8192 →
  vm_ok pg_ok (root_pagetable v) tabs (tables s) → no_big (words (tables s)) tabs va →
  mapped (words (tables s)) tabs va = None → free_pages (pages (tables s)) = x :: fr → (3 ≤ length fr)%nat →
  ∃ t tabs', on_demand_allocation kernel_vmm cpu va s = Done (0, put_tables t s) ∧
    vm_ok pg_ok (root_pagetable v) tabs' t ∧
    (free_pages (pages t) ⊆ fr ∧ (length fr ≤ length (free_pages (pages t)) + 3)%nat ∧
     calm (words (tables s)) tabs (words t) tabs' ∧ nx_flag_enabled t = nx_flag_enabled (tables s)) ∧
    ∀ va', mapped (words t) tabs' va' =
      if decide (page_no va' = page_no va) then Some (leaf_entry x (vmflag_to_x86flag (nx_flag_enabled (tables s)) (a_flags a)))
      else mapped (words (tables s)) tabs va'.
Proof.
  intros Hk Hid Hm Hi Hne Ha Hfl Hva Hok Hnb Hun Hfp Hlen.
  destruct (kalloc_some _ x fr (vo_pages _ _ _ _ Hok) Hfp) as (p' & Ek & Hp' & Hfr & _).
  destruct (free_pages_ok _ (vo_pages _ _ _ _ Hok)) as (_ & Hpp & _). rewrite Hfp in Hpp. apply Forall_cons in Hpp as [[Hx Hxr] _].
  rewrite <- Hfr. eapply on_demand_answer; try done; [|lia|left; by rewrite Hfr]. rewrite Hfr, Hfp. intros y Hy. by right.
Qed.

(** With no frame left, [kalloc] answers 0. *)
Lemma on_demand_empty s k va m v cl l a tabs :
  vcpus s !! cpu = Some k → cpu_id k = cpu → relevant k va = m → space_ok pg_ok m v cl l s →
  area_of l va ≠ 0 → areas s !! area_of l va = Some a → 0 ≤ a_flags a < 256 → 4096 ≤ va < 2 ^ 64 - 8192 →
  vm_ok pg_ok (root_pagetable v) tabs (tables s) → no_big (words (tables s)) tabs va →
  mapped (words (tables s)) tabs va = None → free_pages (pages (tables s)) = [] → leaf_addr tabs va ≠ None →
  ∃ t tabs', on_demand_allocation kernel_vmm cpu va s = Done (0, put_tables t s) ∧
    vm_ok pg_ok (root_pagetable v) tabs' t ∧
    ∀ va', mapped (words t) tabs' va' =
      if decide (page_no va' = page_no va) then Some (leaf_entry 0 (vmflag_to_x86flag (nx_flag_enabled (tables s)) (a_flags a)))
      else mapped (words (tables s)) tabs va'.
Proof.
  intros Hk Hid Hm Hi Hne Ha Hfl Hva Hok Hnb Hun Hfp Hleaf.
  destruct (kalloc_none _ (vo_pages _ _ _ _ Hok) Hfp) as (p' & Ek & Hp' & Hfr & _).
  destruct (on_demand_answer s k va m v cl l a tabs 0 p') as (t & tabs' & E & Hok' & _ & Hmap); try done.
  - rewrite Hfr. intros y Hy. by apply not_elem_of_nil in Hy.
  - by right.
  - by exists t, tabs'.
Qed.

Lemma inv_cpu_id m v cl l s k : vmm_inv pg_ok cpu m v cl l s → vcpus s !! cpu = Some k → cpu_id k = cpu.
Proof. intros Hi Hk. destruct (vi_cpu _ _ _ _ _ _ _ Hi) as (k' & n & Hk' & (Hid & _) & _). by simplify_eq. Qed.

(** The same inside the invariant of the address space. *)
Lemma on_demand_run s k va m v cl l a tabs x fr :
  vcpus s !! cpu = Some k → relevant k va = m → vmm_inv pg_ok cpu m v cl l s →
  area_of l va ≠ 0 → areas s !! area_of l va = Some a → 0 ≤ a_flags a < 256 → 4096 ≤ va < 2 ^ 64 - 8192 →
  vm_ok pg_ok (root_pagetable v) tabs (tables s) → no_big (words (tables s)) tabs va →
  mapped (words (tables s)) tabs va = None → free_pages (pages (tables s)) = x :: fr → (3 ≤ length fr)%nat →
  ∃ t tabs', on_demand_allocation kernel_vmm cpu va s = Done (0, put_tables t s) ∧
    vm_ok pg_ok (root_pagetable v) tabs' t ∧ vmm_inv pg_ok cpu m v cl l (put_tables t s) ∧
    (free_pages (pages t) ⊆ fr ∧ (length fr ≤ length (free_pages (pages t)) + 3)%nat ∧
     calm (words (tables s)) tabs (words t) tabs' ∧ nx_flag_enabled t = nx_flag_enabled (tables s)) ∧
    ∀ va', mapped (words t) tabs' va' =
      if decide (page_no va' = page_no va) then Some (leaf_entry x (vmflag_to_x86flag (nx_flag_enabled (tables s)) (a_flags a)))
      else mapped (words (tables s)) tabs va'.
Proof.
  intros Hk Hm Hi Hne Ha Hfl Hva Hok Hnb Hun Hfp Hlen.
  destruct (on_demand_space s k va m v cl l a tabs x fr Hk (inv_cpu_id _ _ _ _ _ _ Hi Hk) Hm (inv_space _ _ _ _ _ _ _ Hi))
    as (t & tabs' & E & Hok' & Hr & Hmap); try done.
  exists t, tabs'. split_and!; try done; try apply Hr.
  apply vmm_inv_tables; [done|apply Hok'|]. rewrite Hfp. destruct Hr as [Hsub _]. intros y Hy. right. by apply Hsub.
Qed.

(** An address outside every area is refused. *)
Lemma on_demand_refuses s k va m v cl l :
  vcpus s !! cpu = Some k → cpu_id k = cpu → relevant k va = m → space_ok pg_ok m v cl l s →
  Forall (λ d, ¬ (d_start d ≤ va < d_end d)) l → on_demand_allocation kernel_vmm cpu va s = Done (-1, s).
Proof.
  intros Hk Hid Hm Hi Hout.
  unfold on_demand_allocation. rewrite (bind_done _ _ _ _ _ (get_relevant_vmm_run s k va Hk Hid)), Hm.
  destruct (get_area_space pg_ok uninit_area uninit_next cpu m v cl l s va Hi) as [Ega Hz].
  by rewrite (bind_done _ _ _ _ _ Ega), decide_True by (by apply Hz).
Qed.
End demand.

(** ** What an interrupt does *)

Section interrupts.
Context {P H V W U E Q F : Type}.
Context `{!PageAllocator P, !Allocator H, !LapicDev V, !HpetDev W, !IoApicDev U, !MemSource E, !Ports Q}.
Abbreviation mach := (machine P H V W U E).
Abbreviation krn := (kernel mach (kbd Q F)).
Implicit Type k : krn.
Context (pg_ok : P → Prop) (managed : P → Z → Prop) `{!PageAllocatorLaws P pg_ok managed}.
Context (uninit_area : Z → memory_area_t) (uninit_next : Z → Z).
Context (kernel_vmm idle_t vector_handler_0x40 : Z) (uninit_node : rb_node_t) (polls : nat) (cpu : Z).
Context (font : pc_font) (c_slot buf_slot fmt_c : Z).
Abbreviation dispatch := (interrupt_dispatch kernel_vmm idle_t vector_handler_0x40 uninit_node polls cpu font c_slot buf_slot fmt_c).

Lemma on_machine_run {A} (f : M mach A) k a s : f (ksys k) = Done (a, s) → on_machine f k = Done (a, mk_kernel s (kcon k)).
Proof. intros Hf. unfold on_machine, zoom. by rewrite Hf. Qed.

(** The state after the end of the interrupt is signalled to the controller
    of the processor. *)
Definition acked (x2 : bool) (s : mach) : mach :=
  put_t (set_tlap (set_ldev (reg_write x2 LAPIC_REG_EOI 0 (ldev (tlap (stimers s)))) (tlap (stimers s))) (t_of s)) s.

Lemma eoi_run (s : mach) id x2 base :
  on_cpu (tlap (stimers s)) id x2 base → on_timers (on_lapics send_eoi) s = Done (tt, acked x2 s).
Proof.
  intros Hc. apply on_timers_run. unfold on_lapics, zoom, send_eoi. cbn [tlap t_of set_tcpus].
  by rewrite (write_lapic_register_run _ _ _ _ _ _ Hc).
Qed.

(** Not present, and none of the other bits the handler tests. *)
Definition missing_page (error : Z) : bool :=
  negb (pf_present error || pf_rsvd error || pf_ifetch error || pf_pk error || pf_ss error || pf_hlat error || pf_sgx error).

Definition set_tables (t : vm P) (s : mach) : mach := set_sv (put_tables t (sv s)) s.

(** A served fault returns to the interrupted instruction. *)
Lemma page_fault_served k ctx t id x2 base :
  let s := ksys k in let va := r_cr2 (f_registers ctx) in
  vector_number ctx = PAGE_FAULT → missing_page (error_code ctx) = true → on_cpu (tlap (stimers s)) id x2 base →
  on_demand_allocation kernel_vmm cpu va (sv s) = Done (0, put_tables t (sv s)) →
  dispatch ctx k = Done (ctx, mk_kernel (acked x2 (set_tables t s)) (kcon k)).
Proof.
  intros s va Hvec Herr Hc E1. unfold interrupt_dispatch. rewrite Hvec.
  rewrite decide_False by done. rewrite decide_True by done. rewrite bind_assoc.
  erewrite bind_done.
  2: { apply on_machine_run. unfold page_fault. fold (missing_page (error_code ctx)). rewrite Herr.
       rewrite (bind_done _ _ _ _ _ (on_vs_run _ s _ _ E1)). by rewrite decide_False by lia. }
  step. erewrite bind_done by (apply on_machine_run, (eoi_run _ id x2 base); exact Hc). done.
Qed.

(** C11: demand paging.  A page fault on a missing page of an area of the
    current address space, or of the kernel's for the upper half, returns to
    the interrupted instruction with that page mapped to the first free frame
    with the rights of the area; no other page, area, thread or process
    changes, and the end of the interrupt is signalled.  It needs a free frame
    and three more for tables.  Nothing is asked of the interrupt flag, the
    nesting counter or the lock of the address space, so this is the state a
    handler starts in; what the page allocator's own lock does to the
    interrupt flag is in the allocator's state and not part of the claim. *)
Theorem page_fault_maps_area k ctx kc m v cl l a tabs x fr id x2 base :
  let s := ksys k in let va := r_cr2 (f_registers ctx) in
  vector_number ctx = PAGE_FAULT → missing_page (error_code ctx) = true →
  vcpus (sv s) !! cpu = Some kc → cpu_id kc = cpu → relevant kernel_vmm kc va = m → space_ok pg_ok m v cl l (sv s) →
  area_of l va ≠ 0 → areas (sv s) !! area_of l va = Some a → 0 ≤ a_flags a < 256 → 4096 ≤ va < 2 ^ 64 - 8192 →
  vm_ok pg_ok (root_pagetable v) tabs (tables (sv s)) → no_big (words (tables (sv s))) tabs va →
  mapped (words (tables (sv s))) tabs va = None →
  free_pages (pages (tables (sv s))) = x :: fr → (3 ≤ length fr)%nat →
  on_cpu (tlap (stimers s)) id x2 base →
  ∃ t tabs', dispatch ctx k = Done (ctx, mk_kernel (acked x2 (set_tables t s)) (kcon k)) ∧
    vm_ok pg_ok (root_pagetable v) tabs' t ∧ space_ok pg_ok m v cl l (put_tables t (sv s)) ∧
    free_pages (pages t) ⊆ fr ∧
    ∀ va', mapped (words t) tabs' va' =
      if decide (page_no va' = page_no va)
      then Some (leaf_entry x (vmflag_to_x86flag (nx_flag_enabled (tables (sv s))) (a_flags a)))
      else mapped (words (tables (sv s))) tabs va'.
Proof.
  intros s va Hvec Herr Hk Hid Hm Hi Hne Ha Hfl Hva Hok Hnb Hun Hfp Hlen Hc.
  destruct (on_demand_space pg_ok managed uninit_area uninit_next kernel_vmm cpu (sv s) kc va m v cl l a tabs x fr)
    as (t & tabs' & E1 & Hok' & (Hsub & _) & Hmap); try done.
  exists t, tabs'. split_and!; try done; [by eapply page_fault_served|].
  apply space_ok_tables; [done|apply Hok'|]. rewrite Hfp. intros y Hy. right. by apply Hsub.
Qed.

(** C34: when memory runs out the fault is answered all the same.  With no free
    frame and the page tables for the address in place, a page fault on a
    missing page of an area returns to the interrupted instruction with that
    page mapped, with the rights of the area, to the physical page 0:
    [on_demand_allocation] does not test the result of [kalloc]. *)
Theorem out_of_memory_maps_frame_zero k ctx kc m v cl l a tabs id x2 base :
  let s := ksys k in let va := r_cr2 (f_registers ctx) in
  vector_number ctx = PAGE_FAULT → missing_page (error_code ctx) = true →
  vcpus (sv s) !! cpu = Some kc → cpu_id kc = cpu → relevant kernel_vmm kc va = m → space_ok pg_ok m v cl l (sv s) →
  area_of l va ≠ 0 → areas (sv s) !! area_of l va = Some a → 0 ≤ a_flags a < 256 → 4096 ≤ va < 2 ^ 64 - 8192 →
  vm_ok pg_ok (root_pagetable v) tabs (tables (sv s)) → no_big (words (tables (sv s))) tabs va →
  mapped (words (tables (sv s))) tabs va = None →
  free_pages (pages (tables (sv s))) = [] → leaf_addr tabs va ≠ None →
  on_cpu (tlap (stimers s)) id x2 base →
  ∃ t tabs', dispatch ctx k = Done (ctx, mk_kernel (acked x2 (set_tables t s)) (kcon k)) ∧
    vm_ok pg_ok (root_pagetable v) tabs' t ∧
    ∀ va', mapped (words t) tabs' va' =
      if decide (page_no va' = page_no va)
      then Some (leaf_entry 0 (vmflag_to_x86flag (nx_flag_enabled (tables (sv s))) (a_flags a)))
      else mapped (words (tables (sv s))) tabs va'.
Proof.
  intros s va Hvec Herr Hk Hid Hm Hi Hne Ha Hfl Hva Hok Hnb Hun Hfp Hleaf Hc.
  destruct (on_demand_empty pg_ok managed uninit_area uninit_next kernel_vmm cpu (sv s) kc va m v cl l a tabs)
    as (t & tabs' & E1 & Hok' & Hmap); try done.
  exists t, tabs'. split_and!; try done. by eapply page_fault_served.
Qed.

(** A page fault outside every area, and one that is not a missing page,
    stop the kernel. *)
Lemma page_fault_outside_panics k ctx kc m v cl l :
  let s := ksys k in let va := r_cr2 (f_registers ctx) in
  vector_number ctx = PAGE_FAULT →
  vcpus (sv s) !! cpu = Some kc → cpu_id kc = cpu → relevant kernel_vmm kc va = m → space_ok pg_ok m v cl l (sv s) →
  missing_page (error_code ctx) = false ∨ Forall (λ d, ¬ (d_start d ≤ va < d_end d)) l →
  dispatch ctx k = Panic.
Proof.
  intros s va Hvec Hk Hid Hm Hi Hor. unfold interrupt_dispatch. rewrite Hvec.
  rewrite decide_False by done. rewrite decide_True by done. rewrite bind_assoc.
  assert (page_fault kernel_vmm cpu va (error_code ctx) s = Panic) as Ep.
  { unfold page_fault. fold (missing_page (error_code ctx)). destruct (missing_page _); [|done]. destruct Hor as [?|Hout]; [done|].
    by rewrite (bind_done _ _ _ _ _ (on_vs_run _ s _ _
      (on_demand_refuses pg_ok uninit_area uninit_next kernel_vmm cpu (sv s) kc va m v cl l Hk Hid Hm Hi Hout))). }
  apply bind_panic. unfold on_machine, zoom. fold s va. by rewrite Ep.
Qed.
End interrupts.

(** ** Examples *)

(** A process with one area of two pages at 0x400000 and no page mapped. *)
Definition fault_cont : Z := PHYSICAL_OFFSET + 0x9000.
Definition fault_vmm : vmm_info_t :=
  mk_vmm ex_root true 0x200000 0x200000 0x800000000000 1 fault_cont fault_cont 0x401fff fault_cont fault_cont 0x600.
Definition fault_machine (t : vm (list Z)) : machine (list Z) bump sim clock (gmap Z Z) unit :=
  mk_machine (mk_vs {[0x500 := fault_vmm]} {[fault_cont := mk_area 0x400000 8192 3 0 0 0]} {[fault_cont := 0]}
      {[0x600 := mk_lock 0 0 None]} {[3 := mk_cpu 3 0 1 4 0x500 true]} {[3 := 0x1000]} t (mk_bump 0x2000 ∅))
    (no_heap ex_cfs) ∅ ∅ (mk_lst ∅ ∅) ∅ ∅ ∅ 2 10 (timers_at 12345) (mk_tsss ∅ tt 0 (mk_tssd 0 0 0 0 0 0 0 0 0) 0).
Definition fault_kernel (t : vm (list Z)) : kernel (machine (list Z) bump sim clock (gmap Z Z) unit) (kbd (list Z) Z) :=
  mk_kernel (fault_machine t) kbd0.
(** A write to [va] by the user. *)
Definition fault_ctx (va : Z) : int_frame_t :=
  mk_frame (mk_regs va 0 0 0 0 0 0 0 0 0 0 0 0 0 0 0 0 (replicate 16 (0, 0))) PAGE_FAULT 6 0x400000 0x1B 0x202 0x7000 0x23.

Lemma fault_inv : vmm_inv list_pages_ok 3 0x500 fault_vmm [fault_cont] [mk_desc fault_cont 0x400000 8192] (sv (fault_machine ex_vm)).
Proof.
  split.
  - done.
  - cbn. split_and!; try done. eexists. split_and!; try done.
  - done.
  - cbn. split_and!; try done.
  - done.
  - split; try done.
    + apply NoDup_singleton.
    + repeat constructor; done.
    + intros x ->%list_elem_of_singleton. exists fault_cont, 0. split_and!; try done. by left.
    + apply (vo_pages _ _ _ _ ex_vm_ok).
    + intros x Hx Hin%list_elem_of_singleton. unfold fault_cont in Hin. assert (x = 0x9000) as -> by lia. revert Hx.
      apply (bool_decide_unpack _). by vm_compute.
  - by eexists.
  - eexists _, 0. split_and!; done.
Qed.

(** The same in a handler: interrupts are off, outside every [push_off]. *)
Definition handler_machine (t : vm (list Z)) : machine (list Z) bump sim clock (gmap Z Z) unit :=
  set_sv (set_vcpus {[3 := mk_cpu 3 0 1 4 0x500 false]} (sv (fault_machine t))) (fault_machine t).
Definition handler_kernel (t : vm (list Z)) : kernel (machine (list Z) bump sim clock (gmap Z Z) unit) (kbd (list Z) Z) :=
  mk_kernel (handler_machine t) kbd0.

Lemma handler_space t : list_pages_ok (pages t) → free_pages (pages t) ⊆ free_pages (pages ex_vm) →
  space_ok list_pages_ok 0x500 fault_vmm [fault_cont] [mk_desc fault_cont 0x400000 8192] (sv (handler_machine t)).
Proof.
  intros Hok Hsub. apply (space_ok_tables _ _ _ _ _ (sv (handler_machine ex_vm)) t); [|done|done].
  by destruct (inv_space _ _ _ _ _ _ _ fault_inv).
Qed.

Lemma page_fault_maps_area_witness :
  ∃ t tabs', interrupt_dispatch 0x900 9 0 ex_uninit 0 3 font0 3010 3020 3000 (fault_ctx 0x401234) (handler_kernel ex_vm)
      = Done (fault_ctx 0x401234, mk_kernel (acked false (set_tables t (handler_machine ex_vm))) kbd0) ∧
    vm_ok list_pages_ok ex_root tabs' t ∧
    space_ok list_pages_ok 0x500 fault_vmm [fault_cont] [mk_desc fault_cont 0x400000 8192] (put_tables t (sv (handler_machine ex_vm))) ∧
    free_pages (pages t) ⊆ [0x3000; 0x4000; 0x5000; 0x6000; 0x7000] ∧
    ∀ va', mapped (words t) tabs' va' =
      if decide (page_no va' = page_no 0x401234) then Some (leaf_entry 0x2000 (vmflag_to_x86flag true 3))
      else mapped (words ex_vm) {[ [] := ex_root ]} va'.
Proof.
  refine (page_fault_maps_area list_pages_ok (λ _, phys_page) ex_area_mem ex_next_mem 0x900 9 0 ex_uninit 0 3 font0 3010 3020 3000
    (handler_kernel ex_vm) (fault_ctx 0x401234) (mk_cpu 3 0 1 4 0x500 false) 0x500 fault_vmm [fault_cont] [mk_desc fault_cont 0x400000 8192]
    (mk_area 0x400000 8192 3 0 0 0) {[ [] := ex_root ]} 0x2000 _ 3 false 0xffff800000003000
    eq_refl eq_refl eq_refl eq_refl eq_refl (handler_space _ (vo_pages _ _ _ _ ex_vm_ok) (reflexivity _)) _ _ _ _ ex_vm_ok _ _ eq_refl _ _).
  - by vm_compute.
  - by vm_compute.
  - by vm_compute.
  - by vm_compute.
  - apply empty_root_no_big, ex_root_table.
  - by vm_compute.
  - cbn. lia.
  - split; try done. by exists 0, 0x03000000, 0, 0x300.
Defined.

Lemma page_fault_outside_panics_witness :
  interrupt_dispatch 0x900 9 0 ex_uninit 0 3 font0 3010 3020 3000 (fault_ctx 0x402000) (handler_kernel ex_vm) = Panic.
Proof.
  refine (page_fault_outside_panics list_pages_ok ex_area_mem ex_next_mem 0x900 9 0 ex_uninit 0 3 font0 3010 3020 3000
    (handler_kernel ex_vm) (fault_ctx 0x402000) (mk_cpu 3 0 1 4 0x500 false) 0x500 fault_vmm [fault_cont] [mk_desc fault_cont 0x400000 8192]
    eq_refl eq_refl eq_refl eq_refl (handler_space _ (vo_pages _ _ _ _ ex_vm_ok) (reflexivity _)) _).
  right. apply Forall_singleton. vm_compute. intros [_ Hc]. discriminate Hc.
Defined.


(** An empty address space with just the three frames its tables need. *)
Definition scarce_vm : vm (list Z) := mk_vm (zero_words ex_root) [0x3000; 0x4000; 0x5000] true.

Lemma scarce_vm_ok : vm_ok list_pages_ok ex_root {[ [] := ex_root ]} scarce_vm.
Proof.
  apply (vm_ok_take list_pages_ok ex_root _ ex_vm [0x3000; 0x4000; 0x5000] ex_vm_ok).
  - apply (bool_decide_unpack _). by vm_compute.
  - split; [apply (bool_decide_unpack _); by vm_compute|]. repeat constructor; by vm_compute.
Qed.

Lemma scarce_left : ex_left (walk ex_root 0x401234 true scarce_vm) = [].
Proof. vm_compute. reflexivity. Qed.

Lemma out_of_memory_maps_frame_zero_witness :
  ∃ t0 t tabs', free_pages (pages t0) = [] ∧
    interrupt_dispatch 0x900 9 0 ex_uninit 0 3 font0 3010 3020 3000 (fault_ctx 0x401234) (handler_kernel t0)
      = Done (fault_ctx 0x401234, mk_kernel (acked false (set_tables t (handler_machine t0))) kbd0) ∧
    mapped (words t) tabs' 0x401234 = Some (leaf_entry 0 (vmflag_to_x86flag true 3)).
Proof.
  destruct (walk_alloc list_pages_ok (λ _, phys_page) ex_root {[ [] := ex_root ]} scarce_vm 0x401234 scarce_vm_ok)
    as (d & t0 & tabs & E & Hok & Hg & _ & Hd & _).
  { apply empty_root_no_big, ex_root_table. }
  pose proof scarce_left as Hp. rewrite E in Hp. simpl in Hp. clear E.
  assert (leaf_addr tabs 0x401234 = Some d) as Hd' by (apply Hd; left; simpl; lia).
  assert (free_pages (pages t0) = []) as Hf by (simpl; by rewrite Hp).
  destruct (out_of_memory_maps_frame_zero list_pages_ok (λ _, phys_page) ex_area_mem ex_next_mem 0x900 9 0 ex_uninit 0 3 font0 3010 3020 3000
    (handler_kernel t0) (fault_ctx 0x401234) (mk_cpu 3 0 1 4 0x500 false) 0x500 fault_vmm [fault_cont] [mk_desc fault_cont 0x400000 8192]
    (mk_area 0x400000 8192 3 0 0 0) tabs 3 false 0xffff800000003000) as (t & tabs' & E & _ & Hm).
  - done.
  - done.
  - done.
  - done.
  - done.
  - apply handler_space; [apply Hok|]. rewrite Hf. apply list_subseteq_nil.
  - by vm_compute.
  - by vm_compute.
  - by vm_compute.
  - by vm_compute.
  - exact Hok.
  - apply (gr_calm _ _ _ _ Hg), empty_root_no_big, ex_root_table.
  - refine (eq_trans (gr_mapped _ _ _ _ Hg _) _). by vm_compute.
  - exact Hf.
  - cbn [r_cr2 f_registers fault_ctx]. by rewrite Hd'.
  - split; try done. by exists 0, 0x03000000, 0, 0x300.
  - exists t0, t, tabs'. split_and!; [done|done|]. rewrite Hm. rewrite decide_True by done.
    do 2 f_equal. f_equal. exact (gr_nx _ _ _ _ Hg).
Defined.
