(* ===== verification/Load.v ===== *)
(** * Loading an image into an address space

    [create_process] copies each segment to user addresses whose pages do not
    exist yet: every first touch of a page faults into [on_demand_allocation].
    The bytes reach frames that were free before, and nothing else changes. *)
From S2P Require Import Prelude.
From S2P Require Import Interfaces.
From S2P Require Import Double.
From S2P Require Import Cpu.
From S2P Require Import RbTree.
From S2P Require Import Cfs.
From S2P Require Import Spinlock.
From S2P Require Import Lst.
From S2P Require Import Layout.
From S2P Require Import Vm.
From S2P Require Import VmWalk.
From S2P Require Import VmMap.
From S2P Require Import PageMap.
From S2P Require Import Vmm.
From S2P Require Import VmmAlloc.
From S2P Require Import Libc.
From S2P Require Import Tty.
From S2P Require Import Printf.
From S2P Require Import Keyboard.
From S2P Require Import ThreadArray.
From S2P Require Import Bytes.
From S2P Require Import Ioapic.
From S2P Require Import Idt.
From S2P Require Import Lapic.
From S2P Require Import Timer.
From S2P Require Import Process.
From S2P Require Import Sched.
From S2P Require Import ProcOps.
From S2P Require Import Dispatch.

(** The byte of memory an address is mapped to by a leaf entry. *)
Definition frame_byte (e va : Z) : Z := Z.shiftl (pd_addr e) 12 + va mod PAGE_SIZE.

Lemma small_page_no va : 0 ≤ va < 2 ^ 47 → page_no va = va / 4096.
Proof. intros Hva. unfold page_no. apply Z.mod_small. lia_div. Qed.

Lemma leaf_entry_frame x nx flags : phys_page x → pd_addr (leaf_entry x (vmflag_to_x86flag nx flags)) = x / 4096.
Proof.
  intros [Hx Hr]. unfold pd_addr. apply Z.bits_inj'. intros n Hn. rewrite Z.land_spec, Z.shiftr_spec by lia.
  rewrite <- (Z.mod_small (x / 4096) (2 ^ 39)), <- Z.land_ones, Z.land_spec by lia_div.
  destruct (decide (n < 39)) as [Hl|Hl]; [|rewrite (Z.ones_spec_high 39 n) by lia; by rewrite !andb_false_r].
  rewrite Z.ones_spec_low, !andb_true_r by lia. unfold leaf_entry, set_present, set_bit.
  rewrite !Z.lor_spec, x86flag_high, orb_false_r by lia. rewrite Z.shiftl_1_l, Z.pow2_bits_eqb by lia.
  assert ((0 =? n + 12) = false) as -> by (apply Z.eqb_neq; lia). rewrite orb_false_r.
  change 4096 with (2 ^ 12). by rewrite <- Z.shiftr_div_pow2, Z.shiftr_spec by lia.
Qed.

Section loading.
Context {P H V W U E : Type}.
Context `{!PageAllocator P, !Allocator H, !LapicDev V, !LapicLaws V, !HpetDev W, !IoApicDev U, !MemSource E}.
Context (pg_ok : P → Prop) (managed : P → Z → Prop) `{!PageAllocatorLaws P pg_ok managed}.
Context (uninit_area : Z → memory_area_t) (uninit_next : Z → Z).
Context (kernel_vmm cpu : Z).
Abbreviation mach := (machine P H V W U E).
Implicit Type s : mach.
(** The address space [m] in use, and the area with descriptor [a] that the
    range [[lo, hi)] lies in. *)
Context (m : Z) (v : vmm_info_t) (cl : list Z) (l : list desc) (area : Z) (a : memory_area_t) (lo hi slack : Z).

(** The tables of [s] are [tabs]; the processor runs in [m]; the pages of the
    range below page [q] are mapped, to distinct frames that are not free, and
    the others are not; there are four free pages for each of those, a frame
    and three tables, and [slack] more; and the interrupt controller of the
    processor is on. *)
Record loads s (tabs : gmap (list Z) Z) (q : Z) : Prop := mk_loads {
  ld_cpu : ∃ k, vcpus (sv s) !! cpu = Some k ∧ vmm k = m;
  ld_inv : vmm_inv pg_ok cpu m v cl l (sv s);
  ld_area va : lo ≤ va < hi → area_of l va = area;
  ld_desc : area ≠ 0 ∧ areas (sv s) !! area = Some a ∧ 0 ≤ a_flags a < 256;
  ld_range : 4096 ≤ lo ∧ hi ≤ 2 ^ 47;
  ld_ok : vm_ok pg_ok (root_pagetable v) tabs (tables (sv s));
  ld_big va : lo ≤ va < hi → no_big (words (tables (sv s))) tabs va;
  ld_mapped va : lo ≤ va < hi → mapped (words (tables (sv s))) tabs va ≠ None ↔ va / 4096 < q;
  ld_inj va va' e e' : lo ≤ va < hi → lo ≤ va' < hi → mapped (words (tables (sv s))) tabs va = Some e →
    mapped (words (tables (sv s))) tabs va' = Some e' → va / 4096 ≠ va' / 4096 → pd_addr e ≠ pd_addr e';
  ld_used va e : lo ≤ va < hi → mapped (words (tables (sv s))) tabs va = Some e →
    pd_addr e * 4096 ∉ free_pages (pages (tables (sv s)));
  ld_spare : 0 ≤ slack ∧ slack + 4 * ((hi - 1) / 4096 + 1 - q) ≤ Z.of_nat (length (free_pages (pages (tables (sv s)))));
  ld_last : q ≤ (hi - 1) / 4096 + 1;
  ld_ctl : ∃ id x2 base, on_cpu (tlap (stimers s)) id x2 base;
}.

Lemma relevant_user k va : vmm k = m → m ≠ 0 → va < 2 ^ 47 → relevant kernel_vmm k va = m.
Proof. intros Hk Hm Hva. unfold relevant. rewrite decide_False by lia. by rewrite decide_True; [|by rewrite Hk]. Qed.

Lemma translate_run s k va tabs :
  vcpus (sv s) !! cpu = Some k → vmm k = m → vmm_inv pg_ok cpu m v cl l (sv s) → va < 2 ^ 47 →
  vm_ok pg_ok (root_pagetable v) tabs (tables (sv s)) → no_big (words (tables (sv s))) tabs va →
  translate kernel_vmm cpu va s = Done ((λ e, frame_byte e va) <$> mapped (words (tables (sv s))) tabs va, s).
Proof.
  intros Hk Hm Hi Hva Hok Hnb. destruct (vi_vmm _ _ _ _ _ _ _ Hi) as [Hm0 Hv].
  assert (cpu_id k = cpu) as Hid. { destruct (vi_cpu _ _ _ _ _ _ _ Hi) as (k' & n & Hk' & (Hid & _) & _). by simplify_eq. }
  assert (∀ A (f : M (vmm_state P H) A) x, f (sv s) = Done (x, sv s) → on_vs f s = Done (x, s)) as Hon.
  { intros A f x Hf. rewrite (on_vs_run f s x (sv s) Hf). by destruct s. }
  assert (∀ A (f : M (vm P) A) x, f (tables (sv s)) = Done (x, tables (sv s)) → on_vs (on_tables f) s = Done (x, s)) as Hont.
  { intros A f x Hf. apply Hon. rewrite (on_tables_run f (sv s) x _ Hf). by destruct (sv s). }
  unfold translate. rewrite (bind_done _ _ _ _ _ (Hon _ _ _ (get_relevant_vmm_run kernel_vmm cpu (sv s) k va Hk Hid))).
  rewrite (relevant_user k va Hm Hm0 Hva), (bind_done _ _ _ _ _ (Hon _ _ _ (load_vmm_run m v (sv s) Hm0 Hv))).
  rewrite (bind_done _ _ _ _ _ (Hont _ _ _ (walk_no_alloc _ tabs _ va (vo_wf _ _ _ _ Hok) Hnb))).
  unfold mapped, leaf. destruct (leaf_addr tabs va) as [d|] eqn:Hd; cbn [default].
  - rewrite decide_False by (by eapply leaf_addr_nonzero).
    destruct (write_leaf_old _ _ _ _ _ 0 (vo_wf _ _ _ _ Hok) Hd) as (e & He & _ & _).
    rewrite (bind_done _ _ _ _ _ (Hont _ _ _ (rd_run _ d e He))), He. by destruct (present e).
  - by rewrite decide_True.
Qed.

(** The interrupt controller after some acknowledgements. *)
Inductive acks : V → V → Prop :=
  | acks_refl d : acks d d
  | acks_step x2 d d' : acks (reg_write x2 LAPIC_REG_EOI 0 d) d' → acks d d'.

Lemma acks_trans d d1 d2 : acks d d1 → acks d1 d2 → acks d d2.
Proof. induction 1; [done|]. intros. eapply acks_step. eauto. Qed.

Lemma acks_cpuid d d' r : acks d d' → hw_cpuid r d' = hw_cpuid r d.
Proof. induction 1 as [|x2 d d' _ ->]; [done|]. by apply cpuid_reg_write. Qed.

(** The timers' state with its copy of the processors' entries left out. *)
Definition sans_cpus (t : timers V W U E) : timers V W U E := set_tcpus ∅ t.

(** Only the address spaces and the bytes of memory differ, and the interrupt
    controller, which has seen the faults acknowledged. *)
Definition rest_kept s s' : Prop :=
  s' = set_stimers (stimers s') (set_sframes (sframes s') (set_sv (sv s') s)) ∧
  ∃ d, sans_cpus (stimers s') = sans_cpus (set_tlap (set_ldev d (tlap (stimers s))) (stimers s)) ∧ acks (ldev (tlap (stimers s))) d.

Lemma rest_kept_trans s s1 s2 : rest_kept s s1 → rest_kept s1 s2 → rest_kept s s2.
Proof.
  unfold rest_kept. intros [H1 (d1 & T1 & A1)] [H2 (d2 & T2 & A2)]. split; [by rewrite H2, H1|]. exists d2.
  assert (tlap (stimers s1) = set_ldev d1 (tlap (stimers s))) as El by exact (f_equal tlap T1).
  rewrite El in T2, A2. split; [|by eapply acks_trans].
  rewrite T2. revert T1. unfold sans_cpus, set_tcpus. destruct (stimers s), (stimers s1). cbn. intros [=]. by subst.
Qed.

Lemma rest_kept_same s t f : rest_kept s (set_sframes f (set_sv t s)).
Proof.
  split; [by destruct s|]. exists (ldev (tlap (stimers s))). split; [|constructor]. by destruct s as [? ? ? ? ? ? ? ? ? ? [[]]].
Qed.

Lemma rest_kept_sv s t : rest_kept s (set_sv t s).
Proof. pose proof (rest_kept_same s t (sframes s)) as Hr. by destruct s. Qed.

Lemma rest_kept_refl s : rest_kept s s.
Proof. pose proof (rest_kept_sv s (sv s)) as Hr. by destruct s. Qed.

Lemma rest_kept_acked s x2 t f : rest_kept s (set_sframes f (acked x2 (set_tables t s))).
Proof.
  split; [by destruct s|]. eexists. split; [|eapply (acks_step x2), acks_refl]. by destruct s as [? ? ? ? ? ? ? ? ? ? [[]]].
Qed.

Lemma sv_acked s x2 : sv (acked x2 s) = sv s.
Proof. by destruct s as [[]]. Qed.

(** What one byte stored at [va] changes: [e] is the entry of its page. *)
Record stored s (tabs : gmap (list Z) Z) (va b : Z) (e : Z) s' (tabs' : gmap (list Z) Z) : Prop := mk_stored {
  st_frames : sframes s' = <[frame_byte e va := b]> (sframes s);
  st_mem : smem s' = smem s;
  st_mapped va' : mapped (words (tables (sv s'))) tabs' va' =
    if decide (page_no va' = page_no va) then Some e else mapped (words (tables (sv s))) tabs va';
  st_frame : mapped (words (tables (sv s))) tabs va = Some e ∨
    mapped (words (tables (sv s))) tabs va = None ∧ pd_addr e * 4096 ∈ free_pages (pages (tables (sv s)));
  st_free : free_pages (pages (tables (sv s'))) ⊆ free_pages (pages (tables (sv s)));
  st_calm : calm (words (tables (sv s))) tabs (words (tables (sv s'))) tabs';
  st_nx : nx_flag_enabled (tables (sv s')) = nx_flag_enabled (tables (sv s));
  st_sys : ∃ t, sv s' = put_tables t (sv s);
  st_rest : rest_kept s s';
}.

(** A byte on a page that is there. *)
Lemma store_mapped_run s tabs q va b e :
  loads s tabs q → lo ≤ va < hi → mapped (words (tables (sv s))) tabs va = Some e →
  ∃ s', user_store kernel_vmm cpu va b s = Done (tt, s') ∧ loads s' tabs q ∧ stored s tabs va b e s' tabs.
Proof.
  intros Hl Hva He. pose proof Hl as [(k & Hk & Hm) Hi _ _ [_ Hhi] Hok Hbig _ _ _ _ _].
  unfold user_store. rewrite (bind_done _ _ _ _ _ (translate_run s k va tabs Hk Hm Hi ltac:(lia) Hok (Hbig va Hva))), He. cbn. step.
  eexists. split; [done|]. split; [by destruct Hl|]. split; try done; [|by left|by exists (tables (sv s)); destruct s as [[]]|].
  2: { pose proof (rest_kept_same s (sv s) (<[frame_byte e va := b]> (sframes s))) as Hr. by destruct s. }
  intros va'. cbn. destruct (decide (page_no va' = page_no va)) as [Ep|Ep]; [|done]. rewrite <- He. unfold mapped, leaf, leaf_addr. by apply same_page in Ep as [-> ->].
Qed.

(** The first byte of a page that is not. *)
Lemma store_missing_run s tabs q va b :
  loads s tabs q → lo ≤ va < hi → va / 4096 = q →
  ∃ s' tabs' e, user_store kernel_vmm cpu va b s = Done (tt, s') ∧ loads s' tabs' (q + 1) ∧ stored s tabs va b e s' tabs'.
Proof.
  intros Hl Hva Hq. pose proof Hl as [(k & Hk & Hm) Hi Harea (Ha0 & Ha & Hfl) [Hlo Hhi] Hok Hbig Hmap Hinj Hused [Hsl Hsp] Hlast (id & x2 & base & Hctl)].
  assert (mapped (words (tables (sv s))) tabs va = None) as Hun.
  { destruct (mapped _ _ va) eqn:Em; [|done]. exfalso. assert (va / 4096 < q); [|lia]. apply Hmap; [done|by rewrite Em]. }
  assert (0 ≤ (hi - 1) / 4096 - q) as Hle by (subst q; pose proof (Z.div_le_mono va (hi - 1) 4096); lia).
  destruct (free_pages (pages (tables (sv s)))) as [|x fr] eqn:Hfp; [cbn in Hsp; lia|].
  assert (relevant kernel_vmm k va = m) as Hrel by (apply relevant_user; [done|by apply (vi_vmm _ _ _ _ _ _ _ Hi)|lia]).
  destruct (on_demand_run pg_ok managed uninit_area uninit_next kernel_vmm cpu (sv s) k va m v cl l a tabs x fr)
    as (t & tabs' & E1 & Hok' & Hi' & (Hsub & Hlen & Hbig' & Hnx) & Hm'); try done; try (by rewrite Harea); try lia; [by apply Hbig|cbn in Hsp; lia|].
  set (s1 := set_tables t s). set (e := leaf_entry x _) in Hm'.
  destruct (free_pages_ok _ (vo_pages _ _ _ _ Hok)) as (Hnd & Hpp & _). rewrite Hfp in Hnd, Hpp.
  apply Forall_cons in Hpp as [Hx _]. apply NoDup_cons in Hnd as [Hxn _].
  assert (pd_addr e * 4096 = x) as Hex by (unfold e; rewrite leaf_entry_frame by done; destruct Hx; lia_div).
  unfold user_store. rewrite (bind_done _ _ _ _ _ (translate_run s k va tabs Hk Hm Hi ltac:(lia) Hok (Hbig va Hva))), Hun. cbn [fmap option_fmap option_map].
  assert (page_fault kernel_vmm cpu va 2 s = Done (tt, s1)) as Ef.
  { unfold page_fault. match goal with |- context [if ?b then _ else _] => change b with true end. cbv iota.
    rewrite (bind_done _ _ _ _ _ (on_vs_run _ s _ _ E1)). by rewrite decide_False by lia. }
  rewrite bind_assoc, (bind_done _ _ _ _ _ Ef), bind_assoc, (bind_done _ _ _ _ _ (eoi_run s1 id x2 base Hctl)).
  set (s2 := acked x2 s1). assert (sv s2 = put_tables t (sv s)) as Es2 by apply sv_acked.
  rewrite (bind_done _ _ _ _ _ (translate_run s2 k va tabs' Hk Hm ltac:(by rewrite Es2) ltac:(lia) Hok' (calm_big _ _ _ _ Hbig' va (Hbig va Hva)))).
  rewrite Es2. cbn [tables put_tables]. rewrite Hm', decide_True by done. cbn [fmap option_fmap option_map].
  eexists _, tabs', e. split; [done|].
  assert (∀ va', lo ≤ va' < hi → page_no va' = va' / 4096) as Hpn by (intros; apply small_page_no; lia).
  split.
  - split; try done; change (sv (set_sframes _ s2)) with (sv s2); rewrite ?Es2; cbn [tables put_tables].
    + by exists k.
    + intros va' Hva'. by apply Hbig', Hbig.
    + intros va' Hva'. rewrite Hm', !Hpn by done. destruct (decide (va' / 4096 = va / 4096)) as [Ep|Ep]; [|rewrite Hmap by done; lia].
      split; [lia|done].
    + intros va1 va2 e1 e2 H1 H2. rewrite !Hm', !Hpn by done. intros M1 M2 Hne Heq.
      destruct (decide (va1 / 4096 = va / 4096)) as [E3|E3], (decide (va2 / 4096 = va / 4096)) as [E4|E4]; simplify_eq; try lia.
      * apply (Hused va2 e2 H2 M2). rewrite <- Heq, Hex. by left.
      * apply (Hused va1 e1 H1 M1). rewrite Heq, Hex. by left.
      * by apply (Hinj va1 va2 e1 e2).
    + intros va1 e1 H1. rewrite Hm', !Hpn by done. destruct (decide (va1 / 4096 = va / 4096)) as [E3|E3].
      * intros [= <-]. rewrite Hex. intros Hin. by apply Hsub in Hin.
      * intros M1 Hin. apply (Hused va1 e1 H1 M1). right. by apply Hsub.
    + cbn in Hsp. lia.
    + subst q. pose proof (Z.div_le_mono va (hi - 1) 4096). lia.
    + exists id, x2, base. apply (on_cpu_dev (tlap (stimers s))); [done|]. by apply cpuid_reg_write.
  - split; try done; change (sv (set_sframes _ s2)) with (sv s2); rewrite ?Es2; cbn [tables put_tables].
    + right. split; [done|]. rewrite Hex, Hfp. by left.
    + rewrite Hfp. intros y Hy. right. by apply Hsub.
    + by exists t.
    + apply rest_kept_acked.
Qed.

(** Different addresses of the range are different bytes of memory. *)
Lemma frame_byte_inj s tabs q va va' e e' :
  loads s tabs q → lo ≤ va < hi → lo ≤ va' < hi → mapped (words (tables (sv s))) tabs va = Some e →
  mapped (words (tables (sv s))) tabs va' = Some e' → va ≠ va' → frame_byte e va ≠ frame_byte e' va'.
Proof.
  intros Hl Hva Hva' He He' Hne. pose proof (ld_range _ _ _ Hl) as [Hlo Hhi]. unfold frame_byte. rewrite !Z.shiftl_mul_pow2 by lia. unfold PAGE_SIZE.
  destruct (decide (va / 4096 = va' / 4096)) as [Ep|Ep].
  - assert (mapped (words (tables (sv s))) tabs va = mapped (words (tables (sv s))) tabs va') as Em.
    { unfold mapped, leaf, leaf_addr. assert (page_no va = page_no va') as [-> ->]%same_page by (rewrite !small_page_no by lia; done). done. }
    assert (e = e') as <- by congruence. lia_div.
  - pose proof (ld_inj _ _ _ Hl va va' e e' Hva Hva' He He' Ep). lia_div.
Qed.

(** What a copy of the bytes [bs] to [c] changes. *)
Record copied s (tabs : gmap (list Z) Z) (c : Z) (bs : list Z) s' (tabs' : gmap (list Z) Z) : Prop := mk_copied {
  cp_bytes (i : nat) b : bs !! i = Some b → ∃ e, mapped (words (tables (sv s'))) tabs' (c + Z.of_nat i) = Some e ∧
    sframes s' !! frame_byte e (c + Z.of_nat i) = Some b;
  cp_keeps va e : mapped (words (tables (sv s))) tabs va = Some e → mapped (words (tables (sv s'))) tabs' va = Some e;
  cp_outside va : (∀ va', c ≤ va' < c + Z.of_nat (length bs) → page_no va ≠ page_no va') →
    mapped (words (tables (sv s'))) tabs' va = mapped (words (tables (sv s))) tabs va;
  cp_frames va e : c ≤ va < c + Z.of_nat (length bs) → mapped (words (tables (sv s'))) tabs' va = Some e →
    mapped (words (tables (sv s))) tabs va = Some e ∨ pd_addr e * 4096 ∈ free_pages (pages (tables (sv s)));
  cp_rest pa : (∀ va e, c ≤ va < c + Z.of_nat (length bs) → mapped (words (tables (sv s'))) tabs' va = Some e → pa ≠ frame_byte e va) →
    sframes s' !! pa = sframes s !! pa;
  cp_mem : smem s' = smem s;
  cp_free : free_pages (pages (tables (sv s'))) ⊆ free_pages (pages (tables (sv s)));
  cp_calm : calm (words (tables (sv s))) tabs (words (tables (sv s'))) tabs';
  cp_nx : nx_flag_enabled (tables (sv s')) = nx_flag_enabled (tables (sv s));
  cp_sys : ∃ t, sv s' = put_tables t (sv s);
  cp_kept : rest_kept s s';
}.

Lemma stored_copied s tabs c b bs e s1 tabs1 s' tabs' q :
  stored s tabs c b e s1 tabs1 → copied s1 tabs1 (c + 1) bs s' tabs' → loads s' tabs' q → lo ≤ c → c + Z.of_nat (length bs) < hi →
  copied s tabs c (b :: bs) s' tabs'.
Proof.
  intros [F1 M1 Hm1 Hfr Hfree Hsb Hsn [t1 Hst] Hsr] [Cb Ck Co Cf Cr Cm Cs Cg Cn [t2 Ct] Ce] Hl Hlo Hhi.
  assert (mapped (words (tables (sv s1))) tabs1 c = Some e) as Hc1 by (by rewrite Hm1, decide_True).
  pose proof (Ck c e Hc1) as Hc'.
  split.
  - intros [|i] b' Hb; cbn in Hb.
    + injection Hb as <-. replace (c + Z.of_nat 0) with c by lia. exists e. split; [done|]. rewrite Cr, F1; [apply lookup_insert_eq|].
      intros va e' Hva He'. eapply (frame_byte_inj s' tabs' q); try done; lia.
    + destruct (Cb i b' Hb) as (e' & He' & Hf'). exists e'. by replace (c + Z.of_nat (S i)) with (c + 1 + Z.of_nat i) by lia.
  - intros va e0 H0. apply Ck. rewrite Hm1. destruct (decide (page_no va = page_no c)) as [Ep|Ep]; [|done].
    assert (mapped (words (tables (sv s))) tabs va = mapped (words (tables (sv s))) tabs c) as Em
      by (unfold mapped, leaf, leaf_addr; by apply same_page in Ep as [-> ->]).
    rewrite <- H0, Em. destruct Hfr as [Hfr|[Hfr _]]; [done|congruence].
  - intros va Hva. cbn [length] in Hva. rewrite Co by (intros va' ?; apply Hva; lia). rewrite Hm1, decide_False; [done|]. apply Hva. lia.
  - intros va e0 Hva H0. cbn [length] in Hva. destruct (decide (va = c)) as [->|Hne].
    + assert (e0 = e) as -> by congruence. destruct Hfr as [?|[_ ?]]; [by left|by right].
    + destruct (Cf va e0) as [Hf|Hf]; [lia|done| |right; by apply Hfree].
      rewrite Hm1 in Hf. destruct (decide (page_no va = page_no c)) as [Ep|Ep]; [|by left]. injection Hf as ->.
      assert (mapped (words (tables (sv s))) tabs va = mapped (words (tables (sv s))) tabs c) as ->
        by (unfold mapped, leaf, leaf_addr; by apply same_page in Ep as [-> ->]).
      destruct Hfr as [?|[_ ?]]; [by left|by right].
  - intros pa Hpa. cbn [length] in Hpa. rewrite Cr by (intros va e0 ?; apply Hpa; lia). rewrite F1, lookup_insert_ne; [done|].
    apply not_eq_sym, Hpa; [lia|done].
  - by rewrite Cm.
  - by etrans.
  - by eapply calm_trans.
  - by rewrite Cn.
  - exists t2. by rewrite Ct, Hst.
  - by eapply rest_kept_trans.
Qed.

Lemma copy_in_run bs s tabs q c src :
  loads s tabs q → lo ≤ c → c + Z.of_nat (length bs) ≤ hi → c / 4096 ≤ q → at_ (smem s) src bs →
  ∃ s' tabs' q', copy_in kernel_vmm cpu (length bs) c src s = Done (tt, s') ∧ loads s' tabs' q' ∧ copied s tabs c bs s' tabs'.
Proof.
  revert s tabs q c src. induction bs as [|b bs IH]; intros s tabs q c src Hl Hlo Hhi Hq Hat; cbn [length copy_in].
  { exists s, tabs, q. split_and!; [done|done|]. split; try done; [intros va e Hva; cbn in Hva; lia|exists (tables (sv s)); by destruct s as [[]]|apply rest_kept_refl]. }
  cbn [length] in Hhi. apply at_cons in Hat as [Hb Hat].
  assert (on_smem (ldb src) s = Done (b, s)) as El.
  { unfold on_smem, zoom. rewrite (ldb_run _ _ _ Hb). by destruct s. }
  rewrite (bind_done _ _ _ _ _ El).
  assert (∃ s1 tabs1 q1 e, user_store kernel_vmm cpu c b s = Done (tt, s1) ∧ loads s1 tabs1 q1 ∧ stored s tabs c b e s1 tabs1 ∧ (c + 1) / 4096 ≤ q1)
    as (s1 & tabs1 & q1 & e & E1 & Hl1 & Hst & Hq1).
  { destruct (mapped (words (tables (sv s))) tabs c) as [e|] eqn:Em.
    - destruct (store_mapped_run s tabs q c b e Hl) as (s1 & E1 & Hl1 & Hst); [lia|done|]. exists s1, tabs, q, e. split_and!; try done.
      assert (c / 4096 < q) by (apply (ld_mapped _ _ _ Hl c); [lia|by rewrite Em]). lia_div.
    - assert (c / 4096 = q) as Eq.
      { destruct (decide (c / 4096 < q)) as [Hlt|]; [|lia]. by apply (ld_mapped _ _ _ Hl c) in Hlt; [|lia]. }
      destruct (store_missing_run s tabs q c b Hl) as (s1 & tabs1 & e & E1 & Hl1 & Hst); [lia|done|]. exists s1, tabs1, (q + 1), e.
      split_and!; try done. subst q. lia_div. }
  rewrite (bind_done _ _ _ _ _ E1).
  destruct (IH s1 tabs1 q1 (c + 1) (src + 1) Hl1) as (s' & tabs' & q' & E2 & Hl' & Hcp); [lia|lia|done|by rewrite (st_mem _ _ _ _ _ _ _ Hst)|].
  exists s', tabs', q'. split_and!; [done|done|]. by eapply stored_copied; [done|done|done|lia|lia].
Qed.

(** [copy_in], the copy of a segment into a new area of the current address
    space, returns with every byte of the image at its address: each page of
    the range was mapped at its first byte to a frame that was free, two
    addresses never share a byte, no page outside the range is mapped
    differently, memory outside those frames is as before, and the area and
    the tables stay well formed.  Four free pages per page are enough. *)
Lemma copy_in_loads_image bs s tabs src :
  loads s tabs (lo / 4096) → lo + Z.of_nat (length bs) ≤ hi → at_ (smem s) src bs →
  ∃ s' tabs' q', copy_in kernel_vmm cpu (length bs) lo src s = Done (tt, s') ∧ loads s' tabs' q' ∧
    (∀ (i : nat) b, bs !! i = Some b → ∃ e, mapped (words (tables (sv s'))) tabs' (lo + Z.of_nat i) = Some e ∧
       pd_addr e * 4096 ∈ free_pages (pages (tables (sv s))) ∧ sframes s' !! frame_byte e (lo + Z.of_nat i) = Some b) ∧
    (∀ va, (∀ va', lo ≤ va' < lo + Z.of_nat (length bs) → page_no va ≠ page_no va') →
       mapped (words (tables (sv s'))) tabs' va = mapped (words (tables (sv s))) tabs va) ∧
    (∀ pa, (pa / 4096) * 4096 ∉ free_pages (pages (tables (sv s))) → sframes s' !! pa = sframes s !! pa).
Proof.
  intros Hl Hhi Hat. destruct (copy_in_run bs s tabs (lo / 4096) lo src Hl) as (s' & tabs' & q' & E1 & Hl' & [Cb _ Co Cf Cr _ _ _ _ _ _]); [lia|lia|lia|done|].
  assert (∀ va e, lo ≤ va < lo + Z.of_nat (length bs) → mapped (words (tables (sv s'))) tabs' va = Some e →
    pd_addr e * 4096 ∈ free_pages (pages (tables (sv s)))) as Hfree.
  { intros va e Hva He. destruct (Cf va e Hva He) as [Hm|]; [|done]. exfalso.
    assert (va / 4096 < lo / 4096); [apply (ld_mapped _ _ _ Hl va); [lia|by rewrite Hm]|]. pose proof (Z.div_le_mono lo va 4096). lia. }
  exists s', tabs', q'. split_and!; [done|done| |done|].
  - intros i b Hb. destruct (Cb i b Hb) as (e & He & Hf). exists e. split_and!; [done| |done]. apply (Hfree (lo + Z.of_nat i)); [|done].
    apply lookup_lt_Some in Hb. lia.
  - intros pa Hpa. apply Cr. intros va e Hva He ->. apply Hpa. unfold frame_byte, PAGE_SIZE. rewrite Z.shiftl_mul_pow2 by lia.
    pose proof (Hfree va e Hva He) as Hin. replace ((pd_addr e * 2 ^ 12 + va mod 4096) / 4096) with (pd_addr e) by lia_div. done.
Qed.

(** Bytes of the range behind the image, on a page it touches: they are what
    the frame held before. *)
Lemma tail_not_cleared bs s tabs src :
  loads s tabs (lo / 4096) → lo + Z.of_nat (length bs) ≤ hi → at_ (smem s) src bs →
  ∃ s' tabs' q', copy_in kernel_vmm cpu (length bs) lo src s = Done (tt, s') ∧ loads s' tabs' q' ∧
    ∀ va e, lo + Z.of_nat (length bs) ≤ va < hi → mapped (words (tables (sv s'))) tabs' va = Some e →
      sframes s' !! frame_byte e va = sframes s !! frame_byte e va.
Proof.
  intros Hl Hhi Hat. destruct (copy_in_run bs s tabs (lo / 4096) lo src Hl) as (s' & tabs' & q' & E1 & Hl' & Hcp); [lia|lia|lia|done|].
  exists s', tabs', q'. split_and!; [done|done|]. intros va e Hva He. apply (cp_rest _ _ _ _ _ _ Hcp). intros va' e' Hva' He'.
  apply (frame_byte_inj s' tabs' q'); try done; lia.
Qed.
End loading.

(** ** An example: three bytes at 0x400000 *)

Definition load_machine : machine (list Z) bump sim clock (gmap Z Z) unit :=
  set_smem (bytes_at 0x40 [72; 105; 33] ∅) (fault_machine ex_vm).
Abbreviation load_fresh := (loads list_pages_ok 3 0x500 fault_vmm [fault_cont] [mk_desc fault_cont 0x400000 8192] fault_cont
  (mk_area 0x400000 8192 3 0 0 0) 0x400000 0x400003 0).

Lemma empty_root_unmapped w va : mapped w {[ [] := ex_root ]} va = None.
Proof. unfold mapped, leaf, leaf_addr. by rewrite lookup_singleton_ne. Qed.

Lemma load_machine_fresh : load_fresh load_machine {[ [] := ex_root ]} 0x400.
Proof.
  split.
  - by eexists.
  - exact fault_inv.
  - intros va Hva. cbn [area_of]. rewrite decide_True; [done|]. unfold d_end. cbn. lia.
  - split; [done|]. split; [by vm_compute|done].
  - done.
  - exact ex_vm_ok.
  - intros va _. apply empty_root_no_big, ex_root_table.
  - intros va Hva. rewrite empty_root_unmapped. split; [done|]. intros Hlt. lia_div.
  - intros va va' e e' _ _ Hm. by rewrite empty_root_unmapped in Hm.
  - intros va e _ Hm. by rewrite empty_root_unmapped in Hm.
  - by vm_compute.
  - by vm_compute.
  - exists 3, false, 0xffff800000003000. split; try done. by exists 0, 0x03000000, 0, 0x300.
Qed.

Lemma copy_in_loads_image_witness :
  ∃ s' tabs' q', copy_in 0x900 3 3 0x400000 0x40 load_machine = Done (tt, s') ∧ load_fresh s' tabs' q' ∧
    (∀ (i : nat) b, [72; 105; 33] !! i = Some b → ∃ e, mapped (words (tables (sv s'))) tabs' (0x400000 + Z.of_nat i) = Some e ∧
       pd_addr e * 4096 ∈ free_pages (pages (tables (sv load_machine))) ∧ sframes s' !! frame_byte e (0x400000 + Z.of_nat i) = Some b) ∧
    (∀ va, (∀ va', 0x400000 ≤ va' < 0x400000 + Z.of_nat (length [72; 105; 33]) → page_no va ≠ page_no va') →
       mapped (words (tables (sv s'))) tabs' va = mapped (words (tables (sv load_machine))) {[ [] := ex_root ]} va) ∧
    (∀ pa, (pa / 4096) * 4096 ∉ free_pages (pages (tables (sv load_machine))) → sframes s' !! pa = sframes load_machine !! pa).
Proof.
  refine (copy_in_loads_image list_pages_ok (λ _, phys_page) ex_area_mem ex_next_mem 0x900 3 0x500 fault_vmm [fault_cont]
    [mk_desc fault_cont 0x400000 8192] fault_cont (mk_area 0x400000 8192 3 0 0 0) 0x400000 0x400003 0 [72; 105; 33]
    load_machine {[ [] := ex_root ]} 0x40 load_machine_fresh _ _).
  - done.
  - apply at_check_true. by vm_compute.
Defined.
