(* ===== verification/Segments.v ===== *)
(** * The segments of a program

    [load_segment] of [create_process]: an area at the address of the segment,
    the copy of its bytes through page faults, and the change of the rights of
    its pages; then the loop over all segments of an ELF image. *)
From S2P Require Import Prelude.
From S2P Require Import Interfaces.
From S2P Require Import Double.
From S2P Require Import Cpu.
From S2P Require Import RbTree.
From S2P Require Import Cfs.
From S2P Require Import Spinlock.
From S2P Require Import Lst.
From S2P Require Import Layout.
From S2P Require Import Vm.
From S2P Require Import VmWalk.
From S2P Require Import VmMap.
From S2P Require Import PageMap.
From S2P Require Import Vmm.
From S2P Require Import VmmAlloc.
From S2P Require Import Libc.
From S2P Require Import Tty.
From S2P Require Import Printf.
From S2P Require Import Keyboard.
From S2P Require Import ThreadArray.
From S2P Require Import Bytes.
From S2P Require Import Ioapic.
From S2P Require Import Elf.
From S2P Require Import Idt.
From S2P Require Import Lapic.
From S2P Require Import Timer.
From S2P Require Import Process.
From S2P Require Import Sched.
From S2P Require Import ProcOps.
From S2P Require Import Dispatch.
From S2P Require Import Load.

(** ** The address space while it is filled *)

Lemma achain_same am prev cur l x a b :
  achain am prev cur l → am !! x = Some a →
  a_start b = a_start a → a_size b = a_size a → a_prev b = a_prev a → a_next b = a_next a →
  achain (<[x := b]> am) prev cur l.
Proof.
  intros Hc Ha H1 H2 H3 H4. revert prev cur Hc. induction l as [|d l IH]; intros prev cur; cbn; [done|].
  intros (-> & H0 & c & Hcl & Hs & Hz & Hp & Hn). split_and!; [done|done|]. destruct (decide (d_addr d = x)) as [<-|Hne].
  - assert (c = a) as -> by congruence. exists b. rewrite lookup_insert_eq, H1, H2, H3, H4. split_and!; auto.
  - exists c. rewrite lookup_insert_ne by done. split_and!; auto.
Qed.

(** The last area has an address. *)
Lemma area_of_last l d va : Forall (λ d', d_end d' ≤ d_start d) l → d_start d ≤ va < d_end d → area_of (l ++ [d]) va = d_addr d.
Proof.
  intros Hl Hva. induction Hl as [|d' l Hd Hl IH]; cbn; [by rewrite decide_True|]. rewrite decide_False by lia. done.
Qed.

(** The flags of a segment. *)
Definition seg_flags (ph : Elf64_Phdr) : Z :=
  let f := if decide (Z.land (p_flags ph) PF_W ≠ 0) then MEMORY_FLAG_WRITE else 0 in
  if decide (Z.land (p_flags ph) PF_X ≠ 0) then Z.lor f MEMORY_FLAG_EXEC else f.
Definition with_user (user : bool) (flags : Z) : Z := if user then Z.lor flags MEMORY_FLAG_USER else flags.

Lemma seg_flags_rights ph user :
  let f := with_user user (seg_flags ph) in
  0 ≤ f < 8 ∧ Z.testbit f 0 = bool_decide (Z.land (p_flags ph) PF_W ≠ 0) ∧ Z.testbit f 1 = user ∧
  Z.testbit f 2 = bool_decide (Z.land (p_flags ph) PF_X ≠ 0).
Proof.
  unfold with_user, seg_flags. destruct (decide (Z.land (p_flags ph) PF_W ≠ 0)) as [Hw|Hw], (decide (Z.land (p_flags ph) PF_X ≠ 0)) as [Hx|Hx], user;
    rewrite ?(bool_decide_eq_true_2 _ Hw), ?(bool_decide_eq_true_2 _ Hx), ?(bool_decide_eq_false_2 _ Hw), ?(bool_decide_eq_false_2 _ Hx); by vm_compute.
Qed.

Section segments.
Context {P H V W U E : Type}.
Context `{!PageAllocator P, !Allocator H, !LapicDev V, !LapicLaws V, !HpetDev W, !IoApicDev U, !MemSource E}.
Context (pg_ok : P → Prop) (managed : P → Z → Prop) `{!PageAllocatorLaws P pg_ok managed}.
Context (uninit_area : Z → memory_area_t) (uninit_next : Z → Z).
Context (kernel_vmm : Z) (spins : nat) (cpu m : Z).
Abbreviation mach := (machine P H V W U E).
Implicit Type s : mach.
Abbreviation mapped_in s tabs := (mapped (words (tables (sv s))) tabs).
Abbreviation free_in s := (free_pages (pages (tables (sv s)))).

(** Where the areas of an address space end. *)
Definition frontier (v : vmm_info_t) (l : list desc) : Z := if decide (l = []) then vmm_data_start v else current_addr v + 1.

(** The processor runs in the address space [m], whose low half has no large
    pages, nothing behind its areas, and no page that is free as well. *)
Record filling s (v : vmm_info_t) (cl : list Z) (l : list desc) (tabs : gmap (list Z) Z) : Prop := mk_filling {
  fi_cpu : ∃ k, vcpus (sv s) !! cpu = Some k ∧ vmm k = m;
  fi_inv : vmm_inv pg_ok cpu m v cl l (sv s);
  fi_end : vmm_data_end v ≤ 2 ^ 48;
  fi_ok : vm_ok pg_ok (root_pagetable v) tabs (tables (sv s));
  fi_big va : 0 ≤ va < 2 ^ 47 → no_big (words (tables (sv s))) tabs va;
  fi_above va : frontier v l ≤ va < 2 ^ 47 → mapped_in s tabs va = None;
  fi_used va e : 0 ≤ va < 2 ^ 47 → mapped_in s tabs va = Some e → pd_addr e * 4096 ∉ free_in s;
  fi_ctl : ∃ id x2 base, on_cpu (tlap (stimers s)) id x2 base;
}.

(** A loadable segment with the bytes [bs] that the address space has room for
    behind its areas, with [slack] pages left over. *)
Definition seg_pages (ph : Elf64_Phdr) : Z := (p_vaddr ph + p_filesz ph - 1) / 4096 + 1 - p_vaddr ph / 4096.
Record seg_fits s (elf : Z) (v : vmm_info_t) (l : list desc) (slack : Z) (ph : Elf64_Phdr) (bs : list Z) : Prop := mk_seg_fits {
  sf_load : p_type ph = PT_LOAD;
  sf_aligned : p_vaddr ph mod 4096 = 0;
  sf_front : frontier v l ≤ p_vaddr ph;
  sf_size : 0 < p_memsz ph ∧ 0 ≤ p_filesz ph ≤ p_memsz ph;
  sf_room : p_vaddr ph + area_len (p_memsz ph) ≤ vmm_data_end v ∧ p_vaddr ph + area_len (p_memsz ph) < 2 ^ 47;
  sf_bytes : at_ (smem s) (elf +64 p_offset ph) bs;
  sf_length : Z.of_nat (length bs) = p_filesz ph;
  sf_spare : 0 ≤ slack ∧ slack + 1 + 4 * seg_pages ph ≤ Z.of_nat (length (free_in s));
}.

(** The new area is where the segment wants to be. *)
Lemma next_found_segment s v cl l base :
  vmm_inv pg_ok cpu m v cl l (sv s) → vmm_data_end v ≤ 2 ^ 48 → base mod 4096 = 0 → frontier v l ≤ base < 2 ^ 47 → next_found v base = base.
Proof.
  intros Hi He Hal Hb. destruct (vi_bounds _ _ _ _ _ _ _ Hi) as (B1 & B2 & B3 & B4 & B5).
  assert (current_area v = 0 ↔ l = []) as Hcn by (by eapply current_nil).
  unfold next_found, frontier in *. rewrite PAGE_START_eq by (unfold u64p; destruct (decide (l = [])); lia). rewrite Hal, Z.sub_0_r.
  destruct (decide (l = [])) as [Hl|Hl].
  - rewrite (decide_True (P := current_area v = 0)) by tauto. case_decide; lia.
  - rewrite (decide_False (P := current_area v = 0)) by tauto. rewrite PAGE_END_eq, w64_small by (unfold u64p; lia_div). case_decide; lia_div.
Qed.

(** What the work on the address space [m] leaves alone: the heap, the
    processors, the other address spaces and locks. *)
Record space_kept (lk : Z) (t t' : vmm_state P H) : Prop := mk_space_kept {
  sk_heap : vheap t' = vheap t;
  sk_cpus : vcpus t' = vcpus t;
  sk_cr3 : cr3 t' = cr3 t;
  sk_locks k : k ≠ lk → locks t' !! k = locks t !! k;
  sk_vmms m' : m' ≠ m → vmms t' !! m' = vmms t !! m';
}.

Lemma space_kept_trans lk t1 t2 t3 : space_kept lk t1 t2 → space_kept lk t2 t3 → space_kept lk t1 t3.
Proof.
  intros [A1 A2 A3 A4 A5] [B1 B2 B3 B4 B5]. split; [congruence..| |]; intros k Hk; [by rewrite B4, A4|by rewrite B5, A5].
Qed.

(** The area of a segment, before its bytes are copied. *)
Record placed_seg s (v : vmm_info_t) (l : list desc) (tabs : gmap (list Z) Z) (ph : Elf64_Phdr) (slack new : Z)
    (a : memory_area_t) (v' : vmm_info_t) (cl' : list Z) s' : Prop := mk_placed_seg {
  ps_sys : s' = set_sv (sv s') s;
  ps_loads : loads pg_ok cpu m v' cl' (l ++ [mk_desc new (p_vaddr ph) (area_len (p_memsz ph) + 1)]) new a
    (p_vaddr ph) (p_vaddr ph + p_filesz ph) slack s' tabs (p_vaddr ph / 4096);
  ps_area : a_start a = p_vaddr ph ∧ a_size a = area_len (p_memsz ph) + 1;
  ps_root : root_pagetable v' = root_pagetable v;
  ps_user : user_vmm v' = user_vmm v;
  ps_end : vmm_data_end v' = vmm_data_end v;
  ps_front : current_addr v' = p_vaddr ph + area_len (p_memsz ph);
  ps_words : words (tables (sv s')) = words (tables (sv s));
  ps_nx : nx_flag_enabled (tables (sv s')) = nx_flag_enabled (tables (sv s));
  ps_free : free_in s' ⊆ free_in s;
  ps_lock : lock v' = lock v;
  ps_kept : space_kept (lock v) (sv s) (sv s');
}.

Lemma place_segment s v cl l tabs elf slack ph bs flags :
  filling s v cl l tabs → seg_fits s elf v l slack ph bs → 0 ≤ with_user (user_vmm v) flags < 256 →
  ∃ new a v' cl' s', on_vs (vmm_alloc_at uninit_area uninit_next spins cpu (p_vaddr ph) m (p_memsz ph) flags) s = Done (new, s') ∧
    placed_seg s v l tabs ph slack new a v' cl' s'.
Proof.
  intros [(k & Hk & Hkm) Hi He Hok Hbig Hab Hus Hctl] [Hty Hal Hfr (Hsz & Hfz) (Hr1 & Hr2) Hby Hlen (Hsl & Hsp)] Hfl.
  pose proof (area_len_ge uninit_area uninit_next (p_memsz ph)) as [Hge Hge0]; [lia|]. destruct (vi_bounds _ _ _ _ _ _ _ Hi) as (B1 & B2 & B3 & B4 & B5).
  pose proof (alay_le _ _ _ (vi_lay _ _ _ _ _ _ _ Hi)) as Hlo. fold (frontier v l) in Hlo.
  assert (next_found v (p_vaddr ph) = p_vaddr ph) as Hnf by (eapply next_found_segment; [done..|lia]).
  assert (0 ≤ seg_pages ph) as Hsp0 by (unfold seg_pages; lia_div).
  destruct (vmm_alloc_at_run pg_ok managed uninit_area uninit_next spins cpu m v cl l (sv s) (p_vaddr ph) (p_memsz ph) flags Hi)
    as (new & t & v' & cl' & E1 & Hn0 & Hi' & D1 & D2 & Hhp & Hcp & Hvm & Hlk & [W1 W2 (x & Hx & Hx1) W4 W5 W5l W5c W6 (a & Ha & Haf)]);
    rewrite ?Hnf; [unfold u64p; lia|lia|unfold area_len in *; lia_div|lia|intros _ Hz; rewrite Hz in Hsp; cbn in Hsp; lia|].
  rewrite Hnf in Hi', W6.
  exists new, a, v', cl', (set_sv t s). rewrite (on_vs_run _ s _ _ E1). split; [done|].
  assert (free_pages (pages (tables t)) ⊆ free_in s) as Hsub by (rewrite Hx; intros y Hy; apply elem_of_app; by right).
  assert (a_start a = p_vaddr ph ∧ a_size a = area_len (p_memsz ph) + 1) as Hsa.
  { destruct (achain_lookup _ _ _ _ (mk_desc new (p_vaddr ph) (area_len (p_memsz ph) + 1)) (vi_chain _ _ _ _ _ _ _ Hi')) as (a' & Ha' & H1 & H2 & _).
    - apply elem_of_app. right. by left.
    - cbn [d_addr] in Ha'. assert (a' = a) as -> by congruence. done. }
  split; try done. split; try done; cbn [sv set_sv].
  - exists k. by rewrite Hcp.
  - intros va Hva. change new with (d_addr (mk_desc new (p_vaddr ph) (area_len (p_memsz ph) + 1))) at 2. apply area_of_last; [|unfold d_end; cbn; lia].
    apply Forall_forall. intros d Hd. destruct (alay_elem _ _ _ _ (vi_lay _ _ _ _ _ _ _ Hi) Hd) as (_ & Hde & _).
    fold (frontier v l) in Hde. cbn. lia.
  - split_and!; [done|done| |]; rewrite Haf; apply Hfl.
  - split; [|lia]. assert (0 < p_vaddr ph) by (unfold frontier in *; destruct (decide (l = [])); lia). lia_div.
  - destruct Hok as [Hwf Hpg Hfree]. rewrite W4. split; [by rewrite W1|apply (co_pages _ _ _ _ _ (vi_cont _ _ _ _ _ _ _ Hi'))|].
    intros y q Hy. apply Hfree. by apply Hsub.
  - intros va Hva. rewrite W1. apply Hbig. lia.
  - intros va Hva. rewrite W1, Hab by lia. split; [done|]. pose proof (Z.div_le_mono (p_vaddr ph) va 4096). lia.
  - intros va va' e e' Hva _ Hm. rewrite W1, Hab in Hm by lia. done.
  - intros va e Hva Hm. rewrite W1, Hab in Hm by lia. done.
  - split; [done|]. unfold seg_pages in Hsp. rewrite Hx, length_app in Hsp. lia.
  - lia_div.
Qed.

(** [update_area_access] on a whole area. *)
Lemma update_access_run s v cl l area a tabs flags n :
  vmm_inv pg_ok cpu m v cl l (sv s) → area ≠ 0 → areas (sv s) !! area = Some a → vm_ok pg_ok (root_pagetable v) tabs (tables (sv s)) →
  0 ≤ a_start a → a_start a mod 4096 = 0 → a_size a = Z.of_nat n * 4096 → 0 < Z.of_nat n ≤ 2 ^ 36 → a_start a + a_size a < 2 ^ 64 →
  0 ≤ with_user (user_vmm v) flags < 8 → (∀ k, 0 ≤ k < Z.of_nat n → no_big (words (tables (sv s))) tabs (a_start a + 4096 * k)) →
  ∃ r t, on_vs (update_area_access m area flags) s = Done (r, set_sv t s) ∧ vmm_inv pg_ok cpu m v cl l t ∧ space_kept (lock v) (sv s) t ∧
    vm_ok pg_ok (root_pagetable v) tabs (tables t) ∧
    updated (vmflag_to_x86flag (nx_flag_enabled (tables (sv s))) (with_user (user_vmm v) flags)) (a_start a) n tabs (tables (sv s)) (tables t).
Proof.
  intros Hi Ha0 Ha Hok Hs0 Hal Hsz Hn He Hfl Hnb. destruct (vi_vmm _ _ _ _ _ _ _ Hi) as [Hm Hv].
  set (f := with_user (user_vmm v) flags) in *. set (a' := set_a_flags f a). set (s1 := put_areas (<[area := a']> (areas (sv s))) (sv s)).
  assert (vmm_inv pg_ok cpu m v cl l s1) as Hi1.
  { destruct Hi as [I1 I2 I3 I4 I5 I6 I7 I8]. split; try done. cbn. by eapply achain_same. }
  destruct (updatepages_any pg_ok (root_pagetable v) tabs (tables (sv s)) (a_start a) n f Hok) as (r & t & E1 & Hok' & Hup & _); try done; [lia|].
  exists r, (put_tables t s1). split_and!; [|apply vmm_inv_tables; [done|apply Hok'|by rewrite (up_pages _ _ _ _ _ _ Hup)]|done|done|done].
  apply on_vs_run. unfold update_area_access.
  rewrite (bind_done _ _ _ _ _ (upd_area_run area (set_a_flags flags) a (sv s) Ha0 Ha)).
  erewrite bind_done by (apply load_vmm_run; done).
  erewrite (bind_done _ _ _ tt s1).
  2: { unfold s1, a', f, with_user. destruct (user_vmm v); [|done].
       erewrite upd_area_run; [|done|apply lookup_insert_eq]. unfold put_areas. cbn. by rewrite insert_insert_eq. }
  erewrite bind_done by (apply load_area_run; [done|apply lookup_insert_eq]).
  change (a_start a') with (a_start a). change (a_size a') with (a_size a). change (a_flags a') with f. rewrite Hsz.
  by rewrite (on_tables_run _ s1 r t E1).
Qed.

(** The page of [va] holds bytes that the file gives for the segment. *)
Definition file_page (ph : Elf64_Phdr) (va : Z) : Prop := p_vaddr ph ≤ va / 4096 * 4096 < p_vaddr ph + p_filesz ph.

(** What loading a segment does to the state [s]. *)
Record loaded s (tabs : gmap (list Z) Z) (user : bool) (lk : Z) (ph : Elf64_Phdr) (bs : list Z) s' (tabs' : gmap (list Z) Z) : Prop := mk_loaded {
  lo_mem : smem s' = smem s;
  lo_nx : nx_flag_enabled (tables (sv s')) = nx_flag_enabled (tables (sv s));
  lo_bytes (i : nat) b : bs !! i = Some b → ∃ e, mapped_in s' tabs' (p_vaddr ph + Z.of_nat i) = Some e ∧
    sframes s' !! frame_byte e (p_vaddr ph + Z.of_nat i) = Some b ∧
    e_write e = bool_decide (Z.land (p_flags ph) PF_W ≠ 0) ∧ e_user e = user ∧
    e_nx e = nx_flag_enabled (tables (sv s)) && negb (bool_decide (Z.land (p_flags ph) PF_X ≠ 0));
  lo_outside va : 0 ≤ va < 2 ^ 47 → ¬ file_page ph va → mapped_in s' tabs' va = mapped_in s tabs va;
  lo_frames pa : pa / 4096 * 4096 ∉ free_in s → sframes s' !! pa = sframes s !! pa;
  lo_free : free_in s' ⊆ free_in s;
  lo_rest : rest_kept s s';
  lo_kept : space_kept lk (sv s) (sv s');
  lo_calm : calm (words (tables (sv s))) tabs (words (tables (sv s'))) tabs';
}.

(** The copy and the change of rights together, on the pages that were touched. *)
Lemma touched_rights s1 tabs1 bs s2 tabs2 xf n (t : vm P) (va0 : Z) (i : nat) b :
  copied s1 tabs1 va0 bs s2 tabs2 → updated xf va0 n tabs2 (tables (sv s2)) t → 0 ≤ va0 → va0 mod 4096 = 0 →
  Z.of_nat (length bs) ≤ 4096 * Z.of_nat n → va0 + Z.of_nat (length bs) ≤ 2 ^ 47 → bs !! i = Some b →
  ∃ e, mapped (words t) tabs2 (va0 + Z.of_nat i) = Some (updated_entry xf e) ∧ sframes s2 !! frame_byte e (va0 + Z.of_nat i) = Some b.
Proof.
  intros Hc Hu H0 Hal Hn Hhi Hb. destruct (cp_bytes _ _ _ _ _ _ Hc i b Hb) as (e & He & Hf). exists e. split; [|done].
  apply lookup_lt_Some in Hb as Hi. set (j := Z.of_nat i / 4096).
  assert (page_no (va0 + Z.of_nat i) = page_no (va0 + 4096 * j)) as Ep.
  { unfold page_no. f_equal. unfold j. lia_div. }
  rewrite (mapped_page _ _ _ _ Ep), (up_in _ _ _ _ _ _ Hu j); [by rewrite <- (mapped_page _ _ _ _ Ep), He|unfold j; lia_div|].
  intros k Hk. destruct (lookup_lt_is_Some_2 bs (Z.to_nat (4096 * k))) as [b' Hb']; [unfold j in Hk; lia_div|].
  destruct (cp_bytes _ _ _ _ _ _ Hc _ _ Hb') as (e' & He' & _). rewrite Z2Nat.id in He' by lia. by rewrite He'.
Qed.

(** Pages touched by the copy of [n] bytes to the page-aligned [lo]. *)
Lemma touched_or_not lo n va :
  0 ≤ lo → lo mod 4096 = 0 → 0 ≤ n → lo + n ≤ 2 ^ 47 → 0 ≤ va < 2 ^ 47 →
  (∃ va', lo ≤ va' < lo + n ∧ page_no va = page_no va') ∨ (∀ va', lo ≤ va' < lo + n → page_no va ≠ page_no va').
Proof.
  intros H0 Hal Hn Hhi Hva. destruct (decide (lo ≤ va / 4096 * 4096 < lo + n)) as [Hin|Hout].
  - left. exists (va / 4096 * 4096). split; [done|]. unfold page_no. f_equal. lia_div.
  - right. intros va' Hva' Ep. rewrite !small_page_no in Ep by lia. apply Hout. lia_div.
Qed.

Lemma seg_bounds s v cl l tabs elf slack ph bs :
  filling s v cl l tabs → seg_fits s elf v l slack ph bs →
  0 < p_vaddr ph ∧ p_filesz ph ≤ area_len (p_memsz ph) + 1 ∧ 0 ≤ area_len (p_memsz ph) ∧ p_vaddr ph + area_len (p_memsz ph) < 2 ^ 47 ∧ 0 ≤ p_filesz ph.
Proof.
  intros Hfill [_ Hal Hfr (Hsz & Hfz) (Hr1 & Hr2) _ _ _]. pose proof (area_len_ge uninit_area uninit_next (p_memsz ph)) as [Hge Hge0]; [lia|].
  destruct (vi_bounds _ _ _ _ _ _ _ (fi_inv _ _ _ _ _ Hfill)) as (B1 & _).
  pose proof (alay_le _ _ _ (vi_lay _ _ _ _ _ _ _ (fi_inv _ _ _ _ _ Hfill))) as Hlo. unfold frontier in Hfr. lia.
Qed.

Section finished.
Context (s : mach) (v : vmm_info_t) (cl : list Z) (l : list desc) (tabs : gmap (list Z) Z) (elf slack : Z) (ph : Elf64_Phdr) (bs : list Z).
Context (new : Z) (a : memory_area_t) (v' : vmm_info_t) (cl' : list Z) (s1 s2 : mach) (tabs2 : gmap (list Z) Z) (q2 : Z) (t : vmm_state P H) (n : nat).
Abbreviation l' := (l ++ [mk_desc new (p_vaddr ph) (area_len (p_memsz ph) + 1)]).
Abbreviation xf := (vmflag_to_x86flag (nx_flag_enabled (tables (sv s2))) (with_user (user_vmm v) (seg_flags ph))).
Hypothesis Hfill : filling s v cl l tabs.
Hypothesis Hfits : seg_fits s elf v l slack ph bs.
Hypothesis Hplace : placed_seg s v l tabs ph slack new a v' cl' s1.
Hypothesis Hloads : loads pg_ok cpu m v' cl' l' new a (p_vaddr ph) (p_vaddr ph + p_filesz ph) slack s2 tabs2 q2.
Hypothesis Hcopied : copied s1 tabs (p_vaddr ph) bs s2 tabs2.
Hypothesis Hinv : vmm_inv pg_ok cpu m v' cl' l' t.
Hypothesis Hkept : space_kept (lock v') (sv s2) t.
Hypothesis Hvm : vm_ok pg_ok (root_pagetable v') tabs2 (tables t).
Hypothesis Hup : updated xf (p_vaddr ph) n tabs2 (tables (sv s2)) (tables t).
Hypothesis Hpages : Z.of_nat n * 4096 = area_len (p_memsz ph) + 1.

Lemma segment_untouched va :
  0 ≤ va < 2 ^ 47 → ¬ file_page ph va → mapped (words (tables t)) tabs2 va = mapped_in s tabs va.
Proof.
  intros Hva Hout. pose proof (seg_bounds _ _ _ _ _ _ _ _ _ Hfill Hfits) as (Hb & Hb1 & Hb2 & Hb3 & Hb4). pose proof (sf_aligned _ _ _ _ _ _ _ Hfits) as Hal.
  assert (mapped_in s2 tabs2 va = mapped_in s tabs va) as Hcp.
  { rewrite (cp_outside _ _ _ _ _ _ Hcopied); [by rewrite (ps_words _ _ _ _ _ _ _ _ _ _ _ Hplace)|].
    rewrite (sf_length _ _ _ _ _ _ _ Hfits). intros va' Hva' Ep. rewrite !small_page_no in Ep by lia. apply Hout. unfold file_page. lia_div. }
  destruct (decide (va < p_vaddr ph ∨ p_vaddr ph + area_len (p_memsz ph) < va)) as [Hfar|Hnear].
  - rewrite (up_out _ _ _ _ _ _ Hup); [done|].
    rewrite elem_of_page_list. intros (k & Hk & Ep). rewrite !small_page_no in Ep by lia. lia_div.
  - assert (mapped_in s tabs va = None) as Hnone.
    { apply (fi_above _ _ _ _ _ Hfill). pose proof (sf_front _ _ _ _ _ _ _ Hfits). lia. }
    destruct (up_either _ _ _ _ _ _ Hup va) as [-> | ->]; by rewrite Hcp, ?Hnone.
Qed.

Lemma segment_not_free va e : 0 ≤ va < 2 ^ 47 → mapped (words (tables t)) tabs2 va = Some e → pd_addr e * 4096 ∉ free_pages (pages (tables t)).
Proof.
  intros Hva He. rewrite (up_pages _ _ _ _ _ _ Hup). pose proof (seg_bounds _ _ _ _ _ _ _ _ _ Hfill Hfits) as (Hb & Hb1 & Hb2 & Hb3 & Hb4).
  assert (∃ e2, mapped_in s2 tabs2 va = Some e2 ∧ pd_addr e2 = pd_addr e) as (e2 & He2 & <-).
  { destruct (up_either _ _ _ _ _ _ Hup va) as [Eq|Eq]; rewrite He in Eq; [by exists e|].
    destruct (mapped_in s2 tabs2 va) as [e2|]; [|done]. exists e2. split; [done|]. injection Eq as ->. by rewrite updated_frame. }
  destruct (touched_or_not (p_vaddr ph) (p_filesz ph) va) as [(va' & Hva' & Ep)|Hno]; [lia|apply Hfits|lia|lia|done| |].
  - apply (ld_used _ _ _ _ _ _ _ _ _ _ _ _ _ _ Hloads va'); [done|]. by rewrite <- (mapped_page _ _ _ _ Ep).
  - intros Hin. apply (cp_free _ _ _ _ _ _ Hcopied), (ps_free _ _ _ _ _ _ _ _ _ _ _ Hplace) in Hin. revert Hin.
    apply (fi_used _ _ _ _ _ Hfill va); [done|]. rewrite <- (ps_words _ _ _ _ _ _ _ _ _ _ _ Hplace), <- He2.
    symmetry. apply (cp_outside _ _ _ _ _ _ Hcopied). by rewrite (sf_length _ _ _ _ _ _ _ Hfits).
Qed.

Lemma segment_filling : filling (set_sv t s2) v' cl' l' tabs2.
Proof.
  pose proof (seg_bounds _ _ _ _ _ _ _ _ _ Hfill Hfits) as (Hb & Hb1 & Hb2 & Hb3 & Hb4). destruct Hplace as [P1 P2 P3 P4 P5 P6 P7 P8 P9 P10 P11 P12].
  split; cbn [sv set_sv].
  - rewrite (sk_cpus _ _ _ Hkept). apply (ld_cpu _ _ _ _ _ _ _ _ _ _ _ _ _ _ Hloads).
  - done.
  - rewrite P6. apply Hfill.
  - done.
  - intros va Hva. apply (up_calm _ _ _ _ _ _ Hup), (cp_calm _ _ _ _ _ _ Hcopied). rewrite P8. by apply Hfill.
  - intros va. unfold frontier. rewrite decide_False by (by destruct l). intros Hva. pose proof (sf_aligned _ _ _ _ _ _ _ Hfits). pose proof Hpages.
    rewrite segment_untouched by (unfold file_page; lia_div).
    apply (fi_above _ _ _ _ _ Hfill). pose proof (sf_front _ _ _ _ _ _ _ Hfits). lia.
  - apply segment_not_free.
  - apply (ld_ctl _ _ _ _ _ _ _ _ _ _ _ _ _ _ Hloads).
Qed.

Lemma segment_loaded : loaded s tabs (user_vmm v) (lock v) ph bs (set_sv t s2) tabs2.
Proof.
  pose proof (seg_bounds _ _ _ _ _ _ _ _ _ Hfill Hfits) as (Hb & Hb1 & Hb2 & Hb3 & Hb4). pose proof (sf_length _ _ _ _ _ _ _ Hfits) as Hlen.
  destruct Hplace as [P1 P2 P3 P4 P5 P6 P7 P8 P9 P10 P11 P12]. pose proof (cp_nx _ _ _ _ _ _ Hcopied) as Hnx.
  split; cbn [sv set_sv smem sframes].
  - rewrite (cp_mem _ _ _ _ _ _ Hcopied). by rewrite P1.
  - by rewrite (up_nx _ _ _ _ _ _ Hup), Hnx.
  - intros i b Hi. destruct (touched_rights s1 tabs bs s2 tabs2 xf n (tables t) (p_vaddr ph) i b Hcopied Hup) as (e & He & Hf);
      [lia|apply Hfits|lia|lia|done|].
    exists (updated_entry xf e). split; [done|]. split; [unfold frame_byte; by rewrite updated_frame|].
    destruct (seg_flags_rights ph (user_vmm v)) as (F0 & F1 & F2 & F3).
    destruct (updated_rights (nx_flag_enabled (tables (sv s2))) (with_user (user_vmm v) (seg_flags ph)) e F0) as (_ & R1 & R2 & R3).
    rewrite R1, R2, R3, F1, F2, F3, Hnx, P9. done.
  - apply segment_untouched.
  - intros pa Hpa. assert (sframes s = sframes s1) as -> by (by rewrite P1). apply (cp_rest _ _ _ _ _ _ Hcopied).
    intros va e Hva He ->. apply Hpa. rewrite Hlen in Hva.
    replace (frame_byte e va / 4096 * 4096) with (pd_addr e * 4096) by (unfold frame_byte, PAGE_SIZE; rewrite Z.shiftl_mul_pow2 by lia; lia_div).
    apply P10. destruct (cp_frames _ _ _ _ _ _ Hcopied va e) as [Hm|]; [by rewrite Hlen|done| |done]. exfalso.
    rewrite P8, (fi_above _ _ _ _ _ Hfill) in Hm; [done|]. pose proof (sf_front _ _ _ _ _ _ _ Hfits). lia.
  - rewrite (up_pages _ _ _ _ _ _ Hup). etrans; [apply (cp_free _ _ _ _ _ _ Hcopied)|done].
  - eapply rest_kept_trans; [|eapply rest_kept_trans; [apply (cp_kept _ _ _ _ _ _ Hcopied)|apply rest_kept_sv]]. rewrite P1. apply rest_kept_sv.
  - destruct (cp_sys _ _ _ _ _ _ Hcopied) as [t2 Ht2]. rewrite P11 in Hkept. eapply space_kept_trans; [exact P12|].
    eapply space_kept_trans; [|exact Hkept]. rewrite Ht2. by split.
  - rewrite <- P8. eapply calm_trans; [apply (cp_calm _ _ _ _ _ _ Hcopied)|apply (up_calm _ _ _ _ _ _ Hup)].
Qed.
End finished.

Lemma set_sv_id s : set_sv (sv s) s = s.
Proof. by destruct s. Qed.

(** [load_segment] on a segment that fits. *)
Lemma load_segment_run s v cl l tabs elf slack ph bs i seg :
  filling s v cl l tabs → seg_fits s elf v l slack ph bs →
  get_segment elf i (smem s) = Done (seg, smem s) → load_phdr seg (smem s) = Done (ph, smem s) →
  ∃ new v' cl' tabs' s', load_segment kernel_vmm uninit_area uninit_next spins cpu m elf i s = Done (true, s') ∧
    filling s' v' cl' (l ++ [mk_desc new (p_vaddr ph) (area_len (p_memsz ph) + 1)]) tabs' ∧
    loaded s tabs (user_vmm v) (lock v) ph bs s' tabs' ∧ slack ≤ Z.of_nat (length (free_in s')) ∧
    lock v' = lock v ∧ user_vmm v' = user_vmm v ∧ vmm_data_end v' = vmm_data_end v ∧ current_addr v' = p_vaddr ph + area_len (p_memsz ph) ∧
    root_pagetable v' = root_pagetable v.
Proof.
  intros Hfi Hft Eg Ep.
  assert (0 ≤ with_user (user_vmm v) (Z.lor (seg_flags ph) MEMORY_FLAG_WRITE) < 256) as Hfl.
  { unfold with_user, seg_flags. destruct (user_vmm v), (decide (Z.land (p_flags ph) PF_W ≠ 0)), (decide (Z.land (p_flags ph) PF_X ≠ 0)); by vm_compute. }
  destruct (place_segment s v cl l tabs elf slack ph bs (Z.lor (seg_flags ph) MEMORY_FLAG_WRITE) Hfi Hft Hfl) as (new & a & v' & cl' & s1 & E1 & Hpl).
  pose proof Hpl as [P1 Hl1 (Hst & Hsz) P4 P5 P6 P7 P8 P9 P10 P11 P12].
  pose proof (seg_bounds s v cl l tabs elf slack ph bs Hfi Hft) as (Hb & Hb1 & Hb2 & Hb3 & Hb4).
  destruct (ld_desc _ _ _ _ _ _ _ _ _ _ _ _ _ _ Hl1) as (Hn0 & Ha1 & _).
  destruct (copy_in_run pg_ok managed uninit_area uninit_next kernel_vmm cpu m v' cl' _ new a (p_vaddr ph) (p_vaddr ph + p_filesz ph) slack
    bs s1 tabs (p_vaddr ph / 4096) (p_vaddr ph) (elf +64 p_offset ph) Hl1) as (s2 & tabs2 & q2 & E2 & Hl2 & Hcp);
    [lia|rewrite (sf_length _ _ _ _ _ _ _ Hft); lia|lia|rewrite P1; apply Hft|].
  pose proof (sf_aligned _ _ _ _ _ _ _ Hft) as Hal. pose proof (area_len_mod uninit_area uninit_next (p_memsz ph)) as Hlm.
  set (n := Z.to_nat ((area_len (p_memsz ph) + 1) / 4096)).
  assert (Z.of_nat n * 4096 = area_len (p_memsz ph) + 1) as Hn by (unfold n; lia_div).
  destruct (update_access_run s2 v' cl' _ new a tabs2 (seg_flags ph) n (ld_inv _ _ _ _ _ _ _ _ _ _ _ _ _ _ Hl2) Hn0)
    as (r & t & E3 & Hi3 & Hc3 & Hok3 & Hup); rewrite ?Hst, ?Hsz; try lia.
  { apply (ld_desc _ _ _ _ _ _ _ _ _ _ _ _ _ _ Hl2). }
  { apply (ld_ok _ _ _ _ _ _ _ _ _ _ _ _ _ _ Hl2). }
  { apply seg_flags_rights. }
  { intros k Hk. apply (cp_calm _ _ _ _ _ _ Hcp). rewrite P8. apply Hfi. lia. }
  rewrite Hst, P5 in Hup.
  exists new, v', cl', tabs2, (set_sv t s2). split_and!; try done.
  - unfold load_segment.
    assert (∀ A (f : MEM A) x, f (smem s) = Done (x, smem s) → on_smem f s = Done (x, s)) as Hon.
    { intros A f x Hf. unfold on_smem, zoom. rewrite Hf. by destruct s. }
    rewrite (bind_done _ _ _ _ _ (Hon _ _ _ Eg)), (bind_done _ _ _ _ _ (Hon _ _ _ Ep)).
    rewrite decide_True by apply Hft. cbv zeta. fold (seg_flags ph). rewrite (bind_done _ _ _ _ _ E1), decide_False by done.
    erewrite bind_done by (apply on_vs_run, load_area_run; [done|exact Ha1]). rewrite set_sv_id, Hst.
    rewrite decide_False by auto. rewrite <- (sf_length _ _ _ _ _ _ _ Hft), Nat2Z.id.
    rewrite (bind_done _ _ _ _ _ E2), (bind_done _ _ _ _ _ E3). done.
  - by eapply segment_filling.
  - by eapply segment_loaded.
  - cbn [sv set_sv]. rewrite (up_pages _ _ _ _ _ _ Hup). destruct (ld_spare _ _ _ _ _ _ _ _ _ _ _ _ _ _ Hl2) as [_ Hsp].
    pose proof (ld_last _ _ _ _ _ _ _ _ _ _ _ _ _ _ Hl2). lia.
Qed.

(** ** All segments of a program *)

(** The segments, each with its bytes in the image, in increasing order from
    [front] on and up to the end [till] of the address space; entries that are
    not loadable are skipped. *)
Fixpoint seg_chain (mem : mem) (elf till front : Z) (segs : list (Elf64_Phdr * list Z)) : Prop :=
  match segs with
  | [] => True
  | (ph, bs) :: segs =>
      if decide (p_type ph = PT_LOAD) then
        p_vaddr ph mod 4096 = 0 ∧ front ≤ p_vaddr ph ∧ 0 < p_memsz ph ∧ 0 ≤ p_filesz ph ≤ p_memsz ph ∧
        p_vaddr ph + area_len (p_memsz ph) ≤ till ∧ p_vaddr ph + area_len (p_memsz ph) < 2 ^ 47 ∧
        at_ mem (elf +64 p_offset ph) bs ∧ Z.of_nat (length bs) = p_filesz ph ∧
        seg_chain mem elf till (p_vaddr ph + area_len (p_memsz ph) + 1) segs
      else seg_chain mem elf till front segs
  end.
(** Pages that are enough: for each segment a container of areas, and for each
    of its pages a frame and three tables. *)
Fixpoint seg_need (segs : list (Elf64_Phdr * list Z)) : Z :=
  match segs with
  | [] => 0
  | (ph, _) :: segs => (if decide (p_type ph = PT_LOAD) then 1 + 4 * seg_pages ph else 0) + seg_need segs
  end.

Lemma seg_need_pos mem elf till front segs : seg_chain mem elf till front segs → 0 ≤ seg_need segs.
Proof.
  revert front. induction segs as [|[ph bs] segs IH]; intros front; cbn [seg_chain seg_need]; [done|].
  destruct (decide (p_type ph = PT_LOAD)); [|by intros ?%IH]. intros (_ & _ & _ & Hf & _ & _ & _ & _ & ?%IH). unfold seg_pages. lia_div.
Qed.

(** Where the areas end afterwards. *)
Fixpoint seg_top (front : Z) (segs : list (Elf64_Phdr * list Z)) : Z :=
  match segs with
  | [] => front
  | (ph, _) :: segs => seg_top (if decide (p_type ph = PT_LOAD) then p_vaddr ph + area_len (p_memsz ph) + 1 else front) segs
  end.

(** The areas of the loadable segments: start and size. *)
Fixpoint seg_areas (segs : list (Elf64_Phdr * list Z)) : list (Z * Z) :=
  match segs with
  | [] => []
  | (ph, _) :: segs => (if decide (p_type ph = PT_LOAD) then [(p_vaddr ph, area_len (p_memsz ph) + 1)] else []) ++ seg_areas segs
  end.
Definition extents (l : list desc) : list (Z * Z) := (λ d, (d_start d, d_size d)) <$> l.

(** The byte [b] at [va], with the rights of [ph]. *)
Definition shows s (tabs : gmap (list Z) Z) (user nx : bool) (ph : Elf64_Phdr) (va b : Z) : Prop :=
  ∃ e, mapped_in s tabs va = Some e ∧ sframes s !! frame_byte e va = Some b ∧
    e_write e = bool_decide (Z.land (p_flags ph) PF_W ≠ 0) ∧ e_user e = user ∧
    e_nx e = nx && negb (bool_decide (Z.land (p_flags ph) PF_X ≠ 0)).

Record program_loaded s (tabs : gmap (list Z) Z) (front : Z) (user : bool) (lk : Z) (segs : list (Elf64_Phdr * list Z)) s' (tabs' : gmap (list Z) Z) : Prop := mk_program_loaded {
  pr_bytes ph bs (i : nat) b : (ph, bs) ∈ segs → p_type ph = PT_LOAD → bs !! i = Some b →
    shows s' tabs' user (nx_flag_enabled (tables (sv s))) ph (p_vaddr ph + Z.of_nat i) b;
  pr_outside va : 0 ≤ va < 2 ^ 47 → (∀ ph bs, (ph, bs) ∈ segs → p_type ph = PT_LOAD → ¬ file_page ph va) →
    mapped_in s' tabs' va = mapped_in s tabs va;
  pr_below va : 0 ≤ va < 2 ^ 47 → va < front → mapped_in s' tabs' va = mapped_in s tabs va;
  pr_frames pa : pa / 4096 * 4096 ∉ free_in s → sframes s' !! pa = sframes s !! pa;
  pr_free : free_in s' ⊆ free_in s;
  pr_rest : rest_kept s s';
  pr_kept : space_kept lk (sv s) (sv s');
  pr_calm : calm (words (tables (sv s))) tabs (words (tables (sv s'))) tabs';
}.

Lemma program_cons s tabs v cl l ph bs segs s1 tabs1 v1 cl1 l1 s' tabs' :
  filling s1 v1 cl1 l1 tabs1 → loaded s tabs (user_vmm v) (lock v) ph bs s1 tabs1 → 0 ≤ p_vaddr ph → Z.of_nat (length bs) ≤ area_len (p_memsz ph) + 1 →
  0 ≤ area_len (p_memsz ph) → p_vaddr ph + area_len (p_memsz ph) < 2 ^ 47 → frontier v l ≤ p_vaddr ph → filling s v cl l tabs →
  p_type ph = PT_LOAD → p_filesz ph ≤ area_len (p_memsz ph) + 1 →
  program_loaded s1 tabs1 (p_vaddr ph + area_len (p_memsz ph) + 1) (user_vmm v) (lock v) segs s' tabs' →
  program_loaded s tabs (frontier v l) (user_vmm v) (lock v) ((ph, bs) :: segs) s' tabs'.
Proof.
  intros Hf1 [Lm Ln Lb Lo Lf Ls Lr Lk Lc] Hv Hlen Hl0 Hhi Hfr Hfi Hty0 Hfz [Pb Pn Po Pf Ps Pr Pk Pc]. rewrite Ln in Pb. split.
  - intros ph' bs' i b [[= -> ->]|Hin]%elem_of_cons Hty Hb; [|by eapply Pb]. destruct (Lb i b Hb) as (e & He & Hfb & Hr). exists e.
    apply lookup_lt_Some in Hb. rewrite Po by lia. split; [done|]. split; [|done].
    rewrite Pf; [done|]. replace (frame_byte e (p_vaddr ph + Z.of_nat i) / 4096 * 4096) with (pd_addr e * 4096)
      by (unfold frame_byte, PAGE_SIZE; rewrite Z.shiftl_mul_pow2 by lia; lia_div).
    apply (fi_used _ _ _ _ _ Hf1 (p_vaddr ph + Z.of_nat i)); [lia|done].
  - intros va Hva Hout. rewrite Pn, Lo; [done|done|eapply Hout; [by left|done]|done|]. intros ph' bs' Hin. apply (Hout ph' bs'). by right.
  - intros va Hva Hlt. rewrite Po, Lo by (unfold file_page; lia_div). done.
  - intros pa Hpa. rewrite Pf, Lf; [done|done|]. intros Hin. by apply Hpa, Ls.
  - by etrans.
  - by eapply rest_kept_trans.
  - by eapply space_kept_trans.
  - by eapply calm_trans.
Qed.

Lemma load_segments_run segs s v cl l tabs elf slack i :
  filling s v cl l tabs → seg_chain (smem s) elf (vmm_data_end v) (frontier v l) segs → 0 ≤ slack →
  slack + seg_need segs ≤ Z.of_nat (length (free_in s)) →
  (∀ j ph bs, segs !! j = Some (ph, bs) → ∃ a, get_segment elf (i + Z.of_nat j) (smem s) = Done (a, smem s) ∧ load_phdr a (smem s) = Done (ph, smem s)) →
  ∃ v' cl' l' tabs' s', load_segments kernel_vmm uninit_area uninit_next spins cpu (length segs) m elf i s = Done (true, s') ∧
    filling s' v' cl' l' tabs' ∧ program_loaded s tabs (frontier v l) (user_vmm v) (lock v) segs s' tabs' ∧ slack ≤ Z.of_nat (length (free_in s')) ∧
    frontier v' l' = seg_top (frontier v l) segs ∧ lock v' = lock v ∧ vmm_data_end v' = vmm_data_end v ∧ root_pagetable v' = root_pagetable v ∧
    extents l' = extents l ++ seg_areas segs.
Proof.
  revert s v cl l tabs i. induction segs as [|[ph bs] segs IH]; intros s v cl l tabs i Hfi Hch Hsl Hneed Hrd.
  { exists v, cl, l, tabs, s. cbn in Hneed. split_and!; try done; try lia; [|by rewrite app_nil_r]. split; try done; [|apply rest_kept_refl]. intros ph bs j b Hin. by apply not_elem_of_nil in Hin. }
  destruct (Hrd 0%nat ph bs eq_refl) as (a & Eg & Ep). rewrite Z.add_0_r in Eg. cbn [seg_chain seg_need seg_top seg_areas length load_segments] in *.
  assert (∀ s1 : mach, smem s1 = smem s → ∀ j ph' bs', segs !! j = Some (ph', bs') →
    ∃ a, get_segment elf (i + 1 + Z.of_nat j) (smem s1) = Done (a, smem s1) ∧ load_phdr a (smem s1) = Done (ph', smem s1)) as Hrd1.
  { intros s1 -> j ph' bs' Hj. destruct (Hrd (S j) ph' bs' Hj) as (a' & Eg' & Ep'). exists a'.
    by replace (i + 1 + Z.of_nat j) with (i + Z.of_nat (S j)) by lia. }
  destruct (decide (p_type ph = PT_LOAD)) as [Hty|Hty].
  - destruct Hch as (C1 & C2 & C3 & C4 & C5 & C6 & C7 & C8 & C9).
    assert (seg_fits s elf v l (slack + seg_need segs) ph bs) as Hft.
    { split; try done. pose proof (seg_need_pos _ _ _ _ _ C9). lia. }
    destruct (load_segment_run s v cl l tabs elf (slack + seg_need segs) ph bs i a Hfi Hft Eg Ep)
      as (new & v1 & cl1 & tabs1 & s1 & E1 & Hf1 & Hld & Hsl1 & Hlk & Hu & Hde & Hca & Hro).
    pose proof (seg_bounds _ _ _ _ _ _ _ _ _ Hfi Hft) as (Hb & Hb1 & Hb2 & Hb3 & Hb4).
    rewrite (bind_done _ _ _ _ _ E1).
    set (l1 := l ++ _) in *. assert (frontier v1 l1 = p_vaddr ph + area_len (p_memsz ph) + 1) as Hfr1.
    { unfold frontier. rewrite decide_False; [by rewrite Hca|]. unfold l1. by destruct l. }
    destruct (IH s1 v1 cl1 l1 tabs1 (i + 1) Hf1) as (v' & cl' & l' & tabs' & s' & E2 & Hf' & Hpr & Hsl' & Htop & Hlk' & Hde' & Hro' & Hext); try done.
    { by rewrite Hfr1, Hde, (lo_mem _ _ _ _ _ _ _ _ Hld). }
    { apply Hrd1, Hld. }
    exists v', cl', l', tabs', s'. split_and!; [done|done| |done|by rewrite Htop, Hfr1|congruence|congruence|congruence|].
    2: { rewrite Hext. unfold extents, l1. rewrite fmap_app, <- app_assoc. done. }
    rewrite Hfr1, Hu, Hlk in Hpr.
    refine (program_cons s tabs v cl l ph bs segs s1 tabs1 v1 cl1 l1 s' tabs' Hf1 Hld _ _ _ _ _ Hfi Hty _ Hpr); lia.
  - rewrite (bind_done _ _ _ true s).
    2: { unfold load_segment. assert (∀ A (f : MEM A) x, f (smem s) = Done (x, smem s) → on_smem f s = Done (x, s)) as Hon.
         { intros A f x Hf. unfold on_smem, zoom. rewrite Hf. by destruct s. }
         rewrite (bind_done _ _ _ _ _ (Hon _ _ _ Eg)), (bind_done _ _ _ _ _ (Hon _ _ _ Ep)). by rewrite decide_False. }
    destruct (IH s v cl l tabs (i + 1) Hfi Hch Hsl) as (v' & cl' & l' & tabs' & s' & E2 & Hf' & [Pb Pn Po Pf Ps Pr Pk Pc] & Hsl' & Htop); [lia|by apply Hrd1|].
    destruct Htop as (? & ? & ? & ? & ?). exists v', cl', l', tabs', s'. split_and!; try done. split; try done.
    + intros ph' bs' j b [[= -> ->]|Hin]%elem_of_cons Hty' Hb; [done|by eapply Pb].
    + intros va Hva Hout. apply Pn; [done|]. intros ph' bs' Hin. apply (Hout ph' bs'). by right.
Qed.

(** C5: loading a program.  For an ELF image in memory whose loadable segments
    are page aligned, in increasing order and behind the areas of the address
    space, [load_segments], the loop of [create_process] over the program
    headers, returns successfully once there are enough free pages.  Then
    every byte that the file gives for a segment is at its address in a page
    of its own with exactly the rights of the segment: writable and executable
    as the header says, accessible to the user as the address space is.  The
    address space has one new area per loadable segment, of the size of the
    segment in memory.  No page that holds no such byte is mapped differently
    than before (the rest of a segment is left to page faults), no byte of
    memory changes outside pages that were free, the address space is well
    formed, and outside it only the interrupt controller, which is on, has
    seen the page faults acknowledged.  The bytes after the file's in the last page of a segment are
    whatever the page held. *)
Theorem load_segments_loads_program segs s v cl l tabs elf e ss :
  filling s v cl l tabs → elf_at (smem s) elf e (segs.*1) ss →
  seg_chain (smem s) elf (vmm_data_end v) (frontier v l) segs → seg_need segs ≤ Z.of_nat (length (free_in s)) →
  ∃ v' cl' l' tabs' s', load_segments kernel_vmm uninit_area uninit_next spins cpu (Z.to_nat (e_phnum e)) m elf 0 s = Done (true, s') ∧
    filling s' v' cl' l' tabs' ∧ program_loaded s tabs (frontier v l) (user_vmm v) (lock v) segs s' tabs' ∧
    extents l' = extents l ++ seg_areas segs.
Proof.
  intros Hfi Helf Hch Hneed. destruct (elf_headers_read_back _ _ _ _ _ Helf) as (Hseg & _).
  destruct (load_segments_run segs s v cl l tabs elf 0 0 Hfi Hch) as (v' & cl' & l' & tabs' & s' & E1 & Hf & Hp & _ & _ & _ & _ & _ & Hx); [done|lia| |].
  { intros j ph bs Hj. destruct (Hseg j ph) as (a & Eg & _ & Ep); [by rewrite list_lookup_fmap, Hj|]. exists a. by rewrite Z.add_0_l. }
  exists v', cl', l', tabs', s'. rewrite (elf_phnum _ _ _ _ _ Helf), length_fmap, Nat2Z.id. done.
Qed.
End segments.

(** ** An example: a segment of three bytes, and an entry to skip *)

Definition prog_phdrs : list Elf64_Phdr := [mk_phdr 4 4 0 0 0 0 0 4; mk_phdr PT_LOAD 5 0xb0 0x600000 0 3 4097 4096].
Definition prog_segs : list (Elf64_Phdr * list Z) := [(mk_phdr 4 4 0 0 0 0 0 4, []); (mk_phdr PT_LOAD 5 0xb0 0x600000 0 3 4097 4096, [72; 105; 33])].
Definition prog_ehdr : Elf64_Ehdr := mk_ehdr (replicate 16 1) 2 62 1 0x600000 64 0 0 64 56 2 64 0 0.
Definition prog_machine : machine (list Z) bump sim clock (gmap Z Z) unit :=
  set_smem (bytes_at 4096 (ehdr_bytes prog_ehdr ++ (prog_phdrs ≫= phdr_bytes) ++ [72; 105; 33]) ∅) (fault_machine ex_vm).
Abbreviation prog_filling := (filling list_pages_ok 3 0x500).

Lemma prog_filling_start : prog_filling prog_machine fault_vmm [fault_cont] [mk_desc fault_cont 0x400000 8192] {[ [] := ex_root ]}.
Proof.
  split.
  - by eexists.
  - exact fault_inv.
  - by vm_compute.
  - exact ex_vm_ok.
  - intros va _. apply empty_root_no_big, ex_root_table.
  - intros va _. apply empty_root_unmapped.
  - intros va e _ Hm. by rewrite empty_root_unmapped in Hm.
  - exists 3, false, 0xffff800000003000. split; try done. by exists 0, 0x03000000, 0, 0x300.
Qed.

Lemma load_segments_loads_program_witness :
  ∃ v' cl' l' tabs' s', load_segments 0x900 ex_area_mem ex_next_mem 0 3 (Z.to_nat (e_phnum prog_ehdr)) 0x500 4096 0 prog_machine = Done (true, s') ∧
    prog_filling s' v' cl' l' tabs' ∧
    program_loaded 0x500 prog_machine {[ [] := ex_root ]} (frontier fault_vmm [mk_desc fault_cont 0x400000 8192]) true 0x600 prog_segs s' tabs' ∧
    extents l' = extents [mk_desc fault_cont 0x400000 8192] ++ [(0x600000, 8192)].
Proof.
  refine (load_segments_loads_program list_pages_ok (λ _, phys_page) ex_area_mem ex_next_mem 0x900 0 3 0x500 prog_segs prog_machine
    fault_vmm [fault_cont] [mk_desc fault_cont 0x400000 8192] {[ [] := ex_root ]} 4096 prog_ehdr [] prog_filling_start _ _ _).
  - split; try done; try (by apply at_check_true; vm_compute); repeat constructor; done.
  - cbn [seg_chain prog_segs]. rewrite decide_False, decide_True by done. split_and!; try (by vm_compute). by apply at_check_true; vm_compute.
  - by vm_compute.
Defined.
