(* ===== verification/Spawn.v ===== *)
(** * Creating a process

    [create_process] as a whole: the structure of the process and its number,
    a new address space with the upper half of the kernel's, the program
    loaded into it, the array of threads with the first thread, and the entry
    in the list of processes. *)
From S2P Require Import Prelude.
From S2P Require Import Interfaces.
From S2P Require Import Double.
From S2P Require Import Cpu.
From S2P Require Import RbTree.
From S2P Require Import Cfs.
From S2P Require Import Spinlock.
From S2P Require Import Lst.
From S2P Require Import Layout.
From S2P Require Import Vm.
From S2P Require Import VmWalk.
From S2P Require Import VmMap.
From S2P Require Import Vmm.
From S2P Require Import VmmAlloc.
From S2P Require Import Libc.
From S2P Require Import Tty.
From S2P Require Import Printf.
From S2P Require Import Keyboard.
From S2P Require Import ThreadArray.
From S2P Require Import Bytes.
From S2P Require Import Ioapic.
From S2P Require Import Elf.
From S2P Require Import Idt.
From S2P Require Import Lapic.
From S2P Require Import Timer.
From S2P Require Import Process.
From S2P Require Import Sched.
From S2P Require Import ProcOps.
From S2P Require Import Dispatch.
From S2P Require Import Load.
From S2P Require Import Segments.

(** ** The tables of a new address space *)

Section new_root.
Context {P : Type} `{!PageAllocator P} (pg_ok : P → Prop).

(** A root table whose lower half is empty. *)
Record half_empty (st : vm P) (root : Z) : Prop := mk_half_empty {
  he_table : is_table root;
  he_words i : 0 ≤ i < 512 → ∃ e, words st !! (root + 8 * i) = Some e ∧ u64p e;
  he_low i e : 0 ≤ i < 256 → words st !! (root + 8 * i) = Some e → present e = false;
}.

Lemma top_index va : 0 ≤ va < 2 ^ 47 → 0 ≤ VA2INDEX va 3 < 256.
Proof. intros Hva. rewrite VA2INDEX_eq by lia. lia_div. Qed.

Lemma half_empty_vm_ok st root :
  half_empty st root → pg_ok (pages st) → (∀ x, x ∈ free_pages (pages st) → x + PHYSICAL_OFFSET ≠ root) →
  vm_ok pg_ok root {[ [] := root ]} st.
Proof.
  intros [Ht Hw _] Hpg Hfree.
  assert (Hl : ∀ p (a : Z), ({[ [] := root ]} : gmap (list Z) Z) !! p = Some a → p = [] ∧ a = root).
  { intros p a [<- <-]%lookup_singleton_Some. done. }
  split; [split|done|].
  - apply lookup_singleton_eq.
  - intros p a [-> ->]%Hl. split; [simpl; lia|done].
  - intros p a i [-> ->]%Hl Hi. by apply Hw.
  - intros p a i e b _ _ [E _]%Hl. by destruct p.
  - intros p i a [E _]%Hl. by destruct p.
  - intros p q a [-> _]%Hl [-> _]%Hl. done.
  - intros x q Hx [_ E]%Hl. by apply (Hfree x).
Qed.

Lemma half_empty_no_big st root va : half_empty st root → 0 ≤ va < 2 ^ 47 → no_big (words st) {[ [] := root ]} va.
Proof.
  intros [Ht Hw Hlow] Hva q i r a e Hq [<- <-]%lookup_singleton_Some He Hpr. cbn in Hq. injection Hq as <- _.
  rewrite (Hlow _ _ (top_index va Hva) He) in Hpr. done.
Qed.

Lemma half_empty_unmapped w root va : mapped w {[ [] := root ]} va = None.
Proof. unfold mapped, leaf, leaf_addr. by rewrite lookup_singleton_ne. Qed.

(** [map_higher_half] leaves the lower half alone. *)
Lemma map_half_run kp st root :
  half_empty st root → is_table kp → kp ≠ root → (∀ j, 0 ≤ j < 512 → ∃ e, words st !! (kp + 8 * j) = Some e ∧ u64p e) →
  ∃ st', map_higher_half kp root st = Done (tt, st') ∧ half_empty st' root ∧ pages st' = pages st ∧ nx_flag_enabled st' = nx_flag_enabled st ∧
    (∀ j, 256 ≤ j < 512 → words st' !! (root + 8 * j) = words st !! (kp + 8 * j)).
Proof.
  intros [Ht Hw Hlow] Hk Hne Hkw.
  destruct (map_higher_spec 256 kp root 256 st) as (st' & E1 & [Hp Hn] & Hc & Ho); try done.
  { intros j Hj. destruct (Hkw j Hj) as (e & -> & _). destruct (Hw j Hj) as (e' & -> & _). eauto. }
  exists st'. split_and!; try done.
  assert (∀ i, 0 ≤ i < 256 → words st' !! (root + 8 * i) = words st !! (root + 8 * i)) as Hlo by (intros i Hi; apply Ho; lia).
  split; [done| |].
  - intros i Hi. destruct (decide (i < 256)); [rewrite Hlo by lia; by apply Hw|rewrite Hc by lia; by apply Hkw].
  - intros i e Hi He. rewrite Hlo in He by lia. by eapply Hlow.
Qed.
End new_root.

(** ** Up to the empty address space *)

Section spawn.
Context {P H V W U E : Type}.
Context `{!PageAllocator P, !Allocator H, !LapicDev V, !LapicLaws V, !HpetDev W, !IoApicDev U, !MemSource E}.
Context (pg_ok : P → Prop) (managed : P → Z → Prop) `{!PageAllocatorLaws P pg_ok managed}.
Context (kernel_vmm kernel_vmm_lock kernel_pml4 free_pid_lock free_tid_lock process_list : Z).
Context (uninit_area : Z → memory_area_t) (uninit_next : Z → Z) (junk : Z → nat → list Z).
Context (uninit_thread : Z → thread_t) (uninit_entity : Z → sched_entity_t) (uninit_prio : Z → Z) (uninit_proc : Z → proc_t).
Context (h_realloc : Z → Z → M H Z) (spins : nat) (cpu : Z).
Abbreviation mach := (machine P H V W U E).
Implicit Type s : mach.
Abbreviation free_in s := (free_pages (pages (tables (sv s)))).

Lemma upd_proc_run s p v f : sprocs s !! p = Some v → upd_proc p f s = Done (tt, set_sprocs (<[p := f v]> (sprocs s)) s).
Proof. intros Hv. apply modifyf_done. by rewrite Hv. Qed.

Lemma on_sheap_run s n a h : h_alloc n (vheap (sv s)) = Done (a, h) → on_sheap (h_alloc n) s = Done (a, set_sv (set_vheap h (sv s)) s).
Proof. intros Ha. unfold on_sheap. apply on_vs_run. unfold on_heap, zoom. by rewrite Ha. Qed.

Lemma alloc_proc_run s p h :
  h_alloc sizeof_proc (vheap (sv s)) = Done (p, h) → p ≠ 0 →
  alloc_proc uninit_proc s = Done (p, set_sprocs (<[p := uninit_proc p]> (sprocs s)) (set_sv (set_vheap h (sv s)) s)).
Proof. intros Ha Hp. unfold alloc_proc. by rewrite (bind_done _ _ _ _ _ (on_sheap_run s _ _ _ Ha)), decide_False by done. Qed.

(** Taking the next process number under its lock. *)
Lemma take_pid_run {A} (f : M mach A) s p v lk k n :
  sprocs s !! p = Some v → locks (sv s) !! free_pid_lock = Some lk → held lk = 0 →
  vcpus (sv s) !! cpu = Some k → nest cpu n k → 0 ≤ n < 2 ^ 32 - 1 →
  (on_vs (on_lock free_pid_lock (acquire (S spins) cpu));;
   n ← gets next_free_pid;
   upd_proc p (set_p_id n);;
   modify (set_next_pid (n +64 1));;
   on_vs (on_lock free_pid_lock (release cpu));; f) s
  = f (set_next_pid (next_free_pid s +64 1) (set_sprocs (<[p := set_p_id (next_free_pid s) v]> (sprocs s))
      (set_sv (put_lock free_pid_lock (mk_lock 0 0 (lk_name lk)) (vcpus (sv s)) (sv s)) s))).
Proof.
  intros Hp Hlk Hh Hk Hn Hr.
  rewrite (bind_done _ _ _ _ _ (on_vs_run _ s _ _ (acquire_vmm spins cpu _ _ _ _ Hlk Hh Hk))). step.
  erewrite bind_done by (apply upd_proc_run; cbn; exact Hp). step.
  erewrite bind_done.
  2: { apply on_vs_run. cbn. eapply release_vmm; [apply lookup_insert_eq|reflexivity|exact Hk|exact Hn|exact Hr]. }
  f_equal. destruct s as [[]]. unfold put_lock, set_sv. cbn. by rewrite insert_insert_eq.
Qed.

(** [vmm_create] with memory available. *)
Definition user_space (x lk : Z) (user : bool) : vmm_info_t := fresh_vmm (x + PHYSICAL_OFFSET) LOWHALF_START LOWHALF_END lk user.
Definition with_space (m lk : Z) (v : vmm_info_t) (pg : P) (h : H) (t : vmm_state P H) : vmm_state P H :=
  mk_vs (<[m := v]> (vmms t)) (areas t) (conts t) (<[lk := mk_lock 0 0 None]> (locks t)) (vcpus t) (cr3 t)
    (mk_vm (words (tables t)) pg (nx_flag_enabled (tables t))) h.

Lemma vmm_create_run (t : vmm_state P H) m h2 x pg lk h3 user :
  h_alloc sizeof_vmm_info (vheap t) = Done (m, h2) → m ≠ 0 → m ≠ kernel_vmm → kalloc (pages (tables t)) = Done (x, pg) → phys_page x →
  h_alloc sizeof_spinlock h2 = Done (lk, h3) → lk ≠ 0 →
  vmm_create kernel_vmm kernel_vmm_lock LOWHALF_START LOWHALF_END user t = Done (m, with_space m lk (user_space x lk user) pg h3 t).
Proof.
  intros Ha Hm Hmk Hk Hx Hl Hl0. unfold vmm_create.
  assert (∀ (t : vmm_state P H) n a h, h_alloc n (vheap t) = Done (a, h) → on_heap (h_alloc n) t = Done (a, set_vheap h t)) as Hheap.
  { intros t' n a h E1. unfold on_heap, zoom. by rewrite E1. }
  rewrite (bind_done _ _ _ _ _ (Hheap _ _ _ _ Ha)), decide_False by done.
  erewrite bind_done by (apply kalloc_run_pages; exact Hk). rewrite decide_False by (destruct Hx; lia). rewrite phys_page_w64 by done.
  erewrite bind_done by (apply Hheap; exact Hl). rewrite decide_False by done. step.
  erewrite bind_done; [reflexivity|]. unfold vmm_init. rewrite (decide_True (P := m ≠ kernel_vmm)) by done. apply modifyf_done. by rewrite (decide_False (P := m = 0)).
Qed.

(** [change_current_vmm]: the field of the processor, and cr3 unless the new
    space is the kernel's. *)
Definition in_space (m : Z) (k : cpu_status_t) (t : vmm_state P H) : vmm_state P H :=
  mk_vs (vmms t) (areas t) (conts t) (locks t) (<[cpu := set_cpu_vmm m k]> (vcpus t))
    (if decide (m = kernel_vmm) then cr3 t else <[cpu := root_pagetable (default (mk_vmm 0 false 0 0 0 0 0 0 0 0 0 0) (vmms t !! m)) -64 PHYSICAL_OFFSET]> (cr3 t))
    (tables t) (vheap t).

Lemma change_current_run (t : vmm_state P H) m k :
  vcpus t !! cpu = Some k → cpu_id k = cpu → m = kernel_vmm ∨ m ≠ 0 ∧ is_Some (vmms t !! m) →
  change_current_vmm kernel_vmm cpu m t = Done (tt, in_space m k t).
Proof.
  intros Hk Hid Hm. unfold change_current_vmm, in_space.
  assert (set_cpu_id cpu k = k) as Es by (destruct k; cbn in *; by subst).
  erewrite bind_done by (unfold on_vcpus, zoom; rewrite (get_cpu_run _ _ _ Hk), Es, insert_id by done; reflexivity).
  erewrite bind_done by (unfold on_vcpus, zoom; rewrite (cpu_put_run _ _ _ k) by (cbn; exact Hk); reflexivity).
  destruct (decide (m = kernel_vmm)) as [->|Hne]; [by rewrite decide_False by auto|]. rewrite decide_True by done.
  destruct Hm as [|[Hm0 [v Hv]]]; [done|]. erewrite bind_done by (apply load_vmm_run; [done|cbn; exact Hv]). by rewrite Hv.
Qed.
(** The heap hands out these blocks, of these sizes, one after the other. *)
Fixpoint hands (h : H) (l : list (Z * Z)) (h' : H) : Prop :=
  match l with
  | [] => h' = h
  | (n, a) :: l => a ≠ 0 ∧ ∃ h1, h_alloc n h = Done (a, h1) ∧ hands h1 l h'
  end.

(** The memory a process gets: its structure, its address space with lock and
    root table (the first free page), the array of threads and the first
    thread.  The caller runs on a processor with entry [k], [n] times inside
    [push_off]; [ps] are the processes so far. *)
Context (proc m lkm data t x : Z) (fr : list Z) (k : cpu_status_t) (n : Z) (name : Z) (nm : list Z) (empty elf : Z) (user : bool) (ps : list Z).
Let root := x + PHYSICAL_OFFSET.
Let tabs0 : gmap (list Z) Z := {[ [] := root ]}.

Record spawn_ready s : Prop := mk_spawn_ready {
  sr_heap : ∃ h', hands (vheap (sv s)) [(sizeof_proc, proc); (sizeof_vmm_info, m); (sizeof_spinlock, lkm); (64, data); (sizeof_thread, t)] h';
  sr_pages : pg_ok (pages (tables (sv s))) ∧ free_in s = x :: fr;
  sr_root : half_empty (tables (sv s)) root;
  sr_kernel : is_table kernel_pml4 ∧ kernel_pml4 ≠ root ∧
    ∀ j, 0 ≤ j < 512 → ∃ e, words (tables (sv s)) !! (kernel_pml4 + 8 * j) = Some e ∧ u64p e;
  sr_new : m ≠ kernel_vmm ∧ NoDup [free_pid_lock; free_tid_lock; lkm];
  sr_locks l : l ∈ [free_pid_lock; free_tid_lock] → ∃ lk, locks (sv s) !! l = Some lk ∧ held lk = 0;
  sr_cpu : vcpus (sv s) !! cpu = Some k ∧ nest cpu n k ∧ 0 ≤ n < 2 ^ 32 - 2;
  sr_current : vmm k = 0 ∨ vmm k = kernel_vmm ∨ is_Some (vmms (sv s) !! vmm k);
  sr_name : at_ (smem s) name (nm ++ [0]) ∧ Forall (λ c, c ≠ 0) nm ∧ (length nm < 64)%nat;
  sr_empty : at_ (smem s) empty [0];
  sr_list : holds (slinks s) process_list ps ∧ proc ∉ process_list :: ps;
  sr_junk j : length (junk data j) = j;
  sr_ctl : ∃ id x2 base, on_cpu (tlap (stimers s)) id x2 base;
}.

Definition padded (l : list Z) : list Z := l ++ replicate (64 - length l) 0.
Definition new_proc s : proc_t := mk_proc (next_free_pid s) (padded nm) (p_threads (uninit_proc proc)) m (heap_start (uninit_proc proc)).

(** The machine when the loop over the segments starts. *)
Record begun s s1 : Prop := mk_begun {
  bg_machine : s1 = set_sprocs (<[proc := new_proc s]> (sprocs s)) (set_next_pid (next_free_pid s +64 1) (set_sv (sv s1) s));
  bg_filling : filling pg_ok cpu m s1 (user_space x lkm user) [] [] tabs0;
  bg_heap : ∃ h', hands (vheap (sv s1)) [(64, data); (sizeof_thread, t)] h';
  bg_cpus : vcpus (sv s1) = <[cpu := set_cpu_vmm m (pushed cpu k)]> (vcpus (sv s));
  bg_lock : locks (sv s1) !! free_tid_lock = locks (sv s) !! free_tid_lock;
  bg_vmms : vmms (sv s1) = <[m := user_space x lkm user]> (vmms (sv s));
  bg_free : free_in s1 = fr;
  bg_cr3 : cr3 (sv s1) !! cpu = Some x;
  bg_nx : nx_flag_enabled (tables (sv s1)) = nx_flag_enabled (tables (sv s));
  bg_kernel j e : 256 ≤ j < 512 → words (tables (sv s)) !! (kernel_pml4 + 8 * j) = Some e → present e = true →
    top_entry (words (tables (sv s1))) tabs0 j e;
}.

Abbreviation the_load := (create_load (V := V) (W := W) (U := U) (E := E) kernel_vmm free_tid_lock process_list uninit_area uninit_next junk
  uninit_thread uninit_entity uninit_prio h_realloc spins cpu).
Abbreviation the_create := (create_process (V := V) (W := W) (U := U) (E := E) kernel_vmm kernel_vmm_lock kernel_pml4 free_pid_lock free_tid_lock process_list
  uninit_area uninit_next junk uninit_thread uninit_entity uninit_prio uninit_proc h_realloc spins cpu).

Lemma begin_run s : spawn_ready s → ∃ s1, the_create empty name elf user s = the_load empty elf proc m (vmm k) s1 ∧ begun s s1.
Proof.
  intros [(h5 & Hproc & h1 & E1 & Hm & h2 & E2 & Hlk & h3 & E3 & Hrest) (Hpg & Hfree) Hroot (Kt & Kr & Kw) (Hmk & Hnd) Hlocks (Hk & Hn & Hr) Hcur (Hnm & Hnz & Hnl) _ _ _ Hctl].
  destruct (kalloc_some _ x fr Hpg Hfree) as (pg & Ek & Hpg' & Hfr & _).
  destruct (free_pages_ok _ Hpg) as (Hdist & Hphys & _). rewrite Hfree in Hdist, Hphys. apply Forall_cons in Hphys as [Hx _]. apply NoDup_cons in Hdist as [Hxf _].
  assert (cpu_id k = cpu) as Hid by apply Hn. destruct (Hlocks free_pid_lock) as (lp & Hlp & Hlh); [by left|].
  unfold create_process. rewrite (bind_done _ _ _ _ _ (read_cpu_run cpu s k Hk Hid)). cbv zeta.
  rewrite (bind_done _ _ _ _ _ (alloc_proc_run s _ _ E1 Hproc)), decide_False by done.
  rewrite (take_pid_run _ _ proc (uninit_proc proc) lp k n); try done; [|cbn; apply lookup_insert_eq|lia].
  set (s2 := set_next_pid _ _).
  rewrite (bind_done _ _ _ (padded nm) s2).
  2: { unfold on_smem, zoom. change (smem s2) with (smem s). rewrite (strncpy_field_run (smem s) name nm PROC_NAME_LEN Hnm Hnz) by (unfold PROC_NAME_LEN; lia).
       unfold PROC_NAME_LEN, padded. replace (Z.to_nat (64 - Z.of_nat (length nm))) with (64 - length nm)%nat by lia. done. }
  erewrite bind_done by (apply upd_proc_run; cbn; apply lookup_insert_eq). set (s3 := set_sprocs _ s2).
  rewrite (bind_done _ _ _ _ _ (on_vs_run _ s3 _ _ (vmm_create_run (sv s3) m h2 x pg lkm h3 user E2 Hm Hmk Ek Hx E3 Hlk))), decide_False by done.
  set (t4 := with_space _ _ _ _ _ _).
  erewrite bind_done by (apply on_vs_run, load_vmm_run; [done|cbn; apply lookup_insert_eq]).
  destruct (map_half_run kernel_pml4 (tables t4) root) as (tb & E5 & He5 & Hp5 & Hn5 & Hc5); [by destruct Hroot|done|done|done|].
  erewrite bind_done by (apply on_vs_run, on_tables_run; cbn; exact E5).
  erewrite bind_done by (apply on_scpus_run, push_off_run; cbn; exact Hk).
  erewrite bind_done.
  2: { apply on_vs_run, (change_current_run _ m (pushed cpu k)); [cbn; apply lookup_insert_eq|done|right; split; [done|]]. cbn. rewrite lookup_insert_eq. by eexists. }
  erewrite bind_done by (apply upd_proc_run; cbn; apply lookup_insert_eq).
  eexists. split; [reflexivity|].
  pose proof (half_empty_vm_ok pg_ok tb root He5) as Hok5. rewrite Hp5 in Hok5. cbn [t4 with_space tables pages] in Hok5.
  match goal with |- begun s ?s' => set (s1 := s') end.
  assert (nest cpu (n + 1) (set_cpu_vmm m (pushed cpu k))) as Hn1 by (apply (nest_pushed cpu n k); [lia|done]).
  assert (vcpus (sv s1) = <[cpu := set_cpu_vmm m (pushed cpu k)]> (vcpus (sv s))) as Hcp by (cbn; by rewrite insert_insert_eq).
  assert (vmms (sv s1) = <[m := user_space x lkm user]> (vmms (sv s))) as Hvm by done.
  split; try done.
  - destruct s. unfold s1. cbn. by rewrite !insert_insert_eq.
  - split.
    + rewrite Hcp, lookup_insert_eq. by eexists.
    + eapply (vmm_inv_frame pg_ok cpu m _ [] [] (put_vmm m (user_space x lkm user) (sv s1))); try done.
      * apply (fresh_inv pg_ok uninit_area uninit_next cpu m root LOWHALF_START LOWHALF_END user lkm (sv s1)); try done. split_and!.
        -- exists (mk_lock 0 0 None). split; [cbn; apply lookup_insert_eq|done].
        -- rewrite Hcp, lookup_insert_eq. eexists _, (n + 1). split; [done|]. split; [done|lia].
        -- cbn. by rewrite Hp5.
      * cbn. by rewrite insert_insert_eq.
    + by vm_compute.
    + apply Hok5; [done|]. intros y Hy. rewrite Hfr in Hy. intros Ey. assert (y = x) by (unfold root in Ey; lia). by subst.
    + intros va Hva. by apply half_empty_no_big.
    + intros va _. apply half_empty_unmapped.
    + intros va e _ He. unfold tabs0 in He. by rewrite half_empty_unmapped in He.
    + exact Hctl.
  - by exists h5.
  - cbn. apply NoDup_cons in Hnd as [Hd1 [Hd2 _]%NoDup_cons]. rewrite lookup_insert_ne by (intros E0; apply Hd2; rewrite E0; by left). by rewrite lookup_insert_ne by (intros E0; apply Hd1; rewrite E0; by left).
  - cbn. by rewrite Hp5.
  - cbn. rewrite (decide_False (P := m = kernel_vmm)) by done. rewrite !lookup_insert_eq. cbn. f_equal. destruct Hx. rewrite w64_small; lia.
  - intros j e Hj He Hpe. split; [lia|]. split; [done|]. exists root. split; [apply lookup_singleton_eq|]. cbn. by rewrite Hc5.
Qed.
(** ** After the program is loaded *)

(** Another entry of the processor keeps an address space well formed. *)
Lemma vmm_inv_cpu v cl l (a b : vmm_state P H) k' n' :
  vmm_inv pg_ok cpu m v cl l a → vmms b = vmms a → areas b = areas a → tables b = tables a → locks b = locks a →
  vcpus b !! cpu = Some k' → nest cpu n' k' → 0 ≤ n' < 2 ^ 32 - 1 → vmm_inv pg_ok cpu m v cl l b.
Proof. intros [I1 I2 I3 I4 I5 I6 I7 I8] E1 E2 E3 E4 E5 E6 E7. split; rewrite ?E1, ?E2, ?E3, ?E4; try done. by exists k', n'. Qed.

(** The entry of the processor afterwards. *)
Definition back : cpu_status_t := set_cpu_vmm (if decide (vmm k = 0) then m else vmm k) k.

Lemma back_nest : nest cpu n k → nest cpu n back.
Proof. done. Qed.

Lemma popped_back v : nest cpu n k → 0 ≤ n < 2 ^ 32 - 1 → popped cpu (set_cpu_vmm v (pushed cpu k)) = set_cpu_vmm v k.
Proof.
  intros (Hid & Hc & H0 & H1) Hr. change (popped cpu (set_cpu_vmm v (pushed cpu k))) with (set_cpu_vmm v (popped cpu (pushed cpu k))).
  f_equal. rewrite popped_pushed by lia.
  destruct k as [i c io th vm IF]. cbn in *. subst c.
  repeat case_decide; f_equal; try lia; naive_solver.
Qed.

(** cr3 afterwards: the switch back loads the table of the caller's address
    space, unless it has none or runs in the kernel's. *)
Definition cr3_back (vm : gmap Z vmm_info_t) (c : gmap Z Z) : gmap Z Z :=
  if decide (vmm k = 0 ∨ vmm k = kernel_vmm) then c
  else <[cpu := root_pagetable (default (mk_vmm 0 false 0 0 0 0 0 0 0 0 0 0) (vm !! vmm k)) -64 PHYSICAL_OFFSET]> c.

(** Leaving the address space and the section without interrupts. *)
Lemma leave_run {A} (f : M mach A) s cp :
  vcpus (sv s) = <[cpu := set_cpu_vmm m (pushed cpu k)]> cp → nest cpu n k → 0 ≤ n < 2 ^ 32 - 2 →
  vmm k = 0 ∨ vmm k = kernel_vmm ∨ is_Some (vmms (sv s) !! vmm k) →
  ((if decide (vmm k ≠ 0) then on_vs (change_current_vmm kernel_vmm cpu (vmm k)) else mret tt);; on_scpus (pop_off cpu);; f) s
    = f (set_sv (mk_vs (vmms (sv s)) (areas (sv s)) (conts (sv s)) (locks (sv s)) (<[cpu := back]> cp) (cr3_back (vmms (sv s)) (cr3 (sv s))) (tables (sv s)) (vheap (sv s))) s).
Proof.
  intros Hcp Hn Hr Hcur. pose proof (nest_pushed cpu n k ltac:(lia) Hn) as (_ & _ & _ & Hoff). destruct (Hoff ltac:(lia)) as [Hint _].
  assert (vcpus (sv s) !! cpu = Some (set_cpu_vmm m (pushed cpu k))) as Hk by (rewrite Hcp; apply lookup_insert_eq).
  pose proof (popped_back) as Hpop. unfold back, cr3_back. destruct (decide (vmm k = 0)) as [Hz|Hz].
  - rewrite (decide_False (P := vmm k ≠ 0)) by auto. step. rewrite (decide_True (P := vmm k = 0 ∨ _)) by (by left).
    erewrite bind_done by (apply on_scpus_run, pop_off_run; [exact Hk|exact Hint]). rewrite Hpop by (done || lia). by rewrite Hcp, insert_insert_eq.
  - rewrite decide_True by done.
    erewrite bind_done.
    2: { apply on_vs_run, (change_current_run _ _ _ Hk); [done|]. destruct Hcur as [|[|]]; [done|by left|by right]. }
    erewrite bind_done by (apply on_scpus_run, pop_off_run; [cbn; apply lookup_insert_eq|exact Hint]).
    change (set_cpu_vmm (vmm k) (set_cpu_vmm m (pushed cpu k))) with (set_cpu_vmm (vmm k) (pushed cpu k)).
    rewrite (Hpop (vmm k)) by (done || lia). cbn. rewrite Hcp, !insert_insert_eq. unfold in_space; cbn.
    destruct (decide (vmm k = kernel_vmm)); [rewrite (decide_True (P := vmm k = 0 ∨ _)) by (by right)|rewrite (decide_False (P := vmm k = 0 ∨ _)) by tauto]; reflexivity.
Qed.

(** The array of threads of a new process. *)
Lemma init_array_run s h4 :
  h_alloc 64 (vheap (sv s)) = Done (data, h4) → data ≠ 0 →
  on_blocks (init_thread_array (ArrayHeap0 := arrays_from_heap h_realloc) junk) s
    = Done (mk_ta data 0 8, set_sslots (<[data := take 8 (junk data 8)]> (sslots s)) (set_sv (set_vheap h4 (sv s)) s)).
Proof.
  intros Ha Hd. unfold on_blocks, init_thread_array, ta_alloc, zoom. erewrite bind_done.
  2: { erewrite bind_done by (unfold on_ta_heap, zoom; cbn [ah_alloc arrays_from_heap ta_heap]; change (w64 (8 * 8)) with 64; rewrite Ha; reflexivity). rewrite decide_False by done. reflexivity. }
  reflexivity.
Qed.
(** The stack of the first thread is right behind the program. *)
Lemma next_found_front s v cl l :
  vmm_inv pg_ok cpu m v cl l (sv s) → vmm_data_end v ≤ 2 ^ 48 → frontier v l mod 4096 = 0 → next_found v 0 = frontier v l.
Proof.
  intros Hi He Hal. destruct (vi_bounds _ _ _ _ _ _ _ Hi) as (B1 & B2 & B3 & B4 & B5).
  assert (current_area v = 0 ↔ l = []) as Hcn by (by eapply current_nil).
  unfold next_found, frontier in *. rewrite PAGE_START_eq by (unfold u64p; lia). destruct (decide (l = [])) as [Hl|Hl].
  - rewrite (decide_True (P := current_area v = 0)) by tauto. case_decide; lia_div.
  - rewrite (decide_False (P := current_area v = 0)) by tauto. rewrite PAGE_END_eq, w64_small by (unfold u64p; lia_div). case_decide; lia_div.
Qed.

(** The machine before the last part. *)
Record nearly s (cp : cpus) (pr : proc_t) (entry : Z) (v : vmm_info_t) (cl : list Z) (l : list desc) (tabs : gmap (list Z) Z) : Prop := mk_nearly {
  ne_filling : filling pg_ok cpu m s v cl l tabs;
  ne_cpus : vcpus (sv s) = <[cpu := set_cpu_vmm m (pushed cpu k)]> cp;
  ne_nest : nest cpu n k ∧ 0 ≤ n < 2 ^ 32 - 2;
  ne_current : vmm k = 0 ∨ vmm k = kernel_vmm ∨ is_Some (vmms (sv s) !! vmm k);
  ne_heap : ∃ h', hands (vheap (sv s)) [(64, data); (sizeof_thread, t)] h';
  ne_lock : (∃ lk, locks (sv s) !! free_tid_lock = Some lk ∧ held lk = 0) ∧ lock v ≠ free_tid_lock;
  ne_empty : at_ (smem s) empty [0];
  ne_entry : ld_e_entry elf (smem s) = Done (entry, smem s);
  ne_proc : sprocs s !! proc = Some pr ∧ p_vmm pr = m ∧ proc ≠ 0;
  ne_list : holds (slinks s) process_list ps ∧ proc ∉ process_list :: ps;
  ne_front : frontier v l mod 4096 = 0 ∧ frontier v l + 4095 ≤ vmm_data_end v;
  ne_free : free_in s ≠ [];
  ne_junk j : length (junk data j) = j;
}.

(** What the last part adds: the thread [t] with its stack. *)
Record finished s (cp : cpus) (pr : proc_t) (entry top root : Z) (l : list desc) s' : Prop := mk_finished {
  fn_threads : ∃ stack v cl, sthreads s' = <[t := mk_thread (next_free_tid s) (padded []) WAITING proc (start_frame entry (top + 4096)) stack]> (sthreads s) ∧
    vmm_inv pg_ok cpu m v cl (l ++ [mk_desc stack top 4096]) (sv s') ∧ root_pagetable v = root;
  fn_tid : next_free_tid s' = next_free_tid s +64 1;
  fn_proc : ∃ arr, sprocs s' = <[proc := set_p_threads arr pr]> (sprocs s) ∧ holds_list (b_of s') arr [t];
  fn_list : holds (slinks s') process_list (ps ++ [proc]);
  fn_words : words (tables (sv s')) = words (tables (sv s));
  fn_nx : nx_flag_enabled (tables (sv s')) = nx_flag_enabled (tables (sv s));
  fn_cpus : vcpus (sv s') = <[cpu := back]> cp;
  fn_frames : sframes s' = sframes s;
  fn_pid : next_free_pid s' = next_free_pid s;
  fn_cr3 : cr3 (sv s') = cr3_back (vmms (sv s)) (cr3 (sv s));
}.

Abbreviation the_finish := (create_finish (V := V) (W := W) (U := U) (E := E) kernel_vmm free_tid_lock process_list uninit_area uninit_next junk
  uninit_thread uninit_entity uninit_prio h_realloc spins cpu).

Lemma finish_run s cp pr entry v cl l tabs :
  nearly s cp pr entry v cl l tabs →
  ∃ s', the_finish empty elf proc m (vmm k) s = Done (proc, s') ∧ finished s cp pr entry (frontier v l) (root_pagetable v) l s'.
Proof.
  intros [[_ Hi He Hok _ _ _ _] Hcp (Hn & Hr) Hcur (h' & Hd & h4 & E4 & Ht & h5 & E5 & _) ((lk & Hlk & Hh) & Hlv) Hem Hen (Hp & Hpm & Hp0) (Hl & Hnl) (Hal & Htop) Hfr Hj].
  unfold create_finish.
  match goal with |- context [mbind (λ _, mbind (λ _, ?f) _) _ s] => rewrite (leave_run f s cp Hcp Hn Hr Hcur) end.
  set (s3 := set_sv _ s).
  erewrite bind_done by (apply init_array_run; [exact E4|done]).
  erewrite bind_done by (apply upd_proc_run; cbn; exact Hp).
  set (s4 := set_sprocs _ _).
  assert (on_smem (ld_e_entry elf) s4 = Done (entry, s4)) as Ee.
  { unfold on_smem, zoom. change (smem s4) with (smem s). by rewrite Hen. }
  rewrite (bind_done _ _ _ _ _ Ee).
  assert (vmm_inv pg_ok cpu m v cl l (sv s4)) as Hi4.
  { eapply (vmm_inv_cpu _ _ _ (sv s)); [exact Hi|done..|cbn; apply lookup_insert_eq|by apply back_nest|lia]. }
  assert (next_found v 0 = frontier v l) as Hnf by (by eapply next_found_front).
  destruct (add_thread_run pg_ok managed free_tid_lock uninit_area uninit_next junk uninit_thread uninit_entity uninit_prio h_realloc spins cpu
    s4 proc (set_p_threads (mk_ta data 0 8) pr) empty [] entry t h5 lk v cl l []) as (s' & v' & cl' & stack & arr & E6 & T1 & T2 & T3 & T4 & T5 & T6 & [F1 F2 F3 F4 F5 F6 F7]);
    try done; try lia.
  { cbn. lia. }
  { cbn. apply lookup_insert_eq. }
  { cbn [p_vmm set_p_threads]. by rewrite Hpm. }
  { exists (take 8 (junk data 8)). cbn. rewrite lookup_insert_eq, length_take, Hj. split_and!; try done; lia. }
  rewrite (bind_done _ _ _ _ _ E6), decide_False by done. rewrite Hnf in T1, T5.
  destruct (lst_push_end_spec (slinks s') process_list ps proc) as (lst' & E7 & Hl7); [by rewrite F5|done|done|].
  erewrite bind_done by (unfold on_slinks, zoom; rewrite E7; reflexivity).
  eexists. split; [reflexivity|]. cbn [p_vmm set_p_threads] in T5. rewrite Hpm in T5. split; try done.
  - exists stack, v', cl'. done.
  - exists arr. split; [|done]. cbn. rewrite T3. cbn. by rewrite insert_insert_eq.
Qed.
(** ** The whole of [create_process] *)

Lemma seg_top_bounds mem till segs front :
  seg_chain mem elf till front segs → front mod 4096 = 0 → front ≤ 2 ^ 47 → seg_top front segs mod 4096 = 0 ∧ seg_top front segs ≤ 2 ^ 47.
Proof.
  revert front. induction segs as [|[ph bs] segs IH]; intros front; cbn [seg_chain seg_top]; [done|].
  destruct (decide (p_type ph = PT_LOAD)); [|by apply IH]. intros (Hal & _ & _ & _ & _ & Hb & _ & _ & Hch) _ _.
  pose proof (area_len_mod uninit_area uninit_next (p_memsz ph)). apply IH; [done|lia_div|lia].
Qed.

(** The process that [create_process] has made in [s']: its structure, its
    first thread, its entry in the list of processes, and its address space,
    in which the program [segs] is loaded and the kernel's half is the
    kernel's. *)
Record spawned s (entry top : Z) (segs : list (Elf64_Phdr * list Z)) s' : Prop := mk_spawned {
  sp_proc : ∃ arr, sprocs s' = <[proc := set_p_threads arr (new_proc s)]> (sprocs s) ∧ holds_list (b_of s') arr [t];
  sp_thread : ∃ stack v cl l, sthreads s' = <[t := mk_thread (next_free_tid s) (padded []) WAITING proc (start_frame entry (top + 4096)) stack]> (sthreads s) ∧
    vmm_inv pg_ok cpu m v cl (l ++ [mk_desc stack top 4096]) (sv s') ∧ root_pagetable v = root;
  sp_numbers : next_free_pid s' = next_free_pid s +64 1 ∧ next_free_tid s' = next_free_tid s +64 1;
  sp_list : holds (slinks s') process_list (ps ++ [proc]);
  sp_space : ∃ tabs, pt_wf (words (tables (sv s'))) root tabs ∧ (∀ va, 0 ≤ va < 2 ^ 47 → no_big (words (tables (sv s'))) tabs va) ∧
    (∀ ph bs (i : nat) b, (ph, bs) ∈ segs → p_type ph = PT_LOAD → bs !! i = Some b →
      shows s' tabs user (nx_flag_enabled (tables (sv s))) ph (p_vaddr ph + Z.of_nat i) b) ∧
    (∀ j e, 256 ≤ j < 512 → words (tables (sv s)) !! (kernel_pml4 + 8 * j) = Some e → present e = true →
      words (tables (sv s')) !! (root + 8 * j) = Some e);
  sp_frames pa : pa / 4096 * 4096 ∉ fr → sframes s' !! pa = sframes s !! pa;
  sp_cpus : vcpus (sv s') = <[cpu := back]> (vcpus (sv s));
  sp_cr3 : cr3 (sv s') !! cpu = Some (if decide (vmm k = 0 ∨ vmm k = kernel_vmm) then x
    else root_pagetable (default (mk_vmm 0 false 0 0 0 0 0 0 0 0 0 0) (<[m := user_space x lkm user]> (vmms (sv s)) !! vmm k)) -64 PHYSICAL_OFFSET);
}.

(** The machine between the two parts is ready for the last. *)
Lemma loaded_nearly s s1 s2 e ss segs v cl l tabs :
  spawn_ready s → begun s s1 → elf_at (smem s) elf e (segs.*1) ss → seg_chain (smem s) elf (LOWHALF_END + 4096) LOWHALF_START segs →
  filling pg_ok cpu m s2 v cl l tabs → program_loaded m s1 tabs0 LOWHALF_START user lkm segs s2 tabs → 1 ≤ Z.of_nat (length (free_in s2)) →
  frontier v l = seg_top LOWHALF_START segs → lock v = lkm → vmm_data_end v = LOWHALF_END + 4096 →
  nearly s2 (vcpus (sv s)) (new_proc s) (e_entry e) v cl l tabs.
Proof.
  intros [(h5 & Hproc & _) _ _ _ (_ & Hnd) Hlocks (Hk & Hn & Hr) Hcur _ Hem Hli Hj _] [B1 _ B3 B4 B5 B6 _ _ _ _] Helf Hch Hf
    [_ _ _ _ _ Hrest [K1 K2 K3 K4 K5] _] Hfree Hfr Hlk Hend.
  assert (lkm ≠ free_tid_lock) as Hne by (apply NoDup_cons in Hnd as [_ [Hd _]%NoDup_cons]; intros E0; apply Hd; rewrite E0; by left).
  assert (s2 = set_stimers (stimers s2) (set_sframes (sframes s2) (set_sv (sv s2)
    (set_sprocs (<[proc := new_proc s]> (sprocs s)) (set_next_pid (next_free_pid s +64 1) s))))) as E2.
  { destruct Hrest as [Hrest _]. rewrite Hrest, B1. done. }
  assert (smem s2 = smem s) as Em by (by rewrite E2).
  split; try done.
  - by rewrite K2, B4.
  - destruct Hcur as [|[|Hs]]; [by left|right; by left|right; right]. destruct (decide (vmm k = m)) as [->|Hm].
    + destruct (vi_vmm _ _ _ _ _ _ _ (fi_inv _ _ _ _ _ _ _ _ Hf)) as [_ ->]. by eexists.
    + rewrite K5 by done. by rewrite B6, lookup_insert_ne by done.
  - by rewrite K1.
  - rewrite K4, B5 by done. split; [apply Hlocks; right; by left|by rewrite Hlk].
  - by rewrite Em.
  - rewrite Em. apply (ehdr_fields _ _ _ (elf_hdr _ _ _ _ _ Helf) (elf_wf _ _ _ _ _ Helf)).
  - rewrite E2. cbn. by rewrite lookup_insert_eq.
  - by rewrite E2.
  - rewrite Hfr, Hend. destruct (seg_top_bounds _ _ _ _ Hch) as [? ?]; [done|done|]. split; [done|]. unfold LOWHALF_END. lia.
  - intros Hz. rewrite Hz in Hfree. cbn in Hfree. lia.
Qed.
(** C4: creating a process.  Let the heap and the page allocator have the
    memory it takes, let the interrupt controller be on, let the page that becomes the root table have no present
    entry in its lower half ([vmm_create] does not clear it), and let an ELF
    image lie in memory whose loadable segments are page aligned and in
    increasing order.  Then [create_process] returns a new process, which has
    the next process number, its name and one thread.  The thread waits, with
    the next thread number and a frame that starts in user mode at the entry
    point of the image, with the stack pointer at the end of a stack page
    right behind the program.  The process is the last of the list of
    processes.  Its address space is well formed; every byte that the file
    gives for a segment is at its address with the rights of the segment, and
    every entry of the kernel's half of the kernel's table is an entry of its
    root table.  Memory outside free pages is unchanged, and the processor is
    back in its address space, page table included, and at its depth of
    interrupt nesting; a processor without an address space, or in the
    kernel's, stays on the page table of the new process. *)
Theorem create_process_spawns s e ss segs :
  spawn_ready s → elf_at (smem s) elf e (segs.*1) ss → seg_chain (smem s) elf (LOWHALF_END + 4096) LOWHALF_START segs →
  1 + seg_need segs ≤ Z.of_nat (length fr) →
  ∃ s', the_create empty name elf user s = Done (proc, s') ∧ spawned s (e_entry e) (seg_top LOWHALF_START segs) segs s'.
Proof.
  intros Hrd Helf Hch Hneed. destruct (begin_run s Hrd) as (s1 & -> & Hb). pose proof Hb as [B1 B2 _ B4 _ B6 B7 Bc B8 B9].
  assert (smem s1 = smem s ∧ sframes s1 = sframes s) as [Em Ef] by (by rewrite B1).
  destruct (elf_headers_read_back _ _ _ _ _ Helf) as (Hseg & _).
  destruct (load_segments_run pg_ok managed uninit_area uninit_next kernel_vmm spins cpu m segs s1 _ [] [] tabs0 elf 1 0 B2)
    as (v & cl & l & tabs & s2 & E2 & Hf & Hpr & Hsl & Htop & Hlk & Hend & Hro & _); [by rewrite Em|done|rewrite B7; lia| |].
  { intros j ph bs Hj. destruct (Hseg j ph) as (a & Eg & _ & Ep); [by rewrite list_lookup_fmap, Hj|]. exists a. by rewrite Z.add_0_l, Em. }
  pose proof (loaded_nearly s s1 s2 e ss segs v cl l tabs Hrd Hb Helf Hch Hf Hpr Hsl Htop Hlk Hend) as Hne.
  destruct (finish_run _ _ _ _ _ _ _ _ Hne) as (s' & E3 & [(stack & v' & cl' & T1 & T2 & T3) F2 (arr & F3 & F4) F5 F6 F7 F8 F9 F10 F11]).
  assert (root_pagetable v = root) as Hroot by (by rewrite Hro).
  exists s'. split.
  - unfold create_load. assert (on_smem (ld_e_phnum elf) s1 = Done (e_phnum e, s1)) as En.
    { unfold on_smem, zoom. rewrite Em. destruct (ehdr_fields _ _ _ (elf_hdr _ _ _ _ _ Helf) (elf_wf _ _ _ _ _ Helf)) as (_ & _ & _ & -> & _). rewrite <- Em. by destruct s1. }
    rewrite (bind_done _ _ _ _ _ En), (elf_phnum _ _ _ _ _ Helf), length_fmap, Nat2Z.id, (bind_done _ _ _ _ _ E2). exact E3.
  - pose proof (pr_rest _ _ _ _ _ _ _ _ _ Hpr) as [Hrest _]. rewrite Htop, ?Hroot in *. split.
    + exists arr. split; [|done]. rewrite F3, Hrest, B1. cbn. by rewrite insert_insert_eq.
    + exists stack, v', cl', l. rewrite Hrest, B1 in T1. split_and!; [exact T1|done|done].
    + by rewrite F10, F2, Hrest, B1.
    + done.
    + exists tabs. rewrite F6. pose proof (vo_wf _ _ _ _ (fi_ok _ _ _ _ _ _ _ _ Hf)) as Hwf. rewrite Hroot in Hwf. split_and!; [done|apply Hf| |].
      * intros ph bs i b Hin Hty Hbi. destruct (pr_bytes _ _ _ _ _ _ _ _ _ Hpr ph bs i b Hin Hty Hbi) as (e' & M1 & M2 & M3 & M4 & M5).
        exists e'. rewrite F6, F9. by rewrite B8 in M5.
      * intros j e' Hj He' Hpe. destruct (calm_top _ _ _ _ (pr_calm _ _ _ _ _ _ _ _ _ Hpr) j e' (B9 j e' Hj He' Hpe)) as (_ & _ & r & Hr & Hw).
        rewrite (wf_root _ _ _ Hwf) in Hr. by injection Hr as <-.
    + intros pa Hpa. rewrite F9, (pr_frames _ _ _ _ _ _ _ _ _ Hpr), Ef; [done|]. by rewrite B7.
    + by rewrite F8.
    + destruct (pr_kept _ _ _ _ _ _ _ _ _ Hpr) as [_ _ K3 _ K5]. rewrite F11, K3. unfold cr3_back.
      case_decide; [done|]. rewrite lookup_insert_eq. rewrite <- B6. do 3 f_equal.
      destruct (decide (vmm k = m)) as [->|Hm]; [|by rewrite K5].
      destruct (vi_vmm _ _ _ _ _ _ _ (fi_inv _ _ _ _ _ _ _ _ Hf)) as [_ ->]. rewrite B6, lookup_insert_eq. transitivity root; [exact Hroot|reflexivity].
Qed.
End spawn.

(** ** An example: a process for the program of three bytes *)

Definition new_frames : list Z := [0x2000; 0x3000; 0x4000; 0x5000; 0x6000; 0x7000; 0x8000; 0x9000].
Definition new_page : Z := 0x2000 + PHYSICAL_OFFSET.
(** The table of the kernel, whose last entry leads to itself, and the first
    free page, which is clear. *)
Definition new_words : gmap Z Z := <[ex_root + 8 * 511 := 0x1003]> (zero_words ex_root) ∪ zero_words new_page.
Definition new_mem : mem :=
  bytes_at 4096 (ehdr_bytes prog_ehdr ++ (prog_phdrs ≫= phdr_bytes) ++ [72; 105; 33]) (bytes_at 0x40 [105; 110; 105; 116; 0] (bytes_at 0x60 [0] ∅)).
Definition new_machine : machine (list Z) bump sim clock (gmap Z Z) unit :=
  mk_machine (mk_vs ∅ ∅ ∅ {[0x608 := mk_lock 0 0 None; 0x610 := mk_lock 0 0 None]} {[3 := mk_cpu 3 0 1 4 0x900 true]} ∅
      (mk_vm new_words new_frames true) (mk_bump 0x20000 ∅))
    (no_heap ex_cfs) ∅ ∅ (mk_lst {[0x700 := 0x700]} {[0x700 := 0x700]}) ∅ new_mem ∅ 2 10 (timers_at 12345) (mk_tsss ∅ tt 0 (mk_tssd 0 0 0 0 0 0 0 0 0) 0).

Definition words_check (w : gmap Z Z) (a : Z) (n : nat) (f : Z → bool) : bool :=
  forallb (λ i, match w !! (a + 8 * Z.of_nat i) with Some e => f e && bool_decide (u64p e) | None => false end) (seq 0 n).
Lemma words_check_true w a n f :
  words_check w a n f = true → ∀ i, 0 ≤ i < Z.of_nat n → ∃ e, w !! (a + 8 * i) = Some e ∧ u64p e ∧ f e = true.
Proof.
  intros Hc i Hi. unfold words_check in Hc. rewrite forallb_forall in Hc. specialize (Hc (Z.to_nat i) ltac:(apply in_seq; lia)).
  rewrite Z2Nat.id in Hc by lia. destruct (w !! (a + 8 * i)) as [e|]; [|done]. apply andb_true_iff in Hc as [Hf Hu]. exists e.
  apply bool_decide_eq_true in Hu. done.
Qed.

Abbreviation new_zeros := (λ (_ : Z) (j : nat), replicate j 0).
Abbreviation new_ready := (spawn_ready list_pages_ok 0x900 ex_root 0x610 0x608 0x700 new_zeros 3 0x20000 (0x20000 + 128) (0x20000 + 224) (0x20000 + 240) (0x20000 + 304)
  0x2000 (tail new_frames) (mk_cpu 3 0 1 4 0x900 true) 0 0x40 [105; 110; 105; 116] 0x60 []).

Lemma new_machine_ready : new_ready new_machine.
Proof.
  split.
  - eexists. cbn [hands]. split; [done|]. eexists. split; [reflexivity|]. split; [done|]. eexists. split; [reflexivity|].
    split; [done|]. eexists. split; [reflexivity|]. split; [done|]. eexists. split; [reflexivity|]. split; [done|]. eexists. by split.
  - split; [|done]. apply (bool_decide_unpack _). by vm_compute.
  - split.
    + done.
    + intros i Hi. destruct (words_check_true new_words new_page 512 (λ _, true) ltac:(by vm_compute) i Hi) as (e & He & Hu & _). exact (ex_intro _ e (conj He Hu)).
    + intros i e Hi He. destruct (words_check_true new_words new_page 256 (λ e, negb (present e)) ltac:(by vm_compute) i Hi) as (e' & He' & _ & Hp).
      assert (new_words !! (new_page + 8 * i) = Some e) as He2 by exact He. assert (e' = e) as -> by congruence. by destruct (present e).
  - split_and!; [done|done|]. intros i Hi. destruct (words_check_true new_words ex_root 512 (λ _, true) ltac:(by vm_compute) i Hi) as (e & He & Hu & _). exact (ex_intro _ e (conj He Hu)).
  - split; [done|]. apply (bool_decide_unpack _). by vm_compute.
  - intros l Hl. rewrite !elem_of_cons in Hl. destruct Hl as [->|[->|Hl]]; [by eexists|by eexists|by apply not_elem_of_nil in Hl].
  - split; [done|]. split; [|lia]. by split_and!.
  - right. by left.
  - split_and!; [by apply at_check_true; vm_compute|by repeat constructor|cbn; lia].
  - by apply at_check_true; vm_compute.
  - split; [|by apply (bool_decide_unpack _); vm_compute]. split; try done; apply (bool_decide_unpack _); by vm_compute.
  - intros j. apply length_replicate.
  - exists 3, false, 0xffff800000003000. split; try done. by exists 0, 0x03000000, 0, 0x300.
Qed.

Lemma create_process_spawns_witness :
  ∃ s', create_process 0x900 0x908 ex_root 0x610 0x608 0x700 ex_area_mem ex_next_mem new_zeros (λ _, ex_thread 9) (λ _, mk_sched_entity 0 0) (λ _, 1)
      (λ _, mk_proc 0 [] (mk_ta 0 0 0) 0 0) (λ _ _, mret 0) 0 3 0x60 0x40 4096 true new_machine = Done (0x20000, s') ∧
    spawned list_pages_ok 0x900 ex_root 0x700 (λ _, mk_proc 0 [] (mk_ta 0 0 0) 0 0) 3 0x20000 (0x20000 + 128) (0x20000 + 224) (0x20000 + 304)
      0x2000 (tail new_frames) (mk_cpu 3 0 1 4 0x900 true) [105; 110; 105; 116] true [] new_machine 0x600000 0x602000 prog_segs s'.
Proof.
  refine (create_process_spawns list_pages_ok (λ _, phys_page) 0x900 0x908 ex_root 0x610 0x608 0x700 ex_area_mem ex_next_mem new_zeros (λ _, ex_thread 9)
    (λ _, mk_sched_entity 0 0) (λ _, 1) (λ _, mk_proc 0 [] (mk_ta 0 0 0) 0 0) (λ _ _, mret 0) 0 3
    0x20000 (0x20000 + 128) (0x20000 + 224) (0x20000 + 240) (0x20000 + 304) 0x2000 (tail new_frames) (mk_cpu 3 0 1 4 0x900 true) 0 0x40 [105; 110; 105; 116] 0x60 4096 true []
    new_machine prog_ehdr [] prog_segs new_machine_ready _ _ _).
  - split; try done; try (by apply at_check_true; vm_compute); repeat constructor; done.
  - cbn [seg_chain prog_segs]. rewrite decide_False, decide_True by done. split_and!; try (by vm_compute). by apply at_check_true; vm_compute.
  - by vm_compute.
Defined.

(** ** When the program is refused *)

(** A segment that is not page aligned; the processor runs in the address
    space [vm]. *)
Definition bad_ehdr : Elf64_Ehdr := mk_ehdr (replicate 16 1) 2 62 1 0x600000 64 0 0 64 56 1 64 0 0.
Definition bad_machine (vm : Z) : machine (list Z) bump sim clock (gmap Z Z) unit :=
  set_sv (set_vcpus {[3 := mk_cpu 3 0 1 4 vm true]} (sv new_machine))
    (set_smem (bytes_at 4096 (ehdr_bytes bad_ehdr ++ phdr_bytes (mk_phdr PT_LOAD 5 0xb0 0x600800 0 3 4097 4096)) (smem new_machine)) new_machine).
(** [next] is what the field of that name holds in a page that is used as a
    container of areas. *)
Definition refused (next vm : Z) : res (Z * machine (list Z) bump sim clock (gmap Z Z) unit) :=
  create_process 0x900 0x908 ex_root 0x610 0x608 0x700 ex_area_mem (λ _, next) new_zeros (λ _, ex_thread 9) (λ _, mk_sched_entity 0 0) (λ _, 1)
    (λ _, mk_proc 0 [] (mk_ta 0 0 0) 0 0) (λ _ _, mret 0) 0 3 0x60 0x40 4096 true (bad_machine vm).

(** The refused process is undone except for the interrupts: the jump skips
    [pop_off], and the processor stays with interrupts off. *)
Lemma refused_process_leaves_interrupts_off :
  ∃ s', refused 0 0x900 = Done (0, s') ∧ vcpus (sv s') !! 3 = Some (mk_cpu 3 1 0 4 0x900 false) ∧
    pages (tables (sv s')) = new_frames ∧ sprocs s' = ∅ ∧ b_live (vheap (sv s')) = ∅.
Proof.
  destruct (then_test_done (refused 0 0x900) (λ r s', bool_decide (r = 0) && bool_decide (vcpus (sv s') !! 3 = Some (mk_cpu 3 1 0 4 0x900 false)) &&
    bool_decide (pages (tables (sv s')) = new_frames) && bool_decide (sprocs s' = ∅) && bool_decide (b_live (vheap (sv s')) = ∅))) as (r & s' & Er & Ht);
    [by vm_compute|].
  exists s'. rewrite Er, !andb_true_iff, !bool_decide_eq_true in *. destruct Ht as ((((-> & H1) & H2) & H3) & H4). split_and!; done.
Qed.

(** A processor that has no address space yet takes a null pointer back from
    the error path. *)
Lemma refused_process_without_space_faults : refused 0 0 = Fault.
Proof. by vm_compute. Qed.

(** The field [next] of a container is never set for the last one:
    [vmm_destroy] follows whatever the page held. *)
Lemma refused_process_follows_stale_link : refused 7 0x900 = Fault.
Proof. by vm_compute. Qed.
