(* ===== verification/Startup.v ===== *)
(** * Start-up of the processors (kernel/arch/x86-64/core_startup.c, kernel/kernel.c)

    The first processor sets up memory, interrupts and timers and wakes the
    others with INIT and STARTUP messages; each processor that wakes counts
    itself and enters [main], which arms the scheduler's timer and idles. *)
From S2P Require Import Prelude.
From S2P Require Import Interfaces.
From S2P Require Import Double.
From S2P Require Import Cpu.
From S2P Require Import RbTree.
From S2P Require Import RbInsert.
From S2P Require Import Cfs.
From S2P Require Import Spinlock.
From S2P Require Import Lst.
From S2P Require Import Layout.
From S2P Require Import PhysAlloc.
From S2P Require Import Vm.
From S2P Require Import Vmm.
From S2P Require Import VmmAlloc.
From S2P Require Import Libc.
From S2P Require Import Tty.
From S2P Require Import Printf.
From S2P Require Import Keyboard.
From S2P Require Import Log.
From S2P Require Import ThreadArray.
From S2P Require Import Bytes.
From S2P Require Import Multiboot.
From S2P Require Import Acpi.
From S2P Require Import Ioapic.
From S2P Require Import Idt.
From S2P Require Import Lapic.
From S2P Require Import Timer.
From S2P Require Import Process.
From S2P Require Import Sched.
From S2P Require Import Kvm.

Definition LAPIC_REG_ERROR_STATUS : Z := 0x280.
Definition DELIVERY_INIT : Z := 5.
Definition DELIVERY_START_UP : Z := 6.

(** [union ipi_command] with the fields start-up sets. *)
Definition ipi_command (vector deliv_mode level trigger_mode : Z) : Z :=
  set_field 15 1 trigger_mode (set_field 14 1 level (set_field 8 3 deliv_mode (set_field 0 8 vector 0))).

(** ** Waking the other processors *)

(** The timers and controllers, [core_running_lock], and the fields
    [core_running] and [bsp_id] of [kernel_status]. *)
Record cores (V W U E : Type) := mk_cores {
  co_timers : timers V W U E; core_running_lock : spinlock_t; core_running : Z; bsp_id : Z;
}.
Arguments mk_cores {V W U E}.
Arguments co_timers {V W U E}.
Arguments core_running_lock {V W U E}.
Arguments core_running {V W U E}.
Arguments bsp_id {V W U E}.

Section cores.
Context {V W U E : Type} `{!LapicDev V, !HpetDev W, !IoApicDev U, !MemSource E}.
Abbreviation CORES := (M (cores V W U E)).
Implicit Type s : cores V W U E.
(** Spins granted to [acquire], polls granted to the waiting loops, the running
    processor, the code of the other processors' first steps. *)
Context (spins polls : nat) (cpu ap_trampoline : Z).

Definition set_co_timers (t : timers V W U E) s := mk_cores t (core_running_lock s) (core_running s) (bsp_id s).
Definition set_core_running (n : Z) s := mk_cores (co_timers s) (core_running_lock s) n (bsp_id s).
Definition on_co_timers {A} : M (timers V W U E) A → CORES A := zoom co_timers set_co_timers.
Definition on_co_lapic {A} (f : M (lapics V E) A) : CORES A := on_co_timers (on_lapics f).
Definition on_co_lock {A} : SL A → CORES A :=
  zoom (λ s, (t_cpus (co_timers s), core_running_lock s))
    (λ l s, mk_cores (set_tcpus l.1 (co_timers s)) l.2 (core_running s) (bsp_id s)).
Definition on_co_mem {A} : MEM A → CORES A := λ f,
  on_co_lapic (zoom lmem (λ m l, mk_lapics m (lenv l) (lidt l) (support_xapic2 l) (lapic_base_address l) (ldev l)) f).

Definition count_core : CORES unit := modify (λ s, set_core_running (w32 (core_running s + 1)) s).

(** One pass of the loop that sends STARTUP twice, and the body of the loop
    over the processors. *)
Definition send_startup (i : Z) : CORES unit :=
  on_co_lapic (write_lapic_register LAPIC_REG_ERROR_STATUS 0);;
  on_co_lapic (send_ipi polls i (ipi_command 8 DELIVERY_START_UP 0 0));;
  on_co_timers (nanodelay polls 200000).
Definition wake_core (i : Z) : CORES unit :=
  on_co_lapic (write_lapic_register LAPIC_REG_ERROR_STATUS 0);;
  on_co_lapic (send_ipi polls i (ipi_command 0 DELIVERY_INIT 1 1));;
  on_co_lapic (send_ipi polls i (ipi_command 0 DELIVERY_INIT 0 1));;
  on_co_timers (millidelay polls 10);;
  send_startup i;;
  send_startup i.
Fixpoint wake_loop (n : nat) (i : Z) : CORES unit :=
  match n with
  | O => mret tt
  | S n =>
      b ← gets bsp_id;
      (if decide (i = b) then mret tt else wake_core i);;
      wake_loop n (i + 1)
  end.

Definition init_ap : CORES unit :=
  on_co_mem (memcpy (0x8000 + PHYSICAL_OFFSET) ap_trampoline 4096);;
  on_co_lock (acquire (S spins) cpu);;
  count_core;;
  n ← gets (λ s, t_cores (co_timers s));
  wake_loop (Z.to_nat n) 0;;
  on_co_lock (release cpu);;
  on_co_timers (millidelay polls 20).
End cores.

(** ** The module with the first program *)

(** [struct multiboot_module]: the offsets of [mod_start] and [string]. *)
Definition mod_start : Z := 8.
Definition mod_string : Z := 16.

(** The search of [bsp_startup] for the module "initd", [n] modules left from
    [i]; [modules] is the array, [initd_name] the literal.  The pointers in the
    array are stack variables, the modules memory. *)
Fixpoint find_initd (n : nat) (vars : gmap Z Z) (modules initd_name i : Z) : MEM Z :=
  match n with
  | O => mret 0
  | S n =>
      m ← getf (λ _, vars !! (modules + 8 * i));
      r ← strncmp initd_name (m + mod_string) 6;
      if decide (r = 0) then b ← ld32 (m + mod_start); mret (b +64 PHYSICAL_OFFSET)
      else find_initd n vars modules initd_name (i + 1)
  end.

(** [strncmp] of two strings compares their first [n] bytes, the final zeros
    included. *)
Lemma strncmp_loop_run m n a b la lb :
  at_ m a (la ++ [0]) → 0 ∉ la → at_ m b (lb ++ [0]) → 0 ∉ lb →
  ∃ r, strncmp_loop n a b m = Done (r, m) ∧ (r = 0 ↔ take n (la ++ [0]) = take n (lb ++ [0])).
Proof.
  revert a b la lb. induction n as [|n IH]; intros a b la lb Ha Hza Hb Hzb; cbn [strncmp_loop]; [by exists 0|].
  assert (∃ x ra, la ++ [0] = x :: ra ∧ (x = 0 → la = []) ∧ (x ≠ 0 → ∃ la', la = x :: la' ∧ ra = la' ++ [0] ∧ 0 ∉ la')) as (x & ra & Ex & Hx0 & Hx1).
  { destruct la as [|x la]; [exists 0, []; split_and!; [done|done|by intros []]|exists x, (la ++ [0])]. split_and!; [done|set_solver|]. intros _. exists la. set_solver. }
  assert (∃ y rb, lb ++ [0] = y :: rb ∧ (y = 0 → lb = []) ∧ (y ≠ 0 → ∃ lb', lb = y :: lb' ∧ rb = lb' ++ [0] ∧ 0 ∉ lb')) as (y & rb & Ey & Hy0 & Hy1).
  { destruct lb as [|y lb]; [exists 0, []; split_and!; [done|done|by intros []]|exists y, (lb ++ [0])]. split_and!; [done|set_solver|]. intros _. exists lb. set_solver. }
  rewrite Ex, Ey in *. apply at_cons in Ha as [Hx Ha]. apply at_cons in Hb as [Hy Hb].
  rewrite (bind_done _ _ _ _ _ (ldb_run _ _ _ Hx)), (bind_done _ _ _ _ _ (ldb_run _ _ _ Hy)). cbn [take].
  destruct (decide (x < y)); [exists (-1); split; [done|]; split; [done|intros [=]; lia]|].
  destruct (decide (y < x)); [exists 1; split; [done|]; split; [done|intros [=]; lia]|].
  assert (x = y) as <- by lia. destruct (decide (x = 0)) as [->|Hne].
  - exists 0. split; [done|]. rewrite Hx0 in Ex by done. rewrite Hy0 in Ey by done. by injection Ex as <-; injection Ey as <-.
  - destruct (Hx1 Hne) as (la' & _ & -> & Hza'), (Hy1 Hne) as (lb' & _ & -> & Hzb').
    destruct (IH (a + 1) (b + 1) la' lb' Ha Hza' Hb Hzb') as (r & Er & Hr). exists r. split; [done|]. rewrite Hr. split; [by intros ->|by intros [=]].
Qed.

Definition initd_text : list Z := [105; 110; 105; 116; 100].

Lemma initd_prefix l : 0 ∉ l → take 6 (initd_text ++ [0]) = take 6 (l ++ [0]) ↔ l = initd_text.
Proof.
  intros Hz. split; [|by intros ->]. intros Ht. change (take 6 (initd_text ++ [0])) with (initd_text ++ [0]) in Ht.
  assert (length l = 5%nat) as Hl.
  { assert (length (initd_text ++ [0]) = length (take 6 (l ++ [0]))) as Hlen by (by rewrite Ht). rewrite length_take, (length_app l) in Hlen. change (length (initd_text ++ [0])) with 6%nat in Hlen. change (length [0]) with 1%nat in Hlen.
    destruct (decide (length l = 5%nat)); [done|]. exfalso. apply Hz. rewrite take_app_le in Ht by lia.
    apply (list_elem_of_lookup_2 l 5). assert ((initd_text ++ [0]) !! 5%nat = Some 0) as H5 by done. rewrite Ht in H5.
    by rewrite lookup_take in H5 by lia. }
  rewrite take_ge in Ht by (rewrite length_app; cbn; lia). by apply app_inv_tail in Ht.
Qed.

(** A module: its address, where it starts, its string. *)
Record mb_module := mk_module { mo_addr : Z; mo_start : Z; mo_string : list Z }.
Definition module_at (m : mem) (x : mb_module) : Prop :=
  at_ m (mo_addr x + mod_start) (le_bytes 4 (mo_start x)) ∧ 0 ≤ mo_start x < 2 ^ 32 ∧
  at_ m (mo_addr x + mod_string) (mo_string x ++ [0]) ∧ 0 ∉ mo_string x.

(** What the search should find. *)
Definition initd_of (ms : list mb_module) : Z :=
  match filter (λ x, mo_string x = initd_text) ms with [] => 0 | x :: _ => mo_start x +64 PHYSICAL_OFFSET end.

(** The first module whose string is exactly "initd". *)
Lemma find_initd_run m v modules nm ms i :
  at_ m nm (initd_text ++ [0]) → Forall (module_at m) ms →
  (∀ k x, ms !! k = Some x → v !! (modules + 8 * (i + Z.of_nat k)) = Some (mo_addr x)) →
  find_initd (length ms) v modules nm i m = Done (initd_of ms, m).
Proof.
  intros Hnm Hall. revert i. induction Hall as [|x ms (Hst & Hr & Hs & Hz) Hall IH]; intros i Hv; cbn [length find_initd]; [done|].
  pose proof (Hv 0%nat x eq_refl) as H0. replace (i + Z.of_nat 0) with i in H0 by lia.
  erewrite bind_done by (apply (getf_done (λ _, v !! (modules + 8 * i))); exact H0).
  destruct (strncmp_loop_run m 6 nm (mo_addr x + mod_string) initd_text (mo_string x)) as (r & Er & Hr0); [done|by apply (bool_decide_unpack _)|done|done|].
  rewrite initd_prefix in Hr0 by done. erewrite bind_done by exact Er. unfold initd_of. rewrite filter_cons.
  destruct (decide (r = 0)) as [E0|E0].
  - rewrite (decide_True (P := mo_string x = initd_text)) by tauto.
    erewrite bind_done by (apply ldn_run; [exact Hst|done]). done.
  - rewrite (decide_False (P := mo_string x = initd_text)) by tauto. apply IH. intros k y Hy.
    specialize (Hv (S k) y Hy). by replace (i + 1 + Z.of_nat k) with (i + Z.of_nat (S k)) by lia.
Qed.

(** ** What the other processors receive *)

(** The messages a controller has sent, with their destination; [icr_dest] is
    the word with the destination.  Documented: in x2APIC mode a write of
    register 0x830 sends its low half to its high half; otherwise a write of
    register 0x300 sends, to the byte the last write of 0x310 put in bits
    24 to 31.  Writes of the error status and reads send nothing. *)
Class IpiLaws (V : Type) `{!LapicDev V} := {
  ipis : V → list (Z * Z);
  icr_dest : V → Z;
  ipi_msr_command v (d : V) : ipis (hw_wrmsr 0x830 v d) = ipis d ++ [(v / 2 ^ 32, v mod 2 ^ 32)];
  ipi_msr_error v (d : V) : ipis (hw_wrmsr 0x828 v d) = ipis d;
  ipi_command_word v (d : V) : ipis (hw_write 0x300 v d) = ipis d ++ [(icr_dest d / 2 ^ 24, v)];
  ipi_dest_word v (d : V) : ipis (hw_write 0x310 v d) = ipis d ∧ icr_dest (hw_write 0x310 v d) = v;
  ipi_error v (d : V) : ipis (hw_write 0x280 v d) = ipis d;
  ipi_read r (d : V) : ipis (hw_read r d).2 = ipis d;
}.

(** Least number that satisfies a decidable predicate. *)
Lemma first_true (f : nat → Prop) `{!∀ i, Decision (f i)} n : f n → ∃ k, (k ≤ n)%nat ∧ f k ∧ ∀ i, (i < k)%nat → ¬ f i.
Proof.
  assert ((∃ k, (k ≤ n)%nat ∧ f k ∧ ∀ i, (i < k)%nat → ¬ f i) ∨ ∀ i, (i ≤ n)%nat → ¬ f i) as [?|Hno]; [|done|].
  { induction n as [|n [(k & Hk & ?)|IH]].
    - destruct (decide (f 0%nat)); [left; exists 0%nat; split_and!; [lia|done|lia]|right]. intros i Hi. by replace i with 0%nat by lia.
    - left. exists k. split; [lia|done].
    - destruct (decide (f (S n))); [left; exists (S n); split_and!; [lia|done|]|right].
      + intros i Hi. apply IH. lia.
      + intros i Hi. destruct (decide (i = S n)) as [->|]; [done|]. apply IH. lia. }
  intros Hn. by destruct (Hno n).
Qed.

Section waking.
Context {V W U E : Type} `{!LapicDev V, !LapicLaws V, !IpiLaws V, !HpetDev W, !IoApicDev U, !MemSource E}.
Implicit Type s : cores V W U E.
Implicit Type w : W.
Context (spins polls : nat) (cpu ap_trampoline : Z).
(** The running processor, its mode, where its controller is mapped, and the
    period of the HPET. *)
Context (id : Z) (x2 : bool) (base : Z) (p : Z) (Hp : 0 < p).

(** A message is delivered within the polls granted. *)
Hypothesis delivers : ∀ d : V, ∃ k, (k < polls)%nat ∧
  (∀ i, (i < k)%nat → pending (Nat.iter i icr_poll d)) ∧ ¬ pending (Nat.iter k icr_poll d).

Lemma ipis_poll k (d : V) : ipis (Nat.iter k icr_poll d) = ipis d.
Proof. induction k as [|k IH]; [done|]. cbn [Nat.iter nat_rect]. unfold icr_poll at 1. by rewrite !ipi_read. Qed.
Lemma cpuid_poll k (d : V) : hw_cpuid 1 (Nat.iter k icr_poll d) = hw_cpuid 1 d.
Proof. induction k as [|k IH]; [done|]. cbn [Nat.iter nat_rect]. unfold icr_poll at 1. by rewrite !cpuid_read. Qed.

Lemma commanded_sends dest c (d : V) :
  0 ≤ c < 2 ^ 32 → ipis (commanded x2 dest c d) = ipis d ++ [(dest, c)] ∧ hw_cpuid 1 (commanded x2 dest c d) = hw_cpuid 1 d.
Proof.
  intros Hc. unfold commanded. destruct x2.
  - rewrite ipi_msr_command, cpuid_wrmsr by apply command_msr. split; [|done]. do 2 f_equal. f_equal; lia_div.
  - change (LAPIC_REG_INTERRUPT_COMMAND + 0x10) with 0x310. change LAPIC_REG_INTERRUPT_COMMAND with 0x300.
    rewrite ipi_command_word, !cpuid_write. split; [|done].
    destruct (ipi_dest_word (dest * 2 ^ 24) d) as [E1 E2]. rewrite E1, E2. by rewrite Z.div_mul by lia.
Qed.

Lemma send_ipi_run (l : lapics V E) dest c :
  on_cpu l id x2 base → 0 ≤ c < 2 ^ 32 → 0 ≤ dest < 256 →
  ∃ d, send_ipi polls dest c l = Done (tt, set_ldev d l) ∧ ipis d = ipis (ldev l) ++ [(dest, c)] ∧ hw_cpuid 1 d = hw_cpuid 1 (ldev l).
Proof.
  intros Hc Hcmd Hd. destruct (commanded_sends dest c (ldev l) Hcmd) as [Hs Hcpu].
  rewrite (send_ipi_commands polls l id x2 base) by (try done; by case_match; lia).
  destruct x2 eqn:Ex.
  - by eexists.
  - destruct (delivers (commanded false dest c (ldev l))) as (k & Hk & Hpd & Hnp).
    rewrite (wait_delivery_run k polls _ id base); [|by apply on_cpu_dev|done|done|done].
    eexists. split; [done|]. cbn [ldev set_ldev]. by rewrite ipis_poll, cpuid_poll.
Qed.

(** The counter of the HPET advances at each of the next [n] polls. *)
Definition advances (n : nat) w : Prop := ∀ i, (i < n)%nat → count (Nat.iter i tick w) < count (Nat.iter (S i) tick w).

Lemma advances_drop k n w : advances (k + n) w → advances n (Nat.iter k tick w).
Proof. intros Ha i Hi. rewrite <- !Nat.iter_add. cbn [plus]. specialize (Ha (i + k)%nat). cbn in Ha. apply Ha. lia. Qed.

Lemma advances_count n w i : advances n w → (i ≤ n)%nat → count w + Z.of_nat i ≤ count (Nat.iter i tick w).
Proof. induction i as [|i IH]; intros Ha Hi; [cbn; lia|]. specialize (IH Ha ltac:(lia)). specialize (Ha i ltac:(lia)). lia. Qed.

(** Polls a delay of [femto] femtoseconds takes at most. *)
Definition delay_polls (femto : Z) : nat := Z.to_nat (femto / p) + 2.

Lemma sleep_run (t : timers V W U E) femto n :
  hpet_base_addr t ≠ 0 → hpet_period t = p → 0 ≤ femto → femto / p < Z.of_nat polls →
  advances (n + delay_polls femto) (hpet t) →
  ∃ w, sleep_polled_hpet polls femto t = Done (tt, set_hpet w t) ∧ advances n w ∧ count (hpet t) + femto / p ≤ count w.
Proof.
  intros Hb Hpt Hf Hpl Ha. unfold delay_polls in Ha. assert (0 ≤ femto / p) as Hc by (apply Z.div_pos; lia).
  set (c := Z.to_nat (femto / p)) in *.
  pose proof (advances_count _ _ c Ha ltac:(lia)) as Hcnt. pose proof (advances_count _ _ (S c) Ha ltac:(lia)) as Hcnt'.
  pose proof (w64_range (hp_read MAIN_COUNTER_VALUE_REG (Nat.iter c tick (hpet t))).1) as Hw.
  change (0 ≤ count (Nat.iter c tick (hpet t)) < 2 ^ 64) in Hw.
  destruct (sleep_polled_hpet_waits t femto Hb) as [Hs _]; [lia|done|rewrite Hpt; lia|]. rewrite Hpt in Hs.
  destruct (first_true (λ k, count (hpet t) + femto / p ≤ count (Nat.iter k tick (tick (hpet t)))) c) as (k & Hk & Hfk & Hlt).
  { rewrite <- Nat.iter_succ_r. lia. }
  exists (Nat.iter (S k) tick (tick (hpet t))). split_and!.
  - apply Hs; [|done|lia]. intros i Hi. specialize (Hlt i Hi). cbv beta in Hlt. lia.
  - rewrite <- Nat.iter_succ_r. apply advances_drop. intros i Hi. apply Ha. lia.
  - rewrite <- Nat.iter_succ_r in Hfk |- *. specialize (Ha (S k) ltac:(lia)). lia.
Qed.

(** The devices work, and the counter advances for [n] polls more. *)
Record ready (n : nat) s : Prop := mk_ready {
  rd_cpu : on_cpu (tlap (co_timers s)) id x2 base;
  rd_base : hpet_base_addr (co_timers s) ≠ 0;
  rd_period : hpet_period (co_timers s) = p;
  rd_clock : advances n (hpet (co_timers s));
}.
Definition devs (d : V) w s : cores V W U E :=
  let t := co_timers s in set_co_timers (set_hpet w (set_tlap (set_ldev d (tlap t)) t)) s.
Abbreviation sent_by s := (ipis (ldev (tlap (co_timers s)))).

(** [f] changes nothing but the devices, sends the messages [x], takes [c]
    polls of the clock at most, and the clock is [t] ticks or more further
    when it returns. *)
Definition sends (f : M (cores V W U E) unit) (c : nat) (x : list (Z * Z)) (t : Z) : Prop :=
  ∀ s n, ready (n + c) s → ∃ d w, f s = Done (tt, devs d w s) ∧ ipis d = sent_by s ++ x ∧ ready n (devs d w s) ∧
    count (hpet (co_timers s)) + t ≤ count w.

Lemma devs_again d w d' w' s : devs d' w' (devs d w s) = devs d' w' s.
Proof. by destruct s as [[[]]]. Qed.

Lemma devs_same s : devs (ldev (tlap (co_timers s))) (hpet (co_timers s)) s = s.
Proof. by destruct s as [[[]]]. Qed.

Lemma ready_devs n s d w : ready n s → hw_cpuid 1 d = hw_cpuid 1 (ldev (tlap (co_timers s))) → advances n w → ready n (devs d w s).
Proof. intros [Hc ???] Hd Ha. split; try done. by apply on_cpu_dev. Qed.

Lemma ready_less n c s : ready (n + c) s → ready n s.
Proof. intros [? ?? Ha]. split; try done. intros i Hi. apply Ha. lia. Qed.

Lemma sends_nothing : sends (mret tt) 0 [] 0.
Proof.
  intros s n Hr. exists (ldev (tlap (co_timers s))), (hpet (co_timers s)). rewrite devs_same, app_nil_r. split_and!; [done|done|by apply (ready_less n 0)|lia].
Qed.

Lemma sends_seq f g c c' x x' t t' : sends f c x t → sends g c' x' t' → sends (f;; g) (c' + c) (x ++ x') (t + t').
Proof.
  intros Hf Hg s n Hr. rewrite Nat.add_assoc in Hr. destruct (Hf s (n + c')%nat Hr) as (d & w & E1 & I1 & R1 & T1).
  destruct (Hg _ n R1) as (d' & w' & E2 & I2 & R2 & T2). exists d', w'. rewrite (bind_done _ _ _ _ _ E1), E2, devs_again in *.
  change (count w + t' ≤ count w') in T2. split_and!; [done| |done|lia]. rewrite I2. change (sent_by (devs d w s)) with (ipis d). by rewrite I1, app_assoc.
Qed.

Lemma sends_lapic (f : M (lapics V E) unit) x :
  (∀ l, on_cpu l id x2 base → ∃ d, f l = Done (tt, set_ldev d l) ∧ ipis d = ipis (ldev l) ++ x ∧ hw_cpuid 1 d = hw_cpuid 1 (ldev l)) →
  sends (on_co_lapic f) 0 x 0.
Proof.
  intros Hf s n Hr. destruct (Hf (tlap (co_timers s)) (rd_cpu _ _ Hr)) as (d & E1 & Hx & Hd).
  exists d, (hpet (co_timers s)). split_and!; [|done| |lia].
  - unfold on_co_lapic, on_co_timers, on_lapics, zoom. rewrite E1. by destruct s as [[]].
  - apply ready_less in Hr. apply ready_devs; [done|done|apply Hr].
Qed.

Lemma sends_error : sends (on_co_lapic (write_lapic_register LAPIC_REG_ERROR_STATUS 0)) 0 [] 0.
Proof.
  apply sends_lapic. intros l Hl. eexists. split; [by apply (write_lapic_register_run l id x2 base)|].
  rewrite app_nil_r, cpuid_reg_write by done. split; [|done]. unfold reg_write. destruct x2; [apply ipi_msr_error|apply ipi_error].
Qed.

Lemma sends_ipi i c : 0 ≤ c < 2 ^ 32 → 0 ≤ i < 256 → sends (on_co_lapic (send_ipi polls i c)) 0 [(i, c)] 0.
Proof. intros Hc Hi. apply sends_lapic. intros l Hl. by apply send_ipi_run. Qed.

Lemma sends_nanodelay nano :
  0 ≤ nano → nano * 10 ^ 6 < 2 ^ 53 → nano * 10 ^ 6 / p < Z.of_nat polls →
  sends (on_co_timers (nanodelay polls nano)) (delay_polls (nano * 10 ^ 6)) [] (nano * 10 ^ 6 / p).
Proof.
  intros H0 Hn Hpl s n Hr. destruct (sleep_run (co_timers s) (nano * 10 ^ 6) n) as (w & E1 & Ha & Ht); try apply Hr; [lia|done|].
  exists (ldev (tlap (co_timers s))), w. rewrite app_nil_r. split_and!; [|done| |done].
  - unfold on_co_timers, zoom, nanodelay. erewrite bind_done.
    2: { apply d_u64_run; [by apply d_is_trunc, nano_is|lia]. }
    rewrite E1. by destruct s as [[[]]].
  - apply ready_devs; [by eapply ready_less|done|done].
Qed.

Lemma sends_millidelay milli :
  0 ≤ milli → milli * 10 ^ 12 < 2 ^ 53 → milli * 10 ^ 12 / p < Z.of_nat polls →
  sends (on_co_timers (millidelay polls milli)) (delay_polls (milli * 10 ^ 12)) [] (milli * 10 ^ 12 / p).
Proof.
  intros H0 Hm Hpl s n Hr. replace (milli * 10 ^ 12) with (milli * 10 ^ 6 * 10 ^ 6) in * by lia.
  destruct (sends_nanodelay (milli * 10 ^ 6) ltac:(lia) Hm Hpl s n Hr) as (d & w & E1 & Hr').
  exists d, w. split; [|done]. rewrite <- E1. unfold on_co_timers, zoom, millidelay. erewrite bind_done; [done|].
  apply d_u64_run; [apply d_is_trunc, nano_is; lia|lia].
Qed.

(** What a processor is sent: INIT, the end of INIT, and STARTUP twice for the
    code at 0x8000; and the messages for the processors [i] to [i + n - 1]
    other than [b]. *)
Definition wake_messages (i : Z) : list (Z * Z) := [(i, 0xC500); (i, 0x8500); (i, 0x608); (i, 0x608)].
Fixpoint all_messages (n : nat) (i b : Z) : list (Z * Z) :=
  match n with
  | O => []
  | S n => (if decide (i = b) then [] else wake_messages i) ++ all_messages n (i + 1) b
  end.
Definition wake_polls : nat := 2 * delay_polls (2 * 10 ^ 11) + delay_polls (10 ^ 13).

(** The ticks of the delays, 10 ms and twice 200 us for each processor other
    than [b]. *)
Definition wake_ticks : Z := 10 ^ 13 / p + 2 * (2 * 10 ^ 11 / p).
Fixpoint all_ticks (n : nat) (i b : Z) : Z :=
  match n with
  | O => 0
  | S n => (if decide (i = b) then 0 else wake_ticks) + all_ticks n (i + 1) b
  end.

Hypothesis enough_polls : 2 * 10 ^ 13 / p < Z.of_nat polls.

Lemma shorter_delay f : f ≤ 2 * 10 ^ 13 → f / p < Z.of_nat polls.
Proof. intros Hf. assert (f / p ≤ 2 * 10 ^ 13 / p) by (apply Z.div_le_mono; lia). lia. Qed.

Lemma sends_le f c c' x t : sends f c x t → (c ≤ c')%nat → sends f c' x t.
Proof.
  intros Hf Hle s n Hr. apply Hf. replace (n + c')%nat with ((n + c) + (c' - c))%nat in Hr by lia. by apply ready_less in Hr.
Qed.

Lemma sends_startup i : 0 ≤ i < 256 → sends (send_startup polls i) (delay_polls (2 * 10 ^ 11)) [(i, 0x608)] (2 * 10 ^ 11 / p).
Proof.
  intros Hi. eapply sends_le.
  - eapply (sends_seq _ _ _ _ [] [(i, 0x608)] 0 (2 * 10 ^ 11 / p) sends_error). eapply (sends_seq _ _ _ _ [(i, 0x608)] [] 0 (2 * 10 ^ 11 / p)).
    + apply sends_ipi; [by vm_compute|done].
    + apply (sends_nanodelay 200000); [done|done|]. apply shorter_delay. lia.
  - change (200000 * 10 ^ 6) with (2 * 10 ^ 11). lia.
Qed.

Lemma sends_wake i : 0 ≤ i < 256 → sends (wake_core polls i) wake_polls (wake_messages i) wake_ticks.
Proof.
  intros Hi. eapply sends_le.
  - eapply (sends_seq _ _ _ _ [] (wake_messages i) 0 wake_ticks sends_error).
    eapply (sends_seq _ _ _ _ [(i, 0xC500)] [(i, 0x8500); (i, 0x608); (i, 0x608)] 0 wake_ticks); [apply sends_ipi; [by vm_compute|done]|].
    eapply (sends_seq _ _ _ _ [(i, 0x8500)] [(i, 0x608); (i, 0x608)] 0 wake_ticks); [apply sends_ipi; [by vm_compute|done]|].
    eapply (sends_seq _ _ _ _ [] [(i, 0x608); (i, 0x608)] (10 ^ 13 / p) (2 * (2 * 10 ^ 11 / p))).
    + apply (sends_millidelay 10); [done|done|]. apply shorter_delay. lia.
    + replace (2 * (2 * 10 ^ 11 / p)) with (2 * 10 ^ 11 / p + 2 * 10 ^ 11 / p) by lia.
      eapply (sends_seq _ _ _ _ [(i, 0x608)] [(i, 0x608)]); by apply sends_startup.
  - change (10 * 10 ^ 12) with (10 ^ 13). unfold wake_polls. lia.
Qed.

Lemma wake_loop_run b n i s k :
  bsp_id s = b → 0 ≤ i → i + Z.of_nat n ≤ 256 → ready (k + n * wake_polls) s →
  ∃ d w, wake_loop polls n i s = Done (tt, devs d w s) ∧ ipis d = sent_by s ++ all_messages n i b ∧ ready k (devs d w s) ∧
    count (hpet (co_timers s)) + all_ticks n i b ≤ count w.
Proof.
  revert i s. induction n as [|n IH]; intros i s Hb Hi Hn Hr; cbn [wake_loop all_messages all_ticks].
  { apply (sends_nothing s k). exact Hr. }
  step. rewrite Hb.
  assert (sends (if decide (i = b) then mret tt else wake_core polls i) wake_polls (if decide (i = b) then [] else wake_messages i)
    (if decide (i = b) then 0 else wake_ticks)) as Hw.
  { destruct (decide (i = b)); [eapply sends_le; [apply sends_nothing|lia]|apply sends_wake; lia]. }
  destruct (Hw s (k + n * wake_polls)%nat) as (d & w & E1 & I1 & R1 & T1).
  { by replace (k + n * wake_polls + wake_polls)%nat with (k + S n * wake_polls)%nat by lia. }
  rewrite (bind_done _ _ _ _ _ E1). destruct (IH (i + 1) (devs d w s)) as (d' & w' & E2 & I2 & R2 & T2); [done|lia|lia|done|].
  exists d', w'. rewrite E2, devs_again in *. change (count w + all_ticks n (i + 1) b ≤ count w') in T2.
  split_and!; [done| |done|lia]. rewrite I2, app_assoc, <- I1. done.
Qed.

(** C7: [init_ap] wakes every processor but the first: it returns, the other
    processors 0 to [core_available] - 1 were each sent INIT, the end of INIT
    and STARTUP twice for the page at 0x8000, in this order and with nothing
    else, that page holds the trampoline, [core_running] counts the first
    processor, and the lock and the nesting of interrupts are as before.  The
    clock has advanced by the delays: 10 ms and twice 200 us for each of them,
    and 20 ms at the end, in ticks of the HPET.  The counter of the HPET is
    assumed to advance at every poll and not to wrap, and a message to be
    delivered within the polls granted. *)
Theorem init_ap_wakes_cores s k n :
  let t := co_timers s in
  t_cpus t !! cpu = Some k → nest cpu n k → 0 ≤ n < 2 ^ 32 - 1 → held (core_running_lock s) = 0 →
  0 ≤ t_cores t ≤ 256 → ready (delay_polls (2 * 10 ^ 13) + Z.to_nat (t_cores t) * wake_polls) s →
  has (lmem (tlap t)) (0x8000 + PHYSICAL_OFFSET) 4096 → has (lmem (tlap t)) ap_trampoline 4096 →
  0x9000 + PHYSICAL_OFFSET ≤ ap_trampoline →
  ∃ s', init_ap spins polls cpu ap_trampoline s = Done (tt, s') ∧
    sent_by s' = sent_by s ++ all_messages (Z.to_nat (t_cores t)) 0 (bsp_id s) ∧
    (∀ j, 0 ≤ j < 4096 → lmem (tlap (co_timers s')) !! (0x8000 + PHYSICAL_OFFSET + j) = lmem (tlap t) !! (ap_trampoline + j)) ∧
    core_running s' = w32 (core_running s + 1) ∧ t_cpus (co_timers s') = t_cpus t ∧
    core_running_lock s' = mk_lock 0 0 (lk_name (core_running_lock s)) ∧
    count (hpet t) + all_ticks (Z.to_nat (t_cores t)) 0 (bsp_id s) + 2 * 10 ^ 13 / p ≤ count (hpet (co_timers s')).
Proof.
  intros t Hk Hn Hrange Hheld Hcores [R1 R2 R3 R4] Hdst Hsrc Hdis.
  destruct (memcpy_run (lmem (tlap t)) (0x8000 + PHYSICAL_OFFSET) ap_trampoline 4096) as (m' & E1 & Hcopy & _); [lia|done|done|lia|].
  destruct s as [t0 lk run b]. cbn [co_timers core_running_lock core_running bsp_id] in *. subst t. unfold init_ap.
  set (l1 := mk_lapics m' (lenv (tlap t0)) (lidt (tlap t0)) (support_xapic2 (tlap t0)) (lapic_base_address (tlap t0)) (ldev (tlap t0))).
  erewrite bind_done.
  2: { unfold on_co_mem, on_co_lapic, on_co_timers, on_lapics, zoom. cbn [co_timers]. rewrite E1. reflexivity. }
  fold l1. erewrite bind_done.
  2: { unfold on_co_lock, zoom. cbn [co_timers set_co_timers t_cpus set_tlap core_running_lock].
       rewrite (acquire_free_run spins cpu _ k lk Hk Hheld). reflexivity. }
  unfold count_core. step. step. cbn [co_timers set_co_timers set_core_running t_cores set_tcpus set_tlap core_running bsp_id fst snd].

  set (s1 := mk_cores (set_tcpus (<[cpu := pushed cpu k]> (t_cpus t0)) (set_tlap l1 t0)) (mk_lock 1 cpu (lk_name lk)) (w32 (run + 1)) b).
  destruct (wake_loop_run b (Z.to_nat (t_cores t0)) 0 s1 (delay_polls (2 * 10 ^ 13))) as (d & w & E2 & I2 & Rd2 & T2); [done|lia|lia| |].
  { split; [|done|done|done]. destruct R1. by split. }
  erewrite bind_done by exact E2.
  erewrite bind_done.
  2: { unfold on_co_lock, zoom. cbn [co_timers set_co_timers t_cpus set_tlap core_running_lock devs s1 set_tcpus set_hpet].
       rewrite (locked_release_run cpu n _ k _ _ Hk Hn Hrange). reflexivity. }
  cbn [fst snd core_running bsp_id devs set_co_timers s1 co_timers].
  set (s2 := mk_cores (set_tcpus (t_cpus t0) (co_timers (devs d w s1))) (mk_lock 0 0 (lk_name lk)) (w32 (run + 1)) b).
  destruct (sends_millidelay 20 ltac:(done) ltac:(done) (shorter_delay (20 * 10 ^ 12) ltac:(lia)) s2 0%nat) as (d' & w' & E3 & I3 & _ & T3).
  { destruct Rd2. by split. }
  exists (devs d' w' s2). split; [exact E3|]. rewrite app_nil_r in I3. split_and!; [|done|done|done|done|].
  2: { change (count w + 2 * 10 ^ 13 / p ≤ count w') in T3. change (count (hpet t0) + all_ticks (Z.to_nat (t_cores t0)) 0 b ≤ count w) in T2.
       change (count (hpet t0) + all_ticks (Z.to_nat (t_cores t0)) 0 b + 2 * 10 ^ 13 / p ≤ count w'). lia. }
  change (ipis d' = ipis (ldev (tlap t0)) ++ all_messages (Z.to_nat (t_cores t0)) 0 b). rewrite I3. exact I2.
Qed.
End waking.

(** ** The period of the local timer *)

Section calibration.
Context {V W U E : Type} `{!LapicDev V, !LapicLaws V, !HpetDev W, !IoApicDev U, !MemSource E}.
Context (polls : nat) (cpu vector_handler_0x40 : Z).
Implicit Type t : timers V W U E.
Implicit Type d : V.

(** The entry of the timer while it is measured: masked, one shot. *)
Definition measuring_entry (x2 : bool) d : Z := set_lvt_mode 0 (set_lvt_masked 1 (w32 (reg_read x2 LAPIC_REG_LVT_TIMER d).1)).
(** The device when the count left is read, and that count. *)
Definition measuring (x2 : bool) d : V :=
  reg_write x2 LAPIC_REG_INITIAL_COUNT UINT32_MAX (reg_write x2 LAPIC_REG_LVT_TIMER (measuring_entry x2 d) (reg_read x2 LAPIC_REG_LVT_TIMER d).2).
Definition count_left (x2 : bool) d : Z := w32 (reg_read x2 LAPIC_REG_CURRENT_COUNT (measuring x2 d)).1.

(** How the period [P] of the timer of the controller [d], in femtoseconds, is
    known: from before, from what the processor tells of its clock, or from
    the count that is left after 5 ms of the HPET; [d'] is the controller
    afterwards. *)
Inductive calibrates (x2 : bool) t d : Z → V → Prop :=
  | period_known : 0 < period t < 2 ^ 53 → calibrates x2 t d (period t) d
  | period_told eax ebx ecx edx :
      period t = 0 → hw_cpuid 0x15 d = Some (eax, ebx, ecx, edx) → 0 < ecx < 2 ^ 32 → calibrates x2 t d (10 ^ 15 / ecx) d
  | period_measured :
      period t = 0 → hw_cpuid 0x15 d = None → hpet_base_addr t ≠ 0 → 0 < hpet_period t →
      5 * 10 ^ 12 / hpet_period t < Z.of_nat polls → advances (delay_polls (hpet_period t) (5 * 10 ^ 12)) (hpet t) →
      count_left x2 d ≠ UINT32_MAX →
      calibrates x2 t d (5 * 10 ^ 12 / (UINT32_MAX - count_left x2 d)) (reg_read x2 LAPIC_REG_CURRENT_COUNT (measuring x2 d)).2.

Lemma calibrates_cpuid x2 t d P d' l : calibrates x2 t d P d' → hw_cpuid l d' = hw_cpuid l d.
Proof. intros []; try done. unfold measuring. by rewrite !cpuid_reg_read, !cpuid_reg_write, cpuid_reg_read by done. Qed.

Lemma calibrates_range x2 t d P d' : calibrates x2 t d P d' → 0 < P < 2 ^ 53.
Proof.
  intros [?|????? _ He|_ _ _ _ _ _ Hc]; [done| |].
  - split; [apply Z.div_str_pos; lia|apply Z.div_lt_upper_bound; lia].
  - pose proof (w32_range (reg_read x2 LAPIC_REG_CURRENT_COUNT (measuring x2 d)).1) as Hr. fold (count_left x2 d) in Hr.
    unfold UINT32_MAX in *. split; [apply Z.div_str_pos; lia|apply Z.div_lt_upper_bound; lia].
Qed.

Lemma on_lapics_run {A} (f : M (lapics V E) A) t a l : f (tlap t) = Done (a, l) → on_lapics f t = Done (a, set_tlap l t).
Proof. intros Hf. unfold on_lapics, zoom. by rewrite Hf. Qed.

Lemma div_u64_run x a n t : d_is x a → 0 ≤ a < 2 ^ 53 → 0 < n < 2 ^ 53 → div_u64 x n t = Done (a / n, t).
Proof.
  intros Hx Ha Hn. unfold div_u64. rewrite decide_False by lia. apply d_u64_run.
  - apply d_div_floor; [done|apply d_is_of_Z; lia|lia|lia].
  - apply Z.div_lt_upper_bound; lia.
Qed.

(** Only the timers' variables count. *)
Lemma calibrates_same x2 t t' d P d' :
  period t' = period t → hpet_base_addr t' = hpet_base_addr t → hpet_period t' = hpet_period t → hpet t' = hpet t →
  calibrates x2 t d P d' → calibrates x2 t' d P d'.
Proof.
  intros E1 E2 E3 E4 [?|?????|?]; [rewrite <- E1|eapply period_told; try done; by rewrite E1|].
  - constructor. by rewrite E1.
  - constructor; rewrite ?E1, ?E2, ?E3, ?E4; done.
Qed.

(** The gate of the timer's vector is set up when the timer is calibrated. *)
Definition timer_gate t (l : list interrupt_descriptor) : list interrupt_descriptor :=
  if decide (period t = 0) then match l !! 64%nat with Some g => <[64%nat := gate_for vector_handler_0x40 GDT_ENTRY_KERNEL_CODE 0xE g]> l | None => l end else l.
Definition calibrated (P : Z) d (w : W) t : timers V W U E :=
  set_period P (set_hpet w (set_tlap (mk_lapics (lmem (tlap t)) (lenv (tlap t))
    (mk_idts (timer_gate t (idt (lidt (tlap t)))) (idtr (lidt (tlap t)))) (support_xapic2 (tlap t)) (lapic_base_address (tlap t)) d) t)).

(** The state with the devices [d] and [w]. *)
Definition with_lapic t d (w : W) : timers V W U E := set_hpet w (set_tlap (set_ldev d (tlap t)) t).

Lemma lapic_same t : with_lapic t (ldev (tlap t)) (hpet t) = t.
Proof. by destruct t as [[]]. Qed.

Lemma read_on_lapic t d w id x2 base reg :
  on_cpu (tlap t) id x2 base → hw_cpuid 1 d = hw_cpuid 1 (ldev (tlap t)) →
  on_lapics (read_lapic_register reg) (with_lapic t d w) = Done (w32 (reg_read x2 reg d).1, with_lapic t (reg_read x2 reg d).2 w).
Proof.
  intros Hc Hd. erewrite on_lapics_run; [done|]. apply (read_lapic_register_run (set_ldev d (tlap t)) id x2 base), on_cpu_dev; done.
Qed.

Lemma write_on_lapic t d w id x2 base reg v :
  on_cpu (tlap t) id x2 base → hw_cpuid 1 d = hw_cpuid 1 (ldev (tlap t)) →
  on_lapics (write_lapic_register reg v) (with_lapic t d w) = Done (tt, with_lapic t (reg_write x2 reg v d) w).
Proof.
  intros Hc Hd. erewrite on_lapics_run; [done|]. apply (write_lapic_register_run (set_ldev d (tlap t)) id x2 base), on_cpu_dev; done.
Qed.

Lemma calibrate_run t id x2 base P d' g :
  on_cpu (tlap t) id x2 base → period t = 0 → calibrates x2 t (ldev (tlap t)) P d' → idt (lidt (tlap t)) !! 64%nat = Some g →
  ∃ w, calibrate_apic_timer vector_handler_0x40 polls t = Done (tt, calibrated P d' w t).
Proof.
  intros Hc H0 Hcal Hg. unfold calibrate_apic_timer. step.
  enough (∃ w, (match hw_cpuid 0x15 (ldev (tlap t)) with
      | Some (_, _, ecx, _) => div_u64 (d_of_Z (10 ^ 15)) ecx
      | None =>
          entry ← on_lapics (read_lapic_register LAPIC_REG_LVT_TIMER);
          let entry := set_lvt_mode 0 (set_lvt_masked 1 entry) in
          on_lapics (write_lapic_register LAPIC_REG_LVT_TIMER entry);;
          on_lapics (write_lapic_register LAPIC_REG_INITIAL_COUNT UINT32_MAX);;
          millidelay polls CALIBRATION_DURATION;;
          cycles ← on_lapics (read_lapic_register LAPIC_REG_CURRENT_COUNT);
          div_u64 (d_mul (d_of_Z CALIBRATION_DURATION) (d_of_Z (10 ^ 12))) (UINT32_MAX - cycles)
      end) t = Done (P, set_hpet w (set_tlap (set_ldev d' (tlap t)) t))) as [w Ew].
  { exists w. rewrite (bind_done _ _ _ _ _ Ew). step. unfold on_lapics, on_lidt, zoom. cbn.
    erewrite set_idt_entry_run by (cbn; exact Hg). unfold calibrated, timer_gate. cbn. rewrite decide_True by done.
    by rewrite Hg. }
  destruct Hcal as [?|eax ebx ecx edx _ Hq He|_ Hq Hb Hp Hpl Ha Hl]; [lia| |].
  - exists (hpet t). rewrite Hq. rewrite (div_u64_run _ (10 ^ 15)); [|by apply d_is_of_Z|lia|lia]. by destruct t as [[]].
  - rewrite Hq.
    erewrite bind_done by (rewrite <- (lapic_same t) at 1; apply (read_on_lapic _ _ _ id x2 base); [exact Hc|done]). cbv zeta.
    fold (measuring_entry x2 (ldev (tlap t))).
    erewrite bind_done by (apply (write_on_lapic _ _ _ id x2 base); [exact Hc|apply cpuid_reg_read]).
    erewrite bind_done by (apply (write_on_lapic _ _ _ id x2 base); [exact Hc|by rewrite cpuid_reg_write, cpuid_reg_read by done]).
    fold (measuring x2 (ldev (tlap t))). set (d1 := measuring x2 (ldev (tlap t))) in *.
    destruct (sleep_run polls (hpet_period t) Hp (with_lapic t d1 (hpet t)) (5 * 10 ^ 12) 0) as (w & E1 & _); try done.
    exists w. erewrite bind_done.
    2: { unfold millidelay. erewrite bind_done by (apply d_u64_run; [by apply d_is_trunc, nano_is|done]).
         unfold nanodelay. erewrite bind_done by (apply d_u64_run; [by apply d_is_trunc, nano_is|done]). exact E1. }
    change (set_hpet w (with_lapic t d1 (hpet t))) with (with_lapic t d1 w).
    erewrite bind_done by (apply (read_on_lapic _ _ _ id x2 base); [exact Hc|]; unfold d1, measuring; by rewrite !cpuid_reg_write, cpuid_reg_read by done).
    change (w32 (reg_read x2 LAPIC_REG_CURRENT_COUNT d1).1) with (count_left x2 (ldev (tlap t))).
    pose proof (w32_range (reg_read x2 LAPIC_REG_CURRENT_COUNT d1).1 : 0 ≤ count_left x2 (ldev (tlap t)) < 2 ^ 32) as Hr.
    unfold UINT32_MAX in *. rewrite (div_u64_run _ (5 * 10 ^ 12)); [done| |lia|lia].
    apply d_is_mul; [by apply d_is_of_Z|by apply d_is_of_Z|by vm_compute].
Qed.

(** Arming the timer, whichever way its period is known. *)
Lemma arm_timer_calibrates t nano id x2 base P d g :
  on_cpu (tlap t) id x2 base → calibrates x2 t (ldev (tlap t)) P d → idt (lidt (tlap t)) !! 64%nat = Some g →
  0 ≤ nano → nano * 10 ^ 6 < 2 ^ 53 →
  ∃ entry w, field 0 8 entry = 0x40 ∧ field 16 1 entry = 0 ∧ field 17 2 entry = 0 ∧
    arm_timer cpu vector_handler_0x40 polls nano false true t
      = Done (tt, calibrated P (armed x2 entry (Z.min (nano * 10 ^ 6 / P) (2 ^ 32 - 1)) d) w t).
Proof.
  intros Hc Hcal Hg H0 Hn. pose proof (calibrates_range _ _ _ _ _ Hcal) as HP. pose proof (calibrates_cpuid _ _ _ _ _ 1 Hcal) as Hd.
  destruct (decide (period t = 0)) as [Hz|Hnz].
  - destruct (calibrate_run t id x2 base P d g Hc Hz Hcal Hg) as [w E1]. set (t1 := calibrated P d w t) in *.
    destruct (arm_timer_run cpu vector_handler_0x40 polls t1 nano false id x2 base) as (entry & F1 & F2 & F3 & E2); try done.
    { destruct Hc as [Hi ???]. split; try done. cbn. by rewrite Hd. }
    exists entry, w. split_and!; try done. unfold arm_timer, arm_apic_timer in E2 |- *. step. rewrite decide_True by done.
    rewrite (bind_done _ _ _ _ _ E1). rewrite (bind_done (gets period) _ t1 P t1 eq_refl) in E2.
    rewrite decide_False in E2 by lia. rewrite (bind_done (mret tt) _ t1 tt t1 eq_refl) in E2. exact E2.
  - inversion Hcal; [|done..]. subst.
    destruct (arm_timer_run cpu vector_handler_0x40 polls t nano false id x2 base) as (entry & F1 & F2 & F3 & E2); try done.
    exists entry, (hpet t). split_and!; try done. rewrite E2. unfold calibrated, timer_gate. rewrite decide_False by done. by destruct t as [[? ? []]].
Qed.
End calibration.

(** ** The kernel as it starts *)

Definition IRQ_KEYBOARD : Z := 1.
Definition DEST_PHYSICAL : Z := 0.

(** [struct framebuffer] in memory. *)
Definition load_framebuffer (a : Z) : MEM framebuffer :=
  addr ← ld64 a; p ← ld32 (a + 8); w ← ld32 (a + 12); h ← ld32 (a + 16); b ← ldb (a + 20);
  mret (mk_fb addr p w h b).

(** The machine on the real page allocator, the statics of start-up, the
    console, and the lock and switches of the log, whose serial line is behind
    the same ports as the keyboard. *)
Record smp (H V W U E Q F : Type) := mk_smp {
  sm : machine phys H V W U E; sm_big : bool; sm_pml4 : Z;
  sm_lock : spinlock_t; sm_running : Z; sm_bsp : Z; sm_con : kbd Q F;
  sm_serial : spinlock_t * (bool * bool);
}.
Arguments mk_smp {H V W U E Q F}.
Arguments sm {H V W U E Q F}.
Arguments sm_big {H V W U E Q F}.
Arguments sm_pml4 {H V W U E Q F}.
Arguments sm_lock {H V W U E Q F}.
Arguments sm_running {H V W U E Q F}.
Arguments sm_bsp {H V W U E Q F}.
Arguments sm_con {H V W U E Q F}.
Arguments sm_serial {H V W U E Q F}.

Section smp.
Context {H V W U E Q F : Type}.
Context `{!Allocator H, !LapicDev V, !HpetDev W, !IoApicDev U, !MemSource E, !Ports Q, !MemSource F}.
Abbreviation SMP := (M (smp H V W U E Q F)).
Implicit Type s : smp H V W U E Q F.

Definition set_sm (m : machine phys H V W U E) s := mk_smp m (sm_big s) (sm_pml4 s) (sm_lock s) (sm_running s) (sm_bsp s) (sm_con s) (sm_serial s).
Definition on_sm {A} : M (machine phys H V W U E) A → SMP A := zoom sm set_sm.
Definition on_sm_timers {A} (f : M (timers V W U E) A) : SMP A := on_sm (on_timers f).
Definition on_sm_console {A} : M (kbd Q F) A → SMP A :=
  zoom sm_con (λ c s, mk_smp (sm s) (sm_big s) (sm_pml4 s) (sm_lock s) (sm_running s) (sm_bsp s) c (sm_serial s)).
Definition on_log {A} : M (logs Q F) A → SMP A :=
  zoom (λ s, mk_logs (port (sm_con s)) (vcpus (sv (sm s)), (sm_serial s).1) (screen (sm_con s)) (sm_serial s).2.1 (sm_serial s).2.2)
    (λ g s, mk_smp (set_sv (set_vcpus (lg_sl g).1 (sv (sm s))) (sm s)) (sm_big s) (sm_pml4 s) (sm_lock s) (sm_running s) (sm_bsp s)
      (mk_kbd (scancode_set (sm_con s)) (last_scancode (sm_con s)) (lg_port g) (lg_tty g)) ((lg_sl g).2, (log_qemu g, log_tty g))).
Definition on_cores {A} : M (cores V W U E) A → SMP A :=
  zoom (λ s, mk_cores (t_of (sm s)) (sm_lock s) (sm_running s) (sm_bsp s))
    (λ c s, mk_smp (put_t (co_timers c) (sm s)) (sm_big s) (sm_pml4 s) (core_running_lock c) (core_running c) (bsp_id c) (sm_con s) (sm_serial s)).
(** The part [kvminit] works on: the memory and the hardware of the timers,
    the address spaces. *)
Definition boot_of s : boot V H :=
  let l := tlap (stimers (sm s)) in mk_boot (lmem l) (ldev l) (sv (sm s)) (sm_big s) (sm_pml4 s).
Definition put_boot (b : boot V H) s : smp H V W U E Q F :=
  let t := stimers (sm s) in
  let l := mk_lapics (b_mem b) (lenv (tlap t)) (lidt (tlap t)) (support_xapic2 (tlap t)) (lapic_base_address (tlap t)) (b_dev b) in
  mk_smp (set_stimers (set_tlap l t) (set_sv (b_vs b) (sm s))) (big_page_size_supported b) (Kvm.kernel_pml4 b)
    (sm_lock s) (sm_running s) (sm_bsp s) (sm_con s) (sm_serial s).
Definition on_boot {A} : M (boot V H) A → SMP A := zoom boot_of put_boot.

(** The spins and polls granted to the waiting loops, the running processor. *)
Context (spins polls : nat) (cpu : Z).
(** Statics, literals and stubs by address, and what memory holds before it is
    written, as in the components. *)
Context (kernel_vmm kernel_vmm_lock free_pid_lock free_tid_lock process_list : Z).
Context (uninit_area : Z → memory_area_t) (uninit_next : Z → Z) (uninit_node : rb_node_t) (junk : Z → nat → list Z).
Context (uninit_thread : Z → thread_t) (uninit_entity : Z → sched_entity_t) (uninit_prio : Z → Z) (uninit_proc : Z → proc_t).
Context (h_realloc : Z → Z → M H Z) (h_init : Z → Z → M H unit).
Context (idt_addr vector_handler_0 vector_handler_0x21 vector_handler_0x40 vector_handler_0xFF : Z) (hpet_vec_handler : list Z).
Context (ap_trampoline initd_name empty_string apic_sig hpet_sig : Z).
Context (pml4 physical_mapping mapping_phys kernel_physical_end free_lst : Z) (alias : Z → Z).
Context (font : pc_font) (font_addr : Z).
(** The locals of [bsp_startup]: the pointers, the array [modules]; and the
    local [header] of [load_multiboot_info]. *)
Context (memory_map_var framebuffer_var acpi_old_var acpi_new_var modules_var header_var : Z).

(** The allocator of physical_allocator.c, as the other components call it;
    which pages are free only the proofs about it ask. *)
#[local] Instance boot_pages : PageAllocator phys := {|
  kalloc := kalloc_page free_lst spins cpu;
  kfree := λ p, kfree_page free_lst spins cpu p;
  free_pages := λ _, [];
|}.

(** [main]; [idle] only spins, so that the run ends where it is reached. *)
Definition main (initd : Z) : SMP unit :=
  on_sm (on_vs (change_current_vmm kernel_vmm cpu kernel_vmm));;
  k ← on_sm (on_scpus (get_cpu cpu));
  b ← gets sm_bsp;
  (if decide (cpu_id k = b ∧ initd ≠ 0) then
     p4 ← gets sm_pml4;
     init_p ← on_sm (create_process kernel_vmm kernel_vmm_lock p4 free_pid_lock free_tid_lock process_list uninit_area uninit_next
       junk uninit_thread uninit_entity uninit_prio uninit_proc h_realloc spins cpu empty_string initd_name initd true);
     if decide (init_p ≠ 0) then on_sm (run_proc uninit_node init_p) else mret tt
   else mret tt);;
  on_sm_timers (arm_timer cpu vector_handler_0x40 polls 100000000 false true).

(** The processor counts itself. *)
Definition count_self : SMP unit :=
  on_cores (on_co_lock (acquire (S spins) cpu));;
  on_cores count_core;;
  on_cores (on_co_lock (release cpu)).

Definition ap_startup (apicid : Z) : SMP unit :=
  on_sm (on_scpus (push_off cpu));;
  r ← getf (λ s, hw_cpuid 0x80000001 (ldev (tlap (stimers (sm s)))));
  let '(_, _, _, edx) := r in
  let nx_flag_supported := bool_decide (Z.land edx (Z.shiftl 1 20) ≠ 0) in
  nx ← gets (λ s, nx_flag_enabled (tables (sv (sm s))));
  (if nx : bool then if negb nx_flag_supported then panic else on_boot enable_nx_flag else mret tt);;
  on_sm_timers (on_lapics (on_lidt (load_idt idt_addr vector_handler_0)));;
  on_sm_timers (on_lapics (enable_lapic vector_handler_0xFF apicid));;
  count_self;;
  on_sm (on_scpus (pop_off cpu));;
  main 0.

(** [boot_info] and the locals before [load_multiboot_info]. *)
Definition boot_info0 : boot_information :=
  mk_info 0 0 modules_var 64 0 0 memory_map_var 0 framebuffer_var 0 0 0 0 0 acpi_old_var acpi_new_var 0 0 0 0 0.
Definition boot_vars0 : gmap Z Z :=
  <[memory_map_var := 0]> (<[framebuffer_var := 0]> (<[acpi_old_var := 0]> (<[acpi_new_var := 0]>
    (list_to_map ((λ i, (modules_var + 8 * Z.of_nat i, 0)) <$> seq 0 64))))).

(** A local pointer. *)
Definition local (v : gmap Z Z) (a : Z) : SMP Z := getf (λ _, v !! a).
Definition on_boot_mem {A} (f : MEM A) : SMP A := on_boot (on_bmem f).

Definition bsp_startup (magic addr apicid : Z) : SMP unit :=
  on_sm (on_scpus (push_off cpu));;
  on_log init_qemu_serial;;
  modify (λ s, mk_smp (sm s) (sm_big s) (sm_pml4 s) (sm_lock s) (sm_running s) apicid (sm_con s) (sm_serial s));;
  mb ← on_boot_mem (load_multiboot_info header_var magic addr boot_info0 boot_vars0);
  initd ← on_boot_mem (find_initd (Z.to_nat (module_size (info mb))) (vars mb) modules_var initd_name 0);
  memory_map ← local (vars mb) memory_map_var;
  on_boot (kvminit pml4 physical_mapping mapping_phys kernel_physical_end kernel_vmm kernel_vmm_lock free_lst alias memory_map);;
  acpi_old ← local (vars mb) acpi_old_var;
  (if decide (acpi_old ≠ 0) then on_sm_timers (on_ioapic (on_acpi (load_rsdp ((acpi_old + 8) +64 PHYSICAL_OFFSET))));; mret tt else mret tt);;
  acpi_new ← local (vars mb) acpi_new_var;
  (if decide (acpi_new ≠ 0) then on_sm_timers (on_ioapic (on_acpi (load_xsdp polls ((acpi_new + 8) +64 PHYSICAL_OFFSET))));; mret tt else mret tt);;
  on_sm_timers (on_lapics (on_lidt (load_idt idt_addr vector_handler_0)));;
  bsp ← gets sm_bsp;
  on_sm_timers (on_lapics (enable_lapic vector_handler_0xFF bsp));;
  on_sm_timers (on_ioapic (read_madt apic_sig));;
  on_sm_timers (setup_hpet kernel_vmm hpet_sig hpet_vec_handler);;
  on_cores (init_ap spins polls cpu ap_trampoline);;
  on_boot (disable_id_mapping alias);;
  on_sm_console init_keyboard;;
  on_sm_timers (on_lapics (on_lidt (set_idt_entry 0x21 vector_handler_0x21 GDT_ENTRY_KERNEL_CODE (Z.lor (FLAGS_DPL 0) (FLAGS_GATE_TYPE 0xE)))));;
  on_sm_timers (on_ioapic (set_irq IRQ_KEYBOARD 0x21 DEST_PHYSICAL 0 false));;
  area ← on_sm (on_vs (vmm_alloc uninit_area uninit_next spins cpu kernel_vmm (2 * PAGE_SIZE) MEMORY_FLAG_WRITE));
  if decide (area = 0) then panic else
  a ← on_sm (on_vs (load_area area));
  on_sm (on_sheap (h_init (a_start a) (a_size a)));;
  on_sm (on_stss setup_tss);;
  fb ← local (vars mb) framebuffer_var;
  fb ← on_boot_mem (load_framebuffer ((fb + 8) +64 PHYSICAL_OFFSET));
  on_sm_console (on_screen (terminal_initialize font_addr font fb));;
  on_sm (on_scpus (pop_off cpu));;
  main initd.
End smp.

(** ** A processor that has been woken *)

Section joining.
Context {H V W U E Q F : Type}.
Context `{!Allocator H, !LapicDev V, !LapicLaws V, !HpetDev W, !IoApicDev U, !MemSource E, !Ports Q, !MemSource F}.
Implicit Type s : smp H V W U E Q F.
Context (spins polls : nat) (cpu : Z).
Context (kernel_vmm kernel_vmm_lock free_pid_lock free_tid_lock process_list : Z).
Context (uninit_area : Z → memory_area_t) (uninit_next : Z → Z) (uninit_node : rb_node_t) (junk : Z → nat → list Z).
Context (uninit_thread : Z → thread_t) (uninit_entity : Z → sched_entity_t) (uninit_prio : Z → Z) (uninit_proc : Z → proc_t).
Context (h_realloc : Z → Z → M H Z).
Context (idt_addr vector_handler_0 vector_handler_0x40 vector_handler_0xFF initd_name empty_string free_lst : Z).
Abbreviation main := (main spins polls cpu kernel_vmm kernel_vmm_lock free_pid_lock free_tid_lock process_list uninit_area uninit_next
  uninit_node junk uninit_thread uninit_entity uninit_prio uninit_proc h_realloc vector_handler_0x40 initd_name empty_string free_lst).

Lemma on_sm_run {A} (f : M (machine phys H V W U E) A) s a m : f (sm s) = Done (a, m) → on_sm f s = Done (a, set_sm m s).
Proof. intros Hf. unfold on_sm, zoom. by rewrite Hf. Qed.

Lemma on_sm_timers_run {A} (f : M (timers V W U E) A) s a t :
  f (t_of (sm s)) = Done (a, t) → on_sm_timers f s = Done (a, set_sm (put_t t (sm s)) s).
Proof. intros Hf. apply on_sm_run, on_timers_run, Hf. Qed.

(** The processor's entry once it runs on the kernel's address space, with its
    timer, whose period is [P], armed for 100 ms. *)
Record joined s (k : cpu_status_t) (P : Z) (d : V) (x2 : bool) s' : Prop := mk_joined {
  jn_cpus : vcpus (sv (sm s')) = <[cpu := set_cpu_vmm kernel_vmm k]> (vcpus (sv (sm s)));
  jn_timer : ∃ entry, field 0 8 entry = 0x40 ∧ field 16 1 entry = 0 ∧ field 17 2 entry = 0 ∧
    ldev (tlap (stimers (sm s'))) = armed x2 entry (Z.min (10 ^ 14 / P) (2 ^ 32 - 1)) d ∧
    period (stimers (sm s')) = P;
  jn_rest : squeue (sm s') = squeue (sm s) ∧ sthreads (sm s') = sthreads (sm s) ∧ sprocs (sm s') = sprocs (sm s) ∧
    tables (sv (sm s')) = tables (sv (sm s)) ∧ vmms (sv (sm s')) = vmms (sv (sm s)) ∧
    lidt (tlap (stimers (sm s'))) = mk_idts (timer_gate vector_handler_0x40 (stimers (sm s)) (idt (lidt (tlap (stimers (sm s))))))
      (idtr (lidt (tlap (stimers (sm s)))));
  jn_statics : sm_lock s' = sm_lock s ∧ sm_running s' = sm_running s ∧ sm_bsp s' = sm_bsp s;
}.

(** [main] without a program, or on another processor than the first. *)
Lemma main_idle_run s k x2 base v initd P d g :
  vcpus (sv (sm s)) !! cpu = Some k → cpu_id k = cpu → on_cpu (tlap (stimers (sm s))) cpu x2 base →
  kernel_vmm ≠ 0 → vmms (sv (sm s)) !! kernel_vmm = Some v →
  calibrates polls x2 (stimers (sm s)) (ldev (tlap (stimers (sm s)))) P d → idt (lidt (tlap (stimers (sm s)))) !! 64%nat = Some g →
  ¬ (cpu = sm_bsp s ∧ initd ≠ 0) →
  ∃ s', main initd s = Done (tt, s') ∧ joined s k P d x2 s'.
Proof.
  intros Hk Hid Hc Hkv Hv Hp Hg Hno. unfold Startup.main.
  destruct (change_vmm_run kernel_vmm cpu (sm s) k kernel_vmm v Hk Hid Hkv Hv) as (c & E1 & _).
  rewrite (bind_done _ _ _ _ _ (on_sm_run _ _ _ _ E1)). set (m1 := set_sv _ _).
  assert (on_scpus (get_cpu cpu) m1 = Done (set_cpu_vmm kernel_vmm k, m1)) as E2 by (apply read_cpu_run; [apply lookup_insert_eq|done]).
  erewrite bind_done by (apply on_sm_run; exact E2). step. cbn [sm_bsp set_sm cpu_id set_cpu_vmm].
  rewrite decide_False by (by rewrite Hid). step.
  destruct (arm_timer_calibrates polls cpu vector_handler_0x40 (t_of m1) 100000000 cpu x2 base P d g) as (entry & w & F1 & F2 & F3 & E3);
    [done|by eapply calibrates_same, Hp|done|done|done|].
  eexists. split; [apply on_sm_timers_run; exact E3|]. split; cbn; try done. by exists entry.
Qed.

Abbreviation ap_startup := (ap_startup spins polls cpu kernel_vmm kernel_vmm_lock free_pid_lock free_tid_lock process_list uninit_area
  uninit_next uninit_node junk uninit_thread uninit_entity uninit_prio uninit_proc h_realloc idt_addr vector_handler_0
  vector_handler_0x40 vector_handler_0xFF initd_name empty_string free_lst).

(** The parts of the state start-up changes. *)
Definition with_cpus (c : cpus) s : smp H V W U E Q F := set_sm (set_sv (set_vcpus c (sv (sm s))) (sm s)) s.
Definition with_lapics (l : lapics V E) s : smp H V W U E Q F := set_sm (set_stimers (set_tlap l (stimers (sm s))) (sm s)) s.

Lemma on_sm_cpus_run {A} (f : CPU A) s a c :
  f (vcpus (sv (sm s))) = Done (a, c) → on_sm (on_scpus f) s = Done (a, with_cpus c s).
Proof. intros Hf. apply on_sm_run, on_scpus_run, Hf. Qed.

(** The processors' entries are in the address spaces' state; the timers keep
    a copy that every access refreshes. *)
Definition fresh s : smp H V W U E Q F := set_sm (set_stimers (set_tcpus (vcpus (sv (sm s))) (stimers (sm s))) (sm s)) s.

Lemma on_sm_lapics_run {A} (f : M (lapics V E) A) s a l :
  f (tlap (stimers (sm s))) = Done (a, l) → on_sm_timers (on_lapics f) s = Done (a, with_lapics l (fresh s)).
Proof.
  intros Hf. erewrite on_sm_timers_run by (apply on_lapics_run; exact Hf). by destruct s as [[[]]].
Qed.

Lemma on_core_lock_run {A} (f : SL A) s a c lk :
  f (vcpus (sv (sm s)), sm_lock s) = Done (a, (c, lk)) →
  on_cores (on_co_lock f) s = Done (a, mk_smp (sm (fresh (with_cpus c s))) (sm_big s) (sm_pml4 s) lk (sm_running s) (sm_bsp s) (sm_con s) (sm_serial s)).
Proof. intros Hf. unfold on_cores, on_co_lock, zoom. cbn. rewrite Hf. done. Qed.

Lemma enable_nx_run s :
  on_boot enable_nx_flag s = Done (tt, with_lapics (set_ldev (hw_wrmsr IA32_EFER (Z.lor (hw_rdmsr IA32_EFER (ldev (tlap (stimers (sm s)))))
    (Z.shiftl 1 11)) (ldev (tlap (stimers (sm s))))) (tlap (stimers (sm s)))) s).
Proof. unfold on_boot, zoom, enable_nx_flag. repeat step. by destruct s as [[]]. Qed.

(** The running processor's controller can be switched on, in x2APIC mode when
    [x2]. *)
Record asleep s (x2 : bool) : Prop := mk_asleep {
  as_id : ∃ eax ebx ecx edx, hw_cpuid 1 (ldev (tlap (stimers (sm s)))) = Some (eax, ebx, ecx, edx) ∧ Z.shiftr ebx 24 = cpu ∧
    Z.land edx 0x100 ≠ 0 ∧ x2 = bool_decide (Z.land ecx (Z.shiftl 1 21) ≠ 0);
  as_room : (Z.to_nat cpu < length (support_xapic2 (tlap (stimers (sm s)))))%nat ∧
    (Z.to_nat cpu < length (lapic_base_address (tlap (stimers (sm s)))))%nat;
  as_idt : length (idt (lidt (tlap (stimers (sm s))))) = 256%nat;
  as_map pa : ∃ p me, src_map_mmio 0 pa 0x400 true (lmem (tlap (stimers (sm s))), lenv (tlap (stimers (sm s)))) = Done (p, me) ∧ p ≠ 0;
}.

(** The controller switched on: the old one masked, the mode chosen, the
    spurious vector 0xFF set and the controller enabled. *)
Definition switched_on (x2 : bool) (d : V) : V :=
  let d := outbs pic_writes d in let b := Z.lor (hw_rdmsr IA32_APIC_BASE d) 0x800 in
  reg_write x2 LAPIC_REG_SPURIOUS_VECTOR 0x1FF (hw_wrmsr IA32_APIC_BASE (if x2 then Z.lor b (Z.shiftl 1 10) else b) d).
(** The no-execute bit switched on as on the first processor. *)
Definition nx_on (nx : bool) (d : V) : V :=
  if nx then hw_wrmsr IA32_EFER (Z.lor (hw_rdmsr IA32_EFER d) (Z.shiftl 1 11)) d else d.

(** Interrupts and the controller of the processor. *)
Lemma enable_core_run s x2 :
  asleep s x2 → 0 ≤ vector_handler_0 → vector_handler_0 + 32 * 16 ≤ 2 ^ 64 →
  ∃ lp s1 base, on_sm_timers (on_lapics (on_lidt (load_idt idt_addr vector_handler_0))) s = Done (tt, s1) ∧
    on_sm_timers (on_lapics (enable_lapic vector_handler_0xFF cpu)) s1 = Done (0, with_lapics lp (fresh s)) ∧
    on_cpu lp cpu x2 base ∧ ldev lp = switched_on x2 (ldev (tlap (stimers (sm s)))) ∧
    idtr (lidt lp) = mk_idtr 4095 idt_addr ∧ length (idt (lidt lp)) = 256%nat ∧
    (∀ j, (j < 32)%nat → ∃ g, idt (lidt lp) !! j = Some g ∧ gate_handler g = vector_handler_0 + Z.of_nat j * 16 ∧
       g_selector g = GDT_ENTRY_KERNEL_CODE ∧ gate_present g = true ∧ gate_dpl g = 0 ∧ gate_type g = 0xE) ∧
    (∃ g, idt (lidt lp) !! 255%nat = Some (gate_for vector_handler_0xFF GDT_ENTRY_KERNEL_CODE 0xE g)).
Proof.
  intros [(eax & ebx & ecx & edx & Hcpu & Hid & Hedx & ->) [Hl1 Hl2] Hlen Hmap] H0 Hvh.
  set (lp := tlap (stimers (sm s))) in *.
  destruct (load_idt_run (lidt lp) idt_addr vector_handler_0 Hlen H0 Hvh) as (l & E1 & Hl & Hgates & _).
  set (lp1 := mk_lapics (lmem lp) (lenv lp) (mk_idts l (mk_idtr 4095 idt_addr)) (support_xapic2 lp) (lapic_base_address lp) (ldev lp)).
  destruct (lookup_lt_is_Some_2 l 255) as [g Hg]; [lia|].
  destruct (enable_lapic_run lp1 vector_handler_0xFF cpu eax ebx ecx edx g) as (lp2 & base & E2 & Hc2 & Hd2 & Hi2); try done.
  exists lp2, (with_lapics lp1 (fresh s)), base. split_and!.
  - apply on_sm_lapics_run. unfold on_lidt, zoom. fold lp. by rewrite E1.
  - erewrite on_sm_lapics_run by exact E2. done.
  - done.
  - done.
  - by rewrite Hi2.
  - rewrite Hi2. cbn. by rewrite length_insert.
  - intros j Hj. destruct (Hgates j Hj) as (g' & Hg' & Hrest). exists g'. split; [|done]. rewrite Hi2. cbn.
    rewrite list_lookup_insert_ne by lia. done.
  - exists g. rewrite Hi2. cbn. by apply list_lookup_insert_eq; lia.
Qed.

(** The no-execute bit. *)
Lemma nx_branch_run s edx :
  let nx := nx_flag_enabled (tables (sv (sm s))) in
  (nx = true → Z.land edx (Z.shiftl 1 20) ≠ 0) →
  (if nx then if negb (bool_decide (Z.land edx (Z.shiftl 1 20) ≠ 0)) then panic else on_boot enable_nx_flag else mret tt) s
  = Done (tt, with_lapics (set_ldev (nx_on nx (ldev (tlap (stimers (sm s))))) (tlap (stimers (sm s)))) s).
Proof.
  intros nx Hok. unfold nx_on. destruct nx eqn:En.
  - rewrite bool_decide_eq_true_2 by (by apply Hok). cbn [negb]. apply enable_nx_run.
  - by destruct s as [[? ? ? ? ? ? ? ? ? ? [[]]]].
Qed.

Lemma asleep_dev s s' x2 :
  asleep s x2 → tlap (stimers (sm s')) = set_ldev (ldev (tlap (stimers (sm s')))) (tlap (stimers (sm s))) →
  hw_cpuid 1 (ldev (tlap (stimers (sm s')))) = hw_cpuid 1 (ldev (tlap (stimers (sm s)))) → asleep s' x2.
Proof.
  intros [Hi Hr Hidt Hm] El Ec. split.
  - by rewrite Ec.
  - by rewrite El.
  - by rewrite El.
  - rewrite El. exact Hm.
Qed.

Lemma timer_gate_other (t : timers V W U E) l (j : nat) : j ≠ 64%nat → timer_gate vector_handler_0x40 t l !! j = l !! j.
Proof. intros Hj. unfold timer_gate. repeat case_match; try done. by apply list_lookup_insert_ne. Qed.
Lemma timer_gate_set (t : timers V W U E) l g :
  period t = 0 → l !! 64%nat = Some g →
  timer_gate vector_handler_0x40 t l !! 64%nat = Some (gate_for vector_handler_0x40 GDT_ENTRY_KERNEL_CODE 0xE g).
Proof.
  intros Hz Hg. unfold timer_gate. rewrite decide_True, Hg by done. apply list_lookup_insert_eq. by eapply lookup_lt_Some.
Qed.

(** The counter of the running processors. *)
Lemma count_self_run s k n :
  vcpus (sv (sm s)) !! cpu = Some k → nest cpu n k → 0 ≤ n < 2 ^ 32 - 1 → held (sm_lock s) = 0 →
  count_self spins cpu s
  = Done (tt, mk_smp (sm (fresh s)) (sm_big s) (sm_pml4 s) (mk_lock 0 0 (lk_name (sm_lock s))) (w32 (sm_running s + 1)) (sm_bsp s) (sm_con s) (sm_serial s)).
Proof.
  intros Hk Hn Hr Hh. unfold count_self. erewrite bind_done by (apply on_core_lock_run; by apply acquire_free_run).
  unfold count_core. erewrite bind_done by reflexivity.
  erewrite on_core_lock_run by (cbn; by eapply locked_release_run). by destruct s as [[[]]].
Qed.

(** C36: a processor that [init_ap] has woken joins the others: [ap_startup]
    returns into the idle loop with interrupts on and their nesting at zero,
    on the kernel's address space.  Its table register holds the interrupt
    table, in which the 32 reserved vectors, the spurious vector and, when the
    timer is calibrated here, the timer's vector have their gates; its
    no-execute bit is set as on the first processor; its controller is on with
    the spurious vector, and its timer armed for 100 ms of its period, known
    already, told by the processor or measured with the HPET (the first of
    them to come up calibrates).  [core_running] counts it, and the lock is
    free. *)
Theorem ap_startup_joins s k x2 v P d :
  let t := stimers (sm s) in let nx := nx_flag_enabled (tables (sv (sm s))) in
  vcpus (sv (sm s)) !! cpu = Some k → push_off_count k = 0 → int_on k = 0 → cpu_IF k = false →
  asleep s x2 → 0 ≤ vector_handler_0 → vector_handler_0 + 32 * 16 ≤ 2 ^ 64 →
  (∃ r0 r1 r2 edx, hw_cpuid 0x80000001 (ldev (tlap t)) = Some (r0, r1, r2, edx) ∧ (nx = true → Z.land edx (Z.shiftl 1 20) ≠ 0)) →
  held (sm_lock s) = 0 → kernel_vmm ≠ 0 → vmms (sv (sm s)) !! kernel_vmm = Some v →
  calibrates polls x2 t (switched_on x2 (nx_on nx (ldev (tlap t)))) P d →
  ∃ s' entry, ap_startup cpu s = Done (tt, s') ∧
    vcpus (sv (sm s')) = <[cpu := mk_cpu cpu 0 1 (thread k) kernel_vmm true]> (vcpus (sv (sm s))) ∧
    idtr (lidt (tlap (stimers (sm s')))) = mk_idtr 4095 idt_addr ∧
    (∀ j, (j < 32)%nat → ∃ g, idt (lidt (tlap (stimers (sm s')))) !! j = Some g ∧ gate_handler g = vector_handler_0 + Z.of_nat j * 16 ∧
       g_selector g = GDT_ENTRY_KERNEL_CODE ∧ gate_present g = true ∧ gate_dpl g = 0 ∧ gate_type g = 0xE) ∧
    (∃ g, idt (lidt (tlap (stimers (sm s')))) !! 255%nat = Some (gate_for vector_handler_0xFF GDT_ENTRY_KERNEL_CODE 0xE g)) ∧
    (period t = 0 → ∃ g, idt (lidt (tlap (stimers (sm s')))) !! 64%nat = Some (gate_for vector_handler_0x40 GDT_ENTRY_KERNEL_CODE 0xE g)) ∧
    field 0 8 entry = 0x40 ∧ field 16 1 entry = 0 ∧ field 17 2 entry = 0 ∧
    ldev (tlap (stimers (sm s'))) = armed x2 entry (Z.min (10 ^ 14 / P) (2 ^ 32 - 1)) d ∧ period (stimers (sm s')) = P ∧
    sm_running s' = w32 (sm_running s + 1) ∧ sm_lock s' = mk_lock 0 0 (lk_name (sm_lock s)) ∧
    squeue (sm s') = squeue (sm s) ∧ sthreads (sm s') = sthreads (sm s) ∧ tables (sv (sm s')) = tables (sv (sm s)).
Proof.
  intros t nx Hk Hc0 Hi0 HF Has H0 Hvh (r0 & r1 & r2 & edx & Hnx & Hok) Hlock Hkv Hv Hcal.
  unfold Startup.ap_startup. erewrite bind_done by (apply on_sm_cpus_run; by apply push_off_run).
  set (k1 := pushed cpu k). set (s1 := with_cpus _ s).
  assert (nest cpu 1 k1) as Hnest.
  { unfold k1, pushed. rewrite Hc0, Hi0. rewrite decide_False by lia. by split_and!; cbn; try lia. }
  erewrite bind_done by (apply (getf_done (λ s, hw_cpuid 0x80000001 (ldev (tlap (stimers (sm s)))))); exact Hnx). cbv beta iota. step.
  rewrite (bind_done _ _ _ _ _ (nx_branch_run s1 edx Hok)). set (s2 := with_lapics _ s1).
  destruct (enable_core_run s2 x2) as (lp & s3 & base & E2 & E3 & Hlp & Hdev & Htr & Hlen & Hgates & Hspur); [|done|done|].
  { apply (asleep_dev s); [done|done|]. cbn. unfold nx_on. case_match; [by apply cpuid_wrmsr; left|done]. }
  rewrite (bind_done _ _ _ _ _ E2), (bind_done _ _ _ _ _ E3). set (s4 := with_lapics lp (fresh s2)).
  assert (vcpus (sv (sm s4)) !! cpu = Some k1) as Hk1 by apply lookup_insert_eq.
  rewrite (bind_done _ _ _ _ _ (count_self_run s4 k1 1 Hk1 Hnest ltac:(lia) Hlock)). set (s5 := mk_smp _ _ _ _ _ _ _ _).
  assert (popped cpu k1 = mk_cpu cpu 0 1 (thread k) (vmm k) true) as Hpop by (unfold k1, popped, pushed; cbn; by rewrite Hc0).
  erewrite bind_done by (apply on_sm_cpus_run; apply pop_off_run; [exact Hk1|done]). rewrite Hpop. set (s6 := with_cpus _ s5).
  destruct (lookup_lt_is_Some_2 (idt (lidt lp)) 64) as [g64 Hg64]; [lia|].
  destruct (main_idle_run s6 (mk_cpu cpu 0 1 (thread k) (vmm k) true) x2 base v 0 P d g64)
    as (s' & E6 & [Jc (entry & F1 & F2 & F3 & Jt & Jp) Jr Js]); [apply lookup_insert_eq|done|done|done|done| |done|tauto|].
  { cbn. rewrite Hdev. by apply (calibrates_same _ _ t). }
  exists s', entry. destruct Jr as (-> & -> & _ & -> & _ & Ji), Js as (-> & -> & _). rewrite E6, Jc, Jt, Ji.
  cbn [idt idtr]. split_and!; try done.
  - cbn. by rewrite !insert_insert_eq.
  - intros j Hj. rewrite timer_gate_other by lia. by apply Hgates.
  - rewrite timer_gate_other by lia. exact Hspur.
  - intros Hz. exists g64. cbn. by apply timer_gate_set.
Qed.
End joining.

(** ** Examples *)

(** A controller that records what it sends; a message is pending for one
    poll. *)
Record recorder := mk_rec { rc_id : Z; rc_sent : list (Z * Z); rc_dest : Z; rc_busy : bool }.
#[export] Instance rec_dev : LapicDev recorder := {|
  hw_cpuid := λ l d, if decide (l = 1) then Some (0, rc_id d * 2 ^ 24, 0, 0x300)
    else if decide (l = 0x80000001) then Some (0, 0, 0, 0x4100000) else None;
  hw_rdmsr := λ _ _, 0;
  hw_wrmsr := λ r v d, if decide (r = 0x830) then mk_rec (rc_id d) (rc_sent d ++ [(v / 2 ^ 32, v mod 2 ^ 32)]) (rc_dest d) (rc_busy d) else d;
  hw_outb := λ _ _ d, d;
  hw_read := λ r d, if decide (r = 0x300) then ((if rc_busy d then 0x1000 else 0), mk_rec (rc_id d) (rc_sent d) (rc_dest d) false) else (0, d);
  hw_write := λ r v d,
    if decide (r = 0x300) then mk_rec (rc_id d) (rc_sent d ++ [(rc_dest d / 2 ^ 24, v)]) (rc_dest d) true
    else if decide (r = 0x310) then mk_rec (rc_id d) (rc_sent d) v (rc_busy d) else d;
|}.
#[export] Instance rec_laws : LapicLaws recorder.
Proof. split; intros; cbn; by repeat case_decide. Qed.
#[export, refine] Instance rec_ipis : IpiLaws recorder := {| ipis := rc_sent; icr_dest := rc_dest |}.
Proof. all: intros; cbn; try done. by case_decide. Defined.

Lemma rec_delivers (d : recorder) : ∃ k, (k < Z.to_nat 200001)%nat ∧
  (∀ i, (i < k)%nat → pending (Nat.iter i icr_poll d)) ∧ ¬ pending (Nat.iter k icr_poll d).
Proof.
  destruct (rc_busy d) eqn:Eb.
  - exists 1%nat. split; [lia|]. split.
    + intros i Hi. assert (i = 0%nat) as -> by lia. unfold pending, icr_low. cbn. by rewrite Eb.
    + unfold pending, icr_low. cbn. by intros [].
  - exists 0%nat. split; [lia|]. split; [lia|]. unfold pending, icr_low. cbn. rewrite Eb. by intros [].
Qed.

Lemma clock_advances n (c : clock) : 0 ≤ ck_now c → ck_now c + 7 * Z.of_nat n < 2 ^ 64 → advances n c.
Proof.
  intros H0 Hn i Hi.
  assert (∀ j, Nat.iter j tick c = mk_clock (ck_now c + 7 * Z.of_nat j) (ck_regs c)) as Hit.
  { induction j as [|j IH]; [destruct c; cbn; f_equal; lia|]. rewrite Nat.iter_succ, IH. unfold tick. cbn [hp_read clock_dev].
    rewrite decide_True by done. cbn [snd ck_now ck_regs]. f_equal. lia. }
  rewrite !Hit. unfold count. cbn [hp_read clock_dev].
  rewrite !decide_True by done. cbn [fst ck_now]. rewrite !w64_small by lia. lia.
Qed.

(** Processor 0 of three wakes the two others; the trampoline is at
    0xffffffff80105000 and the counter has a period of 10^8 fs. *)
Definition wake_mem : mem :=
  zeroed (bytes_at 0xffffffff80105000 [0xfa; 0xfc] ∅) (byte_range (0x8000 + PHYSICAL_OFFSET) 4096 ++ byte_range 0xffffffff80105002 4094).
Definition wake_cores : cores recorder clock (gmap Z Z) Z :=
  mk_cores (mk_timers (mk_lapics wake_mem 0 idts0 (replicate 32 false) (replicate 32 0xffff800000003000) (mk_rec 0 [] 0 false))
    0 0 4096 4112 3 ∅ {[0 := mk_cpu 0 1 0 0 0 false]} 0xffff800000004000 100000000 3 (mk_clock 0 ∅) 0)
    (mk_lock 0 0 (Some "Core Running"%string)) 0 0.

Lemma init_ap_wakes_cores_witness :
  ∃ s', init_ap 0 (Z.to_nat 200001) 0 0xffffffff80105000 wake_cores = Done (tt, s') ∧
    ipis (ldev (tlap (co_timers s'))) = wake_messages 1 ++ wake_messages 2 ∧
    (∀ j, 0 ≤ j < 4096 → lmem (tlap (co_timers s')) !! (0x8000 + PHYSICAL_OFFSET + j) = lmem (tlap (co_timers wake_cores)) !! (0xffffffff80105000 + j)) ∧
    core_running s' = w32 (core_running wake_cores + 1) ∧ t_cpus (co_timers s') = t_cpus (co_timers wake_cores) ∧
    core_running_lock s' = mk_lock 0 0 (Some "Core Running"%string) ∧
    2 * (100000 + 2 * 2000) + 200000 ≤ count (hpet (co_timers s')).
Proof.
  refine (init_ap_wakes_cores 0 (Z.to_nat 200001) 0 0xffffffff80105000 0 false 0xffff800000003000 100000000 _ rec_delivers _
    wake_cores (mk_cpu 0 1 0 0 0 false) 1 _ _ _ _ _ _ _ _ _).
  - done.
  - rewrite Z2Nat.id by done. done.
  - done.
  - done.
  - done.
  - done.
  - done.
  - split; [|done|done|].
    + split; try done. by exists 0, 0, 0, 0x300.
    + apply clock_advances; [done|]. by vm_compute.
  - apply has_check. by vm_compute.
  - apply has_check. by vm_compute.
  - done.
Defined.

(** Processor 1, just woken; the timer is not calibrated yet. *)
Definition ap_vs : vmm_state phys bump :=
  mk_vs {[0x500 := fresh_vmm 0x1000 0xFFFF800000000000 0xFFFFFE8000000000 0x600 false]} ∅ ∅ ∅ {[1 := mk_cpu 0 0 0 0 0 false]} ∅
    (mk_vm ∅ ex_phys true) (mk_bump 0x9000 ∅).
Definition ap_timers : timers recorder clock (gmap Z Z) Z :=
  mk_timers (mk_lapics ∅ 0xffff900000000000 idts0 (replicate 32 false) (replicate 32 0) (mk_rec 1 [] 0 false))
    0 0 4096 4112 2 ∅ ∅ 0xffff800000004000 100000000 3 (mk_clock 0 ∅) 0.
Definition ap_smp : smp bump recorder clock (gmap Z Z) Z (list Z) Z :=
  mk_smp (mk_machine ap_vs (no_heap ex_cfs) ∅ ∅ (mk_lst ∅ ∅) ∅ ∅ ∅ 1 1 ap_timers (mk_tsss ∅ 0 0 (mk_tssd 0 0 0 0 0 0 0 0 0) 0))
    true 0x1000 (mk_lock 0 0 (Some "Core Running"%string)) 1 0 kbd0 (mk_lock 0 0 (Some "QEMU serial"%string), (true, false)).

Abbreviation ap_startup1 := (ap_startup 0 (Z.to_nat 50001) 1 0x500 0x600 0 0 0 ex_area_mem ex_next_mem ex_uninit (λ _ _, []) (λ _, mk_thread 0 [] WAITING 0 zero_frame 0)
  (λ _, mk_sched_entity 0 0) (λ _, 0) (λ _, mk_proc 0 [] (mk_ta 0 0 0) 0 0) (λ _ _, mret 0) 0x7000 vector0 0x4000 0xff000 0 0 64).

Lemma ap_calibrates : ∃ d, calibrates (Z.to_nat 50001) false ap_timers (switched_on false (nx_on true (mk_rec 1 [] 0 false))) 1164 d.
Proof.
  eexists. change 1164 with (5 * 10 ^ 12 / (UINT32_MAX - count_left false (switched_on false (nx_on true (mk_rec 1 [] 0 false))))).
  apply period_measured; try done. apply clock_advances; [done|]. by vm_compute.
Qed.

Lemma ap_startup_joins_witness :
  ∃ s' entry d, ap_startup1 1 ap_smp = Done (tt, s') ∧
    vcpus (sv (sm s')) = <[1 := mk_cpu 1 0 1 0 0x500 true]> (vcpus (sv (sm ap_smp))) ∧
    idtr (lidt (tlap (stimers (sm s')))) = mk_idtr 4095 0x7000 ∧
    field 0 8 entry = 0x40 ∧ ldev (tlap (stimers (sm s'))) = armed false entry (Z.min (10 ^ 14 / 1164) (2 ^ 32 - 1)) d ∧
    period (stimers (sm s')) = 1164 ∧ sm_running s' = w32 (sm_running ap_smp + 1).
Proof.
  destruct ap_calibrates as [d Hd].
  destruct (ap_startup_joins 0 (Z.to_nat 50001) 1 0x500 0x600 0 0 0 ex_area_mem ex_next_mem ex_uninit (λ _ _, []) (λ _, mk_thread 0 [] WAITING 0 zero_frame 0)
    (λ _, mk_sched_entity 0 0) (λ _, 0) (λ _, mk_proc 0 [] (mk_ta 0 0 0) 0 0) (λ _ _, mret 0) 0x7000 vector0 0x4000 0xff000 0 0 64
    ap_smp (mk_cpu 0 0 0 0 0 false) false (fresh_vmm 0x1000 0xFFFF800000000000 0xFFFFFE8000000000 0x600 false) 1164 d)
    as (s' & entry & E1 & Hc & Ht & _ & _ & _ & F1 & _ & _ & Hl & Hp & Hr & _).
  - done.
  - done.
  - done.
  - done.
  - split; try done.
    + exists 0, 0x1000000, 0, 0x300. by split_and!.
    + cbn. lia.
    + intros pa. exists 0xffff900000000000, (zeroed ∅ (byte_range 0xffff900000000000 0x400), 0xffff900000000000 + 0x400).
      split; [|done]. cbn [src_map_mmio bump_source]. unfold bump_bytes. cbn [lmem lenv ap_timers ap_smp stimers sm tlap].
      rewrite decide_True; [done|]. apply Forall_forall. intros. apply lookup_empty.
  - done.
  - done.
  - by exists 0, 0, 0, 0x4100000.
  - done.
  - done.
  - done.
  - exact Hd.
  - exists s', entry, d. split_and!; assumption.
Defined.
