(* ===== verification/Boot.v ===== *)
(** * The kernel starts: a concrete machine

    [bsp_startup] from the call of the boot code to the idle loop, then the
    first interrupts, on one concrete machine: two processors, 1 MB of memory
    behind the kernel, an HPET, a framebuffer and a boot module [initd] of one
    segment.  Every operation of the kernel that runs on the way is the
    definition of its component; the heap is the bump allocator of
    Interfaces.v behind the allocator interface. *)
From S2P Require Import Prelude.
From S2P Require Import Interfaces.
From S2P Require Import Double.
From S2P Require Import Cpu.
From S2P Require Import RbTree.
From S2P Require Import RbInsert.
From S2P Require Import Cfs.
From S2P Require Import Spinlock.
From S2P Require Import Lst.
From S2P Require Import Layout.
From S2P Require Import PhysAlloc.
From S2P Require Import Vm.
From S2P Require Import Vmm.
From S2P Require Import VmmAlloc.
From S2P Require Import Libc.
From S2P Require Import Tty.
From S2P Require Import Printf.
From S2P Require Import Keyboard.
From S2P Require Import Log.
From S2P Require Import ThreadArray.
From S2P Require Import Bytes.
From S2P Require Import Multiboot.
From S2P Require Import Acpi.
From S2P Require Import Ioapic.
From S2P Require Import Elf.
From S2P Require Import Idt.
From S2P Require Import Lapic.
From S2P Require Import Timer.
From S2P Require Import Process.
From S2P Require Import Sched.
From S2P Require Import Kvm.
From S2P Require Import Dispatch.
From S2P Require Import Startup.

(** The 8-bit sum of a table is zero with this byte added. *)
Definition checksum (l : list Z) : Z := (- total l) mod 256.

(** ACPI: the root pointer, the root table, the processors and the HPET. *)
Definition boot_rsdp : list Z :=
  let l := [82; 83; 68; 32; 80; 84; 82; 32; 0] ++ replicate 7 0 ++ le_bytes 4 0x71000 in <[8%nat := checksum l]> l.
Definition boot_rsdt : list Z := [82; 83; 68; 84] ++ le_bytes 4 44 ++ replicate 28 0 ++ le_bytes 4 0x72000 ++ le_bytes 4 0x73000.
Definition boot_madt : list Z :=
  let ics := [(0, [0; 0; 1; 0; 0; 0]); (0, [1; 1; 1; 0; 0; 0]); (1, [0; 0; 0; 0; 192; 254; 0; 0; 0; 0])] ≫= ic_bytes in
  [65; 80; 73; 67] ++ le_bytes 4 (44 + Z.of_nat (length ics)) ++ replicate 36 0 ++ ics.
Definition boot_hpet : list Z :=
  let l := [72; 80; 69; 84] ++ le_bytes 4 56 ++ replicate 36 0 ++ le_bytes 8 0xfed00000 ++ replicate 4 0 in <[9%nat := checksum l]> l.

Definition start_mmap : list mmap_entry := [mk_mmap 0 0x9fc00 1; mk_mmap 0x100000 0x140000 1; mk_mmap 0x240000 0x400000 2].

(** The program: one segment of four bytes for 0x400000, readable and
    executable. *)
Definition initd_code : list Z := [0x0f; 0x05; 0xeb; 0xfe].
Definition initd_image : list Z :=
  ehdr_bytes (mk_ehdr (replicate 16 0) 2 62 1 0x400000 64 0 0 64 56 1 64 0 0) ++
  phdr_bytes (mk_phdr PT_LOAD 5 120 0x400000 0 4 4096 4096) ++ initd_code.

(** The boot information at 0x10000: memory map, framebuffer, root pointer. *)
Definition boot_tags : list tag :=
  [(6, le_bytes 4 24 ++ le_bytes 4 0 ++ (start_mmap ≫= mmap_bytes));
   (3, le_bytes 4 0x80000 ++ le_bytes 4 0x81000 ++ initd_text ++ [0]);
   (8, le_bytes 8 0xfd000000 ++ le_bytes 4 36 ++ le_bytes 4 9 ++ le_bytes 4 8 ++ [32; 1; 0]);
   (14, boot_rsdp)].
Definition boot_bytes (base : Z) (m : mem) : mem := put_tags (base + 8) boot_tags m.
Definition start_mem : mem :=
  boot_bytes 0x10000 (boot_bytes (0x10000 + PHYSICAL_OFFSET)
    (bytes_at (PHYSICAL_OFFSET + 0x71000) boot_rsdt (bytes_at (PHYSICAL_OFFSET + 0x72000) boot_madt (bytes_at (PHYSICAL_OFFSET + 0x73000) boot_hpet
      (bytes_at 64 [65; 80; 73; 67] (bytes_at 80 [72; 80; 69; 84] (bytes_at 96 (initd_text ++ [0])
        (zeroed ∅ (byte_range (0x8000 + PHYSICAL_OFFSET) 4096 ++ byte_range 0xffffffff80105000 4096))))))))).

(** The word of the identity mapping is at 0x6000. *)
Definition start_alias (a : Z) : Z := if decide (a = pd_va 0 0) then 0x6000 else boot_alias a.
Definition start_timers : timers recorder clock (gmap Z Z) Z :=
  mk_timers (mk_lapics start_mem 0xffff900000000000 idts0 (replicate 32 false) (replicate 32 0) (mk_rec 0 [] 0 false))
    0 0 0 0 0 ∅ ∅ 0 0 0 (mk_clock 0 {[0 := 100000000 * 2 ^ 32 + 2 * 2 ^ 8]}) 10000000.
(** The tables of the boot code, and the free page that becomes the root table
    of the first process. *)
Definition start_words : gmap Z Z :=
  boot_words ∪ zero_words 0x6000 ∪ zero_words (PHYSICAL_OFFSET + 0x203000).
Definition no_threads : cfs_t unit := mk_cfs (mk_rb_state 0 0 ∅ ∅ tt) 0 ∅.
Definition start_phys : phys :=
  mk_phys 0 ∅ 0 (mk_lst ∅ ∅) ({[0 := mk_cpu 0 0 0 0 0 false]}, mk_lock 0 0 (Some "Physical Allocator"%string)).
Definition start_vs : vmm_state phys bump :=
  mk_vs ∅ ∅ ∅ {[0x600 := mk_lock 0 0 None; 0x608 := mk_lock 0 0 None; 0x610 := mk_lock 0 0 None]} {[0 := mk_cpu 0 0 0 0 0 false]} ∅ (mk_vm start_words start_phys false) (mk_bump 0x9000 ∅).
Definition start_smp : smp bump recorder clock (gmap Z Z) Z (list Z) Z :=
  mk_smp (mk_machine start_vs no_threads ∅ ∅ (mk_lst {[0x700 := 0x700]} {[0x700 := 0x700]}) ∅
    (bytes_at (PHYSICAL_OFFSET + 0x80000) initd_image (bytes_at 90 [0] (bytes_at 96 (initd_text ++ [0]) ∅))) ∅ 1 1 start_timers (mk_tsss ∅ 0xffffa00000000000 0 (mk_tssd 0 0 0 0 0 0 0 0 0) 0))
    false 0 (mk_lock 0 0 (Some "Core Running"%string)) 0 0 (mk_kbd 0 0 [0xAE; 0xFA; 0; 0x40] Tty.boot0)
    (mk_lock 0 0 (Some "QEMU serial"%string), (true, false)).

Definition start_run : res (unit * smp bump recorder clock (gmap Z Z) Z (list Z) Z) :=
  bsp_startup 0 (Z.to_nat 40000) 0 0x500 0x600 0x608 0x610 0x700 ex_area_mem ex_next_mem ex_uninit (λ _ n, replicate n 0) (λ _, mk_thread 0 [] WAITING 0 zero_frame 0)
    (λ _, mk_sched_entity 0 0) (λ _, 0) (λ _, mk_proc 0 [] (mk_ta 0 0 0) 0 0) (λ _ _, mret 0) (λ a _, put (mk_bump a ∅))
    0x7000 vector0 0xffffffff80102000 0xffffffff80103000 0xffffffff80104000 [0xff000; 0xff010; 0xff020]
    0xffffffff80105000 96 90 64 80 0x4000 0x5000 0x5000 0x1fffff 64 start_alias font0 1000
    0x8000 0x8008 0x8010 0x8018 0x9000 0xa000 MULTIBOOT_BOOTLOADER_MAGIC 0x10000 0 start_smp.



Abbreviation start_state := (smp bump recorder clock (gmap Z Z) Z (list Z) Z).
Abbreviation krn := (kernel (machine phys bump recorder clock (gmap Z Z) Z) (kbd (list Z) Z)).
#[local] Instance start_pages : PageAllocator phys := boot_pages 0 0 64.

(** ** Interrupts after the start *)

Definition interrupt (f : int_frame_t) (k : krn) : res (int_frame_t * krn) :=
  interrupt_dispatch 0x500 0x900 0xffffffff80103000 ex_uninit (Z.to_nat 40000) 0 font0 3010 3020 3000 f k.

(** The frame the stubs push for a vector, an error code and a faulting
    address, in a program that was at frame [f]. *)
Definition trap (v e va : Z) (f : int_frame_t) : int_frame_t :=
  let r := f_registers f in
  mk_frame (mk_regs va (r_r15 r) (r_r14 r) (r_r13 r) (r_r12 r) (r_r11 r) (r_r10 r) (r_r9 r) (r_r8 r) (r_rdi r) (r_rsi r)
    (r_rbp r) (r_rsp r) (r_rbx r) (r_rdx r) (r_rcx r) (r_rax r) (r_xmm r)) v e (iret_rip f) (iret_cs f) (iret_flags f) (iret_rsp f) (iret_ss f).
(** The idle loop of the kernel. *)
Definition idle_frame : int_frame_t := mk_frame zero_regs 0 0 0xffffffff80100000 0x8 0x202 0x7000 0x10.

(** The byte a user address shows. *)
Definition user_byte (k : krn) (va : Z) : option Z :=
  match translate 0x500 0 va (ksys k) with Done (Some pa, _) => sframes (ksys k) !! pa | _ => None end.
Definition shown (k : krn) (va : Z) : bool :=
  match translate 0x500 0 va (ksys k) with Done (Some _, _) => true | _ => false end.
Definition user_bytes (k : krn) (va : Z) (n : nat) : list (option Z) := (λ i, user_byte k (va + Z.of_nat i)) <$> seq 0 n.

(** ** From the boot loader to the first program *)

(** The stages, each with what holds after it. *)
Definition started (s : start_state) : Prop :=
  ipis (ldev (tlap (stimers (sm s)))) = wake_messages 1 ∧ sm_running s = 1 ∧ held (sm_lock s) = 0 ∧
  (push_off_count <$> vcpus (sv (sm s)) !! 0) = Some 0 ∧ (cpu_IF <$> vcpus (sv (sm s)) !! 0) = Some true ∧
  (vmm <$> vcpus (sv (sm s)) !! 0) = Some 0x500 ∧ next_free_pid (sm s) = 2 ∧ running (squeue (sm s)) = 1.
Definition in_initd (f : int_frame_t) (k : krn) : Prop :=
  iret_rip f = 0x400000 ∧ iret_cs f = 0x1B ∧ iret_ss f = 0x23 ∧ Z.testbit (iret_flags f) 9 = true ∧
  user_bytes k 0x400000 (length initd_code) = Some <$> initd_code ∧ running (squeue (ksys k)) = 0 ∧
  shown k (iret_rsp f - 8) = false.
Definition stack_there (f f' : int_frame_t) (k : krn) : Prop :=
  iret_rip f' = iret_rip f ∧ iret_rsp f' = iret_rsp f ∧ shown k (iret_rsp f - 8) = true ∧
  user_bytes k 0x400000 (length initd_code) = Some <$> initd_code.
Definition goes_on (f f' : int_frame_t) : Prop :=
  iret_rip f' = iret_rip f ∧ iret_cs f' = iret_cs f ∧ iret_rsp f' = iret_rsp f ∧ iret_ss f' = iret_ss f ∧ iret_flags f' = iret_flags f.
#[local] Instance started_dec s : Decision (started s).
Proof. unfold started. apply _. Defined.
#[local] Instance in_initd_dec f k : Decision (in_initd f k).
Proof. unfold in_initd. apply _. Defined.
#[local] Instance stack_there_dec f f' k : Decision (stack_there f f' k).
Proof. unfold stack_there. apply _. Defined.
#[local] Instance goes_on_dec f f' : Decision (goes_on f f').
Proof. unfold goes_on. apply _. Defined.

Abbreviation timer_tick f := (trap APIC_TIMER_INTERRUPT 0 0 f).
Abbreviation first_push f := (trap PAGE_FAULT 6 (iret_rsp f - 8) f).
Definition boots (r : res (unit * start_state)) : bool :=
  then_test r (λ _ s, bool_decide (started s) &&
  then_test (interrupt (timer_tick idle_frame) (mk_kernel (sm s) (sm_con s))) (λ f1 k1, bool_decide (in_initd f1 k1) &&
  then_test (interrupt (first_push f1) k1) (λ f2 k2, bool_decide (stack_there f1 f2 k2) &&
  then_test (interrupt (timer_tick f2) k2) (λ f3 _, bool_decide (goes_on f2 f3))))).

Lemma boots_spec r :
  boots r = true →
  ∃ s f1 k1 f2 k2 f3 k3, r = Done (tt, s) ∧ started s ∧
    interrupt (timer_tick idle_frame) (mk_kernel (sm s) (sm_con s)) = Done (f1, k1) ∧ in_initd f1 k1 ∧
    interrupt (first_push f1) k1 = Done (f2, k2) ∧ stack_there f1 f2 k2 ∧
    interrupt (timer_tick f2) k2 = Done (f3, k3) ∧ goes_on f2 f3.
Proof.
  intros ([] & s & -> & (H1%bool_decide_eq_true & (f1 & k1 & E1 & (H2%bool_decide_eq_true & (f2 & k2 & E2 &
    (H3%bool_decide_eq_true & (f3 & k3 & E3 & H4%bool_decide_eq_true)%then_test_done)%andb_prop)%then_test_done)%andb_prop)%then_test_done)%andb_prop)%then_test_done.
  by exists s, f1, k1, f2, k2, f3, k3.
Qed.

Lemma start_boots : boots start_run = true.
Proof. vm_compute. reflexivity. Qed.

(** The kernel comes up and starts its first program.  On the concrete
    machine [bsp_startup] reaches the idle loop: processor 1 has been sent the
    INIT and START UP messages, interrupts are on and balanced, the address
    space is the one of the kernel, and one thread waits.  The first timer
    interrupt leaves for the entry point of initd in user mode with interrupts
    on, where the bytes of the program are; its first push on a stack that is
    not mapped is served by the page-fault handler, and the next timer
    interrupt, with no other thread, goes on with the program where it was. *)
Lemma kernel_boots_initd :
  ∃ s f1 k1 f2 k2 f3 k3, start_run = Done (tt, s) ∧ started s ∧
    interrupt (timer_tick idle_frame) (mk_kernel (sm s) (sm_con s)) = Done (f1, k1) ∧ in_initd f1 k1 ∧
    interrupt (first_push f1) k1 = Done (f2, k2) ∧ stack_there f1 f2 k2 ∧
    interrupt (timer_tick f2) k2 = Done (f3, k3) ∧ goes_on f2 f3.
Proof. apply boots_spec, start_boots. Qed.
