(* ===== verification/I386.v ===== *)
(** * The port to 32 bits (kernel/arch/i386)

    The interrupt code of the i386 port: gates of eight bytes, one local
    controller, the I/O controller at its physical address, and [pre_main].
    Operations that the x86-64 kernel has under the same name carry the
    suffix 32.  The port is older than the shared code: [pre_main] calls
    [load_multiboot_info] with two arguments and acpi.c needs the 64-bit
    [PHYSICAL_OFFSET], so that these two are arguments of the model.  [i386]
    holds the variables of the port, the memory with the firmware's tables,
    the hardware behind the interfaces of [Lapic] and [Ioapic], the console
    and the interrupt flag. *)
From S2P Require Import Prelude.
From S2P Require Import Layout.
From S2P Require Import Libc.
From S2P Require Import Tty.
From S2P Require Import Printf.
From S2P Require Import Keyboard.
From S2P Require Import Bytes.
From S2P Require Import Multiboot.
From S2P Require Import Acpi.
From S2P Require Import Ioapic.
From S2P Require Import Idt.
From S2P Require Import Lapic.
From S2P Require Import Startup.

(** [struct interrupt_descriptor]. *)
Record interrupt_descriptor32 := mk_gate32 {
  h_addr_low : Z; h_selector : Z; h_reserved : Z; h_flags : Z; h_addr_high : Z;
}.

Record i386 (V U Q F : Type) := mk_i386 {
  x_idt : list interrupt_descriptor32; x_idtr : IDTR;
  x_xapic2 : bool; x_lapic_base : Z; x_ldev : V;
  io_apic_base_addr : Z; x_idev : U;
  x_mem : mem; x_con : kbd Q F; x_IF : bool;
}.
Arguments mk_i386 {V U Q F}.
Arguments x_idt {V U Q F}.
Arguments x_idtr {V U Q F}.
Arguments x_xapic2 {V U Q F}.
Arguments x_lapic_base {V U Q F}.
Arguments x_ldev {V U Q F}.
Arguments io_apic_base_addr {V U Q F}.
Arguments x_idev {V U Q F}.
Arguments x_mem {V U Q F}.
Arguments x_con {V U Q F}.
Arguments x_IF {V U Q F}.

(** [struct interrupt_frame] and [struct registers_t]. *)
Record registers32 := mk_regs32 {
  r_edi : Z; r_esi : Z; r_ebp : Z; r_esp : Z; r_ebx : Z; r_edx : Z; r_ecpx : Z; r_eax : Z;
}.
Record interrupt_frame32 := mk_frame32 { f_regs32 : registers32; vector_number32 : Z; error_code32 : Z }.

Definition LAPIC_REGISTER_EOI : Z := 0xB0.
Definition LAPIC_REGISTER_SPURIOUS_VECTOR : Z := 0xF0.
Definition IRQ_VECTOR_KEYBOARD32 : Z := 0x21.
(** The offset of [interrupt_controllers] in [struct madt]. *)
Definition madt_controllers32 : Z := 44.

Section port.
Context {V U Q F : Type} `{!LapicDev V, !IoApicDev U, !Ports Q}.
Abbreviation X := (M (i386 V U Q F)).
Implicit Type s : i386 V U Q F.

Definition with_gates (l : list interrupt_descriptor32) s : i386 V U Q F :=
  mk_i386 l (x_idtr s) (x_xapic2 s) (x_lapic_base s) (x_ldev s) (io_apic_base_addr s) (x_idev s) (x_mem s) (x_con s) (x_IF s).
Definition with_idtr (r : IDTR) s : i386 V U Q F :=
  mk_i386 (x_idt s) r (x_xapic2 s) (x_lapic_base s) (x_ldev s) (io_apic_base_addr s) (x_idev s) (x_mem s) (x_con s) (x_IF s).
Definition with_lapic (x2 : bool) (base : Z) (d : V) s : i386 V U Q F :=
  mk_i386 (x_idt s) (x_idtr s) x2 base d (io_apic_base_addr s) (x_idev s) (x_mem s) (x_con s) (x_IF s).
Definition with_io (base : Z) (d : U) s : i386 V U Q F :=
  mk_i386 (x_idt s) (x_idtr s) (x_xapic2 s) (x_lapic_base s) (x_ldev s) base d (x_mem s) (x_con s) (x_IF s).
Definition with_con (c : kbd Q F) s : i386 V U Q F :=
  mk_i386 (x_idt s) (x_idtr s) (x_xapic2 s) (x_lapic_base s) (x_ldev s) (io_apic_base_addr s) (x_idev s) (x_mem s) c (x_IF s).
Definition sti32 : X unit :=
  modify (λ s, mk_i386 (x_idt s) (x_idtr s) (x_xapic2 s) (x_lapic_base s) (x_ldev s) (io_apic_base_addr s) (x_idev s) (x_mem s) (x_con s) true).
Definition on_con32 {A} : M (kbd Q F) A → X A := zoom x_con with_con.
(** The tables of the firmware are only read. *)
Definition on_mem32 {A} (f : MEM A) : X A :=
  zoom x_mem (λ m s, mk_i386 (x_idt s) (x_idtr s) (x_xapic2 s) (x_lapic_base s) (x_ldev s) (io_apic_base_addr s) (x_idev s) m (x_con s) (x_IF s)) f.

(** ** interrupt.c *)

Definition set_idt_entry32 (vector handler_addr selector flags : Z) : X unit :=
  modifyf (λ s,
    match x_idt s !! Z.to_nat vector with
    | None => None
    | Some g =>
        Some (with_gates (<[Z.to_nat vector := mk_gate32 (w16 (Z.land handler_addr 0xFFFF)) selector (h_reserved g)
          (w8 (Z.lor flags 0x80)) (w16 (Z.land (Z.shiftr handler_addr 16) 0xFFFF))]> (x_idt s)) s)
    end).

Fixpoint reserved_loop32 (n : nat) (vector_handler_0 i : Z) : X unit :=
  match n with
  | O => mret tt
  | S n =>
      set_idt_entry32 i (w32 (vector_handler_0 + i * 16)) GDT_ENTRY_KERNEL_CODE (Z.lor (FLAGS_DPL 0) (FLAGS_GATE_TYPE 0xE));;
      reserved_loop32 n vector_handler_0 (i + 1)
  end.

Definition load_idt32 (idt_addr vector_handler_0 : Z) : X unit :=
  reserved_loop32 32 vector_handler_0 0;;
  modify (with_idtr (mk_idtr 0x7FF idt_addr)).

(** ** apic.c *)

Definition set_xdev (d : V) s : i386 V U Q F := with_lapic (x_xapic2 s) (x_lapic_base s) d s.
Definition outb32 (port v : Z) : X unit := modify (λ s, set_xdev (hw_outb port v (x_ldev s)) s).
Definition iowait32 : X unit := outb32 0x80 0.
Definition rdmsr32 (msr : Z) : X Z := gets (λ s, hw_rdmsr msr (x_ldev s)).
Definition wrmsr32 (msr v : Z) : X unit := modify (λ s, set_xdev (hw_wrmsr msr v (x_ldev s)) s).

Definition disable_pic32 : X unit :=
  outb32 PIC_COMMAND_MASTER ICW_1;;
  outb32 PIC_COMMAND_SLAVE ICW_1;;
  iowait32;;
  outb32 PIC_DATA_MASTER ICW_2_M;;
  outb32 PIC_DATA_SLAVE ICW_2_S;;
  iowait32;;
  outb32 PIC_DATA_MASTER ICW_3_M;;
  outb32 PIC_DATA_SLAVE ICW_3_S;;
  iowait32;;
  outb32 PIC_DATA_MASTER ICW_4_8086;;
  outb32 PIC_DATA_SLAVE ICW_4_8086;;
  iowait32;;
  outb32 PIC_DATA_MASTER 0xFF;;
  outb32 PIC_DATA_SLAVE 0xFF.

Definition check_lapic_availability32 : X bool :=
  r ← getf (λ s, hw_cpuid 1 (x_ldev s));
  let '(_, _, ecx, edx) := r in
  let has_lapic := bool_decide (Z.land edx 0x100 ≠ 0) in
  modify (λ s, with_lapic (bool_decide (Z.land ecx (Z.shiftl 1 21) ≠ 0)) (x_lapic_base s) (x_ldev s) s);;
  mret has_lapic.

(** A register at its address; before [enable_lapic] the base is 0. *)
Definition read_lapic_register32 (reg : Z) : X Z :=
  s ← get;
  if x_xapic2 s then v ← rdmsr32 (w32 (0x800 + Z.shiftr reg 4)); mret (w32 v)
  else if decide (x_lapic_base s = 0) then fault else
  let '(v, d) := hw_read reg (x_ldev s) in
  modify (set_xdev d);; mret (w32 v).

Definition write_lapic_register32 (reg value : Z) : X unit :=
  s ← get;
  if x_xapic2 s then wrmsr32 (w32 (0x800 + Z.shiftr reg 4)) value
  else if decide (x_lapic_base s = 0) then fault else
  modify (set_xdev (hw_write reg value (x_ldev s))).

Definition send_eoi32 : X unit := write_lapic_register32 LAPIC_REGISTER_EOI 0.

Definition enable_lapic32 (vector_handler_0xFF : Z) : X Z :=
  ok ← check_lapic_availability32;
  if negb ok then mret 1 else
  disable_pic32;;
  apic_base ← rdmsr32 IA32_APIC_BASE;
  let apic_base := Z.lor apic_base 0x800 in
  x2 ← gets x_xapic2;
  let apic_base := if (x2 : bool) then Z.lor apic_base (Z.shiftl 1 10) else apic_base in
  wrmsr32 IA32_APIC_BASE apic_base;;
  modify (λ s, with_lapic (x_xapic2 s) (w32 (Z.land apic_base 0xFFFFF000)) (x_ldev s) s);;
  write_lapic_register32 LAPIC_REGISTER_SPURIOUS_VECTOR (Z.lor 0xFF 0x100);;
  set_idt_entry32 0xFF vector_handler_0xFF GDT_ENTRY_KERNEL_CODE (Z.lor (FLAGS_DPL 0) (FLAGS_GATE_TYPE 0xE));;
  mret 0.

(** ** ioapic.c *)

Definition read_ioapic_register32 (reg : Z) : X Z :=
  s ← get;
  if decide (io_apic_base_addr s = 0) then fault else mret (dev_read reg (x_idev s)).

Definition write_ioapic_register32 (reg value : Z) : X unit :=
  s ← get;
  if decide (io_apic_base_addr s = 0) then mret tt else
  modify (λ s, with_io (io_apic_base_addr s) (dev_write reg value (x_idev s)) s).

Definition write_ioapic_redirect32 (index entry : Z) : X unit :=
  if decide (index < 0x10 ∨ 0x3F < index) then mret tt else
  if decide (index mod 2 ≠ 0) then mret tt else
  let low := w32 (Z.land entry 0xFFFFFFFF) in
  let high := w32 (Z.shiftr entry 32) in
  write_ioapic_register32 index low;;
  write_ioapic_register32 (w8 (index + 1)) high.

Definition set_irq32 (irq idt_entry flags : Z) (masked : bool) : X unit :=
  let raw := Z.lor flags (Z.land idt_entry 0xFF) in
  let raw := set_field 16 1 (if masked then 1 else 0) raw in
  write_ioapic_redirect32 (w8 (0x10 + irq * 2)) raw.

(** The loop of [read_madt] over the entries, with 32-bit pointers; an entry
    of length 0 would keep it for ever. *)
Fixpoint madt_loop32 (fuel : nat) (madt header : Z) : X unit :=
  len ← on_mem32 (ld32 (madt + sdt_length));
  if decide (w32 (header - madt) < len) then
    match fuel with
    | O => out_of_fuel
    | S fuel =>
        type ← on_mem32 (ldb header);
        (if decide (type = IC_TYPE_IO_APIC) then
           s ← get;
           if decide (io_apic_base_addr s = 0) then
             address ← on_mem32 (ld32 (header + 4));
             modify (λ s, with_io address (x_idev s) s)
           else mret tt
         else mret tt);;
        n ← on_mem32 (ldb (header + 1));
        madt_loop32 fuel madt (w32 (header + n))
    end
  else mret tt.

(** The call of [find_table] with the signature of the table. *)
Context (find_apic_table : MEM Z).
Definition read_madt32 : X Z :=
  madt ← on_mem32 find_apic_table;
  if decide (madt = 0) then mret 1 else
  s ← get;
  madt_loop32 (size (x_mem s)) madt (madt + madt_controllers32);;
  mret 0.

(** ** interrupt_handler.c *)

Context (font : pc_font) (c_slot buf_slot fmt_c : Z).
Definition interrupt_dispatch32 (context : interrupt_frame32) : X interrupt_frame32 :=
  (if decide (vector_number32 context = IRQ_VECTOR_KEYBOARD32) then on_con32 (keystroke_handler font c_slot buf_slot fmt_c) else mret tt);;
  send_eoi32;;
  mret context.

(** ** pre_main.c *)

(** [load_multiboot_info], as this port calls it, and the addresses of the
    table and of the stubs. *)
Context (load_multiboot_info32 : Z → Z → X unit) (idt_addr vector_handler_0 vector_handler_0x21 vector_handler_0xFF : Z).
Definition pre_main (magic addr : Z) : X unit :=
  load_multiboot_info32 magic addr;;
  load_idt32 idt_addr vector_handler_0;;
  enable_lapic32 vector_handler_0xFF;;
  read_madt32;;
  on_con32 init_keyboard;;
  set_idt_entry32 IRQ_VECTOR_KEYBOARD32 vector_handler_0x21 GDT_ENTRY_KERNEL_CODE (Z.lor (FLAGS_DPL 0) (FLAGS_GATE_TYPE 0xE));;
  set_irq32 IRQ_KEYBOARD IRQ_VECTOR_KEYBOARD32 0 false;;
  sti32.
End port.

(** ** What the processor reads *)

Definition gate_handler32 (g : interrupt_descriptor32) : Z := h_addr_low g + 2 ^ 16 * h_addr_high g.
Definition gate_for32 (handler : Z) (old : interrupt_descriptor32) : interrupt_descriptor32 :=
  mk_gate32 (w16 (Z.land handler 0xFFFF)) GDT_ENTRY_KERNEL_CODE (h_reserved old) 0x8E (w16 (Z.land (Z.shiftr handler 16) 0xFFFF)).

Lemma gate_for32_handler h g : 0 ≤ h < 2 ^ 32 → gate_handler32 (gate_for32 h g) = h.
Proof.
  intros Hh. unfold gate_handler32, gate_for32. cbn. change 0xFFFF with (Z.ones 16).
  unfold w16. rewrite !Z.land_ones, !Z.mod_mod, !Z.shiftr_div_pow2 by lia. lia_div.
Qed.

Section port_runs.
Context {V U Q F : Type} `{!LapicDev V, !IoApicDev U, !Ports Q}.
Implicit Type s : i386 V U Q F.

(** An interrupt gate of the kernel. *)
Lemma set_gate32_run s v h g :
  x_idt s !! Z.to_nat v = Some g →
  set_idt_entry32 v h GDT_ENTRY_KERNEL_CODE (Z.lor (FLAGS_DPL 0) (FLAGS_GATE_TYPE 0xE)) s
    = Done (tt, with_gates (<[Z.to_nat v := gate_for32 h g]> (x_idt s)) s).
Proof. intros Hg. apply modifyf_done. by rewrite Hg. Qed.

Lemma reserved_loop32_run n s vh i :
  (i + n ≤ length (x_idt s))%nat →
  ∃ l, reserved_loop32 n vh (Z.of_nat i) s = Done (tt, with_gates l s) ∧ length l = length (x_idt s) ∧
    ∀ j, l !! j = if decide (i ≤ j < i + n)%nat then gate_for32 (w32 (vh + Z.of_nat j * 16)) <$> x_idt s !! j else x_idt s !! j.
Proof.
  revert s i. induction n as [|n IH]; intros s i Hn; cbn [reserved_loop32].
  { exists (x_idt s). split; [by destruct s|]. split; [done|]. intros j. by rewrite decide_False by lia. }
  destruct (lookup_lt_is_Some_2 (x_idt s) i) as [g Hg]; [lia|].
  erewrite bind_done by (apply set_gate32_run; by rewrite Nat2Z.id). rewrite Nat2Z.id.
  replace (Z.of_nat i + 1) with (Z.of_nat (S i)) by lia.
  set (s1 := with_gates _ _). destruct (IH s1 (S i)) as (l & E & Hl & Hj); [cbn; rewrite length_insert; lia|].
  exists l. split; [done|]. cbn in Hl. rewrite length_insert in Hl. split; [done|]. intros j. rewrite Hj. cbn [x_idt s1 with_gates].
  destruct (decide (j = i)) as [->|Hne].
  - rewrite decide_False, decide_True by lia. by rewrite list_lookup_insert_eq, Hg by lia.
  - rewrite list_lookup_insert_ne by done. destruct (decide (i ≤ j < i + S n)%nat); [rewrite decide_True by lia; done|].
    by rewrite decide_False by lia.
Qed.

(** The 32 exceptions lead to their stubs; the limit covers 256 gates of eight
    bytes. *)
Lemma load_idt32_run s idt_addr vh :
  (32 ≤ length (x_idt s))%nat → 0 ≤ vh → vh + 32 * 16 ≤ 2 ^ 32 →
  ∃ l, load_idt32 idt_addr vh s = Done (tt, with_idtr (mk_idtr (256 * 8 - 1) idt_addr) (with_gates l s)) ∧ length l = length (x_idt s) ∧
    (∀ j, (j < 32)%nat → ∃ g, l !! j = Some g ∧ gate_handler32 g = vh + Z.of_nat j * 16 ∧ h_flags g = 0x8E) ∧
    (∀ j, (32 ≤ j)%nat → l !! j = x_idt s !! j).
Proof.
  intros Hlen H0 Hvh. destruct (reserved_loop32_run 32 s vh 0) as (l & E & Hl & Hj); [lia|].
  exists l. unfold load_idt32. change (Z.of_nat 0) with 0 in E. rewrite (bind_done _ _ _ _ _ E). split; [done|]. split; [lia|]. split.
  - intros j Hlt. destruct (lookup_lt_is_Some_2 (x_idt s) j) as [g Hg]; [lia|].
    exists (gate_for32 (w32 (vh + Z.of_nat j * 16)) g). rewrite Hj, decide_True, Hg by lia. split; [done|].
    split; [|done]. rewrite gate_for32_handler by apply w32_range. apply w32_small. lia.
  - intros j Hge. by rewrite Hj, decide_False by lia.
Qed.

Lemma disable_pic32_run s : disable_pic32 s = Done (tt, set_xdev (outbs pic_writes (x_ldev s)) s).
Proof. unfold disable_pic32, iowait32, outb32. by repeat step. Qed.

Lemma write_lapic_register32_run s reg v :
  (x_xapic2 s = false → x_lapic_base s ≠ 0) →
  write_lapic_register32 reg v s = Done (tt, set_xdev (reg_write (x_xapic2 s) reg v (x_ldev s)) s).
Proof.
  intros Hb. unfold write_lapic_register32, reg_write. step. destruct (x_xapic2 s) eqn:Ex.
  - reflexivity.
  - by rewrite decide_False by (by apply Hb).
Qed.

(** The controller is switched on, in the mode the processor supports, with
    its spurious vector; its base is where the processor says. *)
Lemma enable_lapic32_run s vh eax ebx ecx edx g :
  hw_cpuid 1 (x_ldev s) = Some (eax, ebx, ecx, edx) → Z.land edx 0x100 ≠ 0 → x_idt s !! 255%nat = Some g →
  let x2 := bool_decide (Z.land ecx (Z.shiftl 1 21) ≠ 0) in
  let d := outbs pic_writes (x_ldev s) in
  let b := Z.lor (hw_rdmsr IA32_APIC_BASE d) 0x800 in
  let b := if x2 then Z.lor b (Z.shiftl 1 10) else b in
  (x2 = false → w32 (Z.land b 0xFFFFF000) ≠ 0) →
  enable_lapic32 vh s = Done (0, with_gates (<[255%nat := gate_for32 vh g]> (x_idt s))
    (with_lapic x2 (w32 (Z.land b 0xFFFFF000)) (reg_write x2 LAPIC_REGISTER_SPURIOUS_VECTOR 0x1FF (hw_wrmsr IA32_APIC_BASE b d)) s)).
Proof.
  intros Hcpu Hedx Hg x2 d b0 b Hb. unfold enable_lapic32, check_lapic_availability32.
  rewrite bind_assoc, (bind_done _ _ _ _ _ (getf_done (λ s, hw_cpuid 1 (x_ldev s)) s _ Hcpu)).
  rewrite (bool_decide_eq_true_2 (Z.land edx 0x100 ≠ 0)) by done. fold x2. step. step. step. cbn [negb].
  erewrite bind_done by apply disable_pic32_run. unfold rdmsr32, wrmsr32. do 4 step.
  cbn [x_ldev x_xapic2 x_lapic_base set_xdev with_lapic]. fold d. fold b0. cbv zeta. fold b.
  erewrite bind_done by (apply write_lapic_register32_run; exact Hb).
  erewrite bind_done by (apply set_gate32_run; exact Hg). done.
Qed.

(** ** The I/O controller *)

Lemma write_register32_run s r v :
  io_apic_base_addr s ≠ 0 → write_ioapic_register32 r v s = Done (tt, with_io (io_apic_base_addr s) (dev_write r v (x_idev s)) s).
Proof. intros Hb. unfold write_ioapic_register32. step. by rewrite decide_False. Qed.

Definition irq_entry32 (v flags : Z) (masked : bool) : Z := set_field 16 1 (if masked then 1 else 0) (Z.lor flags (Z.land v 0xFF)).

Lemma irq_entry32_range v flags masked : 0 ≤ flags < 2 ^ 32 → 0 ≤ irq_entry32 v flags masked < 2 ^ 32.
Proof.
  intros Hf. apply set_field_range; [lia..|]. change 0xFF with (Z.ones 8). rewrite Z.land_ones by lia.
  pose proof (Z.mod_pos_bound v (2 ^ 8) ltac:(lia)) as Hv.
  assert (0 ≤ Z.lor flags (v mod 2 ^ 8)) by (apply Z.lor_nonneg; lia). split; [done|].
  destruct (decide (Z.lor flags (v mod 2 ^ 8) = 0)) as [->|]; [lia|]. apply Z.log2_lt_pow2; [lia|]. rewrite Z.log2_lor by lia.
  apply Z.max_lub_lt.
  - destruct (decide (flags = 0)) as [->|]; [done|]. apply Z.log2_lt_pow2; lia.
  - destruct (decide (v mod 2 ^ 8 = 0)) as [->|]; [done|]. apply Z.log2_lt_pow2; lia.
Qed.

(** Any line of the controller is programmed, free or not, for destination 0. *)
Lemma set_irq32_run s irq v flags masked :
  io_apic_base_addr s ≠ 0 → 0 ≤ irq < 24 → 0 ≤ flags < 2 ^ 32 →
  set_irq32 irq v flags masked s = Done (tt, with_io (io_apic_base_addr s)
    (dev_write (0x10 + irq * 2 + 1) 0 (dev_write (0x10 + irq * 2) (irq_entry32 v flags masked) (x_idev s))) s).
Proof.
  intros Hb Hirq Hf. pose proof (irq_entry32_range v flags masked Hf) as He.
  unfold set_irq32. cbv zeta. fold (irq_entry32 v flags masked). rewrite w8_small by lia.
  unfold write_ioapic_redirect32. rewrite decide_False by lia.
  rewrite decide_False by (replace (16 + irq * 2) with ((8 + irq) * 2) by lia; rewrite Z.mod_mul; lia).
  change 0xFFFFFFFF with (Z.ones 32). rewrite Z.land_ones, Z.shiftr_div_pow2 by lia. cbv zeta.
  rewrite (Z.div_small (irq_entry32 _ _ _)), (Z.mod_small (irq_entry32 _ _ _)) by done.
  rewrite (w32_small (irq_entry32 _ _ _)), (w32_small 0), (w8_small (_ + 1)) by lia.
  by rewrite (bind_done _ _ _ _ _ (write_register32_run s _ _ Hb)), (write_register32_run (with_io _ _ s) _ _ Hb).
Qed.

(** The index of the register is a byte: line 128 is line 0. *)
Lemma set_irq32_wraps s v flags masked : set_irq32 128 v flags masked s = set_irq32 0 v flags masked s.
Proof. done. Qed.

Lemma on_mem32_read {A} (f : MEM A) s a : f (x_mem s) = Done (a, x_mem s) → on_mem32 f s = Done (a, s).
Proof. intros Hf. unfold on_mem32, zoom. rewrite Hf. by destruct s. Qed.

(** The address in an entry of an I/O controller, and the controller a table
    leads to: the first with an address. *)
Definition io_address (l : list Z) : Z := match l with _ :: _ :: a :: b :: c :: d :: _ => a + 256 * (b + 256 * (c + 256 * d)) | _ => 0 end.
Definition note_io (base : Z) (e : Z * list Z) : Z :=
  if decide (e.1 = IC_TYPE_IO_APIC) then if decide (base = 0) then io_address e.2 else base else base.

Lemma io_entry_run s header e :
  at_ (x_mem s) header (ic_bytes e) → ic_ok e →
  (if decide (e.1 = IC_TYPE_IO_APIC) then
     s ← get;
     if decide (io_apic_base_addr s = 0) then
       address ← on_mem32 (ld32 (header + 4));
       modify (λ s, with_io address (x_idev s) s)
     else mret tt
   else mret tt) s = Done (tt, with_io (note_io (io_apic_base_addr s) e) (x_idev s) s).
Proof.
  intros Ha (_ & _ & Hsz). destruct e as [ty l]. unfold note_io. cbn [fst snd] in *.
  assert (with_io (io_apic_base_addr s) (x_idev s) s = s) as Hid by (by destruct s).
  destruct (decide (ty = IC_TYPE_IO_APIC)) as [Hty|]; [|by rewrite Hid]. step. case_decide; [|by rewrite Hid].
  specialize (Hsz (or_intror Hty)). unfold ic_bytes in Ha. cbn [fst snd] in Ha.
  destruct l as [|a [|b [|f0 [|f1 [|f2 [|f3 r]]]]]]; cbn in Hsz; try lia.
  do 4 (apply at_cons in Ha as [_ Ha]). replace (header + 1 + 1 + 1 + 1) with (header + 4) in Ha by lia.
  apply at_cons in Ha as [H0 Ha]. apply at_cons in Ha as [H1 Ha]. apply at_cons in Ha as [H2 Ha]. apply at_cons in Ha as [H3 _].
  erewrite bind_done.
  2: { apply on_mem32_read. cbn [ldn]. repeat (first [rewrite (bind_done _ _ _ _ _ (ldb_run _ _ _ H0))|rewrite (bind_done _ _ _ _ _ (ldb_run _ _ _ H1))
    |rewrite (bind_done _ _ _ _ _ (ldb_run _ _ _ H2))|rewrite (bind_done _ _ _ _ _ (ldb_run _ _ _ H3))|step]). done. }
  cbn [io_address]. do 2 f_equal. by replace (f3 + 256 * 0) with f3 by lia.
Qed.

(** The walk over the table, below 4 GB, ends and notes the controller. *)
Lemma madt_loop32_run fuel s madt header es :
  at_ (x_mem s) header (es ≫= ic_bytes) → Forall ic_ok es → (length es ≤ fuel)%nat →
  let len := header - madt + Z.of_nat (length (es ≫= ic_bytes)) in
  at_ (x_mem s) (madt + sdt_length) (le_bytes 4 len) → 0 ≤ madt ≤ header → madt + len < 2 ^ 32 →
  madt_loop32 fuel madt header s = Done (tt, with_io (foldl note_io (io_apic_base_addr s) es) (x_idev s) s).
Proof.
  revert s header fuel. induction es as [|e es IH]; intros s header fuel Ha Hok Hf len Hlen Hm Hlb.
  all: assert (0 ≤ len < 256 ^ Z.of_nat 4) as Hlb' by (change (256 ^ Z.of_nat 4) with (2 ^ 32); lia).
  all: pose proof (ldn_run 4 _ _ _ Hlen Hlb') as Hld; clear Hlb'.
  all: assert (w32 (header - madt) = header - madt) as Hw by (apply w32_small; lia).
  { assert (¬ header - madt < len) as Hend by (unfold len; change (length ([] ≫= ic_bytes)) with 0%nat; lia).
    assert (with_io (io_apic_base_addr s) (x_idev s) s = s) as Hid by (by destruct s). cbn [foldl]. rewrite Hid.
    destruct fuel; cbn [madt_loop32]; rewrite (bind_done _ _ _ _ _ (on_mem32_read _ s _ Hld)), Hw;
      by rewrite decide_False by exact Hend. }
  destruct fuel as [|fuel]; cbn [length] in Hf; [lia|]. cbn [madt_loop32].
  rewrite (bind_done _ _ _ _ _ (on_mem32_read _ s _ Hld)), Hw.
  rewrite bind_cons, at_app in Ha. destruct Ha as [He Ha]. inversion Hok as [|? ? Hoke Hokes]; subst.
  assert (Z.of_nat (length (ic_bytes e)) = Z.of_nat (length e.2 + 2)) as Hle by (cbn; lia).
  unfold len in Hlen, Hlb. rewrite bind_cons, length_app, Nat2Z.inj_add, Hle in Hlen, Hlb.
  rewrite decide_True by (unfold len; rewrite bind_cons, length_app; lia).
  pose proof He as Hes. unfold ic_bytes in Hes. apply at_cons in Hes as [Hty Hes]. apply at_cons in Hes as [Hn _].
  rewrite (bind_done _ _ _ _ _ (on_mem32_read _ s _ (ldb_run _ _ _ Hty))).
  rewrite (bind_done _ _ _ _ _ (io_entry_run s header e He Hoke)).
  set (s1 := with_io _ _ s).
  rewrite (bind_done _ _ _ _ _ (on_mem32_read _ s1 _ (ldb_run _ _ _ Hn))).
  rewrite w32_small by lia. rewrite Hle in Ha.
  rewrite (IH s1 (header + Z.of_nat (length e.2 + 2)) fuel Ha Hokes); [done|lia| |lia|lia].
  replace (header + Z.of_nat (length e.2 + 2) - madt + Z.of_nat (length (es ≫= ic_bytes)))
    with (header - madt + (Z.of_nat (length e.2 + 2) + Z.of_nat (length (es ≫= ic_bytes)))) by lia. done.
Qed.

(** A table of the interrupt controllers at [madt]. *)
Record madt_at (m : mem) (madt : Z) (es : list (Z * list Z)) : Prop := {
  ma_pos : 0 < madt;
  ma_end : madt + 44 + Z.of_nat (length (es ≫= ic_bytes)) < 2 ^ 32;
  ma_len : at_ m (madt + sdt_length) (le_bytes 4 (44 + Z.of_nat (length (es ≫= ic_bytes))));
  ma_entries : at_ m (madt + madt_controllers32) (es ≫= ic_bytes);
  ma_ok : Forall ic_ok es;
}.

Lemma read_madt32_run s (find_apic_table : MEM Z) madt es :
  find_apic_table (x_mem s) = Done (madt, x_mem s) → madt_at (x_mem s) madt es →
  read_madt32 find_apic_table s = Done (0, with_io (foldl note_io (io_apic_base_addr s) es) (x_idev s) s).
Proof.
  intros Hft [Hp He Hl Hat Hok]. unfold read_madt32. rewrite (bind_done _ _ _ _ _ (on_mem32_read _ s _ Hft)).
  rewrite decide_False by lia. step.
  erewrite bind_done; [done|]. apply madt_loop32_run; try done.
  - etrans; [apply entries_length|]. by eapply at_length.
  - unfold madt_controllers32. by replace (madt + 44 - madt) with 44 by lia.
  - unfold madt_controllers32. lia.
  - unfold madt_controllers32. lia.
Qed.

(** [pre_main] returns with the keyboard connected: its line leads unmasked to
    vector 0x21, whose gate is the keyboard's stub; the exceptions have their
    stubs, the local controller is on, and interrupts are enabled. *)
Lemma pre_main_connects_keyboard (load_info : Z → Z → M (i386 V U Q F) unit) `{!IoApicLaws U} find_apic_table
    idt_addr vh0 vh21 vhff magic addr s s0 madt es eax ebx ecx edx :
  load_info magic addr s = Done (tt, s0) → length (x_idt s0) = 256%nat → io_apic_base_addr s0 = 0 →
  hw_cpuid 1 (x_ldev s0) = Some (eax, ebx, ecx, edx) → Z.land edx 0x100 ≠ 0 → Z.land ecx (Z.shiftl 1 21) ≠ 0 →
  find_apic_table (x_mem s0) = Done (madt, x_mem s0) → madt_at (x_mem s0) madt es → foldl note_io 0 es ≠ 0 →
  0 ≤ vh0 → vh0 + 512 ≤ 2 ^ 32 → 0 ≤ vh21 < 2 ^ 32 → 0 ≤ vhff < 2 ^ 32 →
  ∃ s', pre_main find_apic_table load_info idt_addr vh0 vh21 vhff magic addr s = Done (tt, s') ∧
    rd_vector (redirect (x_idev s') 1) = 0x21 ∧ rd_masked (redirect (x_idev s') 1) = 0 ∧ rd_destination (redirect (x_idev s') 1) = 0 ∧
    (∃ g, x_idt s' !! 0x21%nat = Some g ∧ gate_handler32 g = vh21 ∧ h_flags g = 0x8E) ∧
    (∃ g, x_idt s' !! 255%nat = Some g ∧ gate_handler32 g = vhff ∧ h_flags g = 0x8E) ∧
    (∀ j, (j < 32)%nat → ∃ g, x_idt s' !! j = Some g ∧ gate_handler32 g = vh0 + Z.of_nat j * 16 ∧ h_flags g = 0x8E) ∧
    x_idtr s' = mk_idtr 0x7FF idt_addr ∧ x_xapic2 s' = true ∧ io_apic_base_addr s' = foldl note_io 0 es ∧ x_IF s' = true.
Proof.
  intros H0 Hlen Hio Hcpu Hedx Hecx Hft Hma Hbase Hv0 Hv0' H21 Hff. unfold pre_main. rewrite (bind_done _ _ _ _ _ H0).
  destruct (load_idt32_run s0 idt_addr vh0) as (l & E1 & Hl & Hlow & Hhigh); [lia|lia|lia|]. rewrite (bind_done _ _ _ _ _ E1).
  set (s1 := with_idtr _ _).
  destruct (lookup_lt_is_Some_2 l 255%nat) as [g Hg]; [lia|].
  destruct (lookup_lt_is_Some_2 l 33%nat) as [g' Hg']; [lia|].
  erewrite bind_done; [|apply (enable_lapic32_run s1 vhff _ _ _ _ g Hcpu Hedx Hg); intros Hx; by rewrite bool_decide_eq_false in Hx].
  rewrite bool_decide_eq_true_2 by done. set (s2 := with_gates _ _).
  erewrite bind_done; [|apply (read_madt32_run s2 _ madt es); done].
  change (io_apic_base_addr s2) with (io_apic_base_addr s0). rewrite Hio. set (s3 := with_io _ _ s2).
  destruct (init_keyboard_done (x_con s3)) as (x & v & E3 & _).
  erewrite bind_done by (unfold on_con32, zoom; rewrite E3; done). set (s4 := with_con _ s3).
  erewrite bind_done; [|apply (set_gate32_run s4 IRQ_VECTOR_KEYBOARD32 vh21 g'); cbn; rewrite list_lookup_insert_ne by done; exact Hg'].
  set (s5 := with_gates _ s4).
  erewrite bind_done; [|apply set_irq32_run; [exact Hbase|done|done]].
  eexists. split; [done|]. cbn [x_idev x_idt x_idtr x_xapic2 io_apic_base_addr x_IF with_io with_gates s5 s4 s3 s2 s1 with_con with_lapic with_idtr].
  assert (redirect (dev_write (16 + IRQ_KEYBOARD * 2 + 1) 0
    (dev_write (16 + IRQ_KEYBOARD * 2) (irq_entry32 IRQ_VECTOR_KEYBOARD32 0 false) (x_idev s0))) 1 = 0x21) as Hr.
  { unfold redirect, IRQ_KEYBOARD. rewrite dev_read_other, !dev_read_write by (try done; lia). done. }
  change (x_idev s4) with (x_idev s0). rewrite Hr. change (Z.to_nat IRQ_VECTOR_KEYBOARD32) with 33%nat.
  change 0x21%nat with 33%nat.
  split_and!; try done.
  - eexists. rewrite list_lookup_insert_eq by (rewrite length_insert; lia). split_and!; [done|by apply gate_for32_handler|done].
  - eexists. rewrite list_lookup_insert_ne, list_lookup_insert_eq by lia. split_and!; [done|by apply gate_for32_handler|done].
  - intros j Hj. rewrite !list_lookup_insert_ne by lia. by apply Hlow.
Qed.
End port_runs.

(** ** An example *)

(** A processor with an x2APIC that keeps its registers. *)
#[local] Instance x2_dev : LapicDev (gmap Z Z) := {|
  hw_cpuid := λ _ _, Some (0, 0, 2 ^ 21, 0x300);
  hw_rdmsr := λ r d, default 0 (d !! r);
  hw_wrmsr := λ r v d, <[r := v]> d;
  hw_outb := λ _ _ d, d;
  hw_read := λ r d, (default 0 (d !! r), d);
  hw_write := λ r v d, <[r := v]> d;
|}.
Definition i386_mem : mem := bytes_at 0x3000 ([65; 80; 73; 67] ++ le_bytes 4 72 ++ replicate 36 0 ++ (madt_ics ≫= ic_bytes)) ∅.
Definition i386_start : i386 (gmap Z Z) (gmap Z Z) (list Z) Z :=
  mk_i386 (replicate 256 (mk_gate32 0 0 0 0 0)) (mk_idtr 0 0) false 0 ∅ 0 ∅ i386_mem kbd0 false.

(** The controller of the table is found at its address, 0xfec00000. *)
Definition no_info (_ _ : Z) : M (i386 (gmap Z Z) (gmap Z Z) (list Z) Z) unit := mret tt.
Definition the_table : MEM Z := mret 0x3000.
Example pre_main_example :
  ∃ s', pre_main the_table no_info 0x200000 0x100100 0x100310 0x1010f0 MULTIBOOT_BOOTLOADER_MAGIC 0x10000 i386_start = Done (tt, s') ∧
    io_apic_base_addr s' = 0xfec00000 ∧ rd_vector (redirect (x_idev s') 1) = 0x21 ∧ x_IF s' = true.
Proof.
  destruct (pre_main_connects_keyboard no_info the_table 0x200000 0x100100 0x100310 0x1010f0 MULTIBOOT_BOOTLOADER_MAGIC 0x10000
    i386_start i386_start 0x3000 madt_ics 0 0 (2 ^ 21) 0x300) as (s' & E & Hv & _ & _ & _ & _ & _ & _ & _ & Hb & Hi).
  1-7: reflexivity || (intros Hz; vm_compute in Hz; discriminate Hz).
  - split; [lia|by vm_compute|by apply at_check_true; vm_compute|by apply at_check_true; vm_compute|repeat constructor; cbn; lia].
  - by vm_compute.
  - lia.
  - lia.
  - lia.
  - lia.
  - exists s'. exact (conj E (conj Hb (conj Hv Hi))).
Qed.
